(* ===== verification/_CoqProject ===== *)
-Q . S2P
Prelude.v
Machine.v
Can.v
CanWrite.v
CanControl.v
I2c.v
Eeprom.v
EepromCache.v
Hardware.v
CanUser.v
SysArch.v
FlashHal.v
FlashDev.v
FlashIf.v
Crc.v
Reset.v
Cortex.v
Gpio.v
Clock.v
HalCore.v
Rcc.v
EthHal.v
EthDev.v
EthConfig.v
EthInit.v
EthStart.v
EthIrq.v
EthernetIf.v
EthRing.v
EthCopy.v
EthSend.v
EthRecv.v
EthThread.v
LwMem.v
LwHeap.v
Pbuf.v
PbufCopy.v
PbufChain.v
PbufAlloc.v
PbufData.v
PbufClone.v
PbufCoalesce.v
PbufShape.v
PbufRefs.v
PbufKeep.v
Chksum.v
ChksumChain.v
Timeouts.v
TimeoutsSpec.v
TimeoutsProps.v
Etharp.v
EtharpSpec.v
EtharpTable.v
EtharpLearn.v
EtharpFlow.v
EtharpInput.v
EtharpFrame.v
EtharpProps.v
Net.v
Tftp.v
Boot.v
