(* ===== verification/Prelude.v ===== *)
(** * A verified model of the router firmware

    The firmware of a CAN-FD to Ethernet router on an STM32F765, and the image
    updater that runs beside it.  Everything is translated from the C files under
    src/src, src/inc and src/lwip-2.1.2; the library proves of the translation what the parts
    promise each other and what the firmware promises its users.

    ** How the program is put together

    At reset [SystemInit] works out the core's frequency from the clock registers
    the bootloader has set.  main decides whether to jump into the application or
    to stay in the updater (src/src/main.c; the boot flag survives the reset in a
    backup register, src/src/reset.c).  The updater brings up lwIP on the
    Ethernet controller (ethernetif.c on stm32f7xx_hal_eth.c), answers a UDP
    message channel (udp_total.c) and runs a TFTP server (tftpserver.c) that backs
    the running image up, stores a new one block by block in flash (flash_if.c on
    the flash HAL), checks its CRC (backup.c on the CRC HAL) and restores the
    backup if it is wrong.  A watchdog reset during that restores the backup as
    well.  The application side has the CAN driver (can.c, can_user.c: an FPGA
    with six controllers behind the external bus, read by DMA), the EEPROM driver
    with a write cache (eeprom.c) and the board support (hardware.c).  lwIP sits
    on the kernel through sys_arch.c.

    ** The machine

    [Machine]: a C function is a program in a monad over a device, a trace of the
    register writes, and the C globals of the component.  The device is the class
    [Bus]: reads and writes of 32-bit registers (narrower ones in [Narrow]), the
    kernel's tick and its delay.  A program returns, leaves for good (a jump or a
    reset), meets undefined behaviour of C, or runs out of fuel in a polling loop;
    [wp] is total correctness: the program returns, and the state it returns in is
    as stated.  Words are integers with their wrap-around written out ([u8],
    [u16], [u32]); components embed their globals in those of their callers with
    [Has] and [call].  [Prelude] has the notations, the bit-level lemmas with
    their hint and rewrite databases, byte arrays and ranges.

    ** The files

    - [Can], [CanWrite], [CanControl]: can.c.  Identifier filters set and clear
      exactly the bits of their range; CAN_Write builds the record the FPGA
      expects, of the right size; after every read the other DMA stream is armed;
      CAN_Initialize sends its commands in order.
    - [CanUser]: can_user.c.  The timing presets, the six buses, the dispatch of
      received records with the restart after bus-off.
    - [I2c], [Eeprom], [EepromCache]: eeprom.c.  [I2c] is the documented behaviour
      of the I2C controller with a page-write memory behind it; reads and writes
      through the cache refine a plain array of bytes, and what was written
      survives a flush and a restart.
    - [Hardware]: hardware.c.  LEDs, power down, the jump to the bootloader with its
      parameter block.
    - [SysArch]: sys_arch.c.  Mailboxes refine bounded queues under the documented
      laws of the kernel's queues.
    - [FlashHal], [FlashDev], [FlashIf]: stm32f7xx_hal_flash.c and _flash_ex.c, the
      documented flash controller, flash_if.c and the erase routine of backup.c.
      Writing refines programming an array; erasing touches exactly its region.
    - [Crc]: stm32f7xx_hal_crc.c, _crc_ex.c and CAL_CRC of backup.c.  The image
      check computes the bit-serial CRC of the bytes of the image, and two images
      that differ inside one word do not pass with the same tag.
    - [Reset]: reset.c, the watchdog HAL and the reset flags.
    - [Cortex], [Gpio], [Clock]: stm32f7xx_hal_cortex.c with core_cm7.h,
      stm32f7xx_hal_gpio.c, and SystemInit with SystemCoreClockUpdate of
      system_router_pro_fd.c.  Priorities read back as they were set, the
      configuration of a port changes the selected pins only, the frequency is
      that of the clock tree.
    - [HalCore], [Rcc]: stm32f7xx_hal.c and stm32f7xx_hal_rcc.c.  The tick frequency
      that is set is the one that is read; HAL_RCC_OscConfig returns whatever the
      oscillators do; HAL_RCC_GetSysClockFreq computes the clock tree's frequency
      for the crystal its configuration header names.
    - [EthHal]: stm32f7xx_hal_eth.c and its callbacks in ethernetif.c.  [EthDev]: the
      registers and the management interface, whose PHY registers are read and
      written within its time limits; [EthConfig]: MAC and DMA are configured as
      documented; [EthInit]: on such a device HAL_ETH_Init returns whatever PHY is connected, and
      reports a link as negotiated when the PHY has one; [EthStart]: HAL_ETH_Init returns on
      any device at all, also one whose reset or management interface never ends, as long as the tick
      goes on, with the handle ready, in time-out or in error as documented; [EthIrq]: the interrupt
      handler acknowledges what it serves.
    - [EthernetIf]: ethernetif.c; [EthRing]: the memory shared with the controller,
      and the initial descriptor rings; [EthCopy]: copying between chains of
      packet buffers and rings; [EthSend], [EthRecv]: what is sent is the packet,
      what is received is the frame, and the descriptors go back to their owner;
      [EthThread]: a round of the receiving thread hands every stored frame to
      lwIP, in order.
    - [LwMem], [LwHeap], [Pbuf], [PbufCopy]: the memory of lwIP that the firmware
      shares with it, memp.c, mem.c and pbuf.c of lwip-2.1.2/src/core.  A state has
      the objects at their addresses and the bytes of payloads with what of them
      is allocated.  An element pool is a stack of its elements; the heap is a list
      of blocks that tile it, never hands out overlapping or foreign memory, always
      returns, and is whole again when everything was freed.  [PbufChain], [PbufAlloc]:
      a chain of packet buffers is a list; pbuf_free gives back exactly the buffers
      nobody refers to; pbuf_alloc returns a packet of the length asked for or
      NULL with nothing lost.  [PbufData], [PbufClone], [PbufCoalesce], [PbufShape]: the
      bytes of a chain are one list, whatever buffers they lie in, of which copies out
      and in are slices; pbuf_memfind finds the first occurrence; pbuf_copy and
      pbuf_coalesce keep the bytes; headers, joining and shortening change the list
      as documented.  [PbufRefs], [PbufKeep]: in every run of a program that allocates,
      refers to, clones and frees packets the count of a buffer is the number of its
      users, no packet in use is touched by what happens to others, and memory is
      whole again at the end.
    - [Chksum], [ChksumChain]: inet_chksum.c.  The three versions of the checksum loop
      compute the ones' complement sum of the bytes at any alignment; over a packet it is
      the sum of its bytes, whatever buffers they lie in, alone and behind the pseudo
      header; a header verifies exactly while no single byte of it changes.
    - [Timeouts], [TimeoutsSpec], [TimeoutsProps]: timeouts.c on the element pools and on
      sys_now.  The list of timeouts is in the order of its deadlines, also where times
      wrap at 2^32; timers that are over are called in that order and armed again, that of TCP
      only while connections need it; the pool is large enough and no timer is lost.  sys_now wraps earlier, after
      ten days, and then none of them is called again.
    - [Etharp]: etharp.c and netif/ethernet.c: the table of addresses, packets that wait
      for one, requests, replies, received frames.  [EtharpSpec]: the search of the table,
      frames and the packets of ARP; [EtharpTable]: the invariant of the table, recycling and
      ageing; [EtharpLearn]: time, and the packet that is sent when its address becomes
      known; [EtharpFlow]: the way of a packet that is sent; [EtharpInput], [EtharpFrame]:
      received packets of ARP and the frames around them; [EtharpProps]: in every run the
      references to waiting packets are counted and no two entries are for one address,
      entries end after 300 periods or 5, the entry that is given up is the documented one,
      a packet takes the route of its address, its hop is asked for and requests are answered
      unless the heap has no free block for the packet of ARP, and a packet that waits reaches its
      hop when the reply comes.
    - [Net], [Tftp], [Boot]: udp_total.c, tftpserver.c, main.c.  A transfer stores
      the file's bytes in flash and acknowledges every block; the last packet
      of a file of less than 1000 bytes leads to the reset, with the backup restored if the CRC of the
      image is wrong; with 1000 bytes or more the message about it overflows its buffer; the recovery after a watchdog
      reset restores the image; the decision at reset; a round of the primary
      thread terminates.

    ** What is a parameter, and what is assumed of it

    Hardware is never made up in a definition: it is the device behind the bus, and
    where a theorem depends on its behaviour a class states what the reference
    manual documents ([I2cEeprom], [FlashDev], [CrcDev], [Clocked], [RegFile],
    [EthMem], [EthDev] with [EthProgress], [EthIrq]; [EthClock] asks only that time goes on).  Two of them
    are idealised: no operation of [FlashDev] ends with an error flag, and in [EthDev] the register
    DMASR is plain memory and every operation of the management interface ends, so that what
    HAL_ETH_Init does when one does not is proved in [EthStart], without that class.  The RTX kernel is the class [Rtos]
    with [RtosLaws], lwIP is [Lwip] with [LwipDev], and [NetStack] with
    [PoolLaws] and [StackLaws]; [Kernel] and [NetSetup] are what main calls of both.  Where
    the linker puts lwIP's pools and heap is [Pools], with [PoolsApart] and [LwLayout]; the timer
    functions of its protocols are [StackTimers] (opaque, and away from the list of timeouts), and [StackClock] says that the kernel's counter
    goes forward.  What ARP calls below and beside it, the driver's linkoutput, which gets the
    bytes of the frame, and dhcp_decline, is [EthLink]; ip4_input is an argument of ethernet_input, and
    the theorems about received frames are about those that do not reach it.  Each such
    class has an instance that computes, on which the witnesses run the theorems
    at concrete inputs.

    ** Fuel

    Loops that poll a device take fuel.  The theorems ask for as much as the class
    of the device bounds the polling by, and prove that it is enough; where a
    timeout of the code bounds the loop, the bound follows from the tick.  Counting
    loops ([for_each]) need none.  Walks of a chain of packet buffers take as much as
    the chain has buffers, or 256 ([PBUF_FUEL]): a chain has at most as many buffers as the pools
    and the heap hold; those of the heap take 256: its blocks have at least 20 bytes
    of its 4096.  sys_check_timeouts takes eleven rounds at most: each of the five timers
    is over at most twice.

    ** What is not modelled

    lwIP and RTX are vendored and are parameters, but for lwIP's memory, checksums, timers, ARP and
    Ethernet: its other protocols, interfaces and sequential API are not modelled, pbuf_free_ooseq, which walks the TCP
    connections, neither.  LWIP_ASSERT, debug output and statistics have no definitions.
    Locks around short updates (SYS_ARCH_PROTECT, the heap's
    mutex) have no effect on the state.  The start-up code, the vector
    table and the register definitions of the vendor are not code of the program;
    the addresses it uses are definitions of the components that use them.  A
    controller's DMA is at rest while a driver
    function runs, and an interrupt handler runs as a whole between two operations
    of the code it interrupts; interleavings inside a function are not modelled.
    Alignment and the memory model of C are not modelled beyond what the byte and
    word operations of a class state. *)
From stdpp Require Export prelude list numbers.
From Stdlib Require Export ZArith Lia.

#[global] Open Scope Z_scope.
#[export] Set Default Goal Selector "!".

(** * Machine integers

    An unsigned integer of the source is a [Z]; the wrap-around of a [w]-bit
    variable is written out with the three truncations below. *)

Definition u8 (x : Z) : Z := x mod 2 ^ 8.
Definition u16 (x : Z) : Z := x mod 2 ^ 16.
Definition u32 (x : Z) : Z := x mod 2 ^ 32.

(** One's complement of a 32-bit word, the [~] of the source. *)
Definition not32 (x : Z) : Z := Z.lxor (u32 x) 0xFFFFFFFF.

(** [bits x lo n]: the [n]-bit field of [x] that starts at bit [lo]. *)
Definition bits (x lo n : Z) : Z := Z.land (Z.shiftr x lo) (Z.ones n).

(** A word with some bit of [mask] set, the [if ( x & mask)] of the source. *)
Definition any_bit (x mask : Z) : bool := negb (Z.land x mask =? 0).

Declare Scope fw_scope.
Delimit Scope fw_scope with fw.

Notation "x .& y" := (Z.land x y) (at level 40, left associativity) : fw_scope.
Notation "x .| y" := (Z.lor x y) (at level 50, left associativity) : fw_scope.
Notation "x .<< y" := (Z.shiftl x y) (at level 40, left associativity) : fw_scope.
Notation "x .>> y" := (Z.shiftr x y) (at level 40, left associativity) : fw_scope.

Create HintDb fw_arith.
Create Rewrite HintDb fw_bits.

Section width.
Implicit Types x y i n : Z.

Lemma u8_range x : 0 <= u8 x < 256.
Proof. apply Z.mod_pos_bound. reflexivity. Qed.

Lemma u16_range x : 0 <= u16 x < 65536.
Proof. apply Z.mod_pos_bound. reflexivity. Qed.

Lemma u32_range x : 0 <= u32 x < 4294967296.
Proof. apply Z.mod_pos_bound. reflexivity. Qed.

Lemma u8_small x : 0 <= x < 256 -> u8 x = x.
Proof. intros. unfold u8. by apply Z.mod_small. Qed.

Lemma u16_small x : 0 <= x < 65536 -> u16 x = x.
Proof. intros. unfold u16. by apply Z.mod_small. Qed.

Lemma u32_small x : 0 <= x < 4294967296 -> u32 x = x.
Proof. intros. unfold u32. by apply Z.mod_small. Qed.

Lemma u32_idemp x : u32 (u32 x) = u32 x.
Proof. apply u32_small, u32_range. Qed.

Lemma u32_testbit x i : 0 <= i < 32 -> Z.testbit (u32 x) i = Z.testbit x i.
Proof. intros. unfold u32. by rewrite Z.mod_pow2_bits_low by lia. Qed.

Lemma u32_testbit_high x i : 32 <= i -> Z.testbit (u32 x) i = false.
Proof. intros. unfold u32. by rewrite Z.mod_pow2_bits_high by lia. Qed.

Lemma testbit_above n x i : 0 <= x < 2 ^ n -> 0 <= n <= i -> Z.testbit x i = false.
Proof.
  intros Hx Hi. rewrite <- (Z.mod_small x (2 ^ n)) by done.
  apply Z.mod_pow2_bits_high. lia.
Qed.

Lemma lt_pow2_bits n x :
  0 <= n -> (forall i, n <= i -> Z.testbit x i = false) -> 0 <= x < 2 ^ n.
Proof.
  intros Hn Hb. assert (x = x mod 2 ^ n) as ->; [|apply Z.mod_pos_bound; lia].
  apply Z.bits_inj'. intros i Hi. destruct (Z.lt_ge_cases i n).
  - by rewrite Z.mod_pow2_bits_low by lia.
  - rewrite Z.mod_pow2_bits_high by lia. by apply Hb.
Qed.

Lemma land_lt_pow2 n x y : 0 <= n -> 0 <= x < 2 ^ n -> 0 <= Z.land x y < 2 ^ n.
Proof.
  intros Hn Hx. apply lt_pow2_bits; [done|]. intros i Hi.
  by rewrite Z.land_spec, (testbit_above n x) by lia.
Qed.

Lemma lor_lt_pow2 n x y :
  0 <= n -> 0 <= x < 2 ^ n -> 0 <= y < 2 ^ n -> 0 <= Z.lor x y < 2 ^ n.
Proof.
  intros Hn Hx Hy. apply lt_pow2_bits; [done|]. intros i Hi.
  by rewrite Z.lor_spec, (testbit_above n x), (testbit_above n y) by lia.
Qed.

(** Two words below [2^n] are equal when their low [n] bits are. *)
Lemma bits_ext n x y :
  0 <= n -> 0 <= x < 2 ^ n -> 0 <= y < 2 ^ n ->
  (forall i, 0 <= i < n -> Z.testbit x i = Z.testbit y i) -> x = y.
Proof.
  intros Hn Hx Hy Heq. apply Z.bits_inj'. intros i Hi.
  destruct (Z.lt_ge_cases i n); [apply Heq; lia|].
  by rewrite !(testbit_above n) by lia.
Qed.

Lemma bits_alt x lo n : 0 <= lo -> 0 <= n -> bits x lo n = (x / 2 ^ lo) mod 2 ^ n.
Proof.
  intros. unfold bits. by rewrite Z.land_ones, Z.shiftr_div_pow2 by lia.
Qed.

Lemma bits_range x lo n : 0 <= lo -> 0 <= n -> 0 <= bits x lo n < 2 ^ n.
Proof. intros. rewrite bits_alt by lia. apply Z.mod_pos_bound. lia. Qed.

Lemma bits_testbit x lo n i :
  0 <= lo -> 0 <= n -> 0 <= i ->
  Z.testbit (bits x lo n) i = Z.testbit x (i + lo) && bool_decide (i < n).
Proof.
  intros. unfold bits. rewrite Z.land_spec, Z.shiftr_spec by lia.
  case_bool_decide.
  - by rewrite Z.ones_spec_low by lia.
  - by rewrite Z.ones_spec_high by lia.
Qed.

(** A field selected by its mask. *)
Lemma land_field x lo n : 0 <= lo -> 0 <= n -> Z.shiftr (Z.land x (Z.shiftl (Z.ones n) lo)) lo = bits x lo n.
Proof.
  intros Hlo Hn. apply Z.bits_inj'. intros i Hi. unfold bits.
  rewrite Z.shiftr_spec, !Z.land_spec, Z.shiftr_spec, Z.shiftl_spec by lia.
  by rewrite Z.add_simpl_r.
Qed.

Lemma land_shiftl_low x n c : 0 <= n -> 0 <= c < 2 ^ n -> Z.land (Z.shiftl x n) c = 0.
Proof.
  intros Hn Hc. apply Z.bits_inj'. intros i Hi. rewrite Z.land_spec, Z.bits_0.
  destruct (Z.lt_ge_cases i n).
  - by rewrite Z.shiftl_spec, Z.testbit_neg_r by lia.
  - by rewrite (testbit_above n c), andb_false_r by lia.
Qed.

(** Placing a field below another one is addition. *)
Lemma lor_shiftl_add x n c :
  0 <= n -> 0 <= c < 2 ^ n -> Z.lor (Z.shiftl x n) c = x * 2 ^ n + c.
Proof.
  intros Hn Hc. pose proof (land_shiftl_low x n c Hn Hc) as Hz.
  by rewrite <- Z.lxor_lor, <- Z.add_nocarry_lxor, Z.shiftl_mul_pow2 by done.
Qed.

Lemma not32_testbit x i : 0 <= i < 32 -> Z.testbit (not32 x) i = negb (Z.testbit x i).
Proof.
  intros. unfold not32. rewrite Z.lxor_spec, u32_testbit by lia.
  change 0xFFFFFFFF with (Z.ones 32). rewrite Z.ones_spec_low by lia.
  by destruct (Z.testbit x i).
Qed.

Lemma any_bit_pow2 x n : 0 <= n -> any_bit x (2 ^ n) = Z.testbit x n.
Proof.
  intros Hn. unfold any_bit. destruct (Z.testbit x n) eqn:E.
  - apply negb_true_iff, Z.eqb_neq. intros H0.
    assert (Z.testbit (Z.land x (2 ^ n)) n = false) as Hb by by rewrite H0, Z.bits_0.
    by rewrite Z.land_spec, E, Z.pow2_bits_true in Hb by lia.
  - apply negb_false_iff, Z.eqb_eq, Z.bits_inj'. intros i Hi.
    rewrite Z.land_spec, Z.bits_0. destruct (decide (i = n)) as [->|].
    + by rewrite E.
    + by rewrite Z.pow2_bits_false, andb_false_r by lia.
Qed.
End width.

#[export] Hint Resolve u8_range u16_range u32_range : fw_arith.
#[export] Hint Rewrite u32_idemp : fw_bits.
#[export] Hint Rewrite Z.land_spec Z.lor_spec Z.lxor_spec Z.ldiff_spec Z.bits_0 : fw_bits.
#[export] Hint Rewrite Z.shiftl_spec Z.shiftr_spec u32_testbit not32_testbit using lia : fw_bits.

(** * Lists indexed by [Z], the arrays of the source *)

Section arrays.
Context {A : Type}.
Implicit Types l : list A.

Definition aget l (i : Z) : option A :=
  if i <? 0 then None else l !! Z.to_nat i.

Definition aset l (i : Z) (x : A) : list A :=
  if i <? 0 then l else <[Z.to_nat i := x]> l.

Lemma aset_length l i x : length (aset l i x) = length l.
Proof. unfold aset. destruct (i <? 0); by rewrite ?length_insert. Qed.

Lemma aget_Some l i x : aget l i = Some x -> 0 <= i < Z.of_nat (length l).
Proof.
  unfold aget. destruct (Z.ltb_spec i 0); [done|].
  intros ?%lookup_lt_Some. lia.
Qed.

Lemma aget_is_Some l i : 0 <= i < Z.of_nat (length l) -> is_Some (aget l i).
Proof.
  intros. unfold aget. destruct (Z.ltb_spec i 0); [lia|].
  apply lookup_lt_is_Some. lia.
Qed.

Lemma aget_aset_eq l i x : 0 <= i < Z.of_nat (length l) -> aget (aset l i x) i = Some x.
Proof.
  intros. unfold aget, aset. destruct (Z.ltb_spec i 0); [lia|].
  apply list_lookup_insert_eq. lia.
Qed.

Lemma aget_aset_ne l i j x : i <> j -> aget (aset l i x) j = aget l j.
Proof.
  intros. unfold aget, aset. destruct (Z.ltb_spec i 0), (Z.ltb_spec j 0); try done.
  apply list_lookup_insert_ne. lia.
Qed.

Lemma aset_out l i x : Z.of_nat (length l) <= i -> aset l i x = l.
Proof.
  intros. unfold aset. destruct (Z.ltb_spec i 0); [done|]. apply list_insert_ge. lia.
Qed.
End arrays.

(** [zrange lo n] is [lo, lo+1, ..., lo+n-1], the values of a counting loop. *)
Definition zrange (lo : Z) (n : nat) : list Z := seqZ lo (Z.of_nat n).

Lemma zrange_S lo n : zrange lo (S n) = lo :: zrange (lo + 1) n.
Proof.
  unfold zrange. rewrite seqZ_cons by lia. f_equal. f_equal; lia.
Qed.

Lemma zrange_snoc lo n : zrange lo (S n) = zrange lo n ++ [lo + Z.of_nat n].
Proof. unfold zrange. apply seqZ_S. Qed.

Lemma elem_of_zrange lo n k : k ∈ zrange lo n <-> lo <= k < lo + Z.of_nat n.
Proof. unfold zrange. apply elem_of_seqZ. Qed.

(** Case analysis on a bounded integer: it is enough to check its values. *)
Lemma zrange_cases (P : Z -> Prop) lo n d :
  lo <= d < lo + Z.of_nat n -> Forall P (zrange lo n) -> P d.
Proof. intros Hd HP. rewrite Forall_forall in HP. by apply HP, list_elem_of_In, elem_of_zrange. Qed.

(** * Memories

    A memory maps addresses to values; [upd] stores one value. *)
Definition upd (mem : Z -> Z) (a v : Z) (x : Z) : Z := if x =? a then v else mem x.

Lemma upd_eq mem a v : upd mem a v a = v.
Proof. unfold upd. by rewrite Z.eqb_refl. Qed.

Lemma upd_ne mem a v x : x <> a -> upd mem a v x = mem x.
Proof. intros H. unfold upd. by destruct (Z.eqb_spec x a). Qed.

(** ** Registers made of [n] fields of [w] bits *)

(** Replace field [i] of [r]. *)
Definition put_bits (r w i v : Z) : Z :=
  Z.lor (Z.land r (not32 (Z.shiftl (Z.ones w) (w * i)))) (u32 (Z.shiftl v (w * i))).

Lemma put_bits_get r w i v j :
  0 < w -> 0 <= i -> 0 <= j -> w * i + w <= 32 -> w * j + w <= 32 -> 0 <= v < 2 ^ w ->
  bits (u32 (put_bits (u32 r) w i v)) (w * j) w = if j =? i then v else bits r (w * j) w.
Proof.
  intros Hw Hi Hj Hwi Hwj Hv. apply (bits_ext w); [lia|apply bits_range; lia|..].
  { destruct (j =? i); [done|apply bits_range; lia]. }
  intros k Hk. unfold put_bits.
  rewrite bits_testbit, bool_decide_true, andb_true_r by lia.
  assert (0 <= w * j) as Hj0 by nia. autorewrite with fw_bits. destruct (Z.eqb_spec j i) as [->|Hne].
  - replace (k + w * i - w * i) with k by lia.
    rewrite Z.ones_spec_low by lia. by rewrite andb_false_r.
  - rewrite bits_testbit, bool_decide_true, andb_true_r by lia.
    assert (k + w * j - w * i < 0 \/ w <= k + w * j - w * i) as [Hd|Hd].
    { destruct (Z.lt_ge_cases i j); nia. }
    + rewrite (Z.testbit_neg_r (Z.ones w)), (Z.testbit_neg_r v) by lia.
      by rewrite andb_true_r, orb_false_r.
    + rewrite Z.ones_spec_high, (testbit_above w v) by lia. by rewrite andb_true_r, orb_false_r.
Qed.

(** * Tactics shared by the components *)

(** Split the boolean comparisons of a goal or hypothesis and finish with arithmetic. *)
Ltac zbool :=
  repeat match goal with
  | H : (_ && _)%bool = true |- _ => apply andb_true_iff in H; destruct H
  | H : (_ || _)%bool = false |- _ => apply orb_false_iff in H; destruct H
  | H : negb _ = true |- _ => apply negb_true_iff in H
  | H : negb _ = false |- _ => apply negb_false_iff in H
  | H : (_ <? _) = true |- _ => apply Z.ltb_lt in H
  | H : (_ <? _) = false |- _ => apply Z.ltb_ge in H
  | H : (_ <=? _) = true |- _ => apply Z.leb_le in H
  | H : (_ <=? _) = false |- _ => apply Z.leb_gt in H
  | H : (_ =? _) = true |- _ => apply Z.eqb_eq in H
  | H : (_ =? _) = false |- _ => apply Z.eqb_neq in H
  end.

(** Case split on the first boolean comparison found in the goal. *)
Ltac zcase :=
  match goal with
  | |- context [?a <? ?b] => destruct (Z.ltb_spec a b)
  | |- context [?a <=? ?b] => destruct (Z.leb_spec a b)
  | |- context [?a =? ?b] => destruct (Z.eqb_spec a b)
  end.

(** [lia] with division and modulo by constants. *)
Ltac zlia := Z.div_mod_to_equations'; lia.

(** Replace [d], known to lie in [0 .. n-1], by each of its values. *)
Ltac zenum d n :=
  pattern d; apply (zrange_cases _ 0 n); [lia|];
  let l := eval vm_compute in (zrange 0 n) in
  change (zrange 0 n) with l;
  repeat apply Forall_cons_2; try apply Forall_nil_2; cbv beta.
