(* ===== verification/Machine.v ===== *)
(** The machine the firmware runs on: memory-mapped registers of a device that
    is a parameter, a trace of the register writes, the globals of a component,
    and the state-and-outcome monad in which every C function is written.
    A total-correctness predicate [wp] with its rules, among them the rule for
    a bounded polling loop, is what the proofs of the components use. *)
From S2P Require Import Prelude.

(** * The environment

    [hw] is everything outside the C program: the registers of the STM32F765
    and of the FPGA, flash, RAM reached by DMA, and time.  [mmio_rd] may change it
    (reading a status register lets time pass).  [ktick] is
    [osKernelGetTickCount] and [os_delay] is [osDelay] of the RTX library. *)
Class Bus := {
  hw : Type;
  mmio_rd : Z -> hw -> Z * hw;
  mmio_wr : Z -> Z -> hw -> hw;
  ktick : hw -> Z * hw;
  os_delay : Z -> hw -> hw;
}.

(** A machine state: the device, the trace of register writes (oldest first),
    and the C globals [G] of the component. *)
Record mach {B : Bus} (G : Type) := Mach {
  dev : hw;
  wlog : list (Z * Z);
  glb : G;
}.
Arguments Mach {B G} _ _ _.
Arguments dev {B G} _.
Arguments wlog {B G} _.
Arguments glb {B G} _.

(** * Outcomes

    A C function returns, leaves for good (reset, jump to another image), runs
    into undefined behaviour, or is still polling when its budget is used up. *)
Inductive outcome (S A : Type) :=
| Ret (a : A) (s : S)
| Halt (s : S)
| Undef (s : S)
| Spin (s : S).
Arguments Ret {S A} _ _.
Arguments Halt {S A} _.
Arguments Undef {S A} _.
Arguments Spin {S A} _.

Definition M (S A : Type) : Type := S -> outcome S A.

Section monad.
Context {S : Type}.

Definition ret {A} (a : A) : M S A := fun s => Ret a s.

Definition bind {A C} (m : M S A) (k : A -> M S C) : M S C := fun s =>
  match m s with
  | Ret a s' => k a s'
  | Halt s' => Halt s'
  | Undef s' => Undef s'
  | Spin s' => Spin s'
  end.

Definition halt {A} : M S A := fun s => Halt s.
Definition undef {A} : M S A := fun s => Undef s.
Definition spin {A} : M S A := fun s => Spin s.

(** A construct that is undefined unless [b] holds. *)
Definition defined_if (b : bool) : M S unit := if b then ret tt else undef.

(** An access to an object: undefined when it is out of range. *)
Definition deref {A} (o : option A) : M S A :=
  match o with Some a => ret a | None => undef end.

(** [while (cond) body], with at most [fuel] evaluations of [cond]. *)
Fixpoint while_ (fuel : nat) (cond : M S bool) (body : M S unit) : M S unit :=
  match fuel with
  | O => spin
  | Datatypes.S n =>
      bind cond (fun b => if b then bind body (fun _ => while_ n cond body) else ret tt)
  end.

(** [do body while (cond)]. *)
Definition do_while (fuel : nat) (body : M S unit) (cond : M S bool) : M S unit :=
  bind body (fun _ => while_ fuel cond body).

(** [for x in l: body x]. *)
Fixpoint for_each {A} (l : list A) (body : A -> M S unit) : M S unit :=
  match l with
  | [] => ret tt
  | x :: l' => bind (body x) (fun _ => for_each l' body)
  end.

(** A counting loop whose body may return from the function early ([Some r]). *)
Fixpoint for_ret {A R} (l : list A) (body : A -> M S (option R)) : M S (option R) :=
  match l with
  | [] => ret None
  | x :: l' =>
      bind (body x) (fun o => match o with Some r => ret (Some r) | None => for_ret l' body end)
  end.
End monad.

Notation "x <- m ;; k" := (bind m (fun x => k))
  (at level 100, m at next level, right associativity) : fw_scope.
Notation "m ;; k" := (bind m (fun _ => k))
  (at level 100, right associativity) : fw_scope.

(** * Primitive operations of the machine *)

Section ops.
Context {B : Bus} {G : Type}.

Definition rd (a : Z) : M (mach G) Z := fun s =>
  let p := mmio_rd a (dev s) in Ret (u32 (fst p)) (Mach (snd p) (wlog s) (glb s)).

Definition wr (a v : Z) : M (mach G) unit := fun s =>
  Ret tt (Mach (mmio_wr a (u32 v) (dev s)) (wlog s ++ [(a, u32 v)]) (glb s)).

(** [reg op= v]: one read and one write. *)
Definition rmw (a : Z) (f : Z -> Z) : M (mach G) unit :=
  bind (rd a) (fun v => wr a (f v)).

(** [reg |= m], [reg &= m] and [MODIFY_REG]. *)
Definition set_bits (a m : Z) : M (mach G) unit := rmw a (fun v => Z.lor v m).
Definition keep_bits (a m : Z) : M (mach G) unit := rmw a (fun v => Z.land v m).
Definition modify_reg (a clear set : Z) : M (mach G) unit :=
  rmw a (fun v => Z.lor (Z.land v (not32 clear)) set).

Definition get_ : M (mach G) G := fun s => Ret (glb s) s.
Definition put_ (g : G) : M (mach G) unit := fun s => Ret tt (Mach (dev s) (wlog s) g).
Definition modify_ (f : G -> G) : M (mach G) unit := fun s =>
  Ret tt (Mach (dev s) (wlog s) (f (glb s))).

Definition tick_count : M (mach G) Z := fun s =>
  let p := ktick (dev s) in Ret (u32 (fst p)) (Mach (snd p) (wlog s) (glb s)).
Definition delay_ (n : Z) : M (mach G) unit := fun s =>
  Ret tt (Mach (os_delay n (dev s)) (wlog s) (glb s)).
End ops.

(** Accesses narrower than a word. *)
Class Narrow (B : Bus) := {
  mmio_rd8 : Z -> hw -> Z * hw;
  mmio_wr8 : Z -> Z -> hw -> hw;
  mmio_wr16 : Z -> Z -> hw -> hw;
}.

Section narrow.
Context {B : Bus} {N : Narrow B}.
Definition rd8 {G} (a : Z) : M (mach G) Z := fun s =>
  let p := mmio_rd8 a (dev s) in Ret (u8 (fst p)) (Mach (snd p) (wlog s) (glb s)).
Definition wr8 {G} (a v : Z) : M (mach G) unit := fun s =>
  Ret tt (Mach (mmio_wr8 a (u8 v) (dev s)) (wlog s ++ [(a, u8 v)]) (glb s)).
Definition wr16 {G} (a v : Z) : M (mach G) unit := fun s =>
  Ret tt (Mach (mmio_wr16 a (u16 v) (dev s)) (wlog s ++ [(a, u16 v)]) (glb s)).
End narrow.

(** Run a component inside a larger program whose globals contain its own. *)
Definition zoom {B : Bus} {G H A} (getH : G -> H) (setH : H -> G -> G)
    (m : M (mach H) A) : M (mach G) A := fun s =>
  let back t := Mach (dev t) (wlog t) (setH (glb t) (glb s)) in
  match m (Mach (dev s) (wlog s) (getH (glb s))) with
  | Ret a t => Ret a (back t)
  | Halt t => Halt (back t)
  | Undef t => Undef (back t)
  | Spin t => Spin (back t)
  end.

(** A program whose globals [G] contain the globals [H] of a component. *)
Class Has (G H : Type) := {
  part : G -> H;
  with_part : H -> G -> G;
  part_with h g : part (with_part h g) = h;
  with_same g : with_part (part g) g = g;
}.

(** Call an operation of a component from a larger program. *)
Definition call {B : Bus} {G H} {I : Has G H} {A} (m : M (mach H) A) : M (mach G) A :=
  zoom part with_part m.

#[export] Instance has_self G : Has G G := {|
  part g := g; with_part h _ := h; part_with h g := eq_refl; with_same g := eq_refl;
|}.

(** What code that is not modelled does to what is outside, and what it finds there. *)
Definition outside {B : Bus} {G} (f : hw -> hw) : M (mach G) unit := fun s => Ret tt (Mach (f (dev s)) (wlog s) (glb s)).
Definition asks {B : Bus} {G A} (f : hw -> A) : M (mach G) A := fun s => Ret (f (dev s)) s.

(** * Total correctness *)

(** [wp m s Q]: from [s], [m] returns, and what it returns satisfies [Q]. *)
Definition wp {S A} (m : M S A) (s : S) (Q : A -> S -> Prop) : Prop :=
  match m s with Ret a s' => Q a s' | _ => False end.

(** [wp_halt m s Q]: from [s], [m] leaves for good, in a state that satisfies [Q]. *)
Definition wp_halt {S A} (m : M S A) (s : S) (Q : S -> Prop) : Prop :=
  match m s with Halt s' => Q s' | _ => False end.

(** [wp_undef m s]: from [s], [m] runs into undefined behaviour. *)
Definition wp_undef {S A} (m : M S A) (s : S) : Prop :=
  match m s with Undef _ => True | _ => False end.

Lemma wp_undef_bind {S A C} (m : M S A) (k : A -> M S C) (s : S) :
  wp m s (fun a s' => wp_undef (k a) s') -> wp_undef (bind m k) s.
Proof. unfold wp, wp_undef, bind. by destruct (m s). Qed.

(** What [bind] does, for any predicate on outcomes. *)
Lemma outcome_bind {S A C} (O : outcome S C -> Prop) (m : M S A) (k : A -> M S C) (s : S) :
  wp m s (fun a s' => O (k a s')) -> O (bind m k s).
Proof. unfold wp, bind. by destruct (m s). Qed.

Lemma wp_halt_mono {S A} (m : M S A) (s : S) (Q Q' : S -> Prop) :
  wp_halt m s Q -> (forall s', Q s' -> Q' s') -> wp_halt m s Q'.
Proof. unfold wp_halt. destruct (m s); auto. Qed.

Lemma wp_halt_bind {S A C} (m : M S A) (k : A -> M S C) (s : S) (Q : S -> Prop) :
  wp m s (fun a s' => wp_halt (k a) s' Q) -> wp_halt (bind m k) s Q.
Proof. unfold wp, wp_halt, bind. by destruct (m s). Qed.

(** The state reached by a run, whatever the outcome. *)
Definition final {S A} (o : outcome S A) : S :=
  match o with Ret _ s | Halt s | Undef s | Spin s => s end.

Section wp_rules.
Context {S : Type}.
Implicit Types s : S.

Lemma wp_ret {A} (a : A) s (Q : A -> S -> Prop) : wp (ret a) s Q <-> Q a s.
Proof. done. Qed.

Lemma wp_bind {A C} (m : M S A) (k : A -> M S C) s (Q : C -> S -> Prop) :
  wp (bind m k) s Q <-> wp m s (fun a s' => wp (k a) s' Q).
Proof. unfold wp, bind. by destruct (m s). Qed.

(** The same, with the run of the first part at hand. *)
Lemma wp_step_eq {A C} (m : M S A) (k : A -> M S C) s (Q : C -> S -> Prop) :
  wp m s (fun a s' => m s = Ret a s' -> wp (k a) s' Q) -> wp (bind m k) s Q.
Proof. unfold wp, bind. destruct (m s) as [a s1| | |]; [|done..]. intros H. by apply H. Qed.

(** One direction, for goals with large programs. *)
Lemma wp_step {A C} (m : M S A) (k : A -> M S C) s (Q : C -> S -> Prop) :
  wp m s (fun a s' => wp (k a) s' Q) -> wp (bind m k) s Q.
Proof. by rewrite wp_bind. Qed.

Lemma wp_assoc {A C E} (m : M S A) (k : A -> M S C) (f : C -> M S E) s (Q : E -> S -> Prop) :
  wp (bind (bind m k) f) s Q <-> wp (bind m (fun a => bind (k a) f)) s Q.
Proof. unfold wp, bind. by destruct (m s). Qed.

Lemma wp_mono {A} (m : M S A) s (Q Q' : A -> S -> Prop) :
  wp m s Q -> (forall a s', Q a s' -> Q' a s') -> wp m s Q'.
Proof. unfold wp. destruct (m s); eauto. Qed.

Lemma wp_Ret {A} (m : M S A) s Q :
  wp m s Q <-> exists a s', m s = Ret a s' /\ Q a s'.
Proof.
  unfold wp. destruct (m s) as [a s'| | |]; split;
    try done; try (by intros (? & ? & ? & _)).
  - eauto.
  - by intros (? & ? & [= -> ->] & ?).
Qed.

(** What a run that returns returns, and that there is one. *)
Lemma wp_run {A} (m : M S A) s (Q : A -> S -> Prop) a s' : wp m s Q -> m s = Ret a s' -> Q a s'.
Proof. unfold wp. intros H E. by rewrite E in H. Qed.

Lemma wp_returns {A} (m : M S A) s : wp m s (fun _ _ => True) -> exists a s', m s = Ret a s'.
Proof. intros (a & s' & E & _)%wp_Ret. by exists a, s'. Qed.

Lemma wp_total {A} (m : M S A) s (Q : A -> S -> Prop) : wp m s Q -> exists a s', m s = Ret a s'.
Proof. intros (a & s' & E & _)%wp_Ret. by exists a, s'. Qed.

Lemma bind_Ret {A C} (m : M S A) (k : A -> M S C) s a s' :
  m s = Ret a s' -> bind m k s = k a s'.
Proof. unfold bind. by intros ->. Qed.

Lemma bind_ext {A C} (m : M S A) (k k' : A -> M S C) s :
  (forall a t, k a t = k' a t) -> bind m k s = bind m k' s.
Proof. intros Hk. unfold bind. by destruct (m s). Qed.

Lemma wp_deref {A} (o : option A) s (Q : A -> S -> Prop) a : o = Some a -> Q a s -> wp (deref o) s Q.
Proof. by intros ->. Qed.

Lemma wp_defined_if b s (Q : unit -> S -> Prop) : b = true -> Q tt s -> wp (defined_if b) s Q.
Proof. by intros ->. Qed.

(** A loop ends if some measure below the fuel decreases in every round. *)
Lemma wp_while (I : nat -> S -> Prop) (Q : unit -> S -> Prop)
    (cond : M S bool) (body : M S unit) n fuel s :
  I n s -> (n < fuel)%nat ->
  (forall n s, I n s ->
     wp cond s (fun b s' =>
       if b then wp body s' (fun _ s'' => exists n', (n' < n)%nat /\ I n' s'')
       else Q tt s')) ->
  wp (while_ fuel cond body) s Q.
Proof.
  intros HI Hlt Hstep. revert n s HI Hlt.
  induction fuel as [|fuel IH]; intros n s HI Hlt; [lia|].
  simpl. apply wp_bind. eapply wp_mono; [by apply (Hstep n)|].
  intros [] s' Hb; [|by apply wp_ret].
  apply wp_bind. eapply wp_mono; [done|]. intros u s'' (n' & ? & HI').
  apply (IH n'); [done|lia].
Qed.

(** A counting loop preserves an invariant indexed by what is left. *)
Lemma wp_for_each {A} (I : list A -> S -> Prop) (body : A -> M S unit) l s (Q : unit -> S -> Prop) :
  I l s ->
  (forall x l' s, I (x :: l') s -> wp (body x) s (fun _ s' => I l' s')) ->
  (forall s, I [] s -> Q tt s) ->
  wp (for_each l body) s Q.
Proof.
  intros HI Hstep Hend. revert s HI.
  induction l as [|x l IH]; intros s HI; simpl.
  - by apply wp_ret, Hend.
  - apply wp_bind. eapply wp_mono; [by apply Hstep|].
    intros u s' HI'. by apply IH.
Qed.

(** A counting loop, with an invariant on the counter. *)
Lemma wp_for_range (I : Z -> S -> Prop) (body : Z -> M S unit) lo n s (Q : unit -> S -> Prop) :
  I lo s ->
  (forall k s, lo <= k < lo + Z.of_nat n -> I k s -> wp (body k) s (fun _ s' => I (k + 1) s')) ->
  (forall s, I (lo + Z.of_nat n) s -> Q tt s) ->
  wp (for_each (zrange lo n) body) s Q.
Proof.
  revert lo s. induction n as [|n IH]; intros lo s HI Hstep Hend.
  - apply wp_ret, Hend. by rewrite Z.add_0_r.
  - rewrite zrange_S. cbn [for_each]. apply wp_bind.
    eapply wp_mono; [apply Hstep; [lia|done]|]. intros [] s' HI'. apply IH; [done|..].
    + intros k t Hk. apply Hstep. lia.
    + intros t Ht. apply Hend. by replace (lo + Z.of_nat (Datatypes.S n)) with (lo + 1 + Z.of_nat n) by lia.
Qed.
End wp_rules.

Section wp_ops.
Context {B : Bus} {G : Type}.
Implicit Types s : mach G.

Lemma wp_rd a s (Q : Z -> mach G -> Prop) :
  wp (rd a) s Q <->
  Q (u32 (fst (mmio_rd a (dev s)))) (Mach (snd (mmio_rd a (dev s))) (wlog s) (glb s)).
Proof. done. Qed.

Lemma wp_wr a v s (Q : unit -> mach G -> Prop) :
  wp (wr a v) s Q <->
  Q tt (Mach (mmio_wr a (u32 v) (dev s)) (wlog s ++ [(a, u32 v)]) (glb s)).
Proof. done. Qed.

Lemma wp_get s (Q : G -> mach G -> Prop) : wp get_ s Q <-> Q (glb s) s.
Proof. done. Qed.

Lemma wp_put g s (Q : unit -> mach G -> Prop) :
  wp (put_ g) s Q <-> Q tt (Mach (dev s) (wlog s) g).
Proof. done. Qed.

Lemma wp_modify f s (Q : unit -> mach G -> Prop) :
  wp (modify_ f) s Q <-> Q tt (Mach (dev s) (wlog s) (f (glb s))).
Proof. done. Qed.

Lemma wp_zoom {H A} (getH : G -> H) setH (m : M (mach H) A) s (Q : A -> mach G -> Prop) :
  wp (zoom getH setH m) s Q <->
  wp m (Mach (dev s) (wlog s) (getH (glb s)))
     (fun a t => Q a (Mach (dev t) (wlog t) (setH (glb t) (glb s)))).
Proof. unfold wp, zoom. by destruct (m _). Qed.
End wp_ops.

(** A list of register writes as one program, and what it does. *)
Fixpoint wr_all {B : Bus} {G} (l : list (Z * Z)) : M (mach G) unit :=
  match l with
  | [] => ret tt
  | (a, v) :: l' => bind (wr a v) (fun _ => wr_all l')
  end.

Definition wr_dev {B : Bus} (l : list (Z * Z)) (h : hw) : hw :=
  fold_left (fun h p => mmio_wr (fst p) (u32 (snd p)) h) l h.

Definition wr_trace (l : list (Z * Z)) : list (Z * Z) := prod_map id u32 <$> l.

Section writes.
Context {B : Bus} {G : Type}.

Lemma wr_trace_app l l' : wr_trace (l ++ l') = wr_trace l ++ wr_trace l'.
Proof. apply fmap_app. Qed.

Lemma wr_dev_app l l' h : wr_dev (l ++ l') h = wr_dev l' (wr_dev l h).
Proof. apply fold_left_app. Qed.

Lemma wr_all_spec l (s : mach G) :
  wr_all l s = Ret tt (Mach (wr_dev l (dev s)) (wlog s ++ wr_trace l) (glb s)).
Proof.
  revert s. induction l as [|[a v] l IH]; intros [d w g]; simpl.
  - by rewrite app_nil_r.
  - unfold bind, wr. cbn. rewrite IH. cbn. by rewrite <- app_assoc.
Qed.

Lemma wp_wr_all l (s : mach G) (Q : unit -> mach G -> Prop) :
  Q tt (Mach (wr_dev l (dev s)) (wlog s ++ wr_trace l) (glb s)) -> wp (wr_all l) s Q.
Proof. unfold wp. by rewrite wr_all_spec. Qed.

Lemma wr_all_app l l' (s : mach G) :
  bind (wr_all l) (fun _ => wr_all l') s = wr_all (l ++ l') s.
Proof.
  unfold bind. rewrite !wr_all_spec. cbn.
  by rewrite wr_dev_app, wr_trace_app, app_assoc.
Qed.

(** A loop whose rounds only write registers is one list of writes. *)
Lemma for_each_wr_all {A} (l : list A) (body : A -> M (mach G) unit)
    (c : A -> list (Z * Z)) (s : mach G) :
  (forall x t, x ∈ l -> glb t = glb s -> body x t = wr_all (c x) t) ->
  for_each l body s = wr_all (concat (c <$> l)) s.
Proof.
  revert s. induction l as [|x l IH]; intros s Hb; [done|].
  simpl. rewrite <- wr_all_app. unfold bind.
  rewrite (Hb x s) by (done || left). rewrite wr_all_spec.
  apply IH. intros y t Hy Ht. apply Hb; [by right|done].
Qed.
End writes.

(** ** Polling a register *)

(** One of the next [n] reads of [a] gives a value that is not [busy]. *)
Fixpoint ready_within {B : Bus} (n : nat) (a : Z) (busy : Z -> bool) (h : hw) : Prop :=
  match n with
  | O => False
  | S n' =>
      busy (u32 (fst (mmio_rd a h))) = false \/ ready_within n' a busy (snd (mmio_rd a h))
  end.

Lemma ready_within_mono {B : Bus} n m a busy h :
  (n <= m)%nat -> ready_within n a busy h -> ready_within m a busy h.
Proof.
  revert m h. induction n as [|n IH]; intros m h Hm; [done|].
  destruct m as [|m]; [lia|]. cbn. intros [?|H]; [by left|right].
  apply IH; [lia|done].
Qed.

Section poll.
Context {B : Bus} {G : Type}.

(** Polling ends with an invariant of the device that reads preserve, and with
    what a read that is not busy tells. *)
Lemma wp_poll_inv (I J : hw -> Prop) fuel a busy (s : mach G) (Q : unit -> mach G -> Prop) :
  ready_within fuel a busy (dev s) -> I (dev s) ->
  (forall h, I h ->
     if busy (u32 (fst (mmio_rd a h))) then I (snd (mmio_rd a h)) else J (snd (mmio_rd a h))) ->
  (forall d, J d -> Q tt (Mach d (wlog s) (glb s))) ->
  wp (while_ fuel (bind (rd a) (fun v => ret (busy v))) (ret tt)) s Q.
Proof.
  intros Hr HI Hstep HQ. destruct s as [d w g]. cbn in *. revert d Hr HI.
  induction fuel as [|fuel IH]; intros d Hr HI; [done|].
  specialize (Hstep d HI). unfold wp, bind, rd, ret in *. cbn in *.
  destruct (busy _); cbn; [|by apply HQ]. apply IH; [by destruct Hr|done].
Qed.

(** Polling while [busy] only changes the device, and ends when it is not. *)
Lemma wp_poll fuel a busy (s : mach G) (Q : unit -> mach G -> Prop) :
  ready_within fuel a busy (dev s) ->
  (forall d, Q tt (Mach d (wlog s) (glb s))) ->
  wp (while_ fuel (bind (rd a) (fun v => ret (busy v))) (ret tt)) s Q.
Proof.
  intros Hr HQ. destruct s as [d w g]. cbn in *. revert d Hr.
  induction fuel as [|fuel IH]; intros d Hr; [done|].
  unfold wp, bind, rd, ret in *. cbn in *. destruct (busy _); cbn.
  - apply IH. by destruct Hr.
  - apply HQ.
Qed.

(** Whatever happens while polling, the trace and the globals stay. *)
Lemma poll_final fuel a busy (s : mach G) :
  let o := while_ fuel (bind (rd a) (fun v => ret (busy v))) (ret tt) s in
  wlog (final o) = wlog s /\ glb (final o) = glb s.
Proof.
  destruct s as [d w g]. revert d. induction fuel as [|fuel IH]; intros d; [done|].
  unfold bind, rd, ret in *. cbn in *. destruct (busy _); cbn; [apply IH|done].
Qed.
End poll.

(** A device whose registers read as a fixed function of their address. *)
Definition const_bus (f : Z -> Z) : Bus := {|
  hw := unit;
  mmio_rd a h := (f a, h);
  mmio_wr _ _ h := h;
  ktick h := (0, h);
  os_delay _ h := h;
|}.

(** Registers that read back what was written last. *)
Definition ram_bus : Bus := {|
  hw := list (Z * Z);
  mmio_rd a h := (match List.find (fun p => fst p =? a) h with Some p => snd p | None => 0 end, h);
  mmio_wr a v h := (a, v) :: h;
  ktick h := (0, h);
  os_delay _ h := h;
|}.

(** Peel one operation off a [wp] goal. *)
Ltac wp_step :=
  lazymatch goal with
  | |- wp (bind _ _) _ _ => apply wp_bind
  | |- wp (ret _) _ _ => apply wp_ret
  | |- wp (rd _) _ _ => apply wp_rd
  | |- wp (wr _ _) _ _ => apply wp_wr
  | |- wp (rmw _ _) _ _ => unfold rmw
  | |- wp get_ _ _ => apply wp_get
  | |- wp (put_ _) _ _ => apply wp_put
  | |- wp (modify_ _) _ _ => apply wp_modify
  end; cbn [dev wlog glb].
Ltac wp_steps := repeat wp_step.

(** * Registers that hold what is written to them

    A device with a file of plain registers at the addresses [P]: reading has no
    effect and gives the value written last. *)
Class RegFile (B : Bus) (P : Z -> Prop) := {
  reg_file : hw -> Z -> Z;
  reg_rd a h : P a -> fst (mmio_rd a h) = reg_file h a;
  reg_rd_same a h : P a -> reg_file (snd (mmio_rd a h)) = reg_file h;
  reg_wr a v h : P a -> reg_file (mmio_wr a v h) = upd (reg_file h) a v;
}.

Lemma wp_reg_rmw {B : Bus} {P} {R : RegFile B P} {G} a f (s : mach G) (Q : unit -> mach G -> Prop) :
  P a ->
  (forall s', reg_file (dev s') = upd (reg_file (dev s)) a (u32 (f (u32 (reg_file (dev s) a)))) ->
     glb s' = glb s -> Q tt s') ->
  wp (rmw a f) s Q.
Proof.
  intros Ha HQ. unfold rmw, wp, bind, rd, wr. cbn. apply HQ; [|done]. cbn.
  by rewrite reg_wr, reg_rd_same, reg_rd.
Qed.

(** A device that is nothing but registers. *)
Definition file_bus : Bus := {|
  hw := Z -> Z;
  mmio_rd a h := (h a, h);
  mmio_wr a v h := upd h a v;
  ktick h := (0, h);
  os_delay _ h := h;
|}.

#[export] Instance file_bus_file P : RegFile file_bus P.
Proof. by refine {| reg_file (h : @hw file_bus) := (h : Z -> Z) |}. Defined.
