(* ===== verification/Can.v ===== *)
(** The CAN driver, src/can.c with inc/can.h and inc/pcan_core_fd.h: the
    acceptance filters, record writing, the DMA read path and controller
    initialisation, as operations on the machine of [Machine]. *)
From S2P Require Import Prelude Machine.

#[local] Open Scope fw_scope.

(** * Constants of can.h, pcan_core_fd.h and hardware_private.h *)

Definition CAN_BUS_MAX : Z := 5.

Definition CAN_ERR_OK : Z := 0.
Definition CAN_ERR_RX_EMPTY : Z := 1.
Definition CAN_ERR_TX_FULL : Z := 2.
Definition CAN_ERR_ILL_BUFFER : Z := 3.
Definition CAN_ERR_ILL_PARAM : Z := 4.
Definition CAN_ERR_ILL_SETUP : Z := 5.

Definition CAN_CLOCK_20M : Z := 20000000.
Definition CAN_CLOCK_24M : Z := 24000000.
Definition CAN_CLOCK_30M : Z := 30000000.
Definition CAN_CLOCK_40M : Z := 40000000.
Definition CAN_CLOCK_60M : Z := 60000000.
Definition CAN_CLOCK_80M : Z := 80000000.

Definition CAN_BUFFER_RX_MSG : Z := 0x0001.
Definition CAN_BUFFER_STATUS : Z := 0x0003.
Definition CAN_BUFFER_CRITICAL : Z := 0x0102.
Definition CAN_BUFFER_TX_MSG : Z := 0x1000.
Definition CAN_BUFFER_TX_PAUSE : Z := 0x1002.

Definition CAN_MSGTYPE_RTR : Z := 1.
Definition CAN_MSGTYPE_FDF : Z := 16.

Definition CMD_RESETMODE : Z := 0x001.
Definition CMD_NORMALMODE : Z := 0x002.
Definition CMD_LISTENONLYMODE : Z := 0x003.
Definition CMD_SET_TIMING_SLOW : Z := 0x004.
Definition CMD_SET_TIMING_FAST : Z := 0x005.
Definition CMD_SET_STD_FILTER : Z := 0x006.
Definition CMD_SET_EN_OPTION : Z := 0x00B.
Definition CMD_CLR_DIS_OPTION : Z := 0x00C.

(** [FPGA_t]: a system block and six CAN blocks of 512 words at 0x64000000. *)
Definition FPGA : Z := 0x64000000.
Definition FPGA_CAN (hBus : Z) : Z := FPGA + 2048 + 2048 * hBus.
Definition CAN_CNTL (hBus : Z) : Z := FPGA_CAN hBus + 0.
Definition CAN_STAT (hBus : Z) : Z := FPGA_CAN hBus + 8.
Definition CAN_CMD_L (hBus : Z) : Z := FPGA_CAN hBus + 16.
Definition CAN_CMD_H (hBus : Z) : Z := FPGA_CAN hBus + 20.
Definition CAN_TX (hBus : Z) : Z := FPGA_CAN hBus + 24.
Definition CAN_PHY (hBus : Z) : Z := FPGA_CAN hBus + 32.
Definition SYS_STAT : Z := FPGA + 24.
Definition SYS_7 : Z := FPGA + 28.
Definition SYS_MSG_BOX : Z := FPGA + 128.

(** DMA2 of the STM32F765. *)
Definition DMA2_BASE : Z := 0x40026400.
Definition DMA2_LIFCR : Z := DMA2_BASE + 0x08.
Definition DMA2_HIFCR : Z := DMA2_BASE + 0x0C.
Definition DMA2_Stream (n : Z) : Z := DMA2_BASE + 0x10 + 0x18 * n.
Definition DMA_CR (n : Z) : Z := DMA2_Stream n + 0x00.
Definition DMA_NDTR (n : Z) : Z := DMA2_Stream n + 0x04.
Definition DMA_PAR (n : Z) : Z := DMA2_Stream n + 0x08.
Definition DMA_M0AR (n : Z) : Z := DMA2_Stream n + 0x0C.
Definition DMA_FCR (n : Z) : Z := DMA2_Stream n + 0x14.

Definition DMA_IDX_2 : Z := 0.
Definition DMA_IDX_4 : Z := 1.
Definition DMA_RD_SZ : Z := 24.

(** * Data *)

(** [CANTiming_t] *)
Record CANTiming_t := CANTiming {
  can_clk : Z;
  nom_brp : Z; nom_tseg1 : Z; nom_tseg2 : Z; nom_sjw : Z;
  warning_limit : Z; listen_only : Z; can_mode : Z;
  data_brp : Z; data_tseg1 : Z; data_tseg2 : Z; data_sjw : Z;
}.

(** The static variables of can.c: one row of 64 words per bus, and the index
    of the DMA stream that [CAN_Read] uses next. *)
Record can_glob := CanGlob {
  StdFilters : list (list Z);
  dma_idx : Z;
}.

Definition set_filters (f : list (list Z)) (g : can_glob) : can_glob := CanGlob f (dma_idx g).
Definition set_dma_idx (i : Z) (g : can_glob) : can_glob := CanGlob (StdFilters g) i.

(** Bytes of a TX record for a classical and for an FD frame, by DLC. *)
Definition TxBufferSize : list Z :=
  [20; 24; 24; 24; 24; 28; 28; 28; 28; 28; 28; 28; 28; 28; 28; 28].
Definition TxBufferSizeFD : list Z :=
  [20; 24; 24; 24; 24; 28; 28; 28; 28; 32; 36; 40; 44; 52; 68; 84].

(** * Operations *)

Section can.
Context {B : Bus}.
Implicit Types hBus : Z.

Abbreviation can := (mach can_glob).

(** One command of the FPGA core: low word, then high word. *)
Definition can_cmd hBus (lo hi : Z) : M can unit :=
  wr (CAN_CMD_L hBus) lo ;; wr (CAN_CMD_H hBus) hi.

(** The size in bytes of the record [CAN_Write] sends for a message whose
    DLC/message-type word is [w]. *)
Definition record_size (w : Z) : option Z :=
  let dlc := bits w 4 4 in
  let msgtype := bits w 16 16 in
  if any_bit msgtype CAN_MSGTYPE_RTR then Some 20
  else if any_bit msgtype CAN_MSGTYPE_FDF then aget TxBufferSizeFD dlc
  else aget TxBufferSize dlc.

(** The first WORD of the record and the index of the first word copied. *)
Definition record_head (buff : list Z) : M can (option (Z * Z)) :=
  w0 <- deref (aget buff 0) ;;
  if bits w0 16 16 .& 0x0FFF =? CAN_BUFFER_RX_MSG then
    w <- deref (aget buff 5) ;;
    n <- deref (record_size w) ;;
    ret (Some ((CAN_BUFFER_TX_MSG .<< 16) .| n, 3))
  else if bits w0 16 16 .& 0xFFFF =? CAN_BUFFER_TX_MSG then
    w <- deref (aget buff 3) ;;
    n <- deref (record_size w) ;;
    ret (Some ((CAN_BUFFER_TX_MSG .<< 16) .| n, 1))
  else if bits w0 16 16 .& 0xFFFF =? CAN_BUFFER_TX_PAUSE then
    ret (Some ((CAN_BUFFER_TX_PAUSE .<< 16) .| 8, 1))
  else ret None.

(** The fall-through [switch] of [CAN_Write]: [n] words from index [k] on. *)
Definition copy_words hBus (buff : list Z) (k n : Z) : M can unit :=
  if n <=? 20 then
    for_each (zrange k (Z.to_nat n)) (fun i =>
      w <- deref (aget buff i) ;; wr (CAN_TX hBus) w)
  else ret tt.

(** [buff] is the caller's object as words, [None] for NULL. *)
Definition CAN_Write hBus (buff : option (list Z)) : M can Z :=
  if CAN_BUS_MAX <? hBus then ret CAN_ERR_ILL_PARAM
  else match buff with
  | None => ret CAN_ERR_ILL_PARAM
  | Some buff =>
      stat <- rd (CAN_STAT hBus) ;;
      if negb (Z.testbit (u16 stat) 0) then ret CAN_ERR_TX_FULL
      else
        h <- record_head buff ;;
        match h with
        | None => ret CAN_ERR_ILL_BUFFER
        | Some (type_size, k) =>
            wr (CAN_TX hBus) type_size ;;
            copy_words hBus buff k (u32 ((type_size .& 0x0000FFFF) .>> 2 - 1)) ;;
            ret CAN_ERR_OK
        end
  end.

(** ** The DMA read path *)

(** Stream configuration: bursts of four words, 32 bit, memory to memory. *)
Definition DMA_CONFIG : Z :=
  (1 .<< 23) .| (1 .<< 21) .| (2 .<< 13) .| (2 .<< 11) .| (1 .<< 10) .| (1 .<< 9) .| (2 .<< 6).

Definition dma_arm (n : Z) : M can unit :=
  wr (DMA_FCR n) 7 ;;
  wr (DMA_NDTR n) DMA_RD_SZ ;;
  wr (DMA_PAR n) SYS_MSG_BOX ;;
  wr (DMA_CR n) DMA_CONFIG.

Definition dma_start (n buff : Z) : M can unit :=
  wr (DMA_M0AR n) buff ;; rmw (DMA_CR n) (fun v => v .| 1).

Definition dma_wait (fuel : nat) (n : Z) : M can unit :=
  while_ fuel (v <- rd (DMA_CR n) ;; ret (any_bit v 1)) (ret tt).

(** [buff] is the address of the caller's buffer, 0 for NULL. *)
Definition CAN_Read (fuel : nat) hBus (buff : Z) : M can Z :=
  if buff =? 0 then ret CAN_ERR_ILL_PARAM
  else
    rd SYS_7 ;;
    stat <- rd SYS_STAT ;;
    if Z.testbit stat 0 then
      g <- get_ ;;
      (if dma_idx g =? DMA_IDX_2 then
         dma_start 2 buff ;;
         wr DMA2_HIFCR (0x3F .<< 0) ;;
         dma_arm 4 ;;
         modify_ (set_dma_idx DMA_IDX_4) ;;
         dma_wait fuel 2
       else
         dma_start 4 buff ;;
         wr DMA2_LIFCR (0x3F .<< 16) ;;
         dma_arm 2 ;;
         modify_ (set_dma_idx DMA_IDX_2) ;;
         dma_wait fuel 4) ;;
      ret CAN_ERR_OK
    else ret CAN_ERR_RX_EMPTY.

Definition CAN_Startup : M can unit :=
  modify_ (set_dma_idx DMA_IDX_2) ;;
  wr DMA2_LIFCR (0x3F .<< 16) ;;
  dma_arm 2.

(** ** Acceptance filters *)

(** [|= m] and [&= ~m] on a filter word. *)
Definition mask_set (w m : Z) : Z := u32 (w .| m).
Definition mask_clear (w m : Z) : Z := w .& not32 m.

Definition filter_word (f : Z -> Z -> Z) (row : list Z) (id m : Z) : list Z :=
  alter (fun w => f w m) (Z.to_nat (id .>> 5)) row.

(** Stages 1 and 3: single bits while the condition [go] holds. *)
Fixpoint filter_bits (fuel : nat) (f : Z -> Z -> Z) (go : Z -> bool)
    (from to : Z) (row : list Z) : Z * list Z :=
  match fuel with
  | O => (from, row)
  | S n =>
      if (from <=? to) && go from then
        filter_bits n f go (from + 1) to (filter_word f row from (1 .<< (from .& 0x1F)))
      else (from, row)
  end.

(** Stage 2: eight IDs at a time. *)
Fixpoint filter_bytes (fuel : nat) (f : Z -> Z -> Z) (from to : Z) (row : list Z) : Z * list Z :=
  match fuel with
  | O => (from, row)
  | S n =>
      if from + 7 <=? to then
        filter_bytes n f (from + 8) to (filter_word f row from (0xFF .<< (from .& 0x1F)))
      else (from, row)
  end.

(** An ID never exceeds 0x7FF, so 2049 rounds are more than any stage takes. *)
Definition filter_fuel : nat := 2049.

Definition filter_range (f : Z -> Z -> Z) (from to : Z) (row : list Z) : list Z :=
  let '(from1, row1) := filter_bits filter_fuel f (fun id => negb (id .& 0x7 =? 0)) from to row in
  let '(from2, row2) := filter_bytes filter_fuel f from1 to row1 in
  snd (filter_bits filter_fuel f (fun _ => true) from2 to row2).

(** Write the 64 words of the row of [hBus] to the CAN controller. *)
Definition filter_upload hBus : M can unit :=
  for_each (zrange 0 64) (fun i =>
    g <- get_ ;;
    row <- deref (aget (StdFilters g) hBus) ;;
    w <- deref (aget row i) ;;
    can_cmd hBus ((i .<< 24) .| CMD_SET_STD_FILTER) w).

Definition filter_change (f : Z -> Z -> Z) hBus (FromID ToID : Z) : M can Z :=
  if CAN_BUS_MAX <? hBus then ret CAN_ERR_ILL_PARAM
  else if (ToID <? FromID) || (0x7FF <? ToID) then ret CAN_ERR_ILL_PARAM
  else
    g <- get_ ;;
    row <- deref (aget (StdFilters g) hBus) ;;
    put_ (set_filters (aset (StdFilters g) hBus (filter_range f FromID ToID row)) g) ;;
    filter_upload hBus ;;
    ret CAN_ERR_OK.

Definition CAN_FilterAdd hBus (extended FromID ToID : Z) : M can Z :=
  filter_change mask_set hBus FromID ToID.

Definition CAN_FilterRem hBus (extended FromID ToID : Z) : M can Z :=
  filter_change mask_clear hBus FromID ToID.

Definition CAN_FilterReset hBus (extended : Z) : M can Z :=
  if CAN_BUS_MAX <? hBus then ret CAN_ERR_ILL_PARAM
  else
    for_each (zrange 0 64) (fun i =>
      g <- get_ ;;
      row <- deref (aget (StdFilters g) hBus) ;;
      put_ (set_filters (aset (StdFilters g) hBus (aset row i 0)) g) ;;
      can_cmd hBus ((i .<< 24) .| CMD_SET_STD_FILTER) 0) ;;
    ret CAN_ERR_OK.

(** ** Controller modes *)

Definition CAN_UnInitialize hBus : M can Z :=
  if CAN_BUS_MAX <? hBus then ret CAN_ERR_ILL_PARAM
  else can_cmd hBus ((hBus .<< 12) .| CMD_RESETMODE) 0 ;; ret CAN_ERR_OK.

(** The value written to CAN_CNTL for a clock rate: source and divider. *)
Definition clock_cntl (clk : Z) : option Z :=
  if clk =? CAN_CLOCK_80M then Some ((1 .<< 5) .| (4 .<< 2) .| 2)
  else if clk =? CAN_CLOCK_60M then Some ((1 .<< 5) .| (0 .<< 2) .| 1)
  else if clk =? CAN_CLOCK_40M then Some ((1 .<< 5) .| (1 .<< 2) .| 1)
  else if clk =? CAN_CLOCK_30M then Some ((1 .<< 5) .| (2 .<< 2) .| 1)
  else if clk =? CAN_CLOCK_24M then Some ((1 .<< 5) .| (3 .<< 2) .| 1)
  else if clk =? CAN_CLOCK_20M then Some ((1 .<< 5) .| (4 .<< 2) .| 1)
  else None.

(** The command words of the arbitration and the data phase. *)
Definition slow_timing_cmd (t : CANTiming_t) : Z * Z :=
  (((nom_sjw t - 1) .<< 24) .| (warning_limit t .<< 16) .| CMD_SET_TIMING_SLOW,
   ((nom_brp t - 1) .<< 16) .| ((nom_tseg1 t - 1) .<< 8) .| (nom_tseg2 t - 1)).
Definition fast_timing_cmd (t : CANTiming_t) : Z * Z :=
  (((data_sjw t - 1) .<< 24) .| CMD_SET_TIMING_FAST,
   ((data_brp t - 1) .<< 16) .| ((data_tseg1 t - 1) .<< 8) .| (data_tseg2 t - 1)).

(** The option commands of a CAN mode. *)
Definition mode_cmds (mode : Z) : option (list (Z * Z)) :=
  if mode =? 0 then Some [((1 .<< 20) .| (1 .<< 18) .| CMD_CLR_DIS_OPTION, 0)]
  else if mode =? 1 then Some [((1 .<< 18) .| CMD_SET_EN_OPTION, 0);
                               ((1 .<< 20) .| CMD_CLR_DIS_OPTION, 0)]
  else if mode =? 2 then Some [((1 .<< 20) .| (1 .<< 18) .| CMD_SET_EN_OPTION, 0)]
  else None.

(** Start the flush of the TX cache, wait until it is empty, end the flush.
    [__WaitMicros] only burns time. *)
Definition flush_tx (fuel : nat) hBus : M can unit :=
  wr (CAN_CNTL hBus) (1 .<< 6) ;;
  do_while fuel (ret tt) (v <- rd (CAN_STAT hBus) ;; ret (v .& 2 =? 0)) ;;
  wr (CAN_CNTL hBus) (2 .<< 6).

Definition CAN_Initialize (fuel : nat) hBus (timing : option CANTiming_t) : M can Z :=
  if CAN_BUS_MAX <? hBus then ret CAN_ERR_ILL_PARAM
  else match timing with
  | None => ret CAN_ERR_ILL_PARAM
  | Some timing =>
      can_cmd hBus ((hBus .<< 12) .| CMD_RESETMODE) 0 ;;
      flush_tx fuel hBus ;;
      match clock_cntl (can_clk timing) with
      | None => ret CAN_ERR_ILL_SETUP
      | Some v =>
          wr (CAN_CNTL hBus) v ;;
          can_cmd hBus (fst (slow_timing_cmd timing)) (snd (slow_timing_cmd timing)) ;;
          can_cmd hBus (fst (fast_timing_cmd timing)) (snd (fast_timing_cmd timing)) ;;
          match mode_cmds (can_mode timing) with
          | None => ret CAN_ERR_ILL_SETUP
          | Some cmds =>
              for_each cmds (fun c => can_cmd hBus (fst c) (snd c)) ;;
              can_cmd hBus (if listen_only timing =? 0 then CMD_NORMALMODE
                            else CMD_LISTENONLYMODE) 0 ;;
              ret CAN_ERR_OK
          end
      end
  end.
End can.

(** * Acceptance filters: the set of accepted identifiers *)

(** Bit [id] of a filter row. *)
Definition row_bit (row : list Z) (id : Z) : bool :=
  match row !! Z.to_nat (id .>> 5) with
  | Some w => Z.testbit w (id .& 0x1F)
  | None => false
  end.

(** Whether the driver's table lets the standard identifier [id] pass on [bus]. *)
Definition accepts (g : can_glob) (bus id : Z) : bool :=
  match aget (StdFilters g) bus with Some row => row_bit row id | None => false end.

Definition word_ok (w : Z) : Prop := 0 <= w < 2 ^ 32.
Definition row_ok (row : list Z) : Prop := length row = 64%nat /\ Forall word_ok row.

(** Well-formed filter tables: six rows of 64 words. *)
Definition filters_ok (g : can_glob) : Prop :=
  length (StdFilters g) = 6%nat /\ Forall row_ok (StdFilters g).

(** The commands that load [row] into the controller of [hBus]. *)
Definition filter_cmds (hBus : Z) (row : list Z) : list (Z * Z) :=
  concat ((fun i => [(CAN_CMD_L hBus, (i .<< 24) .| CMD_SET_STD_FILTER);
                     (CAN_CMD_H hBus, default 0 (aget row i))]) <$> zrange 0 64).

(** A mask operation gives the masked bits the value [v] and keeps the rest. *)
Class MaskOp (f : Z -> Z -> Z) (v : bool) := {
  mask_bit w m i :
    0 <= i < 32 -> Z.testbit (f w m) i = if Z.testbit m i then v else Z.testbit w i;
  mask_ok w m : word_ok w -> word_ok (f w m);
}.

#[export] Instance mask_set_op : MaskOp mask_set true.
Proof.
  split; intros; unfold mask_set.
  - rewrite u32_testbit, Z.lor_spec by lia. by destruct (Z.testbit m i), (Z.testbit w i).
  - apply u32_range.
Qed.

#[export] Instance mask_clear_op : MaskOp mask_clear false.
Proof.
  split; intros w m; unfold mask_clear.
  - intros i ?. rewrite Z.land_spec, not32_testbit by lia.
    by destruct (Z.testbit m i), (Z.testbit w i).
  - intros Hw. by apply land_lt_pow2.
Qed.

(** ** The three stages of a filter update *)

Lemma shr5 id : id .>> 5 = id / 32.
Proof. by rewrite Z.shiftr_div_pow2 by lia. Qed.
Lemma and31 id : id .& 0x1F = id mod 32.
Proof. change 0x1F with (Z.ones 5). by rewrite Z.land_ones by lia. Qed.
Lemma and7 id : id .& 0x7 = id mod 8.
Proof. change 0x7 with (Z.ones 3). by rewrite Z.land_ones by lia. Qed.

Section filter_stages.
Context (f : Z -> Z -> Z) (v : bool) `{Hop : !MaskOp f v}.
Implicit Types row : list Z.

(** [row'] is [row] with the identifiers of [from, till) given the value [v]. *)
Definition changed (from till : Z) row row' : Prop :=
  row_ok row' /\
  forall id, 0 <= id <= 0x7FF ->
    row_bit row' id = if (from <=? id) && (id <? till) then v else row_bit row id.

Lemma changed_refl from row : row_ok row -> changed from from row row.
Proof.
  intros Hok. split; [done|]. intros id _.
  destruct (Z.leb_spec from id), (Z.ltb_spec id from); simpl; lia || done.
Qed.

Lemma changed_trans a b c row row' row'' :
  a <= b <= c -> changed a b row row' -> changed b c row' row'' -> changed a c row row''.
Proof.
  intros Hle [_ H1] [Hok H2]. split; [done|]. intros id Hid. rewrite H2, H1 by done.
  destruct (Z.leb_spec a id), (Z.leb_spec b id), (Z.ltb_spec id b), (Z.ltb_spec id c);
    simpl; lia || done.
Qed.

Lemma filter_word_ok row id m : row_ok row -> row_ok (filter_word f row id m).
Proof.
  intros [Hlen Hall]. unfold filter_word. split; [by rewrite length_alter|].
  apply Forall_alter; [done|]. intros w _ Hw. by apply mask_ok.
Qed.

Lemma filter_word_bit row from m id :
  row_ok row -> 0 <= from <= 0x7FF -> 0 <= id <= 0x7FF ->
  row_bit (filter_word f row from m) id =
    if (id / 32 =? from / 32) && Z.testbit m (id mod 32) then v else row_bit row id.
Proof.
  intros [Hlen Hall] Hfrom Hid. unfold row_bit, filter_word. rewrite !shr5, and31.
  destruct (Z.eqb_spec (id / 32) (from / 32)) as [Heq|Hne]; simpl.
  - rewrite Heq, list_lookup_alter_eq.
    destruct (lookup_lt_is_Some_2 row (Z.to_nat (from / 32))) as [w Hw].
    { rewrite Hlen. zlia. }
    rewrite Hw. simpl. apply mask_bit. apply Z.mod_pos_bound. lia.
  - rewrite list_lookup_alter_ne; [done|]. intros ?. apply Hne. zlia.
Qed.

Lemma testbit_1 k j : 0 <= k -> Z.testbit (1 .<< k) j = (j =? k).
Proof.
  intros. rewrite Z.shiftl_1_l. destruct (Z.eqb_spec j k) as [->|].
  - by rewrite Z.pow2_bits_true.
  - by rewrite Z.pow2_bits_false by lia.
Qed.

Lemma testbit_FF k j : 0 <= k -> 0 <= j -> Z.testbit (0xFF .<< k) j = (k <=? j) && (j <? k + 8).
Proof.
  intros. rewrite Z.shiftl_spec by lia. change 0xFF with (Z.ones 8).
  destruct (Z.leb_spec k j); simpl.
  - destruct (Z.ltb_spec j (k + 8)); [rewrite Z.ones_spec_low by lia | rewrite Z.ones_spec_high by lia]; done.
  - by rewrite Z.testbit_neg_r by lia.
Qed.

Lemma one_bit_changed row from :
  row_ok row -> 0 <= from <= 0x7FF ->
  changed from (from + 1) row (filter_word f row from (1 .<< (from .& 0x1F))).
Proof.
  intros Hok Hfrom. split; [by apply filter_word_ok|]. intros id Hid.
  rewrite filter_word_bit by done. rewrite and31, testbit_1 by zlia.
  destruct (Z.eqb_spec (id / 32) (from / 32)), (Z.eqb_spec (id mod 32) (from mod 32)),
    (Z.leb_spec from id), (Z.ltb_spec id (from + 1)); simpl; try done; exfalso; zlia.
Qed.

Lemma eight_bits_changed row from :
  row_ok row -> 0 <= from -> from + 7 <= 0x7FF -> from mod 8 = 0 ->
  changed from (from + 8) row (filter_word f row from (0xFF .<< (from .& 0x1F))).
Proof.
  intros Hok Hfrom Hto Hal. split; [by apply filter_word_ok|]. intros id Hid.
  rewrite filter_word_bit by (done || lia). rewrite and31, testbit_FF by zlia.
  destruct (Z.eqb_spec (id / 32) (from / 32)), (Z.leb_spec (from mod 32) (id mod 32)),
    (Z.ltb_spec (id mod 32) (from mod 32 + 8)),
    (Z.leb_spec from id), (Z.ltb_spec id (from + 8)); simpl; try done; exfalso; zlia.
Qed.

Lemma filter_bits_spec fuel go from to row :
  row_ok row -> 0 <= from -> from <= to + 1 -> to <= 0x7FF -> to + 1 - from < Z.of_nat fuel ->
  let r := filter_bits fuel f go from to row in
  from <= fst r <= to + 1 /\ changed from (fst r) row (snd r) /\
  (fst r <= to -> go (fst r) = false).
Proof.
  revert from row. induction fuel as [|fuel IH]; intros from row Hok H0 H1 H2 Hf; [lia|].
  simpl. destruct (Z.leb_spec from to); simpl.
  - destruct (go from) eqn:Hgo; simpl.
    + destruct (IH (from + 1) (filter_word f row from (1 .<< (from .& 0x1F)))) as (? & ? & ?);
        [by apply filter_word_ok|lia..|].
      split; [lia|]. split; [|done]. eapply (changed_trans _ (from + 1)); [lia| |done].
      apply one_bit_changed; [done|lia].
    + split; [lia|]. split; [by apply changed_refl|done].
  - split; [lia|]. split; [by apply changed_refl|lia].
Qed.

Lemma filter_bytes_spec fuel from to row :
  row_ok row -> 0 <= from -> from <= to + 1 -> to <= 0x7FF -> to + 1 - from < Z.of_nat fuel ->
  (from <= to -> from mod 8 = 0) ->
  let r := filter_bytes fuel f from to row in
  from <= fst r <= to + 1 /\ changed from (fst r) row (snd r).
Proof.
  revert from row. induction fuel as [|fuel IH]; intros from row Hok H0 H1 H2 Hf Hal; [lia|].
  simpl. destruct (Z.leb_spec (from + 7) to); simpl.
  - destruct (IH (from + 8) (filter_word f row from (0xFF .<< (from .& 0x1F)))) as (? & ?);
      [by apply filter_word_ok|lia..| |].
    { intros. assert (from mod 8 = 0) by (apply Hal; lia). zlia. }
    split; [lia|]. eapply (changed_trans _ (from + 8)); [lia| |done].
    apply eight_bits_changed; [done|lia..|apply Hal; lia].
  - split; [lia|by apply changed_refl].
Qed.

Lemma filter_range_spec from to row :
  row_ok row -> 0 <= from <= to -> to <= 0x7FF ->
  changed from (to + 1) row (filter_range f from to row).
Proof.
  intros Hok H0 H1. unfold filter_range.
  assert (Hf : Z.of_nat filter_fuel = 2049) by reflexivity.
  revert Hf. generalize filter_fuel. intros fuel Hf.
  set (go := fun id => negb (id .& 0x7 =? 0)).
  destruct (filter_bits_spec fuel go from to row) as (Ha & Hb & Hc);
    [done|lia..|].
  destruct (filter_bits fuel f go from to row) as [from1 row1]. cbn [fst snd] in *.
  destruct (filter_bytes_spec fuel from1 to row1) as (Hd & He);
    [apply Hb|lia..| |].
  { intros Hle. specialize (Hc Hle). unfold go in Hc. rewrite and7 in Hc. by zbool. }
  destruct (filter_bytes fuel f from1 to row1) as [from2 row2]. cbn [fst snd] in *.
  destruct (filter_bits_spec fuel (fun _ => true) from2 to row2) as (Hg & Hh & Hi);
    [apply He|lia..|].
  destruct (filter_bits fuel f (fun _ => true) from2 to row2) as [from3 row3]. cbn [fst snd] in *.
  assert (from3 = to + 1) as ->.
  { destruct (Z.le_gt_cases from3 to) as [Hle|]; [|lia]. by specialize (Hi Hle). }
  eapply (changed_trans _ from1); [lia|done|]. by eapply (changed_trans _ from2); [lia|..].
Qed.
End filter_stages.

(** Two rows with the same bits are the same row. *)
Lemma row_ext row row' :
  row_ok row -> row_ok row' ->
  (forall id, 0 <= id <= 0x7FF -> row_bit row id = row_bit row' id) -> row = row'.
Proof.
  intros [Hlen Hall] [Hlen' Hall'] Heq. apply list_eq. intros i.
  destruct (decide (i < 64)%nat) as [Hi|Hi].
  - destruct (lookup_lt_is_Some_2 row i) as [w Hw]; [lia|].
    destruct (lookup_lt_is_Some_2 row' i) as [w' Hw']; [lia|].
    rewrite Hw, Hw'. f_equal. apply (bits_ext 32); [done|exact (Forall_lookup_1 _ _ _ _ Hall Hw)|
      exact (Forall_lookup_1 _ _ _ _ Hall' Hw')|].
    intros k Hk. specialize (Heq (32 * Z.of_nat i + k)). unfold row_bit in Heq.
    rewrite !shr5, !and31 in Heq.
    replace (Z.to_nat ((32 * Z.of_nat i + k) / 32)) with i in Heq by zlia.
    replace ((32 * Z.of_nat i + k) mod 32) with k in Heq by zlia.
    rewrite Hw, Hw' in Heq. apply Heq. lia.
  - by rewrite !lookup_ge_None_2 by lia.
Qed.

(** ** What the operations do to the table and to the controller *)

Section filter_ops.
Context {B : Bus}.
Implicit Types s : mach can_glob.
Implicit Types g : can_glob.

Lemma filters_row g bus :
  filters_ok g -> 0 <= bus <= 5 ->
  exists row, aget (StdFilters g) bus = Some row /\ row_ok row.
Proof.
  intros [Hlen Hall] Hbus. destruct (aget_is_Some (StdFilters g) bus) as [row Hrow]; [lia|].
  exists row. split; [done|]. unfold aget in Hrow. destruct (bus <? 0); [done|].
  by eapply Forall_lookup_1.
Qed.

Lemma filters_ok_aset g bus row :
  filters_ok g -> row_ok row -> filters_ok (set_filters (aset (StdFilters g) bus row) g).
Proof.
  intros [Hlen Hall] Hrow. split; cbn; [by rewrite aset_length|].
  unfold aset. destruct (bus <? 0); [done|]. by apply Forall_insert.
Qed.

Lemma accepts_aset g bus row b id :
  filters_ok g -> 0 <= bus <= 5 ->
  accepts (set_filters (aset (StdFilters g) bus row) g) b id =
    if b =? bus then row_bit row id else accepts g b id.
Proof.
  intros [Hlen _] Hbus. unfold accepts. cbn. destruct (Z.eqb_spec b bus) as [->|].
  - by rewrite aget_aset_eq by lia.
  - by rewrite aget_aset_ne by done.
Qed.

Lemma filter_upload_spec s hBus row :
  aget (StdFilters (glb s)) hBus = Some row -> row_ok row ->
  filter_upload hBus s = wr_all (filter_cmds hBus row) s.
Proof.
  intros Hrow [Hlen _]. unfold filter_upload, filter_cmds. apply for_each_wr_all.
  intros i t Hi Ht. apply elem_of_zrange in Hi.
  destruct (aget_is_Some row i) as [w Hw]; [lia|].
  unfold bind, get_, deref. rewrite Ht, Hrow. cbn. by rewrite Hw.
Qed.

(** The common course of adding and removing a range. *)
Lemma filter_change_spec f v `{!MaskOp f v} hBus from to s :
  filters_ok (glb s) -> 0 <= hBus <= 5 -> 0 <= from <= to -> to <= 0x7FF ->
  wp (filter_change f hBus from to) s (fun r s' =>
    r = CAN_ERR_OK /\ filters_ok (glb s') /\ dma_idx (glb s') = dma_idx (glb s) /\
    (forall bus id, 0 <= bus <= 5 -> 0 <= id <= 0x7FF ->
       accepts (glb s') bus id =
         if (bus =? hBus) && (from <=? id) && (id <=? to) then v
         else accepts (glb s) bus id) /\
    (forall bus, bus <> hBus -> aget (StdFilters (glb s')) bus = aget (StdFilters (glb s)) bus) /\
    exists row, aget (StdFilters (glb s')) hBus = Some row /\
      wlog s' = wlog s ++ wr_trace (filter_cmds hBus row)).
Proof.
  intros Hok Hbus Hft Hto. unfold filter_change, CAN_BUS_MAX.
  destruct (Z.ltb_spec 5 hBus), (Z.ltb_spec to from), (Z.ltb_spec 0x7FF to); try lia; cbn [orb].
  destruct (filters_row (glb s) hBus) as (row & Hrow & Hrok); [done..|].
  destruct (filter_range_spec f v from to row) as [Hrok' Hbits]; [done|lia..|].
  set (row' := filter_range f from to row) in *.
  wp_steps. apply (wp_deref _ _ _ row); [done|]. fold row'. wp_steps.
  unfold wp at 1. erewrite filter_upload_spec; cbn [glb StdFilters set_filters];
    [|by apply aget_aset_eq; destruct Hok; lia|done].
  rewrite wr_all_spec. cbn. split; [done|]. split; [by apply filters_ok_aset|].
  split; [done|]. split.
  { intros bus id Hb Hid. rewrite accepts_aset by done.
    destruct (Z.eqb_spec bus hBus) as [->|]; [|done]. rewrite Hbits by done.
    unfold accepts. rewrite Hrow. cbn.
    destruct (Z.leb_spec from id), (Z.ltb_spec id (to + 1)), (Z.leb_spec id to); done || lia. }
  split.
  { intros bus Hne. by apply aget_aset_ne. }
  exists row'. split; [|done]. apply aget_aset_eq. destruct Hok. lia.
Qed.

(** The loop of [CAN_FilterReset] after [i] rounds. *)
Definition reset_inv (s : mach can_glob) (hBus : Z) (l : list Z) (t : mach can_glob) : Prop :=
  exists i row, 0 <= i <= 64 /\ l = zrange i (Z.to_nat (64 - i)) /\
    filters_ok (glb t) /\ aget (StdFilters (glb t)) hBus = Some row /\
    (forall j, 0 <= j < i -> aget row j = Some 0) /\
    (forall bus, bus <> hBus -> aget (StdFilters (glb t)) bus = aget (StdFilters (glb s)) bus) /\
    dma_idx (glb t) = dma_idx (glb s) /\
    wlog t = wlog s ++ wr_trace (concat ((fun i =>
      [(CAN_CMD_L hBus, (i .<< 24) .| CMD_SET_STD_FILTER); (CAN_CMD_H hBus, 0)])
        <$> zrange 0 (Z.to_nat i))).

Lemma reset_step s hBus i l t :
  0 <= hBus <= 5 -> reset_inv s hBus (i :: l) t ->
  wp (g <- get_ ;;
      row <- deref (aget (StdFilters g) hBus) ;;
      put_ (set_filters (aset (StdFilters g) hBus (aset row i 0)) g) ;;
      can_cmd hBus ((i .<< 24) .| CMD_SET_STD_FILTER) 0) t
    (fun _ t' => reset_inv s hBus l t').
Proof.
  intros Hbus (k & row & Hk & Hl & Hok & Hrow & Hz & Hoth & Hdma & Hlog).
  assert (k < 64) as Hk64.
  { destruct (decide (k = 64)) as [->|]; [done|lia]. }
  replace (Z.to_nat (64 - k)) with (S (Z.to_nat (64 - (k + 1)))) in Hl by lia.
  rewrite zrange_S in Hl. injection Hl as -> ->.
  destruct (filters_row (glb t) hBus) as (row' & Hrow' & [Hlen Hall]); [done..|].
  rewrite Hrow in Hrow'. injection Hrow' as <-.
  assert (row_ok (aset row k 0)) as Hrok.
  { split; [by rewrite aset_length|]. unfold aset. destruct (k <? 0); [done|].
    apply Forall_insert; [done|]. unfold word_ok. lia. }
  wp_steps. apply (wp_deref _ _ _ row); [done|]. wp_steps. unfold can_cmd. wp_steps.
  exists (k + 1), (aset row k 0).
  split_and!; [lia..|done|by apply filters_ok_aset| | | |done|].
  - apply aget_aset_eq. destruct Hok. lia.
  - intros j Hj. destruct (decide (j = k)) as [->|].
    + apply aget_aset_eq. lia.
    + rewrite aget_aset_ne by done. apply Hz. lia.
  - intros bus Hne. cbn. rewrite aget_aset_ne by done. by apply Hoth.
  - cbn. rewrite Hlog, <- !app_assoc. f_equal.
    replace (Z.to_nat (k + 1)) with (S (Z.to_nat k)) by lia.
    rewrite zrange_snoc, fmap_app, concat_app, wr_trace_app. f_equal.
    cbn. by replace (0 + Z.of_nat (Z.to_nat k)) with k by lia.
Qed.

Lemma zeros_row row : row_ok row -> (forall j, 0 <= j < 64 -> aget row j = Some 0) ->
  row = replicate 64 0.
Proof.
  intros [Hlen _] Hz. apply list_eq. intros i. destruct (decide (i < 64)%nat).
  - specialize (Hz (Z.of_nat i)). unfold aget in Hz.
    destruct (Z.ltb_spec (Z.of_nat i) 0); [lia|]. rewrite Nat2Z.id in Hz.
    rewrite Hz, lookup_replicate_2 by lia. done.
  - rewrite !lookup_ge_None_2; rewrite ?length_replicate; lia || done.
Qed.

Lemma row_bit_zeros id : row_bit (replicate 64 0) id = false.
Proof.
  unfold row_bit. destruct (replicate 64 0 !! Z.to_nat (id .>> 5)) as [w|] eqn:E; [|done].
  apply lookup_replicate in E as [-> _]. apply Z.bits_0.
Qed.

Lemma zeros_cmds hBus :
  filter_cmds hBus (replicate 64 0) =
  concat ((fun i => [(CAN_CMD_L hBus, (i .<< 24) .| CMD_SET_STD_FILTER); (CAN_CMD_H hBus, 0)])
    <$> zrange 0 64).
Proof. reflexivity. Qed.

Lemma reset_end s hBus t :
  0 <= hBus <= 5 -> reset_inv s hBus [] t ->
  filters_ok (glb t) /\ dma_idx (glb t) = dma_idx (glb s) /\
  aget (StdFilters (glb t)) hBus = Some (replicate 64 0) /\
  (forall bus, bus <> hBus -> aget (StdFilters (glb t)) bus = aget (StdFilters (glb s)) bus) /\
  wlog t = wlog s ++ wr_trace (filter_cmds hBus (replicate 64 0)).
Proof.
  intros Hbus (k & row & Hk & Hl & Hok & Hrow & Hz & Hoth & Hdma & Hlog).
  assert (k = 64) as ->.
  { destruct (decide (k = 64)); [done|].
    replace (Z.to_nat (64 - k)) with (S (Z.to_nat (63 - k))) in Hl by lia.
    by rewrite zrange_S in Hl. }
  destruct (filters_row (glb t) hBus) as (row' & Hrow' & Hrok); [done..|].
  rewrite Hrow in Hrow'. injection Hrow' as <-.
  rewrite (zeros_row row) in Hrow by done. rewrite zeros_cmds. by split_and!.
Qed.
End filter_ops.

(** * Properties of the acceptance filters *)

Section filter_properties.
Context {B : Bus}.
Implicit Types s : mach can_glob.

(** C28: adding a range of standard identifiers to a bus succeeds for every
    range within 11 bits, makes exactly the identifiers of the range accepted
    in addition to those accepted before, leaves the other buses alone, and
    sends the controller all 64 words of the new table. *)
Theorem CAN_FilterAdd_accepts hBus extended FromID ToID s :
  filters_ok (glb s) -> 0 <= hBus <= 5 -> 0 <= FromID <= ToID -> ToID <= 0x7FF ->
  wp (CAN_FilterAdd hBus extended FromID ToID) s (fun r s' =>
    r = CAN_ERR_OK /\ filters_ok (glb s') /\
    (forall bus id, 0 <= bus <= 5 -> 0 <= id <= 0x7FF ->
       accepts (glb s') bus id =
         accepts (glb s) bus id || ((bus =? hBus) && (FromID <=? id) && (id <=? ToID))) /\
    exists row, aget (StdFilters (glb s')) hBus = Some row /\
      wlog s' = wlog s ++ wr_trace (filter_cmds hBus row)).
Proof.
  intros Hok Hbus Hft Hto. eapply wp_mono; [by apply (filter_change_spec mask_set true)|].
  cbn beta. intros r s' (-> & ? & _ & Hacc & _ & Hrow). split_and!; try done.
  intros bus id Hb Hid. rewrite Hacc by done. by destruct (_ && _ && _), (accepts _ _ _).
Qed.

(** Removing a range makes exactly the identifiers of the range rejected on
    that bus and keeps every other decision, and uploads the new table. *)
Theorem CAN_FilterRem_accepts hBus extended FromID ToID s :
  filters_ok (glb s) -> 0 <= hBus <= 5 -> 0 <= FromID <= ToID -> ToID <= 0x7FF ->
  wp (CAN_FilterRem hBus extended FromID ToID) s (fun r s' =>
    r = CAN_ERR_OK /\ filters_ok (glb s') /\
    (forall bus id, 0 <= bus <= 5 -> 0 <= id <= 0x7FF ->
       accepts (glb s') bus id =
         accepts (glb s) bus id && negb ((bus =? hBus) && (FromID <=? id) && (id <=? ToID))) /\
    exists row, aget (StdFilters (glb s')) hBus = Some row /\
      wlog s' = wlog s ++ wr_trace (filter_cmds hBus row)).
Proof.
  intros Hok Hbus Hft Hto. eapply wp_mono; [by apply (filter_change_spec mask_clear false)|].
  cbn beta. intros r s' (-> & ? & _ & Hacc & _ & Hrow). split_and!; try done.
  intros bus id Hb Hid. rewrite Hacc by done. by destruct (_ && _ && _), (accepts _ _ _).
Qed.

(** C35: removing a range that was just added to a bus where nothing of it was
    accepted restores the filter table word for word. *)
Theorem CAN_Filter_add_rem hBus extended FromID ToID s :
  filters_ok (glb s) -> 0 <= hBus <= 5 -> 0 <= FromID <= ToID -> ToID <= 0x7FF ->
  (forall id, FromID <= id <= ToID -> accepts (glb s) hBus id = false) ->
  wp (CAN_FilterAdd hBus extended FromID ToID ;; CAN_FilterRem hBus extended FromID ToID) s
    (fun r s' => r = CAN_ERR_OK /\ StdFilters (glb s') = StdFilters (glb s)).
Proof.
  intros Hok Hbus Hft Hto Hnone. wp_step.
  eapply wp_mono; [by apply (filter_change_spec mask_set true)|]. cbn beta.
  intros _ s1 (_ & Hok1 & _ & Hacc1 & Hoth1 & _).
  eapply wp_mono; [by apply (filter_change_spec mask_clear false)|]. cbn beta.
  intros r s2 (-> & Hok2 & _ & Hacc2 & Hoth2 & _). split; [done|].
  destruct (filters_row _ hBus Hok Hbus) as (row & Hrow & Hrok).
  destruct (filters_row _ hBus Hok2 Hbus) as (row2 & Hrow2 & Hrok2).
  assert (row2 = row) as ->.
  { apply row_ext; [done..|]. intros id Hid.
    specialize (Hacc1 hBus id Hbus Hid). specialize (Hacc2 hBus id Hbus Hid).
    rewrite Hacc1 in Hacc2. unfold accepts at 1 in Hacc2. rewrite Hrow2 in Hacc2.
    rewrite Hacc2, Z.eqb_refl. specialize (Hnone id).
    unfold accepts in Hnone |- *. rewrite Hrow in Hnone |- *. cbn [andb].
    destruct (Z.leb_spec FromID id), (Z.leb_spec id ToID); cbn [andb]; try done.
    symmetry. by apply Hnone. }
  apply list_eq. intros i. destruct (decide (Z.of_nat i = hBus)) as [<-|Hne].
  - unfold aget in Hrow, Hrow2. destruct (Z.ltb_spec (Z.of_nat i) 0); [lia|].
    rewrite Nat2Z.id in Hrow, Hrow2. by rewrite Hrow, Hrow2.
  - specialize (Hoth1 _ Hne). specialize (Hoth2 _ Hne). unfold aget in Hoth1, Hoth2.
    destruct (Z.ltb_spec (Z.of_nat i) 0); [lia|]. rewrite Nat2Z.id in Hoth1, Hoth2.
    by rewrite Hoth2, Hoth1.
Qed.

(** Resetting the filters of a bus rejects every standard identifier on
    it, keeps the other buses, and uploads the all-zero table. *)
Theorem CAN_FilterReset_rejects hBus extended s :
  filters_ok (glb s) -> 0 <= hBus <= 5 ->
  wp (CAN_FilterReset hBus extended) s (fun r s' =>
    r = CAN_ERR_OK /\ filters_ok (glb s') /\
    (forall bus id, 0 <= bus <= 5 -> 0 <= id <= 0x7FF ->
       accepts (glb s') bus id = negb (bus =? hBus) && accepts (glb s) bus id) /\
    wlog s' = wlog s ++ wr_trace (filter_cmds hBus (replicate 64 0))).
Proof.
  intros Hok Hbus. unfold CAN_FilterReset, CAN_BUS_MAX.
  destruct (Z.ltb_spec 5 hBus); [lia|]. wp_step.
  eapply wp_for_each with (I := reset_inv s hBus).
  - destruct (filters_row (glb s) hBus Hok Hbus) as (row & Hrow & _).
    exists 0, row. split_and!; try done; [intros; lia|].
    cbn. by rewrite app_nil_r.
  - intros i l t HI. by apply reset_step.
  - intros t HI. apply reset_end in HI as (? & _ & Hz & Hoth & Hlog); [|done].
    apply wp_ret. split_and!; try done. intros bus id Hb Hid. unfold accepts.
    destruct (Z.eqb_spec bus hBus) as [->|Hne]; cbn [negb andb].
    + rewrite Hz. apply row_bit_zeros.
    + by rewrite Hoth by done.
Qed.

(** A bus above CAN_BUS6, an inverted range or an identifier above 11 bits
    is refused with CAN_ERR_ILL_PARAM, and neither the table nor any register
    is touched. *)
Theorem CAN_Filter_bad_params hBus extended FromID ToID s :
  5 < hBus \/ ToID < FromID \/ 0x7FF < ToID ->
  CAN_FilterAdd hBus extended FromID ToID s = Ret CAN_ERR_ILL_PARAM s /\
  CAN_FilterRem hBus extended FromID ToID s = Ret CAN_ERR_ILL_PARAM s /\
  (5 < hBus -> CAN_FilterReset hBus extended s = Ret CAN_ERR_ILL_PARAM s).
Proof.
  intros Hbad. unfold CAN_FilterAdd, CAN_FilterRem, CAN_FilterReset, filter_change, CAN_BUS_MAX.
  destruct (Z.ltb_spec 5 hBus), (Z.ltb_spec ToID FromID), (Z.ltb_spec 0x7FF ToID);
    split_and!; done || lia.
Qed.
End filter_properties.

(** * Witnesses *)

Section witnesses.
Definition quiet_bus : Bus := const_bus (fun _ => 0).
#[local] Existing Instance quiet_bus.

Definition can_start : mach can_glob := Mach tt [] (CanGlob (replicate 6 (replicate 64 0)) DMA_IDX_2).

Lemma can_start_ok : filters_ok (glb can_start).
Proof.
  split; [done|]. repeat (apply Forall_cons_2; [split; [done|]; apply Forall_replicate;
    unfold word_ok; lia|]). apply Forall_nil_2.
Qed.

Lemma CAN_FilterAdd_accepts_witness :
  wp (CAN_FilterAdd 2 0 0x100 0x17F) can_start (fun r s' =>
    r = CAN_ERR_OK /\ accepts (glb s') 2 0x120 = true /\ accepts (glb s') 2 0x180 = false).
Proof.
  eapply wp_mono; [apply (CAN_FilterAdd_accepts 2 0 0x100 0x17F can_start can_start_ok); lia|].
  intros r s' (Hr & _ & Hacc & _). split; [exact Hr|]. rewrite !Hacc by lia. split; reflexivity.
Defined.

Lemma CAN_FilterRem_accepts_witness :
  wp (CAN_FilterRem 2 0 0x100 0x17F) can_start (fun r s' =>
    r = CAN_ERR_OK /\ accepts (glb s') 2 0x120 = false).
Proof.
  eapply wp_mono; [apply (CAN_FilterRem_accepts 2 0 0x100 0x17F can_start can_start_ok); lia|].
  intros r s' (Hr & _ & Hacc & _). split; [exact Hr|]. rewrite !Hacc by lia. reflexivity.
Defined.

Lemma CAN_Filter_add_rem_witness :
  wp (CAN_FilterAdd 2 0 0x100 0x17F ;; CAN_FilterRem 2 0 0x100 0x17F) can_start
    (fun r s' => r = CAN_ERR_OK /\ StdFilters (glb s') = StdFilters (glb can_start)).
Proof.
  apply (CAN_Filter_add_rem 2 0 0x100 0x17F can_start can_start_ok); [lia..|].
  intros id Hid. unfold accepts.
  change (aget (StdFilters (glb can_start)) 2) with (Some (replicate 64 0)). apply row_bit_zeros.
Defined.

Lemma CAN_FilterReset_rejects_witness :
  wp (CAN_FilterReset 2 0) can_start (fun r s' => accepts (glb s') 2 0x120 = false).
Proof.
  eapply wp_mono; [apply (CAN_FilterReset_rejects 2 0 can_start can_start_ok); lia|].
  intros r s' (_ & _ & Hacc & _). rewrite Hacc by lia. reflexivity.
Defined.

Lemma CAN_Filter_bad_params_witness :
  CAN_FilterAdd 6 0 0 1 can_start = Ret CAN_ERR_ILL_PARAM can_start.
Proof. destruct (CAN_Filter_bad_params 6 0 0 1 can_start) as [H _]; [left; lia|exact H]. Defined.
End witnesses.
