(* ===== verification/CanWrite.v ===== *)
(** Writing records to a controller: what [CAN_Write] of [Can] sends for each
    kind of buffer, the record sizes, and its error results. *)
From S2P Require Import Prelude Machine Can.

#[local] Open Scope fw_scope.

(** * Writing records *)

(** Data bytes of a message, by frame format and DLC. *)
Definition dlc_len (fd : bool) (dlc : Z) : Z :=
  if dlc <=? 8 then dlc
  else if fd then default 0 (aget [12; 16; 20; 24; 32; 48; 64] (dlc - 9)) else 8.

(** Data bytes carried by a message with the DLC/message-type word [w]. *)
Definition payload_len (w : Z) : Z :=
  if any_bit (bits w 16 16) CAN_MSGTYPE_RTR then 0
  else dlc_len (any_bit (bits w 16 16) CAN_MSGTYPE_FDF) (bits w 4 4).

(** What a record of [CAN_Write] consists of: the header word and a stretch of
    the caller's buffer. *)
Definition tx_record (hBus : Z) (buff : list Z) (head : Z) (k : Z) (n : nat) : list (Z * Z) :=
  (CAN_TX hBus, head) :: ((fun i => (CAN_TX hBus, default 0 (aget buff i))) <$> zrange k n).

Section record_lemmas.
Context {B : Bus}.
Implicit Types s : mach can_glob.

Lemma copy_words_spec hBus buff k n s :
  0 <= k -> 0 <= n <= 20 -> k + n <= Z.of_nat (length buff) ->
  copy_words hBus buff k n s =
    wr_all ((fun i => (CAN_TX hBus, default 0 (aget buff i))) <$> zrange k (Z.to_nat n)) s.
Proof.
  intros Hk Hn Hlen. unfold copy_words. destruct (Z.leb_spec n 20); [|lia].
  erewrite (for_each_wr_all _ _ (fun i => [(CAN_TX hBus, default 0 (aget buff i))])).
  - f_equal. induction (zrange k (Z.to_nat n)) as [|i l IH]; [done|]. cbn. by rewrite IH.
  - intros i t Hi _. apply elem_of_zrange in Hi.
    destruct (aget_is_Some buff i) as [w Hw]; [lia|]. rewrite Hw. done.
Qed.
End record_lemmas.

(** A message buffer: an object of type [CANRxMsg_t] (23 words, the record
    starts at word 3) or [CANTxMsg_t] (21 words, it starts at word 1). *)
Definition msg_buffer (buff : list Z) (off : Z) : Prop :=
  exists w0, aget buff 0 = Some w0 /\
    ((bits w0 16 16 .& 0x0FFF = CAN_BUFFER_RX_MSG /\ off = 3 /\ (23 <= length buff)%nat) \/
     (bits w0 16 16 = CAN_BUFFER_TX_MSG /\ off = 1 /\ (21 <= length buff)%nat)).

Definition tx_ready {B : Bus} (hBus : Z) (s : mach can_glob) : bool :=
  Z.testbit (u16 (u32 (fst (mmio_rd (CAN_STAT hBus) (dev s))))) 0.

Section write_lemmas.
Context {B : Bus}.
Implicit Types s : mach can_glob.

Lemma record_head_msg buff off w n s :
  msg_buffer buff off -> aget buff (off + 2) = Some w -> record_size w = Some n ->
  record_head buff s = Ret (Some ((CAN_BUFFER_TX_MSG .<< 16) .| n, off)) s.
Proof.
  intros (w0 & Hw0 & Hkind) Hw Hn. unfold record_head, bind, deref. rewrite Hw0. cbn [ret].
  destruct Hkind as [(Hrx & -> & _)|(Htx & -> & _)].
  - rewrite Hrx, Z.eqb_refl. change (3 + 2) with 5 in Hw. rewrite Hw. cbn [ret]. by rewrite Hn.
  - rewrite Htx. change (1 + 2) with 3 in Hw.
    change (CAN_BUFFER_TX_MSG .& 0x0FFF =? CAN_BUFFER_RX_MSG) with false.
    change (CAN_BUFFER_TX_MSG .& 0xFFFF =? CAN_BUFFER_TX_MSG) with true.
    cbn iota. rewrite Hw. cbn [ret]. by rewrite Hn.
Qed.

(** The word count taken from the header word. *)
Lemma header_words n :
  20 <= n <= 84 -> n mod 4 = 0 ->
  u32 ((((CAN_BUFFER_TX_MSG .<< 16) .| n) .& 0x0000FFFF) .>> 2 - 1) = n / 4 - 1.
Proof.
  intros Hn Hm. change 0x0000FFFF with (Z.ones 16). rewrite Z.land_ones by lia.
  assert (((CAN_BUFFER_TX_MSG .<< 16) .| n) mod 2 ^ 16 = n) as ->.
  { apply Z.bits_inj'. intros i Hi. destruct (Z.lt_ge_cases i 16).
    - rewrite Z.mod_pow2_bits_low, Z.lor_spec, Z.shiftl_spec by lia.
      by rewrite Z.testbit_neg_r by lia.
    - rewrite Z.mod_pow2_bits_high by lia. by rewrite (testbit_above 16) by lia. }
  rewrite Z.shiftr_div_pow2 by lia. apply u32_small. change (2 ^ 2) with 4. zlia.
Qed.

Lemma for_each_shift (f : Z -> M (mach can_glob) unit) lo n s :
  for_each (zrange (lo + 2) n) f s = for_each (zrange lo n) (fun i => f (i + 2)) s.
Proof.
  revert lo s. induction n as [|n IH]; intros lo s; [done|].
  rewrite !zrange_S. cbn. unfold bind. destruct (f (lo + 2) s); [|done..].
  replace (lo + 2 + 1) with (lo + 1 + 2) by lia. apply IH.
Qed.

Lemma for_each_ext {A} (l : list A) (f g : A -> M (mach can_glob) unit) s :
  (forall x, x ∈ l -> forall t, f x t = g x t) -> for_each l f s = for_each l g s.
Proof.
  revert s. induction l as [|x l IH]; intros s Hfg; [done|]. cbn. unfold bind.
  rewrite (Hfg x) by left. destruct (g x s); [|done..]. apply IH.
  intros y Hy. apply Hfg. by right.
Qed.

Lemma aget_cons2 (a b c d : Z) body i :
  1 <= i -> aget (a :: b :: c :: body) (i + 2) = aget (d :: body) i.
Proof.
  intros Hi. unfold aget. destruct (Z.ltb_spec (i + 2) 0), (Z.ltb_spec i 0); try lia.
  replace (Z.to_nat (i + 2)) with (S (S (S (Z.to_nat (i - 1))))) by lia.
  by replace (Z.to_nat i) with (S (Z.to_nat (i - 1))) by lia.
Qed.

Lemma copy_words_shift hBus a b c d body n s :
  copy_words hBus (a :: b :: c :: body) 3 n s = copy_words hBus (d :: body) 1 n s.
Proof.
  unfold copy_words. destruct (n <=? 20); [|done].
  change 3 with (1 + 2). rewrite for_each_shift. apply for_each_ext.
  intros i Hi t. apply elem_of_zrange in Hi. by rewrite (aget_cons2 a b c d) by lia.
Qed.
End write_lemmas.

(** C36: the record size is the 20-byte header plus the payload rounded up to
    whole words, for remote, classical and FD messages and every DLC; hence at
    most 84 bytes. *)
Theorem record_size_payload w :
  exists n, record_size w = Some n /\
    n = 20 + 4 * ((payload_len w + 3) / 4) /\ 20 <= n <= 84 /\ n mod 4 = 0.
Proof.
  unfold record_size, payload_len. destruct (any_bit _ CAN_MSGTYPE_RTR).
  { exists 20. by split_and!. }
  pose proof (bits_range w 4 4) as Hd. specialize (Hd ltac:(lia) ltac:(lia)).
  destruct (any_bit _ CAN_MSGTYPE_FDF); revert Hd; generalize (bits w 4 4); intros d Hd;
    pattern d; apply (zrange_cases _ 0 16 d Hd); repeat constructor; eexists; by split_and!.
Qed.

Section write_properties.
Context {B : Bus}.
Implicit Types s : mach can_glob.

(** C29: when the TX cache has room, writing a transmit or a receive message
    succeeds, reads only words the caller's object has, and sends exactly one
    record: a header with the transmit type and the size in bytes, then the
    remaining words of the message from its tag field on. *)
Theorem CAN_Write_record hBus buff off w n s :
  0 <= hBus <= 5 -> tx_ready hBus s = true -> msg_buffer buff off ->
  aget buff (off + 2) = Some w -> record_size w = Some n ->
  wp (CAN_Write hBus (Some buff)) s (fun r s' =>
    r = CAN_ERR_OK /\ glb s' = glb s /\
    wlog s' = wlog s ++ wr_trace
      (tx_record hBus buff ((CAN_BUFFER_TX_MSG .<< 16) .| n) off (Z.to_nat (n / 4 - 1)))).
Proof.
  intros Hbus Hready Hmsg Hw Hn. unfold CAN_Write, CAN_BUS_MAX.
  destruct (Z.ltb_spec 5 hBus); [lia|]. wp_steps. unfold tx_ready in Hready.
  rewrite Hready. cbn [negb]. wp_step.
  unfold wp at 1. rewrite (record_head_msg _ off w n) by done. wp_steps.
  destruct (record_size_payload w) as (n' & Hn' & _ & Hr & Hm).
  rewrite Hn in Hn'. injection Hn' as <-. rewrite header_words by done.
  assert (off + (n / 4 - 1) <= Z.of_nat (length buff) /\ 0 <= off) as [Hlen Hoff].
  { destruct Hmsg as (w0 & _ & [(_ & -> & ?)|(_ & -> & ?)]); split; zlia. }
  unfold wp at 1. rewrite copy_words_spec by (lia || zlia).
  rewrite wr_all_spec. cbn. split_and!; [done..|]. by rewrite <- app_assoc.
Qed.

(** Forwarding a received message is the same as writing the transmit
    message that has the same tag, type, identifier and data: the driver skips
    the receive header and the timestamp, on every path. *)
Theorem CAN_Write_forward hBus rx_head tx_head t0 t1 body s :
  bits rx_head 16 16 .& 0x0FFF = CAN_BUFFER_RX_MSG ->
  bits tx_head 16 16 = CAN_BUFFER_TX_MSG ->
  CAN_Write hBus (Some (rx_head :: t0 :: t1 :: body)) s =
  CAN_Write hBus (Some (tx_head :: body)) s.
Proof.
  intros Hrx Htx. unfold CAN_Write. destruct (CAN_BUS_MAX <? hBus); [done|].
  apply bind_ext. intros stat t. destruct (negb _); [done|]. unfold record_head.
  change (aget (rx_head :: t0 :: t1 :: body) 0) with (Some rx_head).
  change (aget (tx_head :: body) 0) with (Some tx_head). unfold bind, deref. cbn [ret].
  rewrite Hrx, Htx, Z.eqb_refl.
  change (CAN_BUFFER_TX_MSG .& 0x0FFF =? CAN_BUFFER_RX_MSG) with false.
  change (CAN_BUFFER_TX_MSG .& 0xFFFF =? CAN_BUFFER_TX_MSG) with true. cbn iota.
  replace (aget (rx_head :: t0 :: t1 :: body) 5) with (aget (tx_head :: body) 3)
    by (symmetry; apply (aget_cons2 rx_head t0 t1 tx_head body 3); lia).
  destruct (aget _ 3) as [w|]; [|done]. cbn [ret].
  destruct (record_size w); [|done]. cbn [ret]. unfold wr. cbn beta iota.
  by rewrite (copy_words_shift hBus rx_head t0 t1 tx_head).
Qed.

(** A bus above CAN_BUS6 and a NULL buffer give CAN_ERR_ILL_PARAM without
    any register access; a full TX cache gives CAN_ERR_TX_FULL and a buffer of
    another type CAN_ERR_ILL_BUFFER, both without writing anything. *)
Theorem CAN_Write_errors hBus buff s :
  (5 < hBus -> CAN_Write hBus buff s = Ret CAN_ERR_ILL_PARAM s) /\
  CAN_Write hBus None s = Ret CAN_ERR_ILL_PARAM s /\
  (forall w0 l, 0 <= hBus <= 5 -> buff = Some (w0 :: l) ->
     (tx_ready hBus s = false ->
      wp (CAN_Write hBus buff) s (fun r s' =>
        r = CAN_ERR_TX_FULL /\ wlog s' = wlog s /\ glb s' = glb s)) /\
     (tx_ready hBus s = true ->
      bits w0 16 16 .& 0x0FFF <> CAN_BUFFER_RX_MSG ->
      bits w0 16 16 <> CAN_BUFFER_TX_MSG -> bits w0 16 16 <> CAN_BUFFER_TX_PAUSE ->
      wp (CAN_Write hBus buff) s (fun r s' =>
        r = CAN_ERR_ILL_BUFFER /\ wlog s' = wlog s /\ glb s' = glb s))).
Proof.
  unfold CAN_Write, CAN_BUS_MAX. split_and!.
  - intros. by destruct (Z.ltb_spec 5 hBus); [|lia].
  - by destruct (5 <? hBus).
  - intros w0 l Hbus ->. destruct (Z.ltb_spec 5 hBus); [lia|].
    unfold tx_ready. split.
    + intros Hr. wp_steps. rewrite Hr. cbn [negb]. by wp_steps.
    + intros Hr Hrx Htx Hp. wp_steps. rewrite Hr. cbn [negb]. wp_step.
      unfold record_head. wp_step. apply (wp_deref _ _ _ w0); [done|].
      apply Z.eqb_neq in Hrx. rewrite Hrx.
      assert (bits w0 16 16 .& 0xFFFF = bits w0 16 16) as ->.
      { change 0xFFFF with (Z.ones 16). rewrite Z.land_ones by lia. apply Z.mod_small.
        apply bits_range; lia. }
      apply Z.eqb_neq in Htx. apply Z.eqb_neq in Hp. rewrite Htx, Hp. by wp_steps.
Qed.
End write_properties.

(** * Witnesses *)

Section witnesses.
(** The TX cache of every bus has room. *)
Definition room_bus : Bus := const_bus (fun _ => 1).
#[local] Existing Instance room_bus.

Definition write_start : mach can_glob := Mach tt [] (CanGlob [] 0).
(** A transmit message with one data byte. *)
Definition one_byte_msg : list Z := (CAN_BUFFER_TX_MSG .<< 16) :: 0 :: 0 :: (1 .<< 4) :: replicate 17 7.

Lemma CAN_Write_record_witness :
  wp (CAN_Write 0 (Some one_byte_msg)) write_start (fun r s' =>
    r = CAN_ERR_OK /\ wlog s' = wr_trace
      (tx_record 0 one_byte_msg ((CAN_BUFFER_TX_MSG .<< 16) .| 24) 1 5)).
Proof.
  eapply wp_mono.
  - apply (CAN_Write_record 0 one_byte_msg 1 (1 .<< 4) 24 write_start).
    + lia.
    + vm_compute. reflexivity.
    + exists (CAN_BUFFER_TX_MSG .<< 16). split; [reflexivity|]. right.
      split_and!; [vm_compute; reflexivity|reflexivity|apply Nat.leb_le; reflexivity].
    + vm_compute. reflexivity.
    + vm_compute. reflexivity.
  - intros r s' (Hr & _ & Hl). split; [exact Hr|]. exact Hl.
Defined.

Lemma CAN_Write_forward_witness :
  CAN_Write 0 (Some ((CAN_BUFFER_RX_MSG .<< 16) :: 8 :: 9 :: replicate 20 7)) write_start =
  CAN_Write 0 (Some ((CAN_BUFFER_TX_MSG .<< 16) :: replicate 20 7)) write_start.
Proof. apply (CAN_Write_forward 0 _ _ 8 9 (replicate 20 7) write_start); vm_compute; reflexivity. Defined.

Lemma CAN_Write_errors_witness :
  CAN_Write 6 (Some one_byte_msg) write_start = Ret CAN_ERR_ILL_PARAM write_start.
Proof. destruct (CAN_Write_errors 6 (Some one_byte_msg) write_start) as [H _]. apply H. lia. Defined.
End witnesses.
