(* ===== verification/CanControl.v ===== *)
(** The DMA read path and controller initialisation of [Can]: the programming
    protocol of the two alternating DMA streams as an automaton over the trace
    of register writes, the results of [CAN_Read], and the command sequence of
    [CAN_Initialize] with its error results. *)
From S2P Require Import Prelude Machine Can.

#[local] Open Scope fw_scope.

(** * The programming protocol of a DMA stream

    A transfer of stream [n] is: clear the stream's flags, program FCR, NDTR,
    PAR and CR in this order (stage 5: armed), give the destination (stage 6),
    set the enable bit.  Enabling a stream at any other stage is a violation,
    which [None] remembers. *)
Definition dma_flags (n : Z) : Z * Z :=
  if n =? 2 then (DMA2_LIFCR, 0x3F0000) else (DMA2_HIFCR, 0x3F).

Definition dma_next (n : Z) (k : option nat) (e : Z * Z) : option nat :=
  let '(a, v) := e in
  match k with
  | None => None
  | Some k =>
      if (a =? fst (dma_flags n)) && (v =? snd (dma_flags n)) then Some 1%nat
      else if a =? DMA_FCR n then Some (if (k =? 1)%nat && (v =? 7) then 2%nat else 0%nat)
      else if a =? DMA_NDTR n then Some (if (k =? 2)%nat && (v =? DMA_RD_SZ) then 3%nat else 0%nat)
      else if a =? DMA_PAR n then Some (if (k =? 3)%nat && (v =? SYS_MSG_BOX) then 4%nat else 0%nat)
      else if a =? DMA_M0AR n then Some (if (5 <=? k)%nat then 6%nat else 0%nat)
      else if a =? DMA_CR n then
        if any_bit v 1 then (if (k =? 6)%nat then Some 0%nat else None)
        else Some (if (k =? 4)%nat && (v =? DMA_CONFIG) then 5%nat else 0%nat)
      else Some k
  end.

Definition dma_state (n : Z) (trace : list (Z * Z)) : option nat :=
  fold_left (dma_next n) trace (Some 0%nat).

(** The stream [CAN_Read] is going to use is armed, and the protocol of
    neither stream was ever violated. *)
Definition dma_ready {B : Bus} (s : mach can_glob) : Prop :=
  let '(use, other) := if dma_idx (glb s) =? DMA_IDX_2 then (2, 4) else (4, 2) in
  dma_state use (wlog s) = Some 5%nat /\ is_Some (dma_state other (wlog s)).

(** A call of [CAN_Read], whatever its arguments, its outcome and the device. *)
Definition read_call {B : Bus} (fuel : nat) (s s' : mach can_glob) : Prop :=
  exists hBus buff, s' = final (CAN_Read fuel hBus buff s).

Section dma_lemmas.
Context {B : Bus}.
Implicit Types s : mach can_glob.

Lemma dma_state_app n l l' :
  dma_state n (l ++ l') = fold_left (dma_next n) l' (dma_state n l).
Proof. apply fold_left_app. Qed.

Lemma any_bit_or1 v : any_bit (u32 (v .| 1)) 1 = true.
Proof.
  change 1 with (2 ^ 0) at 2. rewrite any_bit_pow2, u32_testbit, Z.lor_spec by lia.
  by rewrite orb_true_r.
Qed.

(** The writes of one transfer on stream [n] while [m] is being armed. *)
Definition transfer (n m buff cr : Z) : list (Z * Z) :=
  [(DMA_M0AR n, u32 buff); (DMA_CR n, u32 (cr .| 1));
   dma_flags m; (DMA_FCR m, 7); (DMA_NDTR m, DMA_RD_SZ); (DMA_PAR m, SYS_MSG_BOX);
   (DMA_CR m, DMA_CONFIG)].

Lemma transfer_states n m buff cr k :
  (n, m) = (2, 4) \/ (n, m) = (4, 2) ->
  fold_left (dma_next n) (transfer n m buff cr) (Some 5%nat) = Some 0%nat /\
  fold_left (dma_next m) (transfer n m buff cr) (Some k) = Some 5%nat.
Proof.
  pose proof (any_bit_or1 cr) as Hcr. unfold transfer.
  generalize dependent (u32 (cr .| 1)). intros v Hv. generalize (u32 buff). intros b.
  intros [[= -> ->]|[= -> ->]]; cbv -[any_bit]; rewrite Hv; split; reflexivity.
Qed.

(** One read: either nothing is written, or one transfer on the armed stream. *)
Definition read_effect (buff : Z) s s' : Prop :=
  (wlog s' = wlog s /\ glb s' = glb s) \/
  exists cr,
    let '(n, m) := if dma_idx (glb s) =? DMA_IDX_2 then (2, 4) else (4, 2) in
    wlog s' = wlog s ++ transfer n m buff cr /\ StdFilters (glb s') = StdFilters (glb s) /\
    dma_idx (glb s') = (if dma_idx (glb s) =? DMA_IDX_2 then DMA_IDX_4 else DMA_IDX_2).

Lemma CAN_Read_final fuel hBus buff s :
  read_effect buff s (final (CAN_Read fuel hBus buff s)).
Proof.
  unfold CAN_Read. destruct (buff =? 0); [by left|].
  unfold bind at 1, rd at 1. cbn beta iota. unfold bind at 1, rd at 1. cbn beta iota.
  cbn [dev wlog glb]. destruct (Z.testbit _ 0); [|by left].
  unfold bind at 1, get_. cbn beta iota. cbn [glb].
  destruct (dma_idx (glb s) =? DMA_IDX_2) eqn:E.
  all: unfold dma_start, dma_arm, rmw, bind, rd, wr, modify_; cbn [dev wlog glb].
  all: match goal with |- context [dma_wait ?fu ?n ?t] =>
    destruct (poll_final fu (DMA_CR n) (fun v => any_bit v 1) t) as [Hw Hg];
    change (while_ fu _ _ t) with (dma_wait fu n t) in Hw, Hg;
    destruct (dma_wait fu n t) end.
  all: right; rewrite E; unfold ret; cbn [final wlog glb] in *; eexists; rewrite Hw, Hg;
    rewrite <- !app_assoc; split_and!; reflexivity.
Qed.

Lemma read_effect_ready buff s s' : read_effect buff s s' -> dma_ready s -> dma_ready s'.
Proof.
  intros [[Hw Hg]|[cr H]] Hr; unfold dma_ready in *; [by rewrite Hw, Hg|].
  destruct (dma_idx (glb s) =? DMA_IDX_2); destruct H as (Hw & _ & ->), Hr as [Huse [k Hk]];
    cbn [Z.eqb DMA_IDX_2 DMA_IDX_4]; rewrite Hw, !dma_state_app, Huse, Hk.
  - destruct (transfer_states 2 4 buff cr k) as [-> H4]; [by left|]. by rewrite H4.
  - destruct (transfer_states 4 2 buff cr k) as [-> H2]; [by right|]. by rewrite H2.
Qed.
End dma_lemmas.

Section read_properties.
Context {B : Bus}.
Implicit Types s : mach can_glob.

(** C30: after CAN_Startup, in every state that any sequence of reads reaches,
    whatever they return and however the hardware answers, the stream the next
    read starts is fully armed, and no stream was ever enabled that was not. *)
Theorem CAN_Read_always_armed fuel s0 s :
  wlog s0 = [] -> rtc (read_call fuel) (final (CAN_Startup s0)) s -> dma_ready s.
Proof.
  intros Hw0 Hreach.
  assert (dma_ready (final (CAN_Startup s0))) as Hinit.
  { destruct s0 as [d w g]. cbn in Hw0. subst w. split; [reflexivity|by eexists]. }
  revert Hinit. induction Hreach as [|s1 s2 s3 (hBus & buff & ->) _ IH]; [done|].
  intros Hr. apply IH. eapply read_effect_ready; [|done]. apply CAN_Read_final.
Qed.

(** CAN_Read refuses a NULL buffer, reports an empty receive cache without
    writing a register, and otherwise, once the stream has finished, returns
    CAN_ERR_OK after one transfer into the caller's buffer, with the two
    streams swapped for the next call. *)
Theorem CAN_Read_results fuel hBus buff s :
  let stat := u32 (fst (mmio_rd SYS_STAT (snd (mmio_rd SYS_7 (dev s))))) in
  CAN_Read fuel hBus 0 s = Ret CAN_ERR_ILL_PARAM s /\
  (buff <> 0 -> Z.testbit stat 0 = false ->
   wp (CAN_Read fuel hBus buff) s (fun r s' =>
     r = CAN_ERR_RX_EMPTY /\ wlog s' = wlog s /\ glb s' = glb s)) /\
  (buff <> 0 -> Z.testbit stat 0 = true ->
   (forall n h, ready_within fuel (DMA_CR n) (fun v => any_bit v 1) h) ->
   wp (CAN_Read fuel hBus buff) s (fun r s' =>
     r = CAN_ERR_OK /\
     dma_idx (glb s') = (if dma_idx (glb s) =? DMA_IDX_2 then DMA_IDX_4 else DMA_IDX_2) /\
     exists cr, wlog s' = wlog s ++
       (if dma_idx (glb s) =? DMA_IDX_2 then transfer 2 4 buff cr else transfer 4 2 buff cr))).
Proof.
  cbv zeta. split; [done|]. unfold CAN_Read. split.
  - intros Hb Hs. destruct (Z.eqb_spec buff 0); [done|]. wp_steps. rewrite Hs. by wp_steps.
  - intros Hb Hs Hpoll. destruct (Z.eqb_spec buff 0); [done|]. wp_steps. rewrite Hs. wp_steps.
    destruct (dma_idx (glb s) =? DMA_IDX_2); unfold dma_start, dma_arm; wp_steps;
      (apply wp_poll; [apply Hpoll|]); intros d; wp_steps;
      (split_and!; [done..|]); eexists; rewrite <- !app_assoc; reflexivity.
Qed.
End read_properties.

(** * Initialising a controller *)

(** The register writes of one command. *)
Definition cmd_writes (hBus : Z) (c : Z * Z) : list (Z * Z) :=
  [(CAN_CMD_L hBus, fst c); (CAN_CMD_H hBus, snd c)].

(** Everything [CAN_Initialize] writes before it sets the clock. *)
Definition init_prefix (hBus : Z) : list (Z * Z) :=
  cmd_writes hBus ((hBus .<< 12) .| CMD_RESETMODE, 0) ++
  [(CAN_CNTL hBus, 1 .<< 6); (CAN_CNTL hBus, 2 .<< 6)].

(** The clock setting and the bit timing. *)
Definition init_timing (hBus v : Z) (t : CANTiming_t) : list (Z * Z) :=
  [(CAN_CNTL hBus, v)] ++ cmd_writes hBus (slow_timing_cmd t) ++ cmd_writes hBus (fast_timing_cmd t).

(** Options and the final mode command. *)
Definition init_mode (hBus : Z) (cmds : list (Z * Z)) (t : CANTiming_t) : list (Z * Z) :=
  concat (cmd_writes hBus <$> cmds) ++
  cmd_writes hBus (if listen_only t =? 0 then CMD_NORMALMODE else CMD_LISTENONLYMODE, 0).

(** The FPGA empties its TX cache within [fuel] polls of its status. *)
Definition cache_drains {B : Bus} (fuel : nat) (hBus : Z) : Prop :=
  forall h, ready_within fuel (CAN_STAT hBus) (fun v => v .& 2 =? 0) h.

Section init_lemmas.
Context {B : Bus}.
Implicit Types s : mach can_glob.

Lemma can_cmd_wr hBus c s :
  can_cmd hBus (fst c) (snd c) s = wr_all (cmd_writes hBus c) s.
Proof. done. Qed.

Lemma wp_can_cmd hBus lo hi s (Q : unit -> mach can_glob -> Prop) :
  (forall d, Q tt (Mach d (wlog s ++ wr_trace (cmd_writes hBus (lo, hi))) (glb s))) ->
  wp (can_cmd hBus lo hi) s Q.
Proof.
  intros HQ. unfold wp. rewrite (can_cmd_wr hBus (lo, hi)), wr_all_spec. apply HQ.
Qed.

Lemma wp_cmds hBus cmds s (Q : unit -> mach can_glob -> Prop) :
  (forall d, Q tt (Mach d (wlog s ++ wr_trace (concat (cmd_writes hBus <$> cmds))) (glb s))) ->
  wp (for_each cmds (fun c => can_cmd hBus (fst c) (snd c))) s Q.
Proof.
  intros HQ. unfold wp. rewrite (for_each_wr_all _ _ (cmd_writes hBus)), wr_all_spec; [apply HQ|].
  intros c t _ _. apply can_cmd_wr.
Qed.

Lemma wp_flush fuel hBus s (Q : unit -> mach can_glob -> Prop) :
  cache_drains fuel hBus ->
  (forall d, Q tt (Mach d (wlog s ++ wr_trace [(CAN_CNTL hBus, 1 .<< 6); (CAN_CNTL hBus, 2 .<< 6)])
                      (glb s))) ->
  wp (flush_tx fuel hBus) s Q.
Proof.
  intros Hd HQ. unfold flush_tx. wp_steps. unfold do_while. wp_steps.
  apply wp_poll; [apply Hd|]. intros d. wp_steps. rewrite <- app_assoc. apply HQ.
Qed.

(** Up to the clock setting every initialisation goes the same way. *)
Lemma wp_init_prefix fuel hBus t s (Q : Z -> mach can_glob -> Prop) :
  0 <= hBus <= 5 -> cache_drains fuel hBus ->
  (forall d, wp (match clock_cntl (can_clk t) with
     | None => ret CAN_ERR_ILL_SETUP
     | Some v =>
         wr (CAN_CNTL hBus) v ;;
         can_cmd hBus (fst (slow_timing_cmd t)) (snd (slow_timing_cmd t)) ;;
         can_cmd hBus (fst (fast_timing_cmd t)) (snd (fast_timing_cmd t)) ;;
         match mode_cmds (can_mode t) with
         | None => ret CAN_ERR_ILL_SETUP
         | Some cmds =>
             for_each cmds (fun c => can_cmd hBus (fst c) (snd c)) ;;
             can_cmd hBus (if listen_only t =? 0 then CMD_NORMALMODE else CMD_LISTENONLYMODE) 0 ;;
             ret CAN_ERR_OK
         end
     end) (Mach d (wlog s ++ wr_trace (init_prefix hBus)) (glb s)) Q) ->
  wp (CAN_Initialize fuel hBus (Some t)) s Q.
Proof.
  intros Hbus Hd HQ. unfold CAN_Initialize, CAN_BUS_MAX.
  destruct (Z.ltb_spec 5 hBus); [lia|]. wp_step. apply wp_can_cmd. intros d1. wp_step.
  apply wp_flush; [done|]. intros d2. cbn [wlog glb]. rewrite <- app_assoc, <- wr_trace_app.
  apply HQ.
Qed.

(** A successful initialisation, all of its commands. *)
Lemma wp_CAN_Initialize fuel hBus t v cmds s (Q : Z -> mach can_glob -> Prop) :
  0 <= hBus <= 5 -> cache_drains fuel hBus ->
  clock_cntl (can_clk t) = Some v -> mode_cmds (can_mode t) = Some cmds ->
  (forall d, Q CAN_ERR_OK (Mach d (wlog s ++
     wr_trace (init_prefix hBus ++ init_timing hBus v t ++ init_mode hBus cmds t)) (glb s))) ->
  wp (CAN_Initialize fuel hBus (Some t)) s Q.
Proof.
  intros Hbus Hd Hclk Hmode HQ. apply wp_init_prefix; [done..|]. intros d.
  rewrite Hclk, Hmode. wp_steps. apply wp_can_cmd. intros d1. wp_steps. apply wp_can_cmd.
  intros d2. wp_steps. apply wp_cmds. intros d3. wp_steps. apply wp_can_cmd. intros d4.
  wp_steps. cbn [wlog glb]. unfold init_timing, init_mode in HQ.
  specialize (HQ d4). rewrite !wr_trace_app, !app_assoc in HQ. by rewrite ?wr_trace_app, ?app_assoc.
Qed.

(** No write of [l] commands the controller of [hBus] to go on the bus. *)
Definition stays_off (hBus : Z) (l : list (Z * Z)) : Prop :=
  Forall (fun p => fst p = CAN_CMD_L hBus ->
    bits (snd p) 0 16 <> CMD_NORMALMODE /\ bits (snd p) 0 16 <> CMD_LISTENONLYMODE) l.

Lemma bits_u32_low v n : 0 <= n <= 32 -> bits (u32 v) 0 n = v mod 2 ^ n.
Proof.
  intros Hn. rewrite bits_alt, Z.div_1_r by lia. apply Z.bits_inj'. intros i Hi.
  destruct (Z.lt_ge_cases i n).
  - rewrite !Z.mod_pow2_bits_low, u32_testbit by lia. done.
  - by rewrite !Z.mod_pow2_bits_high by lia.
Qed.

(** A command word is its fields above bit 16 and the command number below. *)
Lemma cmd_number x c : 0 <= c < 2 ^ 16 -> bits (u32 ((x .<< 16) .| c)) 0 16 = c.
Proof.
  intros Hc. rewrite bits_u32_low by lia. apply Z.bits_inj'. intros i Hi.
  destruct (Z.lt_ge_cases i 16).
  - by rewrite Z.mod_pow2_bits_low, Z.lor_spec, Z.shiftl_spec, Z.testbit_neg_r by lia.
  - by rewrite Z.mod_pow2_bits_high, (testbit_above 16) by lia.
Qed.

Lemma timing_stays_off hBus v t :
  0 <= hBus <= 5 -> stays_off hBus (wr_trace (init_timing hBus v t)).
Proof.
  intros Hbus. unfold stays_off, init_timing, cmd_writes, slow_timing_cmd, fast_timing_cmd.
  assert (forall x c, (x .<< 24) .| c = ((x .<< 8) .<< 16) .| c) as Hsh.
  { intros. by rewrite Z.shiftl_shiftl by lia. }
  repeat apply Forall_cons_2; try apply Forall_nil_2; cbn [fst snd prod_map id];
    intros Haddr; try (unfold CAN_CNTL, CAN_CMD_H, CAN_CMD_L in Haddr; lia).
  - rewrite Hsh, <- Z.shiftl_lor, cmd_number by done. done.
  - rewrite Hsh, cmd_number by done. done.
Qed.
End init_lemmas.

(** ** Reading the timing back from the command words *)

Record phase_timing := Phase { ph_brp : Z; ph_tseg1 : Z; ph_tseg2 : Z; ph_sjw : Z; ph_limit : Z }.

(** The fields the controller finds in the two words of a timing command. *)
Definition decode_phase (c : Z * Z) : phase_timing := {|
  ph_brp := bits (u32 (snd c)) 16 16 + 1;
  ph_tseg1 := bits (u32 (snd c)) 8 8 + 1;
  ph_tseg2 := bits (u32 (snd c)) 0 8 + 1;
  ph_sjw := bits (u32 (fst c)) 24 8 + 1;
  ph_limit := bits (u32 (fst c)) 16 8;
|}.

(** The ranges can.h documents for a timing. *)
Definition timing_in_range (t : CANTiming_t) : Prop :=
  1 <= nom_brp t <= 1024 /\ 1 <= nom_tseg1 t <= 256 /\ 1 <= nom_tseg2 t <= 128 /\
  1 <= nom_sjw t <= 128 /\ 0 <= warning_limit t <= 255 /\
  1 <= data_brp t <= 1024 /\ 1 <= data_tseg1 t <= 32 /\ 1 <= data_tseg2 t <= 16 /\
  1 <= data_sjw t <= 16.

Lemma pack3 a b c :
  0 <= b < 256 -> 0 <= c < 256 ->
  (a .<< 16) .| (b .<< 8) .| c = a * 65536 + b * 256 + c.
Proof.
  intros Hb Hc.
  replace (a .<< 16) with ((a .<< 8) .<< 8) by (by rewrite Z.shiftl_shiftl by lia).
  rewrite <- Z.shiftl_lor, lor_shiftl_add, (lor_shiftl_add a 8 b) by lia. lia.
Qed.

Lemma decode_words a b c x y cmd :
  0 <= a < 65536 -> 0 <= b < 256 -> 0 <= c < 256 -> 0 <= x < 256 -> 0 <= y < 256 ->
  0 <= cmd < 65536 ->
  decode_phase ((x .<< 24) .| (y .<< 16) .| cmd, (a .<< 16) .| (b .<< 8) .| c) =
  Phase (a + 1) (b + 1) (c + 1) (x + 1) y.
Proof.
  intros Ha Hb Hc Hx Hy Hcmd. unfold decode_phase. cbn [fst snd].
  rewrite pack3 by lia.
  replace (x .<< 24) with ((x .<< 8) .<< 16) by (by rewrite Z.shiftl_shiftl by lia).
  rewrite <- Z.shiftl_lor, lor_shiftl_add, (lor_shiftl_add x 8 y) by lia.
  rewrite !u32_small by lia. rewrite !bits_alt by lia.
  change (2 ^ 24) with 16777216. change (2 ^ 16) with 65536. change (2 ^ 8) with 256.
  change (2 ^ 0) with 1. f_equal; zlia.
Qed.

Section init_properties.
Context {B : Bus}.
Implicit Types s : mach can_glob.

(** C32: initialising a bus with a supported clock and mode succeeds and sends,
    in this order: the reset-mode command, start and end of the cache flush, the
    clock setting, the arbitration and data timing, the mode options, and
    last the command to join the bus in normal or listen-only mode. *)
Theorem CAN_Initialize_sequence fuel hBus t v cmds s :
  0 <= hBus <= 5 -> cache_drains fuel hBus ->
  clock_cntl (can_clk t) = Some v -> mode_cmds (can_mode t) = Some cmds ->
  wp (CAN_Initialize fuel hBus (Some t)) s (fun r s' =>
    r = CAN_ERR_OK /\ glb s' = glb s /\
    wlog s' = wlog s ++
      wr_trace (init_prefix hBus ++ init_timing hBus v t ++ init_mode hBus cmds t)).
Proof. intros. apply wp_CAN_Initialize with (v := v) (cmds := cmds); [done..|]. by intros d. Qed.

(** The error results of CAN_Initialize: a bad bus or a NULL timing touches
    nothing; an unsupported clock or mode gives CAN_ERR_ILL_SETUP after the
    controller was put into reset mode, and no command that would let it join
    the bus has been sent. *)
Theorem CAN_Initialize_errors fuel hBus timing s :
  (5 < hBus -> CAN_Initialize fuel hBus timing s = Ret CAN_ERR_ILL_PARAM s) /\
  CAN_Initialize fuel hBus None s = Ret CAN_ERR_ILL_PARAM s /\
  (forall t, 0 <= hBus <= 5 -> cache_drains fuel hBus ->
     clock_cntl (can_clk t) = None \/ mode_cmds (can_mode t) = None ->
     wp (CAN_Initialize fuel hBus (Some t)) s (fun r s' =>
       r = CAN_ERR_ILL_SETUP /\ glb s' = glb s /\
       exists l, wlog s' = wlog s ++ wr_trace (init_prefix hBus ++ l) /\
         stays_off hBus (wr_trace (init_prefix hBus ++ l)))).
Proof.
  split_and!.
  - intros. unfold CAN_Initialize, CAN_BUS_MAX. by destruct (Z.ltb_spec 5 hBus); [|lia].
  - unfold CAN_Initialize. by destruct (CAN_BUS_MAX <? hBus).
  - intros t Hbus Hd Hbad. apply wp_init_prefix; [done..|]. intros d.
    assert (Hpre : stays_off hBus (wr_trace (init_prefix hBus))).
    { unfold stays_off. pattern hBus. apply (zrange_cases _ 0 6); [lia|].
      repeat constructor; done. }
    destruct (clock_cntl (can_clk t)) as [v|] eqn:Hclk.
    2: { wp_step. split_and!; [done..|]. exists []. by rewrite app_nil_r. }
    destruct (mode_cmds (can_mode t)) as [cmds|] eqn:Hmode.
    1: { by destruct Hbad. }
    wp_steps. apply wp_can_cmd. intros d1. wp_steps. apply wp_can_cmd. intros d2. wp_steps.
    split_and!; [done..|]. exists (init_timing hBus v t). cbn [wlog]. split.
    { by rewrite !wr_trace_app, <- !app_assoc. }
    rewrite wr_trace_app. apply Forall_app. split; [done|]. by apply timing_stays_off.
Qed.
End init_properties.

(** For every timing within the documented ranges the controller reads back
    from the two timing commands exactly the values of the struct, the error
    warning limit included. *)
Theorem timing_commands_roundtrip t :
  timing_in_range t ->
  decode_phase (slow_timing_cmd t) =
    Phase (nom_brp t) (nom_tseg1 t) (nom_tseg2 t) (nom_sjw t) (warning_limit t) /\
  decode_phase (fast_timing_cmd t) =
    Phase (data_brp t) (data_tseg1 t) (data_tseg2 t) (data_sjw t) 0.
Proof.
  intros (?&?&?&?&?&?&?&?&?). split.
  - unfold slow_timing_cmd. rewrite decode_words by (done || lia). f_equal; lia.
  - unfold fast_timing_cmd.
    replace ((data_sjw t - 1) .<< 24) with (((data_sjw t - 1) .<< 24) .| (0 .<< 16))
      by (by rewrite Z.lor_0_r).
    rewrite decode_words by (done || lia). f_equal; lia.
Qed.

(** * Witnesses *)

Section witnesses.
(** A received record is waiting, the streams are idle and the caches empty. *)
Definition idle_bus : Bus := const_bus (fun a => if a =? SYS_STAT then 1 else 2).
#[local] Existing Instance idle_bus.

Definition control_start : mach can_glob := Mach tt [] (CanGlob [] 0).
Definition listen_500k : CANTiming_t := CANTiming CAN_CLOCK_80M 1 127 32 32 96 1 1 2 15 4 4.

Lemma CAN_Read_always_armed_witness :
  dma_ready (final (CAN_Read 1 0 0x20001000 (final (CAN_Startup control_start)))).
Proof.
  apply (CAN_Read_always_armed 1 control_start); [reflexivity|].
  apply rtc_once. exists 0, 0x20001000. reflexivity.
Defined.

Lemma CAN_Read_results_witness :
  wp (CAN_Read 1 0 0x20001000) control_start (fun r s' => r = CAN_ERR_OK).
Proof.
  destruct (CAN_Read_results 1 0 0x20001000 control_start) as (_ & _ & H).
  eapply wp_mono; [apply H; [discriminate|vm_compute; reflexivity|]|].
  - intros n h. left. cbn [mmio_rd idle_bus const_bus fst].
    destruct (Z.eqb_spec (DMA_CR n) SYS_STAT) as [He|]; [exfalso|reflexivity].
    revert He. unfold DMA_CR, DMA2_Stream, DMA2_BASE, SYS_STAT, FPGA. lia.
  - intros r s' (Hr & _). exact Hr.
Defined.

Lemma drains_idle hBus : 0 <= hBus <= 5 -> cache_drains 1 hBus.
Proof. intros Hb h. left. zenum hBus 6%nat; reflexivity. Qed.

Lemma CAN_Initialize_sequence_witness :
  exists v cmds, wp (CAN_Initialize 1 3 (Some listen_500k)) control_start (fun r s' =>
    r = CAN_ERR_OK /\
    wlog s' = wr_trace (init_prefix 3 ++ init_timing 3 v listen_500k ++ init_mode 3 cmds listen_500k)).
Proof.
  destruct (clock_cntl (can_clk listen_500k)) as [v|] eqn:Hv; [|discriminate Hv].
  destruct (mode_cmds (can_mode listen_500k)) as [cmds|] eqn:Hm; [|discriminate Hm].
  exists v, cmds. eapply wp_mono.
  - apply (CAN_Initialize_sequence 1 3 listen_500k v cmds control_start);
      [lia|apply drains_idle; lia|exact Hv|exact Hm].
  - intros r s' (Hr & _ & Hl). split; [exact Hr|]. exact Hl.
Defined.

Lemma CAN_Initialize_errors_witness :
  CAN_Initialize 1 6 (Some listen_500k) control_start = Ret CAN_ERR_ILL_PARAM control_start.
Proof.
  destruct (CAN_Initialize_errors 1 6 (Some listen_500k) control_start) as [H _]. apply H. lia.
Defined.

Lemma timing_commands_roundtrip_witness :
  decode_phase (slow_timing_cmd listen_500k) = Phase 1 127 32 32 96.
Proof.
  apply (timing_commands_roundtrip listen_500k). unfold timing_in_range, listen_500k. cbn. lia.
Defined.
End witnesses.
