(* ===== verification/I2c.v ===== *)
(** The documented behaviour of the I2C1 peripheral of the STM32F765 in master
    mode with the M24M02 EEPROMs of the module on the bus, as an automaton over
    the registers eeprom.c uses; the class of devices that behave so; and a
    simulated device that does.  None of this is code of the repository: the
    class states what src/eeprom.c relies on. *)
From S2P Require Import Prelude Machine.

#[local] Open Scope fw_scope.

Definition I2C1 : Z := 0x40005400.
Definition I2C_CR2 : Z := I2C1 + 0x04.
Definition I2C_ISR : Z := I2C1 + 0x18.
Definition I2C_ICR : Z := I2C1 + 0x1C.
Definition I2C_RXDR : Z := I2C1 + 0x24.
Definition I2C_TXDR : Z := I2C1 + 0x28.

(** What the peripheral is doing. *)
Inductive phase :=
| Idle
| Probe (ack : bool)                              (* address only, automatic stop *)
| Tx (cntl : Z) (sent : list Z) (left : nat)      (* master write *)
| Rx (cell : Z) (left : nat)                      (* master read *)
| Stopping.                                       (* stop condition requested *)

(** [v_busy] is the number of address probes the EEPROM will still refuse
    because its internal write cycle is running. *)
Record view := View {
  v_cr2 : Z;
  v_phase : phase;
  v_stopf : bool;
  v_nackf : bool;
  v_mem : Z -> Z;
  v_busy : nat;
}.

(** Cell selected by a control byte and two address bytes: control bits 3..1
    are address bits 18..16. *)
Definition cell_addr (cntl hi lo : Z) : Z := bits cntl 1 3 * 65536 + hi * 256 + lo.

(** Page write: the address counter wraps within a page of 256 bytes. *)
Fixpoint page_write (mem : Z -> Z) (a : Z) (data : list Z) : Z -> Z :=
  match data with
  | [] => mem
  | d :: data' =>
      page_write (fun x => if x =? a then d else mem x)
        (a / 256 * 256 + (a + 1) mod 256) data'
  end.

(** Sequential read: the counter wraps at the end of a device of 256 KByte. *)
Definition next_cell (a : Z) : Z := a / 262144 * 262144 + (a + 1) mod 262144.

Definition with_phase (p : phase) (w : view) : view :=
  View (v_cr2 w) p (v_stopf w) (v_nackf w) (v_mem w) (v_busy w).

(** START with the transfer parameters of CR2 in [v]. *)
Definition start_xfer (v : Z) (w : view) : view :=
  let nbytes := Z.to_nat (bits v 16 8) in
  if Z.testbit v 10 then
    match v_phase w with
    | Tx cntl [hi; lo] 0 => with_phase (Rx (cell_addr cntl hi lo) nbytes) w
    | _ => w
    end
  else if (nbytes =? 0)%nat then
    View (v_cr2 w) (Probe (v_busy w =? 0)%nat) (v_stopf w) (v_nackf w) (v_mem w)
      (Nat.pred (v_busy w))
  else if (v_busy w =? 0)%nat then with_phase (Tx (bits v 0 8) [] nbytes) w
  else w.

(** STOP: a write of data bytes starts the internal write cycle. *)
Definition stop_xfer (cycle : nat) (w : view) : view :=
  match v_phase w with
  | Tx cntl (hi :: lo :: d :: data) 0 =>
      View (v_cr2 w) Stopping (v_stopf w) (v_nackf w)
        (page_write (v_mem w) (cell_addr cntl hi lo) (d :: data)) cycle
  | Tx _ _ 0 | Rx _ 0 => with_phase Stopping w
  | _ => w
  end.

Definition view_wr (cycle : nat) (a v : Z) (w : view) : view :=
  if a =? I2C_ICR then
    View (v_cr2 w) (v_phase w) (v_stopf w && negb (Z.testbit v 5))
      (v_nackf w && negb (Z.testbit v 4)) (v_mem w) (v_busy w)
  else if a =? I2C_CR2 then
    let w := View v (v_phase w) (v_stopf w) (v_nackf w) (v_mem w) (v_busy w) in
    if Z.testbit v 13 then start_xfer v w
    else if Z.testbit v 14 then stop_xfer cycle w
    else w
  else if a =? I2C_TXDR then
    match v_phase w with
    | Tx cntl sent (S n) => with_phase (Tx cntl (sent ++ [u8 v]) n) w
    | _ => w
    end
  else w.

Lemma view_wr_icr cycle v w :
  view_wr cycle I2C_ICR v w =
  View (v_cr2 w) (v_phase w) (v_stopf w && negb (Z.testbit v 5))
    (v_nackf w && negb (Z.testbit v 4)) (v_mem w) (v_busy w).
Proof. done. Qed.

Lemma view_wr_cr2 cycle v w :
  view_wr cycle I2C_CR2 v w =
  let w := View v (v_phase w) (v_stopf w) (v_nackf w) (v_mem w) (v_busy w) in
  if Z.testbit v 13 then start_xfer v w else if Z.testbit v 14 then stop_xfer cycle w else w.
Proof. done. Qed.

Lemma view_wr_txdr cycle v w cntl sent n :
  v_phase w = Tx cntl sent (S n) ->
  view_wr cycle I2C_TXDR v w = with_phase (Tx cntl (sent ++ [u8 v]) n) w.
Proof. intros Hp. unfold view_wr. cbn -[u8]. by rewrite Hp. Qed.

(** Clearing CR2 and requesting STOP. *)
Lemma view_wr_stop cycle w :
  v_phase (stop_xfer cycle w) = Stopping ->
  view_wr cycle I2C_CR2 (u32 (1 .<< 14)) (view_wr cycle I2C_CR2 (u32 0) w) =
  View (1 .<< 14) Stopping (v_stopf w) (v_nackf w) (v_mem (stop_xfer cycle w))
    (v_busy (stop_xfer cycle w)).
Proof.
  change (u32 (1 .<< 14)) with 16384. change (u32 0) with 0. rewrite !view_wr_cr2.
  destruct w as [cr2 [| |? [|? [|? [|? ?]]] [|]|? [|]|] st na m b]; done.
Qed.

(** The event that ends a probe or a stop condition. *)
Definition fire (w : view) : view :=
  match v_phase w with
  | Stopping => View (v_cr2 w) Idle true (v_nackf w) (v_mem w) (v_busy w)
  | Probe ack => View (v_cr2 w) Idle true (v_nackf w || negb ack) (v_mem w) (v_busy w)
  | _ => w
  end.

Definition txis (v : Z) : bool := any_bit v (1 .<< 1).
Definition rxne (v : Z) : bool := any_bit v (1 .<< 2).
Definition nackf (v : Z) : bool := any_bit v (1 .<< 4).
Definition stopf (v : Z) : bool := any_bit v (1 .<< 5).
Definition tc (v : Z) : bool := any_bit v (1 .<< 6).

(** What reading a register may return, and what it does. *)
Definition view_rd (a : Z) (w : view) (v : Z) (w' : view) : Prop :=
  if a =? I2C_ISR then
    (w' = w \/ w' = fire w) /\ stopf v = v_stopf w' /\ nackf v = v_nackf w' /\
    (v_phase w' = Idle -> txis v = false /\ rxne v = false /\ tc v = false)
  else if a =? I2C_RXDR then
    match v_phase w with
    | Rx cell (S n) => v = u8 (v_mem w cell) /\ w' = with_phase (Rx (next_cell cell) n) w
    | _ => w' = w
    end
  else w' = w /\ (a = I2C_CR2 -> v = u32 (v_cr2 w)).

(** The flag that is going to be set in a phase. *)
Definition awaited (p : phase) : option (Z -> bool) :=
  match p with
  | Tx _ _ (S _) => Some txis
  | Tx _ _ 0 => Some tc
  | Rx _ (S _) => Some rxne
  | Probe _ | Stopping => Some stopf
  | Rx _ 0 | Idle => None
  end.

(** Devices on which I2C1 and the EEPROM behave as documented: every register
    access refines the automaton, every awaited flag is seen within [i2c_lat]
    reads of ISR, and a write cycle lasts at most [ee_cycle] probes. *)
Class I2cEeprom (B : Bus) := {
  i2c_view : hw -> view;
  i2c_lat : nat;
  ee_cycle : nat;
  i2c_wr h a v : i2c_view (mmio_wr a v h) = view_wr ee_cycle a v (i2c_view h);
  i2c_rd h a :
    view_rd a (i2c_view h) (u32 (fst (mmio_rd a h))) (i2c_view (snd (mmio_rd a h)));
  i2c_progress h flag :
    awaited (v_phase (i2c_view h)) = Some flag ->
    ready_within i2c_lat I2C_ISR (fun v => negb (flag v)) h;
}.

(** * A simulated device *)

(** ISR with the awaited event already there. *)
Definition sim_isr (w : view) : Z :=
  (if v_stopf w then 32 else 0) + (if v_nackf w then 16 else 0) +
  match v_phase w with
  | Tx _ _ (S _) => 2
  | Tx _ _ 0 => 64
  | Rx _ (S _) => 4
  | _ => 0
  end.

Definition sim_rd (a : Z) (w : view) : Z * view :=
  if a =? I2C_ISR then (sim_isr (fire w), fire w)
  else if a =? I2C_RXDR then
    match v_phase w with
    | Rx cell (S n) => (u8 (v_mem w cell), with_phase (Rx (next_cell cell) n) w)
    | _ => (0, w)
    end
  else if a =? I2C_CR2 then (v_cr2 w, w) else (0, w).

(** The EEPROM is busy for two probes after a page write. *)
Definition sim_bus : Bus := {|
  hw := view;
  mmio_rd := sim_rd;
  mmio_wr := view_wr 2;
  ktick w := (0, w);
  os_delay _ w := w;
|}.

Lemma u32_u8 x : u32 (u8 x) = u8 x.
Proof. apply u32_small. pose proof (u8_range x). lia. Qed.

(** The flags of the simulated ISR are the ones of the state. *)
Lemma sim_isr_flags w :
  u32 (sim_isr w) = sim_isr w /\
  stopf (sim_isr w) = v_stopf w /\ nackf (sim_isr w) = v_nackf w /\
  txis (sim_isr w) = match v_phase w with Tx _ _ (S _) => true | _ => false end /\
  tc (sim_isr w) = match v_phase w with Tx _ _ 0 => true | _ => false end /\
  rxne (sim_isr w) = match v_phase w with Rx _ (S _) => true | _ => false end.
Proof.
  unfold sim_isr. destruct (v_stopf w), (v_nackf w);
    destruct (v_phase w) as [| |? ? [|]|? [|]|]; split_and!; reflexivity.
Qed.

Lemma sim_rd_view a (w : view) :
  view_rd a w (u32 (fst (sim_rd a w))) (snd (sim_rd a w)).
Proof.
  unfold view_rd, sim_rd. destruct (a =? I2C_ISR).
  { cbn. destruct (sim_isr_flags (fire w)) as (-> & -> & -> & -> & -> & ->).
    split_and!; [by right|done..|]. by intros ->. }
  destruct (a =? I2C_RXDR).
  { destruct (v_phase w) as [| | |? [|]|]; [done..| |done].
    split; [apply u32_u8|done]. }
  destruct (Z.eqb_spec a I2C_CR2); (split; [done|]); done.
Qed.

Lemma sim_progress (w : view) flag :
  awaited (v_phase w) = Some flag ->
  negb (flag (u32 (sim_isr (fire w)))) = false.
Proof.
  unfold fire. destruct w as [cr2 [|ack|? ? [|]|? [|]|] st na m b]; cbn [v_phase awaited];
    intros [= <-]; destruct st, na; try destruct ack; reflexivity.
Qed.

#[export] Instance sim_eeprom : I2cEeprom sim_bus := {|
  i2c_view := (fun w => w) : @hw sim_bus -> view;
  i2c_lat := 1;
  ee_cycle := 2;
  i2c_wr h a v := eq_refl;
  i2c_rd h a := sim_rd_view a h;
  i2c_progress h flag H := or_introl (sim_progress h flag H);
|}.
