(* ===== verification/Eeprom.v ===== *)
(** The EEPROM driver, src/eeprom.c with inc/eeprom.h: acknowledge polling, the
    write-back page cache and the API, translated onto the machine, and what
    each register-level routine does on a device of [I2cEeprom]. *)
From S2P Require Import Prelude Machine I2c.

#[local] Open Scope fw_scope.

Definition EEPROM_ERR_OK : Z := 0.
Definition EEPROM_ERR_ILLDEVICE : Z := 1.
Definition EEPROM_ERR_ILLPARAMVAL : Z := 2.

Definition EEPROM_DEV_ADDR : Z := 0xA0.
Definition EEPROM_CACHE_SIZE : Z := 128.
Definition EEPROM_MEM_SIZE : Z := 256 * 1024 * 2.
Definition PAGE_MASK : Z := EEPROM_CACHE_SIZE - 1.
Definition SAMEPAGE (addr1 addr2 : Z) : bool := addr1 .| PAGE_MASK =? addr2 .| PAGE_MASK.

(** [Cache] (an [EECache_t]) and [LastCntlByte]. *)
Record ee_glob := EeGlob {
  startaddr : Z;
  count : Z;
  dirty : Z;
  data : list Z;
  LastCntlByte : Z;
}.

Definition set_startaddr v g := EeGlob v (count g) (dirty g) (data g) (LastCntlByte g).
Definition set_count v g := EeGlob (startaddr g) v (dirty g) (data g) (LastCntlByte g).
Definition set_dirty v g := EeGlob (startaddr g) (count g) v (data g) (LastCntlByte g).
Definition set_data v g := EeGlob (startaddr g) (count g) (dirty g) v (LastCntlByte g).
Definition set_last v g := EeGlob (startaddr g) (count g) (dirty g) (data g) v.

Section eeprom.
Context {B : Bus}.
Abbreviation ee := (mach ee_glob).

(** [while (!(ISR & mask)) {}] and [while (ISR & mask) ICR = mask]. *)
Definition wait_flag (fuel : nat) (mask : Z) : M ee unit :=
  while_ fuel (v <- rd I2C_ISR ;; ret (negb (any_bit v mask))) (ret tt).
Definition clear_flags (fuel : nat) (mask : Z) : M ee unit :=
  while_ fuel (v <- rd I2C_ISR ;; ret (any_bit v mask)) (wr I2C_ICR mask).

(** Transfer parameters, then START; and STOP with the wait for its end. *)
Definition i2c_start (cr2 : Z) : M ee unit :=
  wr I2C_CR2 cr2 ;; rmw I2C_CR2 (fun v => v .| (1 .<< 13)).
Definition i2c_stop (fuel : nat) : M ee unit :=
  wr I2C_CR2 0 ;; wr I2C_CR2 (1 .<< 14) ;; wait_flag fuel (1 .<< 5).
Definition i2c_send (fuel : nat) (v : Z) : M ee unit :=
  wait_flag fuel (1 .<< 1) ;; wr I2C_TXDR v.

Fixpoint ack_loop (fuel : nat) (stat : Z) : M ee Z :=
  match fuel with
  | O => spin
  | S n =>
      isr <- rd I2C_ISR ;;
      let stat := if any_bit isr (1 .<< 4) then EEPROM_ERR_ILLDEVICE else stat in
      if negb (any_bit isr (1 .<< 5)) then ack_loop n stat else ret stat
  end.

Definition ackpoll (fuel : nat) : M ee Z :=
  clear_flags fuel (3 .<< 4) ;;
  g <- get_ ;;
  i2c_start ((1 .<< 25) .| (0 .<< 16) .| LastCntlByte g) ;;
  ack_loop fuel EEPROM_ERR_OK.

(** [while ( ackpoll() != EEPROM_ERR_OK) {}] *)
Definition wait_ready (fuel : nat) : M ee unit :=
  while_ fuel (r <- ackpoll fuel ;; ret (negb (r =? EEPROM_ERR_OK))) (ret tt).

(** The control byte that selects the device and the upper address bits. *)
Definition cntl_byte (addr : Z) : Z := u8 (EEPROM_DEV_ADDR .| ((addr .>> 15) .& 0x0E)).

(** The two address bytes of [Cache.startaddr]. *)
Definition send_address (fuel : nat) : M ee unit :=
  g <- get_ ;; i2c_send fuel ((startaddr g .>> 8) .& 0xFF) ;;
  g <- get_ ;; i2c_send fuel ((startaddr g .>> 0) .& 0xFF).

Definition writecachepage (fuel : nat) : M ee Z :=
  g <- get_ ;;
  if (dirty g =? 0) || (count g =? 0) then modify_ (set_dirty 0) ;; ret EEPROM_ERR_OK
  else
    wait_ready fuel ;;
    clear_flags fuel ((1 .<< 5) .| (1 .<< 1)) ;;
    modify_ (fun g => set_last (cntl_byte (startaddr g)) g) ;;
    g <- get_ ;;
    i2c_start ((0 .<< 25) .| (u32 (2 + count g) .<< 16) .| (0 .<< 10) .| LastCntlByte g) ;;
    send_address fuel ;;
    g <- get_ ;;
    for_each (zrange 0 (Z.to_nat (count g))) (fun i =>
      wait_flag fuel (1 .<< 1) ;;
      g <- get_ ;;
      d <- deref (aget (data g) i) ;;
      wr I2C_TXDR d) ;;
    wait_flag fuel (1 .<< 6) ;;
    i2c_stop fuel ;;
    modify_ (set_dirty 0) ;;
    ret EEPROM_ERR_OK.

Definition store_byte (i v : Z) : M ee unit :=
  g <- get_ ;;
  defined_if ((0 <=? i) && (i <? EEPROM_CACHE_SIZE)) ;;
  put_ (set_data (aset (data g) i (u8 v)) g).

Definition readcachepage (fuel : nat) (Addr cnt : Z) : M ee Z :=
  g <- get_ ;;
  r <- (if negb (dirty g =? 0) then writecachepage fuel else ret EEPROM_ERR_OK) ;;
  if negb (r =? EEPROM_ERR_OK) then ret r
  else
    modify_ (set_startaddr Addr) ;; modify_ (set_count cnt) ;;
    wait_ready fuel ;;
    clear_flags fuel ((1 .<< 6) .| (1 .<< 5) .| (1 .<< 2) .| (1 .<< 1)) ;;
    modify_ (fun g => set_last (cntl_byte (startaddr g)) g) ;;
    g <- get_ ;;
    i2c_start ((2 .<< 16) .| (0 .<< 10) .| LastCntlByte g) ;;
    send_address fuel ;;
    wait_flag fuel (1 .<< 6) ;;
    modify_ (fun g => set_last (cntl_byte (startaddr g)) g) ;;
    g <- get_ ;;
    i2c_start ((0 .<< 25) .| (cnt .<< 16) .| (1 .<< 10) .| LastCntlByte g) ;;
    g <- get_ ;;
    (if 1 <? count g then
       for_each (zrange 0 (Z.to_nat (count g))) (fun i =>
         wait_flag fuel (1 .<< 2) ;; v <- rd I2C_RXDR ;; store_byte i v)
     else ret tt) ;;
    i2c_stop fuel ;;
    modify_ (set_dirty 0) ;;
    ret EEPROM_ERR_OK.

(** The parameter checks [EEPROM_Read] and [EEPROM_Write] share. *)
Definition params_ok (addr : Z) (nonnull : bool) (length : Z) : bool :=
  negb (EEPROM_MEM_SIZE <=? addr) && negb (length =? 0) &&
  negb (EEPROM_MEM_SIZE <? u32 (addr + length)) && nonnull.

(** [while (length)] of [EEPROM_Read]: the bytes stored through [pBuff]. *)
Fixpoint read_loop (fuel n : nat) (addr : Z) (out : list Z) : M ee (Z * list Z) :=
  match n with
  | O => ret (EEPROM_ERR_OK, out)
  | S n' =>
      g <- get_ ;;
      r <- (if (addr <? startaddr g) || (count g <=? u32 (addr - startaddr g))
            then readcachepage fuel (addr .& not32 PAGE_MASK) EEPROM_CACHE_SIZE
            else ret EEPROM_ERR_OK) ;;
      if negb (r =? EEPROM_ERR_OK) then ret (r, out)
      else
        g <- get_ ;;
        d <- deref (aget (data g) (u32 (addr - startaddr g))) ;;
        read_loop fuel n' (u32 (addr + 1)) (out ++ [d])
  end.

(** [buffer] is NULL unless [nonnull]; what is stored in it is returned. *)
Definition EEPROM_Read (fuel : nat) (addr : Z) (nonnull : bool) (length : Z) : M ee (Z * list Z) :=
  if negb (params_ok addr nonnull length) then ret (EEPROM_ERR_ILLPARAMVAL, [])
  else
    g <- get_ ;;
    r <- (if negb (dirty g =? 0) then writecachepage fuel else ret EEPROM_ERR_OK) ;;
    if negb (r =? EEPROM_ERR_OK) then ret (r, [])
    else read_loop fuel (Z.to_nat length) addr [].

(** One round of [EEPROM_Write]: the rest of the buffer, or an error. *)
Definition write_byte (fuel : nat) (addr : Z) (pBuff : list Z) : M ee (Z * list Z) :=
  g <- get_ ;;
  r <- (if negb (SAMEPAGE addr (startaddr g)) || (addr <? startaddr g) ||
           (u32 (startaddr g + count g) <? addr)
        then writecachepage fuel else ret EEPROM_ERR_OK) ;;
  if negb (r =? EEPROM_ERR_OK) then ret (r, pBuff)
  else
    g <- get_ ;;
    (if dirty g =? 0 then
       modify_ (set_startaddr addr) ;; modify_ (set_dirty 1) ;; modify_ (set_count 0)
     else ret tt) ;;
    g <- get_ ;;
    if addr =? u32 (startaddr g + count g) then
      d <- deref (head pBuff) ;;
      store_byte (count g) d ;;
      modify_ (set_count (u32 (count g + 1))) ;;
      ret (EEPROM_ERR_OK, tail pBuff)
    else ret (EEPROM_ERR_OK, pBuff).

Fixpoint write_loop (fuel n : nat) (addr : Z) (pBuff : list Z) : M ee Z :=
  match n with
  | O => ret EEPROM_ERR_OK
  | S n' =>
      p <- write_byte fuel addr pBuff ;;
      if negb (fst p =? EEPROM_ERR_OK) then ret (fst p)
      else write_loop fuel n' (u32 (addr + 1)) (snd p)
  end.

(** [buffer]: the bytes at the caller's pointer, [None] for NULL. *)
Definition EEPROM_Write (fuel : nat) (addr : Z) (buffer : option (list Z)) (length : Z) : M ee Z :=
  match buffer with
  | Some pBuff =>
      if negb (params_ok addr true length) then ret EEPROM_ERR_ILLPARAMVAL
      else write_loop fuel (Z.to_nat length) addr pBuff
  | None => ret EEPROM_ERR_ILLPARAMVAL
  end.

Definition EEPROM_FlushCache (fuel : nat) : M ee Z :=
  r <- writecachepage fuel ;;
  if negb (r =? EEPROM_ERR_OK) then ret r
  else wait_ready fuel ;; modify_ (set_count 0) ;; ret r.

Definition EEPROM_Init (fuel : nat) : M ee unit :=
  modify_ (set_dirty 0) ;; modify_ (set_count 0) ;; modify_ (set_startaddr 0xFFFFFFFF) ;;
  modify_ (set_last EEPROM_DEV_ADDR) ;;
  ackpoll fuel ;; ret tt.
End eeprom.

(** * What the routines do on the device *)

Section routines.
Context {B : Bus} {E : I2cEeprom B}.
Abbreviation ee := (mach ee_glob).
Implicit Types (s : ee) (w : view) (d : hw).

Definition vw s : view := i2c_view (dev s).

(** Enough fuel for every poll: the flag latency, and the write cycle. *)
Definition enough (fuel : nat) : Prop := (i2c_lat < fuel)%nat /\ (S ee_cycle < fuel)%nat /\ (1 < fuel)%nat.

(** Between transfers: the bus is idle and the EEPROM at most in one cycle. *)
Definition quiet s : Prop := v_phase (vw s) = Idle /\ (v_busy (vw s) <= ee_cycle)%nat.

Lemma any_bit_lor v a b : any_bit v (a .| b) = any_bit v a || any_bit v b.
Proof.
  unfold any_bit. rewrite Z.land_lor_distr_r. rewrite <- negb_andb. f_equal.
  destruct (Z.eqb_spec (v .& a) 0) as [->|Ha], (Z.eqb_spec (v .& b) 0) as [->|Hb];
    cbn; apply Z.eqb_eq || apply Z.eqb_neq; rewrite ?Z.lor_0_r, ?Z.lor_0_l; try done.
  intros [? ?]%Z.lor_eq_0_iff. done.
Qed.

Lemma rd_isr d :
  let v := u32 (fst (mmio_rd I2C_ISR d)) in
  let w' := i2c_view (snd (mmio_rd I2C_ISR d)) in
  (w' = i2c_view d \/ w' = fire (i2c_view d)) /\ stopf v = v_stopf w' /\ nackf v = v_nackf w' /\
  (v_phase w' = Idle -> txis v = false /\ rxne v = false /\ tc v = false).
Proof. apply (i2c_rd d I2C_ISR). Qed.

(** Waiting for a flag of a transfer in progress changes nothing. *)
Lemma wp_wait_flag fuel mask s (Q : unit -> ee -> Prop) :
  enough fuel -> awaited (v_phase (vw s)) = Some (fun v => any_bit v mask) ->
  fire (vw s) = vw s ->
  (forall d, i2c_view d = vw s -> Q tt (Mach d (wlog s) (glb s))) ->
  wp (wait_flag fuel mask) s Q.
Proof.
  intros (Hf & _ & _) Ha Hfire HQ.
  apply (wp_poll_inv (fun d => i2c_view d = vw s) (fun d => i2c_view d = vw s)); [| done | |done].
  - apply (ready_within_mono i2c_lat); [lia|]. by apply (i2c_progress (dev s)).
  - intros d Hd. destruct (rd_isr d) as [Hw' _]. rewrite Hd, Hfire in Hw'.
    by destruct (negb _), Hw'.
Qed.

(** Waiting for the end of a stop condition completes it. *)
Lemma wp_wait_stop fuel s (Q : unit -> ee -> Prop) :
  enough fuel -> v_phase (vw s) = Stopping -> v_stopf (vw s) = false ->
  (forall d, i2c_view d = fire (vw s) -> Q tt (Mach d (wlog s) (glb s))) ->
  wp (wait_flag fuel (1 .<< 5)) s Q.
Proof.
  intros (Hf & _ & _) Hp Hs HQ.
  apply (wp_poll_inv (fun d => i2c_view d = vw s) (fun d => i2c_view d = fire (vw s)));
    [| done | |done].
  - apply (ready_within_mono i2c_lat); [lia|]. apply (i2c_progress (dev s) stopf).
    unfold vw in Hp. by rewrite Hp.
  - intros d Hd. destruct (rd_isr d) as (Hw' & Hst & _). rewrite Hd in Hw'.
    unfold stopf in Hst. rewrite Hst. destruct Hw' as [Hw'|Hw']; rewrite Hw'.
    + by rewrite Hs.
    + unfold fire. by rewrite Hp.
Qed.

Lemma wp_wr_view a v s (Q : unit -> ee -> Prop) :
  (forall d l, i2c_view d = view_wr ee_cycle a (u32 v) (vw s) -> Q tt (Mach d l (glb s))) ->
  wp (wr a v) s Q.
Proof. intros HQ. apply wp_wr, HQ. apply i2c_wr. Qed.

(** START. *)
Lemma wp_i2c_start cr2 s (Q : unit -> ee -> Prop) :
  0 <= cr2 < 2 ^ 32 -> Z.testbit cr2 13 = false -> Z.testbit cr2 14 = false ->
  (forall d l, i2c_view d = start_xfer (cr2 .| (1 .<< 13))
       (View (cr2 .| (1 .<< 13)) (v_phase (vw s)) (v_stopf (vw s)) (v_nackf (vw s))
          (v_mem (vw s)) (v_busy (vw s))) -> Q tt (Mach d l (glb s))) ->
  wp (i2c_start cr2) s Q.
Proof.
  intros Hr H13 H14 HQ. unfold i2c_start. apply wp_bind, wp_wr_view. intros d l Hd.
  unfold rmw. apply wp_bind, wp_rd. cbn [dev wlog glb].
  pose proof (i2c_rd d I2C_CR2) as [Hw Hv]. specialize (Hv eq_refl).
  apply wp_wr_view. intros d' l' Hd'. apply HQ. rewrite Hd'. unfold vw. cbn [dev].
  rewrite Hw, Hv, Hd, (u32_small cr2), (view_wr_cr2 _ cr2), H13, H14 by done.
  cbn [v_cr2 v_phase v_stopf v_nackf v_mem v_busy].
  assert (0 <= cr2 .| (1 .<< 13) < 2 ^ 32) by (apply lor_lt_pow2; done).
  rewrite (u32_small cr2), (u32_small (cr2 .| _)), view_wr_cr2 by done.
  by rewrite Z.lor_spec, Z.shiftl_spec, orb_true_r by lia.
Qed.

(** One byte of a master write. *)
Lemma wp_i2c_send fuel v cntl sent n s (Q : unit -> ee -> Prop) :
  enough fuel -> 0 <= v < 256 -> v_phase (vw s) = Tx cntl sent (S n) ->
  (forall d l, i2c_view d = with_phase (Tx cntl (sent ++ [v]) n) (vw s) ->
     Q tt (Mach d l (glb s))) ->
  wp (i2c_send fuel v) s Q.
Proof.
  intros Hf Hv Hp HQ. apply wp_bind, wp_wait_flag; [done|by rewrite Hp| |].
  { unfold fire. by rewrite Hp. }
  intros d Hd. apply wp_wr_view. intros d' l' Hd'. apply HQ. rewrite Hd'. unfold vw. cbn [dev].
  rewrite Hd. by rewrite (view_wr_txdr _ _ _ _ _ _ Hp), u32_small, u8_small by lia.
Qed.

(** STOP and the wait for its end. *)
Lemma wp_i2c_stop fuel s (Q : unit -> ee -> Prop) :
  enough fuel -> v_stopf (vw s) = false -> 
  v_phase (stop_xfer ee_cycle (vw s)) = Stopping ->
  (forall d l, v_phase (i2c_view d) = Idle ->
     v_mem (i2c_view d) = v_mem (stop_xfer ee_cycle (vw s)) ->
     v_busy (i2c_view d) = v_busy (stop_xfer ee_cycle (vw s)) -> Q tt (Mach d l (glb s))) ->
  wp (i2c_stop fuel) s Q.
Proof.
  intros Hf Hs Hp HQ. unfold i2c_stop. apply wp_bind, wp_wr_view. intros d l Hd.
  apply wp_bind, wp_wr_view. intros d' l' Hd'. cbn [glb].
  unfold vw in Hd'. cbn [dev] in Hd'. rewrite Hd, view_wr_stop in Hd' by done.
  apply wp_wait_stop; [done|unfold vw; cbn [dev]; by rewrite Hd'..|].
  intros d'' Hd''. unfold vw in Hd''. cbn [dev] in Hd''. rewrite Hd' in Hd''.
  by apply HQ; rewrite Hd''.
Qed.

(** In a quiet state reading ISR changes nothing and shows the two flags. *)
Lemma rd_isr_idle d :
  v_phase (i2c_view d) = Idle ->
  let v := u32 (fst (mmio_rd I2C_ISR d)) in
  i2c_view (snd (mmio_rd I2C_ISR d)) = i2c_view d /\
  stopf v = v_stopf (i2c_view d) /\ nackf v = v_nackf (i2c_view d) /\
  txis v = false /\ rxne v = false /\ tc v = false.
Proof.
  intros Hp. destruct (rd_isr d) as (Hw & Hst & Hn & Hi).
  assert (i2c_view (snd (mmio_rd I2C_ISR d)) = i2c_view d) as Heq.
  { destruct Hw as [Hw|Hw]; rewrite Hw; [done|]. unfold fire. by rewrite Hp. }
  rewrite Heq in *. destruct (Hi Hp) as (? & ? & ?). done.
Qed.

(** The three clearing loops: the flags of [mask] are stop, maybe NACK, and
    flags that are clear when the bus is idle. *)
Definition clearing (mask : Z) (nk : bool) : Prop :=
  0 <= mask < 2 ^ 32 /\ Z.testbit mask 5 = true /\ Z.testbit mask 4 = nk /\
  forall v, txis v = false -> rxne v = false -> tc v = false ->
    any_bit v mask = stopf v || (nk && nackf v).

Lemma clearing_ack : clearing (3 .<< 4) true.
Proof.
  split_and!; [done..|]. intros v _ _ _. change (3 .<< 4) with ((1 .<< 5) .| (1 .<< 4)).
  apply any_bit_lor.
Qed.

Lemma clearing_write : clearing ((1 .<< 5) .| (1 .<< 1)) false.
Proof.
  split_and!; [done..|]. intros v Ht _ _. rewrite any_bit_lor. unfold txis in Ht. by rewrite Ht.
Qed.

Lemma clearing_read : clearing ((1 .<< 6) .| (1 .<< 5) .| (1 .<< 2) .| (1 .<< 1)) false.
Proof.
  split_and!; [done..|]. intros v Ht Hr Hc. rewrite !any_bit_lor. unfold txis, rxne, tc in *.
  by rewrite Ht, Hr, Hc, !orb_false_r.
Qed.

Lemma wp_clear_flags fuel mask nk s (Q : unit -> ee -> Prop) :
  enough fuel -> clearing mask nk -> v_phase (vw s) = Idle ->
  (forall d l nf, (nk = true -> nf = false) ->
     i2c_view d = View (v_cr2 (vw s)) Idle false nf (v_mem (vw s)) (v_busy (vw s)) ->
     Q tt (Mach d l (glb s))) ->
  wp (clear_flags fuel mask) s Q.
Proof.
  intros (_ & _ & Hf) (Hr & H5 & H4 & Hany) Hp HQ. unfold clear_flags.
  destruct fuel as [|[|fuel]]; [lia..|]. cbn [while_]. apply wp_bind, wp_bind, wp_rd, wp_ret.
  destruct (rd_isr_idle (dev s) Hp) as (Hw & Hst & Hn & Ht & Hx & Hc).
  rewrite (Hany _ Ht Hx Hc), Hst, Hn. fold (vw s) in *.
  destruct (v_stopf (vw s) || nk && v_nackf (vw s)) eqn:Hfl.
  - apply wp_bind, wp_wr_view. intros d l Hd. unfold vw in Hd. cbn [dev] in Hd.
    rewrite Hw, view_wr_icr, u32_small, H5, H4, andb_false_r in Hd by done.
    fold (vw s) in Hd. rewrite Hp in Hd.
    apply wp_bind, wp_bind, wp_rd, wp_ret. cbn [dev wlog glb].
    destruct (rd_isr_idle d) as (Hw' & Hst' & Hn' & Ht' & Hx' & Hc'); [by rewrite Hd|].
    rewrite (Hany _ Ht' Hx' Hc'), Hst', Hn', Hd. cbn [v_stopf v_nackf].
    replace (nk && _) with false by (destruct nk, (v_nackf (vw s)); done).
    apply wp_ret. eapply HQ; [|by rewrite Hw', Hd]. intros ->. by rewrite andb_false_r.
  - apply wp_ret. apply orb_false_iff in Hfl as [Hfs Hfn].
    apply (HQ _ _ (v_nackf (vw s))); [by intros ->|]. rewrite Hw. fold (vw s).
    revert Hp Hfs. by destruct (vw s); cbn; intros -> ->.
Qed.

(** The acknowledge loop reports whether the probe was refused. *)
Lemma wp_ack_loop n fuel ack s (Q : Z -> ee -> Prop) :
  ready_within n I2C_ISR (fun v => negb (stopf v)) (dev s) -> (n <= fuel)%nat ->
  v_phase (vw s) = Probe ack -> v_stopf (vw s) = false -> v_nackf (vw s) = false ->
  (forall d, i2c_view d = fire (vw s) ->
     Q (if ack then EEPROM_ERR_OK else EEPROM_ERR_ILLDEVICE) (Mach d (wlog s) (glb s))) ->
  wp (ack_loop fuel EEPROM_ERR_OK) s Q.
Proof.
  intros Hr Hn Hp Hs Hk HQ. destruct s as [d w g]. unfold vw in *. cbn [dev wlog glb] in *.
  revert d fuel Hn Hr Hp Hs Hk HQ. induction n as [|n IH]; intros d fuel Hn Hr Hp Hs Hk HQ; [done|].
  destruct fuel as [|fuel]; [lia|]. cbn [ack_loop]. apply wp_bind, wp_rd. cbn [dev wlog glb].
  destruct (rd_isr d) as (Hw & Hst & Hnk & _). fold (nackf (u32 (fst (mmio_rd I2C_ISR d)))).
  fold (stopf (u32 (fst (mmio_rd I2C_ISR d)))). cbn [ready_within] in Hr.
  rewrite Hst in *. rewrite Hnk. destruct Hw as [Hw|Hw]; rewrite Hw in *.
  - rewrite Hs, Hk in *. cbn [negb]. destruct Hr as [?|Hr]; [done|].
    apply IH; [lia|done|rewrite Hw; done..|]. intros d' Hd'. apply HQ. by rewrite Hd', Hw.
  - specialize (HQ _ Hw). unfold fire. rewrite Hp, Hk. cbn [v_stopf v_nackf negb orb].
    apply wp_ret. by destruct ack.
Qed.

Lemma start_probe v w : bits v 16 8 = 0 -> Z.testbit v 10 = false ->
  start_xfer v w = View (v_cr2 w) (Probe (v_busy w =? 0)%nat) (v_stopf w) (v_nackf w) (v_mem w)
      (Nat.pred (v_busy w)).
Proof. intros Hb Ht. unfold start_xfer. by rewrite Hb, Ht. Qed.

(** [ackpoll] asks once: OK exactly when no write cycle is running. *)
Lemma wp_ackpoll fuel s (Q : Z -> ee -> Prop) :
  enough fuel -> quiet s -> 0 <= LastCntlByte (glb s) < 256 ->
  (forall d l, v_phase (i2c_view d) = Idle -> v_mem (i2c_view d) = v_mem (vw s) ->
     v_busy (i2c_view d) = Nat.pred (v_busy (vw s)) ->
     Q (if (v_busy (vw s) =? 0)%nat then EEPROM_ERR_OK else EEPROM_ERR_ILLDEVICE)
       (Mach d l (glb s))) ->
  wp (ackpoll fuel) s Q.
Proof.
  intros Hf [Hp Hb] Hl HQ. unfold ackpoll.
  apply wp_bind, (wp_clear_flags _ _ true); [done|apply clearing_ack|done|].
  intros d l nf Hnf Hd. rewrite Hnf in Hd by done. apply wp_bind, wp_get. cbn [glb].
  set (L := LastCntlByte (glb s)) in *. change (0 .<< 16) with 0. rewrite Z.lor_0_r.
  assert (forall i, 8 <= i -> i <> 25 -> Z.testbit ((1 .<< 25) .| L) i = false) as Hbit.
  { intros i Hi Hne. rewrite Z.lor_spec, (testbit_above 8 L), orb_false_r by lia.
    rewrite Z.shiftl_1_l. by apply Z.pow2_bits_false. }
  apply wp_bind, wp_i2c_start; [|by apply Hbit..|].
  { apply lor_lt_pow2; [done..|lia]. }
  intros d' l' Hd'. rewrite start_probe in Hd'.
  2: { apply (bits_ext 8); [done|apply bits_range; done|done|]. intros i Hi.
       rewrite bits_testbit, Z.lor_spec, Hbit, Z.bits_0, Z.shiftl_1_l, Z.pow2_bits_false by lia.
       done. }
  2: { rewrite Z.lor_spec, Hbit by done. done. }
  unfold vw in Hd'. cbn [dev] in Hd'. rewrite Hd in Hd'.
  cbn [v_cr2 v_phase v_stopf v_nackf v_mem v_busy] in Hd'.
  eapply (wp_ack_loop i2c_lat); [|destruct Hf; lia| | | |]; unfold vw; cbn [dev].
  - apply (i2c_progress d' stopf). by rewrite Hd'.
  - by rewrite Hd'.
  - by rewrite Hd'.
  - by rewrite Hd'.
  - intros d'' Hd''. rewrite Hd' in Hd''. apply HQ; by rewrite Hd''.
Qed.

(** Waiting for the EEPROM ends the write cycle. *)
Lemma wp_wait_ready fuel s (Q : unit -> ee -> Prop) :
  enough fuel -> quiet s -> 0 <= LastCntlByte (glb s) < 256 ->
  (forall d l, v_phase (i2c_view d) = Idle -> v_mem (i2c_view d) = v_mem (vw s) ->
     v_busy (i2c_view d) = 0%nat -> Q tt (Mach d l (glb s))) ->
  wp (wait_ready fuel) s Q.
Proof.
  intros Hf Hq Hl HQ. destruct Hq as [Hp Hb].
  apply (wp_while (fun n t => v_phase (vw t) = Idle /\ v_busy (vw t) = n /\
     (n <= ee_cycle)%nat /\ v_mem (vw t) = v_mem (vw s) /\ glb t = glb s) _ _ _ (v_busy (vw s))).
  - done.
  - destruct Hf as (_ & ? & _). lia.
  - intros n t (Hp' & Hb' & Hn & Hm' & Hg).
    apply wp_bind, wp_ackpoll; [done|split; [done|lia]|by rewrite Hg|].
    intros d l Hd Hdm Hdb. apply wp_ret. rewrite Hb' in *. destruct n as [|n]; cbn.
    + rewrite Hg. apply HQ; [done|congruence|done].
    + exists n. split; [lia|]. unfold vw in *. cbn [dev glb Nat.pred] in *.
      split_and!; [congruence..|lia|congruence|congruence].
Qed.

(** ** Page transfers *)

(** The fields of the CR2 values of the driver. *)
Lemma cr2_fields n (r : bool) last :
  0 <= n < 256 -> 0 <= last < 256 ->
  let v := (n .<< 16) .| (Z.b2z r .<< 10) .| last in
  (0 <= v < 2 ^ 32 /\ Z.testbit v 13 = false /\ Z.testbit v 14 = false) /\
  bits (v .| (1 .<< 13)) 16 8 = n /\ Z.testbit (v .| (1 .<< 13)) 10 = r /\
  bits (v .| (1 .<< 13)) 0 8 = last.
Proof.
  intros Hn Hl v.
  assert (Hv : forall i, 0 <= i -> Z.testbit v i =
    (if i <? 8 then Z.testbit last i else (i =? 10) && r) || Z.testbit n (i - 16)).
  { intros i Hi. unfold v. rewrite !Z.lor_spec, !Z.shiftl_spec by done.
    destruct (Z.ltb_spec i 8).
    - rewrite (Z.testbit_neg_r _ (i - 10)), (Z.testbit_neg_r _ (i - 16)) by lia.
      cbn [orb]. by rewrite orb_false_r.
    - rewrite (testbit_above 8 last), orb_false_r by lia. rewrite orb_comm. f_equal.
      destruct (Z.eqb_spec i 10) as [->|Hne]; [by destruct r|].
      destruct (Z.lt_ge_cases i 10); [apply Z.testbit_neg_r; lia|].
      rewrite (testbit_above 1); [done|destruct r; cbn; lia|lia]. }
  assert (H13 : forall i, i <> 13 -> Z.testbit (v .| (1 .<< 13)) i = Z.testbit v i).
  { intros i Hi. rewrite Z.lor_spec, Z.shiftl_1_l, Z.pow2_bits_false, orb_false_r by lia. done. }
  split; [split; [|split]|split; [|split]].
  - apply lt_pow2_bits; [done|intros i Hi]. rewrite Hv by lia.
    destruct (Z.ltb_spec i 8), (Z.eqb_spec i 10); try lia. by apply (testbit_above 8); lia.
  - by rewrite Hv, (Z.testbit_neg_r n) by lia.
  - by rewrite Hv, (Z.testbit_neg_r n) by lia.
  - apply (bits_ext 8); [done|by apply bits_range|done|]. intros i Hi.
    rewrite bits_testbit, H13, Hv by lia. rewrite bool_decide_true, andb_true_r by lia.
    replace (i + 16 - 16) with i by lia.
    destruct (Z.ltb_spec (i + 16) 8), (Z.eqb_spec (i + 16) 10); try lia. done.
  - rewrite H13, Hv, (Z.testbit_neg_r n), orb_false_r by lia. done.
  - apply (bits_ext 8); [done|by apply bits_range|done|]. intros i Hi.
    rewrite bits_testbit, H13, Hv by lia. rewrite bool_decide_true, andb_true_r by lia.
    rewrite Z.add_0_r, (Z.testbit_neg_r n), orb_false_r by lia.
    by destruct (Z.ltb_spec i 8); [|lia].
Qed.

(** The control byte and the two address bytes reach every cell of the two
    devices: they are the address again. *)
Lemma cell_addr_cntl a :
  0 <= a < 2 ^ 19 ->
  cell_addr (cntl_byte a) ((a .>> 8) .& 0xFF) ((a .>> 0) .& 0xFF) = a.
Proof.
  intros Ha. unfold cell_addr, cntl_byte.
  assert (bits (u8 (EEPROM_DEV_ADDR .| ((a .>> 15) .& 14))) 1 3 = a / 2 ^ 16) as ->.
  { rewrite <- Z.shiftr_div_pow2 by done. apply (bits_ext 3); [done|by apply bits_range| |].
    { rewrite Z.shiftr_div_pow2 by done. zlia. }
    intros i Hi. rewrite bits_testbit, bool_decide_true, andb_true_r by lia.
    unfold u8. rewrite Z.mod_pow2_bits_low by lia.
    rewrite Z.lor_spec, Z.land_spec, !Z.shiftr_spec by lia.
    replace (i + 1 + 15) with (i + 16) by lia.
    assert (i = 0 \/ i = 1 \/ i = 2) as [->|[->| ->]] by lia; cbn; by rewrite andb_true_r. }
  change 0xFF with (Z.ones 8). rewrite !Z.land_ones, !Z.shiftr_div_pow2 by done. zlia.
Qed.

Lemma cntl_byte_range a : 0 <= cntl_byte a < 256.
Proof. apply u8_range. Qed.

(** Memory with the bytes [l] written from [a] on. *)
Definition overlay (mem : Z -> Z) (a : Z) (l : list Z) (x : Z) : Z :=
  match aget l (x - a) with Some d => d | None => mem x end.

Lemma aget_cons {A} (d : A) l i : aget (d :: l) i = if i =? 0 then Some d else aget l (i - 1).
Proof.
  unfold aget. destruct (Z.eqb_spec i 0) as [->|Hne]; [done|].
  destruct (Z.ltb_spec i 0), (Z.ltb_spec (i - 1) 0); try lia; [done|].
  replace (Z.to_nat i) with (S (Z.to_nat (i - 1))) by lia. done.
Qed.

(** A page write that stays in the page writes consecutive cells. *)
Lemma page_write_overlay l mem a x :
  a mod 256 + Z.of_nat (length l) <= 256 ->
  page_write mem a l x = overlay mem a l x.
Proof.
  unfold overlay. revert mem a. induction l as [|d l IH]; intros mem a Ha; cbn [page_write].
  { unfold aget. by destruct (x - a <? 0). }
  rewrite length_cons in Ha. rewrite aget_cons. destruct l as [|d' l].
  { cbn [page_write]. destruct (Z.eqb_spec x a), (Z.eqb_spec (x - a) 0); try lia.
    unfold aget. by destruct (_ <? 0). }
  assert (a / 256 * 256 + (a + 1) mod 256 = a + 1) as Hnext.
  { rewrite length_cons in Ha. zlia. }
  rewrite Hnext, IH.
  2: { rewrite !length_cons in *. zlia. }
  replace (x - a - 1) with (x - (a + 1)) by lia.
  destruct (Z.eqb_spec x a), (Z.eqb_spec (x - a) 0); try lia. subst x.
  replace (aget (d' :: l) (a - (a + 1))) with (@None Z); [done|].
  unfold aget. by destruct (Z.ltb_spec (a - (a + 1)) 0); [|lia].
Qed.

Lemma start_tx v w cntl n :
  bits v 16 8 = n -> 0 < n -> Z.testbit v 10 = false -> bits v 0 8 = cntl -> v_busy w = 0%nat ->
  start_xfer v w = with_phase (Tx cntl [] (Z.to_nat n)) w.
Proof.
  intros Hn Hpos H10 Hc Hb. unfold start_xfer. rewrite Hn, H10, Hc, Hb.
  destruct (Nat.eqb_spec (Z.to_nat n) 0); [lia|done].
Qed.

(** What is known while a master write runs: only the phase moves. *)
Definition sending (w0 : view) (cntl : Z) (sent : list Z) (left : nat) (d : hw) : Prop :=
  i2c_view d = with_phase (Tx cntl sent left) w0.

(** The start of a master write of [n] bytes to a ready EEPROM. *)
Lemma wp_start_write n last s (Q : unit -> ee -> Prop) :
  0 < n < 256 -> 0 <= last < 256 -> v_phase (vw s) = Idle -> v_stopf (vw s) = false ->
  v_busy (vw s) = 0%nat ->
  (forall d l w0, sending w0 last [] (Z.to_nat n) d -> v_stopf w0 = false ->
     v_mem w0 = v_mem (vw s) -> v_busy w0 = 0%nat -> Q tt (Mach d l (glb s))) ->
  wp (i2c_start ((n .<< 16) .| (0 .<< 10) .| last)) s Q.
Proof.
  intros Hn Hl Hp Hs Hb HQ.
  destruct (cr2_fields n false last) as ((? & ? & ?) & Hf1 & Hf2 & Hf3); [lia..|].
  apply wp_i2c_start; [done..|]. intros d l Hd.
  eapply HQ; [unfold sending; rewrite Hd; by apply start_tx; [|lia|..]|done..].
Qed.

(** The two address bytes. *)
Lemma wp_send_address fuel w0 cntl n s (Q : unit -> ee -> Prop) :
  enough fuel -> sending w0 cntl [] (S (S n)) (dev s) ->
  (forall d l,
     sending w0 cntl [(startaddr (glb s) .>> 8) .& 0xFF; (startaddr (glb s) .>> 0) .& 0xFF] n d ->
     Q tt (Mach d l (glb s))) ->
  wp (send_address fuel) s Q.
Proof.
  intros Hf Hs HQ. assert (forall x, 0 <= x .& 0xFF < 256) as Hbyte.
  { intros x. change 0xFF with (Z.ones 8). rewrite Z.land_ones by done. by apply Z.mod_pos_bound. }
  unfold send_address. apply wp_bind, wp_get, wp_bind.
  eapply wp_i2c_send; [done|apply Hbyte|unfold vw; by rewrite Hs|]. intros d l Hd.
  unfold vw in Hd. rewrite Hs in Hd. apply wp_bind, wp_get. cbn [glb].
  eapply wp_i2c_send; [done|apply Hbyte|unfold vw; cbn [dev]; by rewrite Hd|]. intros d' l' Hd'.
  unfold vw in Hd'. cbn [dev] in Hd'. rewrite Hd in Hd'. by apply HQ.
Qed.

(** The loop that sends the bytes of the cache. *)
Lemma wp_send_data fuel w0 cntl sent n s (Q : unit -> ee -> Prop) :
  enough fuel -> sending w0 cntl sent n (dev s) -> (n <= length (data (glb s)))%nat ->
  Forall (fun x => 0 <= x < 256) (data (glb s)) ->
  (forall d l, sending w0 cntl (sent ++ take n (data (glb s))) 0 d -> Q tt (Mach d l (glb s))) ->
  wp (for_each (zrange 0 n) (fun i =>
        wait_flag fuel (1 .<< 1) ;; g <- get_ ;; d <- deref (aget (data g) i) ;;
        wr I2C_TXDR d)) s Q.
Proof.
  intros Hf Hs Hn Hall HQ. set (g := glb s) in *.
  apply (wp_for_each (fun l t => exists k, (k <= n)%nat /\ l = zrange (Z.of_nat k) (n - k) /\
    glb t = g /\ sending w0 cntl (sent ++ take k (data g)) (n - k) (dev t))).
  - exists 0%nat. rewrite Nat.sub_0_r, take_0, app_nil_r. split_and!; [lia|done..].
  - intros x l t (k & Hk & Hl & Hg & Hsd).
    destruct (n - k)%nat as [|m] eqn:Hm; [done|]. rewrite zrange_S in Hl.
    injection Hl as -> ->.
    destruct (lookup_lt_is_Some_2 (data g) k) as [b Hb]; [lia|].
    assert (0 <= b < 256) as Hbr by (exact (Forall_lookup_1 _ _ _ _ Hall Hb)).
    apply wp_bind, wp_wait_flag; [done|unfold vw; by rewrite Hsd|unfold vw; by rewrite Hsd|].
    intros d Hd. unfold vw in Hd. rewrite Hsd in Hd. apply wp_bind, wp_get. cbn [glb].
    rewrite Hg. apply wp_bind. eapply wp_deref.
    { unfold aget. destruct (Z.ltb_spec (Z.of_nat k) 0); [lia|]. by rewrite Nat2Z.id. }
    apply wp_wr_view. intros d' l' Hd'. unfold vw in Hd'. cbn [dev] in Hd'.
    rewrite Hd, (view_wr_txdr _ _ _ cntl (sent ++ take k (data g)) m), u32_small, u8_small in Hd'
      by (done || lia).
    exists (S k). split_and!; [lia|f_equal; lia|done|].
    unfold sending. cbn [dev]. rewrite Hd', (take_S_r _ _ b), app_assoc by done.
    replace (n - S k)%nat with m by lia. done.
  - intros [d l g'] (k & Hk & Hl & Hg & Hsd). cbn in Hg. subst g'.
    destruct (n - k)%nat as [|m] eqn:Hm; [|by rewrite zrange_S in Hl]. assert (k = n) as -> by lia. by apply HQ.
Qed.

(** What the cache must satisfy for its page to be written. *)
Record page_wf (g : ee_glob) : Prop := {
  wf_addr : 0 <= startaddr g < 2 ^ 19;
  wf_count : 0 < count g;
  wf_page : startaddr g mod 128 + count g <= 128;
}.

Definition cache_wf (g : ee_glob) : Prop :=
  length (data g) = 128%nat /\ Forall (fun x => 0 <= x < 256) (data g) /\
  0 <= LastCntlByte g < 256 /\ 0 <= count g /\ (dirty g <> 0 -> page_wf g).

(** The EEPROM contents after the cache has been written back. *)
Definition flushed (g : ee_glob) (mem : Z -> Z) : Z -> Z :=
  if dirty g =? 0 then mem
  else overlay mem (startaddr g) (take (Z.to_nat (count g)) (data g)).

Lemma wp_writecachepage fuel s (Q : Z -> ee -> Prop) :
  enough fuel -> quiet s -> cache_wf (glb s) ->
  (forall d l L, v_phase (i2c_view d) = Idle -> (v_busy (i2c_view d) <= ee_cycle)%nat ->
     0 <= L < 256 -> (forall x, v_mem (i2c_view d) x = flushed (glb s) (v_mem (vw s)) x) ->
     Q EEPROM_ERR_OK (Mach d l (set_last L (set_dirty 0 (glb s))))) ->
  wp (writecachepage fuel) s Q.
Proof.
  intros Hf Hq (Hlen & Hbytes & HL & Hc0 & Hwf) HQ. unfold writecachepage.
  apply wp_bind, wp_get. unfold flushed in HQ. destruct (Z.eqb_spec (dirty (glb s)) 0) as [Hd0|Hd].
  { apply wp_bind, wp_modify, wp_ret. destruct Hq.
    by apply (HQ (dev s) (wlog s) (LastCntlByte (glb s))). }
  destruct (Hwf Hd) as [Ha Hc Hpg]. pose proof (Z.mod_pos_bound (startaddr (glb s)) 128 eq_refl).
  destruct (Z.eqb_spec (count (glb s)) 0); [lia|]. cbn [orb].
  apply wp_bind, wp_wait_ready; [done..|]. intros d1 l1 Hp1 Hm1 Hb1.
  apply wp_bind. eapply wp_clear_flags; [done|apply clearing_write|done|].
  intros d2 l2 nf _ Hd2. unfold vw in Hd2. cbn [dev] in Hd2. rewrite Hb1, Hm1 in Hd2.
  apply wp_bind, wp_modify, wp_bind, wp_get. cbn [glb].
  change (0 .<< 25) with 0. rewrite Z.lor_0_l. cbn [count set_last LastCntlByte startaddr].
  rewrite u32_small by lia.
  apply wp_bind, wp_start_write; [lia|apply cntl_byte_range|unfold vw; cbn [dev]; by rewrite Hd2..|].
  intros d3 l3 w0 Hs3 Hst Hmem Hbusy. unfold vw in Hmem. cbn [dev] in Hmem.
  rewrite Hd2 in Hmem. cbn [v_mem] in Hmem.
  replace (Z.to_nat (2 + count (glb s))) with (S (S (Z.to_nat (count (glb s))))) in Hs3 by lia.
  apply wp_bind. eapply wp_send_address; [done|done|]. intros d4 l4 Hs4.
  cbn [glb startaddr set_last] in Hs4. apply wp_bind, wp_get, wp_bind. cbn [glb count set_last].
  eapply wp_send_data; [done|done|cbn; lia|done|]. intros d5 l5 Hs5.
  cbn [glb data set_last] in Hs5. apply wp_bind, wp_wait_flag; 
    [done|unfold vw; by rewrite Hs5|unfold vw; by rewrite Hs5|].
  intros d6 Hd6. unfold vw in Hd6. cbn [dev] in Hd6. rewrite Hs5 in Hd6.
  destruct (take (Z.to_nat (count (glb s))) (data (glb s))) as [|b bs] eqn:Htake.
  { apply (f_equal length) in Htake. rewrite length_take, Hlen in Htake. cbn in Htake. lia. }
  apply wp_bind, wp_i2c_stop; [done|unfold vw; cbn [dev]; by rewrite Hd6..|].
  intros d7 l7 Hp7 Hm7 Hb7. apply wp_bind, wp_modify, wp_ret. cbn [dev wlog glb].
  unfold vw in Hm7, Hb7. cbn [dev] in Hm7, Hb7. rewrite Hd6 in Hm7, Hb7. cbn in Hm7, Hb7.
  apply HQ; [done|by rewrite Hb7|apply cntl_byte_range|]. intros x. rewrite Hm7.
  rewrite cell_addr_cntl by done. rewrite Hmem. apply (page_write_overlay (b :: bs)).
  rewrite <- Htake, length_take, Hlen. zlia.
Qed.

(** The bytes of [n] cells. *)
Definition cells (mem : Z -> Z) (a : Z) (n : nat) : list Z :=
  (fun i => u8 (mem (a + i))) <$> zrange 0 n.

Lemma cells_length mem a n : length (cells mem a n) = n.
Proof. unfold cells, zrange. rewrite length_fmap, length_seqZ. lia. Qed.

Lemma store_next mem a k l :
  (k < length l)%nat ->
  aset (cells mem a k ++ drop k l) (Z.of_nat k) (u8 (mem (a + Z.of_nat k))) =
  cells mem a (S k) ++ drop (S k) l.
Proof.
  intros Hk. destruct (lookup_lt_is_Some_2 l k Hk) as [x Hx].
  unfold aset. destruct (Z.ltb_spec (Z.of_nat k) 0); [lia|]. rewrite Nat2Z.id.
  rewrite (drop_S _ _ _ Hx). unfold cells at 2. rewrite zrange_snoc, fmap_app. fold (cells mem a k).
  rewrite insert_app_r_alt by (rewrite cells_length; lia). rewrite cells_length, Nat.sub_diag.
  cbn [fmap list_fmap insert list_insert]. rewrite Z.add_0_l, <- app_assoc. done.
Qed.

Lemma set_data_same g : set_data (data g) g = g.
Proof. by destruct g. Qed.

(** Receiving [n] bytes of a page. *)
Lemma wp_recv_data fuel w0 a n s (Q : unit -> ee -> Prop) :
  enough fuel -> 0 <= a -> a mod 128 = 0 -> (n <= 128)%nat ->
  i2c_view (dev s) = with_phase (Rx a n) w0 -> length (data (glb s)) = 128%nat ->
  (forall d l cell, i2c_view d = with_phase (Rx cell 0) w0 ->
     Q tt (Mach d l (set_data (cells (v_mem w0) a n ++ drop n (data (glb s))) (glb s)))) ->
  wp (for_each (zrange 0 n) (fun i =>
         wait_flag fuel (1 .<< 2) ;; v <- rd I2C_RXDR ;; store_byte i v)) s Q.
Proof.
  intros Hf Ha0 Ha Hn Hs Hlen HQ. set (g := glb s) in *.
  apply (wp_for_each (fun l t => exists k cell, (k <= n)%nat /\ l = zrange (Z.of_nat k) (n - k) /\
    glb t = set_data (cells (v_mem w0) a k ++ drop k (data g)) g /\
    i2c_view (dev t) = with_phase (Rx cell (n - k)) w0 /\
    ((k < n)%nat -> cell = a + Z.of_nat k))).
  - exists 0%nat, a. rewrite Nat.sub_0_r, drop_0. split_and!; [lia|done|by symmetry; apply set_data_same|done|lia].
  - intros x l t (k & cell & Hk & Hl & Hg & Hv & Hcell).
    destruct (n - k)%nat as [|m] eqn:Hm; [done|]. rewrite zrange_S in Hl. injection Hl as -> ->.
    specialize (Hcell ltac:(lia)). subst cell.
    apply wp_bind, wp_wait_flag; [done|unfold vw; by rewrite Hv|unfold vw; by rewrite Hv|].
    intros d Hd. unfold vw in Hd. rewrite Hv in Hd.
    apply wp_bind, wp_rd. cbn [dev wlog glb].
    pose proof (i2c_rd d I2C_RXDR) as Hrd. unfold view_rd in Hrd. cbn -[u8 u32] in Hrd.
    rewrite Hd in Hrd. cbn -[u8 u32] in Hrd. destruct Hrd as [Hval Hview]. rewrite Hval.
    unfold store_byte. apply wp_bind, wp_get, wp_bind, wp_defined_if.
    { apply andb_true_iff. unfold EEPROM_CACHE_SIZE.
      split; [apply Z.leb_le; lia|apply Z.ltb_lt; lia]. }
    apply wp_put. rewrite Hg. cbn [dev wlog glb data set_data].
    rewrite (u8_small (u8 _)) by apply u8_range. rewrite store_next by lia.
    exists (S k), (next_cell (a + Z.of_nat k)).
    split_and!; [lia|f_equal; lia|done| |].
    + cbn [dev]. rewrite Hview. replace (n - S k)%nat with m by lia. done.
    + intros. unfold next_cell. zlia.
  - intros [d l g'] (k & cell & Hk & Hl & Hg & Hv & _). cbn in Hg. subst g'.
    destruct (n - k)%nat as [|m] eqn:Hm; [|by rewrite zrange_S in Hl].
    assert (k = n) as -> by lia. by eapply HQ.
Qed.

Lemma wp_readcachepage fuel a s (Q : Z -> ee -> Prop) :
  enough fuel -> quiet s -> cache_wf (glb s) -> dirty (glb s) = 0 ->
  0 <= a < 2 ^ 19 -> a mod 128 = 0 ->
  (forall d l L, v_phase (i2c_view d) = Idle -> (v_busy (i2c_view d) <= ee_cycle)%nat ->
     0 <= L < 256 -> (forall x, v_mem (i2c_view d) x = v_mem (vw s) x) ->
     Q EEPROM_ERR_OK (Mach d l (EeGlob a 128 0 (cells (v_mem (vw s)) a 128) L))) ->
  wp (readcachepage fuel a EEPROM_CACHE_SIZE) s Q.
Proof.
  intros Hf Hq (Hlen & _ & HL & _) Hdirty Ha Hal HQ. unfold readcachepage.
  apply wp_bind, wp_get. rewrite Hdirty. cbn [Z.eqb negb].
  apply wp_bind, wp_ret. cbn [Z.eqb negb EEPROM_ERR_OK].
  apply wp_bind, wp_modify, wp_bind, wp_modify. cbn [dev wlog glb].
  apply wp_bind, wp_wait_ready; [done..|]. intros d1 l1 Hp1 Hm1 Hb1. cbn [glb].
  unfold vw in Hm1. cbn [dev] in Hm1. fold (vw s) in Hm1.
  apply wp_bind. eapply wp_clear_flags; [done|apply clearing_read|done|].
  intros d2 l2 nf _ Hd2. unfold vw in Hd2. cbn [dev] in Hd2. rewrite Hb1, Hm1 in Hd2.
  apply wp_bind, wp_modify, wp_bind, wp_get. cbn [dev wlog glb LastCntlByte set_last startaddr].
  apply wp_bind, wp_start_write; [lia|apply cntl_byte_range|unfold vw; cbn [dev]; by rewrite Hd2..|].
  intros d3 l3 w0 Hs3 Hst Hmem Hbusy. unfold vw in Hmem. cbn [dev] in Hmem.
  rewrite Hd2 in Hmem. cbn [v_mem] in Hmem.
  apply wp_bind. eapply wp_send_address; [done|done|]. intros d4 l4 Hs4.
  cbn [glb startaddr set_last set_count set_startaddr] in Hs4.
  apply wp_bind, wp_wait_flag; [done|unfold vw; by rewrite Hs4|unfold vw; by rewrite Hs4|].
  intros d5 Hd5. unfold vw in Hd5. cbn [dev] in Hd5. rewrite Hs4 in Hd5.
  apply wp_bind, wp_modify, wp_bind, wp_get.
  cbn [dev wlog glb LastCntlByte set_last startaddr set_count set_startaddr count dirty data].
  destruct (cr2_fields 128 true (cntl_byte a)) as ((? & ? & ?) & Hf1 & Hf2 & _);
    [lia|apply cntl_byte_range|].
  change (0 .<< 25) with 0. rewrite Z.lor_0_l.
  apply wp_bind, wp_i2c_start; [done..|]. intros d6 l6 Hd6.
  unfold vw in Hd6. cbn [dev] in Hd6. rewrite Hd5 in Hd6. cbn [v_phase with_phase] in Hd6.
  unfold start_xfer in Hd6. change (Z.b2z true) with 1 in *.
  fold EEPROM_CACHE_SIZE in Hf1, Hf2. rewrite Hf1, Hf2 in Hd6.
  cbn [v_phase] in Hd6. rewrite cell_addr_cntl in Hd6 by done.
  apply wp_bind, wp_get. cbn [glb count EEPROM_CACHE_SIZE Z.ltb Z.compare Pos.compare Pos.compare_cont].
  match goal with |- context [zrange 0 ?n] => change n with 128%nat end.
  apply wp_bind. eapply (wp_recv_data _ _ a); [done|lia|done|lia|exact Hd6|done|].
  intros d7 l7 cell Hd7. cbn [v_mem with_phase] in *.
  apply wp_bind, wp_i2c_stop; [done|unfold vw; cbn [dev]; by rewrite Hd7..|].
  intros d8 l8 Hp8 Hm8 Hb8. unfold vw in Hm8, Hb8. cbn [dev] in Hm8, Hb8.
  rewrite Hd7 in Hm8, Hb8. cbn in Hm8, Hb8. apply wp_bind, wp_modify, wp_ret.
  cbn [dev wlog glb set_dirty set_data startaddr count data LastCntlByte].
  rewrite drop_ge, app_nil_r, Hmem by (cbn; rewrite Hlen; lia).
  apply HQ; [done|rewrite Hb8; lia|apply cntl_byte_range|]. intros x. by rewrite Hm8, Hmem.
Qed.
End routines.
