(* ===== verification/EepromCache.v ===== *)
(** The page cache of [Eeprom] against its abstract specification, a memory of
    512 KByte: the invariant of the cache, what reads and writes do to the
    memory a user sees, durability after a flush, and the case in which a
    write is lost. *)
From S2P Require Import Prelude Machine I2c Eeprom.

#[local] Open Scope fw_scope.

Section cache.
Context {B : Bus} {E : I2cEeprom B}.
Abbreviation ee := (mach ee_glob).
Implicit Types s : ee.

(** A clean cache holds what the EEPROM holds. *)
Definition coherent (g : ee_glob) (mem : Z -> Z) : Prop :=
  dirty g = 0 -> 0 < count g ->
  0 <= startaddr g /\ startaddr g + count g <= EEPROM_MEM_SIZE /\ count g <= 128 /\
  forall i, 0 <= i < count g -> aget (data g) i = Some (u8 (mem (startaddr g + i))).

(** The invariant of the driver between two calls. *)
Definition ee_ok s : Prop :=
  quiet s /\ cache_wf (glb s) /\ coherent (glb s) (v_mem (vw s)).

(** The abstraction: the memory a user of the API sees. *)
Definition logical s (x : Z) : Z := u8 (flushed (glb s) (v_mem (vw s)) x).

(** The next byte does not fall inside the bytes waiting to be written. *)
Definition appendable (g : ee_glob) (addr : Z) : Prop :=
  dirty g <> 0 -> ~ (startaddr g <= addr < startaddr g + count g).

Lemma aget_take (l : list Z) n i : aget (take n l) i = if i <? Z.of_nat n then aget l i else None.
Proof.
  unfold aget. destruct (Z.ltb_spec i 0), (Z.ltb_spec i (Z.of_nat n)); try done.
  - by rewrite lookup_take_lt by lia.
  - by rewrite lookup_take_ge by lia.
Qed.

Lemma overlay_out mem a l x : ~ (a <= x < a + Z.of_nat (length l)) -> overlay mem a l x = mem x.
Proof.
  intros Hx. unfold overlay. destruct (aget l (x - a)) eqn:Hg; [|done].
  apply aget_Some in Hg. lia.
Qed.

(** Byte by byte, an overlay grows at its end. *)
Lemma overlay_snoc mem a l d x :
  overlay mem a (l ++ [d]) x = if x =? a + Z.of_nat (length l) then d else overlay mem a l x.
Proof.
  unfold overlay, aget. destruct (Z.ltb_spec (x - a) 0), (Z.eqb_spec x (a + Z.of_nat (length l)));
    try lia.
  - subst x. rewrite lookup_app_r by lia.
    by replace (Z.to_nat (a + Z.of_nat (length l) - a) - length l)%nat with 0%nat by lia.
  - destruct (Nat.lt_ge_cases (Z.to_nat (x - a)) (length l)).
    + by rewrite lookup_app_l by lia.
    + rewrite lookup_app_r, (lookup_ge_None_2 l) by lia.
      destruct (Z.to_nat (x - a) - length l)%nat eqn:Hk; [lia|done].
Qed.

Lemma overlay_cons mem a d l x :
  overlay mem a (d :: l) x = overlay (overlay mem a [d]) (a + 1) l x.
Proof.
  unfold overlay. rewrite !aget_cons. replace (x - a - 1) with (x - (a + 1)) by lia.
  destruct (Z.eqb_spec (x - a) 0) as [Heq|Hne].
  - replace (aget l (x - (a + 1))) with (@None Z); [done|].
    unfold aget. by destruct (Z.ltb_spec (x - (a + 1)) 0); [|lia].
  - destruct (aget l _); [done|]. unfold aget. by destruct (_ <? 0).
Qed.

Lemma overlay_ext mem mem' a l x : mem x = mem' x -> overlay mem a l x = overlay mem' a l x.
Proof. intros Heq. unfold overlay. by rewrite Heq. Qed.

Lemma cells_ext mem mem' a n : (forall x, u8 (mem x) = u8 (mem' x)) -> cells mem a n = cells mem' a n.
Proof. intros Heq. apply list_fmap_ext. intros i x _. apply Heq. Qed.

Lemma cells_S mem a n : cells mem a (S n) = u8 (mem a) :: cells mem (a + 1) n.
Proof.
  unfold cells. rewrite zrange_S. cbn [fmap list_fmap]. rewrite Z.add_0_r. f_equal.
  unfold zrange. rewrite <- (fmap_add_seqZ 1 0), <- list_fmap_compose.
  apply list_fmap_ext. intros i x _. cbn. f_equal. f_equal. lia.
Qed.

(** Flushing keeps the user's view and gives a clean, coherent cache. *)
Lemma wp_flush_page fuel s (Q : Z -> ee -> Prop) :
  enough fuel -> ee_ok s ->
  (forall s' L, ee_ok s' -> glb s' = set_last L (set_dirty 0 (glb s)) ->
     (forall x, v_mem (vw s') x = flushed (glb s) (v_mem (vw s)) x) -> Q EEPROM_ERR_OK s') ->
  wp (writecachepage fuel) s Q.
Proof.
  intros Hf (Hq & Hwf & Hco) HQ. apply wp_writecachepage; [done..|].
  intros d l L Hp Hb HL Hmem. eapply HQ; [|done|done].
  destruct Hwf as (Hlen & Hbytes & _ & Hc0 & Hpg). split; [by split|split].
  { split_and!; try done; cbn; lia. }
  unfold coherent, vw. cbn [glb dev dirty count startaddr data set_last set_dirty]. intros _ Hc.
  destruct (Z.eqb_spec (dirty (glb s)) 0) as [Hd|Hd].
  - destruct (Hco Hd Hc) as (? & ? & ? & Hi). split_and!; [done..|]. intros i Hr.
    rewrite Hmem, Hi by done. unfold flushed. by rewrite Hd.
  - destruct (Hpg Hd) as [Ha _ Hpage].
    pose proof (Z.div_mod (startaddr (glb s)) 128 ltac:(lia)).
    split_and!; [lia|unfold EEPROM_MEM_SIZE; zlia|zlia|]. intros i Hr.
    rewrite Hmem. unfold flushed. destruct (Z.eqb_spec (dirty (glb s)) 0); [done|].
    unfold overlay. rewrite aget_take. replace (startaddr (glb s) + i - startaddr (glb s)) with i by lia.
    destruct (Z.ltb_spec i (Z.of_nat (Z.to_nat (count (glb s))))); [|lia].
    destruct (aget_is_Some (data (glb s)) i) as [b Hb']; [zlia|]. rewrite Hb'. f_equal.
    symmetry. apply u8_small. unfold aget in Hb'. destruct (i <? 0); [done|].
    exact (Forall_lookup_1 _ _ _ _ Hbytes Hb').
Qed.

Lemma align_addr addr : 0 <= addr < 2 ^ 32 -> addr .& not32 PAGE_MASK = addr / 128 * 128.
Proof.
  intros Ha. rewrite <- Z.shiftl_mul_pow2 with (n := 7), <- Z.shiftr_div_pow2 with (n := 7) by done.
  apply (bits_ext 32); [done|by apply land_lt_pow2| |].
  { rewrite Z.shiftl_mul_pow2, Z.shiftr_div_pow2 by done. zlia. }
  intros i Hi. rewrite Z.land_spec, not32_testbit, Z.shiftl_spec by lia.
  change PAGE_MASK with (Z.ones 7). destruct (Z.lt_ge_cases i 7).
  - rewrite Z.ones_spec_low, (Z.testbit_neg_r _ (i - 7)), andb_false_r by lia. done.
  - rewrite Z.ones_spec_high, Z.shiftr_spec, andb_true_r by lia. f_equal. lia.
Qed.

Lemma aget_cells mem a n i : 0 <= i < Z.of_nat n -> aget (cells mem a n) i = Some (u8 (mem (a + i))).
Proof.
  intros Hi. unfold aget, cells. destruct (Z.ltb_spec i 0); [lia|].
  rewrite list_lookup_fmap. unfold zrange. rewrite lookup_seqZ_lt by lia. cbn. do 3 f_equal. lia.
Qed.

(** Filling the cache with an aligned page. *)
Lemma wp_fill fuel a s (Q : Z -> ee -> Prop) :
  enough fuel -> ee_ok s -> dirty (glb s) = 0 -> 0 <= a < 2 ^ 19 -> a mod 128 = 0 ->
  (forall s', ee_ok s' -> dirty (glb s') = 0 -> startaddr (glb s') = a -> count (glb s') = 128 ->
     (forall x, v_mem (vw s') x = v_mem (vw s) x) -> Q EEPROM_ERR_OK s') ->
  wp (readcachepage fuel a EEPROM_CACHE_SIZE) s Q.
Proof.
  intros Hf (Hq & Hwf & _) Hd Ha Hal HQ. apply wp_readcachepage; [done..|].
  intros d l L Hp Hb HL Hm. apply HQ; [|done..]. split; [done|split].
  - split_and!; try done; cbn -[cells]; try lia.
    apply Forall_lookup_2. intros i x Hx. unfold cells in Hx.
    rewrite list_lookup_fmap in Hx. apply fmap_Some in Hx as (y & _ & ->). apply u8_range.
  - intros _ _. unfold EEPROM_MEM_SIZE. cbn -[cells]. split_and!; [lia|zlia|lia|].
    intros i Hi. rewrite aget_cells by lia. unfold vw. cbn [dev]. by rewrite Hm.
Qed.

(** The bytes a clean cache delivers are the ones of the EEPROM. *)
Lemma wp_read_loop fuel n addr out s (Q : Z * list Z -> ee -> Prop) :
  enough fuel -> ee_ok s -> dirty (glb s) = 0 -> 0 <= addr ->
  addr + Z.of_nat n <= EEPROM_MEM_SIZE ->
  (forall s', ee_ok s' -> dirty (glb s') = 0 -> (forall x, v_mem (vw s') x = v_mem (vw s) x) ->
     Q (EEPROM_ERR_OK, out ++ cells (v_mem (vw s)) addr n) s') ->
  wp (read_loop fuel n addr out) s Q.
Proof.
  unfold EEPROM_MEM_SIZE. intros Hf. revert addr out s Q.
  induction n as [|n IH]; intros addr out s Q Hok Hd Ha Hn HQ; cbn [read_loop].
  { apply wp_ret. specialize (HQ s Hok Hd ltac:(done)). by rewrite app_nil_r in HQ. }
  assert (Hdeliver : forall t, ee_ok t -> dirty (glb t) = 0 ->
    (forall x, v_mem (vw t) x = v_mem (vw s) x) ->
    startaddr (glb t) <= addr < startaddr (glb t) + count (glb t) ->
    wp (g <- get_ ;; d <- deref (aget (data g) (u32 (addr - startaddr g))) ;;
        read_loop fuel n (u32 (addr + 1)) (out ++ [d])) t Q).
  { intros t Ht Hdt Hmt Hhit. destruct Ht as (Hqt & Hwt & Hct).
    destruct (Hct Hdt ltac:(lia)) as (? & ? & ? & Hbyte).
    apply wp_bind, wp_get, wp_bind. rewrite u32_small by lia.
    eapply wp_deref; [apply Hbyte; lia|]. rewrite u32_small by lia.
    apply IH; [done|done|lia|lia|]. intros s' Hs' Hds' Hms'.
    replace (startaddr (glb t) + (addr - startaddr (glb t))) with addr by lia.
    rewrite Hmt, <- app_assoc. cbn [app].
    rewrite (cells_ext _ (v_mem (vw s))), <- cells_S by (intros; by rewrite Hmt).
    apply HQ; [done..|]. intros x. by rewrite Hms', Hmt. }
  apply wp_bind, wp_get. destruct Hok as (Hq & Hwf & Hco).
  pose proof Hwf as (_ & _ & _ & Hc0 & _).
  destruct (Z.ltb_spec addr (startaddr (glb s))) as [Hlt|Hge];
    [|destruct (Z.leb_spec (count (glb s)) (u32 (addr - startaddr (glb s)))) as [Hmiss|Hhit]].
  3: { apply wp_bind, wp_ret. cbn [Z.eqb negb EEPROM_ERR_OK]. apply Hdeliver; [done..|].
       split; [lia|]. destruct (Hco Hd) as (? & _); [|rewrite u32_small in Hhit by lia; lia].
       pose proof (u32_range (addr - startaddr (glb s))). lia. }
  all: cbn [orb]; apply wp_bind, wp_fill; try done; rewrite ?align_addr by lia; [zlia|zlia|].
  all: intros t Ht Hdt Hst Hct Hm; cbn [Z.eqb negb EEPROM_ERR_OK]; apply Hdeliver;
    [done..|rewrite Hst, Hct; zlia].
Qed.

(** ** Writing *)

Lemma samepage_div a b : 0 <= a -> 0 <= b -> SAMEPAGE a b = true -> a / 128 = b / 128.
Proof.
  intros Ha Hb Heq%Z.eqb_eq. apply (f_equal (fun x => Z.shiftr x 7)) in Heq.
  rewrite !Z.shiftr_lor, !Z.shiftr_div_pow2 in Heq by done.
  change (PAGE_MASK / 2 ^ 7) with 0 in Heq. by rewrite !Z.lor_0_r in Heq.
Qed.

Lemma overlay_in mem a l x d : aget l (x - a) = Some d -> overlay mem a l x = d.
Proof. intros H. unfold overlay. by rewrite H. Qed.

(** Appending one byte to the waiting ones. *)
Definition appended (g : ee_glob) (d : Z) : ee_glob :=
  set_count (u32 (count g + 1)) (set_data (aset (data g) (count g) (u8 d)) g).

Lemma flushed_appended g mem d x :
  dirty g <> 0 -> 0 <= count g < 128 -> length (data g) = 128%nat -> 0 <= d < 256 ->
  flushed (appended g d) mem x =
  if x =? startaddr g + count g then d
  else overlay mem (startaddr g) (take (Z.to_nat (count g)) (data g)) x.
Proof.
  intros Hd Hc Hlen Hr. unfold flushed, appended. cbn [dirty startaddr count data set_count set_data].
  destruct (Z.eqb_spec (dirty g) 0); [done|]. rewrite u32_small, u8_small by lia.
  replace (Z.to_nat (count g + 1)) with (S (Z.to_nat (count g))) by lia.
  assert (aset (data g) (count g) d !! Z.to_nat (count g) = Some d) as Hset.
  { unfold aset. destruct (Z.ltb_spec (count g) 0); [lia|]. apply list_lookup_insert_eq. lia. }
  rewrite (take_S_r _ _ d) by done. rewrite overlay_snoc.
  unfold aset. destruct (Z.ltb_spec (count g) 0); [lia|].
  rewrite take_insert_ge by lia. rewrite length_take, Hlen.
  by replace (Z.of_nat (Z.to_nat (count g) `min` 128)) with (count g) by lia.
Qed.

(** Room for one more byte in the page that is being collected. *)
Definition room (g : ee_glob) : Prop :=
  length (data g) = 128%nat /\ Forall (fun x => 0 <= x < 256) (data g) /\
  0 <= LastCntlByte g < 256 /\ dirty g <> 0 /\ 0 <= startaddr g < 2 ^ 19 /\ 0 <= count g /\
  startaddr g mod 128 + count g < 128.

Lemma appended_ok d s :
  quiet s -> room (glb s) -> 0 <= d < 256 ->
  ee_ok (Mach (dev s) (wlog s) (appended (glb s) d)).
Proof.
  intros Hq (Hlen & Hb & HL & Hd & Ha & Hc & Hp) Hr. split; [done|split]; [|done].
  assert (0 <= startaddr (glb s) mod 128) by (by apply Z.mod_pos_bound).
  unfold appended. cbn [glb]. rewrite u32_small, u8_small by lia.
  split_and!; cbn [data LastCntlByte count set_count set_data]; [by rewrite aset_length| |lia..|].
  - unfold aset. destruct (_ <? 0); [done|]. by apply Forall_insert.
  - intros _. split; cbn [startaddr count set_count set_data]; lia.
Qed.

Lemma wp_append (pBuff : list Z) a d s (Q : Z * list Z -> ee -> Prop) :
  quiet s -> room (glb s) -> 0 <= d < 256 -> a = startaddr (glb s) + count (glb s) ->
  (forall s', ee_ok s' -> dirty (glb s') <> 0 ->
     startaddr (glb s') + count (glb s') = a + 1 ->
     (forall x, flushed (glb s') (v_mem (vw s')) x =
        if x =? a then d
        else overlay (v_mem (vw s)) (startaddr (glb s)) (take (Z.to_nat (count (glb s))) (data (glb s))) x) ->
     Q (EEPROM_ERR_OK, pBuff) s') ->
  wp (g <- get_ ;;
      if a =? u32 (startaddr g + count g) then
        d <- deref (head (d :: pBuff)) ;;
        store_byte (count g) d ;;
        modify_ (set_count (u32 (count g + 1))) ;;
        ret (EEPROM_ERR_OK, tail (d :: pBuff))
      else ret (EEPROM_ERR_OK, d :: pBuff)) s Q.
Proof.
  intros Hq Hroom Hr -> HQ. pose proof Hroom as (Hlen & _ & _ & Hd & Ha & Hc & Hp).
  assert (0 <= startaddr (glb s) mod 128) by (by apply Z.mod_pos_bound).
  apply wp_bind, wp_get. rewrite u32_small, Z.eqb_refl by lia.
  apply wp_bind. eapply wp_deref; [done|]. unfold store_byte.
  apply wp_bind, wp_bind, wp_get, wp_bind, wp_defined_if.
  { apply andb_true_iff. unfold EEPROM_CACHE_SIZE.
    split; [apply Z.leb_le; lia|apply Z.ltb_lt; lia]. }
  apply wp_put, wp_bind, wp_modify, wp_ret.
  apply (HQ (Mach (dev s) (wlog s) (appended (glb s) d))).
  - by apply appended_ok.
  - done.
  - cbn. rewrite u32_small by lia. lia.
  - intros x. apply flushed_appended; [done|lia|done|done].
Qed.

(** One round of a write whose address is not among the waiting bytes. *)
Lemma wp_write_byte fuel addr d pBuff s (Q : Z * list Z -> ee -> Prop) :
  enough fuel -> ee_ok s -> appendable (glb s) addr -> 0 <= addr < 2 ^ 19 -> 0 <= d < 256 ->
  (forall s', ee_ok s' -> dirty (glb s') <> 0 ->
     startaddr (glb s') + count (glb s') = addr + 1 ->
     (forall x, flushed (glb s') (v_mem (vw s')) x =
        if x =? addr then d else flushed (glb s) (v_mem (vw s)) x) ->
     Q (EEPROM_ERR_OK, pBuff) s') ->
  wp (write_byte fuel addr (d :: pBuff)) s Q.
Proof.
  intros Hf Hok Happ Ha Hr HQ. unfold write_byte.
  assert (Hfresh : forall t, ee_ok t -> dirty (glb t) = 0 ->
    (forall x, v_mem (vw t) x = flushed (glb s) (v_mem (vw s)) x) ->
    wp (g <- get_ ;;
        (if dirty g =? 0 then
           modify_ (set_startaddr addr) ;; modify_ (set_dirty 1) ;; modify_ (set_count 0)
         else ret tt) ;;
        g <- get_ ;;
        if addr =? u32 (startaddr g + count g) then
          d <- deref (head (d :: pBuff)) ;;
          store_byte (count g) d ;;
          modify_ (set_count (u32 (count g + 1))) ;;
          ret (EEPROM_ERR_OK, tail (d :: pBuff))
        else ret (EEPROM_ERR_OK, d :: pBuff)) t Q).
  { intros t (Hqt & (Hlen & Hb & HL & _) & _) Hdt Hm. apply wp_bind, wp_get. rewrite Hdt.
    apply wp_bind, wp_bind, wp_modify, wp_bind, wp_modify, wp_modify. cbn [dev wlog glb].
    apply wp_append; [done| |done|cbn; lia|].
    { pose proof (Z.mod_pos_bound addr 128 eq_refl).
      split_and!; cbn -[Z.modulo]; try done; lia. }
    intros s' Hs' Hds' Hsc Hfl. apply HQ; [done..|cbn in Hsc; lia|]. intros x.
    rewrite Hfl. cbn [glb startaddr count data set_count set_dirty set_startaddr].
    destruct (x =? addr); [done|]. rewrite overlay_out, <- Hm; [done|].
    rewrite length_take. lia. }
  apply wp_bind, wp_get.
  destruct (_ || _ || _) eqn:Hflush.
  { apply wp_bind, wp_flush_page; [done..|]. intros t L Ht Hg Hm.
    cbn [Z.eqb negb EEPROM_ERR_OK]. apply Hfresh; [done|by rewrite Hg|done]. }
  apply wp_bind, wp_ret. cbn [Z.eqb negb EEPROM_ERR_OK].
  destruct (Z.eqb_spec (dirty (glb s)) 0) as [Hd|Hd].
  { apply Hfresh; [done..|]. intros x. unfold flushed. by rewrite Hd. }
  apply wp_bind, wp_get. destruct (Z.eqb_spec (dirty (glb s)) 0); [done|].
  apply wp_bind, wp_ret. specialize (Happ Hd).
  destruct Hok as (Hq & (Hlen & Hb & HL & Hc0 & Hwf) & _). destruct (Hwf Hd) as [Hs Hc Hp].
  zbool. rewrite u32_small in * by lia.
  match goal with H : SAMEPAGE _ _ = true |- _ => apply samepage_div in H; [|lia..] end.
  apply wp_append; [done| |done|lia|].
  { split_and!; try done; zlia. }
  intros s' Hs' Hds' Hsc Hfl. apply HQ; [done..|]. intros x. rewrite Hfl. unfold flushed.
  by destruct (Z.eqb_spec (dirty (glb s)) 0).
Qed.

Lemma wp_write_loop fuel l rest addr s (Q : Z -> ee -> Prop) :
  enough fuel -> ee_ok s -> appendable (glb s) addr -> 0 <= addr ->
  addr + Z.of_nat (length l) <= EEPROM_MEM_SIZE -> Forall (fun d => 0 <= d < 256) l ->
  (forall s', ee_ok s' ->
     (forall x, flushed (glb s') (v_mem (vw s')) x =
        overlay (flushed (glb s) (v_mem (vw s))) addr l x) ->
     Q EEPROM_ERR_OK s') ->
  wp (write_loop fuel (length l) addr (l ++ rest)) s Q.
Proof.
  unfold EEPROM_MEM_SIZE. intros Hf. revert addr s Q.
  induction l as [|d l IH]; intros addr s Q Hok Happ Ha Hlen Hall HQ.
  { apply wp_ret, HQ; [done|]. intros x. unfold overlay, aget. by destruct (_ <? 0). }
  apply Forall_cons_1 in Hall as [Hd Hall]. rewrite length_cons in Hlen.
  cbn [length write_loop app]. apply wp_bind, wp_write_byte; [done..|lia|done|].
  intros t Ht Hdt Hsc Hfl. cbn [fst snd Z.eqb negb EEPROM_ERR_OK]. rewrite u32_small by lia.
  apply IH; [done| |lia|lia|done|].
  { intros _. lia. }
  intros s' Hs' Hfl'. apply HQ; [done|]. intros x. rewrite Hfl', overlay_cons. apply overlay_ext.
  rewrite Hfl. unfold overlay. rewrite aget_cons. unfold aget.
  destruct (Z.eqb_spec x addr), (Z.eqb_spec (x - addr) 0); try lia.
  by destruct (_ <? 0).
Qed.

Lemma wp_FlushCache fuel s (Q : Z -> ee -> Prop) :
  enough fuel -> ee_ok s ->
  (forall s', ee_ok s' -> dirty (glb s') = 0 -> count (glb s') = 0 ->
     (forall x, v_mem (vw s') x = flushed (glb s) (v_mem (vw s)) x) -> Q EEPROM_ERR_OK s') ->
  wp (EEPROM_FlushCache fuel) s Q.
Proof.
  intros Hf Hok HQ. apply wp_bind, wp_flush_page; [done..|]. intros t L Ht Hg Hm.
  cbn [Z.eqb negb EEPROM_ERR_OK]. destruct Ht as (Hq & (Hlen & Hb & HL & Hc & _) & _).
  apply wp_bind, wp_wait_ready; [done..|]. intros d l Hp Hmem Hbusy.
  apply wp_bind, wp_modify, wp_ret. cbn [dev wlog glb].
  assert (dirty (glb t) = 0) as Hdt by by rewrite Hg.
  apply HQ; [|done|done|].
  - split; [split; unfold vw; cbn [dev]; [done|rewrite Hbusy; lia]|split].
    + split_and!; try done; cbn; lia.
    + intros _ Hc0. cbn in Hc0. lia.
  - intros x. unfold vw at 1. cbn [dev]. by rewrite Hmem.
Qed.

(** Initialisation establishes the invariant and touches no cell. *)
Lemma wp_Init fuel s (Q : unit -> ee -> Prop) :
  enough fuel -> quiet s -> length (data (glb s)) = 128%nat ->
  Forall (fun x => 0 <= x < 256) (data (glb s)) ->
  (forall s', ee_ok s' -> dirty (glb s') = 0 -> (forall x, v_mem (vw s') x = v_mem (vw s) x) ->
     Q tt s') ->
  wp (EEPROM_Init fuel) s Q.
Proof.
  intros Hf Hq Hlen Hall HQ. apply wp_bind, wp_modify, wp_bind, wp_modify, wp_bind, wp_modify.
  apply wp_bind, wp_modify, wp_bind, wp_ackpoll; [done|done|done|].
  intros d l Hp Hm Hb. apply wp_ret. cbn [dev wlog glb]. apply HQ; [|done|].
  - destruct Hq as [_ Hq]. split; [split; unfold vw; cbn [dev]; [done|]|split].
    + rewrite Hb. unfold vw in *. cbn [dev]. lia.
    + split_and!; try done; cbn; lia.
    + intros _ Hc0. cbn in Hc0. lia.
  - intros x. unfold vw at 1. cbn [dev]. by rewrite Hm.
Qed.

Lemma params_in_range addr n :
  0 <= addr -> 0 < n -> addr + n <= EEPROM_MEM_SIZE -> params_ok addr true n = true.
Proof.
  unfold params_ok, EEPROM_MEM_SIZE. intros. rewrite u32_small by lia.
  by destruct (Z.leb_spec (256 * 1024 * 2) addr), (Z.eqb_spec n 0),
    (Z.ltb_spec (256 * 1024 * 2) (addr + n)); try lia.
Qed.

Lemma wp_Read fuel addr n s (Q : Z * list Z -> ee -> Prop) :
  enough fuel -> ee_ok s -> 0 <= addr -> 0 < n -> addr + n <= EEPROM_MEM_SIZE ->
  (forall s', ee_ok s' -> (forall x, logical s' x = logical s x) ->
     Q (EEPROM_ERR_OK, (fun i => logical s (addr + i)) <$> zrange 0 (Z.to_nat n)) s') ->
  wp (EEPROM_Read fuel addr true n) s Q.
Proof.
  intros Hf Hok Ha Hn Hend HQ. unfold EEPROM_Read.
  rewrite params_in_range by done.
  assert (Hloop : forall t, ee_ok t -> dirty (glb t) = 0 ->
    (forall x, v_mem (vw t) x = flushed (glb s) (v_mem (vw s)) x) ->
    wp (read_loop fuel (Z.to_nat n) addr []) t Q).
  { intros t Ht Hdt Hm. apply wp_read_loop; [done..|lia|]. intros s' Hs' Hd' Hm'.
    rewrite (cells_ext _ (flushed (glb s) (v_mem (vw s)))) by (intros; by rewrite Hm).
    apply (HQ s'); [done|]. intros x. unfold logical, flushed at 1. by rewrite Hd', Hm', Hm. }
  cbn [negb]. apply wp_bind, wp_get. destruct (Z.eqb_spec (dirty (glb s)) 0) as [Hd|Hd]; cbn [negb].
  - apply wp_bind, wp_ret. apply Hloop; [done..|]. intros x. unfold flushed. by rewrite Hd.
  - apply wp_bind, wp_flush_page; [done..|]. intros t L Ht Hg Hm. cbn [Z.eqb negb EEPROM_ERR_OK].
    apply Hloop; [done|by rewrite Hg|done].
Qed.

Lemma wp_Write fuel addr buf n s (Q : Z -> ee -> Prop) :
  enough fuel -> ee_ok s -> appendable (glb s) addr -> 0 <= addr -> 0 < n ->
  addr + n <= EEPROM_MEM_SIZE -> n <= Z.of_nat (length buf) -> Forall (fun d => 0 <= d < 256) buf ->
  (forall s', ee_ok s' ->
     (forall x, logical s' x = overlay (logical s) addr (take (Z.to_nat n) buf) x) ->
     Q EEPROM_ERR_OK s') ->
  wp (EEPROM_Write fuel addr (Some buf) n) s Q.
Proof.
  intros Hf Hok Happ Ha Hn Hend Hlen Hall HQ. unfold EEPROM_Write.
  rewrite params_in_range by done.
  cbn [negb]. set (l := take (Z.to_nat n) buf).
  assert (length l = Z.to_nat n) as Hl by (unfold l; rewrite length_take; lia).
  assert (Forall (fun d => 0 <= d < 256) l) as Hl8 by by apply Forall_take.
  rewrite <- Hl, <- (take_drop (length l) buf), Hl. fold l. rewrite <- Hl.
  apply wp_write_loop; [done..|lia|done|]. intros s' Hs' Hfl. apply HQ; [done|].
  intros x. fold l. unfold logical. rewrite Hfl. unfold overlay.
  destruct (aget l (x - addr)) as [d|] eqn:Hg; [|done]. apply u8_small.
  unfold aget in Hg. destruct (_ <? 0); [done|]. exact (Forall_lookup_1 _ _ _ _ Hl8 Hg).
Qed.
End cache.

(** * Properties *)

Section properties.
Context {B : Bus} {E : I2cEeprom B}.
Abbreviation ee := (mach ee_glob).
Implicit Types s : ee.

(** C8: EEPROM_Read, from any state of the driver, returns EEPROM_ERR_OK and the
    bytes of the user's memory (waiting writes included), leaves that memory
    as it is and re-establishes the invariant, whatever page boundaries the
    range crosses. *)
Theorem EEPROM_Read_correct fuel addr n s :
  enough fuel -> ee_ok s -> 0 <= addr -> 0 < n -> addr + n <= EEPROM_MEM_SIZE ->
  wp (EEPROM_Read fuel addr true n) s (fun p s' =>
    p = (EEPROM_ERR_OK, (fun i => logical s (addr + i)) <$> zrange 0 (Z.to_nat n)) /\
    ee_ok s' /\ forall x, logical s' x = logical s x).
Proof. intros. apply wp_Read; [done..|]. intros s' ? ?. by split_and!. Qed.

(** C7: EEPROM_Write of [n] bytes whose first address is not among the bytes
    still waiting in the cache changes exactly these [n] bytes of the user's
    memory, returns EEPROM_ERR_OK and keeps the invariant. *)
Theorem EEPROM_Write_correct fuel addr buf n s :
  enough fuel -> ee_ok s -> appendable (glb s) addr -> 0 <= addr -> 0 < n ->
  addr + n <= EEPROM_MEM_SIZE -> n <= Z.of_nat (length buf) -> Forall (fun d => 0 <= d < 256) buf ->
  wp (EEPROM_Write fuel addr (Some buf) n) s (fun r s' =>
    r = EEPROM_ERR_OK /\ ee_ok s' /\
    forall x, logical s' x = overlay (logical s) addr (take (Z.to_nat n) buf) x).
Proof. intros. apply wp_Write; [done..|]. intros s' ? ?. by split_and!. Qed.


(** EEPROM_Init establishes the invariant of the driver without changing a
    cell, on an idle bus and whatever was cached before. *)
Theorem EEPROM_Init_establishes fuel s :
  enough fuel -> quiet s -> length (data (glb s)) = 128%nat ->
  Forall (fun x => 0 <= x < 256) (data (glb s)) ->
  wp (EEPROM_Init fuel) s (fun _ s' =>
    ee_ok s' /\ forall x, logical s' x = u8 (v_mem (vw s) x)).
Proof.
  intros. apply wp_Init; [done..|]. intros s' Hok Hd Hm. split; [done|]. intros x.
  unfold logical, flushed. by rewrite Hd, Hm.
Qed.

(** A byte written to an address that is already waiting in the cache is
    lost: EEPROM_Write returns EEPROM_ERR_OK and nothing at all has changed. *)
Theorem EEPROM_Write_lost fuel addr d s :
  ee_ok s -> dirty (glb s) <> 0 -> 0 <= addr ->
  startaddr (glb s) <= addr < startaddr (glb s) + count (glb s) ->
  EEPROM_Write fuel addr (Some [d]) 1 s = Ret EEPROM_ERR_OK s.
Proof.
  intros (_ & (_ & _ & _ & _ & Hwf) & _) Hd Ha Hin. destruct (Hwf Hd) as [Hs Hc Hp].
  pose proof (Z.mod_pos_bound (startaddr (glb s)) 128 eq_refl).
  unfold EEPROM_Write. rewrite params_in_range; [|lia..|unfold EEPROM_MEM_SIZE; zlia].
  change (Z.to_nat 1) with 1%nat. cbn [negb write_loop]. unfold write_byte, bind, get_, ret.
  assert (SAMEPAGE addr (startaddr (glb s)) = true) as ->.
  { apply Z.eqb_eq. unfold PAGE_MASK, EEPROM_CACHE_SIZE.
    assert (forall x, 0 <= x -> x .| 127 = x / 128 * 128 + 127) as Hlow.
    { intros x Hx. change (x / 128 * 128) with (x / 128 * 2 ^ 7). rewrite <- (lor_shiftl_add (x / 128) 7 127) by done.
      apply Z.bits_inj'. intros i Hi. rewrite !Z.lor_spec, Z.shiftl_spec by done.
      change 127 with (Z.ones 7). destruct (Z.lt_ge_cases i 7).
      - by rewrite Z.ones_spec_low, !orb_true_r by lia.
      - change (x / 128) with (x / 2 ^ 7).
        rewrite Z.ones_spec_high, !orb_false_r, <- Z.shiftr_div_pow2, Z.shiftr_spec by lia.
        f_equal. lia. }
    rewrite !Hlow by lia. do 2 f_equal. zlia. }
  rewrite u32_small by lia.
  destruct (Z.ltb_spec addr (startaddr (glb s))); [lia|].
  destruct (Z.ltb_spec (startaddr (glb s) + count (glb s)) addr); [lia|].
  cbn [negb orb Z.eqb EEPROM_ERR_OK]. destruct (Z.eqb_spec (dirty (glb s)) 0); [done|].
  rewrite u32_small by lia.
  by destruct (Z.eqb_spec addr (startaddr (glb s) + count (glb s))); [lia|].
Qed.

(** The parameter checks: a NULL buffer, a length of 0, an address beyond
    the memory, or a range that ends beyond it gives EEPROM_ERR_ILLPARAMVAL and
    touches nothing; but the sum is taken modulo 2^32, so a length close to
    2^32 passes the check. *)
Theorem EEPROM_parameters fuel addr nonnull n buffer s :
  0 <= addr < 2 ^ 32 -> 0 <= n < 2 ^ 32 ->
  EEPROM_Read fuel addr false n s = Ret (EEPROM_ERR_ILLPARAMVAL, []) s /\
  EEPROM_Write fuel addr None n s = Ret EEPROM_ERR_ILLPARAMVAL s /\
  (EEPROM_MEM_SIZE <= addr \/ n = 0 \/ EEPROM_MEM_SIZE < addr + n < 2 ^ 32 ->
   EEPROM_Read fuel addr nonnull n s = Ret (EEPROM_ERR_ILLPARAMVAL, []) s /\
   EEPROM_Write fuel addr buffer n s = Ret EEPROM_ERR_ILLPARAMVAL s) /\
  (addr < EEPROM_MEM_SIZE -> 2 ^ 32 <= addr + n -> params_ok addr true n = true).
Proof.
  unfold EEPROM_MEM_SIZE. intros Ha Hn.
  assert (Hbad : params_ok addr nonnull n = false -> params_ok addr true n = false ->
    EEPROM_Read fuel addr nonnull n s = Ret (EEPROM_ERR_ILLPARAMVAL, []) s /\
    EEPROM_Write fuel addr buffer n s = Ret EEPROM_ERR_ILLPARAMVAL s).
  { intros H1 H2. unfold EEPROM_Read, EEPROM_Write. rewrite H1, H2. by destruct buffer. }
  split_and!.
  - unfold EEPROM_Read, params_ok. by rewrite andb_false_r.
  - done.
  - intros Hcase. apply Hbad; unfold params_ok, EEPROM_MEM_SIZE;
      (destruct Hcase as [H|[->|H]];
        [by destruct (Z.leb_spec (256 * 1024 * 2) addr); [|lia]
        |by rewrite andb_false_r
        |rewrite u32_small by lia; destruct (Z.ltb_spec (256 * 1024 * 2) (addr + n)); [|lia];
         by rewrite andb_false_r]).
  - intros Hlt Hwrap. unfold params_ok, EEPROM_MEM_SIZE, u32.
    destruct (Z.leb_spec (256 * 1024 * 2) addr); [lia|].
    destruct (Z.eqb_spec n 0); [lia|].
    destruct (Z.ltb_spec (256 * 1024 * 2) ((addr + n) mod 2 ^ 32)); [|done]. zlia.
Qed.
End properties.

(** * Witnesses on the simulated device *)

Section witnesses.
#[local] Existing Instance sim_bus.

Definition ee_blank : mach ee_glob :=
  Mach (View 0 Idle false false (fun _ => 255) 0) [] (EeGlob 0xFFFFFFFF 0 0 (replicate 128 0) 0xA0).
Definition ee_waiting : mach ee_glob :=
  Mach (View 0 Idle false false (fun _ => 255) 1) [] (EeGlob 200 2 1 (replicate 128 7) 0xA0).

Lemma enough_sim : enough 4.
Proof. unfold enough. cbn. lia. Qed.

Lemma ee_blank_ok : ee_ok ee_blank.
Proof.
  split; [split; [done|cbn; lia]|split].
  - split_and!; done || by apply Forall_replicate.
  - intros _ H. cbn in H. lia.
Qed.

Lemma ee_waiting_ok : ee_ok ee_waiting.
Proof.
  split; [split; [done|cbn; lia]|split]; [|done].
  split_and!; done || (by apply Forall_replicate) || (intros _; by split).
Qed.

Lemma EEPROM_Read_correct_witness :
  wp (EEPROM_Read 4 120 true 90) ee_waiting (fun p s' =>
    p = (EEPROM_ERR_OK, (fun i => logical ee_waiting (120 + i)) <$> zrange 0 90) /\
    ee_ok s' /\ forall x, logical s' x = logical ee_waiting x).
Proof.
  apply (EEPROM_Read_correct 4 120 90); [apply enough_sim|apply ee_waiting_ok|done..].
Defined.

Lemma EEPROM_Write_correct_witness :
  wp (EEPROM_Write 4 202 (Some [1; 2; 3]) 3) ee_waiting (fun r s' =>
    r = EEPROM_ERR_OK /\ ee_ok s' /\
    forall x, logical s' x = overlay (logical ee_waiting) 202 (take 3 [1; 2; 3]) x).
Proof.
  apply (EEPROM_Write_correct 4 202 [1; 2; 3] 3); [apply enough_sim|apply ee_waiting_ok| |done..|].
  - intros _. cbn. lia.
  - repeat constructor; done.
Defined.


Lemma EEPROM_Init_establishes_witness :
  wp (EEPROM_Init 4) ee_blank (fun _ s' =>
    ee_ok s' /\ forall x, logical s' x = u8 (v_mem (vw ee_blank) x)).
Proof.
  apply (EEPROM_Init_establishes 4); [apply enough_sim|split; [done|cbn; lia]|done|].
  by apply Forall_replicate.
Defined.

Lemma EEPROM_Write_lost_witness :
  EEPROM_Write 4 201 (Some [9]) 1 ee_waiting = Ret EEPROM_ERR_OK ee_waiting.
Proof.
  apply (EEPROM_Write_lost 4 201 9); [apply ee_waiting_ok|done..|cbn; lia].
Defined.

Lemma EEPROM_parameters_witness :
  params_ok 0x100 true 0xFFFFFF10 = true /\
  EEPROM_Read 4 0x80000 true 1 ee_blank = Ret (EEPROM_ERR_ILLPARAMVAL, []) ee_blank.
Proof.
  split.
  - apply (EEPROM_parameters 4 0x100 true 0xFFFFFF10 None ee_blank); done.
  - apply (EEPROM_parameters 4 0x80000 true 1 None ee_blank); [done..|by left].
Defined.
End witnesses.
