(* ===== verification/Hardware.v ===== *)
(** The board support, src/hardware.c with inc/hardware.h and
    inc/hardware_private.h: LEDs, I/O pins, power down, the switch of the card
    reader, and the jump to the CAN bootloader with its parameter block. *)
From S2P Require Import Prelude Machine Can Eeprom.

#[local] Open Scope fw_scope.

Definition HW_ERR_OK : Z := 0.
Definition HW_ERR_ILLPARAMVAL : Z := 1.
Definition HW_ERR_RESOURCE : Z := 2.

Definition HW_LED_STATUS : Z := 0.
Definition HW_LED_CAN1 : Z := 1.
Definition HW_LED_CAN6 : Z := 6.
Definition HW_LED_SD1 : Z := 7.
Definition HW_LED_SD2 : Z := 8.

Definition HW_LED_OFF : Z := 0.
Definition HW_LED_RED : Z := 1.
Definition HW_LED_GREEN : Z := 2.
Definition HW_LED_ORANGE : Z := 3.

(** Ports A, B, ... are 0, 1, ...: GPIO blocks of 1 KByte each. *)
Definition GPIO_IDR (port : Z) : Z := 0x40020000 + 0x400 * port + 0x10.
Definition GPIO_BSRR (port : Z) : Z := 0x40020000 + 0x400 * port + 0x18.
Definition PORT_B : Z := 1.
Definition PORT_G : Z := 6.
Definition PORT_I : Z := 8.
Definition PORT_J : Z := 9.
Definition PORT_K : Z := 10.

Definition SYS_CNTL_SET : Z := FPGA + 8.
Definition SYS_CNTL_CLR : Z := FPGA + 16.
Definition SYS_DOUT_WR : Z := FPGA + 88.

Definition ADC2 : Z := 0x40012100.
Definition ADC_SR : Z := ADC2 + 0x00.
Definition ADC_CR2 : Z := ADC2 + 0x08.
Definition ADC_SQR3 : Z := ADC2 + 0x34.
Definition ADC_DR : Z := ADC2 + 0x4C.

(** [BL_INVOKE]: version, 32 characters, six timings of 20 bytes. *)
Definition BL_INVOKE : Z := 0x2001FF00.
Definition BL_STR : Z := BL_INVOKE + 4.
Definition BL_TIMING : Z := BL_INVOKE + 36.

(** "call bootloader!" *)
Definition call_bootloader : list Z :=
  [99; 97; 108; 108; 32; 98; 111; 111; 116; 108; 111; 97; 100; 101; 114; 33].

(** The bytes of a little-endian integer of [n] bytes. *)
Fixpoint le_bytes (n : nat) (v : Z) : list Z :=
  match n with O => [] | S n' => u8 v :: le_bytes n' (v .>> 8) end.

(** A [CANTiming_t] in memory; the padding bytes of the constants are zero. *)
Definition timing_bytes (t : CANTiming_t) : list Z :=
  le_bytes 4 (can_clk t) ++ le_bytes 2 (nom_brp t) ++ le_bytes 2 (nom_tseg1 t) ++
  le_bytes 1 (nom_tseg2 t) ++ le_bytes 1 (nom_sjw t) ++ le_bytes 1 (warning_limit t) ++
  le_bytes 1 (listen_only t) ++ le_bytes 1 (can_mode t) ++ [0] ++
  le_bytes 2 (data_brp t) ++ le_bytes 1 (data_tseg1 t) ++ le_bytes 1 (data_tseg2 t) ++
  le_bytes 1 (data_sjw t) ++ [0].

Section hardware.
Context {B : Bus} {G : Type}.
Abbreviation prog := (M (mach G)).

(** Busy waiting has no effect but time. *)
Definition HW_WaitMicros (n : Z) : prog unit := ret tt.

(** ** GPIO helpers of hardware.h *)
Definition HW_MSD_ACCESS_USBC : prog unit := wr (GPIO_BSRR PORT_J) ((1 .<< 18) .| (1 .<< 17)).
Definition HW_MSD_ACCESS_CPU : prog unit := wr (GPIO_BSRR PORT_J) ((1 .<< 2) .| (1 .<< 1)).
Definition HW_USB_CR_ASSERT_RST : prog unit := wr (GPIO_BSRR PORT_J) (1 .<< 7).
Definition HW_USB_CR_DEASSERT_RST : prog unit := wr (GPIO_BSRR PORT_J) (1 .<< 23).
Definition HW_DIS_ACCU_BACKUP : prog unit := wr (GPIO_BSRR PORT_K) (1 .<< 16).
Definition HW_DIS_SELFHOLD : prog unit := wr (GPIO_BSRR PORT_I) (1 .<< 24).

Definition HW_PassUsbToHost : prog unit :=
  HW_MSD_ACCESS_USBC ;; HW_WaitMicros 20 ;; HW_USB_CR_DEASSERT_RST.

Definition HW_PassUsbToMe : prog unit :=
  HW_USB_CR_ASSERT_RST ;; HW_WaitMicros 20 ;;
  HW_MSD_ACCESS_CPU ;; HW_WaitMicros 10 ;;
  for_each (zrange 0 12) (fun _ =>
    wr SYS_CNTL_CLR (1 .<< 24) ;; HW_WaitMicros 4 ;;
    wr SYS_CNTL_SET (1 .<< 24) ;; HW_WaitMicros 4).

(** [NVIC_SystemReset] does not return. *)
Definition HW_ResetModule : prog unit :=
  wr (GPIO_BSRR PORT_G) (1 .<< 22) ;; HW_WaitMicros 50 ;; halt.

(** The result and what is left in [*buffer]; [false] stands for NULL. *)
Definition HW_GetAIN (fuel : nat) (buffer : bool) : prog (Z * option Z) :=
  if negb buffer then ret (HW_ERR_ILLPARAMVAL, None)
  else
    rd ADC_DR ;;
    wr ADC_SQR3 6 ;;
    rmw ADC_CR2 (fun v => v .| (1 .<< 30)) ;;
    while_ fuel (v <- rd ADC_SR ;; ret (negb (any_bit v (1 .<< 1)))) (ret tt) ;;
    v <- rd ADC_DR ;;
    ret (HW_ERR_OK, Some (v .& 0xFFF)).

Definition HW_GetDIN (buffer : bool) : prog (Z * option Z) :=
  if negb buffer then ret (HW_ERR_ILLPARAMVAL, None)
  else
    v <- rd (GPIO_IDR PORT_K) ;; ret (HW_ERR_OK, Some (Z.lxor ((v .>> 4) .& 0xF) 0xF)).

Definition HW_SetDOUT (buffer : option Z) : prog Z :=
  match buffer with
  | None => ret HW_ERR_ILLPARAMVAL
  | Some v => wr SYS_DOUT_WR v ;; ret HW_ERR_OK
  end.

Definition HW_GetModuleID (buffer : bool) : prog (Z * option Z) :=
  if negb buffer then ret (HW_ERR_ILLPARAMVAL, None)
  else
    v <- rd (GPIO_IDR PORT_J) ;; ret (HW_ERR_OK, Some (Z.lxor ((v .>> 12) .& 0xF) 0xF)).

(** Byte stores from [a] on. *)
Definition store_bytes (a : Z) (l : list Z) : prog unit :=
  for_each (zip (zrange a (length l)) l) (fun p => wr (fst p) (snd p)).

(** [strncpy] pads with zeros up to 32 characters. *)
Definition HW_JumpToBootloader (timing : option (list CANTiming_t)) : prog unit :=
  wr (GPIO_BSRR PORT_G) (1 .<< 22) ;;
  wr BL_INVOKE 1 ;;
  store_bytes BL_STR (call_bootloader ++ replicate 16 0) ;;
  store_bytes BL_TIMING (replicate 120 0) ;;
  (match timing with
   | None => ret tt
   | Some t => defined_if (6 <=? length t)%nat ;;
               store_bytes BL_TIMING (concat (timing_bytes <$> take 6 t))
   end) ;;
  halt.

Definition HW_SetLED (hLED color : Z) : prog Z :=
  if hLED =? HW_LED_STATUS then
    wr (GPIO_BSRR PORT_J) (1 .<< 9) ;;
    wr (GPIO_BSRR PORT_B) (1 .<< 15) ;;
    (if color =? HW_LED_OFF then ret tt
     else if color =? HW_LED_RED then wr (GPIO_BSRR PORT_J) (1 .<< 25)
     else if color =? HW_LED_GREEN then wr (GPIO_BSRR PORT_B) (1 .<< 31)
     else if color =? HW_LED_ORANGE then
       wr (GPIO_BSRR PORT_J) (1 .<< 25) ;; wr (GPIO_BSRR PORT_B) (1 .<< 31)
     else ret tt) ;;
    ret HW_ERR_OK
  else if (HW_LED_CAN1 <=? hLED) && (hLED <=? HW_LED_CAN6) then
    let hLED := hLED - 1 in
    if color =? HW_LED_OFF then wr (CAN_CNTL hLED) ((2 .<< 10) .| (2 .<< 8)) ;; ret HW_ERR_OK
    else if color =? HW_LED_RED then wr (CAN_CNTL hLED) ((2 .<< 10) .| (1 .<< 8)) ;; ret HW_ERR_OK
    else if color =? HW_LED_GREEN then wr (CAN_CNTL hLED) ((1 .<< 10) .| (2 .<< 8)) ;; ret HW_ERR_OK
    else if color =? HW_LED_ORANGE then wr (CAN_CNTL hLED) ((1 .<< 10) .| (1 .<< 8)) ;; ret HW_ERR_OK
    else ret HW_ERR_ILLPARAMVAL
  else if hLED =? HW_LED_SD1 then
    (if color =? HW_LED_OFF then wr SYS_CNTL_SET (3 .<< 20)
     else if color =? HW_LED_RED then wr SYS_CNTL_CLR (1 .<< 20) ;; wr SYS_CNTL_SET (1 .<< 21)
     else if color =? HW_LED_GREEN then wr SYS_CNTL_CLR (1 .<< 21) ;; wr SYS_CNTL_SET (1 .<< 20)
     else if color =? HW_LED_ORANGE then wr SYS_CNTL_CLR (3 .<< 20)
     else ret tt) ;;
    ret HW_ERR_OK
  else if hLED =? HW_LED_SD2 then
    (if color =? HW_LED_OFF then wr SYS_CNTL_SET (3 .<< 22)
     else if color =? HW_LED_RED then wr SYS_CNTL_CLR (1 .<< 22) ;; wr SYS_CNTL_SET (1 .<< 23)
     else if color =? HW_LED_GREEN then wr SYS_CNTL_CLR (1 .<< 23) ;; wr SYS_CNTL_SET (1 .<< 22)
     else if color =? HW_LED_ORANGE then wr SYS_CNTL_CLR (3 .<< 22)
     else ret tt) ;;
    ret HW_ERR_OK
  else ret HW_ERR_RESOURCE.

Definition sleep_table : list Z := [3; 3; 0; 2; 1; 3; 3; 3; 3; 2; 3; 3; 3; 3; 3; 3].

Definition phy_sleep (hBus : Z) : prog unit :=
  v <- rd (CAN_PHY hBus) ;;
  m <- deref (aget sleep_table (v .& 0xF)) ;;
  wr (CAN_PHY hBus) ((1 .<< 31) .| (1 .<< 30) .| (m .<< 28)).

Definition HW_EnterPowerDown : prog unit :=
  phy_sleep 0 ;; phy_sleep 1 ;; phy_sleep 2 ;; phy_sleep 3 ;; phy_sleep 4 ;; phy_sleep 5 ;;
  HW_DIS_ACCU_BACKUP ;; HW_DIS_SELFHOLD.
End hardware.

(** [HW_Init] of a program that has the globals of can.c and eeprom.c. *)
Definition HW_Init {B : Bus} {G} {_ : Has G can_glob} {_ : Has G ee_glob} (fuel : nat) :
    M (mach G) Z :=
  call CAN_Startup ;; call (EEPROM_Init fuel) ;; ret HW_ERR_OK.

(** * The LEDs as a user sees them *)

(** Levels of the output pins and of the bits of the FPGA's system control
    register, and the last word written to each CAN_CNTL. *)
Record outputs := Outs {
  o_pin : Z -> Z -> bool;
  o_sys : Z -> bool;
  o_can : Z -> Z;
}.

(** What a register write does to them: BSRR sets a pin by its low half and
    resets it by its high half, setting has priority. *)
Definition drive (o : outputs) (e : Z * Z) : outputs :=
  let '(a, v) := e in {|
    o_pin p i :=
      if a =? GPIO_BSRR p then
        if Z.testbit v i then true else if Z.testbit v (i + 16) then false else o_pin o p i
      else o_pin o p i;
    o_sys i :=
      if a =? SYS_CNTL_SET then Z.testbit v i || o_sys o i
      else if a =? SYS_CNTL_CLR then o_sys o i && negb (Z.testbit v i)
      else o_sys o i;
    o_can b := if a =? CAN_CNTL b then v else o_can o b;
  |}.

(** Red and green of an LED: the discrete LEDs are active low, the fields of
    CAN_CNTL are 1 for on and 2 for off. *)
Definition lit (o : outputs) (hLED : Z) : bool * bool :=
  if hLED =? HW_LED_STATUS then (negb (o_pin o PORT_J 9), negb (o_pin o PORT_B 15))
  else if hLED =? HW_LED_SD1 then (negb (o_sys o 20), negb (o_sys o 21))
  else if hLED =? HW_LED_SD2 then (negb (o_sys o 22), negb (o_sys o 23))
  else (bits (o_can o (hLED - 1)) 8 2 =? 1, bits (o_can o (hLED - 1)) 10 2 =? 1).

Definition color_of (color : Z) : bool * bool := (Z.testbit color 0, Z.testbit color 1).

(** The wires that belong to an LED. *)
Definition led_wire (p i : Z) : bool := (p =? PORT_J) && (i =? 9) || (p =? PORT_B) && (i =? 15).

(** A program that only writes the registers of [l] and returns [r]. *)
Definition writes_only {B : Bus} {G A} (m : M (mach G) A) (s : mach G) (r : A) (l : list (Z * Z)) : Prop :=
  m s = Ret r (Mach (wr_dev l (dev s)) (wlog s ++ wr_trace l) (glb s)).

Section hardware_proofs.
Context {B : Bus} {G : Type}.
Implicit Types s : mach G.

(** The writes of [HW_SetLED], by LED and colour. *)
Definition led_writes (hLED color : Z) : list (Z * Z) :=
  if hLED =? HW_LED_STATUS then
    [(GPIO_BSRR PORT_J, 1 .<< 9); (GPIO_BSRR PORT_B, 1 .<< 15)] ++
    (if Z.testbit color 0 then [(GPIO_BSRR PORT_J, 1 .<< 25)] else []) ++
    (if Z.testbit color 1 then [(GPIO_BSRR PORT_B, 1 .<< 31)] else [])
  else if (HW_LED_CAN1 <=? hLED) && (hLED <=? HW_LED_CAN6) then
    [(CAN_CNTL (hLED - 1),
      ((if Z.testbit color 1 then 1 else 2) .<< 10) .| ((if Z.testbit color 0 then 1 else 2) .<< 8))]
  else
    let b := if hLED =? HW_LED_SD1 then 20 else 22 in
    match color with
    | 0 => [(SYS_CNTL_SET, 3 .<< b)]
    | 1 => [(SYS_CNTL_CLR, 1 .<< b); (SYS_CNTL_SET, 1 .<< (b + 1))]
    | 2 => [(SYS_CNTL_CLR, 1 .<< (b + 1)); (SYS_CNTL_SET, 1 .<< b)]
    | _ => [(SYS_CNTL_CLR, 3 .<< b)]
    end.

Lemma HW_SetLED_writes hLED color s :
  0 <= hLED <= 8 -> 0 <= color <= 3 ->
  writes_only (HW_SetLED hLED color) s HW_ERR_OK (led_writes hLED color).
Proof.
  intros HL Hc. destruct s as [d w g]. zenum color 4%nat; zenum hLED 9%nat.
  all: unfold writes_only, HW_SetLED, bind, wr, ret; cbn -[u32]; rewrite <- ?app_assoc; reflexivity.
Qed.

(** Decide the remaining bits of a computed goal. *)
Ltac crush_if :=
  try reflexivity;
  match goal with |- context [if ?b then _ else _] => destruct b; crush_if end.

Lemma led_writes_lit o hLED color :
  0 <= hLED <= 8 -> 0 <= color <= 3 ->
  let o' := fold_left drive (wr_trace (led_writes hLED color)) o in
  (forall led, 0 <= led <= 8 -> lit o' led = if led =? hLED then color_of color else lit o led) /\
  (forall p i, 0 <= p <= 10 -> 0 <= i <= 15 -> led_wire p i = false -> o_pin o' p i = o_pin o p i).
Proof.
  intros HL Hc. destruct o as [pin sys can]. zenum color 4%nat; zenum hLED 9%nat.
  all: split; [intros led Hled; zenum led 9%nat; vm_compute; crush_if|].
  all: intros p i Hp Hi; zenum i 16%nat; zenum p 11%nat; vm_compute; (reflexivity || discriminate).
Qed.

(** ** The parameter block of the bootloader *)

(** The last value stored at an address. *)
Definition peek (l : list (Z * Z)) (a : Z) : option Z :=
  fold_left (fun m e => if fst e =? a then Some (snd e) else m) l None.

Definition peeks (l : list (Z * Z)) (a : Z) (n : nat) : list (option Z) :=
  (fun i => peek l (a + i)) <$> zrange 0 n.

(** The trace of [store_bytes]. *)
Definition byte_writes (a : Z) (l : list Z) : list (Z * Z) := zip (zrange a (length l)) l.

Lemma store_bytes_wr a l s : store_bytes a l s = wr_all (byte_writes a l) s.
Proof.
  unfold store_bytes. rewrite (for_each_wr_all _ _ (fun p => [p])).
  - fold (byte_writes a l). f_equal. induction (byte_writes a l) as [|p w IH]; [done|].
    cbn [fmap list_fmap concat app]. by rewrite IH.
  - intros [x v] t _ _. cbn [fst snd wr_all]. unfold bind. done.
Qed.

Lemma peek_snoc l a v x : peek (l ++ [(a, v)]) x = if a =? x then Some v else peek l x.
Proof. unfold peek. by rewrite fold_left_app. Qed.

(** Reading back after a run of byte stores. *)
Lemma peek_bytes tr a l x :
  peek (tr ++ byte_writes a l) x = match aget l (x - a) with Some d => Some d | None => peek tr x end.
Proof.
  unfold byte_writes. induction l as [|d l IH] using rev_ind.
  { rewrite app_nil_r. unfold aget. by destruct (x - a <? 0). }
  rewrite length_app. cbn [length]. rewrite Nat.add_1_r, zrange_snoc.
  rewrite zip_with_app by (unfold zrange; rewrite length_seqZ; lia).
  cbn [zip_with]. rewrite app_assoc, peek_snoc, IH.
  destruct (Z.eqb_spec (a + Z.of_nat (length l)) x) as [Heq|Hne].
  - subst x. unfold aget. destruct (Z.ltb_spec (a + Z.of_nat (length l) - a) 0); [lia|].
    rewrite lookup_app_r by lia.
    by replace (Z.to_nat _ - length l)%nat with 0%nat by lia.
  - unfold aget. destruct (Z.ltb_spec (x - a) 0); [done|].
    destruct (Nat.lt_ge_cases (Z.to_nat (x - a)) (length l)).
    + by rewrite lookup_app_l by lia.
    + rewrite (lookup_ge_None_2 l), (lookup_ge_None_2 (l ++ [d])); [done| |lia].
      rewrite length_app. cbn. lia.
Qed.

Lemma wr_trace_bytes a l :
  Forall (fun x => 0 <= x < 256) l -> wr_trace (byte_writes a l) = byte_writes a l.
Proof.
  intros Hl. unfold wr_trace, byte_writes. generalize (zrange a (length l)). intros w.
  revert w. induction Hl as [|x l Hx Hl IH]; intros [|b w]; [done..|].
  cbn [zip_with fmap list_fmap]. rewrite IH. unfold prod_map. cbn. by rewrite u32_small by lia.
Qed.

Lemma le_bytes_range n v : Forall (fun x => 0 <= x < 256) (le_bytes n v).
Proof.
  revert v. induction n as [|n IH]; intros v; [apply Forall_nil_2|].
  apply Forall_cons_2; [apply u8_range|apply IH].
Qed.

(** The value of little-endian bytes. *)
Fixpoint le_value (l : list Z) : Z :=
  match l with [] => 0 | b :: l' => b + 256 * le_value l' end.

Lemma le_roundtrip n v : 0 <= v < 256 ^ Z.of_nat n -> le_value (le_bytes n v) = v.
Proof.
  revert v. induction n as [|n IH]; intros v Hv; [cbn in *; lia|].
  cbn [le_bytes le_value]. rewrite Z.shiftr_div_pow2 by done. rewrite IH.
  - unfold u8. change (2 ^ 8) with 256. zlia.
  - rewrite Nat2Z.inj_succ, Z.pow_succ_r in Hv by lia. change (2 ^ 8) with 256.
    split; [apply Z.div_pos; lia|]. apply Z.div_lt_upper_bound; lia.
Qed.

(** A [CANTiming_t] read from 20 bytes of memory. *)
Definition parse_timing (l : list Z) : CANTiming_t :=
  let field o n := le_value (take n (drop o l)) in {|
    can_clk := field 0%nat 4%nat;
    nom_brp := field 4%nat 2%nat; nom_tseg1 := field 6%nat 2%nat;
    nom_tseg2 := field 8%nat 1%nat; nom_sjw := field 9%nat 1%nat;
    warning_limit := field 10%nat 1%nat; listen_only := field 11%nat 1%nat;
    can_mode := field 12%nat 1%nat;
    data_brp := field 14%nat 2%nat; data_tseg1 := field 16%nat 1%nat;
    data_tseg2 := field 17%nat 1%nat; data_sjw := field 18%nat 1%nat;
  |}.

(** The fields fit their types. *)
Definition timing_typed (t : CANTiming_t) : Prop :=
  0 <= can_clk t < 2 ^ 32 /\ 0 <= nom_brp t < 2 ^ 16 /\ 0 <= nom_tseg1 t < 2 ^ 16 /\
  0 <= nom_tseg2 t < 2 ^ 8 /\ 0 <= nom_sjw t < 2 ^ 8 /\ 0 <= warning_limit t < 2 ^ 8 /\
  0 <= listen_only t < 2 ^ 8 /\ 0 <= can_mode t < 2 ^ 8 /\ 0 <= data_brp t < 2 ^ 16 /\
  0 <= data_tseg1 t < 2 ^ 8 /\ 0 <= data_tseg2 t < 2 ^ 8 /\ 0 <= data_sjw t < 2 ^ 8.

Lemma timing_bytes_length t : length (timing_bytes t) = 20%nat.
Proof. done. Qed.

Lemma timing_bytes_range t : Forall (fun x => 0 <= x < 256) (timing_bytes t).
Proof.
  unfold timing_bytes. repeat apply Forall_app_2; try apply le_bytes_range; by apply Forall_singleton.
Qed.

Lemma timing_roundtrip t : timing_typed t -> parse_timing (timing_bytes t) = t.
Proof.
  intros (?&?&?&?&?&?&?&?&?&?&?&?). destruct t as [f1 f2 f3 f4 f5 f6 f7 f8 f9 f10 f11 f12].
  cbn [can_clk nom_brp nom_tseg1 nom_tseg2 nom_sjw warning_limit listen_only can_mode data_brp
    data_tseg1 data_tseg2 data_sjw] in *.
  unfold parse_timing. f_equal.
  all: match goal with |- le_value ?l = ?x =>
    let n := eval vm_compute in (length l) in change l with (le_bytes n x) end;
    by apply le_roundtrip.
Qed.

(** Everything [HW_JumpToBootloader] writes before the reset. *)
Definition jump_writes (timing : option (list CANTiming_t)) : list (Z * Z) :=
  [(GPIO_BSRR PORT_G, 1 .<< 22); (BL_INVOKE, 1)] ++
  byte_writes BL_STR (call_bootloader ++ replicate 16 0) ++
  byte_writes BL_TIMING (replicate 120 0) ++
  match timing with
  | None => []
  | Some t => byte_writes BL_TIMING (concat (timing_bytes <$> take 6 t))
  end.

Lemma timings_range ts : Forall (fun x => 0 <= x < 256) (concat (timing_bytes <$> ts)).
Proof.
  induction ts as [|t ts IH]; [apply Forall_nil_2|]. cbn [fmap list_fmap concat].
  apply Forall_app_2; [apply timing_bytes_range|done].
Qed.

Lemma jump_final timing s :
  (forall ts, timing = Some ts -> (6 <= length ts)%nat) ->
  HW_JumpToBootloader timing s =
  Halt (Mach (wr_dev (jump_writes timing) (dev s)) (wlog s ++ jump_writes timing) (glb s)).
Proof.
  intros Hts.
  assert (wr_trace (jump_writes timing) = jump_writes timing) as Htr.
  { unfold jump_writes. rewrite !wr_trace_app, !wr_trace_bytes; [|by apply Forall_replicate|].
    2: { apply Forall_app_2; [|by apply Forall_replicate].
         unfold call_bootloader. repeat (apply Forall_cons_2; [lia|]). apply Forall_nil_2. }
    destruct timing as [ts|]; [|done]. by rewrite wr_trace_bytes by apply timings_range. }
  rewrite <- Htr at 2. unfold HW_JumpToBootloader, bind. cbn beta. unfold wr at 1. cbn beta iota.
  unfold wr at 1. cbn beta iota. rewrite store_bytes_wr, wr_all_spec, store_bytes_wr, wr_all_spec.
  cbn [dev wlog glb]. destruct timing as [ts|].
  - specialize (Hts ts eq_refl). unfold defined_if.
    destruct (Nat.leb_spec 6 (length ts)); [|lia]. unfold ret. cbn beta iota.
    rewrite store_bytes_wr, wr_all_spec. cbn [dev wlog glb]. unfold halt, jump_writes.
    by rewrite !wr_dev_app, !wr_trace_app, <- !app_assoc.
  - unfold ret, halt, jump_writes. by rewrite !wr_dev_app, !wr_trace_app, <- !app_assoc.
Qed.

Lemma aget_timings ts k t i :
  ts !! k = Some t -> 0 <= i < 20 ->
  aget (concat (timing_bytes <$> ts)) (20 * Z.of_nat k + i) = aget (timing_bytes t) i.
Proof.
  intros Hk Hi. unfold aget. destruct (Z.ltb_spec (20 * Z.of_nat k + i) 0), (Z.ltb_spec i 0); try lia.
  replace (Z.to_nat (20 * Z.of_nat k + i)) with (20 * k + Z.to_nat i)%nat by lia.
  revert ts Hk. induction k as [|k IH]; intros [|t' ts] Hk; [done| |done|];
    cbn [fmap list_fmap concat].
  - injection Hk as ->. rewrite lookup_app_l; [done|]. rewrite timing_bytes_length. lia.
  - rewrite lookup_app_r by (rewrite timing_bytes_length; lia). rewrite timing_bytes_length.
    replace (20 * S k + Z.to_nat i - 20)%nat with (20 * k + Z.to_nat i)%nat by lia. exact (IH ltac:(lia) ts Hk).
Qed.

(** A run of cells that holds the bytes [l]. *)
Lemma peeks_eq tr a l :
  (forall i d, 0 <= i < Z.of_nat (length l) -> aget l i = Some d -> peek tr (a + i) = Some d) ->
  peeks tr a (length l) = Some <$> l.
Proof.
  intros Hp. apply list_eq. intros i. unfold peeks. rewrite !list_lookup_fmap. unfold zrange.
  destruct (Nat.lt_ge_cases i (length l)) as [Hi|Hi].
  - destruct (lookup_lt_is_Some_2 l i Hi) as [d Hd]. rewrite lookup_seqZ_lt, Hd by lia.
    cbn [fmap option_fmap option_map]. f_equal. apply Hp; [lia|].
    unfold aget. destruct (Z.ltb_spec (0 + Z.of_nat i) 0); [lia|]. rewrite <- Hd. f_equal. lia.
  - by rewrite lookup_seqZ_ge, (lookup_ge_None_2 l) by lia.
Qed.
End hardware_proofs.

(** * Properties *)

Section properties.
Context {B : Bus} {G : Type}.
Implicit Types s : mach G.

(** HW_SetLED makes the chosen LED show the chosen colour, leaves every
    other LED as it is and every output pin of the ports that is not a wire of
    the status LED. *)
Theorem HW_SetLED_shows o hLED color s :
  0 <= hLED <= 8 -> 0 <= color <= 3 ->
  exists l, writes_only (HW_SetLED hLED color) s HW_ERR_OK l /\
    let o' := fold_left drive (wr_trace l) o in
    (forall led, 0 <= led <= 8 -> lit o' led = if led =? hLED then color_of color else lit o led) /\
    (forall p i, 0 <= p <= 10 -> 0 <= i <= 15 -> led_wire p i = false ->
       o_pin o' p i = o_pin o p i).
Proof.
  intros HL Hc. exists (led_writes hLED color). split; [by apply HW_SetLED_writes|].
  by apply led_writes_lit.
Qed.

(** A handle beyond the LEDs gives HW_ERR_RESOURCE, a bad colour for a CAN
    LED HW_ERR_ILLPARAMVAL, both without a register write; a bad colour for
    the status LED is accepted and switches it off, and for an SD LED it is
    accepted and ignored. *)
Theorem HW_SetLED_errors hLED color s :
  0 <= hLED -> 3 < color ->
  (8 < hLED -> HW_SetLED hLED color s = Ret HW_ERR_RESOURCE s) /\
  (1 <= hLED <= 6 -> HW_SetLED hLED color s = Ret HW_ERR_ILLPARAMVAL s) /\
  (hLED = HW_LED_STATUS ->
   writes_only (HW_SetLED hLED color) s HW_ERR_OK (led_writes HW_LED_STATUS HW_LED_OFF)) /\
  (7 <= hLED <= 8 -> HW_SetLED hLED color s = Ret HW_ERR_OK s).
Proof.
  intros HL Hc. unfold HW_SetLED, HW_LED_STATUS, HW_LED_CAN1, HW_LED_CAN6, HW_LED_SD1, HW_LED_SD2,
    HW_LED_OFF, HW_LED_RED, HW_LED_GREEN, HW_LED_ORANGE.
  destruct (Z.eqb_spec color 0), (Z.eqb_spec color 1), (Z.eqb_spec color 2),
    (Z.eqb_spec color 3); try lia.
  split_and!; intros H; try subst hLED;
    try (destruct (Z.eqb_spec hLED 0), (Z.leb_spec 1 hLED), (Z.leb_spec hLED 6),
      (Z.eqb_spec hLED 7), (Z.eqb_spec hLED 8); try lia; done).
  unfold writes_only, bind, wr, ret. cbn -[u32]. by rewrite <- !app_assoc.
Qed.

(** The jump to the CAN bootloader resets the FPGA, leaves the version, the
    zero-terminated call string and all six bit timings (all zero without a
    timing) in the parameter block, readable by a loader that uses the same
    struct, and resets the CPU. *)
Theorem HW_JumpToBootloader_block timing s :
  (forall ts, timing = Some ts -> length ts = 6%nat /\ Forall timing_typed ts) ->
  exists d tr,
    HW_JumpToBootloader timing s = Halt (Mach d (wlog s ++ tr) (glb s)) /\
    head tr = Some (GPIO_BSRR PORT_G, 1 .<< 22) /\ peek tr BL_INVOKE = Some 1 /\
    peeks tr BL_STR 17 = Some <$> (call_bootloader ++ [0]) /\
    forall k, 0 <= k < 6 ->
      exists l, peeks tr (BL_TIMING + 20 * k) 20 = Some <$> l /\
        match timing with
        | Some ts => aget ts k = Some (parse_timing l)
        | None => l = replicate 20 0
        end.
Proof.
  intros Hts. eexists _, (jump_writes timing). split.
  { apply jump_final. intros ts Heq. destruct (Hts ts Heq). lia. }
  split; [done|]. split; [|split].
  - unfold jump_writes. rewrite !app_assoc. destruct timing; [rewrite peek_bytes|rewrite app_nil_r].
    all: rewrite peek_bytes, peek_bytes; reflexivity.
  - apply (peeks_eq _ _ (call_bootloader ++ [0])). intros i d Hi Hd. unfold jump_writes.
    rewrite !app_assoc. 
    assert (forall l, aget l (BL_STR + i - BL_TIMING) = @None Z) as Hno.
    { intros l. unfold aget, BL_STR, BL_TIMING.
      cbn in Hi. destruct (Z.ltb_spec (BL_INVOKE + 4 + i - (BL_INVOKE + 36)) 0); [done|lia]. }
    destruct timing; [rewrite peek_bytes, Hno|rewrite app_nil_r].
    all: rewrite peek_bytes, Hno, peek_bytes.
    all: replace (BL_STR + i - BL_STR) with i by lia.
    all: unfold aget in *; destruct (i <? 0); [done|].
    all: rewrite <- (take_drop 17 (call_bootloader ++ replicate 16 0)).
    all: rewrite lookup_app_l by (cbn in Hi |- *; lia).
    all: change (take 17 _) with (call_bootloader ++ [0]); by rewrite Hd.
  - intros k Hk. destruct timing as [ts|].
    + destruct (Hts ts eq_refl) as [Hlen Hty].
      destruct (aget_is_Some ts k) as [t Ht]; [lia|]. exists (timing_bytes t).
      assert (ts !! Z.to_nat k = Some t) as Hlk.
      { unfold aget in Ht. by destruct (Z.ltb_spec k 0); [lia|]. }
      split; [|rewrite timing_roundtrip; [done|exact (Forall_lookup_1 _ _ _ _ Hty Hlk)]].
      apply (peeks_eq _ _ (timing_bytes t)). intros i d Hi Hd. unfold jump_writes.
      rewrite timing_bytes_length in Hi. rewrite !app_assoc, peek_bytes, firstn_all2 by lia.
      replace (BL_TIMING + 20 * k + i - BL_TIMING) with (20 * Z.of_nat (Z.to_nat k) + i) by lia.
      by rewrite (aget_timings _ _ t), Hd.
    + exists (replicate 20 0). split; [|done]. apply (peeks_eq _ _ (replicate 20 0)).
      intros i d Hi Hd. unfold jump_writes. cbn in Hi. rewrite app_nil_r, app_assoc, peek_bytes.
      replace (BL_TIMING + 20 * k + i - BL_TIMING) with (20 * k + i) by lia.
      unfold aget in *. destruct (Z.ltb_spec i 0); [lia|]. destruct (Z.ltb_spec (20 * k + i) 0); [lia|].
      apply lookup_replicate in Hd as [-> _]. by rewrite lookup_replicate_2 by lia.
Qed.

(** Entering power down always completes: the table of sleep modes is never
    read out of range, every PHY gets its sleep command, and dropping the
    supply's self-hold is the last write of all. *)
Theorem HW_EnterPowerDown_order s :
  wp HW_EnterPowerDown s (fun _ s' =>
    glb s' = glb s /\
    exists m, length m = 6%nat /\ Forall (fun v => v = 0xC0000000 \/ v = 0xD0000000 \/
        v = 0xE0000000 \/ v = 0xF0000000) m /\
      wlog s' = wlog s ++ zip (CAN_PHY <$> zrange 0 6) m ++
        [(GPIO_BSRR PORT_K, 1 .<< 16); (GPIO_BSRR PORT_I, 1 .<< 24)]).
Proof.
  assert (Hphy : forall hBus t (Q : unit -> mach G -> Prop),
    (forall d v, v = 0xC0000000 \/ v = 0xD0000000 \/ v = 0xE0000000 \/ v = 0xF0000000 ->
       Q tt (Mach d (wlog t ++ [(CAN_PHY hBus, v)]) (glb t))) ->
    wp (phy_sleep hBus) t Q).
  { intros hBus t Q HQ. unfold phy_sleep. apply wp_bind, wp_rd, wp_bind.
    change 0xF with (Z.ones 4). rewrite Z.land_ones by done.
    set (i := _ mod 2 ^ 4). assert (0 <= i < 16) as Hi by (by apply Z.mod_pos_bound).
    destruct (aget_is_Some sleep_table i) as [m Hm]; [cbn; lia|].
    eapply wp_deref; [done|]. apply wp_wr, HQ. revert Hm. clearbody i.
    zenum i 16%nat; intros [= <-]; cbn; auto. }
  unfold HW_EnterPowerDown.
  apply wp_bind, Hphy. intros d0 v0 H0. apply wp_bind, Hphy. intros d1 v1 H1.
  apply wp_bind, Hphy. intros d2 v2 H2. apply wp_bind, Hphy. intros d3 v3 H3.
  apply wp_bind, Hphy. intros d4 v4 H4. apply wp_bind, Hphy. intros d5 v5 H5.
  apply wp_bind, wp_wr, wp_wr. split; [done|]. exists [v0; v1; v2; v3; v4; v5].
  split; [done|]. split; [by repeat (apply Forall_cons_2; [done|]); apply Forall_nil_2|].
  cbn [wlog]. by rewrite <- !app_assoc.
Qed.
End properties.

(** * Witnesses *)

Section witnesses.
#[local] Existing Instance ram_bus.

Definition hw_start : mach unit := Mach [] [] tt.
Definition dark : outputs := Outs (fun _ _ => true) (fun _ => true) (fun _ => 0xA00).

(** 80 MHz, 500 kbit/s and 2 Mbit/s. *)
Definition some_timing : CANTiming_t := CANTiming 80000000 1 127 32 32 96 0 1 2 15 4 4.

Lemma HW_SetLED_shows_witness :
  exists l, writes_only (HW_SetLED HW_LED_SD2 HW_LED_ORANGE) hw_start HW_ERR_OK l /\
    lit (fold_left drive (wr_trace l) dark) HW_LED_SD2 = (true, true).
Proof.
  destruct (HW_SetLED_shows dark HW_LED_SD2 HW_LED_ORANGE hw_start) as (l & Hl & Hlit & _);
    [done..|].
  exists l. split; [exact Hl|]. rewrite Hlit; done.
Defined.

Lemma HW_SetLED_errors_witness : HW_SetLED 9 7 hw_start = Ret HW_ERR_RESOURCE hw_start.
Proof. apply (HW_SetLED_errors 9 7 hw_start); done. Defined.

Lemma HW_JumpToBootloader_block_witness :
  exists d tr, HW_JumpToBootloader (Some (replicate 6 some_timing)) hw_start =
    Halt (Mach d ([] ++ tr) tt) /\ peek tr BL_INVOKE = Some 1.
Proof.
  destruct (HW_JumpToBootloader_block (Some (replicate 6 some_timing)) hw_start)
    as (d & tr & Hh & _ & Hv & _).
  - intros ts [= <-]. split; [done|].
    repeat (apply Forall_cons_2; [unfold timing_typed; cbn; lia|]). apply Forall_nil_2.
  - exists d, tr. split; [exact Hh|exact Hv].
Defined.
End witnesses.
