(* ===== verification/CanUser.v ===== *)
(** The application's CAN layer, src/can_user.c with inc/can_user.h: the bit
    timing presets, initialisation of the six buses, the read wrapper that
    restarts a controller after bus-off, and the entry to the bootloader. *)
From S2P Require Import Prelude Machine Can CanControl Eeprom Hardware.

#[local] Open Scope fw_scope.

(** * Bit timing presets *)

Definition _80M___1M_80____4M_80_ISO := CANTiming CAN_CLOCK_80M 1 63 16 16 96 0 1 1 15 4 4.
Definition _80M_800K_80____4M_80_ISO := CANTiming CAN_CLOCK_80M 1 79 20 20 96 0 1 1 15 4 4.
Definition _80M_500K_80____4M_80_ISO := CANTiming CAN_CLOCK_80M 1 127 32 32 96 0 1 1 15 4 4.
Definition _80M_250K_80____2M_80_ISO := CANTiming CAN_CLOCK_80M 2 127 32 32 96 0 1 2 15 4 4.
Definition _80M_125K_80____2M_80_ISO := CANTiming CAN_CLOCK_80M 4 127 32 32 96 0 1 4 7 2 2.
Definition _80M_100K_80____1M_80_ISO := CANTiming CAN_CLOCK_80M 4 159 40 40 96 0 1 4 15 4 4.
Definition _80M__95K_80__500K_80_ISO := CANTiming CAN_CLOCK_80M 8 83 21 21 96 0 1 8 15 4 4.
Definition _80M__83K_80__500K_80_ISO := CANTiming CAN_CLOCK_80M 16 47 12 12 96 0 1 16 7 2 2.
Definition _80M__50K_80__500K_80_ISO := CANTiming CAN_CLOCK_80M 16 79 20 20 96 0 1 16 7 2 2.
Definition _80M__47K_80__500K_80_ISO := CANTiming CAN_CLOCK_80M 21 63 16 16 96 0 1 16 7 2 2.
Definition _80M__33K_80__500K_80_ISO := CANTiming CAN_CLOCK_80M 24 79 20 20 96 0 1 16 7 2 2.
Definition _40M___1M_80____4M_80_ISO := CANTiming CAN_CLOCK_40M 1 31 8 8 96 0 1 1 7 2 2.
Definition _40M_800K_80____4M_80_ISO := CANTiming CAN_CLOCK_40M 1 39 10 10 96 0 1 1 7 2 2.
Definition _40M_500K_80____4M_80_ISO := CANTiming CAN_CLOCK_40M 1 63 16 16 96 0 1 1 7 2 2.
Definition _40M_250K_80____2M_80_ISO := CANTiming CAN_CLOCK_40M 2 63 16 16 96 0 1 2 7 2 2.
Definition _40M_125K_80____1M_80_ISO := CANTiming CAN_CLOCK_40M 4 63 16 16 96 0 1 4 7 2 2.
Definition _40M_100K_80____1M_80_ISO := CANTiming CAN_CLOCK_40M 4 79 20 20 96 0 1 4 7 2 2.
Definition _40M__95K_80__500K_80_ISO := CANTiming CAN_CLOCK_40M 4 83 21 21 96 0 1 4 15 4 4.
Definition _40M__83K_80__250K_80_ISO := CANTiming CAN_CLOCK_40M 16 23 6 6 96 0 1 16 7 2 2.
Definition _40M__50K_80__250K_80_ISO := CANTiming CAN_CLOCK_40M 16 39 10 10 96 0 1 16 7 2 2.
Definition _40M__47K_80__250K_80_ISO := CANTiming CAN_CLOCK_40M 21 31 8 8 96 0 1 16 7 2 2.
Definition _40M__33K_80__250K_80_ISO := CANTiming CAN_CLOCK_40M 24 39 10 10 96 0 1 16 7 2 2.

(** Timings for CAN1 to CAN6. *)
Definition Timing_CANx : list CANTiming_t := replicate 6 _40M_500K_80____4M_80_ISO.
Definition TimingForBootloader : list CANTiming_t := replicate 6 _80M_125K_80____2M_80_ISO.

(** * Operations *)

Section can_user.
Context {B : Bus}.
Implicit Types hBus : Z.
Abbreviation can := (mach can_glob).

(** Fields of a record in memory: the type is 12 bits, the bus 4 bits. *)
Definition rec_bufftype (w0 : Z) : Z := bits w0 16 12.
Definition rec_hBus (w0 : Z) : Z := bits w0 28 4.
Definition rec_bus_status (w3 : Z) : bool := Z.testbit w3 7.

(** [&Timing_CANx[hBus]] of a bus above 5 is passed on, and refused by
    [CAN_Initialize] before it is read. *)
Definition CAN_UserRead (fuel : nat) hBus (buff : Z) : M can Z :=
  r <- CAN_Read fuel hBus buff ;;
  if r =? CAN_ERR_OK then
    w0 <- rd buff ;;
    let hBus := rec_hBus w0 in
    if rec_bufftype w0 =? CAN_BUFFER_STATUS then
      w3 <- rd (buff + 12) ;;
      (if rec_bus_status w3 then
         CAN_UnInitialize hBus ;;
         CAN_Initialize fuel hBus (aget Timing_CANx hBus) ;;
         ret tt
       else ret tt) ;;
      ret CAN_ERR_RX_EMPTY
    else if rec_bufftype w0 =? CAN_BUFFER_RX_MSG then ret CAN_ERR_OK
    else if rec_bufftype w0 =? CAN_BUFFER_CRITICAL then ret CAN_ERR_RX_EMPTY
    else ret CAN_ERR_RX_EMPTY
  else ret CAN_ERR_RX_EMPTY.

Definition CAN_UserInvokeBootloader (settings : Z) : M can unit :=
  if settings =? 1 then HW_JumpToBootloader None
  else if settings =? 2 then HW_JumpToBootloader (Some TimingForBootloader)
  else if settings =? 3 then HW_JumpToBootloader (Some Timing_CANx)
  else ret tt.

(** The two calls for one bus. *)
Definition user_init_bus (fuel : nat) hBus : M can unit :=
  CAN_Initialize fuel hBus (aget Timing_CANx hBus) ;;
  CAN_FilterAdd hBus 0 0x000 0x7FF ;;
  ret tt.

Definition CAN_UserInit (fuel : nat) : M can unit :=
  user_init_bus fuel 0 ;; user_init_bus fuel 1 ;; user_init_bus fuel 2 ;;
  user_init_bus fuel 3 ;; user_init_bus fuel 4 ;; user_init_bus fuel 5.
End can_user.

(** * What the presets promise *)

(** Each preset with the rates of its name, in bit/s (rounded down). *)
Definition presets : list (CANTiming_t * (Z * Z)) := [
  (_80M___1M_80____4M_80_ISO, (1000000, 4000000)); (_80M_800K_80____4M_80_ISO, (800000, 4000000));
  (_80M_500K_80____4M_80_ISO, (500000, 4000000)); (_80M_250K_80____2M_80_ISO, (250000, 2000000));
  (_80M_125K_80____2M_80_ISO, (125000, 2000000)); (_80M_100K_80____1M_80_ISO, (100000, 1000000));
  (_80M__95K_80__500K_80_ISO, (95238, 500000)); (_80M__83K_80__500K_80_ISO, (83333, 500000));
  (_80M__50K_80__500K_80_ISO, (50000, 500000)); (_80M__47K_80__500K_80_ISO, (47619, 500000));
  (_80M__33K_80__500K_80_ISO, (33333, 500000)); (_40M___1M_80____4M_80_ISO, (1000000, 4000000));
  (_40M_800K_80____4M_80_ISO, (800000, 4000000)); (_40M_500K_80____4M_80_ISO, (500000, 4000000));
  (_40M_250K_80____2M_80_ISO, (250000, 2000000)); (_40M_125K_80____1M_80_ISO, (125000, 1000000));
  (_40M_100K_80____1M_80_ISO, (100000, 1000000)); (_40M__95K_80__500K_80_ISO, (95238, 500000));
  (_40M__83K_80__250K_80_ISO, (83333, 250000)); (_40M__50K_80__250K_80_ISO, (50000, 250000));
  (_40M__47K_80__250K_80_ISO, (47619, 250000)); (_40M__33K_80__250K_80_ISO, (33333, 250000))].

(** Bit rate of a phase, and its sample point in per mille of the bit. *)
Definition bit_rate (clk brp tseg1 tseg2 : Z) : Z := clk / (brp * (1 + tseg1 + tseg2)).
Definition sample_point (tseg1 tseg2 : Z) : Z := (1 + tseg1) * 1000 / (1 + tseg1 + tseg2).

Definition preset_ok (p : CANTiming_t * (Z * Z)) : Prop :=
  let '(t, (nom, data)) := p in
  bit_rate (can_clk t) (nom_brp t) (nom_tseg1 t) (nom_tseg2 t) = nom /\
  bit_rate (can_clk t) (data_brp t) (data_tseg1 t) (data_tseg2 t) = data /\
  sample_point (nom_tseg1 t) (nom_tseg2 t) = 800 /\
  sample_point (data_tseg1 t) (data_tseg2 t) = 800 /\
  nom_sjw t <= nom_tseg2 t /\ data_sjw t <= data_tseg2 t /\
  timing_in_range t /\ is_Some (clock_cntl (can_clk t)) /\ is_Some (mode_cmds (can_mode t)).

(** Every preset of can_user.h runs at the arbitration and data bit rates
    its name and comment give, samples both phases at 80 %, has no
    synchronisation jump width above its phase segment 2, lies within the
    documented ranges, and is a setting that CAN_Initialize accepts. *)
Theorem presets_correct : Forall preset_ok presets.
Proof.
  unfold presets.
  repeat (apply Forall_cons_2; [unfold preset_ok, timing_in_range; cbn;
    split_and!; (reflexivity || lia || by eexists)|]).
  apply Forall_nil_2.
Qed.

Section user_properties.
Context {B : Bus}.
Implicit Types s t : mach can_glob.

(** The filter row that accepts every standard identifier. *)
Definition all_ids : list Z := replicate 64 0xFFFFFFFF.

Lemma all_ids_ok : row_ok all_ids.
Proof. split; [done|]. apply Forall_replicate. unfold word_ok. lia. Qed.

Lemma all_ids_bit id : 0 <= id <= 0x7FF -> row_bit all_ids id = true.
Proof.
  intros Hid. unfold row_bit, all_ids. rewrite shr5, and31, lookup_replicate_2 by zlia.
  change 0xFFFFFFFF with (Z.ones 32). apply Z.ones_spec_low. zlia.
Qed.

Lemma full_row row :
  row_ok row -> (forall id, 0 <= id <= 0x7FF -> row_bit row id = true) -> row = all_ids.
Proof.
  intros Hok Hall. apply row_ext; [done|apply all_ids_ok|]. intros id Hid.
  by rewrite Hall, all_ids_bit.
Qed.

(** The commands that put one bus into operation. *)
Definition start_bus (hBus : Z) (t : CANTiming_t) : list (Z * Z) :=
  init_prefix hBus ++
  init_timing hBus (default 0 (clock_cntl (can_clk t))) t ++
  init_mode hBus (default [] (mode_cmds (can_mode t))) t.

(** Initialising a bus with the application's timing. *)
Lemma wp_init_user fuel hBus s (Q : Z -> mach can_glob -> Prop) :
  0 <= hBus <= 5 -> cache_drains fuel hBus ->
  (forall d, Q CAN_ERR_OK (Mach d (wlog s ++
     wr_trace (start_bus hBus _40M_500K_80____4M_80_ISO)) (glb s))) ->
  wp (CAN_Initialize fuel hBus (aget Timing_CANx hBus)) s Q.
Proof.
  intros Hbus Hd HQ.
  assert (aget Timing_CANx hBus = Some _40M_500K_80____4M_80_ISO) as ->.
  { zenum hBus 6%nat; reflexivity. }
  by eapply wp_CAN_Initialize.
Qed.

Lemma wp_user_init_bus fuel hBus s (Q : unit -> mach can_glob -> Prop) :
  filters_ok (glb s) -> 0 <= hBus <= 5 -> cache_drains fuel hBus ->
  (forall s', filters_ok (glb s') ->
     (forall bus id, 0 <= bus <= 5 -> 0 <= id <= 0x7FF ->
        accepts (glb s') bus id = (bus =? hBus) || accepts (glb s) bus id) ->
     wlog s' = wlog s ++ wr_trace (start_bus hBus _40M_500K_80____4M_80_ISO ++
       filter_cmds hBus all_ids) -> Q tt s') ->
  wp (user_init_bus fuel hBus) s Q.
Proof.
  intros Hok Hbus Hd HQ. apply wp_bind, wp_init_user; [done..|]. intros d.
  apply wp_bind. eapply wp_mono; [by apply (filter_change_spec mask_set true)|]. cbn beta.
  intros r s' (_ & Hok' & _ & Hacc & _ & row & Hrow & Hlog). apply wp_ret. cbn [glb wlog] in *.
  assert (Hacc' : forall bus id, 0 <= bus <= 5 -> 0 <= id <= 0x7FF ->
    accepts (glb s') bus id = (bus =? hBus) || accepts (glb s) bus id).
  { intros bus id Hb Hid. rewrite Hacc by done.
    destruct (Z.leb_spec 0 id), (Z.leb_spec id 0x7FF); try lia. by destruct (bus =? hBus). }
  apply HQ; [done..|]. rewrite Hlog, wr_trace_app, app_assoc. do 2 f_equal.
  assert (row = all_ids) as ->; [|done]. apply full_row.
  - destruct (filters_row _ hBus Hok' Hbus) as (row' & Hrow' & Hr). by simplify_eq.
  - intros id Hid. specialize (Hacc' hBus id Hbus Hid). unfold accepts at 1 in Hacc'.
    rewrite Hrow in Hacc'. by rewrite Hacc', Z.eqb_refl.
Qed.

(** CAN_UserInit puts all six buses into operation in order, each with the
    40 MHz 500k/4M timing followed by the upload of a filter table of all ones,
    and afterwards every standard identifier is accepted on every bus. *)
Theorem CAN_UserInit_all_buses fuel s :
  filters_ok (glb s) -> (forall hBus, 0 <= hBus <= 5 -> cache_drains fuel hBus) ->
  wp (CAN_UserInit fuel) s (fun _ s' =>
    (forall bus id, 0 <= bus <= 5 -> 0 <= id <= 0x7FF -> accepts (glb s') bus id = true) /\
    wlog s' = wlog s ++ wr_trace (concat ((fun hBus =>
      start_bus hBus _40M_500K_80____4M_80_ISO ++ filter_cmds hBus all_ids) <$> zrange 0 6))).
Proof.
  intros Hok Hd. unfold CAN_UserInit.
  apply wp_bind, wp_user_init_bus; [done|done|apply Hd; lia|]. intros s0 Hok0 H0 Hl0.
  apply wp_bind, wp_user_init_bus; [done|done|apply Hd; lia|]. intros s1 Hok1 H1 Hl1.
  apply wp_bind, wp_user_init_bus; [done|done|apply Hd; lia|]. intros s2 Hok2 H2 Hl2.
  apply wp_bind, wp_user_init_bus; [done|done|apply Hd; lia|]. intros s3 Hok3 H3 Hl3.
  apply wp_bind, wp_user_init_bus; [done|done|apply Hd; lia|]. intros s4 Hok4 H4 Hl4.
  apply wp_user_init_bus; [done|done|apply Hd; lia|]. intros s5 Hok5 H5 Hl5. split.
  - intros bus id Hb Hid. rewrite H5, H4, H3, H2, H1, H0 by done.
    revert Hb. generalize (accepts (glb s) bus id). intros b Hb. by zenum bus 6%nat.
  - rewrite Hl5, Hl4, Hl3, Hl2, Hl1, Hl0, <- !app_assoc. reflexivity.
Qed.

(** The commands of a bus-off recovery. *)
Definition restart_bus (hBus : Z) : list (Z * Z) :=
  cmd_writes hBus ((hBus .<< 12) .| CMD_RESETMODE, 0) ++ start_bus hBus _40M_500K_80____4M_80_ISO.

(** What CAN_UserRead makes of a record: the application sees CAN_ERR_OK
    exactly for receive messages; a status record with the bus-off bit makes
    the controller named in the record leave the bus and start again with the
    application's timing, provided it is one of the six, and the record is kept
    from the application like every other one. *)
Theorem CAN_UserRead_dispatch fuel hBus buff r s t :
  CAN_Read fuel hBus buff s = Ret r t ->
  let w0 := u32 (fst (mmio_rd buff (dev t))) in
  let w3 := u32 (fst (mmio_rd (buff + 12) (snd (mmio_rd buff (dev t))))) in
  let bus_off := (rec_bufftype w0 =? CAN_BUFFER_STATUS) && rec_bus_status w3 in
  cache_drains fuel (rec_hBus w0) ->
  wp (CAN_UserRead fuel hBus buff) s (fun r' s' =>
    r' = (if (r =? CAN_ERR_OK) && (rec_bufftype w0 =? CAN_BUFFER_RX_MSG)
          then CAN_ERR_OK else CAN_ERR_RX_EMPTY) /\
    glb s' = glb t /\
    wlog s' = wlog t ++
      (if (r =? CAN_ERR_OK) && bus_off && (rec_hBus w0 <=? CAN_BUS_MAX)
       then wr_trace (restart_bus (rec_hBus w0)) else [])).
Proof.
  intros Hread w0 w3 bus_off Hd. unfold bus_off. unfold CAN_UserRead. apply wp_bind.
  unfold wp at 1. rewrite Hread. destruct (Z.eqb_spec r CAN_ERR_OK) as [Hr|Hr]; cbn [andb].
  2: { apply wp_ret. by rewrite app_nil_r. }
  apply wp_bind, wp_rd. fold w0. cbn [dev wlog glb].
  destruct (Z.eqb_spec (rec_bufftype w0) CAN_BUFFER_STATUS) as [Hs|Hs]; cbn [andb].
  - apply wp_bind, wp_rd. cbn [dev wlog glb]. fold w3. rewrite Hs.
    change (CAN_BUFFER_STATUS =? CAN_BUFFER_RX_MSG) with false. apply wp_bind.
    destruct (rec_bus_status w3); cbn [andb].
    2: { apply wp_ret, wp_ret. by rewrite app_nil_r. }
    unfold CAN_UnInitialize.
    assert (0 <= rec_hBus w0) by (by apply bits_range).
    destruct (Z.ltb_spec CAN_BUS_MAX (rec_hBus w0)) as [Hb|Hb],
      (Z.leb_spec (rec_hBus w0) CAN_BUS_MAX); try lia.
    + apply wp_bind, wp_ret, wp_bind. unfold CAN_Initialize.
      destruct (Z.ltb_spec CAN_BUS_MAX (rec_hBus w0)); [|lia].
      apply wp_ret, wp_ret, wp_ret. by rewrite app_nil_r.
    + apply wp_bind, wp_bind, wp_can_cmd. intros d. apply wp_ret, wp_bind.
      apply wp_init_user; [unfold CAN_BUS_MAX in *; lia|done|]. intros d'.
      apply wp_ret, wp_ret. split_and!; [done..|]. cbn [wlog]. unfold restart_bus.
      by rewrite wr_trace_app, <- app_assoc.
  - destruct (rec_bufftype w0 =? CAN_BUFFER_RX_MSG).
    { apply wp_ret. by rewrite app_nil_r. }
    destruct (_ =? CAN_BUFFER_CRITICAL); apply wp_ret; by rewrite app_nil_r.
Qed.
End user_properties.

(** * Witnesses *)

Section witnesses.

(** A device whose caches are empty and whose buffer holds a bus-off notice of
    CAN3: STATUS record, bus 2, bus status set; the DMA stream is idle. *)
Definition busoff_bus : Bus := const_bus (fun a =>
  if a =? SYS_STAT then 1
  else if a =? 0x20001000 then (2 .<< 28) .| (3 .<< 16) .| 16
  else if a =? 0x2000100C then 0x80
  else if a =? CAN_STAT 2 then 2
  else 2).
#[local] Existing Instance busoff_bus.

Definition user_start : mach can_glob := Mach tt [] (CanGlob (replicate 6 (replicate 64 0)) 0).

Lemma drains_busoff hBus : 0 <= hBus <= 5 -> cache_drains 1 hBus.
Proof. intros Hb h. left. zenum hBus 6%nat; reflexivity. Qed.

Lemma user_start_ok : filters_ok (glb user_start).
Proof.
  split; [done|]. repeat (apply Forall_cons_2; [split; [done|]; apply Forall_replicate;
    unfold word_ok; lia|]). apply Forall_nil_2.
Qed.

Lemma CAN_UserInit_all_buses_witness :
  wp (CAN_UserInit 1) user_start (fun _ s' => accepts (glb s') 5 0x7FF = true).
Proof.
  eapply wp_mono; [apply (CAN_UserInit_all_buses 1 user_start user_start_ok drains_busoff)|].
  intros u s' [Hacc _]. apply Hacc; lia.
Defined.

Lemma CAN_UserRead_dispatch_witness :
  wp (CAN_UserRead 1 0 0x20001000) user_start (fun r' s' =>
    r' = CAN_ERR_RX_EMPTY /\ exists l, wlog s' = l ++ wr_trace (restart_bus 2)).
Proof.
  assert (match CAN_Read 1 0 0x20001000 user_start with Ret r _ => r =? 0 | _ => false end = true)
    as Hok by (vm_compute; reflexivity).
  destruct (CAN_Read 1 0 0x20001000 user_start) as [r t| | |] eqn:E; try discriminate Hok.
  apply Z.eqb_eq in Hok. subst r.
  eapply wp_mono; [apply (CAN_UserRead_dispatch 1 0 0x20001000 CAN_ERR_OK user_start t E)|].
  - apply drains_busoff. destruct t as [[] w g]. split; apply Z.leb_le; vm_compute; reflexivity.
  - intros r' s' (Hr & _ & Hl). split; [exact Hr|]. exists (wlog t).
    destruct t as [[] w g]. exact Hl.
Defined.
End witnesses.
