(* ===== verification/SysArch.v ===== *)
(** The port of lwIP to the RTX kernel, src/sys_arch.c with
    inc/arch/sys_arch.h: time, delays, threads, mutexes, mailboxes and
    semaphores.  The kernel itself (lib/ of the repository is a binary) is the
    class [Rtos]; [RtosLaws] states what CMSIS-RTOS2 documents of its queues and
    semaphores. *)
From S2P Require Import Prelude Machine.

#[local] Open Scope fw_scope.

Definition osOK : Z := 0.
Definition osErrorTimeout : Z := -2.
Definition osErrorResource : Z := -3.
Definition osWaitForever : Z := 0xFFFFFFFF.
Definition osMutexPrioInherit : Z := 2.
Definition osMutexRecursive : Z := 1.

Definition ERR_OK : Z := 0.
Definition ERR_MEM : Z := -1.
Definition SYS_ARCH_TIMEOUT : Z := 0xFFFFFFFF.
Definition SYS_MBOX_EMPTY : Z := SYS_ARCH_TIMEOUT.

Definition OS_TICKS_PER_MILLI : Z := 5.
Definition DLY_MS (ms : Z) : Z := u32 (ms * OS_TICKS_PER_MILLI).

(** Kernel calls: object ids are words, 0 is NULL; a queue delivers a word. *)
Class Rtos (B : Bus) := {
  osThreadNew : Z -> Z -> Z * Z * Z -> hw -> Z * hw;
  osMutexNew : Z -> hw -> Z * hw;
  osMutexAcquire : Z -> Z -> hw -> Z * hw;
  osMutexRelease : Z -> hw -> Z * hw;
  osMutexDelete : Z -> hw -> Z * hw;
  osMessageQueueNew : Z -> Z -> hw -> Z * hw;
  osMessageQueuePut : Z -> Z -> Z -> hw -> Z * hw;
  osMessageQueueGet : Z -> Z -> hw -> (Z * option Z) * hw;
  osMessageQueueDelete : Z -> hw -> Z * hw;
  osSemaphoreNew : Z -> Z -> hw -> Z * hw;
  osSemaphoreAcquire : Z -> Z -> hw -> Z * hw;
  osSemaphoreRelease : Z -> hw -> Z * hw;
  osSemaphoreDelete : Z -> hw -> Z * hw;
}.

Section sys_arch.
Context {B : Bus} {R : Rtos B} {G : Type}.
Abbreviation prog := (M (mach G)).

Definition kernel {A} (f : hw -> A * hw) : prog A := fun s =>
  let p := f (dev s) in Ret (fst p) (Mach (snd p) (wlog s) (glb s)).

Definition sys_arch_dbg (err : Z) : prog unit := ret tt.

Definition HAL_Delay (Delay : Z) : prog unit := delay_ (DLY_MS Delay).

Definition sys_now : prog Z := t <- tick_count ;; ret (t / OS_TICKS_PER_MILLI).

Definition HAL_GetTick : prog Z := sys_now.

Definition sys_init : prog unit := ret tt.

(** The attributes are the name, the stack size and the priority. *)
Definition sys_thread_new (name function arg stacksize prio : Z) : prog Z :=
  kernel (osThreadNew function arg (name, stacksize, prio)).

(** The error and the value of [*mutex] afterwards. *)
Definition sys_mutex_new : prog (Z * Z) :=
  mutex <- kernel (osMutexNew (osMutexPrioInherit .| osMutexRecursive)) ;;
  if negb (mutex =? 0) then ret (ERR_OK, mutex)
  else sys_arch_dbg 1 ;; ret (ERR_MEM, mutex).

Definition report (stat err : Z) : prog unit :=
  if negb (stat =? osOK) then sys_arch_dbg err else ret tt.

Definition sys_mutex_lock (mutex : Z) : prog unit :=
  stat <- kernel (osMutexAcquire mutex osWaitForever) ;; report stat 2.
Definition sys_mutex_unlock (mutex : Z) : prog unit :=
  stat <- kernel (osMutexRelease mutex) ;; report stat 3.
Definition sys_mutex_free (mutex : Z) : prog unit :=
  stat <- kernel (osMutexDelete mutex) ;; report stat 11.

Definition sys_mbox_new (size : Z) : prog (Z * Z) :=
  mbox <- kernel (osMessageQueueNew size 4) ;;
  if negb (mbox =? 0) then ret (ERR_OK, mbox)
  else sys_arch_dbg 4 ;; ret (ERR_MEM, mbox).

Definition sys_mbox_post (q msg : Z) : prog unit :=
  stat <- kernel (osMessageQueuePut q (u32 msg) osWaitForever) ;; report stat 5.

Definition sys_mbox_trypost (q msg : Z) : prog Z :=
  stat <- kernel (osMessageQueuePut q (u32 msg) 0) ;;
  if stat =? osOK then ret ERR_OK else sys_arch_dbg 6 ;; ret ERR_MEM.

Definition sys_mbox_trypost_fromisr (q msg : Z) : prog Z := sys_mbox_trypost q msg.

(** The result and what is stored in [*msg]; [tmp] is not initialised, so
    storing it after a call that delivered nothing is undefined. *)
Definition sys_arch_mbox_fetch (q timeout : Z) : prog (Z * option Z) :=
  r <- kernel (osMessageQueueGet q (if negb (timeout =? 0) then DLY_MS timeout else osWaitForever)) ;;
  let '(stat, tmp) := r in
  if stat =? osErrorTimeout then ret (SYS_ARCH_TIMEOUT, None)
  else msg <- deref tmp ;; ret (0, Some msg).

Definition sys_arch_mbox_tryfetch (q : Z) : prog (Z * option Z) :=
  r <- kernel (osMessageQueueGet q 0) ;;
  let '(status, tmp) := r in
  if negb (status =? osOK) then ret (SYS_MBOX_EMPTY, None)
  else msg <- deref tmp ;; ret (0, Some msg).

Definition sys_mbox_free (mbox : Z) : prog unit :=
  stat <- kernel (osMessageQueueDelete mbox) ;; report stat 8.

Definition sys_sem_new (count : Z) : prog (Z * option Z) :=
  id <- kernel (osSemaphoreNew 1 count) ;;
  if id =? 0 then sys_arch_dbg 7 ;; ret (ERR_MEM, None) else ret (ERR_OK, Some id).

Definition sys_sem_signal (sem : Z) : prog unit :=
  stat <- kernel (osSemaphoreRelease sem) ;; report stat 9.
Definition sys_sem_free (sem : Z) : prog unit :=
  stat <- kernel (osSemaphoreDelete sem) ;; report stat 10.

Definition sys_arch_sem_wait (sem timeout : Z) : prog Z :=
  status <- kernel (osSemaphoreAcquire sem
    (if negb (timeout =? 0) then DLY_MS timeout else osWaitForever)) ;;
  if negb (status =? osOK) then ret SYS_ARCH_TIMEOUT else ret 0.
End sys_arch.

(** * What the kernel documents *)

(** Contents (oldest first) and capacity of a queue, tokens of a semaphore. *)
Class RtosLaws (B : Bus) (R : Rtos B) := {
  queue : hw -> Z -> option (list Z * nat);
  tokens : hw -> Z -> option nat;
  queue_new n size h :
    0 < n ->
    let p := osMessageQueueNew n size h in
    fst p <> 0 -> queue (snd p) (fst p) = Some ([], Z.to_nat n);
  queue_put_room q m t h l cap :
    queue h q = Some (l, cap) -> (length l < cap)%nat ->
    fst (osMessageQueuePut q m t h) = osOK /\
    queue (snd (osMessageQueuePut q m t h)) q = Some (l ++ [m], cap);
  queue_put_full q m h l cap :
    queue h q = Some (l, cap) -> (cap <= length l)%nat ->
    fst (osMessageQueuePut q m 0 h) = osErrorResource /\
    queue (snd (osMessageQueuePut q m 0 h)) q = Some (l, cap);
  queue_get_some q t h m l cap :
    queue h q = Some (m :: l, cap) ->
    fst (osMessageQueueGet q t h) = (osOK, Some m) /\
    queue (snd (osMessageQueueGet q t h)) q = Some (l, cap);
  queue_get_empty q t h cap :
    queue h q = Some ([], cap) -> t <> osWaitForever ->
    fst (osMessageQueueGet q t h) = ((if t =? 0 then osErrorResource else osErrorTimeout), None) /\
    queue (snd (osMessageQueueGet q t h)) q = Some ([], cap);
  sem_acquire sem t h n :
    tokens h sem = Some (S n) ->
    fst (osSemaphoreAcquire sem t h) = osOK /\
    tokens (snd (osSemaphoreAcquire sem t h)) sem = Some n;
  sem_release sem h n :
    tokens h sem = Some n ->
    tokens (snd (osSemaphoreRelease sem h)) sem = Some (Nat.min 1 (S n));
}.

Section sys_arch_properties.
Context {B : Bus} {R : Rtos B} {L : RtosLaws B R} {G : Type}.
Implicit Types s : mach G.

(** What a mailbox promises lwIP: a bounded queue of messages. *)
Definition mbox_is s (q : Z) (l : list Z) (cap : nat) : Prop := queue (dev s) q = Some (l, cap).

(** C37: a mailbox refines a bounded FIFO of messages: posting without waiting
    appends, or gives ERR_MEM and changes nothing when it is full; fetching
    delivers the oldest message; an empty mailbox gives SYS_MBOX_EMPTY without
    waiting and SYS_ARCH_TIMEOUT after a wait, and delivers nothing. *)
Theorem mbox_refines_fifo q msg timeout l cap s :
  0 <= msg < 2 ^ 32 -> DLY_MS timeout <> 0 -> DLY_MS timeout <> osWaitForever ->
  mbox_is s q l cap ->
  wp (sys_mbox_trypost q msg) s (fun r s' =>
    if (length l <? cap)%nat then r = ERR_OK /\ mbox_is s' q (l ++ [msg]) cap
    else r = ERR_MEM /\ mbox_is s' q l cap) /\
  wp (sys_arch_mbox_tryfetch q) s (fun r s' =>
    match l with
    | m :: l' => r = (0, Some m) /\ mbox_is s' q l' cap
    | [] => r = (SYS_MBOX_EMPTY, None) /\ mbox_is s' q [] cap
    end) /\
  wp (sys_arch_mbox_fetch q timeout) s (fun r s' =>
    match l with
    | m :: l' => r = (0, Some m) /\ mbox_is s' q l' cap
    | [] => r = (SYS_ARCH_TIMEOUT, None) /\ mbox_is s' q [] cap
    end).
Proof.
  intros Hm Ht Hw Hq. unfold mbox_is in *.
  assert (timeout <> 0) as Ht0 by (intros ->; by apply Ht). split; [|split].
  - unfold sys_mbox_trypost. rewrite u32_small by lia. destruct (Nat.ltb_spec (length l) cap).
    + destruct (queue_put_room q msg 0 (dev s) l cap Hq) as [Hs Hq']; [done|].
      unfold wp, bind, kernel, ret. rewrite Hs. done.
    + destruct (queue_put_full q msg (dev s) l cap Hq) as [Hs Hq']; [done|].
      unfold wp, bind, kernel, ret, sys_arch_dbg. rewrite Hs. done.
  - unfold sys_arch_mbox_tryfetch, wp, bind, kernel, ret. destruct l as [|m l].
    + destruct (queue_get_empty q 0 (dev s) cap Hq) as [Hs Hq']; [done|]. by rewrite Hs.
    + destruct (queue_get_some q 0 (dev s) m l cap Hq) as [Hs Hq']. by rewrite Hs.
  - unfold sys_arch_mbox_fetch, wp, bind, kernel, ret.
    destruct (Z.eqb_spec timeout 0); [done|]. cbn [negb]. destruct l as [|m l].
    + destruct (queue_get_empty q (DLY_MS timeout) (dev s) cap Hq) as [Hs Hq']; [done|].
      destruct (Z.eqb_spec (DLY_MS timeout) 0); [done|]. by rewrite Hs.
    + destruct (queue_get_some q (DLY_MS timeout) (dev s) m l cap Hq) as [Hs Hq']. by rewrite Hs.
Qed.

(** A fetch that fails for any reason but a timeout (a deleted queue, for
    example) is not reported: the function reads its uninitialised variable. *)
Theorem mbox_fetch_error_undefined q timeout stat d s :
  (forall t, osMessageQueueGet q t (dev s) = ((stat, None), d)) ->
  stat <> osErrorTimeout ->
  sys_arch_mbox_fetch q timeout s = Undef (Mach d (wlog s) (glb s)).
Proof.
  intros Hget Hs. unfold sys_arch_mbox_fetch, bind, kernel. rewrite Hget. cbn.
  by destruct (Z.eqb_spec stat osErrorTimeout).
Qed.
End sys_arch_properties.

(** Time from the kernel's tick counter: when HAL_GetTick is called at the
    kernel ticks [t1] and later [t2] (five to the millisecond, counted without
    wrapping), the difference of its results, taken modulo 2^32 as the HAL takes
    it, is the elapsed time in milliseconds to within one, as long as the 32-bit
    kernel counter has not wrapped in between; across the wrap every interval
    below 14 hours looks like more than 3.4 * 10^9 ms, so every pending HAL
    timeout (50 s for the flash) fires at once. *)
Theorem HAL_tick_elapsed {B : Bus} {G} (s1 s2 : mach G) t1 t2 :
  0 <= t1 < 2 ^ 32 -> t1 <= t2 ->
  u32 (fst (ktick (dev s1))) = u32 t1 -> u32 (fst (ktick (dev s2))) = u32 t2 ->
  wp HAL_GetTick s1 (fun r1 _ => wp HAL_GetTick s2 (fun r2 _ =>
    (t2 < 2 ^ 32 -> (t2 - t1) / 5 <= u32 (r2 - r1) <= (t2 - t1) / 5 + 1) /\
    (2 ^ 32 <= t2 < t1 + 5 * 50000000 -> 3400000000 < u32 (r2 - r1)))).
Proof.
  intros H1 H2 Hs1 Hs2.
  unfold wp, HAL_GetTick, sys_now, bind, tick_count, ret. cbn. rewrite Hs1, Hs2.
  unfold OS_TICKS_PER_MILLI. split; intros H3.
  - rewrite !(u32_small t1), !(u32_small t2) by lia. rewrite u32_small; zlia.
  - rewrite (u32_small t1) by lia. unfold u32. zlia.
Qed.

(** * Witnesses *)

Section witnesses.

(** A kernel with one queue of two entries, which is the whole state. *)
Definition queue_bus : Bus := {|
  hw := list Z;
  mmio_rd _ h := (0, h);
  mmio_wr _ _ h := h;
  ktick h := (0, h);
  os_delay _ h := h;
|}.
#[local] Existing Instance queue_bus.

Definition queue_rtos : Rtos queue_bus := {|
  osThreadNew _ _ _ h := (0, h);
  osMutexNew _ h := (0, h);
  osMutexAcquire _ _ h := (osOK, h);
  osMutexRelease _ h := (osOK, h);
  osMutexDelete _ h := (osOK, h);
  osMessageQueueNew _ _ h := (0, h);
  osMessageQueuePut _ m _ h := if (length h <? 2)%nat then (osOK, h ++ [m]) else (osErrorResource, h);
  osMessageQueueGet _ t h :=
    match h with
    | m :: l => ((osOK, Some m), l)
    | [] => (((if t =? 0 then osErrorResource else osErrorTimeout), None), [])
    end;
  osMessageQueueDelete _ h := (osOK, h);
  osSemaphoreNew _ _ h := (0, h);
  osSemaphoreAcquire _ _ h := (osOK, h);
  osSemaphoreRelease _ h := (osOK, h);
  osSemaphoreDelete _ h := (osOK, h);
|}.
#[local] Existing Instance queue_rtos.

#[local] Instance queue_laws : RtosLaws queue_bus queue_rtos.
Proof.
  refine {| queue := (fun h _ => Some (h, 2%nat)) : @hw queue_bus -> Z -> option (list Z * nat);
            tokens := fun _ _ => None |}.
  - done.
  - intros q m t h l cap [= -> <-] Hl. cbn [osMessageQueuePut queue_rtos]. by destruct (Nat.ltb_spec (length l) 2); [|lia].
  - intros q m h l cap [= -> <-] Hl. cbn [osMessageQueuePut queue_rtos]. by destruct (Nat.ltb_spec (length l) 2); [lia|].
  - by intros q t h m l cap [= -> <-].
  - by intros q t h cap [= -> <-] _.
  - done.
  - done.
Defined.

Definition mail : mach unit := Mach [7; 9] [] tt.

Lemma mbox_refines_fifo_witness :
  wp (sys_mbox_trypost 1 5) mail (fun r s' => r = ERR_MEM /\ mbox_is s' 1 [7; 9] 2) /\
  wp (sys_arch_mbox_fetch 1 100) mail (fun r s' => r = (0, Some 7) /\ mbox_is s' 1 [9] 2).
Proof.
  destruct (mbox_refines_fifo 1 5 100 [7; 9] 2 mail) as (Hpost & _ & Hfetch); [done..|].
  split; [exact Hpost|exact Hfetch].
Defined.

Definition dead_rtos : Rtos queue_bus := {|
  osThreadNew _ _ _ h := (0, h);
  osMutexNew _ h := (0, h);
  osMutexAcquire _ _ h := (-4, h);
  osMutexRelease _ h := (-4, h);
  osMutexDelete _ h := (-4, h);
  osMessageQueueNew _ _ h := (0, h);
  osMessageQueuePut _ _ _ h := (-4, h);
  osMessageQueueGet _ _ h := ((-4, None), h);
  osMessageQueueDelete _ h := (-4, h);
  osSemaphoreNew _ _ h := (0, h);
  osSemaphoreAcquire _ _ h := (-4, h);
  osSemaphoreRelease _ h := (-4, h);
  osSemaphoreDelete _ h := (-4, h);
|}.

Lemma mbox_fetch_error_undefined_witness :
  @sys_arch_mbox_fetch queue_bus dead_rtos unit 1 0 mail = Undef mail.
Proof. apply (@mbox_fetch_error_undefined queue_bus dead_rtos unit 1 0 (-4) [7; 9] mail); done. Defined.

(** A device that is nothing but the kernel's tick counter. *)
Definition tick_bus : Bus := {|
  hw := Z;
  mmio_rd _ h := (0, h);
  mmio_wr _ _ h := h;
  ktick h := (h, h);
  os_delay n h := h + n;
|}.

Definition at_tick (t : Z) : @mach tick_bus unit := @Mach tick_bus unit t [] tt.

Lemma HAL_tick_elapsed_witness :
  wp HAL_GetTick (at_tick (2 ^ 32 - 5)) (fun r1 _ =>
    wp HAL_GetTick (at_tick 5) (fun r2 _ => 3400000000 < u32 (r2 - r1))).
Proof.
  destruct (HAL_tick_elapsed (at_tick (2 ^ 32 - 5)) (at_tick 5) (2 ^ 32 - 5) (2 ^ 32 + 5))
    as [_ H]; [lia|lia|done|done|]. apply H. lia.
Defined.
End witnesses.
