(* ===== verification/FlashHal.v ===== *)
(** The flash driver of the STM32F7 HAL as compiled for the STM32F765,
    src/stm32f7xx_hal_flash.c and src/stm32f7xx_hal_flash_ex.c: programming,
    erasing, the interrupt handler, locking and the option bytes. *)
From S2P Require Import Prelude Machine SysArch.

#[local] Open Scope fw_scope.

Definition HAL_OK : Z := 0.
Definition HAL_ERROR : Z := 1.
Definition HAL_BUSY : Z := 2.
Definition HAL_TIMEOUT : Z := 3.
Definition HAL_MAX_DELAY : Z := 0xFFFFFFFF.

Definition FLASH_R_BASE : Z := 0x40023C00.
Definition FLASH_KEYR : Z := FLASH_R_BASE + 0x04.
Definition FLASH_OPTKEYR : Z := FLASH_R_BASE + 0x08.
Definition FLASH_SR : Z := FLASH_R_BASE + 0x0C.
Definition FLASH_CR : Z := FLASH_R_BASE + 0x10.
Definition FLASH_OPTCR : Z := FLASH_R_BASE + 0x14.
Definition FLASH_OPTCR1 : Z := FLASH_R_BASE + 0x18.
Definition OPTCR_BYTE1_ADDRESS : Z := 0x40023C15.

Definition FLASH_KEY1 : Z := 0x45670123.
Definition FLASH_KEY2 : Z := 0xCDEF89AB.
Definition FLASH_OPT_KEY1 : Z := 0x08192A3B.
Definition FLASH_OPT_KEY2 : Z := 0x4C5D6E7F.

Definition FLASH_CR_PG : Z := 0x1.
Definition FLASH_CR_SER : Z := 0x2.
Definition FLASH_CR_MER1 : Z := 0x4.
Definition FLASH_CR_SNB : Z := 0xF8.
Definition FLASH_CR_MER2 : Z := 0x8000.
Definition FLASH_CR_STRT : Z := 0x10000.
Definition FLASH_IT_EOP : Z := 0x01000000.
Definition FLASH_IT_ERR : Z := 0x02000000.
Definition FLASH_CR_LOCK : Z := 0x80000000.
Definition FLASH_MER_BIT : Z := FLASH_CR_MER1 .| FLASH_CR_MER2.
Definition CR_PSIZE_MASK : Z := 0xFFFFFCFF.
Definition SECTOR_MASK : Z := 0xFFFFFF07.
Definition FLASH_PSIZE_BYTE : Z := 0.
Definition FLASH_PSIZE_HALF_WORD : Z := 0x100.
Definition FLASH_PSIZE_WORD : Z := 0x200.
Definition FLASH_PSIZE_DOUBLE_WORD : Z := 0x300.

Definition FLASH_FLAG_EOP : Z := 0x1.
Definition FLASH_FLAG_OPERR : Z := 0x2.
Definition FLASH_FLAG_WRPERR : Z := 0x10.
Definition FLASH_FLAG_PGAERR : Z := 0x20.
Definition FLASH_FLAG_PGPERR : Z := 0x40.
Definition FLASH_FLAG_ERSERR : Z := 0x80.
Definition FLASH_FLAG_BSY : Z := 0x10000.
Definition FLASH_FLAG_ALL_ERRORS : Z := 0xF2.

Definition HAL_FLASH_ERROR_NONE : Z := 0.
Definition HAL_FLASH_ERROR_ERS : Z := 0x02.
Definition HAL_FLASH_ERROR_PGP : Z := 0x04.
Definition HAL_FLASH_ERROR_PGA : Z := 0x08.
Definition HAL_FLASH_ERROR_WRP : Z := 0x10.
Definition HAL_FLASH_ERROR_OPERATION : Z := 0x20.

Definition FLASH_TYPEPROGRAM_BYTE : Z := 0.
Definition FLASH_TYPEPROGRAM_HALFWORD : Z := 1.
Definition FLASH_TYPEPROGRAM_WORD : Z := 2.
Definition FLASH_TYPEPROGRAM_DOUBLEWORD : Z := 3.
Definition FLASH_TYPEERASE_SECTORS : Z := 0.
Definition FLASH_TYPEERASE_MASSERASE : Z := 1.
Definition FLASH_VOLTAGE_RANGE_1 : Z := 0.
Definition FLASH_VOLTAGE_RANGE_2 : Z := 1.
Definition FLASH_VOLTAGE_RANGE_3 : Z := 2.
Definition FLASH_BANK_1 : Z := 1.
Definition FLASH_BANK_2 : Z := 2.
Definition FLASH_BANK_BOTH : Z := 3.
Definition FLASH_SECTOR_11 : Z := 11.
Definition FLASH_TIMEOUT_VALUE : Z := 50000.

Definition OPTIONBYTE_WRP : Z := 0x01.
Definition OPTIONBYTE_RDP : Z := 0x02.
Definition OPTIONBYTE_USER : Z := 0x04.
Definition OPTIONBYTE_BOR : Z := 0x08.
Definition OPTIONBYTE_BOOTADDR_0 : Z := 0x10.
Definition OPTIONBYTE_BOOTADDR_1 : Z := 0x20.
Definition OB_WRPSTATE_ENABLE : Z := 1.
Definition OB_RDP_LEVEL_0 : Z := 0xAA.
Definition OB_RDP_LEVEL_1 : Z := 0x55.
Definition OB_RDP_LEVEL_2 : Z := 0xCC.
Definition OB_WWDG_SW : Z := 0x10.
Definition OB_IWDG_SW : Z := 0x20.
Definition OB_STOP_NO_RST : Z := 0x40.
Definition OB_STDBY_NO_RST : Z := 0x80.
Definition OB_IWDG_STOP_ACTIVE : Z := 0x80000000.
Definition OB_IWDG_STDBY_ACTIVE : Z := 0x40000000.
Definition OB_NDBANK_SINGLE_BANK : Z := 0x20000000.
Definition OB_DUAL_BOOT_DISABLE : Z := 0x10000000.
Definition FLASH_OPTCR_OPTLOCK : Z := 0x1.
Definition FLASH_OPTCR_OPTSTRT : Z := 0x2.
Definition FLASH_OPTCR_BOR_LEV : Z := 0xC.
Definition FLASH_OPTCR1_BOOT_ADD0 : Z := 0xFFFF.
Definition FLASH_OPTCR1_BOOT_ADD1 : Z := 0xFFFF0000.

(** * Data *)

Inductive FLASH_ProcedureTypeDef :=
| FLASH_PROC_NONE | FLASH_PROC_SECTERASE | FLASH_PROC_MASSERASE | FLASH_PROC_PROGRAM.

#[export] Instance FLASH_Procedure_eq_dec : EqDecision FLASH_ProcedureTypeDef.
Proof. solve_decision. Defined.

(** [FLASH_ProcessTypeDef], the type of [pFlash]. *)
Record FLASH_ProcessTypeDef := FlashProcess {
  ProcedureOnGoing : FLASH_ProcedureTypeDef;
  NbSectorsToErase : Z;
  VoltageForErase : Z;
  pSector : Z;
  pAddress : Z;
  Lock : bool;
  ErrorCode : Z;
}.

Definition set_Procedure v g := FlashProcess v (NbSectorsToErase g) (VoltageForErase g) (pSector g)
  (pAddress g) (Lock g) (ErrorCode g).
Definition set_NbSectors v g := FlashProcess (ProcedureOnGoing g) v (VoltageForErase g) (pSector g)
  (pAddress g) (Lock g) (ErrorCode g).
Definition set_Voltage v g := FlashProcess (ProcedureOnGoing g) (NbSectorsToErase g) v (pSector g)
  (pAddress g) (Lock g) (ErrorCode g).
Definition set_Sector v g := FlashProcess (ProcedureOnGoing g) (NbSectorsToErase g)
  (VoltageForErase g) v (pAddress g) (Lock g) (ErrorCode g).
Definition set_Address v g := FlashProcess (ProcedureOnGoing g) (NbSectorsToErase g)
  (VoltageForErase g) (pSector g) v (Lock g) (ErrorCode g).
Definition set_Lock v g := FlashProcess (ProcedureOnGoing g) (NbSectorsToErase g)
  (VoltageForErase g) (pSector g) (pAddress g) v (ErrorCode g).
Definition set_ErrorCode v g := FlashProcess (ProcedureOnGoing g) (NbSectorsToErase g)
  (VoltageForErase g) (pSector g) (pAddress g) (Lock g) v.

(** [FLASH_EraseInitTypeDef] *)
Record FLASH_EraseInitTypeDef := EraseInit {
  TypeErase : Z; Banks : Z; ESector : Z; NbSectors : Z; VoltageRange : Z }.

(** [FLASH_OBProgramInitTypeDef] *)
Record FLASH_OBProgramInitTypeDef := OBInit {
  OptionType : Z; WRPState : Z; WRPSector : Z; RDPLevel : Z; BORLevel : Z;
  USERConfig : Z; BootAddr0 : Z; BootAddr1 : Z }.

Section flash_hal.
Context {B : Bus} {N : Narrow B}.
Abbreviation fl := (mach FLASH_ProcessTypeDef).

(** A flag of FLASH_SR, and the write that clears flags. *)
Definition get_flag (mask : Z) : M fl bool := v <- rd FLASH_SR ;; ret (any_bit v mask).
Definition clear_flag (mask : Z) : M fl unit := wr FLASH_SR mask.

(** [__HAL_LOCK] around [body]; [busy] is returned when the lock is taken. *)
Definition hal_lock {A} (busy : A) (body : M fl A) : M fl A :=
  g <- get_ ;;
  if Lock g then ret busy else modify_ (set_Lock true) ;; body.

Definition hal_unlock : M fl unit := modify_ (set_Lock false).

(** ** Waiting and errors *)

Definition set_error_if (flag code : Z) : M fl unit :=
  b <- get_flag flag ;;
  if b then modify_ (fun g => set_ErrorCode (ErrorCode g .| code) g) else ret tt.

Definition FLASH_SetErrorCode : M fl unit :=
  set_error_if FLASH_FLAG_OPERR HAL_FLASH_ERROR_OPERATION ;;
  set_error_if FLASH_FLAG_WRPERR HAL_FLASH_ERROR_WRP ;;
  set_error_if FLASH_FLAG_PGAERR HAL_FLASH_ERROR_PGA ;;
  set_error_if FLASH_FLAG_PGPERR HAL_FLASH_ERROR_PGP ;;
  set_error_if FLASH_FLAG_ERSERR HAL_FLASH_ERROR_ERS ;;
  clear_flag FLASH_FLAG_ALL_ERRORS.

(** The loop on BSY; [true] when it timed out. *)
Fixpoint wait_bsy (fuel : nat) (Timeout tickstart : Z) : M fl bool :=
  match fuel with
  | O => spin
  | S n =>
      b <- get_flag FLASH_FLAG_BSY ;;
      if b then
        if negb (Timeout =? HAL_MAX_DELAY) then
          (if Timeout =? 0 then ret true
           else
             t <- HAL_GetTick ;;
             if Timeout <? u32 (t - tickstart) then ret true
             else wait_bsy n Timeout tickstart)
        else wait_bsy n Timeout tickstart
      else ret false
  end.

Definition FLASH_WaitForLastOperation (fuel : nat) (Timeout : Z) : M fl Z :=
  modify_ (set_ErrorCode HAL_FLASH_ERROR_NONE) ;;
  tickstart <- HAL_GetTick ;;
  late <- wait_bsy fuel Timeout tickstart ;;
  if late then ret HAL_TIMEOUT
  else
    e <- get_flag FLASH_FLAG_ALL_ERRORS ;;
    if e then FLASH_SetErrorCode ;; ret HAL_ERROR
    else
      eop <- get_flag FLASH_FLAG_EOP ;;
      (if eop then clear_flag FLASH_FLAG_EOP else ret tt) ;;
      ret HAL_OK.

(** ** Programming *)

Definition program_mode (psize : Z) : M fl unit :=
  keep_bits FLASH_CR CR_PSIZE_MASK ;; set_bits FLASH_CR psize ;; set_bits FLASH_CR FLASH_CR_PG.

Definition FLASH_Program_DoubleWord (Address Data : Z) : M fl unit :=
  program_mode FLASH_PSIZE_DOUBLE_WORD ;;
  wr Address (u32 Data) ;; wr (u32 (Address + 4)) (u32 (Data .>> 32)).
Definition FLASH_Program_Word (Address Data : Z) : M fl unit :=
  program_mode FLASH_PSIZE_WORD ;; wr Address Data.
Definition FLASH_Program_HalfWord (Address Data : Z) : M fl unit :=
  program_mode FLASH_PSIZE_HALF_WORD ;; wr16 Address Data.
Definition FLASH_Program_Byte (Address Data : Z) : M fl unit :=
  program_mode FLASH_PSIZE_BYTE ;; wr8 Address Data.

(** The [switch (TypeProgram)] of both entry points. *)
Definition program_data (TypeProgram Address Data : Z) : M fl unit :=
  if TypeProgram =? FLASH_TYPEPROGRAM_BYTE then FLASH_Program_Byte Address (u8 Data)
  else if TypeProgram =? FLASH_TYPEPROGRAM_HALFWORD then FLASH_Program_HalfWord Address (u16 Data)
  else if TypeProgram =? FLASH_TYPEPROGRAM_WORD then FLASH_Program_Word Address (u32 Data)
  else if TypeProgram =? FLASH_TYPEPROGRAM_DOUBLEWORD then FLASH_Program_DoubleWord Address Data
  else ret tt.

Definition HAL_FLASH_Program (fuel : nat) (TypeProgram Address Data : Z) : M fl Z :=
  hal_lock HAL_BUSY (
    status <- FLASH_WaitForLastOperation fuel FLASH_TIMEOUT_VALUE ;;
    status <-
      (if status =? HAL_OK then
         program_data TypeProgram Address Data ;;
         status <- FLASH_WaitForLastOperation fuel FLASH_TIMEOUT_VALUE ;;
         keep_bits FLASH_CR (not32 FLASH_CR_PG) ;;
         ret status
       else ret status) ;;
    hal_unlock ;;
    ret status).

(** Interrupts on, pending flags cleared. *)
Definition start_it : M fl unit :=
  set_bits FLASH_CR FLASH_IT_EOP ;; set_bits FLASH_CR FLASH_IT_ERR ;;
  clear_flag (FLASH_FLAG_EOP .| FLASH_FLAG_OPERR .| FLASH_FLAG_WRPERR .|
              FLASH_FLAG_PGAERR .| FLASH_FLAG_PGPERR .| FLASH_FLAG_ERSERR).

Definition HAL_FLASH_Program_IT (TypeProgram Address Data : Z) : M fl Z :=
  hal_lock HAL_BUSY (
    start_it ;;
    modify_ (set_Procedure FLASH_PROC_PROGRAM) ;; modify_ (set_Address Address) ;;
    program_data TypeProgram Address Data ;;
    ret HAL_OK).

(** ** Erasing *)

Definition FLASH_MassErase (VoltageRange Banks : Z) : M fl unit :=
  keep_bits FLASH_CR CR_PSIZE_MASK ;;
  (if Banks =? FLASH_BANK_BOTH then set_bits FLASH_CR FLASH_MER_BIT
   else if Banks =? FLASH_BANK_2 then set_bits FLASH_CR FLASH_CR_MER2
   else set_bits FLASH_CR FLASH_CR_MER1) ;;
  set_bits FLASH_CR (FLASH_CR_STRT .| (VoltageRange .<< 8)).

Definition erase_psize (VoltageRange : Z) : Z :=
  if VoltageRange =? FLASH_VOLTAGE_RANGE_1 then FLASH_PSIZE_BYTE
  else if VoltageRange =? FLASH_VOLTAGE_RANGE_2 then FLASH_PSIZE_HALF_WORD
  else if VoltageRange =? FLASH_VOLTAGE_RANGE_3 then FLASH_PSIZE_WORD
  else FLASH_PSIZE_DOUBLE_WORD.

Definition FLASH_Erase_Sector (Sector VoltageRange : Z) : M fl unit :=
  let tmp_psize := erase_psize VoltageRange in
  let Sector := if FLASH_SECTOR_11 <? Sector then u32 (Sector + 4) else Sector in
  keep_bits FLASH_CR CR_PSIZE_MASK ;;
  set_bits FLASH_CR tmp_psize ;;
  keep_bits FLASH_CR (not32 FLASH_CR_SNB) ;;
  set_bits FLASH_CR (FLASH_CR_SER .| (Sector .<< 3)) ;;
  set_bits FLASH_CR FLASH_CR_STRT.

(** One round of the sector loop; [Some] when it fails. *)
Definition erase_one (fuel : nat) (VoltageRange index : Z) : M fl (option (Z * Z)) :=
  FLASH_Erase_Sector index (u8 VoltageRange) ;;
  status <- FLASH_WaitForLastOperation fuel FLASH_TIMEOUT_VALUE ;;
  keep_bits FLASH_CR (not32 (FLASH_CR_SER .| FLASH_CR_SNB)) ;;
  if negb (status =? HAL_OK) then ret (Some (status, index)) else ret None.

(** The status, and the value of [*SectorError] afterwards. *)
Definition HAL_FLASHEx_Erase (fuel : nat) (e : FLASH_EraseInitTypeDef) (SectorError : Z) :
    M fl (Z * Z) :=
  hal_lock (HAL_BUSY, SectorError) (
    status <- FLASH_WaitForLastOperation fuel FLASH_TIMEOUT_VALUE ;;
    r <-
      (if status =? HAL_OK then
         if TypeErase e =? FLASH_TYPEERASE_MASSERASE then
           FLASH_MassErase (u8 (VoltageRange e)) (Banks e) ;;
           status <- FLASH_WaitForLastOperation fuel FLASH_TIMEOUT_VALUE ;;
           keep_bits FLASH_CR (not32 FLASH_MER_BIT) ;;
           ret (status, 0xFFFFFFFF)
         else
           bad <- for_ret (zrange (ESector e) (Z.to_nat (u32 (NbSectors e + ESector e) - ESector e)))
                    (erase_one fuel (VoltageRange e)) ;;
           match bad with
           | Some p => ret p
           | None => ret (HAL_OK, 0xFFFFFFFF)
           end
       else ret (status, SectorError)) ;;
    hal_unlock ;;
    ret r).

Definition HAL_FLASHEx_Erase_IT (e : FLASH_EraseInitTypeDef) : M fl Z :=
  hal_lock HAL_BUSY (
    start_it ;;
    (if TypeErase e =? FLASH_TYPEERASE_MASSERASE then
       modify_ (set_Procedure FLASH_PROC_MASSERASE) ;;
       FLASH_MassErase (u8 (VoltageRange e)) (Banks e)
     else
       modify_ (set_Procedure FLASH_PROC_SECTERASE) ;;
       modify_ (set_NbSectors (NbSectors e)) ;;
       modify_ (set_Sector (ESector e)) ;;
       modify_ (set_Voltage (u8 (VoltageRange e))) ;;
       FLASH_Erase_Sector (ESector e) (u8 (VoltageRange e))) ;;
    ret HAL_OK).

(** ** Interrupt handler.  The weak callbacks do nothing. *)

Definition HAL_FLASH_EndOfOperationCallback (ReturnValue : Z) : M fl unit := ret tt.
Definition HAL_FLASH_OperationErrorCallback (ReturnValue : Z) : M fl unit := ret tt.

Definition irq_end_of_operation : M fl unit :=
  clear_flag FLASH_FLAG_EOP ;;
  g <- get_ ;;
  match ProcedureOnGoing g with
  | FLASH_PROC_SECTERASE =>
      modify_ (fun g => set_NbSectors (u32 (NbSectorsToErase g - 1)) g) ;;
      g <- get_ ;;
      if negb (NbSectorsToErase g =? 0) then
        HAL_FLASH_EndOfOperationCallback (pSector g) ;;
        modify_ (fun g => set_Sector (u32 (pSector g + 1)) g) ;;
        g <- get_ ;;
        FLASH_Erase_Sector (pSector g) (VoltageForErase g)
      else
        modify_ (set_Sector 0xFFFFFFFF) ;;
        HAL_FLASH_EndOfOperationCallback 0xFFFFFFFF ;;
        modify_ (set_Procedure FLASH_PROC_NONE)
  | FLASH_PROC_MASSERASE =>
      HAL_FLASH_EndOfOperationCallback 0 ;; modify_ (set_Procedure FLASH_PROC_NONE)
  | FLASH_PROC_PROGRAM =>
      HAL_FLASH_EndOfOperationCallback (pAddress g) ;; modify_ (set_Procedure FLASH_PROC_NONE)
  | FLASH_PROC_NONE => ret tt
  end.

Definition irq_error : M fl unit :=
  g <- get_ ;;
  temp <- match ProcedureOnGoing g with
          | FLASH_PROC_SECTERASE => modify_ (set_Sector 0xFFFFFFFF) ;; ret (pSector g)
          | FLASH_PROC_MASSERASE => ret 0
          | FLASH_PROC_PROGRAM => ret (pAddress g)
          | FLASH_PROC_NONE => ret 0
          end ;;
  FLASH_SetErrorCode ;;
  HAL_FLASH_OperationErrorCallback temp ;;
  modify_ (set_Procedure FLASH_PROC_NONE).

Definition HAL_FLASH_IRQHandler : M fl unit :=
  keep_bits FLASH_CR (not32 FLASH_CR_PG) ;;
  keep_bits FLASH_CR (not32 FLASH_CR_SER) ;;
  keep_bits FLASH_CR SECTOR_MASK ;;
  keep_bits FLASH_CR (not32 FLASH_MER_BIT) ;;
  eop <- get_flag FLASH_FLAG_EOP ;;
  (if eop then irq_end_of_operation else ret tt) ;;
  e <- get_flag FLASH_FLAG_ALL_ERRORS ;;
  (if e then irq_error else ret tt) ;;
  g <- get_ ;;
  match ProcedureOnGoing g with
  | FLASH_PROC_NONE =>
      keep_bits FLASH_CR (not32 FLASH_IT_EOP) ;; keep_bits FLASH_CR (not32 FLASH_IT_ERR) ;; hal_unlock
  | _ => ret tt
  end.

(** ** Locking *)

Definition HAL_FLASH_Unlock : M fl Z :=
  v <- rd FLASH_CR ;;
  if any_bit v FLASH_CR_LOCK then
    wr FLASH_KEYR FLASH_KEY1 ;; wr FLASH_KEYR FLASH_KEY2 ;;
    v <- rd FLASH_CR ;;
    if any_bit v FLASH_CR_LOCK then ret HAL_ERROR else ret HAL_OK
  else ret HAL_OK.

Definition HAL_FLASH_Lock : M fl Z := set_bits FLASH_CR FLASH_CR_LOCK ;; ret HAL_OK.

Definition HAL_FLASH_OB_Unlock : M fl Z :=
  v <- rd FLASH_OPTCR ;;
  if any_bit v FLASH_OPTCR_OPTLOCK then
    wr FLASH_OPTKEYR FLASH_OPT_KEY1 ;; wr FLASH_OPTKEYR FLASH_OPT_KEY2 ;; ret HAL_OK
  else ret HAL_ERROR.

Definition HAL_FLASH_OB_Lock : M fl Z := set_bits FLASH_OPTCR FLASH_OPTCR_OPTLOCK ;; ret HAL_OK.

Definition HAL_FLASH_OB_Launch (fuel : nat) : M fl Z :=
  set_bits FLASH_OPTCR FLASH_OPTCR_OPTSTRT ;; FLASH_WaitForLastOperation fuel FLASH_TIMEOUT_VALUE.

Definition HAL_FLASH_GetError : M fl Z := g <- get_ ;; ret (ErrorCode g).

(** ** Option bytes *)

Definition when_idle (fuel : nat) (body : M fl unit) : M fl Z :=
  status <- FLASH_WaitForLastOperation fuel FLASH_TIMEOUT_VALUE ;;
  (if status =? HAL_OK then body else ret tt) ;;
  ret status.

Definition FLASH_OB_EnableWRP (fuel : nat) (WRPSector : Z) : M fl Z :=
  when_idle fuel (keep_bits FLASH_OPTCR (not32 WRPSector)).
Definition FLASH_OB_DisableWRP (fuel : nat) (WRPSector : Z) : M fl Z :=
  when_idle fuel (set_bits FLASH_OPTCR WRPSector).
Definition FLASH_OB_RDP_LevelConfig (fuel : nat) (Level : Z) : M fl Z :=
  when_idle fuel (wr8 OPTCR_BYTE1_ADDRESS Level).
Definition FLASH_OB_BOR_LevelConfig (Level : Z) : M fl Z :=
  modify_reg FLASH_OPTCR FLASH_OPTCR_BOR_LEV Level ;; ret HAL_OK.

Definition FLASH_OB_UserConfig (fuel : nat)
    (Wwdg Iwdg Stop Stdby Iwdgstop Iwdgstdby NDBank NDBoot : Z) : M fl Z :=
  when_idle fuel (
    let useroptionmask := 0xF00000F0 in
    let useroptionvalue := Iwdg .| Wwdg .| Stop .| Stdby .| Iwdgstop .| Iwdgstdby .| NDBoot .| NDBank in
    modify_reg FLASH_OPTCR useroptionmask useroptionvalue).

Definition FLASH_OB_BootAddressConfig (fuel : nat) (BootOption Address : Z) : M fl Z :=
  when_idle fuel (
    if BootOption =? OPTIONBYTE_BOOTADDR_0 then
      modify_reg FLASH_OPTCR1 FLASH_OPTCR1_BOOT_ADD0 Address
    else modify_reg FLASH_OPTCR1 FLASH_OPTCR1_BOOT_ADD1 (u32 (Address .<< 16))).

Definition FLASH_OB_GetWRP : M fl Z := v <- rd FLASH_OPTCR ;; ret (v .& 0x0FFF0000).
Definition FLASH_OB_GetUser : M fl Z := v <- rd FLASH_OPTCR ;; ret (v .& 0xF00000F0).
Definition FLASH_OB_GetBOR : M fl Z := v <- rd FLASH_OPTCR ;; ret (v .& 0x0C).
Definition FLASH_OB_GetRDP : M fl Z :=
  v <- rd8 OPTCR_BYTE1_ADDRESS ;;
  if v =? OB_RDP_LEVEL_0 then ret OB_RDP_LEVEL_0
  else
    v <- rd8 OPTCR_BYTE1_ADDRESS ;;
    if v =? OB_RDP_LEVEL_2 then ret OB_RDP_LEVEL_2 else ret OB_RDP_LEVEL_1.
Definition FLASH_OB_GetBootAddress (BootOption : Z) : M fl Z :=
  v <- rd FLASH_OPTCR1 ;;
  if BootOption =? OPTIONBYTE_BOOTADDR_0 then ret (v .& FLASH_OPTCR1_BOOT_ADD0)
  else ret ((v .& FLASH_OPTCR1_BOOT_ADD1) .>> 16).

(** [if ((OptionType & o) == o) status = body;] *)
Definition ob_option (OptionType o : Z) (body : M fl Z) (status : Z) : M fl Z :=
  if OptionType .& o =? o then body else ret status.

Definition HAL_FLASHEx_OBProgram (fuel : nat) (p : FLASH_OBProgramInitTypeDef) : M fl Z :=
  hal_lock HAL_BUSY (
    let option := ob_option (OptionType p) in
    status <- option OPTIONBYTE_WRP
      (if WRPState p =? OB_WRPSTATE_ENABLE then FLASH_OB_EnableWRP fuel (WRPSector p)
       else FLASH_OB_DisableWRP fuel (WRPSector p)) HAL_ERROR ;;
    status <- option OPTIONBYTE_RDP (FLASH_OB_RDP_LevelConfig fuel (u8 (RDPLevel p))) status ;;
    status <- option OPTIONBYTE_USER
      (FLASH_OB_UserConfig fuel (USERConfig p .& OB_WWDG_SW) (USERConfig p .& OB_IWDG_SW)
         (USERConfig p .& OB_STOP_NO_RST) (USERConfig p .& OB_STDBY_NO_RST)
         (USERConfig p .& OB_IWDG_STOP_ACTIVE) (USERConfig p .& OB_IWDG_STDBY_ACTIVE)
         (USERConfig p .& OB_NDBANK_SINGLE_BANK) (USERConfig p .& OB_DUAL_BOOT_DISABLE)) status ;;
    status <- option OPTIONBYTE_BOR (FLASH_OB_BOR_LevelConfig (u8 (BORLevel p))) status ;;
    status <- option OPTIONBYTE_BOOTADDR_0
      (FLASH_OB_BootAddressConfig fuel OPTIONBYTE_BOOTADDR_0 (BootAddr0 p)) status ;;
    status <- option OPTIONBYTE_BOOTADDR_1
      (FLASH_OB_BootAddressConfig fuel OPTIONBYTE_BOOTADDR_1 (BootAddr1 p)) status ;;
    hal_unlock ;;
    ret status).

Definition HAL_FLASHEx_OBGetConfig (WRPState0 : Z) : M fl FLASH_OBProgramInitTypeDef :=
  wrp <- FLASH_OB_GetWRP ;;
  rdp <- FLASH_OB_GetRDP ;;
  user <- FLASH_OB_GetUser ;;
  bor <- FLASH_OB_GetBOR ;;
  boot0 <- FLASH_OB_GetBootAddress OPTIONBYTE_BOOTADDR_0 ;;
  boot1 <- FLASH_OB_GetBootAddress OPTIONBYTE_BOOTADDR_1 ;;
  ret (OBInit 0x3F WRPState0 wrp rdp bor user boot0 boot1).
End flash_hal.
