(* ===== verification/FlashDev.v ===== *)
(** The documented behaviour of the flash controller of the STM32F765 in single
    bank mode, as an automaton over its registers and the flash cells; the
    class of devices that behave so within bounded time; a simulated device;
    and what the HAL's program and erase operations of [FlashHal] do on such a
    device.  The automaton is not code of the repository. *)
From S2P Require Import Prelude Machine SysArch FlashHal.

#[local] Open Scope fw_scope.

(** First address of each sector, and the end of the flash. *)
Definition sector_table : list Z :=
  [0x08000000; 0x08008000; 0x08010000; 0x08018000; 0x08020000; 0x08040000; 0x08080000;
   0x080C0000; 0x08100000; 0x08140000; 0x08180000; 0x081C0000; 0x08200000].
Definition sector_base (n : Z) : Z := default 0x08200000 (aget sector_table n).
Definition in_sector (n a : Z) : bool := (sector_base n <=? a) && (a <? sector_base (n + 1)).
Definition in_flash (a : Z) : bool := (0x08000000 <=? a) && (a <? 0x08200000).

Definition ERASED : Z := 0xFFFFFFFF.

(** Control register, key sequence, cells by word address, operation running. *)
Record fview := FView {
  f_cr : Z;
  f_key : nat;
  f_mem : Z -> Z;
  f_busy : bool;
}.

Definition f_locked (w : fview) : bool := Z.testbit (f_cr w) 31.
Definition with_cr (c : Z) (w : fview) : fview := FView c (f_key w) (f_mem w) (f_busy w).

Definition erase_sector (mem : Z -> Z) (n x : Z) : Z := if in_sector n x then ERASED else mem x.

(** A register write.  Programming can only clear bits of a cell. *)
Definition fl_wr (a v : Z) (w : fview) : fview :=
  if a =? FLASH_KEYR then
    if f_locked w then
      match f_key w with
      | 0%nat => FView (f_cr w) (if v =? FLASH_KEY1 then 1 else 2) (f_mem w) (f_busy w)
      | 1%nat =>
          if v =? FLASH_KEY2 then FView (f_cr w .& not32 FLASH_CR_LOCK) 0 (f_mem w) (f_busy w)
          else FView (f_cr w) 2 (f_mem w) (f_busy w)
      | _ => w
      end
    else w
  else if a =? FLASH_CR then
    if f_locked w || f_busy w then w
    else if Z.testbit v 16 && Z.testbit v 1 then
      FView v (f_key w) (erase_sector (f_mem w) (bits v 3 5)) true
    else with_cr v w
  else if in_flash a then
    if negb (f_locked w) && negb (f_busy w) && Z.testbit (f_cr w) 0 && (bits (f_cr w) 8 2 =? 2) &&
       (a mod 4 =? 0)
    then FView (f_cr w) (f_key w) (upd (f_mem w) a (f_mem w a .& v)) true
    else w
  else w.

(** The end of an operation clears the start bit. *)
Definition fl_done (w : fview) : fview :=
  if f_busy w then FView (f_cr w .& not32 FLASH_CR_STRT) (f_key w) (f_mem w) false else w.

(** What reading a register may return, and what it does: an operation may
    have come to its end, always without an error. *)
Definition fl_rd (a : Z) (w : fview) (v : Z) (w' : fview) : Prop :=
  if a =? FLASH_SR then
    (w' = w \/ w' = fl_done w) /\ any_bit v FLASH_FLAG_BSY = f_busy w' /\
    any_bit v FLASH_FLAG_ALL_ERRORS = false
  else if a =? FLASH_CR then w' = w /\ v = u32 (f_cr w)
  else if in_flash a then f_busy w = false -> w' = w /\ v = u32 (f_mem w a)
  else w' = w.

(** Devices whose flash behaves so: an operation is over after [fl_lat] polls
    of SR at most, an access takes at most [fl_step] kernel ticks, and an
    operation less than 40 s in all. *)
Class FlashDev (B : Bus) := {
  fl_view : hw -> fview;
  fl_now : hw -> Z;
  fl_left : hw -> nat;
  fl_lat : nat;
  fl_step : Z;
  fl_params : 0 <= fl_step /\ Z.of_nat (fl_lat + 4) * fl_step <= 200000;
  fl_left_le h : (fl_left h <= fl_lat)%nat;
  fl_wr_view h a v : fl_view (mmio_wr a v h) = fl_wr a v (fl_view h);
  fl_rd_view h a :
    fl_rd a (fl_view h) (u32 (fst (mmio_rd a h))) (fl_view (snd (mmio_rd a h)));
  fl_poll h :
    any_bit (u32 (fst (mmio_rd FLASH_SR h))) FLASH_FLAG_BSY = true ->
    (fl_left (snd (mmio_rd FLASH_SR h)) < fl_left h)%nat;
  fl_wr_now h a v : fl_now h <= fl_now (mmio_wr a v h) <= fl_now h + fl_step;
  fl_rd_now h a : fl_now h <= fl_now (snd (mmio_rd a h)) <= fl_now h + fl_step;
  fl_tick h :
    fst (ktick h) = fl_now h /\ fl_view (snd (ktick h)) = fl_view h /\
    fl_now (snd (ktick h)) = fl_now h /\ fl_left (snd (ktick h)) = fl_left h;
}.

(** * A simulated device: operations end at the first poll *)

Definition flash_rd (a : Z) (w : fview) : Z * fview :=
  if a =? FLASH_SR then (0, fl_done w)
  else if a =? FLASH_CR then (f_cr w, w)
  else if in_flash a then (f_mem w a, w)
  else (0, w).

Definition flash_bus : Bus := {|
  hw := fview;
  mmio_rd := flash_rd;
  mmio_wr := fl_wr;
  ktick w := (0, w);
  os_delay _ w := w;
|}.

(** It is programmed by words only. *)
#[export] Instance flash_narrow : Narrow flash_bus := {|
  mmio_rd8 a (w : @hw flash_bus) := flash_rd a w;
  mmio_wr8 _ _ (w : @hw flash_bus) := w;
  mmio_wr16 _ _ (w : @hw flash_bus) := w;
|}.

Lemma fl_done_idle w : f_busy (fl_done w) = false.
Proof. unfold fl_done. by destruct (f_busy w) eqn:E. Qed.

Lemma flash_rd_view (w : fview) a : fl_rd a w (u32 (fst (flash_rd a w))) (snd (flash_rd a w)).
Proof.
  unfold fl_rd, flash_rd. destruct (a =? FLASH_SR).
  { cbn. split_and!; [by right| |done]. by rewrite fl_done_idle. }
  destruct (a =? FLASH_CR); [done|]. by destruct (in_flash a).
Qed.

#[export] Instance flash_sim : FlashDev flash_bus.
Proof.
  refine {| fl_view := (fun w => w) : @hw flash_bus -> fview; fl_now := fun _ => 0;
            fl_left := fun _ => 0%nat; fl_lat := 0; fl_step := 0 |}; try done.
  - intros h a. apply flash_rd_view.
Defined.

(** * The HAL on such a device *)

Section flash.
Context {B : Bus} {N : Narrow B} {F : FlashDev B}.
Abbreviation fl := (mach FLASH_ProcessTypeDef).
Implicit Types (s : fl) (d : hw) (w : fview).

Definition fw s : fview := fl_view (dev s).

(** Ready for an operation: unlocked, idle, no operation bit left in CR. *)
Definition cr_ready (c : Z) : Prop :=
  0 <= c < 2 ^ 32 /\ Z.testbit c 1 = false /\ Z.testbit c 2 = false /\ Z.testbit c 15 = false /\
  Z.testbit c 16 = false /\ Z.testbit c 31 = false.
Definition flash_ready w : Prop := f_busy w = false /\ cr_ready (f_cr w).

(** CR can be written: unlocked and idle. *)
Definition cr_open (c : Z) : Prop := 0 <= c < 2 ^ 32 /\ Z.testbit c 31 = false.
Definition flash_open w : Prop := f_busy w = false /\ cr_open (f_cr w).

Lemma ready_open c : cr_ready c -> cr_open c.
Proof. by intros (? & _ & _ & _ & _ & ?). Qed.

(** At most [c] ticks later. *)
Definition within d d' (c : Z) : Prop := fl_now d <= fl_now d' <= fl_now d + c.

(** The time of one wait for the controller, and of one program operation. *)
Definition wait_time : Z := Z.of_nat (fl_lat + 4) * fl_step.
Definition op_time : Z := 2 * wait_time + 14 * fl_step.

Lemma fl_step_pos : 0 <= fl_step.
Proof. apply fl_params. Qed.

Lemma wp_fl_wr a v s (Q : unit -> fl -> Prop) :
  (forall d l, fl_view d = fl_wr a (u32 v) (fw s) -> within (dev s) d fl_step ->
     Q tt (Mach d l (glb s))) ->
  wp (wr a v) s Q.
Proof. intros HQ. apply wp_wr, HQ; [apply fl_wr_view|apply fl_wr_now]. Qed.

Lemma wp_cr_rmw f s (Q : unit -> fl -> Prop) :
  (forall d l, fl_view d = fl_wr FLASH_CR (u32 (f (u32 (f_cr (fw s))))) (fw s) ->
     within (dev s) d (2 * fl_step) -> Q tt (Mach d l (glb s))) ->
  wp (rmw FLASH_CR f) s Q.
Proof.
  intros HQ. unfold rmw. apply wp_bind, wp_rd.
  pose proof (fl_rd_view (dev s) FLASH_CR) as [Hw Hv]. rewrite Hv.
  apply wp_fl_wr. intros d l Hd Ht. apply HQ.
  - rewrite Hd. unfold fw at 1. cbn [dev]. by rewrite Hw.
  - pose proof (fl_rd_now (dev s) FLASH_CR). unfold within in *. cbn [dev] in Ht. lia.
Qed.

Lemma fl_wr_cr c w :
  flash_open w -> Z.testbit c 16 = false -> fl_wr FLASH_CR c w = with_cr c w.
Proof.
  intros (Hb & _ & Hl) Hc. unfold fl_wr, f_locked.
  change (FLASH_CR =? FLASH_KEYR) with false. rewrite Z.eqb_refl, Hl, Hb, Hc. done.
Qed.

(** Polling until the controller is idle. *)
Lemma wp_wait_bsy fuel now0 s (Q : bool -> fl -> Prop) :
  (fl_left (dev s) < fuel)%nat -> 0 <= now0 ->
  now0 <= fl_now (dev s) <= now0 + Z.of_nat (fl_lat - fl_left (dev s)) * fl_step ->
  now0 + wait_time < 2 ^ 32 ->
  (forall d, fl_view d = fl_done (fw s) ->
     now0 <= fl_now d <= now0 + Z.of_nat (fl_lat + 1) * fl_step ->
     Q false (Mach d (wlog s) (glb s))) ->
  wp (wait_bsy fuel FLASH_TIMEOUT_VALUE (now0 / 5)) s Q.
Proof.
  pose proof fl_params as [Hstep Hbudget].
  assert (forall i j : nat, (i <= j)%nat -> Z.of_nat i * fl_step <= Z.of_nat j * fl_step) as Hmul.
  { intros i j Hij. apply Z.mul_le_mono_nonneg_r; lia. }
  unfold fw, wait_time. destruct s as [d l g]. cbn [dev wlog glb]. revert d.
  induction fuel as [|fuel IH]; intros d Hleft H0 Hnow Hwrap HQ; [lia|].
  cbn [wait_bsy]. unfold get_flag. apply wp_bind, wp_bind, wp_rd, wp_ret. cbn [dev wlog glb].
  pose proof (fl_rd_view d FLASH_SR) as (Hview & Hbusy & _).
  pose proof (fl_rd_now d FLASH_SR) as Hn. pose proof (fl_left_le d) as Hle.
  destruct (any_bit _ FLASH_FLAG_BSY) eqn:Hb.
  - pose proof (fl_poll d Hb) as Hpoll. set (d1 := snd (mmio_rd FLASH_SR d)) in *.
    change (FLASH_TIMEOUT_VALUE =? HAL_MAX_DELAY) with false.
    change (FLASH_TIMEOUT_VALUE =? 0) with false. cbn [negb].
    unfold HAL_GetTick, sys_now, tick_count, bind, ret, wp. cbn [dev wlog glb].
    destruct (fl_tick d1) as (Htick & Htv & Htn & Htl). rewrite Htick.
    assert (fl_now d1 <= now0 + Z.of_nat (fl_lat - fl_left d1) * fl_step) as Hd1.
    { specialize (Hmul (S (fl_lat - fl_left d)) (fl_lat - fl_left d1)%nat ltac:(lia)).
      rewrite Nat2Z.inj_succ in Hmul. lia. }
    pose proof (Hmul (fl_lat - fl_left d1)%nat (fl_lat + 4)%nat ltac:(lia)).
    unfold OS_TICKS_PER_MILLI, FLASH_TIMEOUT_VALUE.
    assert (now0 <= fl_now d1 <= now0 + 200000 /\ fl_now d1 < 2 ^ 32) as Hel by lia.
    rewrite (u32_small (fl_now d1)), u32_small by (clear - Hel H0; zlia).
    destruct (Z.ltb_spec 50000 (fl_now d1 / 5 - now0 / 5)) as [Hlate|_];
      [clear - Hlate Hel H0; zlia|].
    apply IH; rewrite ?Htl, ?Htn, ?Htv; [lia|lia|lia|lia|].
    assert (fl_view d1 = fl_view d) as ->; [|done].
    destruct Hview as [Hv|Hv]; [done|]. rewrite Hv, fl_done_idle in Hbusy. congruence.
  - apply wp_ret, HQ.
    + destruct Hview as [Hv|Hv]; [|done]. rewrite Hv in Hbusy |- *. unfold fl_done.
      by rewrite <- Hbusy.
    + pose proof (Hmul (fl_lat - fl_left d)%nat fl_lat ltac:(lia)). lia.
Qed.

Lemma fl_done_done w : fl_done (fl_done w) = fl_done w.
Proof. unfold fl_done at 1. by rewrite fl_done_idle. Qed.

Lemma fl_wr_sr v w : fl_wr FLASH_SR v w = w.
Proof. done. Qed.

(** Reading SR of an idle controller: nothing changes, no error. *)
Lemma rd_sr_idle d :
  fl_view d = fl_done (fl_view d) ->
  fl_view (snd (mmio_rd FLASH_SR d)) = fl_view d /\
  any_bit (u32 (fst (mmio_rd FLASH_SR d))) FLASH_FLAG_ALL_ERRORS = false.
Proof.
  intros Hd. destruct (fl_rd_view d FLASH_SR) as ([Hw|Hw] & _ & He); [done|].
  split; [by rewrite Hw|done].
Qed.

Lemma wp_wait fuel s (Q : Z -> fl -> Prop) :
  (fl_lat < fuel)%nat -> 0 <= fl_now (dev s) -> fl_now (dev s) + wait_time < 2 ^ 32 ->
  (forall d l, fl_view d = fl_done (fw s) -> within (dev s) d wait_time ->
     Q HAL_OK (Mach d l (set_ErrorCode HAL_FLASH_ERROR_NONE (glb s)))) ->
  wp (FLASH_WaitForLastOperation fuel FLASH_TIMEOUT_VALUE) s Q.
Proof.
  pose proof fl_step_pos as Hstep. intros Hf H0 Hwrap HQ.
  unfold FLASH_WaitForLastOperation. apply wp_bind, wp_modify, wp_bind.
  unfold HAL_GetTick, sys_now, tick_count, bind at 1, ret, wp at 1. cbn [dev wlog glb].
  destruct (fl_tick (dev s)) as (Htick & Htv & Htn & Htl). rewrite Htick.
  pose proof (fl_left_le (dev s)) as Hle.
  assert (0 <= wait_time) by (apply Z.mul_nonneg_nonneg; lia).
  rewrite u32_small by lia. apply wp_bind.
  apply wp_wait_bsy; cbn [dev wlog glb]; unfold fw; cbn [dev]; rewrite ?Htl, ?Htn, ?Htv;
    [lia|lia| |lia|].
  { pose proof (Z.mul_nonneg_nonneg (Z.of_nat (fl_lat - fl_left (dev s))) fl_step). lia. }
  fold (fw s). intros d Hd Hnow. apply wp_bind. unfold get_flag at 1.
  apply wp_bind, wp_rd, wp_ret. cbn [dev wlog glb].
  destruct (rd_sr_idle d) as [Hd1 He1]; [by rewrite Hd, fl_done_done|].
  pose proof (fl_rd_now d FLASH_SR) as Hn1. rewrite He1. set (d1 := snd (mmio_rd FLASH_SR d)) in *.
  apply wp_bind. unfold get_flag. apply wp_bind, wp_rd, wp_ret. cbn [dev wlog glb].
  destruct (rd_sr_idle d1) as [Hd2 _]; [by rewrite Hd1, Hd, fl_done_done|].
  pose proof (fl_rd_now d1 FLASH_SR) as Hn2. set (d2 := snd (mmio_rd FLASH_SR d1)) in *.
  assert (within (dev s) d2 (wait_time - fl_step)) as Ht.
  { unfold within, wait_time. rewrite !Nat2Z.inj_add, !Z.mul_add_distr_r in *. lia. }
  apply wp_bind. destruct (any_bit _ FLASH_FLAG_EOP).
  - apply wp_fl_wr. intros d3 l Hd3 Ht3. apply wp_ret, HQ.
    + rewrite Hd3, fl_wr_sr. unfold fw. cbn [dev]. by rewrite Hd2, Hd1.
    + unfold within in *. cbn [dev] in Ht3. lia.
  - apply wp_ret, wp_ret, HQ; [by rewrite Hd2, Hd1|]. unfold within in *. lia.
Qed.

Lemma in_flash_not_reg a : in_flash a = true -> (a =? FLASH_KEYR) = false /\ (a =? FLASH_CR) = false.
Proof.
  unfold in_flash. intros H. zbool. unfold FLASH_KEYR, FLASH_CR, FLASH_R_BASE.
  split; apply Z.eqb_neq; lia.
Qed.

(** Reading a cell, from any program. *)
Lemma wp_rd_flash {G} a (s : mach G) (Q : Z -> mach G -> Prop) :
  in_flash a = true -> f_busy (fl_view (dev s)) = false ->
  (forall d, fl_view d = fl_view (dev s) -> within (dev s) d fl_step ->
     Q (u32 (f_mem (fl_view (dev s)) a)) (Mach d (wlog s) (glb s))) ->
  wp (rd a) s Q.
Proof.
  intros Ha Hb HQ. apply wp_rd. pose proof (fl_rd_view (dev s) a) as Hrd. unfold fl_rd in Hrd.
  destruct (in_flash_not_reg a Ha) as [_ Hcr]. rewrite Hcr, Ha in Hrd.
  assert ((a =? FLASH_SR) = false) as Hsr.
  { apply Z.eqb_neq. unfold in_flash in Ha. zbool. unfold FLASH_SR, FLASH_R_BASE. lia. }
  rewrite Hsr in Hrd. destruct (Hrd Hb) as [Hw ->]. apply HQ; [done|]. apply fl_rd_now.
Qed.

(** ** Unlocking *)

(** Idle, no operation bit in CR, and open or still able to be opened. *)
Definition flash_closed w : Prop :=
  f_busy w = false /\ 0 <= f_cr w < 2 ^ 32 /\ Z.testbit (f_cr w) 1 = false /\
  Z.testbit (f_cr w) 2 = false /\ Z.testbit (f_cr w) 15 = false /\ Z.testbit (f_cr w) 16 = false /\
  (Z.testbit (f_cr w) 31 = true -> f_key w = 0%nat).

Lemma ready_closed w : flash_ready w -> flash_closed w.
Proof. intros (Hb & [? ?] & ? & ? & ? & ? & H31). split_and!; [done..|]. by rewrite H31. Qed.

Lemma wp_rd_cr s (Q : Z -> fl -> Prop) :
  (forall d, fl_view d = fw s -> within (dev s) d fl_step ->
     Q (u32 (f_cr (fw s))) (Mach d (wlog s) (glb s))) ->
  wp (rd FLASH_CR) s Q.
Proof.
  intros HQ. apply wp_rd. destruct (fl_rd_view (dev s) FLASH_CR) as [Hw ->].
  apply HQ; [done|]. apply fl_rd_now.
Qed.

Lemma wp_Unlock s (Q : Z -> fl -> Prop) :
  flash_closed (fw s) ->
  (forall d l, flash_ready (fl_view d) -> f_mem (fl_view d) = f_mem (fw s) ->
     within (dev s) d (4 * fl_step) -> Q HAL_OK (Mach d l (glb s))) ->
  wp HAL_FLASH_Unlock s Q.
Proof.
  pose proof fl_step_pos as Hstep. intros (Hb & Hc & H1 & H2 & H15 & H16 & Hk) HQ.
  unfold HAL_FLASH_Unlock. apply wp_bind, wp_rd_cr. intros d1 Hd1 Ht1. unfold within in Ht1.
  assert (any_bit (u32 (f_cr (fw s))) FLASH_CR_LOCK = Z.testbit (f_cr (fw s)) 31) as ->.
  { rewrite u32_small by done. by apply (any_bit_pow2 _ 31). }
  destruct (Z.testbit (f_cr (fw s)) 31) eqn:Hl.
  - specialize (Hk eq_refl).
    apply wp_bind, wp_fl_wr. intros d2 l2 Hd2 Ht2. unfold fw in Hd2. cbn [dev wlog glb] in *.
    rewrite Hd1 in Hd2. unfold fl_wr, f_locked in Hd2. rewrite Z.eqb_refl, Hl, Hk in Hd2.
    change (u32 FLASH_KEY1 =? FLASH_KEY1) with true in Hd2. cbv iota in Hd2.
    apply wp_bind, wp_fl_wr. intros d3 l3 Hd3 Ht3. unfold fw in Hd3. cbn [dev wlog glb] in *.
    rewrite Hd2 in Hd3. unfold fl_wr, f_locked in Hd3. cbn [f_cr f_key f_mem f_busy] in Hd3.
    rewrite Z.eqb_refl, Hl in Hd3.
    change (u32 FLASH_KEY2 =? FLASH_KEY2) with true in Hd3. cbv iota in Hd3.
    apply wp_bind, wp_rd_cr. unfold fw. cbn [dev wlog glb]. rewrite Hd3. cbn [f_cr].
    intros d4 Hd4 Ht4.
    assert (0 <= f_cr (fw s) .& not32 FLASH_CR_LOCK < 2 ^ 32) as Hr by by apply land_lt_pow2.
    assert (any_bit (u32 (f_cr (fw s) .& not32 FLASH_CR_LOCK)) FLASH_CR_LOCK = false) as ->.
    { rewrite u32_small by done. rewrite (any_bit_pow2 _ 31) by done.
      by rewrite Z.land_spec, andb_false_r. }
    apply wp_ret, HQ; rewrite ?Hd4; cbn [f_mem f_busy f_cr]; [|done|unfold within in *; cbn [dev] in *; lia].
    split; [done|]. cbn [f_cr]. split; [done|]. rewrite !Z.land_spec, H1, H2, H15, H16, andb_false_r. by split_and!.
  - apply wp_ret, HQ; rewrite ?Hd1; [by split_and!|done|unfold within; lia].
Qed.

(** ** Programming a word *)

(** [|=] and [&=] on CR while the controller is idle. *)
Lemma wp_cr_step f s (Q : unit -> fl -> Prop) :
  flash_open (fw s) ->
  (let c := u32 (f (f_cr (fw s))) in
   Z.testbit c 16 = false /\
   forall d l, fl_view d = with_cr c (fw s) -> within (dev s) d (2 * fl_step) ->
     Q tt (Mach d l (glb s))) ->
  wp (rmw FLASH_CR f) s Q.
Proof.
  intros Hr [H16 HQ]. apply wp_cr_rmw. intros d l Hd Ht. apply HQ; [|done].
  rewrite Hd. pose proof Hr as (_ & Hc & _). rewrite (u32_small (f_cr _)) by done.
  by apply fl_wr_cr.
Qed.

(** Bits of a CR value that was changed by masks. *)
Ltac cr_bits :=
  repeat first
    [ rewrite u32_testbit by lia | rewrite Z.lor_spec | rewrite Z.land_spec
    | rewrite not32_testbit by lia ].

Definition word_mode (c : Z) : Z :=
  u32 (u32 (u32 (c .& CR_PSIZE_MASK) .| FLASH_PSIZE_WORD) .| FLASH_CR_PG).

Lemma word_mode_bits c :
  cr_ready c ->
  Z.testbit (word_mode c) 0 = true /\ bits (word_mode c) 8 2 = 2 /\
  Z.testbit (word_mode c) 31 = false /\
  cr_ready (u32 (c .& CR_PSIZE_MASK)) /\
  cr_ready (u32 (u32 (c .& CR_PSIZE_MASK) .| FLASH_PSIZE_WORD)) /\ cr_ready (word_mode c) /\
  cr_ready (word_mode c .& not32 FLASH_CR_STRT) /\
  cr_ready (u32 ((word_mode c .& not32 FLASH_CR_STRT) .& not32 FLASH_CR_PG)).
Proof.
  intros (Hc & H1 & H2 & H15 & H16 & H31). unfold word_mode.
  assert (Hready : forall x, Z.testbit x 1 = false -> Z.testbit x 2 = false ->
    Z.testbit x 15 = false -> Z.testbit x 16 = false -> Z.testbit x 31 = false ->
    cr_ready (u32 x)).
  { intros x ? ? ? ? ?. split; [apply u32_range|]. by rewrite !u32_testbit by lia. }
  split_and!.
  - cr_bits. by rewrite orb_true_r.
  - apply (bits_ext 2); [done|by apply bits_range|done|]. intros i Hi.
    rewrite bits_testbit, bool_decide_true, andb_true_r by lia.
    zenum i 2%nat; cr_bits; cbn; by rewrite ?andb_false_r, ?orb_true_r.
  - cr_bits. by rewrite H31.
  - apply Hready; cr_bits; by rewrite ?H1, ?H2, ?H15, ?H16, ?H31.
  - apply Hready; cr_bits; by rewrite ?H1, ?H2, ?H15, ?H16, ?H31.
  - apply Hready; cr_bits; by rewrite ?H1, ?H2, ?H15, ?H16, ?H31.
  - split; [apply land_lt_pow2; [done|apply u32_range]|].
    split_and!; cr_bits; by rewrite ?H1, ?H2, ?H15, ?H16, ?H31.
  - apply Hready; cr_bits; by rewrite ?H1, ?H2, ?H15, ?H16, ?H31.
Qed.

(** What the HAL leaves in [pFlash] after a completed operation. *)
Definition op_done (g : FLASH_ProcessTypeDef) : FLASH_ProcessTypeDef :=
  set_Lock false (set_ErrorCode HAL_FLASH_ERROR_NONE g).

Lemma wp_Program_word fuel a v s (Q : Z -> fl -> Prop) :
  (fl_lat < fuel)%nat -> flash_ready (fw s) -> Lock (glb s) = false ->
  in_flash a = true -> a mod 4 = 0 -> 0 <= v < 2 ^ 32 ->
  0 <= fl_now (dev s) -> fl_now (dev s) + op_time < 2 ^ 32 ->
  (forall d l c, cr_ready c ->
     fl_view d = FView c (f_key (fw s)) (upd (f_mem (fw s)) a (f_mem (fw s) a .& v)) false ->
     within (dev s) d op_time -> Q HAL_OK (Mach d l (op_done (glb s)))) ->
  wp (HAL_FLASH_Program fuel FLASH_TYPEPROGRAM_WORD a v) s Q.
Proof.
  pose proof fl_step_pos as Hstep. unfold op_time.
  intros Hf Hr Hl Ha Hal Hv H0 Hwrap HQ. pose proof Hr as [Hb Hc].
  assert (0 <= wait_time) by (apply Z.mul_nonneg_nonneg; lia).
  unfold HAL_FLASH_Program, hal_lock. apply wp_bind, wp_get. rewrite Hl.
  apply wp_bind, wp_modify, wp_bind, wp_wait; cbn [dev wlog glb]; [done|lia|lia|].
  intros d1 l1 Hd1 Ht1. cbn [dev] in Ht1. unfold fw in Hd1. cbn [dev] in Hd1. fold (fw s) in Hd1.
  unfold fl_done in Hd1. rewrite Hb in Hd1. cbn [Z.eqb HAL_OK].
  destruct (word_mode_bits (f_cr (fw s)) Hc) as (Hpg & Hps & Hlk & Hc1 & Hc2 & Hc3 & Hc4 & Hc5).
  apply wp_bind, wp_bind. unfold program_data, FLASH_Program_Word.
  change (FLASH_TYPEPROGRAM_WORD =? FLASH_TYPEPROGRAM_BYTE) with false.
  change (FLASH_TYPEPROGRAM_WORD =? FLASH_TYPEPROGRAM_HALFWORD) with false.
  change (FLASH_TYPEPROGRAM_WORD =? FLASH_TYPEPROGRAM_WORD) with true. cbn [orb].
  apply wp_bind. unfold program_mode. apply wp_bind, wp_cr_step.
  { unfold fw. cbn [dev]. rewrite Hd1. split; [done|by apply ready_open]. }
  unfold fw. cbn [dev]. rewrite Hd1. split; [by apply Hc1|]. intros d2 l2 Hd2 Ht2.
  apply wp_bind, wp_cr_step; unfold fw; cbn [dev]; rewrite Hd2; [split; [done|by apply ready_open]|].
  cbn [f_cr with_cr]. split; [by apply Hc2|]. intros d3 l3 Hd3 Ht3.
  apply wp_cr_step; unfold fw; cbn [dev]; rewrite Hd3; [split; [done|by apply ready_open]|].
  cbn [f_cr with_cr]. split; [by apply Hc3|]. intros d4 l4 Hd4 Ht4.
  fold (word_mode (f_cr (fw s))) in Hd4.
  apply wp_fl_wr. intros d5 l5 Hd5 Ht5. unfold fw in Hd5. cbn [dev glb] in *.
  rewrite Hd4, (u32_small v), (u32_small v) in Hd5 by done.
  unfold fl_wr in Hd5. destruct (in_flash_not_reg a Ha) as [Hk1 Hk2].
  unfold f_locked in Hd5. cbn [f_cr with_cr f_busy f_key f_mem] in Hd5.
  rewrite Hk1, Hk2, Ha, Hlk, Hb, Hpg, Hps, Hal in Hd5. cbn [negb andb Z.eqb Pos.eqb] in Hd5.
  apply wp_bind, wp_wait; cbn [dev wlog glb]; unfold within in *; cbn [dev] in *; [done|lia|lia|].
  intros d6 l6 Hd6 Ht6. unfold fw in Hd6. cbn [dev] in Hd6. rewrite Hd5 in Hd6.
  cbn [fl_done f_busy f_cr f_key f_mem] in Hd6.
  apply wp_bind, wp_cr_step; unfold fw; cbn [dev]; rewrite Hd6; [split; [done|by apply ready_open]|].
  cbn [f_cr]. split; [by apply Hc5|]. intros d7 l7 Hd7 Ht7.
  apply wp_ret, wp_bind, wp_modify, wp_ret. cbn [dev wlog glb] in *.
  eapply HQ; [exact Hc5|by rewrite Hd7|]. unfold within in *. cbn [dev] in *. lia.
Qed.

(** ** Erasing sectors *)

Definition erase_mode (c p n : Z) : Z :=
  u32 (u32 (u32 (u32 (c .& CR_PSIZE_MASK) .| p) .& not32 FLASH_CR_SNB) .| (FLASH_CR_SER .| (n .<< 3))).

Lemma erase_mode_bits c n :
  cr_ready c -> 0 <= n <= 11 ->
  let p := FLASH_PSIZE_WORD in
  let c5 := u32 (erase_mode c p n .| FLASH_CR_STRT) in
  cr_ready (u32 (c .& CR_PSIZE_MASK)) /\ cr_ready (u32 (u32 (c .& CR_PSIZE_MASK) .| p)) /\
  cr_ready (u32 (u32 (u32 (c .& CR_PSIZE_MASK) .| p) .& not32 FLASH_CR_SNB)) /\
  cr_open (erase_mode c p n) /\ Z.testbit (erase_mode c p n) 16 = false /\
  Z.testbit c5 16 = true /\ Z.testbit c5 1 = true /\ bits c5 3 5 = n /\
  cr_open (c5 .& not32 FLASH_CR_STRT) /\
  cr_ready (u32 ((c5 .& not32 FLASH_CR_STRT) .& not32 (FLASH_CR_SER .| FLASH_CR_SNB))).
Proof.
  intros (Hc & H1 & H2 & H15 & H16 & H31) Hn. cbv zeta. unfold erase_mode.
  assert (Hready : forall x, Z.testbit x 1 = false -> Z.testbit x 2 = false ->
    Z.testbit x 15 = false -> Z.testbit x 16 = false -> Z.testbit x 31 = false ->
    cr_ready (u32 x)).
  { intros x ? ? ? ? ?. split; [apply u32_range|]. by rewrite !u32_testbit by lia. }
  assert (Hhigh : forall i, 7 <= i -> Z.testbit (n .<< 3) i = false).
  { intros i Hi. rewrite Z.shiftl_spec by lia. apply (testbit_above 4); lia. }
  assert (Hlow : forall i, 0 <= i < 3 -> Z.testbit (n .<< 3) i = false).
  { intros i Hi. rewrite Z.shiftl_spec, Z.testbit_neg_r by lia. done. }
  split; [apply Hready; cr_bits; by rewrite ?H1, ?H2, ?H15, ?H16, ?H31|].
  split; [apply Hready; cr_bits; by rewrite ?H1, ?H2, ?H15, ?H16, ?H31|].
  split; [apply Hready; cr_bits; by rewrite ?H1, ?H2, ?H15, ?H16, ?H31|].
  split; [split; [apply u32_range|]; cr_bits; by rewrite H31, Hhigh by lia|].
  split; [cr_bits; by rewrite H16, Hhigh by lia|].
  split; [cr_bits; by rewrite orb_true_r|].
  split; [cr_bits; by rewrite ?orb_true_r|].
  split.
  { apply (bits_ext 5); [done|by apply bits_range|lia|]. intros i Hi.
    rewrite bits_testbit, bool_decide_true, andb_true_r by lia.
    zenum i 5%nat; cr_bits; rewrite Z.shiftl_spec by lia; cbn -[Z.testbit];
      by rewrite ?andb_false_r, ?orb_false_r. }
  split; [split; [apply land_lt_pow2; [done|apply u32_range]|]; cr_bits;
    by rewrite H31, Hhigh by lia|].
  apply Hready; cr_bits; rewrite ?H1, ?H2, ?H15, ?H16, ?H31, ?Hhigh, ?Hlow by lia; done.
Qed.

Lemma wp_erase_one fuel n s (Q : option (Z * Z) -> fl -> Prop) :
  (fl_lat < fuel)%nat -> flash_ready (fw s) -> 0 <= n <= 11 ->
  0 <= fl_now (dev s) -> fl_now (dev s) + op_time < 2 ^ 32 ->
  (forall d l c, cr_ready c ->
     fl_view d = FView c (f_key (fw s)) (erase_sector (f_mem (fw s)) n) false ->
     within (dev s) d op_time -> Q None (Mach d l (set_ErrorCode HAL_FLASH_ERROR_NONE (glb s)))) ->
  wp (erase_one fuel FLASH_VOLTAGE_RANGE_3 n) s Q.
Proof.
  pose proof fl_step_pos as Hstep. unfold op_time.
  intros Hf Hr Hn H0 Hwrap HQ. pose proof Hr as [Hb Hc].
  assert (0 <= wait_time) by (apply Z.mul_nonneg_nonneg; lia).
  destruct (erase_mode_bits (f_cr (fw s)) n Hc Hn)
    as (Hc1 & Hc2 & Hc3 & Hc4 & H4 & H5a & H5b & H5n & Hc6 & Hc7).
  unfold erase_one. apply wp_bind. unfold FLASH_Erase_Sector. cbv zeta.
  unfold FLASH_SECTOR_11. destruct (Z.ltb_spec 11 n) as [?|_]; [lia|].
  change (erase_psize (u8 FLASH_VOLTAGE_RANGE_3)) with FLASH_PSIZE_WORD.
  apply wp_bind, wp_cr_step; [split; [done|by apply ready_open]|].
  split; [by apply Hc1|]. intros d1 l1 Hd1 Ht1.
  apply wp_bind, wp_cr_step; unfold fw; cbn [dev]; rewrite Hd1; [split; [done|by apply ready_open]|].
  cbn [f_cr with_cr]. split; [by apply Hc2|]. intros d2 l2 Hd2 Ht2.
  apply wp_bind, wp_cr_step; unfold fw; cbn [dev]; rewrite Hd2; [split; [done|by apply ready_open]|].
  cbn [f_cr with_cr]. split; [by apply Hc3|]. intros d3 l3 Hd3 Ht3.
  apply wp_bind, wp_cr_step; unfold fw; cbn [dev]; rewrite Hd3; [split; [done|by apply ready_open]|].
  cbn [f_cr with_cr]. fold (erase_mode (f_cr (fw s)) FLASH_PSIZE_WORD n).
  split; [done|]. intros d4 l4 Hd4 Ht4. unfold with_cr in Hd4. cbn [f_key f_mem f_busy] in Hd4.
  apply wp_cr_rmw. intros d5 l5 Hd5 Ht5. unfold fw in Hd5. cbn [dev] in Hd5.
  rewrite Hd4 in Hd5. cbn [f_cr] in Hd5. rewrite (u32_small (erase_mode _ _ _)) in Hd5 by apply Hc4.
  unfold fl_wr, f_locked in Hd5. cbn [f_cr f_busy f_key f_mem] in Hd5.
  change (FLASH_CR =? FLASH_KEYR) with false in Hd5. rewrite Z.eqb_refl in Hd5.
  destruct Hc4 as [_ H31]. rewrite H31, Hb, H5a, H5b, H5n in Hd5. cbn [orb andb] in Hd5.
  unfold within in *. cbn [dev] in *.
  apply wp_bind, wp_wait; cbn [dev wlog glb]; [done|lia|lia|].
  intros d6 l6 Hd6 Ht6. unfold fw in Hd6. cbn [dev] in Hd6. rewrite Hd5 in Hd6.
  cbn [fl_done f_busy f_cr f_key f_mem] in Hd6.
  apply wp_bind, wp_cr_step; unfold fw; cbn [dev]; rewrite Hd6; [done|].
  cbn [f_cr]. split; [by apply Hc7|]. intros d7 l7 Hd7 Ht7. apply wp_ret. cbn [glb].
  eapply HQ; [exact Hc7|by rewrite Hd7|]. unfold within in *. cbn [dev] in *. lia.
Qed.

(** The cells of the sectors [a .. b-1] erased. *)
Definition erase_range (mem : Z -> Z) (a b x : Z) : Z :=
  if (sector_base a <=? x) && (x <? sector_base b) then ERASED else mem x.

Lemma sector_base_mono a b : 0 <= a <= b -> b <= 12 -> sector_base a <= sector_base b.
Proof.
  intros Ha Hb. assert (Forall (fun a => Forall (fun b => a <= b -> sector_base a <= sector_base b)
    (zrange 0 13)) (zrange 0 13)) as H.
  { change (zrange 0 13) with [0; 1; 2; 3; 4; 5; 6; 7; 8; 9; 10; 11; 12].
    repeat apply Forall_cons_2; try apply Forall_nil_2; intros Hle;
      (exfalso; lia) || (apply Z.leb_le; vm_compute; reflexivity). }
  assert (a ∈ zrange 0 13) as Hai by (apply elem_of_zrange; lia).
  assert (b ∈ zrange 0 13) as Hbi by (apply elem_of_zrange; lia).
  rewrite Forall_forall in H. specialize (H a (proj1 (list_elem_of_In _ _) Hai)).
  rewrite Forall_forall in H. apply (H b (proj1 (list_elem_of_In _ _) Hbi)). lia.
Qed.

Lemma erase_range_step mem a n x :
  0 <= a -> 0 <= n -> a + n + 1 <= 12 ->
  erase_range (erase_sector mem a) (a + 1) (a + 1 + n) x = erase_range mem a (a + (n + 1)) x.
Proof.
  intros Ha Hn Hb. unfold erase_range, erase_sector, in_sector.
  pose proof (sector_base_mono a (a + 1)). pose proof (sector_base_mono (a + 1) (a + 1 + n)).
  replace (a + (n + 1)) with (a + 1 + n) by lia.
  destruct (Z.leb_spec (sector_base (a + 1)) x), (Z.ltb_spec x (sector_base (a + 1 + n))),
    (Z.leb_spec (sector_base a) x), (Z.ltb_spec x (sector_base (a + 1))); cbn [andb]; done || lia.
Qed.

Lemma erase_range_ext mem mem' a b x :
  (forall y, mem y = mem' y) -> erase_range mem a b x = erase_range mem' a b x.
Proof. intros He. unfold erase_range. by rewrite He. Qed.

Lemma wp_erase_loop fuel n a s (Q : option (Z * Z) -> fl -> Prop) :
  (fl_lat < fuel)%nat -> flash_ready (fw s) -> 0 <= a -> a + Z.of_nat n <= 12 ->
  0 <= fl_now (dev s) -> fl_now (dev s) + Z.of_nat n * op_time < 2 ^ 32 ->
  ErrorCode (glb s) = HAL_FLASH_ERROR_NONE ->
  (forall d l, flash_ready (fl_view d) -> f_key (fl_view d) = f_key (fw s) ->
     (forall x, f_mem (fl_view d) x = erase_range (f_mem (fw s)) a (a + Z.of_nat n) x) ->
     within (dev s) d (Z.of_nat n * op_time) -> Q None (Mach d l (glb s))) ->
  wp (for_ret (zrange a n) (erase_one fuel FLASH_VOLTAGE_RANGE_3)) s Q.
Proof.
  assert (0 <= op_time) as Hop.
  { pose proof fl_step_pos. assert (0 <= wait_time) by (apply Z.mul_nonneg_nonneg; lia).
    unfold op_time. lia. }
  intros Hf. revert a s Q. induction n as [|n IH]; intros a s Q Hr Ha Hb H0 Hwrap He HQ.
  { apply wp_ret. destruct s as [d l g]. apply HQ; [done|done| |].
    - intros x. unfold erase_range. cbn [dev]. rewrite Z.add_0_r.
      destruct (Z.leb_spec (sector_base a) x), (Z.ltb_spec x (sector_base a)); done || lia.
    - unfold within. cbn [dev]. lia. }
  rewrite zrange_S. cbn [for_ret]. rewrite Nat2Z.inj_succ in *.
  assert (0 <= Z.of_nat n * op_time) by (apply Z.mul_nonneg_nonneg; lia).
  rewrite Z.mul_succ_l in *.
  apply wp_bind, wp_erase_one; [done|done|lia|lia|lia|]. intros d l c Hc Hd Ht.
  unfold within in *. apply IH; unfold fw; cbn [dev glb]; rewrite ?Hd; cbn [f_mem f_key];
    [by split|lia|lia|lia|lia|done|].
  intros d' l' Hr' Hk' Hm' Ht'. replace (set_ErrorCode _ (glb s)) with (glb s)
    by (rewrite <- He; by destruct (glb s)).
  apply HQ; [done|done| |unfold within in *; lia]. intros x. rewrite Hm'.
  rewrite erase_range_step by lia. do 2 f_equal.
Qed.

(** Erasing whole sectors through the HAL. *)
Lemma wp_HAL_Erase fuel a n e s (Q : Z * Z -> fl -> Prop) :
  (fl_lat < fuel)%nat -> flash_ready (fw s) -> Lock (glb s) = false -> 0 <= a ->
  a + Z.of_nat n <= 12 -> 0 <= fl_now (dev s) ->
  fl_now (dev s) + (Z.of_nat n + 1) * op_time < 2 ^ 32 ->
  (forall d l, flash_ready (fl_view d) -> f_key (fl_view d) = f_key (fw s) ->
     (forall x, f_mem (fl_view d) x = erase_range (f_mem (fw s)) a (a + Z.of_nat n) x) ->
     within (dev s) d ((Z.of_nat n + 1) * op_time) ->
     Q (HAL_OK, 0xFFFFFFFF) (Mach d l (op_done (glb s)))) ->
  wp (HAL_FLASHEx_Erase fuel
        (EraseInit FLASH_TYPEERASE_SECTORS 0 a (Z.of_nat n) FLASH_VOLTAGE_RANGE_3) e) s Q.
Proof.
  intros Hf Hr Hl Ha Hb H0 Hwrap HQ. pose proof Hr as [Hbusy _].
  assert (0 <= wait_time <= op_time) as Hop.
  { pose proof fl_step_pos. assert (0 <= wait_time) by (apply Z.mul_nonneg_nonneg; lia).
    unfold op_time. lia. }
  assert (0 <= Z.of_nat n * op_time) by (apply Z.mul_nonneg_nonneg; lia).
  rewrite Z.mul_add_distr_r, Z.mul_1_l in *.
  unfold HAL_FLASHEx_Erase, hal_lock. apply wp_bind, wp_get. rewrite Hl.
  apply wp_bind, wp_modify, wp_bind, wp_wait; cbn [dev wlog glb]; [done|lia|lia|].
  intros d1 l1 Hd1 Ht1. unfold fw in Hd1. cbn [dev] in Hd1. fold (fw s) in Hd1.
  unfold fl_done in Hd1. rewrite Hbusy in Hd1. unfold within in *. cbn [dev] in Ht1.
  cbn [Z.eqb HAL_OK TypeErase FLASH_TYPEERASE_SECTORS FLASH_TYPEERASE_MASSERASE ESector NbSectors
    VoltageRange]. apply wp_bind, wp_bind.
  rewrite u32_small by lia. replace (Z.to_nat (Z.of_nat n + a - a)) with n by lia.
  apply wp_erase_loop; unfold fw; cbn [dev glb]; rewrite ?Hd1; [done|done|lia|lia|lia|lia|done|].
  intros d2 l2 Hr2 Hk2 Hm2 Ht2. apply wp_ret, wp_bind, wp_modify, wp_ret. cbn [dev wlog glb].
  apply HQ; [done..|]. unfold within in *. lia.
Qed.
End flash.
