(* ===== verification/FlashIf.v ===== *)
(** The firmware's flash layer, src/flash_if.c with inc/flash_if.h and the erase
    routine of src/backup.c: sectors, erasing of the user and the backup region,
    and programming with read-back; with its refinement of an abstract flash. *)
From S2P Require Import Prelude Machine SysArch FlashHal FlashDev.

#[local] Open Scope fw_scope.

Definition USER_FLASH_FIRST_PAGE_ADDRESS : Z := 0x08040000.
Definition USER_FLASH_LAST_PAGE_ADDRESS : Z := 0x080CFFFF.
Definition BACKUP_FLASH_FIRST_PAGE_ADDRESS : Z := 0x08100000.
Definition BACKUP_FLASH_LAST_PAGE_ADDRESS : Z := 0x081BFFFF.
Definition USER_FLASH_END_ADDRESS : Z := 0x081BFFFF.

Definition GetSectorNumber (Address : Z) : Z :=
  if Address <? 0x08008000 then 0
  else if Address <? 0x08010000 then 1
  else if Address <? 0x08018000 then 2
  else if Address <? 0x08020000 then 3
  else if Address <? 0x08040000 then 4
  else if Address <? 0x08080000 then 5
  else if Address <? 0x080C0000 then 6
  else if Address <? 0x08100000 then 7
  else if Address <? 0x08140000 then 8
  else if Address <? 0x08180000 then 9
  else if Address <? 0x081C0000 then 10
  else if Address <? 0x08200000 then 11
  else 11.

Section flash_if.
Context {B : Bus} {N : Narrow B}.
Abbreviation fl := (mach FLASH_ProcessTypeDef).

Definition FLASH_If_Init : M fl unit := HAL_FLASH_Unlock ;; ret tt.

(** [FLASH_If_Erase] and [FLASH_Backup_Erase] differ in the last page; the
    [Banks] field of the local struct is never read. *)
Definition erase_until (fuel : nat) (LastPage StartSector : Z) : M fl Z :=
  let FlashAddress := StartSector in
  if FlashAddress <=? LastPage then
    let sectornb := 0 in
    r <- HAL_FLASHEx_Erase fuel
           (EraseInit FLASH_TYPEERASE_SECTORS 0 (GetSectorNumber FlashAddress)
              (u32 (GetSectorNumber LastPage - GetSectorNumber FlashAddress + 1))
              FLASH_VOLTAGE_RANGE_3) sectornb ;;
    if negb (fst r =? HAL_OK) then ret 1 else ret 0
  else ret 1.

Definition FLASH_If_Erase (fuel : nat) (StartSector : Z) : M fl Z :=
  erase_until fuel USER_FLASH_LAST_PAGE_ADDRESS StartSector.
Definition FLASH_Backup_Erase (fuel : nat) (StartSector : Z) : M fl Z :=
  erase_until fuel BACKUP_FLASH_LAST_PAGE_ADDRESS StartSector.

(** The loop of [FLASH_If_Write]: [load i] is the read of [Data[i]]; the result
    is the return value and [*FlashAddress] afterwards. *)
Fixpoint write_words (fuel n : nat) (load : Z -> M fl Z) (i FlashAddress : Z) : M fl (Z * Z) :=
  match n with
  | O => ret (0, FlashAddress)
  | S n' =>
      if FlashAddress <=? USER_FLASH_END_ADDRESS - 4 then
        d <- load i ;;
        status <- HAL_FLASH_Program fuel FLASH_TYPEPROGRAM_WORD FlashAddress d ;;
        if status =? HAL_OK then
          v <- rd FlashAddress ;;
          d <- load i ;;
          if negb (v =? d) then ret (2, FlashAddress)
          else write_words fuel n' load (i + 1) (u32 (FlashAddress + 4))
        else ret (1, FlashAddress)
      else ret (0, FlashAddress)
  end.

Definition FLASH_If_Write (fuel : nat) (FlashAddress : Z) (load : Z -> M fl Z) (DataLength : Z) :
    M fl (Z * Z) :=
  write_words fuel (Z.to_nat (u16 DataLength)) load 0 FlashAddress.

(** Data in RAM, and data in flash. *)
Definition ram_data (l : list Z) (i : Z) : M fl Z := deref (aget l i).
Definition flash_data (base : Z) (i : Z) : M fl Z := rd (u32 (base + 4 * i)).
End flash_if.

(** GetSectorNumber finds the sector of every flash address: the sector
    whose documented range contains the address. *)
Theorem GetSectorNumber_correct a n :
  0x08000000 <= a < 0x08200000 -> 0 <= n <= 11 ->
  GetSectorNumber a = n <-> sector_base n <= a < sector_base (n + 1).
Proof.
  intros Ha Hn. unfold GetSectorNumber. zenum n 12%nat;
    match goal with |- _ <-> ?l <= _ < ?u =>
      let l' := eval vm_compute in l in let u' := eval vm_compute in u in
      change l with l'; change u with u' end;
    repeat zcase; lia.
Qed.

(** * The abstract flash *)

(** Programming [data] from [a] on into erased or compatible cells: the return
    value, the next address and the cells. *)
Fixpoint burn (mem : Z -> Z) (a : Z) (data : list Z) : (Z * Z) * (Z -> Z) :=
  match data with
  | [] => ((0, a), mem)
  | d :: data' =>
      if a <=? USER_FLASH_END_ADDRESS - 4 then
        let mem' := upd mem a (mem a .& d) in
        if mem a .& d =? d then burn mem' (a + 4) data' else ((2, a), mem')
      else ((0, a), mem)
  end.

Section refinement.
Context {B : Bus} {N : Narrow B} {F : FlashDev B}.
Abbreviation fl := (mach FLASH_ProcessTypeDef).
Implicit Types s : fl.

Definition word_time : Z := op_time + 3 * fl_step.

Lemma op_time_pos : 0 <= op_time.
Proof.
  pose proof fl_step_pos. assert (0 <= wait_time) by (apply Z.mul_nonneg_nonneg; lia).
  unfold op_time. lia.
Qed.

(** A source of data: on every state where [I] holds of the cells, word [i] is
    read as [data[i]], which changes nothing but time. *)
Definition loads (I : (Z -> Z) -> Prop) (load : Z -> M fl Z) (data : list Z) : Prop :=
  forall i d s (Q : Z -> fl -> Prop),
    aget data i = Some d -> I (f_mem (fw s)) -> f_busy (fw s) = false ->
    (forall d', fl_view d' = fw s -> within (dev s) d' fl_step -> Q d (Mach d' (wlog s) (glb s))) ->
    wp (load i) s Q.

Lemma ram_loads data : loads (fun _ => True) (ram_data data) data.
Proof.
  intros i d s Q Hd _ _ HQ. pose proof fl_step_pos. unfold ram_data. rewrite Hd. apply wp_ret.
  destruct s as [d' l g]. apply HQ; [done|]. unfold within. cbn [dev]. lia.
Qed.

(** The cells hold [data] from [base] on. *)
Definition holds_at (base : Z) (data : list Z) (mem : Z -> Z) : Prop :=
  forall i d, aget data i = Some d -> mem (base + 4 * i) = d.

Lemma flash_loads base data :
  0x08000000 <= base -> base + 4 * Z.of_nat (length data) <= 0x08200000 ->
  Forall (fun d => 0 <= d < 2 ^ 32) data -> loads (holds_at base data) (flash_data base) data.
Proof.
  intros Hb Hend Hall i d s Q Hd HI Hbusy HQ. pose proof (aget_Some _ _ _ Hd).
  unfold flash_data. rewrite u32_small by lia. apply wp_rd.
  pose proof (fl_rd_view (dev s) (base + 4 * i)) as Hrd. unfold fl_rd in Hrd.
  assert (in_flash (base + 4 * i) = true) as Hin.
  { unfold in_flash. destruct (Z.leb_spec 0x08000000 (base + 4 * i)),
      (Z.ltb_spec (base + 4 * i) 0x08200000); done || lia. }
  destruct (in_flash_not_reg _ Hin) as [_ Hcr]. rewrite Hcr, Hin in Hrd.
  assert ((base + 4 * i =? FLASH_SR) = false) as Hsr.
  { apply Z.eqb_neq. unfold FLASH_SR, FLASH_R_BASE. lia. }
  rewrite Hsr in Hrd. destruct (Hrd Hbusy) as [Hw Hv]. rewrite Hv.
  specialize (HI i d Hd). fold (fw s). rewrite HI, u32_small.
  - apply HQ; [done|]. apply fl_rd_now.
  - unfold aget in Hd. destruct (i <? 0); [done|]. exact (Forall_lookup_1 _ _ _ _ Hall Hd).
Qed.

Lemma wp_write_words (I : (Z -> Z) -> Prop) load data fuel n i a s (Q : Z * Z -> fl -> Prop) :
  (fl_lat < fuel)%nat -> loads I load data -> flash_ready (fw s) -> Lock (glb s) = false ->
  Forall (fun d => 0 <= d < 2 ^ 32) data ->
  0x08000000 <= a < 2 ^ 31 -> a mod 4 = 0 -> 0 <= i -> Z.of_nat (length data) = i + Z.of_nat n ->
  I (f_mem (fw s)) ->
  (forall mem b v, a <= b < a + 4 * Z.of_nat n -> I mem -> I (upd mem b v)) ->
  0 <= fl_now (dev s) -> fl_now (dev s) + Z.of_nat n * word_time < 2 ^ 32 ->
  (forall d l g c, cr_ready c -> (g = glb s \/ g = op_done (glb s)) ->
     let '(r, mem') := burn (f_mem (fw s)) a (drop (Z.to_nat i) data) in
     fl_view d = FView c (f_key (fw s)) mem' false ->
     within (dev s) d (Z.of_nat n * word_time) -> Q r (Mach d l g)) ->
  wp (write_words fuel n load i a) s Q.
Proof.
  intros Hf Hload. pose proof op_time_pos as Hop. pose proof fl_step_pos as Hstep.
  revert i a s Q. induction n as [|n IH];
    intros i a s Q Hr Hl Hall Ha Hal Hi Hlen HI Hpres H0 Hwrap HQ; cbn [write_words].
  { pose proof Hr as [Hb Hc]. rewrite drop_ge in HQ by lia. cbn [burn] in HQ. apply wp_ret.
    destruct s as [d l g]. eapply HQ; [exact Hc|by left| |].
    - unfold fw in *. cbn [dev] in *. destruct (fl_view d). cbn in *. by subst.
    - unfold within. cbn [dev]. lia. }
  destruct (aget_is_Some data i) as [d0 Hd0]; [lia|].
  assert (data !! Z.to_nat i = Some d0) as Hlk.
  { unfold aget in Hd0. by destruct (Z.ltb_spec i 0); [lia|]. }
  assert (0 <= d0 < 2 ^ 32) as Hd0r by exact (Forall_lookup_1 _ _ _ _ Hall Hlk).
  rewrite (drop_S _ _ _ Hlk) in HQ. cbn [burn] in HQ.
  rewrite Nat2Z.inj_succ, Z.mul_succ_l in *.
  assert (0 <= Z.of_nat n * word_time) by (apply Z.mul_nonneg_nonneg; unfold word_time; lia).
  destruct (Z.leb_spec a (USER_FLASH_END_ADDRESS - 4)) as [Hle|Hgt].
  2: { apply wp_ret. pose proof Hr as [Hb Hc]. destruct s as [d l g]. eapply HQ; [exact Hc|by left| |].
       - unfold fw in *. cbn [dev] in *. destruct (fl_view d). cbn in *. by subst.
       - unfold within, word_time in *. cbn [dev] in *. lia. }
  pose proof Hr as [Hb Hc]. unfold word_time in Hwrap.
  apply wp_bind, (Hload i d0); [done..|]. intros d1 Hd1 Ht1.
  assert (in_flash a = true) as Hin.
  { unfold in_flash, USER_FLASH_END_ADDRESS in *.
    destruct (Z.leb_spec 0x08000000 a), (Z.ltb_spec a 0x08200000); done || lia. }
  unfold within in Ht1. apply wp_bind, wp_Program_word; unfold fw; cbn [dev glb]; rewrite ?Hd1;
    [done|done|done|done|done|done|lia|lia|].
  intros d2 l2 c2 Hc2 Hd2 Ht2. unfold within in Ht2. cbn [Z.eqb HAL_OK].
  set (m := f_mem (fw s)) in *. apply wp_bind, wp_rd. cbn [dev wlog glb].
  pose proof (fl_rd_view d2 a) as Hrd. unfold fl_rd in Hrd.
  destruct (in_flash_not_reg a Hin) as [_ Hcr]. rewrite Hcr, Hin in Hrd.
  assert ((a =? FLASH_SR) = false) as Hsr.
  { apply Z.eqb_neq. unfold FLASH_SR, FLASH_R_BASE, USER_FLASH_END_ADDRESS in *. lia. }
  rewrite Hsr, Hd2 in Hrd. destruct (Hrd eq_refl) as [Hw Hv]. cbn [f_mem] in Hv. rewrite Hv.
  pose proof (fl_rd_now d2 a) as Ht3. set (d3 := snd (mmio_rd a d2)) in *.
  assert (upd m a (m a .& d0) a = m a .& d0) as Hupd by (unfold upd; by rewrite Z.eqb_refl).
  assert (0 <= m a .& d0 < 2 ^ 32) by (rewrite Z.land_comm; by apply land_lt_pow2).
  rewrite Hupd, u32_small by done.
  apply wp_bind, (Hload i d0); [done| | |].
  { unfold fw. cbn [dev]. rewrite Hw. apply Hpres; [lia|done]. }
  { unfold fw. cbn [dev]. by rewrite Hw. }
  intros d4 Hd4 Ht4. unfold within in Ht4. unfold fw in Hd4. cbn [dev wlog glb] in *.
  rewrite Hw in Hd4. destruct (Z.eqb_spec (m a .& d0) d0) as [Heq|Hne]; cbn [negb].
  - rewrite u32_small by lia. apply IH; unfold fw; cbn [dev glb]; rewrite ?Hd4; cbn [f_mem f_key];
      [by split|done|done|unfold USER_FLASH_END_ADDRESS in *; lia|zlia|lia|lia|apply Hpres; [lia|done]| |lia|unfold word_time; lia|].
    { intros mem b v Hb' HI'. apply Hpres; [lia|done]. }
    replace (Z.to_nat (i + 1)) with (S (Z.to_nat i)) by lia.
    intros d l g c Hc' Hg. specialize (HQ d l g c Hc').
    destruct (burn _ (a + 4) _) as [r mem']. intros Hd Ht. apply HQ; [|done|].
    + right. destruct Hg as [->| ->]; done.
    + unfold within, word_time in *. lia.
  - apply wp_ret. eapply HQ; [exact Hc2|by right|done|]. unfold within, word_time in *. lia.
Qed.
End refinement.

(** ** What the abstract flash does *)

(** Words [data] from [a] on. *)
Definition words_at (mem : Z -> Z) (a : Z) (data : list Z) (x : Z) : Z :=
  if (a <=? x) && ((x - a) mod 4 =? 0) then default (mem x) (aget data ((x - a) / 4)) else mem x.

Lemma words_at_cons mem a d data x :
  words_at mem a (d :: data) x = words_at (upd mem a d) (a + 4) data x.
Proof.
  unfold words_at, upd. destruct (Z.eqb_spec x a) as [->|Hne].
  - rewrite Z.sub_diag. destruct (Z.leb_spec a a), (Z.leb_spec (a + 4) a); try lia. done.
  - destruct (Z.leb_spec (a + 4) x).
    + assert ((a <=? x) = true) as -> by (apply Z.leb_le; lia). cbn [andb].
      replace (x - (a + 4)) with (x - a + -1 * 4) by lia. rewrite Z.mod_add, Z.div_add by lia.
      destruct (_ =? 0); [|done].
      unfold aget. destruct (Z.ltb_spec ((x - a) / 4) 0), (Z.ltb_spec ((x - a) / 4 + -1) 0);
        try (exfalso; zlia); [].
      by replace (Z.to_nat ((x - a) / 4)) with (S (Z.to_nat ((x - a) / 4 + -1))) by lia.
    + cbn [andb]. destruct (Z.leb_spec a x); [|done]. cbn [andb].
      destruct (Z.eqb_spec ((x - a) mod 4) 0); [exfalso; zlia|done].
Qed.

(** The target cells are erased. *)
Definition erased_at (mem : Z -> Z) (a : Z) (n : nat) : Prop :=
  forall i, 0 <= i < Z.of_nat n -> mem (a + 4 * i) = ERASED.

Lemma land_erased d : 0 <= d < 2 ^ 32 -> ERASED .& d = d.
Proof.
  intros Hd. rewrite Z.land_comm. change ERASED with (Z.ones 32).
  rewrite Z.land_ones by done. by apply Z.mod_small.
Qed.

(** How many of [n] words fit below the limit of FLASH_If_Write. *)
Definition fitting (a : Z) (n : nat) : nat :=
  Nat.min n (Z.to_nat ((USER_FLASH_END_ADDRESS - 4 - a) / 4 + 1)).

Lemma burn_erased mem a data :
  Forall (fun d => 0 <= d < 2 ^ 32) data -> erased_at mem a (length data) ->
  let k := fitting a (length data) in
  fst (burn mem a data) = (0, a + 4 * Z.of_nat k) /\
  forall x, snd (burn mem a data) x = words_at mem a (take k data) x.
Proof.
  revert mem a. induction data as [|d data IH]; intros mem a Hall Her; cbv zeta.
  { cbn. rewrite Z.add_0_r. split; [done|]. intros x. unfold words_at, aget.
    rewrite lookup_nil. destruct (_ <? 0), (_ && _); done. }
  apply Forall_cons_1 in Hall as [Hd Hall]. cbn [burn].
  pose proof (Her 0 ltac:(cbn; lia)) as Her0. rewrite Z.mul_0_r, Z.add_0_r in Her0.
  rewrite Her0, land_erased, Z.eqb_refl by done.
  destruct (Z.leb_spec a (USER_FLASH_END_ADDRESS - 4)) as [Hle|Hgt].
  - assert (fitting a (length (d :: data)) = S (fitting (a + 4) (length data))) as ->.
    { unfold fitting. cbn [length]. zlia. }
    destruct (IH (upd mem a d) (a + 4)) as [Hr Hm]; [done| |].
    { intros i Hi. unfold upd. destruct (Z.eqb_spec (a + 4 + 4 * i) a); [lia|].
      specialize (Her (i + 1) ltac:(cbn [length]; lia)).
      by replace (a + 4 * (i + 1)) with (a + 4 + 4 * i) in Her by lia. }
    split; [rewrite Hr; f_equal; lia|]. intros x. rewrite Hm. cbn [take]. by rewrite words_at_cons.
  - assert (fitting a (length (d :: data)) = 0%nat) as ->.
    { unfold fitting. assert ((USER_FLASH_END_ADDRESS - 4 - a) / 4 < 0) by zlia. lia. }
    cbn [fst snd take]. rewrite Z.add_0_r. split; [done|]. intros x. unfold words_at, aget.
    rewrite lookup_nil. destruct (_ <? 0), (_ && _); done.
Qed.

Section properties.
Context {B : Bus} {N : Narrow B} {F : FlashDev B}.
Abbreviation fl := (mach FLASH_ProcessTypeDef).
Implicit Types s : fl.

(** The flash and the HAL are ready, with time for [n] words before the kernel
    tick wraps. *)
Definition flash_ok s (t : Z) : Prop :=
  flash_ready (fw s) /\ Lock (glb s) = false /\ 0 <= fl_now (dev s) /\
  fl_now (dev s) + t < 2 ^ 32.

(** Erasing three sectors. *)
Lemma wp_erase3 fuel a e s (Q : Z -> fl -> Prop) :
  (fl_lat < fuel)%nat -> flash_ready (fw s) -> Lock (glb s) = false -> 0 <= a -> a + 3 <= 12 ->
  0 <= fl_now (dev s) -> fl_now (dev s) + 4 * op_time < 2 ^ 32 ->
  (forall d l, flash_ready (fl_view d) -> f_key (fl_view d) = f_key (fw s) ->
     (forall x, f_mem (fl_view d) x = erase_range (f_mem (fw s)) a (a + 3) x) ->
     within (dev s) d (4 * op_time) -> Q 0 (Mach d l (op_done (glb s)))) ->
  wp (bind (HAL_FLASHEx_Erase fuel
        (EraseInit FLASH_TYPEERASE_SECTORS 0 a (Z.of_nat 3) FLASH_VOLTAGE_RANGE_3) e)
      (fun r => if negb (fst r =? HAL_OK) then ret 1 else ret 0)) s Q.
Proof.
  intros Hf Hr Hl Ha Hb H0 Hwrap HQ. apply wp_bind, wp_HAL_Erase; [done..|].
  intros d l Hr' Hk Hm Ht. apply wp_ret. by apply HQ.
Qed.

(** The cells from [lo] up to [hi] erased. *)
Definition erased_cells (mem : Z -> Z) (lo hi x : Z) : Z :=
  if (lo <=? x) && (x <? hi) then ERASED else mem x.

Lemma wp_If_Erase fuel s (Q : Z -> fl -> Prop) :
  (fl_lat < fuel)%nat -> flash_ready (fw s) -> Lock (glb s) = false ->
  0 <= fl_now (dev s) -> fl_now (dev s) + 4 * op_time < 2 ^ 32 ->
  (forall d l, flash_ready (fl_view d) -> f_key (fl_view d) = f_key (fw s) ->
     (forall x, f_mem (fl_view d) x = erased_cells (f_mem (fw s)) 0x08040000 0x08100000 x) ->
     within (dev s) d (4 * op_time) -> Q 0 (Mach d l (op_done (glb s)))) ->
  wp (FLASH_If_Erase fuel USER_FLASH_FIRST_PAGE_ADDRESS) s Q.
Proof. intros. by apply (wp_erase3 fuel 5). Qed.

Lemma wp_Backup_Erase fuel s (Q : Z -> fl -> Prop) :
  (fl_lat < fuel)%nat -> flash_ready (fw s) -> Lock (glb s) = false ->
  0 <= fl_now (dev s) -> fl_now (dev s) + 4 * op_time < 2 ^ 32 ->
  (forall d l, flash_ready (fl_view d) -> f_key (fl_view d) = f_key (fw s) ->
     (forall x, f_mem (fl_view d) x = erased_cells (f_mem (fw s)) 0x08100000 0x081C0000 x) ->
     within (dev s) d (4 * op_time) -> Q 0 (Mach d l (op_done (glb s)))) ->
  wp (FLASH_Backup_Erase fuel BACKUP_FLASH_FIRST_PAGE_ADDRESS) s Q.
Proof. intros. by apply (wp_erase3 fuel 8). Qed.

(** C6: FLASH_If_Write refines the abstract flash: its return value, the
    advanced address and the cells are those of [burn], for any contents of
    the flash and any data; it always returns, and leaves the controller
    ready and the HAL unlocked. *)
Theorem FLASH_If_Write_refines fuel a data s :
  (fl_lat < fuel)%nat -> flash_ok s (Z.of_nat (length data) * word_time) ->
  Z.of_nat (length data) < 65536 -> Forall (fun d => 0 <= d < 2 ^ 32) data ->
  0x08000000 <= a < 2 ^ 31 -> a mod 4 = 0 ->
  wp (FLASH_If_Write fuel a (ram_data data) (Z.of_nat (length data))) s (fun r s' =>
    (r, f_mem (fw s')) = burn (f_mem (fw s)) a data /\
    flash_ready (fw s') /\ Lock (glb s') = false).
Proof.
  intros Hf (Hr & Hl & H0 & Hwrap) Hlen Hall Ha Hal. unfold FLASH_If_Write.
  rewrite u16_small, Nat2Z.id by lia.
  eapply wp_write_words; [done|apply ram_loads|done..|lia|done|done|lia|done|].
  intros d l g c Hc Hg. change (drop (Z.to_nat 0) data) with data.
  destruct (burn _ a data) as [r mem']. intros Hd _. split_and!.
  { unfold fw at 1. cbn [dev]. by rewrite Hd. }
  { unfold fw. cbn [dev]. rewrite Hd. by split. }
  cbn [glb]. by destruct Hg as [->| ->].
Qed.

(** Writing into erased cells: the words that lie below the limit are all
    stored, no other cell changes, and 0 is returned; words beyond the limit,
    the last word of the region at 0x081BFFFC among them, are dropped without
    an error. *)
Theorem FLASH_If_Write_erased fuel a data s :
  (fl_lat < fuel)%nat -> flash_ok s (Z.of_nat (length data) * word_time) ->
  Z.of_nat (length data) < 65536 -> Forall (fun d => 0 <= d < 2 ^ 32) data ->
  0x08000000 <= a < 2 ^ 31 -> a mod 4 = 0 -> erased_at (f_mem (fw s)) a (length data) ->
  wp (FLASH_If_Write fuel a (ram_data data) (Z.of_nat (length data))) s (fun r s' =>
    let k := fitting a (length data) in
    r = (0, a + 4 * Z.of_nat k) /\
    forall x, f_mem (fw s') x = words_at (f_mem (fw s)) a (take k data) x).
Proof.
  intros Hf (Hr & Hl & H0 & Hwrap) Hlen Hall Ha Hal Her. unfold FLASH_If_Write.
  rewrite u16_small, Nat2Z.id by lia.
  eapply wp_write_words; [done|apply ram_loads|done..|lia|done|done|lia|done|].
  intros d l g c Hc Hg. change (drop (Z.to_nat 0) data) with data.
  destruct (burn_erased _ a data Hall Her) as [H1 H2].
  destruct (burn _ a data) as [r mem']. cbn [fst snd] in *. intros Hd _.
  unfold fw at 1. cbn [dev]. rewrite Hd. by split.
Qed.

(** Erasing the user region erases the sectors 5 to 7, exactly the cells
    from 0x08040000 up to 0x080FFFFF, and erasing the backup region the sectors
    8 to 10, exactly those from 0x08100000 up to 0x081BFFFF: neither touches the
    bootloader or the other region.  A start beyond the region is refused
    with 1 and nothing is done. *)
Theorem erase_regions fuel s :
  (fl_lat < fuel)%nat -> flash_ok s (4 * op_time) ->
  wp (FLASH_If_Erase fuel USER_FLASH_FIRST_PAGE_ADDRESS) s (fun r s' =>
    r = 0 /\ flash_ready (fw s') /\ Lock (glb s') = false /\
    forall x, f_mem (fw s') x =
      erased_cells (f_mem (fw s)) 0x08040000 0x08100000 x) /\
  wp (FLASH_Backup_Erase fuel BACKUP_FLASH_FIRST_PAGE_ADDRESS) s (fun r s' =>
    r = 0 /\ flash_ready (fw s') /\ Lock (glb s') = false /\
    forall x, f_mem (fw s') x =
      erased_cells (f_mem (fw s)) 0x08100000 0x081C0000 x) /\
  (forall a, USER_FLASH_LAST_PAGE_ADDRESS < a -> FLASH_If_Erase fuel a s = Ret 1 s) /\
  (forall a, BACKUP_FLASH_LAST_PAGE_ADDRESS < a -> FLASH_Backup_Erase fuel a s = Ret 1 s).
Proof.
  intros Hf (Hr & Hl & H0 & Hwrap). split_and!.
  - apply wp_If_Erase; [done..|]. intros d l Hr' _ Hm _. unfold fw. cbn [dev glb]. done.
  - apply wp_Backup_Erase; [done..|]. intros d l Hr' _ Hm _. unfold fw. cbn [dev glb]. done.
  - intros a Ha. unfold FLASH_If_Erase, erase_until.
    by destruct (Z.leb_spec a USER_FLASH_LAST_PAGE_ADDRESS); [lia|].
  - intros a Ha. unfold FLASH_Backup_Erase, erase_until.
    by destruct (Z.leb_spec a BACKUP_FLASH_LAST_PAGE_ADDRESS); [lia|].
Qed.
End properties.

(** * Witnesses on the simulated flash *)

Section witnesses.
#[local] Existing Instance flash_bus.

(** An erased flash with the sector of address 0x08040000 partly programmed. *)
Definition flash_start : mach FLASH_ProcessTypeDef :=
  Mach (FView 0 0 (fun a => if a =? 0x08040008 then 0x0000FFFF else ERASED) false) []
    (FlashProcess FLASH_PROC_NONE 0 0 0 0 false 0).

Lemma flash_start_ok t : 0 <= t < 2 ^ 32 -> flash_ok flash_start t.
Proof. intros Ht. split_and!; try done. cbn. lia. Qed.

Lemma FLASH_If_Write_refines_witness :
  wp (FLASH_If_Write 1 0x08040000 (ram_data [1; 2; 0x12345678]) 3) flash_start (fun r s' =>
    r = (2, 0x08040008)).
Proof.
  eapply wp_mono.
  - apply (FLASH_If_Write_refines 1 0x08040000 [1; 2; 0x12345678] flash_start).
    + apply Nat.lt_0_1.
    + apply flash_start_ok. split; [apply Z.leb_le|apply Z.ltb_lt]; vm_compute; reflexivity.
    + apply Z.ltb_lt. vm_compute. reflexivity.
    + repeat (apply Forall_cons_2; [lia|]). apply Forall_nil_2.
    + lia.
    + reflexivity.
  - intros r s' (Heq & _). apply (f_equal fst) in Heq. cbn [fst] in Heq. rewrite Heq.
    vm_compute. reflexivity.
Defined.

Lemma FLASH_If_Write_erased_witness :
  wp (FLASH_If_Write 1 0x081BFFF8 (ram_data [1; 2]) 2) flash_start (fun r s' =>
    r = (0, 0x081BFFFC)).
Proof.
  eapply wp_mono.
  - apply (FLASH_If_Write_erased 1 0x081BFFF8 [1; 2] flash_start).
    + apply Nat.lt_0_1.
    + apply flash_start_ok. split; [apply Z.leb_le|apply Z.ltb_lt]; vm_compute; reflexivity.
    + apply Z.ltb_lt. vm_compute. reflexivity.
    + repeat (apply Forall_cons_2; [lia|]). apply Forall_nil_2.
    + lia.
    + reflexivity.
    + intros i Hi. cbn [length] in Hi. assert (i = 0 \/ i = 1) as [->| ->] by lia; reflexivity.
  - intros r s' (Heq & _). rewrite Heq. vm_compute. reflexivity.
Defined.

Lemma erase_regions_witness :
  wp (FLASH_If_Erase 1 USER_FLASH_FIRST_PAGE_ADDRESS) flash_start (fun r s' =>
    r = 0 /\ f_mem (fw s') 0x08040008 = ERASED).
Proof.
  destruct (erase_regions 1 flash_start) as [Herase _].
  - apply Nat.lt_0_1.
  - apply flash_start_ok. split; [apply Z.leb_le|apply Z.ltb_lt]; vm_compute; reflexivity.
  - eapply wp_mono; [exact Herase|]. intros r s' (Hr & _ & _ & Hm). split; [exact Hr|].
    rewrite Hm. reflexivity.
Defined.

Lemma GetSectorNumber_correct_witness : GetSectorNumber 0x080CFFFF = 7.
Proof. apply (GetSectorNumber_correct 0x080CFFFF 7); [lia|lia|]. vm_compute. split; discriminate || reflexivity. Defined.
End witnesses.
