(* ===== verification/Crc.v ===== *)
(** The CRC unit: src/stm32f7xx_hal_crc.c, src/stm32f7xx_hal_crc_ex.c and the
    image check [CAL_CRC] of src/backup.c; the documented calculation of the
    unit, the bit-serial CRC it agrees with, and what the image check
    computes and detects. *)
From S2P Require Import Prelude Machine SysArch FlashHal FlashDev FlashIf.

#[local] Open Scope fw_scope.

Definition CRC_BASE : Z := 0x40023000.
Definition CRC_CR_RESET : Z := 0x1.
Definition CRC_CR_POLYSIZE : Z := 0x18.
Definition CRC_CR_REV_IN : Z := 0x60.
Definition CRC_CR_REV_OUT : Z := 0x80.
Definition DEFAULT_CRC32_POLY : Z := 0x04C11DB7.
Definition DEFAULT_CRC_INITVALUE : Z := 0xFFFFFFFF.
Definition DEFAULT_POLYNOMIAL_ENABLE : Z := 0.
Definition DEFAULT_INIT_VALUE_ENABLE : Z := 0.
Definition CRC_POLYLENGTH_32B : Z := 0x00.
Definition CRC_POLYLENGTH_16B : Z := 0x08.
Definition CRC_POLYLENGTH_8B : Z := 0x10.
Definition CRC_POLYLENGTH_7B : Z := 0x18.
Definition HAL_CRC_LENGTH_16B : Z := 16.
Definition HAL_CRC_LENGTH_8B : Z := 8.
Definition HAL_CRC_LENGTH_7B : Z := 7.
Definition CRC_INPUTDATA_INVERSION_NONE : Z := 0.
Definition CRC_OUTPUTDATA_INVERSION_DISABLE : Z := 0.

Inductive HAL_CRC_StateTypeDef :=
| HAL_CRC_STATE_RESET | HAL_CRC_STATE_READY | HAL_CRC_STATE_BUSY | HAL_CRC_STATE_TIMEOUT
| HAL_CRC_STATE_ERROR.

#[export] Instance HAL_CRC_State_eq_dec : EqDecision HAL_CRC_StateTypeDef.
Proof. solve_decision. Defined.

Inductive crc_format :=
| CRC_INPUTDATA_FORMAT_UNDEFINED | CRC_INPUTDATA_FORMAT_BYTES | CRC_INPUTDATA_FORMAT_HALFWORDS
| CRC_INPUTDATA_FORMAT_WORDS.

(** [CRC_HandleTypeDef] with its [Init] fields. *)
Record CRC_HandleTypeDef := CrcHandle {
  Instance_ : Z;
  DefaultPolynomialUse : Z;
  DefaultInitValueUse : Z;
  GeneratingPolynomial : Z;
  CRCLength : Z;
  InitValue : Z;
  InputDataInversionMode : Z;
  OutputDataInversionMode : Z;
  CrcLock : bool;
  CrcState : HAL_CRC_StateTypeDef;
  InputDataFormat : crc_format;
}.

Definition set_crc (lock : bool) (st : HAL_CRC_StateTypeDef) (h : CRC_HandleTypeDef) :=
  CrcHandle (Instance_ h) (DefaultPolynomialUse h) (DefaultInitValueUse h)
    (GeneratingPolynomial h) (CRCLength h) (InitValue h) (InputDataInversionMode h)
    (OutputDataInversionMode h) lock st (InputDataFormat h).

Section crc_hal.
Context {B : Bus} {N : Narrow B}.

Abbreviation crc := (mach CRC_HandleTypeDef).

(** Registers of the instance the handle names. *)
Definition reg (off : Z) : M crc Z := h <- get_ ;; ret (Instance_ h + off).
Definition CRC_DR : Z := 0x00.
Definition CRC_IDR : Z := 0x04.
Definition CRC_CR : Z := 0x08.
Definition CRC_INIT : Z := 0x10.
Definition CRC_POL : Z := 0x14.

Definition WRITE_REG (off v : Z) : M crc unit := a <- reg off ;; wr a v.
Definition READ_REG (off : Z) : M crc Z := a <- reg off ;; rd a.
Definition MODIFY_REG (off clear set : Z) : M crc unit := a <- reg off ;; modify_reg a clear set.
Definition HAL_CRC_DR_RESET : M crc unit := a <- reg CRC_CR ;; set_bits a CRC_CR_RESET.
Definition HAL_CRC_SET_IDR (v : Z) : M crc unit := a <- reg CRC_IDR ;; wr8 a v.

Definition set_State (st : HAL_CRC_StateTypeDef) : M crc unit :=
  modify_ (fun h => set_crc (CrcLock h) st h).
Definition set_CrcLock (b : bool) : M crc unit := modify_ (fun h => set_crc b (CrcState h) h).

(** Both are weak and do nothing; no other definition exists. *)
Definition HAL_CRC_MspInit : M crc unit := ret tt.
Definition HAL_CRC_MspDeInit : M crc unit := ret tt.

(** The search for the most significant bit below bit 31: [msb] after the loop
    that starts with [msb = n]. *)
Fixpoint poly_msb (n : nat) (Pol : Z) : Z :=
  match n with
  | O => 0xFFFFFFFF
  | S m => if Pol .& (1 .<< Z.of_nat m) =? 0 then poly_msb m Pol else Z.of_nat m
  end.

Definition polynomial_status (Pol PolyLength : Z) : Z :=
  if Pol .& 1 =? 0 then HAL_ERROR
  else
    let msb := poly_msb 31 Pol in
    if PolyLength =? CRC_POLYLENGTH_7B then
      (if HAL_CRC_LENGTH_7B <=? msb then HAL_ERROR else HAL_OK)
    else if PolyLength =? CRC_POLYLENGTH_8B then
      (if HAL_CRC_LENGTH_8B <=? msb then HAL_ERROR else HAL_OK)
    else if PolyLength =? CRC_POLYLENGTH_16B then
      (if HAL_CRC_LENGTH_16B <=? msb then HAL_ERROR else HAL_OK)
    else if PolyLength =? CRC_POLYLENGTH_32B then HAL_OK
    else HAL_ERROR.

Definition HAL_CRCEx_Polynomial_Set (Pol PolyLength : Z) : M crc Z :=
  let status := polynomial_status Pol PolyLength in
  (if status =? HAL_OK then
     WRITE_REG CRC_POL Pol ;; MODIFY_REG CRC_CR CRC_CR_POLYSIZE PolyLength
   else ret tt) ;;
  ret status.

Definition HAL_CRCEx_Input_Data_Reverse (InputReverseMode : Z) : M crc Z :=
  set_State HAL_CRC_STATE_BUSY ;;
  MODIFY_REG CRC_CR CRC_CR_REV_IN InputReverseMode ;;
  set_State HAL_CRC_STATE_READY ;;
  ret HAL_OK.

Definition HAL_CRCEx_Output_Data_Reverse (OutputReverseMode : Z) : M crc Z :=
  set_State HAL_CRC_STATE_BUSY ;;
  MODIFY_REG CRC_CR CRC_CR_REV_OUT OutputReverseMode ;;
  set_State HAL_CRC_STATE_READY ;;
  ret HAL_OK.

(** The part of HAL_CRC_Init after the polynomial. *)
Definition crc_init_rest : M crc Z :=
  h <- get_ ;;
  (if DefaultInitValueUse h =? DEFAULT_INIT_VALUE_ENABLE then
     WRITE_REG CRC_INIT DEFAULT_CRC_INITVALUE
   else WRITE_REG CRC_INIT (InitValue h)) ;;
  MODIFY_REG CRC_CR CRC_CR_REV_IN (InputDataInversionMode h) ;;
  MODIFY_REG CRC_CR CRC_CR_REV_OUT (OutputDataInversionMode h) ;;
  set_State HAL_CRC_STATE_READY ;;
  ret HAL_OK.

Definition HAL_CRC_Init (null : bool) : M crc Z :=
  if null then ret HAL_ERROR
  else
    h <- get_ ;;
    (if decide (CrcState h = HAL_CRC_STATE_RESET) then set_CrcLock false ;; HAL_CRC_MspInit
     else ret tt) ;;
    set_State HAL_CRC_STATE_BUSY ;;
    if DefaultPolynomialUse h =? DEFAULT_POLYNOMIAL_ENABLE then
      WRITE_REG CRC_POL DEFAULT_CRC32_POLY ;;
      MODIFY_REG CRC_CR CRC_CR_POLYSIZE CRC_POLYLENGTH_32B ;;
      crc_init_rest
    else
      status <- HAL_CRCEx_Polynomial_Set (GeneratingPolynomial h) (CRCLength h) ;;
      if negb (status =? HAL_OK) then ret HAL_ERROR else crc_init_rest.

Definition HAL_CRC_DeInit (null : bool) : M crc Z :=
  if null then ret HAL_ERROR
  else
    h <- get_ ;;
    if decide (CrcState h = HAL_CRC_STATE_BUSY) then ret HAL_BUSY
    else
      set_State HAL_CRC_STATE_BUSY ;;
      HAL_CRC_DR_RESET ;;
      HAL_CRC_SET_IDR 0 ;;
      HAL_CRC_MspDeInit ;;
      set_State HAL_CRC_STATE_RESET ;;
      set_CrcLock false ;;
      ret HAL_OK.

(** The buffer is given as its bytes; the processor is little endian. *)
Definition buf8 (buf : list Z) (i : Z) : M crc Z := deref (aget buf i).
Definition buf16 (buf : list Z) (i : Z) : M crc Z :=
  b0 <- buf8 buf (2 * i) ;; b1 <- buf8 buf (2 * i + 1) ;; ret (b0 .| (b1 .<< 8)).
Definition buf32 (buf : list Z) (i : Z) : M crc Z :=
  h0 <- buf16 buf (2 * i) ;; h1 <- buf16 buf (2 * i + 1) ;; ret (h0 .| (h1 .<< 16)).

Definition CRC_Handle_8 (pBuffer : list Z) (BufferLength : Z) : M crc Z :=
  for_each (zrange 0 (Z.to_nat (BufferLength / 4))) (fun i =>
    b0 <- buf8 pBuffer (4 * i) ;; b1 <- buf8 pBuffer (4 * i + 1) ;;
    b2 <- buf8 pBuffer (4 * i + 2) ;; b3 <- buf8 pBuffer (4 * i + 3) ;;
    WRITE_REG CRC_DR ((b0 .<< 24) .| (b1 .<< 16) .| (b2 .<< 8) .| b3)) ;;
  let i := BufferLength / 4 in
  a <- reg CRC_DR ;;
  (if negb (BufferLength mod 4 =? 0) then
     if BufferLength mod 4 =? 1 then b <- buf8 pBuffer (4 * i) ;; wr8 a b
     else if BufferLength mod 4 =? 2 then
       b0 <- buf8 pBuffer (4 * i) ;; b1 <- buf8 pBuffer (4 * i + 1) ;;
       wr16 a (u16 (b0 .<< 8) .| b1)
     else if BufferLength mod 4 =? 3 then
       b0 <- buf8 pBuffer (4 * i) ;; b1 <- buf8 pBuffer (4 * i + 1) ;;
       wr16 a (u16 (b0 .<< 8) .| b1) ;;
       b2 <- buf8 pBuffer (4 * i + 2) ;; wr8 a b2
     else ret tt
   else ret tt) ;;
  READ_REG CRC_DR.

Definition CRC_Handle_16 (pBuffer : list Z) (BufferLength : Z) : M crc Z :=
  for_each (zrange 0 (Z.to_nat (BufferLength / 2))) (fun i =>
    h0 <- buf16 pBuffer (2 * i) ;; h1 <- buf16 pBuffer (2 * i + 1) ;;
    WRITE_REG CRC_DR ((h0 .<< 16) .| h1)) ;;
  (if negb (BufferLength mod 2 =? 0) then
     a <- reg CRC_DR ;; h <- buf16 pBuffer (2 * (BufferLength / 2)) ;; wr16 a h
   else ret tt) ;;
  READ_REG CRC_DR.

Definition crc_enter (pBuffer : list Z) (BufferLength : Z) : M crc Z :=
  h <- get_ ;;
  match InputDataFormat h with
  | CRC_INPUTDATA_FORMAT_WORDS =>
      for_each (zrange 0 (Z.to_nat BufferLength)) (fun i =>
        w <- buf32 pBuffer i ;; WRITE_REG CRC_DR w) ;;
      READ_REG CRC_DR
  | CRC_INPUTDATA_FORMAT_BYTES => CRC_Handle_8 pBuffer BufferLength
  | CRC_INPUTDATA_FORMAT_HALFWORDS => CRC_Handle_16 pBuffer BufferLength
  | CRC_INPUTDATA_FORMAT_UNDEFINED => ret 0
  end.

Definition HAL_CRC_Accumulate (pBuffer : list Z) (BufferLength : Z) : M crc Z :=
  set_State HAL_CRC_STATE_BUSY ;;
  temp <- crc_enter pBuffer BufferLength ;;
  set_State HAL_CRC_STATE_READY ;;
  ret temp.

Definition HAL_CRC_Calculate (pBuffer : list Z) (BufferLength : Z) : M crc Z :=
  set_State HAL_CRC_STATE_BUSY ;;
  HAL_CRC_DR_RESET ;;
  temp <- crc_enter pBuffer BufferLength ;;
  set_State HAL_CRC_STATE_READY ;;
  ret temp.

Definition HAL_CRC_GetState : M crc HAL_CRC_StateTypeDef := h <- get_ ;; ret (CrcState h).

(** [FirmwareTag] at the first page of the user region. *)
Definition TAG_ADDRESS : Z := USER_FLASH_FIRST_PAGE_ADDRESS.
Definition TAG_size : Z := 0.
Definition TAG_crc : Z := 4.
Definition TAG_valid_flag : Z := 12.
Definition TAG_filename : Z := 16.
Definition IMAGE_ADDRESS : Z := USER_FLASH_FIRST_PAGE_ADDRESS + 0x400.

(** The body of CAL_CRC on its own copy of the handle. *)
Definition cal_crc : M crc Z :=
  HAL_CRC_DeInit false ;;
  HAL_CRC_Init false ;;
  HAL_CRC_DR_RESET ;;
  size <- rd (TAG_ADDRESS + TAG_size) ;;
  let word_count := size / 4 in
  for_each (zrange 0 (Z.to_nat word_count)) (fun i =>
    w <- rd (u32 (IMAGE_ADDRESS + 4 * i)) ;; WRITE_REG CRC_DR w) ;;
  size <- rd (TAG_ADDRESS + TAG_size) ;;
  let remaining := size mod 4 in
  (if negb (remaining =? 0) then
     for_each (zrange 0 (Z.to_nat remaining)) (fun i =>
       b <- rd8 (u32 (u32 (IMAGE_ADDRESS + 4 * word_count) + i)) ;;
       a <- reg CRC_DR ;; wr8 a b)
   else ret tt) ;;
  READ_REG CRC_DR.

(** The handle is passed by value. *)
Definition CAL_CRC {G} (hcrc : CRC_HandleTypeDef) : M (mach G) Z :=
  zoom (fun _ => hcrc) (fun _ g => g) cal_crc.
End crc_hal.

(** * The calculation *)

(** One shift of the CRC register, and the register after an input of [n] bits
    (8, 16 or 32) is entered in parallel: the documented operation of the unit
    without reversal, for a 32-bit polynomial. *)
Definition crc_shift (pol c : Z) : Z :=
  if Z.testbit c 31 then Z.lxor (u32 (c .<< 1)) pol else u32 (c .<< 1).
Definition crc_feed (pol : Z) (n : nat) (v c : Z) : Z :=
  Nat.iter n (crc_shift pol) (Z.lxor c (v .<< (32 - Z.of_nat n))).

(** The reference: a message is a string of bits, entered one at a time. *)
Definition lfsr (pol c : Z) (b : bool) : Z :=
  if xorb (Z.testbit c 31) b then Z.lxor (u32 (c .<< 1)) pol else u32 (c .<< 1).
Definition crc_serial (pol init : Z) (msg : list bool) : Z := foldl (lfsr pol) init msg.

(** The [n] low bits of [v], most significant first. *)
Fixpoint msb_bits (n : nat) (v : Z) : list bool :=
  match n with
  | O => []
  | S m => Z.testbit v (Z.of_nat m) :: msb_bits m v
  end.

Lemma nat_iter_l {A} (f : A -> A) n x : Nat.iter (S n) f x = Nat.iter n f (f x).
Proof. induction n as [|n IH]; [done|]. cbn in *. by rewrite IH. Qed.

Lemma crc_shift_xor pol x y :
  0 <= y < 2 ^ 31 -> crc_shift pol (Z.lxor x y) = Z.lxor (crc_shift pol x) (y .<< 1).
Proof.
  intros Hy. unfold crc_shift. rewrite Z.lxor_spec, (testbit_above 31 y), xorb_false_r by lia.
  assert (u32 (Z.lxor x y .<< 1) = Z.lxor (u32 (x .<< 1)) (y .<< 1)) as ->.
  { apply Z.bits_inj'. intros i Hi. rewrite Z.lxor_spec. destruct (Z.lt_ge_cases i 32).
    - rewrite !u32_testbit, !Z.shiftl_spec, Z.lxor_spec by lia. done.
    - rewrite !u32_testbit_high, Z.shiftl_spec, (testbit_above 31) by lia. done. }
  destruct (Z.testbit x 31); [|done].
  by rewrite !Z.lxor_assoc, (Z.lxor_comm pol).
Qed.

Lemma crc_shift_top pol c (b : bool) :
  crc_shift pol (Z.lxor c (Z.b2z b .<< 31)) = lfsr pol c b.
Proof.
  unfold crc_shift, lfsr. rewrite Z.lxor_spec, Z.shiftl_spec, Z.sub_diag, Z.b2z_bit0 by lia.
  assert (u32 (Z.lxor c (Z.b2z b .<< 31) .<< 1) = u32 (c .<< 1)) as ->; [|done].
  apply Z.bits_inj'. intros i Hi. destruct (Z.lt_ge_cases i 32).
  - rewrite !u32_testbit, !(Z.shiftl_spec _ 1), Z.lxor_spec by lia.
    destruct (Z.eq_dec i 0) as [->|].
    { done. }
    by rewrite (Z.shiftl_spec _ 31), (Z.testbit_neg_r (Z.b2z b)), xorb_false_r by lia.
  - by rewrite !u32_testbit_high by lia.
Qed.

(** Entering a word in parallel is entering its bits one after the other. *)
Lemma crc_feed_serial pol n v c :
  (n <= 32)%nat -> 0 <= v < 2 ^ Z.of_nat n ->
  crc_feed pol n v c = crc_serial pol c (msb_bits n v).
Proof.
  unfold crc_feed. revert v c. induction n as [|n IH]; intros v c Hn Hv.
  { assert (v = 0) as -> by (cbn in Hv; lia). cbn [Nat.iter nat_rect].
    by rewrite Z.shiftl_0_l, Z.lxor_0_r. }
  rewrite nat_iter_l. cbn [msb_bits]. unfold crc_serial. cbn [foldl].
  set (b := Z.testbit v (Z.of_nat n)). set (v' := v mod 2 ^ Z.of_nat n).
  assert (v = Z.b2z b * 2 ^ Z.of_nat n + v') as Hsplit.
  { unfold b. rewrite Z.testbit_spec' by lia. unfold v'.
    rewrite Nat2Z.inj_succ, Z.pow_succ_r in Hv by lia.
    assert (0 <= v / 2 ^ Z.of_nat n < 2).
    { split; [apply Z.div_pos; lia|apply Z.div_lt_upper_bound; lia]. }
    rewrite (Z.mod_small (v / 2 ^ Z.of_nat n) 2) by done.
    rewrite Z.mul_comm. apply Z.div_mod. lia. }
  assert (0 <= v' < 2 ^ Z.of_nat n) as Hv' by (apply Z.mod_pos_bound; lia).
  assert (2 ^ Z.of_nat n * 2 ^ (31 - Z.of_nat n) = 2 ^ 31) as Hpow.
  { rewrite <- Z.pow_add_r by lia. f_equal. lia. }
  assert (v .<< (32 - Z.of_nat (S n)) = Z.lxor (Z.b2z b .<< 31) (v' .<< (31 - Z.of_nat n))) as ->.
  { replace (32 - Z.of_nat (S n)) with (31 - Z.of_nat n) by lia.
    rewrite !Z.shiftl_mul_pow2 by lia.
    rewrite <- Z.add_nocarry_lxor; [rewrite Hsplit at 1; rewrite <- Hpow; ring|].
    rewrite <- !Z.shiftl_mul_pow2 by lia. apply land_shiftl_low; [done|].
    rewrite Z.shiftl_mul_pow2 by lia. nia. }
  rewrite <- Z.lxor_assoc, crc_shift_xor, crc_shift_top.
  - rewrite Z.shiftl_shiftl by lia.
    replace (31 - Z.of_nat n + 1) with (32 - Z.of_nat n) by lia.
    rewrite IH by (done || lia). unfold crc_serial. f_equal.
    clear -Hv' Hsplit. assert (Hext : forall i, 0 <= i < Z.of_nat n -> Z.testbit v' i = Z.testbit v i).
    { intros i Hi. unfold v'. by rewrite Z.mod_pow2_bits_low by lia. }
    clearbody v'. clear Hsplit Hv'. induction n as [|n IHn]; [done|]. cbn [msb_bits].
    rewrite Hext by lia. f_equal. apply IHn. intros i Hi. apply Hext. lia.
  - rewrite Z.shiftl_mul_pow2 by lia. nia.
Qed.

(** ** The calculation loses nothing *)

Section lossless.
Context (pol : Z) (Hpol : 0 <= pol < 2 ^ 32) (Hodd : Z.testbit pol 0 = true).

Lemma lfsr_range c b : 0 <= lfsr pol c b < 2 ^ 32.
Proof.
  unfold lfsr. destruct (xorb _ b); [|apply u32_range].
  apply lt_pow2_bits; [done|]. intros i Hi.
  by rewrite Z.lxor_spec, u32_testbit_high, (testbit_above 32) by lia.
Qed.

Lemma lfsr_bit0 c b : Z.testbit (lfsr pol c b) 0 = xorb (Z.testbit c 31) b.
Proof.
  unfold lfsr. destruct (xorb (Z.testbit c 31) b).
  - by rewrite Z.lxor_spec, u32_testbit, Z.shiftl_spec, Hodd by lia.
  - by rewrite u32_testbit, Z.shiftl_spec by lia.
Qed.

Lemma lfsr_inj c c' b :
  0 <= c < 2 ^ 32 -> 0 <= c' < 2 ^ 32 -> lfsr pol c b = lfsr pol c' b -> c = c'.
Proof.
  intros Hc Hc' Heq. assert (Z.testbit c 31 = Z.testbit c' 31) as H31.
  { pose proof (lfsr_bit0 c b) as H0. rewrite Heq, lfsr_bit0 in H0.
    by destruct (Z.testbit c 31), (Z.testbit c' 31), b. }
  assert (u32 (c .<< 1) = u32 (c' .<< 1)) as Hs.
  { unfold lfsr in Heq. rewrite H31 in Heq. destruct (xorb _ b); [|done].
    apply (f_equal (fun x => Z.lxor x pol)) in Heq.
    by rewrite !Z.lxor_assoc, !Z.lxor_nilpotent, !Z.lxor_0_r in Heq. }
  apply (bits_ext 32); [done..|]. intros i Hi. destruct (Z.eq_dec i 31) as [->|]; [done|].
  apply (f_equal (fun x => Z.testbit x (i + 1))) in Hs.
  rewrite !u32_testbit, !Z.shiftl_spec in Hs by lia.
  by replace (i + 1 - 1) with i in Hs by lia.
Qed.

Lemma crc_serial_range c msg : 0 <= c < 2 ^ 32 -> 0 <= crc_serial pol c msg < 2 ^ 32.
Proof.
  unfold crc_serial. revert c. induction msg as [|b msg IH]; intros c Hc; [done|].
  apply IH, lfsr_range.
Qed.

Lemma crc_serial_inj c c' msg :
  0 <= c < 2 ^ 32 -> 0 <= c' < 2 ^ 32 -> crc_serial pol c msg = crc_serial pol c' msg -> c = c'.
Proof.
  unfold crc_serial. revert c c'. induction msg as [|b msg IH]; intros c c' Hc Hc' Heq; [done|].
  apply (lfsr_inj c c' b); [done..|]. apply IH; [apply lfsr_range..|exact Heq].
Qed.

Lemma crc_serial_app c m1 m2 : crc_serial pol c (m1 ++ m2) = crc_serial pol (crc_serial pol c m1) m2.
Proof. apply foldl_app. Qed.

Lemma crc_shift_lfsr c : crc_shift pol c = lfsr pol c false.
Proof. unfold crc_shift, lfsr. by rewrite xorb_false_r. Qed.

Lemma crc_iter_inj n x y :
  0 <= x < 2 ^ 32 -> 0 <= y < 2 ^ 32 ->
  Nat.iter n (crc_shift pol) x = Nat.iter n (crc_shift pol) y -> x = y.
Proof.
  revert x y. induction n as [|n IH]; intros x y Hx Hy; [done|]. rewrite !nat_iter_l. intros Heq.
  rewrite !crc_shift_lfsr in Heq. apply (lfsr_inj x y false); [done..|].
  apply IH; [apply lfsr_range..|done].
Qed.

(** From the same state, different words lead to different states. *)
Lemma crc_word_inj c v v' :
  0 <= c < 2 ^ 32 -> 0 <= v < 2 ^ 32 -> 0 <= v' < 2 ^ 32 ->
  crc_serial pol c (msb_bits 32 v) = crc_serial pol c (msb_bits 32 v') -> v = v'.
Proof.
  intros Hc Hv Hv'. rewrite <- !crc_feed_serial by (exact (Nat.le_refl 32) || done).
  unfold crc_feed. change (32 - Z.of_nat 32) with 0. rewrite !Z.shiftl_0_r. intros Heq.
  assert (Hx : forall v, 0 <= v < 2 ^ 32 -> 0 <= Z.lxor c v < 2 ^ 32).
  { intros u Hu. apply lt_pow2_bits; [done|]. intros i Hi.
    by rewrite Z.lxor_spec, !(testbit_above 32) by lia. }
  apply crc_iter_inj in Heq; [|by apply Hx..].
  apply (f_equal (Z.lxor c)) in Heq.
  by rewrite <- !Z.lxor_assoc, !Z.lxor_nilpotent, !Z.lxor_0_l in Heq.
Qed.

(** A message with one word replaced by a different one has a different CRC. *)
Lemma crc_serial_word c m1 m2 v v' :
  0 <= c < 2 ^ 32 -> 0 <= v < 2 ^ 32 -> 0 <= v' < 2 ^ 32 ->
  crc_serial pol c (m1 ++ msb_bits 32 v ++ m2) = crc_serial pol c (m1 ++ msb_bits 32 v' ++ m2) ->
  v = v'.
Proof.
  intros Hc Hv Hv'. rewrite !crc_serial_app. intros Heq.
  apply crc_serial_inj in Heq; [|by repeat apply crc_serial_range..].
  by apply crc_word_inj in Heq; [|apply crc_serial_range|..].
Qed.
End lossless.

Lemma crc32_word m1 m2 v v' :
  0 <= v < 2 ^ 32 -> 0 <= v' < 2 ^ 32 ->
  crc_serial DEFAULT_CRC32_POLY DEFAULT_CRC_INITVALUE (m1 ++ msb_bits 32 v ++ m2) =
  crc_serial DEFAULT_CRC32_POLY DEFAULT_CRC_INITVALUE (m1 ++ msb_bits 32 v' ++ m2) -> v = v'.
Proof. by apply crc_serial_word. Qed.

(** * The unit as a device *)

Record cview := CView { c_dr : Z; c_cr : Z; c_init : Z; c_pol : Z }.

(** A 32-bit polynomial and no reversal. *)
Definition plain (w : cview) : Prop := c_cr w = 0.

Definition crc_wr (a v : Z) (w : cview) : cview :=
  if a =? CRC_BASE + CRC_DR then CView (crc_feed (c_pol w) 32 v (c_dr w)) (c_cr w) (c_init w) (c_pol w)
  else if a =? CRC_BASE + CRC_CR then
    CView (if Z.testbit v 0 then c_init w else c_dr w) (v .& 0xF8) (c_init w) (c_pol w)
  else if a =? CRC_BASE + CRC_INIT then CView (c_dr w) (c_cr w) v (c_pol w)
  else if a =? CRC_BASE + CRC_POL then CView (c_dr w) (c_cr w) (c_init w) v
  else w.
Definition crc_wr8 (a v : Z) (w : cview) : cview :=
  if a =? CRC_BASE + CRC_DR then CView (crc_feed (c_pol w) 8 v (c_dr w)) (c_cr w) (c_init w) (c_pol w)
  else w.

(** Byte [a mod 4] of the cell that holds address [a]. *)
Definition mem_byte (mem : Z -> Z) (a : Z) : Z := bits (mem (a - a mod 4)) (8 * (a mod 4)) 8.
Definition crc_reg (a : Z) : Prop := CRC_BASE <= a < CRC_BASE + 0x18.

(** Devices with such a unit beside the flash; the calculation is only laid
    down for the plain mode. *)
Class CrcDev (B : Bus) (N : Narrow B) (F : FlashDev B) := {
  cv : hw -> cview;
  cv_wr h a v : (a = CRC_BASE + CRC_DR -> plain (cv h)) -> cv (mmio_wr a v h) = crc_wr a v (cv h);
  cv_wr8 h a v :
    crc_reg a -> (a = CRC_BASE + CRC_DR -> plain (cv h)) ->
    cv (mmio_wr8 a v h) = crc_wr8 a v (cv h) /\ fl_view (mmio_wr8 a v h) = fl_view h /\
    within h (mmio_wr8 a v h) fl_step;
  cv_rd h a : cv (snd (mmio_rd a h)) = cv h;
  cv_rd_cr h : u32 (fst (mmio_rd (CRC_BASE + CRC_CR) h)) = u32 (c_cr (cv h));
  cv_rd_dr h : plain (cv h) -> u32 (fst (mmio_rd (CRC_BASE + CRC_DR) h)) = u32 (c_dr (cv h));
  cv_rd8 h a :
    in_flash a = true -> f_busy (fl_view h) = false ->
    u8 (fst (mmio_rd8 a h)) = mem_byte (f_mem (fl_view h)) a /\ cv (snd (mmio_rd8 a h)) = cv h /\
    fl_view (snd (mmio_rd8 a h)) = fl_view h /\ within h (snd (mmio_rd8 a h)) fl_step;
}.

(** The configuration of MX_CRC_Init, in any state. *)
Definition crc_default (h : CRC_HandleTypeDef) : Prop :=
  Instance_ h = CRC_BASE /\ DefaultPolynomialUse h = DEFAULT_POLYNOMIAL_ENABLE /\
  DefaultInitValueUse h = DEFAULT_INIT_VALUE_ENABLE /\
  InputDataInversionMode h = CRC_INPUTDATA_INVERSION_NONE /\
  OutputDataInversionMode h = CRC_OUTPUTDATA_INVERSION_DISABLE.

(** The message the image of [size] bytes is: words, most significant bit first,
    then the remaining bytes. *)
Definition image_words (mem : Z -> Z) (base : Z) (i : Z) (n : nat) : list bool :=
  concat ((fun i => msb_bits 32 (u32 (mem (base + 4 * i)))) <$> zrange i n).
Definition image_bytes (mem : Z -> Z) (base : Z) (i : Z) (n : nat) : list bool :=
  concat ((fun i => msb_bits 8 (mem_byte mem (base + i))) <$> zrange i n).
Definition image_bits (mem : Z -> Z) (base size : Z) : list bool :=
  image_words mem base 0 (Z.to_nat (size / 4)) ++
  image_bytes mem (base + 4 * (size / 4)) 0 (Z.to_nat (size mod 4)).
Definition crc32 (msg : list bool) : Z := crc_serial DEFAULT_CRC32_POLY DEFAULT_CRC_INITVALUE msg.

Lemma crc_wr_DR v w :
  crc_wr (CRC_BASE + CRC_DR) v w = CView (crc_feed (c_pol w) 32 v (c_dr w)) (c_cr w) (c_init w) (c_pol w).
Proof. reflexivity. Qed.
Lemma crc_wr_CR v w :
  crc_wr (CRC_BASE + CRC_CR) v w =
  CView (if Z.testbit v 0 then c_init w else c_dr w) (v .& 0xF8) (c_init w) (c_pol w).
Proof. reflexivity. Qed.
Lemma crc_wr_INIT v w : crc_wr (CRC_BASE + CRC_INIT) v w = CView (c_dr w) (c_cr w) v (c_pol w).
Proof. reflexivity. Qed.
Lemma crc_wr_POL v w : crc_wr (CRC_BASE + CRC_POL) v w = CView (c_dr w) (c_cr w) (c_init w) v.
Proof. reflexivity. Qed.

Section cal_crc.
Context {B : Bus} {N : Narrow B} {F : FlashDev B} {C : CrcDev B N F}.
Abbreviation crc := (mach CRC_HandleTypeDef).
Implicit Types (s : crc) (d : hw).

(** From [d] to [d'] the flash stays and the unit gets to [w], within [n] accesses. *)
Definition crc_to d d' (w : cview) (n : Z) : Prop :=
  fl_view d' = fl_view d /\ cv d' = w /\ within d d' (n * fl_step).

Lemma crc_to_refl d : crc_to d d (cv d) 0.
Proof. split_and!; [done|done|]. unfold within. lia. Qed.

Lemma crc_to_trans d d1 d2 w1 w2 n m :
  crc_to d d1 w1 n -> crc_to d1 d2 w2 m -> crc_to d d2 w2 (n + m).
Proof.
  intros (Hf1 & _ & Ht1) (Hf2 & Hc2 & Ht2). split_and!; [by rewrite Hf2|done|].
  unfold within in *. rewrite Z.mul_add_distr_r. lia.
Qed.

Lemma crc_reg_no_flash a v w : crc_reg a -> fl_wr a v w = w.
Proof.
  unfold crc_reg, CRC_BASE. intros Ha. unfold fl_wr, in_flash, FLASH_KEYR, FLASH_CR, FLASH_R_BASE.
  by repeat (zcase; try (exfalso; lia)).
Qed.

Lemma crc_rd_flash d a : crc_reg a -> fl_view (snd (mmio_rd a d)) = fl_view d.
Proof.
  unfold crc_reg, CRC_BASE. intros Ha. pose proof (fl_rd_view d a) as H. revert H.
  unfold fl_rd, in_flash, FLASH_SR, FLASH_CR, FLASH_R_BASE.
  by repeat (zcase; try (exfalso; lia)).
Qed.

Lemma wp_crc_wr off v s (Q : unit -> crc -> Prop) :
  Instance_ (glb s) = CRC_BASE -> 0 <= off < 0x18 -> (off = CRC_DR -> plain (cv (dev s))) ->
  (forall d l, crc_to (dev s) d (crc_wr (CRC_BASE + off) (u32 v) (cv (dev s))) 1 ->
     Q tt (Mach d l (glb s))) ->
  wp (WRITE_REG off v) s Q.
Proof.
  intros Hi Hoff Hp HQ. unfold WRITE_REG, reg. wp_steps. rewrite Hi. apply HQ.
  split_and!.
  - rewrite fl_wr_view, crc_reg_no_flash by (unfold crc_reg; lia). done.
  - apply cv_wr. intros ?. apply Hp. lia.
  - pose proof (fl_wr_now (dev s) (CRC_BASE + off) (u32 v)). unfold within. lia.
Qed.

Lemma wp_crc_rmw_cr f s (Q : unit -> crc -> Prop) :
  Instance_ (glb s) = CRC_BASE ->
  (forall d l, crc_to (dev s) d
       (crc_wr (CRC_BASE + CRC_CR) (u32 (f (u32 (c_cr (cv (dev s)))))) (cv (dev s))) 2 ->
     Q tt (Mach d l (glb s))) ->
  wp (bind (reg CRC_CR) (fun a => rmw a f)) s Q.
Proof.
  intros Hi HQ. unfold reg. wp_steps. rewrite Hi, cv_rd_cr. apply HQ.
  assert (crc_reg (CRC_BASE + CRC_CR)) as Hr by (unfold crc_reg, CRC_CR; lia).
  pose proof (fl_rd_now (dev s) (CRC_BASE + CRC_CR)).
  set (d1 := snd (mmio_rd (CRC_BASE + CRC_CR) (dev s))) in *. split_and!.
  - rewrite fl_wr_view, crc_reg_no_flash by done. by apply crc_rd_flash.
  - rewrite cv_wr by done. unfold d1. by rewrite cv_rd.
  - pose proof (fl_wr_now d1 (CRC_BASE + CRC_CR) (u32 (f (u32 (c_cr (cv (dev s))))))).
    unfold within. lia.
Qed.

Lemma wp_crc_wr8 off v s (Q : unit -> crc -> Prop) :
  Instance_ (glb s) = CRC_BASE -> 0 <= off < 0x18 -> (off = CRC_DR -> plain (cv (dev s))) ->
  (forall d l, crc_to (dev s) d (crc_wr8 (CRC_BASE + off) (u8 v) (cv (dev s))) 1 ->
     Q tt (Mach d l (glb s))) ->
  wp (bind (reg off) (fun a => wr8 a v)) s Q.
Proof.
  intros Hi Hoff Hp HQ. unfold reg. wp_steps. rewrite Hi. unfold wr8, wp. apply HQ.
  destruct (cv_wr8 (dev s) (CRC_BASE + off) (u8 v)) as (Hc & Hf & Ht);
    [unfold crc_reg; lia|intros ?; apply Hp; lia|].
  split_and!; [done|done|]. by rewrite Z.mul_1_l.
Qed.

(** The three fields of CR are cleared one after the other. *)
Lemma crc_cr_cleared c :
  let m k c := u32 ((u32 c .& not32 k) .| 0) .& 0xF8 in
  let v := u32 (u32 (m CRC_CR_REV_OUT (m CRC_CR_REV_IN (m CRC_CR_POLYSIZE c))) .| CRC_CR_RESET) in
  v .& 0xF8 = 0 /\ Z.testbit v 0 = true.
Proof.
  cbv zeta beta. split; [|by rewrite u32_testbit, Z.lor_spec, orb_true_r by lia].
  apply Z.bits_inj'. intros i Hi. rewrite Z.bits_0, Z.land_spec.
  destruct (Z.lt_ge_cases i 8); [|by rewrite (testbit_above 8 0xF8), andb_false_r by lia].
  zenum i 8%nat;
    repeat first [ rewrite u32_testbit by lia | rewrite Z.lor_spec | rewrite Z.land_spec
                 | rewrite not32_testbit by lia ]; cbn;
    rewrite ?andb_false_r, ?orb_false_r, ?andb_false_r; done.
Qed.

(** De-initialising, whatever the state of the handle. *)
Lemma wp_CRC_DeInit s (Q : Z -> crc -> Prop) :
  crc_default (glb s) ->
  (forall r d l g n, crc_default g -> 0 <= n <= 3 -> crc_to (dev s) d (cv d) n ->
     Q r (Mach d l g)) ->
  wp (HAL_CRC_DeInit false) s Q.
Proof.
  intros (Hi & Hdef) HQ. unfold HAL_CRC_DeInit. apply wp_bind, wp_get. destruct (decide _).
  { apply wp_ret. destruct s as [d l g]. apply (HQ _ _ _ _ 0); [by split|done|apply crc_to_refl]. }
  unfold set_State at 1. apply wp_bind, wp_modify, wp_bind. unfold HAL_CRC_DR_RESET, set_bits.
  apply wp_crc_rmw_cr; [done|]. intros d1 l1 H1. cbn [dev glb] in *.
  apply wp_bind. unfold HAL_CRC_SET_IDR. apply wp_crc_wr8; [done|unfold CRC_IDR; lia|done|].
  intros d2 l2 H2. cbn [dev glb] in *. unfold HAL_CRC_MspDeInit, set_State, set_CrcLock. wp_steps.
  apply (HQ _ _ _ _ 3); [by split|done|].
  destruct (crc_to_trans _ _ _ _ _ _ _ H1 H2) as (Hf & _ & Ht). by split_and!.
Qed.

(** Initialising and resetting: the unit is in its default mode. *)
Lemma wp_crc_start s (Q : unit -> crc -> Prop) :
  crc_default (glb s) ->
  (forall d l g, Instance_ g = CRC_BASE ->
     crc_to (dev s) d (CView DEFAULT_CRC_INITVALUE 0 DEFAULT_CRC_INITVALUE DEFAULT_CRC32_POLY) 10 ->
     Q tt (Mach d l g)) ->
  wp (HAL_CRC_Init false) s (fun _ s' => wp HAL_CRC_DR_RESET s' Q).
Proof.
  destruct s as [d l g]. intros (Hi & Hp & Hv & Hri & Hro) HQ. cbn [dev glb] in *.
  unfold HAL_CRC_Init. apply wp_bind, wp_get. cbn [glb].
  match goal with |- wp (bind ?m _) _ _ => assert (Hm : forall Q : unit -> crc -> Prop,
    (forall g', crc_default g' -> Q tt (Mach d l g')) -> wp m (Mach d l g) Q) end.
  { intros Q' HQ'. destruct (decide _).
    - unfold set_CrcLock, HAL_CRC_MspInit. wp_steps. by apply HQ'.
    - apply wp_ret. by apply HQ'. }
  apply wp_bind, Hm. clear Hm. intros g' (Hi' & Hp' & Hv' & Hri' & Hro').
  unfold set_State at 1. wp_steps. rewrite Hp. cbn [Z.eqb DEFAULT_POLYNOMIAL_ENABLE].
  apply wp_bind, wp_crc_wr; [done|unfold CRC_POL; lia|done|]. intros d1 l1 H1. cbn [dev glb] in *.
  apply wp_bind. unfold MODIFY_REG, modify_reg. apply wp_crc_rmw_cr; [done|].
  intros d2 l2 H2. cbn [dev glb] in *. unfold crc_init_rest. apply wp_bind, wp_get. cbn [glb].
  cbn [set_crc DefaultInitValueUse InputDataInversionMode OutputDataInversionMode].
  rewrite Hv', Hri', Hro'. cbn [Z.eqb DEFAULT_INIT_VALUE_ENABLE].
  apply wp_bind, wp_crc_wr; [done|unfold CRC_INIT; lia|done|].
  intros d3 l3 H3. cbn [dev glb] in *. apply wp_bind. unfold MODIFY_REG, modify_reg.
  apply wp_crc_rmw_cr; [done|]. intros d4 l4 H4. cbn [dev glb] in *.
  apply wp_bind. apply wp_crc_rmw_cr; [done|]. intros d5 l5 H5. cbn [dev glb] in *.
  unfold set_State. wp_steps. unfold HAL_CRC_DR_RESET, set_bits. apply wp_crc_rmw_cr; [done|].
  intros d6 l6 H6. cbn [dev glb] in *. apply HQ; [done|].
  pose proof (crc_to_trans _ _ _ _ _ _ _ (crc_to_trans _ _ _ _ _ _ _ (crc_to_trans _ _ _ _ _ _ _
    (crc_to_trans _ _ _ _ _ _ _ (crc_to_trans _ _ _ _ _ _ _ H1 H2) H3) H4) H5) H6) as (Hf & Hc & Ht).
  split_and!; [done| |exact Ht]. rewrite Hc. clear H6 Hc Hf Ht.
  destruct H5 as (_ & H5 & _), H4 as (_ & H4 & _), H3 as (_ & H3 & _), H2 as (_ & H2 & _),
    H1 as (_ & H1 & _).
  rewrite crc_wr_POL in H1. rewrite H1, crc_wr_CR in H2. rewrite H2, crc_wr_INIT in H3.
  rewrite H3, crc_wr_CR in H4. rewrite H4, crc_wr_CR in H5. rewrite H5, crc_wr_CR.
  cbn [c_cr c_dr c_init c_pol]. destruct (crc_cr_cleared (c_cr (cv d))) as [Hz H0].
  unfold CRC_POLYLENGTH_32B, CRC_INPUTDATA_INVERSION_NONE, CRC_OUTPUTDATA_INVERSION_DISABLE.
  by rewrite Hz, H0.
Qed.

Lemma wp_crc_started {A} (k : M crc A) s (Q : A -> crc -> Prop) :
  crc_default (glb s) ->
  (forall d l g, Instance_ g = CRC_BASE ->
     crc_to (dev s) d (CView DEFAULT_CRC_INITVALUE 0 DEFAULT_CRC_INITVALUE DEFAULT_CRC32_POLY) 10 ->
     wp k (Mach d l g) Q) ->
  wp (HAL_CRC_Init false ;; HAL_CRC_DR_RESET ;; k) s Q.
Proof.
  intros Hdef HQ. apply wp_bind.
  eapply wp_mono; [apply wp_crc_start with (Q := fun _ s' => wp k s' Q); [done|by apply HQ]|].
  intros ? ? H. by apply wp_bind.
Qed.

(** One word or byte into the unit. *)
Definition crc_state (c : Z) : cview := CView c 0 DEFAULT_CRC_INITVALUE DEFAULT_CRC32_POLY.

Lemma wp_enter_word v s c (Q : unit -> crc -> Prop) :
  Instance_ (glb s) = CRC_BASE -> cv (dev s) = crc_state c ->
  (forall d l, crc_to (dev s) d (crc_state (crc_serial DEFAULT_CRC32_POLY c (msb_bits 32 (u32 v)))) 1 ->
     Q tt (Mach d l (glb s))) ->
  wp (WRITE_REG CRC_DR v) s Q.
Proof.
  intros Hi Hc HQ. apply wp_crc_wr; [done|unfold CRC_DR; lia|by rewrite Hc|].
  intros d l Hd. rewrite Hc, crc_wr_DR in Hd. cbn [crc_state c_cr c_dr c_init c_pol] in Hd.
  rewrite crc_feed_serial in Hd; [by apply HQ|exact (Nat.le_refl 32)|apply u32_range].
Qed.

Lemma wp_enter_byte v s c (Q : unit -> crc -> Prop) :
  Instance_ (glb s) = CRC_BASE -> cv (dev s) = crc_state c ->
  (forall d l, crc_to (dev s) d (crc_state (crc_serial DEFAULT_CRC32_POLY c (msb_bits 8 (u8 v)))) 1 ->
     Q tt (Mach d l (glb s))) ->
  wp (bind (reg CRC_DR) (fun a => wr8 a v)) s Q.
Proof.
  intros Hi Hc HQ. apply wp_crc_wr8; [done|unfold CRC_DR; lia|by rewrite Hc|].
  intros d l Hd. rewrite Hc in Hd. unfold crc_wr8 in Hd. rewrite Z.eqb_refl in Hd.
  cbn [crc_state c_cr c_dr c_init c_pol] in Hd.
  rewrite crc_feed_serial in Hd; [by apply HQ|lia|apply u8_range].
Qed.

(** The result is read back. *)
Lemma wp_result s c (Q : Z -> crc -> Prop) :
  Instance_ (glb s) = CRC_BASE -> cv (dev s) = crc_state c ->
  (forall d, crc_to (dev s) d (crc_state c) 1 -> Q (u32 c) (Mach d (wlog s) (glb s))) ->
  wp (READ_REG CRC_DR) s Q.
Proof.
  intros Hi Hc HQ. unfold READ_REG, reg. wp_steps. rewrite Hi, cv_rd_dr, Hc by (by rewrite Hc).
  apply HQ. split_and!.
  - apply crc_rd_flash. unfold crc_reg, CRC_DR. lia.
  - by rewrite cv_rd.
  - rewrite Z.mul_1_l. apply fl_rd_now.
Qed.

(** A word of the flash is read. *)
Lemma wp_rd_cell a s (Q : Z -> crc -> Prop) :
  in_flash a = true -> f_busy (fl_view (dev s)) = false ->
  (forall d, crc_to (dev s) d (cv (dev s)) 1 -> Q (u32 (f_mem (fl_view (dev s)) a)) (Mach d (wlog s) (glb s))) ->
  wp (rd a) s Q.
Proof.
  intros Ha Hb HQ. apply wp_rd. pose proof (fl_rd_view (dev s) a) as Hrd. unfold fl_rd in Hrd.
  destruct (in_flash_not_reg a Ha) as [_ Hcr]. rewrite Hcr, Ha in Hrd.
  assert ((a =? FLASH_SR) = false) as Hsr.
  { apply Z.eqb_neq. unfold in_flash in Ha. zbool. unfold FLASH_SR, FLASH_R_BASE. lia. }
  rewrite Hsr in Hrd. destruct (Hrd Hb) as [Hw ->]. apply HQ.
  split_and!; [done|apply cv_rd|]. rewrite Z.mul_1_l. apply fl_rd_now.
Qed.

Lemma in_flash_range a : 0x08000000 <= a < 0x08200000 -> in_flash a = true.
Proof. unfold in_flash. intros. repeat zcase; done || lia. Qed.

Lemma wp_words n i c s (Q : unit -> crc -> Prop) :
  Instance_ (glb s) = CRC_BASE -> cv (dev s) = crc_state c -> f_busy (fl_view (dev s)) = false ->
  0 <= i -> IMAGE_ADDRESS + 4 * (i + Z.of_nat n) <= 0x08200000 ->
  (forall d l, crc_to (dev s) d (crc_state (crc_serial DEFAULT_CRC32_POLY c
       (image_words (f_mem (fl_view (dev s))) IMAGE_ADDRESS i n))) (2 * Z.of_nat n) ->
     Q tt (Mach d l (glb s))) ->
  wp (for_each (zrange i n) (fun i =>
    w <- rd (u32 (IMAGE_ADDRESS + 4 * i)) ;; WRITE_REG CRC_DR w)) s Q.
Proof.
  revert i c s. induction n as [|n IH]; intros i c s Hi Hc Hb H0 Hend HQ.
  { apply wp_ret. destruct s as [d l g]. apply HQ. pose proof (crc_to_refl d) as H.
    cbn [dev] in *. rewrite Hc in H. exact H. }
  rewrite zrange_S. cbn [for_each]. unfold IMAGE_ADDRESS, USER_FLASH_FIRST_PAGE_ADDRESS in *.
  rewrite u32_small by lia. apply wp_bind, wp_bind, wp_rd_cell; [apply in_flash_range; lia|done|].
  intros d1 H1. pose proof H1 as (Hf1 & Hc1 & _).
  apply (wp_enter_word _ _ c); [done|cbn [dev]; congruence|]. intros d2 l2 H2. cbn [dev glb] in *.
  pose proof H2 as (Hf2 & Hc2 & _). pose proof (crc_to_trans _ _ _ _ _ _ _ H1 H2) as H12.
  eapply IH; cbn [dev glb]; [done|exact Hc2|by rewrite Hf2, Hf1|lia|lia|].
  intros d l H3. apply HQ. pose proof (crc_to_trans _ _ _ _ _ _ _ H12 H3) as H.
  rewrite Hf2, Hf1 in H. unfold image_words in *. rewrite zrange_S. cbn [fmap list_fmap concat].
  rewrite crc_serial_app, u32_idemp in *. replace (2 * Z.of_nat (S n)) with (1 + 1 + 2 * Z.of_nat n) by lia.
  exact H.
Qed.

Lemma wp_bytes base n i c s (Q : unit -> crc -> Prop) :
  Instance_ (glb s) = CRC_BASE -> cv (dev s) = crc_state c -> f_busy (fl_view (dev s)) = false ->
  0 <= i -> 0x08000000 <= base -> base + i + Z.of_nat n <= 0x08200000 ->
  (forall d l, crc_to (dev s) d (crc_state (crc_serial DEFAULT_CRC32_POLY c
       (image_bytes (f_mem (fl_view (dev s))) base i n))) (2 * Z.of_nat n) ->
     Q tt (Mach d l (glb s))) ->
  wp (for_each (zrange i n) (fun i =>
    b <- rd8 (u32 (base + i)) ;; a <- reg CRC_DR ;; wr8 a b)) s Q.
Proof.
  revert i c s. induction n as [|n IH]; intros i c s Hi Hc Hb H0 Hbase Hend HQ.
  { apply wp_ret. destruct s as [d l g]. apply HQ. pose proof (crc_to_refl d) as H.
    cbn [dev] in *. rewrite Hc in H. exact H. }
  rewrite zrange_S. cbn [for_each]. rewrite u32_small by lia.
  destruct (cv_rd8 (dev s) (base + i)) as (Hv & Hcv & Hfl & Ht); [apply in_flash_range; lia|done|].
  apply wp_bind, wp_bind. unfold rd8 at 1, wp at 1. cbn zeta. rewrite Hv.
  set (d1 := snd (mmio_rd8 (base + i) (dev s))) in *.
  assert (crc_to (dev s) d1 (cv (dev s)) 1) as H1.
  { split_and!; [done|done|]. by rewrite Z.mul_1_l. }
  apply (wp_enter_byte _ _ c); [done|cbn [dev]; congruence|]. intros d2 l2 H2. cbn [dev glb] in *.
  pose proof H2 as (Hf2 & Hc2 & _). pose proof (crc_to_trans _ _ _ _ _ _ _ H1 H2) as H12.
  eapply IH; cbn [dev glb]; [done|exact Hc2|by rewrite Hf2, Hfl|lia|lia|lia|].
  intros d l H3. apply HQ. pose proof (crc_to_trans _ _ _ _ _ _ _ H12 H3) as H.
  rewrite Hf2, Hfl in H. unfold image_bytes in *. rewrite zrange_S. cbn [fmap list_fmap concat].
  assert (u8 (mem_byte (f_mem (fl_view (dev s))) (base + i)) =
    mem_byte (f_mem (fl_view (dev s))) (base + i)) as Hu8.
  { apply u8_small. unfold mem_byte. pose proof (Z.mod_pos_bound (base + i) 4 eq_refl).
    apply (bits_range _ _ 8); lia. }
  rewrite crc_serial_app, Hu8 in *.
  replace (2 * Z.of_nat (S n)) with (1 + 1 + 2 * Z.of_nat n) by lia. exact H.
Qed.

(** The size of the image in the tag, and that the image lies in the flash. *)
Definition tag_word (mem : Z -> Z) (off : Z) : Z := u32 (mem (TAG_ADDRESS + off)).
Definition image_fits (mem : Z -> Z) : Prop := IMAGE_ADDRESS + tag_word mem TAG_size <= 0x08200000.

Lemma tag_in_flash off : 0 <= off < 0x400 -> in_flash (TAG_ADDRESS + off) = true.
Proof. intros. apply in_flash_range. unfold TAG_ADDRESS, USER_FLASH_FIRST_PAGE_ADDRESS. lia. Qed.

Lemma wp_cal_crc s (Q : Z -> crc -> Prop) :
  crc_default (glb s) -> f_busy (fl_view (dev s)) = false -> image_fits (f_mem (fl_view (dev s))) ->
  let mem := f_mem (fl_view (dev s)) in
  let size := tag_word mem TAG_size in
  (forall d l g, fl_view d = fl_view (dev s) -> within (dev s) d ((16 + 2 * size) * fl_step) ->
     Q (crc32 (image_bits mem IMAGE_ADDRESS size)) (Mach d l g)) ->
  wp cal_crc s Q.
Proof.
  intros Hdef Hb Hfit mem size HQ. pose proof fl_step_pos as Hstep.
  unfold image_fits, IMAGE_ADDRESS, USER_FLASH_FIRST_PAGE_ADDRESS in Hfit.
  fold mem size in Hfit. pose proof (u32_range (mem (TAG_ADDRESS + TAG_size))) as Hsz.
  fold (tag_word mem TAG_size) size in Hsz.
  unfold cal_crc. apply wp_bind, wp_CRC_DeInit; [done|]. intros r d1 l1 g1 k Hg1 Hk H1.
  apply wp_crc_started; [done|].
  intros d2 l2 g2 Hg2 H2. cbn [dev] in H2. pose proof (crc_to_trans _ _ _ _ _ _ _ H1 H2) as H12.
  pose proof H2 as (Hf2 & Hc2 & _). pose proof H1 as (Hf1 & _ & _).
  apply wp_bind, wp_rd_cell; cbn [dev wlog glb]; [by apply tag_in_flash|by rewrite Hf2, Hf1|].
  intros d3 H3. pose proof H3 as (Hf3 & Hc3 & _). rewrite Hf2, Hf1. fold mem.
  fold (tag_word mem TAG_size) size. pose proof (crc_to_trans _ _ _ _ _ _ _ H12 H3) as H13.
  apply wp_bind, (wp_words _ _ DEFAULT_CRC_INITVALUE); cbn [dev wlog glb];
    [done|by rewrite Hc3|by rewrite Hf3, Hf2, Hf1|done| |].
  { unfold IMAGE_ADDRESS, USER_FLASH_FIRST_PAGE_ADDRESS. zlia. }
  rewrite Hf3, Hf2, Hf1. fold mem. intros d4 l4 H4. pose proof H4 as (Hf4 & Hc4 & _).
  pose proof (crc_to_trans _ _ _ _ _ _ _ H13 H4) as H14.
  apply wp_bind, wp_rd_cell; cbn [dev wlog glb];
    [by apply tag_in_flash|by rewrite Hf4, Hf3, Hf2, Hf1|].
  intros d5 H5. pose proof H5 as (Hf5 & Hc5 & _). rewrite Hf4, Hf3, Hf2, Hf1. fold mem.
  fold (tag_word mem TAG_size) size. pose proof (crc_to_trans _ _ _ _ _ _ _ H14 H5) as H15.
  rewrite Hc4 in Hc5.
  assert (f_busy (fl_view d5) = false /\ f_mem (fl_view d5) = mem) as [Hb5 Hm5].
  { rewrite Hf5, Hf4, Hf3, Hf2, Hf1. done. }
  apply wp_bind.
  match goal with |- wp ?m ?t ?K => cut (wp (for_each (zrange 0 (Z.to_nat (size mod 4))) (fun i =>
    b <- rd8 (u32 (u32 (IMAGE_ADDRESS + 4 * (size / 4)) + i)) ;; a <- reg CRC_DR ;; wr8 a b)) t K) end.
  { destruct (Z.eqb_spec (size mod 4) 0) as [->|]; done. }
  assert (u32 (IMAGE_ADDRESS + 4 * (size / 4)) = IMAGE_ADDRESS + 4 * (size / 4)) as ->.
  { apply u32_small. unfold IMAGE_ADDRESS, USER_FLASH_FIRST_PAGE_ADDRESS. zlia. }
  eapply wp_bytes; cbn [dev wlog glb]; [done|exact Hc5|done|done|..].
  { unfold IMAGE_ADDRESS, USER_FLASH_FIRST_PAGE_ADDRESS. zlia. }
  { unfold IMAGE_ADDRESS, USER_FLASH_FIRST_PAGE_ADDRESS. zlia. }
  rewrite Hm5. intros d6 l6 H6. pose proof H6 as (Hf6 & Hc6 & _).
  pose proof (crc_to_trans _ _ _ _ _ _ _ H15 H6) as H16.
  eapply wp_result; cbn [dev wlog glb]; [done|exact Hc6|].
  intros d7 H7. destruct (crc_to_trans _ _ _ _ _ _ _ H16 H7) as (Hf & _ & Ht).
  rewrite <- crc_serial_app. fold (image_bits mem IMAGE_ADDRESS size).
  fold (crc32 (image_bits mem IMAGE_ADDRESS size)).
  rewrite (u32_small (crc32 _)) by (apply crc_serial_range; done).
  apply HQ; [done|]. unfold within in *.
  assert (k + 10 + 1 + 2 * Z.of_nat (Z.to_nat (size / 4)) + 1 + 2 * Z.of_nat (Z.to_nat (size mod 4)) + 1
    <= 16 + 2 * size) as Hle by zlia.
  apply (Z.mul_le_mono_nonneg_r _ _ fl_step) in Hle; lia.
Qed.
End cal_crc.

(** ** The image *)

Lemma image_words_split mem base i n m :
  image_words mem base i (n + S m) =
  image_words mem base i n ++ msb_bits 32 (u32 (mem (base + 4 * (i + Z.of_nat n)))) ++
  image_words mem base (i + Z.of_nat n + 1) m.
Proof.
  unfold image_words. revert i. induction n as [|n IH]; intros i.
  - cbn [Nat.add]. rewrite zrange_S. cbn [zrange fmap list_fmap concat app]. by rewrite Z.add_0_r.
  - cbn [Nat.add]. rewrite (zrange_S i (n + S m)), (zrange_S i n). cbn [fmap list_fmap concat].
    rewrite IH, <- app_assoc. do 2 f_equal. replace (i + 1 + Z.of_nat n) with (i + Z.of_nat (S n)) by lia.
    done.
Qed.

Lemma image_words_ext mem mem' base i n :
  (forall j, i <= j < i + Z.of_nat n -> u32 (mem (base + 4 * j)) = u32 (mem' (base + 4 * j))) ->
  image_words mem base i n = image_words mem' base i n.
Proof.
  intros H. unfold image_words. f_equal. apply list_fmap_ext. intros k x Hk.
  rewrite H; [done|]. by apply elem_of_zrange, (list_elem_of_lookup_2 _ k).
Qed.

Lemma image_bytes_ext mem mem' base i n :
  (forall j, i <= j < i + Z.of_nat n -> mem_byte mem (base + j) = mem_byte mem' (base + j)) ->
  image_bytes mem base i n = image_bytes mem' base i n.
Proof.
  intros H. unfold image_bytes. f_equal. apply list_fmap_ext. intros k x Hk.
  rewrite H; [done|]. by apply elem_of_zrange, (list_elem_of_lookup_2 _ k).
Qed.

(** Images that differ in one word only. *)
Definition differ_at (mem mem' : Z -> Z) (base size i : Z) : Prop :=
  0 <= i < size / 4 /\ u32 (mem (base + 4 * i)) <> u32 (mem' (base + 4 * i)) /\
  (forall j, 0 <= j < size / 4 -> j <> i -> u32 (mem (base + 4 * j)) = u32 (mem' (base + 4 * j))) /\
  (forall j, 4 * (size / 4) <= j < size -> mem_byte mem (base + j) = mem_byte mem' (base + j)).

Lemma crc32_differ mem mem' base size i :
  0 <= size -> differ_at mem mem' base size i ->
  crc32 (image_bits mem base size) <> crc32 (image_bits mem' base size).
Proof.
  intros Hs (Hi & Hne & Heq & Hb) H.
  assert (Z.to_nat (size / 4) = Z.to_nat i + S (Z.to_nat (size / 4 - i - 1)))%nat as Hn by lia.
  assert (image_bytes mem (base + 4 * (size / 4)) 0 (Z.to_nat (size mod 4)) =
    image_bytes mem' (base + 4 * (size / 4)) 0 (Z.to_nat (size mod 4))) as Hbytes.
  { apply image_bytes_ext. intros j Hj.
    replace (base + 4 * (size / 4) + j) with (base + (4 * (size / 4) + j)) by lia. apply Hb. zlia. }
  assert (image_words mem base 0 (Z.to_nat i) = image_words mem' base 0 (Z.to_nat i)) as H1.
  { apply image_words_ext. clear H. intros j Hj. apply Heq; lia. }
  assert (forall n, (n <= Z.to_nat (size / 4 - i - 1))%nat ->
    image_words mem base (i + 1) n = image_words mem' base (i + 1) n) as H2.
  { intros n Hn'. apply image_words_ext. clear H. intros j Hj. apply Heq; lia. }
  specialize (H2 _ (Nat.le_refl _)).
  unfold crc32, image_bits in H. rewrite Hbytes, Hn, !image_words_split in H.
  replace (0 + Z.of_nat (Z.to_nat i)) with i in H by (clear H; lia).
  rewrite H1, H2, <- !app_assoc in H. apply Hne. exact (crc32_word _ _ _ _ (u32_range _) (u32_range _) H).
Qed.

Section properties.
Context {B : Bus} {N : Narrow B} {F : FlashDev B} {C : CrcDev B N F} {G : Type}.
Implicit Types s : mach G.

Lemma wp_CAL_CRC hcrc s (Q : Z -> mach G -> Prop) :
  crc_default hcrc -> f_busy (fl_view (dev s)) = false -> image_fits (f_mem (fl_view (dev s))) ->
  let mem := f_mem (fl_view (dev s)) in
  let size := tag_word mem TAG_size in
  (forall d l, fl_view d = fl_view (dev s) -> within (dev s) d ((16 + 2 * size) * fl_step) ->
     Q (crc32 (image_bits mem IMAGE_ADDRESS size)) (Mach d l (glb s))) ->
  wp (CAL_CRC hcrc) s Q.
Proof.
  intros Hd Hb Hf mem size HQ. apply wp_zoom, wp_cal_crc; [done..|]. intros d l g Hv Ht.
  by apply HQ.
Qed.

(** C5: CAL_CRC always returns, and returns the CRC-32 (polynomial 0x04C11DB7,
    initial value 0xFFFFFFFF, no reversal, no final inversion) of the image
    whose size the tag names: its words most significant bit first, then the one to
    three remaining bytes, for every size that lies in the flash, whatever
    the state of the unit and of the handle; flash and globals stay. *)
Theorem CAL_CRC_correct hcrc s :
  crc_default hcrc -> f_busy (fl_view (dev s)) = false -> image_fits (f_mem (fl_view (dev s))) ->
  let mem := f_mem (fl_view (dev s)) in
  wp (CAL_CRC hcrc) s (fun r s' =>
    r = crc32 (image_bits mem IMAGE_ADDRESS (tag_word mem TAG_size)) /\
    fl_view (dev s') = fl_view (dev s) /\ glb s' = glb s).
Proof. intros Hd Hb Hf mem. by apply wp_CAL_CRC. Qed.

(** C34: the image check detects every corruption within one word: of two
    flash contents whose images have the same size and differ in one word,
    CAL_CRC returns different values. *)
Theorem CAL_CRC_detects hcrc s s' i :
  crc_default hcrc -> f_busy (fl_view (dev s)) = false -> f_busy (fl_view (dev s')) = false ->
  let mem := f_mem (fl_view (dev s)) in
  let mem' := f_mem (fl_view (dev s')) in
  image_fits mem -> tag_word mem' TAG_size = tag_word mem TAG_size ->
  differ_at mem mem' IMAGE_ADDRESS (tag_word mem TAG_size) i ->
  wp (CAL_CRC hcrc) s (fun r _ => wp (CAL_CRC hcrc) s' (fun r' _ => r <> r')).
Proof.
  intros Hd Hb Hb' mem mem' Hf Hsz Hdiff. apply wp_CAL_CRC; [done..|]. intros _ _ _ _.
  apply wp_CAL_CRC; [done|done| |].
  - unfold image_fits. fold mem'. by rewrite Hsz.
  - intros _ _ _ _. fold mem mem'. rewrite Hsz. apply (crc32_differ _ _ _ _ i); [|done].
    apply u32_range.
Qed.
End properties.

(** The degree check of HAL_CRCEx_Polynomial_Set starts below bit 31: a
    polynomial with that bit passes as one of degree 7. *)
Lemma polynomial_bit31_accepted : polynomial_status 0x80000001 CRC_POLYLENGTH_7B = HAL_OK.
Proof. reflexivity. Qed.

(** * A simulated board: flash, CRC unit, other registers, frames sent and the
    contents of the outgoing buffer *)

Record board := Board {
  b_flash : fview;
  b_crc : cview;
  b_regs : list (Z * Z);
  b_sent : list (Z * Z * Z * list Z);
  b_buf : list Z;
}.

Definition is_flash (a : Z) : bool := (a =? FLASH_SR) || (a =? FLASH_CR) || in_flash a.

Definition board_rd (a : Z) (h : board) : Z * board :=
  if is_flash a then
    let p := flash_rd a (b_flash h) in (fst p, Board (snd p) (b_crc h) (b_regs h) (b_sent h) (b_buf h))
  else if a =? CRC_BASE + CRC_CR then (c_cr (b_crc h), h)
  else if a =? CRC_BASE + CRC_DR then (c_dr (b_crc h), h)
  else (match List.find (fun p => fst p =? a) (b_regs h) with Some p => snd p | None => 0 end, h).

Definition board_wr (a v : Z) (h : board) : board :=
  Board (fl_wr a v (b_flash h)) (crc_wr a v (b_crc h)) ((a, v) :: b_regs h) (b_sent h) (b_buf h).

Definition board_bus : Bus := {|
  hw := board;
  mmio_rd := board_rd;
  mmio_wr := board_wr;
  ktick h := (0, h);
  os_delay _ h := h;
|}.

#[export] Instance board_narrow : Narrow board_bus := {|
  mmio_rd8 a (h : @hw board_bus) := ((mem_byte (f_mem (b_flash h)) a, h) : Z * @hw board_bus);
  mmio_wr8 a v (h : @hw board_bus) :=
    (Board (b_flash h) (crc_wr8 a v (b_crc h)) (b_regs h) (b_sent h) (b_buf h) : @hw board_bus);
  mmio_wr16 _ _ (h : @hw board_bus) := h;
|}.

#[export] Instance board_flash : FlashDev board_bus.
Proof.
  refine {| fl_view := b_flash : @hw board_bus -> fview; fl_now := fun _ => 0;
            fl_left := fun _ => 0%nat; fl_lat := 0; fl_step := 0 |}; try done.
  - intros h a. cbn. unfold board_rd, is_flash, fl_rd.
    destruct (a =? FLASH_SR) eqn:E1, (a =? FLASH_CR) eqn:E2, (in_flash a) eqn:E3; cbn [orb];
      try (pose proof (flash_rd_view (b_flash h) a) as H; unfold fl_rd in H;
           rewrite ?E1, ?E2, ?E3 in H; exact H).
    repeat case_match; reflexivity.
Defined.

#[export] Instance board_crcdev : CrcDev board_bus board_narrow board_flash.
Proof.
  refine {| cv := b_crc : @hw board_bus -> cview |}.
  - done.
  - intros h a v _ _. by split_and!.
  - intros h a. cbn. unfold board_rd. destruct (is_flash a); [done|].
    destruct (a =? _); [done|]. by destruct (a =? _).
  - intros h. reflexivity.
  - intros h _. reflexivity.
  - intros h a _ _. split_and!; try done. cbn. apply u8_small. unfold mem_byte.
    pose proof (Z.mod_pos_bound a 4 eq_refl). apply (bits_range _ _ 8); lia.
Defined.

(** The handle as MX_CRC_Init leaves it. *)
Definition hcrc_ready : CRC_HandleTypeDef :=
  CrcHandle CRC_BASE 0 0 0 0 0 0 0 false HAL_CRC_STATE_READY CRC_INPUTDATA_FORMAT_BYTES.

(** An image of five bytes with its tag; [w] is its first word. *)
Definition five (w a : Z) : Z :=
  if a =? TAG_ADDRESS then 5
  else if a =? IMAGE_ADDRESS then w
  else if a =? IMAGE_ADDRESS + 4 then 0xFFFFFF31
  else ERASED.
Definition five_board (w : Z) : @mach board_bus unit :=
  @Mach board_bus unit (Board (FView 0 0 (five w) false) (CView 7 0x98 1 2) [] [] []) [] tt.

Lemma CAL_CRC_correct_witness :
  wp (CAL_CRC (B := board_bus) hcrc_ready) (five_board 0x12345678) (fun r _ => r = 0x73ADAD73).
Proof.
  eapply wp_mono.
  - apply (CAL_CRC_correct hcrc_ready (five_board 0x12345678)).
    + by split_and!.
    + reflexivity.
    + apply Z.leb_le. vm_compute. reflexivity.
  - intros r s' (Hr & _). rewrite Hr. vm_compute. reflexivity.
Defined.

Lemma CAL_CRC_detects_witness :
  wp (CAL_CRC (B := board_bus) hcrc_ready) (five_board 0x12345678) (fun r _ =>
    wp (CAL_CRC (B := board_bus) hcrc_ready) (five_board 0x12345679) (fun r' _ => r <> r')).
Proof.
  apply (CAL_CRC_detects hcrc_ready (five_board 0x12345678) (five_board 0x12345679) 0).
  - by split_and!.
  - reflexivity.
  - reflexivity.
  - apply Z.leb_le. vm_compute. reflexivity.
  - vm_compute. reflexivity.
  - split_and!.
    + lia.
    + apply Z.ltb_lt. vm_compute. reflexivity.
    + vm_compute. discriminate.
    + intros j Hj Hne. change (_ / 4) with 1 in Hj. lia.
    + intros j Hj. change (4 * (_ / 4)) with 4 in Hj. change (tag_word _ _) with 5 in Hj.
      assert (j = 4) as -> by lia. vm_compute. reflexivity.
Defined.
