(* ===== verification/Reset.v ===== *)
(** What survives a reset and what causes one: the boot flag of src/reset.c in
    a backup register, the reset flags of the RCC (inc/stm32f7xx_hal_rcc.h), the
    independent watchdog of src/stm32f7xx_hal_iwdg.c, and the reset request. *)
From S2P Require Import Prelude Machine SysArch FlashHal.

#[local] Open Scope fw_scope.

Definition RTC_BKP1R : Z := 0x40002854.
Definition PWR_CR1 : Z := 0x40007000.
Definition RCC_BASE : Z := 0x40023800.
Definition RCC_CR : Z := RCC_BASE + 0x00.
Definition RCC_CIR : Z := RCC_BASE + 0x0C.
Definition RCC_AHB1ENR : Z := RCC_BASE + 0x30.
Definition RCC_APB1ENR : Z := RCC_BASE + 0x40.
Definition RCC_BDCR : Z := RCC_BASE + 0x70.
Definition RCC_CSR : Z := RCC_BASE + 0x74.
Definition RCC_APB1ENR_PWREN : Z := 0x10000000.
Definition PWR_CR1_DBP : Z := 0x100.
Definition RCC_BDCR_RTCEN : Z := 0x8000.
Definition RCC_CSR_RMVF : Z := 0x01000000.
Definition RCC_FLAG_IWDGRST : Z := 0x7D.
Definition RCC_FLAG_MASK : Z := 0x1F.
Definition SCB_VTOR : Z := 0xE000ED08.
Definition SCB_AIRCR : Z := 0xE000ED0C.
Definition SCB_AIRCR_PRIGROUP : Z := 0x700.
Definition SCB_AIRCR_SYSRESETREQ : Z := 0x4.

Definition BOOT_FLAG_SOFT_RESET : Z := 0xA5A5.

Definition IWDG : Z := 0x40003000.
Definition IWDG_KR (i : Z) : Z := i + 0x00.
Definition IWDG_PR (i : Z) : Z := i + 0x04.
Definition IWDG_RLR (i : Z) : Z := i + 0x08.
Definition IWDG_SR (i : Z) : Z := i + 0x0C.
Definition IWDG_WINR (i : Z) : Z := i + 0x10.
Definition IWDG_KEY_RELOAD : Z := 0xAAAA.
Definition IWDG_KEY_ENABLE : Z := 0xCCCC.
Definition IWDG_KEY_WRITE_ACCESS_ENABLE : Z := 0x5555.
Definition IWDG_PRESCALER_32 : Z := 3.
Definition IWDG_KERNEL_UPDATE_FLAGS : Z := 0x7.
Definition LSI_VALUE : Z := 32000.
Definition LSI_STARTUP_TIME : Z := 40.
Definition HAL_IWDG_DEFAULT_TIMEOUT : Z :=
  (6 * 256 * 1000) / (LSI_VALUE / 128) + (LSI_STARTUP_TIME / 1000 + 1).

(** [IWDG_HandleTypeDef] *)
Record IWDG_HandleTypeDef := IwdgHandle {
  iwdg_Instance : Z; Prescaler : Z; Reload : Z; Window : Z }.

Section reset.
Context {B : Bus} {G : Type}.
Abbreviation prog := (M (mach G)).

Definition write_boot_flag_soft_reset : prog unit := wr RTC_BKP1R BOOT_FLAG_SOFT_RESET.
Definition clear_boot_flag : prog unit := wr RTC_BKP1R 0.
Definition is_soft_reset : prog Z :=
  val <- rd RTC_BKP1R ;; ret (Z.b2z (val =? BOOT_FLAG_SOFT_RESET)).

Definition MX_RTC_Init : prog unit :=
  set_bits RCC_APB1ENR RCC_APB1ENR_PWREN ;;
  set_bits PWR_CR1 PWR_CR1_DBP ;;
  set_bits RCC_BDCR RCC_BDCR_RTCEN.

Definition HAL_RCC_GET_FLAG (flag : Z) : prog bool :=
  v <- rd (if flag .>> 5 =? 1 then RCC_CR
           else if flag .>> 5 =? 2 then RCC_BDCR
           else if flag .>> 5 =? 3 then RCC_CSR
           else RCC_CIR) ;;
  ret (any_bit v (1 .<< (flag .& RCC_FLAG_MASK))).
Definition HAL_RCC_CLEAR_RESET_FLAGS : prog unit := set_bits RCC_CSR RCC_CSR_RMVF.

(** The reset is requested and the processor waits for it. *)
Definition NVIC_SystemReset {A} : prog A :=
  rmw SCB_AIRCR (fun v => (0x5FA .<< 16) .| (v .& SCB_AIRCR_PRIGROUP) .| SCB_AIRCR_SYSRESETREQ) ;;
  halt.

(** The wait of HAL_IWDG_Init: [true] when it ends with HAL_TIMEOUT. *)
Fixpoint iwdg_wait (fuel : nat) (inst tickstart : Z) : prog bool :=
  match fuel with
  | O => spin
  | S n =>
      sr <- rd (IWDG_SR inst) ;;
      if any_bit sr IWDG_KERNEL_UPDATE_FLAGS then
        now <- HAL_GetTick ;;
        if HAL_IWDG_DEFAULT_TIMEOUT <? u32 (now - tickstart) then
          sr <- rd (IWDG_SR inst) ;;
          if any_bit sr IWDG_KERNEL_UPDATE_FLAGS then ret true else iwdg_wait n inst tickstart
        else iwdg_wait n inst tickstart
      else ret false
  end.

Definition HAL_IWDG_Init (fuel : nat) (hiwdg : option IWDG_HandleTypeDef) : prog Z :=
  match hiwdg with
  | None => ret HAL_ERROR
  | Some h =>
      let i := iwdg_Instance h in
      wr (IWDG_KR i) IWDG_KEY_ENABLE ;;
      wr (IWDG_KR i) IWDG_KEY_WRITE_ACCESS_ENABLE ;;
      wr (IWDG_PR i) (Prescaler h) ;;
      wr (IWDG_RLR i) (Reload h) ;;
      tickstart <- HAL_GetTick ;;
      late <- iwdg_wait fuel i tickstart ;;
      if late : bool then ret HAL_TIMEOUT
      else
        w <- rd (IWDG_WINR i) ;;
        (if negb (w =? Window h) then wr (IWDG_WINR i) (Window h)
         else wr (IWDG_KR i) IWDG_KEY_RELOAD) ;;
        ret HAL_OK
  end.

Definition HAL_IWDG_Refresh (hiwdg : IWDG_HandleTypeDef) : prog Z :=
  wr (IWDG_KR (iwdg_Instance hiwdg)) IWDG_KEY_RELOAD ;; ret HAL_OK.
End reset.
