(* ===== verification/Cortex.v ===== *)
(** The interrupt controller, the system timer and the memory protection unit:
    src/stm32f7xx_hal_cortex.c and the functions of inc/core_cm7.h it uses. *)
From S2P Require Import Prelude Machine SysArch FlashHal Reset.

#[local] Open Scope fw_scope.

Definition NVIC_BASE : Z := 0xE000E100.
Definition NVIC_ISER (i : Z) : Z := NVIC_BASE + 0x000 + 4 * i.
Definition NVIC_ICER (i : Z) : Z := NVIC_BASE + 0x080 + 4 * i.
Definition NVIC_ISPR (i : Z) : Z := NVIC_BASE + 0x100 + 4 * i.
Definition NVIC_ICPR (i : Z) : Z := NVIC_BASE + 0x180 + 4 * i.
Definition NVIC_IABR (i : Z) : Z := NVIC_BASE + 0x200 + 4 * i.
Definition NVIC_IP (i : Z) : Z := NVIC_BASE + 0x300 + i.
Definition SCB_SHPR (i : Z) : Z := 0xE000ED18 + i.
Definition SCB_SHCSR : Z := 0xE000ED24.
Definition SCB_SHCSR_MEMFAULTENA_Msk : Z := 0x10000.
Definition SCB_AIRCR_VECTKEY_Msk : Z := 0xFFFF0000.
Definition NVIC_PRIO_BITS : Z := 4.
Definition SysTick_CTRL : Z := 0xE000E010.
Definition SysTick_LOAD : Z := 0xE000E014.
Definition SysTick_VAL : Z := 0xE000E018.
Definition SysTick_LOAD_RELOAD_Msk : Z := 0xFFFFFF.
Definition SysTick_IRQn : Z := -1.
Definition SYSTICK_CLKSOURCE_HCLK : Z := 0x4.
Definition MPU_CTRL : Z := 0xE000ED94.
Definition MPU_RNR : Z := 0xE000ED98.
Definition MPU_RBAR : Z := 0xE000ED9C.
Definition MPU_RASR : Z := 0xE000EDA0.
Definition MPU_CTRL_ENABLE_Msk : Z := 0x1.

(** [MPU_Region_InitTypeDef] *)
Record MPU_Region_InitTypeDef := MpuRegion {
  Enable : Z; Number : Z; BaseAddress : Z; Size : Z; SubRegionDisable : Z; TypeExtField : Z;
  AccessPermission : Z; DisableExec : Z; IsShareable : Z; IsCacheable : Z; IsBufferable : Z }.

(** ** Priorities

    The two fields of a priority: how many of the four implemented bits are
    preemption priority and how many are sub-priority. *)
Definition PreemptPriorityBits (PriorityGroup : Z) : Z :=
  let g := PriorityGroup .& 7 in if NVIC_PRIO_BITS <? 7 - g then NVIC_PRIO_BITS else 7 - g.
Definition SubPriorityBits (PriorityGroup : Z) : Z :=
  let g := PriorityGroup .& 7 in if g + NVIC_PRIO_BITS <? 7 then 0 else g - 7 + NVIC_PRIO_BITS.

Definition NVIC_EncodePriority (PriorityGroup PreemptPriority SubPriority : Z) : Z :=
  u32 ((PreemptPriority .& ((1 .<< PreemptPriorityBits PriorityGroup) - 1))
         .<< SubPriorityBits PriorityGroup)
  .| (SubPriority .& ((1 .<< SubPriorityBits PriorityGroup) - 1)).
Definition NVIC_DecodePriority (Priority PriorityGroup : Z) : Z * Z :=
  ((Priority .>> SubPriorityBits PriorityGroup) .& ((1 .<< PreemptPriorityBits PriorityGroup) - 1),
   Priority .& ((1 .<< SubPriorityBits PriorityGroup) - 1)).

Section cortex.
Context {B : Bus} {N : Narrow B} {G : Type}.
Abbreviation prog := (M (mach G)).

(** An interrupt number is a signed 32-bit integer; [u32] is its cast. *)
Definition NVIC_SetPriorityGrouping (PriorityGroup : Z) : prog unit :=
  rmw SCB_AIRCR (fun v => (v .& not32 (SCB_AIRCR_VECTKEY_Msk .| SCB_AIRCR_PRIGROUP))
                          .| (0x5FA .<< 16) .| ((PriorityGroup .& 7) .<< 8)).
Definition NVIC_GetPriorityGrouping : prog Z :=
  v <- rd SCB_AIRCR ;; ret ((v .& SCB_AIRCR_PRIGROUP) .>> 8).

Definition irq_bit (IRQn : Z) : Z := 1 .<< (u32 IRQn .& 0x1F).
Definition irq_word (IRQn : Z) : Z := u32 IRQn .>> 5.

Definition NVIC_EnableIRQ (IRQn : Z) : prog unit :=
  if 0 <=? IRQn then wr (NVIC_ISER (irq_word IRQn)) (irq_bit IRQn) else ret tt.
Definition NVIC_DisableIRQ (IRQn : Z) : prog unit :=
  if 0 <=? IRQn then wr (NVIC_ICER (irq_word IRQn)) (irq_bit IRQn) else ret tt.
Definition NVIC_SetPendingIRQ (IRQn : Z) : prog unit :=
  if 0 <=? IRQn then wr (NVIC_ISPR (irq_word IRQn)) (irq_bit IRQn) else ret tt.
Definition NVIC_ClearPendingIRQ (IRQn : Z) : prog unit :=
  if 0 <=? IRQn then wr (NVIC_ICPR (irq_word IRQn)) (irq_bit IRQn) else ret tt.
Definition NVIC_GetPendingIRQ (IRQn : Z) : prog Z :=
  if 0 <=? IRQn then v <- rd (NVIC_ISPR (irq_word IRQn)) ;; ret (Z.b2z (any_bit v (irq_bit IRQn)))
  else ret 0.
Definition NVIC_GetActive (IRQn : Z) : prog Z :=
  if 0 <=? IRQn then v <- rd (NVIC_IABR (irq_word IRQn)) ;; ret (Z.b2z (any_bit v (irq_bit IRQn)))
  else ret 0.

(** The priority register of an interrupt or of a system handler. *)
Definition priority_reg (IRQn : Z) : Z :=
  if 0 <=? IRQn then NVIC_IP (u32 IRQn) else SCB_SHPR ((u32 IRQn .& 0xF) - 4).
Definition NVIC_SetPriority (IRQn priority : Z) : prog unit :=
  wr8 (priority_reg IRQn) (u32 (priority .<< (8 - NVIC_PRIO_BITS)) .& 0xFF).
Definition NVIC_GetPriority (IRQn : Z) : prog Z :=
  v <- rd8 (priority_reg IRQn) ;; ret (v .>> (8 - NVIC_PRIO_BITS)).

Definition SysTick_Config (ticks : Z) : prog Z :=
  if SysTick_LOAD_RELOAD_Msk <? u32 (ticks - 1) then ret 1
  else
    wr SysTick_LOAD (ticks - 1) ;;
    NVIC_SetPriority SysTick_IRQn ((1 .<< NVIC_PRIO_BITS) - 1) ;;
    wr SysTick_VAL 0 ;;
    wr SysTick_CTRL (0x4 .| 0x2 .| 0x1) ;;
    ret 0.

(** ** The HAL *)

Definition HAL_NVIC_SetPriorityGrouping (PriorityGroup : Z) : prog unit :=
  NVIC_SetPriorityGrouping PriorityGroup.
Definition HAL_NVIC_SetPriority (IRQn PreemptPriority SubPriority : Z) : prog unit :=
  prioritygroup <- NVIC_GetPriorityGrouping ;;
  NVIC_SetPriority IRQn (NVIC_EncodePriority prioritygroup PreemptPriority SubPriority).
Definition HAL_NVIC_EnableIRQ (IRQn : Z) : prog unit := NVIC_EnableIRQ IRQn.
Definition HAL_NVIC_DisableIRQ (IRQn : Z) : prog unit := NVIC_DisableIRQ IRQn.
Definition HAL_NVIC_SystemReset {A} : prog A := NVIC_SystemReset.
Definition HAL_SYSTICK_Config (TicksNumb : Z) : prog Z := SysTick_Config TicksNumb.
Definition HAL_NVIC_GetPriorityGrouping : prog Z := NVIC_GetPriorityGrouping.
Definition HAL_NVIC_GetPriority (IRQn PriorityGroup : Z) : prog (Z * Z) :=
  p <- NVIC_GetPriority IRQn ;; ret (NVIC_DecodePriority p PriorityGroup).
Definition HAL_NVIC_SetPendingIRQ (IRQn : Z) : prog unit := NVIC_SetPendingIRQ IRQn.
Definition HAL_NVIC_GetPendingIRQ (IRQn : Z) : prog Z := NVIC_GetPendingIRQ IRQn.
Definition HAL_NVIC_ClearPendingIRQ (IRQn : Z) : prog unit := NVIC_ClearPendingIRQ IRQn.
Definition HAL_NVIC_GetActive (IRQn : Z) : prog Z := NVIC_GetActive IRQn.

Definition HAL_MPU_Disable : prog unit :=
  keep_bits SCB_SHCSR (not32 SCB_SHCSR_MEMFAULTENA_Msk) ;; wr MPU_CTRL 0.
Definition HAL_MPU_Enable (MPU_Control : Z) : prog unit :=
  wr MPU_CTRL (MPU_Control .| MPU_CTRL_ENABLE_Msk) ;;
  set_bits SCB_SHCSR SCB_SHCSR_MEMFAULTENA_Msk.
Definition HAL_MPU_ConfigRegion (r : MPU_Region_InitTypeDef) : prog unit :=
  wr MPU_RNR (Number r) ;;
  if negb (Enable r =? 0) then
    wr MPU_RBAR (BaseAddress r) ;;
    wr MPU_RASR ((DisableExec r .<< 28) .| (AccessPermission r .<< 24) .| (TypeExtField r .<< 19)
      .| (IsShareable r .<< 18) .| (IsCacheable r .<< 17) .| (IsBufferable r .<< 16)
      .| (SubRegionDisable r .<< 8) .| (Size r .<< 1) .| (Enable r .<< 0))
  else
    wr MPU_RBAR 0 ;;
    wr MPU_RASR 0.

Definition HAL_SYSTICK_CLKSourceConfig (CLKSource : Z) : prog unit :=
  if CLKSource =? SYSTICK_CLKSOURCE_HCLK then set_bits SysTick_CTRL SYSTICK_CLKSOURCE_HCLK
  else keep_bits SysTick_CTRL (not32 SYSTICK_CLKSOURCE_HCLK).

(** Weak and empty; the system timer belongs to the RTOS. *)
Definition HAL_SYSTICK_Callback : prog unit := ret tt.
Definition HAL_SYSTICK_IRQHandler : prog unit := HAL_SYSTICK_Callback.
End cortex.

(** * Encoding a priority *)

(** The value of the priority register, and what is decoded from it. *)
Definition stored_priority (g p q : Z) : Z :=
  u8 (u32 (NVIC_EncodePriority g p q .<< (8 - NVIC_PRIO_BITS)) .& 0xFF).
Definition decoded_priority (g p q : Z) : Z * Z :=
  NVIC_DecodePriority (u8 (stored_priority g p q) .>> (8 - NVIC_PRIO_BITS)) g.

Definition priority_check : bool :=
  forallb (fun g => forallb (fun p => forallb (fun q =>
    (2 ^ PreemptPriorityBits g <=? p) || (2 ^ SubPriorityBits g <=? q) ||
    bool_decide (decoded_priority g p q = (p, q)))
    (zrange 0 16)) (zrange 0 16)) (zrange 0 8).

Lemma priority_bits_le g :
  0 <= g < 8 -> 2 ^ PreemptPriorityBits g <= 16 /\ 2 ^ SubPriorityBits g <= 16.
Proof. intros Hg. zenum g 8%nat; by vm_compute. Qed.

Lemma priority_decoded g p q :
  0 <= g < 8 -> 0 <= p < 2 ^ PreemptPriorityBits g -> 0 <= q < 2 ^ SubPriorityBits g ->
  decoded_priority g p q = (p, q).
Proof.
  intros Hg Hp Hq. destruct (priority_bits_le g Hg) as [Hpb Hqb].
  assert (priority_check = true) as Hc by (vm_compute; reflexivity).
  unfold priority_check in Hc. rewrite forallb_forall in Hc.
  specialize (Hc g). rewrite <- list_elem_of_In, elem_of_zrange, forallb_forall in Hc.
  specialize (Hc ltac:(lia) p). rewrite <- list_elem_of_In, elem_of_zrange, forallb_forall in Hc.
  specialize (Hc ltac:(lia) q). rewrite <- list_elem_of_In, elem_of_zrange in Hc.
  specialize (Hc ltac:(lia)).
  destruct (Z.leb_spec (2 ^ PreemptPriorityBits g) p), (Z.leb_spec (2 ^ SubPriorityBits g) q);
    try lia. by apply bool_decide_eq_true in Hc.
Qed.

Section priorities.
Context {B : Bus} {N : Narrow B} {G : Type}.
Implicit Types s : mach G.

(** Reading AIRCR does not change it, and a priority byte holds what is written. *)
Definition grouping s : Z := (u32 (fst (mmio_rd SCB_AIRCR (dev s))) .& SCB_AIRCR_PRIGROUP) .>> 8.
Definition holds_byte (a : Z) : Prop :=
  forall v (h : hw), 0 <= v < 256 -> fst (mmio_rd8 a (mmio_wr8 a v h)) = v.

Lemma grouping_range s : 0 <= grouping s < 8.
Proof.
  unfold grouping, SCB_AIRCR_PRIGROUP. generalize (u32 (fst (mmio_rd SCB_AIRCR (dev s)))); intros w.
  assert ((w .& 0x700) .>> 8 = bits w 8 3) as ->.
  { apply Z.bits_inj'. intros i Hi. unfold bits.
    rewrite Z.shiftr_spec, !Z.land_spec, Z.shiftr_spec by lia. f_equal.
    change 0x700 with (Z.shiftl (Z.ones 3) 8). by rewrite Z.shiftl_spec, Z.add_simpl_r by lia. }
  apply bits_range; lia.
Qed.

(** A priority set for an interrupt reads back: whatever grouping is
    configured, both fields of a priority that fits the grouping come back from
    HAL_NVIC_GetPriority after HAL_NVIC_SetPriority, for interrupts and for system
    handlers. *)
Theorem HAL_NVIC_priority_roundtrip IRQn p q s :
  holds_byte (priority_reg IRQn) ->
  0 <= p < 2 ^ PreemptPriorityBits (grouping s) ->
  0 <= q < 2 ^ SubPriorityBits (grouping s) ->
  wp (HAL_NVIC_SetPriority IRQn p q ;; HAL_NVIC_GetPriority IRQn (grouping s)) s
    (fun r _ => r = (p, q)).
Proof.
  intros Hb Hp Hq. pose proof (priority_decoded _ p q (grouping_range s) Hp Hq) as Hd.
  unfold wp, bind, HAL_NVIC_SetPriority, HAL_NVIC_GetPriority, NVIC_GetPriorityGrouping,
    NVIC_SetPriority, NVIC_GetPriority, rd, rd8, wr8, ret, bind. cbn -[grouping].
  rewrite Hb by apply u8_range. exact Hd.
Qed.
End priorities.

Section witnesses.
(** A bus whose bytes are memory and whose words read as 0. *)
Definition byte_bus : Bus := {|
  hw := list (Z * Z);
  mmio_rd _ h := (0, h);
  mmio_wr _ _ h := h;
  ktick h := (0, h);
  os_delay _ h := h;
|}.
Definition byte_narrow : Narrow byte_bus := {|
  mmio_rd8 a (h : @hw byte_bus) := (default 0 (snd <$> find (fun p => fst p =? a) h), h);
  mmio_wr8 a v (h : @hw byte_bus) := (a, v) :: h;
  mmio_wr16 _ _ (h : @hw byte_bus) := h;
|}.
#[local] Existing Instance byte_bus.
#[local] Existing Instance byte_narrow.

Definition byte_start : mach unit := @Mach byte_bus unit [] [] tt.

(** The priority 5 of the Ethernet interrupt. *)
Lemma HAL_NVIC_priority_roundtrip_witness :
  wp (HAL_NVIC_SetPriority 61 5 0 ;; HAL_NVIC_GetPriority 61 0) byte_start
    (fun r _ => r = (5, 0)).
Proof.
  apply (HAL_NVIC_priority_roundtrip 61 5 0 byte_start).
  - intros v h Hv. cbn -[priority_reg]. by rewrite Z.eqb_refl.
  - vm_compute; split; [discriminate|reflexivity].
  - vm_compute; split; [discriminate|reflexivity].
Defined.
End witnesses.
