(* ===== verification/Gpio.v ===== *)
(** The pins, src/stm32f7xx_hal_gpio.c: configuration of a port's pins with the
    external interrupt lines, and the pin operations. *)
From S2P Require Import Prelude Machine SysArch FlashHal Reset.

#[local] Open Scope fw_scope.

Definition GPIOA : Z := 0x40020000.
Definition GPIOB : Z := 0x40020400.
Definition GPIOC : Z := 0x40020800.
Definition GPIOG : Z := 0x40021800.
Definition GPIO_MODER (x : Z) : Z := x + 0x00.
Definition GPIO_OTYPER (x : Z) : Z := x + 0x04.
Definition GPIO_OSPEEDR (x : Z) : Z := x + 0x08.
Definition GPIO_PUPDR (x : Z) : Z := x + 0x0C.
Definition GPIO_IDR (x : Z) : Z := x + 0x10.
Definition GPIO_ODR (x : Z) : Z := x + 0x14.
Definition GPIO_BSRR (x : Z) : Z := x + 0x18.
Definition GPIO_LCKR (x : Z) : Z := x + 0x1C.
Definition GPIO_AFR (x i : Z) : Z := x + 0x20 + 4 * i.
Definition GPIO_LCKR_LCKK : Z := 0x10000.

Definition SYSCFG_PMC : Z := 0x40013804.
Definition SYSCFG_EXTICR (i : Z) : Z := 0x40013808 + 4 * i.
Definition EXTI_IMR : Z := 0x40013C00.
Definition EXTI_EMR : Z := 0x40013C04.
Definition EXTI_RTSR : Z := 0x40013C08.
Definition EXTI_FTSR : Z := 0x40013C0C.
Definition EXTI_PR : Z := 0x40013C14.
Definition RCC_APB2ENR : Z := RCC_BASE + 0x44.
Definition RCC_APB2ENR_SYSCFGEN : Z := 0x4000.

Definition GPIO_MODE : Z := 0x3.
Definition EXTI_MODE : Z := 0x10000000.
Definition GPIO_MODE_IT : Z := 0x10000.
Definition GPIO_MODE_EVT : Z := 0x20000.
Definition RISING_EDGE : Z := 0x100000.
Definition FALLING_EDGE : Z := 0x200000.
Definition GPIO_OUTPUT_TYPE : Z := 0x10.
Definition GPIO_NUMBER : Z := 16.

Definition GPIO_MODE_INPUT : Z := 0x00.
Definition GPIO_MODE_OUTPUT_PP : Z := 0x01.
Definition GPIO_MODE_OUTPUT_OD : Z := 0x11.
Definition GPIO_MODE_AF_PP : Z := 0x02.
Definition GPIO_MODE_AF_OD : Z := 0x12.
Definition GPIO_MODE_ANALOG : Z := 0x03.
Definition GPIO_NOPULL : Z := 0.
Definition GPIO_SPEED_FREQ_VERY_HIGH : Z := 3.
Definition GPIO_AF11_ETH : Z := 0x0B.

(** [GPIO_InitTypeDef] *)
Record GPIO_InitTypeDef := GpioInit {
  Pin : Z; Mode : Z; Pull : Z; Speed : Z; Alternate : Z }.

(** The ports A to K are 0x400 apart; every other address counts as port K. *)
Definition GPIO_GET_INDEX (x : Z) : Z :=
  if ((x - GPIOA) mod 0x400 =? 0) && (0 <=? (x - GPIOA) / 0x400) && ((x - GPIOA) / 0x400 <? 10)
  then (x - GPIOA) / 0x400 else 10.

Section gpio.
Context {B : Bus} {G : Type}.
Abbreviation prog := (M (mach G)).

Definition HAL_RCC_SYSCFG_CLK_ENABLE : prog unit :=
  set_bits RCC_APB2ENR RCC_APB2ENR_SYSCFGEN ;; rd RCC_APB2ENR ;; ret tt.

(** [temp = reg; temp &= ~(mask << sh); temp |= (v << sh); reg = temp;] *)
Definition put_field (reg mask v sh : Z) : prog unit :=
  rmw reg (fun temp => (temp .& not32 (mask .<< sh)) .| u32 (v .<< sh)).

(** An edge or interrupt bit of line [iocurrent] follows a bit of the mode. *)
Definition put_line (reg iocurrent Mode bit : Z) : prog unit :=
  rmw reg (fun temp => let temp := temp .& not32 iocurrent in
    if Mode .& bit =? bit then temp .| iocurrent else temp).

(** The EXTI part of a pin's configuration. *)
Definition exti_config (x position iocurrent Mode : Z) : prog unit :=
  HAL_RCC_SYSCFG_CLK_ENABLE ;;
  put_field (SYSCFG_EXTICR (position .>> 2)) 0xF (GPIO_GET_INDEX x) (4 * (position .& 3)) ;;
  put_line EXTI_IMR iocurrent Mode GPIO_MODE_IT ;;
  put_line EXTI_EMR iocurrent Mode GPIO_MODE_EVT ;;
  put_line EXTI_RTSR iocurrent Mode RISING_EDGE ;;
  put_line EXTI_FTSR iocurrent Mode FALLING_EDGE.

Definition is_af (Mode : Z) : bool := (Mode =? GPIO_MODE_AF_PP) || (Mode =? GPIO_MODE_AF_OD).
Definition is_output (Mode : Z) : bool :=
  (Mode =? GPIO_MODE_OUTPUT_PP) || (Mode =? GPIO_MODE_AF_PP) ||
  (Mode =? GPIO_MODE_OUTPUT_OD) || (Mode =? GPIO_MODE_AF_OD).

(** The body of the loop of [HAL_GPIO_Init] for a selected pin. *)
Definition init_pin (x : Z) (g : GPIO_InitTypeDef) (position : Z) : prog unit :=
  let iocurrent := 1 .<< position in
  (if is_output (Mode g) then
     put_field (GPIO_OSPEEDR x) 3 (Speed g) (position * 2) ;;
     put_field (GPIO_OTYPER x) 1 ((Mode g .& GPIO_OUTPUT_TYPE) .>> 4) position
   else ret tt) ;;
  put_field (GPIO_PUPDR x) 3 (Pull g) (position * 2) ;;
  (if is_af (Mode g) then
     put_field (GPIO_AFR x (position .>> 3)) 0xF (Alternate g) ((position .& 7) * 4)
   else ret tt) ;;
  put_field (GPIO_MODER x) 3 (Mode g .& GPIO_MODE) (position * 2) ;;
  if Mode g .& EXTI_MODE =? EXTI_MODE then exti_config x position iocurrent (Mode g) else ret tt.

Definition HAL_GPIO_Init (x : Z) (g : GPIO_InitTypeDef) : prog unit :=
  for_each (zrange 0 (Z.to_nat GPIO_NUMBER)) (fun position =>
    let ioposition := 1 .<< position in
    if Pin g .& ioposition =? ioposition then init_pin x g position else ret tt).

(** The interrupt line of a pin is released if it belongs to this port. *)
Definition exti_release (x position iocurrent : Z) : prog unit :=
  tmp <- rd (SYSCFG_EXTICR (position .>> 2)) ;;
  if tmp .& (0x0F .<< (4 * (position .& 3))) =? GPIO_GET_INDEX x .<< (4 * (position .& 3)) then
    keep_bits EXTI_IMR (not32 iocurrent) ;;
    keep_bits EXTI_EMR (not32 iocurrent) ;;
    keep_bits EXTI_RTSR (not32 iocurrent) ;;
    keep_bits EXTI_FTSR (not32 iocurrent) ;;
    keep_bits (SYSCFG_EXTICR (position .>> 2)) (not32 (0x0F .<< (4 * (position .& 3))))
  else ret tt.

Definition deinit_pin (x position : Z) : prog unit :=
  exti_release x position (1 .<< position) ;;
  keep_bits (GPIO_MODER x) (not32 (3 .<< (position * 2))) ;;
  keep_bits (GPIO_AFR x (position .>> 3)) (not32 (0xF .<< ((position .& 7) * 4))) ;;
  keep_bits (GPIO_PUPDR x) (not32 (3 .<< (position * 2))) ;;
  keep_bits (GPIO_OTYPER x) (not32 (1 .<< position)) ;;
  keep_bits (GPIO_OSPEEDR x) (not32 (3 .<< (position * 2))).

Definition HAL_GPIO_DeInit (x GPIO_Pin : Z) : prog unit :=
  for_each (zrange 0 (Z.to_nat GPIO_NUMBER)) (fun position =>
    let ioposition := 1 .<< position in
    if GPIO_Pin .& ioposition =? ioposition then deinit_pin x position else ret tt).

Definition HAL_GPIO_ReadPin (x GPIO_Pin : Z) : prog bool :=
  v <- rd (GPIO_IDR x) ;; ret (any_bit v GPIO_Pin).
Definition HAL_GPIO_WritePin (x GPIO_Pin : Z) (PinState : bool) : prog unit :=
  if PinState then wr (GPIO_BSRR x) GPIO_Pin else wr (GPIO_BSRR x) (GPIO_Pin .<< 16).
Definition HAL_GPIO_TogglePin (x GPIO_Pin : Z) : prog unit :=
  v <- rd (GPIO_ODR x) ;;
  if any_bit v GPIO_Pin then wr (GPIO_BSRR x) (GPIO_Pin .<< GPIO_NUMBER)
  else wr (GPIO_BSRR x) GPIO_Pin.
Definition HAL_GPIO_LockPin (x GPIO_Pin : Z) : prog Z :=
  let tmp := GPIO_LCKR_LCKK .| GPIO_Pin in
  wr (GPIO_LCKR x) tmp ;;
  wr (GPIO_LCKR x) GPIO_Pin ;;
  wr (GPIO_LCKR x) tmp ;;
  rd (GPIO_LCKR x) ;;
  v <- rd (GPIO_LCKR x) ;;
  ret (if any_bit v GPIO_LCKR_LCKK then HAL_OK else HAL_ERROR).

(** Weak and empty. *)
Definition HAL_GPIO_EXTI_Callback (GPIO_Pin : Z) : prog unit := ret tt.
Definition HAL_GPIO_EXTI_IRQHandler (GPIO_Pin : Z) : prog unit :=
  v <- rd EXTI_PR ;;
  if any_bit v GPIO_Pin then wr EXTI_PR GPIO_Pin ;; HAL_GPIO_EXTI_Callback GPIO_Pin else ret tt.
End gpio.

(** * The configuration of a port *)

(** What is configured for a pin: direction, output type, speed, pull and
    alternate function. *)
Record pin_config := PinConfig { c_mode : Z; c_type : Z; c_speed : Z; c_pull : Z; c_af : Z }.

Definition pin_of (m : Z -> Z) (x p : Z) : pin_config := {|
  c_mode := bits (m (GPIO_MODER x)) (2 * p) 2;
  c_type := bits (m (GPIO_OTYPER x)) (1 * p) 1;
  c_speed := bits (m (GPIO_OSPEEDR x)) (2 * p) 2;
  c_pull := bits (m (GPIO_PUPDR x)) (2 * p) 2;
  c_af := bits (m (GPIO_AFR x (p .>> 3))) (4 * (p .& 7)) 4;
|}.

(** What [HAL_GPIO_Init] is asked for: type and speed are set for outputs, the
    function for alternate functions. *)
Definition requested (g : GPIO_InitTypeDef) (old : pin_config) : pin_config := {|
  c_mode := Mode g .& GPIO_MODE;
  c_type := if is_output (Mode g) then (Mode g .& GPIO_OUTPUT_TYPE) .>> 4 else c_type old;
  c_speed := if is_output (Mode g) then Speed g else c_speed old;
  c_pull := Pull g;
  c_af := if is_af (Mode g) then Alternate g else c_af old;
|}.

(** The configuration registers of the port. *)
Definition config_reg (x a : Z) : Prop :=
  a = GPIO_MODER x \/ a = GPIO_OTYPER x \/ a = GPIO_OSPEEDR x \/ a = GPIO_PUPDR x \/
  a = GPIO_AFR x 0 \/ a = GPIO_AFR x 1.

Definition gpio_ok (g : GPIO_InitTypeDef) : Prop :=
  0 <= Speed g < 4 /\ 0 <= Pull g < 4 /\ 0 <= Alternate g < 16 /\
  (Mode g .& EXTI_MODE =? EXTI_MODE) = false.

(** One register of the port with one field replaced. *)
Definition field_put (m : Z -> Z) (a w i v : Z) : Z -> Z := upd m a (u32 (put_bits (u32 (m a)) w i v)).

Lemma type_bit v : 0 <= (v .& GPIO_OUTPUT_TYPE) .>> 4 < 2 ^ 1.
Proof.
  unfold GPIO_OUTPUT_TYPE. assert ((v .& 16) .>> 4 = bits v 4 1) as ->; [|apply bits_range; lia].
  apply Z.bits_inj'. intros i Hi. unfold bits.
  rewrite Z.shiftr_spec, !Z.land_spec, Z.shiftr_spec by lia. f_equal.
  change 16 with (Z.shiftl (Z.ones 1) 4). by rewrite Z.shiftl_spec, Z.add_simpl_r by lia.
Qed.

Lemma pin_position p : 0 <= p < 16 -> (p .>> 3 = 0 \/ p .>> 3 = 1) /\ 0 <= p .& 7 < 8.
Proof. intros Hp. zenum p 16%nat; (split; [|split]); vm_compute; intuition congruence. Qed.

Lemma pin_position_inj p q : 0 <= p < 16 -> 0 <= q < 16 -> p .>> 3 = q .>> 3 -> p .& 7 = q .& 7 -> p = q.
Proof.
  intros Hp Hq. change 7 with (Z.ones 3).
  rewrite !Z.land_ones, !Z.shiftr_div_pow2 by lia. change (2 ^ 3) with 8. zlia.
Qed.

Section port.
Context {B : Bus} {G : Type} (x : Z) {R : RegFile B (config_reg x)}.
Implicit Types s : mach G.

Lemma wp_put_field a mask w i v sh s (Q : unit -> mach G -> Prop) :
  config_reg x a -> mask = Z.ones w -> sh = w * i ->
  (forall s', reg_file (dev s') = field_put (reg_file (dev s)) a w i v -> Q tt s') ->
  wp (put_field a mask v sh) s Q.
Proof.
  intros Ha -> -> HQ. unfold put_field. apply wp_reg_rmw; [done|]. intros s' Hs' _. by apply HQ.
Qed.
End port.

(** The registers after a pin was configured. *)
Definition pin_put (x : Z) (g : GPIO_InitTypeDef) (q : Z) (m : Z -> Z) : Z -> Z :=
  let m := if is_output (Mode g) then
      field_put (field_put m (GPIO_OSPEEDR x) 2 q (Speed g)) (GPIO_OTYPER x) 1 q
        ((Mode g .& GPIO_OUTPUT_TYPE) .>> 4) else m in
  let m := field_put m (GPIO_PUPDR x) 2 q (Pull g) in
  let m := if is_af (Mode g) then
      field_put m (GPIO_AFR x (q .>> 3)) 4 (q .& 7) (Alternate g) else m in
  field_put m (GPIO_MODER x) 2 q (Mode g .& GPIO_MODE).

Lemma field_put_other m a w i v b : b <> a -> field_put m a w i v b = m b.
Proof. intros H. by apply upd_ne. Qed.

Lemma field_put_get m a w i v j :
  0 < w -> 0 <= i -> 0 <= j -> w * i + w <= 32 -> w * j + w <= 32 -> 0 <= v < 2 ^ w ->
  bits (field_put m a w i v a) (w * j) w = if j =? i then v else bits (m a) (w * j) w.
Proof. intros. unfold field_put. rewrite upd_eq. by apply put_bits_get. Qed.

Lemma pin_put_spec x g q p m :
  gpio_ok g -> 0 <= q < 16 -> 0 <= p < 16 ->
  pin_of (pin_put x g q m) x p = if p =? q then requested g (pin_of m x p) else pin_of m x p.
Proof.
  intros (Hs & Hp & Ha & _) Hq Hpp.
  destruct (pin_position q Hq) as [Hq3 Hq7], (pin_position p Hpp) as [Hp3 Hp7].
  assert (0 <= Mode g .& GPIO_MODE < 4) as Hm.
  { unfold GPIO_MODE. change 3 with (Z.ones 2). rewrite Z.land_ones by lia. by apply Z.mod_pos_bound. }
  pose proof (type_bit (Mode g)) as Ht.
  assert ((p =? q) = false -> p .>> 3 = q .>> 3 -> (p .& 7 =? q .& 7) = false) as Hinj.
  { intros Hne H3. apply Z.eqb_neq. intros H7. apply Z.eqb_neq in Hne. by apply Hne, pin_position_inj. }
  assert (forall m' w a v, 0 < w <= 2 -> 0 <= v < 2 ^ w ->
    bits (field_put m' a w q v a) (w * p) w = if p =? q then v else bits (m' a) (w * p) w) as Hf.
  { intros. apply field_put_get; nia. }
  assert (forall m', bits (field_put m' (GPIO_AFR x (q .>> 3)) 4 (q .& 7) (Alternate g)
      (GPIO_AFR x (p .>> 3))) (4 * (p .& 7)) 4 =
    if p =? q then Alternate g else bits (m' (GPIO_AFR x (p .>> 3))) (4 * (p .& 7)) 4) as Haf.
  { intros m'. destruct (Z.eq_dec (p .>> 3) (q .>> 3)) as [E|E].
    - rewrite E, field_put_get by lia. destruct (p =? q) eqn:Hpq.
      + apply Z.eqb_eq in Hpq. subst p. by rewrite Z.eqb_refl.
      + by rewrite Hinj.
    - rewrite field_put_other by (unfold GPIO_AFR; lia).
      destruct (Z.eqb_spec p q) as [->|]; [done|reflexivity]. }
  clear Hinj. unfold pin_put, pin_of, requested. revert Hf Haf.
  destruct (p =? q); intros Hf Haf; destruct (is_output (Mode g)), (is_af (Mode g)); cbv zeta;
    cbn [c_mode c_type c_speed c_pull c_af]; f_equal;
    repeat first [rewrite Haf | rewrite Hf by lia
      | rewrite field_put_other by
          (unfold GPIO_MODER, GPIO_OTYPER, GPIO_OSPEEDR, GPIO_PUPDR, GPIO_AFR; lia)]; done.
Qed.

(** The test of a single bit in the loops over the pins. *)
Lemma pin_selected v k : 0 <= k -> (v .& (1 .<< k) =? 1 .<< k) = Z.testbit v k.
Proof.
  intros Hk. rewrite Z.shiftl_1_l. pose proof (any_bit_pow2 v k Hk) as Ha. unfold any_bit in Ha.
  rewrite <- Ha. destruct (Z.eqb_spec (v .& 2 ^ k) (2 ^ k)) as [->|Hne].
  - symmetry. apply negb_true_iff, Z.eqb_neq. lia.
  - symmetry. apply negb_false_iff, Z.eqb_eq.
    destruct (Z.testbit v k) eqn:E.
    + destruct Hne. apply Z.bits_inj'. intros i Hi. rewrite Z.land_spec.
      destruct (decide (i = k)) as [->|]; [by rewrite E|].
      by rewrite Z.pow2_bits_false, andb_false_r by lia.
    + by apply negb_false_iff, Z.eqb_eq in Ha.
Qed.

Section port_properties.
Context {B : Bus} {G : Type} (x : Z) {R : RegFile B (config_reg x)}.
Implicit Types s : mach G.

Ltac put n k := apply wp_put_field with (x := x) (R := R) (w := n) (i := k);
  [unfold config_reg; intuition congruence|reflexivity|lia|].

Lemma wp_init_pin g q s (Q : unit -> mach G -> Prop) :
  gpio_ok g -> 0 <= q < 16 ->
  (forall s', reg_file (dev s') = pin_put x g q (reg_file (dev s)) -> Q tt s') ->
  wp (init_pin x g q) s Q.
Proof.
  intros (_ & _ & _ & He) Hq HQ. destruct (pin_position q Hq) as [H3 _].
  unfold init_pin. rewrite He. apply wp_bind.
  assert (forall s1, reg_file (dev s1) = (if is_output (Mode g) then
      field_put (field_put (reg_file (dev s)) (GPIO_OSPEEDR x) 2 q (Speed g)) (GPIO_OTYPER x) 1 q
        ((Mode g .& GPIO_OUTPUT_TYPE) .>> 4) else reg_file (dev s)) ->
    wp (put_field (GPIO_PUPDR x) 3 (Pull g) (q * 2) ;;
        (if is_af (Mode g) then
           put_field (GPIO_AFR x (q .>> 3)) 0xF (Alternate g) ((q .& 7) * 4) else ret tt) ;;
        put_field (GPIO_MODER x) 3 (Mode g .& GPIO_MODE) (q * 2) ;; ret tt) s1 Q) as Hrest.
  { intros s1 H1. apply wp_bind. put 2 q. intros s2 H2. apply wp_bind. unfold is_af in *.
    destruct (_ || _) eqn:Haf.
    - put 4 (q .& 7). intros s3 Hs3. apply wp_bind. put 2 q. intros s4 H4. apply HQ.
      unfold pin_put, is_af. rewrite Haf, H4, Hs3, H2, H1. done.
    - apply wp_ret, wp_bind. put 2 q. intros s4 H4. apply HQ.
      unfold pin_put, is_af. rewrite Haf, H4, H2, H1. done. }
  destruct (is_output (Mode g)).
  - apply wp_bind. put 2 q. intros s1 H1. put 1 q. intros s2 H2. apply Hrest. by rewrite H2, H1.
  - by apply wp_ret, Hrest.
Qed.

(** HAL_GPIO_Init configures exactly the selected pins: each of them gets the
    direction, pull and (as far as the mode has them) output type, speed and
    alternate function that were asked for, and every other pin of the port keeps
    its configuration. *)
Theorem HAL_GPIO_Init_configures g s :
  gpio_ok g ->
  wp (HAL_GPIO_Init x g) s (fun _ s' => forall p, 0 <= p < 16 ->
    pin_of (reg_file (dev s')) x p =
    if Z.testbit (Pin g) p then requested g (pin_of (reg_file (dev s)) x p)
    else pin_of (reg_file (dev s)) x p).
Proof.
  intros Hg. unfold HAL_GPIO_Init.
  apply wp_for_range with (I := fun k s' => forall p, 0 <= p < 16 ->
    pin_of (reg_file (dev s')) x p =
    if (p <? k) && Z.testbit (Pin g) p then requested g (pin_of (reg_file (dev s)) x p)
    else pin_of (reg_file (dev s)) x p).
  - intros p Hp. by destruct (Z.ltb_spec p 0); [lia|].
  - intros k s1 Hk HI. change (Z.of_nat (Z.to_nat GPIO_NUMBER)) with 16 in Hk. cbv zeta.
    assert ((Pin g .& (1 .<< k) =? 1 .<< k) = Z.testbit (Pin g) k) as ->.
    { apply (pin_selected (Pin g) k). lia. }
    destruct (Z.testbit (Pin g) k) eqn:Hbit.
    + apply wp_init_pin; [done|lia|]. intros s2 H2 p Hp. rewrite H2, pin_put_spec by (assumption || lia). rewrite HI by lia.
      destruct (Z.eqb_spec p k) as [->|Hne].
      * rewrite Hbit. destruct (Z.ltb_spec k k), (Z.ltb_spec k (k + 1)); try lia. done.
      * destruct (Z.ltb_spec p k), (Z.ltb_spec p (k + 1)); try lia; done.
    + apply wp_ret. intros p Hp. rewrite HI by lia.
      destruct (Z.ltb_spec p k), (Z.ltb_spec p (k + 1)); try lia; [done| |done].
      assert (p = k) as -> by lia. by rewrite Hbit.
  - intros s1 HI p Hp. rewrite HI by lia.
    change (0 + Z.of_nat (Z.to_nat GPIO_NUMBER)) with 16. by destruct (Z.ltb_spec p 16); [|lia].
Qed.
End port_properties.

Section witnesses.
#[local] Existing Instance file_bus.

(** The two transmit pins of the Ethernet interface, with every register at 0. *)
Definition eth_pins : GPIO_InitTypeDef :=
  GpioInit 0x6000 GPIO_MODE_AF_PP GPIO_NOPULL GPIO_SPEED_FREQ_VERY_HIGH GPIO_AF11_ETH.
Definition file_start : mach unit := @Mach file_bus unit (fun _ => 0) [] tt.

Lemma HAL_GPIO_Init_configures_witness :
  wp (HAL_GPIO_Init GPIOG eth_pins) file_start (fun _ s' =>
    pin_of (reg_file (P := config_reg GPIOG) (dev s')) GPIOG 14 = PinConfig 2 0 3 0 11 /\
    pin_of (reg_file (P := config_reg GPIOG) (dev s')) GPIOG 12 = PinConfig 0 0 0 0 0).
Proof.
  eapply wp_mono; [apply (HAL_GPIO_Init_configures GPIOG eth_pins file_start)|].
  - repeat split; vm_compute; congruence.
  - intros u s' H. split; rewrite H by lia; vm_compute; reflexivity.
Defined.
End witnesses.
