(* ===== verification/Clock.v ===== *)
(** The clocks as the firmware finds them: SystemCoreClockUpdate of
    src/system_router_pro_fd.c, which SystemInit calls, works out the core's
    frequency from the registers the bootloader has set, and HAL_RCC_GetHCLKFreq
    of src/stm32f7xx_hal_rcc.c hands it on. *)
From S2P Require Import Prelude Machine SysArch FlashHal Reset.

#[local] Open Scope fw_scope.

Definition RCC_PLLCFGR : Z := RCC_BASE + 0x04.
Definition RCC_CFGR : Z := RCC_BASE + 0x08.
Definition SCB_CPACR : Z := 0xE000ED88.
Definition RCC_CFGR_SWS : Z := 0xC.
Definition RCC_CFGR_HPRE : Z := 0xF0.
Definition RCC_PLLCFGR_PLLM : Z := 0x3F.
Definition RCC_PLLCFGR_PLLN : Z := 0x7FC0.
Definition RCC_PLLCFGR_PLLP : Z := 0x30000.
Definition RCC_PLLCFGR_PLLSRC : Z := 0x400000.
Definition HSE_VALUE : Z := 20000000.
Definition HSI_VALUE : Z := 16000000.
Definition SYSTEM_CLOCK : Z := 200000000.
Definition AHBPrescTable : list Z := [0; 0; 0; 0; 0; 0; 0; 0; 1; 2; 3; 4; 6; 7; 8; 9].

Record clk_glob := ClkGlob { SystemCoreClock : Z }.
Definition clk_init : clk_glob := ClkGlob SYSTEM_CLOCK.

Section clock.
Context {B : Bus}.
Abbreviation prog := (M (mach clk_glob)).

Definition set_core_clock (f : Z) : prog unit := modify_ (fun _ => ClkGlob f).

(** The PLL is the source: a division by the divider M that is 0 is undefined. *)
Definition pll_clock : prog unit :=
  v <- rd RCC_PLLCFGR ;;
  let pllsource := (v .& RCC_PLLCFGR_PLLSRC) .>> 22 in
  v <- rd RCC_PLLCFGR ;;
  let pllm := v .& RCC_PLLCFGR_PLLM in
  defined_if (negb (pllm =? 0)) ;;
  v <- rd RCC_PLLCFGR ;;
  let pllvco := u32 ((if negb (pllsource =? 0) then HSE_VALUE else HSI_VALUE) / pllm *
                     ((v .& RCC_PLLCFGR_PLLN) .>> 6)) in
  v <- rd RCC_PLLCFGR ;;
  let pllp := (((v .& RCC_PLLCFGR_PLLP) .>> 16) + 1) * 2 in
  set_core_clock (pllvco / pllp).

Definition SystemCoreClockUpdate : prog unit :=
  v <- rd RCC_CFGR ;;
  let tmp := v .& RCC_CFGR_SWS in
  (if tmp =? 0x00 then set_core_clock HSI_VALUE
   else if tmp =? 0x04 then set_core_clock HSE_VALUE
   else if tmp =? 0x08 then pll_clock
   else set_core_clock HSI_VALUE) ;;
  v <- rd RCC_CFGR ;;
  tmp <- deref (aget AHBPrescTable ((v .& RCC_CFGR_HPRE) .>> 4)) ;;
  modify_ (fun g => ClkGlob (SystemCoreClock g .>> tmp)).

(** The vector table [table] is placed by the linker; the floating-point unit is
    switched on (the Makefile selects hardware floating point). *)
Definition SystemInit (table : Z) : prog unit :=
  wr SCB_VTOR table ;;
  set_bits SCB_CPACR ((3 .<< (10 * 2)) .| (3 .<< (11 * 2))) ;;
  set_core_clock SYSTEM_CLOCK ;;
  SystemCoreClockUpdate.

Definition HAL_RCC_GetHCLKFreq : prog Z := g <- get_ ;; ret (SystemCoreClock g).
End clock.

(** * The frequency meant by the registers *)

(** Source frequency [src], divider [m], multiplier [n], divider [p]. *)
Definition pll_source (pllcfgr : Z) : Z := if Z.testbit pllcfgr 22 then HSE_VALUE else HSI_VALUE.
Definition pll_m (pllcfgr : Z) : Z := bits pllcfgr 0 6.
Definition pll_n (pllcfgr : Z) : Z := bits pllcfgr 6 9.
Definition pll_p (pllcfgr : Z) : Z := 2 * (bits pllcfgr 16 2 + 1).

(** Each 4-bit value of HPRE divides by a power of two (there is no 32). *)
Definition ahb_divider (cfgr : Z) : Z :=
  match bits cfgr 4 4 with
  | 8 => 2 | 9 => 4 | 10 => 8 | 11 => 16 | 12 => 64 | 13 => 128 | 14 => 256 | 15 => 512 | _ => 1
  end.

(** The core's frequency in Hz that the two registers stand for. *)
Definition core_clock (cfgr pllcfgr : Z) : Z :=
  match bits cfgr 2 2 with
  | 1 => HSE_VALUE / ahb_divider cfgr
  | 2 => pll_source pllcfgr * pll_n pllcfgr / (pll_m pllcfgr * pll_p pllcfgr * ahb_divider cfgr)
  | _ => HSI_VALUE / ahb_divider cfgr
  end.

Definition clock_reg (a : Z) : Prop := a = RCC_CFGR \/ a = RCC_PLLCFGR.

Lemma prescaler_divider v :
  exists k, aget AHBPrescTable ((v .& RCC_CFGR_HPRE) .>> 4) = Some k /\ 0 <= k /\ 2 ^ k = ahb_divider v.
Proof.
  change RCC_CFGR_HPRE with (Z.ones 4 .<< 4). rewrite land_field by lia. unfold ahb_divider.
  pose proof (bits_range v 4 4 ltac:(lia) ltac:(lia)) as Hr. change (2 ^ 4) with 16 in Hr.
  revert Hr. generalize (bits v 4 4). intros d Hd.
  zenum d 16%nat; eexists; (split; [reflexivity|split; [lia|reflexivity]]).
Qed.

Lemma sws_field cfgr : cfgr .& RCC_CFGR_SWS = bits cfgr 2 2 * 4.
Proof.
  rewrite <- (land_field cfgr 2 2), Z.shiftr_div_pow2 by lia. change (Z.ones 2 .<< 2) with RCC_CFGR_SWS.
  assert ((cfgr .& RCC_CFGR_SWS) mod 2 ^ 2 = 0); [|zlia].
  rewrite <- Z.land_ones, <- Z.land_assoc by lia. by rewrite Z.land_0_r.
Qed.

Lemma pll_source_field v :
  (if negb ((v .& RCC_PLLCFGR_PLLSRC) .>> 22 =? 0) then HSE_VALUE else HSI_VALUE) = pll_source v.
Proof.
  change RCC_PLLCFGR_PLLSRC with (Z.ones 1 .<< 22). rewrite land_field by lia. unfold pll_source.
  assert (bits v 22 1 = Z.b2z (Z.testbit v 22)) as ->; [|by destruct (Z.testbit v 22)].
  apply (bits_ext 1); [lia|apply bits_range; lia|by destruct (Z.testbit v 22)|].
  intros i Hi. assert (i = 0) as -> by lia. rewrite bits_testbit by lia. change (0 + 22) with 22. by destruct (Z.testbit v 22).
Qed.

Section frequency.
Context {B : Bus} {R : RegFile B clock_reg}.
Implicit Types s : mach clk_glob.

Lemma wp_clock_rd a s (Q : Z -> mach clk_glob -> Prop) :
  clock_reg a ->
  (forall s', reg_file (dev s') = reg_file (dev s) -> glb s' = glb s -> Q (u32 (reg_file (dev s) a)) s') ->
  wp (rd a) s Q.
Proof.
  intros Ha HQ. apply wp_rd. rewrite reg_rd by done. apply HQ; [|done]. cbn. by apply reg_rd_same.
Qed.

(** Dividing in steps, the first division rounded: at most [n / c + 1] below
    the exact quotient, and exact when that division is. *)
Lemma stepwise_quotient src m n c :
  0 <= src -> 0 < m -> 0 <= n -> 0 < c ->
  let f := src / m * n / c in let e := src * n / (m * c) in
  e - (n / c + 1) <= f <= e /\ (src mod m = 0 -> f = e).
Proof.
  intros Hs Hm Hn Hc f e. subst f e.
  pose proof (Z.div_mod src m ltac:(lia)) as Hd. pose proof (Z.mod_pos_bound src m Hm) as Hr.
  set (q := src / m) in *. set (r := src mod m) in *.
  pose proof (Z.div_mod (q * n) c ltac:(lia)) as Hq. pose proof (Z.mod_pos_bound (q * n) c Hc) as Hqr.
  pose proof (Z.div_mod n c ltac:(lia)) as Hn'. pose proof (Z.mod_pos_bound n c Hc) as Hnr.
  rewrite <- (Z.div_div (src * n)) by lia.
  replace (src * n) with (q * n * m + r * n) by nia.
  rewrite Z.div_add_l by lia.
  assert (0 <= r * n / m <= n) as Hb.
  { split; [apply Z.div_pos; nia|]. apply Z.div_le_upper_bound; nia. }
  split.
  - split.
    + enough ((q * n + r * n / m) / c <= q * n / c + (n / c + 1)) by lia.
      apply Z.lt_succ_r, Z.div_lt_upper_bound; [lia|]. nia.
    + apply Z.div_le_mono; lia.
  - intros ->. by rewrite Z.mul_0_l, Z.div_0_l, Z.add_0_r by lia.
Qed.

Lemma wp_pll_clock s (Q : unit -> mach clk_glob -> Prop) :
  let v := u32 (reg_file (dev s) RCC_PLLCFGR) in
  0 < pll_m v -> pll_source v / pll_m v * pll_n v < 2 ^ 32 ->
  (forall s', reg_file (dev s') = reg_file (dev s) ->
     SystemCoreClock (glb s') = pll_source v / pll_m v * pll_n v / pll_p v -> Q tt s') ->
  wp pll_clock s Q.
Proof.
  intros v Hm Hvco HQ. unfold pll_clock.
  assert (clock_reg RCC_PLLCFGR) as Hc by by right.
  apply wp_bind, wp_clock_rd; [done|]. intros s1 H1 _. apply wp_bind, wp_clock_rd; [done|].
  intros s2 H2 _. rewrite H1. fold v. apply wp_bind, wp_defined_if.
  { assert (v .& RCC_PLLCFGR_PLLM = pll_m v) as -> by done. apply negb_true_iff, Z.eqb_neq. lia. }
  apply wp_bind, wp_clock_rd; [done|]. intros s3 H3 _. rewrite H2, H1. fold v.
  apply wp_bind, wp_clock_rd; [done|]. intros s4 H4 _. rewrite H3, H2, H1. fold v.
  unfold set_core_clock. apply wp_modify, HQ; cbn [dev glb SystemCoreClock]; [congruence|].
  rewrite pll_source_field. change RCC_PLLCFGR_PLLN with (Z.ones 9 .<< 6).
  change RCC_PLLCFGR_PLLP with (Z.ones 2 .<< 16). rewrite !land_field by lia.
  fold (pll_n v). change (v .& RCC_PLLCFGR_PLLM) with (pll_m v). rewrite u32_small.
  - unfold pll_p. f_equal; lia.
  - split; [|done]. apply Z.mul_nonneg_nonneg; [apply Z.div_pos|apply bits_range]; try lia.
    unfold pll_source. by destruct (Z.testbit v 22).
Qed.

(** SystemCoreClockUpdate works out the core's frequency from RCC_CFGR and
    RCC_PLLCFGR: the internal or the external oscillator or the PLL with its
    source, divider M, multiplier N and divider P, divided by the AHB prescaler.
    The result is exact, rounded down, unless the PLL's divider M does not divide
    the source frequency; then it is at most N / (P * prescaler) + 1 Hz too low. *)
Theorem SystemCoreClockUpdate_correct s cfgr pll :
  u32 (reg_file (dev s) RCC_CFGR) = cfgr -> u32 (reg_file (dev s) RCC_PLLCFGR) = pll ->
  (bits cfgr 2 2 = 2 -> 0 < pll_m pll /\ pll_source pll / pll_m pll * pll_n pll < 2 ^ 32) ->
  wp SystemCoreClockUpdate s (fun _ s' =>
    let f := SystemCoreClock (glb s') in
    core_clock cfgr pll - (pll_n pll / (pll_p pll * ahb_divider cfgr) + 1) <= f <= core_clock cfgr pll /\
    (bits cfgr 2 2 <> 2 \/ pll_source pll mod pll_m pll = 0 -> f = core_clock cfgr pll)).
Proof.
  intros Hc Hp Hpll. unfold SystemCoreClockUpdate.
  assert (clock_reg RCC_CFGR) as Hr by by left.
  apply wp_bind, wp_clock_rd; [done|]. intros s1 H1 _. rewrite Hc.
  destruct (prescaler_divider cfgr) as (k & Hk & Hk0 & Hdiv).
  assert (0 < ahb_divider cfgr) as Hd0 by (rewrite <- Hdiv; lia).
  assert (0 <= pll_n pll / (pll_p pll * ahb_divider cfgr)) as Hn0.
  { apply Z.div_pos; [apply bits_range; lia|]. unfold pll_p. pose proof (bits_range pll 16 2). nia. }
  set (P := fun t : mach clk_glob => reg_file (dev t) = reg_file (dev s) /\
    let f := SystemCoreClock (glb t) / ahb_divider cfgr in
    core_clock cfgr pll - (pll_n pll / (pll_p pll * ahb_divider cfgr) + 1) <= f <= core_clock cfgr pll /\
    (bits cfgr 2 2 <> 2 \/ pll_source pll mod pll_m pll = 0 -> f = core_clock cfgr pll)).
  apply wp_bind, (wp_mono _ _ (fun _ t => P t)).
  - assert (0 <= bits cfgr 2 2 < 4) as Hb by (apply bits_range; lia).
    rewrite sws_field.
    assert (forall f, (bits cfgr 2 2 <> 2 /\ core_clock cfgr pll = f / ahb_divider cfgr) ->
      wp (set_core_clock f) s1 (fun _ t => P t)) as Hosc.
    { intros f [Hne Hf]. unfold set_core_clock. apply wp_modify. split; [done|].
      cbn [glb SystemCoreClock]. rewrite Hf. lia. }
    revert Hpll Hosc Hb. subst P. unfold core_clock. generalize (bits cfgr 2 2). intros b Hpll Hosc Hb.
    assert (b = 0 \/ b = 1 \/ b = 2 \/ b = 3) as [->|[->|[->| ->]]] by lia; cbn -[wp].
    + by apply Hosc.
    + by apply Hosc.
    + destruct (Hpll eq_refl) as [Hm Hv]. apply wp_pll_clock; rewrite H1, Hp; [done..|].
      intros t Ht Hf. split; [congruence|]. rewrite Hf, Z.div_div; [|unfold pll_p; pose proof (bits_range pll 16 2); lia..].
      rewrite <- Z.mul_assoc. assert (0 < pll_p pll * ahb_divider cfgr).
      { unfold pll_p. pose proof (bits_range pll 16 2). nia. }
      destruct (stepwise_quotient (pll_source pll) (pll_m pll) (pll_n pll) (pll_p pll * ahb_divider cfgr))
        as [Hle Heq]; [unfold pll_source; by destruct (Z.testbit pll 22)|done|apply bits_range; lia|done|].
      split; [done|]. intros [?|?]; [done|by apply Heq].
    + by apply Hosc.
  - intros _ t [Ht Hf]. apply wp_bind, wp_clock_rd; [done|]. intros t' Ht' Hg. rewrite Ht, Hc.
    apply wp_bind. eapply wp_deref; [done|]. apply wp_modify. cbn [glb SystemCoreClock].
    by rewrite Z.shiftr_div_pow2, Hdiv, Hg by done.
Qed.
End frequency.

(** 20 MHz, M = 20, N = 400, P = 2, no prescaler: 200 MHz. *)
Definition pll_start : mach clk_glob :=
  @Mach file_bus clk_glob (fun a => if a =? RCC_CFGR then 0x8 else 20 + 400 * 64 + 0x400000) [] clk_init.

Lemma SystemCoreClockUpdate_correct_witness :
  wp SystemCoreClockUpdate pll_start (fun _ s' => SystemCoreClock (glb s') = 200000000).
Proof.
  eapply wp_mono.
  - apply (@SystemCoreClockUpdate_correct file_bus _ pll_start 0x8 (20 + 400 * 64 + 0x400000));
      [reflexivity..|]. intros _. vm_compute. split; reflexivity.
  - intros _ s' [_ H]. rewrite H; [reflexivity|]. right. reflexivity.
Defined.
