(* ===== verification/HalCore.v ===== *)
(** The common part of the HAL, src/stm32f7xx_hal.c: the time base on SysTick with
    its priority and period, identification, and the debug and system configuration
    bits.  HAL_GetTick and HAL_Delay are those of src/sys_arch.c, which replace the
    weak ones of this file; HAL_IncTick is part of [Boot]. *)
From S2P Require Import Prelude Machine SysArch FlashHal Reset Cortex Gpio Clock.

#[local] Open Scope fw_scope.

Definition FLASH_ACR : Z := FLASH_R_BASE + 0x00.
Definition FLASH_ACR_LATENCY : Z := 0xF.
Definition FLASH_ACR_PRFTEN : Z := 0x100.
Definition FLASH_ACR_ARTEN : Z := 0x200.
Definition NVIC_PRIORITYGROUP_4 : Z := 3.
Definition TICK_INT_PRIORITY : Z := 0x0F.
Definition HAL_TICK_FREQ_10HZ : Z := 100.
Definition HAL_TICK_FREQ_100HZ : Z := 10.
Definition HAL_TICK_FREQ_1KHZ : Z := 1.
Definition HAL_TICK_FREQ_DEFAULT : Z := HAL_TICK_FREQ_1KHZ.
Definition SysTick_CTRL_TICKINT_Msk : Z := 0x2.
Definition STM32F7xx_HAL_VERSION : Z := (0x01 .<< 24) .| (0x02 .<< 16) .| (0x08 .<< 8) .| 0x00.
Definition IDCODE_DEVID_MASK : Z := 0xFFF.
Definition UID_BASE : Z := 0x1FF0F420.
Definition DBGMCU_IDCODE : Z := 0xE0042000.
Definition DBGMCU_CR : Z := 0xE0042004.
Definition DBGMCU_CR_DBG_SLEEP : Z := 0x1.
Definition DBGMCU_CR_DBG_STOP : Z := 0x2.
Definition DBGMCU_CR_DBG_STANDBY : Z := 0x4.
Definition SYSCFG_MEMRMP : Z := 0x40013800.
Definition SYSCFG_CMPCR : Z := 0x40013820.
Definition SYSCFG_CMPCR_CMP_PD : Z := 0x1.
Definition SYSCFG_MEMRMP_SWP_FB : Z := 0x100.
Definition SYSCFG_MEMRMP_SWP_FMC : Z := 0xC00.
Definition SYSCFG_MEMRMP_SWP_FMC_0 : Z := 0x400.
Definition RCC_AHB1RSTR : Z := RCC_BASE + 0x10.
Definition RCC_AHB2RSTR : Z := RCC_BASE + 0x14.
Definition RCC_AHB3RSTR : Z := RCC_BASE + 0x18.
Definition RCC_APB1RSTR : Z := RCC_BASE + 0x20.
Definition RCC_APB2RSTR : Z := RCC_BASE + 0x24.

(** The globals of the time base, and the core's frequency it is derived from. *)
Record hal_glob := HalGlob { uwTickPrio : Z; uwTickFreq : Z; hal_clk : clk_glob }.
Definition hal_init : hal_glob := HalGlob (1 .<< NVIC_PRIO_BITS) HAL_TICK_FREQ_DEFAULT clk_init.

#[export] Program Instance hal_has_clk : Has hal_glob clk_glob := {|
  part := hal_clk; with_part c g := HalGlob (uwTickPrio g) (uwTickFreq g) c |}.
Next Obligation. done. Qed.
Next Obligation. by intros []. Qed.

Section hal.
Context {B : Bus} {N : Narrow B}.
Abbreviation prog := (M (mach hal_glob)).

Definition set_tick_prio (p : Z) : prog unit := modify_ (fun g => HalGlob p (uwTickFreq g) (hal_clk g)).
Definition set_tick_freq (f : Z) : prog unit := modify_ (fun g => HalGlob (uwTickPrio g) f (hal_clk g)).

(** A frequency by which 1000 cannot be divided twice is undefined. *)
Definition HAL_InitTick (TickPriority : Z) : prog Z :=
  g <- get_ ;;
  defined_if (negb (uwTickFreq g =? 0)) ;;
  defined_if (negb (1000 / uwTickFreq g =? 0)) ;;
  r <- HAL_SYSTICK_Config (SystemCoreClock (hal_clk g) / (1000 / uwTickFreq g)) ;;
  if 0 <? r then ret HAL_ERROR
  else if TickPriority <? 1 .<< NVIC_PRIO_BITS then
    HAL_NVIC_SetPriority SysTick_IRQn TickPriority 0 ;;
    set_tick_prio TickPriority ;;
    ret HAL_OK
  else ret HAL_ERROR.

(** Weak and empty. *)
Definition HAL_MspInit : prog unit := ret tt.
Definition HAL_MspDeInit : prog unit := ret tt.

(** ART accelerator and prefetch are switched on by the configuration. *)
Definition HAL_Init : prog Z :=
  set_bits FLASH_ACR FLASH_ACR_ARTEN ;;
  set_bits FLASH_ACR FLASH_ACR_PRFTEN ;;
  HAL_NVIC_SetPriorityGrouping NVIC_PRIORITYGROUP_4 ;;
  HAL_InitTick TICK_INT_PRIORITY ;;
  HAL_MspInit ;;
  ret HAL_OK.

(** Each bus is put into reset and released. *)
Definition HAL_DeInit : prog Z :=
  wr_all [(RCC_APB1RSTR, 0xFFFFFFFF); (RCC_APB1RSTR, 0); (RCC_APB2RSTR, 0xFFFFFFFF); (RCC_APB2RSTR, 0);
          (RCC_AHB1RSTR, 0xFFFFFFFF); (RCC_AHB1RSTR, 0); (RCC_AHB2RSTR, 0xFFFFFFFF); (RCC_AHB2RSTR, 0);
          (RCC_AHB3RSTR, 0xFFFFFFFF); (RCC_AHB3RSTR, 0)] ;;
  HAL_MspDeInit ;;
  ret HAL_OK.

Definition HAL_GetTickPrio : prog Z := g <- get_ ;; ret (uwTickPrio g).

(** A period that cannot be set is taken back. *)
Definition HAL_SetTickFreq (Freq : Z) : prog Z :=
  g <- get_ ;;
  if negb (uwTickFreq g =? Freq) then
    let prevTickFreq := uwTickFreq g in
    set_tick_freq Freq ;;
    status <- HAL_InitTick (uwTickPrio g) ;;
    (if negb (status =? HAL_OK) then set_tick_freq prevTickFreq else ret tt) ;;
    ret status
  else ret HAL_OK.

Definition HAL_GetTickFreq : prog Z := g <- get_ ;; ret (uwTickFreq g).

Definition HAL_SuspendTick : prog unit := keep_bits SysTick_CTRL (not32 SysTick_CTRL_TICKINT_Msk).
Definition HAL_ResumeTick : prog unit := set_bits SysTick_CTRL SysTick_CTRL_TICKINT_Msk.

Definition HAL_GetHalVersion : prog Z := ret STM32F7xx_HAL_VERSION.
Definition HAL_GetREVID : prog Z := v <- rd DBGMCU_IDCODE ;; ret (v .>> 16).
Definition HAL_GetDEVID : prog Z := v <- rd DBGMCU_IDCODE ;; ret (v .& IDCODE_DEVID_MASK).
Definition HAL_GetUIDw0 : prog Z := rd UID_BASE.
Definition HAL_GetUIDw1 : prog Z := rd (UID_BASE + 4).
Definition HAL_GetUIDw2 : prog Z := rd (UID_BASE + 8).

Definition HAL_DBGMCU_EnableDBGSleepMode : prog unit := set_bits DBGMCU_CR DBGMCU_CR_DBG_SLEEP.
Definition HAL_DBGMCU_DisableDBGSleepMode : prog unit := keep_bits DBGMCU_CR (not32 DBGMCU_CR_DBG_SLEEP).
Definition HAL_DBGMCU_EnableDBGStopMode : prog unit := set_bits DBGMCU_CR DBGMCU_CR_DBG_STOP.
Definition HAL_DBGMCU_DisableDBGStopMode : prog unit := keep_bits DBGMCU_CR (not32 DBGMCU_CR_DBG_STOP).
Definition HAL_DBGMCU_EnableDBGStandbyMode : prog unit := set_bits DBGMCU_CR DBGMCU_CR_DBG_STANDBY.
Definition HAL_DBGMCU_DisableDBGStandbyMode : prog unit := keep_bits DBGMCU_CR (not32 DBGMCU_CR_DBG_STANDBY).

Definition HAL_EnableCompensationCell : prog unit := set_bits SYSCFG_CMPCR SYSCFG_CMPCR_CMP_PD.
Definition HAL_DisableCompensationCell : prog unit := keep_bits SYSCFG_CMPCR (not32 SYSCFG_CMPCR_CMP_PD).
Definition HAL_EnableFMCMemorySwapping : prog unit := set_bits SYSCFG_MEMRMP SYSCFG_MEMRMP_SWP_FMC_0.
Definition HAL_DisableFMCMemorySwapping : prog unit := keep_bits SYSCFG_MEMRMP (not32 SYSCFG_MEMRMP_SWP_FMC).
Definition HAL_EnableMemorySwappingBank : prog unit := set_bits SYSCFG_MEMRMP SYSCFG_MEMRMP_SWP_FB.
Definition HAL_DisableMemorySwappingBank : prog unit := keep_bits SYSCFG_MEMRMP (not32 SYSCFG_MEMRMP_SWP_FB).
End hal.

(** * The time base *)

(** Core cycles in [Freq] milliseconds. *)
Definition tick_cycles (f Freq : Z) : Z := f * Freq / 1000.
Definition tick_period (Freq : Z) : Prop :=
  Freq = HAL_TICK_FREQ_1KHZ \/ Freq = HAL_TICK_FREQ_100HZ \/ Freq = HAL_TICK_FREQ_10HZ.

Lemma tick_cycles_div f Freq : 0 <= f -> tick_period Freq -> tick_cycles f Freq = f / (1000 / Freq).
Proof.
  intros Hf [->|[->| ->]]; unfold tick_cycles;
    [change (1000 / HAL_TICK_FREQ_1KHZ) with 1000|change (1000 / HAL_TICK_FREQ_100HZ) with 100|change (1000 / HAL_TICK_FREQ_10HZ) with 10];
    unfold HAL_TICK_FREQ_1KHZ, HAL_TICK_FREQ_100HZ, HAL_TICK_FREQ_10HZ; [by rewrite Z.mul_1_r| |].
  - change 1000 with (100 * 10). by rewrite Z.div_mul_cancel_r by lia.
  - change 1000 with (10 * 100). by rewrite Z.div_mul_cancel_r by lia.
Qed.

Section tick.
Context {B : Bus} {N : Narrow B}.
Implicit Types s : mach hal_glob.

(** The counter reloads every [n] cycles, is restarted and interrupts. *)
Definition systick_restarted (n : Z) (l l' : list (Z * Z)) : Prop :=
  exists p q, l' = l ++ [(SysTick_LOAD, u32 (n - 1)); p; (SysTick_VAL, 0); (SysTick_CTRL, 7)] ++ q.

Lemma wp_InitTick p s (Q : Z -> mach hal_glob -> Prop) :
  let n := tick_cycles (SystemCoreClock (hal_clk (glb s))) (uwTickFreq (glb s)) in
  tick_period (uwTickFreq (glb s)) -> 0 <= SystemCoreClock (hal_clk (glb s)) < 2 ^ 32 ->
  (~ 1 <= n <= 2 ^ 24 -> Q HAL_ERROR s) ->
  (1 <= n <= 2 ^ 24 -> forall s', systick_restarted n (wlog s) (wlog s') ->
     glb s' = (if p <? 16 then HalGlob p (uwTickFreq (glb s)) (hal_clk (glb s)) else glb s) ->
     Q (if p <? 16 then HAL_OK else HAL_ERROR) s') ->
  wp (HAL_InitTick p) s Q.
Proof.
  intros n Hper Hf Hbad Hok. unfold HAL_InitTick. apply wp_step, wp_get.
  pose proof (tick_cycles_div _ _ (proj1 Hf) Hper) as Hn. fold n in Hn.
  assert (0 <= n < 2 ^ 32) as Hr.
  { unfold n, tick_cycles. destruct Hper as [->|[->| ->]]; unfold HAL_TICK_FREQ_1KHZ, HAL_TICK_FREQ_100HZ, HAL_TICK_FREQ_10HZ; zlia. }
  apply wp_step, wp_defined_if. { by destruct Hper as [->|[->| ->]]. }
  apply wp_step, wp_defined_if. { by destruct Hper as [->|[->| ->]]. }
  rewrite <- Hn. unfold HAL_SYSTICK_Config, SysTick_Config, SysTick_LOAD_RELOAD_Msk. apply wp_step.
  destruct (decide (1 <= n <= 2 ^ 24)) as [Hn1|Hn1].
  - rewrite (u32_small (n - 1)) by lia. destruct (Z.ltb_spec 0xFFFFFF (n - 1)); [lia|].
    apply wp_step, wp_wr. unfold NVIC_SetPriority. apply wp_step. unfold wr8, wp. cbn [dev wlog glb].
    unfold wr, bind, ret, HAL_NVIC_SetPriority, NVIC_GetPriorityGrouping, NVIC_SetPriority, set_tick_prio, modify_, rd, wr8. cbn [dev wlog glb].
    change (0 <? 0) with false. cbv iota. change (1 .<< NVIC_PRIO_BITS) with 16. rewrite <- !app_assoc.
    destruct (p <? 16) eqn:Hp; (apply Hok; [done| |]); cbn [wlog glb]; rewrite ?Hp; (done || (eexists; eexists; cbn [app];
      (rewrite <- !app_assoc; reflexivity) || (symmetry; rewrite ?app_nil_r; reflexivity))).
  - assert (u32 (n - 1) > 0xFFFFFF) as Hbig.
    { destruct (decide (n = 0)) as [->|]; [by vm_compute|]. rewrite u32_small by lia. lia. }
    destruct (Z.ltb_spec 0xFFFFFF (u32 (n - 1))); [|lia]. apply wp_ret. change (0 <? 1) with true. cbv iota. by apply wp_ret, Hbad.
Qed.

(** HAL_SetTickFreq returns HAL_OK exactly when the period fits the 24-bit counter and a
    priority has been set (or the period is the current one): then the period is the new
    one and SysTick counts that many cycles.  On HAL_ERROR the globals are as before; but if
    only the priority is missing, because HAL_Init has not run, SysTick already counts the new
    period. *)
Theorem HAL_SetTickFreq_sets Freq s :
  let n := tick_cycles (SystemCoreClock (hal_clk (glb s))) Freq in
  tick_period Freq -> 0 <= SystemCoreClock (hal_clk (glb s)) < 2 ^ 32 ->
  wp (HAL_SetTickFreq Freq) s (fun r s' =>
    r = HAL_OK /\ uwTickFreq (glb s') = Freq /\
      (uwTickFreq (glb s) = Freq /\ s' = s \/ 1 <= n <= 2 ^ 24 /\ systick_restarted n (wlog s) (wlog s')) \/
    r = HAL_ERROR /\ glb s' = glb s /\
      (~ 1 <= n <= 2 ^ 24 /\ wlog s' = wlog s \/
       16 <= uwTickPrio (glb s) /\ systick_restarted n (wlog s) (wlog s'))).
Proof.
  intros n Hper Hf. unfold HAL_SetTickFreq. apply wp_step, wp_get. destruct s as [d w [prio freq clk]]. cbn in *.
  destruct (Z.eqb_spec freq Freq) as [->|Hne]; cbn [negb].
  { apply wp_ret. left. split; [done|]. split; [done|]. by left. }
  apply wp_step, wp_modify. apply wp_step, wp_InitTick; [done|done|..]; cbn [glb uwTickFreq hal_clk dev wlog uwTickPrio]; fold n.
  - intros Hn. change (negb (HAL_ERROR =? HAL_OK)) with true. cbv iota. apply wp_step, wp_modify, wp_ret. right.
    split; [done|]. split; [done|]. by left.
  - intros Hn s' Hw Hg. destruct (Z.ltb_spec prio 16).
    + change (negb (HAL_OK =? HAL_OK)) with false. cbv iota. apply wp_step, wp_ret, wp_ret. left. rewrite Hg.
      split; [done|]. split; [done|]. by right.
    + change (negb (HAL_ERROR =? HAL_OK)) with true. cbv iota. apply wp_step, wp_modify, wp_ret. right. cbn. rewrite Hg.
      split; [done|]. split; [done|]. by right.
Qed.
End tick.

Section witnesses.
#[local] Instance file_narrow : Narrow file_bus := {|
  mmio_rd8 a (h : @hw file_bus) := (h a, h);
  mmio_wr8 a v (h : @hw file_bus) := upd h a v;
  mmio_wr16 a v (h : @hw file_bus) := upd h a v;
|}.

(** The processor at 200 MHz, HAL_Init has run. *)
Definition hal_start : @mach file_bus hal_glob :=
  @Mach file_bus hal_glob (fun _ => 0) [] (HalGlob 15 HAL_TICK_FREQ_1KHZ clk_init).

Lemma HAL_SetTickFreq_sets_witness :
  wp (HAL_SetTickFreq HAL_TICK_FREQ_100HZ) hal_start (fun r s' =>
    r = HAL_OK /\ uwTickFreq (glb s') = 10 /\ systick_restarted 2000000 [] (wlog s')).
Proof.
  eapply wp_mono.
  - apply (HAL_SetTickFreq_sets HAL_TICK_FREQ_100HZ hal_start); [by right; left|by vm_compute].
  - intros r s' [(H1 & H2 & [[H3 _]|[_ H3]])|(H1 & _ & [[H3 _]|[H3 _]])].
    + discriminate H3.
    + split; [exact H1|]. split; [exact H2|exact H3].
    + destruct H3. by vm_compute.
    + by vm_compute in H3.
Defined.
End witnesses.
