(* ===== verification/Rcc.v ===== *)
(** The clock driver of the HAL, src/stm32f7xx_hal_rcc.c: the oscillators and the
    PLL, the system clock with its dividers and the flash latency, the clock
    outputs, and the frequencies that follow from the registers.  The bootloader sets
    the clocks of this firmware; the driver is linked with it for HAL_RCC_GetHCLKFreq. *)
From S2P Require Import Prelude Machine SysArch FlashHal Reset Cortex Gpio Clock HalCore.

#[local] Open Scope fw_scope.

Definition RCC_PLLI2SCFGR : Z := RCC_BASE + 0x84.
Definition RCC_PLLSAICFGR : Z := RCC_BASE + 0x88.
Definition RCC_CR_HSION : Z := 0x1.
Definition RCC_CR_HSITRIM : Z := 0xF8.
Definition RCC_CR_HSEON : Z := 0x10000.
Definition RCC_CR_HSEBYP : Z := 0x40000.
Definition RCC_CR_CSSON : Z := 0x80000.
Definition RCC_CR_PLLON : Z := 0x1000000.
Definition RCC_CR_PLLI2SON : Z := 0x4000000.
Definition RCC_CR_PLLSAION : Z := 0x10000000.
Definition RCC_PLLCFGR_PLLQ : Z := 0xF000000.
Definition RCC_PLLCFGR_PLLR : Z := 0x70000000.
Definition RCC_CFGR_SW : Z := 0x3.
Definition RCC_CFGR_PPRE1 : Z := 0x1C00.
Definition RCC_CFGR_PPRE2 : Z := 0xE000.
Definition RCC_CFGR_MCO1 : Z := 0x600000.
Definition RCC_CFGR_MCO1PRE : Z := 0x7000000.
Definition RCC_CFGR_MCO2PRE : Z := 0x38000000.
Definition RCC_CFGR_MCO2 : Z := 0xC0000000.
Definition RCC_BDCR_LSEON : Z := 0x1.
Definition RCC_BDCR_LSEBYP : Z := 0x4.
Definition RCC_CSR_LSION : Z := 0x1.
Definition RCC_FLAG_HSIRDY : Z := 0x21.
Definition RCC_FLAG_HSERDY : Z := 0x31.
Definition RCC_FLAG_PLLRDY : Z := 0x39.
Definition RCC_FLAG_PLLI2SRDY : Z := 0x3B.
Definition RCC_FLAG_PLLSAIRDY : Z := 0x3C.
Definition RCC_FLAG_LSERDY : Z := 0x41.
Definition RCC_FLAG_LSIRDY : Z := 0x61.
Definition RCC_IT_CSS : Z := 0x80.
Definition RCC_CIR_BYTE2_ADDRESS : Z := RCC_BASE + 0x0C + 0x02.

Definition RCC_OSCILLATORTYPE_HSE : Z := 0x1.
Definition RCC_OSCILLATORTYPE_HSI : Z := 0x2.
Definition RCC_OSCILLATORTYPE_LSE : Z := 0x4.
Definition RCC_OSCILLATORTYPE_LSI : Z := 0x8.
Definition RCC_HSE_OFF : Z := 0.
Definition RCC_HSE_ON : Z := RCC_CR_HSEON.
Definition RCC_HSE_BYPASS : Z := RCC_CR_HSEBYP .| RCC_CR_HSEON.
Definition RCC_LSE_OFF : Z := 0.
Definition RCC_LSE_ON : Z := RCC_BDCR_LSEON.
Definition RCC_LSE_BYPASS : Z := RCC_BDCR_LSEBYP .| RCC_BDCR_LSEON.
Definition RCC_HSI_OFF : Z := 0.
Definition RCC_HSI_ON : Z := RCC_CR_HSION.
Definition RCC_LSI_OFF : Z := 0.
Definition RCC_LSI_ON : Z := RCC_CSR_LSION.
Definition RCC_PLL_NONE : Z := 0.
Definition RCC_PLL_OFF : Z := 1.
Definition RCC_PLL_ON : Z := 2.
Definition RCC_PLLCFGR_PLLSRC_HSE : Z := 0x400000.
Definition RCC_PLLCFGR_PLLSRC_HSI : Z := 0.
Definition RCC_CLOCKTYPE_SYSCLK : Z := 0x1.
Definition RCC_CLOCKTYPE_HCLK : Z := 0x2.
Definition RCC_CLOCKTYPE_PCLK1 : Z := 0x4.
Definition RCC_CLOCKTYPE_PCLK2 : Z := 0x8.
Definition RCC_SYSCLKSOURCE_HSE : Z := 0x1.
Definition RCC_SYSCLKSOURCE_PLLCLK : Z := 0x2.
Definition RCC_SYSCLKSOURCE_STATUS_HSI : Z := 0x0.
Definition RCC_SYSCLKSOURCE_STATUS_HSE : Z := 0x4.
Definition RCC_SYSCLKSOURCE_STATUS_PLLCLK : Z := 0x8.
Definition RCC_HCLK_DIV16 : Z := 0x1C00.
Definition RCC_MCO1 : Z := 0.

(** Limits in milliseconds. *)
Definition HSE_TIMEOUT_VALUE : Z := 100.
Definition HSI_TIMEOUT_VALUE : Z := 2.
Definition LSI_TIMEOUT_VALUE : Z := 2.
Definition PLL_TIMEOUT_VALUE : Z := 2.
Definition CLOCKSWITCH_TIMEOUT_VALUE : Z := 5000.
Definition PLLI2S_TIMEOUT_VALUE : Z := 100.
Definition PLLSAI_TIMEOUT_VALUE : Z := 100.
Definition RCC_DBP_TIMEOUT_VALUE : Z := 100.
Definition RCC_LSE_TIMEOUT_VALUE : Z := 5000.

(** The external oscillator as stm32f7xx_hal_conf.h has it; [Clock.HSE_VALUE], of
    system_router_pro_fd.c, is 20 MHz. *)
Definition HSE_VALUE : Z := 25000000.

Definition APBPrescTable : list Z := [0; 0; 0; 0; 1; 2; 3; 4].

(** [RCC_PLLInitTypeDef], [RCC_OscInitTypeDef], [RCC_ClkInitTypeDef] *)
Record RCC_PLLInitTypeDef := PllInit {
  PLLState : Z; PLLSource : Z; PLLM : Z; PLLN : Z; PLLP : Z; PLLQ : Z; PLLR : Z }.
Record RCC_OscInitTypeDef := OscInit {
  OscillatorType : Z; HSEState : Z; LSEState : Z; HSIState : Z; HSICalibrationValue : Z; LSIState : Z;
  PLL : RCC_PLLInitTypeDef }.
Record RCC_ClkInitTypeDef := ClkInit {
  ClockType : Z; SYSCLKSource : Z; AHBCLKDivider : Z; APB1CLKDivider : Z; APB2CLKDivider : Z }.

Section rcc.
Context {B : Bus} {N : Narrow B}.
Abbreviation prog := (M (mach hal_glob)).

(** [while (cond) if ((HAL_GetTick() - tickstart) > limit) return HAL_TIMEOUT;]:
    [true] on a timeout. *)
Fixpoint wait_while (fuel : nat) (cond : prog bool) (limit tickstart : Z) : prog bool :=
  match fuel with
  | O => spin
  | S n =>
      b <- cond ;;
      if b : bool then
        now <- HAL_GetTick ;;
        if limit <? u32 (now - tickstart) then ret true else wait_while n cond limit tickstart
      else ret false
  end.

(** The wait, and what follows it unless it is too late. *)
Definition wait_then (fuel : nat) (cond : prog bool) (limit : Z) (k : prog Z) : prog Z :=
  tickstart <- HAL_GetTick ;;
  late <- wait_while fuel cond limit tickstart ;;
  if late : bool then ret HAL_TIMEOUT else k.

Definition flag_set (flag : Z) : prog bool := HAL_RCC_GET_FLAG flag.
Definition flag_clear (flag : Z) : prog bool := b <- HAL_RCC_GET_FLAG flag ;; ret (negb b).
Definition bit_set (reg m : Z) : prog bool := v <- rd reg ;; ret (any_bit v m).
Definition bit_clear (reg m : Z) : prog bool := v <- rd reg ;; ret (negb (any_bit v m)).
Definition HAL_RCC_GET_SYSCLK_SOURCE : prog Z := v <- rd RCC_CFGR ;; ret (v .& RCC_CFGR_SWS).
Definition HAL_RCC_GET_PLL_OSCSOURCE : prog Z := v <- rd RCC_PLLCFGR ;; ret (v .& RCC_PLLCFGR_PLLSRC).

Definition HAL_RCC_DeInit (fuel : nat) : prog Z :=
  tickstart <- HAL_GetTick ;;
  set_bits RCC_CR RCC_CR_HSION ;;
  late <- wait_while fuel (bit_clear RCC_CR (1 .<< 1)) HSI_TIMEOUT_VALUE tickstart ;;
  if late : bool then ret HAL_TIMEOUT else
  set_bits RCC_CR (0x10 .<< 3) ;;
  tickstart <- HAL_GetTick ;;
  wr RCC_CFGR 0 ;;
  late <- wait_while fuel (bit_set RCC_CFGR RCC_CFGR_SWS) CLOCKSWITCH_TIMEOUT_VALUE tickstart ;;
  if late : bool then ret HAL_TIMEOUT else
  tickstart <- HAL_GetTick ;;
  keep_bits RCC_CR (not32 (RCC_CR_HSEON .| RCC_CR_HSEBYP .| RCC_CR_CSSON)) ;;
  late <- wait_while fuel (bit_set RCC_CR (1 .<< 17)) HSE_TIMEOUT_VALUE tickstart ;;
  if late : bool then ret HAL_TIMEOUT else
  tickstart <- HAL_GetTick ;;
  keep_bits RCC_CR (not32 RCC_CR_PLLON) ;;
  late <- wait_while fuel (bit_set RCC_CR (1 .<< 25)) PLL_TIMEOUT_VALUE tickstart ;;
  if late : bool then ret HAL_TIMEOUT else
  tickstart <- HAL_GetTick ;;
  keep_bits RCC_CR (not32 RCC_CR_PLLI2SON) ;;
  late <- wait_while fuel (bit_set RCC_CR (1 .<< 27)) PLLI2S_TIMEOUT_VALUE tickstart ;;
  if late : bool then ret HAL_TIMEOUT else
  tickstart <- HAL_GetTick ;;
  keep_bits RCC_CR (not32 RCC_CR_PLLSAION) ;;
  late <- wait_while fuel (bit_set RCC_CR (1 .<< 29)) PLLSAI_TIMEOUT_VALUE tickstart ;;
  if late : bool then ret HAL_TIMEOUT else
  wr RCC_PLLCFGR (0x10 .| 0x1000 .| 0x2000 .| 0x4000000 .| 0x20000000) ;;
  wr RCC_PLLI2SCFGR (0x1000 .| 0x2000 .| 0x4000000 .| 0x20000000) ;;
  wr RCC_PLLSAICFGR (0x1000 .| 0x2000 .| 0x4000000 .| 0x20000000) ;;
  keep_bits RCC_CIR (not32 (0x7F .<< 8)) ;;
  set_bits RCC_CIR (0xFF .<< 16) ;;
  keep_bits RCC_CSR (not32 RCC_CSR_LSION) ;;
  set_bits RCC_CSR RCC_CSR_RMVF ;;
  call (set_core_clock HSI_VALUE) ;;
  g <- get_ ;;
  r <- HAL_InitTick (uwTickPrio g) ;;
  if negb (r =? HAL_OK) then ret HAL_ERROR else ret HAL_OK.

(** ** Oscillators *)

Definition HAL_RCC_HSE_CONFIG (state : Z) : prog unit :=
  if state =? RCC_HSE_ON then set_bits RCC_CR RCC_CR_HSEON
  else if state =? RCC_HSE_OFF then
    keep_bits RCC_CR (not32 RCC_CR_HSEON) ;; keep_bits RCC_CR (not32 RCC_CR_HSEBYP)
  else if state =? RCC_HSE_BYPASS then
    set_bits RCC_CR RCC_CR_HSEBYP ;; set_bits RCC_CR RCC_CR_HSEON
  else keep_bits RCC_CR (not32 RCC_CR_HSEON) ;; keep_bits RCC_CR (not32 RCC_CR_HSEBYP).

Definition HAL_RCC_LSE_CONFIG (state : Z) : prog unit :=
  if state =? RCC_LSE_ON then set_bits RCC_BDCR RCC_BDCR_LSEON
  else if state =? RCC_LSE_OFF then
    keep_bits RCC_BDCR (not32 RCC_BDCR_LSEON) ;; keep_bits RCC_BDCR (not32 RCC_BDCR_LSEBYP)
  else if state =? RCC_LSE_BYPASS then
    set_bits RCC_BDCR RCC_BDCR_LSEBYP ;; set_bits RCC_BDCR RCC_BDCR_LSEON
  else keep_bits RCC_BDCR (not32 RCC_BDCR_LSEON) ;; keep_bits RCC_BDCR (not32 RCC_BDCR_LSEBYP).

(** Is the oscillator with the given status the source of the system clock, by
    itself or through the PLL? *)
Definition drives_sysclk (status pllsrc : Z) : prog bool :=
  src <- HAL_RCC_GET_SYSCLK_SOURCE ;;
  if src =? status then ret true
  else
    src <- HAL_RCC_GET_SYSCLK_SOURCE ;;
    if src =? RCC_SYSCLKSOURCE_STATUS_PLLCLK then
      v <- rd RCC_PLLCFGR ;; ret (v .& RCC_PLLCFGR_PLLSRC =? pllsrc)
    else ret false.

Definition osc_hse (fuel : nat) (o : RCC_OscInitTypeDef) (k : prog Z) : prog Z :=
  used <- drives_sysclk RCC_SYSCLKSOURCE_STATUS_HSE RCC_PLLCFGR_PLLSRC_HSE ;;
  if used : bool then
    on <- flag_set RCC_FLAG_HSERDY ;;
    if on && (HSEState o =? RCC_HSE_OFF) then ret HAL_ERROR else k
  else
    HAL_RCC_HSE_CONFIG (HSEState o) ;;
    if negb (HSEState o =? RCC_HSE_OFF)
    then wait_then fuel (flag_clear RCC_FLAG_HSERDY) HSE_TIMEOUT_VALUE k
    else wait_then fuel (flag_set RCC_FLAG_HSERDY) HSE_TIMEOUT_VALUE k.

Definition hsi_calibrate (v : Z) : prog unit := modify_reg RCC_CR RCC_CR_HSITRIM (u32 (v .<< 3)).

Definition osc_hsi (fuel : nat) (o : RCC_OscInitTypeDef) (k : prog Z) : prog Z :=
  used <- drives_sysclk RCC_SYSCLKSOURCE_STATUS_HSI RCC_PLLCFGR_PLLSRC_HSI ;;
  if used : bool then
    on <- flag_set RCC_FLAG_HSIRDY ;;
    if on && negb (HSIState o =? RCC_HSI_ON) then ret HAL_ERROR
    else hsi_calibrate (HSICalibrationValue o) ;; k
  else if negb (HSIState o =? RCC_HSI_OFF) then
    set_bits RCC_CR RCC_CR_HSION ;;
    wait_then fuel (flag_clear RCC_FLAG_HSIRDY) HSI_TIMEOUT_VALUE (hsi_calibrate (HSICalibrationValue o) ;; k)
  else
    keep_bits RCC_CR (not32 RCC_CR_HSION) ;;
    wait_then fuel (flag_set RCC_FLAG_HSIRDY) HSI_TIMEOUT_VALUE k.

Definition osc_lsi (fuel : nat) (o : RCC_OscInitTypeDef) (k : prog Z) : prog Z :=
  if negb (LSIState o =? RCC_LSI_OFF) then
    set_bits RCC_CSR RCC_CSR_LSION ;;
    wait_then fuel (flag_clear RCC_FLAG_LSIRDY) LSI_TIMEOUT_VALUE k
  else
    keep_bits RCC_CSR (not32 RCC_CSR_LSION) ;;
    wait_then fuel (flag_set RCC_FLAG_LSIRDY) LSI_TIMEOUT_VALUE k.

Definition HAL_RCC_PWR_CLK_ENABLE : prog unit :=
  set_bits RCC_APB1ENR RCC_APB1ENR_PWREN ;; rd RCC_APB1ENR ;; ret tt.

(** Access to the backup domain is opened first. *)
Definition osc_lse (fuel : nat) (o : RCC_OscInitTypeDef) (k : prog Z) : prog Z :=
  off <- bit_clear RCC_APB1ENR RCC_APB1ENR_PWREN ;;
  (if off : bool then HAL_RCC_PWR_CLK_ENABLE else ret tt) ;;
  let set_lse : prog Z :=
    HAL_RCC_LSE_CONFIG (LSEState o) ;;
    wait_then fuel (if negb (LSEState o =? RCC_LSE_OFF) then flag_clear RCC_FLAG_LSERDY else flag_set RCC_FLAG_LSERDY)
      RCC_LSE_TIMEOUT_VALUE
      ((if off : bool then keep_bits RCC_APB1ENR (not32 RCC_APB1ENR_PWREN) else ret tt) ;; k) in
  closed <- bit_clear PWR_CR1 PWR_CR1_DBP ;;
  if closed : bool then
    set_bits PWR_CR1 PWR_CR1_DBP ;;
    wait_then fuel (bit_clear PWR_CR1 PWR_CR1_DBP) RCC_DBP_TIMEOUT_VALUE set_lse
  else set_lse.

(** The word of the parameters. *)
Definition pll_word (p : RCC_PLLInitTypeDef) : Z :=
  PLLSource p .| PLLM p .| (PLLN p .<< 6) .| (((PLLP p .>> 1) - 1) .<< 16) .| (PLLQ p .<< 24) .| (PLLR p .<< 28).
Definition HAL_RCC_PLL_CONFIG (p : RCC_PLLInitTypeDef) : prog unit := wr RCC_PLLCFGR (pll_word p).

(** While the PLL is the system clock it can only be asked to stay as it is. *)
Definition pll_differs (config : Z) (p : RCC_PLLInitTypeDef) : bool :=
  (PLLState p =? RCC_PLL_OFF) ||
  negb (config .& RCC_PLLCFGR_PLLSRC =? PLLSource p) ||
  negb (config .& RCC_PLLCFGR_PLLM =? PLLM p) ||
  negb (config .& RCC_PLLCFGR_PLLN =? u32 (PLLN p .<< 6)) ||
  negb (config .& RCC_PLLCFGR_PLLP =? u32 (u32 ((PLLP p .>> 1) - 1) .<< 16)) ||
  negb (config .& RCC_PLLCFGR_PLLQ =? u32 (PLLQ p .<< 24)) ||
  negb (config .& RCC_PLLCFGR_PLLR =? u32 (PLLR p .<< 28)).

Definition osc_pll (fuel : nat) (p : RCC_PLLInitTypeDef) : prog Z :=
  src <- HAL_RCC_GET_SYSCLK_SOURCE ;;
  if negb (src =? RCC_SYSCLKSOURCE_STATUS_PLLCLK) then
    if PLLState p =? RCC_PLL_ON then
      keep_bits RCC_CR (not32 RCC_CR_PLLON) ;;
      wait_then fuel (flag_set RCC_FLAG_PLLRDY) PLL_TIMEOUT_VALUE (
        HAL_RCC_PLL_CONFIG p ;;
        set_bits RCC_CR RCC_CR_PLLON ;;
        wait_then fuel (flag_clear RCC_FLAG_PLLRDY) PLL_TIMEOUT_VALUE (ret HAL_OK))
    else
      keep_bits RCC_CR (not32 RCC_CR_PLLON) ;;
      wait_then fuel (flag_set RCC_FLAG_PLLRDY) PLL_TIMEOUT_VALUE (ret HAL_OK)
  else
    pll_config <- rd RCC_PLLCFGR ;;
    if pll_differs pll_config p then ret HAL_ERROR else ret HAL_OK.

(** One part, if it is selected. *)
Definition selected (types type : Z) : bool := types .& type =? type.

(** [None] is NULL. *)
Definition HAL_RCC_OscConfig (fuel : nat) (init : option RCC_OscInitTypeDef) : prog Z :=
  match init with
  | None => ret HAL_ERROR
  | Some o =>
      let part type (f : nat -> RCC_OscInitTypeDef -> prog Z -> prog Z) k :=
        if selected (OscillatorType o) type then f fuel o k else k in
      part RCC_OSCILLATORTYPE_HSE osc_hse (
      part RCC_OSCILLATORTYPE_HSI osc_hsi (
      part RCC_OSCILLATORTYPE_LSI osc_lsi (
      part RCC_OSCILLATORTYPE_LSE osc_lse (
      if negb (PLLState (PLL o) =? RCC_PLL_NONE) then osc_pll fuel (PLL o) else ret HAL_OK))))
  end.

(** ** System clock *)

Definition HAL_FLASH_GET_LATENCY : prog Z := v <- rd FLASH_ACR ;; ret (v .& FLASH_ACR_LATENCY).

(** The latency is changed if [change] says so of the current one, and read back. *)
Definition set_latency (change : Z -> bool) (FLatency : Z) (k : prog Z) : prog Z :=
  l <- HAL_FLASH_GET_LATENCY ;;
  if change l then
    modify_reg FLASH_ACR FLASH_ACR_LATENCY FLatency ;;
    l <- HAL_FLASH_GET_LATENCY ;;
    if negb (l =? FLatency) then ret HAL_ERROR else k
  else k.

(** The source must be running; the switch is waited for. *)
Definition switch_sysclk (fuel : nat) (src : Z) (k : prog Z) : prog Z :=
  up <- flag_set (if src =? RCC_SYSCLKSOURCE_HSE then RCC_FLAG_HSERDY
                  else if src =? RCC_SYSCLKSOURCE_PLLCLK then RCC_FLAG_PLLRDY else RCC_FLAG_HSIRDY) ;;
  if negb up then ret HAL_ERROR
  else
    modify_reg RCC_CFGR RCC_CFGR_SW src ;;
    wait_then fuel (v <- HAL_RCC_GET_SYSCLK_SOURCE ;; ret (negb (v =? u32 (src .<< 2)))) CLOCKSWITCH_TIMEOUT_VALUE k.

Definition HAL_RCC_GetSysClockFreq : prog Z :=
  v <- rd RCC_CFGR ;;
  let sws := v .& RCC_CFGR_SWS in
  if sws =? RCC_SYSCLKSOURCE_STATUS_HSI then ret HSI_VALUE
  else if sws =? RCC_SYSCLKSOURCE_STATUS_HSE then ret HSE_VALUE
  else if sws =? RCC_SYSCLKSOURCE_STATUS_PLLCLK then
    v <- rd RCC_PLLCFGR ;;
    let pllm := v .& RCC_PLLCFGR_PLLM in
    src <- HAL_RCC_GET_PLL_OSCSOURCE ;;
    v <- rd RCC_PLLCFGR ;;
    defined_if (negb (pllm =? 0)) ;;
    let pllvco := u32 ((if negb (src =? RCC_PLLCFGR_PLLSRC_HSI) then HSE_VALUE else HSI_VALUE) *
                       ((v .& RCC_PLLCFGR_PLLN) .>> 6) / pllm) in
    v <- rd RCC_PLLCFGR ;;
    let pllp := (((v .& RCC_PLLCFGR_PLLP) .>> 16) + 1) * 2 in
    ret (pllvco / pllp)
  else ret HSI_VALUE.

Definition HAL_RCC_ClockConfig (fuel : nat) (init : option RCC_ClkInitTypeDef) (FLatency : Z) : prog Z :=
  match init with
  | None => ret HAL_ERROR
  | Some c =>
      let on := selected (ClockType c) in
      set_latency (fun l => l <? FLatency) FLatency (
        (if on RCC_CLOCKTYPE_HCLK then
           (if on RCC_CLOCKTYPE_PCLK1 then modify_reg RCC_CFGR RCC_CFGR_PPRE1 RCC_HCLK_DIV16 else ret tt) ;;
           (if on RCC_CLOCKTYPE_PCLK2 then modify_reg RCC_CFGR RCC_CFGR_PPRE2 (RCC_HCLK_DIV16 .<< 3) else ret tt) ;;
           modify_reg RCC_CFGR RCC_CFGR_HPRE (AHBCLKDivider c)
         else ret tt) ;;
        let rest : prog Z :=
          set_latency (fun l => FLatency <? l) FLatency (
            (if on RCC_CLOCKTYPE_PCLK1 then modify_reg RCC_CFGR RCC_CFGR_PPRE1 (APB1CLKDivider c) else ret tt) ;;
            (if on RCC_CLOCKTYPE_PCLK2 then modify_reg RCC_CFGR RCC_CFGR_PPRE2 (u32 (APB2CLKDivider c .<< 3)) else ret tt) ;;
            f <- HAL_RCC_GetSysClockFreq ;;
            v <- rd RCC_CFGR ;;
            sh <- deref (aget AHBPrescTable ((v .& RCC_CFGR_HPRE) .>> 4)) ;;
            call (set_core_clock (f .>> sh)) ;;
            g <- get_ ;;
            HAL_InitTick (uwTickPrio g) ;;
            ret HAL_OK) in
        if on RCC_CLOCKTYPE_SYSCLK then switch_sysclk fuel (SYSCLKSource c) rest else rest)
  end.

(** ** Clock outputs and supervision *)

Definition mco_pin (pin : Z) : GPIO_InitTypeDef :=
  GpioInit pin GPIO_MODE_AF_PP GPIO_NOPULL GPIO_SPEED_FREQ_VERY_HIGH 0.
Definition HAL_RCC_GPIO_CLK_ENABLE (bit : Z) : prog unit :=
  set_bits RCC_AHB1ENR bit ;; rd RCC_AHB1ENR ;; ret tt.

Definition HAL_RCC_MCOConfig (RCC_MCOx RCC_MCOSource RCC_MCODiv : Z) : prog unit :=
  if RCC_MCOx =? RCC_MCO1 then
    HAL_RCC_GPIO_CLK_ENABLE 0x1 ;;
    HAL_GPIO_Init GPIOA (mco_pin 0x100) ;;
    modify_reg RCC_CFGR (RCC_CFGR_MCO1 .| RCC_CFGR_MCO1PRE) (RCC_MCOSource .| RCC_MCODiv)
  else
    HAL_RCC_GPIO_CLK_ENABLE 0x4 ;;
    HAL_GPIO_Init GPIOC (mco_pin 0x200) ;;
    modify_reg RCC_CFGR (RCC_CFGR_MCO2 .| RCC_CFGR_MCO2PRE) (RCC_MCOSource .| u32 (RCC_MCODiv .<< 3)).

Definition HAL_RCC_EnableCSS : prog unit := set_bits RCC_CR RCC_CR_CSSON.
Definition HAL_RCC_DisableCSS : prog unit := keep_bits RCC_CR (not32 RCC_CR_CSSON).

(** Weak and empty. *)
Definition HAL_RCC_CSSCallback : prog unit := ret tt.
Definition HAL_RCC_NMI_IRQHandler : prog unit :=
  v <- rd RCC_CIR ;;
  if v .& RCC_IT_CSS =? RCC_IT_CSS then HAL_RCC_CSSCallback ;; wr8 RCC_CIR_BYTE2_ADDRESS RCC_IT_CSS else ret tt.

(** ** Reading the configuration back *)

Definition apb_clock (mask pos : Z) : prog Z :=
  f <- call HAL_RCC_GetHCLKFreq ;;
  v <- rd RCC_CFGR ;;
  sh <- deref (aget APBPrescTable ((v .& mask) .>> pos)) ;;
  ret (f .>> sh).
Definition HAL_RCC_GetPCLK1Freq : prog Z := apb_clock RCC_CFGR_PPRE1 10.
Definition HAL_RCC_GetPCLK2Freq : prog Z := apb_clock RCC_CFGR_PPRE2 13.

Definition all_set (v m : Z) : bool := v .& m =? m.

Definition HAL_RCC_GetOscConfig : prog RCC_OscInitTypeDef :=
  v <- rd RCC_CR ;;
  hse <- (if all_set v RCC_CR_HSEBYP then ret RCC_HSE_BYPASS
          else v <- rd RCC_CR ;; ret (if all_set v RCC_CR_HSEON then RCC_HSE_ON else RCC_HSE_OFF)) ;;
  v <- rd RCC_CR ;;
  let hsi := if all_set v RCC_CR_HSION then RCC_HSI_ON else RCC_HSI_OFF in
  v <- rd RCC_CR ;;
  let trim := (v .& RCC_CR_HSITRIM) .>> 3 in
  v <- rd RCC_BDCR ;;
  lse <- (if all_set v RCC_BDCR_LSEBYP then ret RCC_LSE_BYPASS
          else v <- rd RCC_BDCR ;; ret (if all_set v RCC_BDCR_LSEON then RCC_LSE_ON else RCC_LSE_OFF)) ;;
  v <- rd RCC_CSR ;;
  let lsi := if all_set v RCC_CSR_LSION then RCC_LSI_ON else RCC_LSI_OFF in
  v <- rd RCC_CR ;;
  let state := if all_set v RCC_CR_PLLON then RCC_PLL_ON else RCC_PLL_OFF in
  v1 <- rd RCC_PLLCFGR ;; v2 <- rd RCC_PLLCFGR ;; v3 <- rd RCC_PLLCFGR ;;
  v4 <- rd RCC_PLLCFGR ;; v5 <- rd RCC_PLLCFGR ;; v6 <- rd RCC_PLLCFGR ;;
  ret (OscInit (RCC_OSCILLATORTYPE_HSE .| RCC_OSCILLATORTYPE_HSI .| RCC_OSCILLATORTYPE_LSE .| RCC_OSCILLATORTYPE_LSI)
         hse lse hsi trim lsi
         (PllInit state (v1 .& RCC_PLLCFGR_PLLSRC) (v2 .& RCC_PLLCFGR_PLLM) ((v3 .& RCC_PLLCFGR_PLLN) .>> 6)
            (u32 (((v4 .& RCC_PLLCFGR_PLLP) + 0x10000) .<< 1) .>> 16) ((v5 .& RCC_PLLCFGR_PLLQ) .>> 24)
            ((v6 .& RCC_PLLCFGR_PLLR) .>> 28))).

Definition HAL_RCC_GetClockConfig : prog (RCC_ClkInitTypeDef * Z) :=
  v1 <- rd RCC_CFGR ;; v2 <- rd RCC_CFGR ;; v3 <- rd RCC_CFGR ;; v4 <- rd RCC_CFGR ;;
  v5 <- rd FLASH_ACR ;;
  ret (ClkInit (RCC_CLOCKTYPE_SYSCLK .| RCC_CLOCKTYPE_HCLK .| RCC_CLOCKTYPE_PCLK1 .| RCC_CLOCKTYPE_PCLK2)
         (v1 .& RCC_CFGR_SW) (v2 .& RCC_CFGR_HPRE) (v3 .& RCC_CFGR_PPRE1) ((v4 .& RCC_CFGR_PPRE2) .>> 3),
       v5 .& FLASH_ACR_LATENCY).
End rcc.

(** * Every wait ends

    Time in units of which [c_len] make a tick of the kernel's counter; every access
    takes at most [c_step] of them, and reading the counter takes some. *)
Class Clocked (B : Bus) (N : Narrow B) := {
  c_time : hw -> Z;
  c_len : Z;
  c_step : Z;
  c_fast : 0 < c_len /\ 0 < c_step <= 1000;
  c_since h : 0 <= c_time h;
  c_tick h : fst (ktick h) = c_time h / c_len /\ c_time h < c_time (snd (ktick h)) <= c_time h + c_step;
  c_rd a h : c_time h <= c_time (snd (mmio_rd a h)) <= c_time h + c_step;
  c_wr a v h : c_time h <= c_time (mmio_wr a v h) <= c_time h + c_step;
  c_rd8 a h : c_time h <= c_time (snd (mmio_rd8 a h)) <= c_time h + c_step;
  c_wr8 a v h : c_time h <= c_time (mmio_wr8 a v h) <= c_time h + c_step;
}.

Section within.
Context {B : Bus} {N : Narrow B} {C : Clocked B N} {G : Type}.
Implicit Types s : mach G.

(** As long as the tick counter does not wrap around within [n] units, [p] returns within
    them, with a result in [R]. *)
Definition within {A} (n : Z) (R : A -> Prop) (p : M (mach G) A) : Prop :=
  forall s, c_time (dev s) + n < 2 ^ 32 * c_len ->
    wp p s (fun a s' => R a /\ c_time (dev s) <= c_time (dev s') <= c_time (dev s) + n).

Lemma within_mono {A} n m (R R' : A -> Prop) p :
  within n R p -> n <= m -> (forall a, R a -> R' a) -> within m R' p.
Proof. intros Hp Hn HR s Hs. eapply wp_mono; [apply Hp; lia|]. intros a s' [H1 H2]. split; [by apply HR|lia]. Qed.

Lemma within_le {A} n m (R : A -> Prop) p : within n R p -> n <= m -> within m R p.
Proof. intros Hp Hn. by eapply within_mono. Qed.

Lemma within_ret {A} (R : A -> Prop) a : R a -> within 0 R (ret a).
Proof. intros Ha s _. apply wp_ret. split; [done|lia]. Qed.

Lemma within_bind {A E} n m (R : A -> Prop) (R' : E -> Prop) p k :
  within n R p -> 0 <= n -> 0 <= m -> (forall a, R a -> within m R' (k a)) -> within (n + m) R' (bind p k).
Proof.
  intros Hp H0 Hm Hk s Hs. apply wp_step. eapply wp_mono; [apply Hp; lia|]. intros a s1 [Ha T1].
  eapply wp_mono; [apply Hk; [done|lia]|]. intros e s2 [He T2]. split; [done|lia].
Qed.

Lemma within_if {A} n m (R : A -> Prop) (b : bool) p q :
  within n R p -> within m R q -> within (Z.max n m) R (if b then p else q).
Proof. intros Hp Hq. destruct b; (eapply within_mono; [done|lia|done]). Qed.

Definition any {A} (_ : A) : Prop := True.

Lemma within_rd a : within c_step any (rd a).
Proof. intros s _. apply wp_rd. split; [done|]. apply c_rd. Qed.
Lemma within_wr a v : within c_step any (wr a v).
Proof. intros s _. apply wp_wr. split; [done|]. apply c_wr. Qed.
Lemma within_wr8 a v : within c_step any (wr8 a v).
Proof. intros s _. unfold wr8, wp. split; [done|]. apply c_wr8. Qed.
Lemma within_modify (f : G -> G) : within 0 any (modify_ f).
Proof. intros s _. apply wp_modify. split; [done|]. cbn. lia. Qed.
Lemma within_get : within 0 any (get_ (G := G)).
Proof. intros s _. apply wp_get. split; [done|lia]. Qed.

Lemma within_rmw a f : within (2 * c_step) any (rmw a f).
Proof.
  destruct c_fast as [_ Hs]. eapply within_mono; [eapply within_bind; [apply within_rd|lia|apply Z.lt_le_incl, Hs|]|lia|done].
  intros v _. apply within_wr.
Qed.

(** Milliseconds as they are read from the counter. *)
Lemma wp_GetTick s (Q : Z -> mach G -> Prop) :
  c_time (dev s) < 2 ^ 32 * c_len ->
  (forall s', c_time (dev s) < c_time (dev s') <= c_time (dev s) + c_step -> Q (c_time (dev s) / (c_len * 5)) s') ->
  wp HAL_GetTick s Q.
Proof.
  intros Hw HQ. destruct (c_tick (dev s)) as [Ht Hp]. destruct c_fast as [Hl _]. pose proof (c_since (dev s)) as H0.
  unfold HAL_GetTick, sys_now, OS_TICKS_PER_MILLI, wp, bind, tick_count, ret. cbn.
  rewrite Ht, u32_small, Z.div_div by first [lia|split; [apply Z.div_pos; lia|apply Z.div_lt_upper_bound; lia]].
  by apply HQ.
Qed.

(** A limit in units. *)
Definition limit_time (limit : Z) : Z := 5 * (limit + 1) * c_len.

Lemma limit_reached t0 t limit :
  0 <= t0 -> t0 + limit_time limit <= t -> 0 <= limit -> t < 2 ^ 32 * c_len ->
  (limit <? u32 (t / (c_len * 5) - t0 / (c_len * 5))) = true.
Proof.
  intros H0 Ht Hd Hw. destruct c_fast as [Hl _]. unfold limit_time in Ht.
  assert (t0 / (c_len * 5) + (limit + 1) <= t / (c_len * 5)).
  { rewrite <- Z.div_add by lia. apply Z.div_le_mono; lia. }
  assert (t / (c_len * 5) < 2 ^ 32) by (apply Z.div_lt_upper_bound; lia).
  assert (0 <= t0 / (c_len * 5)) by (apply Z.div_pos; lia).
  rewrite u32_small by lia. apply Z.ltb_lt. lia.
Qed.
End within.

Section waits.
Context {B : Bus} {N : Narrow B} {C : Clocked B N}.
Implicit Types s : mach hal_glob.

(** A wait takes its limit at most, and the last round. *)
Lemma wp_wait_while cond n limit t0 : forall fuel s (Q : bool -> mach hal_glob -> Prop),
  within n any cond -> 0 <= n -> 0 <= limit -> 0 <= t0 <= c_time (dev s) ->
  Z.max (c_time (dev s)) (t0 + limit_time limit + c_step) + n + c_step < 2 ^ 32 * c_len ->
  Z.max 0 (t0 + limit_time limit - c_time (dev s)) < Z.of_nat fuel ->
  (forall b s', c_time (dev s) <= c_time (dev s') <= Z.max (c_time (dev s)) (t0 + limit_time limit + c_step) + n + c_step -> Q b s') ->
  wp (wait_while fuel cond limit (t0 / (c_len * 5))) s Q.
Proof.
  destruct c_fast as [Hl Hst]. induction fuel as [|fuel IH]; intros s Q Hc Hn Hlim Ht0 Hw Hf HQ; [lia|]. cbn [wait_while].
  apply wp_step. eapply wp_mono; [apply Hc; lia|]. intros b s1 [_ T1]. destruct b; [|apply wp_ret, HQ; lia].
  apply wp_step, wp_GetTick; [lia|]. intros s2 T2.
  destruct (limit <? _) eqn:Hlate; [apply wp_ret, HQ; lia|].
  assert (c_time (dev s1) < t0 + limit_time limit) as Hin.
  { destruct (decide (t0 + limit_time limit <= c_time (dev s1))); [|lia]. by rewrite limit_reached in Hlate by lia. }
  apply IH; [done|lia|lia|lia|lia|lia|]. intros b' s' T'. apply HQ. lia.
Qed.

(** The time of a wait in all, and the fuel it needs. *)
Definition wait_time (limit n : Z) : Z := limit_time limit + n + 3 * c_step.
Definition wait_fuel (fuel : nat) : Prop := limit_time 5000 < Z.of_nat fuel.

Lemma limit_time_nonneg limit : 0 <= limit -> 0 <= limit_time limit.
Proof. destruct c_fast. unfold limit_time. nia. Qed.

Lemma limit_time_le limit : limit <= 5000 -> limit_time limit <= limit_time 5000.
Proof. destruct c_fast. unfold limit_time. nia. Qed.

Lemma within_wait_then fuel cond n limit m (R : Z -> Prop) k :
  wait_fuel fuel -> within n any cond -> 0 <= n -> 0 <= limit <= 5000 -> R HAL_TIMEOUT -> within m R k -> 0 <= m ->
  within (wait_time limit n + m) R (wait_then fuel cond limit k).
Proof.
  intros Hf Hc Hn Hlim HR Hk Hm s Hs. destruct c_fast as [Hl Hst]. pose proof (c_since (dev s)) as H0.
  pose proof (limit_time_nonneg limit ltac:(lia)). pose proof (limit_time_le limit ltac:(lia)). unfold wait_time, wait_fuel in *.
  unfold wait_then. apply wp_step, wp_GetTick; [lia|]. intros s1 T1.
  apply wp_step, (wp_wait_while cond n); [done|lia|lia|lia|lia|lia|]. intros b s2 T2. destruct b.
  - apply wp_ret. split; [done|lia].
  - eapply wp_mono; [apply Hk; lia|]. intros a s' [Ha T3]. split; [done|lia].
Qed.

(** The same with the tick read before something else. *)
Lemma within_wait fuel cond n limit m (R : Z -> Prop) (p : M (mach hal_glob) unit) q k :
  wait_fuel fuel -> within q any p -> 0 <= q -> within n any cond -> 0 <= n -> 0 <= limit <= 5000 -> R HAL_TIMEOUT -> within m R k -> 0 <= m ->
  within (wait_time limit n + q + m) R
    (tickstart <- HAL_GetTick ;; p ;; late <- wait_while fuel cond limit tickstart ;;
     if late : bool then ret HAL_TIMEOUT else k).
Proof.
  intros Hf Hp Hq Hc Hn Hlim HR Hk Hm s Hs. destruct c_fast as [Hl Hst]. pose proof (c_since (dev s)) as H0.
  pose proof (limit_time_nonneg limit ltac:(lia)). pose proof (limit_time_le limit ltac:(lia)). unfold wait_time, wait_fuel in *.
  apply wp_step, wp_GetTick; [lia|]. intros s1 T1. apply wp_step. eapply wp_mono; [apply Hp; lia|]. intros [] s2 [_ T2].
  apply wp_step, (wp_wait_while cond n); [done|lia|lia|lia|lia|lia|]. intros b s3 T3. destruct b.
  - apply wp_ret. split; [done|lia].
  - eapply wp_mono; [apply Hk; lia|]. intros a s' [Ha T4]. split; [done|lia].
Qed.
End waits.

Ltac timed :=
  lazymatch goal with
  | |- within _ _ (if _ then _ else _) => eapply within_if; timed
  | |- within _ _ (wait_then _ _ _ _) => eapply within_wait_then; [eassumption|timed| | | |timed| ]
  | |- within _ _ (bind _ _) => eapply within_bind; [timed| | |intros ? _; cbv beta zeta; timed]
  | |- within _ _ (ret _) => first [apply (within_ret any); exact I|apply within_ret]
  | |- within _ _ (rd _) => apply within_rd
  | |- within _ _ (wr _ _) => apply within_wr
  | |- within _ _ (rmw _ _) => apply within_rmw
  | |- within _ _ (set_bits _ _) => apply within_rmw
  | |- within _ _ (keep_bits _ _) => apply within_rmw
  | |- within _ _ (modify_reg _ _ _) => apply within_rmw
  | |- within _ _ (let _ := _ in _) => cbv zeta; timed
  | |- within _ _ ?p => first [eassumption|let h := head_of p in unfold h; timed]
  end
with head_of p := lazymatch p with ?f _ => head_of f | _ => p end.

Section osc.
Context {B : Bus} {N : Narrow B} {C : Clocked B N}.
Implicit Types s : mach hal_glob.

Definition hal_status (r : Z) : Prop := r = HAL_OK \/ r = HAL_ERROR \/ r = HAL_TIMEOUT.

(** A part of HAL_RCC_OscConfig takes [n] ticks and some accesses more than what follows it. *)
Definition part_time (n : Z) (part : M (mach hal_glob) Z -> M (mach hal_glob) Z) : Prop :=
  forall m k, 0 <= m -> within m hal_status k -> within (m + n * c_len + 100 * c_step) hal_status (part k).

Ltac part :=
  intros m k Hm Hk; destruct c_fast as [Hl Hs];
  eapply within_le; [timed|];
  try (by auto); try (by left); try (by right; left); try (by right; right);
  unfold wait_time, limit_time, HSE_TIMEOUT_VALUE, HSI_TIMEOUT_VALUE, LSI_TIMEOUT_VALUE, RCC_LSE_TIMEOUT_VALUE,
    RCC_DBP_TIMEOUT_VALUE, PLL_TIMEOUT_VALUE; try lia.

Lemma osc_hse_time fuel o : wait_fuel fuel -> part_time 505 (osc_hse fuel o).
Proof. intros Hf. part. Qed.
Lemma osc_hsi_time fuel o : wait_fuel fuel -> part_time 15 (osc_hsi fuel o).
Proof. intros Hf. part. Qed.
Lemma osc_lsi_time fuel o : wait_fuel fuel -> part_time 15 (osc_lsi fuel o).
Proof. intros Hf. part. Qed.
Lemma osc_lse_time fuel o : wait_fuel fuel -> part_time 25510 (osc_lse fuel o).
Proof. intros Hf. part. Qed.

Lemma osc_pll_time fuel p : wait_fuel fuel -> within (30 * c_len + 100 * c_step) hal_status (osc_pll fuel p).
Proof.
  intros Hf. pose proof c_fast as [Hl Hs]. eapply within_le; [unfold osc_pll; timed|];
  try (by left); try (by right; left); try (by right; right);
  unfold wait_time, limit_time, PLL_TIMEOUT_VALUE; lia.
Qed.

(** All of HAL_RCC_OscConfig: less than 5.3 seconds of waiting. *)
Definition osc_time : Z := 26100 * c_len + 500 * c_step.

(** HAL_RCC_OscConfig returns whatever the oscillators do: if the tick counter advances
    and does not wrap around meanwhile, it answers HAL_OK, HAL_ERROR or HAL_TIMEOUT within the
    sum of the limits of its waits, less than 5.3 seconds, whatever is asked for and whatever the
    registers read. *)
Theorem HAL_RCC_OscConfig_returns fuel init s :
  wait_fuel fuel -> c_time (dev s) + osc_time < 2 ^ 32 * c_len ->
  wp (HAL_RCC_OscConfig fuel init) s (fun r s' =>
    hal_status r /\ c_time (dev s) <= c_time (dev s') <= c_time (dev s) + osc_time).
Proof.
  intros Hf Hs. pose proof c_fast as [Hl Hst]. enough (within osc_time hal_status (HAL_RCC_OscConfig fuel init)) as H by by apply H.
  unfold HAL_RCC_OscConfig. destruct init as [o|].
  2:{ eapply within_le; [apply within_ret; by right; left|unfold osc_time; lia]. }
  set (k4 := if negb _ then _ else _).
  assert (within (30 * c_len + 100 * c_step) hal_status k4) as H4.
  { subst k4. destruct (negb _); [by apply osc_pll_time|]. eapply within_le; [apply within_ret; by left|lia]. }
  assert (forall n t f m k, 0 <= m -> (forall o, part_time n (f fuel o)) -> 0 <= n -> within m hal_status k ->
    within (m + n * c_len + 100 * c_step) hal_status (if selected (OscillatorType o) t then f fuel o k else k)) as Hp.
  { intros n t f m k Hm Hpart Hn Hk. destruct (selected _ t); [by apply Hpart|]. eapply within_le; [done|]. nia. }
  eapply within_le.
  - apply Hp with (n := 505); [|intros; by apply osc_hse_time|lia|].
    2:{ apply Hp with (n := 15); [|intros; by apply osc_hsi_time|lia|].
        2:{ apply Hp with (n := 15); [|intros; by apply osc_lsi_time|lia|].
            2:{ apply Hp with (n := 25510); [|intros; by apply osc_lse_time|lia|exact H4]. lia. } lia. } lia. } lia.
  - unfold osc_time. lia.
Qed.
End osc.

Section witnesses.
(** Dead oscillators: time passes, every register reads 0. *)
Definition dead_bus : Bus := {|
  hw := Z;
  mmio_rd _ h := (0, h + 1);
  mmio_wr _ _ h := h + 1;
  ktick h := (Z.max 0 h / 10, Z.max 0 h + 1);
  os_delay n h := h + n * 10;
|}.

#[local] Instance dead_narrow : Narrow dead_bus := {|
  mmio_rd8 _ (h : @hw dead_bus) := (0, h + 1);
  mmio_wr8 _ _ (h : @hw dead_bus) := h + 1;
  mmio_wr16 _ _ (h : @hw dead_bus) := h + 1;
|}.

#[local] Instance dead_clock : Clocked dead_bus dead_narrow.
Proof.
  refine {| c_time (h : @hw dead_bus) := Z.max 0 h; c_len := 10; c_step := 1 |}; intros; cbn; (lia || split; lia).
Defined.

Definition all_on : RCC_OscInitTypeDef :=
  OscInit 15 RCC_HSE_ON RCC_LSE_ON RCC_HSI_ON 16 RCC_LSI_ON (PllInit RCC_PLL_ON RCC_PLLCFGR_PLLSRC_HSE 20 400 2 8 2).

Lemma HAL_RCC_OscConfig_returns_witness :
  wp (HAL_RCC_OscConfig (Z.to_nat 300000) (Some all_on)) (@Mach dead_bus hal_glob 0 [] hal_init) (fun r _ => hal_status r).
Proof.
  eapply wp_mono.
  - apply (HAL_RCC_OscConfig_returns (C := dead_clock) (Z.to_nat 300000) (Some all_on)); [|vm_compute; reflexivity].
    unfold wait_fuel. rewrite Z2Nat.id; vm_compute; [reflexivity|congruence].
  - intros r s' [H _]. exact H.
Defined.
End witnesses.

(** * The frequency of the system clock *)

(** The frequency in Hz that the registers stand for, before the AHB prescaler, with
    an external oscillator of [hse] Hz. *)
Definition pll_input (hse pllcfgr : Z) : Z := if Z.testbit pllcfgr 22 then hse else HSI_VALUE.
Definition system_clock (hse cfgr pllcfgr : Z) : Z :=
  match bits cfgr 2 2 with
  | 1 => hse
  | 2 => pll_input hse pllcfgr * pll_n pllcfgr / (pll_m pllcfgr * pll_p pllcfgr)
  | _ => HSI_VALUE
  end.

(** The external oscillator is the source, by itself or through the PLL. *)
Definition from_hse (cfgr pllcfgr : Z) : bool :=
  (bits cfgr 2 2 =? 1) || (bits cfgr 2 2 =? 2) && Z.testbit pllcfgr 22.

Lemma system_clock_hsi hse hse' cfgr pll :
  from_hse cfgr pll = false -> system_clock hse cfgr pll = system_clock hse' cfgr pll.
Proof.
  unfold from_hse, system_clock, pll_input. destruct (bits cfgr 2 2) as [|[p|[p|p|]|]|p]; try done.
  cbn. by intros ->.
Qed.

(** With the oscillator of the board, and divided by the prescaler, it is the frequency
    [Clock] means by the registers. *)
Lemma system_core_clock cfgr pll :
  (bits cfgr 2 2 = 2 -> 0 < pll_m pll) ->
  system_clock Clock.HSE_VALUE cfgr pll / ahb_divider cfgr = core_clock cfgr pll.
Proof.
  intros Hm. unfold system_clock, core_clock. destruct (prescaler_divider cfgr) as (k & _ & Hk & Hd).
  assert (0 < ahb_divider cfgr) as Hpos by (rewrite <- Hd; lia).
  destruct (decide (bits cfgr 2 2 = 2)) as [Hb|Hb].
  - rewrite Hb. assert (0 < pll_p pll) by (unfold pll_p; pose proof (bits_range pll 16 2); lia).
    specialize (Hm Hb). rewrite Z.div_div by nia. done.
  - destruct (bits cfgr 2 2) as [|[p|[p|p|]|]|p]; done.
Qed.

Section frequency.
Context {B : Bus} {R : RegFile B clock_reg}.
Implicit Types s : mach hal_glob.

Lemma wp_clk_rd a s (Q : Z -> mach hal_glob -> Prop) :
  clock_reg a ->
  (forall s', reg_file (dev s') = reg_file (dev s) -> glb s' = glb s -> Q (u32 (reg_file (dev s) a)) s') ->
  wp (rd a) s Q.
Proof.
  intros Ha HQ. apply wp_rd. rewrite reg_rd by done. apply HQ; [|done]. cbn. by apply reg_rd_same.
Qed.

(** HAL_RCC_GetSysClockFreq returns the frequency that RCC_CFGR and RCC_PLLCFGR stand for
    with an external oscillator of 25 MHz, rounded down once.  Unless that oscillator is the
    source, the prescaled value is the core's frequency exactly, also where
    SystemCoreClockUpdate loses something; with it, it is that of another board: this one has
    20 MHz. *)
Theorem HAL_RCC_GetSysClockFreq_exact cfgr pll s :
  u32 (reg_file (dev s) RCC_CFGR) = cfgr -> u32 (reg_file (dev s) RCC_PLLCFGR) = pll ->
  (bits cfgr 2 2 = 2 -> 0 < pll_m pll /\ pll_input HSE_VALUE pll * pll_n pll / pll_m pll < 2 ^ 32) ->
  wp HAL_RCC_GetSysClockFreq s (fun f _ =>
    f = system_clock HSE_VALUE cfgr pll /\ (from_hse cfgr pll = false -> f / ahb_divider cfgr = core_clock cfgr pll)).
Proof.
  intros Hc Hp Hpll. assert (clock_reg RCC_CFGR) as Hr by by left. assert (clock_reg RCC_PLLCFGR) as Hr' by by right.
  eapply (wp_mono _ _ (fun f _ => f = system_clock HSE_VALUE cfgr pll)).
  2:{ intros f _ ->. split; [done|]. intros Hh. rewrite (system_clock_hsi _ Clock.HSE_VALUE) by done.
      apply system_core_clock. intros Hb. by destruct (Hpll Hb). }
  unfold HAL_RCC_GetSysClockFreq. apply wp_step, wp_clk_rd; [done|]. intros s1 H1 _. rewrite Hc, sws_field.
  assert (0 <= bits cfgr 2 2 < 4) as Hb by (apply bits_range; lia). unfold system_clock.
  revert Hpll Hb. generalize (bits cfgr 2 2). intros b Hpll Hb.
  assert (b = 0 \/ b = 1 \/ b = 2 \/ b = 3) as [->|[->|[->| ->]]] by lia; cbn -[wp]; [by apply wp_ret..| |by apply wp_ret].
  destruct (Hpll eq_refl) as [Hm Hv].
  apply wp_step, wp_clk_rd; [done|]. intros s2 H2 _. unfold HAL_RCC_GET_PLL_OSCSOURCE. apply wp_step, wp_step, wp_clk_rd; [done|].
  intros s3 H3 _. apply wp_ret, wp_step, wp_clk_rd; [done|]. intros s4 H4 _. rewrite H3, H2, H1, Hp.
  apply wp_step, wp_defined_if. { assert (pll .& RCC_PLLCFGR_PLLM = pll_m pll) as -> by done. apply negb_true_iff, Z.eqb_neq. lia. }
  apply wp_step, wp_clk_rd; [done|]. intros s5 H5 _. rewrite H4, H3, H2, H1, Hp. apply wp_ret.
  change RCC_PLLCFGR_PLLSRC_HSI with 0.
  assert ((if negb (pll .& RCC_PLLCFGR_PLLSRC =? 0) then HSE_VALUE else HSI_VALUE) = pll_input HSE_VALUE pll) as ->.
  { unfold pll_input. change RCC_PLLCFGR_PLLSRC with (1 .<< 22). destruct (Z.testbit pll 22) eqn:Hb22.
    - destruct (Z.eqb_spec (pll .& (1 .<< 22)) 0) as [H|]; [|done].
      apply (f_equal (fun z => Z.testbit z 22)) in H. by rewrite Z.land_spec, Hb22 in H.
    - destruct (Z.eqb_spec (pll .& (1 .<< 22)) 0) as [|[]]; [done|]. apply Z.bits_inj'. intros i Hi. rewrite Z.bits_0, Z.land_spec.
      destruct (decide (i = 22)) as [->|]; [by rewrite Hb22|]. rewrite (Z.shiftl_1_l 22), Z.pow2_bits_false by lia. apply andb_false_r. }
  change RCC_PLLCFGR_PLLN with (Z.ones 9 .<< 6). change RCC_PLLCFGR_PLLP with (Z.ones 2 .<< 16). rewrite !land_field by lia.
  fold (pll_n pll). change (pll .& RCC_PLLCFGR_PLLM) with (pll_m pll).
  assert (0 <= pll_n pll) by (apply bits_range; lia). assert (0 < pll_input HSE_VALUE pll) by (unfold pll_input; by destruct (Z.testbit pll 22)).
  rewrite u32_small by (split; [apply Z.div_pos; nia|done]).
  replace ((bits pll 16 2 + 1) * 2) with (pll_p pll) by (unfold pll_p; lia).
  rewrite Z.div_div; [done|lia|]. unfold pll_p. pose proof (bits_range pll 16 2). lia.
Qed.
End frequency.

(** The clocks of this board, M = 20, N = 400, P = 2, no prescaler: the core runs at 200 MHz,
    the driver says 250 MHz. *)
Definition board_pll : @mach file_bus hal_glob :=
  @Mach file_bus hal_glob (fun a => if a =? RCC_CFGR then 0x8 else 20 + 400 * 64 + 0x400000) [] hal_init.

Lemma HAL_RCC_GetSysClockFreq_exact_witness :
  wp HAL_RCC_GetSysClockFreq board_pll (fun f _ => f = 250000000) /\ core_clock 0x8 (20 + 400 * 64 + 0x400000) = 200000000.
Proof.
  split; [|reflexivity]. eapply wp_mono.
  - apply (@HAL_RCC_GetSysClockFreq_exact file_bus _ 0x8 (20 + 400 * 64 + 0x400000) board_pll); [reflexivity..|].
    intros _. vm_compute. split; reflexivity.
  - intros f s' [H _]. exact H.
Defined.
