(* ===== verification/EthHal.v ===== *)
(** The Ethernet driver: src/stm32f7xx_hal_eth.c, with the callbacks the
    interface supplies to it in src/ethernetif.c.  The handle [heth], the
    interface's semaphore and the core's frequency are the globals; descriptors
    and buffers are memory behind the bus, reached with [rd], [wr], [rd8] and
    [wr8]. *)
From S2P Require Import Prelude Machine SysArch FlashHal Reset Cortex Gpio Clock.

#[local] Open Scope fw_scope.

(** ** Constants *)
Definition ETH : Z := 0x40028000.
(** Registers, as offsets from the base address of the instance. *)
Definition MACCR : Z := 0x0.
Definition MACFFR : Z := 0x4.
Definition MACHTHR : Z := 0x8.
Definition MACHTLR : Z := 0xC.
Definition MACMIIAR : Z := 0x10.
Definition MACMIIDR : Z := 0x14.
Definition MACFCR : Z := 0x18.
Definition MACVLANTR : Z := 0x1C.
Definition DMABMR : Z := 0x1000.
Definition DMATPDR : Z := 0x1004.
Definition DMARPDR : Z := 0x1008.
Definition DMARDLAR : Z := 0x100C.
Definition DMATDLAR : Z := 0x1010.
Definition DMASR : Z := 0x1014.
Definition DMAOMR : Z := 0x1018.
Definition DMAIER : Z := 0x101C.
Definition ETH_MAC_ADDR_HBASE : Z := ETH + 0x40.
Definition ETH_MAC_ADDR_LBASE : Z := ETH + 0x44.
Definition ETH_MAC_ADDRESS0 : Z := 0.
Definition RCC_AHB1ENR_ETHMACEN : Z := 0x2000000.
Definition RCC_AHB1ENR_ETHMACTXEN : Z := 0x4000000.
Definition RCC_AHB1ENR_ETHMACRXEN : Z := 0x8000000.
Definition SYSCFG_PMC_MII_RMII_SEL : Z := 0x800000.
Definition ETH_IRQn : Z := 61.

Definition ETH_SUCCESS : Z := 0.
Definition ETH_ERROR : Z := 1.
Definition ETH_REG_WRITE_DELAY : Z := 1.
Definition ETH_TIMEOUT_SWRESET : Z := 0x1f4.
Definition ETH_TIMEOUT_LINKED_STATE : Z := 0x1388.
Definition ETH_TIMEOUT_AUTONEGO_COMPLETED : Z := 0x1388.
Definition PHY_READ_TO : Z := 0xffff.
Definition PHY_WRITE_TO : Z := 0xffff.
Definition PHY_RESET_DELAY : Z := 0xff.
Definition PHY_CONFIG_DELAY : Z := 0xfff.
Definition PHY_BCR : Z := 0.
Definition PHY_BSR : Z := 1.
Definition PHY_SR : Z := 0x10.
Definition PHY_RESET : Z := 0x8000.
Definition PHY_AUTONEGOTIATION : Z := 0x1000.
Definition PHY_AUTONEGO_COMPLETE : Z := 0x20.
Definition PHY_LINKED_STATUS : Z := 4.
Definition PHY_SPEED_STATUS : Z := 2.
Definition PHY_DUPLEX_STATUS : Z := 4.
Definition ETH_AUTONEGOTIATION_ENABLE : Z := 1.
Definition ETH_AUTONEGOTIATION_DISABLE : Z := 0.
Definition ETH_SPEED_10M : Z := 0.
Definition ETH_SPEED_100M : Z := 0x4000.
Definition ETH_MODE_FULLDUPLEX : Z := 0x800.
Definition ETH_MODE_HALFDUPLEX : Z := 0.
Definition ETH_RXINTERRUPT_MODE : Z := 1.
Definition ETH_CHECKSUM_BY_HARDWARE : Z := 0.
Definition ETH_MEDIA_INTERFACE_RMII : Z := SYSCFG_PMC_MII_RMII_SEL.
Definition ETH_MACMIIAR_CR_MASK : Z := 0xffffffe3.
Definition ETH_MACMIIAR_CR_Div16 : Z := 8.
Definition ETH_MACMIIAR_CR_Div26 : Z := 0xc.
Definition ETH_MACMIIAR_CR_Div42 : Z := 0.
Definition ETH_MACMIIAR_CR_Div62 : Z := 4.
Definition ETH_MACMIIAR_CR_Div102 : Z := 0x10.
Definition ETH_MACMIIAR_PA : Z := 0xf800.
Definition ETH_MACMIIAR_MR : Z := 0x7c0.
Definition ETH_MACMIIAR_MW : Z := 2.
Definition ETH_MACMIIAR_MB : Z := 1.
Definition ETH_MACCR_CLEAR_MASK : Z := 0xff20810f.
Definition ETH_MACFCR_CLEAR_MASK : Z := 0xff41.
Definition ETH_DMAOMR_CLEAR_MASK : Z := 0xf8de3f23.
Definition ETH_MACCR_TE : Z := 8.
Definition ETH_MACCR_RE : Z := 4.
Definition ETH_DMAOMR_ST : Z := 0x2000.
Definition ETH_DMAOMR_SR : Z := 2.
Definition ETH_DMAOMR_FTF : Z := 0x100000.
Definition ETH_DMABMR_SR : Z := 1.
Definition ETH_DMABMR_USP : Z := 0x800000.
Definition ETH_DMASR_TBUS : Z := 4.
Definition ETH_DMASR_RBUS : Z := 0x80.
Definition ETH_DMASR_TUS : Z := 0x20.
Definition ETH_DMA_FLAG_R : Z := 0x40.
Definition ETH_DMA_FLAG_T : Z := 1.
Definition ETH_DMA_FLAG_AIS : Z := 0x8000.
Definition ETH_DMA_IT_NIS : Z := 0x10000.
Definition ETH_DMA_IT_R : Z := 0x40.
Definition ETH_DMA_IT_T : Z := 1.
Definition ETH_CHECKSUMOFFLAOD_ENABLE : Z := 0x400.
Definition ETH_CHECKSUMOFFLAOD_DISABLE : Z := 0.
Definition ETH_RETRYTRANSMISSION_DISABLE : Z := 0x200.
Definition ETH_PASSCONTROLFRAMES_BLOCKALL : Z := 0x40.
Definition ETH_ZEROQUANTAPAUSE_DISABLE : Z := 0x80.
Definition ETH_RECEIVESTOREFORWARD_ENABLE : Z := 0x2000000.
Definition ETH_TRANSMITSTOREFORWARD_ENABLE : Z := 0x200000.
Definition ETH_SECONDFRAMEOPERARTE_ENABLE : Z := 4.
Definition ETH_ADDRESSALIGNEDBEATS_ENABLE : Z := 0x2000000.
Definition ETH_FIXEDBURST_ENABLE : Z := 0x10000.
Definition ETH_RXDMABURSTLENGTH_32BEAT : Z := 0x400000.
Definition ETH_TXDMABURSTLENGTH_32BEAT : Z := 0x2000.
Definition ETH_DMAENHANCEDDESCRIPTOR_ENABLE : Z := 0x80.

(** Descriptors and buffers. *)
Definition ETH_DMATXDESC_OWN : Z := 0x80000000.
Definition ETH_DMATXDESC_LS : Z := 0x20000000.
Definition ETH_DMATXDESC_FS : Z := 0x10000000.
Definition ETH_DMATXDESC_TCH : Z := 0x100000.
Definition ETH_DMATXDESC_TBS1 : Z := 0x1fff.
Definition ETH_DMATXDESC_CHECKSUMTCPUDPICMPFULL : Z := 0xc00000.
Definition ETH_DMARXDESC_OWN : Z := 0x80000000.
Definition ETH_DMARXDESC_FS : Z := 0x200.
Definition ETH_DMARXDESC_LS : Z := 0x100.
Definition ETH_DMARXDESC_FL : Z := 0x3fff0000.
Definition ETH_DMARXDESC_FRAMELENGTHSHIFT : Z := 0x10.
Definition ETH_DMARXDESC_RCH : Z := 0x4000.
Definition ETH_DMARXDESC_DIC : Z := 0x80000000.
Definition ETH_RX_BUF_SIZE : Z := 1524.
Definition ETH_TX_BUF_SIZE : Z := 1524.
Definition ETH_RXBUFNB : Z := 4.
Definition ETH_TXBUFNB : Z := 4.

(** [ETH_DMADescTypeDef]: eight words. *)
Definition DESC_SIZE : Z := 32.
Definition Status (desc : Z) : Z := desc.
Definition ControlBufferSize (desc : Z) : Z := desc + 4.
Definition Buffer1Addr (desc : Z) : Z := desc + 8.
Definition Buffer2NextDescAddr (desc : Z) : Z := desc + 12.

Definition HAL_ETH_STATE_RESET : Z := 0.
Definition HAL_ETH_STATE_READY : Z := 1.
Definition HAL_ETH_STATE_BUSY : Z := 2.
Definition HAL_ETH_STATE_BUSY_TX : Z := 0x12.
Definition HAL_ETH_STATE_BUSY_WR : Z := 0x42.
Definition HAL_ETH_STATE_BUSY_RD : Z := 0x82.
Definition HAL_ETH_STATE_TIMEOUT : Z := 3.

(** ** Data *)

(** [ETH_InitTypeDef]; [MACAddr] is the array of six bytes the pointer points to,
    [None] when there is no such object (any more). *)
Record ETH_InitTypeDef := EthInit {
  AutoNegotiation : Z; eth_Speed : Z; DuplexMode : Z; PhyAddress : Z;
  MACAddr : option (list Z); RxMode : Z; ChecksumMode : Z; MediaInterface : Z }.

Record ETH_DMARxFrameInfos := RxInfos {
  FSRxDesc : Z; LSRxDesc : Z; SegCount : Z; rx_length : Z; rx_buffer : Z }.

Record ETH_HandleTypeDef := EthHandle {
  eth_Instance : Z; eth_Init : ETH_InitTypeDef; LinkStatus : Z; RxDesc : Z; TxDesc : Z;
  RxFrameInfos : ETH_DMARxFrameInfos; eth_State : Z; eth_Lock : bool }.

(** [ETH_MACInitTypeDef] and [ETH_DMAInitTypeDef] *)
Record ETH_MACInitTypeDef := MacInit {
  Watchdog : Z; Jabber : Z; InterFrameGap : Z; CarrierSense : Z; ReceiveOwn : Z; LoopbackMode : Z;
  ChecksumOffload : Z; RetryTransmission : Z; AutomaticPadCRCStrip : Z; BackOffLimit : Z;
  DeferralCheck : Z; ReceiveAll : Z; SourceAddrFilter : Z; PassControlFrames : Z;
  BroadcastFramesReception : Z; DestinationAddrFilter : Z; PromiscuousMode : Z;
  MulticastFramesFilter : Z; UnicastFramesFilter : Z; HashTableHigh : Z; HashTableLow : Z;
  PauseTime : Z; ZeroQuantaPause : Z; PauseLowThreshold : Z; UnicastPauseFrameDetect : Z;
  ReceiveFlowControl : Z; TransmitFlowControl : Z; VLANTagComparison : Z; VLANTagIdentifier : Z }.

Record ETH_DMAInitTypeDef := DmaInit {
  DropTCPIPChecksumErrorFrame : Z; ReceiveStoreForward : Z; FlushReceivedFrame : Z;
  TransmitStoreForward : Z; TransmitThresholdControl : Z; ForwardErrorFrames : Z;
  ForwardUndersizedGoodFrames : Z; ReceiveThresholdControl : Z; SecondFrameOperate : Z;
  AddressAlignedBeats : Z; FixedBurst : Z; RxDMABurstLength : Z; TxDMABurstLength : Z;
  EnhancedDescriptorFormat : Z; DescriptorSkipLength : Z; DMAArbitration : Z }.

(** The globals [heth] and [s_xSemaphore], and those of the clock. *)
Record eth_glob := EthGlob { heth : ETH_HandleTypeDef; s_xSemaphore : Z; eth_clk : clk_glob }.

#[export, refine] Instance eth_has_clk : Has eth_glob clk_glob := {|
  part := eth_clk; with_part c g := EthGlob (heth g) (s_xSemaphore g) c |}.
Proof.
  - done.
  - by intros [].
Defined.

(** ** Assignments to the handle *)
Definition set_Init i h := EthHandle (eth_Instance h) i (LinkStatus h) (RxDesc h) (TxDesc h) (RxFrameInfos h) (eth_State h) (eth_Lock h).
Definition set_Instance a h := EthHandle a (eth_Init h) (LinkStatus h) (RxDesc h) (TxDesc h) (RxFrameInfos h) (eth_State h) (eth_Lock h).
Definition set_RxDesc d h := EthHandle (eth_Instance h) (eth_Init h) (LinkStatus h) d (TxDesc h) (RxFrameInfos h) (eth_State h) (eth_Lock h).
Definition set_TxDesc d h := EthHandle (eth_Instance h) (eth_Init h) (LinkStatus h) (RxDesc h) d (RxFrameInfos h) (eth_State h) (eth_Lock h).
Definition set_infos f h := EthHandle (eth_Instance h) (eth_Init h) (LinkStatus h) (RxDesc h) (TxDesc h) (f (RxFrameInfos h)) (eth_State h) (eth_Lock h).
Definition set_State st h := EthHandle (eth_Instance h) (eth_Init h) (LinkStatus h) (RxDesc h) (TxDesc h) (RxFrameInfos h) st (eth_Lock h).
Definition set_eth_Lock l h := EthHandle (eth_Instance h) (eth_Init h) (LinkStatus h) (RxDesc h) (TxDesc h) (RxFrameInfos h) (eth_State h) l.
Definition set_link speed duplex h :=
  let i := eth_Init h in
  set_Init (EthInit (AutoNegotiation i) speed duplex (PhyAddress i) (MACAddr i) (RxMode i) (ChecksumMode i) (MediaInterface i)) h.
Definition set_MACAddr a h :=
  let i := eth_Init h in
  set_Init (EthInit (AutoNegotiation i) (eth_Speed i) (DuplexMode i) (PhyAddress i) a (RxMode i) (ChecksumMode i) (MediaInterface i)) h.

Definition set_FSRxDesc d r := RxInfos d (LSRxDesc r) (SegCount r) (rx_length r) (rx_buffer r).
Definition set_LSRxDesc d r := RxInfos (FSRxDesc r) d (SegCount r) (rx_length r) (rx_buffer r).
Definition set_SegCount n r := RxInfos (FSRxDesc r) (LSRxDesc r) (u32 n) (rx_length r) (rx_buffer r).
Definition set_rx_length n r := RxInfos (FSRxDesc r) (LSRxDesc r) (SegCount r) n (rx_buffer r).
Definition set_rx_buffer a r := RxInfos (FSRxDesc r) (LSRxDesc r) (SegCount r) (rx_length r) a.

(** * Operations *)

Section eth.
Context {B : Bus} {N : Narrow B} {R : Rtos B}.
Abbreviation prog := (M (mach eth_glob)).

Definition get_heth : prog ETH_HandleTypeDef := g <- get_ ;; ret (heth g).
Definition modify_heth (f : ETH_HandleTypeDef -> ETH_HandleTypeDef) : prog unit :=
  modify_ (fun g => EthGlob (f (heth g)) (s_xSemaphore g) (eth_clk g)).

(** Registers of [heth->Instance]. *)
Definition erd (off : Z) : prog Z := h <- get_heth ;; rd (eth_Instance h + off).
Definition ewr (off v : Z) : prog unit := h <- get_heth ;; wr (eth_Instance h + off) v.
Definition ermw (off : Z) (f : Z -> Z) : prog unit := v <- erd off ;; ewr off (f v).
Definition eset (off m : Z) : prog unit := ermw off (fun v => v .| m).
Definition eclear (off m : Z) : prog unit := ermw off (fun v => v .& not32 m).

(** A register is read back and written again after a delay. *)
Definition settle (off : Z) : prog unit :=
  tmpreg <- erd off ;; HAL_Delay ETH_REG_WRITE_DELAY ;; ewr off tmpreg.

(** [__HAL_LOCK] and [__HAL_UNLOCK] of the handle. *)
Definition eth_lock (body : prog Z) : prog Z :=
  h <- get_heth ;;
  if eth_Lock h then ret HAL_BUSY else modify_heth (set_eth_Lock true) ;; body.
Definition eth_unlock : prog unit := modify_heth (set_eth_Lock false).
Definition eth_state (st : Z) : prog unit := modify_heth (set_State st).

(** ** The registers of the PHY *)

(** The wait for the busy bit, from the command [tmpreg]: [true] on a timeout. *)
Fixpoint mii_wait (fuel : nat) (limit tickstart tmpreg : Z) : prog bool :=
  match fuel with
  | O => spin
  | S n =>
      if tmpreg .& ETH_MACMIIAR_MB =? ETH_MACMIIAR_MB then
        now <- HAL_GetTick ;;
        if limit <? u32 (now - tickstart) then ret true
        else v <- erd MACMIIAR ;; mii_wait n limit tickstart v
      else ret false
  end.

(** The clock range is kept; PHY and register number are fields. *)
Definition mii_address (v phy PHYReg : Z) : Z :=
  (v .& not32 ETH_MACMIIAR_CR_MASK) .| ((phy .<< 11) .& ETH_MACMIIAR_PA) .|
  ((PHYReg .<< 6) .& ETH_MACMIIAR_MR).

(** The status, and what is stored in [*RegValue], if anything is. *)
Definition HAL_ETH_ReadPHYRegister (fuel : nat) (PHYReg : Z) : prog (Z * option Z) :=
  h <- get_heth ;;
  if eth_State h =? HAL_ETH_STATE_BUSY_RD then ret (HAL_BUSY, None)
  else
    eth_state HAL_ETH_STATE_BUSY_RD ;;
    v <- erd MACMIIAR ;;
    let tmpreg := (mii_address v (PhyAddress (eth_Init h)) PHYReg .& not32 ETH_MACMIIAR_MW)
                  .| ETH_MACMIIAR_MB in
    ewr MACMIIAR tmpreg ;;
    tickstart <- HAL_GetTick ;;
    late <- mii_wait fuel PHY_READ_TO tickstart tmpreg ;;
    if late : bool then
      eth_state HAL_ETH_STATE_READY ;; eth_unlock ;; ret (HAL_TIMEOUT, None)
    else
      v <- erd MACMIIDR ;;
      eth_state HAL_ETH_STATE_READY ;;
      ret (HAL_OK, Some (u16 v)).

Definition HAL_ETH_WritePHYRegister (fuel : nat) (PHYReg RegValue : Z) : prog Z :=
  h <- get_heth ;;
  if eth_State h =? HAL_ETH_STATE_BUSY_WR then ret HAL_BUSY
  else
    eth_state HAL_ETH_STATE_BUSY_WR ;;
    v <- erd MACMIIAR ;;
    let tmpreg := mii_address v (PhyAddress (eth_Init h)) PHYReg .| ETH_MACMIIAR_MW
                  .| ETH_MACMIIAR_MB in
    ewr MACMIIDR (u16 RegValue) ;;
    ewr MACMIIAR tmpreg ;;
    tickstart <- HAL_GetTick ;;
    late <- mii_wait fuel PHY_WRITE_TO tickstart tmpreg ;;
    if late : bool then
      eth_state HAL_ETH_STATE_READY ;; eth_unlock ;; ret HAL_TIMEOUT
    else
      eth_state HAL_ETH_STATE_READY ;; ret HAL_OK.

(** ** Configuration *)

(** MACCR, MACFFR, the hash table, MACFCR and MACVLANTR from [macinit]. *)
Definition configure_mac (m : ETH_MACInitTypeDef) : prog unit :=
  v <- erd MACCR ;;
  h <- get_heth ;;
  let i := eth_Init h in
  ewr MACCR ((v .& ETH_MACCR_CLEAR_MASK) .|
    (Watchdog m .| Jabber m .| InterFrameGap m .| CarrierSense m .| eth_Speed i .|
     ReceiveOwn m .| LoopbackMode m .| DuplexMode i .| ChecksumOffload m .|
     RetryTransmission m .| AutomaticPadCRCStrip m .| BackOffLimit m .| DeferralCheck m)) ;;
  settle MACCR ;;
  ewr MACFFR (ReceiveAll m .| SourceAddrFilter m .| PassControlFrames m .|
    BroadcastFramesReception m .| DestinationAddrFilter m .| PromiscuousMode m .|
    MulticastFramesFilter m .| UnicastFramesFilter m) ;;
  settle MACFFR ;;
  ewr MACHTHR (HashTableHigh m) ;;
  ewr MACHTLR (HashTableLow m) ;;
  v <- erd MACFCR ;;
  ewr MACFCR ((v .& ETH_MACFCR_CLEAR_MASK) .|
    ((PauseTime m .<< 16) .| ZeroQuantaPause m .| PauseLowThreshold m .|
     UnicastPauseFrameDetect m .| ReceiveFlowControl m .| TransmitFlowControl m)) ;;
  settle MACFCR ;;
  ewr MACVLANTR (VLANTagComparison m .| VLANTagIdentifier m) ;;
  settle MACVLANTR.

(** DMAOMR and DMABMR from [dmainit]. *)
Definition configure_dma (d : ETH_DMAInitTypeDef) : prog unit :=
  v <- erd DMAOMR ;;
  ewr DMAOMR ((v .& ETH_DMAOMR_CLEAR_MASK) .|
    (DropTCPIPChecksumErrorFrame d .| ReceiveStoreForward d .| FlushReceivedFrame d .|
     TransmitStoreForward d .| TransmitThresholdControl d .| ForwardErrorFrames d .|
     ForwardUndersizedGoodFrames d .| ReceiveThresholdControl d .| SecondFrameOperate d)) ;;
  settle DMAOMR ;;
  ewr DMABMR (AddressAlignedBeats d .| FixedBurst d .| RxDMABurstLength d .|
    TxDMABurstLength d .| EnhancedDescriptorFormat d .| (DescriptorSkipLength d .<< 2) .|
    DMAArbitration d .| ETH_DMABMR_USP) ;;
  settle DMABMR.

Definition byte_at (l : list Z) (i : Z) : prog Z := deref (aget l i).

Definition ETH_MACAddressConfig (MacAddr : Z) (Addr : option (list Z)) : prog unit :=
  Addr <- deref Addr ;;
  a5 <- byte_at Addr 5 ;; a4 <- byte_at Addr 4 ;;
  wr (ETH_MAC_ADDR_HBASE + MacAddr) ((a5 .<< 8) .| a4) ;;
  a3 <- byte_at Addr 3 ;; a2 <- byte_at Addr 2 ;; a1 <- byte_at Addr 1 ;; a0 <- byte_at Addr 0 ;;
  wr (ETH_MAC_ADDR_LBASE + MacAddr) ((a3 .<< 24) .| (a2 .<< 16) .| (a1 .<< 8) .| a0).

(** The defaults; the parameters not listed by name have the value 0. *)
Definition default_mac (ChecksumMode : Z) : ETH_MACInitTypeDef := {|
  Watchdog := 0; Jabber := 0; InterFrameGap := 0; CarrierSense := 0; ReceiveOwn := 0;
  LoopbackMode := 0;
  ChecksumOffload := if ChecksumMode =? ETH_CHECKSUM_BY_HARDWARE
                     then ETH_CHECKSUMOFFLAOD_ENABLE else ETH_CHECKSUMOFFLAOD_DISABLE;
  RetryTransmission := ETH_RETRYTRANSMISSION_DISABLE;
  AutomaticPadCRCStrip := 0; BackOffLimit := 0; DeferralCheck := 0; ReceiveAll := 0;
  SourceAddrFilter := 0; PassControlFrames := ETH_PASSCONTROLFRAMES_BLOCKALL;
  BroadcastFramesReception := 0; DestinationAddrFilter := 0; PromiscuousMode := 0;
  MulticastFramesFilter := 0; UnicastFramesFilter := 0; HashTableHigh := 0; HashTableLow := 0;
  PauseTime := 0; ZeroQuantaPause := ETH_ZEROQUANTAPAUSE_DISABLE; PauseLowThreshold := 0;
  UnicastPauseFrameDetect := 0; ReceiveFlowControl := 0; TransmitFlowControl := 0;
  VLANTagComparison := 0; VLANTagIdentifier := 0 |}.

Definition default_dma : ETH_DMAInitTypeDef := {|
  DropTCPIPChecksumErrorFrame := 0; ReceiveStoreForward := ETH_RECEIVESTOREFORWARD_ENABLE;
  FlushReceivedFrame := 0; TransmitStoreForward := ETH_TRANSMITSTOREFORWARD_ENABLE;
  TransmitThresholdControl := 0; ForwardErrorFrames := 0; ForwardUndersizedGoodFrames := 0;
  ReceiveThresholdControl := 0; SecondFrameOperate := ETH_SECONDFRAMEOPERARTE_ENABLE;
  AddressAlignedBeats := ETH_ADDRESSALIGNEDBEATS_ENABLE; FixedBurst := ETH_FIXEDBURST_ENABLE;
  RxDMABurstLength := ETH_RXDMABURSTLENGTH_32BEAT; TxDMABurstLength := ETH_TXDMABURSTLENGTH_32BEAT;
  EnhancedDescriptorFormat := ETH_DMAENHANCEDDESCRIPTOR_ENABLE; DescriptorSkipLength := 0;
  DMAArbitration := 0 |}.

Definition ETH_MACDMAConfig (err : Z) : prog unit :=
  (if negb (err =? ETH_SUCCESS) then modify_heth (set_link ETH_SPEED_100M ETH_MODE_FULLDUPLEX) else ret tt) ;;
  h <- get_heth ;;
  configure_mac (default_mac (ChecksumMode (eth_Init h))) ;;
  configure_dma default_dma ;;
  (if RxMode (eth_Init h) =? ETH_RXINTERRUPT_MODE then eset DMAIER (ETH_DMA_IT_NIS .| ETH_DMA_IT_R)
   else ret tt) ;;
  ETH_MACAddressConfig ETH_MAC_ADDRESS0 (MACAddr (eth_Init h)).

(** Without a configuration only speed and duplex mode are set. *)
Definition HAL_ETH_ConfigMAC (macconf : option ETH_MACInitTypeDef) : prog Z :=
  eth_lock (
    eth_state HAL_ETH_STATE_BUSY ;;
    match macconf with
    | Some m => configure_mac m
    | None =>
        v <- erd MACCR ;;
        h <- get_heth ;;
        ewr MACCR ((v .& not32 0x4800) .| (eth_Speed (eth_Init h) .| DuplexMode (eth_Init h))) ;;
        settle MACCR
    end ;;
    eth_state HAL_ETH_STATE_READY ;; eth_unlock ;; ret HAL_OK).

Definition HAL_ETH_ConfigDMA (dmaconf : ETH_DMAInitTypeDef) : prog Z :=
  eth_lock (
    eth_state HAL_ETH_STATE_BUSY ;;
    configure_dma dmaconf ;;
    eth_state HAL_ETH_STATE_READY ;; eth_unlock ;; ret HAL_OK).

Definition ETH_MACTransmissionEnable : prog unit := eset MACCR ETH_MACCR_TE ;; settle MACCR.
Definition ETH_MACTransmissionDisable : prog unit := eclear MACCR ETH_MACCR_TE ;; settle MACCR.
Definition ETH_MACReceptionEnable : prog unit := eset MACCR ETH_MACCR_RE ;; settle MACCR.
Definition ETH_MACReceptionDisable : prog unit := eclear MACCR ETH_MACCR_RE ;; settle MACCR.
Definition ETH_DMATransmissionEnable : prog unit := eset DMAOMR ETH_DMAOMR_ST.
Definition ETH_DMATransmissionDisable : prog unit := eclear DMAOMR ETH_DMAOMR_ST.
Definition ETH_DMAReceptionEnable : prog unit := eset DMAOMR ETH_DMAOMR_SR.
Definition ETH_DMAReceptionDisable : prog unit := eclear DMAOMR ETH_DMAOMR_SR.
Definition ETH_FlushTransmitFIFO : prog unit := eset DMAOMR ETH_DMAOMR_FTF ;; settle DMAOMR.

Definition HAL_ETH_Start : prog Z :=
  eth_lock (
    eth_state HAL_ETH_STATE_BUSY ;;
    ETH_MACTransmissionEnable ;;
    ETH_MACReceptionEnable ;;
    ETH_FlushTransmitFIFO ;;
    ETH_DMATransmissionEnable ;;
    ETH_DMAReceptionEnable ;;
    eth_state HAL_ETH_STATE_READY ;; eth_unlock ;; ret HAL_OK).

Definition HAL_ETH_Stop : prog Z :=
  eth_lock (
    eth_state HAL_ETH_STATE_BUSY ;;
    ETH_DMATransmissionDisable ;;
    ETH_DMAReceptionDisable ;;
    ETH_MACReceptionDisable ;;
    ETH_FlushTransmitFIFO ;;
    ETH_MACTransmissionDisable ;;
    eth_state HAL_ETH_STATE_READY ;; eth_unlock ;; ret HAL_OK).

Definition HAL_ETH_GetState : prog Z := h <- get_heth ;; ret (eth_State h).

(** ** Callbacks, src/ethernetif.c *)

Definition clk_enable (bit : Z) : prog unit :=
  set_bits RCC_AHB1ENR bit ;; rd RCC_AHB1ENR ;; ret tt.
Definition HAL_RCC_ETH_CLK_ENABLE : prog unit :=
  clk_enable RCC_AHB1ENR_ETHMACEN ;; clk_enable RCC_AHB1ENR_ETHMACTXEN ;;
  clk_enable RCC_AHB1ENR_ETHMACRXEN.
Definition HAL_RCC_ETH_CLK_DISABLE : prog unit :=
  keep_bits RCC_AHB1ENR (not32 RCC_AHB1ENR_ETHMACTXEN) ;;
  keep_bits RCC_AHB1ENR (not32 RCC_AHB1ENR_ETHMACRXEN) ;;
  keep_bits RCC_AHB1ENR (not32 RCC_AHB1ENR_ETHMACEN).

(** The pins of one port as the Ethernet function. *)
Definition eth_pin (pins : Z) : GPIO_InitTypeDef :=
  GpioInit pins GPIO_MODE_AF_PP GPIO_NOPULL GPIO_SPEED_FREQ_VERY_HIGH GPIO_AF11_ETH.
Definition GPIO_PIN (n : Z) : Z := 1 .<< n.

Definition HAL_ETH_MspInit : prog unit :=
  h <- get_heth ;;
  if eth_Instance h =? ETH then
    HAL_RCC_ETH_CLK_ENABLE ;;
    HAL_GPIO_Init GPIOG (eth_pin (GPIO_PIN 14 .| GPIO_PIN 13)) ;;
    HAL_GPIO_Init GPIOC (eth_pin (GPIO_PIN 1 .| GPIO_PIN 4 .| GPIO_PIN 5)) ;;
    HAL_GPIO_Init GPIOA (eth_pin (GPIO_PIN 1 .| GPIO_PIN 2 .| GPIO_PIN 7)) ;;
    HAL_GPIO_Init GPIOB (eth_pin (GPIO_PIN 11)) ;;
    HAL_NVIC_SetPriority ETH_IRQn 5 0 ;;
    HAL_NVIC_EnableIRQ ETH_IRQn
  else ret tt.

Definition HAL_ETH_MspDeInit : prog unit :=
  h <- get_heth ;;
  if eth_Instance h =? ETH then
    HAL_RCC_ETH_CLK_DISABLE ;;
    HAL_GPIO_DeInit GPIOG (GPIO_PIN 14 .| GPIO_PIN 13) ;;
    HAL_GPIO_DeInit GPIOC (GPIO_PIN 1 .| GPIO_PIN 4 .| GPIO_PIN 5) ;;
    HAL_GPIO_DeInit GPIOA (GPIO_PIN 1 .| GPIO_PIN 2 .| GPIO_PIN 7) ;;
    HAL_GPIO_DeInit GPIOB (GPIO_PIN 11) ;;
    HAL_NVIC_DisableIRQ ETH_IRQn
  else ret tt.

Definition HAL_ETH_RxCpltCallback : prog unit :=
  g <- get_ ;; kernel (osSemaphoreRelease (s_xSemaphore g)) ;; ret tt.
(** Weak and empty. *)
Definition HAL_ETH_TxCpltCallback : prog unit := ret tt.
Definition HAL_ETH_ErrorCallback : prog unit := ret tt.

(** ** The interrupt *)

Definition dma_flag (flag : Z) : prog bool := v <- erd DMASR ;; ret (v .& flag =? flag).
Definition dma_done (bits : Z) : prog unit :=
  ewr DMASR bits ;; eth_state HAL_ETH_STATE_READY ;; eth_unlock.

Definition HAL_ETH_IRQHandler : prog unit :=
  r <- dma_flag ETH_DMA_FLAG_R ;;
  (if r : bool then HAL_ETH_RxCpltCallback ;; dma_done ETH_DMA_IT_R
   else
     t <- dma_flag ETH_DMA_FLAG_T ;;
     if t : bool then HAL_ETH_TxCpltCallback ;; dma_done ETH_DMA_IT_T else ret tt) ;;
  ewr DMASR ETH_DMA_IT_NIS ;;
  e <- dma_flag ETH_DMA_FLAG_AIS ;;
  if e : bool then HAL_ETH_ErrorCallback ;; dma_done ETH_DMA_FLAG_AIS else ret tt.

(** ** Initialisation *)

(** The wait for the end of the software reset: [true] on a timeout. *)
Fixpoint swr_wait (fuel : nat) (tickstart : Z) : prog bool :=
  match fuel with
  | O => spin
  | S n =>
      v <- erd DMABMR ;;
      if any_bit v ETH_DMABMR_SR then
        now <- HAL_GetTick ;;
        if ETH_TIMEOUT_SWRESET <? u32 (now - tickstart) then ret true else swr_wait n tickstart
      else ret false
  end.

(** Read PHY_BSR until the bits [status] are set: [phyreg] then, or [None] after
    [limit] milliseconds.  The result of the read is not looked at. *)
Fixpoint phy_wait (rounds fuel : nat) (status limit tickstart phyreg : Z) : prog (option Z) :=
  match rounds with
  | O => spin
  | S n =>
      r <- HAL_ETH_ReadPHYRegister fuel PHY_BSR ;;
      let phyreg := match snd r with Some v => v | None => phyreg end in
      now <- HAL_GetTick ;;
      if limit <? u32 (now - tickstart) then ret None
      else if negb (phyreg .& status =? status) then phy_wait n fuel status limit tickstart phyreg
      else ret (Some phyreg)
  end.

(** MDC is the core's clock over a divider. *)
Definition mdc_range (hclk : Z) : Z :=
  if (20000000 <=? hclk) && (hclk <? 35000000) then ETH_MACMIIAR_CR_Div16
  else if (35000000 <=? hclk) && (hclk <? 60000000) then ETH_MACMIIAR_CR_Div26
  else if (60000000 <=? hclk) && (hclk <? 100000000) then ETH_MACMIIAR_CR_Div42
  else if (100000000 <=? hclk) && (hclk <? 150000000) then ETH_MACMIIAR_CR_Div62
  else ETH_MACMIIAR_CR_Div102.

(** After an error the defaults are configured for 100 MBit/s full duplex. *)
Definition init_error : prog Z :=
  ETH_MACDMAConfig ETH_ERROR ;; eth_state HAL_ETH_STATE_READY ;; ret HAL_ERROR.
Definition init_timeout : prog Z :=
  ETH_MACDMAConfig ETH_ERROR ;; eth_state HAL_ETH_STATE_READY ;; eth_unlock ;; ret HAL_TIMEOUT.
Definition init_done : prog Z :=
  ETH_MACDMAConfig ETH_SUCCESS ;; eth_state HAL_ETH_STATE_READY ;; ret HAL_OK.

(** Wait for a link, negotiate, and take over what was negotiated. *)
Definition auto_negotiate (fuel : nat) : prog Z :=
  tickstart <- HAL_GetTick ;;
  linked <- phy_wait fuel fuel PHY_LINKED_STATUS ETH_TIMEOUT_LINKED_STATE tickstart 0 ;;
  match linked with
  | None => init_timeout
  | Some phyreg =>
      st <- HAL_ETH_WritePHYRegister fuel PHY_BCR PHY_AUTONEGOTIATION ;;
      if negb (st =? HAL_OK) then init_error
      else
        tickstart <- HAL_GetTick ;;
        complete <- phy_wait fuel fuel PHY_AUTONEGO_COMPLETE ETH_TIMEOUT_AUTONEGO_COMPLETED tickstart phyreg ;;
        match complete with
        | None => init_timeout
        | Some phyreg =>
            r <- HAL_ETH_ReadPHYRegister fuel PHY_SR ;;
            if negb (fst r =? HAL_OK) then init_error
            else
              let phyreg := match snd r with Some v => v | None => phyreg end in
              modify_heth (set_link
                (if phyreg .& PHY_SPEED_STATUS =? PHY_SPEED_STATUS then ETH_SPEED_10M else ETH_SPEED_100M)
                (if any_bit phyreg PHY_DUPLEX_STATUS then ETH_MODE_FULLDUPLEX else ETH_MODE_HALFDUPLEX)) ;;
              init_done
        end
  end.

(** Speed and duplex mode as they are in the handle. *)
Definition force_link (fuel : nat) : prog Z :=
  h <- get_heth ;;
  st <- HAL_ETH_WritePHYRegister fuel PHY_BCR
          (u16 (DuplexMode (eth_Init h) .>> 3) .| u16 (eth_Speed (eth_Init h) .>> 1)) ;;
  if negb (st =? HAL_OK) then init_error
  else HAL_Delay PHY_CONFIG_DELAY ;; init_done.

(** [is_null]: the handle passed is NULL. *)
Definition HAL_ETH_Init (fuel : nat) (is_null : bool) : prog Z :=
  if is_null then ret HAL_ERROR
  else
    h <- get_heth ;;
    (if eth_State h =? HAL_ETH_STATE_RESET then modify_heth (set_eth_Lock false) ;; HAL_ETH_MspInit
     else ret tt) ;;
    HAL_RCC_SYSCFG_CLK_ENABLE ;;
    keep_bits SYSCFG_PMC (not32 SYSCFG_PMC_MII_RMII_SEL) ;;
    set_bits SYSCFG_PMC (MediaInterface (eth_Init h)) ;;
    eset DMABMR ETH_DMABMR_SR ;;
    tickstart <- HAL_GetTick ;;
    late <- swr_wait fuel tickstart ;;
    if late : bool then eth_state HAL_ETH_STATE_TIMEOUT ;; eth_unlock ;; ret HAL_TIMEOUT
    else
      tempreg <- erd MACMIIAR ;;
      hclk <- call HAL_RCC_GetHCLKFreq ;;
      ewr MACMIIAR ((tempreg .& ETH_MACMIIAR_CR_MASK) .| mdc_range hclk) ;;
      st <- HAL_ETH_WritePHYRegister fuel PHY_BCR PHY_RESET ;;
      if negb (st =? HAL_OK) then init_error
      else
        HAL_Delay PHY_RESET_DELAY ;;
        h <- get_heth ;;
        if negb (AutoNegotiation (eth_Init h) =? ETH_AUTONEGOTIATION_DISABLE)
        then auto_negotiate fuel else force_link fuel.

Definition HAL_ETH_DeInit : prog Z :=
  eth_state HAL_ETH_STATE_BUSY ;;
  HAL_ETH_MspDeInit ;;
  eth_state HAL_ETH_STATE_RESET ;; eth_unlock ;; ret HAL_OK.

(** ** Descriptor lists *)

(** The successor of descriptor [i] of [n]: the last one points to the first. *)
Definition next_desc (tab i n : Z) : Z :=
  if i <? u32 (n - 1) then tab + DESC_SIZE * (i + 1) else tab.

(** The bodies of the two loops. *)
Definition tx_desc_init (DMATxDescTab TxBuff TxBuffCount i : Z) : prog unit :=
  let dmatxdesc := DMATxDescTab + DESC_SIZE * i in
  wr (Status dmatxdesc) ETH_DMATXDESC_TCH ;;
  wr (Buffer1Addr dmatxdesc) (TxBuff + i * ETH_TX_BUF_SIZE) ;;
  h <- get_heth ;;
  (if ChecksumMode (eth_Init h) =? ETH_CHECKSUM_BY_HARDWARE
   then set_bits (Status dmatxdesc) ETH_DMATXDESC_CHECKSUMTCPUDPICMPFULL else ret tt) ;;
  wr (Buffer2NextDescAddr dmatxdesc) (next_desc DMATxDescTab i TxBuffCount).

Definition rx_desc_init (DMARxDescTab RxBuff RxBuffCount i : Z) : prog unit :=
  let DMARxDesc := DMARxDescTab + DESC_SIZE * i in
  wr (Status DMARxDesc) ETH_DMARXDESC_OWN ;;
  wr (ControlBufferSize DMARxDesc) (ETH_DMARXDESC_RCH .| ETH_RX_BUF_SIZE) ;;
  wr (Buffer1Addr DMARxDesc) (RxBuff + i * ETH_RX_BUF_SIZE) ;;
  h <- get_heth ;;
  (if RxMode (eth_Init h) =? ETH_RXINTERRUPT_MODE
   then keep_bits (ControlBufferSize DMARxDesc) (not32 ETH_DMARXDESC_DIC) else ret tt) ;;
  wr (Buffer2NextDescAddr DMARxDesc) (next_desc DMARxDescTab i RxBuffCount).

Definition HAL_ETH_DMATxDescListInit (DMATxDescTab TxBuff TxBuffCount : Z) : prog Z :=
  eth_lock (
    eth_state HAL_ETH_STATE_BUSY ;;
    modify_heth (set_TxDesc DMATxDescTab) ;;
    for_each (zrange 0 (Z.to_nat TxBuffCount)) (tx_desc_init DMATxDescTab TxBuff TxBuffCount) ;;
    ewr DMATDLAR DMATxDescTab ;;
    eth_state HAL_ETH_STATE_READY ;; eth_unlock ;; ret HAL_OK).

Definition HAL_ETH_DMARxDescListInit (DMARxDescTab RxBuff RxBuffCount : Z) : prog Z :=
  eth_lock (
    eth_state HAL_ETH_STATE_BUSY ;;
    modify_heth (set_RxDesc DMARxDescTab) ;;
    for_each (zrange 0 (Z.to_nat RxBuffCount)) (rx_desc_init DMARxDescTab RxBuff RxBuffCount) ;;
    ewr DMARDLAR DMARxDescTab ;;
    eth_state HAL_ETH_STATE_READY ;; eth_unlock ;; ret HAL_OK).

(** ** Sending *)

(** [heth->TxDesc = heth->TxDesc->Buffer2NextDescAddr] *)
Definition next_tx : prog unit :=
  h <- get_heth ;; d <- rd (Buffer2NextDescAddr (TxDesc h)) ;; modify_heth (set_TxDesc d).

(** How many buffers a frame needs. *)
Definition buffer_count (FrameLength : Z) : Z :=
  if ETH_TX_BUF_SIZE <? FrameLength then
    FrameLength / ETH_TX_BUF_SIZE + (if FrameLength mod ETH_TX_BUF_SIZE =? 0 then 0 else 1)
  else 1.

(** A frame in one buffer. *)
Definition transmit_single (FrameLength : Z) : prog unit :=
  h <- get_heth ;;
  set_bits (Status (TxDesc h)) (ETH_DMATXDESC_FS .| ETH_DMATXDESC_LS) ;;
  wr (ControlBufferSize (TxDesc h)) (FrameLength .& ETH_DMATXDESC_TBS1) ;;
  set_bits (Status (TxDesc h)) ETH_DMATXDESC_OWN ;;
  next_tx.

(** Segment [i] of a frame in [bufcount] buffers. *)
Definition transmit_segment (FrameLength bufcount i : Z) : prog unit :=
  h <- get_heth ;;
  let d := TxDesc h in
  keep_bits (Status d) (not32 (ETH_DMATXDESC_FS .| ETH_DMATXDESC_LS)) ;;
  (if i =? 0 then set_bits (Status d) ETH_DMATXDESC_FS else ret tt) ;;
  wr (ControlBufferSize d) (ETH_TX_BUF_SIZE .& ETH_DMATXDESC_TBS1) ;;
  (if i =? bufcount - 1 then
     set_bits (Status d) ETH_DMATXDESC_LS ;;
     wr (ControlBufferSize d) (u32 (FrameLength - (bufcount - 1) * ETH_TX_BUF_SIZE) .& ETH_DMATXDESC_TBS1)
   else ret tt) ;;
  set_bits (Status d) ETH_DMATXDESC_OWN ;;
  next_tx.

(** Clear a flag of DMASR and demand a poll. *)
Definition resume (flag demand : Z) : prog unit :=
  v <- erd DMASR ;;
  if any_bit v flag then ewr DMASR flag ;; ewr demand 0 else ret tt.

Definition HAL_ETH_TransmitFrame (FrameLength : Z) : prog Z :=
  eth_lock (
    eth_state HAL_ETH_STATE_BUSY ;;
    if FrameLength =? 0 then
      eth_state HAL_ETH_STATE_READY ;; eth_unlock ;; ret HAL_ERROR
    else
      h <- get_heth ;;
      st <- rd (Status (TxDesc h)) ;;
      if any_bit st ETH_DMATXDESC_OWN then
        eth_state HAL_ETH_STATE_BUSY_TX ;; eth_unlock ;; ret HAL_ERROR
      else
        let bufcount := buffer_count FrameLength in
        (if bufcount =? 1 then transmit_single FrameLength
         else for_each (zrange 0 (Z.to_nat bufcount)) (transmit_segment FrameLength bufcount)) ;;
        resume ETH_DMASR_TBUS DMATPDR ;;
        eth_state HAL_ETH_STATE_READY ;; eth_unlock ;; ret HAL_OK).

(** ** Receiving *)

Definition modify_infos (f : ETH_DMARxFrameInfos -> ETH_DMARxFrameInfos) : prog unit :=
  modify_heth (set_infos f).
Definition next_rx : prog unit :=
  h <- get_heth ;; d <- rd (Buffer2NextDescAddr (RxDesc h)) ;; modify_heth (set_RxDesc d).
Definition rx_status : prog Z := h <- get_heth ;; rd (Status (RxDesc h)).

(** The frame ends in the current descriptor: its length without the CRC. *)
Definition last_segment : prog unit :=
  st <- rx_status ;;
  modify_infos (set_rx_length (u32 (((st .& ETH_DMARXDESC_FL) .>> ETH_DMARXDESC_FRAMELENGTHSHIFT) - 4))) ;;
  h <- get_heth ;;
  b <- rd (Buffer1Addr (FSRxDesc (RxFrameInfos h))) ;;
  modify_infos (set_rx_buffer b) ;;
  next_rx.

Definition count_segment : prog unit := modify_infos (fun r => set_SegCount (SegCount r + 1) r).
(** A frame of one segment starts where it ends. *)
Definition single_segment : prog unit :=
  h <- get_heth ;;
  if SegCount (RxFrameInfos h) =? 1 then modify_infos (set_FSRxDesc (RxDesc h)) else ret tt.

Definition rx_ready (code : Z) : prog Z :=
  eth_state HAL_ETH_STATE_READY ;; eth_unlock ;; ret code.

Definition HAL_ETH_GetReceivedFrame : prog Z :=
  eth_lock (
    eth_state HAL_ETH_STATE_BUSY ;;
    st <- rx_status ;;
    if negb (any_bit st ETH_DMARXDESC_OWN) then
      st <- rx_status ;;
      if any_bit st ETH_DMARXDESC_LS then
        count_segment ;;
        single_segment ;;
        h <- get_heth ;; modify_infos (set_LSRxDesc (RxDesc h)) ;;
        last_segment ;;
        rx_ready HAL_OK
      else
        st <- rx_status ;;
        (if any_bit st ETH_DMARXDESC_FS then
           h <- get_heth ;;
           modify_infos (set_FSRxDesc (RxDesc h)) ;; modify_infos (set_LSRxDesc 0) ;;
           modify_infos (set_SegCount 1)
         else count_segment) ;;
        next_rx ;;
        rx_ready HAL_ERROR
    else rx_ready HAL_ERROR).

(** The scan over the descriptors the DMA has released: at most [ETH_RXBUFNB]
    rounds, [true] when a frame is complete. *)
Fixpoint scan_rx (rounds : nat) : prog bool :=
  st <- rx_status ;;
  if any_bit st ETH_DMARXDESC_OWN then ret false
  else
    match rounds with
    | O => ret false
    | S n =>
        st <- rx_status ;;
        if st .& (ETH_DMARXDESC_FS .| ETH_DMARXDESC_LS) =? ETH_DMARXDESC_FS then
          h <- get_heth ;;
          modify_infos (set_FSRxDesc (RxDesc h)) ;; modify_infos (set_SegCount 1) ;;
          next_rx ;; scan_rx n
        else
          st <- rx_status ;;
          if st .& (ETH_DMARXDESC_LS .| ETH_DMARXDESC_FS) =? 0 then
            count_segment ;; next_rx ;; scan_rx n
          else
            h <- get_heth ;;
            modify_infos (set_LSRxDesc (RxDesc h)) ;;
            count_segment ;;
            single_segment ;;
            last_segment ;;
            ret true
    end.

Definition HAL_ETH_GetReceivedFrame_IT : prog Z :=
  eth_lock (
    eth_state HAL_ETH_STATE_BUSY ;;
    found <- scan_rx (Z.to_nat ETH_RXBUFNB) ;;
    rx_ready (if found : bool then HAL_OK else HAL_ERROR)).
End eth.

Lemma wp_get_heth {B : Bus} s (Q : ETH_HandleTypeDef -> mach eth_glob -> Prop) :
  Q (heth (glb s)) s -> wp get_heth s Q.
Proof. done. Qed.
