(* ===== verification/EthDev.v ===== *)
(** The Ethernet controller as the driver of [EthHal] meets it: its registers, the
    management interface with the PHYs behind it, the software reset, and the time
    all this takes; the class of devices that behave as documented, and what the
    accesses of the driver do on such a device.  The class is not code of the
    repository, and it is idealised: software reset and management operations always end
    (EthStart does without that), and every register besides, also the one of the DMA status,
    whose bits are cleared by writing ones, keeps what is written. *)
From S2P Require Import Prelude Machine SysArch FlashHal Clock EthHal.

#[local] Open Scope fw_scope.

(** * PHYs and the management interface

    A PHY is a machine whose registers are read and written; reading one may change
    it (a status is latched until it is read, negotiation goes on).  A command word
    in MACMIIAR starts an operation that takes some reads of that register; PHY and
    register number are fields of the word. *)
Class Phy := {
  phy : Type;
  phy_read : Z -> Z -> phy -> Z * phy;        (* PHY address and register number *)
  phy_write : Z -> Z -> Z -> phy -> phy;
}.

Record mii {P : Phy} := Mii {
  phys : phy;
  mii_todo : option (Z * nat);    (* command in progress, reads until it is done *)
  mii_data : Z;                   (* MACMIIDR *)
}.
Definition mii_phy (cmd : Z) : Z := bits cmd 11 5.
Definition mii_number (cmd : Z) : Z := bits cmd 6 5.

(** The end of an operation. *)
Definition mii_finish {P : Phy} (cmd : Z) (m : mii) : mii :=
  if Z.testbit cmd 1 then
    Mii P (phy_write (mii_phy cmd) (mii_number cmd) (mii_data m) (phys m)) None (mii_data m)
  else
    let r := phy_read (mii_phy cmd) (mii_number cmd) (phys m) in Mii P (snd r) None (fst r).

Definition mii_wait_on {P : Phy} (n : nat) (cmd : Z) (m : mii) : mii := Mii P (phys m) (Some (cmd, n)) (mii_data m).

(** * The controller

    [eth_time] is the time in units of the device, [tick_len] of which are one tick
    of the kernel; an access takes at most [eth_step].  An operation of the
    management interface, and the software reset, is over after at most
    [eth_limit] further reads of the register that shows it. *)
Definition plain (x : Z) : Prop := 0 <= x < 0x1400 /\ x <> MACMIIAR /\ x <> MACMIIDR.
Definition outside (a : Z) : Prop := ~ (ETH <= a < ETH + 0x1400).

Class EthDev (B : Bus) (N : Narrow B) (P : Phy) := {
  eth_regs : hw -> Z -> Z;            (* the plain registers *)
  mii_of : hw -> mii;
  swr_todo : hw -> option nat;        (* software reset in progress *)
  eth_time : hw -> Z;
  tick_len : Z;
  eth_step : Z;
  eth_limit : nat;
  reset_value : Z -> Z;
  frame h h' : Prop := eth_regs h' = eth_regs h /\ mii_of h' = mii_of h /\ swr_todo h' = swr_todo h;
  passes n h h' : Prop := eth_time h <= eth_time h' <= eth_time h + n;
  eth_fast : 0 < tick_len /\ 0 <= eth_step /\ eth_step * (2 * Z.of_nat eth_limit + 10) <= 2000 * tick_len;
  eth_since h : 0 <= eth_time h;
  eth_tick h : u32 (fst (ktick h)) = u32 (eth_time h / tick_len) /\
    frame h (snd (ktick h)) /\ passes eth_step h (snd (ktick h));
  eth_delay n h : 0 <= n -> frame h (os_delay n h) /\ passes ((n + 1) * tick_len + eth_step) h (os_delay n h);
  eth_rd x h : plain x -> swr_todo h = None -> let p := mmio_rd (ETH + x) h in
    u32 (fst p) = u32 (eth_regs h x) /\ frame h (snd p) /\ passes eth_step h (snd p);
  eth_wr x v h : plain x -> swr_todo h = None -> (x = DMABMR -> Z.testbit v 0 = false) ->
    let h' := mmio_wr (ETH + x) v h in
    eth_regs h' = upd (eth_regs h) x v /\ mii_of h' = mii_of h /\ swr_todo h' = None /\ passes eth_step h h';
  eth_reset v h : Z.testbit v 0 = true -> swr_todo h = None -> let h' := mmio_wr (ETH + DMABMR) v h in
    (forall x, plain x -> eth_regs h' x = reset_value x) /\ phys (mii_of h') = phys (mii_of h) /\
    mii_todo (mii_of h') = None /\ (exists n, (n <= eth_limit)%nat /\ swr_todo h' = Some n) /\ passes eth_step h h';
  eth_reset_poll h n : swr_todo h = Some n -> let p := mmio_rd (ETH + DMABMR) h in
    eth_regs (snd p) = eth_regs h /\ mii_of (snd p) = mii_of h /\ passes eth_step h (snd p) /\
    match n with
    | O => Z.testbit (u32 (fst p)) 0 = false /\ swr_todo (snd p) = None
    | S k => Z.testbit (u32 (fst p)) 0 = true /\ swr_todo (snd p) = Some k
    end;
  mii_poll h : swr_todo h = None -> let p := mmio_rd (ETH + MACMIIAR) h in
    eth_regs (snd p) = eth_regs h /\ swr_todo (snd p) = None /\ passes eth_step h (snd p) /\
    match mii_todo (mii_of h) with
    | None => Z.testbit (u32 (fst p)) 0 = false /\ mii_of (snd p) = mii_of h
    | Some (cmd, O) => Z.testbit (u32 (fst p)) 0 = false /\ mii_of (snd p) = mii_finish cmd (mii_of h)
    | Some (cmd, S n) => Z.testbit (u32 (fst p)) 0 = true /\ mii_of (snd p) = mii_wait_on n cmd (mii_of h)
    end;
  mii_cmd v h : swr_todo h = None -> mii_todo (mii_of h) = None -> let h' := mmio_wr (ETH + MACMIIAR) v h in
    eth_regs h' = eth_regs h /\ swr_todo h' = None /\ passes eth_step h h' /\
    if Z.testbit v 0 then exists n, (n <= eth_limit)%nat /\ mii_of h' = mii_wait_on n v (mii_of h)
    else mii_of h' = mii_of h;
  mii_rd_data h : swr_todo h = None -> let p := mmio_rd (ETH + MACMIIDR) h in
    u32 (fst p) = u32 (mii_data (mii_of h)) /\ frame h (snd p) /\ passes eth_step h (snd p);
  mii_wr_data v h : swr_todo h = None -> let h' := mmio_wr (ETH + MACMIIDR) v h in
    mii_of h' = Mii P (phys (mii_of h)) (mii_todo (mii_of h)) v /\ eth_regs h' = eth_regs h /\
    swr_todo h' = None /\ passes eth_step h h';
  other_rd a h : outside a -> frame h (snd (mmio_rd a h)) /\ passes eth_step h (snd (mmio_rd a h));
  other_wr a v h : outside a -> frame h (mmio_wr a v h) /\ passes eth_step h (mmio_wr a v h);
  other_wr8 a v h : outside a -> frame h (mmio_wr8 a v h) /\ passes eth_step h (mmio_wr8 a v h);
}.

Lemma busy_bit v : (v .& ETH_MACMIIAR_MB =? ETH_MACMIIAR_MB) = Z.testbit v 0.
Proof.
  unfold ETH_MACMIIAR_MB. change (Z.land v 1) with (Z.land v (Z.ones 1)). rewrite Z.land_ones by lia.
  change (2 ^ 1) with 2. rewrite <- Z.bit0_mod. by destruct (Z.testbit v 0).
Qed.

Lemma u16_u32 x : u16 (u32 x) = u16 x.
Proof. unfold u16, u32. apply Z.mod_mod_divide. by exists (2 ^ 16). Qed.

(** The fields of a command word. *)
Lemma mii_fields v phy reg (w : bool) :
  0 <= phy < 32 -> 0 <= reg < 32 ->
  let cmd := u32 ((if w then mii_address v phy reg .| ETH_MACMIIAR_MW
                   else mii_address v phy reg .& not32 ETH_MACMIIAR_MW) .| ETH_MACMIIAR_MB) in
  Z.testbit cmd 0 = true /\ Z.testbit cmd 1 = w /\ mii_phy cmd = phy /\ mii_number cmd = reg.
Proof.
  intros Hp Hr cmd. subst cmd. unfold mii_address.
  change ETH_MACMIIAR_PA with (Z.ones 5 .<< 11). change ETH_MACMIIAR_MR with (Z.ones 5 .<< 6).
  change ETH_MACMIIAR_MW with (1 .<< 1). change ETH_MACMIIAR_MB with (1 .<< 0).
  split; [|split; [|split]].
  - destruct w; autorewrite with fw_bits; by rewrite orb_true_r.
  - destruct w; autorewrite with fw_bits; cbn; by rewrite ?andb_false_r, ?orb_false_r, ?orb_true_r.
  - apply (bits_ext 5); [lia|apply bits_range; lia|done|]. intros i Hi. unfold mii_phy.
    rewrite bits_testbit, bool_decide_true, andb_true_r by lia.
    assert (i = 0 \/ i = 1 \/ i = 2 \/ i = 3 \/ i = 4) as [->|[->|[->|[->| ->]]]] by lia;
      destruct w; autorewrite with fw_bits; cbn;
      by rewrite ?andb_false_r, ?andb_true_r, ?orb_false_r.
  - apply (bits_ext 5); [lia|apply bits_range; lia|done|]. intros i Hi. unfold mii_number.
    rewrite bits_testbit, bool_decide_true, andb_true_r by lia.
    assert (i = 0 \/ i = 1 \/ i = 2 \/ i = 3 \/ i = 4) as [->|[->|[->|[->| ->]]]] by lia;
      destruct w; autorewrite with fw_bits; cbn;
      by rewrite ?andb_false_r, ?andb_true_r, ?orb_false_r.
Qed.


(** Reading the kernel's tick takes time. *)
Class EthProgress (B : Bus) (N : Narrow B) (P : Phy) (D : EthDev B N P) := {
  eth_progress h : eth_time h < eth_time (snd (ktick h));
}.

(** * Accesses *)

Section dev.
Context {B : Bus} {N : Narrow B} {P : Phy} {D : EthDev B N P}.
Implicit Types s : mach eth_glob.

(** Register at offset [x]. *)
Definition reg_of s (x : Z) : Z := u32 (eth_regs (dev s) x).
Definition now s : Z := eth_time (dev s).
Definition mii_in s : mii := mii_of (dev s).
Definition idle s : Prop := swr_todo (dev s) = None.

(** From [s] to [s'] the management interface and the reset rest, the globals stay,
    and at most [n] units pass; the plain registers stay as well. *)
Record steady (n : Z) s s' : Prop := {
  st_mii : mii_in s' = mii_in s;
  st_swr : swr_todo (dev s') = swr_todo (dev s);
  st_time : now s <= now s' <= now s + n;
  st_glb : glb s' = glb s;
}.
Definition calm (n : Z) s s' : Prop := steady n s s' /\ eth_regs (dev s') = eth_regs (dev s).

Lemma steady_refl s : steady 0 s s.
Proof. split; [done..|lia|done]. Qed.

Lemma steady_trans n m s s1 s2 : steady n s s1 -> steady m s1 s2 -> steady (n + m) s s2.
Proof. intros [A1 A2 A3 A4] [B1 B2 B3 B4]. split; [congruence..|lia|congruence]. Qed.

Lemma steady_le n m s s' : steady n s s' -> n <= m -> steady m s s'.
Proof. intros [A1 A2 A3 A4] Hn. split; [done..|lia|done]. Qed.

Lemma calm_steady n s s' : calm n s s' -> steady n s s'.
Proof. by intros [H _]. Qed.

Lemma calm_refl s : calm 0 s s.
Proof. split; [apply steady_refl|done]. Qed.

Lemma calm_trans n m s s1 s2 : calm n s s1 -> calm m s1 s2 -> calm (n + m) s s2.
Proof. intros [A1 A2] [B1 B2]. split; [by eapply steady_trans|congruence]. Qed.

Lemma calm_le n m s s' : calm n s s' -> n <= m -> calm m s s'.
Proof. intros [A1 A2] Hn. split; [by eapply steady_le|done]. Qed.

Lemma calm_reg n s s' x : calm n s s' -> reg_of s' x = reg_of s x.
Proof. intros [_ H]. unfold reg_of. by rewrite H. Qed.

Lemma frame_calm n s h l : frame (dev s) h -> passes n (dev s) h -> calm n s (Mach h l (glb s)).
Proof. intros (F1 & F2 & F3) F4. split; [by split|done]. Qed.

(** ** Registers outside the controller *)
Lemma wp_other_rd a s (Q : Z -> mach eth_glob -> Prop) :
  outside a -> (forall v s', calm eth_step s s' -> Q v s') -> wp (rd a) s Q.
Proof. intros Ha HQ. apply wp_rd, HQ. destruct (other_rd a (dev s) Ha). by apply frame_calm. Qed.

Lemma wp_other_wr a v s (Q : unit -> mach eth_glob -> Prop) :
  outside a -> (forall s', calm eth_step s s' -> Q tt s') -> wp (wr a v) s Q.
Proof. intros Ha HQ. apply wp_wr, HQ. destruct (other_wr a (u32 v) (dev s) Ha). by apply frame_calm. Qed.

(** ** The kernel's time *)
Lemma wp_tick s (Q : Z -> mach eth_glob -> Prop) :
  now s < 2 ^ 32 * tick_len ->
  (forall s', calm eth_step s s' -> Q (now s / (tick_len * 5)) s') -> wp HAL_GetTick s Q.
Proof.
  intros Hw HQ. destruct (eth_tick (dev s)) as (Ht & Hf & Hp). pose proof eth_fast as (Hl & _ & _).
  pose proof (eth_since (dev s)) as H0.
  unfold HAL_GetTick, sys_now, OS_TICKS_PER_MILLI, wp, bind, tick_count, ret. cbn.
  rewrite Ht, u32_small, Z.div_div by (unfold now in *; first [lia|split; [apply Z.div_pos; lia|apply Z.div_lt_upper_bound; lia]]).
  apply HQ. by apply frame_calm.
Qed.

Lemma wp_delay_ms n s (Q : unit -> mach eth_glob -> Prop) :
  0 <= n -> 5 * n < 2 ^ 32 ->
  (forall s', calm ((5 * n + 1) * tick_len + eth_step) s s' -> Q tt s') -> wp (HAL_Delay n) s Q.
Proof.
  intros Hn Hb HQ. unfold HAL_Delay, DLY_MS, OS_TICKS_PER_MILLI, delay_, wp. rewrite u32_small by lia.
  destruct (eth_delay (n * 5) (dev s) ltac:(lia)). apply HQ, frame_calm; [done|]. by rewrite (Z.mul_comm 5).
Qed.

(** The kernel has not counted [d] milliseconds when fewer have passed. *)
Lemma elapsed_le t0 t1 d : 0 <= t0 <= t1 -> t1 <= t0 + 5 * d * tick_len -> 0 <= d -> t1 < 2 ^ 32 * tick_len ->
  (d <? u32 (t1 / (tick_len * 5) - t0 / (tick_len * 5))) = false.
Proof.
  intros H0 H1 Hd Hw. pose proof eth_fast as (Hl & _ & _).
  assert (t0 / (tick_len * 5) <= t1 / (tick_len * 5)) by (apply Z.div_le_mono; lia).
  assert (t1 / (tick_len * 5) <= t0 / (tick_len * 5) + d).
  { rewrite <- Z.div_add by lia. apply Z.div_le_mono; lia. }
  assert (t1 / (tick_len * 5) < 2 ^ 32) by (apply Z.div_lt_upper_bound; lia).
  assert (0 <= t0 / (tick_len * 5)) by (apply Z.div_pos; lia).
  rewrite u32_small by lia. apply Z.ltb_ge. lia.
Qed.

(** It has when as many have passed. *)
Lemma elapsed_gt t0 t1 d : 0 <= t0 -> t0 + 5 * (d + 1) * tick_len <= t1 -> 0 <= d -> t1 < 2 ^ 32 * tick_len ->
  (d <? u32 (t1 / (tick_len * 5) - t0 / (tick_len * 5))) = true.
Proof.
  intros H0 H1 Hd Hw. pose proof eth_fast as (Hl & _ & _).
  assert (t0 / (tick_len * 5) + (d + 1) <= t1 / (tick_len * 5)).
  { rewrite <- Z.div_add by lia. apply Z.div_le_mono; lia. }
  assert (t1 / (tick_len * 5) < 2 ^ 32) by (apply Z.div_lt_upper_bound; lia).
  assert (0 <= t0 / (tick_len * 5)) by (apply Z.div_pos; lia).
  rewrite u32_small by lia. apply Z.ltb_lt. lia.
Qed.

(** ** Registers of the controller *)
Lemma wp_reg_get x s (Q : Z -> mach eth_glob -> Prop) :
  eth_Instance (heth (glb s)) = ETH -> plain x -> idle s ->
  (forall s', calm eth_step s s' -> Q (reg_of s x) s') -> wp (erd x) s Q.
Proof.
  intros Hi Hx Hs HQ. unfold erd. apply wp_step, wp_get_heth, wp_rd. rewrite Hi.
  destruct (eth_rd x (dev s) Hx Hs) as (Hv & Hf & Hp). rewrite Hv. by apply HQ, frame_calm.
Qed.

Lemma wp_plain_wr x v s (Q : unit -> mach eth_glob -> Prop) :
  plain x -> idle s -> (x = DMABMR -> Z.testbit v 0 = false) ->
  (forall s', steady eth_step s s' -> (forall y, reg_of s' y = if y =? x then u32 v else reg_of s y) -> Q tt s') ->
  wp (wr (ETH + x) v) s Q.
Proof.
  intros Hx Hs Hb HQ. assert (x = DMABMR -> Z.testbit (u32 v) 0 = false) as Hb' by (rewrite u32_testbit by lia; done).
  destruct (eth_wr x (u32 v) (dev s) Hx Hs Hb') as (Hr & Hm & Ht & Hp). apply wp_wr, HQ.
  - split; [done| |done|done]. unfold idle in Hs. cbn. congruence.
  - intros y. unfold reg_of. cbn. rewrite Hr. unfold upd.
    destruct (Z.eqb_spec y x), (Z.eqb_spec x y); try lia. by rewrite u32_idemp.
Qed.

Lemma wp_reg_put x v s (Q : unit -> mach eth_glob -> Prop) :
  eth_Instance (heth (glb s)) = ETH -> plain x -> idle s -> (x = DMABMR -> Z.testbit v 0 = false) ->
  (forall s', steady eth_step s s' -> (forall y, reg_of s' y = if y =? x then u32 v else reg_of s y) -> Q tt s') ->
  wp (ewr x v) s Q.
Proof. intros Hi Hx Hs Hb HQ. unfold ewr. apply wp_step, wp_get_heth. rewrite Hi. by apply wp_plain_wr. Qed.

Lemma wp_settle x s (Q : unit -> mach eth_glob -> Prop) :
  eth_Instance (heth (glb s)) = ETH -> plain x -> idle s -> (x = DMABMR -> Z.testbit (reg_of s x) 0 = false) ->
  (forall s', steady (3 * eth_step + 6 * tick_len) s s' -> (forall y, reg_of s' y = reg_of s y) -> Q tt s') ->
  wp (settle x) s Q.
Proof.
  intros Hi Hx Hs Hb HQ. unfold settle. apply wp_step, wp_reg_get; [done..|]. intros s1 C1.
  apply wp_step, wp_delay_ms; [by vm_compute..|]. intros s2 C2.
  pose proof (calm_trans _ _ _ _ _ C1 C2) as C. destruct (C) as [S _]. destruct (S) as [S1 S2 S3 S4].
  apply wp_reg_put; [by rewrite S4|done|by unfold idle; rewrite S2|done|]. intros s3 S5 R3. apply HQ.
  - eapply steady_le; [by eapply steady_trans|]. unfold ETH_REG_WRITE_DELAY. lia.
  - intros y. rewrite R3. destruct (Z.eqb_spec y x) as [->|].
    + unfold reg_of. by rewrite u32_idemp.
    + by apply (calm_reg _ _ _ _ C).
Qed.

(** ** The management interface *)

(** The management interface is in state [m] now, the rest is as in [s]. *)
Record moved (n : Z) (m : mii) s s' : Prop := {
  mv_mii : mii_in s' = m;
  mv_regs : eth_regs (dev s') = eth_regs (dev s);
  mv_swr : swr_todo (dev s') = None;
  mv_time : now s <= now s' <= now s + n;
}.

Lemma moved_le n n' m s s' : moved n m s s' -> n <= n' -> moved n' m s s'.
Proof. intros [A1 A2 A3 A4] Hn. split; [done..|lia]. Qed.

Lemma moved_trans n n' m m' s s1 s2 : moved n m s s1 -> moved n' m' s1 s2 -> moved (n + n') m' s s2.
Proof. intros [A1 A2 A3 A4] [B1 B2 B3 B4]. split; [done|congruence|done|lia]. Qed.

Lemma calm_moved n s s' : idle s -> calm n s s' -> moved n (mii_in s) s s'.
Proof. intros Hs [[A1 A2 A3 A4] A5]. split; [done|done|by rewrite A2|done]. Qed.

Lemma moved_reg n m s s' x : moved n m s s' -> reg_of s' x = reg_of s x.
Proof. intros [_ H _ _]. unfold reg_of. by rewrite H. Qed.

Lemma wp_mii_status s (Q : Z -> mach eth_glob -> Prop) :
  eth_Instance (heth (glb s)) = ETH -> idle s ->
  (forall v m s', glb s' = glb s -> moved eth_step m s s' ->
     match mii_todo (mii_in s) with
     | None => Z.testbit v 0 = false /\ m = mii_in s
     | Some (cmd, O) => Z.testbit v 0 = false /\ m = mii_finish cmd (mii_in s)
     | Some (cmd, Datatypes.S n) => Z.testbit v 0 = true /\ m = mii_wait_on n cmd (mii_in s)
     end -> Q v s') ->
  wp (erd MACMIIAR) s Q.
Proof.
  intros Hi Hs HQ. unfold erd. apply wp_step, wp_get_heth, wp_rd. rewrite Hi.
  destruct (mii_poll (dev s) Hs) as (Hr & Ht & Hp & Hm).
  apply (HQ _ (mii_of (snd (mmio_rd (ETH + MACMIIAR) (dev s))))); [done| |done]. by split.
Qed.

Lemma wp_mii_command v s (Q : unit -> mach eth_glob -> Prop) :
  eth_Instance (heth (glb s)) = ETH -> idle s -> mii_todo (mii_in s) = None ->
  (forall m s', glb s' = glb s -> moved eth_step m s s' ->
     (if Z.testbit v 0 then exists n, (n <= eth_limit)%nat /\ m = mii_wait_on n (u32 v) (mii_in s) else m = mii_in s) ->
     Q tt s') ->
  wp (ewr MACMIIAR v) s Q.
Proof.
  intros Hi Hs Hm HQ. unfold ewr. apply wp_step, wp_get_heth, wp_wr. rewrite Hi.
  destruct (mii_cmd (u32 v) (dev s) Hs Hm) as (Hr & Ht & Hp & Hn). rewrite u32_testbit in Hn by lia.
  apply (HQ (mii_of (mmio_wr (ETH + MACMIIAR) (u32 v) (dev s)))); [done|by split|done].
Qed.

(** The wait for the end of a command. *)
Lemma wp_mii_wait m cmd t0 : 0 <= t0 -> t0 + 5 * 0xFFFF * tick_len < 2 ^ 32 * tick_len ->
  forall n fuel tmp s (Q : bool -> mach eth_glob -> Prop),
  mii_in s = mii_wait_on n cmd m -> idle s -> eth_Instance (heth (glb s)) = ETH -> Z.testbit tmp 0 = true ->
  t0 <= now s -> now s + 2 * eth_step * (Z.of_nat n + 1) <= t0 + 5 * 0xFFFF * tick_len -> (n + 2 <= fuel)%nat ->
  (forall s', glb s' = glb s -> moved (2 * eth_step * (Z.of_nat n + 1)) (mii_finish cmd m) s s' -> Q false s') ->
  wp (mii_wait fuel 0xFFFF (t0 / (tick_len * 5)) tmp) s Q.
Proof.
  intros Ht0 Hwrap. pose proof eth_fast as (_ & Hs0 & _). induction n as [|n IH]; intros fuel tmp s Q Hm Hs Hi Ht Hlo Hhi Hf HQ;
    (destruct fuel as [|fuel]; [lia|]); cbn [mii_wait]; rewrite busy_bit, Ht;
    (apply wp_step, wp_tick; [lia|]); intros s1 C1; pose proof (calm_moved _ _ _ Hs C1) as [V1 V2 V3 V4];
    destruct C1 as [[A1 A2 A3 A4] A5]; rewrite elapsed_le by lia;
    (apply wp_step, wp_mii_status; [by rewrite A4|done|]); intros v m' s2 G2 M2; rewrite V1, Hm; cbn [mii_todo mii_wait_on];
    intros [Hv ->].
  - destruct fuel as [|fuel]; [lia|]. cbn [mii_wait]. rewrite busy_bit, Hv. apply wp_ret, HQ; [congruence|].
    destruct M2 as [W1 W2 W3 W4]. split; [done|congruence|done|lia].
  - destruct M2 as [W1 W2 W3 W4]. apply IH; [done|done|by rewrite G2, A4|done|lia|lia|lia|].
    intros s' G' [X1 X2 X3 X4]. apply HQ; [congruence|]. split; [done|congruence|done|lia].
Qed.

Definition op_time : Z := eth_step * (2 * Z.of_nat eth_limit + 10).

(** A command is written and awaited. *)
Lemma wp_mii_operation {A} fuel cmd (k : bool -> M (mach eth_glob) A) s (Q : A -> mach eth_glob -> Prop) :
  eth_Instance (heth (glb s)) = ETH -> idle s -> mii_todo (mii_in s) = None ->
  Z.testbit cmd 0 = true -> (eth_limit + 2 <= fuel)%nat -> now s + 400000 * tick_len < 2 ^ 32 * tick_len ->
  (forall s', glb s' = glb s -> moved (op_time - 4 * eth_step) (mii_finish (u32 cmd) (mii_in s)) s s' -> wp (k false) s' Q) ->
  wp (ewr MACMIIAR cmd ;; tickstart <- HAL_GetTick ;; late <- mii_wait fuel 0xFFFF tickstart cmd ;; k late) s Q.
Proof.
  intros Hi Hs Hm Hcmd Hf Hw HQ. pose proof eth_fast as (Hl & Hs0 & Hfast). pose proof (eth_since (dev s)) as H0.
  apply wp_step, wp_mii_command; [done..|]. rewrite Hcmd. intros m s1 G1 [A1 A2 A3 A4] (n & Hn & ->).
  apply wp_step, wp_tick; [nia|]. intros s2 C2. pose proof (calm_moved _ _ _ A3 C2) as [B1 B2 B3 B4].
  destruct C2 as [[_ _ _ G2] _].
  assert (2 * eth_step * (Z.of_nat n + 1) <= 2 * eth_step * (Z.of_nat eth_limit + 1)) by nia.
  fold (now s) in *. apply wp_step, (wp_mii_wait (mii_in s) (u32 cmd)) with (n := n); [unfold now in *; lia|lia|congruence|done|congruence|done|lia|lia|lia|].
  intros s3 G3 [D1 D2 D3 D4]. apply HQ; [congruence|]. split; [done|congruence|done|unfold op_time; lia].
Qed.

(** Assignments to the handle. *)
Definition upd_heth (f : ETH_HandleTypeDef -> ETH_HandleTypeDef) (g : eth_glob) : eth_glob :=
  EthGlob (f (heth g)) (s_xSemaphore g) (eth_clk g).

Lemma wp_modify_h f s (Q : unit -> mach eth_glob -> Prop) :
  (forall s', dev s' = dev s -> glb s' = upd_heth f (glb s) -> Q tt s') -> wp (modify_heth f) s Q.
Proof. intros HQ. by apply wp_modify, HQ. Qed.

(** The management interface can take a command. *)
Record mii_ready fuel s : Prop := {
  mr_instance : eth_Instance (heth (glb s)) = ETH;
  mr_phy : 0 <= PhyAddress (eth_Init (heth (glb s))) < 32;
  mr_idle : idle s;
  mr_todo : mii_todo (mii_in s) = None;
  mr_fuel : (eth_limit + 2 <= fuel)%nat;
  mr_time : now s + 500000 * tick_len < 2 ^ 32 * tick_len;
}.

Lemma wp_ReadPHY fuel reg s (Q : Z * option Z -> mach eth_glob -> Prop) :
  let p := phy_read (PhyAddress (eth_Init (heth (glb s)))) reg (phys (mii_in s)) in
  mii_ready fuel s -> eth_State (heth (glb s)) <> HAL_ETH_STATE_BUSY_RD -> 0 <= reg < 32 ->
  (forall s', moved op_time (Mii P (snd p) None (fst p)) s s' ->
     glb s' = upd_heth (set_State HAL_ETH_STATE_READY) (glb s) -> Q (HAL_OK, Some (u16 (fst p))) s') ->
  wp (HAL_ETH_ReadPHYRegister fuel reg) s Q.
Proof.
  intros p [Hi Ha Hs Hm Hf Hw] Hst Hreg HQ. pose proof eth_fast as (Hl & Hs0 & Hfast).
  unfold HAL_ETH_ReadPHYRegister. apply wp_step, wp_get_heth.
  destruct (Z.eqb_spec (eth_State (heth (glb s))) HAL_ETH_STATE_BUSY_RD); [done|].
  apply wp_step, wp_modify_h. intros s1 D1 G1.
  assert (eth_Instance (heth (glb s1)) = ETH) as I1 by by rewrite G1.
  apply wp_step, wp_mii_status; [done|unfold idle; by rewrite D1|]. intros v m s2 G2 [A1 A2 A3 A4].
  unfold mii_in, now in *. rewrite D1 in *. rewrite Hm. intros [_ ->].
  destruct (mii_fields v _ reg false Ha Hreg) as (F0 & F1 & Fp & Fr). rewrite u32_testbit in F0 by lia.
  apply wp_mii_operation; [by rewrite G2|done|unfold mii_in; by rewrite A1|done|done|unfold now; lia|].
  intros s3 G3 [B1 B2 B3 B4]. unfold mii_in, now in *.
  apply wp_step. unfold erd. apply wp_step, wp_get_heth, wp_rd. rewrite G3, G2, I1.
  destruct (mii_rd_data (dev s3) B3) as (Hd & (F1' & F2' & F3') & Hp). rewrite Hd.
  assert (mii_of (dev s3) = Mii P (snd p) None (fst p)) as Hm3.
  { rewrite B1, A1. unfold mii_finish. by rewrite F1, Fp, Fr. }
  apply wp_step, wp_modify_h. intros s4 D4 G4. apply wp_ret. rewrite Hm3. cbn [mii_data].
  rewrite u16_u32. cbn [dev] in *. apply HQ.
  - split; unfold mii_in, now; rewrite ?D4; [congruence..|]. unfold passes, op_time in *. lia.
  - rewrite G4. cbn [glb]. by rewrite G1.
Qed.

Lemma wp_WritePHY fuel reg val s (Q : Z -> mach eth_glob -> Prop) :
  let ph := phy_write (PhyAddress (eth_Init (heth (glb s)))) reg (u16 val) (phys (mii_in s)) in
  mii_ready fuel s -> eth_State (heth (glb s)) <> HAL_ETH_STATE_BUSY_WR -> 0 <= reg < 32 ->
  (forall s', moved op_time (Mii P ph None (u16 val)) s s' ->
     glb s' = upd_heth (set_State HAL_ETH_STATE_READY) (glb s) -> Q HAL_OK s') ->
  wp (HAL_ETH_WritePHYRegister fuel reg val) s Q.
Proof.
  intros ph [Hi Ha Hs Hm Hf Hw] Hst Hreg HQ. pose proof eth_fast as (Hl & Hs0 & Hfast).
  unfold HAL_ETH_WritePHYRegister. apply wp_step, wp_get_heth.
  destruct (Z.eqb_spec (eth_State (heth (glb s))) HAL_ETH_STATE_BUSY_WR); [done|].
  apply wp_step, wp_modify_h. intros s1 D1 G1.
  assert (eth_Instance (heth (glb s1)) = ETH) as I1 by by rewrite G1.
  apply wp_step, wp_mii_status; [done|unfold idle; by rewrite D1|]. intros v m s2 G2 [A1 A2 A3 A4].
  unfold mii_in, now in *. rewrite D1 in *. rewrite Hm. intros [_ ->].
  destruct (mii_fields v _ reg true Ha Hreg) as (F0 & F1 & Fp & Fr). rewrite u32_testbit in F0 by lia.
  apply wp_step. unfold ewr at 1. apply wp_step, wp_get_heth, wp_wr. rewrite G2, I1.
  destruct (mii_wr_data (u32 (u16 val)) (dev s2) A3) as (Hm2 & Hr2 & Hs2 & Hp2).
  rewrite u32_small in * by (pose proof (u16_range val); lia).
  apply wp_mii_operation; [cbn; by rewrite ?G2|done|unfold mii_in; cbn; rewrite Hm2; cbn; congruence|done|done|
    unfold now, passes in *; cbn; lia|].
  intros s3 G3 [B1 B2 B3 B4]. unfold mii_in, now in *. cbn [dev glb] in *.
  apply wp_step, wp_modify_h. intros s4 D4 G4. apply wp_ret, HQ.
  - split; unfold mii_in, now; rewrite ?D4; [|congruence..|unfold passes, op_time in *; lia].
    rewrite B1, Hm2. unfold mii_finish. rewrite F1, Fp, Fr. cbn. by rewrite A1.
  - rewrite G4, G3. cbn [glb]. by rewrite ?G2, G1.
Qed.

(** HAL_ETH_ReadPHYRegister, unless it is already under way, reads the register of
    the PHY of the handle, once: for a device that completes an operation in time it returns,
    within the fuel, HAL_OK and the register's 16 bits, the handle is ready, and no other
    register of the controller has changed. *)
Theorem HAL_ETH_ReadPHYRegister_reads fuel reg s :
  mii_ready fuel s -> eth_State (heth (glb s)) <> HAL_ETH_STATE_BUSY_RD -> 0 <= reg < 32 ->
  wp (HAL_ETH_ReadPHYRegister fuel reg) s (fun r s' =>
    let p := phy_read (PhyAddress (eth_Init (heth (glb s)))) reg (phys (mii_in s)) in
    r = (HAL_OK, Some (u16 (fst p))) /\ phys (mii_in s') = snd p /\ mii_todo (mii_in s') = None /\
    (forall x, reg_of s' x = reg_of s x) /\
    heth (glb s') = set_State HAL_ETH_STATE_READY (heth (glb s))).
Proof.
  intros Hr Hst Hreg. apply wp_ReadPHY; [done..|]. intros s' M G.
  split; [done|]. destruct (M) as [M1 _ _ _]. rewrite M1, G. split; [done|]. split; [done|]. split; [|done].
  intros x. by eapply moved_reg.
Qed.

(** HAL_ETH_WritePHYRegister, unless it is already under way, writes 16 bits to the
    register of the PHY of the handle, once: for a device that completes an operation in
    time it returns, within the fuel, HAL_OK, the handle is ready, and no other register of
    the controller has changed. *)
Theorem HAL_ETH_WritePHYRegister_writes fuel reg val s :
  mii_ready fuel s -> eth_State (heth (glb s)) <> HAL_ETH_STATE_BUSY_WR -> 0 <= reg < 32 ->
  wp (HAL_ETH_WritePHYRegister fuel reg val) s (fun r s' =>
    r = HAL_OK /\
    phys (mii_in s') = phy_write (PhyAddress (eth_Init (heth (glb s)))) reg (u16 val) (phys (mii_in s)) /\
    mii_todo (mii_in s') = None /\ (forall x, reg_of s' x = reg_of s x) /\
    heth (glb s') = set_State HAL_ETH_STATE_READY (heth (glb s))).
Proof.
  intros Hr Hst Hreg. apply wp_WritePHY; [done..|]. intros s' M G. split; [done|].
  destruct (M) as [M1 _ _ _]. rewrite M1, G. split; [done|]. split; [done|]. split; [|done].
  intros x. by eapply moved_reg.
Qed.
End dev.

(** * A simulated board

    One tick is one unit of time, which reading the tick and accesses take.  Operations and
    the reset are over after two reads.  The PHY with its 16 registers reports a link after
    two polls, the end of the negotiation after one more, and 10 Mbit/s half duplex. *)
#[export] Instance sim_phy : Phy := {|
  phy := nat;
  phy_read a r (n : nat) :=
    if r =? PHY_BSR then match n with O => (0x786D, O) | S k => (0x7849, k) end
    else if r =? PHY_SR then (PHY_SPEED_STATUS, n) else (0, n);
  phy_write a r v (n : nat) :=
    if r =? PHY_BCR then (if v =? PHY_AUTONEGOTIATION then 1%nat else 2%nat) else n;
|}.

Record board := Board { b_regs : Z -> Z; b_mii : mii; b_swr : option nat; b_time : Z }.
Definition b_clock (h : board) : Z := Z.abs (b_time h).
Definition b_after (h : board) : Z := b_clock h + 1.

Definition board_rd (x : Z) (h : board) : Z * board :=
  if x =? MACMIIAR then
    match mii_todo (b_mii h) with
    | None => (0, h)
    | Some (cmd, O) => (cmd .& not32 1, Board (b_regs h) (mii_finish cmd (b_mii h)) (b_swr h) (b_after h))
    | Some (cmd, S n) => (cmd .| 1, Board (b_regs h) (mii_wait_on n cmd (b_mii h)) (b_swr h) (b_after h))
    end
  else if x =? MACMIIDR then (mii_data (b_mii h), h)
  else
    match b_swr h with
    | None => (b_regs h x, h)
    | Some O => (0, Board (b_regs h) (b_mii h) None (b_after h))
    | Some (S n) => (1, Board (b_regs h) (b_mii h) (Some n) (b_after h))
    end.

Definition board_wr (x v : Z) (h : board) : board :=
  if x =? MACMIIAR then
    if Z.testbit v 0 then Board (b_regs h) (mii_wait_on 2 v (b_mii h)) (b_swr h) (b_after h) else h
  else if x =? MACMIIDR then
    Board (b_regs h) (Mii sim_phy (phys (b_mii h)) (mii_todo (b_mii h)) v) (b_swr h) (b_after h)
  else if (x =? DMABMR) && Z.testbit v 0 then
    Board (fun _ => 0) (Mii sim_phy (phys (b_mii h)) None 0) (Some 2%nat) (b_after h)
  else Board (upd (b_regs h) x v) (b_mii h) (b_swr h) (b_after h).

Definition in_eth (a : Z) : bool := (ETH <=? a) && (a <? ETH + 0x1400).

Definition eth_board : Bus := {|
  hw := board;
  mmio_rd a h := if in_eth a then board_rd (a - ETH) h else (0, h);
  mmio_wr a v h := if in_eth a then board_wr (a - ETH) v h else h;
  ktick h := (b_clock h, Board (b_regs h) (b_mii h) (b_swr h) (b_after h));
  os_delay n h := Board (b_regs h) (b_mii h) (b_swr h) (b_clock h + Z.max 0 n);
|}.

#[export] Instance eth_board_narrow : Narrow eth_board := {|
  mmio_rd8 a (h : @hw eth_board) := (0, h);
  mmio_wr8 a v (h : @hw eth_board) := h;
  mmio_wr16 a v (h : @hw eth_board) := h |}.

Lemma in_eth_plain x : 0 <= x < 0x1400 -> in_eth (ETH + x) = true /\ ETH + x - ETH = x.
Proof. unfold in_eth. lia. Qed.
Lemma in_eth_outside a : outside a -> in_eth a = false.
Proof. unfold in_eth, outside. lia. Qed.

Lemma plain_neq x : plain x -> (x =? MACMIIAR) = false /\ (x =? MACMIIDR) = false.
Proof. unfold plain. lia. Qed.

Ltac board_access H :=
  cbn [mmio_rd mmio_wr eth_board]; destruct (in_eth_plain _ H) as [-> ->]; unfold board_rd, board_wr;
  change (DMABMR =? MACMIIAR) with false; change (DMABMR =? MACMIIDR) with false; change (DMABMR =? DMABMR) with true;
  change (MACMIIAR =? MACMIIAR) with true; change (MACMIIDR =? MACMIIAR) with false; change (MACMIIDR =? MACMIIDR) with true;
  cbn [andb].

Ltac board_simpl := cbn [fst snd b_regs b_mii b_swr b_time phys mii_todo mii_data].

#[export] Instance eth_board_dev : EthDev eth_board eth_board_narrow sim_phy.
Proof.
  refine {| eth_regs := b_regs : @hw eth_board -> Z -> Z; mii_of := b_mii : @hw eth_board -> mii;
            swr_todo := b_swr : @hw eth_board -> option nat; eth_time := b_clock : @hw eth_board -> Z;
            tick_len := 1; eth_step := 1; eth_limit := 2; reset_value _ := 0 |}; unfold b_clock.
  - lia.
  - intros h. lia.
  - intros h. cbn [ktick eth_board fst snd]. rewrite Z.div_1_r. unfold b_after, b_clock. board_simpl. split; [done|]. split; [done|lia].
  - intros n h Hn. cbn [os_delay eth_board]. unfold b_clock. board_simpl. split; [done|lia].
  - intros x h Hx Hs. destruct (plain_neq x Hx) as [E1 E2]. board_access (proj1 Hx). rewrite E1, E2, Hs. board_simpl. split; [done|]. split; [done|lia].
  - intros x v h Hx Hs Hb. destruct (plain_neq x Hx) as [E1 E2]. board_access (proj1 Hx). rewrite E1, E2.
    assert ((x =? DMABMR) && Z.testbit v 0 = false) as -> by (destruct (Z.eqb_spec x DMABMR); [by rewrite Hb|done]).
    unfold b_after, b_clock. board_simpl. split; [done|]. split; [done|]. split; [done|lia].
  - intros v h Hb Hs. board_access (ltac:(by vm_compute) : 0 <= DMABMR < 0x1400). rewrite Hb. board_simpl. unfold b_after, b_clock.
    split; [done|]. split; [done|]. split; [done|]. split; [by exists 2%nat|]. board_simpl. lia.
  - intros h n Hn. board_access (ltac:(by vm_compute) : 0 <= DMABMR < 0x1400). rewrite Hn. unfold b_after, b_clock.
    destruct n; board_simpl; (split; [done|]; split; [done|]; split; [lia|done]).
  - intros h Hs. board_access (ltac:(by vm_compute) : 0 <= MACMIIAR < 0x1400). unfold b_after, b_clock.
    destruct (mii_todo (b_mii h)) as [[cmd [|n]]|]; board_simpl; rewrite ?Hs.
    + split; [done|]. split; [done|]. split; [lia|]. split; [|done]. autorewrite with fw_bits. apply andb_false_r.
    + split; [done|]. split; [done|]. split; [lia|]. split; [|done]. autorewrite with fw_bits. apply orb_true_r.
    + split; [done|]. split; [done|]. split; [lia|done].
  - intros v h Hs Hm. board_access (ltac:(by vm_compute) : 0 <= MACMIIAR < 0x1400). unfold b_after, b_clock.
    destruct (Z.testbit v 0); board_simpl.
    + split; [done|]. split; [done|]. split; [lia|]. by exists 2%nat.
    + split; [done|]. split; [done|]. split; [lia|done].
  - intros h Hs. board_access (ltac:(by vm_compute) : 0 <= MACMIIDR < 0x1400). board_simpl. split; [done|]. split; [done|lia].
  - intros v h Hs. board_access (ltac:(by vm_compute) : 0 <= MACMIIDR < 0x1400). unfold b_after, b_clock. board_simpl. split; [done|]. split; [done|]. split; [done|lia].
  - intros a h Ha. cbn [mmio_rd eth_board]. rewrite in_eth_outside by done. board_simpl. split; [done|lia].
  - intros a v h Ha. cbn [mmio_wr eth_board]. rewrite in_eth_outside by done. board_simpl. split; [done|lia].
  - intros a v h Ha. cbn [mmio_wr8 eth_board_narrow]. split; [done|lia].
Defined.

#[export] Instance eth_board_progress : EthProgress eth_board eth_board_narrow sim_phy eth_board_dev.
Proof. split. intros h. change (Z.abs (b_time h) < Z.abs (Z.abs (b_time h) + 1)). lia. Qed.

(** A board whose controller was never set up. *)
Definition board_start (init : ETH_InitTypeDef) (state : Z) : mach eth_glob :=
  @Mach eth_board eth_glob (Board (fun _ => 0x8000) (Mii sim_phy 0%nat None 0) None 1000) []
    (EthGlob (EthHandle ETH init 0 0 0 (RxInfos 0 0 0 0 0) state false) 0 clk_init).
Definition board_mac : list Z := [2; 0; 0; 0x12; 0x34; 0x56].
Definition board_init : ETH_InitTypeDef :=
  EthInit ETH_AUTONEGOTIATION_ENABLE ETH_SPEED_100M ETH_MODE_FULLDUPLEX 3 (Some board_mac) ETH_RXINTERRUPT_MODE
    ETH_CHECKSUM_BY_HARDWARE ETH_MEDIA_INTERFACE_RMII.

Lemma HAL_ETH_ReadPHYRegister_reads_witness :
  wp (HAL_ETH_ReadPHYRegister 10 PHY_BSR) (board_start board_init HAL_ETH_STATE_READY) (fun r _ => r = (HAL_OK, Some 0x786D)).
Proof.
  eapply wp_mono; [apply (HAL_ETH_ReadPHYRegister_reads (D := eth_board_dev)); [|done|by vm_compute]|].
  - split; try done; cbn; lia.
  - by intros r s' (-> & _).
Defined.

Lemma HAL_ETH_WritePHYRegister_writes_witness :
  wp (HAL_ETH_WritePHYRegister 10 PHY_BCR PHY_RESET) (board_start board_init HAL_ETH_STATE_READY) (fun r s' =>
    r = HAL_OK /\ phys (mii_in s') = 2%nat).
Proof.
  eapply wp_mono; [apply (HAL_ETH_WritePHYRegister_writes (D := eth_board_dev)); [|done|by vm_compute]|].
  - split; try done; cbn; lia.
  - by intros r s' (-> & -> & _).
Defined.
