(* ===== verification/EthConfig.v ===== *)
(** The configuration of MAC and DMA, ETH_MACDMAConfig of
    src/stm32f7xx_hal_eth.c: the registers it leaves on a device of [EthDev]. *)
From S2P Require Import Prelude Machine SysArch FlashHal Clock EthHal EthDev.

#[local] Open Scope fw_scope.

(** * The registers meant *)

(** The value of a register after the defaults have been configured. *)
Definition mac_defaults (old : Z -> Z) (i : ETH_InitTypeDef) (off : Z) : Z :=
  if off =? MACCR then
    u32 ((old MACCR .& ETH_MACCR_CLEAR_MASK) .|
         (eth_Speed i .| DuplexMode i .|
          (if ChecksumMode i =? ETH_CHECKSUM_BY_HARDWARE then 0x400 else 0) .| 0x200))
  else if off =? MACFFR then 0x40
  else if off =? MACHTHR then 0
  else if off =? MACHTLR then 0
  else if off =? MACFCR then u32 ((old MACFCR .& ETH_MACFCR_CLEAR_MASK) .| 0x80)
  else if off =? MACVLANTR then 0
  else old off.

Definition dma_defaults (old : Z -> Z) (off : Z) : Z :=
  if off =? DMAOMR then u32 ((old DMAOMR .& ETH_DMAOMR_CLEAR_MASK) .| (0x02000000 .| 0x00200000 .| 0x4))
  else if off =? DMABMR then 0x02000000 .| 0x10000 .| 0x400000 .| 0x2000 .| 0x80 .| 0x800000
  else old off.

(** The registers after ETH_MACDMAConfig, with the handle's parameters [i]. *)
Definition config_defaults (old : Z -> Z) (i : ETH_InitTypeDef) (off : Z) : Z :=
  if (off =? DMAIER) && (RxMode i =? ETH_RXINTERRUPT_MODE)
  then u32 (old DMAIER .| (ETH_DMA_IT_NIS .| ETH_DMA_IT_R))
  else dma_defaults (mac_defaults old i) off.

Definition byte (b : Z) : Prop := 0 <= b < 256.

Lemma mac_low a0 a1 a2 a3 : byte a0 -> byte a1 -> byte a2 -> byte a3 ->
  u32 ((a3 .<< 24) .| (a2 .<< 16) .| (a1 .<< 8) .| a0) = a3 * 16777216 + a2 * 65536 + a1 * 256 + a0.
Proof.
  unfold byte. intros. rewrite <- !Z.lor_assoc. change 16777216 with (2 ^ 24). change 65536 with (2 ^ 16).
  rewrite (lor_shiftl_add a1 8 a0) by lia. rewrite (lor_shiftl_add a2 16) by lia.
  rewrite (lor_shiftl_add a3 24) by lia. rewrite u32_small by lia. lia.
Qed.

Lemma mac_high a4 a5 : byte a4 -> byte a5 -> u32 ((a5 .<< 8) .| a4) = a5 * 256 + a4.
Proof. unfold byte. intros. rewrite (lor_shiftl_add a5 8 a4) by lia. rewrite u32_small by lia. lia. Qed.

(** Byte [n] of the two address registers. *)
Definition mac_byte (hi lo n : Z) : Z := if n <? 4 then bits lo (8 * n) 8 else bits hi (8 * (n - 4)) 8.

(** The six bytes of an address, from the two registers that hold it. *)
Definition mac_address (hi lo : Z) : list Z := [bits lo 0 8; bits lo 8 8; bits lo 16 8; bits lo 24 8; bits hi 0 8; bits hi 8 8].

Lemma mac_address_of a0 a1 a2 a3 a4 a5 : Forall byte [a0; a1; a2; a3; a4; a5] ->
  mac_address (u32 ((a5 .<< 8) .| a4)) (u32 ((a3 .<< 24) .| (a2 .<< 16) .| (a1 .<< 8) .| a0)) =
  [a0; a1; a2; a3; a4; a5].
Proof.
  intros Hb. repeat match goal with H : Forall _ (_ :: _) |- _ => apply Forall_cons_1 in H as [? ?] end.
  unfold mac_address. rewrite mac_low, mac_high by done. unfold byte in *. rewrite !bits_alt by lia.
  change (2 ^ 0) with 1. change (2 ^ 8) with 256. change (2 ^ 16) with 65536. change (2 ^ 24) with 16777216.
  repeat f_equal; zlia.
Qed.


(** * What the driver does *)

Section config.
Context {B : Bus} {N : Narrow B} {P : Phy} {D : EthDev B N P}.
Implicit Types s : mach eth_glob.

(** The driver may access the controller's registers. *)
Definition ready s : Prop := eth_Instance (heth (glb s)) = ETH /\ idle s.

Lemma steady_ready n s s' : steady n s s' -> ready s -> ready s'.
Proof. intros [_ H _ G] [Hi Hs]. unfold ready, idle. by rewrite G, H. Qed.

(** The rules for a register with the time they cost as an argument. *)
Lemma wp_cfg_rd x s0 n s (Q : Z -> mach eth_glob -> Prop) :
  ready s0 -> plain x -> steady n s0 s ->
  (forall s', steady (n + eth_step) s0 s' -> (forall y, reg_of s' y = reg_of s y) -> Q (reg_of s x) s') ->
  wp (erd x) s Q.
Proof.
  intros H0 Hx Hs HQ. destruct (steady_ready _ _ _ Hs H0) as [Hi Hd]. apply wp_reg_get; [done..|]. intros s' C.
  apply HQ; [by eapply steady_trans; [|apply C]|]. intros y. by apply (calm_reg _ _ _ _ C).
Qed.

Lemma wp_cfg_wr x v s0 n s (Q : unit -> mach eth_glob -> Prop) :
  ready s0 -> plain x -> (x = DMABMR -> Z.testbit v 0 = false) -> steady n s0 s ->
  (forall s', steady (n + eth_step) s0 s' -> (forall y, reg_of s' y = if y =? x then u32 v else reg_of s y) -> Q tt s') ->
  wp (ewr x v) s Q.
Proof.
  intros H0 Hx Hb Hs HQ. destruct (steady_ready _ _ _ Hs H0) as [Hi Hd]. apply wp_reg_put; [done..|]. intros s' S' R'.
  apply HQ; [by eapply steady_trans|done].
Qed.

Lemma wp_cfg_settle x s0 n s (Q : unit -> mach eth_glob -> Prop) :
  ready s0 -> plain x -> (x = DMABMR -> Z.testbit (reg_of s x) 0 = false) -> steady n s0 s ->
  (forall s', steady (n + (3 * eth_step + 6 * tick_len)) s0 s' -> (forall y, reg_of s' y = reg_of s y) -> Q tt s') ->
  wp (settle x) s Q.
Proof.
  intros H0 Hx Hb Hs HQ. destruct (steady_ready _ _ _ Hs H0) as [Hi Hd]. apply wp_settle; [done..|]. intros s' S' R'.
  apply HQ; [by eapply steady_trans|done].
Qed.

Lemma wp_cfg_heth s0 n s (Q : ETH_HandleTypeDef -> mach eth_glob -> Prop) :
  steady n s0 s -> Q (heth (glb s0)) s -> wp get_heth s Q.
Proof. intros [_ _ _ G] HQ. apply wp_get_heth. by rewrite G. Qed.

Definition mac_time : Z := 20 * eth_step + 24 * tick_len.
Definition dma_time : Z := 10 * eth_step + 12 * tick_len.

Lemma wp_configure_mac s (Q : unit -> mach eth_glob -> Prop) :
  let i := eth_Init (heth (glb s)) in
  ready s ->
  (forall s', steady mac_time s s' -> (forall x, reg_of s' x = mac_defaults (reg_of s) i x) -> Q tt s') ->
  wp (configure_mac (default_mac (ChecksumMode i))) s Q.
Proof.
  intros i H0 HQ. pose proof eth_fast as (Hl & Hs0 & _). remember (default_mac (ChecksumMode i)) as m eqn:Hm.
  unfold configure_mac.
  apply wp_step, (wp_cfg_rd _ s 0); [done|by vm_compute|apply steady_refl|]. intros s1 S1 R1.
  eapply wp_step, wp_cfg_heth; [done|]. fold i.
  eapply wp_step, wp_cfg_wr; [done|by vm_compute|done|done|]. intros s2 S2 R2.
  eapply wp_step, wp_cfg_settle; [done|by vm_compute|done|done|]. intros s3 S3 R3.
  eapply wp_step, wp_cfg_wr; [done|by vm_compute|done|done|]. intros s4 S4 R4.
  eapply wp_step, wp_cfg_settle; [done|by vm_compute|done|done|]. intros s5 S5 R5.
  eapply wp_step, wp_cfg_wr; [done|by vm_compute|done|done|]. intros s6 S6 R6.
  eapply wp_step, wp_cfg_wr; [done|by vm_compute|done|done|]. intros s7 S7 R7.
  eapply wp_step, wp_cfg_rd; [done|by vm_compute|done|]. intros s8 S8 R8.
  eapply wp_step, wp_cfg_wr; [done|by vm_compute|done|done|]. intros s9 S9 R9.
  eapply wp_step, wp_cfg_settle; [done|by vm_compute|done|done|]. intros s10 S10 R10.
  eapply wp_step, wp_cfg_wr; [done|by vm_compute|done|done|]. intros s11 S11 R11.
  eapply wp_cfg_settle; [done|by vm_compute|done|done|]. intros s12 S12 R12.
  apply HQ; [eapply steady_le; [done|unfold mac_time; lia]|]. intros x.
  rewrite ?R12, ?R11, ?R10, ?R9, ?R8, ?R7, ?R6, ?R5, ?R4, ?R3, ?R2, ?R1. rewrite Hm. unfold mac_defaults, default_mac. cbn [
    Watchdog Jabber InterFrameGap CarrierSense ReceiveOwn LoopbackMode ChecksumOffload RetryTransmission
    AutomaticPadCRCStrip BackOffLimit DeferralCheck ReceiveAll SourceAddrFilter PassControlFrames
    BroadcastFramesReception DestinationAddrFilter PromiscuousMode MulticastFramesFilter UnicastFramesFilter
    HashTableHigh HashTableLow PauseTime ZeroQuantaPause PauseLowThreshold UnicastPauseFrameDetect
    ReceiveFlowControl TransmitFlowControl VLANTagComparison VLANTagIdentifier].
  rewrite ?Z.lor_0_r, ?Z.lor_0_l.
  destruct (Z.eqb_spec x MACCR) as [->|]; [reflexivity|]. destruct (Z.eqb_spec x MACFFR) as [->|]; [reflexivity|].
  destruct (Z.eqb_spec x MACHTHR) as [->|]; [reflexivity|]. destruct (Z.eqb_spec x MACHTLR) as [->|]; [reflexivity|].
  destruct (Z.eqb_spec x MACFCR) as [->|]; [reflexivity|]. by destruct (Z.eqb_spec x MACVLANTR) as [->|].
Qed.

Lemma wp_configure_dma s (Q : unit -> mach eth_glob -> Prop) :
  ready s ->
  (forall s', steady dma_time s s' -> (forall x, reg_of s' x = dma_defaults (reg_of s) x) -> Q tt s') ->
  wp (configure_dma default_dma) s Q.
Proof.
  intros H0 HQ. pose proof eth_fast as (Hl & Hs0 & _). unfold configure_dma.
  apply wp_step, (wp_cfg_rd _ s 0); [done|by vm_compute|apply steady_refl|]. intros s1 S1 R1.
  eapply wp_step, wp_cfg_wr; [done|by vm_compute|done|done|]. intros s2 S2 R2.
  eapply wp_step, wp_cfg_settle; [done|by vm_compute|done|done|]. intros s3 S3 R3.
  eapply wp_step, wp_cfg_wr; [done|by vm_compute|by vm_compute|done|]. intros s4 S4 R4.
  eapply wp_cfg_settle; [done|by vm_compute|by rewrite R4|done|]. intros s5 S5 R5.
  apply HQ; [eapply steady_le; [done|unfold dma_time; lia]|]. intros x. rewrite ?R5, ?R4, ?R3, ?R2, ?R1.
  unfold dma_defaults, default_dma. cbn [DropTCPIPChecksumErrorFrame ReceiveStoreForward FlushReceivedFrame
    TransmitStoreForward TransmitThresholdControl ForwardErrorFrames ForwardUndersizedGoodFrames
    ReceiveThresholdControl SecondFrameOperate AddressAlignedBeats FixedBurst RxDMABurstLength TxDMABurstLength
    EnhancedDescriptorFormat DescriptorSkipLength DMAArbitration]. rewrite ?Z.lor_0_r, ?Z.lor_0_l.
  destruct (Z.eqb_spec x DMAOMR) as [->|]; [reflexivity|]. by destruct (Z.eqb_spec x DMABMR) as [->|].
Qed.

(** What an error makes of the handle. *)
Definition link_after (err : Z) (h : ETH_HandleTypeDef) : ETH_HandleTypeDef :=
  if err =? ETH_SUCCESS then h else set_link ETH_SPEED_100M ETH_MODE_FULLDUPLEX h.
Definition config_time : Z := 40 * eth_step + 40 * tick_len.

(** The registers are configured for the handle [h], from the values [old]. *)
Definition configured (h : ETH_HandleTypeDef) (mac : list Z) (old : Z -> Z) s : Prop :=
  mac_address (reg_of s 0x40) (reg_of s 0x44) = mac /\
  forall x, x <> 0x40 -> x <> 0x44 -> reg_of s x = config_defaults old (eth_Init h) x.

Lemma wp_cfg_interrupts h old s0 n s (Q : unit -> mach eth_glob -> Prop) :
  ready s0 -> steady n s0 s -> h = heth (glb s0) ->
  (forall x, reg_of s x = dma_defaults (mac_defaults old (eth_Init h)) x) ->
  (forall s', steady (n + 2 * eth_step) s0 s' -> (forall x, reg_of s' x = config_defaults old (eth_Init h) x) -> Q tt s') ->
  wp (if RxMode (eth_Init h) =? ETH_RXINTERRUPT_MODE then eset DMAIER (ETH_DMA_IT_NIS .| ETH_DMA_IT_R) else ret tt) s Q.
Proof.
  intros H0 S1 -> R1 HQ. pose proof eth_fast as (Hl & Hs0 & _). unfold config_defaults in HQ.
  destruct (RxMode (eth_Init (heth (glb s0))) =? ETH_RXINTERRUPT_MODE).
  - unfold eset, ermw. eapply wp_step, wp_cfg_rd; [done|by vm_compute|done|]. intros s2 S2 R2.
    eapply wp_cfg_wr; [done|by vm_compute|done|done|]. intros s3 S3 R3.
    apply HQ; [eapply steady_le; [done|lia]|]. intros x. rewrite R3, andb_true_r, R1, R2, R1.
    by destruct (Z.eqb_spec x DMAIER).
  - apply wp_ret, HQ; [eapply steady_le; [done|lia]|]. intros x. by rewrite andb_false_r.
Qed.

Lemma wp_mac_address s0 n s mac (Q : unit -> mach eth_glob -> Prop) :
  ready s0 -> steady n s0 s -> length mac = 6%nat -> Forall byte mac ->
  (forall s', steady (n + 2 * eth_step) s0 s' -> mac_address (reg_of s' 0x40) (reg_of s' 0x44) = mac ->
     (forall x, x <> 0x40 -> x <> 0x44 -> reg_of s' x = reg_of s x) -> Q tt s') ->
  wp (ETH_MACAddressConfig ETH_MAC_ADDRESS0 (Some mac)) s Q.
Proof.
  intros H0 S1 Hlen Hb HQ. unfold ETH_MACAddressConfig.
  destruct mac as [|a0 [|a1 [|a2 [|a3 [|a4 [|a5 [|]]]]]]]; try done.
  change (wp (wr (ETH + 0x40) ((a5 .<< 8) .| a4) ;;
              wr (ETH + 0x44) ((a3 .<< 24) .| (a2 .<< 16) .| (a1 .<< 8) .| a0)) s Q).
  apply wp_step, wp_plain_wr; [by vm_compute|by apply (steady_ready _ _ _ S1 H0)|done|]. intros s2 S2 R2.
  pose proof (steady_trans _ _ _ _ _ S1 S2) as S12.
  apply wp_plain_wr; [by vm_compute|by apply (steady_ready _ _ _ S12 H0)|done|]. intros s3 S3 R3.
  apply HQ.
  - eapply steady_le; [by eapply steady_trans|lia].
  - rewrite !R3, !R2. cbn -[u32 Z.lor Z.shiftl mac_address]. by apply mac_address_of.
  - intros x Hx Hy. rewrite R3, R2. destruct (Z.eqb_spec x 0x44), (Z.eqb_spec x 0x40); done.
Qed.

Lemma wp_MACDMAConfig err mac s (Q : unit -> mach eth_glob -> Prop) :
  let h := link_after err (heth (glb s)) in
  ready s -> MACAddr (eth_Init (heth (glb s))) = Some mac -> length mac = 6%nat -> Forall byte mac ->
  (forall s', mii_in s' = mii_in s -> idle s' -> now s <= now s' <= now s + config_time ->
     glb s' = upd_heth (link_after err) (glb s) -> configured h mac (reg_of s) s' -> Q tt s') ->
  wp (ETH_MACDMAConfig err) s Q.
Proof.
  intros h [Hi Hd] Hmac Hlen Hb HQ. pose proof eth_fast as (Hl & Hs0 & _). unfold ETH_MACDMAConfig.
  apply wp_step. apply wp_mono with (Q := fun _ s1 => dev s1 = dev s /\ glb s1 = upd_heth (link_after err) (glb s)).
  { unfold upd_heth, link_after. destruct (err =? ETH_SUCCESS); cbn; [|done]. by destruct (glb s). }
  intros u s1 [D1 G1]. assert (heth (glb s1) = h) as H1 by by rewrite G1.
  assert (ready s1) as Hr.
  { unfold ready, idle. rewrite D1, G1. split; [|done]. cbn. unfold link_after. by destruct (err =? ETH_SUCCESS). }
  assert (MACAddr (eth_Init h) = Some mac) as Mh.
  { subst h. unfold link_after. by destruct (err =? ETH_SUCCESS). }
  assert (forall x, reg_of s1 x = reg_of s x) as R1 by (intros x; unfold reg_of; by rewrite D1).
  apply wp_step, wp_get_heth. rewrite H1. apply wp_step. rewrite <- H1. apply wp_configure_mac; [done|].
  rewrite H1. intros s2 S2 R2.
  apply wp_step, wp_configure_dma; [by eapply steady_ready|]. intros s3 S3 R3.
  pose proof (steady_trans _ _ _ _ _ S2 S3) as S23.
  eapply wp_step, (wp_cfg_interrupts h (reg_of s) s1); [done|done|done| |].
  { intros x. rewrite R3. unfold dma_defaults. rewrite !R2. unfold mac_defaults. by rewrite !R1. }
  intros s4 S4 R4. rewrite Mh. eapply wp_mac_address; [done..|]. intros s5 S5 M5 R5.
  destruct S5 as [A1 A2 A3 A4]. unfold mii_in, idle, now in *. rewrite D1 in *. apply HQ.
  - done.
  - congruence.
  - unfold config_time, mac_time, dma_time in *. lia.
  - congruence.
  - split; [done|]. intros x Hx Hy. by rewrite R5, R4.
Qed.

(** ETH_MACDMAConfig brings MAC and DMA into the default configuration: the control,
    filter, hash, flow-control and VLAN registers and the mode and bus registers of the DMA
    get their documented values (with speed, duplex mode and checksum offload from the
    handle, 100 Mbit/s full duplex when the PHY failed), receive interrupts are enabled in
    interrupt mode, the address registers hold the six bytes of the handle's address, and
    every other register of the controller keeps its value. *)
Theorem ETH_MACDMAConfig_configures err mac s :
  let h := link_after err (heth (glb s)) in
  ready s -> MACAddr (eth_Init (heth (glb s))) = Some mac -> length mac = 6%nat -> Forall byte mac ->
  wp (ETH_MACDMAConfig err) s (fun _ s' =>
    mac_address (reg_of s' 0x40) (reg_of s' 0x44) = mac /\
    (forall x, x <> 0x40 -> x <> 0x44 -> reg_of s' x = config_defaults (reg_of s) (eth_Init h) x) /\
    heth (glb s') = h).
Proof.
  intros h Hr Hmac Hlen Hb. apply (wp_MACDMAConfig err mac); [done..|]. intros s' _ _ _ G [C1 C2].
  split; [done|]. split; [done|]. by rewrite G.
Qed.
End config.

(** The configuration on the simulated board. *)
Lemma ETH_MACDMAConfig_configures_witness :
  wp (ETH_MACDMAConfig ETH_ERROR) (board_start board_init HAL_ETH_STATE_READY) (fun _ s' =>
    mac_address (reg_of s' 0x40) (reg_of s' 0x44) = board_mac /\
    reg_of s' MACCR = 0xCE00 /\ reg_of s' DMAIER = 0x18040).
Proof.
  eapply wp_mono; [apply (ETH_MACDMAConfig_configures (D := eth_board_dev) ETH_ERROR board_mac);
    [done|done|done|repeat apply Forall_cons_2; unfold byte; try lia; by apply Forall_nil_2]|].
  intros u s' (Hm & Hr & _). split; [done|]. rewrite !Hr by done. by vm_compute.
Defined.
