(* ===== verification/EthInit.v ===== *)
(** Bringing the controller up, HAL_ETH_Init of src/stm32f7xx_hal_eth.c on a device of
    [EthDev], an idealised one whose reset and management operations end: it configures the
    controller, and negotiates speed and duplex mode with the PHY when the PHY reports a link in
    time.  Devices on which they need not end are in EthStart. *)
From S2P Require Import Prelude Machine SysArch FlashHal Cortex Gpio Clock EthHal EthDev EthConfig.

#[local] Open Scope fw_scope.

(** * Programs that stay outside the controller *)

Section quiet.
Context {B : Bus} {N : Narrow B} {P : Phy} {D : EthDev B N P}.

(** [p] returns after at most [n] accesses, none of them in the controller. *)
Definition quiet (n : Z) {A} (p : M (mach eth_glob) A) : Prop :=
  0 <= n /\ forall s, wp p s (fun _ s' => calm (n * eth_step) s s').

Lemma quiet_within {A} n m (p : M _ A) : quiet n p -> n <= m -> quiet m p.
Proof.
  intros [Hn Hp] Hm. pose proof eth_fast as (_ & Hs & _). split; [lia|]. intros s.
  eapply wp_mono; [apply Hp|]. intros a s' C. apply (calm_le _ _ _ _ C). nia.
Qed.

Lemma quiet_ret {A} (a : A) : quiet 0 (ret a).
Proof. split; [done|]. intros s. rewrite Z.mul_0_l. apply wp_ret, calm_refl. Qed.

Lemma quiet_bind {A C} n m (p : M _ A) (k : A -> M _ C) : quiet n p -> (forall a, quiet m (k a)) -> 0 <= m ->
  quiet (n + m) (bind p k).
Proof.
  intros [Hn Hp] Hk Hm. split; [lia|]. intros s. apply wp_step. eapply wp_mono; [apply Hp|]. intros a s1 C1.
  eapply wp_mono; [apply (Hk a)|]. intros c s2 C2. rewrite Z.mul_add_distr_r. apply (calm_trans _ _ _ _ _ C1 C2).
Qed.

Lemma quiet_if {A} (b : bool) n m (p q : M _ A) : quiet n p -> quiet m q -> quiet (Z.max n m) (if b then p else q).
Proof. intros Hp Hq. destruct b; [apply (quiet_within n)|apply (quiet_within m)]; (done || lia). Qed.

Lemma quiet_false {A} (b : bool) n (p q : M _ A) : b = false -> quiet n q -> quiet n (if b then p else q).
Proof. by intros ->. Qed.

Lemma quiet_true {A} (b : bool) n (p q : M _ A) : b = true -> quiet n p -> quiet n (if b then p else q).
Proof. by intros ->. Qed.

Definition outsideb (a : Z) : bool := (a <? ETH) || (ETH + 0x1400 <=? a).
Lemma outsideb_ok a : outsideb a = true -> outside a.
Proof. unfold outsideb, outside. lia. Qed.

Lemma quiet_rd a : outside a -> quiet 1 (rd a).
Proof. intros Ha. split; [done|]. intros s. rewrite Z.mul_1_l. by apply wp_other_rd. Qed.
Lemma quiet_wr a v : outside a -> quiet 1 (wr a v).
Proof. intros Ha. split; [done|]. intros s. rewrite Z.mul_1_l. by apply wp_other_wr. Qed.
Lemma quiet_wr8 a v : outside a -> quiet 1 (wr8 a v).
Proof.
  intros Ha. split; [done|]. intros s. rewrite Z.mul_1_l. unfold wr8, wp.
  destruct (other_wr8 a (u8 v) (dev s) Ha). by apply frame_calm.
Qed.
Lemma quiet_rmw a f : outside a -> quiet 2 (rmw a f).
Proof.
  intros Ha. unfold rmw. apply (quiet_bind 1 1); [by apply quiet_rd| |done]. intros v. by apply quiet_wr.
Qed.

Lemma quiet_for_each {A} n (l : list A) (body : A -> M _ unit) :
  0 <= n -> (forall x, x ∈ l -> quiet n (body x)) -> quiet (Z.of_nat (length l) * n) (for_each l body).
Proof.
  intros Hn. induction l as [|x l IH]; intros Hb; [apply quiet_ret|].
  cbn [for_each length]. apply (quiet_within (n + Z.of_nat (length l) * n)); [|lia].
  apply quiet_bind; [apply Hb; by left| |lia]. intros _. apply IH. intros y Hy. apply Hb. by right.
Qed.
End quiet.

(** Count the accesses of a straight-line program; [addr] shows that an address is outside. *)
Ltac quiet_prog addr :=
  lazymatch goal with
  | |- quiet _ (bind _ _) => eapply quiet_bind; [quiet_prog addr|intros; quiet_prog addr|]
  | |- quiet _ (ret _) => apply quiet_ret
  | |- quiet _ (rd _) => apply quiet_rd; addr
  | |- quiet _ (wr _ _) => apply quiet_wr; addr
  | |- quiet _ (wr8 _ _) => apply quiet_wr8; addr
  | |- quiet _ (rmw _ _) => apply quiet_rmw; addr
  | |- quiet _ (set_bits _ _) => apply quiet_rmw; addr
  | |- quiet _ (keep_bits _ _) => apply quiet_rmw; addr
  | |- quiet _ (if _ then _ else _) =>
      first [ apply quiet_false; [by vm_compute|quiet_prog addr]
            | apply quiet_true; [by vm_compute|quiet_prog addr]
            | apply quiet_if; quiet_prog addr ]
  end.

Ltac fixed_address := by apply outsideb_ok; vm_compute.

Section mspinit.
Context {B : Bus} {N : Narrow B} {P : Phy} {D : EthDev B N P}.

Lemma quiet_clk_enable b : quiet 3 (clk_enable b).
Proof. unfold clk_enable. eapply quiet_within; [quiet_prog fixed_address; lia|lia]. Qed.

Lemma quiet_syscfg : quiet 3 HAL_RCC_SYSCFG_CLK_ENABLE.
Proof. unfold HAL_RCC_SYSCFG_CLK_ENABLE. eapply quiet_within; [quiet_prog fixed_address; lia|lia]. Qed.

Lemma quiet_priority n p q : outside (priority_reg n) -> quiet 2 (HAL_NVIC_SetPriority n p q).
Proof.
  intros Hn. unfold HAL_NVIC_SetPriority, NVIC_GetPriorityGrouping, NVIC_SetPriority.
  eapply quiet_within; [quiet_prog ltac:(first [assumption|fixed_address]); lia|lia].
Qed.

(** The pins of the Ethernet function. *)
Definition eth_port (x : Z) : Prop := x = GPIOA \/ x = GPIOB \/ x = GPIOC \/ x = GPIOG.

Lemma quiet_init_pin x m q : eth_port x -> 0 <= q < 16 -> quiet 10 (init_pin x (eth_pin m) q).
Proof.
  intros Hx Hq. destruct (pin_position q Hq) as [Hi _]. unfold init_pin, put_field.
  eapply quiet_within; [quiet_prog ltac:(
    apply outsideb_ok; destruct Hx as [->|[->|[->| ->]]]; destruct Hi as [Hi|Hi]; rewrite ?Hi; by vm_compute)|]; lia.
Qed.

Lemma quiet_gpio x m : eth_port x -> quiet 160 (HAL_GPIO_Init x (eth_pin m)).
Proof.
  intros Hx. unfold HAL_GPIO_Init.
  apply (quiet_within (Z.of_nat (length (zrange 0 (Z.to_nat GPIO_NUMBER))) * 10)); [|by vm_compute].
  apply quiet_for_each; [done|]. intros q Hq.
  apply elem_of_zrange in Hq. apply (quiet_within (Z.max 10 0)); [|done].
  apply quiet_if; [by apply quiet_init_pin|apply quiet_ret].
Qed.
End mspinit.

Section init.
Context {B : Bus} {N : Narrow B} {P : Phy} {D : EthDev B N P}.
Implicit Types s : mach eth_glob.

Lemma wp_MspInit s (Q : unit -> mach eth_glob -> Prop) :
  eth_Instance (heth (glb s)) = ETH -> (forall s', calm (1000 * eth_step) s s' -> Q tt s') -> wp HAL_ETH_MspInit s Q.
Proof.
  intros Hi HQ. unfold HAL_ETH_MspInit. apply wp_step, wp_get_heth. rewrite Hi, Z.eqb_refl.
  eapply wp_mono with (Q := fun _ s' => calm (1000 * eth_step) s s'); [|by intros []; apply HQ].
  assert (eth_port GPIOA /\ eth_port GPIOB /\ eth_port GPIOC /\ eth_port GPIOG) as (Pa & Pb & Pc & Pg)
    by (unfold eth_port; intuition).
  refine (proj2 (quiet_within (9 + (160 + (160 + (160 + (160 + (2 + 1)))))) 1000 _ _ _) s); [|done].
  unfold HAL_RCC_ETH_CLK_ENABLE.
  apply quiet_bind; [|intros _|done].
  - eapply quiet_within; [eapply quiet_bind; [apply quiet_clk_enable|intros _; eapply quiet_bind; [apply quiet_clk_enable|intros _; apply quiet_clk_enable|done]|done]|done].
  - do 4 (apply quiet_bind; [by apply quiet_gpio|intros _|done]).
    apply quiet_bind; [apply quiet_priority; by fixed_address|intros _|done].
    apply quiet_wr. by fixed_address.
Qed.

Lemma time_facts : 0 < tick_len /\ 0 <= eth_step /\ 10 * eth_step <= op_time /\ op_time <= 2000 * tick_len.
Proof. pose proof eth_fast as (Hl & Hs & Hf). unfold op_time. split; [done|]. split; [done|]. split; nia. Qed.

(** ** The software reset *)
Lemma sr_bit v : any_bit v ETH_DMABMR_SR = Z.testbit v 0.
Proof. apply (any_bit_pow2 v 0). lia. Qed.

(** The controller is reset: what holds of registers and PHYs from [s] on. *)
Record reset_done n s s' : Prop := {
  rd_regs : forall x, plain x -> eth_regs (dev s') x = reset_value x;
  rd_phys : phys (mii_in s') = phys (mii_in s);
  rd_todo : mii_todo (mii_in s') = None;
  rd_idle : idle s';
  rd_time : now s <= now s' <= now s + n;
  rd_glb : glb s' = glb s;
}.

Lemma wp_swr_wait t0 : 0 <= t0 -> t0 + 5 * 0x1f4 * tick_len < 2 ^ 32 * tick_len -> forall n fuel s (Q : bool -> mach eth_glob -> Prop),
  swr_todo (dev s) = Some n -> eth_Instance (heth (glb s)) = ETH -> t0 <= now s ->
  now s + 2 * eth_step * (Z.of_nat n + 1) <= t0 + 5 * 0x1f4 * tick_len -> (n + 1 <= fuel)%nat ->
  (forall s', eth_regs (dev s') = eth_regs (dev s) -> mii_in s' = mii_in s -> idle s' -> glb s' = glb s ->
     now s <= now s' <= now s + 2 * eth_step * (Z.of_nat n + 1) -> Q false s') ->
  wp (swr_wait fuel (t0 / (tick_len * 5))) s Q.
Proof.
  intros Ht0 Hwrap. pose proof time_facts as (Hl & Hs0 & _ & _).
  induction n as [|n IH]; intros fuel s Q Hn Hi Hlo Hhi Hf HQ; (destruct fuel as [|fuel]; [lia|]); cbn [swr_wait];
    unfold erd; apply wp_step, wp_step, wp_get_heth, wp_rd; rewrite Hi;
    destruct (eth_reset_poll (dev s) _ Hn) as (Hr & Hm & Hp & Hv & Hd); rewrite sr_bit, Hv.
  - apply wp_ret, HQ; [done..|]. unfold passes, now in *. cbn. lia.
  - apply wp_step, wp_tick; [unfold passes, now in *; cbn; lia|]. intros s1 [[A1 A2 A3 A4] A5]. unfold mii_in, now, passes in *. cbn [dev glb] in *.
    unfold ETH_TIMEOUT_SWRESET. rewrite elapsed_le by lia. apply IH; [congruence|by rewrite A4|unfold now; lia|unfold now; lia|lia|].
    intros s' H1 H2 H3 H4 H5. unfold now in *. apply HQ; [congruence..|lia].
Qed.

Lemma wp_soft_reset fuel {A} (k : bool -> M (mach eth_glob) A) s (Q : A -> mach eth_glob -> Prop) :
  eth_Instance (heth (glb s)) = ETH -> idle s -> (eth_limit + 2 <= fuel)%nat -> now s + 10000 * tick_len < 2 ^ 32 * tick_len ->
  (forall s', reset_done (2 * op_time) s s' -> wp (k false) s' Q) ->
  wp (eset DMABMR ETH_DMABMR_SR ;; tickstart <- HAL_GetTick ;; late <- swr_wait fuel tickstart ;; k late) s Q.
Proof.
  intros Hi Hs Hf Hw HQ. pose proof time_facts as (Hl & Hs0 & Ho & Hot). pose proof (eth_since (dev s)) as H0.
  unfold eset, ermw. apply wp_step, wp_step, wp_reg_get; [done|by vm_compute|done|]. intros s1 [[A1 A2 A3 A4] A5].
  unfold ewr. apply wp_step, wp_get_heth, wp_wr. rewrite A4, Hi.
  assert (Z.testbit (u32 (reg_of s DMABMR .| ETH_DMABMR_SR)) 0 = true) as Hb.
  { unfold ETH_DMABMR_SR. change 1 with (1 .<< 0). autorewrite with fw_bits. apply orb_true_r. }
  unfold idle in *. destruct (eth_reset _ (dev s1) Hb (eq_trans A2 Hs)) as (Hr & Hph & Htd & (n & Hn & Hsw) & Hp).
  unfold now, passes, mii_in in *.
  apply wp_step, wp_tick; [unfold now; cbn; lia|]. intros s2 [[B1 B2 B3 B4] B5]. unfold mii_in, now in *. cbn [dev glb] in *.
  assert (2 * eth_step * (Z.of_nat n + 1) <= op_time) by (unfold op_time; nia).
  apply wp_step, wp_swr_wait with (n := n); [lia|lia|congruence|by rewrite B4|unfold now; lia|unfold now; lia|lia|].
  intros s3 C1 C2 C3 C4 C5. apply HQ. unfold mii_in, now in *. split; unfold mii_in, now.
  - intros x Hx. rewrite C1, B5. by apply Hr.
  - congruence.
  - congruence.
  - done.
  - lia.
  - congruence.
Qed.

(** ** The clock of the management interface *)
Lemma mdc_bit0 c : Z.testbit (mdc_range c) 0 = false.
Proof.
  unfold mdc_range. repeat match goal with |- context [if ?b then _ else _] => destruct b; [done|] end. done.
Qed.

Lemma wp_mdc fuel {A} (k : M (mach eth_glob) A) s (Q : A -> mach eth_glob -> Prop) :
  mii_ready fuel s -> (forall s', calm (2 * eth_step) s s' -> wp k s' Q) ->
  wp (tempreg <- erd MACMIIAR ;; hclk <- call HAL_RCC_GetHCLKFreq ;;
      ewr MACMIIAR ((tempreg .& ETH_MACMIIAR_CR_MASK) .| mdc_range hclk) ;; k) s Q.
Proof.
  intros [Hi Ha Hs Hm Hf Hw] HQ. apply wp_step, wp_mii_status; [done..|]. rewrite Hm. intros v m s1 G1 [A1 A2 A3 A4] [Hv ->].
  apply wp_step. unfold call, HAL_RCC_GetHCLKFreq. apply wp_zoom. apply wp_step, wp_get, wp_ret. cbn [glb part eth_has_clk].
  apply wp_step, wp_mii_command; [by cbn; rewrite G1|done|unfold mii_in in *; cbn; congruence|].
  rewrite Z.lor_spec, Z.land_spec, Hv, mdc_bit0. cbn. intros m s2 G2 [B1 B2 B3 B4] ->. unfold mii_in, now in *. cbn [dev] in *.
  apply HQ. split; [|congruence]. split; unfold mii_in, now; [congruence|unfold idle in Hs; congruence|lia|].
  rewrite G2. by destruct (glb s1).
Qed.
End init.

(** * Waiting for the PHY *)

Section wait.
Context {B : Bus} {N : Narrow B} {P : Phy} {D : EthDev B N P} {E : EthProgress B N P D}.
Implicit Types s : mach eth_glob.
Implicit Types ph : phy.

(** The PHY after [k] reads of its status register, and what read [k] shows. *)
Fixpoint polled (a : Z) (k : nat) ph : phy :=
  match k with O => ph | S k' => polled a k' (snd (phy_read a PHY_BSR ph)) end.
Definition bsr (a : Z) (k : nat) ph : Z := u16 (fst (phy_read a PHY_BSR (polled a k ph))).
Definition shown (a status : Z) (k : nat) ph : bool := bsr a k ph .& status =? status.
Definition unseen (a status : Z) (k : nat) ph : Prop := forall j, (j < k)%nat -> shown a status j ph = false.

Lemma unseen_S a status k ph :
  shown a status 0 ph = false -> unseen a status k (snd (phy_read a PHY_BSR ph)) -> unseen a status (S k) ph.
Proof. intros H0 Hk [|j] Hj; [done|]. apply (Hk j). lia. Qed.

Definition round_time : Z := op_time + eth_step.

Lemma wp_tick_on s (Q : Z -> mach eth_glob -> Prop) :
  now s < 2 ^ 32 * tick_len ->
  (forall s', calm eth_step s s' -> now s < now s' -> Q (now s / (tick_len * 5)) s') -> wp HAL_GetTick s Q.
Proof.
  intros Hw HQ. assert (wp HAL_GetTick s (fun v s' => dev s' = snd (ktick (dev s)))) as Hd by done.
  pose proof (eth_progress (dev s)) as Hp.
  assert (wp HAL_GetTick s (fun v s' => calm eth_step s s' /\ v = now s / (tick_len * 5))) as Hc by by apply wp_tick.
  unfold wp in *. destruct (HAL_GetTick s) as [v s'| | |]; try done. destruct Hc as [Hc ->]. apply HQ; [done|].
  unfold now. by rewrite Hd.
Qed.

Lemma to_nat_sub_lt d x y : x < y -> x < d -> (Z.to_nat (d - y) < Z.to_nat (d - x))%nat.
Proof. lia. Qed.

(** How a wait ends: the status was seen at read [k], or time ran out. *)
Record waited (a status limit t0 : Z) (k : nat) (r : option Z) s s' : Prop := {
  wt_unseen : unseen a status k (phys (mii_in s));
  wt_phys : phys (mii_in s') = polled a (S k) (phys (mii_in s));
  wt_result : match r with
              | Some v => v = bsr a k (phys (mii_in s)) /\ shown a status k (phys (mii_in s)) = true
              | None => t0 + 5 * limit * tick_len < now s'
              end;
  wt_time : now s <= now s' <= now s + (Z.of_nat k + 1) * round_time;
  wt_bound : now s' <= t0 + 5 * (limit + 1) * tick_len + 2 * round_time;
  wt_todo : mii_todo (mii_in s') = None;
  wt_regs : eth_regs (dev s') = eth_regs (dev s);
  wt_idle : idle s';
  wt_glb : glb s' = upd_heth (set_State HAL_ETH_STATE_READY) (glb s);
}.

(** One read of the status register. *)
Lemma wp_phy_poll fuel s (Q : Z * option Z -> mach eth_glob -> Prop) :
  let a := PhyAddress (eth_Init (heth (glb s))) in
  mii_ready fuel s -> eth_State (heth (glb s)) <> HAL_ETH_STATE_BUSY_RD ->
  (forall s', moved op_time (Mii P (polled a 1 (phys (mii_in s))) None (fst (phy_read a PHY_BSR (phys (mii_in s))))) s s' ->
     glb s' = upd_heth (set_State HAL_ETH_STATE_READY) (glb s) -> Q (HAL_OK, Some (bsr a 0 (phys (mii_in s)))) s') ->
  wp (HAL_ETH_ReadPHYRegister fuel PHY_BSR) s Q.
Proof. intros a Hr Hst HQ. by apply wp_ReadPHY. Qed.

Lemma wp_phy_wait a status limit t0 : 0 <= t0 -> 0 <= limit -> t0 + 5 * (limit + 1) * tick_len + 600000 * tick_len < 2 ^ 32 * tick_len ->
  forall rounds fuel phyreg s (Q : option Z -> mach eth_glob -> Prop),
  mii_ready fuel s -> eth_State (heth (glb s)) <> HAL_ETH_STATE_BUSY_RD -> PhyAddress (eth_Init (heth (glb s))) = a ->
  t0 <= now s <= t0 + 5 * (limit + 1) * tick_len + eth_step ->
  (Z.to_nat (t0 + 5 * (limit + 1) * tick_len - now s) + 1 <= rounds)%nat ->
  (forall k r s', waited a status limit t0 k r s s' -> Q r s') ->
  wp (phy_wait rounds fuel status limit (t0 / (tick_len * 5)) phyreg) s Q.
Proof.
  intros Ht0 Hlim Hwrap. pose proof time_facts as (Hl & Hs0 & Ho & Hot).
  induction rounds as [|rounds IH]; intros fuel phyreg s Q Hr Hst Ha Hin Hrounds HQ; [lia|]. cbn [phy_wait].
  apply wp_step, wp_phy_poll; [done..|]. rewrite Ha. intros s1 [A1 A2 A3 A4] G1. cbn [snd].
  apply wp_step, wp_tick_on; [lia|]. intros s2 C2 Hon. pose proof (calm_moved _ _ _ A3 C2) as [B1 B2 B3 B4].
  destruct C2 as [[_ _ _ G2] _].
  assert (glb s2 = upd_heth (set_State HAL_ETH_STATE_READY) (glb s)) as G by congruence.
  assert (phys (mii_in s2) = polled a 1 (phys (mii_in s))) as Hph by by rewrite B1, A1.
  assert (mii_todo (mii_in s2) = None) as Htd by by rewrite B1, A1.
  destruct (Z.ltb_spec limit (u32 (now s1 / (tick_len * 5) - t0 / (tick_len * 5)))) as [Hlt|Hge].
  - apply wp_ret, (HQ 0%nat). split; try done.
    + intros j Hj. lia.
    + destruct (Z.le_gt_cases (now s1) (t0 + 5 * limit * tick_len)); [|lia].
      assert ((limit <? u32 (now s1 / (tick_len * 5) - t0 / (tick_len * 5))) = false) by (apply elapsed_le; lia). lia.
    + unfold round_time. lia.
    + unfold round_time. lia.
    + congruence.
  - destruct (bsr a 0 (phys (mii_in s)) .& status =? status) eqn:Hsee; cbn [negb].
    + apply wp_ret, (HQ 0%nat). split; try done; [intros j Hj; lia|unfold round_time; lia|unfold round_time; lia|congruence].
    + assert (now s1 < t0 + 5 * (limit + 1) * tick_len).
      { apply Z.nle_gt. intros Hle.
        assert ((limit <? u32 (now s1 / (tick_len * 5) - t0 / (tick_len * 5))) = true) by (apply elapsed_gt; lia). lia. }
      assert (Z.to_nat (t0 + 5 * (limit + 1) * tick_len - now s2) < Z.to_nat (t0 + 5 * (limit + 1) * tick_len - now s))%nat
        by (apply to_nat_sub_lt; lia).
      apply IH; [|by rewrite G|by rewrite G|lia|lia|].
      { destruct Hr as [R1 R2 R3 R4 R5 R6]. split; [by rewrite G|by rewrite G|done|done|done|lia]. }
      intros k r s' [W1 W2 W3 W4 W5 W6 W7 W8 W9]. rewrite Hph in *. apply (HQ (S k)). split; try done.
      * by apply unseen_S.
      * unfold round_time in *. lia.
      * congruence.
      * by rewrite W9, G.
Qed.

(** * Negotiation *)

(** Read [k] of a status that has not been seen ends after the wait's five seconds. *)
Definition late (k : nat) : Prop := 5 * 0x1388 * tick_len < (Z.of_nat k + 1) * round_time + eth_step.
Definition seen (a status : Z) (k : nat) ph : Prop := unseen a status k ph /\ shown a status k ph = true.

Definition speed_of (sr : Z) : Z := if sr .& PHY_SPEED_STATUS =? PHY_SPEED_STATUS then ETH_SPEED_10M else ETH_SPEED_100M.
Definition duplex_of (sr : Z) : Z := if any_bit sr PHY_DUPLEX_STATUS then ETH_MODE_FULLDUPLEX else ETH_MODE_HALFDUPLEX.
(** The PHY after a link was seen at read [k] and negotiation was started. *)
Definition started (a : Z) (k : nat) ph : phy := phy_write a PHY_BCR (u16 PHY_AUTONEGOTIATION) (polled a (S k) ph).
Definition result_read (a : Z) (k k' : nat) ph : Z * phy := phy_read a PHY_SR (polled a (S k') (started a k ph)).

(** Result, speed, duplex mode, and the PHY at the end. *)
Inductive negotiation (a : Z) ph : Z -> Z -> Z -> phy -> Prop :=
| no_link k : unseen a PHY_LINKED_STATUS k ph -> late k ->
    negotiation a ph HAL_TIMEOUT ETH_SPEED_100M ETH_MODE_FULLDUPLEX (polled a (S k) ph)
| no_agreement k k' : seen a PHY_LINKED_STATUS k ph -> unseen a PHY_AUTONEGO_COMPLETE k' (started a k ph) -> late k' ->
    negotiation a ph HAL_TIMEOUT ETH_SPEED_100M ETH_MODE_FULLDUPLEX (polled a (S k') (started a k ph))
| agreed k k' : seen a PHY_LINKED_STATUS k ph -> seen a PHY_AUTONEGO_COMPLETE k' (started a k ph) ->
    let sr := u16 (fst (result_read a k k' ph)) in
    negotiation a ph HAL_OK (speed_of sr) (duplex_of sr) (snd (result_read a k k' ph)).

Definition wait_fuel : nat := Z.to_nat (25005 * tick_len) + eth_limit + 3.

(** What holds before the negotiation. *)
Record negotiable (mac : list Z) fuel s : Prop := {
  ng_ready : mii_ready fuel s;
  ng_state : eth_State (heth (glb s)) = HAL_ETH_STATE_READY;
  ng_lock : eth_Lock (heth (glb s)) = false;
  ng_mac : MACAddr (eth_Init (heth (glb s))) = Some mac;
  ng_len : length mac = 6%nat;
  ng_bytes : Forall byte mac;
  ng_fuel : (wait_fuel <= fuel)%nat;
  ng_time : now s + 800000 * tick_len < 2 ^ 32 * tick_len;
}.

(** The handle with speed and duplex mode, ready and unlocked. *)
Definition linked speed duplex (h : ETH_HandleTypeDef) : ETH_HandleTypeDef :=
  set_eth_Lock false (set_State HAL_ETH_STATE_READY (set_link speed duplex h)).

(** The controller from [s] on, up with the handle of [s']. *)
Record brought_up (mac : list Z) speed duplex ph' s s' : Prop := {
  bu_config : configured (heth (glb s')) mac (reg_of s) s';
  bu_phys : phys (mii_in s') = ph';
  bu_glb : glb s' = upd_heth (linked speed duplex) (glb s);
}.

Lemma mii_ready_same fuel s s' :
  mii_ready fuel s -> eth_Init (heth (glb s')) = eth_Init (heth (glb s)) -> eth_Instance (heth (glb s')) = eth_Instance (heth (glb s)) ->
  idle s' -> mii_todo (mii_in s') = None -> now s' + 500000 * tick_len < 2 ^ 32 * tick_len -> mii_ready fuel s'.
Proof. intros [H1 H2 H3 H4 H5 H6] Hi He Hd Ht Hn. split; [by rewrite He|by rewrite Hi|done..]. Qed.

Lemma wp_wait_from_now a status fuel phyreg {A} (k : option Z -> M (mach eth_glob) A) s (Q : A -> mach eth_glob -> Prop) :
  mii_ready fuel s -> eth_State (heth (glb s)) = HAL_ETH_STATE_READY -> PhyAddress (eth_Init (heth (glb s))) = a ->
  (wait_fuel <= fuel)%nat -> now s + 700000 * tick_len < 2 ^ 32 * tick_len ->
  (forall j r s', unseen a status j (phys (mii_in s)) ->
     match r with
     | Some v => v = bsr a j (phys (mii_in s)) /\ shown a status j (phys (mii_in s)) = true
     | None => late j
     end ->
     phys (mii_in s') = polled a (S j) (phys (mii_in s)) -> mii_todo (mii_in s') = None -> idle s' ->
     eth_regs (dev s') = eth_regs (dev s) -> glb s' = glb s -> now s <= now s' <= now s + 32000 * tick_len ->
     wp (k r) s' Q) ->
  wp (tickstart <- HAL_GetTick ;; linked <- phy_wait fuel fuel status 0x1388 tickstart phyreg ;; k linked) s Q.
Proof.
  intros Hr Hst Ha Hf Hw HQ. pose proof time_facts as (Hl & Hs0 & Ho & Hot). pose proof (eth_since (dev s)) as H0.
  unfold wait_fuel in Hf. apply wp_step, wp_tick; [unfold now in *; lia|]. intros s1 C1.
  pose proof (calm_moved _ _ _ (mr_idle _ _ Hr) C1) as [B1 B2 B3 B4]. destruct C1 as [[_ _ _ G1] _].
  apply wp_step, (wp_phy_wait a status 0x1388 (now s)); [done|done|lia| |by rewrite G1, Hst|by rewrite G1|lia|lia|].
  { apply (mii_ready_same fuel s); [done|by rewrite G1|by rewrite G1|done| |lia]. rewrite B1. by destruct Hr. }
  intros j r s' [W1 W2 W3 W4 W5 W6 W7 W8 W9]. rewrite B1 in *. apply (HQ j r); try done.
  - destruct r; [done|]. unfold late. lia.
  - congruence.
  - rewrite W9, G1. destruct (glb s) as [[] ? ?]. cbn in *. by rewrite Hst.
  - unfold round_time in *. lia.
Qed.

(** The configuration at the end, with or without an error. *)
Lemma link_after_same err h : eth_Instance (link_after err h) = eth_Instance h /\
  MACAddr (eth_Init (link_after err h)) = MACAddr (eth_Init h).
Proof. unfold link_after. by destruct (err =? ETH_SUCCESS). Qed.

Lemma wp_finish err speed duplex mac s0 s {A} (k : M (mach eth_glob) A) (Q : A -> mach eth_glob -> Prop) :
  eth_Instance (heth (glb s0)) = ETH -> MACAddr (eth_Init (heth (glb s0))) = Some mac ->
  length mac = 6%nat -> Forall byte mac ->
  idle s -> eth_regs (dev s) = eth_regs (dev s0) ->
  upd_heth (link_after err) (glb s) = upd_heth (set_link speed duplex) (glb s0) ->
  (forall s', phys (mii_in s') = phys (mii_in s) -> configured (set_link speed duplex (heth (glb s0))) mac (reg_of s0) s' ->
     glb s' = upd_heth (set_link speed duplex) (glb s0) -> wp k s' Q) ->
  wp (ETH_MACDMAConfig err ;; k) s Q.
Proof.
  intros Hi Hmac Hlen Hb Hs Hregs Hlink HQ. assert (link_after err (heth (glb s)) = set_link speed duplex (heth (glb s0))) as Hh
    by exact (f_equal heth Hlink).
  destruct (link_after_same err (heth (glb s))) as [Ei Em]. rewrite Hh in Ei, Em. cbn in Ei, Em.
  apply wp_step, (wp_MACDMAConfig err mac); [split; congruence|congruence|done|done|].
  intros s' M I T G C. apply HQ; [by rewrite M| |by rewrite G].
  rewrite Hh in C. destruct C as [C1 C2]. split; [done|]. intros x Hx Hy. rewrite C2 by done. unfold reg_of. by rewrite Hregs.
Qed.

(** From a phase of the negotiation to its end. *)
Lemma linked_handle speed duplex g : eth_Lock (heth g) = false ->
  upd_heth (set_State HAL_ETH_STATE_READY) (upd_heth (set_link speed duplex) g) = upd_heth (linked speed duplex) g.
Proof. intros Hl. unfold upd_heth, linked. destruct g as [[] ? ?]. cbn in *. by subst. Qed.

Lemma configured_same h h' mac old s s' : configured h mac old s -> eth_Init h' = eth_Init h -> dev s' = dev s -> configured h' mac old s'.
Proof. intros [C1 C2] Hi Hd. unfold configured, reg_of in *. rewrite Hd, Hi. by split. Qed.

Lemma wp_init_timeout mac fuel s0 s ph (Q : Z -> mach eth_glob -> Prop) :
  negotiable mac fuel s0 -> idle s -> eth_regs (dev s) = eth_regs (dev s0) -> glb s = glb s0 -> phys (mii_in s) = ph ->
  (forall s', brought_up mac ETH_SPEED_100M ETH_MODE_FULLDUPLEX ph s0 s' -> Q HAL_TIMEOUT s') -> wp init_timeout s Q.
Proof.
  intros [[Hi _ _ _ _ _] Hst Hlk Hm Hlen Hb _ _] Hs Hregs G Hph HQ. unfold init_timeout.
  apply (wp_finish ETH_ERROR ETH_SPEED_100M ETH_MODE_FULLDUPLEX mac s0); [done..|by rewrite G|].
  intros s1 M1 C1 G1. apply wp_step, wp_modify_h. intros s2 D2 G2. apply wp_step, wp_modify_h. intros s3 D3 G3.
  assert (glb s3 = upd_heth (linked ETH_SPEED_100M ETH_MODE_FULLDUPLEX) (glb s0)) as G0 by by rewrite G3, G2, G1.
  apply wp_ret, HQ. split; [|unfold mii_in in *; by rewrite D3, D2, M1|done].
  eapply configured_same; [done|by rewrite G0|by rewrite D3].
Qed.

Lemma wp_init_done mac fuel s0 s speed duplex ph (Q : Z -> mach eth_glob -> Prop) :
  negotiable mac fuel s0 -> idle s -> eth_regs (dev s) = eth_regs (dev s0) ->
  glb s = upd_heth (set_link speed duplex) (glb s0) -> phys (mii_in s) = ph ->
  (forall s', brought_up mac speed duplex ph s0 s' -> Q HAL_OK s') -> wp init_done s Q.
Proof.
  intros [[Hi _ _ _ _ _] Hst Hlk Hm Hlen Hb _ _] Hs Hregs G Hph HQ. unfold init_done.
  apply (wp_finish ETH_SUCCESS speed duplex mac s0); [done..|by rewrite G|].
  intros s1 M1 C1 G1. apply wp_step, wp_modify_h. intros s2 D2 G2.
  assert (glb s2 = upd_heth (linked speed duplex) (glb s0)) as G0 by (rewrite G2, G1; by apply linked_handle).
  apply wp_ret, HQ. split; [|unfold mii_in in *; by rewrite D2, M1|done].
  eapply configured_same; [done|by rewrite G0|by rewrite D2].
Qed.

Lemma wp_auto_negotiate mac fuel s (Q : Z -> mach eth_glob -> Prop) :
  let a := PhyAddress (eth_Init (heth (glb s))) in
  negotiable mac fuel s ->
  (forall r speed duplex ph s', negotiation a (phys (mii_in s)) r speed duplex ph -> brought_up mac speed duplex ph s s' -> Q r s') ->
  wp (auto_negotiate fuel) s Q.
Proof.
  intros a Hn HQ. destruct (Hn) as [Hr Hst Hlk Hm Hlen Hb Hf Hw]. pose proof time_facts as (Hl & Hs0 & Ho & Hot).
  unfold auto_negotiate. apply (wp_wait_from_now a); [done|done|done|done|lia|].
  intros k r s1 U1 V1 P1 T1 I1 R1 G1 N1. destruct r as [v|].
  2: { eapply wp_init_timeout; [done|done|done|done|done|]. intros s' Hb'. eapply HQ; [by apply no_link|done]. }
  destruct V1 as [-> V1].
  assert (mii_ready fuel s1) as Hr1 by (apply (mii_ready_same fuel s); [done|by rewrite G1|by rewrite G1|done|done|lia]).
  apply wp_step, wp_WritePHY; [done|by rewrite G1, Hst|done|]. rewrite G1. fold a. intros s2 [M1 M2 M3 M4] G2.
  assert (upd_heth (set_State HAL_ETH_STATE_READY) (glb s) = glb s) as Hsame.
  { destruct (glb s) as [[] ? ?]. cbn in *. by subst. }
  rewrite Hsame in G2. rewrite Z.eqb_refl. cbn [negb].
  assert (mii_ready fuel s2) as Hr2
    by (apply (mii_ready_same fuel s); [done|by rewrite G2|by rewrite G2|done|by rewrite M1|lia]).
  assert (phys (mii_in s2) = started a k (phys (mii_in s))) as P2 by (rewrite M1; cbn; by rewrite P1).
  apply (wp_wait_from_now a); [done|by rewrite G2|by rewrite G2|done|lia|]. rewrite P2.
  intros k' r s3 U3 V3 P3 T3 I3 R3 G3 N3. rewrite G2 in G3. destruct r as [v|].
  2: { eapply wp_init_timeout; [done|done|congruence|done|done|]. intros s' Hb'.
       eapply HQ; [by apply no_agreement|done]. }
  destruct V3 as [-> V3].
  assert (mii_ready fuel s3) as Hr3 by (apply (mii_ready_same fuel s); [done|by rewrite G3|by rewrite G3|done|done|lia]).
  apply wp_step, wp_ReadPHY; [done|by rewrite G3, Hst|done|]. rewrite G3, P3, Hsame. fold a (result_read a k k' (phys (mii_in s))).
  intros s4 [X1 X2 X3 X4] G4. cbn [fst snd]. rewrite Z.eqb_refl. cbn [negb].
  apply wp_step, wp_modify_h. intros s5 D5 G5. rewrite G4 in G5.
  eapply (wp_init_done mac fuel s); [done|unfold idle; by rewrite D5|rewrite D5; congruence|done|unfold mii_in in *; by rewrite D5, X1|].
  intros s' Hb'. eapply HQ; [by apply agreed|done].
Qed.

(** * HAL_ETH_Init *)

(** The handle as the network interface fills it in, before the first initialisation. *)
Record initial (mac : list Z) fuel s : Prop := {
  in_instance : eth_Instance (heth (glb s)) = ETH;
  in_state : eth_State (heth (glb s)) = HAL_ETH_STATE_RESET;
  in_auto : AutoNegotiation (eth_Init (heth (glb s))) <> ETH_AUTONEGOTIATION_DISABLE;
  in_phy : 0 <= PhyAddress (eth_Init (heth (glb s))) < 32;
  in_mac : MACAddr (eth_Init (heth (glb s))) = Some mac;
  in_len : length mac = 6%nat;
  in_bytes : Forall byte mac;
  in_idle : idle s;
  in_fuel : (wait_fuel <= fuel)%nat;
  in_time : now s < 2 ^ 31 * tick_len;
}.

(** The registers of a controller that was reset and then configured. *)
Definition reset_configured (i : ETH_InitTypeDef) (mac : list Z) s : Prop :=
  mac_address (reg_of s 0x40) (reg_of s 0x44) = mac /\
  forall x, plain x -> x <> 0x40 -> x <> 0x44 -> reg_of s x = config_defaults (fun y => u32 (reset_value y)) i x.

Lemma config_defaults_ext old old' i x :
  (forall y, plain y -> old y = old' y) -> plain x -> config_defaults old i x = config_defaults old' i x.
Proof.
  intros Ho Hx. unfold config_defaults, dma_defaults, mac_defaults. cbn.
  rewrite (Ho DMAIER), (Ho DMAOMR), (Ho MACCR), (Ho MACFCR), (Ho x) by (done || by vm_compute). done.
Qed.

(** The pins, the clocks and the choice of the interface are set outside the controller. *)
Lemma wp_board media {A} (k : M (mach eth_glob) A) s (Q : A -> mach eth_glob -> Prop) :
  eth_Instance (heth (glb s)) = ETH -> (forall s', calm (1100 * eth_step) s s' -> wp k s' Q) ->
  wp (HAL_ETH_MspInit ;; HAL_RCC_SYSCFG_CLK_ENABLE ;; keep_bits SYSCFG_PMC (not32 SYSCFG_PMC_MII_RMII_SEL) ;;
      set_bits SYSCFG_PMC media ;; k) s Q.
Proof.
  intros Hi HQ. pose proof time_facts as (_ & Hs0 & _). apply wp_step, wp_MspInit; [done|]. intros s2 C2.
  apply wp_step. eapply wp_mono; [apply (proj2 quiet_syscfg)|]. intros [] s3 C3.
  apply wp_step. eapply wp_mono; [apply (proj2 (quiet_rmw SYSCFG_PMC _ ltac:(by fixed_address)))|]. intros [] s4 C4.
  apply wp_step. eapply wp_mono; [apply (proj2 (quiet_rmw SYSCFG_PMC _ ltac:(by fixed_address)))|]. intros [] s5 C5.
  apply HQ. pose proof (calm_trans _ _ _ _ _ (calm_trans _ _ _ _ _ C2 C3) (calm_trans _ _ _ _ _ C4 C5)) as C.
  apply (calm_le _ _ _ _ C). lia.
Qed.

Lemma wp_HAL_ETH_Init mac fuel s (Q : Z -> mach eth_glob -> Prop) :
  let a := PhyAddress (eth_Init (heth (glb s))) in
  initial mac fuel s ->
  (forall r speed duplex ph s',
     negotiation a (phy_write a PHY_BCR (u16 PHY_RESET) (phys (mii_in s))) r speed duplex ph ->
     reset_configured (eth_Init (heth (glb s'))) mac s' -> phys (mii_in s') = ph ->
     glb s' = upd_heth (linked speed duplex) (glb s) -> Q r s') ->
  wp (HAL_ETH_Init fuel false) s Q.
Proof.
  intros a [Hi Hst Hauto Ha Hmac Hlen Hb Hs Hf Hw] HQ. pose proof time_facts as (Hl & Hs0 & Ho & Hot).
  unfold HAL_ETH_Init. apply wp_step, wp_get_heth. rewrite Hst, Z.eqb_refl.
  apply wp_assoc, wp_step, wp_modify_h. intros s1 D1 G1. apply wp_board; [by rewrite G1|]. intros s5 [[A1 A2 A3 A4] _]. unfold mii_in, now, idle in *. rewrite D1 in *.
  apply wp_soft_reset; [by rewrite A4, G1|unfold idle; congruence|unfold wait_fuel in Hf; lia|unfold now; lia|].
  intros s6 [R1 R2 R3 R4 R5 R6]. unfold mii_in, now in *. rewrite A4, G1 in R6.
  assert (mii_ready fuel s6) as Hr6.
  { split; [by rewrite R6|by rewrite R6|done|done|unfold wait_fuel in Hf; lia|unfold now; lia]. }
  apply wp_mdc with (fuel := fuel); [done|]. intros s7 [[B1 B2 B3 B4] B5]. unfold mii_in, now in *. rewrite R6 in B4.
  assert (mii_ready fuel s7) as Hr7.
  { apply (mii_ready_same fuel s6); [done|by rewrite B4, R6|by rewrite B4, R6|unfold idle; congruence|unfold mii_in; congruence|unfold now; lia]. }
  apply wp_step, wp_WritePHY; [done|by rewrite B4; cbn; rewrite Hst|done|]. intros s8 [M1 M2 M3 M4] G8.
  cbn [negb]. rewrite Z.eqb_refl. cbn [negb]. rewrite B4 in G8. unfold now in M4.
  apply wp_step, wp_delay_ms; [done|done|]. intros s9 [[E1 E2 E3 E4] E5]. unfold mii_in, now, PHY_RESET_DELAY in *.
  apply wp_step, wp_get_heth. rewrite E4, G8. cbn [heth upd_heth set_State set_eth_Lock eth_Init].
  destruct (Z.eqb_spec (AutoNegotiation (eth_Init (heth (glb s)))) ETH_AUTONEGOTIATION_DISABLE); [done|]. cbn [negb].
  assert (phys (mii_in s9) = phy_write a PHY_BCR (u16 PHY_RESET) (phys (mii_of (dev s)))) as Hph.
  { unfold mii_in. rewrite E1, M1, B4, B1, R2, A1. done. }
  assert (negotiable mac fuel s9) as Hn9.
  { split; [|by rewrite E4, G8|by rewrite E4, G8|by rewrite E4, G8|done|done|done|unfold now; lia].
    apply (mii_ready_same fuel s7); [done|by rewrite E4, G8, B4|by rewrite E4, G8, B4|unfold idle; congruence| |unfold now; lia].
    unfold mii_in. by rewrite E1, M1. }
  apply (wp_auto_negotiate mac); [done|]. rewrite Hph, E4, G8. intros r speed duplex ph s' Hneg [U1 U2 U3].
  apply (HQ r speed duplex ph); [done| |done|].
  - destruct U1 as [U4 U5]. split; [done|]. intros x Hx Hx1 Hx2. rewrite U5 by done. apply config_defaults_ext; [|done].
    intros y Hy. unfold reg_of. by rewrite E5, M2, B5, R1.
  - rewrite U3, E4, G8. done.
Qed.

(** HAL_ETH_Init, on a fresh handle with auto-negotiation and a controller of [EthDev], whose reset and
    operations of the management interface end: whatever the PHY shows, it answers HAL_OK or HAL_TIMEOUT,
    with the handle ready and unlocked and every register of the reset controller at the default
    configuration for the handle's speed and duplex mode; after HAL_TIMEOUT these are 100 Mbit/s and
    full duplex.  What it does when the reset or such an operation does not end is in EthStart. *)
Theorem HAL_ETH_Init_configures mac fuel s :
  initial mac fuel s ->
  wp (HAL_ETH_Init fuel false) s (fun r s' =>
    let h := heth (glb s') in
    (r = HAL_OK \/ r = HAL_TIMEOUT /\ eth_Speed (eth_Init h) = ETH_SPEED_100M /\ DuplexMode (eth_Init h) = ETH_MODE_FULLDUPLEX) /\
    eth_State h = HAL_ETH_STATE_READY /\ eth_Lock h = false /\ reset_configured (eth_Init h) mac s').
Proof.
  intros Hin. apply (wp_HAL_ETH_Init mac); [done|]. intros r speed duplex ph s' Hneg Hc _ G. cbn zeta. split.
  - rewrite G. inversion Hneg; subst; by auto.
  - split; [by rewrite G|]. split; [by rewrite G|done].
Qed.

(** A status that is seen is seen at one read only. *)
Lemma seen_unseen a status k k' ph : seen a status k ph -> unseen a status k' ph -> (k' <= k)%nat.
Proof. intros [_ Hk] Hu. destruct (Nat.le_gt_cases k' k); [done|]. by rewrite (Hu k) in Hk. Qed.
Lemma seen_inj a status k k' ph : seen a status k ph -> seen a status k' ph -> k = k'.
Proof.
  intros H H'. pose proof (seen_unseen a status k k' ph H (proj1 H')). pose proof (seen_unseen a status k' k ph H' (proj1 H)). lia.
Qed.
Lemma late_le k k' : (k <= k')%nat -> late k -> late k'.
Proof. unfold late, round_time. pose proof time_facts as (_ & Hs & Ho & _). nia. Qed.

(** HAL_ETH_Init, when the reset PHY shows a link, and then the end of the negotiation it
    was asked for, within five seconds of polling each, returns HAL_OK with speed and duplex
    mode as the PHY reports them; the PHY has seen exactly the reset, the polls, the request
    and the reading of the result. *)
Theorem HAL_ETH_Init_negotiates mac fuel k k' s :
  let a := PhyAddress (eth_Init (heth (glb s))) in
  let ph := phy_write a PHY_BCR (u16 PHY_RESET) (phys (mii_in s)) in
  initial mac fuel s ->
  seen a PHY_LINKED_STATUS k ph -> ~ late k -> seen a PHY_AUTONEGO_COMPLETE k' (started a k ph) -> ~ late k' ->
  wp (HAL_ETH_Init fuel false) s (fun r s' =>
    let sr := u16 (fst (result_read a k k' ph)) in
    r = HAL_OK /\ heth (glb s') = linked (speed_of sr) (duplex_of sr) (heth (glb s)) /\
    phys (mii_in s') = snd (result_read a k k' ph)).
Proof.
  intros a ph Hin H1 L1 H2 L2. apply (wp_HAL_ETH_Init mac); [done|]. fold a ph.
  intros r speed duplex ph' s' Hneg Hc Hph G. cbn zeta. rewrite Hph, G. inversion Hneg as [j U L|j j' S1 U L|j j' S1 S2]; subst.
  - destruct L1. eapply late_le; [|done]. by eapply seen_unseen.
  - assert (j = k) as -> by by eapply seen_inj. destruct L2. eapply late_le; [|done]. by eapply seen_unseen.
  - assert (j = k) as -> by by eapply seen_inj. by assert (j' = k') as -> by by eapply seen_inj.
Qed.
End wait.

(** * The simulated board *)

Definition board_fresh : mach eth_glob := board_start board_init HAL_ETH_STATE_RESET.

Lemma board_initial fuel : (Z.to_nat 30000 <= fuel)%nat -> initial (D := eth_board_dev) board_mac fuel board_fresh.
Proof.
  intros Hf. split; try done.
  - repeat apply Forall_cons_2; unfold byte; try lia. by apply Forall_nil_2.
  - unfold wait_fuel. cbn [tick_len eth_limit eth_board_dev]. lia.
Qed.

Lemma HAL_ETH_Init_configures_witness :
  wp (HAL_ETH_Init (Z.to_nat 30000) false) board_fresh (fun r s' => r = HAL_OK \/ r = HAL_TIMEOUT).
Proof.
  eapply wp_mono; [apply (HAL_ETH_Init_configures (D := eth_board_dev) board_mac); apply board_initial; lia|].
  intros r s' ([->|[-> _]] & _); by auto.
Defined.

(** The link appears at the third poll, the negotiation ends at the second one. *)
Lemma HAL_ETH_Init_negotiates_witness :
  wp (HAL_ETH_Init (Z.to_nat 30000) false) board_fresh (fun r s' =>
    r = HAL_OK /\ eth_Speed (eth_Init (heth (glb s'))) = ETH_SPEED_10M /\
    DuplexMode (eth_Init (heth (glb s'))) = ETH_MODE_HALFDUPLEX).
Proof.
  eapply wp_mono; [apply (HAL_ETH_Init_negotiates (D := eth_board_dev) board_mac _ 2 1);
    [apply board_initial; lia|split; [|done]| |split; [|done]|]|].
  - intros [|[|j]] Hj; [done|done|lia].
  - unfold late, round_time, op_time. cbn [tick_len eth_step eth_limit eth_board_dev]. lia.
  - intros [|j] Hj; [done|lia].
  - unfold late, round_time, op_time. cbn [tick_len eth_step eth_limit eth_board_dev]. lia.
  - intros r s' (-> & -> & _). by vm_compute.
Defined.
