(* ===== verification/EthStart.v ===== *)
(** HAL_ETH_Init of src/stm32f7xx_hal_eth.c on any device whose clock goes forward: what is in the
    registers is arbitrary, the software reset and the operations of the management interface may
    never end.  It always returns, and the handle it leaves depends on what was waited for in vain. *)
From S2P Require Import Prelude Machine SysArch FlashHal Cortex Gpio Clock EthHal EthDev EthConfig.

#[local] Open Scope fw_scope.

(** [clk] is the time in units of the device, [clk_tick] of which are a tick of the kernel.  Reading
    the counter takes time; an access to a register takes at most [clk_step].  Nothing is
    said of the values that are read. *)
Class EthClock (B : Bus) (N : Narrow B) := {
  clk : hw -> Z;
  clk_tick : Z;
  clk_step : Z;
  clk_units : 0 < clk_tick /\ 0 <= clk_step <= clk_tick;
  clk_value h : u32 (fst (ktick h)) = u32 (clk h / clk_tick);
  clk_ktick h : clk h < clk (snd (ktick h)) <= clk h + clk_step;
  clk_rd a h : clk h <= clk (snd (mmio_rd a h)) <= clk h + clk_step;
  clk_wr a v h : clk h <= clk (mmio_wr a v h) <= clk h + clk_step;
  clk_wr8 a v h : clk h <= clk (mmio_wr8 a v h);
  clk_delay n h : clk h <= clk (os_delay n h);
}.

(** * Programs that leave the globals alone *)

Section steady.
Context {B : Bus} {N : Narrow B} {C : EthClock B N}.
Implicit Types s : mach eth_glob.

Definition at_clk s : Z := clk (dev s).

(** [p] returns with the globals as they are. *)
Definition steady {A} (p : M (mach eth_glob) A) : Prop :=
  forall s, wp p s (fun _ s' => glb s' = glb s /\ at_clk s <= at_clk s').

Lemma steady_ret {A} (a : A) : steady (ret a).
Proof. intros s. by apply wp_ret. Qed.

Lemma steady_bind {A D} (p : M _ A) (k : A -> M _ D) : steady p -> (forall a, steady (k a)) -> steady (bind p k).
Proof.
  intros Hp Hk s. apply wp_step. eapply wp_mono; [apply Hp|]. intros a s1 [G1 T1].
  eapply wp_mono; [apply (Hk a)|]. intros d s2 [G2 T2]. split; [congruence|lia].
Qed.

Lemma steady_if {A} (b : bool) (p q : M _ A) : steady p -> steady q -> steady (if b then p else q).
Proof. by destruct b. Qed.

Lemma steady_rd a : steady (rd a).
Proof. intros s. split; [done|apply clk_rd]. Qed.
Lemma steady_wr a v : steady (wr a v).
Proof. intros s. split; [done|apply clk_wr]. Qed.
Lemma steady_wr8 a v : steady (wr8 a v).
Proof. intros s. split; [done|apply clk_wr8]. Qed.
Lemma steady_delay n : steady (delay_ n).
Proof. intros s. split; [done|apply clk_delay]. Qed.
Lemma steady_get_heth : steady get_heth.
Proof. intros s. by apply wp_get_heth. Qed.
Lemma steady_rmw a f : steady (rmw a f).
Proof. apply steady_bind; [apply steady_rd|intros; apply steady_wr]. Qed.

Lemma steady_for_each {A} (l : list A) body : (forall x, steady (body x)) -> steady (for_each l body).
Proof. intros Hb. induction l as [|x l IH]; [apply steady_ret|]. by apply steady_bind. Qed.

Lemma steady_erd off : steady (erd off).
Proof. apply steady_bind; [apply steady_get_heth|intros; apply steady_rd]. Qed.
Lemma steady_ewr off v : steady (ewr off v).
Proof. apply steady_bind; [apply steady_get_heth|intros; apply steady_wr]. Qed.
Lemma steady_eset off m : steady (eset off m).
Proof. apply steady_bind; [apply steady_erd|intros; apply steady_ewr]. Qed.
Lemma steady_settle off : steady (settle off).
Proof. apply steady_bind; [apply steady_erd|intros; apply steady_bind; [apply steady_delay|intros; apply steady_ewr]]. Qed.

Lemma steady_hclk : steady (call HAL_RCC_GetHCLKFreq).
Proof. intros s. unfold call, HAL_RCC_GetHCLKFreq. apply wp_zoom, wp_step, wp_get, wp_ret. cbn. split; [by destruct (glb s)|done]. Qed.

Lemma wp_steady {A D} (p : M _ A) (k : A -> M _ D) s (Q : D -> mach eth_glob -> Prop) :
  steady p -> (forall a s', glb s' = glb s -> at_clk s <= at_clk s' -> wp (k a) s' Q) -> wp (bind p k) s Q.
Proof. intros Hp HQ. apply wp_step. eapply wp_mono; [apply Hp|]. intros a s' [G T]. by apply HQ. Qed.
End steady.

(** A straight-line program, access by access. *)
Ltac steady_prog :=
  lazymatch goal with
  | |- steady (bind _ _) => apply steady_bind; [steady_prog|intros; steady_prog]
  | |- steady (ret _) => apply steady_ret
  | |- steady (rd _) => apply steady_rd
  | |- steady (wr _ _) => apply steady_wr
  | |- steady (wr8 _ _) => apply steady_wr8
  | |- steady (set_bits _ _) => apply steady_rmw
  | |- steady (keep_bits _ _) => apply steady_rmw
  | |- steady (rmw _ _) => apply steady_rmw
  | |- steady (erd _) => apply steady_erd
  | |- steady (ewr _ _) => apply steady_ewr
  | |- steady (eset _ _) => apply steady_eset
  | |- steady (settle _) => apply steady_settle
  | |- steady get_heth => apply steady_get_heth
  | |- steady (if _ then _ else _) => apply steady_if; steady_prog
  | |- _ => auto with steady nocore
  end.

Create HintDb steady.

Section board.
Context {B : Bus} {N : Narrow B} {C : EthClock B N}.

Lemma steady_clk_enable b : steady (clk_enable b).
Proof. unfold clk_enable. steady_prog. Qed.
Lemma steady_priority n p q : steady (HAL_NVIC_SetPriority n p q).
Proof. unfold HAL_NVIC_SetPriority, NVIC_GetPriorityGrouping, NVIC_SetPriority. steady_prog. Qed.
Lemma steady_irq n : steady (HAL_NVIC_EnableIRQ n).
Proof. unfold HAL_NVIC_EnableIRQ, NVIC_EnableIRQ. steady_prog. Qed.
Lemma steady_pin x i q : steady (init_pin x i q).
Proof. unfold init_pin, exti_config, put_line, put_field, HAL_RCC_SYSCFG_CLK_ENABLE. cbv zeta. steady_prog. Qed.
Lemma steady_gpio x i : steady (HAL_GPIO_Init x i).
Proof. apply steady_for_each. intros q. apply steady_if; [apply steady_pin|apply steady_ret]. Qed.
#[local] Hint Resolve steady_clk_enable steady_priority steady_irq steady_gpio : steady.

Lemma steady_MspInit : steady HAL_ETH_MspInit.
Proof. unfold HAL_ETH_MspInit, HAL_RCC_ETH_CLK_ENABLE. steady_prog. Qed.
Lemma steady_syscfg : steady HAL_RCC_SYSCFG_CLK_ENABLE.
Proof. unfold HAL_RCC_SYSCFG_CLK_ENABLE. steady_prog. Qed.
Lemma steady_mac m : steady (configure_mac m).
Proof. unfold configure_mac. cbv zeta. steady_prog. Qed.
Lemma steady_dma d : steady (configure_dma d).
Proof. unfold configure_dma. steady_prog. Qed.
End board.
#[export] Hint Resolve steady_MspInit steady_syscfg steady_mac steady_dma steady_hclk : steady.

(** * The waits *)

Section waits.
Context {B : Bus} {N : Narrow B} {C : EthClock B N}.
Implicit Types s : mach eth_glob.

(** The milliseconds HAL_GetTick shows at the time [x]. *)
Definition ms_at (x : Z) : Z := u32 (x / clk_tick) / 5.

(** From the time [x0] to [x] more than [limit] milliseconds have passed, if the kernel's counter did
    not wrap. *)
Definition overdue (limit x0 x : Z) : Prop := 0 <= x0 -> x < 2 ^ 32 * clk_tick -> x0 + 5 * limit * clk_tick < x.

Lemma overdue_within limit x0 x y0 y : overdue limit x0 x -> y0 <= x0 -> x <= y -> overdue limit y0 y.
Proof. unfold overdue. intros H H1 H2 H3 H4. pose proof (H ltac:(lia) ltac:(lia)). lia. Qed.

Lemma ticks_before limit c0 c : 0 <= limit <= 0xFFFF -> c0 <= c <= c0 + 2 ^ 31 ->
  u32 (u32 c / 5 - u32 c0 / 5) <= limit -> c < c0 + 5 * (limit + 1).
Proof.
  intros Hl Hc H. unfold u32 in H. pose proof (Z.div_mod c0 (2 ^ 32) ltac:(lia)) as E0. pose proof (Z.mod_pos_bound c0 (2 ^ 32) ltac:(lia)) as R0.
  pose proof (Z.div_mod c (2 ^ 32) ltac:(lia)) as E. pose proof (Z.mod_pos_bound c (2 ^ 32) ltac:(lia)) as R.
  set (m0 := c0 mod 2 ^ 32) in *. set (m := c mod 2 ^ 32) in *.
  pose proof (Z.div_mod m0 5 ltac:(lia)). pose proof (Z.mod_pos_bound m0 5 ltac:(lia)).
  pose proof (Z.div_mod m 5 ltac:(lia)). pose proof (Z.mod_pos_bound m 5 ltac:(lia)).
  assert (c / 2 ^ 32 = c0 / 2 ^ 32 \/ c / 2 ^ 32 = c0 / 2 ^ 32 + 1) as [Eq|Eq] by lia.
  - rewrite Z.mod_small in H by lia. lia.
  - destruct (Z.eq_dec (m / 5) (m0 / 5)); [lia|]. rewrite <- (Z_mod_plus_full _ 1), Z.mod_small in H; lia.
Qed.

Lemma elapsed_ms limit x0 x : 0 <= limit <= 0xFFFF -> x0 <= x <= x0 + 2 ^ 31 * clk_tick ->
  if limit <? u32 (ms_at x - ms_at x0) then overdue limit x0 x else x < x0 + 5 * (limit + 1) * clk_tick.
Proof.
  intros Hl Hx. destruct clk_units as [Hu _]. unfold ms_at, overdue. set (u := clk_tick) in *.
  pose proof (Z.div_mod x0 u ltac:(lia)) as E0. pose proof (Z.mod_pos_bound x0 u Hu) as R0.
  pose proof (Z.div_mod x u ltac:(lia)) as E. pose proof (Z.mod_pos_bound x u Hu) as R.
  pose proof (Z.div_le_mono x0 x u Hu (proj1 Hx)) as Hle.
  pose proof (Z.div_le_mono _ _ u Hu (proj2 Hx)) as Hge. rewrite Z.div_add in Hge by lia.
  set (c0 := x0 / u) in *. set (c := x / u) in *.
  destruct (Z.ltb_spec limit (u32 (u32 c / 5 - u32 c0 / 5))) as [Hlt|Hnlt].
  - intros H0 Hw. assert (0 <= c0) by (subst c0; by apply Z.div_pos). assert (c < 2 ^ 32) by (apply Z.div_lt_upper_bound; lia).
    rewrite !(u32_small c), !(u32_small c0) in Hlt by lia. rewrite u32_small in Hlt by zlia.
    assert (c0 + 5 * limit + 1 <= c) by zlia. nia.
  - assert (c < c0 + 5 * (limit + 1)) by by apply ticks_before. nia.
Qed.

Lemma wp_ms s (Q : Z -> mach eth_glob -> Prop) :
  (forall s', glb s' = glb s -> at_clk s < at_clk s' <= at_clk s + clk_step -> Q (ms_at (at_clk s)) s') -> wp HAL_GetTick s Q.
Proof.
  intros HQ. unfold wp, HAL_GetTick, sys_now, bind, tick_count, ret, OS_TICKS_PER_MILLI. rewrite clk_value.
  apply HQ; [done|apply clk_ktick].
Qed.

Lemma wp_erd_any off s (Q : Z -> mach eth_glob -> Prop) :
  (forall v s', glb s' = glb s -> at_clk s <= at_clk s' <= at_clk s + clk_step -> Q v s') -> wp (erd off) s Q.
Proof. intros HQ. unfold erd. apply wp_step, wp_get_heth, wp_rd, HQ; [done|apply clk_rd]. Qed.

Lemma wp_ewr_any off v s (Q : unit -> mach eth_glob -> Prop) :
  (forall s', glb s' = glb s -> at_clk s <= at_clk s' <= at_clk s + clk_step -> Q tt s') -> wp (ewr off v) s Q.
Proof. intros HQ. unfold ewr. apply wp_step, wp_get_heth, wp_wr, HQ; [done|apply clk_wr]. Qed.

(** The longest a wait for [limit] milliseconds can last, and iterations that are enough. *)
Definition span (limit : Z) : Z := 5 * (limit + 1) * clk_tick.
Definition start_fuel : nat := S (Z.to_nat (span 0xFFFF)).

Lemma span_le limit : 0 <= limit <= 0xFFFF -> 0 < span limit <= span 0xFFFF.
Proof. unfold span. pose proof (proj1 clk_units). nia. Qed.

Lemma to_nat_shrinks e x y : x < y -> x < e -> (Z.to_nat (e - y) < Z.to_nat (e - x))%nat.
Proof. lia. Qed.

(** How a wait that began at [x0] ended. *)
Definition wait_ended (limit x0 slack : Z) s (late : bool) s' : Prop :=
  glb s' = glb s /\ at_clk s <= at_clk s' <= x0 + span limit + slack /\ (late = true -> overdue limit x0 (at_clk s')).

Lemma wp_mii_wait_any limit x0 : 0 <= limit <= 0xFFFF -> forall fuel tmpreg s (Q : bool -> mach eth_glob -> Prop),
  x0 <= at_clk s <= x0 + span limit + 2 * clk_step -> (Z.to_nat (x0 + span limit - at_clk s) < fuel)%nat ->
  (forall late s', wait_ended limit x0 (3 * clk_step) s late s' -> Q late s') -> wp (mii_wait fuel limit (ms_at x0) tmpreg) s Q.
Proof.
  intros Hl. destruct clk_units as [Hu Hst]. pose proof (span_le limit Hl) as Hsp. assert (span 0xFFFF = 327680 * clk_tick) as E by done.
  induction fuel as [|fuel IH]; intros tmpreg s Q Hs Hf HQ; [lia|]. cbn [mii_wait].
  destruct (_ =? ETH_MACMIIAR_MB); [|apply wp_ret, HQ; split; [done|split; [lia|done]]].
  apply wp_step, wp_ms. intros s1 G1 T1. assert (x0 <= at_clk s <= x0 + 2 ^ 31 * clk_tick) as Hnear by lia.
  pose proof (elapsed_ms limit x0 (at_clk s) Hl Hnear) as Hel. fold (span limit) in Hel.
  destruct (limit <? _); [apply wp_ret, HQ; split; [done|split; [lia|]]; intros _; apply (overdue_within _ _ _ _ _ Hel); lia|].
  apply wp_step, wp_erd_any. intros v s2 G2 T2. apply IH; [lia| |].
  - eapply Nat.lt_le_trans; [apply (to_nat_shrinks _ (at_clk s)); lia|lia].
  - intros late s' (G & T & O). apply HQ. split; [congruence|]. split; [lia|done].
Qed.

Lemma wp_swr_wait_any x0 : forall fuel s (Q : bool -> mach eth_glob -> Prop),
  x0 <= at_clk s <= x0 + span ETH_TIMEOUT_SWRESET + 2 * clk_step ->
  (Z.to_nat (x0 + span ETH_TIMEOUT_SWRESET - at_clk s) < fuel)%nat ->
  (forall late s', wait_ended ETH_TIMEOUT_SWRESET x0 (4 * clk_step) s late s' -> Q late s') -> wp (swr_wait fuel (ms_at x0)) s Q.
Proof.
  assert (0 <= ETH_TIMEOUT_SWRESET <= 0xFFFF) as Hl by done.
  destruct clk_units as [Hu Hst]. pose proof (span_le _ Hl) as Hsp. assert (span 0xFFFF = 327680 * clk_tick) as E by done.
  induction fuel as [|fuel IH]; intros s Q Hs Hf HQ; [lia|]. cbn [swr_wait].
  apply wp_step, wp_erd_any. intros v s1 G1 T1. destruct (any_bit v ETH_DMABMR_SR).
  2: { apply wp_ret, HQ. split; [done|]. split; [lia|done]. }
  apply wp_step, wp_ms. intros s2 G2 T2. assert (x0 <= at_clk s1 <= x0 + 2 ^ 31 * clk_tick) as Hnear by lia.
  pose proof (elapsed_ms _ x0 (at_clk s1) Hl Hnear) as Hel. fold (span ETH_TIMEOUT_SWRESET) in Hel.
  destruct (_ <? _).
  - apply wp_ret, HQ. split; [congruence|]. split; [lia|]. intros _. apply (overdue_within _ _ _ _ _ Hel); lia.
  - apply IH; [lia| |].
    + eapply Nat.lt_le_trans; [apply (to_nat_shrinks _ (at_clk s)); lia|lia].
    + intros late s' (G & T & O). apply HQ. split; [congruence|]. split; [lia|done].
Qed.
End waits.

(** * The management interface *)

Section phy.
Context {B : Bus} {N : Narrow B} {C : EthClock B N}.
Implicit Types s : mach eth_glob.

(** The handle is locked afterwards only if it was locked before, and in use. *)
Definition lock_kept (h : ETH_HandleTypeDef) (l : bool) : Prop := l = true -> eth_Lock h = true /\ eth_State h <> HAL_ETH_STATE_RESET.

(** From [s0] to [s] only the state of the handle, now [st], and its lock have changed. *)
Definition in_state (st : Z) s0 s : Prop :=
  exists l, lock_kept (heth (glb s0)) l /\ glb s = upd_heth (fun h => set_eth_Lock l (set_State st h)) (glb s0).

Lemma in_state_glb st s0 s s' : in_state st s0 s -> glb s' = glb s -> in_state st s0 s'.
Proof. intros (l & Hl & G) G'. exists l. split; [done|congruence]. Qed.
Lemma in_state_next st st' s0 s s' : in_state st s0 s -> glb s' = upd_heth (set_State st') (glb s) -> in_state st' s0 s'.
Proof. intros (l & Hl & G) G'. exists l. split; [done|]. by rewrite G', G. Qed.
Lemma in_state_unlock st s0 s s' : in_state st s0 s -> glb s' = upd_heth (set_eth_Lock false) (glb s) -> in_state st s0 s'.
Proof. intros (l & Hl & G) G'. exists false. split; [done|]. by rewrite G', G. Qed.
Lemma in_state_state st s0 s : in_state st s0 s -> eth_State (heth (glb s)) = st.
Proof. by intros (l & _ & ->). Qed.

Lemma wp_state st st' s0 s (Q : unit -> mach eth_glob -> Prop) : in_state st s0 s ->
  (forall s', in_state st' s0 s' -> at_clk s' = at_clk s -> Q tt s') -> wp (eth_state st') s Q.
Proof. intros Hs HQ. apply wp_modify_h. intros s' D G. apply HQ; [by apply (in_state_next st _ _ s)|unfold at_clk; by rewrite D]. Qed.
Lemma wp_unlock st s0 s (Q : unit -> mach eth_glob -> Prop) : in_state st s0 s ->
  (forall s', in_state st s0 s' -> eth_Lock (heth (glb s')) = false -> at_clk s' = at_clk s -> Q tt s') -> wp eth_unlock s Q.
Proof.
  intros Hs HQ. apply wp_modify_h. intros s' D G. apply HQ; [by apply (in_state_unlock _ _ s)|by rewrite G|unfold at_clk; by rewrite D].
Qed.

(** An operation takes a minute at most; when it fails, so long. *)
Definition op_span : Z := span 0xFFFF + 6 * clk_step.
Definition op_ended s (r : Z) s' : Prop :=
  at_clk s <= at_clk s' <= at_clk s + op_span /\ (r = HAL_OK \/ overdue 0xFFFF (at_clk s) (at_clk s')).

Lemma wp_mii_from_now fuel tmpreg {A} (k : bool -> M (mach eth_glob) A) s (Q : A -> mach eth_glob -> Prop) : (start_fuel <= fuel)%nat ->
  (forall late s', glb s' = glb s -> at_clk s <= at_clk s' <= at_clk s + span 0xFFFF + 3 * clk_step ->
     (late = true -> overdue 0xFFFF (at_clk s) (at_clk s')) -> wp (k late) s' Q) ->
  wp (tickstart <- HAL_GetTick ;; late <- mii_wait fuel 0xFFFF tickstart tmpreg ;; k late) s Q.
Proof.
  intros Hf HQ. destruct clk_units as [Hu Hst]. apply wp_step, wp_ms. intros s1 G1 T1. pose proof (span_le 0xFFFF ltac:(done)) as Hsp.
  unfold start_fuel in Hf. apply wp_step, wp_mii_wait_any; [done|lia|lia|].
  intros late s2 (G & T & O). apply HQ; [congruence|lia|done].
Qed.

Lemma wp_read_any st fuel reg s0 s (Q : Z * option Z -> mach eth_glob -> Prop) : in_state st s0 s -> st <> HAL_ETH_STATE_BUSY_RD ->
  (start_fuel <= fuel)%nat ->
  (forall r s', in_state HAL_ETH_STATE_READY s0 s' -> op_ended s (fst r) s' -> Q r s') -> wp (HAL_ETH_ReadPHYRegister fuel reg) s Q.
Proof.
  intros Hs Hst Hf HQ. unfold HAL_ETH_ReadPHYRegister, op_ended, op_span in *. apply wp_step, wp_get_heth. rewrite (in_state_state _ _ _ Hs).
  destruct (Z.eqb_spec st HAL_ETH_STATE_BUSY_RD); [done|]. apply wp_step, (wp_state st _ s0); [done|]. intros s1 H1 T1.
  apply wp_step, wp_erd_any. intros v s2 G2 T2. cbv zeta. apply wp_step, wp_ewr_any. intros s3 G3 T3.
  assert (in_state HAL_ETH_STATE_BUSY_RD s0 s3) as H3 by (apply (in_state_glb _ _ s1); [done|congruence]).
  apply wp_mii_from_now; [done|]. intros late s4 G4 T4 O4. pose proof (in_state_glb _ _ _ _ H3 G4) as H4. destruct late.
  - apply wp_step, (wp_state _ _ s0 _ _ H4). intros s5 H5 T5. apply wp_step, (wp_unlock _ s0 _ _ H5). intros s6 H6 _ T6.
    apply wp_ret, HQ; [done|]. split; [lia|]. right. apply (overdue_within _ _ _ _ _ (O4 eq_refl)); lia.
  - apply wp_step, wp_erd_any. intros w s5 G5 T5. apply wp_step, (wp_state HAL_ETH_STATE_BUSY_RD _ s0); [by apply (in_state_glb _ _ s4)|].
    intros s6 H6 T6. apply wp_ret, HQ; [done|]. split; [lia|by left].
Qed.

Lemma wp_write_any st fuel reg v s0 s (Q : Z -> mach eth_glob -> Prop) : in_state st s0 s -> st <> HAL_ETH_STATE_BUSY_WR ->
  (start_fuel <= fuel)%nat ->
  (forall r s', in_state HAL_ETH_STATE_READY s0 s' -> op_ended s r s' -> Q r s') -> wp (HAL_ETH_WritePHYRegister fuel reg v) s Q.
Proof.
  intros Hs Hst Hf HQ. unfold HAL_ETH_WritePHYRegister, op_ended, op_span in *. apply wp_step, wp_get_heth. rewrite (in_state_state _ _ _ Hs).
  destruct (Z.eqb_spec st HAL_ETH_STATE_BUSY_WR); [done|]. apply wp_step, (wp_state st _ s0); [done|]. intros s1 H1 T1.
  apply wp_step, wp_erd_any. intros w s2 G2 T2. cbv zeta. apply wp_step, wp_ewr_any. intros s3 G3 T3.
  apply wp_step, wp_ewr_any. intros s3' G3' T3'.
  assert (in_state HAL_ETH_STATE_BUSY_WR s0 s3') as H3 by (apply (in_state_glb _ _ s1); [done|congruence]).
  apply wp_mii_from_now; [done|]. intros late s4 G4 T4 O4. pose proof (in_state_glb _ _ _ _ H3 G4) as H4. destruct late.
  - apply wp_step, (wp_state _ _ s0 _ _ H4). intros s5 H5 T5. apply wp_step, (wp_unlock _ s0 _ _ H5). intros s6 H6 _ T6.
    apply wp_ret, HQ; [done|]. split; [lia|]. right. apply (overdue_within _ _ _ _ _ (O4 eq_refl)); lia.
  - apply wp_step, (wp_state HAL_ETH_STATE_BUSY_WR _ s0); [done|].
    intros s6 H6 T6. apply wp_ret, HQ; [done|]. split; [lia|by left].
Qed.

(** The wait for a status of the PHY. *)
Lemma wp_phy_wait_any status limit x0 s0 fuel : 0 <= limit <= 0xFFFF -> (start_fuel <= fuel)%nat ->
  forall rounds phyreg s (Q : option Z -> mach eth_glob -> Prop), in_state HAL_ETH_STATE_READY s0 s ->
  x0 <= at_clk s <= x0 + span limit + clk_step -> (Z.to_nat (x0 + span limit - at_clk s) < rounds)%nat ->
  (forall r s', in_state HAL_ETH_STATE_READY s0 s' -> at_clk s <= at_clk s' -> (r = None -> overdue limit x0 (at_clk s')) -> Q r s') ->
  wp (phy_wait rounds fuel status limit (ms_at x0) phyreg) s Q.
Proof.
  intros Hl Hfuel. destruct clk_units as [Hu Hst]. pose proof (span_le limit Hl) as Hsp. assert (span 0xFFFF = 327680 * clk_tick) as E by done.
  induction rounds as [|rounds IH]; intros phyreg s Q H T Hr HQ; [lia|]. cbn [phy_wait].
  apply wp_step, (wp_read_any HAL_ETH_STATE_READY _ _ s0); [done|done|done|]. intros r s1 H1 [T1 _]. unfold op_span in T1. cbv zeta.
  assert (x0 <= at_clk s1 <= x0 + 2 ^ 31 * clk_tick) as Hnear by lia.
  pose proof (elapsed_ms limit x0 (at_clk s1) Hl Hnear) as Hel. fold (span limit) in Hel.
  apply wp_step, wp_ms. intros s2 G2 T2. pose proof (in_state_glb _ _ _ _ H1 G2) as H2. destruct (limit <? _).
  - apply wp_ret, HQ; [done|lia|]. intros _. apply (overdue_within _ _ _ _ _ Hel); lia.
  - destruct (_ =? status); cbn [negb]; [apply wp_ret, HQ; [done|lia|done]|]. apply IH; [done|lia| |].
    + eapply Nat.lt_le_trans; [apply (to_nat_shrinks _ (at_clk s)); lia|lia].
    + intros r' s' H' T' O'. apply HQ; [done|lia|done].
Qed.

Lemma wp_phy_from_now status limit fuel phyreg s0 {A} (k : option Z -> M (mach eth_glob) A) s (Q : A -> mach eth_glob -> Prop) :
  0 <= limit <= 0xFFFF -> (start_fuel <= fuel)%nat -> in_state HAL_ETH_STATE_READY s0 s ->
  (forall r s', in_state HAL_ETH_STATE_READY s0 s' -> at_clk s <= at_clk s' -> (r = None -> overdue limit (at_clk s) (at_clk s')) -> wp (k r) s' Q) ->
  wp (tickstart <- HAL_GetTick ;; linked <- phy_wait fuel fuel status limit tickstart phyreg ;; k linked) s Q.
Proof.
  intros Hl Hf H HQ. destruct clk_units as [Hu Hst]. apply wp_step, wp_ms. intros s1 G1 T1. pose proof (span_le limit Hl) as Hsp.
  apply wp_step, (wp_phy_wait_any _ _ _ s0); [done|done|by apply (in_state_glb _ _ s)|lia|unfold start_fuel in Hf; lia|].
  intros r s2 H2 T2 O2. apply HQ; [done|lia|done].
Qed.
End phy.

(** * HAL_ETH_Init *)

Section init.
Context {B : Bus} {N : Narrow B} {C : EthClock B N}.
Implicit Types s : mach eth_glob.

Lemma wp_config_any err mac s (Q : unit -> mach eth_glob -> Prop) :
  MACAddr (eth_Init (heth (glb s))) = Some mac -> (6 <= length mac)%nat ->
  (forall s', glb s' = upd_heth (link_after err) (glb s) -> at_clk s <= at_clk s' -> Q tt s') -> wp (ETH_MACDMAConfig err) s Q.
Proof.
  intros Hm Hlen HQ. unfold ETH_MACDMAConfig. apply wp_step.
  apply wp_mono with (Q := fun _ s1 => dev s1 = dev s /\ glb s1 = upd_heth (link_after err) (glb s)).
  { unfold upd_heth, link_after. destruct (err =? ETH_SUCCESS); cbn; [|done]. by destruct (glb s). }
  intros [] s1 [D1 G1]. apply wp_step, wp_get_heth. apply wp_steady; [apply steady_mac|]. intros _ s2 G2 T2.
  apply wp_steady; [apply steady_dma|]. intros _ s3 G3 T3.
  apply wp_steady; [apply steady_if; [apply steady_eset|apply steady_ret]|]. intros _ s4 G4 T4.
  assert (MACAddr (eth_Init (heth (glb s1))) = Some mac) as ->.
  { rewrite G1. unfold upd_heth, link_after. by destruct (err =? ETH_SUCCESS). }
  destruct mac as [|a0 [|a1 [|a2 [|a3 [|a4 [|a5 mac]]]]]]; cbn [length] in Hlen; try lia.
  unfold ETH_MACAddressConfig, byte_at. cbn [deref]. do 3 (apply wp_step, wp_ret).
  apply wp_steady; [apply steady_wr|]. intros _ s5 G5 T5. do 4 (apply wp_step, wp_ret).
  eapply wp_mono; [apply steady_wr|]. intros [] s6 [G6 T6]. apply HQ; [congruence|]. unfold at_clk in *. rewrite <- D1. lia.
Qed.

(** How HAL_ETH_Init ends for the handle [h], with its result and the handle then; [waited] are
    the milliseconds it took. *)
Inductive init_ends (waited : Z -> Prop) (h : ETH_HandleTypeDef) : Z -> ETH_HandleTypeDef -> Prop :=
| ends_in_reset : waited ETH_TIMEOUT_SWRESET ->
    init_ends waited h HAL_TIMEOUT (set_eth_Lock false (set_State HAL_ETH_STATE_TIMEOUT h))
| ends_without_phy l : eth_State h = HAL_ETH_STATE_BUSY_WR \/ waited 0xFFFF -> lock_kept h l ->
    init_ends waited h HAL_ERROR (set_eth_Lock l (set_State HAL_ETH_STATE_READY (set_link ETH_SPEED_100M ETH_MODE_FULLDUPLEX h)))
| ends_without_link : AutoNegotiation (eth_Init h) <> ETH_AUTONEGOTIATION_DISABLE -> waited ETH_TIMEOUT_LINKED_STATE ->
    init_ends waited h HAL_TIMEOUT (set_eth_Lock false (set_State HAL_ETH_STATE_READY (set_link ETH_SPEED_100M ETH_MODE_FULLDUPLEX h)))
| ends_negotiated l speed duplex : AutoNegotiation (eth_Init h) <> ETH_AUTONEGOTIATION_DISABLE ->
    speed = ETH_SPEED_10M \/ speed = ETH_SPEED_100M -> duplex = ETH_MODE_FULLDUPLEX \/ duplex = ETH_MODE_HALFDUPLEX -> lock_kept h l ->
    init_ends waited h HAL_OK (set_eth_Lock l (set_State HAL_ETH_STATE_READY (set_link speed duplex h)))
| ends_forced l : AutoNegotiation (eth_Init h) = ETH_AUTONEGOTIATION_DISABLE -> lock_kept h l ->
    init_ends waited h HAL_OK (set_eth_Lock l (set_State HAL_ETH_STATE_READY h)).

Definition init_ended s r s' : Prop :=
  exists h', glb s' = upd_heth (fun _ => h') (glb s) /\
    init_ends (fun limit => overdue limit (at_clk s) (at_clk s')) (heth (glb s)) r h'.

(** The handle's address is there. *)
Definition mac_given s : Prop := exists mac, MACAddr (eth_Init (heth (glb s))) = Some mac /\ (6 <= length mac)%nat.

Lemma wp_config_in err st s0 s (Q : unit -> mach eth_glob -> Prop) : mac_given s0 -> in_state st s0 s ->
  (forall l s', lock_kept (heth (glb s0)) l -> glb s' = upd_heth (fun h => set_eth_Lock l (set_State st (link_after err h))) (glb s0) ->
     at_clk s <= at_clk s' -> Q tt s') ->
  wp (ETH_MACDMAConfig err) s Q.
Proof.
  intros (mac & Hm & Hlen) (l & Hl & G) HQ. apply (wp_config_any err mac); [by rewrite G|done|]. intros s' G' T'. apply (HQ l); [done| |done].
  rewrite G', G. unfold upd_heth, link_after. by destruct (err =? ETH_SUCCESS).
Qed.

Lemma wp_error_any st s0 s : mac_given s0 -> in_state st s0 s -> at_clk s0 <= at_clk s ->
  eth_State (heth (glb s0)) = HAL_ETH_STATE_BUSY_WR \/ overdue 0xFFFF (at_clk s0) (at_clk s) -> wp init_error s (init_ended s0).
Proof.
  intros Hm Hs T Hw. unfold init_error. apply wp_step, (wp_config_in _ st s0 _ _ Hm Hs). intros l s1 Hl G1 T1.
  apply wp_step, wp_modify_h. intros s2 D2 G2. apply wp_ret. eexists. split; [rewrite G2, G1; reflexivity|]. unfold at_clk in *. rewrite D2.
  eapply ends_without_phy; [|exact Hl]. destruct Hw as [Hw|Hw]; [by left|right]. apply (overdue_within _ _ _ _ _ Hw); lia.
Qed.

Lemma wp_timeout_any st s0 s : mac_given s0 -> in_state st s0 s -> AutoNegotiation (eth_Init (heth (glb s0))) <> ETH_AUTONEGOTIATION_DISABLE ->
  overdue ETH_TIMEOUT_LINKED_STATE (at_clk s0) (at_clk s) -> wp init_timeout s (init_ended s0).
Proof.
  intros Hm Hs Ha Hw. unfold init_timeout. apply wp_step, (wp_config_in _ st s0 _ _ Hm Hs). intros l s1 Hl G1 T1.
  apply wp_step, wp_modify_h. intros s2 D2 G2. apply wp_step, wp_modify_h. intros s3 D3 G3. apply wp_ret.
  eexists. split; [rewrite G3, G2, G1; reflexivity|]. unfold at_clk in *. rewrite D3, D2.
  apply ends_without_link; [done|]. apply (overdue_within _ _ _ _ _ Hw); lia.
Qed.

Lemma wp_done_any mac s (Q : Z -> mach eth_glob -> Prop) : MACAddr (eth_Init (heth (glb s))) = Some mac -> (6 <= length mac)%nat ->
  (forall s', glb s' = upd_heth (set_State HAL_ETH_STATE_READY) (glb s) -> at_clk s <= at_clk s' -> Q HAL_OK s') -> wp init_done s Q.
Proof.
  intros Hm Hlen HQ. unfold init_done. apply wp_step, (wp_config_any _ mac); [done|done|]. intros s1 G1 T1.
  apply wp_step, wp_modify_h. intros s2 D2 G2. apply wp_ret, HQ; [by rewrite G2, G1|unfold at_clk in *; by rewrite D2].
Qed.

Lemma wp_auto_any fuel s0 s : mac_given s0 -> (start_fuel <= fuel)%nat -> in_state HAL_ETH_STATE_READY s0 s -> at_clk s0 <= at_clk s ->
  AutoNegotiation (eth_Init (heth (glb s0))) <> ETH_AUTONEGOTIATION_DISABLE -> wp (auto_negotiate fuel) s (init_ended s0).
Proof.
  intros Hm Hf H T Ha. unfold auto_negotiate. apply (wp_phy_from_now _ _ _ _ s0); [done|done|done|]. intros [v|] s1 H1 T1 O1.
  2: { apply (wp_timeout_any HAL_ETH_STATE_READY); [done..|]. apply (overdue_within _ _ _ _ _ (O1 eq_refl)); lia. }
  apply wp_step, (wp_write_any HAL_ETH_STATE_READY _ _ _ s0); [done|done|done|]. intros r s2 H2 [T2 O2].
  destruct (Z.eqb_spec r HAL_OK) as [->|Hr]; cbn [negb].
  2: { apply (wp_error_any HAL_ETH_STATE_READY); [done|done|lia|]. right. destruct O2 as [?|O2]; [done|]. apply (overdue_within _ _ _ _ _ O2); lia. }
  apply (wp_phy_from_now _ _ _ _ s0); [done|done|done|]. intros [w|] s3 H3 T3 O3.
  2: { apply (wp_timeout_any HAL_ETH_STATE_READY); [done..|]. apply (overdue_within _ _ _ _ _ (O3 eq_refl)); lia. }
  apply wp_step, (wp_read_any HAL_ETH_STATE_READY _ _ s0); [done|done|done|]. intros [r v'] s4 H4 [T4 O4]. cbn [fst snd] in *.
  destruct (Z.eqb_spec r HAL_OK) as [->|Hr]; cbn [negb].
  2: { apply (wp_error_any HAL_ETH_STATE_READY); [done|done|lia|]. right. destruct O4 as [?|O4]; [done|]. apply (overdue_within _ _ _ _ _ O4); lia. }
  cbv zeta. apply wp_step, wp_modify_h. intros s5 D5 G5. destruct H4 as (l & Hl & G4). destruct (Hm) as (mac & Hmac & Hlen).
  apply (wp_done_any mac); [by rewrite G5, G4|done|]. intros s6 G6 T6. match type of G5 with _ = upd_heth (set_link ?a ?b) _ =>
    exists (set_eth_Lock l (set_State HAL_ETH_STATE_READY (set_link a b (heth (glb s0))))) end.
  split; [by rewrite G6, G5, G4|]. apply ends_negotiated; [done| | |done].
  - destruct (_ =? PHY_SPEED_STATUS); [by left|by right].
  - destruct (any_bit _ _); [by left|by right].
Qed.

Lemma wp_force_any fuel s0 s : mac_given s0 -> (start_fuel <= fuel)%nat -> in_state HAL_ETH_STATE_READY s0 s -> at_clk s0 <= at_clk s ->
  AutoNegotiation (eth_Init (heth (glb s0))) = ETH_AUTONEGOTIATION_DISABLE -> wp (force_link fuel) s (init_ended s0).
Proof.
  intros Hm Hf H T Ha. unfold force_link. apply wp_step, wp_get_heth.
  apply wp_step, (wp_write_any HAL_ETH_STATE_READY _ _ _ s0); [done|done|done|]. intros r s2 H2 [T2 O2].
  destruct (Z.eqb_spec r HAL_OK) as [->|Hr]; cbn [negb].
  2: { apply (wp_error_any HAL_ETH_STATE_READY); [done|done|lia|]. right. destruct O2 as [?|O2]; [done|]. apply (overdue_within _ _ _ _ _ O2); lia. }
  apply wp_steady; [apply steady_delay|]. intros _ s3 G3 T3. destruct H2 as (l & Hl & G2). destruct (Hm) as (mac & Hmac & Hlen).
  apply (wp_done_any mac); [by rewrite G3, G2|done|]. intros s4 G4 T4.
  exists (set_eth_Lock l (set_State HAL_ETH_STATE_READY (heth (glb s0)))). split; [by rewrite G4, G3, G2|]. by apply ends_forced.
Qed.

(** From the end of the reset on. *)
Lemma wp_after_reset fuel st s0 s : mac_given s0 -> (start_fuel <= fuel)%nat -> in_state st s0 s -> at_clk s0 <= at_clk s ->
  st = eth_State (heth (glb s0)) ->
  wp (tempreg <- erd MACMIIAR ;; hclk <- call HAL_RCC_GetHCLKFreq ;;
      ewr MACMIIAR ((tempreg .& ETH_MACMIIAR_CR_MASK) .| mdc_range hclk) ;;
      st <- HAL_ETH_WritePHYRegister fuel PHY_BCR PHY_RESET ;;
      if negb (st =? HAL_OK) then init_error
      else
        HAL_Delay PHY_RESET_DELAY ;;
        h <- get_heth ;;
        if negb (AutoNegotiation (eth_Init h) =? ETH_AUTONEGOTIATION_DISABLE)
        then auto_negotiate fuel else force_link fuel) s (init_ended s0).
Proof.
  intros Hm Hf H T Hst. apply wp_steady; [apply steady_erd|]. intros v s1 G1 T1. apply wp_steady; [apply steady_hclk|]. intros f s2 G2 T2.
  apply wp_steady; [apply steady_ewr|]. intros _ s3 G3 T3. assert (in_state st s0 s3) as H3 by (apply (in_state_glb _ _ s); [done|congruence]).
  apply wp_step. destruct (Z.eq_dec st HAL_ETH_STATE_BUSY_WR) as [Hb|Hb].
  { unfold HAL_ETH_WritePHYRegister. apply wp_step, wp_get_heth. rewrite (in_state_state _ _ _ H3), Hb, Z.eqb_refl. apply wp_ret.
    change (negb (HAL_BUSY =? HAL_OK)) with true. cbv iota. apply (wp_error_any st); [done|done|lia|left; congruence]. }
  apply (wp_write_any st _ _ _ s0); [done|done|done|]. intros r s4 H4 [T4 O4]. destruct (Z.eqb_spec r HAL_OK) as [->|Hr]; cbn [negb].
  2: { apply (wp_error_any HAL_ETH_STATE_READY); [done|done|lia|]. right. destruct O4 as [?|O4]; [done|]. apply (overdue_within _ _ _ _ _ O4); lia. }
  apply wp_steady; [apply steady_delay|]. intros _ s5 G5 T5. pose proof (in_state_glb _ _ _ _ H4 G5) as H5.
  apply wp_step, wp_get_heth. assert (eth_Init (heth (glb s5)) = eth_Init (heth (glb s0))) as -> by by destruct H5 as (l & _ & ->).
  destruct (Z.eqb_spec (AutoNegotiation (eth_Init (heth (glb s0)))) ETH_AUTONEGOTIATION_DISABLE); cbn [negb].
  - apply wp_force_any; (done || lia).
  - apply wp_auto_any; (done || lia).
Qed.

End init.

(** * A controller without a clock

    No register ever changes: the reset stays requested, as without the clocks of the PHY. *)
#[local] Instance deaf_bus : Bus := {|
  hw := Z;
  mmio_rd _ h := (0xFFFFFFFF, h);
  mmio_wr _ _ h := h;
  ktick h := (h, h + 1);
  os_delay n h := h + Z.max 0 n |}.
#[local] Instance deaf_narrow : Narrow deaf_bus := {|
  mmio_rd8 _ (h : @hw deaf_bus) := (0xFF, h);
  mmio_wr8 _ _ (h : @hw deaf_bus) := h;
  mmio_wr16 _ _ (h : @hw deaf_bus) := h |}.
#[local] Instance deaf_clock : EthClock deaf_bus deaf_narrow.
Proof.
  refine {| clk := (fun h => h) : @hw deaf_bus -> Z; clk_tick := 1; clk_step := 1 |}; try (intros; cbn; lia).
  intros h. by rewrite Z.div_1_r.
Defined.

Definition deaf_start : mach eth_glob :=
  @Mach deaf_bus eth_glob 1000 [] (EthGlob (EthHandle ETH board_init 0 0 0 (RxInfos 0 0 0 0 0) HAL_ETH_STATE_RESET true) 0 clk_init).

