(* ===== verification/EthIrq.v ===== *)
(** The interrupt of the Ethernet controller, HAL_ETH_IRQHandler of
    src/stm32f7xx_hal_eth.c with the callback of src/ethernetif.c: what it
    acknowledges, whom it wakes, and what it does to the handle. *)
From S2P Require Import Prelude Machine SysArch FlashHal Clock EthHal.

#[local] Open Scope fw_scope.

(** The status register, whose bits are cleared by writing ones, and the kernel beside it. *)
Class EthIrq (B : Bus) (R : Rtos B) (L : RtosLaws B R) := {
  dmasr : hw -> Z;
  dmasr_rd h : u32 (fst (mmio_rd (ETH + DMASR) h)) = dmasr h /\
    dmasr (snd (mmio_rd (ETH + DMASR) h)) = dmasr h /\ tokens (snd (mmio_rd (ETH + DMASR) h)) = tokens h;
  dmasr_wr v h : dmasr (mmio_wr (ETH + DMASR) v h) = dmasr h .& not32 v /\
    tokens (mmio_wr (ETH + DMASR) v h) = tokens h;
  dmasr_release sem h : dmasr (snd (osSemaphoreRelease sem h)) = dmasr h;
}.

Section irq.
Context {B : Bus} {R : Rtos B} {L : RtosLaws B R} {E : EthIrq B R L}.
Implicit Types s : mach eth_glob.

Lemma wp_dma_flag flag s (Q : bool -> mach eth_glob -> Prop) :
  eth_Instance (heth (glb s)) = ETH ->
  (forall s', dmasr (dev s') = dmasr (dev s) -> tokens (dev s') = tokens (dev s) -> glb s' = glb s ->
     Q (dmasr (dev s) .& flag =? flag) s') ->
  wp (dma_flag flag) s Q.
Proof.
  intros Hi HQ. destruct (dmasr_rd (dev s)) as (Hv & Hd & Ht).
  unfold dma_flag, erd, get_heth, wp, bind, get_, rd, ret. cbn. rewrite Hi, Hv. by apply HQ.
Qed.

Lemma wp_dmasr_clear v s (Q : unit -> mach eth_glob -> Prop) :
  eth_Instance (heth (glb s)) = ETH ->
  (forall s', dmasr (dev s') = dmasr (dev s) .& not32 (u32 v) -> tokens (dev s') = tokens (dev s) ->
     glb s' = glb s -> Q tt s') ->
  wp (ewr DMASR v) s Q.
Proof.
  intros Hi HQ. destruct (dmasr_wr (u32 v) (dev s)) as (Hd & Ht).
  unfold ewr, get_heth, wp, bind, get_, wr, ret. cbn. rewrite Hi. by apply HQ.
Qed.

Lemma wp_dma_done v s (Q : unit -> mach eth_glob -> Prop) :
  eth_Instance (heth (glb s)) = ETH ->
  (forall s', dmasr (dev s') = dmasr (dev s) .& not32 (u32 v) -> tokens (dev s') = tokens (dev s) ->
     heth (glb s') = set_eth_Lock false (set_State HAL_ETH_STATE_READY (heth (glb s))) -> Q tt s') ->
  wp (dma_done v) s Q.
Proof.
  intros Hi HQ. unfold dma_done. apply wp_bind, wp_dmasr_clear; [done|]. intros s1 D1 T1 G1.
  apply wp_bind, wp_modify. apply wp_modify. apply HQ; [done..|]. cbn. by rewrite G1.
Qed.

(** What the handler leaves of the status, and whether it served a cause: of reception and
    transmission, and of all three. *)
Definition has_flag (st flag : Z) : bool := st .& flag =? flag.
Definition irq_frame (st : Z) : bool := has_flag st ETH_DMA_FLAG_R || has_flag st ETH_DMA_FLAG_T.
Definition irq_served (st : Z) : bool := irq_frame st || has_flag st ETH_DMA_FLAG_AIS.
Definition irq_status1 (st : Z) : Z :=
  if has_flag st ETH_DMA_FLAG_R then st .& not32 ETH_DMA_IT_R
  else if has_flag st ETH_DMA_FLAG_T then st .& not32 ETH_DMA_IT_T else st.
Definition irq_status (st : Z) : Z :=
  let st2 := irq_status1 st .& not32 ETH_DMA_IT_NIS in
  if has_flag st ETH_DMA_FLAG_AIS then st2 .& not32 ETH_DMA_FLAG_AIS else st2.

Definition released (h : ETH_HandleTypeDef) : ETH_HandleTypeDef :=
  set_eth_Lock false (set_State HAL_ETH_STATE_READY h).
Definition given (st : Z) (n : nat) : nat := if has_flag st ETH_DMA_FLAG_R then 1%nat else n.

Lemma has_flag_clear st m f : f .& not32 m = f -> has_flag (st .& not32 m) f = has_flag st f.
Proof. intros Hf. unfold has_flag. by rewrite <- Z.land_assoc, (Z.land_comm (not32 m)), Hf. Qed.

Lemma irq_status1_AIS st : has_flag (irq_status1 st .& not32 ETH_DMA_IT_NIS) ETH_DMA_FLAG_AIS = has_flag st ETH_DMA_FLAG_AIS.
Proof.
  rewrite has_flag_clear by done. unfold irq_status1. destruct (has_flag st ETH_DMA_FLAG_R); [by rewrite has_flag_clear|].
  destruct (has_flag st ETH_DMA_FLAG_T); [by rewrite has_flag_clear|done].
Qed.

Lemma wp_RxCpltCallback s (Q : unit -> mach eth_glob -> Prop) :
  (forall s', dmasr (dev s') = dmasr (dev s) ->
     (forall n, tokens (dev s) (s_xSemaphore (glb s)) = Some n -> tokens (dev s') (s_xSemaphore (glb s)) = Some 1%nat) ->
     glb s' = glb s -> Q tt s') ->
  wp HAL_ETH_RxCpltCallback s Q.
Proof.
  intros HQ. unfold HAL_ETH_RxCpltCallback. apply wp_bind, wp_get, wp_bind. unfold kernel, wp at 1. apply wp_ret, HQ.
  - apply dmasr_release.
  - intros n Hn. cbn. rewrite (sem_release _ _ n Hn). by destruct n.
  - done.
Qed.

(** The frame interrupts. *)
Lemma wp_irq_frame s (Q : unit -> mach eth_glob -> Prop) :
  let h := heth (glb s) in let st := dmasr (dev s) in let sem := s_xSemaphore (glb s) in
  eth_Instance h = ETH ->
  (forall s', dmasr (dev s') = irq_status1 st -> heth (glb s') = (if irq_frame st then released h else h) ->
     (forall n, tokens (dev s) sem = Some n -> tokens (dev s') sem = Some (given st n)) -> Q tt s') ->
  wp (r <- dma_flag ETH_DMA_FLAG_R ;;
      if r : bool then HAL_ETH_RxCpltCallback ;; dma_done ETH_DMA_IT_R
      else t <- dma_flag ETH_DMA_FLAG_T ;;
           if t : bool then HAL_ETH_TxCpltCallback ;; dma_done ETH_DMA_IT_T else ret tt) s Q.
Proof.
  intros h st sem Hi HQ. unfold irq_status1, irq_frame, given in HQ.
  apply wp_bind, wp_dma_flag; [done|]. intros s1 D1 T1 G1. fold st. fold (has_flag st ETH_DMA_FLAG_R).
  destruct (has_flag st ETH_DMA_FLAG_R).
  - apply wp_bind, wp_RxCpltCallback. rewrite G1, T1, D1. fold sem. intros s2 D2 T2 G2.
    apply wp_dma_done; [by rewrite G2|]. rewrite G2, D2. intros s3 D3 T3 H3. apply HQ; [done..|].
    intros n Hn. rewrite T3. by apply (T2 n).
  - apply wp_bind, wp_dma_flag; [by rewrite G1|]. rewrite D1, T1, G1. intros s2 D2 T2 G2.
    fold st. fold (has_flag st ETH_DMA_FLAG_T). destruct (has_flag st ETH_DMA_FLAG_T).
    + apply wp_bind, wp_ret, wp_dma_done; [by rewrite G2|]. rewrite G2, D2. intros s3 D3 T3 H3.
      apply HQ; [done..|]. intros n Hn. by rewrite T3, T2.
    + apply wp_ret, HQ; [done|by rewrite G2|]. intros n Hn. by rewrite T2.
Qed.

(** HAL_ETH_IRQHandler acknowledges the causes it serves: reception, or else
    transmission, then the normal summary, then an abnormal event, and clears no other bit of
    the status.  A reception gives the receiving thread its token.  Whenever a cause was
    served the handle is ready and unlocked afterwards, also when the interrupted thread held
    its lock. *)
Theorem HAL_ETH_IRQHandler_acknowledges s :
  let h := heth (glb s) in let st := dmasr (dev s) in let sem := s_xSemaphore (glb s) in
  eth_Instance h = ETH ->
  wp HAL_ETH_IRQHandler s (fun _ s' =>
    dmasr (dev s') = irq_status st /\
    heth (glb s') = (if irq_served st then released h else h) /\
    forall n, tokens (dev s) sem = Some n -> tokens (dev s') sem = Some (given st n)).
Proof.
  intros h st sem Hi. unfold HAL_ETH_IRQHandler. apply (proj1 (wp_assoc _ _ _ _ _)), wp_bind, wp_irq_frame; [done|]. fold h st sem.
  intros s2 D2 H2 T2.
  assert (eth_Instance (heth (glb s2)) = ETH) as I2 by (rewrite H2; by destruct (irq_frame st)).
  apply wp_bind, wp_dmasr_clear; [done|]. rewrite D2. intros s3 D3 T3 G3.
  change (not32 (u32 ETH_DMA_IT_NIS)) with (not32 ETH_DMA_IT_NIS) in D3.
  apply wp_bind, wp_dma_flag; [by rewrite G3|]. rewrite D3, T3, G3. intros s4 D4 T4 G4.
  fold (has_flag (irq_status1 st .& not32 ETH_DMA_IT_NIS) ETH_DMA_FLAG_AIS). rewrite irq_status1_AIS.
  unfold irq_status, irq_served. destruct (has_flag st ETH_DMA_FLAG_AIS).
  - apply wp_bind, wp_ret, wp_dma_done; [by rewrite G4|]. rewrite G4, D4, T4. intros s5 D5 T5 H5. rewrite orb_true_r.
    split; [done|]. split; [rewrite H5, H2; by destruct (irq_frame st)|]. intros n Hn. rewrite T5. by apply T2.
  - apply wp_ret. rewrite orb_false_r. split; [done|]. split; [by rewrite G4|]. intros n Hn. rewrite T4. by apply T2.
Qed.
End irq.

(** * A concrete device *)

(** A status register that clears on writing ones, and one semaphore. *)
Definition irq_sim : Bus := {|
  hw := Z * nat;
  mmio_rd a h := (u32 (fst h), h);
  mmio_wr a v h := (u32 (fst h) .& not32 v, snd h);
  ktick h := (0, h);
  os_delay _ h := h;
|}.

Definition irq_rtos : Rtos irq_sim := {|
  osThreadNew _ _ _ h := (0, h);
  osMutexNew _ h := (0, h);
  osMutexAcquire _ _ h := (osOK, h);
  osMutexRelease _ h := (osOK, h);
  osMutexDelete _ h := (osOK, h);
  osMessageQueueNew _ _ h := (0, h);
  osMessageQueuePut _ _ _ h := (osErrorResource, h);
  osMessageQueueGet _ _ h := ((osErrorResource, None), h);
  osMessageQueueDelete _ h := (osOK, h);
  osSemaphoreNew _ _ h := (1, h);
  osSemaphoreAcquire _ t (h : @hw irq_sim) := match snd h with S n => (osOK, (fst h, n)) | O => (osErrorResource, h) end;
  osSemaphoreRelease _ (h : @hw irq_sim) := (osOK, (fst h, Nat.min 1 (S (snd h))));
  osSemaphoreDelete _ h := (osOK, h);
|}.
#[export] Existing Instance irq_rtos.

Definition irq_laws : RtosLaws irq_sim irq_rtos.
Proof.
  refine {| queue := fun _ _ => None; tokens := fun h _ => Some (snd (h : @hw irq_sim)) |}; try (intros; discriminate).
  - intros n size [r k] H p; by destruct H.
  - by intros sem t [r k] n [= ->].
  - by intros sem [r k] n [= ->].
Defined.

Definition irq_device : EthIrq irq_sim irq_rtos irq_laws.
Proof.
  refine {| dmasr := fun h : @hw irq_sim => u32 (fst h) |}.
  - intros [r k]. cbn -[u32]. split; [apply u32_idemp|done].
  - intros v [r k]. cbn -[u32]. split; [|done]. unfold u32. rewrite <- !(Z.land_ones _ 32) by lia.
    apply Z.bits_inj'. intros i Hi. rewrite !Z.land_spec.
    by destruct (Z.testbit r i), (Z.testbit (Z.ones 32) i), (Z.testbit (not32 v) i).
  - done.
Defined.

(** The lock of the interrupted thread is gone. *)
Definition irq_start : mach eth_glob :=
  @Mach irq_sim eth_glob (0x10040, 0%nat) []
    (EthGlob (EthHandle ETH (EthInit 1 0 0 1 None 1 0 0) 0 0 0 (RxInfos 0 0 0 0 0) HAL_ETH_STATE_BUSY_TX true) 1 clk_init).

Lemma HAL_ETH_IRQHandler_acknowledges_witness :
  wp HAL_ETH_IRQHandler irq_start (fun _ s' =>
    dmasr (EthIrq := irq_device) (dev s') = 0 /\ tokens (RtosLaws := irq_laws) (dev s') 1 = Some 1%nat /\
    eth_Lock (heth (glb irq_start)) = true /\ eth_Lock (heth (glb s')) = false).
Proof.
  eapply wp_mono; [by apply (HAL_ETH_IRQHandler_acknowledges (E := irq_device) irq_start)|].
  intros u s' (Hd & Hh & Ht). split; [exact Hd|]. split; [by apply (Ht 0%nat)|]. split; [done|]. by rewrite Hh.
Defined.
