(* ===== verification/EthernetIf.v ===== *)
(** The network interface of lwIP, src/ethernetif.c: setting up the controller
    with its descriptor rings, sending a chain of packet buffers, receiving one,
    the receiving thread, and the PHY's sleep command.  Packet buffers are
    segments of memory; the pool they come from and the stack's input function
    are the class [NetStack]. *)
From S2P Require Import Prelude Machine SysArch FlashHal Eeprom Reset Cortex Gpio Clock EthHal.

#[local] Open Scope fw_scope.

Definition ETH_PHY_ADDRESS : Z := 3.
Definition MAC_EEPROM_ADDR : Z := 0x7FFF8.
Definition INTERFACE_THREAD_STACK_SIZE : Z := 512.
Definition osPriorityRealtime : Z := 48.
Definition TIME_WAITING_FOR_INPUT : Z := osWaitForever.
Definition ERR_USE : Z := -8.
Definition ETH_HWADDR_LEN : Z := 6.
Definition NETIF_FLAG_BROADCAST : Z := 0x02.
Definition NETIF_FLAG_LINK_UP : Z := 0x04.
Definition NETIF_FLAG_ETHARP : Z := 0x08.
(** The interface is called "st". *)
Definition IFNAME0 : Z := 115.
Definition IFNAME1 : Z := 116.

(** A [struct pbuf]: address and length of its payload.  A chain is the list of
    its buffers, the empty list is NULL. *)
Record seg := Seg { seg_payload : Z; seg_len : Z }.

(** The functions an interface can be given to send with. *)
Inductive output_fn := etharp_output_ | low_level_output_.

(** The fields of [struct netif] that the interface sets. *)
Record netif := Netif {
  if_name : Z * Z; if_output : option output_fn; if_linkoutput : option output_fn;
  if_hwaddr_len : Z; if_hwaddr : list Z; if_mtu : Z; if_flags : Z }.

(** [pbuf_alloc(PBUF_RAW, len, PBUF_POOL)], [netif->input] and [pbuf_free]. *)
Class NetStack (B : Bus) := {
  pool_alloc : Z -> hw -> list seg * hw;
  netif_input : list seg -> hw -> Z * hw;
  chain_free : list seg -> hw -> hw;
}.

(** Where the linker puts the descriptor tables and the buffers. *)
Class EthPlaces := {
  DMARxDscrTab : Z; DMATxDscrTab : Z; Rx_Buff : Z; Tx_Buff : Z;
  ethernetif_input_ : Z;
}.

Section ethernetif.
Context {B : Bus} {N : Narrow B} {R : Rtos B} {S : NetStack B} {P : EthPlaces}.
Abbreviation prog := (M (mach eth_glob)).

Definition memcpy (dst src n : Z) : prog unit :=
  for_each (zrange 0 (Z.to_nat n)) (fun i => b <- rd8 (src + i) ;; wr8 (dst + i) b).

(** ** Sending *)

(** [DmaTxDesc], [buffer], [bufferoffset] and [framelength] of low_level_output. *)
Record tx_cursor := TxCursor { tc_desc : Z; tc_buffer : Z; tc_off : Z; tc_frame : Z }.

Definition tx_owned (desc : Z) : prog bool := st <- rd (Status desc) ;; ret (any_bit st ETH_DMATXDESC_OWN).

(** Copy [left] bytes at [src]: whole buffers while they do not fit the rest of the
    current one, then what remains.  [None] is [goto error]. *)
Fixpoint tx_fill (fuel : nat) (c : tx_cursor) (src left : Z) : prog (option tx_cursor) :=
  match fuel with
  | O => spin
  | Datatypes.S n =>
      if ETH_TX_BUF_SIZE <? left + tc_off c then
        let room := ETH_TX_BUF_SIZE - tc_off c in
        memcpy (tc_buffer c + tc_off c) src room ;;
        d <- rd (Buffer2NextDescAddr (tc_desc c)) ;;
        o <- tx_owned d ;;
        if o : bool then ret None
        else
          b <- rd (Buffer1Addr d) ;;
          tx_fill n (TxCursor d b 0 (tc_frame c + room)) (src + room) (left - room)
      else
        memcpy (tc_buffer c + tc_off c) src left ;;
        ret (Some (TxCursor (tc_desc c) (tc_buffer c) (tc_off c + left) (tc_frame c + left)))
  end.

(** [for(q = p; q != NULL; q = q->next)] *)
Fixpoint tx_chain (fuel : nat) (p : list seg) (c : tx_cursor) : prog (option tx_cursor) :=
  match p with
  | [] => ret (Some c)
  | q :: p' =>
      o <- tx_owned (tc_desc c) ;;
      if o : bool then ret None
      else
        r <- tx_fill fuel c (seg_payload q) (seg_len q) ;;
        match r with
        | Some c' => tx_chain fuel p' c'
        | None => ret None
        end
  end.

Definition low_level_output (fuel : nat) (p : list seg) : prog Z :=
  h <- get_heth ;;
  buffer <- rd (Buffer1Addr (TxDesc h)) ;;
  r <- tx_chain fuel p (TxCursor (TxDesc h) buffer 0 0) ;;
  errval <- (match r with
             | Some c => HAL_ETH_TransmitFrame (tc_frame c) ;; ret ERR_OK
             | None => ret ERR_USE
             end) ;;
  resume ETH_DMASR_TUS DMATPDR ;;
  ret errval.

(** ** Receiving *)

(** [dmarxdesc], [buffer] and [bufferoffset] of low_level_input. *)
Record rx_cursor := RxCursor { rc_desc : Z; rc_buffer : Z; rc_off : Z }.

Fixpoint rx_copy (fuel : nat) (c : rx_cursor) (dst left : Z) : prog rx_cursor :=
  match fuel with
  | O => spin
  | Datatypes.S n =>
      if ETH_RX_BUF_SIZE <? left + rc_off c then
        let room := ETH_RX_BUF_SIZE - rc_off c in
        memcpy dst (rc_buffer c + rc_off c) room ;;
        d <- rd (Buffer2NextDescAddr (rc_desc c)) ;;
        b <- rd (Buffer1Addr d) ;;
        rx_copy n (RxCursor d b 0) (dst + room) (left - room)
      else
        memcpy dst (rc_buffer c + rc_off c) left ;;
        ret (RxCursor (rc_desc c) (rc_buffer c) (rc_off c + left))
  end.

Fixpoint rx_chain (fuel : nat) (p : list seg) (c : rx_cursor) : prog unit :=
  match p with
  | [] => ret tt
  | q :: p' => c' <- rx_copy fuel c (seg_payload q) (seg_len q) ;; rx_chain fuel p' c'
  end.

(** Give [n] descriptors from [desc] on back to the DMA. *)
Fixpoint rx_release (n : nat) (desc : Z) : prog unit :=
  match n with
  | O => ret tt
  | Datatypes.S n' =>
      set_bits (Status desc) ETH_DMARXDESC_OWN ;;
      d <- rd (Buffer2NextDescAddr desc) ;;
      rx_release n' d
  end.

Definition low_level_input (fuel : nat) : prog (list seg) :=
  st <- HAL_ETH_GetReceivedFrame_IT ;;
  if negb (st =? HAL_OK) then ret []
  else
    h <- get_heth ;;
    let len := u16 (rx_length (RxFrameInfos h)) in
    let buffer := rx_buffer (RxFrameInfos h) in
    p <- (if 0 <? len then kernel (pool_alloc len) else ret []) ;;
    rx_chain fuel p (RxCursor (FSRxDesc (RxFrameInfos h)) buffer 0) ;;
    rx_release (Z.to_nat (SegCount (RxFrameInfos h))) (FSRxDesc (RxFrameInfos h)) ;;
    modify_infos (set_SegCount 0) ;;
    resume ETH_DMASR_RBUS DMARPDR ;;
    ret p.

(** The body of [do ... while(p!=NULL)]: hand frames to the stack until there is
    no more. *)
Fixpoint drain (rounds fuel : nat) : prog unit :=
  match rounds with
  | O => spin
  | Datatypes.S n =>
      p <- low_level_input fuel ;;
      match p with
      | [] => ret tt
      | _ =>
          err <- kernel (netif_input p) ;;
          (if negb (err =? ERR_OK) then kernel (fun h => (tt, chain_free p h)) else ret tt) ;;
          drain n fuel
      end
  end.

(** One round of the thread: wait for the semaphore and drain. *)
Definition ethernetif_input_round (fuel : nat) : prog unit :=
  g <- get_ ;;
  st <- kernel (osSemaphoreAcquire (s_xSemaphore g) TIME_WAITING_FOR_INPUT) ;;
  if st =? osOK then drain fuel fuel else ret tt.

(** The thread, for [rounds] rounds. *)
Definition ethernetif_input (rounds fuel : nat) : prog unit :=
  for_each (zrange 0 rounds) (fun _ => ethernetif_input_round fuel).

Definition ETH_IRQHandler : prog unit := HAL_ETH_IRQHandler.

(** [phy_reg] is not initialised: using it after a read that failed is undefined. *)
Definition ethernetif_enter_sleep (fuel : nat) : prog unit :=
  r <- HAL_ETH_ReadPHYRegister fuel 17 ;;
  phy_reg <- deref (snd r) ;;
  let phy_reg := (phy_reg .& not32 (0xF .<< 11)) .| (0xB .<< 11) in
  HAL_ETH_WritePHYRegister fuel 17 phy_reg ;; ret tt.
End ethernetif.

(** ** Setting up *)
Section setup.
Context {B : Bus} {N : Narrow B} {R : Rtos B} {P : EthPlaces}.
Context {G : Type} {HE : Has G eth_glob} {HM : Has G ee_glob}.
Abbreviation prog := (M (mach G)).

(** What [EEPROM_Read] left in the array, over what the stack held before. *)
Definition stored_over (l old : list Z) : list Z := l ++ drop (length l) old.

(** [old] is what the array of the MAC address holds at the start. *)
Definition low_level_init (fuel : nat) (old : list Z) (netif_addr : Z) (n : netif) : prog netif :=
  call (G := G) (modify_heth (fun h => set_Instance ETH (set_link ETH_SPEED_100M ETH_MODE_FULLDUPLEX h))) ;;
  r <- call (G := G) (EEPROM_Read fuel MAC_EEPROM_ADDR true 6) ;;
  let MACAddr := stored_over (snd r) old in
  call (G := G) (modify_heth (set_Init
    (EthInit ETH_AUTONEGOTIATION_ENABLE ETH_SPEED_100M ETH_MODE_FULLDUPLEX ETH_PHY_ADDRESS
       (Some MACAddr) ETH_RXINTERRUPT_MODE ETH_CHECKSUM_BY_HARDWARE ETH_MEDIA_INTERFACE_RMII))) ;;
  st <- call (G := G) (HAL_ETH_Init fuel false) ;;
  let flags := if st =? HAL_OK then if_flags n .| NETIF_FLAG_LINK_UP else if_flags n in
  call (G := G) (HAL_ETH_DMATxDescListInit DMATxDscrTab Tx_Buff ETH_TXBUFNB) ;;
  call (G := G) (HAL_ETH_DMARxDescListInit DMARxDscrTab Rx_Buff ETH_RXBUFNB) ;;
  sem <- kernel (osSemaphoreNew 1 1) ;;
  call (G := G) (modify_ (fun g => EthGlob (heth g) sem (eth_clk g))) ;;
  kernel (osThreadNew ethernetif_input_ netif_addr (0, INTERFACE_THREAD_STACK_SIZE, osPriorityRealtime)) ;;
  call (G := G) HAL_ETH_Start ;;
  call (G := G) (modify_heth (set_MACAddr None)) ;;
  ret (Netif (if_name n) (if_output n) (if_linkoutput n) ETH_HWADDR_LEN MACAddr 1500
         (flags .| (NETIF_FLAG_BROADCAST .| NETIF_FLAG_ETHARP))).

Definition ethernetif_init (fuel : nat) (old : list Z) (netif_addr : Z) (n : netif) : prog (Z * netif) :=
  n <- low_level_init fuel old netif_addr
         (Netif (IFNAME0, IFNAME1) (Some etharp_output_) (Some low_level_output_)
            (if_hwaddr_len n) (if_hwaddr n) (if_mtu n) (if_flags n)) ;;
  ret (ERR_OK, n).
End setup.
