(* ===== verification/EthRing.v ===== *)
(** Memory shared with the Ethernet controller: what the controller makes of the
    descriptor rings, the laws of the memory behind the bus, and the descriptor
    lists of src/stm32f7xx_hal_eth.c.  The controller is taken to be at rest
    while a function of the driver runs. *)
From S2P Require Import Prelude Machine SysArch FlashHal Clock EthHal EthernetIf.

#[local] Open Scope fw_scope.

(** * Memory *)

(** Words of descriptors and bytes of buffers. *)
Record mem := Mem { words : Z -> Z; bytes : Z -> Z }.
Definition wd (m : mem) (a : Z) : Z := u32 (words m a).
Definition bt (m : mem) (a : Z) : Z := u8 (bytes m a).
Definition bytes_at (m : mem) (a n : Z) : list Z := bt m <$> zrange a (Z.to_nat n).

Definition eth_reg (a : Z) : Prop := ETH <= a < ETH + 0x1400.

(** Memory is at the descriptor words [is_desc] and the buffer bytes [is_buf];
    the registers of the controller do not touch it. *)
Class EthMem (B : Bus) (N : Narrow B) (is_desc is_buf : Z -> Prop) := {
  view : hw -> mem;
  desc_rd a h : is_desc a -> fst (mmio_rd a h) = words (view h) a /\ view (snd (mmio_rd a h)) = view h;
  desc_wr a v h : is_desc a -> view (mmio_wr a v h) = Mem (upd (words (view h)) a v) (bytes (view h));
  buf_rd a h : is_buf a -> fst (mmio_rd8 a h) = bytes (view h) a /\ view (snd (mmio_rd8 a h)) = view h;
  buf_wr a v h : is_buf a -> view (mmio_wr8 a v h) = Mem (words (view h)) (upd (bytes (view h)) a v);
  ereg_rd a h : eth_reg a -> view (snd (mmio_rd a h)) = view h;
  ereg_wr a v h : eth_reg a -> view (mmio_wr a v h) = view h;
}.

(** * What the controller does with the rings *)

(** A frame to be sent: buffers from a descriptor with FIRST to one with LAST, all
    owned by the controller; the bytes and the descriptor behind. *)
Fixpoint dma_fetch (n : nat) (first : bool) (m : mem) (d : Z) : option (list Z * Z) :=
  match n with
  | O => None
  | S n' =>
      let st := wd m (Status d) in
      let bs := bytes_at m (wd m (Buffer1Addr d)) (wd m (ControlBufferSize d) .& 0x1FFF) in
      let next := wd m (Buffer2NextDescAddr d) in
      if negb (Z.testbit st 31) || negb (Bool.eqb (Z.testbit st 28) first) then None
      else if Z.testbit st 29 then Some (bs, next)
      else option_map (fun r => (bs ++ fst r, snd r)) (dma_fetch n' false m next)
  end.

(** A received frame: descriptors from one with FIRST to one with LAST, none owned by
    the controller, and the status of the last one, with the frame's length. *)
Fixpoint dma_segments (n : nat) (first : bool) (m : mem) (d : Z) : option (list Z * Z) :=
  match n with
  | O => None
  | S n' =>
      let st := wd m (Status d) in
      if Z.testbit st 31 || negb (Bool.eqb (Z.testbit st 9) first) then None
      else if Z.testbit st 8 then Some ([d], st)
      else option_map (fun r => (d :: fst r, snd r)) (dma_segments n' false m (wd m (Buffer2NextDescAddr d)))
  end.

(** Its bytes, without the CRC. *)
Definition frame_length (st : Z) : Z := bits st 16 14 - 4.
Definition frame_bytes (m : mem) (ds : list Z) (st : Z) : list Z :=
  take (Z.to_nat (frame_length st)) (concat ((fun d => bytes_at m (wd m (Buffer1Addr d)) ETH_RX_BUF_SIZE) <$> ds)).

(** * Rings of four descriptors *)

(** Descriptor [i] of the table at [tab], and its buffer; [i] counts round the ring. *)
Definition desc_i (tab i : Z) : Z := tab + DESC_SIZE * (i mod 4).
Definition buf_i (buff i : Z) : Z := buff + (i mod 4) * 1524.

Definition ring (tab buff : Z) (m : mem) : Prop :=
  forall i, wd m (Buffer2NextDescAddr (desc_i tab i)) = desc_i tab (i + 1) /\
            wd m (Buffer1Addr (desc_i tab i)) = buf_i buff i.

(** The words of the table at [tab]. *)
Definition table_word (tab a : Z) : Prop :=
  exists i, a = Status (desc_i tab i) \/ a = ControlBufferSize (desc_i tab i) \/
            a = Buffer1Addr (desc_i tab i) \/ a = Buffer2NextDescAddr (desc_i tab i).

(** A table and buffers that fit the address space. *)
Definition placed (tab buff : Z) : Prop :=
  0 <= tab /\ tab + 4 * DESC_SIZE < 2 ^ 32 /\ 0 <= buff /\ buff + 4 * 1524 < 2 ^ 32.

Lemma desc_i_mod tab i : desc_i tab (i mod 4) = desc_i tab i.
Proof. unfold desc_i. by rewrite Z.mod_mod. Qed.

Lemma buf_i_mod buff i : buf_i buff (i mod 4) = buf_i buff i.
Proof. unfold buf_i. by rewrite Z.mod_mod. Qed.

Lemma desc_i_next tab i : desc_i tab (i mod 4 + 1) = desc_i tab (i + 1).
Proof. unfold desc_i. by rewrite Z.add_mod_idemp_l. Qed.

Lemma desc_i_inj tab i j : desc_i tab i = desc_i tab j -> i mod 4 = j mod 4.
Proof. unfold desc_i, DESC_SIZE. lia. Qed.

(** A ring is established by looking at each of the four descriptors. *)
Lemma ring_intro tab buff m :
  (forall i, 0 <= i < 4 ->
     wd m (Buffer2NextDescAddr (desc_i tab i)) = desc_i tab (i + 1) /\
     wd m (Buffer1Addr (desc_i tab i)) = buf_i buff i) ->
  ring tab buff m.
Proof.
  intros H i. destruct (H (i mod 4)) as [Hn Hb]; [by apply Z.mod_pos_bound|].
  by rewrite desc_i_mod, desc_i_next, buf_i_mod in *.
Qed.

(** Unfold descriptor words to addresses. *)
Ltac desc_addr := unfold Status, ControlBufferSize, Buffer1Addr, Buffer2NextDescAddr, desc_i, DESC_SIZE in *.

Section memory.
Context {B : Bus} {N : Narrow B} {is_desc is_buf : Z -> Prop} {E : EthMem B N is_desc is_buf}.
Implicit Types s : mach eth_glob.

Definition mem_of s : mem := view (dev s).

Lemma wp_desc_rd a s (Q : Z -> mach eth_glob -> Prop) :
  is_desc a -> (forall s', mem_of s' = mem_of s -> glb s' = glb s -> Q (wd (mem_of s) a) s') ->
  wp (rd a) s Q.
Proof.
  intros Ha HQ. apply wp_rd. destruct (desc_rd a (dev s) Ha) as [Hv Hs]. rewrite Hv. by apply HQ.
Qed.

Lemma wp_desc_wr a v s (Q : unit -> mach eth_glob -> Prop) :
  is_desc a ->
  (forall s', mem_of s' = Mem (upd (words (mem_of s)) a (u32 v)) (bytes (mem_of s)) ->
     glb s' = glb s -> Q tt s') ->
  wp (wr a v) s Q.
Proof. intros Ha HQ. apply wp_wr, HQ; [|done]. by apply desc_wr. Qed.

Lemma wp_desc_rmw a f s (Q : unit -> mach eth_glob -> Prop) :
  is_desc a ->
  (forall s', mem_of s' = Mem (upd (words (mem_of s)) a (u32 (f (wd (mem_of s) a)))) (bytes (mem_of s)) ->
     glb s' = glb s -> Q tt s') ->
  wp (rmw a f) s Q.
Proof.
  intros Ha HQ. unfold rmw. apply wp_bind, wp_desc_rd; [done|]. intros s1 H1 G1.
  apply wp_desc_wr; [done|]. intros s2 H2 G2. apply HQ; congruence.
Qed.

Lemma wp_modify_heth f s (Q : unit -> mach eth_glob -> Prop) :
  (forall s', mem_of s' = mem_of s -> heth (glb s') = f (heth (glb s)) -> Q tt s') ->
  wp (modify_heth f) s Q.
Proof. intros HQ. by apply wp_modify, HQ. Qed.

Definition ereg_off (off : Z) : Prop := 0 <= off < 0x1400.

Lemma wp_erd off s (Q : Z -> mach eth_glob -> Prop) :
  eth_Instance (heth (glb s)) = ETH -> ereg_off off ->
  (forall v s', mem_of s' = mem_of s -> glb s' = glb s -> Q v s') ->
  wp (erd off) s Q.
Proof.
  intros Hi Ho HQ. unfold erd. apply wp_bind, wp_get_heth, wp_rd, HQ; [|done].
  apply ereg_rd. rewrite Hi. unfold eth_reg, ereg_off in *. lia.
Qed.

Lemma wp_ewr off v s (Q : unit -> mach eth_glob -> Prop) :
  eth_Instance (heth (glb s)) = ETH -> ereg_off off ->
  (forall s', mem_of s' = mem_of s -> glb s' = glb s -> Q tt s') ->
  wp (ewr off v) s Q.
Proof.
  intros Hi Ho HQ. unfold ewr. apply wp_bind, wp_get_heth, wp_wr, HQ; [|done].
  apply ereg_wr. rewrite Hi. unfold eth_reg, ereg_off in *. lia.
Qed.

Lemma wp_resume flag demand s (Q : unit -> mach eth_glob -> Prop) :
  eth_Instance (heth (glb s)) = ETH -> ereg_off demand ->
  (forall s', mem_of s' = mem_of s -> glb s' = glb s -> Q tt s') ->
  wp (resume flag demand) s Q.
Proof.
  intros Hi Hd HQ. unfold resume. apply wp_bind, wp_erd; [done|by vm_compute|]. intros v s1 H1 G1.
  destruct (any_bit v flag); [|apply wp_ret, HQ; congruence].
  apply wp_bind, wp_ewr; [congruence|by vm_compute|]. intros s2 H2 G2.
  apply wp_ewr; [congruence|done|]. intros s3 H3 G3. apply HQ; congruence.
Qed.

(** An operation under the lock. *)
Lemma wp_eth_lock body s (Q : Z -> mach eth_glob -> Prop) :
  (eth_Lock (heth (glb s)) = true -> Q HAL_BUSY s) ->
  (eth_Lock (heth (glb s)) = false ->
     forall s', mem_of s' = mem_of s -> heth (glb s') = set_eth_Lock true (heth (glb s)) -> wp body s' Q) ->
  wp (eth_lock body) s Q.
Proof.
  intros Ht Hf. unfold eth_lock. apply wp_bind, wp_get_heth.
  destruct (eth_Lock (heth (glb s))); [apply wp_ret; by apply Ht|].
  apply wp_bind, wp_modify_heth. intros s' Hm Hh. by apply Hf.
Qed.

(** ** Words of a memory that was written to *)

Lemma wd_upd m a v x : wd (Mem (upd (words m) a v) (bytes m)) x = if x =? a then u32 v else wd m x.
Proof. unfold wd, upd. cbn. by destruct (x =? a). Qed.

Lemma wd_range m a : 0 <= wd m a < 2 ^ 32.
Proof. apply u32_range. Qed.
End memory.

(** * Changes to descriptors *)

(** Descriptors of a table that are not the same share no words. *)
Lemma desc_i_apart tab i j :
  i mod 4 <> j mod 4 -> 32 <= desc_i tab i - desc_i tab j \/ desc_i tab i - desc_i tab j <= -32.
Proof. unfold desc_i, DESC_SIZE. lia. Qed.

(** Only the status and size of descriptor [i] have changed. *)
Definition only_desc (tab : Z) (m m' : mem) (i : Z) : Prop :=
  bytes m' = bytes m /\
  forall a, a <> Status (desc_i tab i) -> a <> ControlBufferSize (desc_i tab i) -> wd m' a = wd m a.

Lemma only_desc_ring tab buff m m' i : only_desc tab m m' i -> ring tab buff m -> ring tab buff m'.
Proof.
  intros [_ Ho] Hr j. destruct (Hr j) as [Hn Hb].
  assert (desc_i tab i = desc_i tab j \/ 32 <= desc_i tab i - desc_i tab j \/ desc_i tab i - desc_i tab j <= -32).
  { unfold desc_i, DESC_SIZE. lia. }
  unfold Status, ControlBufferSize, Buffer1Addr, Buffer2NextDescAddr in *.
  by rewrite !Ho by lia.
Qed.

Section changes.
Context {B : Bus} {N : Narrow B} {is_desc is_buf : Z -> Prop} {E : EthMem B N is_desc is_buf}.
Implicit Types s : mach eth_glob.

(** One word was written. *)
Definition wrote (m m' : mem) (a v : Z) : Prop :=
  bytes m' = bytes m /\ forall x, wd m' x = if x =? a then v else wd m x.

Lemma wp_wrote_wr a v s (Q : unit -> mach eth_glob -> Prop) :
  is_desc a -> (forall s', wrote (mem_of s) (mem_of s') a (u32 v) -> glb s' = glb s -> Q tt s') ->
  wp (wr a v) s Q.
Proof.
  intros Ha HQ. apply wp_desc_wr; [done|]. intros s' M G. apply HQ; [|done].
  rewrite M. split; [done|]. intros x. by rewrite wd_upd, u32_idemp.
Qed.

Lemma wp_wrote_if (b : bool) a f s (Q : unit -> mach eth_glob -> Prop) :
  is_desc a ->
  (forall s', wrote (mem_of s) (mem_of s') a (if b then u32 (f (wd (mem_of s) a)) else wd (mem_of s) a) ->
     glb s' = glb s -> Q tt s') ->
  wp (if b then rmw a f else ret tt) s Q.
Proof.
  intros Ha HQ. destruct b.
  - apply wp_desc_rmw; [done|]. intros s' M G. apply HQ; [|done].
    rewrite M. split; [done|]. intros x. by rewrite wd_upd, u32_idemp.
  - apply wp_ret, HQ; [|done]. split; [done|]. intros x. by destruct (Z.eqb_spec x a) as [->|].
Qed.
End changes.

(** * The descriptor lists *)

(** A descriptor of a fresh send ring: free, chained, with its buffer. *)
Definition tx_fresh (tab buff : Z) (m : mem) (i : Z) : Prop :=
  wd m (Buffer2NextDescAddr (desc_i tab i)) = desc_i tab (i + 1) /\
  wd m (Buffer1Addr (desc_i tab i)) = buf_i buff i /\
  Z.testbit (wd m (Status (desc_i tab i))) 31 = false.

(** A descriptor of a fresh receive ring: owned by the controller, with a buffer of
    1524 bytes, and an interrupt when a frame ends there. *)
Definition rx_fresh (tab buff : Z) (m : mem) (i : Z) : Prop :=
  wd m (Buffer2NextDescAddr (desc_i tab i)) = desc_i tab (i + 1) /\
  wd m (Buffer1Addr (desc_i tab i)) = buf_i buff i /\
  wd m (Status (desc_i tab i)) = ETH_DMARXDESC_OWN /\
  wd m (ControlBufferSize (desc_i tab i)) = ETH_DMARXDESC_RCH .| ETH_RX_BUF_SIZE.

Lemma next_desc_i tab i : 0 <= i < 4 -> next_desc tab i 4 = desc_i tab (i + 1).
Proof. intros Hi. unfold next_desc, desc_i, DESC_SIZE. change (u32 (4 - 1)) with 3. zcase; zlia. Qed.

Lemma desc_i_small tab i : 0 <= i < 4 -> tab + DESC_SIZE * i = desc_i tab i.
Proof. intros. unfold desc_i. by rewrite Z.mod_small. Qed.

Lemma buf_i_small buff i : 0 <= i < 4 -> buff + i * 1524 = buf_i buff i.
Proof. intros. unfold buf_i. by rewrite Z.mod_small. Qed.

Lemma placed_range tab buff i :
  placed tab buff -> 0 <= desc_i tab i < 2 ^ 32 /\ 0 <= buf_i buff i < 2 ^ 32.
Proof.
  intros (? & ? & ? & ?). unfold desc_i, buf_i, DESC_SIZE in *.
  pose proof (Z.mod_pos_bound i 4 ltac:(lia)). lia.
Qed.

Lemma u32_desc_i tab buff i : placed tab buff -> u32 (desc_i tab i) = desc_i tab i.
Proof. intros H. apply u32_small, (placed_range tab buff i H). Qed.

Lemma u32_buf_i tab buff i : placed tab buff -> u32 (buf_i buff i) = buf_i buff i.
Proof. intros H. apply u32_small, (placed_range tab buff i H). Qed.

(** Words of other descriptors keep their values; evaluate the words of this one. *)
Ltac words_of :=
  repeat match goal with
  | |- context [?a =? ?b] => first
      [ replace (a =? b) with true by (symmetry; apply Z.eqb_eq; lia)
      | replace (a =? b) with false by (symmetry; apply Z.eqb_neq; lia) ]
  end.

Section lists.
Context {B : Bus} {N : Narrow B} {is_desc is_buf : Z -> Prop} {E : EthMem B N is_desc is_buf}.
Context (tab buff : Z) (Hp : placed tab buff) (Htab : forall a, table_word tab a -> is_desc a).
Implicit Types s : mach eth_glob.

Lemma desc_words i :
  is_desc (Status (desc_i tab i)) /\ is_desc (ControlBufferSize (desc_i tab i)) /\
  is_desc (Buffer1Addr (desc_i tab i)) /\ is_desc (Buffer2NextDescAddr (desc_i tab i)).
Proof. repeat split; apply Htab; exists i; tauto. Qed.

(** Distinct descriptors of the table share no words. *)
Lemma words_apart i k :
  0 <= i < 4 -> 0 <= k < 4 -> i <> k ->
  32 <= desc_i tab k - desc_i tab i \/ desc_i tab k - desc_i tab i <= -32.
Proof. intros. rewrite <- !desc_i_small by lia. unfold DESC_SIZE. lia. Qed.

Lemma wp_tx_desc_init k s (Q : unit -> mach eth_glob -> Prop) :
  0 <= k < 4 ->
  (forall v s', glb s' = glb s -> Z.testbit v 31 = false ->
     (forall a, wd (mem_of s') a =
        if a =? Buffer2NextDescAddr (desc_i tab k) then desc_i tab (k + 1)
        else if a =? Status (desc_i tab k) then v
        else if a =? Buffer1Addr (desc_i tab k) then buf_i buff k else wd (mem_of s) a) -> Q tt s') ->
  wp (tx_desc_init tab buff 4 k) s Q.
Proof.
  intros Hk HQ. unfold tx_desc_init. rewrite desc_i_small by lia.
  destruct (desc_words k) as (Ws & Wc & Wb & Wn).
  apply wp_bind, wp_desc_wr; [done|]. intros t1 T1 G1.
  apply wp_bind, wp_desc_wr; [done|]. intros t2 T2 G2.
  apply wp_bind, wp_get_heth. apply wp_bind.
  eapply (wp_mono _ _ (fun _ u => glb u = glb t2 /\ exists v, Z.testbit v 31 = false /\
    forall a, wd (mem_of u) a = if a =? Status (desc_i tab k) then v else wd (mem_of t2) a)).
  { destruct (_ =? _).
    - apply wp_desc_rmw; [done|]. intros u U GU. split; [done|].
      eexists. split; [|intros a; by rewrite U, wd_upd, u32_idemp].
      rewrite T2, T1, !wd_upd. desc_addr. words_of. reflexivity.
    - apply wp_ret. split; [done|]. exists ETH_DMATXDESC_TCH. split; [done|]. intros a.
      destruct (Z.eqb_spec a (Status (desc_i tab k))) as [->|]; [|done].
      rewrite T2, T1, !wd_upd. desc_addr. words_of. reflexivity. }
  intros _ t3 [G3 (v & Hv & T3)]. apply wp_desc_wr; [done|]. intros t4 T4 G4.
  apply (HQ v); [congruence|done|]. intros a.
  rewrite T4, wd_upd, next_desc_i, u32_idemp, (u32_desc_i tab buff), T3, T2, T1, !wd_upd by (done || lia).
  rewrite buf_i_small, u32_idemp, (u32_buf_i tab) by (done || lia).
  destruct (a =? Buffer2NextDescAddr _); [done|]. by destruct (Z.eqb_spec a (Status (desc_i tab k))).
Qed.

Lemma wp_rx_desc_init k s (Q : unit -> mach eth_glob -> Prop) :
  0 <= k < 4 ->
  (forall s', glb s' = glb s ->
     (forall a, wd (mem_of s') a =
        if a =? Buffer2NextDescAddr (desc_i tab k) then desc_i tab (k + 1)
        else if a =? ControlBufferSize (desc_i tab k) then ETH_DMARXDESC_RCH .| ETH_RX_BUF_SIZE
        else if a =? Buffer1Addr (desc_i tab k) then buf_i buff k
        else if a =? Status (desc_i tab k) then ETH_DMARXDESC_OWN else wd (mem_of s) a) -> Q tt s') ->
  wp (rx_desc_init tab buff 4 k) s Q.
Proof.
  intros Hk HQ. unfold rx_desc_init. rewrite desc_i_small by lia.
  destruct (desc_words k) as (Ws & Wc & Wb & Wn).
  apply wp_bind, wp_desc_wr; [done|]. intros t1 T1 G1.
  apply wp_bind, wp_desc_wr; [done|]. intros t2 T2 G2.
  apply wp_bind, wp_desc_wr; [done|]. intros t3 T3 G3.
  apply wp_bind, wp_get_heth. apply wp_bind.
  eapply (wp_mono _ _ (fun _ u => glb u = glb t3 /\ forall a, wd (mem_of u) a =
    if a =? ControlBufferSize (desc_i tab k) then ETH_DMARXDESC_RCH .| ETH_RX_BUF_SIZE else wd (mem_of t3) a)).
  { destruct (_ =? _).
    - apply wp_desc_rmw; [done|]. intros u U GU. split; [done|]. intros a.
      rewrite U, wd_upd, T3, T2, T1, !wd_upd. desc_addr. words_of. reflexivity.
    - apply wp_ret. split; [done|]. intros a.
      destruct (Z.eqb_spec a (ControlBufferSize (desc_i tab k))) as [->|]; [|done].
      rewrite T3, T2, T1, !wd_upd. desc_addr. words_of. reflexivity. }
  intros _ t4 [G4 T4]. apply wp_desc_wr; [done|]. intros t5 T5 G5.
  apply HQ; [congruence|]. intros a.
  rewrite T5, wd_upd, next_desc_i, u32_idemp, (u32_desc_i tab buff), T4, T3, T2, T1, !wd_upd by (done || lia).
  rewrite buf_i_small, u32_idemp, (u32_buf_i tab) by (done || lia).
  destruct (a =? Buffer2NextDescAddr _); [done|].
  by destruct (Z.eqb_spec a (ControlBufferSize (desc_i tab k))).
Qed.

(** The loop establishes [F] of every descriptor, when a round does for its own and
    keeps it for the others. *)
Lemma wp_desc_loop (F : mem -> Z -> Prop) body s (Q : unit -> mach eth_glob -> Prop) :
  (forall k t, 0 <= k < 4 -> (forall i, 0 <= i < k -> F (mem_of t) i) ->
     wp (body k) t (fun _ t' => glb t' = glb t /\ forall i, 0 <= i <= k -> F (mem_of t') i)) ->
  (forall s', glb s' = glb s -> (forall i, F (mem_of s') (i mod 4)) -> Q tt s') ->
  wp (for_each (zrange 0 4) body) s Q.
Proof.
  intros Hstep HQ.
  apply (wp_for_range (fun k t => glb t = glb s /\ forall i, 0 <= i < k -> F (mem_of t) i)).
  - split; [done|]. lia.
  - intros k t Hk [Ht HF]. eapply wp_mono; [by apply Hstep|]. intros _ t' [Ht' HF'].
    split; [congruence|]. intros i Hi. apply HF'. lia.
  - cbn [Z.of_nat]. intros t [Ht HF]. apply HQ; [done|]. intros i. apply HF.
    pose proof (Z.mod_pos_bound i 4 ltac:(lia)). lia.
Qed.

(** Both initialisations end the same way. *)
Lemma wp_list_end off s (Q : Z -> mach eth_glob -> Prop) :
  eth_Instance (heth (glb s)) = ETH -> ereg_off off ->
  (forall s', mem_of s' = mem_of s ->
     heth (glb s') = set_eth_Lock false (set_State HAL_ETH_STATE_READY (heth (glb s))) -> Q HAL_OK s') ->
  wp (ewr off tab ;; eth_state HAL_ETH_STATE_READY ;; eth_unlock ;; ret HAL_OK) s Q.
Proof.
  intros Hi Ho HQ. apply wp_bind, wp_ewr; [done..|]. intros t1 T1 G1.
  apply wp_bind, wp_modify_heth. intros t2 T2 G2. apply wp_bind, wp_modify_heth. intros t3 T3 G3.
  apply wp_ret, HQ; [congruence|]. by rewrite G3, G2, G1.
Qed.

Lemma ring_fresh m :
  (forall i, wd m (Buffer2NextDescAddr (desc_i tab (i mod 4))) = desc_i tab (i mod 4 + 1) /\
             wd m (Buffer1Addr (desc_i tab (i mod 4))) = buf_i buff (i mod 4)) -> ring tab buff m.
Proof. intros H i. destruct (H i) as [Hn Hb]. by rewrite desc_i_mod, desc_i_next, buf_i_mod in *. Qed.

Lemma desc_i_0 : desc_i tab 0 = tab.
Proof. unfold desc_i. change (0 mod 4) with 0. lia. Qed.

(** HAL_ETH_DMATxDescListInit, when the handle is not locked, makes the table
    a ring of four free descriptors, each with its buffer, and starts with the
    first; it returns HAL_OK with the handle ready and unlocked. *)
Theorem HAL_ETH_DMATxDescListInit_ring s :
  eth_Lock (heth (glb s)) = false -> eth_Instance (heth (glb s)) = ETH ->
  wp (HAL_ETH_DMATxDescListInit tab buff ETH_TXBUFNB) s (fun r s' =>
    r = HAL_OK /\ ring tab buff (mem_of s') /\
    (forall i, Z.testbit (wd (mem_of s') (Status (desc_i tab i))) 31 = false) /\
    TxDesc (heth (glb s')) = desc_i tab 0 /\
    eth_State (heth (glb s')) = HAL_ETH_STATE_READY /\ eth_Lock (heth (glb s')) = false).
Proof.
  intros Hl Hi. apply wp_eth_lock; [congruence|]. intros _ s1 M1 H1.
  apply wp_bind, wp_modify_heth. intros s2 M2 H2. apply wp_bind, wp_modify_heth. intros s3 M3 H3.
  apply wp_bind, (wp_desc_loop (tx_fresh tab buff)).
  - intros k t Hk Hfr. apply wp_tx_desc_init; [done|]. intros v t' Gt' Hv Hw. split; [done|].
    intros i Hik. unfold tx_fresh. rewrite !Hw. destruct (decide (i = k)) as [->|Hne].
    + desc_addr. by words_of.
    + destruct (Hfr i) as (Hn & Hb & Hs); [lia|]. pose proof (words_apart i k).
      unfold Status, Buffer1Addr, Buffer2NextDescAddr in *. by words_of.
  - intros t Gt Hfr. apply wp_list_end; [rewrite Gt, H3, H2, H1; done|by vm_compute|].
    intros t' T' G'. rewrite T', G', Gt, H3, H2, H1, desc_i_0. split; [done|]. split; [|split; [|done]].
    + apply ring_fresh. intros i. by destruct (Hfr i) as (? & ? & _).
    + intros i. destruct (Hfr i) as (_ & _ & Hs). by rewrite desc_i_mod in Hs.
Qed.

(** HAL_ETH_DMARxDescListInit, when the handle is not locked, makes the table
    a ring of four descriptors owned by the controller, each with its buffer of
    1524 bytes and chained to the next, and starts with the first; it returns
    HAL_OK with the handle ready and unlocked. *)
Theorem HAL_ETH_DMARxDescListInit_ring s :
  eth_Lock (heth (glb s)) = false -> eth_Instance (heth (glb s)) = ETH ->
  wp (HAL_ETH_DMARxDescListInit tab buff ETH_RXBUFNB) s (fun r s' =>
    r = HAL_OK /\ ring tab buff (mem_of s') /\
    (forall i, wd (mem_of s') (Status (desc_i tab i)) = ETH_DMARXDESC_OWN /\
       wd (mem_of s') (ControlBufferSize (desc_i tab i)) = ETH_DMARXDESC_RCH .| ETH_RX_BUF_SIZE) /\
    RxDesc (heth (glb s')) = desc_i tab 0 /\
    eth_State (heth (glb s')) = HAL_ETH_STATE_READY /\ eth_Lock (heth (glb s')) = false).
Proof.
  intros Hl Hi. apply wp_eth_lock; [congruence|]. intros _ s1 M1 H1.
  apply wp_bind, wp_modify_heth. intros s2 M2 H2. apply wp_bind, wp_modify_heth. intros s3 M3 H3.
  apply wp_bind, (wp_desc_loop (rx_fresh tab buff)).
  - intros k t Hk Hfr. apply wp_rx_desc_init; [done|]. intros t' Gt' Hw. split; [done|].
    intros i Hik. unfold rx_fresh. rewrite !Hw. destruct (decide (i = k)) as [->|Hne].
    + desc_addr. by words_of.
    + destruct (Hfr i) as (Hn & Hb & Hs & Hc); [lia|]. pose proof (words_apart i k).
      unfold Status, ControlBufferSize, Buffer1Addr, Buffer2NextDescAddr in *. by words_of.
  - intros t Gt Hfr. apply wp_list_end; [rewrite Gt, H3, H2, H1; done|by vm_compute|].
    intros t' T' G'. rewrite T', G', Gt, H3, H2, H1, desc_i_0. split; [done|]. split; [|split; [|done]].
    + apply ring_fresh. intros i. by destruct (Hfr i) as (? & ? & _).
    + intros i. destruct (Hfr i) as (_ & _ & Hs & Hc). by rewrite desc_i_mod in Hs, Hc.
Qed.
End lists.

(** * A simulated device: memory, and registers that do nothing *)

Definition eth_sim : Bus := {|
  hw := mem;
  mmio_rd a h := (words h a, h);
  mmio_wr a v h := if (ETH <=? a) && (a <? ETH + 0x1400) then h else Mem (upd (words h) a v) (bytes h);
  ktick h := (0, h);
  os_delay _ h := h;
|}.

#[export] Instance eth_sim_narrow : Narrow eth_sim := {|
  mmio_rd8 a (h : @hw eth_sim) := (bytes h a, h);
  mmio_wr8 a v (h : @hw eth_sim) := Mem (words h) (upd (bytes h) a v);
  mmio_wr16 _ _ h := h;
|}.

#[export] Instance eth_sim_places : EthPlaces := {|
  DMATxDscrTab := 0x20000000; DMARxDscrTab := 0x20000080;
  Tx_Buff := 0x20001000; Rx_Buff := 0x20004000; ethernetif_input_ := 0x08040001 |}.

Definition sim_desc (a : Z) : Prop := 0x20000000 <= a < 0x20000100.
Definition sim_buf (a : Z) : Prop := 0x20001000 <= a < 0x20010000.

#[export] Instance eth_sim_mem : EthMem eth_sim eth_sim_narrow sim_desc sim_buf.
Proof.
  refine {| view (h : @hw eth_sim) := (h : mem) |}; unfold sim_desc, sim_buf, eth_reg; intros; cbn; try done.
  - unfold ETH in *. repeat zcase; (done || lia).
  - unfold ETH in *. repeat zcase; (done || lia).
Defined.

(** The words of a fresh ring of free descriptors. *)
Definition ring_words (tab buff a : Z) : Z :=
  if (tab <=? a) && (a <? tab + 128) then
    match (a - tab) mod 32 with
    | 8 => buf_i buff ((a - tab) / 32)
    | 12 => desc_i tab ((a - tab) / 32 + 1)
    | _ => 0
    end
  else 0.

Lemma ring_sim tab bs buff : placed tab buff -> ring tab buff (Mem (ring_words tab buff) bs).
Proof.
  intros Hp. apply ring_intro. intros i Hi. unfold wd, ring_words. cbn [words].
  rewrite <- (u32_desc_i tab buff (i + 1)), <- (u32_buf_i tab buff i) by done.
  unfold Buffer2NextDescAddr, Buffer1Addr. rewrite <- desc_i_small by done. unfold DESC_SIZE.
  replace (tab + 32 * i + 12 - tab) with (12 + i * 32) by lia. replace (tab + 32 * i + 8 - tab) with (8 + i * 32) by lia.
  rewrite !Z.mod_add, !Z.div_add by lia. change (12 mod 32) with 12. change (8 mod 32) with 8.
  change (12 / 32) with 0. change (8 / 32) with 0. rewrite !Z.add_0_l.
  repeat (zcase; [|lia]). done.
Qed.

Lemma sim_table_tx a : table_word DMATxDscrTab a -> sim_desc a.
Proof.
  intros (i & H). unfold sim_desc. cbn in H. desc_addr. pose proof (Z.mod_pos_bound i 4 ltac:(lia)). lia.
Qed.

Lemma sim_table_rx a : table_word DMARxDscrTab a -> sim_desc a.
Proof.
  intros (i & H). unfold sim_desc. cbn in H. desc_addr. pose proof (Z.mod_pos_bound i 4 ltac:(lia)). lia.
Qed.

(** The handle after initialisation, at the given descriptors. *)
Definition sim_glob (tx rx : Z) (locked : bool) : eth_glob :=
  EthGlob (EthHandle ETH (EthInit ETH_AUTONEGOTIATION_ENABLE ETH_SPEED_100M ETH_MODE_FULLDUPLEX ETH_PHY_ADDRESS
             None ETH_RXINTERRUPT_MODE ETH_CHECKSUM_BY_HARDWARE ETH_MEDIA_INTERFACE_RMII)
             0 rx tx (RxInfos 0 0 0 0 0) HAL_ETH_STATE_READY locked) 0 clk_init.

Definition blank_start : mach eth_glob :=
  @Mach eth_sim eth_glob (Mem (fun _ => 0) (fun _ => 0)) [] (sim_glob 0 0 false).

Lemma HAL_ETH_DMATxDescListInit_ring_witness :
  wp (HAL_ETH_DMATxDescListInit 0x20000000 0x20001000 ETH_TXBUFNB) blank_start (fun r s' =>
    r = HAL_OK /\ ring 0x20000000 0x20001000 (mem_of s')).
Proof.
  eapply wp_mono.
  - apply (HAL_ETH_DMATxDescListInit_ring (E := eth_sim_mem) 0x20000000 0x20001000); try reflexivity.
    + vm_compute. intuition congruence.
    + apply sim_table_tx.
  - intros r s' (-> & Hr & _). done.
Defined.

Lemma HAL_ETH_DMARxDescListInit_ring_witness :
  wp (HAL_ETH_DMARxDescListInit 0x20000080 0x20004000 ETH_RXBUFNB) blank_start (fun r s' =>
    r = HAL_OK /\ ring 0x20000080 0x20004000 (mem_of s')).
Proof.
  eapply wp_mono.
  - apply (HAL_ETH_DMARxDescListInit_ring (E := eth_sim_mem) 0x20000080 0x20004000); try reflexivity.
    + vm_compute. intuition congruence.
    + apply sim_table_rx.
  - intros r s' (-> & Hr & _). done.
Defined.
