(* ===== verification/EthCopy.v ===== *)
(** Copying between packet buffers and the controller's buffers: [memcpy] along
    two sequences of addresses, the addresses of a chain of packet buffers, and
    those of the buffers of a ring. *)
From S2P Require Import Prelude Machine SysArch FlashHal Clock EthHal EthernetIf EthRing.

#[local] Open Scope fw_scope.

(** ** Chains *)

(** The addresses of the bytes of a chain, in order, and the bytes. *)
Definition chain_addrs (p : list seg) : list Z :=
  concat ((fun q => zrange (seg_payload q) (Z.to_nat (seg_len q))) <$> p).
Definition chain_bytes (m : mem) (p : list seg) : list Z := bt m <$> chain_addrs p.
Definition chain_len (p : list seg) : Z := Z.of_nat (length (chain_addrs p)).
(** Byte [x] of the chain. *)
Definition chain_addr (p : list seg) (x : Z) : Z := nth (Z.to_nat x) (chain_addrs p) 0.

(** ** Buffers of a ring *)

(** Byte [x] of a frame whose first buffer is that of descriptor [k]. *)
Definition ring_addr (buff k x : Z) : Z := buf_i buff (k + x / 1524) + x mod 1524.

Lemma ring_addr_at buff k j o :
  0 <= o < 1524 -> ring_addr buff k (j * 1524 + o) = buf_i buff (k + j) + o.
Proof.
  intros Ho. unfold ring_addr. rewrite (Z.add_comm (j * 1524)), Z.div_add, Z.mod_add by lia.
  rewrite Z.div_small, Z.mod_small by lia. by rewrite Z.add_0_l.
Qed.

Lemma ring_addr_range buff k x : buff <= ring_addr buff k x < buff + 4 * 1524.
Proof.
  unfold ring_addr, buf_i. pose proof (Z.mod_pos_bound (k + x / 1524) 4 ltac:(lia)).
  pose proof (Z.mod_pos_bound x 1524 ltac:(lia)). lia.
Qed.

Lemma ring_addr_inj buff k x y :
  0 <= x < 4 * 1524 -> 0 <= y < 4 * 1524 -> ring_addr buff k x = ring_addr buff k y -> x = y.
Proof.
  unfold ring_addr, buf_i. intros Hx Hy Heq.
  pose proof (Z.div_mod x 1524 ltac:(lia)). pose proof (Z.div_mod y 1524 ltac:(lia)).
  pose proof (Z.mod_pos_bound x 1524 ltac:(lia)). pose proof (Z.mod_pos_bound y 1524 ltac:(lia)).
  assert ((k + x / 1524) mod 4 = (k + y / 1524) mod 4) as Hm by lia.
  assert (0 <= x / 1524 < 4) by zlia. assert (0 <= y / 1524 < 4) by zlia.
  assert (x / 1524 = y / 1524); [|lia]. zlia.
Qed.

(** ** Addresses of a chain *)

Lemma zrange_length lo n : length (zrange lo n) = n.
Proof. unfold zrange. rewrite length_seqZ. lia. Qed.

Lemma zrange_nth lo n i d : (i < n)%nat -> nth i (zrange lo n) d = lo + Z.of_nat i.
Proof.
  intros Hi. apply nth_lookup_Some. unfold zrange. apply lookup_seqZ. lia.
Qed.

Lemma zrange_app lo n1 n2 : zrange lo (n1 + n2) = zrange lo n1 ++ zrange (lo + Z.of_nat n1) n2.
Proof. unfold zrange. rewrite Nat2Z.inj_add. apply seqZ_app; lia. Qed.

Lemma chain_addrs_app p1 p2 : chain_addrs (p1 ++ p2) = chain_addrs p1 ++ chain_addrs p2.
Proof. unfold chain_addrs. by rewrite fmap_app, concat_app. Qed.

Lemma chain_addrs_cons q p :
  chain_addrs (q :: p) = zrange (seg_payload q) (Z.to_nat (seg_len q)) ++ chain_addrs p.
Proof. done. Qed.

Lemma chain_len_app p1 p2 : chain_len (p1 ++ p2) = chain_len p1 + chain_len p2.
Proof. unfold chain_len. rewrite chain_addrs_app, length_app. lia. Qed.

Lemma chain_len_cons q p : 0 <= seg_len q -> chain_len (q :: p) = seg_len q + chain_len p.
Proof. intros. unfold chain_len. rewrite chain_addrs_cons, length_app, zrange_length. lia. Qed.

Lemma chain_len_nonneg p : 0 <= chain_len p.
Proof. unfold chain_len. lia. Qed.

(** Within one buffer of the chain the addresses are consecutive. *)
Lemma chain_addr_seg p1 q p2 i :
  0 <= i < seg_len q -> chain_addr (p1 ++ q :: p2) (chain_len p1 + i) = seg_payload q + i.
Proof.
  intros Hi. unfold chain_addr, chain_len. rewrite chain_addrs_app, chain_addrs_cons.
  rewrite app_nth2 by lia.
  replace (Z.to_nat (Z.of_nat (length (chain_addrs p1)) + i) - length (chain_addrs p1))%nat with (Z.to_nat i) by lia.
  rewrite app_nth1 by (rewrite zrange_length; lia). rewrite zrange_nth by lia. lia.
Qed.

Lemma chain_addr_in p x : 0 <= x < chain_len p -> chain_addr p x ∈ chain_addrs p.
Proof. intros Hx. apply list_elem_of_In, nth_In. unfold chain_len in *. lia. Qed.

Lemma elem_of_chain_addrs p a :
  a ∈ chain_addrs p <-> exists q, q ∈ p /\ seg_payload q <= a < seg_payload q + Z.of_nat (Z.to_nat (seg_len q)).
Proof.
  unfold chain_addrs. rewrite list_elem_of_In, in_concat. split.
  - intros (l & Hl & Ha). apply list_elem_of_In, list_elem_of_fmap in Hl as (q & -> & Hq).
    exists q. split; [done|]. by apply elem_of_zrange, list_elem_of_In.
  - intros (q & Hq & Ha). exists (zrange (seg_payload q) (Z.to_nat (seg_len q))). split.
    + apply list_elem_of_In, list_elem_of_fmap. by exists q.
    + by apply list_elem_of_In, elem_of_zrange.
Qed.

(** The bytes of a chain, position by position. *)
Lemma chain_bytes_alt m p :
  chain_bytes m p = (fun x => bt m (chain_addr p x)) <$> zrange 0 (Z.to_nat (chain_len p)).
Proof.
  unfold chain_bytes. apply (list_eq_same_length _ _ (length (chain_addrs p))).
  - rewrite !length_fmap, zrange_length. unfold chain_len. lia.
  - by rewrite length_fmap.
  - intros i x y Hi. rewrite !list_lookup_fmap. unfold zrange, chain_len in *.
    rewrite lookup_seqZ_lt by lia. cbn. intros Hx [= <-]. unfold chain_addr.
    replace (Z.to_nat (0 + Z.of_nat i)) with i by lia.
    destruct (chain_addrs p !! i) as [a|] eqn:Ha; [|done]. cbn in Hx. injection Hx as <-.
    by rewrite (nth_lookup_Some _ _ _ _ Ha).
Qed.

(** ** [memcpy] along two sequences of addresses *)

Section copy.
Context {B : Bus} {N : Narrow B} {is_desc is_buf : Z -> Prop} {E : EthMem B N is_desc is_buf}.
Context (src dst : Z -> Z) (T : Z) (m0 : mem).
Context (Hsrc : forall x, 0 <= x < T -> is_buf (src x)) (Hdst : forall x, 0 <= x < T -> is_buf (dst x)).
Context (Hinj : forall x y, 0 <= x < T -> 0 <= y < T -> dst x = dst y -> x = y).
Context (Hsep : forall x y, 0 <= x < T -> 0 <= y < T -> src x <> dst y).
Implicit Types s : mach eth_glob.

(** The first [n] bytes have been copied, and nothing else has changed. *)
Definition copied (n : Z) (m : mem) : Prop :=
  words m = words m0 /\
  (forall x, 0 <= x < n -> bt m (dst x) = bt m0 (src x)) /\
  (forall a, (forall x, 0 <= x < n -> a <> dst x) -> bytes m a = bytes m0 a).

Lemma copied_0 : copied 0 m0.
Proof. split; [done|]. split; [lia|done]. Qed.

Lemma wp_copy_byte x s (Q : unit -> mach eth_glob -> Prop) :
  0 <= x < T -> copied x (mem_of s) ->
  (forall s', copied (x + 1) (mem_of s') -> glb s' = glb s -> Q tt s') ->
  wp (b <- rd8 (src x) ;; wr8 (dst x) b) s Q.
Proof.
  intros Hx (Hw & Hc & Hu) HQ. unfold wp, bind, rd8, wr8. cbn.
  destruct (buf_rd (src x) (dev s) (Hsrc x Hx)) as [Hv Hs]. apply HQ; [|done].
  unfold mem_of in *. cbn [dev]. rewrite buf_wr by by apply Hdst. rewrite Hv, Hs. split; [done|split].
  - intros y Hy. unfold bt. cbn [bytes]. destruct (decide (y = x)) as [->|Hne].
    + rewrite upd_eq, Hu by (intros; apply Hsep; lia). by rewrite !(u8_small (u8 _)) by apply u8_range.
    + rewrite upd_ne; [apply Hc; lia|]. intros Heq. apply Hne, Hinj; (lia || done).
  - intros a Ha. cbn [bytes]. rewrite upd_ne; [apply Hu; intros; apply Ha; lia|]. apply Ha. lia.
Qed.

Lemma wp_memcpy d r n pos s (Q : unit -> mach eth_glob -> Prop) :
  0 <= pos -> 0 <= n -> pos + n <= T -> copied pos (mem_of s) ->
  (forall i, 0 <= i < n -> dst (pos + i) = d + i /\ src (pos + i) = r + i) ->
  (forall s', copied (pos + n) (mem_of s') -> glb s' = glb s -> Q tt s') ->
  wp (memcpy d r n) s Q.
Proof.
  intros Hp Hn HT Hc Ha HQ. unfold memcpy.
  apply (wp_for_range (fun k t => copied (pos + k) (mem_of t) /\ glb t = glb s)).
  - by rewrite Z.add_0_r.
  - intros k t Hk [Hk1 Hk2]. destruct (Ha k) as [Hd Hs]; [lia|]. rewrite <- Hd, <- Hs.
    apply wp_copy_byte; [lia|done|]. intros t' Hc' G'. split; [|congruence].
    by replace (pos + (k + 1)) with (pos + k + 1) by lia.
  - intros t [Hk1 Hk2]. apply HQ; [|done]. by replace (pos + n) with (pos + (0 + Z.of_nat (Z.to_nat n))) by lia.
Qed.
End copy.
