(* ===== verification/EthSend.v ===== *)
(** Sending: low_level_output of src/ethernetif.c with HAL_ETH_TransmitFrame
    hands exactly the bytes of the packet to the controller, or refuses. *)
From S2P Require Import Prelude Machine SysArch FlashHal Clock EthHal EthernetIf EthRing EthCopy.

#[local] Open Scope fw_scope.

Lemma any_bit_own st : any_bit st ETH_DMATXDESC_OWN = Z.testbit st 31.
Proof. apply (any_bit_pow2 st 31). lia. Qed.

(** A descriptor handed to the controller as segment [i] of [c] of a frame of [T] bytes. *)
Definition handed (m : mem) (d i c T : Z) : Prop :=
  let st := wd m (Status d) in
  Z.testbit st 31 = true /\ Z.testbit st 28 = (i =? 0) /\ Z.testbit st 29 = (i =? c - 1) /\
  wd m (ControlBufferSize d) .& 0x1FFF = Z.min 1524 (T - i * 1524).

(** [c] buffers are what [T] bytes need. *)
Definition segments (T c : Z) : Prop := 0 < T /\ (c - 1) * 1524 < T <= c * 1524.

Lemma buffer_count_segments T : 0 < T -> segments T (buffer_count T).
Proof.
  intros HT. unfold buffer_count, segments, ETH_TX_BUF_SIZE. repeat zcase; zlia.
Qed.

(** What the controller fetches from segment [i] on. *)
Lemma dma_fetch_handed m tab buff k c T n i :
  ring tab buff m -> segments T c ->
  (forall j, 0 <= j < c -> handed m (desc_i tab (k + j)) j c T) ->
  0 <= i < c -> c - i <= Z.of_nat n ->
  dma_fetch n (i =? 0) m (desc_i tab (k + i)) =
  Some ((fun x => bt m (ring_addr buff k x)) <$> zrange (i * 1524) (Z.to_nat (T - i * 1524)), desc_i tab (k + c)).
Proof.
  intros Hr [HT Hc] Hh. revert i. induction n as [|n IH]; intros i Hi Hn; [lia|]. cbn [dma_fetch].
  destruct (Hh i Hi) as (H31 & H28 & H29 & Hsz). destruct (Hr (k + i)) as [Hnext Hbuf].
  rewrite H31, H28, H29, Hsz, Hbuf, Hnext, eqb_reflx. cbn [negb orb].
  assert (bytes_at m (buf_i buff (k + i)) (Z.min 1524 (T - i * 1524)) =
    (fun x => bt m (ring_addr buff k x)) <$> zrange (i * 1524) (Z.to_nat (Z.min 1524 (T - i * 1524)))) as Hbs.
  { unfold bytes_at, zrange. rewrite <- (Z.add_0_r (buf_i buff (k + i))), <- (Z.add_0_r (i * 1524)).
    rewrite <- !fmap_add_seqZ, <- !list_fmap_compose. apply list_fmap_ext. intros ? x Hx%list_elem_of_lookup_2.
    apply elem_of_seqZ in Hx. cbn. rewrite ring_addr_at by lia. done. }
  rewrite Hbs. destruct (Z.eqb_spec i (c - 1)) as [->|Hne].
  - rewrite Z.min_r by lia. by replace (k + (c - 1) + 1) with (k + c) by lia.
  - rewrite <- Z.add_assoc. replace false with (i + 1 =? 0) by (apply Z.eqb_neq; lia).
    rewrite IH by lia. cbn. rewrite Z.min_l by lia. rewrite <- fmap_app.
    replace (Z.to_nat (T - i * 1524)) with (Z.to_nat 1524 + Z.to_nat (T - (i + 1) * 1524))%nat by lia.
    rewrite zrange_app. by replace (i * 1524 + Z.of_nat (Z.to_nat 1524)) with ((i + 1) * 1524) by lia.
Qed.

Section send.
Context {B : Bus} {N : Narrow B} {R : Rtos B} {is_desc is_buf : Z -> Prop} {E : EthMem B N is_desc is_buf}.
Context {P : EthPlaces}.
Implicit Types s : mach eth_glob.
Abbreviation tab := DMATxDscrTab.
Abbreviation buff := Tx_Buff.
Context (Hp : placed DMATxDscrTab Tx_Buff) (Htab : forall a, table_word DMATxDscrTab a -> is_desc a).

(** ** Copying into the ring *)

Section fill.
Context (p : list seg) (k nfree : Z) (m0 : mem).
Abbreviation T := (chain_len p).
Context (Hring : ring DMATxDscrTab Tx_Buff m0).
Context (HT : chain_len p <= 4 * 1524 \/ nfree < 4).
Context (Hlen : Forall (fun q => 0 <= seg_len q) p).
Context (Hsrc : forall a, a ∈ chain_addrs p -> is_buf a /\ ~ (Tx_Buff <= a < Tx_Buff + 4 * 1524)).
Context (Hdst : forall a, Tx_Buff <= a < Tx_Buff + 4 * 1524 -> is_buf a).
Context (Hfree : forall i, 0 <= i < nfree -> Z.testbit (wd m0 (Status (desc_i DMATxDscrTab (k + i)))) 31 = false).
Context (Hbusy : nfree < 4 -> Z.testbit (wd m0 (Status (desc_i DMATxDscrTab (k + nfree)))) 31 = true).

Abbreviation placed_bytes := (copied (chain_addr p) (ring_addr Tx_Buff k) m0).

(** The cursor of the code, [off] bytes into buffer [k + j]. *)
Definition cursor_at (j off : Z) : tx_cursor :=
  TxCursor (desc_i tab (k + j)) (buf_i buff (k + j)) off (j * 1524 + off).

Lemma wp_tx_owned i m s (Q : bool -> mach eth_glob -> Prop) :
  m = mem_of s ->
  (forall s', mem_of s' = mem_of s -> glb s' = glb s -> Q (Z.testbit (wd m (Status (desc_i tab i))) 31) s') ->
  wp (tx_owned (desc_i tab i)) s Q.
Proof.
  intros -> HQ. unfold tx_owned. destruct (desc_words tab Htab i) as (Ws & _).
  apply wp_bind, wp_desc_rd; [done|]. intros s' M G. apply wp_ret. rewrite any_bit_own. by apply HQ.
Qed.

Lemma wp_fill_copy pos j off n r s (Q : unit -> mach eth_glob -> Prop) :
  pos = j * 1524 + off -> 0 <= j < 4 -> 0 <= off -> 0 <= n -> off + n <= 1524 -> pos + n <= T ->
  (forall i, 0 <= i < n -> chain_addr p (pos + i) = r + i) ->
  placed_bytes pos (mem_of s) ->
  (forall s', placed_bytes (pos + n) (mem_of s') -> glb s' = glb s -> Q tt s') ->
  wp (memcpy (buf_i buff (k + j) + off) r n) s Q.
Proof.
  intros -> Hj Ho Hn Hon HnT Hr Hc HQ. apply (wp_memcpy (E := E) (chain_addr p) (ring_addr buff k) (Z.min T (4 * 1524)) m0) with (pos := j * 1524 + off); try done.
  - intros x Hx. apply Hsrc, chain_addr_in; (done || lia).
  - intros x Hx. apply Hdst, ring_addr_range.
  - intros x y Hx Hy. apply ring_addr_inj; lia.
  - intros x y Hx Hy Heq. apply (Hsrc (chain_addr p x)); [apply chain_addr_in; (done || lia)|].
    rewrite Heq. apply ring_addr_range.
  - lia.
  - lia.
  - intros i Hi. split; [|by apply Hr]. replace (j * 1524 + off + i) with (j * 1524 + (off + i)) by lia.
    rewrite ring_addr_at by lia. lia.
Qed.

(** The result of filling: the cursor behind the bytes, or none when they do not fit
    the free buffers; then only bytes of the buffers have changed. *)
Definition fill_result (pos j : Z) s (r : option tx_cursor) (s' : mach eth_glob) : Prop :=
  glb s' = glb s /\
  match r with
  | Some c => exists j' off', c = cursor_at j' off' /\ j' * 1524 + off' = pos /\
      0 <= off' <= 1524 /\ j <= j' < nfree /\ placed_bytes pos (mem_of s')
  | None => nfree * 1524 < pos /\ exists n, placed_bytes n (mem_of s')
  end.

Lemma wp_tx_fill fuel pos j off r left s :
  pos = j * 1524 + off -> 0 <= j < nfree -> nfree <= 4 -> 0 <= off <= 1524 -> 0 <= left -> pos + left <= T ->
  4 - j <= Z.of_nat fuel ->
  (forall i, 0 <= i < left -> chain_addr p (pos + i) = r + i) ->
  placed_bytes pos (mem_of s) ->
  wp (tx_fill fuel (cursor_at j off) r left) s (fill_result (pos + left) j s).
Proof.
  revert pos j off r left s. induction fuel as [|fuel IH]; intros pos j off r left s Hpos Hj Hnf Hoff Hleft HpT Hfuel Hr Hc; [lia|].
  cbn [tx_fill tc_off tc_desc tc_buffer tc_frame cursor_at]. change ETH_TX_BUF_SIZE with 1524.
  destruct (Z.ltb_spec 1524 (left + off)) as [Hbig|Hfit].
  - apply wp_bind. eapply (wp_fill_copy pos); [done|lia..| |done|]; [intros; apply Hr; lia|].
    intros s1 C1 G1. destruct (desc_words tab Htab (k + j)) as (_ & _ & _ & Wn).
    assert (forall m, words m = words m0 -> forall a, wd m a = wd m0 a) as Hwd.
    { intros m Hm a. unfold wd. by rewrite Hm. }
    apply wp_bind, wp_desc_rd; [done|]. intros s2 M2 G2. rewrite (Hwd _ (proj1 C1)), (proj1 (Hring _)).
    rewrite <- Z.add_assoc. apply wp_bind, (wp_tx_owned _ (mem_of s2)); [done|]. intros s3 M3 G3.
    rewrite M2, (Hwd _ (proj1 C1)). destruct (Z.testbit (wd m0 (Status (desc_i tab (k + (j + 1))))) 31) eqn:Hown.
    + apply wp_ret. split; [congruence|]. split; [|eexists; rewrite M3, M2; done].
      destruct (decide (j + 1 < nfree)); [|lia]. rewrite Hfree in Hown by lia. done.
    + destruct (desc_words tab Htab (k + (j + 1))) as (_ & _ & Wb & _).
      apply wp_bind, wp_desc_rd; [done|]. intros s4 M4 G4. rewrite M3, M2, (Hwd _ (proj1 C1)), (proj2 (Hring _)).
      assert (j + 1 < nfree).
      { destruct (decide (j + 1 < nfree)); [done|]. assert (j + 1 = nfree) as Hjn by lia.
        rewrite Hjn, Hbusy in Hown by lia. done. }
      replace (j * 1524 + off + (1524 - off)) with ((j + 1) * 1524 + 0) by lia.
      fold (cursor_at (j + 1) 0). eapply wp_mono; [apply (IH (pos + (1524 - off)) (j + 1) 0); try lia|].
      * intros i Hi. rewrite <- Z.add_assoc, Hr by lia. lia.
      * by rewrite M4, M3, M2.
      * intros r' s' [G' H']. split; [congruence|].
        replace (pos + left) with (pos + (1524 - off) + (left - (1524 - off))) by lia.
        destruct r'; [|done]. destruct H' as (j' & off' & ? & ? & ? & ? & ?). exists j', off'. auto with lia.
  - apply wp_bind. eapply (wp_fill_copy pos); [done|lia..|done|done|].
    intros s1 C1 G1. apply wp_ret. split; [done|]. exists j, (off + left).
    split; [|split; [lia|split; [lia|split; [lia|done]]]]. unfold cursor_at. f_equal. lia.
Qed.

Lemma wp_tx_chain fuel p2 : forall p1 j off s,
  p = p1 ++ p2 -> chain_len p1 = j * 1524 + off -> 0 <= j < nfree -> nfree <= 4 -> 0 <= off <= 1524 ->
  4 <= Z.of_nat fuel -> placed_bytes (chain_len p1) (mem_of s) ->
  wp (tx_chain fuel p2 (cursor_at j off)) s (fill_result (chain_len p) j s).
Proof.
  induction p2 as [|q p2 IH]; intros p1 j off s Hp12 Hl Hj Hnf Hoff Hfuel Hc; cbn [tx_chain].
  - apply wp_ret. rewrite app_nil_r in Hp12. subst p1. split; [done|]. exists j, off. auto with lia.
  - assert (0 <= seg_len q) as Hq.
    { rewrite Forall_forall in Hlen. apply Hlen. rewrite Hp12. apply in_elt. }
    assert (chain_len p = chain_len p1 + seg_len q + chain_len p2) as HlT.
    { rewrite Hp12, chain_len_app, chain_len_cons by done. lia. }
    pose proof (chain_len_nonneg p2).
    cbn [tc_desc cursor_at]. apply wp_bind, (wp_tx_owned _ (mem_of s)); [done|]. intros s1 M1 G1.
    assert (wd (mem_of s) (Status (desc_i tab (k + j))) = wd m0 (Status (desc_i tab (k + j)))) as ->.
    { unfold wd. by rewrite (proj1 Hc). }
    rewrite Hfree by lia. apply wp_bind.
    eapply wp_mono; [apply (wp_tx_fill fuel (chain_len p1) j off); try lia|].
    + intros i Hi. rewrite Hp12. by apply chain_addr_seg.
    + by rewrite M1.
    + intros [c|] s2 [G2 H2].
      * destruct H2 as (j' & off' & -> & Hpos & Hoff' & Hj' & Hc').
        eapply wp_mono.
        { apply (IH (p1 ++ [q]) j' off' s2); try lia.
          - by rewrite <- app_assoc.
          - rewrite chain_len_app, chain_len_cons by done. change (chain_len []) with 0. lia.
          - rewrite chain_len_app, chain_len_cons by done. change (chain_len []) with 0.
            by rewrite Z.add_0_r. }
        intros [c|] s3 [G3 H3]; (split; [congruence|]); [|done].
        destruct H3 as (j3 & off3 & ? & ? & ? & ? & ?). exists j3, off3. auto with lia.
      * apply wp_ret. split; [congruence|]. split; [lia|]. by destruct H2 as [_ H2].
Qed.
End fill.

(** ** Handing the buffers over *)

(** FIRST and LAST of a status word. *)
Definition st_bits (w : Z) (f l : bool) : Prop := Z.testbit w 28 = f /\ Z.testbit w 29 = l.

Lemma st_bits_clear w : st_bits (u32 (w .& not32 (ETH_DMATXDESC_FS .| ETH_DMATXDESC_LS))) false false.
Proof. split; autorewrite with fw_bits; by rewrite ?andb_false_r. Qed.

Lemma st_bits_first w f l : st_bits w f l -> st_bits (u32 (w .| ETH_DMATXDESC_FS)) true l.
Proof. intros [? ?]. split; autorewrite with fw_bits; by rewrite ?orb_true_r, ?orb_false_r. Qed.

Lemma st_bits_last w f l : st_bits w f l -> st_bits (u32 (w .| ETH_DMATXDESC_LS)) f true.
Proof. intros [? ?]. split; autorewrite with fw_bits; by rewrite ?orb_true_r, ?orb_false_r. Qed.

Lemma st_bits_own w f l :
  st_bits w f l -> st_bits (u32 (w .| ETH_DMATXDESC_OWN)) f l /\ Z.testbit (u32 (w .| ETH_DMATXDESC_OWN)) 31 = true.
Proof. intros [? ?]. split; [split|]; autorewrite with fw_bits; by rewrite ?orb_true_r, ?orb_false_r. Qed.

Lemma wp_next_tx i s (Q : unit -> mach eth_glob -> Prop) :
  ring tab buff (mem_of s) -> TxDesc (heth (glb s)) = desc_i tab i ->
  (forall s', mem_of s' = mem_of s -> heth (glb s') = set_TxDesc (desc_i tab (i + 1)) (heth (glb s)) -> Q tt s') ->
  wp next_tx s Q.
Proof.
  intros Hr Ht HQ. unfold next_tx. apply wp_bind, wp_get_heth. rewrite Ht.
  destruct (desc_words tab Htab i) as (_ & _ & _ & Wn).
  apply wp_bind, wp_desc_rd; [done|]. intros s1 M1 G1. rewrite (proj1 (Hr i)).
  apply wp_modify_heth. intros s2 M2 H2. apply HQ; congruence.
Qed.

Lemma size_field x : 0 <= x <= 1524 -> u32 (x .& ETH_DMATXDESC_TBS1) .& 0x1FFF = x.
Proof.
  intros Hx. change ETH_DMATXDESC_TBS1 with (Z.ones 13). change 0x1FFF with (Z.ones 13).
  rewrite (Z.land_ones x), (Z.mod_small x) by lia. rewrite u32_small by lia.
  rewrite Z.land_ones, Z.mod_small by lia. done.
Qed.

(** Status word [w] and size word [z] of a descriptor in a memory that is otherwise [m]. *)
Definition desc_now (m m' : mem) (d w z : Z) : Prop :=
  bytes m' = bytes m /\
  forall x, wd m' x = if x =? Status d then w else if x =? ControlBufferSize d then z else wd m x.

Lemma wrote_status m m1 m2 d w z v : desc_now m m1 d w z -> wrote m1 m2 (Status d) v -> desc_now m m2 d v z.
Proof.
  intros [Hb Hw] [Hb' Hw']. split; [congruence|]. intros x. rewrite Hw', Hw. by destruct (x =? Status d).
Qed.

Lemma wrote_size m m1 m2 d w z v : desc_now m m1 d w z -> wrote m1 m2 (ControlBufferSize d) v -> desc_now m m2 d w v.
Proof.
  intros [Hb Hw] [Hb' Hw']. split; [congruence|]. intros x. rewrite Hw', Hw.
  unfold Status, ControlBufferSize. destruct (Z.eqb_spec x (d + 4)), (Z.eqb_spec x d); (lia || done).
Qed.

Lemma desc_now_refl m d : desc_now m m d (wd m (Status d)) (wd m (ControlBufferSize d)).
Proof.
  split; [done|]. intros x. destruct (Z.eqb_spec x (Status d)) as [->|]; [done|].
  by destruct (Z.eqb_spec x (ControlBufferSize d)) as [->|].
Qed.

Lemma desc_now_status m m1 d w z : desc_now m m1 d w z -> wd m1 (Status d) = w.
Proof. intros [_ Hw]. by rewrite Hw, Z.eqb_refl. Qed.

Lemma desc_now_size m m1 d w z : desc_now m m1 d w z -> wd m1 (ControlBufferSize d) = z.
Proof.
  intros [_ Hw]. rewrite Hw, Z.eqb_refl. unfold Status, ControlBufferSize. by destruct (Z.eqb_spec (d + 4) d); [lia|].
Qed.

Lemma desc_now_only m m1 i w z : desc_now m m1 (desc_i tab i) w z -> only_desc tab m m1 i.
Proof.
  intros [Hb Hw]. split; [done|]. intros a Hs Hc. rewrite Hw.
  by destruct (Z.eqb_spec a (Status (desc_i tab i))), (Z.eqb_spec a (ControlBufferSize (desc_i tab i))).
Qed.

(** The status word goes to the controller last, then the next descriptor is taken. *)
Lemma wp_hand_over m i j c T w z s (Q : unit -> mach eth_glob -> Prop) :
  ring tab buff m -> TxDesc (heth (glb s)) = desc_i tab i ->
  desc_now m (mem_of s) (desc_i tab i) w z -> st_bits w (j =? 0) (j =? c - 1) ->
  z .& 0x1FFF = Z.min 1524 (T - j * 1524) ->
  (forall s', only_desc tab m (mem_of s') i -> handed (mem_of s') (desc_i tab i) j c T ->
     heth (glb s') = set_TxDesc (desc_i tab (i + 1)) (heth (glb s)) -> Q tt s') ->
  wp (set_bits (Status (desc_i tab i)) ETH_DMATXDESC_OWN ;; next_tx) s Q.
Proof.
  intros Hr Ht Hd Hw Hz HQ. destruct (desc_words tab Htab i) as (Ws & _).
  apply wp_bind, (wp_wrote_if true); [done|]. intros s1 W1 G1.
  pose proof (wrote_status _ _ _ _ _ _ _ Hd W1) as D1. rewrite (desc_now_status _ _ _ _ _ Hd) in D1.
  apply (wp_next_tx i); [|congruence|].
  - eapply only_desc_ring; [eapply desc_now_only; exact D1|done].
  - intros s2 M2 H2. destruct (st_bits_own _ _ _ Hw) as [[H28 H29] H31]. apply HQ.
    + rewrite M2. by eapply desc_now_only.
    + unfold handed. rewrite M2, (desc_now_status _ _ _ _ _ D1), (desc_now_size _ _ _ _ _ D1). auto.
    + congruence.
Qed.

Lemma wp_transmit_single T i s (Q : unit -> mach eth_glob -> Prop) :
  0 < T <= 1524 -> ring tab buff (mem_of s) -> TxDesc (heth (glb s)) = desc_i tab i ->
  (forall s', only_desc tab (mem_of s) (mem_of s') i -> handed (mem_of s') (desc_i tab i) 0 1 T ->
     heth (glb s') = set_TxDesc (desc_i tab (i + 1)) (heth (glb s)) -> Q tt s') ->
  wp (transmit_single T) s Q.
Proof.
  intros HT Hr Ht HQ. unfold transmit_single. destruct (desc_words tab Htab i) as (Ws & Wc & _).
  apply wp_bind, wp_get_heth. rewrite Ht.
  apply wp_bind, (wp_wrote_if true); [done|]. intros s1 W1 G1.
  pose proof (wrote_status _ _ _ _ _ _ _ (desc_now_refl _ _) W1) as D1.
  apply wp_bind, wp_wrote_wr; [done|]. intros s2 W2 G2. pose proof (wrote_size _ _ _ _ _ _ _ D1 W2) as D2.
  eapply (wp_hand_over (mem_of s) i 0 1 T); [done|congruence|exact D2|..].
  - split; autorewrite with fw_bits; by rewrite orb_true_r.
  - rewrite size_field by lia. lia.
  - intros s' Ho Hh H'. apply HQ; [done..|]. by rewrite H', G2, G1.
Qed.

Lemma wp_transmit_segment T c i j s (Q : unit -> mach eth_glob -> Prop) :
  segments T c -> c <= 4 -> 0 <= j < c -> ring tab buff (mem_of s) -> TxDesc (heth (glb s)) = desc_i tab i ->
  (forall s', only_desc tab (mem_of s) (mem_of s') i -> handed (mem_of s') (desc_i tab i) j c T ->
     heth (glb s') = set_TxDesc (desc_i tab (i + 1)) (heth (glb s)) -> Q tt s') ->
  wp (transmit_segment T c j) s Q.
Proof.
  intros [HT Hc] Hc4 Hj Hr Ht HQ. unfold transmit_segment. destruct (desc_words tab Htab i) as (Ws & Wc & _).
  apply wp_bind, wp_get_heth. cbv zeta. rewrite Ht.
  apply wp_bind, (wp_wrote_if true); [done|]. intros s1 W1 G1.
  pose proof (wrote_status _ _ _ _ _ _ _ (desc_now_refl _ _) W1) as D1.
  apply wp_bind, wp_wrote_if; [done|]. intros s2 W2 G2. pose proof (wrote_status _ _ _ _ _ _ _ D1 W2) as D2.
  apply wp_bind, wp_wrote_wr; [done|]. intros s3 W3 G3. pose proof (wrote_size _ _ _ _ _ _ _ D2 W3) as D3.
  rewrite (desc_now_status _ _ _ _ _ D1) in D3. clear W1 W2 W3 D1 D2.
  match type of D3 with desc_now _ _ _ ?w _ => assert (st_bits w (j =? 0) false) as Hst end.
  { destruct (j =? 0); [eapply st_bits_first|]; apply st_bits_clear. }
  apply wp_bind. destruct (Z.eqb_spec j (c - 1)) as [Hlast|Hmid].
  - apply wp_bind, (wp_wrote_if true); [done|]. intros s4 W4 G4.
    pose proof (wrote_status _ _ _ _ _ _ _ D3 W4) as D4. rewrite (desc_now_status _ _ _ _ _ D3) in D4.
    apply wp_wrote_wr; [done|]. intros s5 W5 G5. pose proof (wrote_size _ _ _ _ _ _ _ D4 W5) as D5.
    eapply (wp_hand_over (mem_of s) i j c T); [done|congruence|exact D5|..].
    + rewrite Hlast, Z.eqb_refl. rewrite Hlast in Hst. by eapply st_bits_last.
    + rewrite (u32_small (T - _)), size_field; unfold ETH_TX_BUF_SIZE; subst j; lia.
    + intros s' Ho Hh H'. apply HQ; [done..|]. by rewrite H', G5, G4, G3, G2, G1.
  - apply wp_ret. eapply (wp_hand_over (mem_of s) i j c T); [done|congruence|exact D3|..].
    + destruct (Z.eqb_spec j (c - 1)); done.
    + change ETH_TX_BUF_SIZE with 1524. rewrite size_field by lia. lia.
    + intros s' Ho Hh H'. apply HQ; [done..|]. by rewrite H', G3, G2, G1.
Qed.

Lemma handed_only m m' i i' j c T :
  only_desc tab m m' i -> i mod 4 <> i' mod 4 -> handed m (desc_i tab i') j c T -> handed m' (desc_i tab i') j c T.
Proof.
  intros [_ Ho] Hne. unfold handed.
  pose proof (desc_i_apart tab i i' Hne).
  unfold Status, ControlBufferSize in *. by rewrite !Ho by lia.
Qed.

(** The first [c] descriptors from [k] on are handed over, everything else is as it was. *)
Definition handed_over (m m' : mem) (k n c T : Z) : Prop :=
  bytes m' = bytes m /\ ring tab buff m' /\
  (forall j, 0 <= j < n -> handed m' (desc_i tab (k + j)) j c T) /\
  (forall j, n <= j < 4 -> wd m' (Status (desc_i tab (k + j))) = wd m (Status (desc_i tab (k + j)))).

Lemma handed_over_step m m1 m2 k n c T :
  0 <= n < 4 -> handed_over m m1 k n c T -> only_desc tab m1 m2 (k + n) -> handed m2 (desc_i tab (k + n)) n c T ->
  handed_over m m2 k (n + 1) c T.
Proof.
  intros Hn (Hb & Hr & Hh & Hu) Ho Hn2. split; [destruct Ho; congruence|]. split; [by eapply only_desc_ring|]. split.
  - intros j Hj. destruct (decide (j = n)) as [->|]; [done|]. eapply handed_only; [done|zlia|]. apply Hh. lia.
  - intros j Hj. rewrite <- Hu by lia. destruct Ho as [_ Ho].
    pose proof (desc_i_apart tab (k + j) (k + n) ltac:(zlia)).
    unfold Status, ControlBufferSize in *. apply Ho; lia.
Qed.

Lemma wp_transmit_segments T k s (Q : unit -> mach eth_glob -> Prop) :
  0 < T <= 4 * 1524 -> ring tab buff (mem_of s) -> TxDesc (heth (glb s)) = desc_i tab k ->
  (forall s', handed_over (mem_of s) (mem_of s') k (buffer_count T) (buffer_count T) T ->
     heth (glb s') = set_TxDesc (desc_i tab (k + buffer_count T)) (heth (glb s)) -> Q tt s') ->
  wp (if buffer_count T =? 1 then transmit_single T
      else for_each (zrange 0 (Z.to_nat (buffer_count T))) (transmit_segment T (buffer_count T))) s Q.
Proof.
  intros HT Hr Ht HQ. pose proof (buffer_count_segments T ltac:(lia)) as Hseg. pose proof Hseg as [_ Hc].
  set (c := buffer_count T) in *. clearbody c.
  assert (handed_over (mem_of s) (mem_of s) k 0 c T) as H0.
  { split; [done|]. split; [done|]. split; [lia|done]. }
  destruct (Z.eqb_spec c 1) as [->|Hne].
  - apply (wp_transmit_single T k); [lia|done..|]. intros s' Ho Hh H'. apply HQ; [|done].
    apply (handed_over_step (mem_of s) (mem_of s) (mem_of s') k 0); by rewrite ?Z.add_0_r.
  - apply (wp_for_range (fun j t => handed_over (mem_of s) (mem_of t) k j c T /\
      heth (glb t) = set_TxDesc (desc_i tab (k + j)) (heth (glb s)))).
    + split; [done|]. rewrite Z.add_0_r, <- Ht. by destruct (heth (glb s)).
    + intros j t Hj [Hho Hh]. apply (wp_transmit_segment T c (k + j)); [done|lia..|apply Hho|by rewrite Hh|].
      intros t' Ho Hd H'. split; [by apply (handed_over_step _ (mem_of t)); [lia|..]|].
      rewrite H', Hh. by rewrite Z.add_assoc.
    + intros t [Hho Hh]. replace (0 + Z.of_nat (Z.to_nat c)) with c in * by lia. by apply HQ.
Qed.

Lemma wp_TransmitFrame T k s (Q : Z -> mach eth_glob -> Prop) :
  0 < T <= 4 * 1524 -> ring tab buff (mem_of s) -> TxDesc (heth (glb s)) = desc_i tab k ->
  eth_Lock (heth (glb s)) = false -> eth_Instance (heth (glb s)) = ETH ->
  Z.testbit (wd (mem_of s) (Status (desc_i tab k))) 31 = false ->
  (forall s', handed_over (mem_of s) (mem_of s') k (buffer_count T) (buffer_count T) T ->
     heth (glb s') = set_eth_Lock false (set_State HAL_ETH_STATE_READY
       (set_TxDesc (desc_i tab (k + buffer_count T)) (heth (glb s)))) -> Q HAL_OK s') ->
  wp (HAL_ETH_TransmitFrame T) s Q.
Proof.
  intros HT Hr Ht Hl Hi Hf HQ. apply wp_eth_lock; [congruence|]. intros _ s1 M1 H1.
  apply wp_bind, wp_modify_heth. intros s2 M2 H2. destruct (Z.eqb_spec T 0); [lia|].
  apply wp_bind, wp_get_heth. rewrite H2, H1. cbn [TxDesc set_State set_eth_Lock]. rewrite Ht.
  destruct (desc_words tab Htab k) as (Ws & _).
  apply wp_bind, wp_desc_rd; [done|]. intros s3 M3 G3. rewrite any_bit_own, M2, M1, Hf. cbv zeta.
  apply wp_bind, (wp_transmit_segments T k); [done|by rewrite M3, M2, M1|by rewrite G3, H2, H1|].
  intros s4 Hho H4. apply wp_bind, wp_resume; [by rewrite H4, G3, H2, H1|by vm_compute|]. intros s5 M5 G5.
  apply wp_bind, wp_modify_heth. intros s6 M6 H6. apply wp_bind, wp_modify_heth. intros s7 M7 H7.
  apply wp_ret, HQ.
  - rewrite M7, M6, M5. by rewrite M3, M2, M1 in Hho.
  - by rewrite H7, H6, G5, H4, G3, H2, H1.
Qed.

(** * low_level_output *)

(** The interface is set up, and the next descriptor is [k]; [nfree] of the descriptors
    from there on are free; the packet is in memory outside the ring's buffers. *)
Record tx_ready (p : list seg) (k nfree : Z) s : Prop := {
  tr_ring : ring tab buff (mem_of s);
  tr_next : TxDesc (heth (glb s)) = desc_i tab k;
  tr_eth : eth_Instance (heth (glb s)) = ETH;
  tr_free : 0 <= nfree <= 4 /\
    forall i, 0 <= i < nfree -> Z.testbit (wd (mem_of s) (Status (desc_i tab (k + i)))) 31 = false;
  tr_busy : nfree < 4 -> Z.testbit (wd (mem_of s) (Status (desc_i tab (k + nfree)))) 31 = true;
  tr_len : Forall (fun q => 0 <= seg_len q) p /\ 0 < chain_len p;
  tr_src : forall a, a ∈ chain_addrs p -> is_buf a /\ ~ (buff <= a < buff + 4 * 1524);
  tr_dst : forall a, buff <= a < buff + 4 * 1524 -> is_buf a }.

(** What the copying does, whatever is free. *)
Lemma wp_tx_copy p k nfree fuel s (Q : option tx_cursor -> mach eth_glob -> Prop) :
  tx_ready p k nfree s -> chain_len p <= 4 * 1524 \/ nfree < 4 -> (4 <= fuel)%nat ->
  (forall c s', glb s' = glb s -> tc_frame c = chain_len p -> chain_len p <= nfree * 1524 ->
     copied (chain_addr p) (ring_addr buff k) (mem_of s) (chain_len p) (mem_of s') -> Q (Some c) s') ->
  (forall s', glb s' = glb s -> nfree * 1524 < chain_len p -> words (mem_of s') = words (mem_of s) -> Q None s') ->
  wp (tx_chain fuel p (TxCursor (desc_i tab k) (buf_i buff k) 0 0)) s Q.
Proof.
  intros [Hr Hn He [Hnf Hf] Hb [Hl HT0] Hsrc Hdst] HT Hfuel HS HN.
  destruct (decide (nfree = 0)) as [->|Hne].
  - destruct p as [|q p]; [done|]. cbn [tx_chain tc_desc].
    apply wp_bind, (wp_tx_owned _ (mem_of s)); [done|]. intros s1 M1 G1.
    rewrite <- (Z.add_0_r k), Hb by lia. apply wp_ret, HN; [done|lia|by rewrite M1].
  - assert (TxCursor (desc_i tab k) (buf_i buff k) 0 0 = cursor_at k 0 0) as ->.
    { unfold cursor_at. by rewrite Z.add_0_r. }
    eapply wp_mono; [apply (wp_tx_chain p k nfree (mem_of s)) with (p1 := []); try (done || lia)|].
    + apply copied_0.
    + intros [c|] s' [G H].
      * destruct H as (j & off & -> & Hpos & Hoff & Hj & Hc). apply HS; [done|by cbn|lia|done].
      * destruct H as [Hlt (n & Hw & _)]. by apply HN.
Qed.

(** A packet that has been copied and handed over is what the controller fetches. *)
Lemma fetch_packet p k m0 m1 m2 :
  let T := chain_len p in
  0 < T <= 4 * 1524 -> copied (chain_addr p) (ring_addr buff k) m0 T m1 ->
  handed_over m1 m2 k (buffer_count T) (buffer_count T) T ->
  dma_fetch 4 true m2 (desc_i tab k) = Some (chain_bytes m0 p, desc_i tab (k + buffer_count T)).
Proof.
  intros T HT (_ & Hc & _) (Hb & Hr & Hh & _).
  pose proof (buffer_count_segments T ltac:(lia)) as Hseg. pose proof Hseg as [_ Hcs].
  pose proof (dma_fetch_handed m2 tab buff k (buffer_count T) T 4 0 Hr Hseg Hh) as Hf.
  rewrite Z.add_0_r in Hf. change (0 =? 0) with true in Hf. rewrite Hf by lia.
  rewrite chain_bytes_alt, Z.mul_0_l, Z.sub_0_r. do 2 f_equal.
  apply list_fmap_ext. intros i x Hx%list_elem_of_lookup_2%elem_of_zrange.
  unfold bt at 1. rewrite Hb. apply Hc. lia.
Qed.

(** C9: while the handle is not locked, low_level_output hands a packet that fits the free buffers of the
    send ring to the controller: it returns ERR_OK, the frame the controller fetches from the
    next descriptor on is exactly the bytes of the packet, and the descriptor behind
    it is the next one; the other descriptors are as before.  A packet that does not
    fit is refused with ERR_USE, and no descriptor nor the handle changes, unless it is longer than
    all four buffers (6096 bytes) and all of them are free: for such a packet, which is left out here,
    the copying goes round the ring ([low_level_output_wraps]). *)
Theorem low_level_output_sends p k nfree fuel s :
  tx_ready p k nfree s -> eth_Lock (heth (glb s)) = false -> chain_len p <= 4 * 1524 \/ nfree < 4 -> (4 <= fuel)%nat ->
  wp (low_level_output fuel p) s (fun r s' =>
    if chain_len p <=? nfree * 1524 then
      r = ERR_OK /\
      dma_fetch 4 true (mem_of s') (desc_i tab k) = Some (chain_bytes (mem_of s) p, TxDesc (heth (glb s'))) /\
      TxDesc (heth (glb s')) = desc_i tab (k + buffer_count (chain_len p)) /\
      ring tab buff (mem_of s') /\
      (forall j, buffer_count (chain_len p) <= j < 4 ->
         wd (mem_of s') (Status (desc_i tab (k + j))) = wd (mem_of s) (Status (desc_i tab (k + j)))) /\
      eth_State (heth (glb s')) = HAL_ETH_STATE_READY /\ eth_Lock (heth (glb s')) = false
    else r = ERR_USE /\ words (mem_of s') = words (mem_of s) /\ heth (glb s') = heth (glb s)).
Proof.
  intros Hready Hl Hlong Hfuel. pose proof Hready as [Hr Hn He [Hnf Hf] Hb [Hlen HT] _ _].
  unfold low_level_output. apply wp_bind, wp_get_heth. rewrite Hn.
  destruct (desc_words tab Htab k) as (_ & _ & Wb & _).
  apply wp_bind, wp_desc_rd; [done|]. intros s1 M1 G1. rewrite (proj2 (Hr k)).
  apply wp_bind, (wp_tx_copy p k nfree); [destruct Hready; split; rewrite ?M1, ?G1; assumption|exact Hlong|done|..].
  - intros c s2 G2 -> Hfit Hc. rewrite M1 in Hc.
    assert (forall a, wd (mem_of s2) a = wd (mem_of s) a) as Hw by (intros a; unfold wd; by rewrite (proj1 Hc)).
    apply wp_bind, wp_bind, (wp_TransmitFrame (chain_len p) k); [lia|by intros i; rewrite !Hw|by rewrite G2, G1..| |].
    { rewrite Hw, <- (Z.add_0_r k). apply Hf. lia. }
    intros s3 Hho H3. apply wp_ret, wp_bind, wp_resume; [by rewrite H3, G2, G1|by vm_compute|].
    intros s4 M4 G4. apply wp_ret. rewrite (proj2 (Z.leb_le _ _) Hfit), M4, G4, H3.
    split; [done|]. split; [apply (fetch_packet p k _ (mem_of s2)); (done || lia)|]. destruct Hho as (_ & Hr' & _ & Hu).
    split; [done|]. split; [done|]. split; [|done]. intros j Hj. by rewrite Hu, Hw.
  - intros s2 G2 Hlt Hw. apply wp_bind, wp_ret, wp_bind, wp_resume; [by rewrite G2, G1|by vm_compute|].
    intros s3 M3 G3. apply wp_ret. rewrite (proj2 (Z.leb_gt _ _) Hlt). split; [done|].
    rewrite M3, Hw, M1, G3, G2, G1. done.
Qed.

(** C38: low_level_output does not look at the result of HAL_ETH_TransmitFrame: while
    the handle is locked (as HAL_ETH_Start does across its delays) a packet is dropped,
    and the stack is told ERR_OK: the bytes are copied into the free buffers, no
    descriptor is handed over, and the controller finds nothing to send. *)
Theorem low_level_output_drops_when_locked p k nfree fuel s :
  tx_ready p k nfree s -> eth_Lock (heth (glb s)) = true -> (4 <= fuel)%nat ->
  chain_len p <= nfree * 1524 ->
  wp (low_level_output fuel p) s (fun r s' =>
    r = ERR_OK /\ words (mem_of s') = words (mem_of s) /\ heth (glb s') = heth (glb s) /\
    dma_fetch 4 true (mem_of s') (desc_i tab k) = None).
Proof.
  intros Hready Hl Hfuel Hfits. pose proof Hready as [Hr Hn He [Hnf Hf] Hb [Hlen HT] _ _].
  unfold low_level_output. apply wp_bind, wp_get_heth. rewrite Hn.
  destruct (desc_words tab Htab k) as (Ws & _ & Wb & _).
  apply wp_bind, wp_desc_rd; [done|]. intros s1 M1 G1. rewrite (proj2 (Hr k)).
  apply wp_bind, (wp_tx_copy p k nfree); [destruct Hready; split; rewrite ?M1, ?G1; assumption|lia|done| |lia].
  intros c s2 G2 _ _ [Hw _]. apply wp_bind, wp_bind, wp_eth_lock; [|rewrite G2, G1; congruence].
  intros _. apply wp_ret, wp_bind, wp_resume; [by rewrite G2, G1|by vm_compute|].
  intros s3 M3 G3. apply wp_ret. rewrite M3, G3, G2, G1, Hw, M1. do 3 (split; [done|]).
  cbn [dma_fetch]. unfold wd at 1. rewrite Hw, M1. fold (wd (mem_of s) (Status (desc_i tab k))).
  rewrite <- (Z.add_0_r k), Hf by lia. done.
Qed.
End send.

(** * A packet of two buffers of 1000 bytes, on the simulated device *)

Definition sim_packet : list seg := [Seg 0x20008000 1000; Seg 0x20008400 1000].
Definition send_start (locked : bool) : mach eth_glob :=
  @Mach eth_sim eth_glob (Mem (ring_words 0x20000000 0x20001000) (fun a => a mod 256)) []
    (sim_glob 0x20000000 0x20000080 locked).

Lemma sim_packet_ready locked : tx_ready (E := eth_sim_mem) sim_packet 0 4 (send_start locked).
Proof.
  split; try reflexivity.
  - apply (ring_sim _ (fun a => a mod 256)). vm_compute. intuition congruence.
  - split; [lia|]. intros i Hi. zenum i 4%nat; reflexivity.
  - lia.
  - split; [repeat (apply Forall_cons_2; [cbn; lia|]); by apply Forall_nil_2|]. vm_compute. intuition congruence.
  - intros a Ha. apply elem_of_chain_addrs in Ha as (q & Hq & Ha).
    apply list_elem_of_In in Hq. destruct Hq as [<-|[<-|[]]]; cbn in Ha; unfold sim_buf; cbn; lia.
  - unfold sim_buf. cbn. lia.
Qed.

Lemma low_level_output_sends_witness :
  wp (low_level_output 4 sim_packet) (send_start false) (fun r s' =>
    r = ERR_OK /\ dma_fetch 4 true (mem_of s') 0x20000000 =
      Some (chain_bytes (mem_of (send_start false)) sim_packet, 0x20000040)).
Proof.
  eapply wp_mono.
  - apply (low_level_output_sends (E := eth_sim_mem) sim_table_tx sim_packet 0 4 4 (send_start false));
      [apply sim_packet_ready|reflexivity|by left|lia].
  - intros r s' H. vm_compute (_ <=? _) in H. destruct H as (-> & Hf & Ht & _).
    split; [done|]. rewrite Ht in Hf. exact Hf.
Defined.

Lemma low_level_output_drops_when_locked_witness :
  wp (low_level_output 4 sim_packet) (send_start true) (fun r s' =>
    r = ERR_OK /\ dma_fetch 4 true (mem_of s') 0x20000000 = None).
Proof.
  eapply wp_mono.
  - apply (low_level_output_drops_when_locked (E := eth_sim_mem) sim_table_tx sim_packet 0 4 4 (send_start true));
      [apply sim_packet_ready|reflexivity|lia|vm_compute; congruence].
  - intros r s' (-> & _ & _ & Hf). done.
Defined.

(** A packet of 6097 bytes while all four buffers are free: its last byte overwrites the first one in the
    first buffer, ERR_OK is returned, and five buffers of a ring of four are handed over, so that the next
    descriptor is the second one. *)
Lemma low_level_output_wraps :
  wp (low_level_output 5 [Seg 0x20008000 6097]) (send_start false) (fun r s' =>
    r = ERR_OK /\ TxDesc (heth (glb s')) = 0x20000020 /\
    bytes (mem_of s') 0x20001000 = bytes (mem_of (send_start false)) (0x20008000 + 6096)).
Proof. by vm_compute. Qed.
