(* ===== verification/EthRecv.v ===== *)
(** Receiving: low_level_input of src/ethernetif.c with
    HAL_ETH_GetReceivedFrame_IT copies a received frame into packet buffers and
    gives the descriptors back to the controller. *)
From S2P Require Import Prelude Machine SysArch FlashHal Clock EthHal EthernetIf EthRing EthCopy.

#[local] Open Scope fw_scope.

(** ** Status words of received descriptors *)

Lemma any_bit_rx st :
  any_bit st ETH_DMARXDESC_OWN = Z.testbit st 31 /\
  (Z.land st (ETH_DMARXDESC_FS .| ETH_DMARXDESC_LS) =? ETH_DMARXDESC_FS) = Z.testbit st 9 && negb (Z.testbit st 8) /\
  (Z.land st (ETH_DMARXDESC_LS .| ETH_DMARXDESC_FS) =? 0) = negb (Z.testbit st 9) && negb (Z.testbit st 8).
Proof.
  split; [apply (any_bit_pow2 st 31); lia|].
  change (ETH_DMARXDESC_FS .| ETH_DMARXDESC_LS) with (Z.ones 2 .<< 8).
  change (ETH_DMARXDESC_LS .| ETH_DMARXDESC_FS) with (Z.ones 2 .<< 8).
  assert (Z.land st (Z.ones 2 .<< 8) = (Z.b2z (Z.testbit st 8) + 2 * Z.b2z (Z.testbit st 9)) .<< 8) as ->.
  { apply Z.bits_inj'. intros i Hi. rewrite Z.land_spec, !Z.shiftl_spec by lia.
    destruct (decide (i = 8)) as [->|]; [|destruct (decide (i = 9)) as [->|]].
    - destruct (Z.testbit st 8), (Z.testbit st 9); reflexivity.
    - destruct (Z.testbit st 8), (Z.testbit st 9); reflexivity.
    - assert (Z.testbit (Z.ones 2) (i - 8) = false) as ->.
      { destruct (decide (i < 8)); [by rewrite Z.testbit_neg_r by lia|by rewrite Z.ones_spec_high by lia]. }
      rewrite andb_false_r. destruct (decide (i < 8)); [by rewrite Z.testbit_neg_r by lia|].
      symmetry. apply (testbit_above 2); [|lia]. destruct (Z.testbit st 8), (Z.testbit st 9); cbn; lia. }
  destruct (Z.testbit st 8), (Z.testbit st 9); split; reflexivity.
Qed.

Lemma any_bit_own_set w : Z.testbit (u32 (w .| ETH_DMARXDESC_OWN)) 31 = true.
Proof. autorewrite with fw_bits. by rewrite orb_true_r. Qed.

(** The length field. *)
Lemma length_field st :
  (st .& ETH_DMARXDESC_FL) .>> ETH_DMARXDESC_FRAMELENGTHSHIFT = bits st 16 14.
Proof. apply (land_field st 16 14); lia. Qed.

(** The descriptors of a frame are consecutive in the ring. *)
Lemma segments_consecutive m tab buff n : forall first i ds st,
  ring tab buff m -> dma_segments n first m (desc_i tab i) = Some (ds, st) ->
  ds = (fun j => desc_i tab (i + j)) <$> zrange 0 (length ds) /\ (0 < length ds <= n)%nat.
Proof.
  induction n as [|n IH]; intros first i ds st Hr H; [done|]. cbn [dma_segments] in H.
  destruct (_ || _); [done|]. destruct (Z.testbit _ 8).
  - injection H as <- <-. split; [|cbn; lia]. change (zrange 0 (length [desc_i tab i])) with [0].
    cbn [fmap list_fmap]. by rewrite Z.add_0_r.
  - rewrite (proj1 (Hr i)) in H. destruct (dma_segments n false m (desc_i tab (i + 1))) as [[ds' st']|] eqn:Hd; [|done].
    injection H as <- <-. destruct (IH false (i + 1) ds' st' Hr Hd) as [Hds Hlen]. cbn [fst length]. split; [|lia].
    rewrite zrange_S, fmap_cons. f_equal; [by rewrite Z.add_0_r|]. rewrite Hds at 1.
    unfold zrange. change (0 + 1) with (1 + 0). rewrite <- (fmap_add_seqZ 1 0), <- list_fmap_compose.
    apply list_fmap_ext. intros ? j _. cbn. f_equal. lia.
Qed.

(** Bytes of consecutive full buffers. *)
Lemma buffers_bytes m tab buff k n :
  ring tab buff m ->
  concat ((fun d => bytes_at m (wd m (Buffer1Addr d)) ETH_RX_BUF_SIZE) <$> ((fun j => desc_i tab (k + j)) <$> zrange 0 n)) =
  (fun x => bt m (ring_addr buff k x)) <$> zrange 0 (n * 1524).
Proof.
  intros Hr. induction n as [|n IH]; [done|].
  rewrite zrange_snoc, !fmap_app, concat_app, IH. cbn [fmap list_fmap concat]. rewrite app_nil_r.
  replace (S n * 1524)%nat with (n * 1524 + 1524)%nat by lia. rewrite zrange_app, fmap_app. f_equal.
  rewrite (proj2 (Hr _)). unfold bytes_at, zrange. change (Z.of_nat (Z.to_nat ETH_RX_BUF_SIZE)) with 1524.
  rewrite <- (Z.add_0_r (buf_i _ _)), <- (Z.add_0_r (0 + Z.of_nat (n * 1524))).
  rewrite <- !fmap_add_seqZ, <- !list_fmap_compose. apply list_fmap_ext.
  intros ? x Hx%list_elem_of_lookup_2. apply elem_of_seqZ in Hx. cbn.
  match goal with |- _ = bt m (ring_addr _ _ ?y) => replace y with (Z.of_nat n * 1524 + x) by lia end.
  by rewrite ring_addr_at by lia.
Qed.

Lemma frame_bytes_alt m tab buff k n ds st :
  ring tab buff m -> dma_segments n true m (desc_i tab k) = Some (ds, st) ->
  0 <= frame_length st <= Z.of_nat (length ds) * 1524 ->
  frame_bytes m ds st = (fun x => bt m (ring_addr buff k x)) <$> zrange 0 (Z.to_nat (frame_length st)).
Proof.
  intros Hr Hd Hl. destruct (segments_consecutive m tab buff n true k ds st Hr Hd) as [Hds _].
  unfold frame_bytes. rewrite Hds at 1. rewrite (buffers_bytes m tab buff) by done.
  replace (length ds * 1524)%nat with (Z.to_nat (frame_length st) + (length ds * 1524 - Z.to_nat (frame_length st)))%nat by lia.
  rewrite zrange_app, fmap_app, take_app_length'; [done|]. by rewrite length_fmap, zrange_length.
Qed.

Section recv.
Context {B : Bus} {N : Narrow B} {R : Rtos B} {is_desc is_buf : Z -> Prop} {E : EthMem B N is_desc is_buf}.
Context {P : EthPlaces} {S : NetStack B}.
Implicit Types s : mach eth_glob.
Abbreviation tab := DMARxDscrTab.
Abbreviation buff := Rx_Buff.
Context (Hp : placed DMARxDscrTab Rx_Buff) (Htab : forall a, table_word DMARxDscrTab a -> is_desc a).

(** ** Finding a frame *)

Lemma wp_rx_status k s (Q : Z -> mach eth_glob -> Prop) :
  RxDesc (heth (glb s)) = desc_i tab k ->
  (forall s', mem_of s' = mem_of s -> glb s' = glb s -> Q (wd (mem_of s) (Status (desc_i tab k))) s') ->
  wp rx_status s Q.
Proof.
  intros Hk HQ. unfold rx_status. apply wp_bind, wp_get_heth. rewrite Hk.
  destruct (desc_words tab Htab k) as (Ws & _). by apply wp_desc_rd.
Qed.

Lemma wp_next_rx k s (Q : unit -> mach eth_glob -> Prop) :
  ring tab buff (mem_of s) -> RxDesc (heth (glb s)) = desc_i tab k ->
  (forall s', mem_of s' = mem_of s -> heth (glb s') = set_RxDesc (desc_i tab (k + 1)) (heth (glb s)) -> Q tt s') ->
  wp next_rx s Q.
Proof.
  intros Hr Hk HQ. unfold next_rx. apply wp_bind, wp_get_heth. rewrite Hk.
  destruct (desc_words tab Htab k) as (_ & _ & _ & Wn).
  apply wp_bind, wp_desc_rd; [done|]. intros s1 M1 G1. rewrite (proj1 (Hr k)).
  apply wp_modify_heth. intros s2 M2 H2. apply HQ; congruence.
Qed.

(** The handle after a frame of [n] segments that ends in descriptor [l]. *)
Definition frame_found (m : mem) (h : ETH_HandleTypeDef) (f l n st next : Z) : ETH_HandleTypeDef :=
  set_RxDesc next (set_infos (fun _ => RxInfos f l n (u32 (frame_length st)) (wd m (Buffer1Addr f))) h).

Lemma wp_last_segment k f l n s (Q : unit -> mach eth_glob -> Prop) :
  ring tab buff (mem_of s) -> RxDesc (heth (glb s)) = desc_i tab k ->
  (exists i, f = desc_i tab i) ->
  (exists len b, RxFrameInfos (heth (glb s)) = RxInfos f l n len b) ->
  (forall s', mem_of s' = mem_of s ->
     heth (glb s') = frame_found (mem_of s) (heth (glb s)) f l n (wd (mem_of s) (Status (desc_i tab k))) (desc_i tab (k + 1)) ->
     Q tt s') ->
  wp last_segment s Q.
Proof.
  intros Hr Hk [fi ->] (len & b & Hi) HQ. unfold last_segment.
  apply wp_bind, (wp_rx_status k); [done|]. intros s1 M1 G1.
  apply wp_bind, wp_modify_heth. intros s2 M2 H2. apply wp_bind, wp_get_heth.
  rewrite H2, G1. cbn [RxFrameInfos set_infos]. rewrite Hi. cbn [FSRxDesc set_rx_length].
  destruct (desc_words tab Htab fi) as (_ & _ & Wb & _).
  apply wp_bind, wp_desc_rd; [done|]. intros s3 M3 G3. apply wp_bind, wp_modify_heth. intros s4 M4 H4.
  apply (wp_next_rx k); [by rewrite M4, M3, M2, M1|by rewrite H4, G3, H2, G1|].
  intros s5 M5 H5. apply HQ; [congruence|]. rewrite H5, H4, G3, H2, G1, M2, M1, length_field.
  unfold frame_found, set_infos, set_RxDesc, set_rx_buffer, set_rx_length, frame_length. cbn. by rewrite Hi.
Qed.

Lemma wp_end_of_frame {A} (r : A) k fi i s (Q : A -> mach eth_glob -> Prop) :
  ring tab buff (mem_of s) -> RxDesc (heth (glb s)) = desc_i tab k ->
  SegCount (RxFrameInfos (heth (glb s))) = i -> 0 <= i <= 8 ->
  (if i =? 0 then fi = k else FSRxDesc (RxFrameInfos (heth (glb s))) = desc_i tab fi) ->
  (forall l s', mem_of s' = mem_of s ->
     heth (glb s') = frame_found (mem_of s) (heth (glb s)) (desc_i tab fi) l (i + 1)
                       (wd (mem_of s) (Status (desc_i tab k))) (desc_i tab (k + 1)) -> Q r s') ->
  wp (h <- get_heth ;; modify_infos (set_LSRxDesc (RxDesc h)) ;; count_segment ;; single_segment ;;
      last_segment ;; ret r) s Q.
Proof.
  intros Hr Hk Hi Hi8 Hf HQ. apply wp_bind, wp_get_heth. apply wp_bind, wp_modify_heth. intros s1 M1 H1.
  apply wp_bind, wp_modify_heth. intros s2 M2 H2. apply wp_bind.
  eapply (wp_mono _ _ (fun _ t => mem_of t = mem_of s /\ exists l len b,
    heth (glb t) = set_infos (fun _ => RxInfos (desc_i tab fi) l (i + 1) len b) (heth (glb s)))).
  { unfold single_segment. apply wp_bind, wp_get_heth. rewrite H2, H1. cbn [RxFrameInfos set_infos SegCount set_SegCount set_LSRxDesc].
    rewrite Hi, u32_small by lia. destruct (Z.eqb_spec (i + 1) 1) as [Hi1|Hi1].
    - assert (i = 0) as -> by lia. change (0 =? 0) with true in Hf. assert (fi = k) as -> by exact Hf.
      apply wp_modify_heth. intros s3 M3 H3. split; [congruence|]. do 3 eexists.
      rewrite H3, H2, H1. unfold set_infos, set_SegCount, set_LSRxDesc, set_FSRxDesc. cbn. rewrite Hi, Hk. reflexivity.
    - destruct (Z.eqb_spec i 0); [lia|]. apply wp_ret. split; [congruence|]. do 3 eexists. rewrite H2, H1.
      unfold set_infos, set_SegCount, set_LSRxDesc. cbn. rewrite Hi, Hf, u32_small by lia. reflexivity. }
  intros _ s3 (M3 & l & len & b & H3). apply wp_bind, (wp_last_segment k (desc_i tab fi) l (i + 1)).
  - by rewrite M3.
  - by rewrite H3.
  - by exists fi.
  - exists len, b. by rewrite H3.
  - intros s4 M4 H4. apply wp_ret, (HQ l); [congruence|]. by rewrite H4, H3, M3.
Qed.

(** The scan at segment [i] of a frame; [first] says that it is the first one. *)
Lemma wp_scan_rx m n : forall rounds first k fi i ds st s,
  (n <= rounds)%nat -> mem_of s = m -> ring tab buff m ->
  dma_segments n first m (desc_i tab k) = Some (ds, st) -> RxDesc (heth (glb s)) = desc_i tab k ->
  SegCount (RxFrameInfos (heth (glb s))) = i -> 0 <= i -> i + Z.of_nat n <= 8 ->
  (if first then i = 0 /\ fi = k else 1 <= i /\ FSRxDesc (RxFrameInfos (heth (glb s))) = desc_i tab fi) ->
  wp (scan_rx rounds) s (fun r s' => r = true /\ mem_of s' = m /\ exists l,
    heth (glb s') = frame_found m (heth (glb s)) (desc_i tab fi) l (i + Z.of_nat (length ds)) st
                      (desc_i tab (k + Z.of_nat (length ds)))).
Proof.
  induction n as [|n IH]; intros rounds first k fi i ds st s Hn Hm Hr Hd Hk Hi Hi0 Hi8 Hf; [done|].
  destruct rounds as [|rounds]; [lia|]. cbn [scan_rx dma_segments] in *.
  apply wp_bind, (wp_rx_status k); [done|]. intros s1 M1 G1.
  rewrite Hm. set (w := wd m (Status (desc_i tab k))) in *. destruct (any_bit_rx w) as (Hown & Hfs & Hmid).
  rewrite Hown. destruct (Z.testbit w 31); [done|]. cbn [orb] in Hd.
  apply wp_bind, (wp_rx_status k); [by rewrite G1|]. intros s2 M2 G2. rewrite M1, Hm. fold w. rewrite Hfs.
  destruct (Bool.eqb_spec (Z.testbit w 9) first) as [Hfirst|]; [|done]. cbn [negb] in Hd. rewrite Hfirst.
  destruct (Z.testbit w 8) eqn:Hlast.
  { injection Hd as <- <-. rewrite andb_false_r. apply wp_bind, (wp_rx_status k); [by rewrite G2, G1|].
    intros s3 M3 G3. rewrite M2, M1, Hm. fold w. rewrite Hmid, andb_false_r.
    apply (wp_end_of_frame true k fi i); rewrite ?M3, ?M2, ?M1, ?G3, ?G2, ?G1, ?Hm; [done..|lia| |].
    - destruct first; [by destruct Hf as [-> ->]|]. destruct Hf as [Hf1 Hf]. by destruct (Z.eqb_spec i 0); [lia|].
    - intros l s' M' H'. split; [done|]. split; [congruence|]. by exists l. }
  rewrite (proj1 (Hr k)) in Hd.
  destruct (dma_segments n false m (desc_i tab (k + 1))) as [[ds' st']|] eqn:Hd'; [|done]. injection Hd as <- <-.
  cbn [fst snd length].
  replace (k + Z.of_nat (Datatypes.S (length ds'))) with (k + 1 + Z.of_nat (length ds')) by lia.
  replace (i + Z.of_nat (Datatypes.S (length ds'))) with (i + 1 + Z.of_nat (length ds')) by lia.
  destruct first; cbn [andb negb].
  - destruct Hf as [-> ->]. apply wp_bind, wp_get_heth. apply wp_bind, wp_modify_heth. intros s3 M3 H3.
    apply wp_bind, wp_modify_heth. intros s4 M4 H4.
    apply wp_bind, (wp_next_rx k); [by rewrite M4, M3, M2, M1, Hm|by rewrite H4, H3, G2, G1|]. intros s5 M5 H5.
    eapply wp_mono; [apply (IH rounds false (k + 1) k 1 ds' st' s5); try done|]; rewrite ?H5, ?H4, ?H3; try done; try lia.
    + by rewrite M5, M4, M3, M2, M1.
    + split; [done|]. cbn. by rewrite G2, G1.
    + intros r s' (-> & M' & l & H'). split; [done|]. split; [done|]. exists l. rewrite H'.
      unfold frame_found, set_RxDesc, set_infos. cbn. by rewrite G2, G1.
  - apply wp_bind, (wp_rx_status k); [by rewrite G2, G1|]. intros s3 M3 G3. rewrite M2, M1, Hm. fold w.
    rewrite Hmid, Hfirst. cbn [andb negb]. destruct Hf as [Hf1 Hf].
    apply wp_bind, wp_modify_heth. intros s4 M4 H4.
    apply wp_bind, (wp_next_rx k); [by rewrite M4, M3, M2, M1, Hm|by rewrite H4, G3, G2, G1|]. intros s5 M5 H5.
    eapply wp_mono; [apply (IH rounds false (k + 1) fi (i + 1) ds' st' s5); try done|]; rewrite ?H5, ?H4; try done; try lia.
    + by rewrite M5, M4, M3, M2, M1.
    + cbn. rewrite G3, G2, G1, Hi. apply u32_small. lia.
    + split; [lia|]. cbn. by rewrite G3, G2, G1.
    + intros r s' (-> & M' & l & H'). split; [done|]. split; [done|]. exists l. rewrite H'.
      unfold frame_found, set_RxDesc, set_infos. cbn. by rewrite G3, G2, G1.
Qed.

(** ** Copying the frame into the packet buffers *)

(** What [pbuf_alloc] gives for [len] bytes: a chain of that length in memory outside
    the ring's buffers, without overlaps. *)
Definition good_chain (len : Z) (p : list seg) : Prop :=
  Forall (fun q => 0 <= seg_len q) p /\ chain_len p = len /\ NoDup (chain_addrs p) /\
  forall a, a ∈ chain_addrs p -> is_buf a /\ ~ (buff <= a < buff + 4 * 1524).

Lemma chain_addr_inj p x y :
  NoDup (chain_addrs p) -> 0 <= x < chain_len p -> 0 <= y < chain_len p -> chain_addr p x = chain_addr p y -> x = y.
Proof.
  intros Hn%NoDup_ListNoDup Hx Hy Heq. unfold chain_len in *.
  assert (Z.to_nat x = Z.to_nat y); [|lia].
  eapply (proj1 (List.NoDup_nth (chain_addrs p) 0)); [done|lia..|done].
Qed.

Section copy_out.
Context (p : list seg) (k : Z) (m0 : mem).
Abbreviation T := (chain_len p).
Context (Hring : ring DMARxDscrTab Rx_Buff m0) (HT : chain_len p <= 4 * 1524) (Hgood : good_chain (chain_len p) p).
Context (Hsrc : forall a, Rx_Buff <= a < Rx_Buff + 4 * 1524 -> is_buf a).

Abbreviation copied_out := (copied (ring_addr Rx_Buff k) (chain_addr p) m0).

Definition rx_cursor_at (j off : Z) : rx_cursor := RxCursor (desc_i tab (k + j)) (buf_i buff (k + j)) off.

Lemma wp_out_copy pos j off n d s (Q : unit -> mach eth_glob -> Prop) :
  pos = j * 1524 + off -> 0 <= j -> 0 <= off -> 0 <= n -> off + n <= 1524 -> pos + n <= T ->
  (forall i, 0 <= i < n -> chain_addr p (pos + i) = d + i) ->
  copied_out pos (mem_of s) ->
  (forall s', copied_out (pos + n) (mem_of s') -> glb s' = glb s -> Q tt s') ->
  wp (memcpy d (buf_i buff (k + j) + off) n) s Q.
Proof.
  intros -> Hj Ho Hn Hon HnT Hr Hc HQ. destruct Hgood as (_ & _ & Hnd & Hdst).
  apply (wp_memcpy (E := E) (ring_addr buff k) (chain_addr p) T m0) with (pos := j * 1524 + off); try done.
  - intros x Hx. apply Hsrc, ring_addr_range.
  - intros x Hx. apply Hdst. by apply chain_addr_in.
  - intros x y Hx Hy. by apply chain_addr_inj.
  - intros x y Hx Hy Heq. apply (Hdst (chain_addr p y)); [by apply chain_addr_in|].
    rewrite <- Heq. apply ring_addr_range.
  - lia.
  - intros i Hi. split; [by apply Hr|]. replace (j * 1524 + off + i) with (j * 1524 + (off + i)) by lia.
    rewrite ring_addr_at by lia. lia.
Qed.

Definition out_result (pos : Z) s (c : rx_cursor) (s' : mach eth_glob) : Prop :=
  glb s' = glb s /\ exists j' off', c = rx_cursor_at j' off' /\ j' * 1524 + off' = pos /\
    0 <= off' <= 1524 /\ 0 <= j' < 4 /\ copied_out pos (mem_of s').

Lemma wp_rx_copy fuel : forall pos j off d left s,
  pos = j * 1524 + off -> 0 <= j < 4 -> 0 <= off <= 1524 -> 0 <= left -> pos + left <= T -> 4 - j <= Z.of_nat fuel ->
  (forall i, 0 <= i < left -> chain_addr p (pos + i) = d + i) -> copied_out pos (mem_of s) ->
  wp (rx_copy fuel (rx_cursor_at j off) d left) s (out_result (pos + left) s).
Proof.
  induction fuel as [|fuel IH]; intros pos j off d left s Hpos Hj Hoff Hleft HpT Hfuel Hr Hc; [lia|].
  cbn [rx_copy rc_off rc_desc rc_buffer rx_cursor_at]. change ETH_RX_BUF_SIZE with 1524.
  destruct (Z.ltb_spec 1524 (left + off)) as [Hbig|Hfit].
  - apply wp_bind. eapply (wp_out_copy pos); [done|lia..| |done|]; [intros; apply Hr; lia|].
    intros s1 C1 G1. destruct (desc_words tab Htab (k + j)) as (_ & _ & _ & Wn).
    assert (forall m, words m = words m0 -> forall a, wd m a = wd m0 a) as Hwd.
    { intros m Hm a. unfold wd. by rewrite Hm. }
    apply wp_bind, wp_desc_rd; [done|]. intros s2 M2 G2. rewrite (Hwd _ (proj1 C1)), (proj1 (Hring _)).
    rewrite <- Z.add_assoc. destruct (desc_words tab Htab (k + (j + 1))) as (_ & _ & Wb & _).
    apply wp_bind, wp_desc_rd; [done|]. intros s3 M3 G3. rewrite M2, (Hwd _ (proj1 C1)), (proj2 (Hring _)).
    fold (rx_cursor_at (j + 1) 0).
    eapply wp_mono; [apply (IH (pos + (1524 - off)) (j + 1) 0); try lia|].
    + intros i Hi. rewrite <- Z.add_assoc, Hr by lia. lia.
    + by rewrite M3, M2.
    + intros c s' [G' H']. split; [congruence|].
      by replace (pos + left) with (pos + (1524 - off) + (left - (1524 - off))) by lia.
  - apply wp_bind. eapply (wp_out_copy pos); [done|lia..|done|done|].
    intros s1 C1 G1. apply wp_ret. split; [done|]. exists j, (off + left).
    split; [done|]. split; [lia|]. split; [lia|]. split; [lia|done].
Qed.

Lemma wp_rx_chain fuel p2 : forall p1 j off s,
  p = p1 ++ p2 -> chain_len p1 = j * 1524 + off -> 0 <= j < 4 -> 0 <= off <= 1524 ->
  4 <= Z.of_nat fuel -> copied_out (chain_len p1) (mem_of s) ->
  wp (rx_chain fuel p2 (rx_cursor_at j off)) s (fun _ s' => glb s' = glb s /\ copied_out T (mem_of s')).
Proof.
  induction p2 as [|q p2 IH]; intros p1 j off s Hp12 Hl Hj Hoff Hfuel Hc; cbn [rx_chain].
  - apply wp_ret. rewrite app_nil_r in Hp12. by subst p1.
  - assert (0 <= seg_len q) as Hq.
    { destruct Hgood as [Hlen _]. rewrite Forall_forall in Hlen. apply Hlen. rewrite Hp12. apply in_elt. }
    assert (T = chain_len p1 + seg_len q + chain_len p2) as HlT.
    { rewrite Hp12 at 1. rewrite chain_len_app, chain_len_cons by done. lia. }
    assert (chain_len (p1 ++ [q]) = chain_len p1 + seg_len q) as Hl1.
    { rewrite chain_len_app, chain_len_cons by done. change (chain_len []) with 0. lia. }
    pose proof (chain_len_nonneg p2). apply wp_bind.
    eapply wp_mono; [apply (wp_rx_copy fuel (chain_len p1) j off); try lia|].
    + intros i Hi. rewrite Hp12. by apply chain_addr_seg.
    + done.
    + intros c s2 [G2 (j' & off' & -> & Hpos & Hoff' & Hj' & Hc')].
      eapply wp_mono; [apply (IH (p1 ++ [q]) j' off' s2); try lia|].
      * by rewrite <- app_assoc.
      * by rewrite Hl1.
      * intros _ s3 [G3 C3]. split; [congruence|done].
Qed.
End copy_out.

(** ** Giving the descriptors back *)

(** The first [n] descriptors from [k] on are the controller's, nothing else has changed. *)
Definition given_back (m m' : mem) (k n : Z) : Prop :=
  bytes m' = bytes m /\ ring tab buff m' /\
  (forall j, 0 <= j < n -> Z.testbit (wd m' (Status (desc_i tab (k + j)))) 31 = true) /\
  (forall a, (forall j, 0 <= j < n -> a <> Status (desc_i tab (k + j))) -> wd m' a = wd m a).

Lemma wp_rx_release n : forall k s,
  Z.of_nat n <= 4 -> ring tab buff (mem_of s) ->
  wp (rx_release n (desc_i tab k)) s (fun _ s' =>
    glb s' = glb s /\ given_back (mem_of s) (mem_of s') k (Z.of_nat n)).
Proof.
  induction n as [|n IH]; intros k s Hn Hr; cbn [rx_release].
  { apply wp_ret. split; [done|]. split; [done|]. split; [done|]. split; [lia|done]. }
  destruct (desc_words tab Htab k) as (Ws & _ & _ & Wn).
  apply wp_bind, (wp_wrote_if true); [done|]. intros s1 [B1 W1] G1.
  assert (only_desc tab (mem_of s) (mem_of s1) k) as Ho1.
  { split; [done|]. intros a Ha _. rewrite W1. by destruct (Z.eqb_spec a (Status (desc_i tab k))). }
  assert (ring tab buff (mem_of s1)) as Hr1 by by eapply only_desc_ring.
  apply wp_bind, wp_desc_rd; [done|]. intros s2 M2 G2. rewrite (proj1 (Hr1 k)).
  eapply wp_mono; [apply IH; [lia|by rewrite M2]|]. intros _ s3 [G3 (B3 & Hr3 & Hg & Hu)].
  split; [congruence|]. split; [by rewrite B3, M2|]. split; [done|]. rewrite M2 in Hu. split.
  - intros j Hj. destruct (decide (j = 0)) as [->|].
    + rewrite Z.add_0_r, Hu, W1, Z.eqb_refl.
      * apply (any_bit_own_set (wd (mem_of s) (Status (desc_i tab k)))).
      * intros j Hj'. pose proof (desc_i_apart tab k (k + 1 + j) ltac:(zlia)). unfold Status. lia.
    + replace (k + j) with (k + 1 + (j - 1)) by lia. apply Hg. lia.
  - intros a Ha. rewrite Hu.
    + rewrite W1. destruct (Z.eqb_spec a (Status (desc_i tab k))) as [->|]; [|done].
      by destruct (Ha 0 ltac:(lia)); rewrite Z.add_0_r.
    + intros j Hj. replace (k + 1 + j) with (k + (j + 1)) by lia. apply Ha. lia.
Qed.

Lemma wp_GetReceivedFrame k ds st s (Q : Z -> mach eth_glob -> Prop) :
  eth_Lock (heth (glb s)) = false -> ring tab buff (mem_of s) -> RxDesc (heth (glb s)) = desc_i tab k ->
  SegCount (RxFrameInfos (heth (glb s))) = 0 -> dma_segments 4 true (mem_of s) (desc_i tab k) = Some (ds, st) ->
  (forall l s', mem_of s' = mem_of s ->
     heth (glb s') = set_eth_Lock false (set_State HAL_ETH_STATE_READY
       (frame_found (mem_of s) (heth (glb s)) (desc_i tab k) l (Z.of_nat (length ds)) st
          (desc_i tab (k + Z.of_nat (length ds))))) -> Q HAL_OK s') ->
  wp HAL_ETH_GetReceivedFrame_IT s Q.
Proof.
  intros Hl Hr Hk Hs Hd HQ. apply wp_eth_lock; [congruence|]. intros _ s1 M1 H1.
  apply wp_bind, wp_modify_heth. intros s2 M2 H2. apply wp_bind.
  eapply wp_mono.
  { apply (wp_scan_rx (mem_of s) 4 (Z.to_nat ETH_RXBUFNB) true k k 0 ds st);
      rewrite ?H2, ?H1; try done; try lia. by rewrite M2. }
  intros r s3 (-> & M3 & l & H3). apply wp_bind, wp_modify_heth. intros s4 M4 H4.
  apply wp_bind, wp_modify_heth. intros s5 M5 H5. apply wp_ret, (HQ l); [congruence|].
  by rewrite H5, H4, H3, H2, H1.
Qed.

(** * low_level_input *)

(** What lwIP promises of its pool: [pbuf_alloc] leaves descriptors and buffers alone, and
    gives no chain or a good one of the length asked for. *)
Class PoolLaws := {
  alloc_view n h : view (snd (pool_alloc n h)) = view h;
  alloc_chain n h : 0 < n -> fst (pool_alloc n h) = [] \/ good_chain n (fst (pool_alloc n h));
}.

(** The interface is set up, the next descriptor is [k], no frame is half received, and
    the controller has stored a frame in the descriptors [ds]. *)
Record rx_ready (k : Z) (ds : list Z) (st : Z) s : Prop := {
  rr_ring : ring tab buff (mem_of s);
  rr_next : RxDesc (heth (glb s)) = desc_i tab k;
  rr_eth : eth_Instance (heth (glb s)) = ETH;
  rr_segs : SegCount (RxFrameInfos (heth (glb s))) = 0;
  rr_frame : dma_segments 4 true (mem_of s) (desc_i tab k) = Some (ds, st);
  rr_len : 0 < frame_length st <= Z.of_nat (length ds) * 1524;
  rr_buf : forall a, buff <= a < buff + 4 * 1524 -> is_buf a }.

Lemma wp_pool_alloc {L : PoolLaws} n s (Q : list seg -> mach eth_glob -> Prop) :
  0 < n ->
  (forall p s', mem_of s' = mem_of s -> glb s' = glb s -> p = fst (pool_alloc n (dev s)) ->
     p = [] \/ good_chain n p -> Q p s') ->
  wp (kernel (pool_alloc n)) s Q.
Proof. intros Hn HQ. unfold wp, kernel. apply HQ; [apply alloc_view|done|done|by apply alloc_chain]. Qed.

Lemma frame_length_small st : frame_length st < 2 ^ 14.
Proof. unfold frame_length. pose proof (bits_range st 16 14). lia. Qed.

(** The frame is copied into the chain, if there is one. *)
Lemma wp_copy_frame p k m fuel s (Q : unit -> mach eth_glob -> Prop) :
  mem_of s = m -> ring tab buff m -> (4 <= fuel)%nat -> chain_len p <= 4 * 1524 ->
  (forall a, buff <= a < buff + 4 * 1524 -> is_buf a) ->
  p = [] \/ good_chain (chain_len p) p ->
  (forall s', glb s' = glb s -> copied (ring_addr buff k) (chain_addr p) m (chain_len p) (mem_of s') -> Q tt s') ->
  wp (rx_chain fuel p (RxCursor (desc_i tab k) (buf_i buff k) 0)) s Q.
Proof.
  intros Hm Hr Hfuel HT Hbuf Hp0 HQ. destruct Hp0 as [->|Hg].
  - apply wp_ret, HQ; [done|]. rewrite Hm. apply copied_0.
  - assert (RxCursor (desc_i tab k) (buf_i buff k) 0 = rx_cursor_at k 0 0) as ->.
    { unfold rx_cursor_at. by rewrite Z.add_0_r. }
    eapply wp_mono; [apply (wp_rx_chain p k m Hr HT Hg Hbuf fuel p []); try (done || lia)|].
    + rewrite Hm. apply copied_0.
    + intros [] s' [G C]. by apply HQ.
Qed.

(** What low_level_input leaves of a frame in [ds]: the chain [p], in a state [s'] in which
    the descriptors of the frame are the controller's again. *)
Record received (k : Z) (ds : list Z) (st : Z) s p s' : Prop := {
  rc_pool : exists h, view h = mem_of s /\ p = fst (pool_alloc (frame_length st) h);
  rc_bytes : p <> [] -> chain_bytes (mem_of s') p = frame_bytes (mem_of s) ds st;
  rc_ring : ring tab buff (mem_of s');
  rc_given : forall d, d ∈ ds -> Z.testbit (wd (mem_of s') (Status d)) 31 = true;
  rc_others : forall a, a ∉ ds -> wd (mem_of s') a = wd (mem_of s) a;
  rc_buffers : forall a, buff <= a < buff + 4 * 1524 -> bytes (mem_of s') a = bytes (mem_of s) a;
  rc_next : RxDesc (heth (glb s')) = desc_i tab (k + Z.of_nat (length ds));
  rc_segs : SegCount (RxFrameInfos (heth (glb s'))) = 0;
  rc_lock : eth_Lock (heth (glb s')) = false;
  rc_eth : eth_Instance (heth (glb s')) = ETH;
}.

Lemma wp_low_level_input {L : PoolLaws} k ds st fuel s (Q : list seg -> mach eth_glob -> Prop) :
  rx_ready k ds st s -> eth_Lock (heth (glb s)) = false -> (4 <= fuel)%nat ->
  (forall p s', received k ds st s p s' -> Q p s') ->
  wp (low_level_input fuel) s Q.
Proof.
  intros [Hr Hk He Hs Hd Hlen Hbuf] Hl Hfuel HQ. pose proof (frame_length_small st) as Hsmall.
  destruct (segments_consecutive _ tab buff 4 true k ds st Hr Hd) as [Hds Hn].
  unfold low_level_input. apply wp_bind, (wp_GetReceivedFrame k ds st); [done..|]. intros l s1 M1 H1.
  change (negb (HAL_OK =? HAL_OK)) with false. cbv iota.
  apply wp_bind, wp_get_heth. rewrite H1. cbn [RxFrameInfos frame_found set_eth_Lock set_State set_RxDesc set_infos rx_length rx_buffer FSRxDesc SegCount].
  rewrite (u32_small (frame_length st)), u16_small, (proj2 (Hr k)) by lia.
  destruct (Z.ltb_spec 0 (frame_length st)) as [Hpos|]; [|lia]. apply wp_bind.
  apply wp_pool_alloc; [done|]. intros p s2 M2 G2 Hp2 Hchain.
  assert (p = [] \/ good_chain (chain_len p) p /\ chain_len p = frame_length st) as Hpg.
  { destruct Hchain as [?|Hg]; [by left|right]. pose proof Hg as (_ & -> & _). done. }
  apply wp_bind, (wp_copy_frame p k (mem_of s)); [congruence|done|done| |done|by destruct Hpg as [|[]]; auto|].
  { destruct Hpg as [->|[_ ->]]; [done|lia]. }
  intros s3 G3 C3. assert (forall a, wd (mem_of s3) a = wd (mem_of s) a) as Hw3 by (intros a; unfold wd; by rewrite (proj1 C3)).
  rewrite Nat2Z.id. apply wp_bind. eapply wp_mono.
  { apply (wp_rx_release (length ds) k); [lia|]. intros i. by rewrite !Hw3. }
  intros [] s4 [G4 (B4 & Hr4 & Hg4 & Hu4)]. apply wp_bind, wp_modify_heth. intros s5 M5 H5.
  assert (heth (glb s5) = set_infos (set_SegCount 0) (heth (glb s1))) as H5' by by rewrite H5, G4, G3, G2.
  apply wp_bind, wp_resume; [by rewrite H5', H1|by vm_compute|]. intros s6 M6 G6. apply wp_ret, HQ.
  split; rewrite ?M6, ?M5, ?G6, ?H5', ?H1; try done.
  - exists (dev s1). by rewrite <- M1.
  - intros Hne. destruct Hpg as [->|[_ HT]]; [done|].
    rewrite (frame_bytes_alt _ tab buff k 4 ds st), chain_bytes_alt, HT by (done || lia).
    apply list_fmap_ext. intros i x Hx%list_elem_of_lookup_2%elem_of_zrange.
    unfold bt at 1. rewrite B4. apply C3. lia.
  - intros d Hd'. rewrite Hds in Hd'. apply list_elem_of_fmap in Hd' as (j & -> & Hj%elem_of_zrange). apply Hg4. lia.
  - intros a Ha. rewrite Hu4; [apply Hw3|]. intros j Hj ->. apply Ha. rewrite Hds.
    apply list_elem_of_fmap. exists j. split; [done|]. apply elem_of_zrange. lia.
  - intros a Ha. rewrite B4. apply (proj2 (proj2 C3)). intros x Hx ->.
    destruct Hpg as [->|[(_ & _ & _ & Hg) _]]; [change (chain_len []) with 0 in Hx; lia|]. by apply (Hg _ (chain_addr_in p x Hx)).
Qed.

(** C10: low_level_input, when the controller has stored a frame of up to four segments
    and the handle is not locked, returns what the pool gives for the frame's length;
    if that is a chain, its bytes are those of the frame without the CRC.  In either
    case the descriptors of the frame, and only these, are given back to the controller,
    the next descriptor is the one behind, and no segments are counted. *)
Theorem low_level_input_receives {L : PoolLaws} k ds st fuel s :
  rx_ready k ds st s -> eth_Lock (heth (glb s)) = false -> (4 <= fuel)%nat ->
  wp (low_level_input fuel) s (fun p s' =>
    (exists h, view h = mem_of s /\ p = fst (pool_alloc (frame_length st) h)) /\
    (p <> [] -> chain_bytes (mem_of s') p = frame_bytes (mem_of s) ds st) /\
    ring tab buff (mem_of s') /\
    (forall d, d ∈ ds -> Z.testbit (wd (mem_of s') (Status d)) 31 = true) /\
    (forall a, a ∉ ds -> wd (mem_of s') a = wd (mem_of s) a) /\
    RxDesc (heth (glb s')) = desc_i tab (k + Z.of_nat (length ds)) /\
    SegCount (RxFrameInfos (heth (glb s'))) = 0 /\ eth_Lock (heth (glb s')) = false).
Proof.
  intros Hr Hl Hf. apply (wp_low_level_input k ds st); [done..|]. intros p s' [H1 H2 H3 H4 H5 _ H7 H8 H9 _].
  split; [exact H1|]. split; [exact H2|]. split; [exact H3|]. split; [exact H4|]. split; [exact H5|].
  split; [exact H7|]. by split.
Qed.

(** While the handle is locked (for example while HAL_ETH_Start waits, when the
    receiving thread runs for the first time) low_level_input returns no packet and
    changes nothing, whatever the controller has stored; the receiving thread ends
    its round, so a stored frame waits for the interrupt of the next one. *)
Theorem low_level_input_when_locked n fuel s :
  eth_Lock (heth (glb s)) = true ->
  low_level_input fuel s = Ret [] s /\ drain (Datatypes.S n) fuel s = Ret tt s.
Proof.
  intros Hl. assert (low_level_input fuel s = Ret [] s) as Hi.
  { unfold low_level_input, HAL_ETH_GetReceivedFrame_IT, eth_lock, bind, get_heth, get_, ret. cbn. by rewrite Hl. }
  split; [done|]. cbn [drain]. unfold bind. by rewrite Hi.
Qed.
End recv.

(** * A frame of two segments on the simulated device *)

Definition sim_frame_words (a : Z) : Z :=
  if a =? 0x20000080 then ETH_DMARXDESC_FS
  else if a =? 0x200000A0 then ETH_DMARXDESC_LS + 2004 * 2 ^ 16
  else ring_words 0x20000080 0x20004000 a.

Definition recv_start (locked : bool) : mach eth_glob :=
  @Mach eth_sim eth_glob (Mem sim_frame_words (fun a => a mod 251)) [] (sim_glob 0x20000000 0x20000080 locked).

(** A pool with one buffer of 32 KB. *)
#[export] Instance sim_stack : NetStack eth_sim := {|
  pool_alloc n (h : @hw eth_sim) := (if n <=? 0x7000 then [Seg 0x20008000 n] else [], h);
  netif_input _ (h : @hw eth_sim) := (ERR_OK, h);
  chain_free _ (h : @hw eth_sim) := h |}.

Lemma sim_buffer_good n : 0 < n <= 0x7000 -> good_chain (is_buf := sim_buf) n [Seg 0x20008000 n].
Proof.
  intros Hn.
  assert (chain_addrs [Seg 0x20008000 n] = zrange 0x20008000 (Z.to_nat n)) as Ha by by unfold chain_addrs; cbn; rewrite app_nil_r.
  split; [apply Forall_cons_2; [cbn; lia|by apply Forall_nil_2]|]. split; [unfold chain_len; rewrite Ha, zrange_length; lia|].
  rewrite Ha. split; [apply NoDup_seqZ|]. intros a Hz%elem_of_zrange. unfold sim_buf. cbn. lia.
Qed.

Lemma sim_pool_laws : PoolLaws (E := eth_sim_mem).
Proof.
  split; [done|]. intros n h Hn. cbn. destruct (Z.leb_spec n 0x7000); [right; by apply sim_buffer_good|by left].
Qed.

Lemma low_level_input_receives_witness :
  wp (low_level_input 4) (recv_start false) (fun p s' =>
    p = [Seg 0x20008000 2000] /\
    chain_bytes (mem_of s') p = frame_bytes (mem_of (recv_start false)) [0x20000080; 0x200000A0] (ETH_DMARXDESC_LS + 2004 * 2 ^ 16)).
Proof.
  eapply wp_mono.
  - apply (low_level_input_receives (E := eth_sim_mem) sim_table_rx (L := sim_pool_laws) 0 [0x20000080; 0x200000A0]
             (ETH_DMARXDESC_LS + 2004 * 2 ^ 16) 4); [|reflexivity|lia].
    split; try reflexivity.
    + apply ring_intro. intros i Hi. zenum i 4%nat; split; reflexivity.
    + vm_compute. intuition congruence.
    + unfold sim_buf. cbn. lia.
  - intros p s' ((h & _ & Hp) & Hb & _). cbn in Hp. split; [done|]. apply Hb. by rewrite Hp.
Defined.

Lemma low_level_input_when_locked_witness :
  low_level_input 4 (recv_start true) = Ret [] (recv_start true) /\ drain 4 4 (recv_start true) = Ret tt (recv_start true).
Proof. apply (low_level_input_when_locked 3 4 (recv_start true)). reflexivity. Defined.
