(* ===== verification/EthThread.v ===== *)
(** The receiving thread, ethernetif_input of src/ethernetif.c: a round that is woken
    by the interrupt hands every frame the controller has stored to lwIP, in the order
    of their reception. *)
From S2P Require Import Prelude Machine SysArch FlashHal Clock EthHal EthernetIf EthRing EthCopy EthRecv.

#[local] Open Scope fw_scope.

(** * Frames in the ring *)

(** The frames [fs], each with its descriptors and its last status, follow each other
    from descriptor [k] on. *)
Fixpoint stored (tab : Z) (m : mem) (k : Z) (fs : list (list Z * Z)) : Prop :=
  match fs with
  | [] => True
  | (ds, st) :: fs' =>
      dma_segments 4 true m (desc_i tab k) = Some (ds, st) /\
      0 < frame_length st <= Z.of_nat (length ds) * 1524 /\
      stored tab m (k + Z.of_nat (length ds)) fs'
  end.
Definition segments (fs : list (list Z * Z)) : Z := Z.of_nat (length (concat (fst <$> fs))).

(** Behind them the ring is full, or the next descriptor is the controller's. *)
Definition ends (tab : Z) (m : mem) (k : Z) (fs : list (list Z * Z)) : Prop :=
  fs <> [] /\ segments fs = 4 \/ Z.testbit (wd m (Status (desc_i tab (k + segments fs)))) 31 = true.

Lemma segments_cons ds st fs : segments ((ds, st) :: fs) = Z.of_nat (length ds) + segments fs.
Proof. unfold segments. rewrite fmap_cons. cbn [concat fst]. rewrite length_app. lia. Qed.
Lemma segments_nonneg fs : 0 <= segments fs.
Proof. unfold segments. lia. Qed.

(** Frames depend on the status words of their descriptors only. *)
Lemma dma_segments_ext tab buff m m' n : forall first k ds st,
  ring tab buff m -> ring tab buff m' ->
  (forall j, 0 <= j < Z.of_nat (length ds) -> wd m' (Status (desc_i tab (k + j))) = wd m (Status (desc_i tab (k + j)))) ->
  dma_segments n first m (desc_i tab k) = Some (ds, st) -> dma_segments n first m' (desc_i tab k) = Some (ds, st).
Proof.
  induction n as [|n IH]; intros first k ds st Hr Hr' Hj H; [done|]. cbn [dma_segments] in *.
  destruct ds as [|d ds].
  { exfalso. destruct (_ || _); [done|]. destruct (Z.testbit _ 8); [done|].
    rewrite (proj1 (Hr k)) in H. by destruct (dma_segments n false m _) as [[]|]. }
  pose proof (Hj 0 ltac:(cbn; lia)) as H0. rewrite Z.add_0_r in H0. rewrite H0.
  destruct (_ || _); [done|]. destruct (Z.testbit _ 8); [done|].
  rewrite (proj1 (Hr k)) in H. rewrite (proj1 (Hr' k)).
  destruct (dma_segments n false m (desc_i tab (k + 1))) as [[ds' st']|] eqn:Hd; [|done]. cbn in H. injection H as <- <- <-.
  rewrite (IH false (k + 1) ds' st'); [done|done|done| |done].
  intros j Hj'. rewrite <- Z.add_assoc. apply Hj. cbn [length]. lia.
Qed.

Lemma stored_ext tab buff m m' fs : forall k,
  ring tab buff m -> ring tab buff m' ->
  (forall j, 0 <= j < segments fs -> wd m' (Status (desc_i tab (k + j))) = wd m (Status (desc_i tab (k + j)))) ->
  stored tab m k fs -> stored tab m' k fs.
Proof.
  induction fs as [|[ds st] fs IH]; intros k Hr Hr' Hj Hs; [done|]. cbn [stored] in *. destruct Hs as (H1 & H2 & H3).
  rewrite segments_cons in Hj. pose proof (segments_nonneg fs). split; [|split; [done|]].
  - apply (dma_segments_ext tab buff m); [done|done| |done]. intros j Hj'. apply Hj. lia.
  - apply IH; [done|done| |done]. intros j Hj'. rewrite <- Z.add_assoc. apply Hj. lia.
Qed.

Lemma frame_bytes_ext tab buff m m' k n ds st :
  ring tab buff m -> ring tab buff m' -> (forall a, buff <= a < buff + 4 * 1524 -> bytes m' a = bytes m a) ->
  dma_segments n true m (desc_i tab k) = Some (ds, st) -> dma_segments n true m' (desc_i tab k) = Some (ds, st) ->
  0 <= frame_length st <= Z.of_nat (length ds) * 1524 -> frame_bytes m' ds st = frame_bytes m ds st.
Proof.
  intros Hr Hr' Hb Hd Hd' Hl. rewrite (frame_bytes_alt m' tab buff k n), (frame_bytes_alt m tab buff k n) by done.
  apply list_fmap_ext. intros i x _. unfold bt. by rewrite Hb by apply ring_addr_range.
Qed.

(** The bytes of the frames. *)
Definition frames_bytes (m : mem) (fs : list (list Z * Z)) : list (list Z) := (fun f => frame_bytes m (fst f) (snd f)) <$> fs.

Lemma frames_bytes_ext tab buff m m' fs : forall k,
  ring tab buff m -> ring tab buff m' -> (forall a, buff <= a < buff + 4 * 1524 -> bytes m' a = bytes m a) ->
  stored tab m k fs -> stored tab m' k fs -> frames_bytes m' fs = frames_bytes m fs.
Proof.
  induction fs as [|[ds st] fs IH]; intros k Hr Hr' Hb Hs Hs'; [done|]. destruct Hs as (H1 & H2 & H3), Hs' as (H1' & _ & H3').
  unfold frames_bytes. rewrite !fmap_cons. f_equal; [|by apply (IH _ Hr Hr' Hb H3 H3')].
  apply (frame_bytes_ext tab buff m m' k 4); (done || cbn [fst snd]; lia).
Qed.

(** * What lwIP has been given *)

Section thread.
Context {B : Bus} {N : Narrow B} {R : Rtos B} {is_desc is_buf : Z -> Prop} {E : EthMem B N is_desc is_buf}.
Context {P : EthPlaces} {S : NetStack B}.
Implicit Types s : mach eth_glob.
Abbreviation tab := DMARxDscrTab.
Abbreviation buff := Rx_Buff.
Context (Hp : placed DMARxDscrTab Rx_Buff) (Htab : forall a, table_word DMARxDscrTab a -> is_desc a).

(** The ring is left alone. *)
Definition same_ring (m m' : mem) : Prop :=
  words m' = words m /\ forall a, Rx_Buff <= a < Rx_Buff + 4 * 1524 -> bytes m' a = bytes m a.

(** The input function of the stack takes the packet; registers, memory and the pool have
    no part in what it was given; neither it nor the kernel touches the ring. *)
Class StackLaws := {
  delivered : hw -> list (list Z);
  input_delivers p h : delivered (snd (netif_input p h)) = delivered h ++ [chain_bytes (view h) p];
  input_ring p h : same_ring (view h) (view (snd (netif_input p h)));
  free_delivered p h : delivered (chain_free p h) = delivered h;
  free_ring p h : same_ring (view h) (view (chain_free p h));
  alloc_delivered n h : delivered (snd (pool_alloc n h)) = delivered h;
  access_delivered a v h : delivered (snd (mmio_rd a h)) = delivered h /\ delivered (mmio_wr a v h) = delivered h /\
    delivered (snd (mmio_rd8 a h)) = delivered h /\ delivered (mmio_wr8 a v h) = delivered h;
  acquire_delivered q n h : delivered (snd (osSemaphoreAcquire q n h)) = delivered h;
  acquire_view q n h : view (snd (osSemaphoreAcquire q n h)) = view h;
}.
Context {L : PoolLaws} {K : StackLaws}.

(** [p] gives nothing to the stack. *)
Definition keeps {A} (p : M (mach eth_glob) A) : Prop :=
  forall s a s', p s = Ret a s' -> delivered (dev s') = delivered (dev s).

Lemma keeps_ret {A} (a : A) : keeps (ret a).
Proof. by intros s b s' [= <- <-]. Qed.
Lemma keeps_bind {A C} (p : M _ A) (k : A -> M _ C) : keeps p -> (forall a, keeps (k a)) -> keeps (bind p k).
Proof.
  intros Hp' Hk s c s' H. unfold bind in H. destruct (p s) as [a s1| | |] eqn:H1; try done.
  etrans; [by eapply Hk|by eapply Hp'].
Qed.
Lemma keeps_if {A} (b : bool) (p q : M _ A) : keeps p -> keeps q -> keeps (if b then p else q).
Proof. by destruct b. Qed.
Lemma keeps_rd a : keeps (rd a).
Proof. intros s b s' [= <- <-]. by destruct (access_delivered a 0 (dev s)). Qed.
Lemma keeps_wr a v : keeps (wr a v).
Proof. intros s b s' [= <- <-]. by destruct (access_delivered a (u32 v) (dev s)) as (_ & ? & _). Qed.
Lemma keeps_rd8 a : keeps (rd8 a).
Proof. intros s b s' [= <- <-]. by destruct (access_delivered a 0 (dev s)) as (_ & _ & ? & _). Qed.
Lemma keeps_wr8 a v : keeps (wr8 a v).
Proof. intros s b s' [= <- <-]. by destruct (access_delivered a (u8 v) (dev s)) as (_ & _ & _ & ?). Qed.
Lemma keeps_get : keeps get_.
Proof. by intros s b s' [= <- <-]. Qed.
Lemma keeps_modify f : keeps (modify_ f).
Proof. by intros s b s' [= <- <-]. Qed.
Lemma keeps_spin {A} : keeps (spin : M _ A).
Proof. by intros s b s'. Qed.
Lemma keeps_alloc n : keeps (kernel (pool_alloc n)).
Proof. intros s b s' [= <- <-]. apply alloc_delivered. Qed.
Lemma keeps_for_each {A} (l : list A) body : (forall x, keeps (body x)) -> keeps (for_each l body).
Proof. intros Hb. induction l; [apply keeps_ret|]. cbn [for_each]. by apply keeps_bind. Qed.

Lemma wp_keeps {A} (p : M _ A) s (Q : A -> mach eth_glob -> Prop) :
  keeps p -> wp p s Q -> wp p s (fun a s' => Q a s' /\ delivered (dev s') = delivered (dev s)).
Proof. intros Hk H. unfold wp in *. destruct (p s) eqn:Hs; try done. split; [done|]. by eapply Hk. Qed.
End thread.

Ltac keep :=
  lazymatch goal with
  | |- keeps (bind _ _) => apply keeps_bind; [keep|intros; keep]
  | |- keeps (ret _) => apply keeps_ret
  | |- keeps (rd _) => apply keeps_rd
  | |- keeps (wr _ _) => apply keeps_wr
  | |- keeps (rd8 _) => apply keeps_rd8
  | |- keeps (wr8 _ _) => apply keeps_wr8
  | |- keeps get_ => apply keeps_get
  | |- keeps (modify_ _) => apply keeps_modify
  | |- keeps spin => apply keeps_spin
  | |- keeps (kernel (pool_alloc _)) => apply keeps_alloc
  | |- keeps (for_each _ _) => apply keeps_for_each; intros; keep
  | |- keeps (if _ then _ else _) => apply keeps_if; keep
  | |- keeps (let _ := _ in _) => cbv zeta; keep
  | |- keeps ?p => first [solve [auto 2] | let h := head_of p in unfold h; keep]
  end
with head_of p := lazymatch p with ?f _ => head_of f | _ => p end.

Section drained.
Context {B : Bus} {N : Narrow B} {R : Rtos B} {is_desc is_buf : Z -> Prop} {E : EthMem B N is_desc is_buf}.
Context {P : EthPlaces} {S : NetStack B}.
Implicit Types s : mach eth_glob.
Abbreviation tab := DMARxDscrTab.
Abbreviation buff := Rx_Buff.
Context (Hp : placed DMARxDscrTab Rx_Buff) (Htab : forall a, table_word DMARxDscrTab a -> is_desc a).
Context {L : PoolLaws} {K : StackLaws}.

(** ** Receiving itself gives nothing to the stack *)

Lemma keeps_scan n : keeps (scan_rx n).
Proof. induction n as [|n IH]; cbn [scan_rx]; keep. Qed.

Lemma keeps_rx_copy fuel : forall c dst left, keeps (rx_copy fuel c dst left).
Proof. induction fuel as [|n IH]; intros c dst left; cbn [rx_copy]; keep. Qed.

Lemma keeps_rx_chain fuel p : forall c, keeps (rx_chain fuel p c).
Proof. pose proof keeps_rx_copy. induction p as [|q p IH]; intros c; cbn [rx_chain]; keep. Qed.

Lemma keeps_rx_release n : forall d, keeps (rx_release n d).
Proof. induction n as [|n IH]; intros d; cbn [rx_release]; keep. Qed.

Lemma keeps_low_level_input fuel : keeps (low_level_input fuel).
Proof.
  pose proof keeps_scan. pose proof keeps_rx_chain. pose proof keeps_rx_release. unfold low_level_input. keep.
Qed.

(** ** The end of the frames *)

(** The next descriptor is the controller's: there is nothing to receive. *)
Lemma wp_low_level_input_none k fuel s (Q : list seg -> mach eth_glob -> Prop) :
  eth_Lock (heth (glb s)) = false -> RxDesc (heth (glb s)) = desc_i tab k ->
  Z.testbit (wd (mem_of s) (Status (desc_i tab k))) 31 = true ->
  (forall s', mem_of s' = mem_of s ->
     heth (glb s') = set_eth_Lock false (set_State HAL_ETH_STATE_READY (heth (glb s))) -> Q [] s') ->
  wp (low_level_input fuel) s Q.
Proof.
  intros Hl Hk Hown HQ. unfold low_level_input. apply wp_bind, wp_eth_lock; [congruence|]. intros _ s1 M1 H1.
  apply wp_bind, wp_modify_heth. intros s2 M2 H2. apply wp_bind. change (Z.to_nat ETH_RXBUFNB) with 4%nat. cbn [scan_rx].
  apply wp_bind, (wp_rx_status Htab k); [by rewrite H2, H1|]. intros s3 M3 G3. rewrite M2, M1.
  rewrite (proj1 (any_bit_rx _)), Hown. apply wp_ret. unfold EthHal.rx_ready.
  apply wp_bind, wp_modify_heth. intros s4 M4 H4. apply wp_bind, wp_modify_heth. intros s5 M5 H5.
  apply wp_ret. change (negb (HAL_ERROR =? HAL_OK)) with true. cbv iota. apply wp_ret, HQ; [congruence|].
  by rewrite H5, H4, G3, H2, H1.
Qed.

(** A packet goes to the stack; if it refuses it, it is freed. *)
Lemma wp_give_stack p (k : M _ unit) s (Q : unit -> mach eth_glob -> Prop) :
  (forall s', glb s' = glb s -> same_ring (mem_of s) (mem_of s') ->
     delivered (dev s') = delivered (dev s) ++ [chain_bytes (mem_of s) p] -> wp k s' Q) ->
  wp (err <- kernel (netif_input p) ;;
      (if negb (err =? ERR_OK) then kernel (fun h => (tt, chain_free p h)) else ret tt) ;; k) s Q.
Proof.
  intros HQ. pose proof (input_delivers p (dev s)) as Hd. destruct (input_ring p (dev s)) as [Hw Hb].
  unfold wp, bind, kernel. destruct (negb _); unfold ret; apply HQ; cbn; try done.
  - destruct (free_ring p (snd (netif_input p (dev s)))) as [Hw' Hb']. split; [by etrans; [apply Hw'|]|].
    intros a Ha. etrans; [by apply Hb'|by apply Hb].
  - etrans; [apply free_delivered|done].
Qed.

(** ** All the frames *)

(** The receive side between two frames, of which none is half received: the ring, the next descriptor
    [k], the frames [fs] that the controller has stored from there on, and what follows them. *)
Record draining (k : Z) (fs : list (list Z * Z)) s : Prop := {
  dr_ring : ring tab buff (mem_of s);
  dr_next : RxDesc (heth (glb s)) = desc_i tab k;
  dr_eth : eth_Instance (heth (glb s)) = ETH;
  dr_segs : SegCount (RxFrameInfos (heth (glb s))) = 0;
  dr_stored : stored tab (mem_of s) k fs;
  dr_room : segments fs <= 4;
  dr_ends : ends tab (mem_of s) k fs;
  dr_buf : forall a, buff <= a < buff + 4 * 1524 -> is_buf a }.

(** The frames [fs] are left, and the descriptors of the [n] segments before them were given back. *)
Record drained (k n : Z) fs s s' : Prop := {
  dd_draining : draining (k + n) fs s';
  dd_lock : eth_Lock (heth (glb s')) = false;
  dd_given : forall j, 0 <= j < n -> Z.testbit (wd (mem_of s') (Status (desc_i tab (k + j)))) 31 = true;
  dd_others : forall a, (forall j, 0 <= j < n -> a <> desc_i tab (k + j)) -> wd (mem_of s') a = wd (mem_of s) a;
  dd_buffers : forall a, buff <= a < buff + 4 * 1524 -> bytes (mem_of s') a = bytes (mem_of s) a }.

(** Words other than those of [n] descriptors from [k] on. *)
Lemma segments_apart k n j : 0 <= n -> n <= j < 4 -> forall i, 0 <= i < n -> desc_i tab (k + j) <> desc_i tab (k + i).
Proof. intros Hn Hj i Hi H%desc_i_inj. zlia. Qed.

Lemma same_ring_wd m m' a : same_ring m m' -> wd m' a = wd m a.
Proof. intros [H _]. unfold wd. by rewrite H. Qed.

(** One frame received and handed over. *)
Lemma draining_step k ds st fs s p s1 s2 :
  draining k ((ds, st) :: fs) s -> received k ds st s p s1 ->
  glb s2 = glb s1 -> same_ring (mem_of s1) (mem_of s2) ->
  draining (k + Z.of_nat (length ds)) fs s2 /\
  frames_bytes (mem_of s2) fs = frames_bytes (mem_of s) fs /\
  (forall j, 0 <= j < Z.of_nat (length ds) -> Z.testbit (wd (mem_of s2) (Status (desc_i tab (k + j)))) 31 = true) /\
  (forall a, (forall j, 0 <= j < Z.of_nat (length ds) -> a <> desc_i tab (k + j)) -> wd (mem_of s2) a = wd (mem_of s) a) /\
  (forall a, buff <= a < buff + 4 * 1524 -> bytes (mem_of s2) a = bytes (mem_of s) a).
Proof.
  intros [Hr Hk He Hs [Hd [Hlen Hst]] Hroom Hend Hbuf] [_ _ Rr Rg Ro Rb Rk Rs Rl Re] G2 SR.
  destruct (segments_consecutive _ tab buff 4 true k ds st Hr Hd) as [Hds Hn].
  assert (forall a, wd (mem_of s2) a = wd (mem_of s1) a) as W2 by (intros a; by apply same_ring_wd).
  assert (forall a, buff <= a < buff + 4 * 1524 -> bytes (mem_of s2) a = bytes (mem_of s) a) as B2.
  { intros a Ha. by rewrite (proj2 SR), Rb. }
  assert (forall d, d ∈ ds <-> exists j, 0 <= j < Z.of_nat (length ds) /\ d = desc_i tab (k + j)) as Hin.
  { intros d. rewrite Hds at 1. rewrite list_elem_of_fmap. setoid_rewrite elem_of_zrange. split; intros (j & ? & ?); exists j; split; (done || lia). }
  assert (forall a, (forall j, 0 <= j < Z.of_nat (length ds) -> a <> desc_i tab (k + j)) -> wd (mem_of s2) a = wd (mem_of s) a) as Hother.
  { intros a Ha. rewrite W2. apply Ro. intros (j & Hj & ->)%Hin. by apply (Ha j). }
  assert (forall j, 0 <= j < Z.of_nat (length ds) -> Z.testbit (wd (mem_of s2) (Status (desc_i tab (k + j)))) 31 = true) as Hgiven.
  { intros j Hj. rewrite W2. apply Rg, Hin. by exists j. }
  assert (ring tab buff (mem_of s2)) as Hr2 by (intros i; rewrite !W2; apply Rr).
  rewrite segments_cons in Hroom. pose proof (segments_nonneg fs) as Hfs.
  assert (stored tab (mem_of s2) (k + Z.of_nat (length ds)) fs) as Hst2.
  { apply (stored_ext tab buff (mem_of s)); [done|done| |done]. intros j Hj. apply Hother. intros i Hi.
    unfold Status. rewrite <- Z.add_assoc. apply (segments_apart k (Z.of_nat (length ds))); lia. }
  split; [|split; [by apply (frames_bytes_ext tab buff _ _ fs _ Hr Hr2 B2 Hst)|done]].
  split; rewrite ?G2; try done; [lia|]. right.
  rewrite <- Z.add_assoc. destruct (decide (Z.of_nat (length ds) + segments fs = 4)) as [Hfull|Hpart].
  - rewrite Hfull, <- (desc_i_mod tab (k + 4)). replace ((k + 4) mod 4) with (k mod 4) by zlia.
    rewrite desc_i_mod. specialize (Hgiven 0 ltac:(lia)). by rewrite Z.add_0_r in Hgiven.
  - destruct Hend as [[_ Hfull]|Hend]; rewrite segments_cons in *; [done|].
    rewrite Hother; [done|]. intros i Hi. unfold Status. apply (segments_apart k (Z.of_nat (length ds))); lia.
Qed.

Lemma draining_same k fs s s' : draining k fs s -> mem_of s' = mem_of s -> RxDesc (heth (glb s')) = RxDesc (heth (glb s)) ->
  eth_Instance (heth (glb s')) = ETH -> SegCount (RxFrameInfos (heth (glb s'))) = 0 -> draining k fs s'.
Proof. intros [H1 H2 H3 H4 H5 H6 H7 H8] M HR HI HS. split; rewrite ?M, ?HR; done. Qed.

(** The frames [fs1] of [fs] were received, and [fs2] are left: all were received, or the one
    behind [fs1] got no buffer from the pool. *)
Definition dealt_with (fs fs1 fs2 : list (list Z * Z)) : Prop :=
  fs1 = fs /\ fs2 = [] \/
  exists ds st, fs = fs1 ++ (ds, st) :: fs2 /\ exists h, fst (pool_alloc (frame_length st) h) = [].

Lemma dealt_with_cons f fs fs1 fs2 : dealt_with fs fs1 fs2 -> dealt_with (f :: fs) (f :: fs1) fs2.
Proof. intros [[-> ->]|(ds & st & -> & H)]; [by left|right]. by exists ds, st. Qed.

Lemma frames_bytes_parts m m' fs fs1 fs2 : dealt_with fs fs1 fs2 -> frames_bytes m fs = frames_bytes m' fs ->
  frames_bytes m fs1 = frames_bytes m' fs1 /\ frames_bytes m fs2 = frames_bytes m' fs2.
Proof.
  intros [[-> ->]|(ds & st & -> & _)] H; [done|]. unfold frames_bytes in *. rewrite !fmap_app, !fmap_cons in H.
  apply app_inj_1 in H as [H1 H2]; [|by rewrite !length_fmap]. by injection H2 as _ H2.
Qed.

Lemma segments_left fs fs1 fs2 : dealt_with fs fs1 fs2 -> 0 <= segments fs2 <= segments fs.
Proof.
  intros H. split; [apply segments_nonneg|]. destruct H as [[-> ->]|(ds & st & -> & _)]; [apply segments_nonneg|].
  induction fs1 as [|[ds1 st1] fs1 IH]; cbn [app]; rewrite segments_cons; lia.
Qed.

(** What follows the first frame, and what happened to that one. *)
Lemma drained_cons k ds st fs n fs2 s s2 s3 :
  (forall j, 0 <= j < Z.of_nat (length ds) -> Z.testbit (wd (mem_of s2) (Status (desc_i tab (k + j)))) 31 = true) ->
  (forall a, (forall j, 0 <= j < Z.of_nat (length ds) -> a <> desc_i tab (k + j)) -> wd (mem_of s2) a = wd (mem_of s) a) ->
  (forall a, buff <= a < buff + 4 * 1524 -> bytes (mem_of s2) a = bytes (mem_of s) a) ->
  segments ((ds, st) :: fs) <= 4 -> 0 <= n <= segments fs ->
  drained (k + Z.of_nat (length ds)) n fs2 s2 s3 -> drained k (Z.of_nat (length ds) + n) fs2 s s3.
Proof.
  intros Hg Ho Hb Hroom Hn [H3 Hl3 Hg3 Ho3 Hb3]. rewrite segments_cons in Hroom. split; [by rewrite Z.add_assoc|done|..].
  - intros j Hj. destruct (decide (j < Z.of_nat (length ds))) as [Hj'|Hj'].
    + rewrite Ho3; [apply Hg; lia|]. intros i Hi. unfold Status. rewrite <- Z.add_assoc.
      intros Heq. symmetry in Heq. revert Heq. apply (segments_apart k (Z.of_nat (length ds))); lia.
    + replace (k + j) with (k + Z.of_nat (length ds) + (j - Z.of_nat (length ds))) by lia. apply Hg3. lia.
  - intros a Ha. rewrite Ho3, Ho; [done| |].
    + intros j Hj. apply Ha. lia.
    + intros j Hj. rewrite <- Z.add_assoc. apply Ha. lia.
  - intros a Ha. by rewrite Hb3, Hb.
Qed.

Lemma drained_refl k fs s s' : draining k fs s' -> eth_Lock (heth (glb s')) = false -> mem_of s' = mem_of s -> drained k 0 fs s s'.
Proof. intros H Hl M. split; [by rewrite Z.add_0_r|done|lia|by rewrite M|by rewrite M]. Qed.

(** The end of the frames: a round of the loop finds none. *)
Lemma wp_drain_none rounds fuel k s : draining k [] s -> eth_Lock (heth (glb s)) = false ->
  wp (drain (Datatypes.S rounds) fuel) s (fun _ s' => delivered (dev s') = delivered (dev s) /\ drained k 0 [] s s').
Proof.
  intros Hs Hl. cbn [drain]. assert (Z.testbit (wd (mem_of s) (Status (desc_i tab k))) 31 = true) as Hown.
  { destruct (dr_ends _ _ _ Hs) as [[[] _]|H]; [done|]. change (segments []) with 0 in H. by rewrite Z.add_0_r in H. }
  apply wp_bind. eapply wp_mono.
  { apply wp_keeps; [apply keeps_low_level_input|].
    apply (wp_low_level_input_none k); [done|apply Hs|done|]. intros s' M H.
    refine (_ : (fun p s' => p = [] /\ mem_of s' = mem_of s /\
      heth (glb s') = set_eth_Lock false (set_State HAL_ETH_STATE_READY (heth (glb s)))) [] s'). done. }
  intros p s1 [(-> & M1 & H1) D1]. apply wp_ret. split; [done|].
  apply drained_refl; [|by rewrite H1|done]. apply (draining_same _ _ s); rewrite ?H1; (done || apply Hs).
Qed.

(** All frames: by induction on them, each round of the loop takes one. *)
Lemma wp_drain fuel fs : forall rounds k s,
  (4 <= fuel)%nat -> (length fs < rounds)%nat -> draining k fs s -> eth_Lock (heth (glb s)) = false ->
  wp (drain rounds fuel) s (fun _ s' => exists fs1 fs2, dealt_with fs fs1 fs2 /\
    delivered (dev s') = delivered (dev s) ++ frames_bytes (mem_of s) fs1 /\
    frames_bytes (mem_of s') fs2 = frames_bytes (mem_of s) fs2 /\ drained k (segments fs - segments fs2) fs2 s s').
Proof.
  induction fs as [|[ds st] fs IH]; intros rounds k s Hfuel Hrounds Hs Hl;
    (destruct rounds as [|rounds]; [cbn in Hrounds; lia|]).
  { eapply wp_mono; [by apply (wp_drain_none rounds fuel k)|]. intros [] s' [D H]. exists [], [].
    split; [by left|]. split; [by rewrite D, app_nil_r|done]. }
  cbn [drain]. apply wp_bind. pose proof (dr_stored _ _ _ Hs) as (Hd & Hlen & _). pose proof (dr_room _ _ _ Hs) as Hroom. eapply wp_mono.
  { apply wp_keeps; [apply keeps_low_level_input|].
    apply (wp_low_level_input Htab k ds st); [split; (done || apply Hs)|done|done|].
    intros p s' H. exact H. }
  intros p s1 [Hrec D1]. pose proof (rc_lock _ _ _ _ _ _ Hrec) as Hl1. pose proof (segments_nonneg fs) as Hpos.
  destruct (rc_pool _ _ _ _ _ _ Hrec) as (h & _ & Hpool). destruct p as [|q p].
  - destruct (draining_step k ds st fs s _ s1 s1 Hs Hrec eq_refl (conj eq_refl (fun _ _ => eq_refl))) as (Hs2 & HF & Hg & Ho & Hb).
    apply wp_ret. exists [], fs. split; [right; exists ds, st; by split; [|exists h]|]. split; [by rewrite D1, app_nil_r|]. split; [done|].
    rewrite segments_cons. replace (_ + segments fs - segments fs) with (Z.of_nat (length ds) + 0) by lia.
    apply (drained_cons k ds st fs 0 fs s s1 s1 Hg Ho Hb Hroom); [lia|]. by apply drained_refl.
  - pose proof (rc_bytes _ _ _ _ _ _ Hrec ltac:(done)) as Hbytes. apply wp_give_stack. intros s2 G2 SR D2.
    destruct (draining_step k ds st fs s _ s1 s2 Hs Hrec G2 SR) as (Hs2 & HF & Hg & Ho & Hb).
    eapply wp_mono; [apply (IH rounds (k + Z.of_nat (length ds)) s2 Hfuel); [cbn in Hrounds; lia|done|by rewrite G2]|].
    intros [] s3 (fs1 & fs2 & Hdw & D3 & F3 & H3). pose proof (segments_left _ _ _ Hdw) as Hleft.
    exists ((ds, st) :: fs1), fs2. split; [by apply dealt_with_cons|].
    destruct (frames_bytes_parts _ _ _ _ _ Hdw HF) as [HF1 HF2].
    split; [by rewrite D3, D2, D1, HF1, Hbytes, <- app_assoc|]. split; [by rewrite F3|].
    rewrite segments_cons. replace (_ + segments fs - segments fs2) with (Z.of_nat (length ds) + (segments fs - segments fs2)) by lia.
    apply (drained_cons k ds st fs _ fs2 s s2 s3 Hg Ho Hb Hroom); [lia|done].
Qed.

(** C11: one round of the receiving thread, when the semaphore that the interrupt releases lets it pass
    and no frame is half received.  If the handle is not locked, the frames that the controller has
    stored (any number of them, each of one or several segments, that fit the ring of four
    descriptors) are handed to the input function of lwIP, whole and in the order of reception, up to
    the first one that gets no buffer from the pool: that one is dropped, and those behind it stay
    stored (with a pool that never refuses all are handed over).  The descriptors of all others belong to the controller again, the next descriptor is the
    one behind them, and the handle is not locked.  While the handle is locked the round gives nothing
    to the stack and changes nothing of the handle and the ring. *)
Theorem ethernetif_input_round_delivers fuel k fs s :
  draining k fs s ->
  fst (osSemaphoreAcquire (s_xSemaphore (glb s)) TIME_WAITING_FOR_INPUT (dev s)) = osOK ->
  (Nat.max 4 (Datatypes.S (length fs)) <= fuel)%nat ->
  wp (ethernetif_input_round fuel) s (fun _ s' =>
    if eth_Lock (heth (glb s)) then
      delivered (dev s') = delivered (dev s) /\ mem_of s' = mem_of s /\ heth (glb s') = heth (glb s)
    else exists fs1 fs2, dealt_with fs fs1 fs2 /\
      delivered (dev s') = delivered (dev s) ++ frames_bytes (mem_of s) fs1 /\
      let n := segments fs - segments fs2 in
      draining (k + n) fs2 s' /\ frames_bytes (mem_of s') fs2 = frames_bytes (mem_of s) fs2 /\
      (forall j, 0 <= j < n -> Z.testbit (wd (mem_of s') (Status (desc_i tab (k + j)))) 31 = true) /\
      eth_Lock (heth (glb s')) = false).
Proof.
  intros Hs Hsem Hfuel.
  pose proof (acquire_view (s_xSemaphore (glb s)) TIME_WAITING_FOR_INPUT (dev s)) as Hv.
  pose proof (acquire_delivered (s_xSemaphore (glb s)) TIME_WAITING_FOR_INPUT (dev s)) as Hdl.
  unfold ethernetif_input_round, wp at 1, bind, get_, kernel. rewrite Hsem. change (osOK =? osOK) with true. cbv iota.
  set (s1 := Mach _ _ _). assert (mem_of s1 = mem_of s) as M1 by exact Hv.
  change (heth (glb s)) with (heth (glb s1)). change (delivered (snd _) = _) with (delivered (dev s1) = delivered (dev s)) in Hdl.
  assert (draining k fs s1) as Hs1 by (apply (draining_same _ _ s); (done || apply Hs)). clear Hsem Hv. rewrite <- Hdl, <- M1.
  destruct (eth_Lock (heth (glb s1))) eqn:Hl.
  - destruct fuel as [|fuel]; [lia|]. by rewrite (proj2 (low_level_input_when_locked fuel (Datatypes.S fuel) s1 Hl)).
  - change (wp (drain fuel fuel) s1 (fun _ s' => exists fs1 fs2, dealt_with fs fs1 fs2 /\
      delivered (dev s') = delivered (dev s1) ++ frames_bytes (mem_of s1) fs1 /\
      let n := segments fs - segments fs2 in
      draining (k + n) fs2 s' /\ frames_bytes (mem_of s') fs2 = frames_bytes (mem_of s1) fs2 /\
      (forall j, 0 <= j < n -> Z.testbit (wd (mem_of s') (Status (desc_i tab (k + j)))) 31 = true) /\
      eth_Lock (heth (glb s')) = false)).
    eapply wp_mono; [apply (wp_drain fuel fs fuel k s1); [lia|lia|done|done]|].
    intros [] s' (fs1 & fs2 & Hdw & D & F & [H1 H2 H3 _ _]). exists fs1, fs2. cbv zeta. by split_and!.
Qed.
End drained.

(** * Two frames on the simulated device *)

(** The device with the log of what the stack was given. *)
Definition log_sim : Bus := {|
  hw := mem * list (list Z);
  mmio_rd a h := let p := @mmio_rd eth_sim a (fst h) in (fst p, (snd p, snd h));
  mmio_wr a v h := (@mmio_wr eth_sim a v (fst h), snd h);
  ktick h := (0, h);
  os_delay _ h := h;
|}.

#[export] Instance log_sim_narrow : Narrow log_sim := {|
  mmio_rd8 a (h : @hw log_sim) := (bytes (fst h) a, h);
  mmio_wr8 a v (h : @hw log_sim) := (Mem (words (fst h)) (upd (bytes (fst h)) a v), snd h);
  mmio_wr16 _ _ h := h;
|}.

#[export] Instance log_sim_mem : EthMem log_sim log_sim_narrow sim_desc sim_buf.
Proof.
  refine {| view (h : @hw log_sim) := fst h |}; intros; cbn.
  - by apply (desc_rd (EthMem := eth_sim_mem) a (fst h)).
  - by apply (desc_wr (EthMem := eth_sim_mem) a v (fst h)).
  - done.
  - done.
  - by apply (ereg_rd (EthMem := eth_sim_mem) a (fst h)).
  - by apply (ereg_wr (EthMem := eth_sim_mem) a v (fst h)).
Defined.

(** A kernel whose semaphores always have a token. *)
#[export] Instance log_sim_rtos : Rtos log_sim := {|
  osThreadNew _ _ _ h := (1, h);
  osMutexNew _ h := (1, h);
  osMutexAcquire _ _ h := (osOK, h);
  osMutexRelease _ h := (osOK, h);
  osMutexDelete _ h := (osOK, h);
  osMessageQueueNew _ _ h := (0, h);
  osMessageQueuePut _ _ _ h := (osErrorResource, h);
  osMessageQueueGet _ _ h := ((osErrorResource, None), h);
  osMessageQueueDelete _ h := (osOK, h);
  osSemaphoreNew _ _ h := (1, h);
  osSemaphoreAcquire _ _ h := (osOK, h);
  osSemaphoreRelease _ h := (osOK, h);
  osSemaphoreDelete _ h := (osOK, h);
|}.

(** A pool with a buffer of 32 KB, and a stack that copies every packet. *)
#[export] Instance log_sim_stack : NetStack log_sim := {|
  pool_alloc n (h : @hw log_sim) := (if n <=? 0x7000 then [Seg 0x20008000 n] else [], h);
  netif_input p (h : @hw log_sim) := (ERR_OK, (fst h, snd h ++ [chain_bytes (fst h) p]));
  chain_free _ (h : @hw log_sim) := h |}.

Lemma log_pool_laws : PoolLaws (E := log_sim_mem).
Proof.
  split; [done|]. intros n h Hn. cbn. destruct (Z.leb_spec n 0x7000); [right; by apply sim_buffer_good|by left].
Qed.

Lemma log_stack_laws : StackLaws (E := log_sim_mem).
Proof. by refine {| delivered := fun h : @hw log_sim => snd h |}. Defined.

(** A frame of 2000 bytes in two descriptors and one of 100 bytes in the third; the
    controller owns the fourth. *)
Definition two_frames_words (a : Z) : Z :=
  if a =? 0x200000C0 then ETH_DMARXDESC_FS .| ETH_DMARXDESC_LS .| (104 .<< 16)
  else if a =? 0x200000E0 then ETH_DMARXDESC_OWN
  else sim_frame_words a.

Definition two_frames : list (list Z * Z) :=
  [([0x20000080; 0x200000A0], ETH_DMARXDESC_LS + 2004 * 2 ^ 16);
   ([0x200000C0], ETH_DMARXDESC_FS .| ETH_DMARXDESC_LS .| (104 .<< 16))].

Definition thread_start : mach eth_glob :=
  @Mach log_sim eth_glob (Mem two_frames_words (fun a => a mod 251), []) [] (sim_glob 0x20000000 0x20000080 false).

Lemma thread_start_draining : draining (E := log_sim_mem) 0 two_frames thread_start.
Proof.
  split; try reflexivity.
  - apply ring_intro. intros i Hi. zenum i 4%nat; split; reflexivity.
  - split; [reflexivity|]. split; [vm_compute; intuition congruence|]. split; [reflexivity|].
    split; [vm_compute; intuition congruence|done].
  - vm_compute. congruence.
  - right. reflexivity.
  - unfold sim_buf. cbn. lia.
Qed.

Lemma ethernetif_input_round_delivers_witness :
  wp (ethernetif_input_round 4) thread_start (fun _ s' =>
    snd (dev s') = frames_bytes (mem_of thread_start) two_frames /\
    RxDesc (heth (glb s')) = 0x200000E0).
Proof.
  eapply wp_mono.
  - apply (ethernetif_input_round_delivers (E := log_sim_mem) sim_table_rx (L := log_pool_laws) (K := log_stack_laws)
             4 0 two_frames thread_start thread_start_draining); [reflexivity|cbn; lia].
  - cbv beta. change (eth_Lock (heth (glb thread_start))) with false. cbv iota.
    intros [] s' (fs1 & fs2 & Hdw & H & [_ Hn _ _ _ _ _ _] & _). destruct Hdw as [[-> ->]|(ds & st & E & h & Hh)].
    + split; [exact H|exact Hn].
    + cbn in Hh. pose proof (frame_length_small st). destruct (Z.leb_spec (frame_length st) 0x7000); [done|lia].
Defined.
