(* ===== verification/LwMem.v ===== *)
(** The memory of the lwIP stack and its pools, lwip-2.1.2/src/core/memp.c: the objects
    at their addresses, the bytes of payloads, and the element pools, whose free
    elements are a linked list threaded through the elements themselves. *)
From S2P Require Import Prelude Machine.
From stdpp Require Import list gmap.

#[local] Open Scope Z_scope.
#[local] Open Scope fw_scope.

(** * Objects *)

(** [struct pbuf] of include/lwip/pbuf.h. *)
Record pbuf := Pbuf {
  pb_next : Z; pb_payload : Z; pb_tot_len : Z; pb_len : Z;
  pb_type : Z; pb_flags : Z; pb_ref : Z; pb_if_idx : Z }.

(** [struct mem] of core/mem.c. *)
Record blk := Blk { m_next : Z; m_prev : Z; m_used : Z }.

(** [struct sys_timeo] of include/lwip/timeouts.h. *)
Record sys_timeo := SysTimeo { to_next : Z; to_time : Z; to_h : Z; to_arg : Z }.

(** What the words at an address hold: a free element of a pool ([struct memp] of
    priv/memp_priv.h, which overlays the element), a packet buffer, a message to the
    stack's thread, a timeout, or the head of a block of the heap ([struct mem] of mem.c). *)
Inductive cell :=
| Link (next : Z)
| Buf (b : pbuf)
| Callback (function ctx : Z)
| Timeo (t : sys_timeo)
| Block (m : blk).

(** The pools of priv/memp_std.h that the configuration of inc/lwipopts.h enables. *)
Inductive memp_t :=
| MEMP_UDP_PCB | MEMP_TCP_PCB | MEMP_TCP_PCB_LISTEN | MEMP_TCP_SEG | MEMP_REASSDATA | MEMP_FRAG_PBUF
| MEMP_NETBUF | MEMP_NETCONN | MEMP_TCPIP_MSG_API | MEMP_TCPIP_MSG_INPKT | MEMP_SYS_TIMEOUT
| MEMP_PBUF | MEMP_PBUF_POOL.

#[export] Instance memp_t_eq_dec : EqDecision memp_t.
Proof. solve_decision. Defined.

(** All of it: the objects, the bytes outside objects with what of them belongs to an
    object of the program, the first free element of every pool, the lowest free block
    of the heap, the flag of pbuf.c, and the messages that wait in tcpip_mbox. *)
Record lwip := Lwip {
  lw_cells : gmap Z cell;
  lw_data : Z -> Z;
  lw_valid : Z -> bool;
  lw_tab : memp_t -> Z;
  lw_lfree : Z;
  pbuf_free_ooseq_pending : Z;
  tcpip_mbox : list Z }.

Abbreviation lw := (M lwip).

Definition lw_get : lw lwip := fun s => Ret s s.
Definition lw_mod (f : lwip -> lwip) : lw unit := fun s => Ret tt (f s).

Definition with_cells (f : gmap Z cell -> gmap Z cell) (s : lwip) : lwip :=
  Lwip (f (lw_cells s)) (lw_data s) (lw_valid s) (lw_tab s) (lw_lfree s) (pbuf_free_ooseq_pending s) (tcpip_mbox s).
Definition with_data (f : Z -> Z) (s : lwip) : lwip :=
  Lwip (lw_cells s) f (lw_valid s) (lw_tab s) (lw_lfree s) (pbuf_free_ooseq_pending s) (tcpip_mbox s).
Definition with_valid (f : Z -> bool) (s : lwip) : lwip :=
  Lwip (lw_cells s) (lw_data s) f (lw_tab s) (lw_lfree s) (pbuf_free_ooseq_pending s) (tcpip_mbox s).
Definition with_tab (t : memp_t) (a : Z) (s : lwip) : lwip :=
  Lwip (lw_cells s) (lw_data s) (lw_valid s) (fun t' => if decide (t' = t) then a else lw_tab s t')
    (lw_lfree s) (pbuf_free_ooseq_pending s) (tcpip_mbox s).
Definition with_lfree (a : Z) (s : lwip) : lwip :=
  Lwip (lw_cells s) (lw_data s) (lw_valid s) (lw_tab s) a (pbuf_free_ooseq_pending s) (tcpip_mbox s).
Definition with_pending (v : Z) (s : lwip) : lwip :=
  Lwip (lw_cells s) (lw_data s) (lw_valid s) (lw_tab s) (lw_lfree s) v (tcpip_mbox s).
Definition with_mbox (l : list Z) (s : lwip) : lwip :=
  Lwip (lw_cells s) (lw_data s) (lw_valid s) (lw_tab s) (lw_lfree s) (pbuf_free_ooseq_pending s) l.

(** Reading an object is undefined where there is none of the kind that is read; storing
    a whole object makes it one. *)
Definition put_cell (a : Z) (c : cell) : lw unit := lw_mod (with_cells (insert a c)).
Definition cell_at (a : Z) : lw cell := s <- lw_get ;; deref (lw_cells s !! a).
Definition link_at (a : Z) : lw Z := c <- cell_at a ;; match c with Link n => ret n | _ => undef end.
Definition blk_at (a : Z) : lw blk := c <- cell_at a ;; match c with Block m => ret m | _ => undef end.
Definition pbuf_at (a : Z) : lw pbuf := c <- cell_at a ;; match c with Buf b => ret b | _ => undef end.
Definition timeo_at (a : Z) : lw sys_timeo := c <- cell_at a ;; match c with Timeo t => ret t | _ => undef end.
(** A store to fields of a packet buffer. *)
Definition pbuf_set (a : Z) (f : pbuf -> pbuf) : lw unit := b <- pbuf_at a ;; put_cell a (Buf (f b)).
Definition blk_set (a : Z) (f : blk -> blk) : lw unit := m <- blk_at a ;; put_cell a (Block (f m)).

(** An operation on the memory of the stack, from code that has other state too. *)
Definition in_lw {B : Bus} {G} {I : Has G lwip} {A} (m : lw A) : M (mach G) A := fun s =>
  let back l := Mach (dev s) (wlog s) (with_part l (glb s)) in
  match m (part (glb s)) with
  | Ret a l => Ret a (back l)
  | Halt l => Halt (back l)
  | Undef l => Undef (back l)
  | Spin l => Spin (back l)
  end.

(** ** Bytes *)

Definition all_valid (s : lwip) (a n : Z) : bool := forallb (lw_valid s) (zrange a (Z.to_nat n)).

(** The bytes at [a] replaced by [bs]. *)
Definition overlaid (d : Z -> Z) (a : Z) (bs : list Z) (x : Z) : Z :=
  match aget bs (x - a) with Some b => b | None => d x end.

Definition lw_bytes (s : lwip) (a n : Z) : list Z := (fun x => u8 (lw_data s x)) <$> zrange a (Z.to_nat n).
Definition lw_read (a n : Z) : lw (list Z) :=
  s <- lw_get ;; defined_if (all_valid s a n) ;; ret (lw_bytes s a n).
Definition lw_write (a : Z) (bs : list Z) : lw unit :=
  s <- lw_get ;; defined_if (all_valid s a (Z.of_nat (length bs))) ;; lw_mod (with_data (overlaid (lw_data s) a bs)).

(** [MEMCPY] is undefined for ranges that overlap. *)
Definition lw_memcpy (dst src n : Z) : lw unit :=
  defined_if ((n =? 0) || (dst + n <=? src) || (src + n <=? dst)) ;;
  bs <- lw_read src n ;; lw_write dst bs.

(** * Pools *)

(** [LWIP_MEM_ALIGN_SIZE] and [LWIP_MEM_ALIGN] of include/lwip/arch.h with a MEM_ALIGNMENT
    of 4. *)
Definition LWIP_MEM_ALIGN (x : Z) : Z := u32 (x + 4 - 1) .& not32 3.
Definition SIZEOF_STRUCT_PBUF : Z := LWIP_MEM_ALIGN 16.
Definition TCP_MSS : Z := 536.
Definition PBUF_POOL_BUFSIZE : Z := LWIP_MEM_ALIGN (TCP_MSS + 40 + 0 + 14).
Definition PBUF_POOL_BUFSIZE_ALIGNED : Z := LWIP_MEM_ALIGN PBUF_POOL_BUFSIZE.

(** [struct memp_desc]: element size, number of elements, base address; the pointer to the
    first free element is [lw_tab] at the pool's type. *)
Record memp_desc := MempDesc { mp_size : Z; mp_num : Z; mp_base : Z; mp_tab : memp_t }.

(** Where the linker puts a pool, the heap and a function, and what the compiler makes of [sizeof] of
    the structs that are not modelled. *)
Class Pools := {
  memp_base : memp_t -> Z; memp_sizeof : memp_t -> Z; ram_heap : Z; pbuf_free_ooseq_callback_ : Z }.

Section memp.
Context {P : Pools}.

(** The numbers of elements in include/lwip/opt.h and inc/lwipopts.h. *)
Definition memp_num (t : memp_t) : Z :=
  match t with
  | MEMP_UDP_PCB => 4 | MEMP_TCP_PCB => 5 | MEMP_TCP_PCB_LISTEN => 8 | MEMP_TCP_SEG => 16
  | MEMP_REASSDATA => 5 | MEMP_FRAG_PBUF => 15 | MEMP_NETBUF => 2 | MEMP_NETCONN => 4
  | MEMP_TCPIP_MSG_API => 8 | MEMP_TCPIP_MSG_INPKT => 8 | MEMP_SYS_TIMEOUT => 5
  | MEMP_PBUF => 16 | MEMP_PBUF_POOL => 16
  end.

Definition memp_size (t : memp_t) : Z :=
  match t with
  | MEMP_PBUF => LWIP_MEM_ALIGN 16
  | MEMP_PBUF_POOL => LWIP_MEM_ALIGN (SIZEOF_STRUCT_PBUF + LWIP_MEM_ALIGN PBUF_POOL_BUFSIZE)
  | _ => LWIP_MEM_ALIGN (memp_sizeof t)
  end.

Definition memp_pools (t : memp_t) : memp_desc := MempDesc (memp_size t) (memp_num t) (memp_base t) t.
Definition all_pools : list memp_t :=
  [MEMP_UDP_PCB; MEMP_TCP_PCB; MEMP_TCP_PCB_LISTEN; MEMP_TCP_SEG; MEMP_REASSDATA; MEMP_FRAG_PBUF;
   MEMP_NETBUF; MEMP_NETCONN; MEMP_TCPIP_MSG_API; MEMP_TCPIP_MSG_INPKT; MEMP_SYS_TIMEOUT; MEMP_PBUF; MEMP_PBUF_POOL].

(** [*desc->tab = a] *)
Definition set_tab (d : memp_desc) (a : Z) : lw unit := lw_mod (with_tab (mp_tab d) a).
Definition get_tab (d : memp_desc) : lw Z := s <- lw_get ;; ret (lw_tab s (mp_tab d)).

(** The loop of memp_init_pool with [n] rounds left. *)
Fixpoint memp_thread (d : memp_desc) (n : nat) (memp : Z) : lw unit :=
  match n with
  | O => ret tt
  | S n' =>
      t <- get_tab d ;;
      put_cell memp (Link t) ;;
      set_tab d memp ;;
      memp_thread d n' (memp + mp_size d)
  end.

Definition memp_init_pool (d : memp_desc) : lw unit :=
  set_tab d 0 ;; memp_thread d (Z.to_nat (mp_num d)) (LWIP_MEM_ALIGN (mp_base d)).

Definition memp_init : lw unit := for_each all_pools (fun t => memp_init_pool (memp_pools t)).

Definition do_memp_malloc_pool (d : memp_desc) : lw Z :=
  memp <- get_tab d ;;
  if negb (memp =? 0) then
    n <- link_at memp ;;
    set_tab d n ;;
    ret memp
  else ret 0.

(** The pools of the program's own ([desc] is [None] for NULL). *)
Definition memp_malloc_pool (desc : option memp_desc) : lw Z :=
  match desc with None => ret 0 | Some d => do_memp_malloc_pool d end.
Definition memp_malloc (t : memp_t) : lw Z := do_memp_malloc_pool (memp_pools t).

Definition do_memp_free_pool (d : memp_desc) (mem : Z) : lw unit :=
  t <- get_tab d ;;
  put_cell mem (Link t) ;;
  set_tab d mem.

Definition memp_free_pool (desc : option memp_desc) (mem : Z) : lw unit :=
  match desc with
  | None => ret tt
  | Some d => if mem =? 0 then ret tt else do_memp_free_pool d mem
  end.
Definition memp_free (t : memp_t) (mem : Z) : lw unit :=
  if mem =? 0 then ret tt else do_memp_free_pool (memp_pools t) mem.

(** ** Messages to the stack's thread, api/tcpip.c *)

Definition TCPIP_MBOX_SIZE : Z := 6.
Definition ERR_OK : Z := 0.
Definition ERR_MEM : Z := -1.

(** sys_mbox_trypost of src/sys_arch.c on tcpip_mbox, a bounded queue. *)
Definition mbox_trypost (msg : Z) : lw Z :=
  s <- lw_get ;;
  if Z.of_nat (length (tcpip_mbox s)) <? TCPIP_MBOX_SIZE then
    lw_mod (with_mbox (tcpip_mbox s ++ [msg])) ;; ret ERR_OK
  else ret ERR_MEM.

Definition tcpip_try_callback (function ctx : Z) : lw Z :=
  msg <- memp_malloc MEMP_TCPIP_MSG_API ;;
  if msg =? 0 then ret ERR_MEM
  else
    put_cell msg (Callback function ctx) ;;
    r <- mbox_trypost msg ;;
    if negb (r =? ERR_OK) then
      memp_free MEMP_TCPIP_MSG_API msg ;;
      ret ERR_MEM
    else ret ERR_OK.
End memp.

(** * Free lists *)

(** The objects from [p] on are the free elements [l], linked in this order. *)
Fixpoint links (m : gmap Z cell) (p : Z) (l : list Z) : Prop :=
  match l with
  | [] => p = 0
  | a :: l' => p = a /\ a <> 0 /\ exists n, m !! a = Some (Link n) /\ links m n l'
  end.

Lemma links_insert m p l a c : a ∉ l -> links m p l -> links (<[a := c]> m) p l.
Proof.
  revert p. induction l as [|x l IH]; intros p Ha; [done|].
  apply not_elem_of_cons in Ha as [Hx Hl]. intros (-> & ? & n & ? & ?). split; [done|]. split; [done|].
  exists n. rewrite lookup_insert_ne by done. split; [done|by apply IH].
Qed.

Lemma links_lookup m p l a : links m p l -> a ∈ l -> exists n, m !! a = Some (Link n).
Proof.
  revert p. induction l as [|x l IH]; intros p; [by intros _ ?%elem_of_nil|].
  intros (_ & _ & n & ? & Hl) [->|Hi]%elem_of_cons; [by exists n|by apply (IH n)].
Qed.

Lemma links_det m p l1 l2 : links m p l1 -> links m p l2 -> l1 = l2.
Proof.
  revert p l2. induction l1 as [|a l1 IH]; intros p [|b l2]; cbn [links].
  - done.
  - by intros -> (-> & ? & _).
  - by intros (-> & ? & _) ->.
  - intros (-> & _ & n & Hn & H1) (<- & _ & n' & Hn' & H2). rewrite Hn in Hn'. injection Hn' as <-.
    f_equal. by apply (IH n).
Qed.

(** A list that ends has no repetition. *)
Lemma links_nodup m p l : links m p l -> NoDup l.
Proof.
  revert p. induction l as [|a l IH]; intros p; [constructor|]. intros (_ & _ & n & Ha & Hl).
  constructor; [|by apply (IH n)]. intros Hi. apply list_elem_of_split in Hi as (l1 & l2 & ->).
  assert (forall l1 q, links m q (l1 ++ a :: l2) -> links m a (a :: l2)) as Htail.
  { clear. induction l1 as [|x l1 IH]; intros q; cbn [app].
    - intros (-> & ?). by split.
    - intros (_ & _ & n & _ & Hl). by apply (IH n). }
  pose proof (Htail _ _ Hl) as H1.
  assert (links m a (a :: l1 ++ a :: l2)) as H2 by (split; [done|]; split; [by destruct H1 as (_ & ? & _)|by exists n]).
  pose proof (links_det _ _ _ _ H1 H2) as E. injection E as E. apply (f_equal length) in E.
  rewrite length_app in E. cbn in E. lia.
Qed.

(** ** Primitive operations *)

Section wp_prims.
Implicit Types s : lwip.

Lemma wp_lw_get s (Q : lwip -> lwip -> Prop) : Q s s -> wp lw_get s Q.
Proof. done. Qed.

Lemma wp_lw_mod f s (Q : unit -> lwip -> Prop) : Q tt (f s) -> wp (lw_mod f) s Q.
Proof. done. Qed.

Lemma wp_put_cell a c s (Q : unit -> lwip -> Prop) : Q tt (with_cells (insert a c) s) -> wp (put_cell a c) s Q.
Proof. done. Qed.

Lemma wp_link_at a n s (Q : Z -> lwip -> Prop) : lw_cells s !! a = Some (Link n) -> Q n s -> wp (link_at a) s Q.
Proof. intros H HQ. unfold wp, link_at, cell_at, bind, lw_get. by rewrite H. Qed.

Lemma wp_pbuf_at a b s (Q : pbuf -> lwip -> Prop) : lw_cells s !! a = Some (Buf b) -> Q b s -> wp (pbuf_at a) s Q.
Proof. intros H HQ. unfold wp, pbuf_at, cell_at, bind, lw_get. by rewrite H. Qed.

Lemma wp_pbuf_set a f b s (Q : unit -> lwip -> Prop) :
  lw_cells s !! a = Some (Buf b) -> Q tt (with_cells (insert a (Buf (f b))) s) -> wp (pbuf_set a f) s Q.
Proof. intros H HQ. apply wp_step. by apply (wp_pbuf_at _ b). Qed.

Lemma wp_timeo_at a t s (Q : sys_timeo -> lwip -> Prop) : lw_cells s !! a = Some (Timeo t) -> Q t s -> wp (timeo_at a) s Q.
Proof. intros E HQ. unfold wp, timeo_at, cell_at, bind, lw_get. by rewrite E. Qed.

Lemma wp_blk_at a m s (Q : blk -> lwip -> Prop) : lw_cells s !! a = Some (Block m) -> Q m s -> wp (blk_at a) s Q.
Proof. intros H HQ. unfold wp, blk_at, cell_at, bind, lw_get. by rewrite H. Qed.

Lemma wp_blk_set a f m s (Q : unit -> lwip -> Prop) :
  lw_cells s !! a = Some (Block m) -> Q tt (with_cells (insert a (Block (f m))) s) -> wp (blk_set a f) s Q.
Proof. intros H HQ. apply wp_step. by apply (wp_blk_at _ m). Qed.

Lemma all_valid_true s a n : (forall x, a <= x < a + n -> lw_valid s x = true) -> all_valid s a n = true.
Proof.
  intros H. unfold all_valid. apply forallb_forall. intros x Hx.
  apply H. apply list_elem_of_In, elem_of_zrange in Hx. lia.
Qed.

Lemma wp_lw_read a n s (Q : list Z -> lwip -> Prop) :
  (forall x, a <= x < a + n -> lw_valid s x = true) ->
  Q (lw_bytes s a n) s -> wp (lw_read a n) s Q.
Proof. intros H HQ. unfold wp, lw_read, bind, lw_get. by rewrite all_valid_true. Qed.

Lemma wp_lw_write a bs s (Q : unit -> lwip -> Prop) :
  (forall x, a <= x < a + Z.of_nat (length bs) -> lw_valid s x = true) ->
  Q tt (with_data (overlaid (lw_data s) a bs) s) -> wp (lw_write a bs) s Q.
Proof. intros H HQ. unfold wp, lw_write, bind, lw_get. by rewrite all_valid_true. Qed.

Lemma wp_lw_memcpy dst src n s (Q : unit -> lwip -> Prop) :
  0 <= n -> (forall x, src <= x < src + n -> lw_valid s x = true) -> (forall x, dst <= x < dst + n -> lw_valid s x = true) ->
  n = 0 \/ dst + n <= src \/ src + n <= dst ->
  Q tt (with_data (overlaid (lw_data s) dst (lw_bytes s src n)) s) -> wp (lw_memcpy dst src n) s Q.
Proof.
  intros Hn Hs Hd Ho HQ. apply wp_step, wp_defined_if.
  { destruct Ho as [->|[Ho|Ho]]; [done|..]; apply Z.leb_le in Ho; rewrite Ho; by rewrite ?orb_true_r. }
  apply wp_step, wp_lw_read; [done|]. apply wp_lw_write; [|done].
  unfold lw_bytes, zrange. rewrite length_fmap, length_seqZ. intros x Hx. apply Hd. lia.
Qed.
End wp_prims.

Lemma overlaid_in d a bs x b : aget bs (x - a) = Some b -> overlaid d a bs x = b.
Proof. unfold overlaid. by intros ->. Qed.

Lemma overlaid_out d a bs x : ~ (a <= x < a + Z.of_nat (length bs)) -> overlaid d a bs x = d x.
Proof.
  intros H. unfold overlaid. destruct (aget bs (x - a)) eqn:E; [|done]. apply aget_Some in E. lia.
Qed.

(** * The pools *)

Section pools.
Context {P : Pools}.
Implicit Types s : lwip.

(** The addresses of the elements of a pool. *)
Definition memp_elem (t : memp_t) (i : Z) : Z := LWIP_MEM_ALIGN (memp_base t) + i * memp_size t.
Definition memp_elems (t : memp_t) : list Z := memp_elem t <$> zrange 0 (Z.to_nat (memp_num t)).

(** [free] is the free list of the pool [t]. *)
Definition pool_free s (t : memp_t) (free : list Z) : Prop := links (lw_cells s) (lw_tab s t) free.

(** The elements are where an object can be, and apart. *)
Class PoolsApart := {
  elem_pos t a : a ∈ memp_elems t -> a <> 0;
  elems_nodup t : NoDup (memp_elems t);
  elems_apart t t' a : a ∈ memp_elems t -> a ∈ memp_elems t' -> t = t' }.

Lemma wp_memp_malloc t free s (Q : Z -> lwip -> Prop) :
  pool_free s t free ->
  (free = [] -> Q 0 s) ->
  (forall a l n, free = a :: l -> a <> 0 -> lw_cells s !! a = Some (Link n) -> links (lw_cells s) n l -> Q a (with_tab t n s)) ->
  wp (memp_malloc t) s Q.
Proof.
  intros Hf H0 H1. unfold memp_malloc, do_memp_malloc_pool, get_tab, memp_pools. cbn [mp_tab].
  apply wp_step, wp_step, wp_lw_get, wp_ret. unfold pool_free in Hf. destruct free as [|a l]; cbn [links] in Hf.
  - rewrite Hf. by apply H0.
  - destruct Hf as (Ht & Ha & n & Hn & Hl). rewrite Ht. destruct (Z.eqb_spec a 0); [done|]. cbn [negb].
    apply wp_step, (wp_link_at _ n); [done|]. apply wp_step, wp_lw_mod, wp_ret. by apply (H1 a l n).
Qed.

Lemma wp_memp_free t a s (Q : unit -> lwip -> Prop) :
  a <> 0 -> Q tt (with_tab t a (with_cells (insert a (Link (lw_tab s t))) s)) -> wp (memp_free t a) s Q.
Proof.
  intros Ha HQ. unfold memp_free. destruct (Z.eqb_spec a 0); [done|].
  unfold do_memp_free_pool, get_tab, memp_pools, set_tab. cbn [mp_tab].
  apply wp_step, wp_step, wp_lw_get, wp_ret. apply wp_step, wp_put_cell. by apply wp_lw_mod.
Qed.

Lemma with_tab_eq t a s : lw_tab (with_tab t a s) t = a.
Proof. cbn. by rewrite decide_True. Qed.
Lemma with_tab_ne t t' a s : t' <> t -> lw_tab (with_tab t a s) t' = lw_tab s t'.
Proof. intros. cbn. by rewrite decide_False. Qed.

(** A store to an object that is not free, and what the two operations do, as seen from
    any free list. *)
Lemma pool_free_insert s t free a c :
  pool_free s t free -> a ∉ free -> pool_free (with_cells (insert a c) s) t free.
Proof. intros H Ha. by apply links_insert. Qed.

Lemma pool_free_pop s t n l : links (lw_cells s) n l -> pool_free (with_tab t n s) t l.
Proof. intros H. unfold pool_free. by rewrite with_tab_eq. Qed.

Lemma pool_free_push s t free a :
  pool_free s t free -> a <> 0 -> a ∉ free ->
  pool_free (with_tab t a (with_cells (insert a (Link (lw_tab s t))) s)) t (a :: free).
Proof.
  intros H Ha Hn. unfold pool_free. rewrite with_tab_eq. split; [done|]. split; [done|].
  exists (lw_tab s t). cbn. rewrite lookup_insert_eq. split; [done|by apply links_insert].
Qed.

Lemma pool_free_other s t t' n free : t' <> t -> pool_free s t' free -> pool_free (with_tab t n s) t' free.
Proof. intros Hne H. unfold pool_free. by rewrite with_tab_ne. Qed.

(** ** A pool is a stack *)

Inductive memp_op := Malloc | Free (a : Z).

(** What the operations return, the elements in use being [used]: a free of an element
    that is not in use is not one of the program. *)
Fixpoint memp_run (t : memp_t) (used : list Z) (ops : list memp_op) : lw (list Z) :=
  match ops with
  | [] => ret []
  | Malloc :: ops' =>
      a <- memp_malloc t ;;
      r <- memp_run t (if a =? 0 then used else a :: used) ops' ;;
      ret (a :: r)
  | Free a :: ops' =>
      defined_if (bool_decide (a ∈ used)) ;;
      memp_free t a ;;
      memp_run t (filter (fun x => x <> a) used) ops'
  end.

(** The same of a stack of elements. *)
Fixpoint stack_run (free used : list Z) (ops : list memp_op) : option (list Z) :=
  match ops, free with
  | [], _ => Some []
  | Malloc :: ops', [] => cons 0 <$> stack_run [] used ops'
  | Malloc :: ops', a :: free' => cons a <$> stack_run free' (a :: used) ops'
  | Free a :: ops', _ =>
      if bool_decide (a ∈ used) then stack_run (a :: free) (filter (fun x => x <> a) used) ops' else None
  end.

Lemma wp_memp_run t ops : forall used free s r (Q : list Z -> lwip -> Prop),
  pool_free s t free -> NoDup (free ++ used) -> (forall a, a ∈ used -> a <> 0) ->
  stack_run free used ops = Some r -> (forall s', Q r s') -> wp (memp_run t used ops) s Q.
Proof.
  induction ops as [|o ops IH]; intros used free s r Q Hf Hd Hu Hr HQ; cbn [memp_run stack_run] in *.
  - injection Hr as <-. apply HQ.
  - destruct o as [|a].
    + apply wp_step, (wp_memp_malloc t free); [done|..].
      * intros ->. destruct (stack_run [] used ops) as [r'|] eqn:E; [|done]. injection Hr as <-.
        apply wp_step, (IH used [] s r'); done.
      * intros a l n -> Ha Hn Hl. destruct (stack_run l (a :: used) ops) as [r'|] eqn:E; [|done]. injection Hr as <-.
        destruct (Z.eqb_spec a 0); [done|]. apply wp_step, (IH (a :: used) l _ r'); [by apply pool_free_pop|..|done|].
        -- by rewrite <- Permutation_middle.
        -- by intros x [->|]%elem_of_cons; [|apply Hu].
        -- intros s'. apply HQ.
    + apply wp_step, wp_defined_if; [by case_bool_decide; destruct free|].
      assert (a ∈ used /\ stack_run (a :: free) (filter (fun x => x <> a) used) ops = Some r) as [Hau Hr'].
      { case_bool_decide; [|by destruct free]. split; [done|by destruct free]. }
      assert (a ∉ free) as Hfr.
      { intros Hi. apply NoDup_app in Hd as (_ & Hd & _). by apply (Hd a). }
      apply wp_step, wp_memp_free; [by apply Hu|]. apply (IH _ (a :: free) _ r); try done.
      * by apply pool_free_push; [|apply Hu|].
      * apply NoDup_app in Hd as (? & Hd & ?). apply NoDup_cons. split.
        -- rewrite elem_of_app, list_elem_of_filter. intros [?|[? _]]; done.
        -- apply NoDup_app. split; [done|]. split; [|by apply NoDup_filter].
           intros x Hx [_ Hx']%list_elem_of_filter. by apply (Hd x).
      * intros x [_ Hx]%list_elem_of_filter. by apply Hu.
Qed.

Lemma memp_elem_next t i : memp_elem t i + memp_size t = memp_elem t (i + 1).
Proof. unfold memp_elem. lia. Qed.

(** The heap's list and the ownership of bytes stay. *)
Definition same_heap s s' : Prop := lw_lfree s' = lw_lfree s /\ lw_valid s' = lw_valid s.

Lemma wp_memp_thread t n : forall i free s (Q : unit -> lwip -> Prop),
  pool_free s t free ->
  NoDup (reverse (memp_elem t <$> zrange i n) ++ free) -> (forall a, a ∈ memp_elem t <$> zrange i n -> a <> 0) ->
  (forall s', pool_free s' t (reverse (memp_elem t <$> zrange i n) ++ free) ->
     (forall t', t' <> t -> lw_tab s' t' = lw_tab s t') ->
     (forall a, a ∉ memp_elem t <$> zrange i n -> lw_cells s' !! a = lw_cells s !! a) -> same_heap s s' -> Q tt s') ->
  wp (memp_thread (memp_pools t) n (memp_elem t i)) s Q.
Proof.
  induction n as [|n IH]; intros i free s Q Hf Hd H0 HQ; cbn [memp_thread].
  - apply wp_ret, HQ; done.
  - rewrite zrange_S, fmap_cons, reverse_cons, <- app_assoc in *. cbn [app] in *.
    assert (memp_elem t i ∉ free) as Hi.
    { apply NoDup_app in Hd as (_ & _ & Hd). by apply NoDup_cons in Hd as [? _]. }
    apply wp_step, wp_step, wp_lw_get, wp_ret. apply wp_step, wp_put_cell, wp_step, wp_lw_mod.
    change (mp_size (memp_pools t)) with (memp_size t). rewrite memp_elem_next. cbn [mp_tab memp_pools].
    apply (IH _ (memp_elem t i :: free)); [|done|..].
    + apply pool_free_push; [done| |done]. apply H0. by left.
    + intros a Ha. apply H0. by right.
    + intros s' Hf' Ht Hc Hh. apply HQ; [done|..|done].
      * intros t' Hne. rewrite Ht by done. by rewrite with_tab_ne.
      * intros a Ha. apply not_elem_of_cons in Ha as [Hne Ha]. rewrite Hc by done. cbn. by rewrite lookup_insert_ne.
Qed.

Lemma wp_memp_init_pool {A : PoolsApart} t s (Q : unit -> lwip -> Prop) :
  (forall s', pool_free s' t (reverse (memp_elems t)) -> (forall t', t' <> t -> lw_tab s' t' = lw_tab s t') ->
     (forall a, a ∉ memp_elems t -> lw_cells s' !! a = lw_cells s !! a) -> same_heap s s' -> Q tt s') ->
  wp (memp_init_pool (memp_pools t)) s Q.
Proof.
  intros HQ. unfold memp_init_pool. apply wp_step, wp_lw_mod.
  assert (LWIP_MEM_ALIGN (mp_base (memp_pools t)) = memp_elem t 0) as -> by (unfold memp_elem; cbn; lia).
  apply (wp_memp_thread t _ 0 []); unfold memp_elems in HQ.
  - by unfold pool_free; rewrite with_tab_eq.
  - rewrite app_nil_r, reverse_Permutation. apply elems_nodup.
  - apply elem_pos.
  - rewrite app_nil_r. intros s' Hf Ht Hc Hh. apply HQ; [done| |done|done].
    intros t' Hne. rewrite Ht by done. by apply with_tab_ne.
Qed.

(** Links of a pool that another pool's initialisation leaves alone. *)
Lemma links_agree m m' p l : (forall a, a ∈ l -> m' !! a = m !! a) -> links m p l -> links m' p l.
Proof.
  revert p. induction l as [|a l IH]; intros p Hm; [done|]. intros (-> & ? & n & Hn & Hl). split; [done|]. split; [done|].
  exists n. rewrite Hm by left. split; [done|]. apply IH; [|done]. intros x Hx. apply Hm. by right.
Qed.

Lemma wp_memp_init_pools {A : PoolsApart} l : forall (ready : list memp_t) s (Q : unit -> lwip -> Prop),
  NoDup l -> (forall t, t ∈ ready -> (t ∉ l) /\ pool_free s t (reverse (memp_elems t))) ->
  (forall s', (forall t, (t ∈ ready \/ t ∈ l) -> pool_free s' t (reverse (memp_elems t))) ->
     (forall a, (forall t, a ∉ memp_elems t) -> lw_cells s' !! a = lw_cells s !! a) -> same_heap s s' -> Q tt s') ->
  wp (for_each l (fun t => memp_init_pool (memp_pools t))) s Q.
Proof.
  induction l as [|t l IH]; intros ready s Q Hd Hr HQ; cbn [for_each].
  { apply wp_ret, HQ; [|done|done]. intros t [Ht|?%elem_of_nil]; [by apply Hr|done]. }
  apply NoDup_cons in Hd as [Htl Hd]. apply wp_step, wp_memp_init_pool. intros s' Ht Htab Hc Hh.
  apply (IH (t :: ready)); [done|..].
  - intros t' [->|Ht']%elem_of_cons; [by split|]. destruct (Hr _ Ht') as [Hn Hf].
    apply not_elem_of_cons in Hn as [Hne Hn]. split; [done|]. unfold pool_free. rewrite Htab by done.
    apply (links_agree (lw_cells s)); [|done]. intros a Ha. rewrite elem_of_reverse in Ha. apply Hc. intros Ha'.
    apply Hne. eapply elems_apart; done.
  - intros s2 H2 Hc2 Hh2. apply HQ.
    + intros t' Ht'. apply H2. rewrite elem_of_cons in *. tauto.
    + intros a Ha. rewrite Hc2, Hc by auto. done.
    + unfold same_heap in *. destruct Hh, Hh2. split; congruence.
Qed.

(** memp_init makes every pool a list of all its elements. *)
Lemma wp_memp_init {A : PoolsApart} s (Q : unit -> lwip -> Prop) :
  (forall s', (forall t, pool_free s' t (reverse (memp_elems t))) ->
     (forall a, (forall t, a ∉ memp_elems t) -> lw_cells s' !! a = lw_cells s !! a) -> same_heap s s' -> Q tt s') -> wp memp_init s Q.
Proof.
  intros HQ. apply (wp_memp_init_pools all_pools []).
  - apply (bool_decide_unpack _). by vm_compute.
  - by intros t ?%elem_of_nil.
  - intros s' H Hc Hh. apply HQ; [|done|done]. intros t. apply H. right. destruct t; apply (bool_decide_unpack _); by vm_compute.
Qed.

(** A pool is a stack of its elements: after memp_init, calls of memp_malloc and memp_free
    in any order, that free only what is in use, return what a stack that holds all
    the elements returns: an element that is not in use, and NULL exactly when there is
    none. *)
Theorem memp_pool_is_stack {A : PoolsApart} t ops r s :
  stack_run (reverse (memp_elems t)) [] ops = Some r ->
  wp (bind memp_init (fun _ => memp_run t [] ops)) s (fun r' _ => r' = r).
Proof.
  intros Hr. apply wp_step, wp_memp_init. intros s' Hf _ _. apply (wp_memp_run t ops [] (reverse (memp_elems t)) _ r).
  - apply Hf.
  - rewrite app_nil_r, reverse_Permutation. apply elems_nodup.
  - by intros a ?%elem_of_nil.
  - done.
  - done.
Qed.
End pools.

(** * A concrete layout *)

Definition pool_index (t : memp_t) : Z :=
  match t with
  | MEMP_UDP_PCB => 0 | MEMP_TCP_PCB => 1 | MEMP_TCP_PCB_LISTEN => 2 | MEMP_TCP_SEG => 3
  | MEMP_REASSDATA => 4 | MEMP_FRAG_PBUF => 5 | MEMP_NETBUF => 6 | MEMP_NETCONN => 7
  | MEMP_TCPIP_MSG_API => 8 | MEMP_TCPIP_MSG_INPKT => 9 | MEMP_SYS_TIMEOUT => 10
  | MEMP_PBUF => 11 | MEMP_PBUF_POOL => 12
  end.

#[local] Instance sim_pools : Pools := {|
  memp_base t := 0x20040000 + 0x4000 * pool_index t;
  memp_sizeof _ := 64;
  ram_heap := 0x20030000;
  pbuf_free_ooseq_callback_ := 0x08010000 |}.

Lemma sim_elems_range t a : a ∈ memp_elems t -> 0x20040000 + 0x4000 * pool_index t <= a < 0x20040000 + 0x4000 * pool_index t + 0x4000.
Proof.
  revert a. apply Forall_forall. destruct t; apply (bool_decide_unpack _); by vm_compute.
Qed.

#[local] Instance sim_pools_apart : PoolsApart.
Proof.
  split.
  - intros t a Ha%sim_elems_range. destruct t; cbn in Ha; lia.
  - intros t. destruct t; apply (bool_decide_unpack _); by vm_compute.
  - intros t t' a H1%sim_elems_range H2%sim_elems_range. destruct t, t'; try done; cbn in H1, H2; lia.
Defined.

(** What a run returns, to evaluate it without its final state. *)
Definition result {S A} (o : outcome S A) : option A := match o with Ret a _ => Some a | _ => None end.

Lemma result_final {S A} (o : outcome S A) a : result o = Some a -> o = Ret a (final o).
Proof. destruct o; cbn; congruence. Qed.

(** A stack whose memory is not initialised. *)
Definition lw_reset : lwip := Lwip ∅ (fun _ => 0) (fun _ => false) (fun _ => 0) 0 0 [].

Lemma memp_pool_is_stack_witness :
  let e i := memp_elem MEMP_TCP_SEG i in
  let ops := [Malloc; Malloc; Free (e 15); Malloc; Malloc; Free (e 14)] in
  wp (bind memp_init (fun _ => memp_run MEMP_TCP_SEG [] ops)) lw_reset (fun r _ => r = [e 15; e 14; e 15; e 13]).
Proof. intros e ops. apply memp_pool_is_stack. by vm_compute. Defined.
