(* ===== verification/LwHeap.v ===== *)
(** The heap of the lwIP stack, lwip-2.1.2/src/core/mem.c: a region of RAM tiled by
    blocks, each with a head that links it to its neighbours; allocation is first fit,
    and free neighbours are joined. *)
From S2P Require Import Prelude Machine LwMem.
From stdpp Require Import list gmap sorting.

#[local] Open Scope Z_scope.
#[local] Open Scope fw_scope.

Definition MEM_SIZE : Z := 4096.
Definition MIN_SIZE_ALIGNED : Z := LWIP_MEM_ALIGN 12.
Definition SIZEOF_STRUCT_MEM : Z := LWIP_MEM_ALIGN 6.
Definition MEM_SIZE_ALIGNED : Z := LWIP_MEM_ALIGN MEM_SIZE.

(** The loops visit every block at most once; there are at most [MEM_SIZE / 20]. *)
Definition HEAP_FUEL : nat := 256.

Section heap.
Context {P : Pools}.

Definition ram : Z := LWIP_MEM_ALIGN ram_heap.
Definition ptr_to_mem (ptr : Z) : Z := ram + ptr.
Definition mem_to_ptr (mem : Z) : Z := u16 (mem - ram).
Definition ram_end : Z := ptr_to_mem MEM_SIZE_ALIGNED.

Definition set_next (v : Z) (m : blk) : blk := Blk v (m_prev m) (m_used m).
Definition set_prev (v : Z) (m : blk) : blk := Blk (m_next m) v (m_used m).
Definition set_used (v : Z) (m : blk) : blk := Blk (m_next m) (m_prev m) v.
Definition get_lfree : lw Z := s <- lw_get ;; ret (lw_lfree s).
Definition set_lfree (a : Z) : lw unit := lw_mod (with_lfree a).

(** The lifetime of a block's memory in C: from its allocation on the bytes [a .. b-1] may
    be used, and hold no object yet; when it is freed, they hold none any more. *)
Definition lifetime (a b : Z) (on : bool) : lw unit :=
  s <- lw_get ;;
  lw_mod (with_valid (fun x => if (a <=? x) && (x <? b) then on else lw_valid s x)) ;;
  lw_mod (with_cells (filter (fun p => ~ (a <= fst p < b)))).

(** [if (mem < lfree) lfree = mem;] *)
Definition lower_lfree (mem : Z) : lw unit :=
  lf <- get_lfree ;; if mem <? lf then set_lfree mem else ret tt.

Definition plug_forward (mem : Z) : lw unit :=
  m <- blk_at mem ;;
  let nmem := ptr_to_mem (m_next m) in
  hole <- (if negb (mem =? nmem) then n <- blk_at nmem ;; ret ((m_used n =? 0) && negb (nmem =? ram_end))
           else ret false) ;;
  if hole : bool then
    lf <- get_lfree ;;
    (if lf =? nmem then set_lfree mem else ret tt) ;;
    n <- blk_at nmem ;;
    blk_set mem (set_next (m_next n)) ;;
    if negb (m_next n =? MEM_SIZE_ALIGNED) then
      blk_set (ptr_to_mem (m_next n)) (set_prev (mem_to_ptr mem))
    else ret tt
  else ret tt.

Definition plug_backward (mem : Z) : lw unit :=
  m <- blk_at mem ;;
  let pmem := ptr_to_mem (m_prev m) in
  hole <- (if negb (pmem =? mem) then p <- blk_at pmem ;; ret (m_used p =? 0) else ret false) ;;
  if hole : bool then
    lf <- get_lfree ;;
    (if lf =? mem then set_lfree pmem else ret tt) ;;
    blk_set pmem (set_next (m_next m)) ;;
    if negb (m_next m =? MEM_SIZE_ALIGNED) then
      blk_set (ptr_to_mem (m_next m)) (set_prev (mem_to_ptr pmem))
    else ret tt
  else ret tt.

Definition plug_holes (mem : Z) : lw unit := plug_forward mem ;; plug_backward mem.

Definition mem_init : lw unit :=
  put_cell ram (Block (Blk MEM_SIZE_ALIGNED 0 0)) ;;
  put_cell ram_end (Block (Blk MEM_SIZE_ALIGNED MEM_SIZE_ALIGNED 1)) ;;
  set_lfree ram.

Definition mem_link_valid (mem : Z) : lw bool :=
  m <- blk_at mem ;;
  let rmem_idx := mem_to_ptr mem in
  let nmem := ptr_to_mem (m_next m) in
  let pmem := ptr_to_mem (m_prev m) in
  if (MEM_SIZE_ALIGNED <? m_next m) || (MEM_SIZE_ALIGNED <? m_prev m) then ret false
  else
    back <- (if negb (m_prev m =? rmem_idx) then p <- blk_at pmem ;; ret (m_next p =? rmem_idx)
             else ret true) ;;
    if negb back then ret false
    else if negb (nmem =? ram_end) then n <- blk_at nmem ;; ret (m_prev n =? rmem_idx)
    else ret true.

Definition mem_free (rmem : Z) : lw unit :=
  if rmem =? 0 then ret tt
  else if negb (rmem .& 3 =? 0) then ret tt
  else
    let mem := rmem - SIZEOF_STRUCT_MEM in
    if (mem <? ram) || (ram_end <? rmem + MIN_SIZE_ALIGNED) then ret tt
    else
      m <- blk_at mem ;;
      if m_used m =? 0 then ret tt
      else
        v <- mem_link_valid mem ;;
        if negb v then ret tt
        else
          lifetime rmem (ptr_to_mem (m_next m)) false ;;
          blk_set mem (set_used 0) ;;
          lower_lfree mem ;;
          plug_holes mem.

(** A new free block at [ptr2], linked in between the block at [ptr], whose mark becomes
    [used], and [next]. *)
Definition cut_block (ptr ptr2 next used : Z) : lw unit :=
  put_cell (ptr_to_mem ptr2) (Block (Blk next ptr 0)) ;;
  blk_set (ptr_to_mem ptr) (fun m => Blk ptr2 (m_prev m) used) ;;
  if negb (next =? MEM_SIZE_ALIGNED) then blk_set (ptr_to_mem next) (set_prev ptr2)
  else ret tt.

Definition mem_trim (rmem new_size : Z) : lw Z :=
  let newsize0 := u16 (LWIP_MEM_ALIGN new_size) in
  let newsize := if newsize0 <? MIN_SIZE_ALIGNED then MIN_SIZE_ALIGNED else newsize0 in
  if (MEM_SIZE_ALIGNED <? newsize) || (newsize <? new_size) then ret 0
  else if (rmem <? ram) || (ram_end <=? rmem) then ret rmem
  else
    let mem := rmem - SIZEOF_STRUCT_MEM in
    m <- blk_at mem ;;
    let ptr := mem_to_ptr mem in
    let size := u16 (u16 (m_next m - ptr) - SIZEOF_STRUCT_MEM) in
    if size <? newsize then ret 0
    else if newsize =? size then ret rmem
    else
      let mem2 := ptr_to_mem (m_next m) in
      m2 <- blk_at mem2 ;;
      let ptr2 := u16 (ptr + SIZEOF_STRUCT_MEM + newsize) in
      if m_used m2 =? 0 then
        let next := m_next m2 in
        lf <- get_lfree ;;
        (if lf =? mem2 then set_lfree (ptr_to_mem ptr2) else ret tt) ;;
        lifetime (ptr_to_mem ptr2) mem2 false ;;
        cut_block ptr ptr2 next (m_used m) ;;
        ret rmem
      else if newsize + SIZEOF_STRUCT_MEM + MIN_SIZE_ALIGNED <=? size then
        lower_lfree (ptr_to_mem ptr2) ;;
        lifetime (ptr_to_mem ptr2) mem2 false ;;
        cut_block ptr ptr2 (m_next m) (m_used m) ;;
        ret rmem
      else ret rmem.

(** The inner loop of mem_malloc: the next free block from [cur] on, or the end. *)
Fixpoint next_free (fuel : nat) (cur : Z) : lw Z :=
  match fuel with
  | O => spin
  | S n =>
      b <- blk_at cur ;;
      if negb (m_used b =? 0) && negb (cur =? ram_end) then next_free n (ptr_to_mem (m_next b))
      else ret cur
  end.

(** The block [m] at [ptr] is taken for [size] bytes. *)
Definition mem_take (ptr size : Z) (m : blk) : lw Z :=
  let mem := ptr_to_mem ptr in
  (if size + SIZEOF_STRUCT_MEM + MIN_SIZE_ALIGNED <=? u32 (m_next m - (ptr + SIZEOF_STRUCT_MEM)) then
     cut_block ptr (u16 (ptr + SIZEOF_STRUCT_MEM + size)) (m_next m) 1
   else blk_set mem (set_used 1)) ;;
  lf <- get_lfree ;;
  (if mem =? lf then cur <- next_free HEAP_FUEL lf ;; set_lfree cur else ret tt) ;;
  m' <- blk_at mem ;;
  lifetime (mem + SIZEOF_STRUCT_MEM) (ptr_to_mem (m_next m')) true ;;
  ret (mem + SIZEOF_STRUCT_MEM).

Fixpoint mem_search (fuel : nat) (ptr size : Z) : lw Z :=
  match fuel with
  | O => spin
  | S n =>
      if ptr <? u32 (MEM_SIZE_ALIGNED - size) then
        m <- blk_at (ptr_to_mem ptr) ;;
        if (m_used m =? 0) && (size <=? u32 (m_next m - (ptr + SIZEOF_STRUCT_MEM))) then mem_take ptr size m
        else mem_search n (m_next m) size
      else ret 0
  end.

Definition mem_malloc (size_in : Z) : lw Z :=
  if size_in =? 0 then ret 0
  else
    let size0 := u16 (LWIP_MEM_ALIGN size_in) in
    let size := if size0 <? MIN_SIZE_ALIGNED then MIN_SIZE_ALIGNED else size0 in
    if (MEM_SIZE_ALIGNED <? size) || (size <? size_in) then ret 0
    else lf <- get_lfree ;; mem_search HEAP_FUEL (mem_to_ptr lf) size.

Definition mem_calloc (count size : Z) : lw Z :=
  let alloc_size := u32 (count * size) in
  if negb (u16 alloc_size =? alloc_size) then ret 0
  else
    p <- mem_malloc (u16 alloc_size) ;;
    if negb (p =? 0) then lw_write p (replicate (Z.to_nat alloc_size) 0) ;; ret p
    else ret p.

(** * The heap as a list of blocks *)

(** A block is its size, with its head, and whether it is in use.  [tiles m prev ptr l pe qe]:
    from offset [ptr] to [qe] the heads in [m] describe the blocks [l]; [prev] and [pe] are
    the offsets of the blocks before [ptr] and before [qe]. *)
Definition blocks := list (Z * bool).

Fixpoint tiles (m : gmap Z cell) (prev ptr : Z) (l : blocks) (pe qe : Z) : Prop :=
  match l with
  | [] => pe = prev /\ qe = ptr
  | (n, u) :: l' =>
      m !! ptr_to_mem ptr = Some (Block (Blk (ptr + n) prev (Z.b2z u))) /\
      20 <= n /\ n mod 4 = 0 /\ tiles m ptr (ptr + n) l' pe qe
  end.

Fixpoint extent (l : blocks) : Z := match l with [] => 0 | (n, _) :: l' => n + extent l' end.
(** The offsets of the heads. *)
Fixpoint heads (ptr : Z) (l : blocks) : list Z :=
  match l with [] => [] | (n, _) :: l' => ptr :: heads (ptr + n) l' end.
(** The addresses that belong to the users of the blocks in use. *)
Fixpoint payload (ptr : Z) (l : blocks) (a : Z) : Prop :=
  match l with
  | [] => False
  | (n, u) :: l' => u = true /\ ptr_to_mem (ptr + 8) <= a < ptr_to_mem (ptr + n) \/ payload (ptr + n) l' a
  end.
Fixpoint first_free (ptr : Z) (l : blocks) : Z :=
  match l with [] => ptr | (n, u) :: l' => if u : bool then first_free (ptr + n) l' else ptr end.
(** No two free neighbours. *)
Fixpoint no_holes (l : blocks) : Prop :=
  match l with
  | (_, u) :: l' => no_holes l' /\ (u = false -> match l' with (_, false) :: _ => False | _ => True end)
  | [] => True
  end.

(** [heap_ok s l]: the heap of [s] consists of the blocks [l]. *)
Record heap_ok (s : lwip) (l : blocks) : Prop := {
  hk_tiles : exists pe, tiles (lw_cells s) 0 0 l pe MEM_SIZE_ALIGNED;
  hk_end : lw_cells s !! ram_end = Some (Block (Blk MEM_SIZE_ALIGNED MEM_SIZE_ALIGNED 1));
  hk_holes : no_holes l;
  hk_lfree : lw_lfree s = ptr_to_mem (first_free 0 l);
  hk_valid a : payload 0 l a -> lw_valid s a = true }.

(** What an operation that turns [l] into [l'] leaves alone: everything but the heads and
    what is free before or after it. *)
Record heap_frame (l l' : blocks) (s s' : lwip) : Prop := {
  hf_cells a : payload 0 l a /\ payload 0 l' a \/ a < ram \/ ram_end < a -> lw_cells s' !! a = lw_cells s !! a;
  hf_valid a : payload 0 l a /\ payload 0 l' a \/ a < ram \/ ram_end < a -> lw_valid s' a = lw_valid s a;
  hf_data : lw_data s' = lw_data s;
  hf_tab : lw_tab s' = lw_tab s;
  hf_pending : pbuf_free_ooseq_pending s' = pbuf_free_ooseq_pending s;
  hf_mbox : tcpip_mbox s' = tcpip_mbox s }.

(** ** What the operations do to the list *)

(** First fit: the block that is taken, as its offset, and the list then. *)
Fixpoint take_first (size ptr : Z) (l : blocks) : option (Z * blocks) :=
  match l with
  | [] => None
  | (n, u) :: l' =>
      if negb u && (size + 8 <=? n) then
        Some (ptr, if size + 28 <=? n then (size + 8, true) :: (n - size - 8, false) :: l' else (n, true) :: l')
      else prod_map id (cons (n, u)) <$> take_first size (ptr + n) l'
  end.

(** The size a request is rounded up to. *)
Definition block_size (n : Z) : Z := Z.max 12 ((n + 3) / 4 * 4).

(** Joining free neighbours. *)
Fixpoint coalesce (l : blocks) : blocks :=
  match l with
  | [] => []
  | (n, true) :: l' => (n, true) :: coalesce l'
  | (n, false) :: l' => match coalesce l' with (m, false) :: r => (n + m, false) :: r | r => (n, false) :: r end
  end.

Section tiles.
Implicit Types (m : gmap Z cell) (l : blocks).

Lemma tiles_app m l1 : forall prev ptr l2 pe qe,
  tiles m prev ptr (l1 ++ l2) pe qe <-> exists p q, tiles m prev ptr l1 p q /\ tiles m p q l2 pe qe.
Proof.
  induction l1 as [|[n u] l1 IH]; intros prev ptr l2 pe qe; cbn [tiles app].
  - split; [intros H; by exists prev, ptr|by intros (? & ? & (-> & ->) & H)].
  - rewrite IH. split.
    + intros (? & ? & ? & p & q & ? & ?). by exists p, q.
    + intros (p & q & (? & ? & ? & ?) & ?). do 3 (split; [done|]). by exists p, q.
Qed.

Lemma tiles_end m l : forall prev ptr pe qe, tiles m prev ptr l pe qe -> qe = ptr + extent l.
Proof.
  induction l as [|[n u] l IH]; intros prev ptr pe qe; cbn [tiles extent].
  - intros [_ ->]. lia.
  - intros (_ & _ & _ & H%IH). lia.
Qed.

Lemma tiles_total m l prev ptr pe qe : tiles m prev ptr l pe qe -> 20 * Z.of_nat (length l) <= extent l.
Proof.
  revert prev ptr. induction l as [|[n u] l IH]; intros prev ptr; cbn [tiles extent length]; [lia|].
  intros (_ & ? & _ & H%IH). lia.
Qed.

Lemma tiles_agree m m' l : forall prev ptr pe qe,
  (forall o, o ∈ heads ptr l -> m' !! ptr_to_mem o = m !! ptr_to_mem o) ->
  tiles m prev ptr l pe qe -> tiles m' prev ptr l pe qe.
Proof.
  induction l as [|[n u] l IH]; intros prev ptr pe qe Hm; cbn [tiles]; [done|].
  intros (Hh & ? & ? & Hl). rewrite Hm by left. repeat split; try done.
  apply IH; [|done]. intros o Ho. apply Hm. by right.
Qed.

Lemma heads_app ptr l1 l2 : heads ptr (l1 ++ l2) = heads ptr l1 ++ heads (ptr + extent l1) l2.
Proof.
  revert ptr. induction l1 as [|[n u] l1 IH]; intros ptr; cbn [heads extent app]; [by rewrite Z.add_0_r|].
  by rewrite IH, Z.add_assoc.
Qed.

Lemma heads_range m l o prev ptr pe qe : tiles m prev ptr l pe qe -> o ∈ heads ptr l -> ptr <= o <= qe - 20.
Proof.
  revert prev ptr. induction l as [|[n u] l IH]; intros prev ptr; cbn [tiles heads].
  - by intros _ ?%elem_of_nil.
  - intros (_ & Hn & _ & Hl) [->|Ho]%elem_of_cons.
    + pose proof (tiles_end _ _ _ _ _ _ Hl). pose proof (tiles_total _ _ _ _ _ _ Hl). lia.
    + pose proof (IH _ _ Hl Ho). lia.
Qed.

(** A store elsewhere than at the heads. *)
Lemma tiles_insert m a c l prev ptr pe qe :
  a < ptr_to_mem ptr \/ ptr_to_mem qe - 20 < a -> tiles m prev ptr l pe qe -> tiles (<[a := c]> m) prev ptr l pe qe.
Proof.
  intros Ha Hl. apply (tiles_agree m); [|done]. intros o Ho. apply lookup_insert_ne.
  pose proof (heads_range _ _ _ _ _ _ _ Hl Ho). unfold ptr_to_mem in *. lia.
Qed.

(** Objects that vanish elsewhere than at the heads. *)
Lemma tiles_filter m (Q : Z * cell -> Prop) `{!forall x, Decision (Q x)} l prev ptr pe qe :
  (forall o c, o ∈ heads ptr l -> Q (ptr_to_mem o, c)) -> tiles m prev ptr l pe qe -> tiles (filter Q m) prev ptr l pe qe.
Proof.
  intros HQ. apply tiles_agree. intros o Ho. rewrite map_lookup_filter.
  destruct (m !! ptr_to_mem o) as [c|]; [|done]. cbn. by rewrite option_guard_True by by apply HQ.
Qed.

Lemma payload_app ptr l1 l2 a : payload ptr (l1 ++ l2) a <-> payload ptr l1 a \/ payload (ptr + extent l1) l2 a.
Proof.
  revert ptr. induction l1 as [|[n u] l1 IH]; intros ptr; cbn [payload extent app].
  - rewrite Z.add_0_r. tauto.
  - rewrite IH, Z.add_assoc. tauto.
Qed.

Lemma payload_range m l a prev ptr pe qe :
  tiles m prev ptr l pe qe -> payload ptr l a -> ptr_to_mem ptr + 8 <= a < ptr_to_mem qe.
Proof.
  revert prev ptr. induction l as [|[n u] l IH]; intros prev ptr; cbn [tiles payload]; [done|].
  intros (_ & Hn & _ & Hl). pose proof (tiles_end _ _ _ _ _ _ Hl). pose proof (tiles_total _ _ _ _ _ _ Hl).
  unfold ptr_to_mem. intros [[_ ?]|Hp]; [lia|]. pose proof (IH _ _ Hl Hp). unfold ptr_to_mem in *. lia.
Qed.

(** Heads are nobody's memory. *)
Lemma payload_head m l a o prev ptr pe qe :
  tiles m prev ptr l pe qe -> payload ptr l a -> o ∈ heads ptr l -> ~ (ptr_to_mem o <= a < ptr_to_mem o + 8).
Proof.
  revert prev ptr. induction l as [|[n u] l IH]; intros prev ptr; cbn [tiles payload heads]; [done|].
  intros (_ & Hn & _ & Hl). pose proof (tiles_end _ _ _ _ _ _ Hl). pose proof (tiles_total _ _ _ _ _ _ Hl).
  intros [[_ Ha]|Hp] [->|Ho]%elem_of_cons.
  - unfold ptr_to_mem in *. lia.
  - pose proof (heads_range _ _ _ _ _ _ _ Hl Ho). unfold ptr_to_mem in *. lia.
  - pose proof (payload_range _ _ _ _ _ _ _ Hl Hp). unfold ptr_to_mem in *. lia.
  - by apply (IH _ _ Hl Hp).
Qed.

(** Nor is a free block. *)
Lemma payload_free m l1 n l2 a prev pe qe :
  tiles m prev 0 (l1 ++ (n, false) :: l2) pe qe -> payload 0 (l1 ++ (n, false) :: l2) a ->
  ~ (ptr_to_mem (extent l1) <= a < ptr_to_mem (extent l1 + n)).
Proof.
  intros (p & q & H1 & _ & Hn & _ & H2)%tiles_app Hp.
  apply payload_app in Hp as [Hp|[[? _]|Hp]]; [|done|].
  - pose proof (payload_range _ _ _ _ _ _ _ H1 Hp). apply tiles_end in H1. unfold ptr_to_mem in *. lia.
  - pose proof (tiles_end _ _ _ _ _ _ H1) as E. assert (q = extent l1) as -> by lia. cbn in Hp.
    pose proof (payload_range _ _ _ _ _ _ _ H2 Hp). unfold ptr_to_mem in *. lia.
Qed.

Definition in_use (b : Z * bool) : Prop := snd b = true.

Lemma first_free_used ptr l1 l2 : Forall in_use l1 -> first_free ptr (l1 ++ l2) = first_free (ptr + extent l1) l2.
Proof.
  intros H. revert ptr. induction H as [|[n u] l1 Hu _ IH]; intros ptr; cbn [first_free extent app]; [by rewrite Z.add_0_r|].
  unfold in_use in Hu. cbn in Hu. subst u. by rewrite IH, Z.add_assoc.
Qed.

Lemma first_free_some ptr l1 l2 : ~ Forall in_use l1 -> first_free ptr (l1 ++ l2) = first_free ptr l1.
Proof.
  revert ptr. induction l1 as [|[n u] l1 IH]; intros ptr H; cbn [first_free app]; [by destruct H|].
  destruct u; [|done]. apply IH. intros Hl. apply H. by constructor.
Qed.
End tiles.

(** ** Joining free neighbours *)

Definition join_next (n : Z) (l : blocks) : Z * blocks :=
  match l with (k, false) :: l' => (n + k, l') | _ => (n, l) end.

Lemma coalesce_id l : no_holes l -> coalesce l = l.
Proof.
  induction l as [|[n u] l IH]; [done|]. intros [Hl Hu]. cbn [coalesce]. rewrite IH by done.
  destruct u; [done|]. destruct l as [|[k []] l]; [done|done|by destruct Hu].
Qed.

Lemma coalesce_next n l : no_holes l -> coalesce ((n, false) :: l) = (fst (join_next n l), false) :: snd (join_next n l).
Proof. intros Hl. cbn [coalesce]. rewrite coalesce_id by done. by destruct l as [|[k []] l]. Qed.

Lemma coalesce_after_used l1 k l2 : no_holes (l1 ++ [(k, true)]) -> coalesce (l1 ++ (k, true) :: l2) = l1 ++ (k, true) :: coalesce l2.
Proof.
  induction l1 as [|[n u] l1 IH]; [done|]. intros [Hl Hu]. cbn [app] in *.
  destruct u; cbn [coalesce]; rewrite IH by done; [done|].
  destruct l1 as [|[j []] l1]; [done|done|by destruct Hu].
Qed.

Lemma no_holes_app l1 l2 : no_holes (l1 ++ l2) -> no_holes l1 /\ no_holes l2.
Proof.
  induction l1 as [|[n u] l1 IH]; [done|]. cbn [app no_holes]. intros [[H1 H2]%IH Hu]. split; [|done]. split; [done|].
  intros E. specialize (Hu E). by destruct l1 as [|[? []] ?].
Qed.

Lemma no_holes_coalesce l : no_holes (coalesce l).
Proof.
  induction l as [|[n u] l IH]; [done|]. cbn [coalesce]. destruct u; [done|].
  destruct (coalesce l) as [|[k []] r]; [done|..].
  - by split.
  - destruct IH as [? Hf]. split; [done|]. intros _. by apply Hf.
Qed.

Lemma first_free_coalesce ptr l : first_free ptr (coalesce l) = first_free ptr l.
Proof.
  revert ptr. induction l as [|[n u] l IH]; intros ptr; [done|]. cbn [coalesce first_free].
  destruct u; [apply IH|]. by destruct (coalesce l) as [|[k []] r].
Qed.

Lemma payload_coalesce ptr l a : payload ptr (coalesce l) a <-> payload ptr l a.
Proof.
  revert ptr. induction l as [|[n u] l IH]; intros ptr; [done|]. cbn [coalesce payload].
  destruct u; [cbn [payload]; by rewrite IH|]. rewrite <- IH.
  destruct (coalesce l) as [|[k []] r]; cbn [payload]; [tauto|tauto|].
  rewrite Z.add_assoc. split; [intros [[? _]|?]|intros [[? _]|[[? _]|?]]]; (done || by auto).
Qed.

(** What plug_holes makes of the list, seen from the block it is called for. *)
Lemma coalesce_split l1 n l2 : no_holes l1 -> no_holes l2 ->
  let (n', l2') := join_next n l2 in
  (l1 = [] \/ exists l1' k, l1 = l1' ++ [(k, true)]) /\ coalesce (l1 ++ (n, false) :: l2) = l1 ++ (n', false) :: l2' \/
  exists l1' k, l1 = l1' ++ [(k, false)] /\ coalesce (l1 ++ (n, false) :: l2) = l1' ++ (k + n', false) :: l2'.
Proof.
  intros H1 H2. pose proof (coalesce_next n l2 H2) as Hn. destruct (join_next n l2) as [n' l2'] eqn:En. cbn [fst snd] in Hn.
  destruct l1 as [|[k u] l1 _] using rev_ind; [left; split; [by left|done]|].
  rewrite <- !app_assoc. cbn [app]. destruct u.
  - left. split; [right; by exists l1, k|]. by rewrite coalesce_after_used, Hn.
  - right. exists l1, k. split; [done|].
    assert (coalesce ((k, false) :: (n, false) :: l2) = (k + n', false) :: l2') as Hk.
    { change (coalesce ((k, false) :: (n, false) :: l2)) with
        (match coalesce ((n, false) :: l2) with (m, false) :: r => (k + m, false) :: r | r => (k, false) :: r end).
      by rewrite Hn. }
    destruct l1 as [|[j v] l1 _] using rev_ind; [done|].
    rewrite <- !app_assoc in *. cbn [app] in *. destruct v.
    + assert (no_holes (l1 ++ [(j, true)])) as Hj.
      { apply (no_holes_app _ [(k, false)]). by rewrite <- app_assoc. }
      by rewrite coalesce_after_used, Hk.
    + apply no_holes_app in H1 as [_ [_ H1]]. by destruct (H1 eq_refl).
Qed.

(** ** The programs *)

Ltac heap_lia :=
  unfold ram_end, ptr_to_mem in *; change MEM_SIZE_ALIGNED with 4096 in *;
  change SIZEOF_STRUCT_MEM with 8 in *; change MIN_SIZE_ALIGNED with 12 in *; lia.

Lemma mem_to_ptr_at p : 0 <= p < 65536 -> mem_to_ptr (ptr_to_mem p) = p.
Proof. intros Hp. unfold mem_to_ptr, ptr_to_mem. rewrite u16_small; lia. Qed.

Lemma with_cells_same s : with_cells (fun _ => lw_cells s) s = s.
Proof. by destruct s. Qed.

Definition except (A : Z -> Prop) (m m' : gmap Z cell) : Prop := forall a, ~ A a -> m' !! a = m !! a.

Lemma except_trans (A A1 A2 : Z -> Prop) m1 m2 m3 :
  except A1 m1 m2 -> except A2 m2 m3 -> (forall a, A1 a \/ A2 a -> A a) -> except A m1 m3.
Proof. intros H1 H2 HA a Ha. rewrite H2, H1; auto. Qed.
Lemma except_insert m a c : except (fun x => x = a) m (<[a := c]> m).
Proof. intros x Hx. by apply lookup_insert_ne. Qed.

(** The block after a changed one is linked back to it. *)
Lemma wp_relink v q l pe p s (Q : unit -> lwip -> Prop) :
  tiles (lw_cells s) p q l pe MEM_SIZE_ALIGNED ->
  (forall m' pe', tiles m' v q l pe' MEM_SIZE_ALIGNED -> except (fun a => a = ptr_to_mem q /\ q <> MEM_SIZE_ALIGNED) (lw_cells s) m' ->
     Q tt (with_cells (fun _ => m') s)) ->
  wp (if negb (q =? MEM_SIZE_ALIGNED) then blk_set (ptr_to_mem q) (set_prev v) else ret tt) s Q.
Proof.
  intros Ht HQ. destruct l as [|[n u] l].
  - destruct Ht as [-> <-]. rewrite Z.eqb_refl. apply wp_ret.
    rewrite <- (with_cells_same s). apply (HQ _ v); [by split|by intros a _].
  - pose proof (tiles_end _ _ _ _ _ _ Ht) as He. pose proof (tiles_total _ _ _ _ _ _ Ht) as Hs. cbn [length] in Hs.
    destruct (Z.eqb_spec q MEM_SIZE_ALIGNED) as [->|Hq]; [lia|]. cbn [negb]. destruct Ht as (Hh & ? & ? & Ht).
    apply (wp_blk_set _ _ _ _ _ Hh). cbn [set_prev m_next m_used].
    apply (HQ (<[ptr_to_mem q := Block (Blk (q + n) v (Z.b2z u))]> (lw_cells s)) pe).
    + cbn [tiles]. rewrite lookup_insert_eq. do 3 (split; [done|]).
      apply tiles_insert; [left; heap_lia|done].
    + intros a Ha. apply lookup_insert_ne. intros <-. by apply Ha.
Qed.

Lemma wp_get_lfree s (Q : Z -> lwip -> Prop) : Q (lw_lfree s) s -> wp get_lfree s Q.
Proof. done. Qed.

Definition at_head (l : blocks) (a : Z) : Prop := exists o, o ∈ heads 0 l /\ a = ptr_to_mem o.

Lemma head_mid l1 b l2 : extent l1 ∈ heads 0 (l1 ++ b :: l2).
Proof. rewrite heads_app. apply elem_of_app. right. destruct b. by left. Qed.

Lemma wp_plug_forward l1 n l2 pe s (Q : unit -> lwip -> Prop) :
  tiles (lw_cells s) 0 0 (l1 ++ (n, false) :: l2) pe MEM_SIZE_ALIGNED ->
  lw_cells s !! ram_end = Some (Block (Blk MEM_SIZE_ALIGNED MEM_SIZE_ALIGNED 1)) ->
  lw_lfree s <= ptr_to_mem (extent l1) ->
  (forall m' pe', let (n', l2') := join_next n l2 in
     tiles m' 0 0 (l1 ++ (n', false) :: l2') pe' MEM_SIZE_ALIGNED ->
     except (at_head (l1 ++ (n, false) :: l2)) (lw_cells s) m' -> Q tt (with_cells (fun _ => m') s)) ->
  wp (plug_forward (ptr_to_mem (extent l1))) s Q.
Proof.
  intros Ht Hend Hlf HQ. pose proof Ht as Hall.
  apply tiles_app in Ht as (p & q & H1 & Hh & Hn & Hn4 & H2). pose proof (tiles_end _ _ _ _ _ _ H1) as E.
  assert (q = extent l1) as -> by lia. clear E.
  unfold plug_forward. apply wp_step, (wp_blk_at _ _ _ _ Hh). cbn [m_next].
  destruct (Z.eqb_spec (ptr_to_mem (extent l1)) (ptr_to_mem (extent l1 + n))) as [|_]; [heap_lia|]. cbn [negb].
  destruct l2 as [|[k u] l2]; [|destruct u].
  - destruct H2 as [-> E]. apply wp_step, wp_step. rewrite <- E. apply (wp_blk_at _ _ _ _ Hend), wp_ret. cbn [m_used].
    change (1 =? 0) with false. apply wp_ret. cbn [join_next] in HQ.
    rewrite <- (with_cells_same s). apply (HQ _ _ Hall). by intros a _.
  - apply wp_step, wp_step. destruct H2 as (Hh2 & _). apply (wp_blk_at _ _ _ _ Hh2), wp_ret. cbn [m_used Z.b2z].
    change (1 =? 0) with false. apply wp_ret. cbn [join_next] in HQ.
    rewrite <- (with_cells_same s). apply (HQ _ pe); [done|by intros a _].
  - cbn [join_next] in HQ. destruct H2 as (Hh2 & Hk & Hk4 & H2).
    pose proof (tiles_end _ _ _ _ _ _ H2) as E2. pose proof (tiles_total _ _ _ _ _ _ H2).
    pose proof (tiles_end _ _ _ _ _ _ H1) as E1. pose proof (tiles_total _ _ _ _ _ _ H1).
    apply wp_step, wp_step, (wp_blk_at _ _ _ _ Hh2), wp_ret. cbn [m_used Z.b2z].
    change (0 =? 0) with true.
    destruct (Z.eqb_spec (ptr_to_mem (extent l1 + n)) ram_end) as [|_]; [heap_lia|]. cbn [negb andb].
    apply wp_step, wp_get_lfree. destruct (Z.eqb_spec (lw_lfree s) (ptr_to_mem (extent l1 + n))) as [|_]; [heap_lia|].
    apply wp_step, wp_ret. apply wp_step, (wp_blk_at _ _ _ _ Hh2). apply wp_step, (wp_blk_set _ _ _ _ _ Hh).
    cbn [m_next set_next m_prev m_used]. rewrite mem_to_ptr_at by heap_lia.
    apply (wp_relink (extent l1) _ l2 pe (extent l1 + n)).
    { cbn. apply tiles_insert; [left; heap_lia|done]. }
    intros m' pe' Ht' Hx. apply (HQ m' pe').
    + apply tiles_app. exists p, (extent l1).
      assert (forall a, a < ptr_to_mem (extent l1) -> m' !! a = lw_cells s !! a) as Hlow.
      { intros a Ha. rewrite Hx; [|heap_lia]. apply lookup_insert_ne. lia. }
      split.
      { apply (tiles_agree (lw_cells s)); [|done]. intros o Ho. apply Hlow.
        pose proof (heads_range _ _ _ _ _ _ _ H1 Ho). heap_lia. }
      split; [|repeat split; [lia|zlia|by rewrite Z.add_assoc]].
      rewrite Hx; [|heap_lia]. cbn. rewrite lookup_insert_eq. by rewrite Z.add_assoc.
    + eapply except_trans; [apply except_insert|apply Hx|].
      intros a [->|[-> Hne]]; (eexists; split; [|done]).
      * apply head_mid.
      * rewrite heads_app. apply elem_of_app. right. do 2 right.
        destruct l2 as [|[j v] l2]; [destruct H2; lia|by left].
Qed.

Lemma extent_app l1 l2 : extent (l1 ++ l2) = extent l1 + extent l2.
Proof. induction l1 as [|[n u] l1 IH]; cbn [extent app]; [lia|]. rewrite IH. lia. Qed.

Lemma wp_plug_backward l1 n l2 pe s (Q : unit -> lwip -> Prop) :
  tiles (lw_cells s) 0 0 (l1 ++ (n, false) :: l2) pe MEM_SIZE_ALIGNED ->
  (forall l1' k, l1 = l1' ++ [(k, false)] -> lw_lfree s <> ptr_to_mem (extent l1)) ->
  (l1 = [] \/ (exists l1' k, l1 = l1' ++ [(k, true)]) -> Q tt s) ->
  (forall l1' k m' pe', l1 = l1' ++ [(k, false)] -> tiles m' 0 0 (l1' ++ (k + n, false) :: l2) pe' MEM_SIZE_ALIGNED ->
     except (at_head (l1 ++ (n, false) :: l2)) (lw_cells s) m' -> Q tt (with_cells (fun _ => m') s)) ->
  wp (plug_backward (ptr_to_mem (extent l1))) s Q.
Proof.
  intros Ht Hlf Hno Hyes.
  apply tiles_app in Ht as (p & q & H1 & Hh & Hn & Hn4 & H2). pose proof (tiles_end _ _ _ _ _ _ H1) as E.
  assert (q = extent l1) as -> by lia. clear E.
  unfold plug_backward. apply wp_step, (wp_blk_at _ _ _ _ Hh). cbn [m_next m_prev].
  destruct l1 as [|[k u] l1 _] using rev_ind.
  - destruct H1 as [-> _]. cbn [extent] in *. rewrite Z.eqb_refl. apply wp_step, wp_ret, wp_ret, Hno. by left.
  - rewrite extent_app in *. cbn [extent] in *. rewrite Z.add_0_r in *.
    apply tiles_app in H1 as (p1 & q1 & H0 & Hh1 & Hk & Hk4 & [-> _]). pose proof (tiles_end _ _ _ _ _ _ H0) as E.
    assert (q1 = extent l1) as -> by lia. clear E.
    destruct (Z.eqb_spec (ptr_to_mem (extent l1)) (ptr_to_mem (extent l1 + k))) as [|_]; [heap_lia|]. cbn [negb].
    apply wp_step, wp_step, (wp_blk_at _ _ _ _ Hh1), wp_ret. cbn [m_used].
    destruct u; [apply wp_ret, Hno; right; by exists l1, k|]. change (Z.b2z false =? 0) with true.
    apply wp_step, wp_get_lfree. specialize (Hlf l1 k eq_refl).
    destruct (Z.eqb_spec (lw_lfree s) (ptr_to_mem (extent l1 + k))) as [|_]; [done|].
    pose proof (tiles_end _ _ _ _ _ _ H2) as E2. pose proof (tiles_total _ _ _ _ _ _ H2). pose proof (tiles_total _ _ _ _ _ _ H0).
    apply wp_step, wp_ret. apply wp_step, (wp_blk_set _ _ _ _ _ Hh1). cbn [set_next m_prev m_used].
    rewrite mem_to_ptr_at by heap_lia. apply (wp_relink (extent l1) _ l2 pe (extent l1 + k)).
    { cbn. apply tiles_insert; [left; heap_lia|done]. }
    intros m' pe' Ht' Hx. apply (Hyes l1 k m' pe'); [done|..].
    + apply tiles_app. exists p1, (extent l1). split.
      { apply (tiles_agree (lw_cells s)); [|done]. intros o Ho. pose proof (heads_range _ _ _ _ _ _ _ H0 Ho).
        rewrite Hx; [|heap_lia]. apply lookup_insert_ne. heap_lia. }
      split; [|repeat split; [lia|zlia|by rewrite Z.add_assoc]].
      rewrite Hx; [|heap_lia]. cbn. rewrite lookup_insert_eq. by rewrite Z.add_assoc.
    + eapply except_trans; [apply except_insert|apply Hx|].
      intros a [->|[-> Hne]]; (eexists; split; [|done]).
      * rewrite <- app_assoc. apply head_mid.
      * rewrite heads_app, extent_app. apply elem_of_app. right. right. cbn [extent] in *. rewrite Z.add_0_r, Z.add_0_l.
        destruct l2 as [|[j v] l2]; [destruct H2; lia|by left].
Qed.

Lemma first_free_before m l prev ptr pe qe : tiles m prev ptr l pe qe -> ~ Forall in_use l -> ptr <= first_free ptr l <= qe - 20.
Proof.
  revert prev ptr. induction l as [|[n u] l IH]; intros prev ptr; cbn [tiles first_free].
  - by intros _ [].
  - intros (_ & Hn & _ & Hl) Hf. pose proof (tiles_end _ _ _ _ _ _ Hl). pose proof (tiles_total _ _ _ _ _ _ Hl).
    destruct u; [|lia]. assert (~ Forall in_use l) as H' by (intros ?; apply Hf; by constructor).
    pose proof (IH _ _ Hl H'). lia.
Qed.

#[local] Instance in_use_dec b : Decision (in_use b).
Proof. unfold in_use. apply _. Defined.

(** A block is freed, or taken, at [extent l1]. *)
Lemma first_free_mid m l1 b l2 pe qe : tiles m 0 0 (l1 ++ b :: l2) pe qe ->
  Forall in_use l1 \/ ~ Forall in_use l1 /\ 0 <= first_free 0 l1 <= extent l1 - 20.
Proof.
  intros (p & q & H1 & _)%tiles_app. pose proof (tiles_end _ _ _ _ _ _ H1).
  destruct (decide (Forall in_use l1)) as [?|Hn]; [by left|right]. split; [done|].
  pose proof (first_free_before _ _ _ _ _ _ H1 Hn). lia.
Qed.

Lemma at_head_next l1 n l2 n' l2' a : join_next n l2 = (n', l2') ->
  at_head (l1 ++ (n', false) :: l2') a -> at_head (l1 ++ (n, false) :: l2) a.
Proof.
  intros Hj (o & Ho & ->). exists o. split; [|done]. rewrite heads_app, elem_of_app in *. cbn [heads] in *.
  destruct Ho as [?|[->|Ho]%elem_of_cons]; [by left|right; by left|]. right. right.
  destruct l2 as [|[k []] l2]; cbn in Hj; injection Hj as <- <-; cbn [heads]; [done|done|]. right. by rewrite Z.add_assoc in Ho.
Qed.

Lemma wp_plug_holes l1 n l2 pe s (Q : unit -> lwip -> Prop) :
  let l := l1 ++ (n, false) :: l2 in
  tiles (lw_cells s) 0 0 l pe MEM_SIZE_ALIGNED ->
  lw_cells s !! ram_end = Some (Block (Blk MEM_SIZE_ALIGNED MEM_SIZE_ALIGNED 1)) ->
  no_holes l1 -> no_holes l2 -> lw_lfree s = ptr_to_mem (first_free 0 l) ->
  (forall m' pe', tiles m' 0 0 (coalesce l) pe' MEM_SIZE_ALIGNED -> except (at_head l) (lw_cells s) m' ->
     Q tt (with_cells (fun _ => m') s)) ->
  wp (plug_holes (ptr_to_mem (extent l1))) s Q.
Proof.
  intros l Ht Hend H1 H2 Hlf HQ.
  assert (0 <= extent l1 /\ first_free 0 l <= extent l1) as [Hl1 Hff].
  { pose proof Ht as (p & q & Ht1 & _)%tiles_app. pose proof (tiles_total _ _ _ _ _ _ Ht1).
    split; [lia|]. destruct (first_free_mid _ _ _ _ _ _ Ht) as [Hu|[Hu ?]]; unfold l.
    - rewrite first_free_used by done. cbn. lia.
    - rewrite first_free_some by done. lia. }
  apply wp_step, (wp_plug_forward l1 n l2 pe); [done|done|rewrite Hlf; heap_lia|].
  intros m1 pe1. pose proof (coalesce_split l1 n l2 H1 H2) as Hc. destruct (join_next n l2) as [n' l2'] eqn:En.
  intros Ht1 Hx1. apply (wp_plug_backward l1 n' l2' pe1); [done|..].
  - intros l1' k -> E. cbn in E. rewrite Hlf in E. unfold l in E. rewrite first_free_some in E.
    + pose proof Ht as (p & q & Hp1 & _)%tiles_app. pose proof (tiles_end _ _ _ _ _ _ Hp1).
      pose proof (first_free_before _ _ _ _ _ _ Hp1) as Hb.
      rewrite Forall_app in Hb. assert (~ (Forall in_use l1' /\ Forall in_use [(k, false)])) as Hn.
      { intros [_ Hn]. by inversion Hn. }
      specialize (Hb Hn). heap_lia.
    + intros [_ Hn]%Forall_app. by inversion Hn.
  - intros Hu. apply (HQ m1 pe1); [|done]. fold l in Hc. destruct Hc as [[_ ->]|(l1' & k & -> & _)]; [done|].
    destruct Hu as [?|(? & ? & [_ ?]%app_inj_tail)]; [by destruct l1'|done].
  - intros l1' k m2 pe2 -> Ht2 Hx2. apply (HQ m2 pe2).
    + fold l in Hc. destruct Hc as [[[?|(? & ? & [_ ?]%app_inj_tail)] _]|(l1'' & k' & E & ->)]; [by destruct l1'|done|].
      apply app_inj_tail in E as [-> [= ->]]. done.
    + eapply except_trans; [apply Hx1|apply Hx2|]. intros a [?|Ha]; [done|]. by apply (at_head_next _ _ _ _ _ _ En).
Qed.

(** ** Addresses *)

Lemma align_mod4 x : LWIP_MEM_ALIGN x mod 4 = 0.
Proof.
  unfold LWIP_MEM_ALIGN. change 4 with (2 ^ 2) at 2. rewrite <- Z.land_ones, <- Z.land_assoc by lia.
  change (Z.land (not32 3) (Z.ones 2)) with 0. apply Z.land_0_r.
Qed.

Lemma land3 x : Z.land x 3 = x mod 4.
Proof. change 3 with (Z.ones 2). by rewrite Z.land_ones by lia. Qed.

Lemma tiles_mod4 m l prev ptr pe qe : tiles m prev ptr l pe qe -> extent l mod 4 = 0.
Proof.
  revert prev ptr. induction l as [|[n u] l IH]; intros prev ptr; cbn [tiles extent]; [done|].
  intros (_ & _ & Hn & H%IH). zlia.
Qed.

(** A head rewritten with another mark. *)
Lemma tiles_mark m l1 n u v l2 prev ptr pe qe p q :
  tiles m prev ptr l1 p q -> tiles m p q ((n, u) :: l2) pe qe ->
  tiles (<[ptr_to_mem q := Block (Blk (q + n) p (Z.b2z v))]> m) prev ptr (l1 ++ (n, v) :: l2) pe qe.
Proof.
  intros H1 (_ & Hn & Hn4 & H2). apply tiles_app. exists p, q. split.
  - apply tiles_insert; [right|done]. heap_lia.
  - cbn [tiles]. rewrite lookup_insert_eq. do 3 (split; [done|]). apply tiles_insert; [left; heap_lia|done].
Qed.

Lemma payload_mark ptr l1 n l2 a : 0 <= n ->
  payload ptr (l1 ++ (n, false) :: l2) a -> payload ptr (l1 ++ (n, true) :: l2) a.
Proof. intros Hn. rewrite !payload_app. cbn [payload]. intros [?|[[? _]|?]]; [by left|done|by right; right]. Qed.

Lemma no_holes_used l1 n l2 : no_holes (l1 ++ (n, true) :: l2) <-> no_holes l1 /\ no_holes l2.
Proof.
  induction l1 as [|[k u] l1 IH]; cbn [app no_holes].
  - split; [by intros [? _]|intros [_ ?]; by split].
  - rewrite IH. destruct l1 as [|[j v] l1]; cbn [app]; tauto.
Qed.

Lemma wp_lifetime a b on s (Q : unit -> lwip -> Prop) :
  Q tt (with_cells (filter (fun p => ~ (a <= fst p < b)))
         (with_valid (fun x => if (a <=? x) && (x <? b) then on else lw_valid s x) s)) ->
  wp (lifetime a b on) s Q.
Proof. done. Qed.

Lemma filter_other (m : gmap Z cell) x a b : ~ (a <= x < b) -> filter (fun p => ~ (a <= fst p < b)) m !! x = m !! x.
Proof.
  intros Hx. rewrite map_lookup_filter. destruct (m !! x); [|done]. cbn. by rewrite option_guard_True.
Qed.

Lemma between_false a b x (v w : bool) : ~ (a <= x < b) -> (if (a <=? x) && (x <? b) then v else w) = w.
Proof. intros Hx. destruct (Z.leb_spec a x), (Z.ltb_spec x b); try done. lia. Qed.
Lemma between_true a b x (v w : bool) : a <= x < b -> (if (a <=? x) && (x <? b) then v else w) = v.
Proof. intros Hx. destruct (Z.leb_spec a x), (Z.ltb_spec x b); try done; lia. Qed.

Section mem_free.
Context (Hram : 0 < ram).

(** The neighbours of a block link to it. *)
Lemma wp_link_valid l1 n u l2 pe s (Q : bool -> lwip -> Prop) :
  tiles (lw_cells s) 0 0 (l1 ++ (n, u) :: l2) pe MEM_SIZE_ALIGNED -> Q true s -> wp (mem_link_valid (ptr_to_mem (extent l1))) s Q.
Proof.
  intros Ht HQ. apply tiles_app in Ht as (p & q & H1 & Hh & Hn & Hn4 & H2).
  pose proof (tiles_end _ _ _ _ _ _ H1) as E1. pose proof (tiles_total _ _ _ _ _ _ H1).
  pose proof (tiles_end _ _ _ _ _ _ H2) as E2. pose proof (tiles_total _ _ _ _ _ _ H2).
  assert (q = extent l1) as -> by lia.
  unfold mem_link_valid. apply wp_step, (wp_blk_at _ _ _ _ Hh). cbn [m_next m_prev]. rewrite mem_to_ptr_at by heap_lia.
  assert (0 <= p <= MEM_SIZE_ALIGNED) as Hp.
  { destruct l1 as [|[k v] l1 _] using rev_ind; [destruct H1; heap_lia|].
    apply tiles_app in H1 as (p1 & q1 & Hf & _ & ? & _ & -> & ?). pose proof (tiles_end _ _ _ _ _ _ Hf).
    pose proof (tiles_total _ _ _ _ _ _ Hf). heap_lia. }
  destruct (Z.ltb_spec MEM_SIZE_ALIGNED (extent l1 + n)); [heap_lia|].
  destruct (Z.ltb_spec MEM_SIZE_ALIGNED p); [lia|]. cbn [orb].
  apply wp_step, (wp_mono _ _ (fun b s' => b = true /\ s' = s)).
  - destruct (Z.eqb_spec p (extent l1)) as [|Hne]; cbn [negb]; [by apply wp_ret|].
    destruct l1 as [|[k v] l1 _] using rev_ind; [destruct H1 as [? _]; cbn in Hne; lia|].
    apply tiles_app in H1 as (p1 & q1 & Hf & Hh1 & ? & _ & -> & E). apply wp_step, (wp_blk_at _ _ _ _ Hh1), wp_ret.
    cbn [m_next]. rewrite <- E. by rewrite Z.eqb_refl.
  - intros b s' [-> ->]. cbn [negb]. destruct (Z.eqb_spec (ptr_to_mem (extent l1 + n)) ram_end) as [|Hne]; cbn [negb]; [by apply wp_ret|].
    destruct l2 as [|[k v] l2]; [destruct H2; heap_lia|]. destruct H2 as (Hh2 & _).
    apply wp_step, (wp_blk_at _ _ _ _ Hh2), wp_ret. cbn [m_prev]. by rewrite Z.eqb_refl.
Qed.

(** A block seen in the list. *)
Lemma tiles_block m l1 n u l2 pe : tiles m 0 0 (l1 ++ (n, u) :: l2) pe MEM_SIZE_ALIGNED ->
  exists p, tiles m 0 0 l1 p (extent l1) /\ tiles m p (extent l1) ((n, u) :: l2) pe MEM_SIZE_ALIGNED /\
    0 <= extent l1 /\ 20 <= n /\ extent l1 + n <= 4096 /\ extent l1 mod 4 = 0 /\ n mod 4 = 0.
Proof.
  intros (p & q & H1 & H2)%tiles_app. pose proof (tiles_end _ _ _ _ _ _ H1) as E1. rewrite Z.add_0_l in E1. subst q.
  pose proof (tiles_total _ _ _ _ _ _ H1). pose proof (tiles_mod4 _ _ _ _ _ _ H1). pose proof H2 as (_ & ? & ? & H2').
  pose proof (tiles_end _ _ _ _ _ _ H2'). pose proof (tiles_total _ _ _ _ _ _ H2').
  exists p. do 2 (split; [done|]). do 4 (split; [heap_lia|]). done.
Qed.

(** Heads are not inside blocks. *)
Lemma head_outside m l1 n u l2 pe o : tiles m 0 0 (l1 ++ (n, u) :: l2) pe MEM_SIZE_ALIGNED ->
  o ∈ heads 0 (l1 ++ (n, u) :: l2) -> o <= extent l1 \/ extent l1 + n <= o.
Proof.
  intros (p & H1 & (_ & _ & _ & H2) & _)%tiles_block Ho. rewrite heads_app in Ho.
  apply elem_of_app in Ho as [Ho|[->|Ho]%elem_of_cons].
  - pose proof (heads_range _ _ _ _ _ _ _ H1 Ho). lia.
  - left. lia.
  - pose proof (heads_range _ _ _ _ _ _ _ H2 Ho). lia.
Qed.

Lemma tiles_lifetime m l1 n u l2 pe a b : ptr_to_mem (extent l1) < a -> b <= ptr_to_mem (extent l1 + n) ->
  tiles m 0 0 (l1 ++ (n, u) :: l2) pe MEM_SIZE_ALIGNED ->
  tiles (filter (fun p => ~ (a <= fst p < b)) m) 0 0 (l1 ++ (n, u) :: l2) pe MEM_SIZE_ALIGNED.
Proof.
  intros Ha Hb Ht. apply (tiles_agree m); [|done]. intros o Ho. apply filter_other.
  pose proof (head_outside _ _ _ _ _ _ _ Ht Ho). unfold ptr_to_mem in *. lia.
Qed.

(** The lowest free block when one is freed. *)
Lemma wp_lower m l1 n l2 pe s (Q : unit -> lwip -> Prop) :
  tiles m 0 0 (l1 ++ (n, true) :: l2) pe MEM_SIZE_ALIGNED ->
  lw_lfree s = ptr_to_mem (first_free 0 (l1 ++ (n, true) :: l2)) ->
  Q tt (with_lfree (ptr_to_mem (first_free 0 (l1 ++ (n, false) :: l2))) s) ->
  wp (lower_lfree (ptr_to_mem (extent l1))) s Q.
Proof.
  intros Ht Hlf HQ. apply wp_step, wp_get_lfree. rewrite Hlf. destruct (first_free_mid _ _ _ _ _ _ Ht) as [Hu|[Hu Hff]].
  - apply tiles_block in Ht as (p & _ & (_ & _ & _ & H2) & _ & Hn & _). rewrite first_free_used in HQ |- * by done.
    rewrite Z.add_0_l in *. cbn [first_free] in *. pose proof (tiles_total _ _ _ _ _ _ H2).
    assert (extent l1 + n <= first_free (extent l1 + n) l2) as Hle.
    { destruct (decide (Forall in_use l2)) as [Hu2|Hu2].
      - rewrite <- (app_nil_r l2), first_free_used by done. cbn [first_free]. lia.
      - pose proof (first_free_before _ _ _ _ _ _ H2 Hu2). lia. }
    destruct (Z.ltb_spec (ptr_to_mem (extent l1)) (ptr_to_mem (first_free (extent l1 + n) l2))); [done|].
    unfold ptr_to_mem in *. lia.
  - rewrite first_free_some in HQ |- * by done. destruct (Z.ltb_spec (ptr_to_mem (extent l1)) (ptr_to_mem (first_free 0 l1))); [heap_lia|].
    apply wp_ret. rewrite first_free_some in Hlf by done. rewrite <- Hlf in HQ. by destruct s.
Qed.

(** What [A] covers is nobody's before or after. *)
Lemma heap_frame_intro (A : Z -> Prop) l l' s s' :
  except A (lw_cells s) (lw_cells s') -> (forall a, ~ A a -> lw_valid s' a = lw_valid s a) ->
  lw_data s' = lw_data s -> lw_tab s' = lw_tab s ->
  pbuf_free_ooseq_pending s' = pbuf_free_ooseq_pending s -> tcpip_mbox s' = tcpip_mbox s ->
  (forall a, A a -> ram <= a <= ram_end /\ ~ (payload 0 l a /\ payload 0 l' a)) -> heap_frame l l' s s'.
Proof.
  intros Hc Hv ? ? ? ? HA.
  assert (forall a, payload 0 l a /\ payload 0 l' a \/ a < ram \/ ram_end < a -> ~ A a) as Hn.
  { intros a Ha HAa. apply HA in HAa as [? ?]. destruct Ha as [?|?]; [done|lia]. }
  split; auto.
Qed.

Lemma payload_freed m l1 n l2 pe a : tiles m 0 0 (l1 ++ (n, true) :: l2) pe MEM_SIZE_ALIGNED ->
  payload 0 (l1 ++ (n, false) :: l2) a -> payload 0 (l1 ++ (n, true) :: l2) a /\ ~ (ptr_to_mem (extent l1) <= a < ptr_to_mem (extent l1 + n)).
Proof.
  intros (p & H1 & H2 & _ & Hn & _)%tiles_block Ha. split; [by apply payload_mark; [lia|]|].
  pose proof (tiles_mark m l1 n true false l2 0 0 pe MEM_SIZE_ALIGNED p (extent l1) H1 H2) as Ht. by apply (payload_free _ _ _ _ _ _ _ _ Ht Ha).
Qed.

Lemma at_head_bounds m l pe a : tiles m 0 0 l pe MEM_SIZE_ALIGNED -> at_head l a -> ram <= a <= ram_end - 20.
Proof. intros Ht (o & Ho & ->). pose proof (heads_range _ _ _ _ _ _ _ Ht Ho). heap_lia. Qed.

Lemma wp_mem_free l1 n l2 s (Q : unit -> lwip -> Prop) :
  let l := l1 ++ (n, true) :: l2 in let l' := coalesce (l1 ++ (n, false) :: l2) in
  heap_ok s l -> (forall s', heap_ok s' l' -> heap_frame l l' s s' -> Q tt s') ->
  wp (mem_free (ptr_to_mem (extent l1 + 8))) s Q.
Proof.
  intros l l' [[pe Ht] Hend Hholes Hlf Hval] HQ. unfold l in Ht.
  pose proof Ht as (p & H1 & H2 & Hl0 & Hn & Hl2 & Hm4 & Hn4)%tiles_block. pose proof H2 as (Hh & _).
  pose proof (align_mod4 ram_heap) as Hr4. fold ram in Hr4.
  unfold mem_free. destruct (Z.eqb_spec (ptr_to_mem (extent l1 + 8)) 0); [heap_lia|].
  rewrite land3. assert (ptr_to_mem (extent l1 + 8) mod 4 = 0) as -> by (unfold ptr_to_mem; zlia). cbn [Z.eqb negb].
  assert (ptr_to_mem (extent l1 + 8) - SIZEOF_STRUCT_MEM = ptr_to_mem (extent l1)) as -> by heap_lia.
  destruct (Z.ltb_spec (ptr_to_mem (extent l1)) ram); [heap_lia|].
  destruct (Z.ltb_spec ram_end (ptr_to_mem (extent l1 + 8) + MIN_SIZE_ALIGNED)); [heap_lia|]. cbn [orb].
  apply wp_step, (wp_blk_at _ _ _ _ Hh). cbn [m_used m_next Z.b2z]. change (1 =? 0) with false.
  apply wp_step, (wp_link_valid l1 n true l2 pe); [done|]. cbn [negb]. apply wp_step, wp_lifetime.
  pose proof (tiles_lifetime _ l1 n true l2 pe (ptr_to_mem (extent l1 + 8)) (ptr_to_mem (extent l1 + n)) ltac:(heap_lia) ltac:(lia) Ht) as Ht1.
  set (A := fun x => ptr_to_mem (extent l1 + 8) <= x < ptr_to_mem (extent l1 + n)) in *.
  set (m1 := filter _ (lw_cells s)) in Ht1.
  pose proof Ht1 as (p' & H1' & H2' & _)%tiles_block. pose proof H2' as (Hh' & _).
  apply wp_step. eapply wp_blk_set; [exact Hh'|]. cbn [set_used m_next m_prev].
  pose proof (tiles_mark m1 l1 n true false l2 0 0 pe MEM_SIZE_ALIGNED p' (extent l1) H1' H2') as Ht2.
  apply wp_step, (wp_lower (lw_cells s) l1 n l2 pe); [done|done|].
  apply no_holes_used in Hholes as [Hh1 Hh2].
  assert (except (fun a => a = ptr_to_mem (extent l1) \/ A a) (lw_cells s) (<[ptr_to_mem (extent l1) := Block (Blk (extent l1 + n) p' (Z.b2z false))]> m1)) as Hx1.
  { intros a Ha. rewrite lookup_insert_ne by (intros <-; apply Ha; by left). apply filter_other. unfold A in Ha. tauto. }
  apply (wp_plug_holes l1 n l2 pe); [done| |done|done|done|].
  { cbn. rewrite Hx1; [done|]. unfold A. heap_lia. }
  intros m' pe' Ht' Hx.
  assert (except (fun a => at_head (l1 ++ (n, false) :: l2) a \/ A a) (lw_cells s) m') as Hx2.
  { eapply except_trans; [apply Hx1|apply Hx|]. intros a [[->|?]|?]; [left|by right|by left].
    eexists. split; [apply head_mid|done]. }
  assert (forall a, payload 0 l' a -> payload 0 l a /\ ~ A a) as Hp.
  { intros a Ha. unfold l' in Ha. rewrite payload_coalesce in Ha. apply (payload_freed _ _ _ _ _ _ Ht) in Ha as [? ?]. split; [done|]. unfold A, ptr_to_mem in *. lia. }
  apply HQ.
  - split; cbn [lw_cells with_cells lw_lfree with_lfree lw_valid with_valid].
    + by exists pe'.
    + rewrite Hx2; [done|]. intros [Ha|Ha]; [|unfold A in Ha; heap_lia]. apply (at_head_bounds _ _ _ _ Ht2) in Ha. lia.
    + apply no_holes_coalesce.
    + unfold l'. by rewrite first_free_coalesce.
    + intros a Ha. destruct (Hp a Ha) as [? HA]. rewrite between_false by done. by apply Hval.
  - eapply heap_frame_intro; [exact Hx2|..]; try done.
    + intros a Ha. cbn. rewrite between_false; [done|]. unfold A in Ha. tauto.
    + intros a [Ha|Ha].
      * pose proof (at_head_bounds _ _ _ _ Ht2 Ha). split; [lia|]. intros [_ Hpa]. unfold l' in Hpa. rewrite payload_coalesce in Hpa.
        destruct Ha as (o & Ho & ->). apply (payload_head _ _ _ _ _ _ _ _ Ht2 Hpa Ho). lia.
      * split; [unfold A in Ha; heap_lia|]. intros [_ Hpa]. by destruct (Hp a Hpa).
Qed.
End mem_free.

Lemma wp_cut_block l1 p k n v l2 pr pe b s (Q : unit -> lwip -> Prop) :
  tiles (lw_cells s) 0 0 l1 p (extent l1) -> lw_cells s !! ptr_to_mem (extent l1) = Some (Block b) -> m_prev b = p ->
  tiles (lw_cells s) pr (extent l1 + n) l2 pe MEM_SIZE_ALIGNED ->
  20 <= k -> k mod 4 = 0 -> 20 <= n - k -> n mod 4 = 0 ->
  (forall m' pe', tiles m' 0 0 (l1 ++ (k, v) :: (n - k, false) :: l2) pe' MEM_SIZE_ALIGNED ->
     except (fun a => a = ptr_to_mem (extent l1) \/ a = ptr_to_mem (extent l1 + k) \/ a = ptr_to_mem (extent l1 + n) /\ extent l1 + n <> MEM_SIZE_ALIGNED)
       (lw_cells s) m' -> Q tt (with_cells (fun _ => m') s)) ->
  wp (cut_block (extent l1) (extent l1 + k) (extent l1 + n) (Z.b2z v)) s Q.
Proof.
  intros H1 Hh Hp H2 Hk Hk4 Hn Hn4 HQ. unfold cut_block. apply wp_step, wp_put_cell. apply wp_step.
  eapply wp_blk_set; [cbn; rewrite lookup_insert_ne by heap_lia; exact Hh|].
  apply (wp_relink (extent l1 + k) _ l2 pe pr).
  { cbn. apply tiles_insert; [left; heap_lia|]. apply tiles_insert; [left; heap_lia|done]. }
  intros m' pe' Ht Hx.
  assert (except (fun a => a = ptr_to_mem (extent l1) \/ a = ptr_to_mem (extent l1 + k) \/ a = ptr_to_mem (extent l1 + n) /\ extent l1 + n <> MEM_SIZE_ALIGNED)
       (lw_cells s) m') as Hx'.
  { eapply except_trans; [|exact Hx|].
    - cbn. eapply except_trans; [apply except_insert|apply except_insert|]. intros a H. exact H.
    - cbn. tauto. }
  apply (HQ m' pe'); [|done]. apply tiles_app. exists p, (extent l1). split.
  - apply (tiles_agree (lw_cells s)); [|done]. intros o Ho. apply Hx'. pose proof (heads_range _ _ _ _ _ _ _ H1 Ho). heap_lia.
  - split; [|split; [done|split; [done|]]].
    + rewrite Hx by heap_lia. cbn. rewrite lookup_insert_eq. by rewrite Hp.
    + split; [|split; [done|split; [zlia|]]].
      * rewrite Hx by heap_lia. cbn. rewrite lookup_insert_ne by heap_lia. rewrite lookup_insert_eq.
        by replace (extent l1 + k + (n - k)) with (extent l1 + n) by lia.
      * by replace (extent l1 + k + (n - k)) with (extent l1 + n) by lia.
Qed.

Lemma wp_next_free l : forall fuel prev ptr pe s (Q : Z -> lwip -> Prop),
  tiles (lw_cells s) prev ptr l pe MEM_SIZE_ALIGNED ->
  lw_cells s !! ram_end = Some (Block (Blk MEM_SIZE_ALIGNED MEM_SIZE_ALIGNED 1)) -> (length l < fuel)%nat ->
  Q (ptr_to_mem (first_free ptr l)) s -> wp (next_free fuel (ptr_to_mem ptr)) s Q.
Proof.
  induction l as [|[n u] l IH]; intros fuel prev ptr pe s Q Ht Hend Hf HQ; (destruct fuel as [|fuel]; [cbn in Hf; lia|]); cbn [next_free].
  - destruct Ht as [_ <-]. apply wp_step, (wp_blk_at _ _ _ _ Hend). cbn [m_used].
    change (ptr_to_mem MEM_SIZE_ALIGNED) with ram_end. rewrite Z.eqb_refl. cbn [negb andb Z.eqb]. by apply wp_ret.
  - destruct Ht as (Hh & Hn & _ & Ht). apply wp_step, (wp_blk_at _ _ _ _ Hh). cbn [m_used m_next first_free] in *.
    pose proof (tiles_end _ _ _ _ _ _ Ht). pose proof (tiles_total _ _ _ _ _ _ Ht).
    destruct u; cbn [Z.b2z Z.eqb negb andb] in *; [|by apply wp_ret].
    destruct (Z.eqb_spec (ptr_to_mem ptr) ram_end); [heap_lia|]. cbn [negb]. apply (IH _ ptr _ pe); [done|done|cbn in Hf; lia|done].
Qed.


(** What becomes of a free block of size [n] before [l2] when [size] bytes are taken of it. *)
Definition taken (size n : Z) (l2 : blocks) : blocks :=
  if size + 28 <=? n then (size + 8, true) :: (n - size - 8, false) :: l2 else (n, true) :: l2.

Lemma taken_head size n l2 : exists k r, taken size n l2 = (k, true) :: r /\ (k = size + 8 \/ k = n).
Proof. unfold taken. destruct (_ <=? _); eauto. Qed.

Lemma no_holes_taken size n l1 l2 : no_holes (l1 ++ (n, false) :: l2) -> no_holes (l1 ++ taken size n l2).
Proof.
  intros [H1 H2]%no_holes_app. unfold taken. destruct (_ <=? _); apply no_holes_used; (split; [done|]); [done|by destruct H2].
Qed.

Lemma tiles_fuel m l pe : tiles m 0 0 l pe MEM_SIZE_ALIGNED -> (length l < HEAP_FUEL)%nat.
Proof.
  intros Ht. pose proof (tiles_end _ _ _ _ _ _ Ht). pose proof (tiles_total _ _ _ _ _ _ Ht). unfold HEAP_FUEL. heap_lia.
Qed.

(** The block is taken. *)
Lemma wp_taken l1 n l2 pe size s (Q : unit -> lwip -> Prop) :
  tiles (lw_cells s) 0 0 (l1 ++ (n, false) :: l2) pe MEM_SIZE_ALIGNED -> 12 <= size -> size mod 4 = 0 -> size + 8 <= n ->
  (forall m' pe', tiles m' 0 0 (l1 ++ taken size n l2) pe' MEM_SIZE_ALIGNED ->
     except (at_head (l1 ++ taken size n l2)) (lw_cells s) m' -> Q tt (with_cells (fun _ => m') s)) ->
  wp (if size + SIZEOF_STRUCT_MEM + MIN_SIZE_ALIGNED <=? u32 (extent l1 + n - (extent l1 + SIZEOF_STRUCT_MEM)) then
        cut_block (extent l1) (u16 (extent l1 + SIZEOF_STRUCT_MEM + size)) (extent l1 + n) 1
      else blk_set (ptr_to_mem (extent l1)) (set_used 1)) s Q.
Proof.
  intros Ht Hs Hs4 Hn HQ. pose proof Ht as (q & H1 & H2 & ? & ? & ? & ? & ?)%tiles_block. pose proof H2 as (Hh & _ & _ & H2').
  rewrite u32_small by heap_lia. unfold taken in HQ.
  assert (size + SIZEOF_STRUCT_MEM + MIN_SIZE_ALIGNED = size + 20) as -> by heap_lia.
  assert (extent l1 + n - (extent l1 + SIZEOF_STRUCT_MEM) = n - 8) as -> by heap_lia.
  destruct (Z.leb_spec (size + 20) (n - 8)), (Z.leb_spec (size + 28) n); try lia.
  - rewrite u16_small by heap_lia. replace (extent l1 + SIZEOF_STRUCT_MEM + size) with (extent l1 + (size + 8)) by heap_lia.
    change 1 with (Z.b2z true). eapply wp_cut_block; [exact H1|exact Hh|done|exact H2'|lia|zlia|lia|done|].
    intros m' pe'. replace (n - (size + 8)) with (n - size - 8) by lia. intros Ht' Hx. apply (HQ m' pe'); [done|].
    intros a Ha. apply Hx. intros Ha'. apply Ha. destruct Ha' as [->|[->|[-> Hne]]]; (eexists; split; [|done]).
    + apply head_mid.
    + rewrite heads_app. apply elem_of_app. right. right. by left.
    + rewrite heads_app. apply elem_of_app. right. cbn [heads]. do 2 right.
      replace (0 + extent l1 + (size + 8) + (n - size - 8)) with (extent l1 + n) by lia.
      destruct l2 as [|[j v] l2]; [destruct H2'; lia|by left].
  - eapply wp_blk_set; [exact Hh|]. cbn [set_used m_next m_prev]. apply (HQ _ pe).
    + by apply (tiles_mark (lw_cells s) l1 n false true l2 0 0 pe MEM_SIZE_ALIGNED q (extent l1)).
    + intros a Ha. apply lookup_insert_ne. intros <-. apply Ha. eexists. split; [apply head_mid|done].
Qed.

Lemma wp_mem_take l1 n l2 size m s (Q : Z -> lwip -> Prop) :
  let l := l1 ++ (n, false) :: l2 in let l' := l1 ++ taken size n l2 in
  heap_ok s l -> 12 <= size -> size mod 4 = 0 -> size + 8 <= n ->
  m_next m = extent l1 + n ->
  (forall s', heap_ok s' l' -> heap_frame l l' s s' -> Q (ptr_to_mem (extent l1 + 8)) s') ->
  wp (mem_take (extent l1) size m) s Q.
Proof.
  intros l l' [[pe Ht] Hend Hholes Hlf Hval] Hs Hs4 Hn Hm HQ. unfold mem_take. rewrite Hm.
  apply wp_step, (wp_taken l1 n l2 pe); [done|done|done|done|]. fold l'. intros m1 pe1 Ht1 Hx1.
  pose proof Ht as (_ & _ & _ & Hl0 & _ & Hl2 & _)%tiles_block.
  assert (lw_cells (with_cells (fun _ => m1) s) !! ram_end = Some (Block (Blk MEM_SIZE_ALIGNED MEM_SIZE_ALIGNED 1))) as Hend1.
  { cbn. rewrite Hx1; [done|]. intros Ha%(at_head_bounds _ _ _ _ Ht1). lia. }
  destruct (taken_head size n l2) as (k & r & Ek & Hk).
  pose proof Ht1 as Ht1'. unfold l' in Ht1'. rewrite Ek in Ht1'. apply tiles_block in Ht1' as (p & H1 & H2 & _). pose proof H2 as (Hh & _).
  (* the lowest free block *)
  apply wp_step, wp_get_lfree. cbn [lw_lfree with_cells]. rewrite Hlf. apply wp_step.
  apply (wp_mono _ _ (fun _ t => t = with_lfree (ptr_to_mem (first_free 0 l')) (with_cells (fun _ => m1) s))).
  { destruct (first_free_mid _ _ _ _ _ _ Ht) as [Hu|[Hu Hff]]; unfold l, l'.
    - rewrite !first_free_used by done. rewrite Z.add_0_l. cbn [first_free]. rewrite Z.eqb_refl.
      apply wp_step, (wp_next_free (taken size n l2) HEAP_FUEL p _ pe1); [|done| |].
      + cbn. by rewrite Ek.
      + pose proof (tiles_fuel _ _ _ Ht1) as Hf. unfold l' in Hf. rewrite length_app in Hf. lia.
      + by apply wp_lw_mod.
    - rewrite !first_free_some by done. destruct (Z.eqb_spec (ptr_to_mem (extent l1)) (ptr_to_mem (first_free 0 l1))); [heap_lia|].
      apply wp_ret. unfold l in Hlf. rewrite first_free_some in Hlf by done. rewrite <- Hlf. by destruct s. }
  intros _ t ->. apply wp_step. eapply wp_blk_at; [exact Hh|]. cbn [m_next]. apply wp_step, wp_lifetime, wp_ret.
  assert (ptr_to_mem (extent l1) + SIZEOF_STRUCT_MEM = ptr_to_mem (extent l1 + 8)) as -> by heap_lia.
  set (A := fun x => ptr_to_mem (extent l1 + 8) <= x < ptr_to_mem (extent l1 + k)).
  assert (except (fun a => at_head l' a \/ A a) (lw_cells s) (filter (fun p => ~ A (fst p)) m1)) as Hx.
  { intros a Ha. etrans; [apply filter_other; unfold A in Ha; tauto|]. apply Hx1. tauto. }
  assert (forall a, A a -> ptr_to_mem (extent l1) <= a < ptr_to_mem (extent l1 + n)) as HA.
  { intros a Ha. unfold A, ptr_to_mem in *. lia. }
  apply HQ.
  - split; cbn [lw_cells with_cells lw_lfree with_lfree lw_valid with_valid].
    + exists pe1. unfold l'. rewrite Ek. apply tiles_lifetime; [heap_lia|lia|]. by rewrite <- Ek.
    + change (filter (fun p => ~ A (fst p)) m1 !! ram_end = Some (Block (Blk MEM_SIZE_ALIGNED MEM_SIZE_ALIGNED 1))).
      rewrite Hx; [done|]. intros [Ha%(at_head_bounds _ _ _ _ Ht1)|Ha%HA]; heap_lia.
    + by apply no_holes_taken.
    + done.
    + intros a Ha. destruct (decide (A a)) as [HAa|HAa]; [by apply between_true|]. rewrite between_false by done. apply Hval.
      unfold l', l in *. apply payload_app in Ha as [Ha|Ha]; apply payload_app; [by left|right].
      unfold taken in Ha, Ek. destruct (size + 28 <=? n); injection Ek as <- <-; cbn [payload] in *.
      * destruct Ha as [[_ ?]|[[? _]|Ha]]; [by rewrite Z.add_0_l in *|done|right].
        by replace (0 + extent l1 + (size + 8) + (n - size - 8)) with (0 + extent l1 + n) in Ha by lia.
      * destruct Ha as [[_ ?]|Ha]; [by rewrite Z.add_0_l in *|by right].
  - eapply heap_frame_intro; [exact Hx|..]; try done.
    + intros a Ha. cbn. rewrite between_false; [done|]. unfold A in Ha. tauto.
    + intros a [Ha|Ha].
      * pose proof (at_head_bounds _ _ _ _ Ht1 Ha). split; [lia|]. intros [_ Hpa].
        destruct Ha as (o & Ho & ->). apply (payload_head _ _ _ _ _ _ _ _ Ht1 Hpa Ho). lia.
      * apply HA in Ha. split; [heap_lia|]. intros [Hpa _]. by apply (payload_free _ _ _ _ _ _ _ _ Ht Hpa).
Qed.

Lemma align_alt x : 0 <= x < 2 ^ 32 - 4 -> LWIP_MEM_ALIGN x = (x + 3) / 4 * 4.
Proof.
  intros Hx. unfold LWIP_MEM_ALIGN. rewrite u32_small by lia. replace (x + 4 - 1) with (x + 3) by lia.
  change 4 with (2 ^ 2). rewrite <- Z.shiftr_div_pow2, <- Z.shiftl_mul_pow2 by lia.
  apply Z.bits_inj'. intros i Hi. rewrite Z.land_spec, Z.shiftl_spec by lia.
  destruct (Z.lt_ge_cases i 2) as [H2|H2].
  - rewrite (Z.testbit_neg_r _ (i - 2)) by lia. assert (i = 0 \/ i = 1) as [->| ->] by lia; apply andb_false_r.
  - rewrite Z.shiftr_spec by lia. replace (i - 2 + 2) with i by lia. destruct (Z.lt_ge_cases i 32) as [H3|H3].
    + rewrite not32_testbit by lia. rewrite (testbit_above 2 3) by lia. apply andb_true_r.
    + by rewrite (testbit_above 32 (x + 3)) by lia.
Qed.

(** The rounding of mem_malloc and mem_trim: a request that does not fit [mem_size_t]
    when it is rounded is too large anyway. *)
Lemma rounded n (size0 := u16 (LWIP_MEM_ALIGN n)) (size := if size0 <? MIN_SIZE_ALIGNED then MIN_SIZE_ALIGNED else size0) :
  0 <= n < 65536 ->
  size = block_size n /\ n <= size /\ size <= 65532 \/ (MEM_SIZE_ALIGNED <? size) || (size <? n) = true /\ 4096 < block_size n.
Proof.
  intros Hn. unfold size, size0, block_size. rewrite align_alt by lia. change MIN_SIZE_ALIGNED with 12. change MEM_SIZE_ALIGNED with 4096.
  destruct (Z.lt_ge_cases n 65533).
  - left. rewrite u16_small by zlia. destruct (Z.ltb_spec ((n + 3) / 4 * 4) 12); zlia.
  - right. assert ((n + 3) / 4 * 4 = 65536) as -> by zlia. change (u16 65536) with 0. cbn.
    destruct (Z.ltb_spec 12 n); [done|lia].
Qed.

Lemma block_size_spec n : 12 <= block_size n /\ block_size n mod 4 = 0.
Proof. unfold block_size. zlia. Qed.

Lemma take_first_none size ptr l : Forall (fun b => 0 <= fst b) l -> extent l < size + 8 -> take_first size ptr l = None.
Proof.
  intros H. revert ptr. induction H as [|[n u] l Hn Hl IH]; intros ptr Ht; [done|]. cbn [take_first extent fst] in *.
  assert (0 <= extent l) as Hl0.
  { clear -Hl. induction Hl as [|[? ?] ? ? ? IH]; cbn in *; lia. }
  destruct (Z.leb_spec (size + 8) n); [lia|]. rewrite andb_false_r, IH by lia. done.
Qed.

Lemma tiles_sizes m l prev ptr pe qe : tiles m prev ptr l pe qe -> Forall (fun b => 0 <= fst b) l.
Proof.
  revert prev ptr. induction l as [|[n u] l IH]; intros prev ptr; cbn [tiles]; [constructor|].
  intros (_ & ? & _ & H%IH). constructor; [cbn; lia|done].
Qed.

Lemma take_first_short size l : forall ptr, take_first size ptr l = None -> Forall (fun b => snd b = true \/ fst b < size + 8) l.
Proof.
  induction l as [|[n u] l IH]; intros ptr E; [constructor|]. cbn [take_first] in E. destruct (negb u && (size + 8 <=? n)) eqn:Ef; [done|].
  constructor; [|destruct (take_first size (ptr + n) l) eqn:Et; [done|by apply (IH (ptr + n))]]. cbn. destruct u; [by left|right]. cbn in Ef. apply Z.leb_gt in Ef. lia.
Qed.

Lemma take_first_skip size ptr l1 l2 : Forall in_use l1 ->
  take_first size ptr (l1 ++ l2) = prod_map id (app l1) <$> take_first size (ptr + extent l1) l2.
Proof.
  intros H. revert ptr. induction H as [|[n u] l1 Hu _ IH]; intros ptr; cbn [take_first extent app].
  - rewrite Z.add_0_r. by destruct (take_first size ptr l2) as [[]|].
  - unfold in_use in Hu. cbn in Hu. subst u. cbn [negb andb]. rewrite IH, Z.add_assoc.
    by destruct (take_first size (ptr + n + extent l1) l2) as [[]|].
Qed.

Lemma wp_mem_search size l2 : forall l1 fuel s (Q : Z -> lwip -> Prop),
  heap_ok s (l1 ++ l2) -> (length l2 < fuel)%nat -> 12 <= size <= 4096 -> size mod 4 = 0 ->
  (take_first size (extent l1) l2 = None -> Q 0 s) ->
  (forall o l2' s', take_first size (extent l1) l2 = Some (o, l2') -> heap_ok s' (l1 ++ l2') -> heap_frame (l1 ++ l2) (l1 ++ l2') s s' ->
     Q (ptr_to_mem (o + 8)) s') ->
  wp (mem_search fuel (extent l1) size) s Q.
Proof.
  induction l2 as [|[n u] l2 IH]; intros l1 fuel s Q Hok Hf Hs Hs4 H0 H1; (destruct fuel as [|fuel]; [cbn in Hf; lia|]); cbn [mem_search].
  - pose proof Hok as [[pe Ht] _ _ _ _]. apply tiles_end in Ht. rewrite app_nil_r in Ht.
    rewrite u32_small by heap_lia. destruct (Z.ltb_spec (extent l1) (MEM_SIZE_ALIGNED - size)); [heap_lia|]. by apply wp_ret, H0.
  - pose proof Hok as [[pe Ht] _ _ _ _]. pose proof Ht as (p & Ht1 & Ht2 & ? & ? & ? & ? & ?)%tiles_block.
    rewrite u32_small by heap_lia. destruct (Z.ltb_spec (extent l1) (MEM_SIZE_ALIGNED - size)).
    + pose proof Ht2 as (Hh & _). apply wp_step, (wp_blk_at _ _ _ _ Hh). cbn [m_used m_next take_first] in *.
      rewrite u32_small by heap_lia.
      replace (size <=? extent l1 + n - (extent l1 + SIZEOF_STRUCT_MEM)) with (size + 8 <=? n)
        by (destruct (Z.leb_spec (size + 8) n), (Z.leb_spec size (extent l1 + n - (extent l1 + SIZEOF_STRUCT_MEM))); (done || heap_lia)).
      destruct u; cbn [Z.b2z Z.eqb negb andb] in *; [|destruct (Z.leb_spec (size + 8) n)].
      * replace (extent l1 + n) with (extent (l1 ++ [(n, true)])) in * by (rewrite extent_app; cbn; lia).
        change ((n, true) :: l2) with ([(n, true)] ++ l2) in Hok. rewrite app_assoc in Hok.
        apply IH; [done|cbn in Hf; lia|done|done|..].
        -- intros E. apply H0. by rewrite E.
        -- intros o l2' s' E Hok'. rewrite <- !app_assoc in *. intros Hfr. apply (H1 o ((n, true) :: l2')); [by rewrite E|done|done].
      * apply (wp_mem_take l1 n l2); try (done || lia). intros s' Hok' Hfr. by apply (H1 _ _ _ eq_refl).
      * replace (extent l1 + n) with (extent (l1 ++ [(n, false)])) in * by (rewrite extent_app; cbn; lia).
        change ((n, false) :: l2) with ([(n, false)] ++ l2) in Hok. rewrite app_assoc in Hok.
        apply IH; [done|cbn in Hf; lia|done|done|..].
        -- intros E. apply H0. by rewrite E.
        -- intros o l2' s' E Hok'. rewrite <- !app_assoc in *. intros Hfr. apply (H1 o ((n, false) :: l2')); [by rewrite E|done|done].
    + apply wp_ret, H0. apply take_first_none; [by eapply tiles_sizes|]. apply tiles_end in Ht2. heap_lia.
Qed.

Lemma used_prefix l : exists l1 l2, l = l1 ++ l2 /\ Forall in_use l1 /\ forall ptr, first_free ptr l = ptr + extent l1.
Proof.
  induction l as [|[n u] l (l1 & l2 & -> & Hl & IH)].
  - exists [], []. split; [done|]. split; [constructor|]. intros ptr. cbn. lia.
  - destruct u.
    + exists ((n, true) :: l1), l2. split; [done|]. split; [by constructor|]. intros ptr. cbn [first_free extent]. rewrite IH. lia.
    + exists [], ((n, false) :: l1 ++ l2). split; [done|]. split; [constructor|]. intros ptr. cbn. lia.
Qed.

Lemma wp_mem_malloc l n s (Q : Z -> lwip -> Prop) :
  heap_ok s l -> 0 < n < 65536 ->
  (take_first (block_size n) 0 l = None -> Q 0 s) ->
  (forall o l' s', take_first (block_size n) 0 l = Some (o, l') -> heap_ok s' l' -> heap_frame l l' s s' ->
     Q (ptr_to_mem (o + 8)) s') ->
  wp (mem_malloc n) s Q.
Proof.
  intros Hok Hn H0 H1. unfold mem_malloc. destruct (Z.eqb_spec n 0); [lia|]. pose proof (block_size_spec n) as [Hb Hb4].
  pose proof Hok as [[pe Ht] _ _ Hlf _]. pose proof (tiles_end _ _ _ _ _ _ Ht) as He.
  assert (4096 < block_size n -> Q 0 s) as Hbig.
  { intros Hbig. apply H0, take_first_none; [by eapply tiles_sizes|heap_lia]. }
  destruct (rounded n ltac:(lia)) as [(E & Hle & _)|[E Hbig']].
  - rewrite E. destruct (Z.ltb_spec MEM_SIZE_ALIGNED (block_size n)); [apply wp_ret, Hbig; heap_lia|].
    destruct (Z.ltb_spec (block_size n) n); [lia|]. cbn [orb]. apply wp_step, wp_get_lfree. rewrite Hlf.
    destruct (used_prefix l) as (l1 & l2 & -> & Hu & Hff). rewrite Hff, Z.add_0_l.
    pose proof (tiles_fuel _ _ _ Ht) as Hfuel. rewrite length_app in Hfuel.
    apply tiles_app in Ht as (p & q & Ht1 & Ht2). pose proof (tiles_end _ _ _ _ _ _ Ht1). pose proof (tiles_total _ _ _ _ _ _ Ht1).
    pose proof (tiles_end _ _ _ _ _ _ Ht2). pose proof (tiles_total _ _ _ _ _ _ Ht2).
    rewrite mem_to_ptr_at by heap_lia. rewrite take_first_skip, Z.add_0_l in H0, H1 by done.
    apply (wp_mem_search _ l2); [done|lia|heap_lia|done|..].
    + intros E'. apply H0. by rewrite E'.
    + intros o l2' s' E' Hok' Hfr. apply (H1 o (l1 ++ l2')); [by rewrite E'|done|done].
  - rewrite E. by apply wp_ret, Hbig.
Qed.

(** A block of size [n] before [l2] that is cut down to [size] bytes. *)
Definition trimmed (size n : Z) (l2 : blocks) : blocks :=
  if size + 8 =? n then (n, true) :: l2
  else
    match l2 with
    | (j, false) :: l2' => (size + 8, true) :: (j + (n - size - 8), false) :: l2'
    | _ => if size + 28 <=? n then (size + 8, true) :: (n - size - 8, false) :: l2 else (n, true) :: l2
    end.

(** The part that is cut off is given back: the state with the heap [l1 ++ (size+8,true) :: (j,false) :: r]
    that the three steps of mem_trim reach. *)
Lemma wp_trim_cut l1 n l2 size j r nx pr pe s (Q : Z -> lwip -> Prop) :
  let l := l1 ++ (n, true) :: l2 in let l' := l1 ++ (size + 8, true) :: (j, false) :: r in
  heap_ok s l -> no_holes l' -> 12 <= size -> size mod 4 = 0 -> size + 8 < n -> 20 <= j -> j mod 4 = 0 -> nx = extent l1 + (size + 8 + j) ->
  tiles (lw_cells s) pr nx r pe MEM_SIZE_ALIGNED ->
  (forall a, payload nx r a -> payload (extent l1 + n) l2 a) ->
  (nx <> MEM_SIZE_ALIGNED -> nx ∈ heads 0 l) ->
  (forall s', heap_ok s' l' -> heap_frame l l' s s' -> Q (ptr_to_mem (extent l1 + 8)) s') ->
  wp (lifetime (ptr_to_mem (extent l1 + (size + 8))) (ptr_to_mem (extent l1 + n)) false ;;
      cut_block (extent l1) (extent l1 + (size + 8)) nx 1 ;;
      ret (ptr_to_mem (extent l1 + 8))) (with_lfree (ptr_to_mem (first_free 0 l')) s) Q.
Proof.
  intros l l' [[pe0 Ht] Hend Hholes Hlf Hval] Hholes' Hs Hs4 Hn Hj Hj4 -> Hr Hpay Hhead HQ.
  pose proof Ht as (p & H1 & H2 & ? & ? & ? & ? & ?)%tiles_block. pose proof (tiles_end _ _ _ _ _ _ Hr). pose proof (tiles_total _ _ _ _ _ _ Hr).
  apply wp_step, wp_lifetime.
  pose proof (tiles_lifetime _ l1 n true l2 pe0 (ptr_to_mem (extent l1 + (size + 8))) (ptr_to_mem (extent l1 + n)) ltac:(heap_lia) ltac:(lia) Ht) as Ht1.
  set (A := fun x => ptr_to_mem (extent l1 + (size + 8)) <= x < ptr_to_mem (extent l1 + n)) in *.
  set (m1 := filter _ (lw_cells s)) in Ht1. pose proof Ht1 as (p' & H1' & H2' & _)%tiles_block. pose proof H2' as (Hh' & _).
  assert (forall x, ~ A x -> m1 !! x = lw_cells s !! x) as Hm1 by (intros x Hx; by apply filter_other).
  apply wp_step.
  change 1 with (Z.b2z true). eapply (wp_cut_block l1 p' (size + 8) (size + 8 + j)); [exact H1'|exact Hh'|done| |lia|zlia|lia|zlia|].
  { apply (tiles_agree (lw_cells s)); [|exact Hr]. intros o Ho. apply Hm1. unfold A. intros HA.
    pose proof (heads_range _ _ _ _ _ _ _ Hr Ho).
    destruct (decide (extent l1 + (size + 8 + j) = MEM_SIZE_ALIGNED)); [heap_lia|].
    pose proof (head_outside _ _ _ _ _ _ _ Ht (Hhead ltac:(done))). heap_lia. }
  intros m' pe' Ht'. replace (size + 8 + j - (size + 8)) with j in Ht' by lia. intros Hx. apply wp_ret.
  assert (except (fun a => at_head l a \/ A a) (lw_cells s) m') as Hx2.
  { intros a Ha. rewrite Hx.
    - cbn. apply Hm1. tauto.
    - intros [->|[->|[-> Hne]]]; apply Ha; [left|right; unfold A, ptr_to_mem; lia|left].
      + eexists. split; [apply head_mid|done].
      + eexists. split; [by apply Hhead|done]. }
  assert (forall a, payload 0 l' a -> payload 0 l a /\ ~ A a) as Hp.
  { intros a Ha. unfold l', l in *. rewrite !payload_app in *. cbn [payload] in *. rewrite Z.add_0_l in *.
    destruct Ha as [Ha|[[_ Ha]|[[? _]|Ha]]]; [|split; [right; left; split; [done|]|]; unfold A, ptr_to_mem in *; lia|done|].
    - split; [by left|]. pose proof (payload_range _ _ _ _ _ _ _ H1 Ha). unfold A, ptr_to_mem in *. lia.
    - replace (extent l1 + (size + 8) + j) with (extent l1 + (size + 8 + j)) in Ha by lia. apply Hpay in Ha.
      split; [by right; right|]. destruct H2 as (_ & _ & _ & H2). pose proof (payload_range _ _ _ _ _ _ _ H2 Ha). unfold A, ptr_to_mem in *. lia. }
  apply HQ.
  - split; cbn [lw_cells with_cells lw_lfree with_lfree lw_valid with_valid]; try done.
    + by exists pe'.
    + rewrite Hx2; [done|]. intros [Ha%(at_head_bounds _ _ _ _ Ht)|Ha]; [lia|unfold A in Ha; heap_lia].
    + intros a Ha. destruct (Hp a Ha) as [? HA]. rewrite between_false by done. by apply Hval.
  - eapply heap_frame_intro; [exact Hx2|..]; try done.
    + intros a Ha. cbn. rewrite between_false; [done|]. unfold A in Ha. tauto.
    + intros a [Ha|Ha].
      * pose proof (at_head_bounds _ _ _ _ Ht Ha). split; [lia|]. intros [Hpa _].
        destruct Ha as (o & Ho & ->). apply (payload_head _ _ _ _ _ _ _ _ Ht Hpa Ho). lia.
      * split; [unfold A in Ha; heap_lia|]. intros [_ Hpa]. by destruct (Hp a Hpa).
Qed.

Lemma wp_trim_lfree l1 n l2 size j r pe s (Q : unit -> lwip -> Prop) (c : bool) :
  let l := l1 ++ (n, true) :: l2 in let l' := l1 ++ (size + 8, true) :: (j, false) :: r in
  tiles (lw_cells s) 0 0 l pe MEM_SIZE_ALIGNED -> lw_lfree s = ptr_to_mem (first_free 0 l) -> 12 <= size -> size + 8 < n ->
  (Forall in_use l1 -> c = true) -> (~ Forall in_use l1 -> c = false) ->
  Q tt (with_lfree (ptr_to_mem (first_free 0 l')) s) ->
  wp (if c then set_lfree (ptr_to_mem (extent l1 + (size + 8))) else ret tt) s Q.
Proof.
  intros l l' Ht Hlf Hs Hn Hc1 Hc2 HQ. unfold l, l' in *. destruct (decide (Forall in_use l1)) as [Hu|Hu].
  - rewrite Hc1 by done. rewrite first_free_used in HQ by done. cbn [first_free] in HQ. rewrite Z.add_0_l in HQ. by apply wp_lw_mod.
  - rewrite Hc2 by done. rewrite first_free_some in * by done. apply wp_ret. rewrite <- Hlf in HQ. by destruct s.
Qed.

(** The block behind it is in use, or the end of the heap. *)
Lemma wp_trim_used l1 n l2 size pe s (Q : Z -> lwip -> Prop) :
  let l := l1 ++ (n, true) :: l2 in
  heap_ok s l -> tiles (lw_cells s) 0 0 l pe MEM_SIZE_ALIGNED -> 12 <= size -> size mod 4 = 0 -> size + 8 < n ->
  (match l2 with (_, false) :: _ => False | _ => True end) ->
  (forall s', heap_ok s' (l1 ++ if size + 28 <=? n then (size + 8, true) :: (n - size - 8, false) :: l2 else (n, true) :: l2) ->
     heap_frame l (l1 ++ if size + 28 <=? n then (size + 8, true) :: (n - size - 8, false) :: l2 else (n, true) :: l2) s s' ->
     Q (ptr_to_mem (extent l1 + 8)) s') ->
  wp (if size + SIZEOF_STRUCT_MEM + MIN_SIZE_ALIGNED <=? n - 8 then
        lower_lfree (ptr_to_mem (extent l1 + (size + 8))) ;;
        lifetime (ptr_to_mem (extent l1 + (size + 8))) (ptr_to_mem (extent l1 + n)) false ;;
        cut_block (extent l1) (extent l1 + (size + 8)) (extent l1 + n) 1 ;;
        ret (ptr_to_mem (extent l1 + 8))
      else ret (ptr_to_mem (extent l1 + 8))) s Q.
Proof.
  intros l Hok Ht Hs Hs4 Hn Hl2 HQ. pose proof Hok as [_ _ Hholes Hlf _].
  pose proof Ht as (p & Ht1 & (_ & _ & _ & Ht2) & ? & ? & ? & ? & ?)%tiles_block.
  assert (size + SIZEOF_STRUCT_MEM + MIN_SIZE_ALIGNED = size + 20) as -> by heap_lia.
  destruct (Z.leb_spec (size + 20) (n - 8)), (Z.leb_spec (size + 28) n); try lia; [|apply wp_ret, HQ; [done|by split]].
  pose proof (first_free_mid _ _ _ _ _ _ Ht) as Hff.
  apply wp_step, wp_step, wp_get_lfree.
  apply (wp_trim_lfree l1 n l2 size (n - size - 8) l2 pe); [done|done|lia|lia|..].
  - intros Hu. apply Z.ltb_lt. rewrite Hlf. unfold l. rewrite first_free_used by done. cbn [first_free]. rewrite Z.add_0_l.
    assert (extent l1 + n <= first_free (extent l1 + n) l2); [|heap_lia].
    destruct (decide (Forall in_use l2)) as [Hu2|Hu2].
    + pose proof (tiles_total _ _ _ _ _ _ Ht2). rewrite <- (app_nil_r l2), first_free_used by done. cbn [first_free]. lia.
    + pose proof (first_free_before _ _ _ _ _ _ Ht2 Hu2). lia.
  - intros Hu. apply Z.ltb_ge. rewrite Hlf. unfold l. rewrite first_free_some by done. destruct Hff as [?|[_ ?]]; [done|heap_lia].
  - apply (wp_trim_cut l1 n l2 size (n - size - 8) l2 (extent l1 + n) (extent l1) pe); try done; try lia; try zlia.
    + apply no_holes_used in Hholes as [? ?]. apply no_holes_used. split; [done|]. by split.
    + intros He. unfold l. rewrite heads_app. apply elem_of_app. right. cbn [heads]. right. rewrite Z.add_0_l.
      destruct l2 as [|[j v] l2]; [destruct Ht2; lia|by left].
Qed.

(** The block behind it is free, and grows. *)
Lemma wp_trim_free l1 n j l2 size pe s (Q : Z -> lwip -> Prop) :
  let l := l1 ++ (n, true) :: (j, false) :: l2 in let l' := l1 ++ (size + 8, true) :: (j + (n - size - 8), false) :: l2 in
  heap_ok s l -> tiles (lw_cells s) 0 0 l pe MEM_SIZE_ALIGNED -> 12 <= size -> size mod 4 = 0 -> size + 8 < n ->
  (forall s', heap_ok s' l' -> heap_frame l l' s s' -> Q (ptr_to_mem (extent l1 + 8)) s') ->
  wp (lf <- get_lfree ;;
      (if lf =? ptr_to_mem (extent l1 + n) then set_lfree (ptr_to_mem (extent l1 + (size + 8))) else ret tt) ;;
      lifetime (ptr_to_mem (extent l1 + (size + 8))) (ptr_to_mem (extent l1 + n)) false ;;
      cut_block (extent l1) (extent l1 + (size + 8)) (extent l1 + n + j) 1 ;;
      ret (ptr_to_mem (extent l1 + 8))) s Q.
Proof.
  intros l l' Hok Ht Hs Hs4 Hn HQ. pose proof Hok as [_ _ Hholes Hlf _].
  pose proof Ht as (p & Ht1 & (_ & _ & _ & Ht2) & ? & ? & ? & ? & ?)%tiles_block. destruct Ht2 as (_ & Hj & Hj4 & Ht2).
  pose proof (first_free_mid _ _ _ _ _ _ Ht) as Hff.
  apply wp_step, wp_get_lfree, wp_step.
  apply (wp_trim_lfree l1 n ((j, false) :: l2) size (j + (n - size - 8)) l2 pe); [done|done|lia|lia|..].
  - intros Hu. rewrite Hlf. unfold l. rewrite first_free_used by done. cbn [first_free]. rewrite Z.add_0_l. apply Z.eqb_refl.
  - intros Hu. apply Z.eqb_neq. rewrite Hlf. unfold l. rewrite first_free_some by done. destruct Hff as [?|[_ ?]]; [done|heap_lia].
  - apply (wp_trim_cut l1 n ((j, false) :: l2) size (j + (n - size - 8)) l2 (extent l1 + n + j) (extent l1 + n) pe); try done; try lia; try zlia.
    + apply no_holes_used in Hholes as [? [? Hf]]. apply no_holes_used. split; [done|]. by split.
    + intros a Ha. by right.
    + intros He. unfold l. rewrite heads_app. apply elem_of_app. right. cbn [heads]. do 2 right. rewrite Z.add_0_l.
      destruct l2 as [|[i v] l2]; [destruct Ht2; lia|by left].
Qed.

Lemma wp_mem_trim l1 n l2 k s (Q : Z -> lwip -> Prop) :
  let l := l1 ++ (n, true) :: l2 in let l' := l1 ++ trimmed (block_size k) n l2 in
  heap_ok s l -> 0 <= k < 65536 ->
  (n - 8 < block_size k -> Q 0 s) ->
  (forall s', block_size k <= n - 8 -> heap_ok s' l' -> heap_frame l l' s s' -> Q (ptr_to_mem (extent l1 + 8)) s') ->
  0 < ram -> wp (mem_trim (ptr_to_mem (extent l1 + 8)) k) s Q.
Proof.
  intros l l' Hok Hk H0 H1 Hram. pose proof Hok as [[pe Ht] Hend _ _ _]. unfold l in Ht.
  pose proof Ht as (p & Ht1 & Ht2 & ? & ? & ? & ? & ?)%tiles_block. pose proof (block_size_spec k) as [Hb Hb4].
  unfold mem_trim. destruct (rounded k ltac:(lia)) as [(E & Hle & Hmax)|[E Hbig]]; rewrite E; [|apply wp_ret, H0; lia].
  set (size := block_size k) in *. destruct (Z.ltb_spec MEM_SIZE_ALIGNED size); [apply wp_ret, H0; heap_lia|].
  destruct (Z.ltb_spec size k); [lia|]. cbn [orb].
  destruct (Z.ltb_spec (ptr_to_mem (extent l1 + 8)) ram); [heap_lia|]. destruct (Z.leb_spec ram_end (ptr_to_mem (extent l1 + 8))); [heap_lia|]. cbn [orb].
  assert (ptr_to_mem (extent l1 + 8) - SIZEOF_STRUCT_MEM = ptr_to_mem (extent l1)) as -> by heap_lia.
  pose proof Ht2 as (Hh & _ & _ & Ht2'). apply wp_step, (wp_blk_at _ _ _ _ Hh). cbn [m_next m_used Z.b2z].
  rewrite mem_to_ptr_at by heap_lia. replace (extent l1 + n - extent l1) with n by lia. rewrite (u16_small n) by lia.
  assert (u16 (n - SIZEOF_STRUCT_MEM) = n - 8) as -> by (rewrite u16_small; heap_lia).
  assert (u16 (extent l1 + SIZEOF_STRUCT_MEM + size) = extent l1 + (size + 8)) as -> by (rewrite u16_small; heap_lia).
  destruct (Z.ltb_spec (n - 8) size); [by apply wp_ret, H0|].
  assert (heap_frame l l s s) as Hrefl by by split.
  unfold l', trimmed in H1.
  destruct (Z.eqb_spec size (n - 8)) as [En|Hne], (Z.eqb_spec (size + 8) n); try lia; [by apply wp_ret, H1|].
  destruct l2 as [|[j []] l2].
  - pose proof Ht2' as [_ Ee]. rewrite <- Ee at 1. apply wp_step, (wp_blk_at _ _ _ _ Hend). cbn [m_used]. change (1 =? 0) with false.
    apply (wp_trim_used l1 n [] size pe); try (done || lia). intros s'. by apply H1.
  - pose proof Ht2' as (Hh2 & _). apply wp_step, (wp_blk_at _ _ _ _ Hh2). cbn [m_used Z.b2z]. change (1 =? 0) with false.
    apply (wp_trim_used l1 n ((j, true) :: l2) size pe); try (done || lia). intros s'. by apply H1.
  - pose proof Ht2' as (Hh2 & _). apply wp_step, (wp_blk_at _ _ _ _ Hh2). cbn [m_used m_next Z.b2z]. change (0 =? 0) with true.
    apply (wp_trim_free l1 n j l2 size pe); try (done || lia). intros s'. by apply H1.
Qed.

(** * Programs that use the heap *)

(** The blocks in use, as pointer and size of what the user gets. *)
Fixpoint regions (ptr : Z) (l : blocks) : list (Z * Z) :=
  match l with
  | [] => []
  | (n, u) :: l' => if u : bool then (ptr_to_mem (ptr + 8), n - 8) :: regions (ptr + n) l' else regions (ptr + n) l'
  end.

Lemma regions_app ptr l1 l2 : regions ptr (l1 ++ l2) = regions ptr l1 ++ regions (ptr + extent l1) l2.
Proof.
  revert ptr. induction l1 as [|[n u] l1 IH]; intros ptr; cbn [regions extent app]; [by rewrite Z.add_0_r|].
  rewrite IH, Z.add_assoc. by destruct u.
Qed.

Lemma regions_coalesce ptr l : regions ptr (coalesce l) = regions ptr l.
Proof.
  revert ptr. induction l as [|[n u] l IH]; intros ptr; [done|]. cbn [coalesce regions].
  destruct u; [cbn [regions]; by rewrite IH|]. rewrite <- IH.
  destruct (coalesce l) as [|[k []] r]; cbn [regions]; try done. by rewrite Z.add_assoc.
Qed.

Lemma regions_in ptr l p c : (p, c) ∈ regions ptr l ->
  exists l1 l2, l = l1 ++ (c + 8, true) :: l2 /\ p = ptr_to_mem (ptr + extent l1 + 8).
Proof.
  revert ptr. induction l as [|[n u] l IH]; intros ptr; cbn [regions]; [by intros ?%elem_of_nil|].
  assert ((p, c) ∈ regions (ptr + n) l -> exists l1 l2, (n, u) :: l = l1 ++ (c + 8, true) :: l2 /\ p = ptr_to_mem (ptr + extent l1 + 8)) as Hrec.
  { intros (l1 & l2 & -> & ->)%IH. exists ((n, u) :: l1), l2. split; [done|]. cbn [extent]. f_equal. lia. }
  destruct u; [|done]. intros [[= -> ->]|?]%elem_of_cons; [|by apply Hrec].
  exists [], l. cbn [extent app]. split; [by rewrite Z.sub_add|f_equal; lia].
Qed.

(** Blocks in use are apart from each other. *)
Lemma regions_apart m l prev ptr pe qe : tiles m prev ptr l pe qe ->
  StronglySorted (fun x y => fst x + snd x < fst y) (regions ptr l) /\
  Forall (fun x => ptr_to_mem ptr + 8 <= fst x /\ fst x + snd x <= ptr_to_mem qe /\ 12 <= snd x /\ (fst x - ram - ptr) mod 4 = 0) (regions ptr l).
Proof.
  revert prev ptr. induction l as [|[n u] l IH]; intros prev ptr; cbn [tiles regions].
  - intros _. by split; constructor.
  - intros (_ & Hn & Hn4 & Ht). pose proof (tiles_end _ _ _ _ _ _ Ht). pose proof (tiles_total _ _ _ _ _ _ Ht).
    apply IH in Ht as [H1 H2].
    assert (Forall (fun x => ptr_to_mem ptr + 8 <= fst x /\ fst x + snd x <= ptr_to_mem qe /\ 12 <= snd x /\ (fst x - ram - ptr) mod 4 = 0) (regions (ptr + n) l)) as H3.
    { apply (Forall_impl _ _ _ H2). intros x (? & ? & ? & ?). unfold ptr_to_mem in *. repeat split; try lia. zlia. }
    destruct u; [|done]. split; constructor; try done.
    + apply (Forall_impl _ _ _ H2). intros x (? & _). cbn. unfold ptr_to_mem in *. lia.
    + cbn. unfold ptr_to_mem in *. repeat split; try lia. zlia.
Qed.

Lemma take_first_inv size l : forall ptr o l', take_first size ptr l = Some (o, l') ->
  exists l1 n l2, l = l1 ++ (n, false) :: l2 /\ o = ptr + extent l1 /\ size + 8 <= n /\ l' = l1 ++ taken size n l2.
Proof.
  induction l as [|[n u] l IH]; intros ptr o l'; cbn [take_first]; [done|].
  destruct (negb u && (size + 8 <=? n)) eqn:E.
  - zbool. destruct u; [done|]. intros [= <- <-]. exists [], n, l. cbn. split; [done|]. split; [lia|]. by split.
  - destruct (take_first size (ptr + n) l) as [[o2 l2']|] eqn:Et; [|done]. intros [= <- <-].
    apply IH in Et as (l1 & k & l2 & -> & -> & ? & ->). exists ((n, u) :: l1), k, l2. cbn. split; [done|]. split; [lia|]. by split.
Qed.

(** A run of a program, with the blocks it has: it allocates, frees and trims what it has, and
    stores what it likes in it. *)
Inductive heap_run : lwip -> list (Z * Z) -> Prop :=
| run_init s s' : mem_init s = Ret tt s' -> heap_run s' []
| run_malloc s live n p s' : heap_run s live -> 0 < n < 65536 -> mem_malloc n s = Ret p s' ->
    heap_run s' (if p =? 0 then live else (p, n) :: live)
| run_free s live1 p n live2 s' : heap_run s (live1 ++ (p, n) :: live2) -> mem_free p s = Ret tt s' -> heap_run s' (live1 ++ live2)
| run_trim s live1 p n live2 k q s' : heap_run s (live1 ++ (p, n) :: live2) -> 0 <= k <= n -> mem_trim p k s = Ret q s' ->
    heap_run s' (live1 ++ (p, if q =? 0 then n else k) :: live2)
| run_store s live s' : heap_run s live -> lw_valid s' = lw_valid s -> lw_lfree s' = lw_lfree s ->
    (forall a, (forall p n, (p, n) ∈ live -> ~ (p <= a < p + n)) -> lw_cells s' !! a = lw_cells s !! a) -> heap_run s' live.

(** The blocks a program has are those of the heap, with at least the size it asked for. *)
Definition owns (live : list (Z * Z)) (l : blocks) : Prop :=
  exists rs, Permutation (regions 0 l) rs /\ Forall2 (fun x r => fst x = fst r /\ 0 <= snd x <= snd r) live rs.

Lemma owns_split live1 p n live2 l : owns (live1 ++ (p, n) :: live2) l ->
  exists l1 c l2, l = l1 ++ (c + 8, true) :: l2 /\ p = ptr_to_mem (extent l1 + 8) /\ 0 <= n <= c /\
    (forall l', Permutation (regions 0 l') (regions 0 l1 ++ regions (extent l1 + (c + 8)) l2) -> owns (live1 ++ live2) l') /\
    (forall l' n' c', 0 <= n' <= c' -> Permutation (regions 0 l') ((p, c') :: regions 0 l1 ++ regions (extent l1 + (c + 8)) l2) ->
       owns (live1 ++ (p, n') :: live2) l').
Proof.
  intros (rs & Hp & Hf). apply Forall2_app_inv_l in Hf as (rs1 & rs2 & H1 & H2 & ->). destruct rs2 as [|[q c] rs2]; [by inversion H2|].
  apply Forall2_cons in H2 as [[E Hn] H2]. cbn in E, Hn. subst q.
  assert ((p, c) ∈ regions 0 l) as Hin by (rewrite Hp; apply elem_of_app; right; by left).
  apply regions_in in Hin as (l1 & l2 & -> & ->). rewrite Z.add_0_l in *. exists l1, c, l2.
  rewrite regions_app, Z.add_0_l in Hp. cbn [regions] in Hp. rewrite Z.add_simpl_r in Hp. rewrite <- !Permutation_middle in Hp.
  apply Permutation_cons_inv in Hp.
  do 3 (split; [done|]). split.
  - intros l' Hl'. exists (rs1 ++ rs2). split; [by rewrite Hl'|]. by apply Forall2_app.
  - intros l' n' c' Hn' Hl'. exists (rs1 ++ (ptr_to_mem (extent l1 + 8), c') :: rs2). split.
    + by rewrite Hl', Hp, Permutation_middle.
    + apply Forall2_app; [done|]. by constructor.
Qed.

Lemma owns_payload live l p n a : owns live l -> (p, n) ∈ live -> p <= a < p + n -> payload 0 l a.
Proof.
  intros Ho (live1 & live2 & ->)%list_elem_of_split Ha. apply owns_split in Ho as (l1 & c & l2 & -> & -> & Hn & _).
  apply payload_app. right. left. split; [done|]. rewrite Z.add_0_l. unfold ptr_to_mem in *. lia.
Qed.

Lemma heap_ok_store s s' l live : heap_ok s l -> owns live l -> lw_valid s' = lw_valid s -> lw_lfree s' = lw_lfree s ->
  (forall a, (forall p n, (p, n) ∈ live -> ~ (p <= a < p + n)) -> lw_cells s' !! a = lw_cells s !! a) -> heap_ok s' l.
Proof.
  intros [[pe Ht] Hend Hh Hlf Hval] Ho Hv Hl Hc.
  assert (forall a, ~ payload 0 l a -> lw_cells s' !! a = lw_cells s !! a) as Hc'.
  { intros a Ha. apply Hc. intros p n Hi Hr. by apply Ha, (owns_payload live l p n). }
  split; rewrite ?Hv, ?Hl; try done.
  - exists pe. apply (tiles_agree (lw_cells s)); [|done]. intros o Ho'. apply Hc'. intros Hp. apply (payload_head _ _ _ _ _ _ _ _ Ht Hp Ho'). lia.
  - rewrite Hc'; [done|]. intros Hp. apply (payload_range _ _ _ _ _ _ _ Ht) in Hp. heap_lia.
Qed.

Lemma wp_mem_init s (Q : unit -> lwip -> Prop) : (forall s', heap_ok s' [(4096, false)] -> lw_valid s' = lw_valid s -> Q tt s') -> wp mem_init s Q.
Proof.
  intros HQ. unfold mem_init. apply wp_step, wp_put_cell, wp_step, wp_put_cell, wp_lw_mod, HQ; [|done]. cbn.
  assert (ram_end <> ram) by heap_lia. split; cbn.
  - exists 0. split; [|split; [lia|split; [done|by split]]]. rewrite lookup_insert_ne by heap_lia.
    assert (ptr_to_mem 0 = ram) as -> by heap_lia. by rewrite lookup_insert_eq.
  - by rewrite lookup_insert_eq.
  - by split.
  - heap_lia.
  - intros a [[? _]|[]]. done.
Qed.

(** An allocation adds a region. *)
Lemma take_first_regions size l o l' : take_first size 0 l = Some (o, l') ->
  exists c, size <= c /\ Permutation (regions 0 l') ((ptr_to_mem (o + 8), c) :: regions 0 l).
Proof.
  intros (l1 & k & l2 & -> & -> & Hk & ->)%take_first_inv. rewrite Z.add_0_l.
  assert (exists c, size <= c /\ regions 0 (l1 ++ taken size k l2) = regions 0 l1 ++ (ptr_to_mem (extent l1 + 8), c) :: regions (extent l1 + k) l2) as (c & Hc & E).
  { rewrite regions_app, Z.add_0_l. unfold taken. destruct (size + 28 <=? k); cbn [regions].
    - exists size. split; [done|]. rewrite Z.add_simpl_r. by replace (extent l1 + (size + 8) + (k - size - 8)) with (extent l1 + k) by lia.
    - exists (k - 8). split; [lia|done]. }
  exists c. split; [done|]. rewrite E, <- Permutation_middle, regions_app. cbn [regions]. by rewrite Z.add_0_l.
Qed.

Lemma owns_alloc live l n o l' : owns live l -> 0 < n < 65536 -> take_first (block_size n) 0 l = Some (o, l') ->
  owns ((ptr_to_mem (o + 8), n) :: live) l'.
Proof.
  intros (rs & Hp & Hf) Hn (c & Hc & E)%take_first_regions. exists ((ptr_to_mem (o + 8), c) :: rs).
  split; [by rewrite E, Hp|]. constructor; [|done]. cbn. unfold block_size in Hc. split; [done|zlia].
Qed.

Lemma trimmed_regions ptr size n l2 : size + 8 <= n ->
  exists c, size <= c /\ regions ptr (trimmed size n l2) = (ptr_to_mem (ptr + 8), c) :: regions (ptr + n) l2.
Proof.
  intros Hs. unfold trimmed. destruct (Z.eqb_spec (size + 8) n) as [E|_].
  { exists (n - 8). split; [lia|done]. }
  assert (exists c, size <= c /\ regions ptr (if size + 28 <=? n then (size + 8, true) :: (n - size - 8, false) :: l2 else (n, true) :: l2)
    = (ptr_to_mem (ptr + 8), c) :: regions (ptr + n) l2) as Hc.
  { destruct (size + 28 <=? n); cbn [regions].
    - exists size. split; [done|]. rewrite Z.add_simpl_r. by replace (ptr + (size + 8) + (n - size - 8)) with (ptr + n) by lia.
    - exists (n - 8). split; [lia|done]. }
  destruct l2 as [|[j []] l2]; [done|done|]. cbn [regions]. exists size. split; [done|]. rewrite Z.add_simpl_r.
  by replace (ptr + (size + 8) + (j + (n - size - 8))) with (ptr + n + j) by lia.
Qed.

Lemma heap_run_inv s live : 0 < ram -> heap_run s live -> exists l, heap_ok s l /\ owns live l.
Proof.
  intros Hram Hr. induction Hr as [s s' E|s live n p s' Hr (l & Hok & Ho) Hn E|s live1 p n live2 s' Hr (l & Hok & Ho) E
                               |s live1 p n live2 k q s' Hr (l & Hok & Ho) Hk E|s live s' Hr (l & Hok & Ho) Hv Hl Hc].
  - pose proof (wp_mem_init s (fun _ t => heap_ok t [(4096, false)]) (fun t H _ => H)) as H. unfold wp in H. rewrite E in H.
    exists [(4096, false)]. split; [done|]. exists []. by split; [|constructor].
  - pose proof (wp_mem_malloc l n s (fun r t => (r = 0 /\ t = s) \/ exists l', r <> 0 /\ heap_ok t l' /\ owns ((r, n) :: live) l') Hok Hn) as H.
    unfold wp in H. rewrite E in H. destruct H as [[-> ->]|(l' & Hp & ? & ?)]; [by left| | |].
    + intros o l' t Ht Hok' _. right. exists l'. split; [|split; [done|by apply (owns_alloc _ l)]].
      apply take_first_inv in Ht as (l1 & k & l2 & -> & -> & _). destruct Hok as [[pe Ht] _ _ _ _].
      apply tiles_block in Ht as (? & _ & _ & ? & _). heap_lia.
    + by exists l.
    + exists l'. by destruct (Z.eqb_spec p 0).
  - pose proof (owns_split _ _ _ _ _ Ho) as (l1 & c & l2 & -> & -> & Hn & Hfree & _).
    pose proof (wp_mem_free Hram l1 (c + 8) l2 s (fun _ t => heap_ok t (coalesce (l1 ++ (c + 8, false) :: l2))) Hok (fun t H _ => H)) as H.
    unfold wp in H. rewrite E in H. eexists. split; [exact H|]. apply Hfree. rewrite regions_coalesce, regions_app. by rewrite Z.add_0_l.
  - pose proof (owns_split _ _ _ _ _ Ho) as (l1 & c & l2 & -> & -> & Hn & _ & Htrim).
    assert (c + 8 <= 4096) as Hc8. { destruct Hok as [[pe Ht] _ _ _ _]. apply tiles_block in Ht as (? & _ & _ & ? & ? & ? & _). lia. }
    pose proof (wp_mem_trim l1 (c + 8) l2 k s (fun r t => r = 0 /\ t = s \/
      r <> 0 /\ block_size k <= c /\ heap_ok t (l1 ++ trimmed (block_size k) (c + 8) l2)) Hok ltac:(lia)) as H.
    unfold wp in H. rewrite E in H. destruct H as [[-> ->]|(Hq & Hb & Hok')]; [by left| |done| |].
    + intros t Hb Hok' _. right. split; [unfold ptr_to_mem; pose proof (owns_payload); destruct Hok as [[pe Ht] _ _ _ _]; apply tiles_block in Ht as (? & _ & _ & ? & _); lia|].
      split; [lia|done].
    + by eexists.
    + destruct (Z.eqb_spec q 0); [done|]. eexists. split; [exact Hok'|].
      destruct (trimmed_regions (extent l1) (block_size k) (c + 8) l2 ltac:(lia)) as (c' & Hc' & Er).
      apply (Htrim _ k c'); [unfold block_size in *; zlia|]. rewrite regions_app, Z.add_0_l, Er. by rewrite Permutation_middle.
  - exists l. split; [by apply (heap_ok_store s s' l live)|done].
Qed.

Lemma sorted_lookup {A} (R : A -> A -> Prop) l i j x y :
  StronglySorted R l -> l !! i = Some x -> l !! j = Some y -> (i < j)%nat -> R x y.
Proof.
  intros Hs. revert i j. induction Hs as [|z l Hs IH Hz]; intros [|i] [|j]; cbn; try lia; try done.
  - intros [= ->] Hy _. rewrite Forall_forall in Hz. apply Hz. by eapply list_elem_of_lookup_2.
  - intros Hx Hy ?. apply (IH i j); (done || lia).
Qed.

Lemma owns_apart m pe live l i j p n q k : tiles m 0 0 l pe MEM_SIZE_ALIGNED -> owns live l ->
  live !! i = Some (p, n) -> live !! j = Some (q, k) -> i <> j -> p + n <= q \/ q + k <= p.
Proof.
  intros Ht (rs & Hp & Hf) Hi Hj Hne. apply regions_apart in Ht as [Hs _].
  destruct (Forall2_lookup_l _ _ _ _ _ Hf Hi) as ([p' c] & Hi' & E1 & Hn). destruct (Forall2_lookup_l _ _ _ _ _ Hf Hj) as ([q' d] & Hj' & E2 & Hk).
  cbn in *. subst p' q'. symmetry in Hp. apply Permutation_inj in Hp as (_ & f & Hinj & Hl). rewrite Hl in Hi', Hj'.
  destruct (Nat.lt_trichotomy (f i) (f j)) as [Hlt|[E|Hlt]].
  - pose proof (sorted_lookup _ _ _ _ _ _ Hs Hi' Hj' Hlt) as H. cbn in H. lia.
  - by apply Hinj in E.
  - pose proof (sorted_lookup _ _ _ _ _ _ Hs Hj' Hi' Hlt) as H. cbn in H. lia.
Qed.

Lemma all_free l : no_holes l -> regions 0 l = [] -> (length l <= 1)%nat.
Proof.
  generalize 0 as ptr. destruct l as [|[n []] [|[k []] l]]; cbn; try done; try lia.
Qed.

(** C16: the heap is safe to use: in every run that frees and trims only what it has, and stores
    only there, the blocks it has are apart from each other, inside the heap, aligned,
    and may be used; mem_malloc and mem_free always return; and when everything has been
    freed, the whole heap can be allocated again. *)
Theorem mem_heap_safe s live : 0 < ram -> heap_run s live ->
  (forall i j p n q k, live !! i = Some (p, n) -> live !! j = Some (q, k) -> i <> j -> p + n <= q \/ q + k <= p) /\
  (forall p n, (p, n) ∈ live -> ram < p /\ p + n <= ram_end /\ p mod 4 = 0 /\ forall a, p <= a < p + n -> lw_valid s a = true) /\
  (forall n, 0 < n < 65536 -> exists p s', mem_malloc n s = Ret p s') /\
  (forall p n, (p, n) ∈ live -> exists s', mem_free p s = Ret tt s') /\
  (live = [] -> forall n, 0 < n <= 4088 -> exists p s', mem_malloc n s = Ret p s' /\ p <> 0).
Proof.
  intros Hram Hr. apply heap_run_inv in Hr as (l & Hok & Ho); [|done]. pose proof Hok as [[pe Ht] _ Hh _ Hval].
  pose proof (align_mod4 ram_heap) as Hr4. fold ram in Hr4.
  split; [|split; [|split; [|split]]].
  - intros i j p n q k. by apply (owns_apart _ _ _ _ _ _ _ _ _ _ Ht).
  - intros p n Hi. pose proof (fun a => owns_payload _ _ p n a Ho Hi) as Hpay. apply list_elem_of_split in Hi as (live1 & live2 & ->).
    apply owns_split in Ho as (l1 & c & l2 & -> & -> & Hn & _). apply tiles_block in Ht as (? & _ & _ & ? & ? & ? & ? & _).
    split; [heap_lia|]. split; [heap_lia|]. split; [unfold ptr_to_mem; zlia|]. intros a Ha. by apply Hval, Hpay.
  - intros n Hn. assert (wp (mem_malloc n) s (fun _ _ => True)) as H by by apply (wp_mem_malloc l).
    apply wp_Ret in H as (p & s' & ? & _). by exists p, s'.
  - intros p n (live1 & live2 & ->)%list_elem_of_split. apply owns_split in Ho as (l1 & c & l2 & -> & -> & _).
    assert (wp (mem_free (ptr_to_mem (extent l1 + 8))) s (fun _ _ => True)) as H by by apply (wp_mem_free Hram l1 (c + 8) l2).
    apply wp_Ret in H as ([] & s' & ? & _). by exists s'.
  - intros -> n Hn. destruct Ho as (rs & Hp & Hf). apply Forall2_nil_inv_l in Hf as ->. apply Permutation_nil_r in Hp.
    pose proof (all_free _ Hh Hp) as Hl. destruct l as [|[k []] [|? ?]]; try done; [by destruct Ht|..|cbn in Hl; lia].
    assert (k = 4096) as ->. { apply tiles_end in Ht. cbn in Ht. heap_lia. }
    assert (wp (mem_malloc n) s (fun p _ => p <> 0)) as H.
    { apply (wp_mem_malloc [(4096, false)]); [done|lia|..]; cbn [take_first]; (destruct (Z.leb_spec (block_size n + 8) 4096); [|unfold block_size in *; zlia]).
      - done.
      - intros o l' s' [= <- _] _ _. heap_lia. }
    apply wp_Ret in H as (p & s' & ? & ?). by exists p, s'.
Qed.
End heap.

(** * A concrete run *)

Definition heap_s0 : lwip := final (mem_init (P := sim_pools) lw_reset).
Definition heap_s1 : lwip := final (mem_malloc (P := sim_pools) 100 heap_s0).
Definition heap_s2 : lwip := final (mem_malloc (P := sim_pools) 50 heap_s1).
Definition heap_s3 : lwip := final (mem_trim (P := sim_pools) 0x20030008 40 heap_s2).

Lemma heap_run_s3 : heap_run (P := sim_pools) heap_s3 [(0x20030074, 50); (0x20030008, 40)].
Proof.
  assert (heap_run (P := sim_pools) heap_s1 [(0x20030008, 100)]) as H1.
  { apply (run_malloc (P := sim_pools) heap_s0 [] 100 0x20030008); [|lia|apply result_final; by vm_compute].
    apply (run_init (P := sim_pools) lw_reset). apply result_final. by vm_compute. }
  assert (heap_run (P := sim_pools) heap_s2 [(0x20030074, 50); (0x20030008, 100)]) as H2.
  { apply (run_malloc (P := sim_pools) heap_s1 [(0x20030008, 100)] 50 0x20030074); [done|lia|apply result_final; by vm_compute]. }
  assert (mem_trim (P := sim_pools) 0x20030008 40 heap_s2 = Ret 0x20030008 heap_s3) as E.
  { unfold heap_s3. apply result_final. by vm_compute. }
  exact (run_trim (P := sim_pools) heap_s2 [(0x20030074, 50)] 0x20030008 100 [] 40 0x20030008 heap_s3 H2 ltac:(lia) E).
Qed.

Lemma mem_heap_safe_witness :
  (0x20030074 + 50 <= 0x20030008 \/ 0x20030008 + 40 <= 0x20030074) /\
  (exists p s', mem_malloc (P := sim_pools) 48 heap_s3 = Ret p s') /\
  exists s', mem_free (P := sim_pools) 0x20030008 heap_s3 = Ret tt s'.
Proof.
  destruct (mem_heap_safe (P := sim_pools) heap_s3 _ ltac:(by vm_compute) heap_run_s3) as (H1 & _ & H2 & H3 & _).
  split; [exact (H1 0%nat 1%nat _ _ _ _ eq_refl eq_refl ltac:(discriminate))|]. split; [apply H2; lia|].
  apply (H3 _ 40). right. left.
Defined.
