(* ===== verification/Pbuf.v ===== *)
(** Packet buffers, lwip-2.1.2/src/core/pbuf.c: allocation from the pools and the heap,
    reference counts, chains, and copying to and from their payloads.  Loops over a
    chain take fuel; a chain that ends needs as much as it has buffers. *)
From S2P Require Import Prelude Machine LwMem LwHeap.
From stdpp Require Import list gmap.

#[local] Open Scope Z_scope.
#[local] Open Scope fw_scope.

(** ** Constants of include/lwip/pbuf.h *)

Definition PBUF_TRANSPORT : Z := 54.
Definition PBUF_IP : Z := 34.
Definition PBUF_LINK : Z := 14.
Definition PBUF_RAW_TX : Z := 0.
Definition PBUF_RAW : Z := 0.
Definition PBUF_TYPE_FLAG_STRUCT_DATA_CONTIGUOUS : Z := 0x80.
Definition PBUF_TYPE_ALLOC_SRC_MASK : Z := 0x0F.
Definition PBUF_TYPE_ALLOC_SRC_MASK_STD_HEAP : Z := 0x00.
Definition PBUF_TYPE_ALLOC_SRC_MASK_STD_MEMP_PBUF : Z := 0x01.
Definition PBUF_TYPE_ALLOC_SRC_MASK_STD_MEMP_PBUF_POOL : Z := 0x02.
Definition PBUF_RAM : Z := 0x280.
Definition PBUF_ROM : Z := 0x001.
Definition PBUF_REF : Z := 0x041.
Definition PBUF_POOL : Z := 0x182.
Definition PBUF_FLAG_IS_CUSTOM : Z := 0x02.
Definition NETIF_NO_INDEX : Z := 0.
Definition ERR_VAL : Z := -6.
Definition ERR_ARG : Z := -16.

Definition pbuf_get_allocsrc (b : pbuf) : Z := pb_type b .& PBUF_TYPE_ALLOC_SRC_MASK.
Definition pbuf_match_allocsrc (b : pbuf) (type : Z) : bool := pbuf_get_allocsrc b =? type .& PBUF_TYPE_ALLOC_SRC_MASK.

(** Stores to one field. *)
Definition put_next (v : Z) (b : pbuf) : pbuf :=
  Pbuf v (pb_payload b) (pb_tot_len b) (pb_len b) (pb_type b) (pb_flags b) (pb_ref b) (pb_if_idx b).
Definition put_payload (v : Z) (b : pbuf) : pbuf :=
  Pbuf (pb_next b) v (pb_tot_len b) (pb_len b) (pb_type b) (pb_flags b) (pb_ref b) (pb_if_idx b).
Definition put_tot_len (v : Z) (b : pbuf) : pbuf :=
  Pbuf (pb_next b) (pb_payload b) (u16 v) (pb_len b) (pb_type b) (pb_flags b) (pb_ref b) (pb_if_idx b).
Definition put_len (v : Z) (b : pbuf) : pbuf :=
  Pbuf (pb_next b) (pb_payload b) (pb_tot_len b) (u16 v) (pb_type b) (pb_flags b) (pb_ref b) (pb_if_idx b).
Definition put_ref (v : Z) (b : pbuf) : pbuf :=
  Pbuf (pb_next b) (pb_payload b) (pb_tot_len b) (pb_len b) (pb_type b) (pb_flags b) (u8 v) (pb_if_idx b).

(** No chain is longer than there are places for buffers, so this much fuel is enough for all
    loops over one. *)
Definition PBUF_FUEL : nat := 256.

Section pbuf.
Context {P : Pools} (custom_free_function : Z -> lw unit).

(** ** Freeing and reference counts *)

(** A buffer that is no longer referred to goes back where it came from. *)
Definition release (p : Z) (b : pbuf) : lw unit :=
  let alloc_src := pbuf_get_allocsrc b in
  if any_bit (pb_flags b) PBUF_FLAG_IS_CUSTOM then custom_free_function p
  else if alloc_src =? PBUF_TYPE_ALLOC_SRC_MASK_STD_MEMP_PBUF_POOL then memp_free MEMP_PBUF_POOL p
  else if alloc_src =? PBUF_TYPE_ALLOC_SRC_MASK_STD_MEMP_PBUF then memp_free MEMP_PBUF p
  else if alloc_src =? PBUF_TYPE_ALLOC_SRC_MASK_STD_HEAP then mem_free p
  else ret tt.

Fixpoint pbuf_free_loop (fuel : nat) (p count : Z) : lw Z :=
  match fuel with
  | O => spin
  | S n =>
      if p =? 0 then ret count
      else
        b <- pbuf_at p ;;
        let ref := u8 (pb_ref b - 1) in
        pbuf_set p (put_ref ref) ;;
        if ref =? 0 then
          let q := pb_next b in
          release p b ;;
          pbuf_free_loop n q (u8 (count + 1))
        else pbuf_free_loop n 0 count
  end.

Definition pbuf_free (fuel : nat) (p : Z) : lw Z :=
  if p =? 0 then ret 0 else pbuf_free_loop fuel p 0.

Definition pbuf_ref (p : Z) : lw unit :=
  if negb (p =? 0) then pbuf_set p (fun b => put_ref (pb_ref b + 1) b) else ret tt.

Fixpoint pbuf_clen_loop (fuel : nat) (p len : Z) : lw Z :=
  match fuel with
  | O => spin
  | S n => if p =? 0 then ret len else b <- pbuf_at p ;; pbuf_clen_loop n (pb_next b) (u16 (len + 1))
  end.
Definition pbuf_clen (fuel : nat) (p : Z) : lw Z := pbuf_clen_loop fuel p 0.

(** ** Allocation *)

Definition pbuf_init_alloced_pbuf (p payload tot_len len type flags : Z) : lw unit :=
  put_cell p (Buf (Pbuf 0 payload tot_len len (u8 type) flags 1 NETIF_NO_INDEX)).

(** The pool is empty: ask the stack's thread, unless that is under way, to give up
    segments that arrived out of order. *)
Definition pbuf_pool_is_empty : lw unit :=
  s <- lw_get ;;
  let queued := pbuf_free_ooseq_pending s in
  lw_mod (with_pending 1) ;;
  if queued =? 0 then
    r <- tcpip_try_callback pbuf_free_ooseq_callback_ 0 ;;
    if negb (r =? ERR_OK) then lw_mod (with_pending 0) else ret tt
  else ret tt.

Definition pbuf_alloc_reference (payload length type : Z) : lw Z :=
  p <- memp_malloc MEMP_PBUF ;;
  if p =? 0 then ret 0
  else pbuf_init_alloced_pbuf p payload length length type 0 ;; ret p.

(** The loop of the case PBUF_POOL: [p] and [last] are the first and the last buffer so far;
    [full] is fuel to free them all. *)
Fixpoint alloc_pool (full fuel : nat) (p last rem_len offset : Z) : lw Z :=
  match fuel with
  | O => spin
  | S n =>
      q <- memp_malloc MEMP_PBUF_POOL ;;
      if q =? 0 then
        pbuf_pool_is_empty ;;
        (if negb (p =? 0) then pbuf_free full p ;; ret tt else ret tt) ;;
        ret 0
      else
        let qlen := Z.min rem_len (u16 (PBUF_POOL_BUFSIZE_ALIGNED - LWIP_MEM_ALIGN offset)) in
        pbuf_init_alloced_pbuf q (LWIP_MEM_ALIGN (q + SIZEOF_STRUCT_PBUF + offset)) rem_len qlen PBUF_POOL 0 ;;
        (if p =? 0 then ret tt else pbuf_set last (put_next q)) ;;
        let head := if p =? 0 then q else p in
        let rem_len' := u16 (rem_len - qlen) in
        if 0 <? rem_len' then alloc_pool full n head q rem_len' 0 else ret head
  end.

Definition pbuf_alloc (fuel : nat) (layer length type : Z) : lw Z :=
  let offset := u16 layer in
  if (type =? PBUF_REF) || (type =? PBUF_ROM) then pbuf_alloc_reference 0 length type
  else if type =? PBUF_POOL then alloc_pool fuel fuel 0 0 length offset
  else if type =? PBUF_RAM then
    let payload_len := u16 (LWIP_MEM_ALIGN offset + LWIP_MEM_ALIGN length) in
    let alloc_len := u16 (LWIP_MEM_ALIGN SIZEOF_STRUCT_PBUF + payload_len) in
    if (payload_len <? LWIP_MEM_ALIGN length) || (alloc_len <? LWIP_MEM_ALIGN length) then ret 0
    else
      p <- mem_malloc alloc_len ;;
      if p =? 0 then ret 0
      else
        pbuf_init_alloced_pbuf p (LWIP_MEM_ALIGN (p + SIZEOF_STRUCT_PBUF + offset)) length length type 0 ;;
        ret p
  else ret 0.

Definition pbuf_alloced_custom (l length type p payload_mem payload_mem_len : Z) : lw Z :=
  let offset := u16 l in
  if payload_mem_len <? LWIP_MEM_ALIGN offset + length then ret 0
  else
    let payload := if negb (payload_mem =? 0) then payload_mem + LWIP_MEM_ALIGN offset else 0 in
    pbuf_init_alloced_pbuf p payload length length type PBUF_FLAG_IS_CUSTOM ;;
    ret p.

(** ** Shrinking *)

(** Skip the buffers that are kept whole, taking [shrink] off their total. *)
Fixpoint realloc_skip (fuel : nat) (q rem_len shrink : Z) : lw (Z * Z) :=
  match fuel with
  | O => spin
  | S n =>
      b <- pbuf_at q ;;
      if pb_len b <? rem_len then
        pbuf_set q (fun b => put_tot_len (pb_tot_len b - shrink) b) ;;
        realloc_skip n (pb_next b) (u16 (rem_len - pb_len b)) shrink
      else ret (q, rem_len)
  end.

Definition pbuf_realloc (fuel : nat) (p new_len : Z) : lw unit :=
  h <- pbuf_at p ;;
  if pb_tot_len h <=? new_len then ret tt
  else
    let shrink := u16 (pb_tot_len h - new_len) in
    r <- realloc_skip fuel p new_len shrink ;;
    let rem_len := snd r in
    b <- pbuf_at (fst r) ;;
    q <- (if pbuf_match_allocsrc b PBUF_TYPE_ALLOC_SRC_MASK_STD_HEAP && negb (rem_len =? pb_len b)
             && negb (any_bit (pb_flags b) PBUF_FLAG_IS_CUSTOM)
          then mem_trim (fst r) (u16 (pb_payload b - fst r + rem_len)) else ret (fst r)) ;;
    pbuf_set q (put_len rem_len) ;;
    pbuf_set q (fun b => put_tot_len (pb_len b) b) ;;
    b <- pbuf_at q ;;
    (if negb (pb_next b =? 0) then pbuf_free fuel (pb_next b) ;; ret tt else ret tt) ;;
    pbuf_set q (put_next 0).

(** ** Headers *)

Definition pbuf_add_header_impl (p header_size_increment : Z) (force : bool) : lw Z :=
  if (p =? 0) || (0xFFFF <? header_size_increment) then ret 1
  else if header_size_increment =? 0 then ret 0
  else
    let increment_magnitude := u16 header_size_increment in
    b <- pbuf_at p ;;
    if u16 (increment_magnitude + pb_tot_len b) <? increment_magnitude then ret 1
    else
      let payload := pb_payload b - header_size_increment in
      let move :=
        pbuf_set p (fun b => put_tot_len (pb_tot_len b + increment_magnitude)
                               (put_len (pb_len b + increment_magnitude) (put_payload payload b))) ;;
        ret 0 in
      if any_bit (pb_type b) PBUF_TYPE_FLAG_STRUCT_DATA_CONTIGUOUS then
        if payload <? p + SIZEOF_STRUCT_PBUF then ret 1 else move
      else if force then move else ret 1.

Definition pbuf_add_header (p n : Z) : lw Z := pbuf_add_header_impl p n false.
Definition pbuf_add_header_force (p n : Z) : lw Z := pbuf_add_header_impl p n true.

Definition pbuf_remove_header (p header_size_decrement : Z) : lw Z :=
  if (p =? 0) || (0xFFFF <? header_size_decrement) then ret 1
  else if header_size_decrement =? 0 then ret 0
  else
    let increment_magnitude := u16 header_size_decrement in
    b <- pbuf_at p ;;
    if pb_len b <? increment_magnitude then ret 1
    else
      pbuf_set p (fun b => put_tot_len (pb_tot_len b - increment_magnitude)
                             (put_len (pb_len b - increment_magnitude) (put_payload (pb_payload b + header_size_decrement) b))) ;;
      ret 0.

Definition pbuf_header_impl (p header_size_increment : Z) (force : bool) : lw Z :=
  if header_size_increment <? 0 then pbuf_remove_header p (- header_size_increment)
  else pbuf_add_header_impl p header_size_increment force.
Definition pbuf_header (p n : Z) : lw Z := pbuf_header_impl p n false.
Definition pbuf_header_force (p n : Z) : lw Z := pbuf_header_impl p n true.

Fixpoint pbuf_free_header_loop (fuel : nat) (p free_left : Z) : lw Z :=
  match fuel with
  | O => spin
  | S n =>
      if negb (free_left =? 0) && negb (p =? 0) then
        b <- pbuf_at p ;;
        if pb_len b <=? free_left then
          pbuf_set p (put_next 0) ;;
          pbuf_free fuel p ;;
          pbuf_free_header_loop n (pb_next b) (u16 (free_left - pb_len b))
        else
          pbuf_remove_header p free_left ;;
          pbuf_free_header_loop n p 0
      else ret p
  end.
Definition pbuf_free_header (fuel : nat) (q size : Z) : lw Z := pbuf_free_header_loop fuel q size.

(** ** Chains *)

(** The last buffer of a chain, with the totals up to it raised by [tot]. *)
Fixpoint cat_walk (fuel : nat) (p t : Z) : lw Z :=
  match fuel with
  | O => spin
  | S n =>
      b <- pbuf_at p ;;
      if negb (pb_next b =? 0) then
        tb <- pbuf_at t ;;
        pbuf_set p (fun b => put_tot_len (pb_tot_len b + pb_tot_len tb) b) ;;
        cat_walk n (pb_next b) t
      else ret p
  end.

Definition pbuf_cat (fuel : nat) (h t : Z) : lw unit :=
  if (h =? 0) || (t =? 0) then ret tt
  else
    p <- cat_walk fuel h t ;;
    tb <- pbuf_at t ;;
    pbuf_set p (fun b => put_tot_len (pb_tot_len b + pb_tot_len tb) b) ;;
    pbuf_set p (put_next t).

Definition pbuf_chain (fuel : nat) (h t : Z) : lw unit := pbuf_cat fuel h t ;; pbuf_ref t.

Definition pbuf_dechain (fuel : nat) (p : Z) : lw Z :=
  b <- pbuf_at p ;;
  let q := pb_next b in
  tail_gone <- (if negb (q =? 0) then
                  pbuf_set q (put_tot_len (pb_tot_len b - pb_len b)) ;;
                  pbuf_set p (put_next 0) ;;
                  pbuf_set p (put_tot_len (pb_len b)) ;;
                  pbuf_free fuel q
                else ret 1) ;;
  ret (if 0 <? tail_gone then 0 else q).
End pbuf.
