(* ===== verification/PbufCopy.v ===== *)
(** The data of packet buffers, lwip-2.1.2/src/core/pbuf.c: copying out of a chain, into a
    chain and between chains, single bytes, comparison and search. *)
From S2P Require Import Prelude Machine LwMem LwHeap Pbuf.
From stdpp Require Import list gmap.

#[local] Open Scope Z_scope.
#[local] Open Scope fw_scope.

Section copy.
Context {P : Pools} (custom_free_function : Z -> lw unit).

(** pbuf_skip_const: the buffer that holds byte [offset_left], and the offset in it. *)
Fixpoint pbuf_skip_const (fuel : nat) (q offset_left : Z) : lw (Z * Z) :=
  match fuel with
  | O => spin
  | S n =>
      if q =? 0 then ret (q, offset_left)
      else
        b <- pbuf_at q ;;
        if pb_len b <=? offset_left then pbuf_skip_const n (pb_next b) (u16 (offset_left - pb_len b))
        else ret (q, offset_left)
  end.
Definition pbuf_skip (fuel : nat) (q offset : Z) : lw (Z * Z) := pbuf_skip_const fuel q offset.

(** ** Between chains *)

(** The body of the loop of pbuf_copy: what is left of both chains, or the error. *)
Definition copy_step (p_to offset_to p_from offset_from : Z) : lw (Z + (Z * Z * Z * Z)) :=
  bt <- pbuf_at p_to ;;
  bf <- pbuf_at p_from ;;
  let len := if u32 (pb_len bf - offset_from) <=? u32 (pb_len bt - offset_to)
             then u32 (pb_len bf - offset_from) else u32 (pb_len bt - offset_to) in
  lw_memcpy (pb_payload bt + offset_to) (pb_payload bf + offset_from) len ;;
  let offset_to := u32 (offset_to + len) in
  let offset_from := u32 (offset_from + len) in
  let from' := if pb_len bf <=? offset_from then (pb_next bf, 0) else (p_from, offset_from) in
  let to' := if offset_to =? pb_len bt then (pb_next bt, 0) else (p_to, offset_to) in
  if (offset_to =? pb_len bt) && (fst to' =? 0) && negb (fst from' =? 0) then ret (inl ERR_ARG)
  else
    let queue p := if p =? 0 then ret false
                   else b <- pbuf_at p ;; ret ((pb_len b =? pb_tot_len b) && negb (pb_next b =? 0)) in
    qf <- queue (fst from') ;;
    if qf : bool then ret (inl ERR_VAL)
    else
      qt <- queue (fst to') ;;
      if qt : bool then ret (inl ERR_VAL)
      else ret (inr (fst to', snd to', fst from', snd from')).

Fixpoint copy_loop (fuel : nat) (p_to offset_to p_from offset_from : Z) : lw Z :=
  match fuel with
  | O => spin
  | S n =>
      r <- copy_step p_to offset_to p_from offset_from ;;
      match r with
      | inl err => ret err
      | inr (p_to, offset_to, p_from, offset_from) =>
          if negb (p_from =? 0) then copy_loop n p_to offset_to p_from offset_from else ret ERR_OK
      end
  end.

Definition pbuf_copy (fuel : nat) (p_to p_from : Z) : lw Z :=
  if (p_to =? 0) || (p_from =? 0) then ret ERR_ARG
  else
    bt <- pbuf_at p_to ;;
    bf <- pbuf_at p_from ;;
    if pb_tot_len bt <? pb_tot_len bf then ret ERR_ARG
    else copy_loop fuel p_to 0 p_from 0.

(** ** Out of a chain *)

Fixpoint copy_partial_loop (fuel : nat) (p dataptr len offset left copied_total : Z) : lw Z :=
  match fuel with
  | O => spin
  | S n =>
      if negb (len =? 0) && negb (p =? 0) then
        b <- pbuf_at p ;;
        if negb (offset =? 0) && (pb_len b <=? offset) then
          copy_partial_loop n (pb_next b) dataptr len (u16 (offset - pb_len b)) left copied_total
        else
          let room := u16 (pb_len b - offset) in
          let buf_copy_len := if len <? room then len else room in
          lw_memcpy (dataptr + left) (pb_payload b + offset) buf_copy_len ;;
          copy_partial_loop n (pb_next b) dataptr (u16 (len - buf_copy_len)) 0 (u16 (left + buf_copy_len))
            (u16 (copied_total + buf_copy_len))
      else ret copied_total
  end.

Definition pbuf_copy_partial (fuel : nat) (buf dataptr len offset : Z) : lw Z :=
  if (buf =? 0) || (dataptr =? 0) then ret 0
  else copy_partial_loop fuel buf dataptr len offset 0 0.

Definition pbuf_get_contiguous (fuel : nat) (p buffer bufsize len offset : Z) : lw Z :=
  if (p =? 0) || (buffer =? 0) || (bufsize <? len) then ret 0
  else
    r <- pbuf_skip_const fuel p offset ;;
    let q := fst r in let out_offset := snd r in
    if negb (q =? 0) then
      b <- pbuf_at q ;;
      if out_offset + len <=? pb_len b then ret (pb_payload b + out_offset)
      else
        n <- pbuf_copy_partial fuel q buffer len out_offset ;;
        if negb (n =? len) then ret 0 else ret buffer
    else ret 0.

(** ** Into a chain *)

Fixpoint take_loop (fuel : nat) (p dataptr total_copy_len copied_total : Z) : lw unit :=
  match fuel with
  | O => spin
  | S n =>
      if negb (total_copy_len =? 0) then
        b <- pbuf_at p ;;
        let buf_copy_len := if pb_len b <? total_copy_len then pb_len b else total_copy_len in
        lw_memcpy (pb_payload b) (dataptr + copied_total) buf_copy_len ;;
        take_loop n (pb_next b) dataptr (u32 (total_copy_len - buf_copy_len)) (u32 (copied_total + buf_copy_len))
      else ret tt
  end.

Definition pbuf_take (fuel : nat) (buf dataptr len : Z) : lw Z :=
  if (buf =? 0) || (dataptr =? 0) then ret ERR_ARG
  else
    b <- pbuf_at buf ;;
    if pb_tot_len b <? len then ret ERR_MEM
    else take_loop fuel buf dataptr len 0 ;; ret ERR_OK.

Definition pbuf_take_at (fuel : nat) (buf dataptr len offset : Z) : lw Z :=
  r <- pbuf_skip fuel buf offset ;;
  let q := fst r in let target_offset := snd r in
  if q =? 0 then ret ERR_MEM
  else
    b <- pbuf_at q ;;
    if pb_tot_len b <? target_offset + len then ret ERR_MEM
    else
      let first_copy_len := u16 (Z.min (pb_len b - target_offset) len) in
      lw_memcpy (pb_payload b + target_offset) dataptr first_copy_len ;;
      let remaining_len := u16 (len - first_copy_len) in
      if 0 <? remaining_len then
        b <- pbuf_at q ;;
        pbuf_take fuel (pb_next b) (dataptr + first_copy_len) remaining_len
      else ret ERR_OK.

(** ** New buffers with the same data *)

Definition pbuf_clone (fuel : nat) (layer type p : Z) : lw Z :=
  b <- pbuf_at p ;;
  q <- pbuf_alloc custom_free_function fuel layer (pb_tot_len b) type ;;
  if q =? 0 then ret 0
  else pbuf_copy fuel q p ;; ret q.

Definition pbuf_coalesce (fuel : nat) (p layer : Z) : lw Z :=
  b <- pbuf_at p ;;
  if pb_next b =? 0 then ret p
  else
    q <- pbuf_clone fuel layer PBUF_RAM p ;;
    if q =? 0 then ret p
    else pbuf_free custom_free_function fuel p ;; ret q.

(** ** Bytes *)

Definition byte_at (a : Z) : lw Z := l <- lw_read a 1 ;; ret (nth 0 l 0).

Definition pbuf_try_get_at (fuel : nat) (p offset : Z) : lw Z :=
  r <- pbuf_skip_const fuel p offset ;;
  if negb (fst r =? 0) then
    b <- pbuf_at (fst r) ;;
    if snd r <? pb_len b then byte_at (pb_payload b + snd r) else ret (-1)
  else ret (-1).

Definition pbuf_get_at (fuel : nat) (p offset : Z) : lw Z :=
  r <- pbuf_try_get_at fuel p offset ;; ret (if 0 <=? r then u8 r else 0).

Definition pbuf_put_at (fuel : nat) (p offset data : Z) : lw unit :=
  r <- pbuf_skip fuel p offset ;;
  if negb (fst r =? 0) then
    b <- pbuf_at (fst r) ;;
    if snd r <? pb_len b then lw_write (pb_payload b + snd r) [u8 data] else ret tt
  else ret tt.

(** ** Comparing and searching *)

(** The loop of pbuf_memcmp from [i] on, [k] rounds before [n]. *)
Fixpoint memcmp_loop (fuel k : nat) (q start s2 i : Z) : lw Z :=
  match k with
  | O => ret 0
  | S k' =>
      a <- pbuf_get_at fuel q (u16 (start + i)) ;;
      b <- byte_at (s2 + i) ;;
      if negb (a =? b) then ret (u16 (Z.min (i + 1) 0xFFFF))
      else memcmp_loop fuel k' q start s2 (u16 (i + 1))
  end.

Definition pbuf_memcmp (fuel : nat) (p offset s2 n : Z) : lw Z :=
  b <- pbuf_at p ;;
  if pb_tot_len b <? offset + n then ret 0xFFFF
  else
    r <- pbuf_skip_const fuel p offset ;;
    memcmp_loop fuel (Z.to_nat n) (fst r) (snd r) s2 0.

(** The loop of pbuf_memfind: [k] bounds the rounds, of which 65536 wrap the counter around. *)
Fixpoint memfind_loop (fuel k : nat) (p mem mem_len max_cmp_start i : Z) : lw Z :=
  match k with
  | O => spin
  | S k' =>
      if i <=? max_cmp_start then
        plus <- pbuf_memcmp fuel p i mem mem_len ;;
        if plus =? 0 then ret i else memfind_loop fuel k' p mem mem_len max_cmp_start (u16 (i + 1))
      else ret 0xFFFF
  end.

Definition pbuf_memfind (fuel k : nat) (p mem mem_len start_offset : Z) : lw Z :=
  b <- pbuf_at p ;;
  let max_cmp_start := u16 (pb_tot_len b - mem_len) in
  if mem_len + start_offset <=? pb_tot_len b then
    memfind_loop fuel k p mem mem_len max_cmp_start start_offset
  else ret 0xFFFF.

(** [strlen] *)
Fixpoint strlen_loop (fuel : nat) (s n : Z) : lw Z :=
  match fuel with
  | O => spin
  | S f => c <- byte_at (s + n) ;; if c =? 0 then ret n else strlen_loop f s (n + 1)
  end.

Definition pbuf_strstr (fuel k : nat) (p substr : Z) : lw Z :=
  if substr =? 0 then ret 0xFFFF
  else
    c <- byte_at substr ;;
    if c =? 0 then ret 0xFFFF
    else
      b <- pbuf_at p ;;
      if pb_tot_len b =? 0xFFFF then ret 0xFFFF
      else
        substr_len <- strlen_loop k substr 0 ;;
        if 0xFFFF <=? substr_len then ret 0xFFFF
        else pbuf_memfind fuel k p substr (u16 substr_len) 0.
End copy.
