(* ===== verification/PbufChain.v ===== *)
(** Chains of packet buffers as lists, the resources they come from, and what pbuf_free
    does to both. *)
From S2P Require Import Prelude Machine LwMem LwHeap Pbuf.
From stdpp Require Import list gmap.

#[local] Open Scope Z_scope.
#[local] Open Scope fw_scope.

(** * Chains *)

(** A chain is the list of its buffers with their addresses: [pseg m p l q] says that the
    buffers [l] follow each other from [p] on, and the last one's successor is [q]. *)
Definition buffers := list (Z * pbuf).

Fixpoint pseg (m : gmap Z cell) (p : Z) (l : buffers) (q : Z) : Prop :=
  match l with
  | [] => p = q
  | (a, b) :: l' => p = a /\ a <> 0 /\ m !! a = Some (Buf b) /\ pseg m (pb_next b) l' q
  end.

(** The first buffer from [p] on is the first of [l], or [q] if there is none. *)
Definition first_of (l : buffers) (q : Z) : Z := match l with [] => q | (a, _) :: _ => a end.

Lemma first_of_fst l q : first_of l q = hd q l.*1.
Proof. by destruct l as [|[a b] l]. Qed.

Lemma pseg_first m p l q : pseg m p l q -> p = first_of l q.
Proof. destruct l as [|[a b] l]; [done|by intros [-> _]]. Qed.

Lemma pseg_app m p l1 l2 q : pseg m p (l1 ++ l2) q <-> pseg m p l1 (first_of l2 q) /\ pseg m (first_of l2 q) l2 q.
Proof.
  revert p. induction l1 as [|[a b] l1 IH]; intros p; cbn [pseg app].
  - split; [|by intros [-> ?]]. intros H. pose proof (pseg_first _ _ _ _ H) as ->. done.
  - rewrite IH. tauto.
Qed.

Lemma pseg_agree m m' p l q : (forall a, a ∈ l.*1 -> m' !! a = m !! a) -> pseg m p l q -> pseg m' p l q.
Proof.
  revert p. induction l as [|[a b] l IH]; intros p Hm; [done|]. intros (-> & ? & Ha & Hl). do 2 (split; [done|]).
  split; [rewrite Hm; [done|by left]|]. apply IH; [|done]. intros x Hx. apply Hm. by right.
Qed.

Lemma pseg_insert m a c p l q : a ∉ l.*1 -> pseg m p l q -> pseg (<[a := c]> m) p l q.
Proof. intros Ha. apply pseg_agree. intros x Hx. apply lookup_insert_ne. by intros ->. Qed.

Lemma pseg_lookup m p l q a b : pseg m p l q -> (a, b) ∈ l -> a <> 0 /\ m !! a = Some (Buf b).
Proof.
  revert p. induction l as [|[x c] l IH]; intros p; [by intros _ ?%elem_of_nil|].
  intros (-> & ? & ? & Hl) [[= -> ->]|Hi]%elem_of_cons; [done|by apply (IH _ Hl)].
Qed.

Lemma pseg_det m p l1 l2 : pseg m p l1 0 -> pseg m p l2 0 -> l1 = l2.
Proof.
  revert p l2. induction l1 as [|[a b] l1 IH]; intros p [|[a' b'] l2]; cbn [pseg].
  - done.
  - by intros -> (<- & ? & _).
  - by intros (-> & ? & _) ->.
  - intros (-> & _ & Ha & H1) (<- & _ & Ha' & H2). rewrite Ha in Ha'. injection Ha' as <-. f_equal. by apply (IH (pb_next b)).
Qed.

Lemma elem_of_fst (l : buffers) a : a ∈ l.*1 <-> exists b, (a, b) ∈ l.
Proof.
  rewrite list_elem_of_fmap. split.
  - intros ([x b] & -> & ?). by exists b.
  - intros (b & ?). by exists (a, b).
Qed.

(** A chain that ends does not meet itself. *)
Lemma pseg_nodup m p l : pseg m p l 0 -> NoDup l.*1.
Proof.
  revert p. induction l as [|[a b] l IH]; intros p; [constructor|]. intros (-> & Ha0 & Ha & Hl). rewrite fmap_cons. cbn [fst].
  constructor; [|by apply (IH _ Hl)]. intros Hi. apply elem_of_fst in Hi as (b' & Hi).
  pose proof (pseg_lookup _ _ _ _ _ _ Hl Hi) as [_ E]. rewrite Ha in E. injection E as <-.
  apply list_elem_of_split in Hi as (l1 & l2 & ->). apply pseg_app in Hl as [H1 H2]. cbn [first_of] in *.
  assert (pseg m a ((a, b) :: l1 ++ (a, b) :: l2) 0) as H3.
  { do 3 (split; [done|]). apply pseg_app. by split. }
  pose proof (pseg_det _ _ _ _ H2 H3) as E. apply (f_equal length) in E. cbn in E. rewrite length_app in E. cbn in E. lia.
Qed.

Lemma links_not_buf m p l a b : links m p l -> m !! a = Some (Buf b) -> a ∉ l.
Proof. intros Hl Ha Hi. destruct (links_lookup _ _ _ _ Hl Hi) as [n E]. congruence. Qed.

(** ** Lengths and bytes *)

(** The addresses of the data of a chain, in order. *)
Definition data_of (b : pbuf) : list Z := zrange (pb_payload b) (Z.to_nat (pb_len b)).
Definition addrs (l : buffers) : list Z := concat ((fun x => data_of (snd x)) <$> l).
Definition contents (s : lwip) (l : buffers) : list Z := (fun x => u8 (lw_data s x)) <$> addrs l.

Fixpoint sum_len (l : buffers) : Z := match l with [] => 0 | (_, b) :: l' => pb_len b + sum_len l' end.

(** Every total is the length of what follows: the chain is one packet. *)
Fixpoint packet (l : buffers) : Prop :=
  match l with
  | [] => True
  | (a, b) :: l' => 0 <= pb_len b /\ pb_tot_len b = pb_len b + sum_len l' /\ pb_tot_len b < 65536 /\ packet l'
  end.

Lemma sum_len_app l1 l2 : sum_len (l1 ++ l2) = sum_len l1 + sum_len l2.
Proof. induction l1 as [|[a b] l1 IH]; cbn [sum_len app]; lia. Qed.

Lemma sum_len_nonneg l : packet l -> 0 <= sum_len l.
Proof. induction l as [|[a b] l IH]; cbn [packet sum_len]; [lia|]. intros (? & _ & _ & H%IH). lia. Qed.

Lemma packet_app l1 l2 : packet (l1 ++ l2) -> packet l2.
Proof. induction l1 as [|[a b] l1 IH]; [done|]. intros (_ & _ & _ & H). by apply IH. Qed.

Lemma addrs_cons a b l : addrs ((a, b) :: l) = data_of b ++ addrs l.
Proof. done. Qed.
Lemma addrs_app l1 l2 : addrs (l1 ++ l2) = addrs l1 ++ addrs l2.
Proof. unfold addrs. by rewrite fmap_app, concat_app. Qed.

Lemma data_length b : length (data_of b) = Z.to_nat (pb_len b).
Proof. unfold data_of, zrange. rewrite length_seqZ. lia. Qed.

Lemma elem_data b x : x ∈ data_of b <-> pb_payload b <= x < pb_payload b + pb_len b.
Proof. unfold data_of. rewrite elem_of_zrange. lia. Qed.

Lemma addrs_length l : packet l -> Z.of_nat (length (addrs l)) = sum_len l.
Proof.
  induction l as [|[a b] l IH]; [done|]. intros (? & _ & _ & H%IH). rewrite addrs_cons, length_app, data_length.
  cbn [sum_len]. lia.
Qed.

(** * Where buffers come from *)

(** The layout: pools and heap are apart. *)
Class LwLayout {P : Pools} := {
  layout_pools :: PoolsApart;
  ram_pos : 0 < ram;
  ram_below : ram_end < 2 ^ 32 - 4096;
  elems_outside t a : a ∈ memp_elems t -> a < ram \/ ram_end < a;
  elems_below t a : a ∈ memp_elems t -> 0 <= a < 2 ^ 32 - 4096 }.

Section free.
Context {P : Pools} {L : LwLayout} (custom_free_function : Z -> lw unit).
Implicit Types s : lwip.

(** The free elements of the two pools, and the blocks of the heap. *)
Record res s (fp fr : list Z) (h : blocks) : Prop := {
  rs_pool : pool_free s MEMP_PBUF_POOL fp;
  rs_ref : pool_free s MEMP_PBUF fr;
  rs_heap : heap_ok s h;
  rs_pool_in : forall a, a ∈ fp -> a ∈ memp_elems MEMP_PBUF_POOL;
  rs_ref_in : forall a, a ∈ fr -> a ∈ memp_elems MEMP_PBUF;
  rs_msg : exists fm, pool_free s MEMP_TCPIP_MSG_API fm /\ forall a, a ∈ fm -> a ∈ memp_elems MEMP_TCPIP_MSG_API }.

(** A buffer of the stack's own is an element of a pool, or a block of the heap. *)
Definition home (h : blocks) (x : Z * pbuf) : Prop :=
  any_bit (pb_flags (snd x)) PBUF_FLAG_IS_CUSTOM = false /\
  (pbuf_get_allocsrc (snd x) = 2 /\ fst x ∈ memp_elems MEMP_PBUF_POOL \/
   pbuf_get_allocsrc (snd x) = 1 /\ fst x ∈ memp_elems MEMP_PBUF \/
   pbuf_get_allocsrc (snd x) = 0 /\ exists c, (fst x, c) ∈ regions 0 h).

Definition from (k : Z) (x : Z * pbuf) : bool := pbuf_get_allocsrc (snd x) =? k.
(** The free list after the buffers [d] from the pool [k] were given back, one by one. *)
Fixpoint given (k : Z) (d : buffers) (free : list Z) : list Z :=
  match d with [] => free | x :: d' => given k d' (if from k x then fst x :: free else free) end.
(** The heap loses the blocks of the others. *)
Definition shrunk (d : buffers) (h h' : blocks) : Prop :=
  (List.filter (from 0) d = [] -> h' = h) /\ exists g, g.*1 = (List.filter (from 0) d).*1 /\ regions 0 h ≡ₚ g ++ regions 0 h'.

(** What is still someone's, or no part of the heap. *)
Definition kept (h : blocks) (x : Z) : Prop := payload 0 h x \/ x < ram \/ ram_end < x.

Lemma payload_regions ptr l x : payload ptr l x <-> exists p c, (p, c) ∈ regions ptr l /\ p <= x < p + c.
Proof.
  revert ptr. induction l as [|[n u] l IH]; intros ptr; cbn [payload regions].
  - split; [done|]. by intros (? & ? & ?%elem_of_nil & _).
  - rewrite IH. destruct u.
    + split.
      * intros [[_ Hx]|(p & c & Hi & Hx)]; [exists (ptr_to_mem (ptr + 8)), (n - 8)|exists p, c].
        -- split; [by left|]. unfold ptr_to_mem in *. lia.
        -- split; [by right|done].
      * intros (p & c & [[= -> ->]|Hi]%elem_of_cons & Hx); [left|right; by exists p, c].
        split; [done|]. unfold ptr_to_mem in *. lia.
    + split; [intros [[? _]|?]; done|by right].
Qed.

Lemma shrunk_payload d h h' x : shrunk d h h' -> payload 0 h' x -> payload 0 h x.
Proof.
  intros (_ & g & _ & Hp). rewrite !payload_regions. intros (p & c & Hi & Hx). exists p, c. split; [|done].
  rewrite Hp. apply elem_of_app. by right.
Qed.

Lemma shrunk_home d h h' x : shrunk d h h' -> home h x -> fst x ∉ d.*1 -> home h' x.
Proof.
  intros (_ & g & Hg & Hp) [Hc Hh] Hx. split; [done|]. destruct Hh as [?|[?|[? (c & Hi)]]]; [by left|by right; left|right; right].
  split; [done|]. exists c. rewrite Hp in Hi. apply elem_of_app in Hi as [Hi|Hi]; [|done]. exfalso. apply Hx.
  assert (fst x ∈ g.*1) as Hi' by (apply list_elem_of_fmap; by exists (fst x, c)). rewrite Hg in Hi'.
  apply elem_of_fst in Hi' as (b & Hb). apply elem_of_fst. exists b. apply list_elem_of_In, filter_In in Hb as [Hb _]. by apply list_elem_of_In.
Qed.

Lemma home_kept s h x : heap_ok s h -> home h x -> kept h (fst x).
Proof.
  intros [[pe Ht] _ _ _ _] [_ [[_ Hi]|[[_ Hi]|[_ (c & Hi)]]]]; [right; by eapply elems_outside..|left].
  apply payload_regions. exists (fst x), c. split; [done|]. apply regions_apart in Ht as [_ Hf].
  rewrite Forall_forall in Hf. apply Hf in Hi as (_ & _ & ? & _). cbn in *. lia.
Qed.

(** What a step changes besides [A] and the heap's own memory. *)
Record calm (A : Z -> Prop) (h' : blocks) s s' : Prop := {
  cm_cells x : ~ A x -> kept h' x -> lw_cells s' !! x = lw_cells s !! x;
  cm_valid x : kept h' x -> lw_valid s' x = lw_valid s x;
  cm_data : lw_data s' = lw_data s;
  cm_tab t : t <> MEMP_PBUF_POOL -> t <> MEMP_PBUF -> lw_tab s' t = lw_tab s t;
  cm_pending : pbuf_free_ooseq_pending s' = pbuf_free_ooseq_pending s;
  cm_mbox : tcpip_mbox s' = tcpip_mbox s }.

Lemma calm_chain (A A1 A2 : Z -> Prop) h1 h2 s1 s2 s3 :
  calm A1 h1 s1 s2 -> calm A2 h2 s2 s3 -> (forall x, A1 x \/ A2 x -> A x) -> (forall x, kept h2 x -> kept h1 x) -> calm A h2 s1 s3.
Proof.
  intros [c1 v1 d1 t1 p1 m1] [c2 v2 d2 t2 p2 m2] HA Hk. split; try congruence.
  - intros x Hx Hkx. rewrite c2, c1; auto.
  - intros x Hkx. rewrite v2, v1; auto.
  - intros t ??. rewrite t2, t1; auto.
Qed.

Lemma heap_ok_agree s s' h :
  (forall a, ram <= a <= ram_end -> lw_cells s' !! a = lw_cells s !! a) -> lw_lfree s' = lw_lfree s -> lw_valid s' = lw_valid s ->
  heap_ok s h -> heap_ok s' h.
Proof.
  intros Hc Hl Hv [[pe Ht] He Hh Hlf Hval]. split; rewrite ?Hl, ?Hv; try done.
  - exists pe. apply (tiles_agree (lw_cells s)); [|done]. intros o Ho. apply Hc.
    pose proof (heads_range _ _ _ _ _ _ _ Ht Ho). unfold ram_end, ptr_to_mem. lia.
  - rewrite Hc; [done|]. unfold ram_end, ptr_to_mem. change MEM_SIZE_ALIGNED with 4096. lia.
Qed.

(** A store to an object that is on no free list, outside the heap. *)
Lemma res_put s fp fr h t a c : res s fp fr h -> a ∈ memp_elems t -> a ∉ fp -> a ∉ fr -> t <> MEMP_TCPIP_MSG_API ->
  res (with_cells (insert a c) s) fp fr h.
Proof.
  intros [Hp Hr Hh Hpi Hri (fm & Hm & Hmi)] Ha Hnp Hnr Ht. split; try done.
  - by apply pool_free_insert.
  - by apply pool_free_insert.
  - apply (heap_ok_agree s); try done. intros x Hx. cbn. rewrite lookup_insert_ne; [done|].
    apply elems_outside in Ha. lia.
  - exists fm. split; [|done]. apply pool_free_insert; [done|]. intros Hi. apply Ht, (elems_apart _ _ a); [done|by apply Hmi].
Qed.

Lemma wp_release_pool t a fp fr h s (Q : unit -> lwip -> Prop) :
  t = MEMP_PBUF_POOL \/ t = MEMP_PBUF -> res s fp fr h -> a ∈ memp_elems t -> a ∉ fp -> a ∉ fr ->
  (forall s', res s' (if decide (t = MEMP_PBUF_POOL) then a :: fp else fp) (if decide (t = MEMP_PBUF) then a :: fr else fr) h ->
     calm (fun x => x = a) h s s' -> Q tt s') ->
  wp (memp_free t a) s Q.
Proof.
  intros Ht Hres Ha Hnp Hnr HQ. pose proof (elem_pos t a Ha) as Ha0. apply wp_memp_free; [done|]. apply HQ.
  - assert (res (with_cells (insert a (Link (lw_tab s t))) s) fp fr h) as Hres'.
    { apply (res_put _ _ _ _ t); try done. by destruct Ht as [-> | ->]. }
    destruct Hres as [Hp Hr _ _ _ _]. destruct Hres' as [Hp' Hr' Hh' Hpi Hri (fm & Hm & Hmi)].
    destruct Ht as [-> | ->]; cbn [decide]; rewrite ?decide_True, ?decide_False by done.
    all: split; try (by apply pool_free_push); try (by apply pool_free_other); try (exists fm; split; [by apply pool_free_other|done]).
    all: try (by intros x [->|?]%elem_of_cons; [done|auto]); try (by apply (heap_ok_agree (with_cells (insert a (Link (lw_tab s MEMP_PBUF_POOL))) s)));
      try done. by apply (heap_ok_agree (with_cells (insert a (Link (lw_tab s MEMP_PBUF))) s)).
  - split; cbn; try done.
    + intros x Hx _. by apply lookup_insert_ne.
    + intros t' H1 H2. rewrite decide_False; [done|]. destruct Ht as [-> | ->]; done.
Qed.

Lemma wp_release_heap a c fp fr h s (Q : unit -> lwip -> Prop) :
  res s fp fr h -> (a, c) ∈ regions 0 h ->
  (forall h' s', res s' fp fr h' -> regions 0 h ≡ₚ (a, c) :: regions 0 h' -> calm (fun _ => False) h' s s' -> Q tt s') ->
  wp (mem_free a) s Q.
Proof.
  intros [Hp Hr Hh Hpi Hri (fm & Hfm & Hmi)] (l1 & l2 & -> & ->)%regions_in HQ. rewrite Z.add_0_l.
  apply (wp_mem_free ram_pos l1 (c + 8) l2 s); [done|]. intros s' Hh' [Hc Hv Hd Ht Hpd Hm].
  set (h' := coalesce (l1 ++ (c + 8, false) :: l2)) in *.
  assert (regions 0 (l1 ++ (c + 8, true) :: l2) ≡ₚ (ptr_to_mem (0 + extent l1 + 8), c) :: regions 0 h') as Hreg.
  { unfold h'. rewrite regions_coalesce, !regions_app. cbn [regions]. rewrite Z.add_simpl_r. by rewrite Permutation_middle. }
  assert (forall x, kept h' x -> payload 0 (l1 ++ (c + 8, true) :: l2) x /\ payload 0 h' x \/ x < ram \/ ram_end < x) as Hk.
  { intros x [Hx|Hx]; [left; split; [|done]|by right]. apply payload_regions. apply payload_regions in Hx as (q & k & Hi & Hx).
    exists q, k. split; [|done]. rewrite Hreg. by right. }
  apply (HQ h'); [|done|].
  - assert (forall t free, pool_free s t free -> (forall x, x ∈ free -> x ∈ memp_elems t) -> pool_free s' t free) as Hfree.
    { intros t free Hf Hi. unfold pool_free in *. rewrite Ht. apply (links_agree (lw_cells s)); [|done].
      intros x Hx. apply Hc. right. by apply (elems_outside t), Hi. }
    split; auto. exists fm. auto.
  - split; auto. intros t _ _. by rewrite Ht.
Qed.

Lemma res_not_buf s fp fr h a b : res s fp fr h -> lw_cells s !! a = Some (Buf b) -> (a ∉ fp) /\ (a ∉ fr).
Proof. intros [Hp Hr _ _ _ _] Ha. split; by eapply links_not_buf. Qed.

Lemma wp_release a b c fp fr h s (Q : unit -> lwip -> Prop) :
  res s fp fr h -> home h (a, b) -> lw_cells s !! a = Some (Buf c) ->
  (forall h' s', res s' (given 2 [(a, b)] fp) (given 1 [(a, b)] fr) h' -> shrunk [(a, b)] h h' ->
     calm (fun x => x = a) h' s s' -> Q tt s') ->
  wp (release custom_free_function a b) s Q.
Proof.
  intros Hres [Hcu Hh] Ha HQ. pose proof (res_not_buf _ _ _ _ _ _ Hres Ha) as [Hnp Hnr]. cbn [fst snd] in *.
  unfold release. rewrite Hcu. cbn [given] in HQ. unfold from in HQ. cbn [fst snd] in HQ. unfold shrunk, from in HQ. cbn [List.filter fst snd] in HQ.
  destruct Hh as [[E Hi]|[[E Hi]|[E (k & Hi)]]]; rewrite E in *.
  - apply (wp_release_pool MEMP_PBUF_POOL a fp fr h); try done; [by left|]. intros s' Hres' Hc. apply (HQ h); [done| |done]. split; [done|by exists []].
  - apply (wp_release_pool MEMP_PBUF a fp fr h); try done; [by right|]. intros s' Hres' Hc. apply (HQ h); [done| |done]. split; [done|by exists []].
  - apply (wp_release_heap a k fp fr h); try done. intros h' s' Hres' Hreg Hc. apply (HQ h'); [done|split; [done|by exists [(a, k)]]|].
    destruct Hc as [Hcc Hv Hd Ht Hp Hm]. split; auto.
Qed.

(** ** pbuf_free *)

(** The buffers at the head whose last reference is dropped, and the rest, whose first
    buffer loses one. *)
Fixpoint dead (l : buffers) : buffers :=
  match l with (a, b) :: l' => if pb_ref b =? 1 then (a, b) :: dead l' else [] | [] => [] end.
Fixpoint alive (l : buffers) : buffers :=
  match l with
  | (a, b) :: l' => if pb_ref b =? 1 then alive l' else (a, put_ref (pb_ref b - 1) b) :: l'
  | [] => []
  end.

Lemma given_app k d1 d2 free : given k (d1 ++ d2) free = given k d2 (given k d1 free).
Proof. revert free. induction d1 as [|x d1 IH]; intros free; [done|]. cbn [given app]. apply IH. Qed.

Lemma shrunk_cons x d h h1 h' : shrunk [x] h h1 -> shrunk d h1 h' -> shrunk (x :: d) h h'.
Proof.
  intros (E1 & g1 & Hg1 & Hp1) (E2 & g2 & Hg2 & Hp2). split.
  { cbn [List.filter] in *. destruct (from 0 x); [done|]. intros E. by rewrite E2, E1. }
  exists (g1 ++ g2). split.
  - change (x :: d) with ([x] ++ d). by rewrite fmap_app, List.filter_app, fmap_app, Hg1, Hg2.
  - by rewrite Hp1, Hp2, app_assoc.
Qed.

Lemma shrunk_kept d h h' x : shrunk d h h' -> kept h' x -> kept h x.
Proof. intros Hs [Hx|?]; [left|by right]. by apply (shrunk_payload d h h'). Qed.

Lemma heap_ok_kept s h a c : heap_ok s h -> kept h a -> heap_ok (with_cells (insert a c) s) h.
Proof.
  intros [[pe Ht] He Hho Hlf Hval] Hk. split; try done.
  - exists pe. apply (tiles_agree (lw_cells s)); [|done]. intros o Ho. cbn. apply lookup_insert_ne. intros ->.
    destruct Hk as [Hk|Hk]; [by apply (payload_head _ _ _ _ _ _ _ _ Ht Hk Ho); lia|].
    pose proof (heads_range _ _ _ _ _ _ _ Ht Ho). unfold ram_end, ptr_to_mem in *. lia.
  - cbn. rewrite lookup_insert_ne; [done|]. intros ->. destruct Hk as [Hk|Hk]; [|unfold ram_end, ptr_to_mem in Hk; change MEM_SIZE_ALIGNED with 4096 in Hk; lia].
    apply (payload_range _ _ _ _ _ _ _ Ht) in Hk. unfold ram_end in *. lia.
Qed.

Lemma res_store s fp fr h a b c : res s fp fr h -> lw_cells s !! a = Some (Buf b) -> kept h a ->
  res (with_cells (insert a c) s) fp fr h.
Proof.
  intros Hres Ha Hk. pose proof (res_not_buf _ _ _ _ _ _ Hres Ha) as [Hnp Hnr]. destruct Hres as [Hp Hr Hh Hpi Hri (fm & Hm & Hmi)].
  split; try done; try (by apply pool_free_insert); [by apply heap_ok_kept|].
  exists fm. split; [|done]. apply pool_free_insert; [done|]. by eapply links_not_buf.
Qed.

(** A store in a block of the heap that is in use. *)
Lemma res_heap_store s fp fr h a c : res s fp fr h -> payload 0 h a -> res (with_cells (insert a c) s) fp fr h.
Proof.
  intros [Hp Hr Hh Hpi Hri (fm & Hm & Hmi)] Ha.
  assert (ram <= a <= ram_end) as Hra.
  { pose proof Hh as [[pe Ht] _ _ _ _]. apply (payload_range _ _ _ _ _ _ _ Ht) in Ha. unfold ram_end, ptr_to_mem in *. lia. }
  assert (forall t (l : list Z), (forall x, x ∈ l -> x ∈ memp_elems t) -> a ∉ l) as Hno by (intros t l Hl Hi%Hl%elems_outside; lia).
  split; try done; try (apply pool_free_insert; [done|by eapply Hno]); [apply heap_ok_kept; [done|by left]|].
  exists fm. split; [|done]. apply pool_free_insert; [done|by eapply Hno].
Qed.

(** What a chain [l] is freed to: the buffers that die go back, the others stay a chain. *)
Record freed (l : buffers) fp fr h s s' : Prop := {
  fd_res : exists h', res s' (given 2 (dead l) fp) (given 1 (dead l) fr) h' /\ shrunk (dead l) h h' /\ calm (fun x => x ∈ l.*1) h' s s';
  fd_alive : pseg (lw_cells s') (first_of (alive l) 0) (alive l) 0 }.

(** Buffers that the program may free: they are the stack's own and are referred to. *)
Definition countable (l : buffers) : Prop := Forall (fun x => 1 <= pb_ref (snd x) < 256) l.

Lemma wp_free_loop l : forall fuel count fp fr h s (Q : Z -> lwip -> Prop),
  pseg (lw_cells s) (first_of l 0) l 0 -> res s fp fr h -> Forall (home h) l -> countable l -> (length l < fuel)%nat ->
  (forall s', freed l fp fr h s s' -> Q (u8 (count + Z.of_nat (length (dead l)))) s') -> 0 <= count < 256 ->
  wp (pbuf_free_loop custom_free_function fuel (first_of l 0) count) s Q.
Proof.
  induction l as [|[a b] l IH]; intros fuel count fp fr h s Q Hl Hres Hh Hc Hf HQ Hcount; (destruct fuel as [|fuel]; [cbn in Hf; lia|]).
  - cbn. apply wp_ret. rewrite <- (u8_small count), <- (Z.add_0_r count) by done. apply HQ. split; [|done].
    exists h. split; [done|]. split; [split; [done|by exists []]|]. by split.
  - pose proof (pseg_nodup _ _ _ Hl) as Hnd. destruct Hl as (_ & Ha0 & Ha & Hl). cbn [first_of pbuf_free_loop].
    destruct (Z.eqb_spec a 0); [done|]. apply wp_step, (wp_pbuf_at _ b); [done|].
    apply Forall_cons in Hh as [Hha Hh]. apply Forall_cons in Hc as [Hca Hc]. cbn [snd] in Hca.
    apply NoDup_cons in Hnd as [Hnin Hnd].
    pose proof (home_kept _ _ _ (rs_heap _ _ _ _ Hres) Hha) as Hka. cbn [fst] in Hka.
    apply wp_step, (wp_pbuf_set _ _ b); [done|]. rewrite (u8_small (pb_ref b - 1)) by lia. cbn [dead alive] in *.
    set (s1 := with_cells (insert a (Buf (put_ref (pb_ref b - 1) b))) s).
    assert (res s1 fp fr h) as Hres1 by by apply (res_store _ _ _ _ _ b).
    pose proof (pseg_insert _ a (Buf (put_ref (pb_ref b - 1) b)) _ _ _ Hnin Hl) as Hl1. pose proof (pseg_first _ _ _ _ Hl) as Efirst.
    destruct (Z.eqb_spec (pb_ref b - 1) 0) as [E|E], (Z.eqb_spec (pb_ref b) 1) as [E'|E']; try lia.
    + apply wp_step, (wp_release a b (put_ref (pb_ref b - 1) b) fp fr h); [done|done|cbn; by rewrite lookup_insert_eq|].
      intros h1 s2 Hres2 Hs2 Hcalm. rewrite Efirst in *.
      assert (Forall (fun x => kept h1 (fst x)) l /\ Forall (home h1) l) as [Hk1 Hh1].
      { split; apply Forall_forall; intros x Hx; (assert (home h1 x) as Hx1; [|by try apply (home_kept s2); try apply Hres2]).
        all: rewrite Forall_forall in Hh; apply (shrunk_home [(a, b)] h); auto; intros [E2|?%elem_of_nil]%elem_of_cons; [|done];
          apply Hnin; rewrite <- E2; apply list_elem_of_fmap; by exists x. }
      assert (pseg (lw_cells s2) (first_of l 0) l 0) as Hl2.
      { apply (pseg_agree (lw_cells s1)); [|done]. intros x Hx. apply (cm_cells _ _ _ _ Hcalm).
        - by intros ->.
        - apply elem_of_fst in Hx as (c & Hx). rewrite Forall_forall in Hk1. by apply (Hk1 (x, c)). }
      apply (IH fuel _ (given 2 [(a, b)] fp) (given 1 [(a, b)] fr) h1); [done|done|done|done|cbn in Hf; lia| |apply u8_range].
      intros s' [(h' & Hres' & Hs' & Hcalm') Hal]. cbn [length]. replace (u8 (u8 (count + 1) + Z.of_nat (length (dead l)))) with
        (u8 (count + Z.of_nat (S (length (dead l))))) by (unfold u8; rewrite Z.add_mod_idemp_l by lia; f_equal; lia).
      apply HQ. split; cbn [dead alive]; rewrite E', Z.eqb_refl; [|done].
      exists h'. split; [done|]. split; [by apply (shrunk_cons _ _ _ h1)|].
      eapply (calm_chain _ (fun x => x = a) (fun x => x ∈ l.*1) h1 h' s s2 s').
      * destruct Hcalm as [c1 v1 d1 t1 p1 m1]. split; try done. intros x Hx Hkx. rewrite c1 by done. cbn. by rewrite lookup_insert_ne.
      * done.
      * intros x [->|?]; [by left|by right].
      * intros x. by apply (shrunk_kept (dead l)).
    + destruct fuel as [|fuel]; [cbn in Hf; lia|]. cbn [pbuf_free_loop]. change (0 =? 0) with true. apply wp_ret.
      rewrite <- (u8_small count), <- (Z.add_0_r count) by done. apply HQ.
      split; cbn [dead alive]; (destruct (Z.eqb_spec (pb_ref b) 1) as [?|_]; [done|]).
      * exists h. split; [done|]. split; [split; [done|by exists []]|]. split; try done. intros x Hx _. cbn. apply lookup_insert_ne. intros ->. apply Hx. by left.
      * cbn [first_of]. split; [done|]. split; [done|]. split; [cbn; by rewrite lookup_insert_eq|]. done.
Qed.

Lemma wp_pbuf_free l fuel fp fr h s (Q : Z -> lwip -> Prop) :
  pseg (lw_cells s) (first_of l 0) l 0 -> res s fp fr h -> Forall (home h) l -> countable l -> (length l < fuel)%nat ->
  (forall s', freed l fp fr h s s' -> Q (u8 (Z.of_nat (length (dead l)))) s') -> wp (pbuf_free custom_free_function fuel (first_of l 0)) s Q.
Proof.
  intros Hl Hres Hh Hc Hf HQ. unfold pbuf_free. destruct (Z.eqb_spec (first_of l 0) 0) as [E|E].
  - destruct l as [|[a b] l]; [|by destruct Hl as (_ & ? & _)]. apply wp_ret, HQ. split; [|done].
    exists h. split; [done|]. split; [split; [done|by exists []]|by split].
  - by apply (wp_free_loop l fuel 0 fp fr h).
Qed.

(** Pbuf_free drops one reference of the chain's first buffer.  A buffer whose last
    reference that was goes back to its pool or to the heap, and drops the reference of
    the next one; the first buffer that is still referred to ends this, and the
    rest of the chain is as it was. *)
Theorem pbuf_free_releases l fuel fp fr h s :
  pseg (lw_cells s) (first_of l 0) l 0 -> res s fp fr h -> Forall (home h) l -> countable l -> (length l < fuel)%nat ->
  wp (pbuf_free custom_free_function fuel (first_of l 0)) s (fun n s' => n = u8 (Z.of_nat (length (dead l))) /\ freed l fp fr h s s').
Proof. intros. by apply (wp_pbuf_free l fuel fp fr h). Qed.
End free.

(** The layout of [sim_pools] is one. *)
#[local] Existing Instance sim_pools.
#[local] Instance sim_layout : LwLayout.
Proof.
  split.
  - exact sim_pools_apart.
  - by vm_compute.
  - by vm_compute.
  - intros t a Ha%sim_elems_range. right. change ram_end with 0x20031000. destruct t; cbn in Ha; lia.
  - intros t a Ha%sim_elems_range. destruct t; cbn in Ha; lia.
Defined.
