(* ===== verification/PbufAlloc.v ===== *)
(** Allocation of packet buffers: a chain of pool elements of the length asked for, or
    nothing, with every element back in the pool. *)
From S2P Require Import Prelude Machine LwMem LwHeap Pbuf PbufChain.
From stdpp Require Import list gmap.

#[local] Open Scope Z_scope.
#[local] Open Scope fw_scope.

Section alloc.
Context {P : Pools} {L : LwLayout} (custom_free_function : Z -> lw unit).
Implicit Types s : lwip.

(** Everything but the objects in [A], the free lists and the messages stays. *)
Record still (A : Z -> Prop) s s' : Prop := {
  st_cells x : ~ A x -> lw_cells s' !! x = lw_cells s !! x;
  st_valid : lw_valid s' = lw_valid s;
  st_data : lw_data s' = lw_data s }.

Lemma still_trans (A A1 A2 : Z -> Prop) s1 s2 s3 :
  still A1 s1 s2 -> still A2 s2 s3 -> (forall x, A1 x \/ A2 x -> A x) -> still A s1 s3.
Proof.
  intros [c1 v1 d1] [c2 v2 d2] HA. split; try congruence. intros x Hx. rewrite c2, c1; auto.
Qed.

(** ** Taking an element *)

Lemma wp_pool_get fp fr h s (Q : Z -> lwip -> Prop) :
  res s fp fr h -> (fp = [] -> Q 0 s) ->
  (forall a l s', fp = a :: l -> res s' l fr h -> a ∈ memp_elems MEMP_PBUF_POOL -> a ∉ l -> a ∉ fr -> still (fun _ => False) s s' -> Q a s') ->
  wp (memp_malloc MEMP_PBUF_POOL) s Q.
Proof.
  intros Hres H0 H1. pose proof Hres as [Hp Hr Hh Hpi Hri (fm & Hm & Hmi)]. apply (wp_memp_malloc _ fp); [done|done|].
  intros a l n -> Ha Hn Hl. pose proof (links_nodup _ _ _ Hp) as [Hnin _]%NoDup_cons.
  apply (H1 a l); try done.
  - split; [by apply pool_free_pop|by apply pool_free_other|by apply (heap_ok_agree s)| |done|].
    + intros x Hx. apply Hpi. by right.
    + exists fm. split; [by apply pool_free_other|done].
  - apply Hpi. by left.
  - intros Hi. apply Hri in Hi. assert (a ∈ memp_elems MEMP_PBUF_POOL) as Hi' by (apply Hpi; by left).
    by pose proof (elems_apart _ _ _ Hi Hi').
Qed.

(** ** An empty pool *)

Lemma wp_try_callback f c s fp fr h (Q : Z -> lwip -> Prop) :
  res s fp fr h ->
  (forall r s', res s' fp fr h -> still (fun x => x ∈ memp_elems MEMP_TCPIP_MSG_API) s s' -> Q r s') ->
  wp (tcpip_try_callback f c) s Q.
Proof.
  intros Hres HQ. pose proof Hres as [Hp Hr Hh Hpi Hri (fm & Hm & Hmi)]. apply wp_step, (wp_memp_malloc _ fm); [done|..].
  - intros ->. cbn. by apply wp_ret, HQ.
  - intros a l n -> Ha Hn Hl. destruct (Z.eqb_spec a 0); [done|]. apply wp_step, wp_put_cell.
    pose proof (links_nodup _ _ _ Hm) as [Hnin _]%NoDup_cons.
    assert (a ∈ memp_elems MEMP_TCPIP_MSG_API) as Hae by (apply Hmi; by left).
    assert (forall x, x ∈ fp -> x <> a) as Hnp.
    { intros x Hx ->. apply Hpi in Hx. by pose proof (elems_apart _ _ _ Hx Hae). }
    assert (forall x, x ∈ fr -> x <> a) as Hnr.
    { intros x Hx ->. apply Hri in Hx. by pose proof (elems_apart _ _ _ Hx Hae). }
    assert (forall l' c, (forall x, x ∈ l' -> x ∈ memp_elems MEMP_TCPIP_MSG_API) ->
      forall s', lw_cells s' = <[a := c]> (lw_cells s) -> lw_valid s' = lw_valid s -> lw_data s' = lw_data s -> lw_lfree s' = lw_lfree s ->
      (forall t, t <> MEMP_TCPIP_MSG_API -> lw_tab s' t = lw_tab s t) -> pool_free s' MEMP_TCPIP_MSG_API l' ->
      res s' fp fr h /\ still (fun x => x ∈ memp_elems MEMP_TCPIP_MSG_API) s s') as Hres'.
    { intros l' c' Hl' s' Ec Ev Ed El Et Hf. split; [split; try done|].
      - unfold pool_free. rewrite Ec, Et by done. apply links_insert; [|done]. intros Hi. by apply (Hnp a).
      - unfold pool_free. rewrite Ec, Et by done. apply links_insert; [|done]. intros Hi. by apply (Hnr a).
      - apply (heap_ok_agree s); try done. intros x Hx. rewrite Ec. apply lookup_insert_ne. intros <-. apply elems_outside in Hae. lia.
      - by exists l'.
      - split; try done. intros x Hx. rewrite Ec. apply lookup_insert_ne. by intros <-. }
    assert (links (<[a := Callback f c]> (lw_cells s)) n l) as Hl2 by by apply links_insert.
    apply wp_step, wp_step, wp_lw_get. destruct (_ <? TCPIP_MBOX_SIZE).
    + apply wp_step, wp_lw_mod, wp_ret. cbn. apply wp_ret.
      match goal with |- Q _ ?t => destruct (Hres' l (Callback f c)) with (s' := t) as [? ?]; try done; [..|by apply HQ] end.
      * intros x Hx. apply Hmi. by right.
      * intros t Ht. cbn. by rewrite decide_False.
    + apply wp_ret. cbn. apply wp_step, wp_memp_free; [done|]. apply wp_ret.
      match goal with |- Q _ ?t => destruct (Hres' (a :: l) (Link n)) with (s' := t) as [? ?]; try done; [..|by apply HQ] end.
      * cbn. by rewrite insert_insert_eq.
      * intros t Ht. cbn. by rewrite !decide_False.
      * unfold pool_free. cbn. split; [done|]. split; [done|]. exists n. rewrite lookup_insert_eq. split; [done|].
        by apply links_insert.
Qed.

Lemma wp_pool_is_empty s fp fr h (Q : unit -> lwip -> Prop) :
  res s fp fr h ->
  (forall s', res s' fp fr h -> still (fun x => x ∈ memp_elems MEMP_TCPIP_MSG_API) s s' -> Q tt s') ->
  wp pbuf_pool_is_empty s Q.
Proof.
  intros Hres HQ. assert (forall v t, res t fp fr h -> res (with_pending v t) fp fr h) as Hpend.
  { intros v t [Hp Hr Hh Hpi Hri (fm & Hm & Hmi)]. split; try done; [by apply (heap_ok_agree t)|by exists fm]. }
  unfold pbuf_pool_is_empty. apply wp_step, wp_lw_get, wp_step, wp_lw_mod. destruct (_ =? 0).
  - apply wp_step, (wp_try_callback _ _ _ fp fr h); [by apply Hpend|]. intros r s' Hres' [c v d]. destruct (negb _).
    + apply wp_lw_mod, HQ; [by apply Hpend|by split].
    + apply wp_ret, HQ; [done|by split].
  - apply wp_ret, HQ; [by apply Hpend|by split].
Qed.

(** ** The chain that is built *)

(** The bytes a buffer holds at most behind [offset] bytes for headers. *)
Definition room (offset : Z) : Z := u16 (PBUF_POOL_BUFSIZE_ALIGNED - LWIP_MEM_ALIGN offset).
Definition new_buf (a rem offset : Z) : pbuf :=
  Pbuf 0 (LWIP_MEM_ALIGN (a + SIZEOF_STRUCT_PBUF + offset)) rem (Z.min rem (room offset)) (u8 PBUF_POOL) 0 1 NETIF_NO_INDEX.

(** The chain of the elements [l] for [rem] bytes, the first of them behind [offset]. *)
Fixpoint pool_chain (l : list Z) (rem offset : Z) : buffers :=
  match l with
  | [] => []
  | a :: l' => (a, put_next (hd 0 l') (new_buf a rem offset)) :: pool_chain l' (rem - room offset) 0
  end.

(** How many elements it takes. *)
Definition pool_need (rem offset : Z) : nat := S (Z.to_nat ((Z.max 0 (rem - room offset) + 591) / 592)).

Lemma pool_need_last rem offset : rem <= room offset -> pool_need rem offset = 1%nat.
Proof. intros. unfold pool_need. rewrite Z.max_l by lia. done. Qed.

Lemma pool_need_more rem offset : room offset < rem -> pool_need rem offset = S (pool_need (rem - room offset) 0).
Proof. intros. unfold pool_need. change (room 0) with 592. f_equal. zlia. Qed.

(** The last buffer of [l] is linked to [q]. *)
Fixpoint relink (l : buffers) (q : Z) : buffers :=
  match l with
  | [] => []
  | [(a, b)] => [(a, put_next q b)]
  | x :: l' => x :: relink l' q
  end.

Lemma relink_snoc l a b q : relink (l ++ [(a, b)]) q = l ++ [(a, put_next q b)].
Proof. induction l as [|[x c] l IH]; [done|]. cbn [app relink]. rewrite IH. by destruct l. Qed.

Lemma relink_fst l q : (relink l q).*1 = l.*1.
Proof. induction l as [|[x c] l IH]; [done|]. cbn [relink]. destruct l; [done|]. by rewrite !fmap_cons, IH. Qed.

Lemma pool_chain_fst l rem offset : (pool_chain l rem offset).*1 = l.
Proof. revert rem offset. induction l as [|a l IH]; intros; [done|]. cbn [pool_chain]. rewrite fmap_cons, IH. done. Qed.

(** Buffers of the pool that only the allocation knows. *)
Definition fresh (x : Z * pbuf) : Prop :=
  fst x ∈ memp_elems MEMP_PBUF_POOL /\ pb_type (snd x) = u8 PBUF_POOL /\ pb_flags (snd x) = 0 /\ pb_ref (snd x) = 1.

Lemma fresh_home h l : Forall fresh l -> Forall (home h) l /\ countable l /\ dead l = l /\ alive l = [] /\
  (forall k free, given k l free = if k =? 2 then reverse (l.*1) ++ free else free) /\ List.filter (from 0) l = [].
Proof.
  induction l as [|[a b] l IH]; intros Hf.
  - do 4 (split; [constructor|]). split; [|done]. intros k free. by destruct (k =? 2).
  - apply Forall_cons in Hf as [(Ha & Ht & Hfl & Hr) Hf]. destruct (IH Hf) as (H1 & H2 & H3 & H4 & H5 & H6). cbn [fst snd] in *.
    assert (pbuf_get_allocsrc b = 2) as Hsrc by (unfold pbuf_get_allocsrc; by rewrite Ht).
    split; [|split; [|split; [|split; [|split]]]].
    + constructor; [|done]. split; cbn [fst snd]; [by rewrite Hfl|]. by left.
    + constructor; [cbn; lia|done].
    + cbn [dead]. by rewrite Hr, H3.
    + cbn [alive]. by rewrite Hr.
    + intros k free. cbn [given]. unfold from at 1. cbn [snd fst]. rewrite Hsrc, fmap_cons, reverse_cons, H5. cbn [fst].
      destruct (Z.eqb_spec 2 k), (Z.eqb_spec k 2); try lia; [by rewrite <- app_assoc|done].
    + cbn [List.filter]. unfold from at 1. cbn [snd]. by rewrite Hsrc.
Qed.

Lemma pseg_relink m p l x b q : pseg m p (l ++ [(x, b)]) 0 -> pseg (<[x := Buf (put_next q b)]> m) p (l ++ [(x, put_next q b)]) q.
Proof.
  intros Hl. pose proof (pseg_nodup _ _ _ Hl) as Hn. rewrite fmap_app in Hn. apply NoDup_app in Hn as (_ & Hn & _).
  apply pseg_app in Hl as [H1 (_ & ? & _ & _)]. apply pseg_app. split.
  - apply pseg_insert; [|done]. intros Hi. apply (Hn x Hi). by left.
  - cbn. rewrite lookup_insert_eq. done.
Qed.

(** Everything stays but the objects in [A], the heap's own memory, and the free lists. *)
Record mild (A : Z -> Prop) (h : blocks) s s' : Prop := {
  md_cells x : ~ A x -> kept h x -> lw_cells s' !! x = lw_cells s !! x;
  md_valid x : kept h x -> lw_valid s' x = lw_valid s x;
  md_data : lw_data s' = lw_data s }.

Lemma mild_trans (A : Z -> Prop) h s1 s2 s3 : mild A h s1 s2 -> mild A h s2 s3 -> mild A h s1 s3.
Proof. intros [c1 v1 d1] [c2 v2 d2]. split; [intros; rewrite c2, c1; auto|intros; rewrite v2, v1; auto|congruence]. Qed.

Lemma still_mild (A A' : Z -> Prop) h s s' : still A s s' -> (forall x, A x -> A' x) -> mild A' h s s'.
Proof. intros [c v d] HA. split; [intros; apply c; auto|by rewrite v|done]. Qed.

(** The elements [U] of the pool that an allocation uses, and those for messages. *)
Definition pool_area (U : list Z) (x : Z) : Prop := x ∈ U \/ x ∈ memp_elems MEMP_TCPIP_MSG_API.

Lemma mild_weaken U U' h s s' : mild (pool_area U) h s s' -> (forall x, x ∈ U -> x ∈ U') -> mild (pool_area U') h s s'.
Proof. intros [c v d] HU. split; [|done|done]. intros x Hx. apply c. intros [?|?]; apply Hx; [left; by apply HU|by right]. Qed.

(** Nothing is left: the chain so far goes back. *)
Lemma wp_alloc_fails U full l fr h s (Q : Z -> lwip -> Prop) :
  (forall x, x ∈ l.*1 -> x ∈ U) ->
  pseg (lw_cells s) (first_of l 0) l 0 -> Forall fresh l -> res s [] fr h -> (length l < full)%nat ->
  (forall s', res s' (reverse (l.*1)) fr h -> mild (pool_area U) h s s' -> Q 0 s') ->
  wp (pbuf_pool_is_empty ;;
      (if negb (first_of l 0 =? 0) then pbuf_free custom_free_function full (first_of l 0) ;; ret tt else ret tt) ;;
      ret 0) s Q.
Proof.
  intros HU Hl Hf Hres Hfull HQ. apply wp_step, (wp_pool_is_empty _ [] fr h); [done|]. intros s1 Hres1 Hst.
  assert (mild (pool_area U) h s s1) as Hm1 by (apply (still_mild _ _ _ _ _ Hst); intros x; by right).
  assert (pseg (lw_cells s1) (first_of l 0) l 0) as Hl1.
  { apply (pseg_agree (lw_cells s)); [|done]. intros x Hx. apply (st_cells _ _ _ Hst). intros Hx'.
    apply elem_of_fst in Hx as (b & Hb). rewrite Forall_forall in Hf. apply Hf in Hb as [Hb _]. by pose proof (elems_apart _ _ _ Hb Hx'). }
  destruct l as [|[a b] l].
  - change (negb (first_of [] 0 =? 0)) with false. apply wp_step, wp_ret, wp_ret. by apply HQ.
  - cbn [first_of] in *. pose proof Hl as (_ & Ha & _). unfold pbuf_free. destruct (Z.eqb_spec a 0); [done|]. cbn [negb].
    destruct (fresh_home h _ Hf) as (Hh & Hc & Hd & Hal & Hg & Hfi). apply wp_step, wp_step.
    apply (wp_free_loop custom_free_function ((a, b) :: l) full 0 [] fr h); try done. intros s2 [(h' & Hres2 & [Eh _] & [c v d t p m]) _].
    apply wp_ret, wp_ret. rewrite Hd in *. rewrite Eh in * by done. rewrite !Hg in Hres2. cbn [Z.eqb] in Hres2. rewrite app_nil_r in Hres2.
    apply HQ; [done|]. apply (mild_trans _ _ _ s1); [done|]. split; [|done|done]. intros x Hx Hk. apply c; [|done]. intros Hi. apply Hx. left. by apply HU.
Qed.

(** The new element [a] is linked behind the chain so far. *)
Lemma wp_link_last U l last a rem offset fp fr h s (l1 := relink l a ++ [(a, new_buf a rem offset)]) :
  (forall x, x ∈ l.*1 -> x ∈ U) ->
  pseg (lw_cells s) (first_of l 0) l 0 -> lw_cells s !! a = Some (Buf (new_buf a rem offset)) -> a <> 0 -> a ∉ l.*1 ->
  (forall x b l0, l = l0 ++ [(x, b)] -> last = x) -> Forall fresh l -> res s fp fr h ->
  wp (if first_of l 0 =? 0 then ret tt else pbuf_set last (put_next a)) s
    (fun _ s' => pseg (lw_cells s') (first_of l1 0) l1 0 /\ res s' fp fr h /\ mild (pool_area U) h s s').
Proof.
  intros HU Hl Ha Ha0 Hal Hlast Hf Hres. destruct l as [|[x b] l _] using rev_ind.
  { cbn [first_of]. change (0 =? 0) with true. apply wp_ret. by split. }
  rewrite (Hlast x b l eq_refl). assert (first_of (l ++ [(x, b)]) 0 <> 0) as Hne.
  { destruct l as [|[y c] l]; cbn in Hl; destruct Hl as (_ & ? & _); done. }
  destruct (Z.eqb_spec (first_of (l ++ [(x, b)]) 0) 0); [done|].
  assert ((x, b) ∈ l ++ [(x, b)]) as Hxb by (apply elem_of_app; right; by left).
  pose proof (pseg_lookup _ _ _ _ _ _ Hl Hxb) as [_ Hx2].
  assert (kept h x) as Hkx.
  { apply (home_kept _ _ (x, b) (rs_heap _ _ _ _ Hres)). destruct (fresh_home h _ Hf) as (Hh & _). rewrite Forall_forall in Hh. by apply Hh. }
  apply (wp_pbuf_set _ _ b); [done|]. split; [|split].
  - pose proof (pseg_relink _ _ _ _ _ a Hl) as Hx3. unfold l1. rewrite relink_snoc.
    assert (first_of ((l ++ [(x, put_next a b)]) ++ [(a, new_buf a rem offset)]) 0 = first_of (l ++ [(x, b)]) 0) as ->.
    { rewrite !first_of_fst, !fmap_app. by destruct l. }
    apply pseg_app. split; [exact Hx3|]. cbn. split; [done|]. split; [done|]. split; [|done].
    rewrite lookup_insert_ne; [done|]. intros ->. apply Hal. rewrite fmap_app. apply elem_of_app. right. by left.
  - by apply (res_store _ _ _ _ _ b).
  - split; try done. intros y Hy Hky. cbn. apply lookup_insert_ne. intros <-. apply Hy. left.
    apply HU, elem_of_fst. by exists b.
Qed.

Lemma wp_alloc_loop U full fuel : forall l last fp fr h s rem offset (Q : Z -> lwip -> Prop),
  (forall x, x ∈ l.*1 ++ fp -> x ∈ U) -> pseg (lw_cells s) (first_of l 0) l 0 -> (forall x b l0, l = l0 ++ [(x, b)] -> last = x) -> Forall fresh l -> res s fp fr h ->
  (length l + length fp < full)%nat -> (length fp < fuel)%nat -> 0 <= rem < 65536 -> 0 < room offset ->
  ((length fp < pool_need rem offset)%nat -> forall s', res s' (reverse (l.*1 ++ fp)) fr h -> mild (pool_area U) h s s' -> Q 0 s') ->
  ((pool_need rem offset <= length fp)%nat -> forall s',
     let l' := relink l (hd 0 fp) ++ pool_chain (take (pool_need rem offset) fp) rem offset in
     res s' (drop (pool_need rem offset) fp) fr h -> pseg (lw_cells s') (first_of l' 0) l' 0 -> mild (pool_area U) h s s' ->
     Q (first_of l' 0) s') ->
  wp (alloc_pool custom_free_function full fuel (first_of l 0) last rem offset) s Q.
Proof.
  induction fuel as [|fuel IH]; intros l last fp fr h s rem offset Q HU Hl Hlast Hf Hres Hfull Hfuel Hrem Hroom H0 H1; [lia|].
  cbn zeta in IH, H1. cbn [alloc_pool].
  apply wp_step, (wp_pool_get fp fr h); [done|..].
  - intros ->. change (0 =? 0) with true. cbn [length] in *. rewrite app_nil_r in H0.
    apply (wp_alloc_fails U full l fr h); [intros x Hx; apply HU, elem_of_app; by left|done|done|done|lia|]. apply H0. unfold pool_need. lia.
  - intros a fp' s1 -> Hres1 Hae Hnp Hnr Hst. pose proof (elem_pos _ _ Hae). destruct (Z.eqb_spec a 0); [done|].
    cbn zeta. fold (room offset). set (qlen := Z.min rem (room offset)).
    apply wp_step, wp_put_cell. change (Pbuf 0 _ rem qlen (u8 PBUF_POOL) 0 1 NETIF_NO_INDEX) with (new_buf a rem offset).
    set (s2 := with_cells (insert a (Buf (new_buf a rem offset))) s1).
    assert (res s2 fp' fr h) as Hres2 by by apply (res_put _ _ _ _ MEMP_PBUF_POOL).
    assert (a ∉ l.*1) as Hal.
    { intros (b & Hb)%elem_of_fst. apply (pseg_lookup _ _ _ _ _ _ Hl) in Hb as [_ Hb].
      pose proof (res_not_buf _ _ _ _ _ _ Hres Hb) as [Hn _]. apply Hn. by left. }
    assert (pseg (lw_cells s2) (first_of l 0) l 0) as Hl2.
    { apply pseg_insert; [done|]. apply (pseg_agree (lw_cells s)); [|done]. intros x _. apply (st_cells _ _ _ Hst). by intros []. }
    set (l1 := relink l a ++ [(a, new_buf a rem offset)]).
    assert (mild (pool_area U) h s s2) as Hm2.
    { destruct Hst as [c v d]. split; [|by rewrite <- v|by rewrite <- d]. intros x Hx _. cbn. rewrite lookup_insert_ne; [apply c; by intros []|].
      intros <-. apply Hx. left. apply HU, elem_of_app. right. by left. }
    apply wp_step. eapply wp_mono; [apply (wp_link_last U l last a rem offset fp' fr h); try done; [intros x Hx; apply HU, elem_of_app; by left|cbn; by rewrite lookup_insert_eq]|].
    intros [] s3 (Hl3 & Hres3 & Hm3). fold l1 in Hl3. apply (mild_trans _ _ _ _ _ Hm2) in Hm3. clear Hm2.
    assert (Forall fresh l1) as Hf1.
    { unfold l1. destruct l as [|[x b] l _] using rev_ind; [by constructor|]. rewrite relink_snoc.
      apply Forall_app in Hf as [Hf1 Hf2]. apply Forall_cons in Hf2 as [Hf2 _].
      repeat (apply Forall_app; split); [done|by constructor|by constructor]. }
    assert ((if first_of l 0 =? 0 then a else first_of l 0) = first_of l1 0) as ->.
    { unfold l1. rewrite !first_of_fst, fmap_app, relink_fst. destruct l as [|[x b] l]; [done|]. destruct Hl as (_ & Hx & _).
      cbn. by destruct (Z.eqb_spec x 0). }
    assert (u16 (rem - qlen) = rem - qlen) as -> by (apply u16_small; unfold qlen; lia).
    assert (room offset <= 65535) as Hro by (pose proof (u16_range (PBUF_POOL_BUFSIZE_ALIGNED - LWIP_MEM_ALIGN offset)); unfold room; lia).
    assert (l1.*1 ++ fp' = l.*1 ++ a :: fp') as Eadd.
    { unfold l1. rewrite fmap_app, relink_fst, <- app_assoc. done. }
    assert (length l1 = S (length l)) as Elen.
    { unfold l1. rewrite length_app, <- (length_fmap fst (relink l a)), relink_fst, length_fmap. cbn. lia. }
    cbn [length] in *. destruct (Z.ltb_spec 0 (rem - qlen)) as [Hmore|Hdone].
    + assert (room offset < rem) as Hgt by (unfold qlen in *; lia). rewrite (pool_need_more _ _ Hgt) in H0, H1.
      replace (rem - qlen) with (rem - room offset) in * by (unfold qlen; lia).
      apply (IH l1 a fp' fr h); [by rewrite Eadd|done| |done|done|lia|lia|lia|done|..].
      * intros x b l0 E. unfold l1 in E. apply app_inj_tail in E as [_ [= -> _]]. done.
      * intros Hn s4 Hr Hm. rewrite Eadd in Hr. apply H0; [lia|done|by eapply mild_trans].
      * intros Hn s4 Hr Hp Hm. cbn [take drop hd pool_chain] in H1.
        assert (relink l1 (hd 0 fp') ++ pool_chain (take (pool_need (rem - room offset) 0) fp') (rem - room offset) 0 =
          relink l a ++ (a, put_next (hd 0 (take (pool_need (rem - room offset) 0) fp')) (new_buf a rem offset)) ::
            pool_chain (take (pool_need (rem - room offset) 0) fp') (rem - room offset) 0) as E.
        { unfold l1. rewrite relink_snoc, <- app_assoc. cbn [app]. do 4 f_equal. by destruct fp'. }
        rewrite E in *. apply H1; [lia|done|done|by eapply mild_trans].
    + assert (rem <= room offset) as Hle by (unfold qlen in *; lia). rewrite (pool_need_last _ _ Hle) in H1. cbn [take drop hd pool_chain] in H1.
      apply wp_ret. apply H1; [lia|done|done|done].
Qed.

(** ** What the chain is *)

Lemma pool_chain_packet rem : forall n l offset, Z.to_nat rem = n -> 0 <= rem < 65536 -> 0 < room offset ->
  length l = pool_need rem offset -> packet (pool_chain l rem offset) /\ sum_len (pool_chain l rem offset) = rem.
Proof.
  intros n. revert rem. induction n as [n IH] using lt_wf_ind. intros rem l offset Hn Hrem Hroom Hlen.
  destruct l as [|a l]; [done|]. cbn [pool_chain packet sum_len pb_len pb_tot_len put_next new_buf]. destruct (Z.lt_ge_cases (room offset) rem).
  - rewrite pool_need_more in Hlen by done. cbn in Hlen. rewrite Z.min_r by lia.
    destruct (IH (Z.to_nat (rem - room offset)) ltac:(lia) (rem - room offset) l 0) as [H1 H2]; [done|lia|done|lia|].
    rewrite H2. repeat split; (done || lia).
  - rewrite pool_need_last in Hlen by lia. destruct l; [|done]. cbn. rewrite Z.min_l by lia. repeat split; lia.
Qed.

(** Only the first buffer of a chain may be empty: a packet, not a queue. *)
Definition filled (l : buffers) : Prop := Forall (fun x => 0 < pb_len (snd x)) (tail l).

Lemma pool_chain_full l : forall rem offset, 0 < rem -> 0 < room offset -> length l = pool_need rem offset ->
  Forall (fun x => 0 < pb_len (snd x)) (pool_chain l rem offset).
Proof.
  induction l as [|a l IH]; intros rem offset Hrem Hroom Hlen; cbn [pool_chain]; constructor; [cbn; lia|].
  destruct (Z.lt_ge_cases (room offset) rem).
  - rewrite pool_need_more in Hlen by done. cbn in Hlen. apply IH; [lia|done|lia].
  - rewrite pool_need_last in Hlen by lia. by destruct l.
Qed.

Lemma pool_chain_filled l rem offset : 0 < room offset -> length l = pool_need rem offset -> filled (pool_chain l rem offset).
Proof.
  intros Hroom Hlen. destruct l as [|a l]; [constructor|]. unfold filled. cbn [pool_chain tail].
  destruct (Z.lt_ge_cases (room offset) rem).
  - rewrite pool_need_more in Hlen by done. cbn in Hlen. apply pool_chain_full; [lia|done|lia].
  - rewrite pool_need_last in Hlen by lia. by destruct l.
Qed.

Lemma pool_chain_fresh l rem offset : (forall a, a ∈ l -> a ∈ memp_elems MEMP_PBUF_POOL) -> Forall fresh (pool_chain l rem offset).
Proof.
  revert rem offset. induction l as [|a l IH]; intros rem offset Hl; cbn [pool_chain]; constructor.
  - split; [apply Hl; by left|done].
  - apply IH. intros x Hx. apply Hl. by right.
Qed.

Lemma elem_mod4 t a : a ∈ memp_elems t -> a mod 4 = 0.
Proof.
  unfold memp_elems. intros (i & -> & _)%list_elem_of_fmap. unfold memp_elem. pose proof (align_mod4 (memp_base t)).
  assert (memp_size t mod 4 = 0) as Hs by (destruct t; apply align_mod4).
  rewrite Z.add_mod, Z.mul_mod, Hs, H by lia. rewrite Z.mul_0_r. done.
Qed.

(** The data of a buffer lies in its element, behind its header. *)
Definition within (x : Z * pbuf) : Prop := fst x + SIZEOF_STRUCT_PBUF <= pb_payload (snd x) /\
  pb_payload (snd x) + pb_len (snd x) <= fst x + memp_size MEMP_PBUF_POOL.

Lemma room_alt offset : 0 <= offset <= 54 -> room offset = 592 - (offset + 3) / 4 * 4.
Proof. intros Ho. unfold room. rewrite align_alt, u16_small by (change PBUF_POOL_BUFSIZE_ALIGNED with 592; zlia). done. Qed.

Lemma pool_chain_within l : forall rem offset, 0 <= offset <= 54 -> (forall a, a ∈ l -> a ∈ memp_elems MEMP_PBUF_POOL) ->
  Forall within (pool_chain l rem offset).
Proof.
  induction l as [|a l IH]; intros rem offset Ho Hl; cbn [pool_chain]; constructor.
  - assert (a ∈ memp_elems MEMP_PBUF_POOL) as Ha by (apply Hl; by left).
    pose proof (elem_mod4 _ _ Ha). pose proof (elems_below _ _ Ha). unfold within. cbn [fst snd put_next new_buf pb_payload pb_len].
    rewrite room_alt by done. rewrite align_alt by (change SIZEOF_STRUCT_PBUF with 16; lia).
    change (memp_size MEMP_PBUF_POOL) with 608. change SIZEOF_STRUCT_PBUF with 16. zlia.
  - apply IH; [lia|]. intros x Hx. apply Hl. by right.
Qed.

Lemma elems_spaced t a a' : a ∈ memp_elems t -> a' ∈ memp_elems t -> a <> a' -> a + memp_size t <= a' \/ a' + memp_size t <= a.
Proof.
  unfold memp_elems. intros (i & -> & _)%list_elem_of_fmap (j & -> & _)%list_elem_of_fmap. unfold memp_elem. intros Hne.
  assert (i <> j) by congruence. assert (0 < memp_size t \/ memp_size t = 0 \/ memp_size t < 0) as [?|[E|?]] by lia; [nia| |nia].
  rewrite E, !Z.mul_0_r in Hne. done.
Qed.

(** Chains of different elements do not share bytes. *)
Lemma within_nodup l : Forall within l -> Forall fresh l -> NoDup l.*1 -> NoDup (addrs l).
Proof.
  induction l as [|[a b] l IH]; intros Hw Hf Hn; [constructor|]. apply Forall_cons in Hw as [Hwa Hw], Hf as [[Ha _] Hf].
  apply NoDup_cons in Hn as [Hna Hn]. rewrite addrs_cons. apply NoDup_app. split; [apply NoDup_seqZ|]. split; [|by apply IH].
  intros x Hx%elem_data Hi. unfold addrs in Hi. apply list_elem_of_In, in_concat in Hi as (d & Hd & Hi).
  apply list_elem_of_In, list_elem_of_fmap in Hd as ([a' b'] & -> & Hab). apply list_elem_of_In, elem_data in Hi. cbn [snd] in Hi.
  rewrite Forall_forall in Hw, Hf. pose proof (Hw _ Hab) as [H1 H2]. pose proof (Hf _ Hab) as [Ha' _]. unfold within in Hwa. cbn [fst snd] in *.
  assert (a <> a') as Hne by (intros ->; apply Hna, elem_of_fst; by exists b'). change SIZEOF_STRUCT_PBUF with 16 in *.
  pose proof (elems_spaced _ _ _ Ha Ha' Hne). lia.
Qed.

(** After mem_init and memp_init, in the order of lwip_init, everything is free. *)
Lemma wp_memory_init s (Q : unit -> lwip -> Prop) :
  (forall s', res s' (reverse (memp_elems MEMP_PBUF_POOL)) (reverse (memp_elems MEMP_PBUF)) [(4096, false)] -> lw_valid s' = lw_valid s -> Q tt s') ->
  wp (mem_init ;; memp_init) s Q.
Proof.
  intros HQ. apply wp_step, wp_mem_init. intros s1 Hh Hv1. apply wp_memp_init. intros s2 Hf Hc [Hl Hv]. apply HQ; [|by rewrite Hv, Hv1].
  split; try done; try (by intros a; rewrite elem_of_reverse).
  - apply (heap_ok_agree s1); try done. intros a Ha. apply Hc. intros t Hi. apply elems_outside in Hi. lia.
  - exists (reverse (memp_elems MEMP_TCPIP_MSG_API)). split; [apply Hf|]. intros a. by rewrite elem_of_reverse.
Qed.

(** What an allocation from the pool returns: if the pool has as many elements as it takes,
    the first of them as a chain of the length asked for that is one packet, every
    buffer referred to once and its data inside its element, behind the header space of
    the layer in the first, and none but the first empty; otherwise NULL, and every element is in the pool. *)
Definition pool_alloc_post (layer length : Z) (fp fr : list Z) (h : blocks) (p : Z) s' : Prop :=
  let n := pool_need length layer in
  if (n <=? List.length fp)%nat then
    exists l, p = first_of l 0 /\ pseg (lw_cells s') p l 0 /\ p <> 0 /\ packet l /\ sum_len l = length /\ l.*1 = take n fp /\
      Forall fresh l /\ Forall within l /\ filled l /\ res s' (drop n fp) fr h
  else p = 0 /\ res s' (reverse fp) fr h.

Lemma wp_pbuf_alloc_pool fuel layer length fp fr h s :
  res s fp fr h -> 0 <= layer <= 54 -> 0 <= length < 65536 -> (List.length fp < fuel)%nat ->
  wp (pbuf_alloc custom_free_function fuel layer length PBUF_POOL) s (fun p s' =>
    pool_alloc_post layer length fp fr h p s' /\ mild (pool_area fp) h s s').
Proof.
  intros Hres Hlayer Hlen Hfuel. unfold pool_alloc_post. set (n := pool_need length layer). unfold pbuf_alloc. rewrite u16_small by lia.
  change ((PBUF_POOL =? PBUF_REF) || (PBUF_POOL =? PBUF_ROM)) with false. change (PBUF_POOL =? PBUF_POOL) with true. cbn iota.
  assert (0 < room layer) as Hroom by (rewrite room_alt by done; zlia).
  apply (wp_alloc_loop fp fuel fuel [] 0 fp fr h); try done.
  - by intros x b [].
  - intros Hn s' Hr Hm. split; [|done]. fold n in Hn. destruct (Nat.leb_spec n (List.length fp)); [lia|]. done.
  - cbn zeta. cbn [relink app]. intros Hn s' Hr Hp Hm. fold n in Hn, Hr, Hp |- *. split; [|done].
    destruct (Nat.leb_spec n (List.length fp)); [|lia]. exists (pool_chain (take n fp) length layer).
    assert (forall a, a ∈ take n fp -> a ∈ memp_elems MEMP_PBUF_POOL) as Hin.
    { intros a Ha. apply (rs_pool_in _ _ _ _ Hres). rewrite <- (take_drop n fp). apply elem_of_app. by left. }
    destruct (pool_chain_packet length (Z.to_nat length) (take n fp) layer) as [H1 H2]; [done|done|done|rewrite length_take; lia|].
    split; [done|]. split; [done|]. split.
    { destruct (take n fp) as [|a l] eqn:E; [|by destruct Hp as (_ & ? & _)]. apply (f_equal List.length) in E. rewrite length_take in E.
      change (n `min` List.length fp = 0)%nat in E. assert (0 < n)%nat by (subst n; unfold pool_need; lia). lia. }
    split; [done|]. split; [done|]. split; [apply pool_chain_fst|]. split; [by apply pool_chain_fresh|].
    split; [by apply pool_chain_within|]. split; [apply pool_chain_filled; [done|rewrite length_take; lia]|done].
Qed.

(** A chain that only the allocation knows goes back whole. *)
Lemma wp_free_fresh l fuel fp fr h s : pseg (lw_cells s) (first_of l 0) l 0 -> first_of l 0 <> 0 -> Forall fresh l -> res s fp fr h -> (length l < fuel)%nat ->
  wp (pbuf_free custom_free_function fuel (first_of l 0)) s (fun n s' =>
    n = u8 (Z.of_nat (length l)) /\ res s' (reverse l.*1 ++ fp) fr h /\ mild (pool_area l.*1) h s s' /\
    forall x, x ∉ l.*1 -> kept h x -> lw_cells s' !! x = lw_cells s !! x).
Proof.
  intros Hl Hne Hf Hres Hfuel. destruct (fresh_home h _ Hf) as (Hh & Hc & Hd & Hal & Hg & Hfi).
  apply (wp_pbuf_free custom_free_function l fuel fp fr h); try done.
  intros s2 [(h' & Hres2 & [Eh _] & [c v d t p m]) _]. rewrite Hd in *. rewrite Eh in * by done. rewrite !Hg in Hres2.
  split; [done|]. split; [done|]. split; [|done]. split; [|done|done]. intros x Hx Hk. apply c; [|done]. intros Hi. apply Hx. by left.
Qed.

(** C20: pbuf_alloc of a chain from the pool returns a packet of exactly the length asked for, made of
    the pool's first elements, or NULL with nothing lost; no other object and no data is
    touched.  pbuf_free of the chain counts its buffers and
    puts every element back. *)
Theorem pbuf_alloc_pool fuel layer length fp fr h s :
  res s fp fr h -> 0 <= layer <= 54 -> 0 <= length < 65536 -> (List.length fp < fuel)%nat ->
  let n := pool_need length layer in
  wp (pbuf_alloc custom_free_function fuel layer length PBUF_POOL) s (fun p s' =>
    pool_alloc_post layer length fp fr h p s' /\ mild (pool_area fp) h s s' /\
    (p <> 0 -> wp (pbuf_free custom_free_function fuel p) s' (fun c s2 =>
       c = u8 (Z.of_nat n) /\ res s2 (reverse (take n fp) ++ drop n fp) fr h /\ mild (pool_area fp) h s s2))).
Proof.
  intros Hres Hlayer Hlen Hfuel n. eapply wp_mono; [by apply (wp_pbuf_alloc_pool fuel layer length fp fr h)|].
  intros p s' [Hp Hm]. split; [done|]. split; [done|]. intros Hp0. unfold pool_alloc_post in Hp. fold n in Hp.
  destruct (Nat.leb_spec n (List.length fp)); [|by destruct Hp]. destruct Hp as (l & -> & Hl & _ & _ & _ & Efst & Hf & _ & _ & Hres').
  assert (List.length l = n) as Elen by (rewrite <- (length_fmap fst l), Efst, length_take; lia).
  eapply wp_mono; [apply (wp_free_fresh l fuel (drop n fp) fr h); try done; lia|].
  intros c s2 (-> & Hr & Hm2 & _). rewrite Efst in Hr. rewrite Elen. split; [done|]. split; [done|]. eapply mild_trans; [done|]. apply (mild_weaken l.*1); [done|]. rewrite Efst.
  intros x Hx. rewrite <- (take_drop n fp). apply elem_of_app. by left.
Qed.
End alloc.

(** * Concrete runs *)

#[local] Existing Instance sim_pools.
#[local] Existing Instance sim_layout.

(** Nothing is allocated yet; the pools are the program's static memory. *)
Definition lw_static : lwip := Lwip ∅ (fun _ => 0) (fun a => (0x20040000 <=? a) && (a <? 0x20080000)) (fun _ => 0) 0 0 [].

Lemma sim_addrs l x : Forall within l -> Forall fresh l -> x ∈ addrs l -> 0x20070000 <= x < 0x20075000.
Proof.
  intros Hw Hf Hx. unfold addrs in Hx. apply list_elem_of_In, in_concat in Hx as (d & Hd & Hi).
  apply list_elem_of_In, list_elem_of_fmap in Hd as ([a b] & -> & Hab). apply list_elem_of_In, elem_data in Hi. cbn [snd] in Hi.
  rewrite Forall_forall in Hw, Hf. pose proof (Hw _ Hab) as [H1 H2]. pose proof (Hf _ Hab) as [Ha _]. cbn [fst snd] in *.
  apply sim_elems_range in Ha. cbn in Ha. change SIZEOF_STRUCT_PBUF with 16 in *. change (memp_size MEMP_PBUF_POOL) with 608 in *. lia.
Qed.

Lemma sim_valid_mild A h s s' : mild A h s s' -> (forall x, 0x20040000 <= x < 0x20080000 -> lw_valid s x = true) ->
  forall x, 0x20040000 <= x < 0x20080000 -> lw_valid s' x = true.
Proof. intros Hm Hv x Hx. rewrite (md_valid _ _ _ _ Hm); [by apply Hv|]. right. right. change ram_end with 0x20031000. lia. Qed.

(** A packet of 1500 bytes from the pool, after initialisation. *)
Lemma wp_sim_packet (Q : Z -> lwip -> Prop) :
  (forall l s, let fp := reverse (memp_elems MEMP_PBUF_POOL) in
     pseg (lw_cells s) (first_of l 0) l 0 -> packet l -> sum_len l = 1500 -> length l = 3%nat -> Forall fresh l -> Forall within l ->
     NoDup (addrs l) -> (forall x, x ∈ addrs l -> 0x20070000 <= x < 0x20075000) ->
     res s (drop 3 fp) (reverse (memp_elems MEMP_PBUF)) [(4096, false)] ->
     (forall x, 0x20040000 <= x < 0x20080000 -> lw_valid s x = true) -> Q (first_of l 0) s) ->
  wp (bind (mem_init ;; memp_init) (fun _ => pbuf_alloc (fun _ => undef) 20 PBUF_RAW 1500 PBUF_POOL)) lw_static Q.
Proof.
  intros HQ. apply wp_step, wp_memory_init. intros s Hres Hv.
  eapply wp_mono; [apply (wp_pbuf_alloc_pool (fun _ => undef) 20 PBUF_RAW 1500 _ _ _ s Hres); [unfold PBUF_RAW; lia|lia|apply Nat.ltb_lt; by vm_compute]|].
  intros p s' (Hp & Hm). change (pool_need 1500 PBUF_RAW) with 3%nat in Hp.
  assert ((pool_need 1500 PBUF_RAW <=? List.length (reverse (memp_elems MEMP_PBUF_POOL)))%nat = true) as E by by vm_compute.
  unfold pool_alloc_post in Hp. rewrite E in Hp. destruct Hp as (l & -> & Hl & _ & Hpk & Hsum & Efst & Hf & Hw & _ & Hres').
  change (pool_need 1500 PBUF_RAW) with 3%nat in *.
  apply (HQ l s'); try done.
  - rewrite <- (length_fmap fst l), Efst. by vm_compute.
  - apply within_nodup; [done|done|]. by apply (pseg_nodup _ _ _ Hl).
  - intros x. by apply sim_addrs.
  - apply (sim_valid_mild _ _ _ _ Hm). intros x Hx. rewrite Hv. cbn. destruct (Z.leb_spec 0x20040000 x), (Z.ltb_spec x 0x20080000); (done || lia).
Qed.

(** A frame of 1500 bytes takes three elements, and freeing it gives them back. *)
Lemma pbuf_alloc_pool_witness :
  wp (bind (mem_init ;; memp_init) (fun _ => bind (pbuf_alloc (fun _ => undef) 20 PBUF_RAW 1500 PBUF_POOL) (fun p => pbuf_free (fun _ => undef) 20 p)))
    lw_reset (fun c _ => c = 3).
Proof.
  apply wp_step, wp_memory_init. intros s Hres _. apply wp_step.
  eapply wp_mono; [apply (pbuf_alloc_pool (fun _ => undef) 20 PBUF_RAW 1500 _ _ _ s Hres); [unfold PBUF_RAW; lia|lia|apply Nat.ltb_lt; by vm_compute]|].
  intros p s' (Hp & _ & Hfree). eapply wp_mono; [apply Hfree|].
  - assert ((pool_need 1500 PBUF_RAW <=? List.length (reverse (memp_elems MEMP_PBUF_POOL)))%nat = true) as E by by vm_compute.
    unfold pool_alloc_post in Hp. rewrite E in Hp. by destruct Hp as (l & _ & _ & ? & _).
  - intros c s2 (-> & _). by vm_compute.
Defined.

(** A chain of three buffers, each referred to once, dies whole. *)
Lemma pbuf_free_releases_witness :
  wp (bind (bind (mem_init ;; memp_init) (fun _ => pbuf_alloc (fun _ => undef) 20 PBUF_RAW 1500 PBUF_POOL)) (fun p => pbuf_free (fun _ => undef) 20 p))
    lw_static (fun c _ => c = 3).
Proof.
  apply wp_step, wp_sim_packet. intros l s fp Hl Hp Hsum Hlen Hf Hw _ _ Hres _.
  destruct (fresh_home [(4096, false)] _ Hf) as (Hh & Hc & Hd & _).
  eapply wp_mono; [apply (pbuf_free_releases (fun _ => undef) l 20 _ _ _ s Hl Hres Hh Hc); lia|].
  intros n s2 [-> _]. rewrite Hd, Hlen. done.
Defined.
