(* ===== verification/PbufData.v ===== *)
(** What the functions on the data of packet buffers do, in terms of the bytes of the
    chain as one list. *)
From S2P Require Import Prelude Machine LwMem LwHeap Pbuf PbufCopy PbufChain PbufAlloc.
From stdpp Require Import list gmap.

#[local] Open Scope Z_scope.
#[local] Open Scope fw_scope.

(** * Bytes of chains *)

Lemma contents_cons s a b l : contents s ((a, b) :: l) = lw_bytes s (pb_payload b) (pb_len b) ++ contents s l.
Proof. unfold contents. by rewrite addrs_cons, fmap_app. Qed.

Lemma contents_app s l1 l2 : contents s (l1 ++ l2) = contents s l1 ++ contents s l2.
Proof. unfold contents. by rewrite addrs_app, fmap_app. Qed.

Lemma contents_length s l : packet l -> Z.of_nat (length (contents s l)) = sum_len l.
Proof. unfold contents. rewrite length_fmap. apply addrs_length. Qed.

Lemma contents_agree s s' l : (forall x, x ∈ addrs l -> lw_data s' x = lw_data s x) -> contents s' l = contents s l.
Proof. intros H. unfold contents. apply list_fmap_ext. intros i x Hx. by rewrite H by (by eapply list_elem_of_lookup_2). Qed.

Lemma lw_bytes_length s a n : length (lw_bytes s a n) = Z.to_nat n.
Proof. unfold lw_bytes, zrange. rewrite length_fmap, length_seqZ. lia. Qed.

Lemma zrange_add a n m : 0 <= n -> 0 <= m -> zrange a (Z.to_nat (n + m)) = zrange a (Z.to_nat n) ++ zrange (a + n) (Z.to_nat m).
Proof. intros. unfold zrange. rewrite Z2Nat.inj_add, Nat2Z.inj_add, seqZ_app, (Z2Nat.id n) by lia. done. Qed.

Lemma lw_bytes_add s a n m : 0 <= n -> 0 <= m -> lw_bytes s a (n + m) = lw_bytes s a n ++ lw_bytes s (a + n) m.
Proof. intros. unfold lw_bytes. by rewrite zrange_add, fmap_app by done. Qed.

(** A part of the bytes. *)
Lemma lw_bytes_slice s a n o k : 0 <= o -> 0 <= k -> o + k <= n ->
  take (Z.to_nat k) (drop (Z.to_nat o) (lw_bytes s a n)) = lw_bytes s (a + o) k.
Proof.
  intros Ho Hk Hn. replace n with (o + (k + (n - o - k))) by lia. rewrite !lw_bytes_add by lia.
  rewrite drop_app_length' by (rewrite lw_bytes_length; lia). by rewrite take_app_length' by (rewrite lw_bytes_length; lia).
Qed.

(** The slice of a chain that begins in its first buffer. *)
Lemma slice_first s a n rest offset len : 0 <= len -> 0 <= offset <= n ->
  let k := Z.min len (n - offset) in
  take (Z.to_nat len) (drop (Z.to_nat offset) (lw_bytes s a n ++ rest)) = lw_bytes s (a + offset) k ++ take (Z.to_nat (len - k)) rest.
Proof.
  intros Hl Ho k. rewrite <- (lw_bytes_slice _ _ n) by lia. rewrite drop_app_le by (rewrite lw_bytes_length; lia).
  rewrite take_app, length_drop, lw_bytes_length. f_equal; [|f_equal; lia].
  destruct (Z.le_gt_cases len (n - offset)); [by replace k with len by lia|].
  rewrite !take_ge; [done|rewrite length_drop, lw_bytes_length; lia..].
Qed.

(** Bytes put behind each other. *)
Lemma overlaid_app d a bs1 bs2 x :
  overlaid (overlaid d a bs1) (a + Z.of_nat (length bs1)) bs2 x = overlaid d a (bs1 ++ bs2) x.
Proof.
  unfold overlaid, aget. destruct (Z.ltb_spec (x - (a + Z.of_nat (length bs1))) 0), (Z.ltb_spec (x - a) 0); try done; try lia.
  - rewrite (lookup_app_l bs1) by lia. done.
  - rewrite lookup_app_r by lia. replace (Z.to_nat (x - (a + Z.of_nat (length bs1)))) with (Z.to_nat (x - a) - length bs1)%nat by lia.
    rewrite (lookup_ge_None_2 bs1) by lia. done.
Qed.

(** The state but for its bytes, which are as [d] has them. *)
Definition wrote (s : lwip) (d : Z -> Z) (s' : lwip) : Prop := exists d', s' = with_data d' s /\ forall x, d' x = d x.

Lemma wrote_refl s : wrote s (lw_data s) s.
Proof. exists (lw_data s). by destruct s. Qed.

Lemma wrote_ext s d d' s' : wrote s d s' -> (forall x, d x = d' x) -> wrote s d' s'.
Proof. intros (d0 & -> & H) He. exists d0. split; [done|]. intros x. by rewrite H, He. Qed.

Section data.
Context {P : Pools}.
Implicit Types s : lwip.

(** The bytes of the chain belong to someone. *)
Definition owned s (l : buffers) : Prop := forall x, x ∈ addrs l -> lw_valid s x = true.
(** The range is apart from the bytes of the chain. *)
Definition apart (a n : Z) (l : buffers) : Prop := forall x, x ∈ addrs l -> ~ (a <= x < a + n).

Lemma owned_cons s a b l : owned s ((a, b) :: l) -> (forall x, pb_payload b <= x < pb_payload b + pb_len b -> lw_valid s x = true) /\ owned s l.
Proof.
  intros H. split; intros x Hx; apply H; rewrite addrs_cons, elem_of_app; [left; by apply elem_data|by right].
Qed.

Lemma apart_cons d n a b l : apart d n ((a, b) :: l) ->
  (forall x, pb_payload b <= x < pb_payload b + pb_len b -> ~ (d <= x < d + n)) /\ apart d n l.
Proof.
  intros H. split; intros x Hx; apply H; rewrite addrs_cons, elem_of_app; [left; by apply elem_data|by right].
Qed.

Lemma apart_ranges d n a k : 0 <= k -> 0 <= n -> (forall x, a <= x < a + k -> ~ (d <= x < d + n)) -> k = 0 \/ n = 0 \/ d + n <= a \/ a + k <= d.
Proof.
  intros Hk Hn H. destruct (Z.eq_dec k 0); [by left|]. destruct (Z.eq_dec n 0); [by right; left|]. right. right.
  pose proof (H a ltac:(lia)). destruct (Z.le_gt_cases (d + n) a); [by left|]. right. 
  destruct (Z.le_gt_cases (a + k) d); [done|]. exfalso. apply (H (Z.max a d)); lia.
Qed.

Lemma packet_cons a b l : packet ((a, b) :: l) -> 0 <= pb_len b < 65536 /\ pb_tot_len b = pb_len b + sum_len l /\
  pb_tot_len b < 65536 /\ 0 <= sum_len l /\ packet l.
Proof. intros (H1 & H2 & H3 & H4). pose proof (sum_len_nonneg _ H4). repeat split; (done || lia). Qed.

Lemma overlaid_nil d a x : overlaid d a [] x = d x.
Proof. apply overlaid_out. cbn. lia. Qed.

(** ** Out of a chain *)

Lemma wp_copy_partial_loop l : forall fuel p dst len offset left copied s (Q : Z -> lwip -> Prop),
  pseg (lw_cells s) p l 0 -> packet l -> owned s l ->
  (forall x, dst + left <= x < dst + left + len -> lw_valid s x = true) -> apart (dst + left) len l ->
  0 <= len -> 0 <= offset < 65536 -> 0 <= left -> left + len < 65536 -> 0 <= copied -> copied + len < 65536 -> (length l < fuel)%nat ->
  (let bs := take (Z.to_nat len) (drop (Z.to_nat offset) (contents s l)) in
   forall s', wrote s (overlaid (lw_data s) (dst + left) bs) s' -> Q (copied + Z.of_nat (length bs)) s') ->
  wp (copy_partial_loop fuel p dst len offset left copied) s Q.
Proof.
  induction l as [|[a b] l IH]; intros fuel p dst len offset left copied s Q Hl Hp Ho Hv Ha Hlen Hoff Hleft Hll Hc Hcl Hf HQ;
    (destruct fuel as [|fuel]; [cbn in Hf; lia|]); cbn [copy_partial_loop].
  - cbn in Hl. subst p. change (negb (0 =? 0)) with false. rewrite andb_false_r. apply wp_ret.
    cbn in HQ. rewrite drop_nil, take_nil in HQ. rewrite <- (Z.add_0_r copied). apply HQ.
    apply (wrote_ext _ (lw_data s)); [apply wrote_refl|]. intros x. by rewrite overlaid_nil.
  - destruct Hl as (-> & Ha0 & Hab & Hl). apply packet_cons in Hp as (Hb & _ & _ & Hsum & Hp).
    apply owned_cons in Ho as [Hob Ho]. apply apart_cons in Ha as [Hab' Ha]. cbn [length] in Hf. cbn zeta in HQ.
    destruct (Z.eqb_spec len 0) as [->|Hl0]; cbn [negb andb].
    { apply wp_ret. cbn in HQ. rewrite <- (Z.add_0_r copied). apply HQ.
      apply (wrote_ext _ (lw_data s)); [apply wrote_refl|]. intros x. by rewrite overlaid_nil. }
    destruct (Z.eqb_spec a 0) as [?|_]; [done|]. cbn [negb]. apply wp_step, (wp_pbuf_at _ b); [done|]. rewrite contents_cons in HQ.
    assert (if negb (offset =? 0) && (pb_len b <=? offset) then pb_len b <= offset else offset <= pb_len b) as Hskip.
    { destruct (Z.eqb_spec offset 0); cbn [negb andb]; [lia|]. destruct (Z.leb_spec (pb_len b) offset); lia. }
    destruct (negb (offset =? 0) && (pb_len b <=? offset)).
    + rewrite u16_small by lia. apply (IH fuel _ dst len (offset - pb_len b) left copied); try done; try lia.
      intros bs s' Hs'. rewrite drop_app_ge in HQ by (rewrite lw_bytes_length; lia).
      rewrite lw_bytes_length in HQ. replace (Z.to_nat offset - Z.to_nat (pb_len b))%nat with (Z.to_nat (offset - pb_len b)) in HQ by lia.
      by apply HQ.
    + rewrite (u16_small (pb_len b - offset)) by lia. set (n := if len <? pb_len b - offset then len else pb_len b - offset).
      assert (n = Z.min len (pb_len b - offset)) as En by (unfold n; destruct (Z.ltb_spec len (pb_len b - offset)); lia). clearbody n.
      apply wp_step, wp_lw_memcpy; [lia|intros x Hx; apply Hob; lia|intros x Hx; apply Hv; lia|
        destruct (apart_ranges (dst + left) len (pb_payload b) (pb_len b)) as [?|[?|[?|?]]]; try done; lia|].
      rewrite !u16_small by lia. set (d1 := overlaid (lw_data s) (dst + left) (lw_bytes s (pb_payload b + offset) n)).
      assert (contents (with_data d1 s) l = contents s l) as Econt.
      { apply contents_agree. intros x Hx. apply overlaid_out. rewrite lw_bytes_length. pose proof (Ha x Hx). lia. }
      apply (IH fuel _ dst (len - n) 0 (left + n) (copied + n)); try done; try lia;
        [intros x Hx; apply Hv; lia|intros x Hx; pose proof (Ha x Hx); lia|].
      intros bs s' (d' & -> & Hd'). unfold bs in *. clear bs. rewrite drop_0, Econt in *.
      rewrite slice_first in HQ by lia. rewrite <- En in HQ. rewrite length_app, lw_bytes_length in HQ.
      replace (copied + n + Z.of_nat (length (take (Z.to_nat (len - n)) (contents s l)))) with
        (copied + Z.of_nat (Z.to_nat n + length (take (Z.to_nat (len - n)) (contents s l)))) by lia.
      apply HQ. exists d'. split; [done|]. intros x. rewrite Hd'. cbn [lw_data with_data]. rewrite <- overlaid_app, lw_bytes_length.
      f_equal. lia.
Qed.

(** ** Into a chain *)

(** The bytes of the chain become [bs], and nothing else changes. *)
Definition stored s (l : buffers) (bs : list Z) s' : Prop :=
  contents s' l = bs /\ exists d, s' = with_data d s /\ forall x, x ∉ addrs l -> d x = lw_data s x.

Lemma lw_bytes_agree s s' a n : (forall x, a <= x < a + n -> lw_data s' x = lw_data s x) -> lw_bytes s' a n = lw_bytes s a n.
Proof.
  intros H. unfold lw_bytes. apply list_fmap_ext. intros i x Hx%list_elem_of_lookup_2. apply elem_of_zrange in Hx.
  rewrite H; [done|lia].
Qed.

(** Bytes read back where they were put. *)
Lemma lw_bytes_overlaid s a bs k n : Forall (fun b => 0 <= b < 256) bs -> Z.of_nat (length bs) = k -> k <= n ->
  lw_bytes (with_data (overlaid (lw_data s) a bs) s) a n = bs ++ drop (Z.to_nat k) (lw_bytes s a n).
Proof.
  intros Hr <- Hn. replace n with (Z.of_nat (length bs) + (n - Z.of_nat (length bs))) by lia. rewrite !lw_bytes_add by lia. f_equal.
  - apply list_eq. intros i. unfold lw_bytes, zrange. rewrite list_lookup_fmap. cbn [lw_data with_data].
    destruct (decide (i < length bs)%nat) as [Hi|Hi].
    + destruct (lookup_lt_is_Some_2 bs i Hi) as [b Hb]. rewrite lookup_seqZ_lt by lia. cbn. rewrite Hb.
      rewrite (overlaid_in _ _ _ _ b) by (unfold aget; destruct (Z.ltb_spec (a + Z.of_nat i - a) 0); [lia|]; by replace (Z.to_nat (a + Z.of_nat i - a)) with i by lia).
      f_equal. apply u8_small. rewrite Forall_forall in Hr. apply Hr. by eapply list_elem_of_lookup_2.
    + rewrite lookup_seqZ_ge by lia. symmetry. apply lookup_ge_None_2. lia.
  - rewrite drop_app_length' by (rewrite lw_bytes_length; lia). apply lw_bytes_agree. intros x Hx. apply overlaid_out. lia.
Qed.

Lemma lw_bytes_range s a n : Forall (fun b => 0 <= b < 256) (lw_bytes s a n).
Proof. apply Forall_forall. intros b (x & -> & _)%list_elem_of_fmap. apply u8_range. Qed.

Lemma stored_cons s a b l n d1 bs bs' s' :
  Forall (fun b => 0 <= b < 256) bs -> Z.of_nat (length bs) = n -> n <= pb_len b -> NoDup (addrs ((a, b) :: l)) ->
  d1 = overlaid (lw_data s) (pb_payload b) bs -> stored (with_data d1 s) l bs' s' ->
  stored s ((a, b) :: l) (bs ++ drop (Z.to_nat n) (lw_bytes s (pb_payload b) (pb_len b)) ++ bs') s'.
Proof.
  intros Hr Hn Hle Hnd -> [Hc (d & -> & Hd)]. rewrite addrs_cons in Hnd. apply NoDup_app in Hnd as (_ & Hnd & _). split.
  - rewrite contents_cons, app_assoc. f_equal; [|done]. rewrite <- (lw_bytes_overlaid s _ bs n) by done.
    apply lw_bytes_agree. intros x Hx. apply Hd. intros Hi. apply (Hnd x); [by apply elem_data|done].
  - exists d. split; [done|]. intros x Hx. rewrite addrs_cons, not_elem_of_app, elem_data in Hx. destruct Hx as [Hx1 Hx2].
    rewrite Hd by done. cbn. apply overlaid_out. lia.
Qed.

Lemma stored_nothing s l : stored s l (contents s l) s.
Proof. split; [done|]. exists (lw_data s). split; [by destruct s|done]. Qed.

(** Bytes the chain does not have stay. *)
Lemma overlaid_apart s l a k bs : NoDup (data_of k ++ addrs l) -> a = pb_payload k -> (Z.of_nat (length bs) <= pb_len k) ->
  contents (with_data (overlaid (lw_data s) a bs) s) l = contents s l.
Proof.
  intros (_ & Hnd & _)%NoDup_app -> Hle. apply contents_agree. intros x Hx. apply overlaid_out. intros Hi.
  apply (Hnd x); [apply elem_data; lia|done].
Qed.

Lemma wp_take_loop l : forall fuel p src total copied s (Q : unit -> lwip -> Prop),
  pseg (lw_cells s) p l 0 -> packet l -> owned s l -> NoDup (addrs l) ->
  (forall x, src + copied <= x < src + copied + total -> lw_valid s x = true) -> apart (src + copied) total l ->
  0 <= total <= sum_len l -> 0 <= copied -> copied + total < 65536 -> (length l < fuel)%nat ->
  (forall s', stored s l (lw_bytes s (src + copied) total ++ drop (Z.to_nat total) (contents s l)) s' -> Q tt s') ->
  wp (take_loop fuel p src total copied) s Q.
Proof.
  induction l as [|[a b] l IH]; intros fuel p src total copied s Q Hl Hp Ho Hnd Hv Ha Ht Hc Hct Hf HQ;
    (destruct fuel as [|fuel]; [cbn in Hf; lia|]); cbn [take_loop]; (destruct (Z.eqb_spec total 0) as [->|Ht0]; cbn [negb];
    [apply wp_ret, HQ, stored_nothing|]); [cbn in Ht; lia|].
  destruct Hl as (-> & Ha0 & Hab & Hl). apply packet_cons in Hp as (Hb & _ & _ & Hsum & Hp). cbn [sum_len] in Ht. cbn [length] in Hf.
  apply owned_cons in Ho as [Hob Ho]. apply apart_cons in Ha as [Hab' Ha].
  apply wp_step, (wp_pbuf_at _ b); [done|]. set (n := if pb_len b <? total then pb_len b else total).
  assert (n = Z.min (pb_len b) total) as En by (unfold n; destruct (Z.ltb_spec (pb_len b) total); lia). clearbody n.
  apply wp_step, wp_lw_memcpy; [lia|intros x Hx; apply Hv; lia|intros x Hx; apply Hob; lia|
    destruct (apart_ranges (src + copied) total (pb_payload b) (pb_len b)) as [?|[?|[?|?]]]; try done; lia|].
  rewrite !u32_small by lia. set (bs := lw_bytes s (src + copied) n).
  assert (Z.of_nat (length bs) = n) as Elen by (unfold bs; rewrite lw_bytes_length; lia).
  assert (contents (with_data (overlaid (lw_data s) (pb_payload b) bs) s) l = contents s l) as Econt.
  { rewrite addrs_cons in Hnd. apply (overlaid_apart s l _ b); [done|done|lia]. }
  apply (IH fuel _ src (total - n) (copied + n)); try done; try lia.
  - rewrite addrs_cons in Hnd. by apply NoDup_app in Hnd as (_ & _ & ?).
  - intros x Hx. apply Hv. lia.
  - intros x Hx. pose proof (Ha x Hx). lia.
  - intros s' Hs'. apply HQ. rewrite contents_cons, Econt in *.
    assert (lw_bytes (with_data (overlaid (lw_data s) (pb_payload b) bs) s) (src + (copied + n)) (total - n) =
      lw_bytes s (src + (copied + n)) (total - n)) as Eb.
    { apply lw_bytes_agree. intros x Hx. apply overlaid_out. intros Hx'. apply (Hab' x); lia. }
    rewrite Eb in Hs'. pose proof (stored_cons s a b l n _ bs _ s' (lw_bytes_range _ _ _) Elen ltac:(lia) Hnd eq_refl Hs') as Hs.
    replace total with (n + (total - n)) at 1 by lia. rewrite lw_bytes_add by lia.
    replace (src + copied + n) with (src + (copied + n)) by lia. fold bs.
    destruct (Z.le_gt_cases total (pb_len b)).
    + replace n with total in * by lia. replace (total - total) with 0 in * by lia. cbn [lw_bytes] in *.
      rewrite drop_app_le by (rewrite lw_bytes_length; lia). by rewrite <- app_assoc.
    + replace n with (pb_len b) in * by lia. rewrite drop_ge in Hs by (rewrite lw_bytes_length; lia).
      rewrite drop_app_ge by (rewrite lw_bytes_length; lia). rewrite lw_bytes_length.
      replace (Z.to_nat total - Z.to_nat (pb_len b))%nat with (Z.to_nat (total - pb_len b)) by lia. by rewrite <- app_assoc.
Qed.

Lemma wp_skip l : forall fuel p off s (Q : Z * Z -> lwip -> Prop),
  pseg (lw_cells s) p l 0 -> packet l -> 0 <= off < 65536 -> (length l < fuel)%nat ->
  (forall l1 l2 o, l = l1 ++ l2 -> off = sum_len l1 + o -> 0 <= o -> (forall a b l3, l2 = (a, b) :: l3 -> o < pb_len b) ->
     Q (first_of l2 0, o) s) ->
  wp (pbuf_skip_const fuel p off) s Q.
Proof.
  induction l as [|[a b] l IH]; intros fuel p off s Q Hl Hp Hoff Hf HQ; (destruct fuel as [|fuel]; [cbn in Hf; lia|]); cbn [pbuf_skip_const].
  - cbn in Hl. subst p. apply wp_ret. apply (HQ [] [] off); [done|done|lia|]. by intros ? ? ?.
  - destruct Hl as (-> & Ha0 & Hab & Hl). apply packet_cons in Hp as (Hb & _ & _ & Hsum & Hp). destruct (Z.eqb_spec a 0); [done|].
    cbn [length] in Hf. apply wp_step, (wp_pbuf_at _ b); [done|]. destruct (Z.leb_spec (pb_len b) off).
    + rewrite u16_small by lia. apply (IH fuel _ (off - pb_len b)); try done; try lia. intros l1 l2 o -> Eo Ho Hh.
      apply (HQ ((a, b) :: l1) l2 o); [done|cbn; lia|done|done].
    + apply wp_ret. apply (HQ [] ((a, b) :: l) off); [done|done|lia|]. intros ? ? ? [= _ <- _]. done.
Qed.

Lemma stored_addrs s l l' bs s' : addrs l = addrs l' -> stored s l bs s' -> stored s l' bs s'.
Proof. intros E. unfold stored, contents. by rewrite E. Qed.

Lemma stored_app s l1 l2 bs s' : NoDup (addrs (l1 ++ l2)) -> stored s l2 bs s' -> stored s (l1 ++ l2) (contents s l1 ++ bs) s'.
Proof.
  rewrite addrs_app. intros (_ & Hnd & _)%NoDup_app [Hc (d & -> & Hd)]. split.
  - rewrite contents_app, Hc. f_equal. apply contents_agree. intros x Hx. apply Hd, Hnd, Hx.
  - exists d. split; [done|]. intros x Hx. apply Hd. intros Hi. apply Hx. rewrite addrs_app. apply elem_of_app. by right.
Qed.

(** A buffer whose first [o] bytes are one of their own. *)
Definition part (o n : Z) (b : pbuf) : pbuf := put_payload (pb_payload b + o) (Pbuf (pb_next b) (pb_payload b) (pb_tot_len b) n (pb_type b) (pb_flags b) (pb_ref b) (pb_if_idx b)).

Lemma addrs_split a b l o : 0 <= o <= pb_len b ->
  addrs ((a, part 0 o b) :: (a, part o (pb_len b - o) b) :: l) = addrs ((a, b) :: l).
Proof.
  intros Ho. rewrite !addrs_cons, app_assoc. f_equal. unfold data_of. cbn [pb_payload pb_len part put_payload].
  rewrite Z.add_0_r, <- zrange_add by lia. do 2 f_equal. lia.
Qed.

Lemma contents_ext s l l' : addrs l = addrs l' -> contents s l = contents s l'.
Proof. intros E. unfold contents. by rewrite E. Qed.

Lemma pseg_rest m p l1 l2 q : pseg m p (l1 ++ l2) q -> pseg m (first_of l2 q) l2 q.
Proof. by intros [_ H]%pseg_app. Qed.

(** pbuf_take copies into the chain from its start. *)
Lemma wp_take l fuel src total s (Q : Z -> lwip -> Prop) :
  pseg (lw_cells s) (first_of l 0) l 0 -> l <> [] -> packet l -> owned s l -> NoDup (addrs l) -> 0 < src ->
  (forall x, src <= x < src + total -> lw_valid s x = true) -> apart src total l ->
  0 <= total < 65536 -> (length l < fuel)%nat ->
  (if sum_len l <? total then Q ERR_MEM s
   else forall s', stored s l (lw_bytes s src total ++ drop (Z.to_nat total) (contents s l)) s' -> Q ERR_OK s') ->
  wp (pbuf_take fuel (first_of l 0) src total) s Q.
Proof.
  intros Hl Hne Hp Ho Hnd Hsrc Hv Ha Ht Hf HQ. destruct l as [|[a b] l]; [done|]. cbn [first_of] in *. pose proof Hl as (_ & Ha0 & Hab & _).
  pose proof Hp as (Hb & Htot & _ & _)%packet_cons. unfold pbuf_take.
  destruct (Z.eqb_spec a 0) as [?|_], (Z.eqb_spec src 0) as [?|_]; try done; [lia|]. cbn [orb].
  apply wp_step, (wp_pbuf_at _ b); [done|]. rewrite Htot. change (pb_len b + sum_len l) with (sum_len ((a, b) :: l)).
  destruct (Z.ltb_spec (sum_len ((a, b) :: l)) total); [by apply wp_ret|].
  apply wp_step, (wp_take_loop ((a, b) :: l)); try done; rewrite ?Z.add_0_r; try done; try lia.
Qed.

(** ** Writing at an offset, and reading back *)

Lemma take_at_first s a b l o n bs bs' s' :
  Forall (fun b => 0 <= b < 256) bs -> Z.of_nat (length bs) = n -> 0 <= o -> o + n <= pb_len b -> NoDup (addrs ((a, b) :: l)) ->
  stored (with_data (overlaid (lw_data s) (pb_payload b + o) bs) s) l bs' s' ->
  stored s ((a, b) :: l) (lw_bytes s (pb_payload b) o ++ bs ++ lw_bytes s (pb_payload b + o + n) (pb_len b - o - n) ++ bs') s'.
Proof.
  intros Hr Hlen Ho Hn Hnd Hs. pose proof (addrs_split a b l o ltac:(lia)) as E. apply (stored_addrs _ _ _ _ _ E). rewrite <- E in Hnd.
  replace (lw_bytes s (pb_payload b) o) with (contents s [(a, part 0 o b)]).
  2: { rewrite contents_cons. unfold contents. cbn. rewrite app_nil_r. f_equal. lia. }
  apply (stored_app s [(a, part 0 o b)] ((a, part o (pb_len b - o) b) :: l)); [done|].
  replace (lw_bytes s (pb_payload b + o + n) (pb_len b - o - n)) with (drop (Z.to_nat n) (lw_bytes s (pb_payload b + o) (pb_len b - o))).
  - eapply (stored_cons s a (part o (pb_len b - o) b)); try done; [cbn; lia|]. rewrite addrs_cons in Hnd. by apply NoDup_app in Hnd as (_ & _ & ?).
  - replace (pb_len b - o) with (n + (pb_len b - o - n)) at 1 by lia. rewrite lw_bytes_add by lia.
    by rewrite drop_app_length' by (rewrite lw_bytes_length; lia).
Qed.

Lemma prefix_length s l1 l2 : packet (l1 ++ l2) -> Z.of_nat (length (contents s l1)) = sum_len l1 /\ 0 <= sum_len l1.
Proof.
  induction l1 as [|[a b] l1 IH]; [done|]. intros (Hb & _ & _ & H%IH). rewrite contents_cons, length_app, lw_bytes_length. cbn [sum_len].
  lia.
Qed.

Lemma slices_app (A B X : list Z) n o k : Z.of_nat (length A) = n -> 0 <= o -> 0 <= k ->
  take (Z.to_nat (n + o)) (A ++ B) ++ X ++ drop (Z.to_nat (n + o + k)) (A ++ B) =
  A ++ take (Z.to_nat o) B ++ X ++ drop (Z.to_nat (o + k)) B.
Proof.
  intros <- Ho Hk. rewrite take_app_ge, drop_app_ge, <- app_assoc by lia. do 3 f_equal; [f_equal; lia|]. do 2 f_equal. lia.
Qed.

Lemma take_bytes s a n o R : 0 <= o <= n -> take (Z.to_nat o) (lw_bytes s a n ++ R) = lw_bytes s a o.
Proof.
  intros Ho. rewrite take_app_le by (rewrite lw_bytes_length; lia). rewrite <- (drop_0 (lw_bytes s a n)).
  change 0%nat with (Z.to_nat 0). rewrite lw_bytes_slice by lia. by rewrite Z.add_0_r.
Qed.

Lemma drop_bytes s a n o R : 0 <= o <= n -> drop (Z.to_nat o) (lw_bytes s a n ++ R) = lw_bytes s (a + o) (n - o) ++ R.
Proof.
  intros Ho. replace n with (o + (n - o)) at 1 by lia. rewrite lw_bytes_add, <- app_assoc by lia.
  by rewrite drop_app_length' by (rewrite lw_bytes_length; lia).
Qed.

Lemma drop_bytes_past s a n o R : 0 <= n <= o -> drop (Z.to_nat o) (lw_bytes s a n ++ R) = drop (Z.to_nat (o - n)) R.
Proof. intros Ho. rewrite drop_app_ge by (rewrite lw_bytes_length; lia). rewrite lw_bytes_length. f_equal. lia. Qed.

(** pbuf_take_at replaces the bytes from [offset] on by those at [dataptr], over as many
    buffers as it takes, if the offset is in the chain and the bytes fit; otherwise it
    changes nothing. *)
Lemma wp_take_at l fuel src len offset s (Q : Z -> lwip -> Prop) :
  pseg (lw_cells s) (first_of l 0) l 0 -> packet l -> owned s l -> NoDup (addrs l) -> 0 < src ->
  (forall x, src <= x < src + len -> lw_valid s x = true) -> apart src len l ->
  0 <= len < 65536 -> 0 <= offset < 65536 -> (length l < fuel)%nat ->
  (if (offset <? sum_len l) && (offset + len <=? sum_len l) then
     forall s', stored s l (take (Z.to_nat offset) (contents s l) ++ lw_bytes s src len ++ drop (Z.to_nat (offset + len)) (contents s l)) s' -> Q ERR_OK s'
   else Q ERR_MEM s) ->
  wp (pbuf_take_at fuel (first_of l 0) src len offset) s Q.
Proof.
  intros Hl Hp Ho Hnd Hsrc Hv Ha Hlen Hoff Hf HQ. apply wp_step, (wp_skip l); try done. intros l1 l2 o -> -> Ho0 Hhead. cbn [fst snd].
  pose proof (packet_app _ _ Hp) as Hp2. pose proof (pseg_rest _ _ _ _ _ Hl) as Hl2. rewrite sum_len_app in HQ.
  destruct l2 as [|[a b] l2].
  { cbn [first_of]. change (0 =? 0) with true. cbn [sum_len] in HQ. destruct (Z.ltb_spec (sum_len l1 + o) (sum_len l1 + 0)); [lia|]. by apply wp_ret. }
  pose proof (Hhead a b l2 eq_refl) as Hob. cbn [first_of] in *. pose proof Hl2 as (_ & Ha0 & Hab & Hl3).
  pose proof Hp2 as (Hb & Htot & _ & Hsum & Hp3)%packet_cons. cbn [sum_len] in HQ.
  destruct (Z.eqb_spec a 0) as [?|_]; [done|]. apply wp_step, (wp_pbuf_at _ b); [done|]. rewrite Htot.
  destruct (Z.ltb_spec (sum_len l1 + o) (sum_len l1 + (pb_len b + sum_len l2))); [|lia]. cbn [andb] in HQ.
  destruct (Z.ltb_spec (pb_len b + sum_len l2) (o + len)), (Z.leb_spec (sum_len l1 + o + len) (sum_len l1 + (pb_len b + sum_len l2))); try lia.
  { by apply wp_ret. }
  set (n := Z.min (pb_len b - o) len). assert (n = Z.min (pb_len b - o) len) as Emin by done. clearbody n. rewrite (u16_small n) by lia.
  assert (owned s ((a, b) :: l2)) as [Hob2 Ho2]%owned_cons by (intros x Hx; apply Ho; rewrite addrs_app; apply elem_of_app; by right).
  assert (apart src len ((a, b) :: l2)) as [Hab2 Ha2]%apart_cons by (intros x Hx; apply Ha; rewrite addrs_app; apply elem_of_app; by right).
  assert (NoDup (addrs ((a, b) :: l2))) as Hnd2 by (rewrite addrs_app in Hnd; by apply NoDup_app in Hnd as (_ & _ & ?)).
  apply wp_step, wp_lw_memcpy; [lia|intros x Hx; apply Hv; lia|intros x Hx; apply Hob2; lia|
    destruct (apart_ranges src len (pb_payload b) (pb_len b)) as [?|[?|[?|?]]]; try done; lia|].
  set (s1 := with_data _ s). rewrite (u16_small (len - n)) by lia.
  assert (contents s1 l2 = contents s l2) as Econt.
  { unfold s1. apply contents_agree. intros x Hx. apply overlaid_out. rewrite lw_bytes_length. intros Hi. rewrite addrs_cons in Hnd2.
    apply NoDup_app in Hnd2 as (_ & Hd & _). apply (Hd x); [apply elem_data; lia|done]. }
  destruct (prefix_length s l1 _ Hp) as [El1 Hl1].
  rewrite contents_app, slices_app, contents_cons in HQ by (done || lia). rewrite take_bytes in HQ by lia.
  assert (Z.of_nat (length (lw_bytes s src n)) = n) as En by (rewrite lw_bytes_length; lia).
  assert (forall bs' s', stored s1 l2 bs' s' -> stored s (l1 ++ (a, b) :: l2)
    (contents s l1 ++ lw_bytes s (pb_payload b) o ++ lw_bytes s src n ++ lw_bytes s (pb_payload b + o + n) (pb_len b - o - n) ++ bs') s') as Hwhole.
  { intros bs' s' Hs'. apply stored_app; [done|]. apply (take_at_first _ _ _ _ _ n); try done; try lia. apply lw_bytes_range. }
  destruct (Z.ltb_spec 0 (len - n)).
  - apply wp_step, (wp_pbuf_at _ b); [done|]. pose proof (pseg_first _ _ _ _ Hl3) as Efirst. rewrite Efirst in *.
    assert (forall x, src + n <= x < src + n + (len - n) -> lw_data s1 x = lw_data s x) as Esrc.
    { intros x Hx. unfold s1. cbn. apply overlaid_out. rewrite En. intros Hi. apply (Hab2 x); lia. }
    apply (wp_take l2); try done; try lia.
    + intros ->. cbn in *. lia.
    + rewrite addrs_cons in Hnd2. by apply NoDup_app in Hnd2 as (_ & _ & ?).
    + intros x Hx. apply Hv. lia.
    + intros x Hx. pose proof (Ha2 x Hx). lia.
    + rewrite length_app in Hf. cbn in Hf. lia.
    + destruct (Z.ltb_spec (sum_len l2) (len - n)); [lia|]. intros s' Hs'. apply HQ.
      rewrite Econt, (lw_bytes_agree _ _ _ _ Esrc) in Hs'. apply Hwhole in Hs'.
      replace n with (pb_len b - o) in * by lia. rewrite drop_bytes_past by lia.
      assert (lw_bytes s src len = lw_bytes s src (pb_len b - o) ++ lw_bytes s (src + (pb_len b - o)) (len - (pb_len b - o))) as ->
        by (rewrite <- lw_bytes_add by lia; f_equal; lia).
      replace (pb_len b - o - (pb_len b - o)) with 0 in Hs' by lia. rewrite <- app_assoc.
      replace (o + len - pb_len b) with (len - (pb_len b - o)) by lia. exact Hs'.
  - apply wp_ret, HQ. replace n with len in * by lia. rewrite drop_bytes by lia. rewrite <- Econt.
    replace (pb_payload b + (o + len)) with (pb_payload b + o + len) by lia. replace (pb_len b - (o + len)) with (pb_len b - o - len) by lia.
    by apply Hwhole, stored_nothing.
Qed.

(** Bytes [offset] to [offset + len] of a chain, as many of them as it has. *)
Definition slice s (l : buffers) (offset len : Z) : list Z := take (Z.to_nat len) (drop (Z.to_nat offset) (contents s l)).

Lemma wp_copy_partial l fuel dst len offset s (Q : Z -> lwip -> Prop) :
  pseg (lw_cells s) (first_of l 0) l 0 -> l <> [] -> packet l -> owned s l -> 0 < dst ->
  (forall x, dst <= x < dst + len -> lw_valid s x = true) -> apart dst len l ->
  0 <= len < 65536 -> 0 <= offset < 65536 -> (length l < fuel)%nat ->
  (forall s', wrote s (overlaid (lw_data s) dst (slice s l offset len)) s' -> Q (Z.of_nat (length (slice s l offset len))) s') ->
  wp (pbuf_copy_partial fuel (first_of l 0) dst len offset) s Q.
Proof.
  intros Hl Hne Hp Ho Hdst Hv Ha Hlen Hoff Hf HQ. unfold pbuf_copy_partial.
  destruct l as [|[a b] l]; [done|]. cbn [first_of] in *. pose proof Hl as (_ & Ha0 & _).
  destruct (Z.eqb_spec a 0) as [?|_], (Z.eqb_spec dst 0) as [?|_]; try done; [lia|]. cbn [orb].
  apply (wp_copy_partial_loop ((a, b) :: l)); try done; rewrite ?Z.add_0_r; try done; try lia.
Qed.

Lemma wrote_bytes s a bs s' : Forall (fun b => 0 <= b < 256) bs -> wrote s (overlaid (lw_data s) a bs) s' ->
  lw_bytes s' a (Z.of_nat (length bs)) = bs.
Proof.
  intros Hr (d & -> & Hd). transitivity (lw_bytes (with_data (overlaid (lw_data s) a bs) s) a (Z.of_nat (length bs))).
  - apply lw_bytes_agree. intros x _. cbn. by rewrite Hd.
  - rewrite (lw_bytes_overlaid s a bs (Z.of_nat (length bs))) by (done || lia).
    by rewrite drop_ge, app_nil_r by (rewrite lw_bytes_length; lia).
Qed.

Lemma contents_range s l : Forall (fun b => 0 <= b < 256) (contents s l).
Proof. apply Forall_forall. intros b (x & -> & _)%list_elem_of_fmap. apply u8_range. Qed.

Lemma slice_range s l o n : Forall (fun b => 0 <= b < 256) (slice s l o n).
Proof. apply Forall_take, Forall_drop, contents_range. Qed.

Lemma slice_length s l o n : packet l -> 0 <= o -> 0 <= n -> Z.of_nat (length (slice s l o n)) = Z.min n (Z.max 0 (sum_len l - o)).
Proof. intros Hp Ho Hn. unfold slice. rewrite length_take, length_drop. pose proof (contents_length s l Hp). lia. Qed.

(** A well-formed chain in memory, whose bytes belong to someone and are distinct. *)
Record in_memory s (l : buffers) : Prop := {
  im_chain : pseg (lw_cells s) (first_of l 0) l 0;
  im_packet : packet l;
  im_owned : owned s l;
  im_apart : NoDup (addrs l) }.

Definition memory_of s (a n : Z) : Prop := 0 < a /\ forall x, a <= x < a + n -> lw_valid s x = true.

(** pbuf_copy_partial copies the bytes of the chain from [offset] on, whatever buffers they
    lie in: as many as asked for or as there are, which it returns.  It changes nothing
    but the destination. *)
Theorem pbuf_copy_partial_slices l fuel dst len offset s :
  in_memory s l -> l <> [] -> memory_of s dst len -> apart dst len l ->
  0 <= len < 65536 -> 0 <= offset < 65536 -> (length l < fuel)%nat ->
  wp (pbuf_copy_partial fuel (first_of l 0) dst len offset) s (fun n s' =>
    n = Z.min len (Z.max 0 (sum_len l - offset)) /\ lw_bytes s' dst n = slice s l offset len /\
    exists d, s' = with_data d s /\ forall x, ~ (dst <= x < dst + n) -> d x = lw_data s x).
Proof.
  intros [Hl Hp Ho Hnd] Hne [Hdst Hv] Ha Hlen Hoff Hf. apply (wp_copy_partial l); try done. intros s' Hs'.
  split; [apply slice_length; (done || lia)|]. split; [by eapply wrote_bytes; [apply slice_range|]|].
  destruct Hs' as (d & -> & Hd). exists d. split; [done|]. intros x Hx. rewrite Hd. by apply overlaid_out.
Qed.

(** C21: what pbuf_take_at puts into a chain, at any offset and over any buffers, pbuf_copy_partial
    takes out again; the other bytes of the chain, and all memory but the
    chain and the destination, stay.  If it does not fit, ERR_MEM is returned and
    nothing is changed. *)
Theorem pbuf_take_copy_roundtrip l fuel src dst len offset s :
  in_memory s l -> memory_of s src len -> memory_of s dst len -> apart src len l -> apart dst len l ->
  0 <= len < 65536 -> 0 <= offset < 65536 -> (length l < fuel)%nat ->
  let p := first_of l 0 in
  wp (r <- pbuf_take_at fuel p src len offset ;; n <- pbuf_copy_partial fuel p dst len offset ;; ret (r, n)) s (fun rn s' =>
    if (offset <? sum_len l) && (offset + len <=? sum_len l) then
      rn = (ERR_OK, len) /\ lw_bytes s' dst len = lw_bytes s src len /\
      contents s' l = take (Z.to_nat offset) (contents s l) ++ lw_bytes s src len ++ drop (Z.to_nat (offset + len)) (contents s l) /\
      exists d, s' = with_data d s /\ forall x, x ∉ addrs l -> ~ (dst <= x < dst + len) -> d x = lw_data s x
    else fst rn = ERR_MEM /\ contents s' l = contents s l).
Proof.
  intros [Hl Hp Ho Hnd] [Hsrc Hsv] [Hdst Hdv] Hsa Hda Hlen Hoff Hf p.
  assert (l = [] \/ l <> []) as [->|Hne] by (destruct l; [by left|by right]).
  { cbn [sum_len]. destruct (Z.ltb_spec offset 0); [lia|]. cbn [andb]. destruct fuel as [|fuel]; [cbn in Hf; lia|]. by vm_compute. }
  apply wp_step, (wp_take_at l); try done. destruct ((offset <? sum_len l) && (offset + len <=? sum_len l)) eqn:E.
  - apply andb_true_iff in E as [Eo%Z.ltb_lt El%Z.leb_le]. intros s1 [Hc (d & -> & Hd)]. apply wp_step.
    assert (slice (with_data d s) l offset len = lw_bytes s src len) as Esl.
    { unfold slice. rewrite Hc. pose proof (contents_length s l Hp).
      rewrite drop_app_length' by (rewrite length_take; lia). by rewrite take_app_length' by (rewrite lw_bytes_length; lia). }
    apply (wp_copy_partial l); try done. intros s2 Hs2. apply wp_ret. rewrite Esl in *.
    assert (Z.of_nat (length (lw_bytes s src len)) = len) as El2 by (rewrite lw_bytes_length; lia). rewrite El2.
    split; [done|]. split; [rewrite <- El2 at 1; eapply wrote_bytes; [apply lw_bytes_range|done]|].
    destruct Hs2 as (d2 & -> & Hd2). split.
    + rewrite <- Hc. apply contents_agree. intros x Hx. cbn. rewrite Hd2. apply overlaid_out. rewrite El2. by apply Hda.
    + exists d2. split; [done|]. intros x Hx Hx'. rewrite Hd2, overlaid_out by (by rewrite El2). by apply Hd.
  - apply wp_step, (wp_copy_partial l); try done. intros s2 (d2 & -> & Hd2). apply wp_ret. split; [done|].
    apply contents_agree. intros x Hx. cbn. rewrite Hd2. apply overlaid_out. intros Hi.
    apply (Hda x Hx). pose proof (slice_length s l offset len Hp). lia.
Qed.

(** ** Bytes, comparison and search *)

Lemma wp_byte_at a s (Q : Z -> lwip -> Prop) : lw_valid s a = true -> Q (u8 (lw_data s a)) s -> wp (byte_at a) s Q.
Proof.
  intros Hv HQ. apply wp_step, wp_lw_read; [|by apply wp_ret].
  intros x Hx. by replace x with a by lia.
Qed.

Lemma contents_lookup s l1 a b l2 o : packet (l1 ++ (a, b) :: l2) -> 0 <= o < pb_len b ->
  aget (contents s (l1 ++ (a, b) :: l2)) (sum_len l1 + o) = Some (u8 (lw_data s (pb_payload b + o))).
Proof.
  intros Hp Ho. destruct (prefix_length s l1 _ Hp) as [El Hl]. rewrite contents_app, contents_cons. unfold aget.
  destruct (Z.ltb_spec (sum_len l1 + o) 0); [lia|]. rewrite lookup_app_r by lia. rewrite lookup_app_l by (rewrite lw_bytes_length; lia).
  replace (Z.to_nat (sum_len l1 + o) - length (contents s l1))%nat with (Z.to_nat o) by lia.
  unfold lw_bytes, zrange. rewrite list_lookup_fmap, lookup_seqZ_lt by lia. cbn. do 3 f_equal. lia.
Qed.

(** The byte at an offset, or [d]. *)
Definition byte_of s (l : buffers) (i d : Z) : Z := default d (aget (contents s l) i).

Lemma wp_try_get_at l fuel offset s (Q : Z -> lwip -> Prop) :
  pseg (lw_cells s) (first_of l 0) l 0 -> packet l -> owned s l -> 0 <= offset < 65536 -> (length l < fuel)%nat ->
  Q (byte_of s l offset (-1)) s -> wp (pbuf_try_get_at fuel (first_of l 0) offset) s Q.
Proof.
  intros Hl Hp Ho Hoff Hf HQ. apply wp_step, (wp_skip l); try done. intros l1 l2 o -> -> Ho0 Hh. cbn [fst snd].
  destruct l2 as [|[a b] l2].
  - cbn [first_of]. change (negb (0 =? 0)) with false. apply wp_ret. unfold byte_of in HQ.
    replace (aget (contents s (l1 ++ [])) (sum_len l1 + o)) with (@None Z) in HQ; [done|]. symmetry. unfold aget.
    destruct (Z.ltb_spec (sum_len l1 + o) 0); [done|]. apply lookup_ge_None_2.
    pose proof (contents_length s _ Hp) as E. rewrite sum_len_app in E. cbn [sum_len] in E. lia.
  - pose proof (Hh a b l2 eq_refl) as Hob. pose proof (pseg_rest _ _ _ _ _ Hl) as (_ & Ha0 & Hab & _). cbn [first_of].
    destruct (Z.eqb_spec a 0); [done|]. cbn [negb]. apply wp_step, (wp_pbuf_at _ b); [done|].
    destruct (Z.ltb_spec o (pb_len b)); [|lia]. unfold byte_of in HQ. rewrite contents_lookup in HQ by (done || lia).
    apply wp_byte_at; [|done]. apply Ho. rewrite addrs_app, addrs_cons, !elem_of_app, elem_data. right. left. lia.
Qed.

Lemma byte_of_range s l i : 0 <= byte_of s l i 0 < 256.
Proof.
  unfold byte_of. destruct (aget (contents s l) i) as [b|] eqn:E; cbn; [|lia]. pose proof (contents_range s l) as H.
  rewrite Forall_forall in H. apply H. unfold aget in E. destruct (i <? 0); [done|]. by eapply list_elem_of_lookup_2.
Qed.

Lemma wp_get_at l fuel offset s (Q : Z -> lwip -> Prop) :
  pseg (lw_cells s) (first_of l 0) l 0 -> packet l -> owned s l -> 0 <= offset < 65536 -> (length l < fuel)%nat ->
  Q (byte_of s l offset 0) s -> wp (pbuf_get_at fuel (first_of l 0) offset) s Q.
Proof.
  intros Hl Hp Ho Hoff Hf HQ. apply wp_step, (wp_try_get_at l); try done. apply wp_ret. pose proof (byte_of_range s l offset) as Hr.
  unfold byte_of in *. destruct (aget (contents s l) offset) as [b|]; cbn in *; [|done].
  destruct (Z.leb_spec 0 b); [|lia]. by rewrite u8_small by lia.
Qed.

(** The number, from 1 on, of the first byte in which two byte strings differ; 0 if none does. *)
Fixpoint first_diff (i : Z) (xs ys : list Z) : Z :=
  match xs, ys with
  | x :: xs', y :: ys' => if x =? y then first_diff (i + 1) xs' ys' else i + 1
  | _, _ => 0
  end.

Lemma first_diff_0 xs ys i : 0 <= i -> length xs = length ys -> first_diff i xs ys = 0 <-> xs = ys.
Proof.
  revert ys i. induction xs as [|x xs IH]; intros [|y ys] i Hi Hl; cbn in *; try done. destruct (Z.eqb_spec x y) as [->|Hne].
  - rewrite IH by lia. split; [by intros ->|by intros [=]].
  - split; [lia|by intros [= ? _]].
Qed.

Lemma slice_S s l o n : packet l -> 0 <= o -> 0 <= n -> o < sum_len l ->
  slice s l o (n + 1) = byte_of s l o 0 :: slice s l (o + 1) n.
Proof.
  intros Hp Ho Hn Hlt. unfold slice, byte_of, aget. destruct (Z.ltb_spec o 0); [lia|]. pose proof (contents_length s l Hp).
  destruct (lookup_lt_is_Some_2 (contents s l) (Z.to_nat o) ltac:(lia)) as [x Hx]. rewrite Hx. cbn.
  rewrite (drop_S _ x) by done. replace (Z.to_nat (n + 1)) with (S (Z.to_nat n)) by lia. cbn. do 3 f_equal. lia.
Qed.

Lemma wp_memcmp_loop l fuel k : forall (start s2 i : Z) s (Q : Z -> lwip -> Prop),
  pseg (lw_cells s) (first_of l 0) l 0 -> packet l -> owned s l -> (length l < fuel)%nat ->
  (forall x, s2 + i <= x < s2 + i + Z.of_nat k -> lw_valid s x = true) -> 0 <= start -> 0 <= i -> start + i + Z.of_nat k <= sum_len l < 65536 ->
  Q (first_diff i (slice s l (start + i) (Z.of_nat k)) (lw_bytes s (s2 + i) (Z.of_nat k))) s ->
  wp (memcmp_loop fuel k (first_of l 0) start s2 i) s Q.
Proof.
  induction k as [|k IH]; intros start s2 i s Q Hl Hp Ho Hf Hv Hs Hi Hle HQ; cbn [memcmp_loop].
  - apply wp_ret. unfold slice in HQ. by rewrite take_0 in HQ.
  - rewrite u16_small by lia. apply wp_step, (wp_get_at l); try done; [lia|]. apply wp_step, wp_byte_at; [apply Hv; lia|].
    rewrite Nat2Z.inj_succ in HQ. unfold Z.succ in HQ. rewrite slice_S in HQ by (done || lia).
    replace (Z.of_nat k + 1) with (1 + Z.of_nat k) in HQ by lia. rewrite lw_bytes_add in HQ by lia.
    replace (lw_bytes s (s2 + i) 1) with [u8 (lw_data s (s2 + i))] in HQ by (unfold lw_bytes; cbn; do 3 f_equal; lia).
    cbn [app first_diff] in HQ. destruct (Z.eqb_spec (byte_of s l (start + i) 0) (u8 (lw_data s (s2 + i)))); cbn [negb].
    + rewrite u16_small by lia. apply IH; try done; try lia; [intros x Hx; apply Hv; lia|].
      by replace (start + (i + 1)) with (start + i + 1) by lia; replace (s2 + (i + 1)) with (s2 + i + 1) by lia.
    + apply wp_ret. by rewrite u16_small, Z.min_l by lia.
Qed.

(** pbuf_memcmp: 0xFFFF if the chain is too short, otherwise where the first difference is. *)
Lemma wp_memcmp l fuel (offset s2 n : Z) s (Q : Z -> lwip -> Prop) :
  pseg (lw_cells s) (first_of l 0) l 0 -> l <> [] -> packet l -> owned s l -> (length l < fuel)%nat ->
  (forall x, s2 <= x < s2 + n -> lw_valid s x = true) -> 0 <= offset < 65536 -> 0 <= n ->
  Q (if sum_len l <? offset + n then 0xFFFF else first_diff 0 (slice s l offset n) (lw_bytes s s2 n)) s ->
  wp (pbuf_memcmp fuel (first_of l 0) offset s2 n) s Q.
Proof.
  intros Hl Hne Hp Ho Hf Hv Hoff Hn HQ. destruct l as [|[a0 b0] l0]; [done|]. set (l := (a0, b0) :: l0) in *.
  change (first_of l 0) with a0 in *. pose proof Hl as (_ & _ & Hab & _). pose proof Hp as (_ & Htot & Hlt & _ & _)%packet_cons.
  apply wp_step, (wp_pbuf_at _ b0); [done|]. rewrite Htot in *. change (pb_len b0 + sum_len l0) with (sum_len l) in *.
  destruct (Z.ltb_spec (sum_len l) (offset + n)); [by apply wp_ret|].
  apply wp_step, (wp_skip l); try done. intros l1 l2 o E -> Ho0 Hh. cbn [fst snd]. clearbody l. subst l.
  destruct (prefix_length s l1 _ Hp) as [El Hl1]. rewrite sum_len_app in *.
  assert (slice s (l1 ++ l2) (sum_len l1 + o) n = slice s l2 o n) as Es.
  { unfold slice. rewrite contents_app, drop_app_ge by lia. do 2 f_equal. lia. }
  rewrite Es in HQ. apply (wp_memcmp_loop l2); rewrite ?Z.add_0_r, ?Z2Nat.id by lia; try done; try lia.
  - by apply (pseg_rest _ a0 l1).
  - by apply packet_app in Hp.
  - intros x Hx. apply Ho. rewrite addrs_app. apply elem_of_app. by right.
  - rewrite length_app in Hf. lia.
Qed.

(** ** Search *)

Lemma wp_memfind_loop l fuel k : forall mem len i s (Q : Z -> lwip -> Prop) bs,
  pseg (lw_cells s) (first_of l 0) l 0 -> l <> [] -> packet l -> owned s l -> (length l < fuel)%nat ->
  (forall x, mem <= x < mem + len -> lw_valid s x = true) -> lw_bytes s mem len = bs ->
  0 <= len <= sum_len l -> sum_len l < 65536 -> 0 <= i <= sum_len l - len + 1 -> sum_len l - len + 2 - i <= Z.of_nat k ->
  (forall r, i <= r <= sum_len l - len -> slice s l r len = bs -> (forall j, i <= j < r -> slice s l j len <> bs) -> Q r s) ->
  ((forall j, i <= j <= sum_len l - len -> slice s l j len <> bs) -> Q 0xFFFF s) ->
  wp (memfind_loop fuel k (first_of l 0) mem len (sum_len l - len) i) s Q.
Proof.
  induction k as [|k IH]; intros mem len i s Q bs Hl Hne Hp Ho Hf Hv Hbs Hlen Hlt Hi Hk Hfound Hnone; cbn [memfind_loop]; [lia|].
  destruct (Z.leb_spec i (sum_len l - len)).
  - apply wp_step, (wp_memcmp l); try done; try lia. destruct (Z.ltb_spec (sum_len l) (i + len)); [lia|]. rewrite Hbs.
    assert (length (slice s l i len) = length bs) as El.
    { rewrite <- Hbs, lw_bytes_length. pose proof (slice_length s l i len Hp ltac:(lia) ltac:(lia)). lia. }
    pose proof (first_diff_0 (slice s l i len) bs 0 ltac:(lia) El) as Hd.
    destruct (Z.eqb_spec (first_diff 0 (slice s l i len) bs) 0) as [E|E].
    + apply wp_ret, Hfound; [lia|by apply Hd|lia].
    + assert (slice s l i len <> bs) as Hnot by (intros E'; by apply E, Hd).
      assert (i < 65535 \/ i = 65535 /\ len = 0) as [Hi'|[-> ->]] by lia.
      * rewrite u16_small by lia. apply (IH mem len (i + 1) s Q bs); try done; try lia.
        -- intros r Hr Hs Hj. apply Hfound; [lia|done|]. intros j Hj'. destruct (Z.eq_dec j i) as [->|]; [done|apply Hj; lia].
        -- intros Hj. apply Hnone. intros j Hj'. destruct (Z.eq_dec j i) as [->|]; [done|apply Hj; lia].
      * destruct Hnot. rewrite <- Hbs. unfold slice. done.
  - apply wp_ret, Hnone. intros j Hj. lia.
Qed.

(** Pbuf_memfind returns the first place, from [start] on, at which the chain has the bytes
    [mem], whatever buffers they lie in; 0xFFFF if there is none.  It changes nothing, and it
    terminates. *)
Theorem pbuf_memfind_first l fuel k mem len start s :
  in_memory s l -> l <> [] -> memory_of s mem len -> 0 <= len < 65536 -> 0 <= start < 65536 -> (length l < fuel)%nat -> sum_len l + 2 <= Z.of_nat k ->
  let bs := lw_bytes s mem len in
  wp (pbuf_memfind fuel k (first_of l 0) mem len start) s (fun r s' => s' = s /\
    (start <= r /\ r + len <= sum_len l /\ slice s l r len = bs /\ (forall j, start <= j < r -> slice s l j len <> bs) \/
     r = 0xFFFF /\ forall j, start <= j -> j + len <= sum_len l -> slice s l j len <> bs)).
Proof.
  intros [Hl Hp Ho _] Hne [_ Hv] Hlen Hstart Hf Hk bs. destruct l as [|[a0 b0] l0]; [done|]. set (l := (a0, b0) :: l0) in *.
  change (first_of l 0) with a0 in *. pose proof Hl as (_ & _ & Hab & _). pose proof Hp as (_ & Htot & Hlt & _ & _)%packet_cons.
  apply wp_step, (wp_pbuf_at _ b0); [done|]. rewrite Htot in *. change (pb_len b0 + sum_len l0) with (sum_len l) in *.
  destruct (Z.leb_spec (len + start) (sum_len l)).
  - rewrite (u16_small (sum_len l - len)) by lia. apply (wp_memfind_loop l) with (bs := bs); try done; try lia.
    + intros r Hr Hs Hj. split; [done|]. left. split; [lia|]. split; [lia|]. done.
    + intros Hj. split; [done|]. right. split; [done|]. intros j H1 H2. apply Hj. lia.
  - apply wp_ret. split; [done|]. right. split; [done|]. intros j H1 H2. lia.
Qed.
End data.

(** * Concrete runs *)

#[local] Existing Instance sim_pools.
#[local] Existing Instance sim_layout.

Lemma sim_memory s a n : (forall x, 0x20040000 <= x < 0x20080000 -> lw_valid s x = true) -> 0x20078000 <= a -> a + n <= 0x20080000 -> memory_of s a n.
Proof. intros Hv H1 H2. split; [lia|]. intros x Hx. apply Hv. lia. Qed.

Lemma sim_apart l a n : (forall x, x ∈ addrs l -> 0x20070000 <= x < 0x20075000) -> 0x20078000 <= a -> apart a n l.
Proof. intros Hr Ha x Hx%Hr. lia. Qed.

Lemma sim_in_memory l s : pseg (lw_cells s) (first_of l 0) l 0 -> packet l -> NoDup (addrs l) ->
  (forall x, x ∈ addrs l -> 0x20070000 <= x < 0x20075000) -> (forall x, 0x20040000 <= x < 0x20080000 -> lw_valid s x = true) -> in_memory s l.
Proof. intros Hl Hp Hn Hr Hv. split; try done. intros x Hx%Hr. apply Hv. lia. Qed.

(** 700 bytes are put over the first two buffers of a packet, and taken out again. *)
Lemma pbuf_take_copy_roundtrip_witness :
  wp (bind (bind (mem_init ;; memp_init) (fun _ => pbuf_alloc (fun _ => undef) 20 PBUF_RAW 1500 PBUF_POOL)) (fun p =>
        r <- pbuf_take_at 20 p 0x20078000 700 300 ;; n <- pbuf_copy_partial 20 p 0x20079000 700 300 ;; ret (r, n)))
    lw_static (fun rn _ => rn = (ERR_OK, 700)).
Proof.
  apply wp_step, wp_sim_packet. intros l s fp Hl Hp Hsum Hlen Hf Hw Hnd Hr Hres Hv.
  eapply wp_mono; [apply (pbuf_take_copy_roundtrip l 20 0x20078000 0x20079000 700 300 s);
    [by apply sim_in_memory|by apply sim_memory|by apply sim_memory|by apply sim_apart|by apply sim_apart|lia|lia|lia]|].
  intros rn s'. rewrite Hsum. cbn. by intros [-> _].
Defined.

(** 12 bytes are looked for from byte 100 on. *)
Lemma pbuf_memfind_first_witness :
  wp (bind (bind (mem_init ;; memp_init) (fun _ => pbuf_alloc (fun _ => undef) 20 PBUF_RAW 1500 PBUF_POOL)) (fun p =>
        pbuf_memfind 20 (Z.to_nat 1600) p 0x20078000 12 100)) lw_static (fun r _ => 100 <= r <= 1488 \/ r = 0xFFFF).
Proof.
  apply wp_step, wp_sim_packet. intros l s fp Hl Hp Hsum Hlen Hf Hw Hnd Hr Hres Hv.
  eapply wp_mono; [apply (pbuf_memfind_first l 20 (Z.to_nat 1600) 0x20078000 12 100 s);
    [by apply sim_in_memory|by destruct l|by apply sim_memory|lia|lia|lia|lia]|].
  intros r s' [_ [(H1 & H2 & _)|[-> _]]]; [left; lia|by right].
Defined.
