(* ===== verification/PbufClone.v ===== *)
(** Copies of packets: pbuf_copy between two chains whose buffers have different lengths,
    and the chains that are allocated for a copy. *)
From S2P Require Import Prelude Machine LwMem LwHeap Pbuf PbufCopy PbufChain PbufAlloc PbufData.
From stdpp Require Import list gmap.

#[local] Open Scope Z_scope.
#[local] Open Scope fw_scope.

Section copying.
Context {P : Pools}.
Implicit Types s : lwip.

(** ** A place in a chain *)

(** What is left of a chain behind the first [o] bytes of its first buffer. *)
Definition rest (o : Z) (l : buffers) : buffers :=
  match l with [] => [] | (a, b) :: l' => (a, part o (pb_len b - o) b) :: l' end.

Record place s (l : buffers) (o : Z) : Prop := {
  pl_chain : pseg (lw_cells s) (first_of l 0) l 0;
  pl_packet : packet l;
  pl_solid : filled l;
  pl_offset : match l with [] => o = 0 | (_, b) :: _ => 0 <= o <= pb_len b end }.

Lemma addrs_rest a b l o n : 0 <= n -> o + n <= pb_len b ->
  addrs (rest o ((a, b) :: l)) = data_of (part o n b) ++ addrs (rest (o + n) ((a, b) :: l)).
Proof.
  intros Hn Ho. cbn [rest]. rewrite !addrs_cons, app_assoc. f_equal. unfold data_of. cbn [pb_payload pb_len part put_payload].
  replace (pb_len b - o) with (n + (pb_len b - (o + n))) by lia. rewrite zrange_add by lia. do 2 f_equal. lia.
Qed.

Lemma addrs_rest_0 l : addrs (rest 0 l) = addrs l.
Proof.
  destruct l as [|[a b] l]; [done|]. cbn [rest]. rewrite !addrs_cons. f_equal. unfold data_of. cbn [pb_payload pb_len part put_payload].
  by rewrite Z.add_0_r, Z.sub_0_r.
Qed.

Lemma addrs_rest_full a b l : addrs (rest (pb_len b) ((a, b) :: l)) = addrs (rest 0 l).
Proof.
  rewrite addrs_rest_0. cbn [rest]. rewrite addrs_cons. unfold data_of. cbn [pb_payload pb_len part put_payload]. by rewrite Z.sub_diag.
Qed.

(** The place behind [n] more bytes. *)
Definition advance (l : buffers) (o : Z) : buffers * Z :=
  match l with [] => ([], 0) | (_, b) :: l' => if pb_len b <=? o then (l', 0) else (l, o) end.

Lemma advance_addrs l o : match l with [] => True | (_, b) :: _ => o <= pb_len b end ->
  addrs (rest (snd (advance l o)) (fst (advance l o))) = addrs (rest o l).
Proof.
  destruct l as [|[a b] l]; [done|]. cbn [advance]. intros Ho. destruct (Z.leb_spec (pb_len b) o); [|done].
  replace o with (pb_len b) by lia. by rewrite addrs_rest_full.
Qed.

Lemma advance_place s a b l o0 o : place s ((a, b) :: l) o0 -> 0 <= o <= pb_len b ->
  place s (fst (advance ((a, b) :: l) o)) (snd (advance ((a, b) :: l) o)).
Proof.
  intros [Hc Hp Hs _] Ho. cbn [advance]. destruct (Z.leb_spec (pb_len b) o); [|by split].
  pose proof Hp as (_ & _ & _ & _ & Hp')%packet_cons. destruct Hc as (_ & _ & _ & Hc). cbn [fst snd].
  pose proof (pseg_first _ _ _ _ Hc) as E. rewrite E in Hc. cbn in Hs. split; [done|done| |].
  - unfold filled. destruct l; [done|]. by apply Forall_cons in Hs as [_ ?].
  - destruct l as [|[a' b'] l]; [done|]. apply packet_cons in Hp'. lia.
Qed.

(** How many bytes are left. *)
Definition left_of (l : buffers) (o : Z) : Z := match l with [] => 0 | (_, b) :: l' => pb_len b - o + sum_len l' end.

Lemma advance_left l o : match l with [] => True | (_, b) :: _ => o <= pb_len b end ->
  left_of (fst (advance l o)) (snd (advance l o)) = left_of l o.
Proof.
  destruct l as [|[a b] l]; [done|]. cbn [advance]. intros Ho. destruct (Z.leb_spec (pb_len b) o); [|done].
  destruct l as [|[a' b'] l]; cbn; lia.
Qed.

Lemma filled_sum l : packet l -> Forall (fun x => 0 < pb_len (snd x)) l -> sum_len l = 0 -> l = [].
Proof.
  destruct l as [|[a b] l]; [done|]. intros Hp%packet_cons [Hb _]%Forall_cons. cbn in *. lia.
Qed.

(** A buffer that ends its packet has no successor. *)
Lemma no_queue s a b l o : place s ((a, b) :: l) o -> (pb_len b =? pb_tot_len b) && negb (pb_next b =? 0) = false.
Proof.
  intros [(_ & _ & _ & Hc) Hp Hs _]. apply packet_cons in Hp as (_ & -> & _ & Hsum & Hp).
  destruct (Z.eqb_spec (pb_len b) (pb_len b + sum_len l)); [|done]. cbn in Hs. rewrite (filled_sum l) in Hc by (done || lia). cbn in Hc. by rewrite Hc.
Qed.

Lemma place_zero s l o : place s l o -> first_of l 0 = 0 -> l = [].
Proof. intros [Hc _ _ _] H. destruct l as [|[a b] l]; [done|]. by destruct Hc as (_ & ? & _). Qed.

Lemma wp_no_queue l o s (Q : bool -> lwip -> Prop) : place s l o -> Q false s ->
  wp (let p := first_of l 0 in if p =? 0 then ret false else b <- pbuf_at p ;; ret ((pb_len b =? pb_tot_len b) && negb (pb_next b =? 0))) s Q.
Proof.
  intros Hp HQ. cbn zeta. destruct l as [|[a b] l]; [by apply wp_ret|]. pose proof Hp as [(_ & Ha0 & Hab & _) _ _ _]. cbn [first_of].
  destruct (Z.eqb_spec a 0); [done|]. apply wp_step, (wp_pbuf_at _ b); [done|]. apply wp_ret. by rewrite (no_queue s a b l o).
Qed.

(** A place is in a state as long as the objects are. *)
Lemma place_data s l o d : place s l o -> place (with_data d s) l o.
Proof. by intros [? ? ? ?]. Qed.

Lemma wp_copy_step a b l o a' b' l' o' s (Q : Z + (Z * Z * Z * Z) -> lwip -> Prop) :
  let n := Z.min (pb_len b' - o') (pb_len b - o) in
  let t := advance ((a, b) :: l) (o + n) in let f := advance ((a', b') :: l') (o' + n) in
  place s ((a, b) :: l) o -> place s ((a', b') :: l') o' -> owned s ((a, b) :: l) -> owned s ((a', b') :: l') ->
  (forall x, x ∈ addrs ((a, b) :: l) -> x ∉ addrs ((a', b') :: l')) -> left_of ((a', b') :: l') o' <= left_of ((a, b) :: l) o ->
  ((fst t = [] -> fst f = []) -> Q (inr (first_of (fst t) 0, snd t, first_of (fst f) 0, snd f))
    (with_data (overlaid (lw_data s) (pb_payload b + o) (lw_bytes s (pb_payload b' + o') n)) s)) ->
  wp (copy_step a o a' o') s Q.
Proof.
  intros n t f Ht Hf Hot Hof Hd Hleft HQ. pose proof Ht as [(_ & _ & Hab & Hl) (Hb & _ & _ & Hsum & Hp)%packet_cons Hsol Ho].
  pose proof Hf as [(_ & _ & Hab' & Hl') (Hb' & _ & _ & Hsum' & Hp')%packet_cons Hsol' Ho']. cbn [filled tail snd] in *.
  apply wp_step, (wp_pbuf_at _ b); [done|]. apply wp_step, (wp_pbuf_at _ b'); [done|]. cbn zeta. rewrite !(u32_small (_ - _)) by lia.
  assert ((if pb_len b' - o' <=? pb_len b - o then pb_len b' - o' else pb_len b - o) = n) as ->
    by (unfold n; destruct (Z.leb_spec (pb_len b' - o') (pb_len b - o)); lia).
  assert (0 <= n <= pb_len b' - o' /\ n <= pb_len b - o) as [Hn1 Hn2] by lia. rewrite !u32_small by lia.
  apply wp_step, wp_lw_memcpy; [lia|intros x Hx; apply Hof; rewrite addrs_cons, elem_of_app, elem_data; left; lia|
    intros x Hx; apply Hot; rewrite addrs_cons, elem_of_app, elem_data; left; lia| |].
  { destruct (apart_ranges (pb_payload b' + o') n (pb_payload b + o) n) as [?|[?|[?|?]]]; try lia. intros x Hx Hx'.
    apply (Hd x); rewrite addrs_cons, elem_of_app, elem_data; left; lia. }
  set (s1 := with_data _ s). pose proof (advance_place s a b l o (o + n) Ht ltac:(lia)) as Ht'. pose proof (advance_place s a' b' l' o' (o' + n) Hf ltac:(lia)) as Hf'.
  fold t in Ht'. fold f in Hf'. pose proof (pseg_first _ _ _ _ Hl) as Enext. pose proof (pseg_first _ _ _ _ Hl') as Enext'.
  assert ((if pb_len b' <=? o' + n then (pb_next b', 0) else (a', o' + n)) = (first_of (fst f) 0, snd f)) as ->.
  { unfold f, advance. rewrite Enext'. by destruct (pb_len b' <=? o' + n). }
  assert ((if o + n =? pb_len b then (pb_next b, 0) else (a, o + n)) = (first_of (fst t) 0, snd t)) as ->.
  { unfold t, advance. rewrite Enext. destruct (Z.leb_spec (pb_len b) (o + n)), (Z.eqb_spec (o + n) (pb_len b)); try done; lia. }
  assert (fst t = [] -> fst f = []) as Hboth.
  { intros Et. assert (o + n = pb_len b /\ l = []) as [E ->] by (unfold t, advance in Et; destruct (Z.leb_spec (pb_len b) (o + n)); [by split; [lia|]|done]).
    cbn [left_of sum_len] in Hleft. assert (l' = []) as -> by (apply filled_sum; [done|done|lia]).
    unfold f, advance. destruct (Z.leb_spec (pb_len b') (o' + n)); [done|lia]. }
  cbn [fst snd]. assert ((o + n =? pb_len b) && (first_of (fst t) 0 =? 0) && negb (first_of (fst f) 0 =? 0) = false) as ->.
  { destruct (Z.eqb_spec (first_of (fst t) 0) 0) as [Ez|]; [|by rewrite andb_false_r].
    pose proof (place_zero _ _ _ Ht' Ez) as Et. rewrite (Hboth Et). by rewrite andb_false_r. }
  apply wp_step, (wp_no_queue (fst f) (snd f)); [by apply place_data|]. apply wp_step, (wp_no_queue (fst t) (snd t)); [by apply place_data|].
  by apply wp_ret, HQ.
Qed.

Lemma contents_rest s a b l o n : 0 <= n -> o + n <= pb_len b ->
  contents s (rest o ((a, b) :: l)) = lw_bytes s (pb_payload b + o) n ++ contents s (rest (o + n) ((a, b) :: l)).
Proof. intros Hn Ho. unfold contents. by rewrite (addrs_rest _ _ _ _ n), fmap_app by done. Qed.

Lemma rest_sub l o x : match l with [] => True | (_, b) :: _ => 0 <= o <= pb_len b end -> x ∈ addrs (rest o l) -> x ∈ addrs l.
Proof.
  destruct l as [|[a b] l]; [done|]. intros Ho. cbn [rest]. rewrite !addrs_cons, !elem_of_app, !elem_data.
  cbn [pb_payload pb_len part put_payload]. intros [?|?]; [left; lia|by right].
Qed.

Lemma advance_shorter a b l o : (length (fst (advance ((a, b) :: l) o)) <= S (length l))%nat /\
  (pb_len b <= o -> length (fst (advance ((a, b) :: l) o)) = length l).
Proof. cbn [advance]. destruct (Z.leb_spec (pb_len b) o); cbn; lia. Qed.

Lemma advance_sub l o x : x ∈ addrs (fst (advance l o)) -> x ∈ addrs l.
Proof.
  destruct l as [|[a b] l]; [done|]. cbn [advance]. destruct (pb_len b <=? o); [|done]. cbn [fst].
  rewrite addrs_cons, elem_of_app. by right.
Qed.

Lemma wp_copy_loop fuel : forall l o l' o' s (Q : Z -> lwip -> Prop),
  place s l o -> place s l' o' -> l <> [] -> l' <> [] -> owned s l -> owned s l' -> NoDup (addrs (rest o l)) ->
  (forall x, x ∈ addrs l -> x ∉ addrs l') -> left_of l' o' <= left_of l o -> (length l + length l' <= fuel)%nat ->
  (forall s', stored s (rest o l) (contents s (rest o' l') ++ drop (Z.to_nat (left_of l' o')) (contents s (rest o l))) s' -> Q ERR_OK s') ->
  wp (copy_loop fuel (first_of l 0) o (first_of l' 0) o') s Q.
Proof.
  induction fuel as [|fuel IH]; intros l o l' o' s Q Hl Hl' Hne Hne' Ho Ho' Hnd Hdis Hleft Hf HQ; (destruct l as [|[a b] l]; [done|]);
    (destruct l' as [|[a' b'] l']; [done|]); [cbn in Hf; lia|]. cbn [first_of copy_loop].
  pose proof (pl_offset _ _ _ Hl) as Hob. pose proof (pl_offset _ _ _ Hl') as Hob'. cbn in Hob, Hob'.
  set (n := Z.min (pb_len b' - o') (pb_len b - o)). set (t := advance ((a, b) :: l) (o + n)). set (f := advance ((a', b') :: l') (o' + n)).
  apply wp_step, wp_copy_step with (b := b) (l := l) (b' := b') (l' := l'); try done. fold n. fold t. fold f. intros Hboth. set (bs := lw_bytes s (pb_payload b' + o') n).
  set (s1 := with_data _ s).
  pose proof (advance_place s a b l o (o + n) Hl ltac:(lia)) as Ht. pose proof (advance_place s a' b' l' o' (o' + n) Hl' ltac:(lia)) as Hf'.
  fold t in Ht. fold f in Hf'.
  pose proof (advance_addrs ((a, b) :: l) (o + n) ltac:(cbn; lia)) as At. pose proof (advance_addrs ((a', b') :: l') (o' + n) ltac:(cbn; lia)) as Af.
  pose proof (advance_left ((a, b) :: l) (o + n) ltac:(cbn; lia)) as Lt. pose proof (advance_left ((a', b') :: l') (o' + n) ltac:(cbn; lia)) as Lf.
  fold t in At, Lt. fold f in Af, Lf. rewrite (addrs_rest _ _ _ _ n) in Hnd by lia.
  assert (Z.of_nat (length bs) = n) as Elen by (unfold bs; rewrite lw_bytes_length; lia).
  assert (forall bs' s', stored s1 (rest (snd t) (fst t)) bs' s' -> stored s (rest o ((a, b) :: l)) (bs ++ bs') s') as Hst.
  { intros bs' s' Hs'. apply (stored_addrs _ _ _ _ _ At) in Hs'. apply (stored_addrs _ ((a, part o n b) :: rest (o + n) ((a, b) :: l))).
    { rewrite addrs_cons. symmetry. apply addrs_rest; lia. }
    pose proof (stored_cons s a (part o n b) (rest (o + n) ((a, b) :: l)) n (overlaid (lw_data s) (pb_payload (part o n b)) bs) bs bs' s' (lw_bytes_range _ _ _) Elen) as H.
    rewrite (drop_ge (lw_bytes _ _ _)) in H by (rewrite lw_bytes_length; cbn; lia). apply H; [cbn; lia|by rewrite addrs_cons|done|done]. }
  assert (contents s1 (rest (snd t) (fst t)) = contents s (rest (o + n) ((a, b) :: l))) as Ct.
  { rewrite (contents_ext _ _ _ At). apply (overlaid_apart s _ _ (part o n b)); [done|done|cbn; lia]. }
  assert (contents s1 (rest (snd f) (fst f)) = contents s (rest (o' + n) ((a', b') :: l'))) as Cf.
  { rewrite (contents_ext _ _ _ Af). apply contents_agree. intros x Hx%rest_sub; [|cbn; lia]. apply overlaid_out. rewrite Elen. intros Hi.
    apply (Hdis x); [|done]. rewrite addrs_cons, elem_of_app, elem_data. left. lia. }
  rewrite (contents_rest s a b l o n), (contents_rest s a' b' l' o' n) in HQ by lia. fold bs in HQ.
  assert (Z.to_nat (left_of ((a', b') :: l') o') = (Z.to_nat n + Z.to_nat (left_of (fst f) (snd f)))%nat) as El.
  { rewrite Lf. cbn [left_of]. pose proof (sum_len_nonneg _ (proj2 (proj2 (proj2 (proj2 (packet_cons _ _ _ (pl_packet _ _ _ Hl'))))))). lia. }
  rewrite El, <- drop_drop, drop_app_length' in HQ by (rewrite lw_bytes_length; lia).
  destruct (decide (fst f = [])) as [Ef|Ef].
  - assert (contents s (rest (o' + n) ((a', b') :: l')) = []) as Ec by (rewrite <- Cf, Ef; done). rewrite Ec, app_nil_r in HQ.
    rewrite Ef in *. change (negb (first_of [] 0 =? 0)) with false. apply wp_ret, HQ. cbn [left_of]. rewrite drop_0, <- Ct.
    apply Hst, stored_nothing.
  - assert (first_of (fst f) 0 <> 0) as Hfz by (intros E; by apply Ef, (place_zero _ _ _ Hf')).
    destruct (Z.eqb_spec (first_of (fst f) 0) 0); [done|]. cbn [negb].
    apply IH; try (by apply place_data); try done.
    + intros E. by apply Ef, Hboth.
    + intros x Hx. by apply Ho, (advance_sub _ (o + n)).
    + intros x Hx. by apply Ho', (advance_sub _ (o' + n)).
    + rewrite At. by apply NoDup_app in Hnd as (_ & _ & ?).
    + intros x Hx%advance_sub Hx'%advance_sub. by apply (Hdis x).
    + rewrite Lt, Lf. cbn [left_of] in *. lia.
    + destruct (advance_shorter a b l (o + n)), (advance_shorter a' b' l' (o' + n)). unfold t, f. cbn [length] in Hf.
      assert (pb_len b <= o + n \/ pb_len b' <= o' + n) by lia. lia.
    + intros s' Hs'. apply HQ. rewrite Ct, Cf in Hs'. rewrite <- app_assoc. by apply Hst.
Qed.

Lemma wp_pbuf_copy fuel l l' s (Q : Z -> lwip -> Prop) :
  place s l 0 -> place s l' 0 -> l <> [] -> l' <> [] -> owned s l -> owned s l' -> NoDup (addrs l) ->
  (forall x, x ∈ addrs l -> x ∉ addrs l') -> (length l + length l' <= fuel)%nat ->
  (if sum_len l <? sum_len l' then Q ERR_ARG s
   else forall s', stored s l (contents s l' ++ drop (Z.to_nat (sum_len l')) (contents s l)) s' -> Q ERR_OK s') ->
  wp (pbuf_copy fuel (first_of l 0) (first_of l' 0)) s Q.
Proof.
  intros Hl Hl' Hne Hne' Ho Ho' Hnd Hdis Hf HQ. destruct l as [|[a b] l]; [done|]. destruct l' as [|[a' b'] l']; [done|].
  pose proof Hl as [(_ & Ha0 & Hab & _) (Hb & Htot & _ & _)%packet_cons _ _]. pose proof Hl' as [(_ & Ha0' & Hab' & _) (Hb' & Htot' & _ & _)%packet_cons _ _].
  cbn [first_of]. unfold pbuf_copy. destruct (Z.eqb_spec a 0), (Z.eqb_spec a' 0); try done. cbn [orb].
  apply wp_step, (wp_pbuf_at _ b); [done|]. apply wp_step, (wp_pbuf_at _ b'); [done|]. rewrite Htot, Htot'.
  change (pb_len b + sum_len l) with (sum_len ((a, b) :: l)). change (pb_len b' + sum_len l') with (sum_len ((a', b') :: l')).
  destruct (Z.ltb_spec (sum_len ((a, b) :: l)) (sum_len ((a', b') :: l'))); [by apply wp_ret|].
  apply (wp_copy_loop fuel ((a, b) :: l) 0 ((a', b') :: l') 0); rewrite ?addrs_rest_0; try done; [cbn [left_of sum_len] in *; lia|].
  intros s' Hs'. apply HQ. apply (stored_addrs _ _ ((a, b) :: l)) in Hs'; [|apply addrs_rest_0].
  rewrite !(contents_ext _ _ _ (addrs_rest_0 _)) in Hs'.
  by replace (left_of ((a', b') :: l') 0) with (sum_len ((a', b') :: l')) in Hs' by (cbn [left_of sum_len]; lia).
Qed.

(** pbuf_copy copies a packet into a chain that is long enough, however the two are cut into
    buffers; what the target has behind the packet, and all other memory, stays.  A chain that
    is too short is refused. *)
Theorem pbuf_copy_copies fuel l l' s :
  place s l 0 -> place s l' 0 -> l <> [] -> l' <> [] -> owned s l -> owned s l' -> NoDup (addrs l) ->
  (forall x, x ∈ addrs l -> x ∉ addrs l') -> (length l + length l' <= fuel)%nat ->
  wp (pbuf_copy fuel (first_of l 0) (first_of l' 0)) s (fun r s' =>
    if sum_len l <? sum_len l' then r = ERR_ARG /\ s' = s
    else r = ERR_OK /\ stored s l (contents s l' ++ drop (Z.to_nat (sum_len l')) (contents s l)) s').
Proof.
  intros. apply wp_pbuf_copy; try done. destruct (Z.ltb_spec (sum_len l) (sum_len l')); by split.
Qed.
End copying.
