(* ===== verification/PbufCoalesce.v ===== *)
(** Copies on the heap: pbuf_alloc of a buffer in the heap, and pbuf_coalesce, which turns a
    chain into one buffer. *)
From S2P Require Import Prelude Machine LwMem LwHeap Pbuf PbufCopy PbufChain PbufAlloc PbufData PbufClone.
From stdpp Require Import list gmap.

#[local] Open Scope Z_scope.
#[local] Open Scope fw_scope.

Section coalesce.
Context {P : Pools} {L : LwLayout} (custom_free_function : Z -> lw unit).
Implicit Types s : lwip.

(** ** A buffer in the heap *)

(** What the heap is asked for: the head, the space for headers, and the data. *)
Definition ram_len (layer length : Z) : Z := 16 + (layer + 3) / 4 * 4 + (length + 3) / 4 * 4.

(** There is no memory for a buffer of the heap: no block that is free is large enough, or the size is more
    than a u16_t holds. *)
Definition no_memory (layer length : Z) s : Prop :=
  65536 <= ram_len layer length \/
  exists h, heap_ok s h /\ Forall (fun blk => snd blk = true \/ fst blk < block_size (ram_len layer length) + 8) h.

Lemma no_memory_at layer length s h : heap_ok s h ->
  65536 <= ram_len layer length \/ take_first (block_size (ram_len layer length)) 0 h = None -> no_memory layer length s.
Proof. intros Hok [?|E]; [by left|right]. exists h. split; [done|by eapply take_first_short]. Qed.

Lemma regions_disjoint s h p c x : heap_ok s h -> forall rs, Permutation (regions 0 h) ((p, c) :: rs) -> p <= x < p + c ->
  forall q k, (q, k) ∈ rs -> ~ (q <= x < q + k).
Proof.
  intros [[pe Ht] _ _ _ _] rs Hp Hx q k Hi Hx'. apply regions_apart in Ht as [Hs _].
  symmetry in Hp. apply Permutation_inj in Hp as (_ & f & Hinj & Hl). apply list_elem_of_lookup in Hi as (i & Hi).
  assert (regions 0 h !! f 0%nat = Some (p, c)) as H0 by by rewrite <- Hl.
  assert (regions 0 h !! f (S i) = Some (q, k)) as H1 by by rewrite <- Hl.
  destruct (Nat.lt_trichotomy (f 0%nat) (f (S i))) as [Hlt|[E|Hlt]].
  - pose proof (sorted_lookup _ _ _ _ _ _ Hs H0 H1 Hlt) as H. cbn in H. lia.
  - by apply Hinj in E.
  - pose proof (sorted_lookup _ _ _ _ _ _ Hs H1 H0 Hlt) as H. cbn in H. lia.
Qed.

(** A buffer of its own: one reference, all its data behind its head in one block [c]. *)
Record ram_buffer (p c layer length : Z) (b : pbuf) : Prop := {
  rb_next : pb_next b = 0;
  rb_len : pb_len b = length;
  rb_tot : pb_tot_len b = length;
  rb_type : pb_type b = u8 PBUF_RAM;
  rb_flags : pb_flags b = 0;
  rb_ref : pb_ref b = 1;
  rb_low : p + 16 + layer <= pb_payload b;
  rb_high : pb_payload b + length <= p + c }.

(** What is kept stays as it is. *)
Record steady (h : blocks) s s' : Prop := {
  sd_cells x : kept h x -> lw_cells s' !! x = lw_cells s !! x;
  sd_valid x : kept h x -> lw_valid s' x = lw_valid s x;
  sd_data : lw_data s' = lw_data s }.

Lemma wp_pbuf_alloc_ram fuel layer length fp fr h s (Q : Z -> lwip -> Prop) :
  res s fp fr h -> 0 <= layer <= 54 -> 0 <= length < 65536 ->
  (65536 <= ram_len layer length \/ take_first (block_size (ram_len layer length)) 0 h = None -> Q 0 s) ->
  (ram_len layer length < 65536 -> take_first (block_size (ram_len layer length)) 0 h <> None ->
   forall p c b h' s', ram_buffer p c layer length b -> lw_cells s' !! p = Some (Buf b) -> p <> 0 ->
     res s' fp fr h' -> Permutation (regions 0 h') ((p, c) :: regions 0 h) -> steady h s s' -> Q p s') ->
  wp (pbuf_alloc custom_free_function fuel layer length PBUF_RAM) s Q.
Proof.
  intros Hres Hlayer Hlen H0 H1. unfold pbuf_alloc. rewrite (u16_small layer) by lia.
  change ((PBUF_RAM =? PBUF_REF) || (PBUF_RAM =? PBUF_ROM)) with false. change (PBUF_RAM =? PBUF_POOL) with false. change (PBUF_RAM =? PBUF_RAM) with true.
  cbn iota. cbn zeta. rewrite (align_alt layer), (align_alt length) by lia.
  unfold ram_len in H0, H1. remember ((layer + 3) / 4 * 4) as al eqn:Eal. remember ((length + 3) / 4 * 4) as an eqn:Ean. assert (layer <= al <= 56 /\ al mod 4 = 0) as [Hal Hal4] by (subst al; zlia).
  assert (length <= an < length + 4 /\ an mod 4 = 0) as [Han Han4] by (subst an; zlia). 
  change (LWIP_MEM_ALIGN SIZEOF_STRUCT_PBUF) with 16.
  destruct ((u16 (al + an) <? an) || (u16 (16 + u16 (al + an)) <? an)) eqn:E.
  { apply wp_ret, H0. left. destruct (Z.le_gt_cases 65536 (16 + al + an)); [done|].
    rewrite (u16_small (al + an)), u16_small in E by lia. zbool; lia. }
  zbool.
  assert (u16 (al + an) = al + an /\ u16 (16 + (al + an)) = 16 + al + an /\ 16 + al + an < 65536) as (E1 & E2 & E4) by (unfold u16 in *; zlia). rewrite E1, E2 in *.
  destruct Hres as [Hp Hr Hh Hpi Hri (fm & Hm & Hmi)].
  apply wp_step, (wp_mem_malloc h); [done|unfold u16 in E2; zlia|intros E3; change (0 =? 0) with true; apply wp_ret, H0; by right|].
  intros o h' s1 Etake Hh1 [Hcells Hvalid Hdata Htab _ _]. pose proof (take_first_regions _ _ _ _ Etake) as (c & Hc & Hperm). set (p := ptr_to_mem (o + 8)) in *. clearbody p.
  assert ((p, c) ∈ regions 0 h') as Hpc by (rewrite Hperm; by left).
  assert (ram < p /\ p mod 4 = 0 /\ p + c <= ram_end) as (Hp0 & Hp4 & Hpe).
  { pose proof Hh1 as [[pe Ht] _ _ _ _]. apply regions_apart in Ht as [_ Hf]. rewrite Forall_forall in Hf. apply Hf in Hpc as (? & ? & _ & ?).
    cbn in *. pose proof (align_mod4 ram_heap). fold ram in *. unfold ram_end, ptr_to_mem in *. split; [lia|]. split; [zlia|lia]. }
  pose proof ram_pos. pose proof ram_below. destruct (Z.eqb_spec p 0); [lia|].
  apply wp_step, wp_put_cell, wp_ret. rewrite align_alt by (change SIZEOF_STRUCT_PBUF with 16; unfold block_size in Hc; lia).
  assert ((p + SIZEOF_STRUCT_PBUF + layer + 3) / 4 * 4 = p + 16 + al) as Epay by (change SIZEOF_STRUCT_PBUF with 16; zlia).
  assert (16 + al + an <= c) as Hcap by (unfold block_size in Hc; zlia).
  assert (payload 0 h' p) as Hpp by (apply payload_regions; exists p, c; split; [done|lia]).
  assert (forall x, kept h x -> payload 0 h x /\ payload 0 h' x \/ x < ram \/ ram_end < x) as Hk.
  { intros x [Hx|?]; [left|by right]. split; [done|]. apply payload_regions. apply payload_regions in Hx as (q & k & Hi & Hx).
    exists q, k. split; [rewrite Hperm; by right|done]. }
  assert (forall x, kept h x -> x <> p) as Hkp.
  { intros x [Hx|Hx] ->; [|lia]. apply payload_regions in Hx as (q & k & Hi & Hx). by apply (regions_disjoint s1 h' p c p Hh1 _ Hperm ltac:(lia) q k Hi). }
  eapply (H1 ltac:(lia) ltac:(by rewrite Etake) p c); [|cbn; by rewrite lookup_insert_eq|done| |done|].
  - rewrite Epay. split; cbn; try done; lia.
  - apply res_heap_store; [|done].
    assert (forall t free, pool_free s t free -> (forall x, x ∈ free -> x ∈ memp_elems t) -> pool_free s1 t free) as Hfree.
    { intros t free Hf Hi. unfold pool_free in *. rewrite Htab. apply (links_agree (lw_cells s)); [|done].
      intros x Hx. apply Hcells. right. by apply (elems_outside t), Hi. }
    split; auto. exists fm. auto.
  - split; cbn; [|by intros x Hx; apply Hvalid, Hk|done].
    intros x Hx. rewrite lookup_insert_ne by (intros <-; by apply (Hkp p)). by apply Hcells, Hk.
Qed.

(** ** Cloning into one buffer *)

(** A chain of the stack's own that holds a packet in memory that is in use. *)
Record held (h : blocks) s (l : buffers) : Prop := {
  hd_place : place s l 0;
  hd_some : l <> [];
  hd_owned : owned s l;
  hd_home : Forall (home h) l;
  hd_kept : forall x, x ∈ addrs l -> kept h x }.

Lemma res_data s fp fr h d : res s fp fr h -> res (with_data d s) fp fr h.
Proof.
  intros [Hp Hr Hh Hpi Hri Hm]. split; try done. by apply (heap_ok_agree s).
Qed.

Lemma held_steady h s s' l : heap_ok s h -> held h s l -> steady h s s' -> place s' l 0 /\ owned s' l.
Proof.
  intros Hok [[Hc Hp Hs Hof] _ Ho Hh Hk] [sc sv sd]. split.
  - split; try done. apply (pseg_agree (lw_cells s)); [|done]. intros x (b & Hi)%elem_of_fst. apply sc.
    rewrite Forall_forall in Hh. by apply (home_kept s h (x, b)), Hh.
  - intros x Hx. rewrite sv; [by apply Ho|by apply Hk].
Qed.

Lemma ram_buffer_place p c layer n b s : ram_buffer p c layer n b -> lw_cells s !! p = Some (Buf b) -> p <> 0 -> 0 <= n < 65536 ->
  place s [(p, b)] 0.
Proof.
  intros [Hn Hl Ht _ _ _ _ _] Hp Hp0 Hlen. split; cbn; rewrite ?Hl, ?Ht; [done|repeat split; lia|constructor|lia].
Qed.

(** What the clone of [l] is: one buffer that no other memory in use overlaps, with the bytes
    of the whole chain. *)
Lemma wp_clone_ram l fuel layer fp fr h s (Q : Z -> lwip -> Prop) :
  res s fp fr h -> held h s l -> 0 <= layer <= 54 -> (length l < fuel)%nat ->
  (65536 <= ram_len layer (sum_len l) \/ take_first (block_size (ram_len layer (sum_len l))) 0 h = None -> Q 0 s) ->
  (ram_len layer (sum_len l) < 65536 -> take_first (block_size (ram_len layer (sum_len l))) 0 h <> None ->
   forall p c b h' s', ram_buffer p c layer (sum_len l) b -> lw_cells s' !! p = Some (Buf b) -> p <> 0 -> ~ kept h p ->
     res s' fp fr h' -> Permutation (regions 0 h') ((p, c) :: regions 0 h) -> contents s' [(p, b)] = contents s l ->
     (forall x, kept h x -> lw_cells s' !! x = lw_cells s !! x /\ lw_valid s' x = lw_valid s x /\ lw_data s' x = lw_data s x) -> Q p s') ->
  wp (pbuf_clone custom_free_function fuel layer PBUF_RAM (first_of l 0)) s Q.
Proof.
  intros Hres Hheld Hlayer Hf H0 H1. pose proof Hheld as [[Hc Hp _ _] Hne _ Hh Hk]. destruct l as [|[a0 b0] l0]; [done|]. set (l := (a0, b0) :: l0) in *.
  change (first_of l 0) with a0 in *. pose proof Hc as (_ & Ha0 & Hab & _). pose proof Hp as (Hb0 & Htot & Hlt & Hs0 & _)%packet_cons.
  apply wp_step, (wp_pbuf_at _ b0); [done|]. rewrite Htot in *. change (pb_len b0 + sum_len l0) with (sum_len l) in *.
  assert (sum_len l = pb_len b0 + sum_len l0) as Esum by done. assert (0 <= sum_len l < 65536) as Hsum by lia.
  apply wp_step, (wp_pbuf_alloc_ram fuel layer (sum_len l) fp fr h); try done.
  intros Hfit Htake p c b h' s1 Hrb Hpc Hp0 Hres1 Hperm Hst. destruct (Z.eqb_spec p 0); [done|].
  destruct (held_steady h s s1 l (rs_heap _ _ _ _ Hres) Hheld Hst) as [Hpl Hol].
  assert (forall x, x ∈ addrs [(p, b)] -> p <= x < p + c) as Hin.
  { intros x. rewrite addrs_cons, app_nil_r, elem_data. destruct Hrb as [_ El _ _ _ _ Hlo Hhi]. lia. }
  assert (forall x, p <= x < p + c -> ~ kept h x) as Hnk.
  { intros x Hx [Hkx|Hkx].
    - apply payload_regions in Hkx as (q & k & Hi & Hq). by apply (regions_disjoint s1 h' p c x (rs_heap _ _ _ _ Hres1) _ Hperm Hx q k Hi).
    - assert ((p, c) ∈ regions 0 h') as Hi by (rewrite Hperm; by left). pose proof (rs_heap _ _ _ _ Hres1) as [[pe Ht] _ _ _ _].
      apply regions_apart in Ht as [_ Hfa]. rewrite Forall_forall in Hfa. apply Hfa in Hi as (? & ? & _). cbn in *. unfold ram_end, ptr_to_mem in *. lia. }
  assert (owned s1 [(p, b)]) as Hob.
  { intros x Hx%Hin. apply (hk_valid _ _ (rs_heap _ _ _ _ Hres1)), payload_regions. exists p, c. split; [rewrite Hperm; by left|done]. }
  pose proof (ram_buffer_place _ _ _ _ _ _ Hrb Hpc Hp0 Hsum) as Hpb.
  assert (NoDup (addrs [(p, b)])) as Hnd by (rewrite addrs_cons, app_nil_r; apply NoDup_seqZ).
  apply wp_step, (wp_pbuf_copy fuel [(p, b)] l); try done.
  - intros x Hx%Hin Hx'. by apply (Hnk x), Hk.
  - assert (sum_len [(p, b)] = sum_len l) as El by (cbn [sum_len]; rewrite (rb_len _ _ _ _ _ Hrb); lia).
    rewrite El, Z.ltb_irrefl. intros s2 [Hcont (d & -> & Hd)]. apply wp_ret.
    rewrite drop_ge, app_nil_r in Hcont by (pose proof (contents_length s1 [(p, b)] (pl_packet _ _ _ Hpb)); lia).
    destruct Hst as [sc sv sd]. apply (H1 Hfit Htake p c b h'); try done; [apply Hnk; destruct Hrb as [_ _ _ _ _ _ Hlo Hhi]; lia|by apply res_data| |].
    + rewrite Hcont. apply contents_agree. intros x Hx. by rewrite sd.
    + intros x Hx. split; [by apply sc|]. split; [by apply sv|]. cbn. rewrite Hd; [by rewrite sd|]. intros Hi%Hin. by apply (Hnk x).
Qed.

Lemma dead_sub l x : x ∈ dead l -> x ∈ l.
Proof.
  induction l as [|[a b] l IH]; [done|]. cbn [dead]. destruct (pb_ref b =? 1); [|by intros ?%elem_of_nil].
  intros [->|Hi]%elem_of_cons; [by left|right; by apply IH].
Qed.

(** Pbuf_coalesce makes one buffer of a chain: a new buffer in the heap, with space for the
    headers of [layer] before it, holds the bytes of the whole chain, and the caller's
    reference to the chain is dropped.  If the chain is one buffer already, or
    there is no room in the heap, the chain is returned as it is. *)
Theorem pbuf_coalesce_one l fuel layer fp fr h s :
  res s fp fr h -> held h s l -> countable l -> 0 <= layer <= 54 -> (length l < fuel)%nat ->
  wp (pbuf_coalesce custom_free_function fuel (first_of l 0) layer) s (fun r s' =>
    if bool_decide (length l = 1%nat \/ 65536 <= ram_len layer (sum_len l) \/ take_first (block_size (ram_len layer (sum_len l))) 0 h = None)
    then r = first_of l 0 /\ s' = s
    else exists c b h1 h2, ram_buffer r c layer (sum_len l) b /\ pseg (lw_cells s') r [(r, b)] 0 /\ home h2 (r, b) /\
      contents s' [(r, b)] = contents s l /\ pseg (lw_cells s') (first_of (alive l) 0) (alive l) 0 /\
      Permutation (regions 0 h1) ((r, c) :: regions 0 h) /\ shrunk (dead l) h1 h2 /\
      res s' (given 2 (dead l) fp) (given 1 (dead l) fr) h2).
Proof.
  intros Hres Hheld Hcount Hlayer Hf. pose proof Hheld as [[Hc Hp _ _] Hne _ Hh Hk]. set (single := length l = 1%nat).
  set (full := 65536 <= ram_len layer (sum_len l) \/ take_first (block_size (ram_len layer (sum_len l))) 0 h = None).
  destruct l as [|[a0 b0] l0]; [done|]. pose proof Hc as (_ & Ha0 & Hab & Hc0). cbn [first_of].
  apply wp_step, (wp_pbuf_at _ b0); [done|].
  assert (pb_next b0 = 0 <-> single) as Hone.
  { unfold single. pose proof (pseg_first _ _ _ _ Hc0) as ->. destruct l0 as [|[a1 b1] l0]; cbn; [done|]. destruct Hc0 as (_ & ? & _). split; [done|lia]. }
  destruct (Z.eqb_spec (pb_next b0) 0) as [E|E].
  { apply wp_ret. rewrite bool_decide_true by (left; by apply Hone). done. }
  apply wp_step. apply (wp_clone_ram ((a0, b0) :: l0) fuel layer fp fr h); try done.
  { intros Hfull. change (0 =? 0) with true. apply wp_ret. by rewrite bool_decide_true by by right. }
  intros Hfit Htake p c b h' s1 Hrb Hpc Hp0 Hpk Hres1 Hperm Hcont Hst. destruct (Z.eqb_spec p 0); [done|].
  rewrite bool_decide_false by (intros [H|[H|H]]; [by apply E, Hone|lia|done]).
  assert (Forall (home h') ((a0, b0) :: l0)) as Hh'.
  { apply (Forall_impl _ _ _ Hh). intros [x bx] [Hcu Hx]. split; [done|]. destruct Hx as [?|[?|[? (k & Hi)]]]; [by left|by right; left|right; right].
    split; [done|]. exists k. rewrite Hperm. by right. }
  assert (pseg (lw_cells s1) a0 ((a0, b0) :: l0) 0) as Hc1.
  { apply (pseg_agree (lw_cells s)); [|done]. intros x (bx & Hi)%elem_of_fst. apply Hst.
    rewrite Forall_forall in Hh. by apply (home_kept s h (x, bx)), Hh; [apply (rs_heap _ _ _ _ Hres)|]. }
  assert (p ∉ ((a0, b0) :: l0).*1) as Hpl.
  { intros (bx & Hi)%elem_of_fst. rewrite Forall_forall in Hh. apply Hh in Hi. by apply Hpk, (home_kept s h (p, bx)), Hi; apply (rs_heap _ _ _ _ Hres). }
  assert (home h' (p, b)) as Hhp.
  { split; cbn; [by rewrite (rb_flags _ _ _ _ _ Hrb)|]. right. right. unfold pbuf_get_allocsrc. rewrite (rb_type _ _ _ _ _ Hrb). split; [done|].
    exists c. rewrite Hperm. by left. }
  apply wp_step, (wp_pbuf_free custom_free_function ((a0, b0) :: l0) fuel fp fr h'); try done.
  intros s2 [(h2 & Hres2 & Hshr & Hcalm) Hal]. apply wp_ret. exists c, b, h', h2.
  assert (home h2 (p, b)) as Hh2.
  { apply (shrunk_home (dead ((a0, b0) :: l0)) h'); [done|done|]. intros (bx & Hi%dead_sub)%elem_of_fst. apply Hpl, elem_of_fst. by exists bx. }
  split; [done|]. split; [|split; [done|]]; [|split; [|done]].
  - cbn. split; [done|]. split; [done|]. split; [|by rewrite (rb_next _ _ _ _ _ Hrb)]. rewrite (cm_cells _ _ _ _ Hcalm); [done|done|].
    by apply (home_kept s2 h2 (p, b)); [apply (rs_heap _ _ _ _ Hres2)|].
  - rewrite <- Hcont. apply contents_agree. intros x _. by rewrite (cm_data _ _ _ _ Hcalm).
Qed.
End coalesce.

(** * Concrete runs *)

#[local] Existing Instance sim_pools.
#[local] Existing Instance sim_layout.

Lemma sim_held l s : pseg (lw_cells s) (first_of l 0) l 0 -> packet l -> sum_len l = 1500 -> length l = 3%nat -> Forall PbufAlloc.fresh l -> Forall within l ->
  (forall x, x ∈ addrs l -> 0x20070000 <= x < 0x20075000) -> (forall x, 0x20040000 <= x < 0x20080000 -> lw_valid s x = true) ->
  held [(4096, false)] s l.
Proof.
  intros Hl Hp Hsum Hlen Hf Hw Hr Hv. destruct (fresh_home [(4096, false)] _ Hf) as (Hh & _). split; try done.
  - split; try done; [|destruct l as [|[a b] l]; [done|]; apply packet_cons in Hp; lia].
    destruct l as [|[a1 b1] [|[a2 b2] [|[a3 b3] [|? ?]]]]; try done. unfold within in Hw. change SIZEOF_STRUCT_PBUF with 16 in *. change (memp_size MEMP_PBUF_POOL) with 608 in *.
    apply Forall_cons in Hw as [H1 Hw]. apply Forall_cons in Hw as [H2 Hw]. apply Forall_cons in Hw as [H3 _]. cbn in *.
    repeat constructor; cbn; lia.
  - by destruct l.
  - intros x Hx%Hr. apply Hv. lia.
  - intros x Hx%Hr. right. right. change ram_end with 0x20031000. lia.
Qed.

(** A packet of three buffers becomes one of 1500 bytes. *)
Lemma pbuf_coalesce_one_witness :
  wp (bind (bind (mem_init ;; memp_init) (fun _ => pbuf_alloc (fun _ => undef) 20 PBUF_RAW 1500 PBUF_POOL)) (fun p => pbuf_coalesce (fun _ => undef) 20 p PBUF_IP))
    lw_static (fun r s => exists b, pseg (lw_cells s) r [(r, b)] 0 /\ pb_len b = 1500).
Proof.
  apply wp_step, wp_sim_packet. intros l s fp Hl Hp Hsum Hlen Hf Hw Hnd Hr Hres Hv.
  destruct (fresh_home [(4096, false)] _ Hf) as (_ & Hc & _).
  eapply wp_mono; [apply (pbuf_coalesce_one (fun _ => undef) l 20 PBUF_IP _ _ _ s Hres);
    [by apply sim_held|done|unfold PBUF_IP; lia|lia]|].
  intros r s'. rewrite Hsum, Hlen, bool_decide_false; [|by vm_compute; intros [?|[?|?]]].
  intros (c & b & h1 & h2 & Hb & Hs & _). exists b. split; [done|]. by rewrite (rb_len _ _ _ _ _ Hb).
Defined.

(** The packet is copied into a buffer of 1600 bytes in the heap. *)
Lemma pbuf_copy_copies_witness :
  wp (bind (bind (mem_init ;; memp_init) (fun _ => pbuf_alloc (fun _ => undef) 20 PBUF_RAW 1500 PBUF_POOL)) (fun p =>
        q <- pbuf_alloc (fun _ => undef) 20 PBUF_RAW 1600 PBUF_RAM ;; if q =? 0 then ret ERR_OK else pbuf_copy 20 q p))
    lw_static (fun r _ => r = ERR_OK).
Proof.
  apply wp_step, wp_sim_packet. intros l s fp Hl Hp Hsum Hlen Hf Hw Hnd Hr Hres Hv.
  pose proof (sim_held l s Hl Hp Hsum Hlen Hf Hw Hr Hv) as Hheld.
  apply wp_step, (wp_pbuf_alloc_ram (fun _ => undef) 20 PBUF_RAW 1600 (drop 3 fp) (reverse (memp_elems MEMP_PBUF)) [(4096, false)] s); [done|unfold PBUF_RAW; lia|lia|done|].
  intros _ _ p c b h' s1 Hrb Hpc Hp0 Hres1 Hperm Hst. destruct (Z.eqb_spec p 0); [done|].
  destruct (held_steady _ s s1 l (rs_heap _ _ _ _ Hres) Hheld Hst) as [Hpl Hol].
  pose proof (ram_buffer_place _ _ _ _ _ _ Hrb Hpc Hp0 ltac:(lia)) as Hpb.
  assert (sum_len [(p, b)] = 1600) as El by (cbn [sum_len]; rewrite (rb_len _ _ _ _ _ Hrb); lia).
  assert (forall x, x ∈ addrs [(p, b)] -> p <= x < p + c) as Hin.
  { intros x. rewrite addrs_cons, app_nil_r, elem_data. destruct Hrb as [_ Hlb _ _ _ _ Hlo Hhi]. unfold PBUF_RAW in *. lia. }
  assert (p + c <= 0x20031000) as Hend.
  { assert ((p, c) ∈ regions 0 h') as Hi by (rewrite Hperm; by left). pose proof (rs_heap _ _ _ _ Hres1) as [[pe Ht] _ _ _ _].
    apply regions_apart in Ht as [_ Hfa]. rewrite Forall_forall in Hfa. apply Hfa in Hi as (_ & Hi & _). exact Hi. }
  eapply wp_mono; [apply (pbuf_copy_copies 20 [(p, b)] l s1); try done|].
  - by destruct l.
  - intros x Hx%Hin. apply (hk_valid _ _ (rs_heap _ _ _ _ Hres1)), payload_regions. exists p, c. split; [rewrite Hperm; by left|done].
  - rewrite addrs_cons, app_nil_r. apply NoDup_seqZ.
  - intros x Hx%Hin Hx'%Hr. lia.
  - rewrite Hlen. cbn. lia.
  - intros r s' H. rewrite El, Hsum in H. by destruct H.
Defined.
