(* ===== verification/PbufShape.v ===== *)
(** Operations on the shape of a chain: space for headers, joining two packets, and
    shortening a packet. *)
From S2P Require Import Prelude Machine LwMem LwHeap Pbuf PbufCopy PbufChain PbufAlloc PbufData.
From stdpp Require Import list gmap.

#[local] Open Scope Z_scope.
#[local] Open Scope fw_scope.

Section shape.
Context {P : Pools}.
Implicit Types s : lwip.

(** ** Headers *)

(** The buffer without its first [n] bytes. *)
Definition beheaded (n : Z) (b : pbuf) : pbuf :=
  Pbuf (pb_next b) (pb_payload b + n) (pb_tot_len b - n) (pb_len b - n) (pb_type b) (pb_flags b) (pb_ref b) (pb_if_idx b).

Lemma wp_remove_header a b l n s (Q : Z -> lwip -> Prop) :
  lw_cells s !! a = Some (Buf b) -> a <> 0 -> packet ((a, b) :: l) -> 0 <= n ->
  (if pb_len b <? n then Q 1 s else Q 0 (with_cells (insert a (Buf (beheaded n b))) s)) ->
  wp (pbuf_remove_header a n) s Q.
Proof.
  intros Ha Ha0 (Hb & Htot & Hlt & Hs & _)%packet_cons Hn HQ. unfold pbuf_remove_header. destruct (Z.eqb_spec a 0); [done|]. cbn [orb].
  destruct (Z.ltb_spec 0xFFFF n); [by destruct (Z.ltb_spec (pb_len b) n); [apply wp_ret|lia]|].
  destruct (Z.eqb_spec n 0) as [->|].
  - destruct (Z.ltb_spec (pb_len b) 0); [lia|]. apply wp_ret.
    replace (with_cells (insert a (Buf (beheaded 0 b))) s) with s in HQ; [done|].
    unfold beheaded. rewrite Z.add_0_r, !Z.sub_0_r. unfold with_cells. rewrite insert_id; [by destruct s|]. by destruct b.
  - rewrite u16_small by lia. apply wp_step, (wp_pbuf_at _ b); [done|]. destruct (Z.ltb_spec (pb_len b) n); [by apply wp_ret|].
    apply wp_step, (wp_pbuf_set _ _ b); [done|]. apply wp_ret. unfold put_tot_len, put_len, put_payload. cbn. rewrite !u16_small by lia. done.
Qed.

Lemma wp_add_header a b l n s (Q : Z -> lwip -> Prop) :
  lw_cells s !! a = Some (Buf (beheaded n b)) -> a <> 0 -> packet ((a, b) :: l) -> 0 <= n <= pb_len b ->
  any_bit (pb_type b) PBUF_TYPE_FLAG_STRUCT_DATA_CONTIGUOUS = true -> a + SIZEOF_STRUCT_PBUF <= pb_payload b ->
  Q 0 (with_cells (insert a (Buf b)) s) -> wp (pbuf_add_header a n) s Q.
Proof.
  intros Ha Ha0 (Hb & Htot & Hlt & Hs & _)%packet_cons Hn Hty Hlow HQ. unfold pbuf_add_header, pbuf_add_header_impl.
  destruct (Z.eqb_spec a 0); [done|]. cbn [orb]. destruct (Z.ltb_spec 0xFFFF n); [lia|].
  destruct (Z.eqb_spec n 0) as [->|].
  - apply wp_ret. replace (with_cells (insert a (Buf b)) s) with s in HQ; [done|]. unfold with_cells.
    rewrite insert_id; [by destruct s|]. rewrite Ha. unfold beheaded. rewrite Z.add_0_r, !Z.sub_0_r. by destruct b.
  - rewrite u16_small by lia. apply wp_step, (wp_pbuf_at _ (beheaded n b)); [done|]. cbn [beheaded pb_tot_len pb_payload pb_type].
    rewrite u16_small by lia. destruct (Z.ltb_spec (n + (pb_tot_len b - n)) n); [lia|]. rewrite Hty.
    destruct (Z.ltb_spec (pb_payload b + n - n) (a + SIZEOF_STRUCT_PBUF)); [lia|].
    apply wp_step, (wp_pbuf_set _ _ (beheaded n b)); [done|]. apply wp_ret. unfold put_tot_len, put_len, put_payload, beheaded. cbn.
    replace (pb_payload b + n - n) with (pb_payload b) by lia. rewrite !u16_small by lia.
    replace (pb_tot_len b - n + n) with (pb_tot_len b) by lia. replace (pb_len b - n + n) with (pb_len b) by lia. by destruct b.
Qed.

Lemma beheaded_addrs a b l n : 0 <= n <= pb_len b -> addrs ((a, beheaded n b) :: l) = drop (Z.to_nat n) (addrs ((a, b) :: l)).
Proof.
  intros Hn. rewrite !addrs_cons, drop_app_le by (rewrite data_length; lia). f_equal. unfold data_of. cbn [beheaded pb_payload pb_len].
  replace (Z.to_nat (pb_len b)) with (Z.to_nat (n + (pb_len b - n))) by lia. rewrite (zrange_add _ n) by lia.
  rewrite drop_app_length'; [done|]. unfold zrange. rewrite length_seqZ. lia.
Qed.

Lemma beheaded_packet a b l n : 0 <= n <= pb_len b -> packet ((a, b) :: l) -> packet ((a, beheaded n b) :: l).
Proof. intros Hn (Hb & Ht & Hlt & Hs & Hp)%packet_cons. cbn. repeat split; (done || lia). Qed.

(** pbuf_remove_header takes bytes off the front of a packet, if the first buffer has them,
    and leaves a packet; pbuf_add_header gives them back: the state is the one before. *)
Theorem pbuf_header_roundtrip a b l n s :
  in_memory s ((a, b) :: l) -> 0 <= n -> any_bit (pb_type b) PBUF_TYPE_FLAG_STRUCT_DATA_CONTIGUOUS = true ->
  a + SIZEOF_STRUCT_PBUF <= pb_payload b ->
  wp (pbuf_remove_header a n) s (fun r s' =>
    if pb_len b <? n then r = 1 /\ s' = s
    else r = 0 /\ in_memory s' ((a, beheaded n b) :: l) /\ contents s' ((a, beheaded n b) :: l) = drop (Z.to_nat n) (contents s ((a, b) :: l)) /\
      pbuf_add_header a n s' = Ret 0 s).
Proof.
  intros [Hc Hp Ho Hnd] Hn Hty Hlow. pose proof (pseg_nodup _ _ _ Hc) as [Hal _]%NoDup_cons. pose proof Hc as (_ & Ha0 & Ha & Hl).
  apply (wp_remove_header a b l); try done. destruct (Z.ltb_spec (pb_len b) n); [done|]. set (s' := with_cells _ s).
  split; [done|]. pose proof (beheaded_addrs a b l n ltac:(lia)) as Haddr. split; [|split].
  - split; rewrite ?Haddr; try done.
    + cbn. split; [done|]. split; [done|]. rewrite lookup_insert_eq. split; [done|]. by apply pseg_insert.
    + by apply beheaded_packet.
    + intros x Hx. rewrite Haddr in Hx. apply Ho. rewrite <- (take_drop (Z.to_nat n)). apply elem_of_app. by right.
    + rewrite <- (take_drop (Z.to_nat n) (addrs ((a, b) :: l))) in Hnd. by apply NoDup_app in Hnd as (_ & _ & ?).
  - unfold contents. rewrite Haddr, fmap_drop. done.
  - assert (wp (pbuf_add_header a n) s' (fun r s2 => r = 0 /\ s2 = s)) as H2.
    { apply (wp_add_header a b l); try done; [cbn; by rewrite lookup_insert_eq|]. split; [done|]. unfold s', with_cells. cbn.
      rewrite insert_insert_eq, insert_id by done. by destruct s. }
    apply wp_Ret in H2 as (r & s2 & -> & -> & ->). done.
Qed.

(** ** Joining *)

(** The totals raised by [t], and the last buffer followed by [q]. *)
Definition raised (t : Z) (l : buffers) : buffers := (fun x => (fst x, put_tot_len (pb_tot_len (snd x) + t) (snd x))) <$> l.
Definition joined (t q : Z) (l : buffers) : buffers := relink (raised t l) q.

Lemma raised_fst t l : (raised t l).*1 = l.*1.
Proof. unfold raised. rewrite <- list_fmap_compose. by apply list_fmap_ext. Qed.

Lemma raised_app t l1 l2 : raised t (l1 ++ l2) = raised t l1 ++ raised t l2.
Proof. apply fmap_app. Qed.

Lemma raised_addrs t l : addrs (raised t l) = addrs l.
Proof. induction l as [|[a b] l IH]; [done|]. change (raised t ((a, b) :: l)) with ((a, put_tot_len (pb_tot_len b + t) b) :: raised t l). by rewrite !addrs_cons, IH. Qed.

Lemma relink_addrs l q : addrs (relink l q) = addrs l.
Proof. induction l as [|[a b] l IH]; [done|]. destruct l as [|x l]; [done|]. change (relink ((a, b) :: x :: l) q) with ((a, b) :: relink (x :: l) q). by rewrite !addrs_cons, IH. Qed.

Lemma joined_addrs t q l : addrs (joined t q l) = addrs l.
Proof. unfold joined. by rewrite relink_addrs, raised_addrs. Qed.

Lemma wp_cat_walk l0 : forall fuel p x c t ct s (Q : Z -> lwip -> Prop),
  pseg (lw_cells s) p (l0 ++ [(x, c)]) 0 -> lw_cells s !! t = Some (Buf ct) -> t ∉ (l0 ++ [(x, c)]).*1 -> (length l0 < fuel)%nat ->
  (forall s', pseg (lw_cells s') p (raised (pb_tot_len ct) l0 ++ [(x, c)]) 0 -> still (fun y => y ∈ l0.*1) s s' -> Q x s') ->
  wp (cat_walk fuel p t) s Q.
Proof.
  induction l0 as [|[a b] l0 IH]; intros fuel p x c t ct s Q Hl Ht Htl Hf HQ; (destruct fuel as [|fuel]; [cbn in Hf; lia|]); cbn [cat_walk].
  - cbn [app] in Hl. pose proof Hl as (-> & Hx0 & Hx & Hn). cbn in Hn. apply wp_step, (wp_pbuf_at _ c); [done|]. rewrite Hn.
    change (negb (0 =? 0)) with false. apply wp_ret, HQ; [done|by split].
  - pose proof (pseg_nodup _ _ _ Hl) as [Hna _]%NoDup_cons. change (a ∉ (l0 ++ [(x, c)]).*1) in Hna.
    destruct Hl as (-> & Ha0 & Ha & Hl). apply wp_step, (wp_pbuf_at _ b); [done|].
    assert (pb_next b <> 0) as Hnx.
    { pose proof (pseg_first _ _ _ _ Hl) as ->. destruct l0 as [|[y d] l0]; cbn in *; by destruct Hl as (_ & ? & _). }
    destruct (Z.eqb_spec (pb_next b) 0); [done|]. cbn [negb]. apply wp_step, (wp_pbuf_at _ ct); [done|]. apply wp_step, (wp_pbuf_set _ _ b); [done|].
    change (((a, b) :: l0) ++ [(x, c)]) with ((a, b) :: l0 ++ [(x, c)]) in Htl. rewrite fmap_cons in Htl. apply not_elem_of_cons in Htl as [Hta Htl]. cbn in Hta.
    set (s1 := with_cells _ s). apply (IH fuel _ x c t ct s1); [by apply pseg_insert|cbn; by rewrite lookup_insert_ne by congruence|done|cbn in Hf; lia|].
    intros s' Hl' [sc sv sd]. apply HQ.
    + cbn. split; [done|]. split; [done|]. split; [|done]. rewrite sc; [cbn; by rewrite lookup_insert_eq|]. intros Hi. apply Hna.
      rewrite fmap_app. apply elem_of_app. by left.
    + split; [|done|done]. intros y Hy. rewrite fmap_cons in Hy. apply not_elem_of_cons in Hy as [Hya Hy]. rewrite sc by done. cbn in *. by rewrite lookup_insert_ne.
Qed.

Lemma sum_joined t q l : sum_len (joined t q l) = sum_len l.
Proof.
  unfold joined. induction l as [|[a b] l IH]; [done|]. destruct l as [|[a' b'] l]; [done|].
  change (relink (raised t ((a, b) :: (a', b') :: l)) q) with ((a, put_tot_len (pb_tot_len b + t) b) :: relink (raised t ((a', b') :: l)) q).
  cbn [sum_len]. cbn [sum_len] in IH. rewrite IH. done.
Qed.

Lemma joined_packet t q l l2 : packet l -> packet l2 -> t = sum_len l2 -> sum_len l + t < 65536 -> packet (joined t q l ++ l2).
Proof.
  intros Hp Hp2 -> Hsum. pose proof (sum_len_nonneg _ Hp2) as H2. induction l as [|[a b] l IH]; [done|].
  apply packet_cons in Hp as (Hb & Htot & Hlt & Hs & Hp). cbn [sum_len] in Hsum. destruct l as [|[a' b'] l].
  - cbn. cbn in Htot. rewrite !u16_small by lia. repeat split; (done || lia).
  - change (joined (sum_len l2) q ((a, b) :: (a', b') :: l)) with ((a, put_tot_len (pb_tot_len b + sum_len l2) b) :: joined (sum_len l2) q ((a', b') :: l)).
    cbn [app packet]. cbn [put_tot_len pb_len pb_tot_len]. rewrite u16_small by lia. rewrite sum_len_app, sum_joined.
    split; [lia|]. split; [lia|]. split; [lia|]. apply IH; [done|lia].
Qed.

(** pbuf_cat makes one packet of two, of the bytes of the first and then those of the second; no
    byte is touched. *)
Theorem pbuf_cat_joins l1 l2 fuel s :
  in_memory s l1 -> in_memory s l2 -> l1 <> [] -> l2 <> [] -> (forall a, a ∈ l1.*1 -> a ∉ l2.*1) -> sum_len l1 + sum_len l2 < 65536 ->
  (length l1 <= fuel)%nat ->
  wp (pbuf_cat fuel (first_of l1 0) (first_of l2 0)) s (fun _ s' => exists l,
    pseg (lw_cells s') (first_of l1 0) l 0 /\ packet l /\ l.*1 = l1.*1 ++ l2.*1 /\ contents s' l = contents s l1 ++ contents s l2 /\
    still (fun a => a ∈ l1.*1) s s').
Proof.
  intros [Hl1 Hp1 _ _] [Hl2 Hp2 _ _] Hne1 Hne2 Hdis Hsum Hf. destruct l2 as [|[t ct] l2]; [done|]. pose proof Hl2 as (_ & Ht0 & Ht & _).
  pose proof Hp2 as (_ & Htt & _)%packet_cons. destruct l1 as [|[x c] l0 _] using rev_ind; [done|].
  assert (first_of (l0 ++ [(x, c)]) 0 <> 0) as Hh0 by (destruct l0 as [|[y d] l0]; cbn in *; by destruct Hl1 as (_ & ? & _)).
  change (first_of ((t, ct) :: l2) 0) with t. unfold pbuf_cat. destruct (Z.eqb_spec (first_of (l0 ++ [(x, c)]) 0) 0), (Z.eqb_spec t 0); try done. cbn [orb].
  assert (t ∉ (l0 ++ [(x, c)]).*1) as Htn by (intros Hi; apply (Hdis _ Hi); by left).
  apply wp_step, (wp_cat_walk l0 fuel _ x c t ct s); [done|done|done|rewrite length_app in Hf; cbn in Hf; lia|]. intros s1 Hl [sc sv sd].
  rewrite fmap_app in Htn. apply not_elem_of_app in Htn as [Htn Htx]. apply wp_step, (wp_pbuf_at _ ct); [by rewrite sc|].
  pose proof (pseg_rest _ _ _ _ _ Hl) as (_ & Hx0 & Hx & Hxn). cbn in Hxn. pose proof (pseg_nodup _ _ _ Hl) as Hnd.
  rewrite fmap_app, raised_fst in Hnd. apply NoDup_app in Hnd as (_ & Hnd & _).
  apply wp_step, (wp_pbuf_set _ _ c); [done|]. apply (wp_pbuf_set _ _ (put_tot_len (pb_tot_len c + pb_tot_len ct) c)); [cbn; by rewrite lookup_insert_eq|].
  set (T := pb_tot_len ct) in *. set (s2 := with_cells _ (with_cells _ s1)).
  assert (joined T t (l0 ++ [(x, c)]) = raised T l0 ++ [(x, put_next t (put_tot_len (pb_tot_len c + T) c))]) as Ej by (unfold joined; rewrite raised_app; apply relink_snoc).
  exists (joined T t (l0 ++ [(x, c)]) ++ (t, ct) :: l2). split; [|split; [|split; [|split]]].
  - rewrite Ej, <- app_assoc. apply pseg_app. split.
    + apply pseg_app in Hl as [Hl _]. cbn [first_of app] in *. apply (pseg_agree (lw_cells s1)); [|done]. intros y Hy. rewrite raised_fst in Hy.
      cbn. rewrite !lookup_insert_ne; [done|..]; intros <-; apply (Hnd x); try done; by left.
    + cbn [first_of app pseg]. split; [done|]. split; [done|]. split; [cbn; by rewrite lookup_insert_eq|].
      change (pseg (lw_cells s2) t ((t, ct) :: l2) 0). apply (pseg_agree (lw_cells s)); [|done]. intros y Hy. cbn.
      assert (y ∉ (l0 ++ [(x, c)]).*1) as Hy' by (intros Hi; by apply (Hdis y)). rewrite fmap_app in Hy'. apply not_elem_of_app in Hy' as [Hy1 Hy2].
      rewrite !lookup_insert_ne by (intros <-; apply Hy2; by left). by apply sc.
  - apply joined_packet; [done|done|exact Htt|]. rewrite Htt. exact Hsum.
  - unfold joined. by rewrite fmap_app, relink_fst, raised_fst.
  - unfold contents. rewrite addrs_app, joined_addrs, fmap_app. cbn. rewrite sd. done.
  - split; cbn; [|done|done]. intros y Hy. rewrite fmap_app in Hy. apply not_elem_of_app in Hy as [Hy1 Hy2]. cbn in Hy2.
    rewrite !lookup_insert_ne by (intros <-; apply Hy2; by left). by apply sc.
Qed.
End shape.

(** ** Shortening *)

Section shorten.
Context {P : Pools} {L : LwLayout} (custom_free_function : Z -> lw unit).
Implicit Types s : lwip.

(** The buffers that the first [n] bytes need, and the others. *)
Fixpoint cut (n : Z) (l : buffers) : buffers :=
  match l with
  | [] => []
  | (a, b) :: l' => if pb_len b <? n then (a, put_tot_len n b) :: cut (n - pb_len b) l' else [(a, put_next 0 (put_tot_len n (put_len n b)))]
  end.
Fixpoint cut_off (n : Z) (l : buffers) : buffers :=
  match l with [] => [] | (a, b) :: l' => if pb_len b <? n then cut_off (n - pb_len b) l' else l' end.

Lemma cut_fst n l : l.*1 = (cut n l).*1 ++ (cut_off n l).*1.
Proof.
  revert n. induction l as [|[a b] l IH]; intros n; [done|]. cbn [cut cut_off]. destruct (pb_len b <? n); [|done].
  rewrite !fmap_cons. cbn. by rewrite <- IH.
Qed.

Lemma cut_addrs l : forall n, packet l -> 0 <= n <= sum_len l -> addrs (cut n l) = take (Z.to_nat n) (addrs l).
Proof.
  induction l as [|[a b] l IH]; intros n Hp Hn; [by destruct (Z.to_nat n)|].
  apply packet_cons in Hp as (Hb & _ & _ & _ & Hp). cbn [sum_len cut] in *.
  destruct (Z.ltb_spec (pb_len b) n).
  - rewrite !addrs_cons, IH by (done || lia). rewrite take_app_ge by (rewrite data_length; lia). rewrite data_length. do 2 f_equal. lia.
  - rewrite !addrs_cons, app_nil_r. rewrite take_app_le by (rewrite data_length; lia). unfold data_of. cbn [put_next put_tot_len put_len pb_payload pb_len].
    rewrite u16_small by lia. replace (pb_len b) with (n + (pb_len b - n)) at 1 by lia. rewrite zrange_add by lia.
    rewrite take_app_length'; [done|]. unfold zrange. rewrite length_seqZ. lia.
Qed.

Lemma cut_packet l : forall n, packet l -> 0 <= n <= sum_len l -> packet (cut n l) /\ sum_len (cut n l) = n.
Proof.
  induction l as [|[a b] l IH]; intros n Hp Hn; [cbn in *; lia|]. apply packet_cons in Hp as (Hb & Htot & Hlt & Hs & Hp). cbn [sum_len cut] in *.
  destruct (Z.ltb_spec (pb_len b) n).
  - destruct (IH (n - pb_len b) Hp ltac:(lia)) as [H1 H2]. cbn. rewrite !u16_small, H2 by lia. repeat split; (done || lia).
  - cbn. rewrite !u16_small by lia. repeat split; lia.
Qed.

Lemma cut_off_suffix n l : exists l1, l = l1 ++ cut_off n l.
Proof.
  revert n. induction l as [|[a b] l IH]; intros n; [by exists []|]. cbn [cut_off]. destruct (pb_len b <? n); [|by exists [(a, b)]].
  destruct (IH (n - pb_len b)) as [l1 E]. exists ((a, b) :: l1). cbn. by f_equal.
Qed.

Definition ended (n : Z) (b : pbuf) : pbuf := put_next 0 (put_tot_len n (put_len n b)).

Lemma wp_realloc_skip fp fr h l : forall fuel p n shrink s (Q : Z * Z -> lwip -> Prop),
  pseg (lw_cells s) p l 0 -> res s fp fr h -> (forall x, x ∈ l.*1 -> kept h x) -> packet l -> 0 <= n <= sum_len l -> l <> [] -> shrink = sum_len l - n -> (length l < fuel)%nat ->
  (forall l1 a b r s', cut n l = l1 ++ [(a, ended r b)] -> 0 <= r <= pb_len b -> (forall x, x ∈ l1.*1 -> x ∈ l.*1) -> (a, b) ∈ l ->
     pseg (lw_cells s') p (l1 ++ (a, b) :: cut_off n l) 0 -> res s' fp fr h -> still (fun x => x ∈ l1.*1) s s' -> Q (a, r) s') ->
  wp (realloc_skip fuel p n shrink) s Q.
Proof.
  induction l as [|[a b] l IH]; intros fuel p n shrink s Q Hl Hres Hk Hp Hn Hne Hsh Hf HQ; [done|]. destruct fuel as [|fuel]; [cbn in Hf; lia|].
  pose proof (pseg_nodup _ _ _ Hl) as [Hna _]%NoDup_cons. pose proof Hl as (-> & Ha0 & Ha & Hl0). apply packet_cons in Hp as (Hb & Htot & Hlt & Hs & Hp).
  cbn [sum_len cut cut_off realloc_skip] in *. apply wp_step, (wp_pbuf_at _ b); [done|]. destruct (Z.ltb_spec (pb_len b) n).
  - apply wp_step, (wp_pbuf_set _ _ b); [done|]. rewrite u16_small by lia. replace (pb_tot_len b - shrink) with n by lia.
    set (s1 := with_cells _ s). apply (IH fuel _ (n - pb_len b) shrink s1); [by apply pseg_insert|by apply (res_store _ _ _ _ _ b); [..|apply Hk; left]| |done|lia| |lia|cbn in Hf; lia|].
    { intros x Hx. apply Hk. by right. }
    { intros ->. cbn in *. lia. }
    intros l1 x c r s' Ec Hr Hin Hxc Hl' Hres' [sc sv sd]. apply (HQ ((a, put_tot_len n b) :: l1) x c r s').
    + by rewrite Ec.
    + done.
    + intros y. rewrite !fmap_cons, !elem_of_cons. intros [?|?]; [by left|right; by apply Hin].
    + by right.
    + cbn. split; [done|]. split; [done|]. split; [|done]. rewrite sc; [cbn; by rewrite lookup_insert_eq|]. by intros Hi%Hin.
    + done.
    + split; [|done|done]. intros y Hy. rewrite fmap_cons in Hy. apply not_elem_of_cons in Hy as [Hya Hy]. rewrite sc by done. cbn in *. by rewrite lookup_insert_ne.
  - apply wp_ret, (HQ [] a b n s); [done|lia|by intros x ?%elem_of_nil|by left|done|done|by split].
Qed.

(** pbuf_realloc of a packet from the pool leaves a packet of the length asked for, of the
    first bytes; the buffers it no longer needs are free again. *)
Theorem pbuf_realloc_cuts l fuel n fp fr h s :
  pseg (lw_cells s) (first_of l 0) l 0 -> l <> [] -> packet l -> Forall PbufAlloc.fresh l -> res s fp fr h -> 0 <= n -> (length l < fuel)%nat ->
  wp (pbuf_realloc custom_free_function fuel (first_of l 0) n) s (fun _ s' =>
    if sum_len l <=? n then s' = s
    else pseg (lw_cells s') (first_of l 0) (cut n l) 0 /\ packet (cut n l) /\ sum_len (cut n l) = n /\
      contents s' (cut n l) = take (Z.to_nat n) (contents s l) /\ res s' (reverse (cut_off n l).*1 ++ fp) fr h /\ mild (pool_area l.*1) h s s').
Proof.
  intros Hl Hne Hp Hfr Hres Hn Hf. assert (exists a0 b0 l0, l = (a0, b0) :: l0) as (a0 & b0 & l0 & El) by (destruct l as [|[a0 b0] l0]; [done|by exists a0, b0, l0]).
  assert (lw_cells s !! first_of l 0 = Some (Buf b0) /\ pb_tot_len b0 = sum_len l /\ sum_len l < 65536) as (Ha & Htot & Hlt).
  { subst l. destruct Hl as (_ & _ & ? & _). apply packet_cons in Hp as (_ & ? & ? & _). cbn in *. split; [done|lia]. }
  apply wp_step, (wp_pbuf_at _ b0); [done|]. rewrite Htot. destruct (Z.leb_spec (sum_len l) n); [by apply wp_ret|]. rewrite u16_small by lia.
  assert (forall x, x ∈ l.*1 -> kept h x) as Hkept.
  { intros x (bx & Hi)%elem_of_fst. apply (home_kept _ _ (x, bx) (rs_heap _ _ _ _ Hres)). destruct (fresh_home h _ Hfr) as (Hh & _).
    rewrite Forall_forall in Hh. by apply Hh. }
  apply wp_step, (wp_realloc_skip fp fr h l); try done; [lia|]. intros l1 a b r s1 Ec Hr Hin Hab Hl1 Hres1 [sc sv sd]. cbn [fst snd].
  pose proof Hfr as Hfr'. rewrite Forall_forall in Hfr'. pose proof (Hfr' _ Hab) as (Hae & Hty & _ & _). cbn [fst snd] in Hae, Hty.
  pose proof (pseg_rest _ _ _ _ _ Hl1) as (_ & Ha0 & Hab1 & Hl2). pose proof (pseg_nodup _ _ _ Hl1) as Hnd. rewrite fmap_app, fmap_cons in Hnd.
  apply NoDup_app in Hnd as (Hnd1 & Hnd & [Hnd2 Hnd3]%NoDup_cons). cbn [fst] in *.
  assert (kept h a) as Hka by (apply Hkept, elem_of_fst; by exists b).
  destruct (cut_packet l n Hp ltac:(lia)) as [Hcp Hcs]. pose proof (cut_addrs l n Hp ltac:(lia)) as Hca.
  apply wp_step, (wp_pbuf_at _ b); [done|]. assert (pbuf_match_allocsrc b PBUF_TYPE_ALLOC_SRC_MASK_STD_HEAP = false) as ->
    by (unfold pbuf_match_allocsrc, pbuf_get_allocsrc; by rewrite Hty). cbn [andb].
  apply wp_step, wp_ret, wp_step, (wp_pbuf_set _ _ b); [done|]. apply wp_step, (wp_pbuf_set _ _ (put_len r b)); [cbn; by rewrite lookup_insert_eq|].
  set (b2 := put_tot_len (pb_len (put_len r b)) (put_len r b)). set (s2 := with_cells _ (with_cells _ s1)).
  assert (lw_cells s2 !! a = Some (Buf b2)) as Hab2 by (cbn; by rewrite lookup_insert_eq). apply wp_step, (wp_pbuf_at _ b2); [done|].
  assert (pb_next b2 = first_of (cut_off n l) 0) as Enx by (apply (pseg_first _ _ _ _ Hl2)).
  assert (forall y, y <> a -> lw_cells s2 !! y = lw_cells s1 !! y) as Hc2 by (intros y Hy; cbn; by rewrite !lookup_insert_ne).
  assert (res s2 fp fr h) as Hres2.
  { apply (res_store _ _ _ _ _ (put_len r b)); [by apply (res_store _ _ _ _ _ b)|cbn; by rewrite lookup_insert_eq|done]. }
  assert (ended r b = put_next 0 b2) as Eend by (unfold ended, b2, put_tot_len; cbn; by rewrite (u16_small (u16 r)) by apply u16_range).
  assert (forall x, x ∈ (l1 ++ [(a, b2)]).*1 -> x ∈ l.*1) as Hpool.
  { intros x Hx. rewrite fmap_app in Hx. apply elem_of_app in Hx as [Hx| ->%list_elem_of_singleton]; [by apply Hin|].
    apply elem_of_fst. by exists b. }
  assert (mild (pool_area l.*1) h s s2) as Hm2.
  { split; [|by intros x _; cbn; rewrite sv|by cbn; rewrite sd]. intros x Hx _.
    assert (x ∉ (l1 ++ [(a, b2)]).*1) as Hn1 by (intros Hi%Hpool; apply Hx; by left). rewrite fmap_app in Hn1. apply not_elem_of_app in Hn1 as [Hn1 Hn2].
    rewrite Hc2 by (intros ->; apply Hn2; by left). by apply sc. }
  apply wp_step. eapply wp_mono with (Q := fun _ s3 => (forall x, x ∈ (l1 ++ [(a, b2)]).*1 -> lw_cells s3 !! x = lw_cells s2 !! x) /\
    res s3 (reverse (cut_off n l).*1 ++ fp) fr h /\ mild (pool_area l.*1) h s s3).
  - rewrite Enx. assert (pseg (lw_cells s2) (first_of (cut_off n l) 0) (cut_off n l) 0) as Hoff.
    { pose proof (pseg_first _ _ _ _ Hl2) as E. rewrite <- E. apply (pseg_agree (lw_cells s1)); [|done]. intros y Hy. apply Hc2. by intros ->. }
    assert (Forall PbufAlloc.fresh (cut_off n l) /\ (length (cut_off n l) < fuel)%nat) as [Hfo Hlo].
    { destruct (cut_off_suffix n l) as [k Ek]. rewrite Ek in Hfr, Hf. apply Forall_app in Hfr as [_ ?]. rewrite length_app in Hf. split; [done|lia]. }
    destruct (Z.eqb_spec (first_of (cut_off n l) 0) 0) as [E|E]; cbn [negb].
    + apply wp_ret. assert (cut_off n l = []) as -> by (destruct (cut_off n l) as [|[y c] l']; [done|]; by destruct Hoff as (_ & ? & _)). done.
    + apply wp_step. eapply wp_mono; [by apply (wp_free_fresh custom_free_function (cut_off n l) fuel fp fr h)|].
      intros c s3 (_ & Hres3 & Hm3 & Hc3). apply wp_ret. split; [|split; [done|]].
      2: { eapply mild_trans; [done|]. apply (mild_weaken (cut_off n l).*1); [done|]. intros x Hx. rewrite (cut_fst n l). apply elem_of_app. by right. }
      intros x Hx. apply Hc3.
      * intros Hi. rewrite fmap_app in Hx. apply elem_of_app in Hx as [Hx| ->%list_elem_of_singleton]; [|done].
        apply (Hnd x Hx). by right.
      * rewrite fmap_app in Hx. apply elem_of_app in Hx as [Hx| ->%list_elem_of_singleton]; [by apply Hkept, Hin|done].
  - intros [] s3 (Hsame & Hres3 & Hm3). apply (wp_pbuf_set _ _ b2); [rewrite Hsame; [done|]; rewrite fmap_app; apply elem_of_app; right; by left|].
    set (s4 := with_cells _ s3). assert (forall y, y <> a -> lw_cells s4 !! y = lw_cells s3 !! y) as Hc4 by (intros y Hy; cbn; by rewrite lookup_insert_ne).
    split; [|split; [done|split; [done|split; [|split]]]].
    + rewrite Ec. apply pseg_app in Hl1 as [Hl1 _]. apply pseg_app. cbn [first_of]. split.
      * apply (pseg_agree (lw_cells s1)); [|done]. intros y Hy. assert (y <> a) as Hya by (intros ->; apply (Hnd a Hy); by left).
        rewrite Hc4, Hsame, Hc2 by (done || (rewrite fmap_app; apply elem_of_app; by left)). done.
      * cbn. split; [done|]. split; [done|]. rewrite lookup_insert_eq, Eend. done.
    + unfold contents. rewrite Hca, fmap_take. cbn. by rewrite (md_data _ _ _ _ Hm3).
    + apply (res_store _ _ _ _ _ b2); [done| |done]. rewrite Hsame; [done|]. rewrite fmap_app. apply elem_of_app. right. by left.
    + apply (mild_trans _ _ _ s3); [done|]. split; [|done|done]. intros y Hy _. apply Hc4. intros ->. apply Hy. left. apply elem_of_fst. by exists b.
Qed.
End shorten.

(** * Concrete runs *)

#[local] Existing Instance sim_pools.
#[local] Existing Instance sim_layout.

(** 14 bytes of a packet of the pool are taken off and given back. *)
Lemma pbuf_header_roundtrip_witness :
  wp (bind (bind (mem_init ;; memp_init) (fun _ => pbuf_alloc (fun _ => undef) 20 PBUF_RAW 1500 PBUF_POOL)) (fun p =>
        r <- pbuf_remove_header p 14 ;; r' <- pbuf_add_header p 14 ;; ret (r, r')))
    lw_static (fun rr _ => rr = (0, 0) \/ fst rr = 1).
Proof.
  apply wp_step, wp_sim_packet. intros l s fp Hl Hp Hsum Hlen Hf Hw Hnd Hr Hres Hv.
  pose proof (sim_in_memory l s Hl Hp Hnd Hr Hv) as Him. destruct l as [|[a b] l]; [done|].
  apply Forall_cons in Hf as [(_ & Hty & _) _]. apply Forall_cons in Hw as [[Hlow _] _]. cbn [fst snd first_of] in *.
  apply wp_step. eapply wp_mono; [apply (pbuf_header_roundtrip a b l 14 s Him); [lia|by rewrite Hty|done]|].
  intros r s'. destruct (pb_len b <? 14).
  - intros [-> ->]. destruct Hl as (_ & Ha0 & Ha & _). unfold pbuf_add_header, pbuf_add_header_impl. destruct (Z.eqb_spec a 0); [done|].
    change (0xFFFF <? 14) with false. change (14 =? 0) with false. cbn [orb]. apply wp_step, wp_step, (wp_pbuf_at _ b); [done|].
    pose proof Hp as (Hb & Htot & Hlt & Hs & _)%packet_cons. repeat case_match; try (apply wp_ret, wp_ret; by right).
    all: apply wp_step, (wp_pbuf_set _ _ b); [done|]; apply wp_ret, wp_ret; by right.
  - intros (-> & _ & _ & E). apply wp_step. unfold wp. rewrite E. by left.
Defined.

(** A packet of 1500 bytes and one of 100 become one. *)
Lemma pbuf_cat_joins_witness :
  wp (bind (bind (mem_init ;; memp_init) (fun _ => pbuf_alloc (fun _ => undef) 20 PBUF_RAW 1500 PBUF_POOL)) (fun p =>
        q <- pbuf_alloc (fun _ => undef) 20 PBUF_RAW 100 PBUF_POOL ;; pbuf_cat 20 p q ;; ret p))
    lw_static (fun p s => exists l, pseg (lw_cells s) p l 0 /\ length l = 4%nat).
Proof.
  apply wp_step, wp_sim_packet. intros l s fp Hl Hp Hsum Hlen Hf Hw Hnd Hr Hres Hv.
  apply wp_step. eapply wp_mono; [apply (wp_pbuf_alloc_pool (fun _ => undef) 20 PBUF_RAW 100 _ _ _ s Hres); [unfold PBUF_RAW; lia|lia|apply Nat.ltb_lt; by vm_compute]|].
  intros q s1 [Hq Hm]. assert ((pool_need 100 PBUF_RAW <=? List.length (drop 3 fp))%nat = true) as E by by vm_compute.
  unfold pool_alloc_post in Hq. rewrite E in Hq. destruct Hq as (l2 & -> & Hl2 & Hq0 & Hp2 & Hsum2 & Efst & Hf2 & Hw2 & _ & Hres2).
  change (pool_need 100 PBUF_RAW) with 1%nat in *.
  assert (forall x, x ∈ l.*1 -> (x ∉ drop 3 fp) /\ x ∈ memp_elems MEMP_PBUF_POOL) as Hin.
  { intros x (b & Hb)%elem_of_fst. pose proof (pseg_lookup _ _ _ _ _ _ Hl Hb) as [_ Hx]. rewrite Forall_forall in Hf. apply Hf in Hb as [? _].
    split; [|done]. by apply (res_not_buf _ _ _ _ _ _ Hres Hx). }
  pose proof (sim_valid_mild _ _ _ _ Hm Hv) as Hv1.
  assert (in_memory s1 l) as Him.
  { apply sim_in_memory; try done. apply (pseg_agree (lw_cells s)); [|done]. intros x Hx. destruct (Hin x Hx) as [Hn Hi].
    apply (md_cells _ _ _ _ Hm); [intros [?|Hi']; [done|by pose proof (elems_apart _ _ _ Hi Hi')]|].
    right. right. apply sim_elems_range in Hi. cbn in Hi. change ram_end with 0x20031000. lia. }
  assert (in_memory s1 l2) as Him2.
  { apply sim_in_memory; try done; [|intros x; by apply sim_addrs]. apply within_nodup; [done|done|]. by apply (pseg_nodup _ _ _ Hl2). }
  assert (length l2 = 1%nat) as Hlen2 by (rewrite <- (length_fmap fst l2), Efst; by vm_compute).
  apply wp_step. eapply wp_mono; [apply (pbuf_cat_joins l l2 20 s1 Him Him2)|].
  - by destruct l.
  - by destruct l2.
  - intros x Hx. destruct (Hin x Hx) as [Hn _]. intros Hi. apply Hn. rewrite Efst in Hi. rewrite <- (take_drop 1 (drop 3 fp)). apply elem_of_app. by left.
  - lia.
  - lia.
  - intros [] s' (l' & Hl' & _ & Ef & _). apply wp_ret. exists l'. split; [done|].
    rewrite <- (length_fmap fst l'), Ef, length_app, !length_fmap. lia.
Defined.

(** A packet of 1500 bytes is cut to 700, which frees one of its three buffers. *)
Lemma pbuf_realloc_cuts_witness :
  wp (bind (bind (mem_init ;; memp_init) (fun _ => pbuf_alloc (fun _ => undef) 20 PBUF_RAW 1500 PBUF_POOL)) (fun p => pbuf_realloc (fun _ => undef) 20 p 700 ;; ret p))
    lw_static (fun p s => exists l, pseg (lw_cells s) p l 0 /\ packet l /\ sum_len l = 700).
Proof.
  apply wp_step, wp_sim_packet. intros l s fp Hl Hp Hsum Hlen Hf Hw Hnd Hr Hres Hv.
  apply wp_step. eapply wp_mono; [apply (pbuf_realloc_cuts (fun _ => undef) l 20 700 _ _ _ s Hl ltac:(by destruct l) Hp Hf Hres); lia|].
  intros [] s'. rewrite Hsum. intros (H1 & H2 & H3 & _). apply wp_ret. by exists (cut 700 l).
Defined.
