(* ===== verification/PbufRefs.v ===== *)
(** Reference counts of packet buffers: who may use a buffer, and what must hold for
    pbuf_free to give back exactly what nobody uses any more. *)
From S2P Require Import Prelude Machine LwMem LwHeap Pbuf PbufCopy PbufChain PbufAlloc PbufData PbufClone PbufCoalesce PbufShape.
From stdpp Require Import list gmap.

#[local] Open Scope Z_scope.
#[local] Open Scope fw_scope.

(** * Counting *)

(** How often [a] occurs in a list. *)
Definition occ (a : Z) (l : list Z) : Z := Z.of_nat (length (filter (fun x => x = a) l)).

Lemma occ_cons a x l : occ a (x :: l) = (if decide (x = a) then 1 else 0) + occ a l.
Proof. unfold occ. rewrite filter_cons. destruct (decide (x = a)); cbn [length]; lia. Qed.

Lemma occ_app a l1 l2 : occ a (l1 ++ l2) = occ a l1 + occ a l2.
Proof. unfold occ. rewrite filter_app, length_app. lia. Qed.

Lemma occ_perm a l1 l2 : Permutation l1 l2 -> occ a l1 = occ a l2.
Proof. intros H. unfold occ. by rewrite H. Qed.

Lemma occ_nonneg a l : 0 <= occ a l.
Proof. unfold occ. lia. Qed.

Lemma occ_pos a l : a ∈ l <-> 1 <= occ a l.
Proof.
  induction l as [|x l IH]; [split; [by intros ?%elem_of_nil|done]|]. rewrite occ_cons, elem_of_cons, IH.
  pose proof (occ_nonneg a l). destruct (decide (x = a)); [|split; [intros [->|?]|right]; (done || lia)]. split; [lia|by left].
Qed.

(** The buffers in use, by their addresses. *)
Abbreviation world := (gmap Z pbuf).

(** Everything that refers to a buffer: the references [refs] that the program has, with NULL
    among them where it has none, and the links of the buffers. *)
Definition links_of (D : world) : list Z := (fun x => pb_next (snd x)) <$> map_to_list D.
Definition holders (refs : list Z) (D : world) : list Z := refs ++ links_of D.
(** The buffers in use that came from a pool or, for 0, from the heap. *)
Definition lent (k : Z) (D : world) : list Z := fst <$> filter (fun x => from k x = true) (map_to_list D).

Lemma links_delete D a b : D !! a = Some b -> Permutation (links_of D) (pb_next b :: links_of (delete a D)).
Proof. intros H. unfold links_of. by rewrite <- (map_to_list_delete D a b H). Qed.

Lemma links_new D a b : D !! a = None -> Permutation (links_of (<[a := b]> D)) (pb_next b :: links_of D).
Proof. intros H. unfold links_of. by rewrite map_to_list_insert. Qed.

Lemma links_update D a b b' : D !! a = Some b -> Permutation (links_of (<[a := b']> D)) (pb_next b' :: links_of (delete a D)).
Proof. intros H. rewrite <- insert_delete_eq. apply links_new, lookup_delete_eq. Qed.

Lemma holders_cons r refs D : holders (r :: refs) D = r :: holders refs D.
Proof. done. Qed.

Lemma lent_delete k D a b : D !! a = Some b -> Permutation (lent k D) ((if from k (a, b) then [a] else []) ++ lent k (delete a D)).
Proof.
  intros H. unfold lent. rewrite <- (map_to_list_delete D a b H), filter_cons. by destruct (from k (a, b)).
Qed.

Lemma lent_new k D a b : D !! a = None -> Permutation (lent k (<[a := b]> D)) ((if from k (a, b) then [a] else []) ++ lent k D).
Proof. intros H. unfold lent. rewrite map_to_list_insert by done. rewrite filter_cons. by destruct (from k (a, b)). Qed.

Lemma lent_update k D a b b' : D !! a = Some b -> pb_type b' = pb_type b -> Permutation (lent k (<[a := b']> D)) (lent k D).
Proof.
  intros H Ht. rewrite (lent_delete k D a b H), <- insert_delete_eq, lent_new by apply lookup_delete_eq.
  unfold from, pbuf_get_allocsrc. cbn [snd]. by rewrite Ht.
Qed.

Lemma elem_lent k D a : a ∈ lent k D <-> exists b, D !! a = Some b /\ from k (a, b) = true.
Proof.
  unfold lent. rewrite list_elem_of_fmap. split.
  - intros ([x b] & -> & [? ?%elem_of_map_to_list]%list_elem_of_filter). by exists b.
  - intros (b & Ha & Hf). exists (a, b). split; [done|]. apply list_elem_of_filter. split; [done|by apply elem_of_map_to_list].
Qed.

(** ** Chains of buffers in use *)

Definition chain (D : world) (p : Z) (l : buffers) : Prop := pseg (Buf <$> D) p l 0.

Lemma chain_lookup D p l a b : chain D p l -> (a, b) ∈ l -> a <> 0 /\ D !! a = Some b.
Proof.
  intros Hl Hi. destruct (pseg_lookup _ _ _ _ _ _ Hl Hi) as [Ha E]. split; [done|].
  rewrite lookup_fmap in E. destruct (D !! a); [|done]. by injection E as <-.
Qed.

Lemma chain_cons D p l : chain D p l -> p <> 0 -> exists b l', l = (p, b) :: l' /\ D !! p = Some b /\ chain D (pb_next b) l'.
Proof.
  destruct l as [|[a b] l']; [by intros ->|]. intros Hl _. pose proof (chain_lookup D p _ a b Hl ltac:(by left)) as [_ Ha].
  destruct Hl as (-> & _ & _ & Hl). by exists b, l'.
Qed.

Lemma chain_nil D l : chain D 0 l -> l = [].
Proof. destruct l as [|[a b] l]; [done|]. by intros (<- & ? & _). Qed.

Lemma chain_det D p l1 l2 : chain D p l1 -> chain D p l2 -> l1 = l2.
Proof. apply pseg_det. Qed.

Lemma chain_nodup D p l : chain D p l -> NoDup l.*1.
Proof. apply pseg_nodup. Qed.

(** Every buffer of a chain but the first is the next one of another. *)
Lemma chain_linked D p l a : chain D p l -> a ∈ l.*1 -> a = p \/ a ∈ links_of D.
Proof.
  revert p. induction l as [|[x b] l IH]; intros p Hl; [by intros ?%elem_of_nil|].
  pose proof (chain_lookup D p _ x b Hl ltac:(by left)) as [_ Hx]. destruct Hl as (-> & _ & _ & Hl). rewrite fmap_cons. cbn [fst].
  intros [->|Hi]%elem_of_cons; [by left|right]. destruct (IH _ Hl Hi) as [->|?]; [|done].
  unfold links_of. apply list_elem_of_fmap. exists (x, b). split; [done|]. by apply elem_of_map_to_list.
Qed.

Lemma chain_delete D p l a : chain D p l -> p <> a -> a ∉ links_of D -> chain (delete a D) p l.
Proof.
  intros Hl Hp Ha. apply (pseg_agree (Buf <$> D)); [|done]. intros x Hx. rewrite !lookup_fmap, lookup_delete_ne; [done|].
  intros ->. by destruct (chain_linked D p l x Hl Hx).
Qed.

(** The buffer at [a] replaced by [b]. *)
Definition with_buf (a : Z) (b : pbuf) (l : buffers) : buffers := (fun x => if decide (fst x = a) then (a, b) else x) <$> l.

Lemma with_buf_fst a b l : (with_buf a b l).*1 = l.*1.
Proof. unfold with_buf. rewrite <- list_fmap_compose. apply list_fmap_ext. intros ? [x c] _. cbn. by destruct (decide (x = a)) as [->|]. Qed.

Lemma with_buf_out a b l : a ∉ l.*1 -> with_buf a b l = l.
Proof.
  induction l as [|[x c] l IH]; [done|]. rewrite fmap_cons. intros [Hx Hl]%not_elem_of_cons. unfold with_buf. rewrite fmap_cons. cbn [fst].
  cbn [fst] in Hx. rewrite decide_False by congruence. f_equal. by apply IH.
Qed.

Lemma chain_update D p l a b b' : chain D p l -> D !! a = Some b -> pb_next b' = pb_next b -> chain (<[a := b']> D) p (with_buf a b' l).
Proof.
  intros Hl Ha Hn. revert p Hl. induction l as [|[x c] l IH]; intros p Hl; [done|].
  pose proof (chain_lookup D p _ x c Hl ltac:(by left)) as [Hx0 Hx]. destruct Hl as (-> & _ & _ & Hl).
  unfold with_buf. rewrite fmap_cons. cbn [fst]. destruct (decide (x = a)) as [->|Hne].
  - rewrite Ha in Hx. injection Hx as <-. split; [done|]. split; [done|]. rewrite lookup_fmap, lookup_insert_eq. split; [done|]. rewrite Hn. by apply IH.
  - split; [done|]. split; [done|]. rewrite lookup_fmap, lookup_insert_ne, Hx by done. split; [done|]. by apply IH.
Qed.

Lemma chain_new D p l a b : chain D p l -> D !! a = None -> chain (<[a := b]> D) p l.
Proof.
  intros Hl Ha. apply (pseg_agree (Buf <$> D)); [|done]. intros x (c & Hx)%elem_of_fst. apply (chain_lookup _ _ _ _ _ Hl) in Hx as [_ Hx].
  rewrite !lookup_fmap, lookup_insert_ne; [done|]. congruence.
Qed.

(** * The invariant *)

(** Elements are nowhere in the heap and in no other pool. *)
Class LwRoom {P : Pools} := {
  elem_room t e x : e ∈ memp_elems t -> e <= x < e + memp_size t -> x < ram \/ ram_end < x;
  elem_pool t t' e e' x : e ∈ memp_elems t -> e' ∈ memp_elems t' -> e <= x < e + memp_size t -> e' <= x < e' + memp_size t' -> t = t' }.

Section refs.
Context {P : Pools} {L : LwLayout} {O : LwRoom} (custom_free_function : Z -> lw unit).
Implicit Types (s : lwip) (D : world) (b : pbuf).

(** Memory that is no part of the heap and of no pool. *)
Definition foreign (x : Z) : Prop :=
  (x < ram \/ ram_end < x) /\ forall t e, e ∈ memp_elems t -> ~ (e <= x < e + memp_size t).

(** Where a buffer and its data are: in an element of the pool, in a block of the heap, or, for
    the data of PBUF_ROM and PBUF_REF, in memory that the program keeps. *)
Record sound (h : blocks) (a : Z) (b : pbuf) : Prop := {
  so_flags : any_bit (pb_flags b) PBUF_FLAG_IS_CUSTOM = false;
  so_len : 0 <= pb_len b;
  so_place :
    pb_type b = u8 PBUF_POOL /\ a ∈ memp_elems MEMP_PBUF_POOL /\ within (a, b) \/
    pb_type b = u8 PBUF_RAM /\ (exists c, (a, c) ∈ regions 0 h /\ a + SIZEOF_STRUCT_PBUF <= pb_payload b /\ pb_payload b + pb_len b <= a + c) \/
    (pb_type b = u8 PBUF_ROM \/ pb_type b = u8 PBUF_REF) /\ a ∈ memp_elems MEMP_PBUF /\ forall x, x ∈ data_of b -> foreign x }.

(** The length of what follows. *)
Definition tot_at D (p : Z) : Z := match D !! p with Some b => pb_tot_len b | None => 0 end.

(** [refs] are all references to buffers that the program has, [D] the buffers in use: each is
    where it should be, begins a packet, and counts exactly who refers to it. *)
Record count_core (refs : list Z) D (h : blocks) s : Prop := {
  ct_static : forall t e x, e ∈ memp_elems t -> e <= x < e + memp_size t -> lw_valid s x = true;
  ct_cell : forall a b, D !! a = Some b -> lw_cells s !! a = Some (Buf b);
  ct_sound : forall a b, D !! a = Some b -> sound h a b;
  ct_data : forall a b x, D !! a = Some b -> x ∈ data_of b -> lw_valid s x = true;
  ct_chain : forall a b, D !! a = Some b -> exists l, chain D a l;
  ct_total : forall a b, D !! a = Some b -> pb_tot_len b = pb_len b + tot_at D (pb_next b) /\ pb_tot_len b < 65536;
  ct_solid : forall a b, D !! a = Some b -> a ∈ links_of D -> 0 < pb_len b;
  ct_live : forall a, a ∈ holders refs D -> a <> 0 -> is_Some (D !! a);
  ct_count : forall a b, D !! a = Some b -> pb_ref b = occ a (holders refs D) /\ 1 <= pb_ref b < 256 }.

(** What is not in use is free, and the heap is [others] and buffers. *)
Record count_at (others refs : list Z) D (fp fr : list Z) (h : blocks) s : Prop := {
  ct_core : count_core refs D h s;
  ct_res : res s fp fr h;
  ct_pool : Permutation (memp_elems MEMP_PBUF_POOL) (fp ++ lent 2 D);
  ct_rom : Permutation (memp_elems MEMP_PBUF) (fr ++ lent 1 D);
  ct_heap : Permutation (regions 0 h).*1 (others ++ lent 0 D) }.

#[local] Arguments ct_static {refs D h s} _.
#[local] Arguments ct_cell {refs D h s} _.
#[local] Arguments ct_sound {refs D h s} _.
#[local] Arguments ct_data {refs D h s} _.
#[local] Arguments ct_chain {refs D h s} _.
#[local] Arguments ct_total {refs D h s} _.
#[local] Arguments ct_solid {refs D h s} _.
#[local] Arguments ct_live {refs D h s} _.
#[local] Arguments ct_count {refs D h s} _.
#[local] Arguments ct_core {others refs D fp fr h s} _.
#[local] Arguments ct_res {others refs D fp fr h s} _.

Definition counted (others refs : list Z) D s : Prop := exists fp fr h, count_at others refs D fp fr h s.

Lemma sound_home h a b : sound h a b -> home h (a, b).
Proof.
  intros [Hf _ Hp]. split; [done|]. unfold pbuf_get_allocsrc. cbn [fst snd].
  destruct Hp as [(-> & Ha & _)|[(-> & c & Ha & _)|([-> | ->] & Ha & _)]]; [by left|right; right|by right; left..].
  split; [done|]. by exists c.
Qed.

Lemma sound_kept s h a b : heap_ok s h -> sound h a b -> kept h a.
Proof. intros Hok Hs. by apply (home_kept s h (a, b)), sound_home. Qed.

Lemma region_range s h p c : heap_ok s h -> (p, c) ∈ regions 0 h -> ram < p /\ p + c <= ram_end /\ 12 <= c /\ p mod 4 = 0.
Proof.
  intros [[pe Ht] _ _ _ _] Hi. apply regions_apart in Ht as [_ Hf]. rewrite Forall_forall in Hf. apply Hf in Hi as (? & ? & ? & ?).
  cbn in *. pose proof (align_mod4 ram_heap). fold ram in *. unfold ram_end, ptr_to_mem in *. repeat split; (lia || zlia).
Qed.

Lemma sound_nonzero s h a b : heap_ok s h -> sound h a b -> a <> 0.
Proof.
  intros Hok [_ _ [(_ & Ha & _)|[(_ & c & Ha & _)|(_ & Ha & _)]]]; try by eapply elem_pos. apply (region_range s) in Ha; [|done].
  pose proof ram_pos. lia.
Qed.

Lemma count_chain others refs D fp fr h s a b : count_at others refs D fp fr h s -> D !! a = Some b ->
  exists l, chain D a ((a, b) :: l) /\ chain D (pb_next b) l.
Proof.
  intros H Ha. destruct (ct_chain (ct_core H) a b Ha) as [l Hl].
  destruct (chain_cons _ _ _ Hl) as (b' & l' & -> & Ha' & Hl').
  { apply (sound_nonzero s h a b); [apply H|by apply (ct_sound (ct_core H))]. }
  rewrite Ha in Ha'. injection Ha' as <-. by exists l'.
Qed.

(** A chain of buffers in use is a packet, and is in memory. *)
Lemma count_packet others refs D fp fr h s : count_at others refs D fp fr h s -> forall l p, chain D p l -> packet l /\ sum_len l = tot_at D p.
Proof.
  intros H. induction l as [|[a b] l IH]; intros p Hl.
  - cbn in Hl. subst p. split; [done|]. unfold tot_at. destruct (D !! 0) as [b|] eqn:E; [|done].
    destruct (sound_nonzero s h 0 b); [apply H|by apply (ct_sound (ct_core H))|done].
  - destruct (chain_lookup _ _ _ a b Hl ltac:(by left)) as [Ha0 Ha]. destruct Hl as (-> & _ & _ & Hl). destruct (IH _ Hl) as [Hp Hs].
    destruct (ct_total (ct_core H) a b Ha) as [Ht Hlt]. pose proof (so_len _ _ _ (ct_sound (ct_core H) a b Ha)).
    cbn. unfold tot_at at 1. rewrite Ha. repeat split; (done || lia).
Qed.

Lemma count_pseg others refs D fp fr h s p l : count_at others refs D fp fr h s -> chain D p l -> pseg (lw_cells s) p l 0.
Proof.
  intros H. revert p. induction l as [|[a b] l IH]; intros p Hl; [done|].
  destruct (chain_lookup _ _ _ a b Hl ltac:(by left)) as [Ha0 Ha]. destruct Hl as (-> & _ & _ & Hl).
  split; [done|]. split; [done|]. split; [by apply (ct_cell (ct_core H))|by apply IH].
Qed.

(** The order of the references does not matter, and NULL is none. *)
Lemma core_perm refs refs' D h s : Permutation refs refs' -> count_core refs D h s -> count_core refs' D h s.
Proof.
  intros Hp []. assert (forall a, a ∈ holders refs' D <-> a ∈ holders refs D) as He.
  { intros a. unfold holders. by rewrite !elem_of_app, Hp. }
  split; try done; [by intros a Ha; apply ct_live0, He|]. intros a b Ha. unfold holders.
  rewrite <- (occ_perm a (refs ++ links_of D)); [by apply ct_count0|by rewrite Hp].
Qed.

Lemma core_null refs D h s : heap_ok s h -> count_core (0 :: refs) D h s <-> count_core refs D h s.
Proof.
  intros Hok. assert (forall a b, sound h a b -> 0 <> a) as H0 by (intros a b Hs; symmetry; by apply (sound_nonzero s h a b)).
  split; intros []; split; try done.
  - intros a Ha. apply ct_live0. rewrite holders_cons. by right.
  - intros a b Ha. specialize (ct_count0 a b Ha). rewrite holders_cons, occ_cons in ct_count0.
    destruct (decide (0 = a)) as [E|]; [|done]. by destruct (H0 a b (ct_sound0 _ _ Ha)).
  - intros a Ha Ha0. rewrite holders_cons in Ha. apply elem_of_cons in Ha as [->|Ha]; [done|by apply ct_live0].
  - intros a b Ha. specialize (ct_count0 a b Ha). rewrite holders_cons, occ_cons.
    destruct (decide (0 = a)) as [E|]; [|done]. by destruct (H0 a b (ct_sound0 _ _ Ha)).
Qed.

Lemma count_perm others refs refs' D fp fr h s : Permutation refs refs' -> count_at others refs D fp fr h s -> count_at others refs' D fp fr h s.
Proof. intros Hp []. split; try done. by apply (core_perm refs). Qed.

Lemma count_null others refs D fp fr h s : count_at others (0 :: refs) D fp fr h s <-> count_at others refs D fp fr h s.
Proof. split; intros []; split; try done; by apply (core_null refs D h s (rs_heap _ _ _ _ ct_res0)). Qed.

(** ** What the program may do with a chain it refers to *)

Lemma sound_data h a b x : sound h a b -> x ∈ data_of b -> kept h x.
Proof.
  intros [_ _ Hp] Hx%elem_data. change SIZEOF_STRUCT_PBUF with 16 in Hp. destruct Hp as [(_ & Ha & Hw)|[(_ & c & Ha & Hlo & Hhi)|(_ & _ & Hf)]].
  - right. apply (elem_room MEMP_PBUF_POOL a); [done|]. unfold within in Hw. cbn [fst snd] in Hw. change SIZEOF_STRUCT_PBUF with 16 in Hw. lia.
  - left. apply payload_regions. exists a, c. split; [done|lia].
  - right. by apply Hf, elem_data.
Qed.

(** What belongs to a buffer besides what it refers to. *)
Definition owns_byte (h : blocks) (a x : Z) : Prop :=
  (a ∈ memp_elems MEMP_PBUF_POOL /\ a <= x < a + memp_size MEMP_PBUF_POOL) \/ exists c, (a, c) ∈ regions 0 h /\ a <= x < a + c.

Lemma owns_byte_apart s h a a' x : heap_ok s h -> owns_byte h a x -> owns_byte h a' x -> a = a'.
Proof.
  intros Hok [[Ha Hx]|(c & Ha & Hx)] [[Ha' Hx']|(c' & Ha' & Hx')].
  - destruct (decide (a = a')) as [|Hne]; [done|]. pose proof (elems_spaced _ _ _ Ha Ha' Hne). lia.
  - apply (elem_room MEMP_PBUF_POOL a x Ha) in Hx. apply (region_range s) in Ha'; [|done]. lia.
  - apply (elem_room MEMP_PBUF_POOL a' x Ha') in Hx'. apply (region_range s) in Ha; [|done]. lia.
  - apply elem_of_Permutation in Ha as (rs & Hrs). pose proof Ha' as Hi. rewrite Hrs in Hi. apply elem_of_cons in Hi as [Hi|Hi]; [by injection Hi|].
    exfalso. by apply (regions_disjoint s h a c x Hok rs Hrs Hx a' c').
Qed.

Lemma sound_owns h a b x : sound h a b -> any_bit (pb_type b) PBUF_TYPE_FLAG_STRUCT_DATA_CONTIGUOUS = true -> x ∈ data_of b -> owns_byte h a x.
Proof.
  intros [_ _ Hp] Hty Hx%elem_data. unfold within in Hp. cbn [fst snd] in Hp. change SIZEOF_STRUCT_PBUF with 16 in Hp.
  destruct Hp as [(_ & Ha & Hw)|[(_ & c & Ha & Hlo & Hhi)|([E|E] & _)]].
  - left. split; [done|lia].
  - right. exists c. split; [done|lia].
  - by rewrite E in Hty.
  - by rewrite E in Hty.
Qed.

Lemma sound_foreign h a b x : sound h a b -> any_bit (pb_type b) PBUF_TYPE_FLAG_STRUCT_DATA_CONTIGUOUS = false -> x ∈ data_of b -> foreign x.
Proof.
  intros [_ _ [(E & _)|[(E & _)|(_ & _ & Hf)]]] Hty Hx; [by rewrite E in Hty..|by apply Hf].
Qed.

Lemma owned_not_foreign s h a x : heap_ok s h -> owns_byte h a x -> ~ foreign x.
Proof.
  intros Hok [[Ha Hx]|(c & Ha & Hx)] [Hf1 Hf2]; [by apply (Hf2 _ _ Ha)|]. apply (region_range s) in Ha; [|done]. lia.
Qed.

Lemma elem_addrs x (l : buffers) : x ∈ addrs l <-> exists a b, (a, b) ∈ l /\ x ∈ data_of b.
Proof.
  induction l as [|[a b] l IH]; [split; [by intros ?%elem_of_nil|by intros (? & ? & ?%elem_of_nil & _)]|].
  rewrite addrs_cons, elem_of_app, IH. split.
  - intros [Hx|(a' & b' & Hi & Hx)]; [exists a, b; split; [by left|done]|exists a', b'; split; [by right|done]].
  - intros (a' & b' & [E|Hi]%elem_of_cons & Hx); [injection E as -> ->; by left|right; by exists a', b'].
Qed.

Lemma chain_addrs D p l x : chain D p l -> x ∈ addrs l -> exists a b, D !! a = Some b /\ x ∈ data_of b /\ (a, b) ∈ l.
Proof. intros Hl (a & b & Hi & Hx)%elem_addrs. exists a, b. split; [by eapply chain_lookup|done]. Qed.

Lemma count_held others refs D fp fr h s p l : count_at others refs D fp fr h s -> chain D p l -> l <> [] -> held h s l.
Proof.
  intros H Hl Hne. pose proof (count_pseg _ _ _ _ _ _ _ _ _ H Hl) as Hps. pose proof (count_packet _ _ _ _ _ _ _ H _ _ Hl) as [Hpk _].
  rewrite (pseg_first _ _ _ _ Hps) in Hps. split; try done.
  - split; try done; [|destruct l as [|[a b] l]; [done|]; pose proof Hpk as (? & _); split; (done || lia)].
    destruct l as [|[a b] l]; [done|]. unfold filled. cbn [tail]. apply Forall_forall. intros [x c] Hx. cbn [snd].
    destruct (chain_lookup _ _ _ a b Hl ltac:(by left)) as [_ Ha]. destruct (chain_lookup _ _ _ x c Hl ltac:(by right)) as [_ Hc].
    destruct Hl as (_ & _ & _ & Hl). apply (ct_solid (ct_core H) x c Hc).
    destruct (chain_linked D (pb_next b) l x Hl) as [->|?]; [apply elem_of_fst; by exists c| |done].
    apply list_elem_of_fmap. exists (a, b). split; [done|]. by apply elem_of_map_to_list.
  - intros x Hx. destruct (chain_addrs _ _ _ _ Hl Hx) as (a & b & Ha & Hi & _). by eapply (ct_data (ct_core H)).
  - apply Forall_forall. intros [a b] Hi. apply sound_home. apply (ct_sound (ct_core H)). by eapply chain_lookup.
  - intros x Hx. destruct (chain_addrs _ _ _ _ Hl Hx) as (a & b & Ha & Hi & _). eapply sound_data; [by apply (ct_sound (ct_core H))|done].
Qed.

(** ** Fuel *)

Lemma regions_length ptr (l : blocks) : (length (regions ptr l) <= length l)%nat.
Proof. revert ptr. induction l as [|[n []] l IH]; intros ptr; cbn [regions length]; [lia|specialize (IH (ptr + n)); cbn [length]; lia..]. Qed.

Lemma count_length others refs D fp fr h s p l : count_at others refs D fp fr h s -> chain D p l -> (length l < PBUF_FUEL)%nat.
Proof.
  intros H Hl. set (places := memp_elems MEMP_PBUF_POOL ++ memp_elems MEMP_PBUF ++ (regions 0 h).*1).
  assert (length l.*1 <= length places)%nat as Hle.
  { apply submseteq_length, NoDup_submseteq; [by eapply chain_nodup|]. intros a (b & Hi)%elem_of_fst.
    apply (chain_lookup _ _ _ _ _ Hl) in Hi as [_ Ha]. unfold places. rewrite !elem_of_app.
    destruct (ct_sound (ct_core H) a b Ha) as [_ _ [(_ & Hp & _)|[(_ & c & Hp & _)|(_ & Hp & _)]]]; [by left| |by right; left].
    right. right. apply list_elem_of_fmap. by exists (a, c). }
  rewrite length_fmap in Hle. unfold places in Hle. rewrite !length_app, !length_fmap in Hle.
  destruct (ct_res H) as [_ _ [[pe Ht] _ _ _ _] _ _ _].
  pose proof (tiles_total _ _ _ _ _ _ Ht) as Hn. rewrite <- (Z.sub_0_r (extent h)), <- (Z.add_simpl_l 0 (extent h)) in Hn.
  apply tiles_end in Ht. change MEM_SIZE_ALIGNED with 4096 in Ht. pose proof (regions_length 0 h).
  unfold memp_elems in Hle. rewrite !length_fmap in Hle. change (length (zrange 0 (Z.to_nat (memp_num MEMP_PBUF_POOL)))) with 16%nat in Hle.
  change (length (zrange 0 (Z.to_nat (memp_num MEMP_PBUF)))) with 16%nat in Hle. unfold PBUF_FUEL. lia.
Qed.

(** ** Giving up a reference *)

(** Buffers are the same but for their counts, and some may be gone. *)
Definition uncounted (b : pbuf) : pbuf := put_ref 0 b.
Definition fewer D' D : Prop := forall a b', D' !! a = Some b' -> exists b, D !! a = Some b /\ uncounted b = uncounted b'.

Lemma fewer_refl D : fewer D D.
Proof. intros a b Ha. by exists b. Qed.
Lemma fewer_trans D1 D2 D3 : fewer D1 D2 -> fewer D2 D3 -> fewer D1 D3.
Proof. intros H1 H2 a b (b2 & Ha & E)%H1. destruct (H2 a b2 Ha) as (b3 & ? & ?). exists b3. split; [done|congruence]. Qed.

(** A count changes. *)
Lemma count_recount others refs refs' D a b r fp fr h s :
  count_at others refs D fp fr h s -> D !! a = Some b -> 1 <= r < 256 ->
  (forall x, occ x (holders refs' D) = occ x (holders refs D) + (if decide (x = a) then r - pb_ref b else 0)) ->
  count_at others refs' (<[a := put_ref r b]> D) fp fr h (with_cells (insert a (Buf (put_ref r b))) s).
Proof.
  intros H Ha Hr Hocc. set (b' := put_ref r b).
  assert (forall x c, <[a := b']> D !! x = Some c -> exists c0, D !! x = Some c0 /\ uncounted c0 = uncounted c /\ pb_ref c = if decide (x = a) then r else pb_ref c0) as Hback.
  { intros x c Hx. destruct (decide (x = a)) as [->|Hne].
    - rewrite lookup_insert_eq in Hx. injection Hx as <-. exists b. split; [done|]. split; [done|]. cbn. by rewrite u8_small by lia.
    - rewrite lookup_insert_ne in Hx by done. by exists c. }
  assert (Permutation (links_of (<[a := b']> D)) (links_of D)) as Hlinks.
  { by rewrite (links_update D a b b' Ha), (links_delete D a b Ha). }
  assert (forall x, tot_at (<[a := b']> D) x = tot_at D x) as Htot.
  { intros x. unfold tot_at. destruct (decide (x = a)) as [->|Hne]; [by rewrite lookup_insert_eq, Ha|by rewrite lookup_insert_ne]. }
  pose proof (ct_sound (ct_core H) a b Ha) as Hsa. pose proof (ct_cell (ct_core H) a b Ha) as Hca. destruct H as [[] ? ? ? ?]. split; try done; [split; try done|..].
  - intros x c Hx. cbn. destruct (decide (x = a)) as [->|Hne].
    + rewrite lookup_insert_eq in Hx. rewrite lookup_insert_eq. by injection Hx as <-.
    + rewrite lookup_insert_ne in Hx by done. rewrite lookup_insert_ne by done. by apply ct_cell0.
  - intros x c (c0 & Hx & E & _)%Hback. specialize (ct_sound0 x c0 Hx). destruct ct_sound0. destruct c, c0. injection E as -> -> -> -> -> -> ->. by split.
  - intros x c y (c0 & Hx & E & _)%Hback. intros Hy. apply (ct_data0 x c0); [done|]. destruct c, c0. by injection E as -> -> -> -> -> -> ->.
  - intros x c (c0 & Hx & _)%Hback. destruct (ct_chain0 x c0 Hx) as [l Hl]. exists (with_buf a b' l). by apply (chain_update D x l a b).
  - intros x c (c0 & Hx & E & _)%Hback. rewrite Htot. specialize (ct_total0 x c0 Hx). destruct c, c0. by injection E as -> -> -> -> -> -> ->.
  - intros x c (c0 & Hx & E & _)%Hback Hi. rewrite Hlinks in Hi. specialize (ct_solid0 x c0 Hx Hi). destruct c, c0. by injection E as -> -> -> -> -> -> ->.
  - intros x Hx Hx0. unfold holders in Hx. rewrite Hlinks in Hx. destruct (decide (x = a)) as [->|Hne].
    { rewrite lookup_insert_eq. by eexists. } rewrite lookup_insert_ne by done. apply ct_live0; [|done].
    fold (holders refs' D) in Hx. apply occ_pos. apply occ_pos in Hx. rewrite Hocc, decide_False in Hx by done. lia.
  - intros x c (c0 & Hx & _ & ->)%Hback. destruct (ct_count0 x c0 Hx) as [Hc Hc1]. unfold holders. rewrite (occ_perm x _ (refs' ++ links_of D)) by (by rewrite Hlinks).
    fold (holders refs' D). rewrite Hocc, <- Hc. destruct (decide (x = a)) as [->|Hne]; [|lia]. replace c0 with b by congruence. lia.
  - apply (res_store _ _ _ _ _ b); [done|done|]. apply (sound_kept s h a b); [apply ct_res0|done].
  - by rewrite lent_update.
  - by rewrite lent_update.
  - by rewrite lent_update.
Qed.


Lemma shrunk_region d h h' a c : shrunk d h h' -> (a, c) ∈ regions 0 h -> a ∉ d.*1 -> (a, c) ∈ regions 0 h'.
Proof.
  intros [_ (g & Hg & Hp)] Hi Ha. rewrite Hp in Hi. apply elem_of_app in Hi as [Hi|Hi]; [|done]. exfalso. apply Ha.
  assert (a ∈ g.*1) as Hi' by (apply list_elem_of_fmap; by exists (a, c)). rewrite Hg in Hi'. apply elem_of_fst in Hi' as (b & Hi').
  apply elem_of_fst. exists b. by apply list_elem_of_In, List.filter_In in Hi' as [Hi'%list_elem_of_In _].
Qed.

Lemma shrunk_sound d h h' a b : shrunk d h h' -> sound h a b -> a ∉ d.*1 -> sound h' a b.
Proof.
  intros Hs [Hf Hl Hp] Ha. split; [done|done|]. destruct Hp as [?|[(E & c & Hi & Hd)|?]]; [by left| |by right; right].
  right. left. split; [done|]. exists c. split; [by eapply shrunk_region|done].
Qed.

Lemma given_one k a b free : given k [(a, b)] free = (if from k (a, b) then [a] else []) ++ free.
Proof. cbn [given]. by destruct (from k (a, b)). Qed.

(** The last reference to [a] is dropped, and [a] is given back. *)
Lemma count_remove others refs D a b c fp fr h h' s s' :
  count_at others (a :: refs) D fp fr h s -> D !! a = Some b -> pb_ref b = 1 ->
  res s' (given 2 [(a, b)] fp) (given 1 [(a, b)] fr) h' -> shrunk [(a, b)] h h' ->
  calm (fun x => x = a) h' (with_cells (insert a c) s) s' ->
  count_at others (pb_next b :: refs) (delete a D) (given 2 [(a, b)] fp) (given 1 [(a, b)] fr) h' s'.
Proof.
  intros H Ha Hb Hres Hsh [Hc Hv _ _ _ _].
  assert (forall x d, delete a D !! x = Some d -> x <> a /\ D !! x = Some d) as Hback.
  { intros x d Hx. rewrite lookup_delete_Some in Hx. by destruct Hx. }
  pose proof (links_delete D a b Ha) as Hlinks.
  assert (a ∉ holders refs D) as Hout.
  { intros Hi%occ_pos. pose proof (ct_count (ct_core H) a b Ha) as [Hn _]. rewrite holders_cons, occ_cons, decide_True in Hn by done. lia. }
  assert (Permutation (holders (pb_next b :: refs) (delete a D)) (holders refs D)) as Hhold.
  { unfold holders. rewrite Hlinks. cbn [app]. by rewrite Permutation_middle. }
  assert (forall x d, x <> a -> D !! x = Some d -> sound h' x d) as Hsound.
  { intros x d Hx Hd. apply (shrunk_sound [(a, b)] h); [done|by apply (ct_sound (ct_core H))|]. intros Hi%list_elem_of_singleton. by apply Hx. }
  assert (a ∉ links_of D) as Hal.
  { intros Hi. apply Hout. unfold holders. apply elem_of_app. by right. }
  assert (forall x d y, x <> a -> D !! x = Some d -> y ∈ data_of d -> kept h' y) as Hkd.
  { intros x d y Hx Hd. apply (sound_data h' x). by apply Hsound. }
  destruct H as [[] ? ? ? ?]. split; [split|..].
  - intros t e x He Hx. rewrite Hv; [by apply (ct_static0 t e)|]. right. by apply (elem_room t e).
  - intros x d [Hx Hd]%Hback. rewrite Hc; [|done|].
    + cbn. rewrite lookup_insert_ne by done. by apply ct_cell0.
    + apply (sound_kept s' h' x d); [apply Hres|by apply Hsound].
  - intros x d [Hx Hd]%Hback. by apply Hsound.
  - intros x d y [Hx Hd]%Hback Hy. rewrite Hv by (by apply (Hkd x d)). by apply (ct_data0 x d).
  - intros x d [Hx Hd]%Hback. destruct (ct_chain0 x d Hd) as [l Hl]. exists l. by apply chain_delete.
  - intros x d [Hx Hd]%Hback. destruct (ct_total0 x d Hd) as [Ht Hlt]. split; [|done]. rewrite Ht. f_equal.
    unfold tot_at. rewrite lookup_delete_ne; [done|]. intros E. apply Hal. rewrite E. apply list_elem_of_fmap. exists (x, d). split; [done|]. by apply elem_of_map_to_list.
  - intros x d [Hx Hd]%Hback Hi. apply (ct_solid0 x d Hd). rewrite Hlinks. by right.
  - intros x Hx Hx0. rewrite Hhold in Hx. rewrite lookup_delete_ne by (intros ->; by apply Hout). apply ct_live0; [|done].
    rewrite holders_cons. by right.
  - intros x d [Hx Hd]%Hback. rewrite (occ_perm x _ _ Hhold). destruct (ct_count0 x d Hd) as [Hn Hn1]. split; [|done].
    rewrite Hn, holders_cons, occ_cons, decide_False by done. done.
  - done.
  - rewrite ct_pool0, (lent_delete 2 D a b Ha), given_one. destruct (from 2 (a, b)); [|done]. cbn [app]. by rewrite <- Permutation_middle.
  - rewrite ct_rom0, (lent_delete 1 D a b Ha), given_one. destruct (from 1 (a, b)); [|done]. cbn [app]. by rewrite <- Permutation_middle.
  - destruct Hsh as [_ (g & Hg & Hp)]. rewrite (lent_delete 0 D a b Ha) in ct_heap0. rewrite Hp, fmap_app, Hg in ct_heap0. cbn [List.filter] in ct_heap0.
    destruct (from 0 (a, b)); cbn [app fmap list_fmap fst] in ct_heap0; [|done].
    rewrite <- Permutation_middle in ct_heap0. by apply Permutation_cons_inv in ct_heap0.
Qed.

Lemma fewer_recount D a b r : D !! a = Some b -> fewer (<[a := put_ref r b]> D) D.
Proof.
  intros Ha x c Hx. destruct (decide (x = a)) as [->|Hne].
  - rewrite lookup_insert_eq in Hx. injection Hx as <-. by exists b.
  - rewrite lookup_insert_ne in Hx by done. by exists c.
Qed.

Lemma fewer_delete D a : fewer (delete a D) D.
Proof. intros x c [_ Hx]%lookup_delete_Some. by exists c. Qed.

Lemma wp_free_counted l : forall fuel n others refs D p s (Q : Z -> lwip -> Prop),
  counted others (p :: refs) D s -> chain D p l -> (length l < fuel)%nat ->
  (forall k D' s', counted others refs D' s' -> fewer D' D -> lw_data s' = lw_data s -> Q k s') ->
  wp (pbuf_free_loop custom_free_function fuel p n) s Q.
Proof.
  induction l as [|[a b] l IH]; intros fuel n others refs D p s Q (fp & fr & h & H) Hl Hf HQ; (destruct fuel as [|fuel]; [cbn in Hf; lia|]); cbn [pbuf_free_loop].
  { cbn in Hl. subst p. change (0 =? 0) with true. apply wp_ret, (HQ _ D); [|apply fewer_refl|done]. exists fp, fr, h. by apply count_null. }
  destruct (chain_lookup _ _ _ a b Hl ltac:(by left)) as [Ha0 Ha]. destruct Hl as (-> & _ & _ & Hl). destruct (Z.eqb_spec a 0); [done|].
  pose proof (ct_cell (ct_core H) a b Ha) as Hab. destruct (ct_count (ct_core H) a b Ha) as [Hn Hn1].
  apply wp_step, (wp_pbuf_at _ b); [done|]. rewrite u8_small by lia.
  apply wp_step, (wp_pbuf_set _ _ b); [done|]. set (s1 := with_cells (insert a (Buf (put_ref (pb_ref b - 1) b))) s).
  destruct (Z.eqb_spec (pb_ref b - 1) 0) as [E|E].
  - assert (sound h a b) as Hsa by by apply (ct_sound (ct_core H)).
    assert (res s1 fp fr h) as Hres1.
    { apply (res_store _ _ _ _ _ b); [apply H|done|]. apply (sound_kept s h a b); [apply H|done]. }
    apply wp_step, (wp_release custom_free_function a b (put_ref (pb_ref b - 1) b) fp fr h); [done|by apply sound_home|by cbn; rewrite lookup_insert_eq|].
    intros h' s2 Hres2 Hsh Hcalm. assert (a ∉ links_of D) as Hal.
    { intros Hi%occ_pos. unfold holders in Hn. rewrite occ_app, occ_cons, decide_True in Hn by done. pose proof (occ_nonneg a refs). lia. }
    assert (a ∉ l.*1) as Hna.
    { intros Hi. destruct (chain_linked _ _ _ _ Hl Hi) as [Hi'|?]; [|done]. apply Hal. rewrite Hi'. apply list_elem_of_fmap. exists (a, b). split; [done|]. by apply elem_of_map_to_list. }
    apply (IH _ _ others refs (delete a D)).
    + exists (given 2 [(a, b)] fp), (given 1 [(a, b)] fr), h'. apply (count_remove others refs D a b (Buf (put_ref (pb_ref b - 1) b)) fp fr h h' s s2); (done || lia).
    + apply (pseg_agree (Buf <$> D)); [|done]. intros x Hx. rewrite !lookup_fmap, lookup_delete_ne by (by intros ->). done.
    + cbn in Hf. lia.
    + intros k D' s' Hc Hfew Hd. apply (HQ _ D'); [done|by eapply fewer_trans; [|apply fewer_delete]|]. by rewrite Hd, (cm_data _ _ _ _ Hcalm).
  - destruct fuel as [|fuel]; [cbn in Hf; lia|]. cbn [pbuf_free_loop]. change (0 =? 0) with true. apply wp_ret, (HQ _ (<[a := put_ref (pb_ref b - 1) b]> D)); [|by apply fewer_recount|done].
    exists fp, fr, h. apply (count_recount others (a :: refs)); [done|done|lia|]. intros x. rewrite holders_cons, occ_cons.
    destruct (decide (x = a)) as [->|Hne]; [rewrite decide_True by done|rewrite decide_False by congruence]; lia.
Qed.

(** pbuf_free of a reference the program has: it has one less, whatever becomes of the buffer. *)
Lemma wp_free_ref others refs D p s (Q : Z -> lwip -> Prop) :
  counted others (p :: refs) D s ->
  (forall k D' s', counted others refs D' s' -> fewer D' D -> lw_data s' = lw_data s -> Q k s') ->
  wp (pbuf_free custom_free_function PBUF_FUEL p) s Q.
Proof.
  intros Hc HQ. unfold pbuf_free. destruct (Z.eqb_spec p 0) as [->|Hp].
  - apply wp_ret, (HQ _ D); [|apply fewer_refl|done]. destruct Hc as (fp & fr & h & H). exists fp, fr, h. by apply count_null.
  - destruct Hc as (fp & fr & h & H). destruct (ct_live (ct_core H) p ltac:(by left) Hp) as [b Hb].
    destruct (ct_chain (ct_core H) p b Hb) as [l Hl]. apply (wp_free_counted l _ _ others refs D); [by exists fp, fr, h|done|by eapply count_length|done].
Qed.

(** pbuf_ref: one more. *)
Lemma wp_ref_counted others refs D p b s (Q : unit -> lwip -> Prop) :
  counted others refs D s -> p ∈ refs -> D !! p = Some b -> pb_ref b < 255 ->
  (forall s', counted others (p :: refs) (<[p := put_ref (pb_ref b + 1) b]> D) s' -> lw_data s' = lw_data s -> Q tt s') ->
  wp (pbuf_ref p) s Q.
Proof.
  intros (fp & fr & h & H) Hp Hb Hlt HQ. unfold pbuf_ref. pose proof (ct_sound (ct_core H) p b Hb) as Hsd.
  destruct (Z.eqb_spec p 0) as [->|]; [by destruct (sound_nonzero s h 0 b (rs_heap _ _ _ _ (ct_res H)) Hsd)|]. cbn [negb].
  apply (wp_pbuf_set _ _ b); [by apply (ct_cell (ct_core H))|]. apply HQ; [|done]. exists fp, fr, h.
  destruct (ct_count (ct_core H) p b Hb) as [_ ?]. apply (count_recount others refs); [done|done|lia|].
  intros x. rewrite holders_cons, occ_cons. destruct (decide (x = p)) as [->|]; [rewrite decide_True by done|rewrite decide_False by congruence]; lia.
Qed.


(** ** Allocation *)

(** Another state in which the buffers in use, and the memory they have, are the same. *)
Lemma core_frame refs D h h' s s' :
  count_core refs D h s ->
  (forall a b, D !! a = Some b -> lw_cells s' !! a = lw_cells s !! a) ->
  (forall x, kept h x -> lw_valid s' x = lw_valid s x) ->
  (forall a c, (a, c) ∈ regions 0 h -> (a, c) ∈ regions 0 h') ->
  count_core refs D h' s'.
Proof.
  intros [] Hc Hv Hr. split; try done.
  - intros t e x He Hx. rewrite Hv; [by eapply ct_static0|]. right. by eapply elem_room.
  - intros a b Ha. rewrite (Hc a b Ha). by apply ct_cell0.
  - intros a b Ha. destruct (ct_sound0 a b Ha) as [Hf Hl Hp]. split; [done|done|].
    destruct Hp as [?|[(E & c & Hi & Hd)|?]]; [by left| |by right; right]. right. left. split; [done|]. exists c. split; [by apply Hr|done].
  - intros a b x Ha Hx. rewrite Hv; [by eapply ct_data0|]. eapply sound_data; [by apply ct_sound0|done].
Qed.

(** A new buffer in front of a chain that the program refers to. *)
Lemma core_new refs D h s p b :
  heap_ok s h -> count_core (pb_next b :: refs) D h s -> D !! p = None ->
  lw_cells s !! p = Some (Buf b) -> sound h p b -> (forall x, x ∈ data_of b -> lw_valid s x = true) ->
  (forall c, D !! pb_next b = Some c -> 0 < pb_len c) ->
  pb_tot_len b = pb_len b + tot_at D (pb_next b) -> pb_tot_len b < 65536 -> pb_ref b = 1 ->
  count_core (p :: refs) (<[p := b]> D) h s.
Proof.
  intros Hok H Hp Hcell Hs Hv Hnext Ht Hlt Href. pose proof (sound_nonzero s h p b Hok Hs) as Hp0.
  pose proof (links_new D p b Hp) as Hlinks.
  assert (forall x, Permutation (holders (x :: refs) (<[p := b]> D)) (x :: holders (pb_next b :: refs) D)) as Hhold.
  { intros x. unfold holders. rewrite Hlinks. cbn [app]. by rewrite <- Permutation_middle. }
  assert (p ∉ holders (pb_next b :: refs) D) as Hout.
  { intros Hi. destruct (ct_live H p Hi Hp0). congruence. }
  assert (p ∉ links_of D) as Hpl by (intros Hi; apply Hout; unfold holders; apply elem_of_app; by right).
  assert (pb_next b <> p) as Hne by (intros E; apply Hout; rewrite E; by left).
  assert (forall x c, <[p := b]> D !! x = Some c -> x = p /\ c = b \/ x <> p /\ D !! x = Some c) as Hback.
  { intros x c Hx. destruct (decide (x = p)) as [->|]; [rewrite lookup_insert_eq in Hx; injection Hx as ->; by left|].
    rewrite lookup_insert_ne in Hx by done. by right. }
  assert (forall x, x <> p -> tot_at (<[p := b]> D) x = tot_at D x) as Htot by (intros x Hx; unfold tot_at; by rewrite lookup_insert_ne).
  destruct H. split.
  - done.
  - intros x c [[-> ->]|[_ Hx]]%Hback; [done|by apply ct_cell0].
  - intros x c [[-> ->]|[_ Hx]]%Hback; [done|by apply ct_sound0].
  - intros x c y [[-> ->]|[_ Hx]]%Hback Hy; [by apply Hv|by eapply ct_data0].
  - intros x c [[-> ->]|[_ Hx]]%Hback.
    + assert (exists l, chain D (pb_next b) l) as [l Hl].
      { destruct (Z.eq_dec (pb_next b) 0) as [->|Hn0]; [by exists []|]. destruct (ct_live0 (pb_next b)) as [c Hc]; [by left|done|].
        by apply (ct_chain0 _ c). }
      exists ((p, b) :: l). split; [done|]. split; [done|]. split; [by rewrite lookup_fmap, lookup_insert_eq|]. by apply chain_new.
    + destruct (ct_chain0 x c Hx) as [l Hl]. exists l. by apply chain_new.
  - intros x c [[-> ->]|[_ Hx]]%Hback.
    + by rewrite Htot.
    + destruct (ct_total0 x c Hx) as [Ht' ?]. rewrite Htot; [done|]. intros E. apply Hpl. rewrite <- E.
      apply list_elem_of_fmap. exists (x, c). split; [done|]. by apply elem_of_map_to_list.
  - intros x c Hx Hi. rewrite Hlinks in Hi. apply elem_of_cons in Hi as [->|Hi].
    + apply Hback in Hx as [[? _]|[_ Hx]]; [done|by apply Hnext].
    + apply Hback in Hx as [[-> _]|[_ Hx]]; [done|by apply (ct_solid0 x)].
  - intros x Hx Hx0. rewrite Hhold in Hx. apply elem_of_cons in Hx as [->|Hx]; [rewrite lookup_insert_eq; by eexists|].
    rewrite lookup_insert_ne by (by intros ->). by apply ct_live0.
  - intros x c Hx. rewrite (occ_perm x _ _ (Hhold p)), occ_cons. apply Hback in Hx as [[-> ->]|[Hne' Hx]].
    + rewrite decide_True by done. rewrite Href. assert (occ p (holders (pb_next b :: refs) D) = 0) as ->; [|lia].
      destruct (Z.eq_dec (occ p (holders (pb_next b :: refs) D)) 0) as [|Hn]; [done|]. exfalso. apply Hout, occ_pos.
      pose proof (occ_nonneg p (holders (pb_next b :: refs) D)). lia.
    + rewrite decide_False by congruence. by apply ct_count0.
Qed.

(** A block that the heap hands out is no buffer yet. *)
Lemma new_block_free D refs h h' s s' p c : count_core refs D h s -> heap_ok s' h' -> Permutation (regions 0 h') ((p, c) :: regions 0 h) -> D !! p = None.
Proof.
  intros H Hok' Hperm. destruct (D !! p) as [b|] eqn:Hp; [|done]. exfalso.
  assert ((p, c) ∈ regions 0 h') as Hi by (rewrite Hperm; by left). pose proof (region_range s' h' p c Hok' Hi).
  destruct (ct_sound H p b Hp) as [_ _ [(_ & He & _)|[(_ & c' & Hi' & _)|(_ & He & _)]]].
  - apply elems_outside in He. lia.
  - assert ((p, c') ∈ regions 0 h') as Hi2 by (rewrite Hperm; by right). pose proof (region_range s' h' p c' Hok' Hi2).
    refine (regions_disjoint s' h' p c p Hok' _ Hperm _ p c' Hi' _); lia.
  - apply elems_outside in He. lia.
Qed.


(** A new buffer in the heap. *)
Lemma count_ram others refs D fp fr h h' s s' p c layer n b :
  count_at others refs D fp fr h s -> ram_buffer p c layer n b -> 0 <= layer -> 0 <= n < 65536 -> lw_cells s' !! p = Some (Buf b) -> res s' fp fr h' ->
  Permutation (regions 0 h') ((p, c) :: regions 0 h) ->
  (forall x, kept h x -> lw_cells s' !! x = lw_cells s !! x /\ lw_valid s' x = lw_valid s x) ->
  D !! p = None /\ count_at others (p :: refs) (<[p := b]> D) fp fr h' s'.
Proof.
  intros [Hcore Hres Hpool Hrom Hheap] [Hn Hl Ht Hty Hfl Href Hlo Hhi] Hlayer Hlen Hcell Hres' Hperm Hkeep.
  pose proof (rs_heap _ _ _ _ Hres') as Hok'. assert ((p, c) ∈ regions 0 h') as Hpc by (rewrite Hperm; by left).
  pose proof (new_block_free D refs h h' s s' p c Hcore Hok' Hperm) as Hp. split; [done|].
  assert (from 0 (p, b) = true /\ from 1 (p, b) = false /\ from 2 (p, b) = false) as (F0 & F1 & F2).
  { unfold from, pbuf_get_allocsrc. cbn [snd]. by rewrite Hty. }
  split; [| done | rewrite (lent_new 2 D p b Hp), F2; done | rewrite (lent_new 1 D p b Hp), F1; done |].
  - apply core_new; try done.
    + rewrite Hn. apply (core_null refs D h' s' Hok'). apply (core_frame refs D h h' s s'); [done| |by intros; apply Hkeep|intros; rewrite Hperm; by right].
      intros a d Ha. apply Hkeep, (sound_kept s h a d); [apply Hres|by apply (ct_sound Hcore)].
    + split; [by rewrite Hfl|lia|]. right. left. split; [done|]. exists c. split; [done|]. change SIZEOF_STRUCT_PBUF with 16. lia.
    + intros x Hx%elem_data. apply (hk_valid _ _ Hok'), payload_regions. exists p, c. split; [done|lia].
    + rewrite Hn. intros d Hd. destruct (sound_nonzero s h 0 d); [apply Hres|by apply (ct_sound Hcore)|done].
    + rewrite Ht, Hl, Hn. unfold tot_at. destruct (D !! 0) as [d|] eqn:E; [|lia].
      destruct (sound_nonzero s h 0 d); [apply Hres|by apply (ct_sound Hcore)|done].
    + rewrite Ht. lia.
  - rewrite Hperm, fmap_cons, Hheap, (lent_new 0 D p b Hp), F0. cbn [fst app]. by rewrite Permutation_middle.
Qed.

(** The bytes of the buffers in use are the same. *)
Definition same_data D s s' : Prop := forall a b x, D !! a = Some b -> x ∈ data_of b -> lw_data s' x = lw_data s x.

Lemma wp_alloc_ram_counted others refs D layer n s (Q : Z -> lwip -> Prop) :
  counted others refs D s -> 0 <= layer <= 54 -> 0 <= n < 65536 ->
  (no_memory layer n s -> Q 0 s) ->
  (forall p c b s', p <> 0 -> ram_buffer p c layer n b -> D !! p = None -> counted others (p :: refs) (<[p := b]> D) s' -> lw_data s' = lw_data s -> Q p s') ->
  wp (pbuf_alloc custom_free_function PBUF_FUEL layer n PBUF_RAM) s Q.
Proof.
  intros (fp & fr & h & H) Hlayer Hn H0 H1. apply (wp_pbuf_alloc_ram custom_free_function PBUF_FUEL layer n fp fr h s); [apply H|done|done|intros E; by apply H0, (no_memory_at layer n s h (rs_heap _ _ _ _ (ct_res H)))|].
  intros _ _ p c b h' s' Hrb Hcell Hp0 Hres' Hperm [sc sv sd].
  destruct (count_ram others refs D fp fr h h' s s' p c layer n b) as [Hp Hc]; try done; [lia|by intros; split; auto|].
  eapply H1; [done|done|done|by exists fp, fr, h'|done].
Qed.

(** pbuf_clone: NULL, or a buffer of its own with the same bytes. *)
Lemma wp_clone_counted others refs D layer l p s (Q : Z -> lwip -> Prop) :
  counted others refs D s -> chain D p l -> l <> [] -> 0 <= layer <= 54 ->
  (no_memory layer (sum_len l) s -> Q 0 s) ->
  (forall q c b s', q <> 0 -> ram_buffer q c layer (sum_len l) b -> D !! q = None -> counted others (q :: refs) (<[q := b]> D) s' ->
     contents s' [(q, b)] = contents s l -> same_data D s s' -> Q q s') ->
  wp (pbuf_clone custom_free_function PBUF_FUEL layer PBUF_RAM p) s Q.
Proof.
  intros (fp & fr & h & H) Hl Hne Hlayer H0 H1. pose proof (count_held _ _ _ _ _ _ _ _ _ H Hl Hne) as Hheld.
  rewrite (pseg_first _ _ _ _ (count_pseg _ _ _ _ _ _ _ _ _ H Hl)). pose proof (count_packet _ _ _ _ _ _ _ H _ _ Hl) as [Hpk _].
  apply (wp_clone_ram custom_free_function l PBUF_FUEL layer fp fr h s); [apply H|done|done|by eapply count_length|intros E; by apply H0, (no_memory_at layer (sum_len l) s h (rs_heap _ _ _ _ (ct_res H)))|].
  intros _ _ q c b h' s' Hrb Hcell Hp0 _ Hres' Hperm Hcont Hk.
  assert (0 <= sum_len l < 65536) as Hs.
  { destruct l as [|[a d] l]; [done|]. pose proof (sum_len_nonneg _ Hpk). destruct Hpk as (? & ? & ? & _). cbn [sum_len] in *. lia. }
  destruct (count_ram others refs D fp fr h h' s s' q c layer (sum_len l) b) as [Hp Hc]; try done; [lia|by intros x Hx; destruct (Hk x Hx) as (? & ? & _)|].
  eapply H1; [done|done|done|by exists fp, fr, h'|done|]. intros a d x Ha Hx. apply Hk. by apply (sound_data h a d); [apply (ct_sound (ct_core H))|].
Qed.

(** A fresh chain of the pool. *)
Lemma core_chain refs D h s l : heap_ok s h ->
  (forall a, a ∈ l.*1 -> D !! a = None) -> NoDup l.*1 -> packet l -> Forall PbufAlloc.fresh l -> Forall within l -> Forall (fun x => 0 < pb_len (snd x)) (tail l) ->
  forall p, pseg (lw_cells s) p l 0 -> count_core refs D h s -> count_core (p :: refs) (list_to_map l ∪ D) h s.
Proof.
  intros Hok. induction l as [|[a b] l IH]; intros Hout Hnd Hpk Hf Hw Hpos p Hl Hcore.
  - cbn in Hl. subst p. apply (core_null refs _ h s Hok). change (list_to_map [] ∪ D) with (∅ ∪ D). by rewrite (left_id_L ∅ (∪)).
  - destruct Hl as (-> & Ha0 & Ha & Hl). cbn [tail] in Hpos. pose proof (pseg_first _ _ _ _ Hl) as Hfirst. apply NoDup_cons in Hnd as [Hna Hnd].
    apply Forall_cons in Hf as [(Hp & Hty & Hfl & Href) Hf]. apply Forall_cons in Hw as [Hw Hwl]. apply packet_cons in Hpk as (Hb & Htot & Hlt & Hs0 & Hpk). cbn [fst snd] in *.
    assert (Forall (fun x => 0 < pb_len (snd x)) (tail l)) as Hpos' by (destruct Hpos; [constructor|done]).
    assert (forall x c, (x, c) ∈ l -> list_to_map l !! x = Some c) as Hlook by (intros x c Hi; by apply elem_of_list_to_map).
    assert (tot_at (list_to_map l ∪ D) (pb_next b) = sum_len l) as Htl.
    { rewrite Hfirst. unfold tot_at. destruct l as [|[x c] l]; cbn [first_of].
      - change (list_to_map [] ∪ D) with (∅ ∪ D). rewrite (left_id_L ∅ (∪)). destruct (D !! 0) as [d|] eqn:E; [|done].
        destruct (sound_nonzero s h 0 d); [done|by apply (ct_sound Hcore)|done].
      - rewrite (lookup_union_Some_l _ _ _ c); [apply packet_cons in Hpk; cbn [sum_len]; lia|by apply Hlook; left]. }
    change (list_to_map ((a, b) :: l) ∪ D) with (<[a := b]> (list_to_map l) ∪ D). rewrite <- insert_union_l.
    apply core_new; try done.
    + apply IH; try done. intros x Hx. apply Hout. by right.
    + apply lookup_union_None. split; [by apply not_elem_of_list_to_map|]. apply Hout. by left.
    + split; [by rewrite Hfl|lia|]. left. by rewrite Hty.
    + intros x Hx%elem_data. apply (ct_static Hcore MEMP_PBUF_POOL a); [done|]. unfold within in Hw. cbn [fst snd] in Hw. change SIZEOF_STRUCT_PBUF with 16 in Hw. lia.
    + rewrite Hfirst. intros c Hc. destruct l as [|[x d] l]; cbn [first_of] in *.
      * change (list_to_map [] ∪ D) with (∅ ∪ D) in Hc. rewrite (left_id_L ∅ (∪)) in Hc.
        destruct (sound_nonzero s h 0 c); [done|by apply (ct_sound Hcore)|done].
      * rewrite (lookup_union_Some_l _ _ _ d) in Hc by (by apply Hlook; left). injection Hc as <-. by apply Forall_cons in Hpos as [? _].
    + by rewrite Htl.
Qed.


Lemma fresh_from (x : Z * pbuf) k : PbufAlloc.fresh x -> from k x = (2 =? k).
Proof. intros (_ & Ht & _). unfold from, pbuf_get_allocsrc. by rewrite Ht. Qed.

Lemma lent_chain k D l : (forall a, a ∈ l.*1 -> D !! a = None) -> NoDup l.*1 -> Forall PbufAlloc.fresh l ->
  Permutation (lent k (list_to_map l ∪ D)) ((if 2 =? k then l.*1 else []) ++ lent k D).
Proof.
  induction l as [|[a b] l IH]; intros Hout Hnd Hf.
  - change (list_to_map [] ∪ D) with (∅ ∪ D). rewrite (left_id_L ∅ (∪)). by destruct (2 =? k).
  - apply NoDup_cons in Hnd as [Hna Hnd]. apply Forall_cons in Hf as [Hfa Hf].
    change (list_to_map ((a, b) :: l) ∪ D) with (<[a := b]> (list_to_map l) ∪ D). rewrite <- insert_union_l.
    rewrite lent_new; [|apply lookup_union_None; split; [by apply not_elem_of_list_to_map|apply Hout; by left]].
    rewrite (fresh_from _ k Hfa), IH; [|by intros x Hx; apply Hout; right|done|done]. destruct (2 =? k); [|done]. rewrite fmap_cons. done.
Qed.

(** A buffer in use is no free element, and none for messages. *)
Lemma count_outside others refs D fp fr h s a b t :
  count_at others refs D fp fr h s -> D !! a = Some b -> (a ∉ fp) /\ (a ∈ memp_elems t -> t = MEMP_PBUF_POOL \/ t = MEMP_PBUF).
Proof.
  intros H Ha. pose proof (ct_sound (ct_core H) a b Ha) as [_ _ Hp].
  assert (forall t', a ∈ memp_elems t' -> (exists c, (a, c) ∈ regions 0 h) -> False) as Hheap.
  { intros t' Hi (c & Hc). apply elems_outside in Hi. apply (region_range s) in Hc; [lia|apply H]. }
  split.
  - intros Hi. pose proof (rs_pool_in _ _ _ _ (ct_res H) a Hi) as He. pose proof (elems_nodup MEMP_PBUF_POOL) as Hnd.
    rewrite (ct_pool _ _ _ _ _ _ _ H) in Hnd. apply NoDup_app in Hnd as (_ & Hnd & _). apply (Hnd a Hi), elem_lent.
    exists b. split; [done|]. unfold from, pbuf_get_allocsrc. cbn [snd].
    destruct Hp as [(-> & _)|[(_ & c & Hc & _)|(_ & He' & _)]]; [done| |by pose proof (elems_apart _ _ _ He He')].
    exfalso. by apply (Hheap MEMP_PBUF_POOL He); exists c.
  - intros Hi. destruct Hp as [(_ & He & _)|[(_ & c & Hc & _)|(_ & He & _)]].
    + left. by apply (elems_apart _ _ a).
    + exfalso. by apply (Hheap t Hi); exists c.
    + right. by apply (elems_apart _ _ a).
Qed.

(** A packet of the pool, or NULL. *)
Lemma wp_alloc_pool_counted others refs D layer n s (Q : Z -> lwip -> Prop) :
  counted others refs D s -> 0 <= layer <= 54 -> 0 <= n < 65536 ->
  (forall s', counted others refs D s' -> lw_data s' = lw_data s -> Q 0 s') ->
  (forall l p s', p <> 0 -> (forall a, a ∈ l.*1 -> D !! a = None) -> Forall PbufAlloc.fresh l -> sum_len l = n ->
     chain (list_to_map l ∪ D) p l -> counted others (p :: refs) (list_to_map l ∪ D) s' -> lw_data s' = lw_data s -> Q p s') ->
  wp (pbuf_alloc custom_free_function PBUF_FUEL layer n PBUF_POOL) s Q.
Proof.
  intros (fp & fr & h & H) Hlayer Hn H0 H1. assert (length fp < PBUF_FUEL)%nat as Hfuel.
  { pose proof (Permutation_length (ct_pool _ _ _ _ _ _ _ H)) as E. rewrite length_app in E. unfold memp_elems in E. rewrite length_fmap in E.
    change (length (zrange 0 (Z.to_nat (memp_num MEMP_PBUF_POOL)))) with 16%nat in E. unfold PBUF_FUEL. lia. }
  eapply wp_mono; [apply (wp_pbuf_alloc_pool custom_free_function PBUF_FUEL layer n fp fr h s); [apply H|done..]|].
  intros p s' [Hpost [mc mv md]].
  assert (count_core refs D h s') as Hcore.
  { apply (core_frame refs D h h s); [apply H| |done|done]. intros a b Ha. destruct (count_outside _ _ _ _ _ _ _ a b MEMP_TCPIP_MSG_API H Ha) as [Hf Hm].
    apply mc; [intros [?|Hi]; [done|by destruct (Hm Hi)]|]. apply (sound_kept s h a b); [apply H|by apply (ct_sound (ct_core H))]. }
  unfold pool_alloc_post in Hpost. destruct (Nat.leb_spec (pool_need n layer) (length fp)).
  - destruct Hpost as (l & -> & Hl & Hp0 & Hpk & Hsum & Efst & Hf & Hw & Hfill & Hres').
    assert (forall a, a ∈ l.*1 -> D !! a = None) as Hout.
    { intros a Ha. destruct (D !! a) as [b|] eqn:E; [|done]. destruct (count_outside _ _ _ _ _ _ _ a b MEMP_PBUF H E) as [Hnf _]. exfalso. apply Hnf.
      rewrite Efst in Ha. rewrite <- (take_drop (pool_need n layer) fp). apply elem_of_app. by left. }
    pose proof (pseg_nodup _ _ _ Hl) as Hnd.
    pose proof (core_chain refs D h s' l (rs_heap _ _ _ _ Hres') Hout Hnd Hpk Hf Hw Hfill _ Hl Hcore) as Hcore'.
    apply (H1 l); try done.
    + apply (pseg_agree (lw_cells s')); [|done]. intros a (b & Hi)%elem_of_fst. rewrite (proj2 (pseg_lookup _ _ _ _ _ _ Hl Hi)), lookup_fmap.
      rewrite (lookup_union_Some_l _ _ _ b); [done|by apply elem_of_list_to_map].
    + exists (drop (pool_need n layer) fp), fr, h. split; [done|done|..]; rewrite lent_chain by done; cbn [Z.eqb].
      * rewrite (ct_pool _ _ _ _ _ _ _ H), Efst, app_assoc. change (2 =? 2) with true. cbn iota.
        rewrite <- (take_drop (pool_need n layer) fp) at 1. by rewrite (Permutation_app_comm (take _ _) (drop _ _)).
      * apply H.
      * apply H.
  - destruct Hpost as [-> Hres']. apply H0; [|done]. exists (reverse fp), fr, h. split; try apply H; try done. rewrite reverse_Permutation. apply H.
Qed.


(** ** Headers *)

(** Space for a header is taken from, or given to, the data of a buffer that no other one
    links to. *)
Lemma count_reshape others refs D fp fr h s a b b' :
  count_at others refs D fp fr h s -> D !! a = Some b -> a ∉ links_of D ->
  pb_next b' = pb_next b -> pb_type b' = pb_type b -> pb_ref b' = pb_ref b ->
  pb_tot_len b' - pb_len b' = pb_tot_len b - pb_len b -> pb_tot_len b' < 65536 -> sound h a b' ->
  (forall x, x ∈ data_of b' -> lw_valid s x = true) ->
  count_at others refs (<[a := b']> D) fp fr h (with_cells (insert a (Buf b')) s).
Proof.
  intros H Ha Hal Hn Hty Hr Htl Hlt Hs Hv. pose proof (ct_sound (ct_core H) a b Ha) as Hsa. pose proof (ct_cell (ct_core H) a b Ha) as Hca.
  assert (forall x c, <[a := b']> D !! x = Some c -> x = a /\ c = b' \/ x <> a /\ D !! x = Some c) as Hback.
  { intros x c Hx. destruct (decide (x = a)) as [->|]; [rewrite lookup_insert_eq in Hx; injection Hx as ->; by left|].
    rewrite lookup_insert_ne in Hx by done. by right. }
  assert (Permutation (links_of (<[a := b']> D)) (links_of D)) as Hlinks by by rewrite (links_update D a b b' Ha), (links_delete D a b Ha), Hn.
  assert (forall x, x ∈ links_of D -> tot_at (<[a := b']> D) x = tot_at D x) as Htot.
  { intros x Hx. unfold tot_at. rewrite lookup_insert_ne; [done|]. by intros ->. }
  assert (forall x c, D !! x = Some c -> pb_next c ∈ links_of D) as Hin.
  { intros x c Hx. apply list_elem_of_fmap. exists (x, c). split; [done|]. by apply elem_of_map_to_list. }
  destruct H as [[] ? ? ? ?]. split; [split|..].
  - done.
  - intros x c [[-> ->]|[Hx Hc]]%Hback; cbn; [by rewrite lookup_insert_eq|]. rewrite lookup_insert_ne by done. by apply ct_cell0.
  - intros x c [[-> ->]|[_ Hc]]%Hback; [done|by apply ct_sound0].
  - intros x c y [[-> ->]|[_ Hc]]%Hback Hy; [by apply Hv|by eapply ct_data0].
  - intros x c Hx. assert (exists c0, D !! x = Some c0) as [c0 Hx0] by (apply Hback in Hx as [[-> _]|[_ Hc]]; [by exists b|by exists c]).
    destruct (ct_chain0 x c0 Hx0) as [l Hl]. exists (with_buf a b' l). by apply (chain_update D x l a b).
  - intros x c [[-> ->]|[_ Hc]]%Hback.
    + rewrite Hn, Htot by (by eapply Hin). destruct (ct_total0 a b Ha). split; lia.
    + rewrite Htot by (by eapply Hin). by apply (ct_total0 x).
  - intros x c [[-> ->]|[_ Hc]]%Hback; rewrite Hlinks; [done|by apply ct_solid0].
  - intros x Hx Hx0. unfold holders in Hx. rewrite Hlinks in Hx. destruct (decide (x = a)) as [->|Hne]; [rewrite lookup_insert_eq; by eexists|].
    rewrite lookup_insert_ne by done. by apply ct_live0.
  - intros x c Hx. unfold holders. rewrite (occ_perm x _ (refs ++ links_of D)) by by rewrite Hlinks.
    apply Hback in Hx as [[-> ->]|[_ Hc]]; [rewrite Hr|]; by apply ct_count0.
  - apply (res_store _ _ _ _ _ b); [done|done|]. apply (sound_kept s h a b); [apply ct_res0|done].
  - by rewrite (lent_update 2 D a b b' Ha Hty).
  - by rewrite (lent_update 1 D a b b' Ha Hty).
  - by rewrite (lent_update 0 D a b b' Ha Hty).
Qed.

(** Bytes do not count. *)
Lemma count_data others refs D fp fr h s d : count_at others refs D fp fr h s -> count_at others refs D fp fr h (with_data d s).
Proof. intros [[] Hres ? ? ?]. split; try done. by apply res_data. Qed.

(** ** Nothing is lost *)

(** The memory after mem_init and memp_init. *)
Lemma wp_refs_init s (Q : unit -> lwip -> Prop) :
  (forall t e x, e ∈ memp_elems t -> e <= x < e + memp_size t -> lw_valid s x = true) ->
  (forall s', counted [] [] ∅ s' -> Q tt s') -> wp (mem_init ;; memp_init) s Q.
Proof.
  intros Hv HQ. apply wp_memory_init. intros s' Hres Hvalid. apply HQ. exists (reverse (memp_elems MEMP_PBUF_POOL)), (reverse (memp_elems MEMP_PBUF)), [(4096, false)].
  assert (forall k, lent k ∅ = []) as Hl by (intros k; unfold lent; by rewrite map_to_list_empty).
  split; [|done|by rewrite Hl, app_nil_r, reverse_Permutation..|by rewrite Hl].
  split; try (intros a b Ha; by rewrite lookup_empty in Ha); try (intros a b x Ha; by rewrite lookup_empty in Ha).
  { intros t e x. rewrite Hvalid. apply Hv. }
  intros a Ha. unfold holders, links_of in Ha. rewrite map_to_list_empty in Ha. by apply elem_of_nil in Ha.
Qed.

(** When nothing is in use, all memory can be allocated again. *)
Lemma count_nothing refs D fp fr h s : count_at [] refs D fp fr h s -> Forall (fun p => p = 0) refs ->
  Permutation (memp_elems MEMP_PBUF_POOL) fp /\ Permutation (memp_elems MEMP_PBUF) fr /\ h = [(4096, false)].
Proof.
  intros H Hrefs. assert (D = ∅) as ->.
  { destruct (decide (D = ∅)) as [|Hne]; [done|]. exfalso. apply map_choose in Hne as (a0 & b0 & Ha0).
    assert (forall n, exists a b l, D !! a = Some b /\ chain D a ((a, b) :: l) /\ (n <= length l)%nat) as Hlong.
    { induction n as [|n (a & b & l & Ha & Hl & Hn)].
      - destruct (count_chain _ _ _ _ _ _ _ _ _ H Ha0) as (l & Hl & _). exists a0, b0, l. split; [done|]. split; [done|lia].
      - destruct (ct_count (ct_core H) a b Ha) as [Hc Hc1]. rewrite Hc in Hc1. unfold holders in Hc1. rewrite occ_app in Hc1.
        assert (occ a refs = 0) as Hr.
        { destruct (Z.eq_dec (occ a refs) 0) as [|Hn0]; [done|]. assert (a ∈ refs) as Hi by (apply occ_pos; pose proof (occ_nonneg a refs); lia).
          rewrite Forall_forall in Hrefs. pose proof (Hrefs a Hi) as ->. by destruct Hl as (_ & ? & _). }
        assert (a ∈ links_of D) as Hi by (apply occ_pos; lia). apply list_elem_of_fmap in Hi as ([x c] & -> & Hx%elem_of_map_to_list).
        destruct (count_chain _ _ _ _ _ _ _ _ _ H Hx) as (lx & Hlx & Hlx'). exists x, c, lx. split; [done|]. split; [done|].
        cbn [snd] in Hl. rewrite (chain_det _ _ _ _ Hlx' Hl). cbn [length]. lia. }
    destruct (Hlong PBUF_FUEL) as (a & b & l & _ & Hl & Hn). pose proof (count_length _ _ _ _ _ _ _ _ _ H Hl) as Hb. cbn [length] in Hb. lia. }
  destruct H as [_ Hres Hp Hr Hh]. unfold lent in *. rewrite map_to_list_empty in *. rewrite app_nil_r in Hp, Hr. split; [done|]. split; [done|].
  destruct (rs_heap _ _ _ _ Hres) as [[pe Ht] _ Hholes _ _]. apply Permutation_nil_r, fmap_nil_inv in Hh. pose proof (all_free h Hholes Hh) as Hall.
  destruct h as [|[k []] [|? ?]]; try done; [by destruct Ht|..|cbn in Hall; lia]. apply tiles_end in Ht. cbn in Ht. change MEM_SIZE_ALIGNED with 4096 in Ht.
  replace k with 4096 by lia. done.
Qed.

(** A program that uses packet buffers, with the references it has: it drops only what it
    has, copies only what it has, and stores only bytes. *)
Inductive refs_run : lwip -> list Z -> Prop :=
| refs_init s s' : (forall t e x, e ∈ memp_elems t -> e <= x < e + memp_size t -> lw_valid s x = true) ->
    bind mem_init (fun _ => memp_init) s = Ret tt s' -> refs_run s' []
| refs_alloc s refs layer n type p s' : refs_run s refs -> 0 <= layer <= 54 -> 0 <= n < 65536 -> type = PBUF_RAM \/ type = PBUF_POOL ->
    pbuf_alloc custom_free_function PBUF_FUEL layer n type s = Ret p s' -> refs_run s' (p :: refs)
| refs_free s p refs n s' : refs_run s (p :: refs) -> pbuf_free custom_free_function PBUF_FUEL p s = Ret n s' -> refs_run s' refs
| refs_ref s p refs b s' : refs_run s refs -> p ∈ refs -> lw_cells s !! p = Some (Buf b) -> pb_ref b < 255 ->
    pbuf_ref p s = Ret tt s' -> refs_run s' (p :: refs)
| refs_clone s p refs layer q s' : refs_run s refs -> p ∈ refs -> p <> 0 -> 0 <= layer <= 54 ->
    pbuf_clone custom_free_function PBUF_FUEL layer PBUF_RAM p s = Ret q s' -> refs_run s' (q :: refs)
| refs_store s refs d : refs_run s refs -> refs_run (with_data d s) refs
| refs_swap s refs refs' : refs_run s refs -> Permutation refs refs' -> refs_run s refs'.

Lemma ref_chain others refs D s p : counted others refs D s -> p ∈ refs -> p <> 0 ->
  exists b l, D !! p = Some b /\ lw_cells s !! p = Some (Buf b) /\ chain D p ((p, b) :: l).
Proof.
  intros (fp & fr & h & H) Hp Hp0. destruct (ct_live (ct_core H) p) as [b Hb]; [unfold holders; apply elem_of_app; by left|done|].
  destruct (count_chain _ _ _ _ _ _ _ _ _ H Hb) as (l & Hl & _). exists b, l. split; [done|]. split; [by apply (ct_cell (ct_core H))|done].
Qed.

Lemma refs_run_counted s refs : refs_run s refs -> exists D, counted [] refs D s.
Proof.
  induction 1 as [s s' Hv E|s refs layer n type p s' _ [D Hc] Hlayer Hn Hty E|s p refs n s' _ [D Hc] E|s p refs b s' _ [D Hc] Hp Hb Hr E
                 |s p refs layer q s' _ [D Hc] Hp Hp0 Hlayer E|s refs d _ [D Hc]|s refs refs' _ [D Hc] Hperm].
  - assert (wp (mem_init ;; memp_init) s (fun _ s' => exists D, counted [] [] D s')) as H by (apply wp_refs_init; [done|intros s2 ?; by exists ∅]).
    by apply (wp_run _ _ _ _ _ H E).
  - assert (wp (pbuf_alloc custom_free_function PBUF_FUEL layer n type) s (fun p s' => exists D, counted [] (p :: refs) D s')) as H; [|by apply (wp_run _ _ _ _ _ H E)].
    destruct Hty as [-> | ->].
    + apply (wp_alloc_ram_counted [] refs D); [done|done|done|intros _|intros ? ? b' s2 _ _ _ Hc' _; by eexists].
      exists D. destruct Hc as (fp & fr & h & Hc). exists fp, fr, h. by apply count_null.
    + apply (wp_alloc_pool_counted [] refs D); [done|done|done| |intros l q s2 _ _ _ _ _ Hc' _; by eexists].
      intros s2 (fp & fr & h & Hc') _. exists D, fp, fr, h. by apply count_null.
  - assert (wp (pbuf_free custom_free_function PBUF_FUEL p) s (fun _ s' => exists D, counted [] refs D s')) as H; [|by apply (wp_run _ _ _ _ _ H E)].
    apply (wp_free_ref [] refs D); [done|]. intros k D' s2 Hc' _ _. by exists D'.
  - assert (wp (pbuf_ref p) s (fun _ s' => exists D, counted [] (p :: refs) D s')) as H; [|by apply (wp_run _ _ _ _ _ H E)].
    assert (p <> 0 -> D !! p = Some b) as HD by (intros Hp0; destruct (ref_chain _ _ _ _ _ Hc Hp Hp0) as (b' & l & ? & ? & _); congruence).
    destruct (Z.eq_dec p 0) as [->|Hp0].
    + exists D. destruct Hc as (fp & fr & h & Hc). exists fp, fr, h. by apply count_null.
    + apply (wp_ref_counted [] refs D p b); [done|done|by apply HD|done|]. intros s2 Hc' _. by eexists.
  - assert (wp (pbuf_clone custom_free_function PBUF_FUEL layer PBUF_RAM p) s (fun q s' => exists D, counted [] (q :: refs) D s')) as H; [|by apply (wp_run _ _ _ _ _ H E)].
    destruct (ref_chain _ _ _ _ _ Hc Hp Hp0) as (b & l & _ & _ & Hl).
    apply (wp_clone_counted [] refs D layer ((p, b) :: l)); [done|done|done|done|intros _|intros q' c b' s2 _ _ _ Hc' _ _; by eexists].
    exists D. destruct Hc as (fp & fr & h & Hc). exists fp, fr, h. by apply count_null.
  - exists D. destruct Hc as (fp & fr & h & Hc). exists fp, fr, h. by apply count_data.
  - exists D. destruct Hc as (fp & fr & h & Hc). exists fp, fr, h. by apply (count_perm [] refs).
Qed.

(** C17: packet buffers are not used after they are given back, and none is lost: in every run of a
    program that drops only references it has, each of its references is to a packet that
    is in memory, bytes included, and whose first buffer counts at least this reference;
    dropping, copying and allocating always return; and when it has dropped all
    references, every element of the pools is free and the heap is one free block. *)
Theorem pbuf_refs_exact s refs : refs_run s refs ->
  (forall p, p ∈ refs -> p <> 0 -> exists b l, pseg (lw_cells s) p ((p, b) :: l) 0 /\ packet ((p, b) :: l) /\ owned s ((p, b) :: l) /\
     occ p refs <= pb_ref b < 256) /\
  (forall p refs', Permutation refs (p :: refs') -> exists n s', pbuf_free custom_free_function PBUF_FUEL p s = Ret n s') /\
  (forall p layer, p ∈ refs -> p <> 0 -> 0 <= layer <= 54 -> exists q s', pbuf_clone custom_free_function PBUF_FUEL layer PBUF_RAM p s = Ret q s') /\
  (forall layer n type, 0 <= layer <= 54 -> 0 <= n < 65536 -> type = PBUF_RAM \/ type = PBUF_POOL ->
     exists p s', pbuf_alloc custom_free_function PBUF_FUEL layer n type s = Ret p s') /\
  (Forall (fun p => p = 0) refs -> exists fp fr, res s fp fr [(4096, false)] /\
     Permutation (memp_elems MEMP_PBUF_POOL) fp /\ Permutation (memp_elems MEMP_PBUF) fr).
Proof.
  intros Hrun. destruct (refs_run_counted s refs Hrun) as [D Hc]. split; [|split; [|split; [|split]]].
  - intros p Hp Hp0. destruct (ref_chain _ _ _ _ _ Hc Hp Hp0) as (b & l & Hb & _ & Hl). exists b, l. destruct Hc as (fp & fr & h & H).
    pose proof (count_held _ _ _ _ _ _ _ _ _ H Hl ltac:(done)) as [[Hs Hpk _ _] _ Ho _ _]. split; [done|]. split; [done|]. split; [done|].
    destruct (ct_count (ct_core H) p b Hb) as [Hn ?]. unfold holders in Hn. rewrite occ_app in Hn. pose proof (occ_nonneg p (links_of D)). lia.
  - intros p refs' Hp. apply wp_returns, (wp_free_ref [] refs' D); [|done]. destruct Hc as (fp & fr & h & H). exists fp, fr, h. by apply (count_perm [] refs).
  - intros p layer Hp Hp0 Hlayer. destruct (ref_chain _ _ _ _ _ Hc Hp Hp0) as (b & l & _ & _ & Hl).
    by apply wp_returns, (wp_clone_counted [] refs D layer ((p, b) :: l)).
  - intros layer n type Hlayer Hn [-> | ->]; apply wp_returns; [by apply (wp_alloc_ram_counted [] refs D)|by apply (wp_alloc_pool_counted [] refs D)].
  - intros Hrefs. destruct Hc as (fp & fr & h & H). destruct (count_nothing _ _ _ _ _ _ H Hrefs) as (Hp & Hr & ->). exists fp, fr. split; [apply H|done].
Qed.
End refs.

Arguments ct_static {P refs D h s} _.
Arguments ct_cell {P refs D h s} _.
Arguments ct_sound {P refs D h s} _.
Arguments ct_data {P refs D h s} _.
Arguments ct_chain {P refs D h s} _.
Arguments ct_total {P refs D h s} _.
Arguments ct_solid {P refs D h s} _.
Arguments ct_live {P refs D h s} _.
Arguments ct_count {P refs D h s} _.
Arguments ct_core {P others refs D fp fr h s} _.
Arguments ct_res {P others refs D fp fr h s} _.
Arguments ct_pool {P others refs D fp fr h s} _.
Arguments ct_rom {P others refs D fp fr h s} _.
Arguments ct_heap {P others refs D fp fr h s} _.

(** * A concrete run *)

#[local] Existing Instance sim_pools.
#[local] Existing Instance sim_layout.

#[local] Instance sim_room : LwRoom.
Proof.
  assert (forall t e x, e ∈ memp_elems t -> e <= x < e + memp_size t -> 0x20040000 + 0x4000 * pool_index t <= x < 0x20040000 + 0x4000 * pool_index t + 0x4000) as Hr.
  { intros t e x He Hx. assert (Forall (fun e => 0x20040000 + 0x4000 * pool_index t <= e /\ e + memp_size t <= 0x20040000 + 0x4000 * pool_index t + 0x4000) (memp_elems t)) as Hf
      by (destruct t; apply (bool_decide_unpack _); by vm_compute).
    rewrite Forall_forall in Hf. apply Hf in He. lia. }
  split.
  - intros t e x He Hx%Hr; [|done]. right. change ram_end with 0x20031000. destruct t; cbn in Hx; lia.
  - intros t t' e e' x He He' Hx%Hr Hx'%Hr; [|done..]. destruct t, t'; try done; cbn in Hx, Hx'; lia.
Defined.

(** A frame of 1500 bytes that two tasks use: the second one to drop it gives it back. *)
Definition refs_s0 : lwip := final (bind mem_init (fun _ => memp_init) lw_static).
Definition refs_s1 : lwip := final (pbuf_alloc (fun _ => undef) PBUF_FUEL PBUF_RAW 1500 PBUF_POOL refs_s0).
Definition refs_s2 : lwip := final (pbuf_ref 0x200723a0 refs_s1).
Definition refs_s3 : lwip := final (pbuf_free (fun _ => undef) PBUF_FUEL 0x200723a0 refs_s2).
Definition refs_s4 : lwip := final (pbuf_free (fun _ => undef) PBUF_FUEL 0x200723a0 refs_s3).

Lemma sim_static t e x : e ∈ memp_elems t -> e <= x < e + memp_size t -> lw_valid lw_static x = true.
Proof.
  intros He Hx. assert (Forall (fun e => 0x20040000 <= e /\ e + memp_size t <= 0x20080000) (memp_elems t)) as Hf
    by (destruct t; apply (bool_decide_unpack _); by vm_compute).
  rewrite Forall_forall in Hf. apply Hf in He. cbn. destruct (Z.leb_spec 0x20040000 x), (Z.ltb_spec x 0x20080000); (done || lia).
Qed.

Lemma refs_run_s3 : refs_run (fun _ => undef) refs_s3 [0x200723a0].
Proof.
  assert (refs_run (fun _ => undef) refs_s0 []) as H0.
  { apply (refs_init _ lw_static); [apply sim_static|]. exact (result_final (bind mem_init (fun _ => memp_init) lw_static) tt ltac:(by vm_compute)). }
  assert (refs_run (fun _ => undef) refs_s1 [0x200723a0]) as H1.
  { apply (refs_alloc _ refs_s0 [] PBUF_RAW 1500 PBUF_POOL); [done|unfold PBUF_RAW; lia|lia|by right|].
    exact (result_final (pbuf_alloc (fun _ => undef) PBUF_FUEL PBUF_RAW 1500 PBUF_POOL refs_s0) 0x200723a0 ltac:(by vm_compute)). }
  assert (exists b, lw_cells refs_s1 !! 0x200723a0 = Some (Buf b) /\ pb_ref b < 255) as (b & Hb & Hr) by (eexists; split; [vm_compute; reflexivity|done]).
  assert (refs_run (fun _ => undef) refs_s2 [0x200723a0; 0x200723a0]) as H2.
  { apply (refs_ref _ refs_s1 0x200723a0 [0x200723a0] b); [done|by left|done|done|].
    exact (result_final (pbuf_ref 0x200723a0 refs_s1) tt ltac:(by vm_compute)). }
  apply (refs_free _ refs_s2 0x200723a0 [0x200723a0] 0); [done|].
  exact (result_final (pbuf_free (fun _ => undef) PBUF_FUEL 0x200723a0 refs_s2) 0 ltac:(by vm_compute)).
Qed.

Lemma pbuf_refs_exact_witness :
  (exists b l, pseg (lw_cells refs_s3) 0x200723a0 ((0x200723a0, b) :: l) 0 /\ 1 <= pb_ref b) /\
  (exists fp fr, res refs_s4 fp fr [(4096, false)] /\ Permutation (memp_elems MEMP_PBUF_POOL) fp /\ Permutation (memp_elems MEMP_PBUF) fr).
Proof.
  pose proof refs_run_s3 as H3. assert (refs_run (fun _ => undef) refs_s4 []) as H4.
  { apply (refs_free _ refs_s3 0x200723a0 [] 3); [done|].
    exact (result_final (pbuf_free (fun _ => undef) PBUF_FUEL 0x200723a0 refs_s3) 3 ltac:(by vm_compute)). }
  split.
  - destruct (pbuf_refs_exact (fun _ => undef) _ _ H3) as (H & _). destruct (H 0x200723a0) as (b & l & Hs & _ & _ & Hn); [by left|done|].
    exists b, l. split; [done|]. change (occ 0x200723a0 [0x200723a0]) with 1 in Hn. lia.
  - destruct (pbuf_refs_exact (fun _ => undef) _ _ H4) as (_ & _ & _ & _ & H). by apply H.
Defined.
