(* ===== verification/PbufKeep.v ===== *)
(** Packets that are held while others come and go: what the operations on packet buffers leave of
    them, space for headers, and writing the fields of a header. *)
From S2P Require Import Prelude Machine LwMem LwHeap Pbuf PbufCopy PbufChain PbufAlloc PbufData PbufClone PbufCoalesce PbufShape PbufRefs.
From stdpp Require Import list gmap.

#[local] Open Scope Z_scope.
#[local] Open Scope fw_scope.

(** * Held packets *)

(** The same buffer at the same place, but for its count. *)
Definition alike (x y : Z * pbuf) : Prop := fst x = fst y /\ uncounted (snd x) = uncounted (snd y).

Lemma alike_addrs l l' : Forall2 alike l l' -> addrs l = addrs l'.
Proof.
  induction 1 as [|[a b] [a' b'] l l' [E1 E2] _ IH]; [done|]. rewrite !addrs_cons, IH. f_equal. unfold data_of.
  cbn in *. destruct b, b'. by injection E2 as -> -> -> -> -> -> ->.
Qed.

Lemma alike_sum l l' : Forall2 alike l l' -> sum_len l = sum_len l'.
Proof.
  induction 1 as [|[a b] [a' b'] l l' [E1 E2] _ IH]; [done|]. cbn in *. destruct b, b'. injection E2 as -> -> -> -> -> -> ->. by rewrite IH.
Qed.

Lemma alike_refl l : Forall2 alike l l.
Proof. induction l; constructor; [by split|done]. Qed.

Lemma alike_trans l1 l2 l3 : Forall2 alike l1 l2 -> Forall2 alike l2 l3 -> Forall2 alike l1 l3.
Proof.
  intros H. revert l3. induction H as [|x y l1 l2 [E1 E2] _ IH]; intros l3; [done|]. intros H2. inversion H2 as [|? z ? l3' [E3 E4] H3]; subst.
  constructor; [split; congruence|by apply IH].
Qed.

(** The packets in [held] are what they were, with their bytes, and still nothing else is chained
    to them if nothing was. *)
Definition keeps (held : list Z) (D : world) l (D' : world) l' : Prop :=
  forall p c, p ∈ held -> p <> 0 -> chain D p c ->
    (exists c', chain D' p c' /\ Forall2 alike c c' /\ contents l' c' = contents l c) /\ (p ∉ links_of D -> p ∉ links_of D').

Lemma keeps_refl held D l : keeps held D l D l.
Proof. intros p c _ _ Hc. split; [|done]. exists c. split; [done|]. split; [apply alike_refl|done]. Qed.

Lemma keeps_trans held D1 l1 D2 l2 D3 l3 : keeps held D1 l1 D2 l2 -> keeps held D2 l2 D3 l3 -> keeps held D1 l1 D3 l3.
Proof.
  intros H1 H2 p c Hp Hp0 Hc. destruct (H1 p c Hp Hp0 Hc) as [(c' & Hc' & Ha & E) Hl]. destruct (H2 p c' Hp Hp0 Hc') as [(c2 & Hc2 & Ha2 & E2) Hl2].
  split; [|by intros ?%Hl%Hl2]. exists c2. split; [done|]. split; [by eapply alike_trans|congruence].
Qed.

Lemma keeps_mono held held' D l D' l' : keeps held D l D' l' -> (forall p, p ∈ held' -> p <> 0 -> p ∈ held) -> keeps held' D l D' l'.
Proof. intros H Hs p c Hp Hp0. apply H; [by apply Hs|done]. Qed.

Lemma keeps_sub held held' D l D' l' : keeps held D l D' l' -> (forall p, p ∈ held' -> p ∈ held) -> keeps held' D l D' l'.
Proof. intros H Hs. apply (keeps_mono held); [done|]. intros p Hp _. by apply Hs. Qed.

(** [fewer] buffers: a chain that is still there. *)
Lemma fewer_chain D' D c' : fewer D' D -> forall p, chain D' p c' -> exists c, chain D p c /\ Forall2 alike c c'.
Proof.
  intros Hf. induction c' as [|[a b'] c' IH]; intros p Hc; [by exists []|].
  destruct (chain_lookup _ _ _ a b' Hc ltac:(by left)) as [Ha0 Ha]. destruct (Hf a b' Ha) as (b & Hb & E). destruct Hc as (-> & _ & _ & Hc).
  destruct (IH _ Hc) as (c & Hc1 & Hal). exists ((a, b) :: c). split; [|constructor; [by split|done]].
  split; [done|]. split; [done|]. split; [by rewrite lookup_fmap, Hb|]. destruct b, b'. cbn in *. by injection E as -> -> -> -> -> -> ->.
Qed.

Lemma fewer_links D' D x : fewer D' D -> x ∈ links_of D' -> x ∈ links_of D.
Proof.
  intros Hf (y & -> & Hi)%list_elem_of_fmap. destruct y as [a b']. apply elem_of_map_to_list in Hi. destruct (Hf a b' Hi) as (b & Hb & E).
  apply list_elem_of_fmap. exists (a, b). split; [|by apply elem_of_map_to_list]. destruct b, b'. cbn in *. by injection E as -> -> -> -> -> -> ->.
Qed.

Section keep.
Context {P : Pools} {L : LwLayout} {O : LwRoom} (custom_free_function : Z -> lw unit).
Implicit Types (l : lwip) (D : world) (b : pbuf).

Lemma fewer_keeps others refs D l D' l' : counted others refs D' l' -> fewer D' D -> lw_data l' = lw_data l -> keeps refs D l D' l'.
Proof.
  intros Hc Hf Hd p c Hp Hp0 Hch. split; [|intros Hn Hi; by apply Hn, (fewer_links D' D)].
  destruct (ref_chain _ _ _ _ _ Hc Hp Hp0) as (b' & c2 & _ & _ & Hc2). destruct (fewer_chain D' D _ Hf p Hc2) as (c' & Hc' & Hal).
  rewrite (chain_det _ _ _ _ Hc' Hch) in Hal. exists ((p, b') :: c2). split; [done|]. split; [done|].
  rewrite <- (contents_ext l' c _ (alike_addrs _ _ Hal)). apply contents_agree. intros x _. by rewrite Hd.
Qed.

Lemma new_keeps others refs held D l q b l' : counted others refs D l -> D !! q = None -> pb_next b = 0 -> same_data D l l' -> keeps held D l (<[q := b]> D) l'.
Proof.
  intros _ Hq Hn Hs p c _ Hp0 Hch. split.
  - exists c. split; [by apply chain_new|]. split; [apply alike_refl|]. apply contents_agree. intros x Hx.
    destruct (chain_addrs D p c x Hch Hx) as (a & d & Ha & Hi & _). by apply (Hs a d).
  - intros Hl Hi. rewrite (links_new D q b Hq), Hn in Hi. by apply elem_of_cons in Hi as [?|?].
Qed.

(** A buffer that nothing is chained to changes; no other packet does. *)
Lemma update_keeps held D l a b b' l' : D !! a = Some b -> pb_next b' = pb_next b -> a ∉ links_of D -> (forall x c, x <> a -> D !! x = Some c -> forall y, y ∈ data_of c -> lw_data l' y = lw_data l y) ->
  keeps (filter (fun p => p <> a) held) D l (<[a := b']> D) l'.
Proof.
  intros Ha Hn Hal Hs p c [Hpa _]%list_elem_of_filter Hp0 Hch.
  assert (a ∉ c.*1) as Hac by (intros Hi; by destruct (chain_linked D p c a Hch Hi)).
  split.
  - exists c. split; [rewrite <- (with_buf_out a b' c Hac); by apply (chain_update D p c a b)|]. split; [apply alike_refl|].
    apply contents_agree. intros x Hx. destruct (chain_addrs D p c x Hch Hx) as (y & d & Hd & Hi & Hyd). apply (Hs y d); [|done|done].
    intros ->. apply Hac, elem_of_fst. by exists d.
  - intros Hl Hi. rewrite (links_update D a b b' Ha), Hn, <- (links_delete D a b Ha) in Hi. done.
Qed.

Lemma data_keeps held D l a l' : a ∉ links_of D -> is_Some (D !! a) -> (forall x c, x <> a -> D !! x = Some c -> forall y, y ∈ data_of c -> lw_data l' y = lw_data l y) ->
  keeps (filter (fun p => p <> a) held) D l D l'.
Proof.
  intros Hal [b Ha] Hs. pose proof (update_keeps held D l a b b l' Ha eq_refl Hal Hs) as H. by rewrite (insert_id D a b Ha) in H.
Qed.

(** No reference that the program had is to a buffer that is new. *)
Lemma new_not_held others refs D l p x : counted others refs D l -> D !! p = None -> p <> 0 -> x ∈ refs -> x ∈ filter (fun q => q <> p) refs.
Proof.
  intros (fp & fr & h & H) Hp Hp0 Hx. apply list_elem_of_filter. split; [|done]. intros ->.
  destruct (ct_live (ct_core H) p) as [b Hb]; [unfold holders; apply elem_of_app; by left|done|]. congruence.
Qed.

(** * Headers *)

(** The buffer with [n] bytes more in front. *)
Definition grown (n : Z) (b : pbuf) : pbuf := put_tot_len (pb_tot_len b + n) (put_len (pb_len b + n) (put_payload (pb_payload b - n) b)).

(** Is there space for them? *)
Definition has_room (n a : Z) (b : pbuf) : bool :=
  any_bit (pb_type b) PBUF_TYPE_FLAG_STRUCT_DATA_CONTIGUOUS && (a + SIZEOF_STRUCT_PBUF <=? pb_payload b - n) && (pb_tot_len b + n <? 65536).

Lemma count_sizes others refs D fp fr h l a b : count_at others refs D fp fr h l -> D !! a = Some b ->
  0 <= pb_len b <= pb_tot_len b /\ pb_tot_len b < 65536.
Proof.
  intros H Ha. destruct (count_chain _ _ _ _ _ _ _ _ _ H Ha) as (c & Hc & _). destruct (count_packet _ _ _ _ _ _ _ H _ _ Hc) as [Hp _].
  apply packet_cons in Hp. lia.
Qed.

Lemma grown_sound others refs D fp fr h l a b n : count_at others refs D fp fr h l -> D !! a = Some b -> 0 <= n -> has_room n a b = true ->
  sound h a (grown n b) /\ forall x, x ∈ data_of (grown n b) -> owns_byte h a x.
Proof.
  intros H Ha Hn Hr. destruct (count_sizes _ _ _ _ _ _ _ _ _ H Ha) as [Hl Ht]. unfold has_room in Hr. rewrite !andb_true_iff in Hr. destruct Hr as [[Hty Hlow%Z.leb_le] Hlt%Z.ltb_lt].
  pose proof (ct_sound (ct_core H) a b Ha) as [Hf Hlen Hp]. change SIZEOF_STRUCT_PBUF with 16 in *.
  assert (sound h a (grown n b)) as Hs.
  { unfold grown, put_tot_len, put_len, put_payload. cbn. rewrite (u16_small (pb_len b + n)) by lia. split; cbn; [done|lia|].
    unfold within in *. cbn [fst snd pb_payload pb_len pb_type] in *. change SIZEOF_STRUCT_PBUF with 16 in *.
    destruct Hp as [(Et & Hi & Hw)|[(Et & c & Hi & Hw)|([Et|Et] & _)]].
    - left. split; [done|]. split; [done|]. lia.
    - right. left. split; [done|]. exists c. split; [done|lia].
    - by rewrite Et in Hty.
    - by rewrite Et in Hty. }
  split; [done|]. intros x Hx. by apply (sound_owns h a (grown n b)).
Qed.

Lemma owned_valid others refs D fp fr h l a x : count_at others refs D fp fr h l -> owns_byte h a x -> lw_valid l x = true.
Proof.
  intros H [[Ha Hx]|(c & Ha & Hx)]; [by apply (ct_static (ct_core H) MEMP_PBUF_POOL a)|].
  apply (hk_valid _ _ (rs_heap _ _ _ _ (ct_res H))), payload_regions. by exists a, c.
Qed.

Lemma data_not_owned others refs D fp fr h l a b p x : count_at others refs D fp fr h l -> D !! a = Some b -> a <> p -> x ∈ data_of b -> ~ owns_byte h p x.
Proof.
  intros H Ha Hne Hx Ho. pose proof (ct_sound (ct_core H) a b Ha) as Hs. pose proof (rs_heap _ _ _ _ (ct_res H)) as Hok.
  destruct (any_bit (pb_type b) PBUF_TYPE_FLAG_STRUCT_DATA_CONTIGUOUS) eqn:Hty.
  - by apply Hne, (owns_byte_apart l h a p x Hok (sound_owns h a b x Hs Hty Hx)).
  - by apply (owned_not_foreign l h p x Hok Ho), (sound_foreign h a b).
Qed.

(** pbuf_add_header. *)
Lemma wp_grow others refs D a b n l (Q : Z -> lwip -> Prop) :
  counted others refs D l -> D !! a = Some b -> a ∉ links_of D -> 0 < n < 65536 ->
  (if has_room n a b then
     let l' := with_cells (insert a (Buf (grown n b))) l in counted others refs (<[a := grown n b]> D) l' -> Q 0 l'
   else Q 1 l) ->
  wp (pbuf_add_header a n) l Q.
Proof.
  intros (fp & fr & h & H) Ha Hal Hn HQ. pose proof (ct_cell (ct_core H) a b Ha) as Hcell. destruct (count_sizes _ _ _ _ _ _ _ _ _ H Ha) as [Hl Ht].
  assert (a <> 0) as Ha0 by (apply (sound_nonzero l h a b); [apply H|by apply (ct_sound (ct_core H))]).
  pose proof (grown_sound others refs D fp fr h l a b n H Ha ltac:(lia)) as Hgs.
  unfold pbuf_add_header, pbuf_add_header_impl. destruct (Z.eqb_spec a 0); [done|]. cbn [orb]. destruct (Z.ltb_spec 0xFFFF n); [lia|].
  destruct (Z.eqb_spec n 0); [lia|]. rewrite (u16_small n) by lia. apply wp_step, (wp_pbuf_at _ b); [done|].
  unfold has_room in *. destruct (Z.ltb_spec (u16 (n + pb_tot_len b)) n) as [Hov|Hov].
  { destruct (Z.ltb_spec (pb_tot_len b + n) 65536); [rewrite u16_small in Hov by lia; lia|]. rewrite andb_false_r in HQ. by apply wp_ret. }
  destruct (Z.ltb_spec (pb_tot_len b + n) 65536); [|unfold u16 in Hov; zlia]. rewrite andb_true_r in *.
  destruct (any_bit (pb_type b) PBUF_TYPE_FLAG_STRUCT_DATA_CONTIGUOUS); [|by apply wp_ret]. cbn [andb] in *.
  destruct (Z.ltb_spec (pb_payload b - n) (a + SIZEOF_STRUCT_PBUF)), (Z.leb_spec (a + SIZEOF_STRUCT_PBUF) (pb_payload b - n)); try lia; [by apply wp_ret|].
  apply wp_step, (wp_pbuf_set _ _ b); [done|]. apply wp_ret. destruct (Hgs eq_refl) as [Hgs1 Hgs2].
  apply HQ. exists fp, fr, h. unfold grown in *. apply (count_reshape _ _ _ _ _ _ _ _ b); try done; cbn; rewrite ?u16_small by lia; try lia.
  intros x Hx. by apply (owned_valid others refs D fp fr h l a), Hgs2.
Qed.

(** * Fields *)

(** Bytes written one field after the other, each given by its offset from [a]. *)
Definition filled_in (d : Z -> Z) (a : Z) (fs : list (Z * list Z)) : Z -> Z := foldl (fun d f => overlaid d (a + fst f) (snd f)) d fs.

Definition field_apart (f g : Z * list Z) : Prop :=
  fst f + Z.of_nat (length (snd f)) <= fst g \/ fst g + Z.of_nat (length (snd g)) <= fst f.
Definition field_bytes (f : Z * list Z) : Prop := Forall (fun x => 0 <= x < 256) (snd f).
Definition field_in (n : Z) (f : Z * list Z) : Prop := 0 <= fst f /\ fst f + Z.of_nat (length (snd f)) <= n.

Lemma filled_out d a n fs x : Forall (field_in n) fs -> ~ (a <= x < a + n) -> filled_in d a fs x = d x.
Proof.
  revert d. induction fs as [|f fs IH]; intros d Hf Hx; [done|]. apply Forall_cons in Hf as [[? ?] Hf]. cbn [filled_in foldl].
  change (filled_in (overlaid d (a + fst f) (snd f)) a fs x = d x). rewrite IH by done. apply overlaid_out. lia.
Qed.

Lemma filled_apart d a fs f l : Forall (field_apart f) fs ->
  lw_bytes (with_data (filled_in d a fs) l) (a + fst f) (Z.of_nat (length (snd f))) = lw_bytes (with_data d l) (a + fst f) (Z.of_nat (length (snd f))).
Proof.
  revert d. induction fs as [|g fs IH]; intros d Hf; [done|]. apply Forall_cons in Hf as [Hg Hf].
  change (filled_in d a (g :: fs)) with (filled_in (overlaid d (a + fst g) (snd g)) a fs). rewrite IH by done.
  apply lw_bytes_agree. intros x Hx. cbn. apply overlaid_out. destruct Hg; lia.
Qed.

Lemma filled_field d a fs f l : f ∈ fs -> ForallOrdPairs field_apart fs -> Forall field_bytes fs ->
  lw_bytes (with_data (filled_in d a fs) l) (a + fst f) (Z.of_nat (length (snd f))) = snd f.
Proof.
  intros Hi Hap Hb. revert d. induction fs as [|g fs IH]; intros d; [by apply elem_of_nil in Hi|].
  inversion Hap as [|? ? Hg Hap']; subst. apply Forall_cons in Hb as [Hbg Hb].
  change (filled_in d a (g :: fs)) with (filled_in (overlaid d (a + fst g) (snd g)) a fs).
  apply elem_of_cons in Hi as [->|Hi]; [|by apply IH]. rewrite filled_apart by done.
  apply (wrote_bytes (with_data d l)); [done|]. by exists (overlaid d (a + fst g) (snd g)).
Qed.

(** All fields of a header of [n] bytes, from the first offset on. *)
Fixpoint tiled (i : Z) (fs : list (Z * list Z)) (n : Z) : Prop :=
  match fs with [] => i = n | f :: fs' => fst f = i /\ tiled (i + Z.of_nat (length (snd f))) fs' n end.

Lemma tiled_bytes l a fs : forall i n, tiled i fs n -> (forall f, f ∈ fs -> lw_bytes l (a + fst f) (Z.of_nat (length (snd f))) = snd f) ->
  i <= n /\ lw_bytes l (a + i) (n - i) = concat (snd <$> fs).
Proof.
  induction fs as [|f fs IH]; intros i n Ht Hf.
  - cbn in Ht. subst n. split; [lia|]. by rewrite Z.sub_diag.
  - destruct Ht as [<- Ht]. destruct (IH _ _ Ht) as [Hle E]; [intros g Hg; apply Hf; by right|]. split; [lia|].
    rewrite fmap_cons. cbn [concat]. rewrite <- E. replace (n - fst f) with (Z.of_nat (length (snd f)) + (n - (fst f + Z.of_nat (length (snd f))))) by lia.
    rewrite lw_bytes_add, Z.add_assoc by lia. f_equal. apply Hf. by left.
Qed.
End keep.
