(* ===== verification/Chksum.v ===== *)
(** The Internet checksum, lwip-2.1.2/src/core/inet_chksum.c: the three versions of
    lwip_standard_chksum, of which the configuration takes the second, and the checksums
    over chains of packet buffers that are made of it.  The reference is the sum of
    RFC 1071, in ones' complement arithmetic on the bytes in their order. *)
From S2P Require Import Prelude Machine LwMem LwHeap Pbuf PbufCopy PbufChain PbufAlloc PbufData.
From stdpp Require Import list gmap.

#[local] Open Scope Z_scope.
#[local] Open Scope fw_scope.

(** * The code *)

(** [FOLD_U32T] and [SWAP_BYTES_IN_WORD] of include/lwip/inet_chksum.h, and lwip_htons of
    core/def.c, on a little-endian machine. *)
Definition FOLD_U32T (u : Z) : Z := u32 ((u .>> 16) + (u .& 0xFFFF)).
Definition SWAP_BYTES_IN_WORD (w : Z) : Z := ((w .& 0xFF) .<< 8) .| ((w .& 0xFF00) .>> 8).
Definition lwip_htons (n : Z) : Z := u16 (((n .& 0xFF) .<< 8) .| ((n .& 0xFF00) .>> 8)).

(** Loads of a half-word and of a word through pointers to them, which are undefined for
    an address that is not aligned. *)
Definition half_at (a : Z) : lw Z :=
  defined_if (a mod 2 =? 0) ;; l <- lw_read a 2 ;; ret (nth 0 l 0 + (nth 1 l 0 .<< 8)).
Definition word_at (a : Z) : lw Z :=
  defined_if (a mod 4 =? 0) ;; l <- lw_read a 4 ;;
  ret (nth 0 l 0 + (nth 1 l 0 .<< 8) + (nth 2 l 0 .<< 16) + (nth 3 l 0 .<< 24)).

(** Version 1: byte by byte, first byte most significant. *)
Fixpoint sum_bytes (fuel : nat) (octetptr len acc : Z) : lw (Z * Z * Z) :=
  match fuel with
  | O => spin
  | S fuel =>
    if 1 <? len then
      b <- byte_at octetptr ;; let src := u16 (b .<< 8) in
      b' <- byte_at (octetptr + 1) ;; let src := src .| b' in
      sum_bytes fuel (octetptr + 2) (len - 2) (u32 (acc + src))
    else ret (octetptr, len, acc)
  end.

Definition lwip_standard_chksum_1 (fuel : nat) (dataptr len : Z) : lw Z :=
  r <- sum_bytes fuel dataptr len 0 ;;
  let '(octetptr, len, acc) := r in
  acc <- (if 0 <? len then b <- byte_at octetptr ;; ret (u32 (acc + u16 (b .<< 8))) else ret acc) ;;
  let acc := FOLD_U32T acc in
  let acc := if negb (acc .& 0xFFFF0000 =? 0) then FOLD_U32T acc else acc in
  ret (lwip_htons (u16 acc)).

(** Version 2: half-words from the first even address on. *)
Fixpoint sum_halves (fuel : nat) (ps len sum : Z) : lw (Z * Z * Z) :=
  match fuel with
  | O => spin
  | S fuel =>
    if 1 <? len then
      h <- half_at ps ;; sum_halves fuel (ps + 2) (len - 2) (u32 (sum + h))
    else ret (ps, len, sum)
  end.

(** The byte in front of the first even address, put in the upper half of [t]. *)
Definition align_head (pb len : Z) : lw (Z * Z * Z) :=
  if negb (pb .& 1 =? 0) && (0 <? len) then b <- byte_at pb ;; ret (b .<< 8, pb + 1, len - 1)
  else ret (0, pb, len).

(** The last byte, put in the lower half of [t]. *)
Definition tail_byte (t ps len : Z) : lw Z :=
  if 0 <? len then b <- byte_at ps ;; ret ((t .& 0xFF00) .| b) else ret t.

Definition lwip_standard_chksum (fuel : nat) (dataptr len : Z) : lw Z :=
  let odd := negb (dataptr .& 1 =? 0) in
  h <- align_head dataptr len ;;
  let '(t, pb, len) := h in
  r <- sum_halves fuel pb len 0 ;;
  let '(ps, len, sum) := r in
  t <- tail_byte t ps len ;;
  let sum := u32 (sum + t) in
  let sum := FOLD_U32T sum in
  let sum := FOLD_U32T sum in
  ret (u16 (if odd then SWAP_BYTES_IN_WORD sum else sum)).

(** Version 3: two words at a time, carries added back at once. *)
Fixpoint sum_words (fuel : nat) (pl len sum : Z) : lw (Z * Z * Z) :=
  match fuel with
  | O => spin
  | S fuel =>
    if 7 <? len then
      w <- word_at pl ;;
      let tmp := u32 (sum + w) in
      let tmp := if tmp <? sum then u32 (tmp + 1) else tmp in
      w' <- word_at (pl + 4) ;;
      let sum := u32 (tmp + w') in
      let sum := if sum <? tmp then u32 (sum + 1) else sum in
      sum_words fuel (pl + 8) (len - 8) sum
    else ret (pl, len, sum)
  end.

Definition lwip_standard_chksum_3 (fuel : nat) (dataptr len : Z) : lw Z :=
  let odd := negb (dataptr .& 1 =? 0) in
  h <- align_head dataptr len ;;
  let '(t, ps, len) := h in
  h <- (if negb (ps .& 3 =? 0) && (1 <? len) then h <- half_at ps ;; ret (ps + 2, len - 2, u32 (0 + h)) else ret (ps, len, 0)) ;;
  let '(pl, len, sum) := h in
  r <- sum_words fuel pl len sum ;;
  let '(ps, len, sum) := r in
  let sum := FOLD_U32T sum in
  r <- sum_halves fuel ps len sum ;;
  let '(ps, len, sum) := r in
  t <- tail_byte t ps len ;;
  let sum := u32 (sum + t) in
  let sum := FOLD_U32T sum in
  let sum := FOLD_U32T sum in
  ret (u16 (if odd then SWAP_BYTES_IN_WORD sum else sum)).

Definition LWIP_CHKSUM := lwip_standard_chksum.

(** The store of a checksum to the field of a header, which has 16 bits. *)
Definition half_put (a v : Z) : lw unit := defined_if (a mod 2 =? 0) ;; lw_write a [v .& 0xFF; v .>> 8].

(** The loop over the buffers of a chain that inet_chksum_pbuf and the checksums with a
    pseudo header have in common: [acc] and [swapped] at its end. *)
Fixpoint chksum_chain (fuel : nat) (q acc : Z) (swapped : bool) : lw (Z * bool) :=
  match fuel with
  | O => spin
  | S fuel' =>
    if negb (q =? 0) then
      b <- pbuf_at q ;;
      c <- LWIP_CHKSUM fuel (pb_payload b) (pb_len b) ;;
      let acc := FOLD_U32T (u32 (acc + c)) in
      if negb (pb_len b mod 2 =? 0) then chksum_chain fuel' (pb_next b) (u32 (SWAP_BYTES_IN_WORD acc)) (negb swapped)
      else chksum_chain fuel' (pb_next b) acc swapped
    else ret (acc, swapped)
  end.

(** [len] is a parameter of 16 bits: callers pass values below 65536. *)
Definition inet_chksum (fuel : nat) (dataptr len : Z) : lw Z :=
  c <- LWIP_CHKSUM fuel dataptr len ;; ret (u16 (Z.lnot c)).

Definition inet_chksum_pbuf (fuel : nat) (p : Z) : lw Z :=
  r <- chksum_chain fuel p 0 false ;;
  let '(acc, swapped) := r in
  let acc := if swapped : bool then SWAP_BYTES_IN_WORD acc else acc in
  ret (u16 (Z.lnot (acc .& 0xFFFF))).

(** What follows the loop in inet_cksum_pseudo_base and inet_cksum_pseudo_partial_base. *)
Definition pseudo_end (proto proto_len acc : Z) (swapped : bool) : Z :=
  let acc := if swapped then SWAP_BYTES_IN_WORD acc else acc in
  let acc := u32 (acc + lwip_htons proto) in
  let acc := u32 (acc + lwip_htons proto_len) in
  let acc := FOLD_U32T acc in
  let acc := FOLD_U32T acc in
  u16 (Z.lnot (acc .& 0xFFFF)).

Definition inet_cksum_pseudo_base (fuel : nat) (p proto proto_len acc : Z) : lw Z :=
  r <- chksum_chain fuel p acc false ;; ret (pseudo_end proto proto_len (fst r) (snd r)).

(** The sum of two addresses in network byte order. *)
Definition addresses_sum (src dest : Z) : Z :=
  let acc := src .& 0xFFFF in
  let acc := u32 (acc + ((src .>> 16) .& 0xFFFF)) in
  let acc := u32 (acc + (dest .& 0xFFFF)) in
  let acc := u32 (acc + ((dest .>> 16) .& 0xFFFF)) in
  let acc := FOLD_U32T acc in
  FOLD_U32T acc.

Definition inet_chksum_pseudo (fuel : nat) (p proto proto_len src dest : Z) : lw Z :=
  inet_cksum_pseudo_base fuel p proto proto_len (addresses_sum src dest).
Definition ip_chksum_pseudo := inet_chksum_pseudo.

(** The assertion of the loop, that the rest of [chksum_len] is below 0x7fff behind a buffer, is not
    checked: LWIP_NOASSERT is defined in inc/arch/cc.h. *)
Fixpoint chksum_chain_partial (fuel : nat) (q chksum_len acc : Z) (swapped : bool) : lw (Z * bool) :=
  match fuel with
  | O => spin
  | S fuel' =>
    if negb (q =? 0) && (0 <? chksum_len) then
      b <- pbuf_at q ;;
      let chklen := if chksum_len <? pb_len b then chksum_len else pb_len b in
      c <- LWIP_CHKSUM fuel (pb_payload b) chklen ;;
      let acc := u32 (acc + c) in
      let chksum_len := u16 (chksum_len - chklen) in
      let acc := FOLD_U32T acc in
      if negb (pb_len b mod 2 =? 0) then chksum_chain_partial fuel' (pb_next b) chksum_len (u32 (SWAP_BYTES_IN_WORD acc)) (negb swapped)
      else chksum_chain_partial fuel' (pb_next b) chksum_len acc swapped
    else ret (acc, swapped)
  end.

Definition inet_cksum_pseudo_partial_base (fuel : nat) (p proto proto_len chksum_len acc : Z) : lw Z :=
  r <- chksum_chain_partial fuel p chksum_len acc false ;; ret (pseudo_end proto proto_len (fst r) (snd r)).
Definition inet_chksum_pseudo_partial (fuel : nat) (p proto proto_len chksum_len src dest : Z) : lw Z :=
  inet_cksum_pseudo_partial_base fuel p proto proto_len chksum_len (addresses_sum src dest).
Definition ip_chksum_pseudo_partial := inet_chksum_pseudo_partial.

(** * Sums modulo 65535 *)

(** The sum of RFC 1071: ones' complement addition of the 16-bit words in memory order, an
    odd last byte padded with zero. *)
Definition ones_add (a b : Z) : Z := if a + b <? 65536 then a + b else a + b - 65535.
Fixpoint internet_sum (l : list Z) : Z :=
  match l with
  | [] => 0
  | [b] => b
  | b0 :: b1 :: l' => ones_add (b0 + 256 * b1) (internet_sum l')
  end.

(** The same without wrapping: bytes at even offsets count once, at odd ones 256 times. *)
Fixpoint wsum (odd : bool) (l : list Z) : Z :=
  match l with [] => 0 | b :: l' => (if odd then 256 * b else b) + wsum (negb odd) l' end.

(** The number of 16 bits that stands for a sum. *)
Definition oc (x : Z) : Z := if x =? 0 then 0 else (x - 1) mod 65535 + 1.

Definition bytes_ok (l : list Z) : Prop := Forall (fun b => 0 <= b < 256) l.

Lemma oc_range x : 0 <= x -> 0 <= oc x < 65536.
Proof. unfold oc. destruct (Z.eqb_spec x 0); [lia|]. zlia. Qed.

Lemma oc_small x : 0 <= x < 65536 -> oc x = x.
Proof. unfold oc. destruct (Z.eqb_spec x 0); [lia|]. zlia. Qed.

Lemma oc_iff x y : 0 <= x -> 0 <= y -> oc x = oc y <-> (x = 0 <-> y = 0) /\ exists k, x = y + 65535 * k.
Proof.
  intros Hx Hy. unfold oc. destruct (Z.eqb_spec x 0) as [->|Hx0], (Z.eqb_spec y 0) as [->|Hy0].
  - split; [|done]. intros _. split; [done|]. by exists 0.
  - split; [zlia|]. intros [? _]. lia.
  - split; [zlia|]. intros [? _]. lia.
  - split.
    + intros H. split; [lia|]. exists ((x - 1) / 65535 - (y - 1) / 65535). zlia.
    + intros [_ [k ->]]. f_equal. replace (y + 65535 * k - 1) with (y - 1 + k * 65535) by lia. by rewrite Z.mod_add.
Qed.

Lemma oc_intro x y k : 0 <= x -> 0 <= y -> (x = 0 <-> y = 0) -> x = y + 65535 * k -> oc x = oc y.
Proof. intros ? ? ? ?. apply oc_iff; [done..|]. split; [done|]. by exists k. Qed.

Lemma oc_add x x' y y' : 0 <= x -> 0 <= x' -> 0 <= y -> 0 <= y' -> oc x = oc x' -> oc y = oc y' -> oc (x + y) = oc (x' + y').
Proof.
  intros Hx Hx' Hy Hy' [Zx [k Ex]]%oc_iff [Zy [j Ey]]%oc_iff; [|done..]. apply (oc_intro _ _ (k + j)); lia.
Qed.

Lemma oc_mul x x' : 0 <= x -> 0 <= x' -> oc x = oc x' -> oc (256 * x) = oc (256 * x').
Proof. intros Hx Hx' [Zx [k Ex]]%oc_iff; [|done..]. apply (oc_intro _ _ (256 * k)); lia. Qed.

Lemma oc_oc x : 0 <= x -> oc (oc x) = oc x.
Proof. intros H. apply oc_small. by apply oc_range. Qed.

Lemma oc_mul_mul x : 0 <= x -> oc (256 * (256 * x)) = oc x.
Proof. intros H. apply (oc_intro _ _ x); lia. Qed.

Lemma FOLD_alt u : 0 <= u < 2 ^ 32 -> FOLD_U32T u = u / 65536 + u mod 65536.
Proof.
  intros H. unfold FOLD_U32T. rewrite Z.shiftr_div_pow2 by lia. change 0xFFFF with (Z.ones 16). rewrite Z.land_ones by lia.
  apply u32_small. zlia.
Qed.

Lemma oc_FOLD u : 0 <= u < 2 ^ 32 -> oc (FOLD_U32T u) = oc u.
Proof. intros H. rewrite FOLD_alt by done. apply (oc_intro _ _ (- (u / 65536))); zlia. Qed.

Lemma FOLD_range u : 0 <= u < 2 ^ 32 -> 0 <= FOLD_U32T u <= 0x1FFFE.
Proof. intros H. rewrite FOLD_alt by done. zlia. Qed.

Lemma FOLD_oc u : 0 <= u <= 0x1FFFE -> FOLD_U32T u = oc u.
Proof. intros H. rewrite <- (oc_FOLD u) by lia. symmetry. apply oc_small. rewrite FOLD_alt by lia. zlia. Qed.

Lemma FOLD_FOLD u : 0 <= u < 2 ^ 32 -> FOLD_U32T (FOLD_U32T u) = oc u.
Proof. intros H. rewrite FOLD_oc by (by apply FOLD_range). by apply oc_FOLD. Qed.

Lemma SWAP_alt w : 0 <= w < 65536 -> SWAP_BYTES_IN_WORD w = 256 * (w mod 256) + w / 256.
Proof.
  intros H. unfold SWAP_BYTES_IN_WORD. change 0xFF with (Z.ones 8). rewrite Z.land_ones by lia.
  assert ((w .& 0xFF00) .>> 8 = w / 256) as ->.
  { apply (bits_ext 8); [lia|..].
    - change 0xFF00 with (Z.shiftl (Z.ones 8) 8). rewrite land_field by lia. apply bits_range; lia.
    - zlia.
    - intros i Hi. change 0xFF00 with (Z.shiftl (Z.ones 8) 8). rewrite land_field by lia. rewrite bits_alt by lia.
      rewrite Z.mod_small; [done|]. change (2 ^ 8) with 256. zlia. }
  rewrite lor_shiftl_add by (try lia; zlia). change (2 ^ 8) with 256. lia.
Qed.

Lemma SWAP_oc w : 0 <= w -> SWAP_BYTES_IN_WORD (oc w) = oc (256 * w).
Proof.
  intros H. pose proof (oc_range w H) as Hr. rewrite (oc_mul w (oc w)) by (rewrite ?oc_oc; (lia || done)).
  generalize dependent (oc w). clear w H. intros w H. rewrite SWAP_alt by done.
  rewrite <- (oc_small (_ + _)) by zlia. apply (oc_intro _ _ (- (w / 256))); zlia.
Qed.

Lemma htons_alt n : 0 <= n < 65536 -> lwip_htons n = 256 * (n mod 256) + n / 256.
Proof. intros H. unfold lwip_htons. fold (SWAP_BYTES_IN_WORD n). rewrite SWAP_alt by done. apply u16_small. zlia. Qed.

Lemma not_16 x : 0 <= x < 65536 -> u16 (Z.lnot (x .& 0xFFFF)) = 65535 - x.
Proof.
  intros H. change (x .& 0xFFFF) with (x .& Z.ones 16). rewrite Z.land_ones, (Z.mod_small x) by (lia || done).
  unfold u16, Z.lnot. change (2 ^ 16) with 65536. zlia.
Qed.

(** ** Sums of bytes *)

Lemma wsum_nonneg o l : bytes_ok l -> 0 <= wsum o l.
Proof. intros H. revert o. induction H as [|b l Hb H IH]; intros o; cbn [wsum]; [lia|]. pose proof (IH (negb o)). destruct o; lia. Qed.



Lemma wsum_app o l1 l2 : wsum o (l1 ++ l2) = wsum o l1 + wsum (xorb o (Nat.odd (length l1))) l2.
Proof.
  revert o. induction l1 as [|b l1 IH]; intros o; cbn [app wsum length]; [by rewrite xorb_false_r|].
  rewrite IH, Nat.odd_succ, <- Nat.negb_odd. rewrite Z.add_assoc. f_equal. f_equal. by destruct o, (Nat.odd _).
Qed.

Lemma wsum_swap l : bytes_ok l -> forall o, oc (wsum (negb o) l) = oc (256 * wsum o l).
Proof.
  intros H. induction H as [|b l Hb H IH]; intros o; [done|]. cbn [wsum]. rewrite Z.mul_add_distr_l. apply oc_add.
  - destruct o; cbn; lia.
  - destruct o; cbn; lia.
  - by apply wsum_nonneg.
  - pose proof (wsum_nonneg (negb o) l H). lia.
  - destruct o; cbn [negb]; [|done]. symmetry. apply oc_mul_mul. lia.
  - apply IH.
Qed.

Lemma wsum_bound l : bytes_ok l -> wsum false l <= 65535 * ((Z.of_nat (length l) + 1) / 2).
Proof.
  intros H. induction l as [l IH] using (induction_ltof1 _ (@length Z)). unfold ltof in IH.
  destruct l as [|b0 [|b1 l]]; cbn [wsum negb]; [done|..].
  - apply Forall_cons in H as [H0 _]. cbn [length]. zlia.
  - apply Forall_cons in H as [H0 [H1 H'']%Forall_cons]. pose proof (IH l ltac:(cbn; lia) H'').
    cbn [length]. zlia.
Qed.

Lemma internet_sum_oc l : bytes_ok l -> internet_sum l = oc (wsum false l).
Proof.
  intros H. induction l as [l IH] using (induction_ltof1 _ (@length Z)). unfold ltof in IH.
  destruct l as [|b0 [|b1 l]]; [done|..]; cbn [internet_sum wsum negb].
  - apply Forall_cons in H as [H0 _]. rewrite oc_small by lia. lia.
  - apply Forall_cons in H as [H0 [H1 H'']%Forall_cons]. rewrite IH by (done || cbn; lia).
    pose proof (wsum_nonneg false l H'') as Hn. pose proof (oc_range _ Hn) as Hr. unfold ones_add.
    assert (oc (b0 + (256 * b1 + wsum false l)) = oc (b0 + 256 * b1 + oc (wsum false l))) as ->.
    { rewrite Z.add_assoc. apply oc_add; try lia. by rewrite oc_oc. }
    destruct (Z.ltb_spec (b0 + 256 * b1 + oc (wsum false l)) 65536); [by rewrite (oc_small (_ + _)) by lia|].
    rewrite <- (oc_small (_ - _)) by lia. apply (oc_intro _ _ (-1)); lia.
Qed.

(** * The versions of lwip_standard_chksum *)

Section chksum.
Context {P : Pools}.
Implicit Types s : lwip.

Lemma owned_range s a n k m : (forall x, a <= x < a + n -> lw_valid s x = true) -> a <= k -> k + m <= a + n -> forall x, k <= x < k + m -> lw_valid s x = true.
Proof. intros H ? ? x ?. apply H. lia. Qed.

Lemma lw_bytes_1 s a n : 0 <= n -> lw_bytes s a (1 + n) = u8 (lw_data s a) :: lw_bytes s (a + 1) n.
Proof.
  intros H. unfold lw_bytes. replace (Z.to_nat (1 + n)) with (S (Z.to_nat n)) by lia. by rewrite zrange_S.
Qed.

Lemma lw_bytes_2 s a : lw_bytes s a 2 = [u8 (lw_data s a); u8 (lw_data s (a + 1))].
Proof. change 2 with (1 + (1 + 0)). by rewrite !lw_bytes_1 by lia. Qed.

Lemma wp_half_at s a (Q : Z -> lwip -> Prop) : a mod 2 = 0 -> (forall x, a <= x < a + 2 -> lw_valid s x = true) ->
  Q (wsum false (lw_bytes s a 2)) s -> wp (half_at a) s Q.
Proof.
  intros Ha Hv HQ. apply wp_step, wp_defined_if; [by apply Z.eqb_eq|]. apply wp_step, wp_lw_read; [done|]. apply wp_ret.
  rewrite lw_bytes_2 in *. cbn [nth wsum negb] in *. rewrite Z.shiftl_mul_pow2 by lia.
  by replace (_ + _) with (u8 (lw_data s a) + (256 * u8 (lw_data s (a + 1)) + 0)) by lia.
Qed.

Lemma even_split s a n m : 0 <= n -> 0 <= m -> n mod 2 = 0 -> wsum false (lw_bytes s a (n + m)) = wsum false (lw_bytes s a n) + wsum false (lw_bytes s (a + n) m).
Proof.
  intros Hn Hm He. rewrite lw_bytes_add, wsum_app, lw_bytes_length by done.
  assert (Nat.odd (Z.to_nat n) = false) as ->; [|done].
  apply not_true_is_false. intros [k Hk]%Nat.odd_spec. zlia.
Qed.

Lemma wp_sum_halves s fuel : forall ps len sum (Q : Z * Z * Z -> lwip -> Prop),
  ps mod 2 = 0 \/ len <= 1 -> (forall x, ps <= x < ps + len -> lw_valid s x = true) -> 0 <= len < Z.of_nat fuel ->
  0 <= sum -> sum + 65535 * (len / 2) < 2 ^ 32 ->
  (let n := len / 2 * 2 in Q (ps + n, len - n, sum + wsum false (lw_bytes s ps n)) s) ->
  wp (sum_halves fuel ps len sum) s Q.
Proof.
  induction fuel as [|fuel IH]; intros ps len sum Q Hps Hv Hl Hs Hb HQ; [lia|]. cbn [sum_halves].
  destruct (Z.ltb_spec 1 len).
  - destruct Hps as [Hps|]; [|lia]. apply wp_step, wp_half_at; [done|intros x Hx; apply Hv; lia|].
    pose proof (wsum_nonneg false _ (lw_bytes_range s ps 2)). pose proof (wsum_bound _ (lw_bytes_range s ps 2)) as Hw.
    rewrite lw_bytes_length in Hw. change ((Z.of_nat (Z.to_nat 2) + 1) / 2) with 1 in Hw.
    rewrite u32_small by zlia. apply IH; [left; zlia|intros x Hx; apply Hv; lia|lia|lia|zlia|]. cbn zeta in *.
    replace (len / 2 * 2) with (2 + (len - 2) / 2 * 2) in HQ by zlia. rewrite even_split in HQ by (done || zlia).
    by rewrite !Z.add_assoc, Z.sub_add_distr in HQ.
  - apply wp_ret. cbn zeta in HQ. replace (len / 2 * 2) with 0 in HQ by zlia.
    by rewrite !Z.add_0_r, Z.sub_0_r in HQ.
Qed.

Lemma tail_bits b b' : 0 <= b < 256 -> 0 <= b' < 256 -> ((b .<< 8) .& 0xFF00) .| b' = 256 * b + b'.
Proof.
  intros Hb Hb'. assert ((b .<< 8) .& 0xFF00 = b .<< 8) as ->; [|rewrite lor_shiftl_add by (lia || done); lia].
  change 0xFF00 with (Z.shiftl (Z.ones 8) 8). rewrite <- Z.shiftl_land. by rewrite Z.land_ones, Z.mod_small by lia.
Qed.

(** The loop over the half-words and the byte behind them, with the head in [t]. *)
Lemma wp_sum_tail s fuel b ps len sum (k : Z -> lw Z) (Q : Z -> lwip -> Prop) :
  ps mod 2 = 0 \/ len <= 1 -> (forall x, ps <= x < ps + len -> lw_valid s x = true) -> 0 <= len < Z.of_nat fuel ->
  0 <= b < 256 -> 0 <= sum -> sum + 65535 * (len / 2 + 1) < 2 ^ 32 ->
  (let sum' := sum + 256 * b + wsum false (lw_bytes s ps len) in 0 <= sum' < 2 ^ 32 -> wp (k sum') s Q) ->
  wp (r <- sum_halves fuel ps len sum ;; let '(ps, len, sum) := r in t <- tail_byte (b .<< 8) ps len ;; k (u32 (sum + t))) s Q.
Proof.
  intros Hps Hv Hl Hb Hs Hbound HQ. cbn zeta in HQ. apply wp_step, wp_sum_halves; [done..|lia|]. cbn zeta. set (n := len / 2 * 2).
  pose proof (wsum_nonneg false _ (lw_bytes_range s ps len)). pose proof (wsum_nonneg false _ (lw_bytes_range s ps n)).
  pose proof (wsum_bound _ (lw_bytes_range s ps n)) as Hw. rewrite lw_bytes_length in Hw.
  assert (0 <= n /\ 0 <= len - n <= 1 /\ n mod 2 = 0 /\ 65535 * ((Z.of_nat (Z.to_nat n) + 1) / 2) <= 65535 * (len / 2)) as (Hn & Hd & He & Hle) by (unfold n; zlia).
  clearbody n. unfold tail_byte. replace len with (n + (len - n)) in HQ by lia. rewrite even_split in HQ by lia.
  destruct (Z.ltb_spec 0 (len - n)).
  - replace (len - n) with (1 + 0) in HQ by lia. rewrite lw_bytes_1 in HQ by lia. cbn [wsum] in HQ.
    change (lw_bytes s (ps + n + 1) 0) with (@nil Z) in HQ. cbn [wsum] in HQ. rewrite wp_assoc. apply wp_step, wp_byte_at; [apply Hv; lia|].
    pose proof (u8_range (lw_data s (ps + n))). apply wp_step, wp_ret. rewrite tail_bits, u32_small by lia.
    match goal with |- wp (k ?x) _ _ => match type of HQ with _ -> wp (k ?y) _ _ => replace x with y by lia end end. apply HQ. lia.
  - replace (len - n) with 0 in HQ by lia. change (lw_bytes s (ps + n) 0) with (@nil Z) in HQ. cbn [wsum] in HQ.
    apply wp_step, wp_ret. rewrite Z.shiftl_mul_pow2, u32_small by lia.
    match goal with |- wp (k ?x) _ _ => match type of HQ with _ -> wp (k ?y) _ _ => replace x with y by lia end end. apply HQ. lia.
Qed.

Lemma land_1 a : (a .& 1 =? 0) = (a mod 2 =? 0).
Proof. change 1 with (Z.ones 1). by rewrite Z.land_ones by lia. Qed.

(** The byte in front, and what is left. *)
Lemma wp_align_head s a len (Q : Z * Z * Z -> lwip -> Prop) :
  (forall x, a <= x < a + len -> lw_valid s x = true) -> 0 <= len ->
  (forall b ps n, ps mod 2 = 0 \/ n <= 1 -> a <= ps -> ps + n = a + len -> 0 <= n <= len -> 0 <= b < 256 ->
    wsum (negb (a mod 2 =? 0)) (lw_bytes s a len) = 256 * b + wsum false (lw_bytes s ps n) -> Q (b .<< 8, ps, n) s) ->
  wp (align_head a len) s Q.
Proof.
  intros Hv Hl HQ. unfold align_head. rewrite land_1. destruct (Z.eqb_spec (a mod 2) 0) as [He|Ho]; cbn [negb andb] in *.
  - apply wp_ret, (HQ 0); (lia || by left).
  - destruct (Z.ltb_spec 0 len).
    + apply wp_step, wp_byte_at; [apply Hv; lia|]. apply wp_ret. pose proof (u8_range (lw_data s a)). apply HQ; try lia; [left; zlia|].
      replace len with (1 + (len - 1)) at 1 by lia. by rewrite lw_bytes_1 by lia.
    + apply wp_ret, (HQ 0); try lia. by replace len with 0 by lia.
Qed.

(** The end of versions 2 and 3. *)
Lemma chksum_end a sum l : bytes_ok l -> 0 <= sum < 2 ^ 32 -> oc sum = oc (wsum (negb (a mod 2 =? 0)) l) ->
  u16 (if negb (a mod 2 =? 0) then SWAP_BYTES_IN_WORD (FOLD_U32T (FOLD_U32T sum)) else FOLD_U32T (FOLD_U32T sum)) = internet_sum l.
Proof.
  intros Hl Hs He. rewrite FOLD_FOLD by done. rewrite internet_sum_oc by done. destruct (negb _) eqn:Ho.
  - rewrite SWAP_oc by lia. pose proof (wsum_nonneg true l Hl). rewrite u16_small by (apply oc_range; lia).
    rewrite (oc_mul _ (wsum true l)) by (lia || done). symmetry. by apply (wsum_swap l Hl true).
  - rewrite u16_small by (apply oc_range; lia). done.
Qed.

Lemma wp_lwip_standard_chksum s fuel a len (Q : Z -> lwip -> Prop) :
  (forall x, a <= x < a + len -> lw_valid s x = true) -> 0 <= len <= 0x20000 -> len < Z.of_nat fuel ->
  Q (internet_sum (lw_bytes s a len)) s -> wp (lwip_standard_chksum fuel a len) s Q.
Proof.
  intros Hv Hl Hf HQ. unfold lwip_standard_chksum. rewrite land_1. apply wp_step, wp_align_head; [done|lia|].
  intros b ps n Hps Ha Hn Hr Hb HW. cbv iota beta.
  apply (wp_sum_tail s fuel b ps n 0 (fun sum => ret (u16 (if negb (a mod 2 =? 0) then
    SWAP_BYTES_IN_WORD (FOLD_U32T (FOLD_U32T sum)) else FOLD_U32T (FOLD_U32T sum))))); [done|intros x Hx; apply Hv; lia|lia|done|done|zlia|].
  cbn zeta. rewrite Z.add_0_l, <- HW. intros Hs. apply wp_ret. rewrite (chksum_end _ _ (lw_bytes s a len)); [done|apply lw_bytes_range|done..].
Qed.

(** ** Version 1 *)

Lemma sum_bytes_step b b' acc : 0 <= b < 256 -> 0 <= b' < 256 -> 0 <= acc -> acc + 65535 < 2 ^ 32 ->
  u32 (acc + (u16 (b .<< 8) .| b')) = acc + (256 * b + (b' + 0)).
Proof.
  intros Hb Hb' Ha Hm. rewrite (u16_small (b .<< 8)) by (rewrite Z.shiftl_mul_pow2; lia). rewrite lor_shiftl_add by (lia || done).
  rewrite u32_small; lia.
Qed.

Lemma wp_sum_bytes s fuel : forall a len acc (Q : Z * Z * Z -> lwip -> Prop),
  (forall x, a <= x < a + len -> lw_valid s x = true) -> 0 <= len < Z.of_nat fuel -> 0 <= acc -> acc + 65535 * (len / 2) < 2 ^ 32 ->
  (forall ps n acc', a <= ps -> 0 <= n <= 1 -> ps + n = a + len -> 0 <= acc' <= acc + 65535 * (len / 2) ->
     acc' + wsum true (lw_bytes s ps n) = acc + wsum true (lw_bytes s a len) -> Q (ps, n, acc') s) ->
  wp (sum_bytes fuel a len acc) s Q.
Proof.
  induction fuel as [|fuel IH]; intros a len acc Q Hv Hl Hs Hb HQ; [lia|]. cbn [sum_bytes]. destruct (Z.ltb_spec 1 len).
  - apply wp_step, wp_byte_at; [apply Hv; lia|]. apply wp_step, wp_byte_at; [apply Hv; lia|].
    pose proof (u8_range (lw_data s a)). pose proof (u8_range (lw_data s (a + 1))). rewrite sum_bytes_step by zlia.
    apply IH; [intros x Hx; apply Hv; lia|lia|lia|zlia|]. intros ps n acc' E1 E2 E3 E4 E5. apply HQ; [lia|lia|lia|zlia|].
    rewrite E5. replace len with (1 + (1 + (len - 2))) at 2 by lia. rewrite !lw_bytes_1 by lia. cbn [wsum negb].
    replace (a + 1 + 1) with (a + 2) by lia. lia.
  - apply wp_ret, HQ; zlia.
Qed.

Lemma high_half x : 0 <= x < 2 ^ 32 -> (x .& 0xFFFF0000 =? 0) = (x <? 65536).
Proof.
  intros H. assert (x .& 0xFFFF0000 = (x / 65536) * 65536) as ->.
  { replace (x / 65536 * 65536) with ((x .>> 16) .<< 16) by (rewrite Z.shiftl_mul_pow2, Z.shiftr_div_pow2 by lia; done).
    rewrite <- (Z.mod_small (x .>> 16) (2 ^ 16)), <- Z.land_ones by (rewrite ?Z.shiftr_div_pow2 by lia; zlia).
    change 0xFFFF0000 with (Z.shiftl (Z.ones 16) 16).
    apply Z.bits_inj'. intros i Hi. rewrite Z.land_spec. destruct (Z.lt_ge_cases i 16).
    - rewrite !Z.shiftl_spec, !(Z.testbit_neg_r _ (i - 16)) by lia. by rewrite andb_false_r.
    - rewrite !Z.shiftl_spec, Z.land_spec, Z.shiftr_spec by lia. by rewrite Z.sub_add. }
  destruct (Z.eqb_spec (x / 65536 * 65536) 0), (Z.ltb_spec x 65536); (done || zlia).
Qed.

Lemma chksum_1_end acc l : bytes_ok l -> 0 <= acc < 2 ^ 32 -> acc = wsum true l ->
  lwip_htons (u16 (if negb (FOLD_U32T acc .& 0xFFFF0000 =? 0) then FOLD_U32T (FOLD_U32T acc) else FOLD_U32T acc)) = internet_sum l.
Proof.
  intros Hl Hb He. assert ((if negb (FOLD_U32T acc .& 0xFFFF0000 =? 0) then FOLD_U32T (FOLD_U32T acc) else FOLD_U32T acc) = oc acc) as ->.
  { pose proof (FOLD_range acc Hb). rewrite high_half by lia. destruct (Z.ltb_spec (FOLD_U32T acc) 65536); cbn [negb].
    - rewrite <- (oc_small (FOLD_U32T acc)) by lia. by apply oc_FOLD.
    - by apply FOLD_FOLD. }
  pose proof (oc_range acc (proj1 Hb)) as Hr. rewrite u16_small, internet_sum_oc by done.
  rewrite htons_alt, <- SWAP_alt, SWAP_oc by lia. subst acc. symmetry. by apply (wsum_swap l Hl true).
Qed.

Lemma wp_lwip_standard_chksum_1 s fuel a len (Q : Z -> lwip -> Prop) :
  (forall x, a <= x < a + len -> lw_valid s x = true) -> 0 <= len <= 0x20000 -> len < Z.of_nat fuel ->
  Q (internet_sum (lw_bytes s a len)) s -> wp (lwip_standard_chksum_1 fuel a len) s Q.
Proof.
  intros Hv Hl Hf HQ. apply wp_step, wp_sum_bytes; [done|lia|lia|zlia|]. intros ps n acc H1 H2 H3 H4 H5.
  rewrite Z.add_0_l in H5. apply wp_step.
  apply (wp_mono _ _ (fun x s' => s' = s /\ x = wsum true (lw_bytes s a len) /\ 0 <= x < 2 ^ 32)).
  - destruct (Z.ltb_spec 0 n).
    + replace n with (1 + 0) in H5 by lia. rewrite lw_bytes_1 in H5 by lia. cbn [wsum] in H5. change (lw_bytes s (ps + 1) 0) with (@nil Z) in H5. cbn [wsum] in H5.
      apply wp_step, wp_byte_at; [apply Hv; lia|]. apply wp_ret. pose proof (u8_range (lw_data s ps)).
      rewrite Z.shiftl_mul_pow2 by lia. rewrite (u16_small (_ * _)), u32_small by zlia. split; [done|]. split; [lia|zlia].
    + apply wp_ret. replace n with 0 in H5 by lia. change (lw_bytes s ps 0) with (@nil Z) in H5. cbn [wsum] in H5. split; [done|]. split; [lia|zlia].
  - intros x s' (-> & He & Hb). apply wp_ret. by rewrite (chksum_1_end x (lw_bytes s a len)) by (done || apply lw_bytes_range).
Qed.

(** ** Version 3 *)

Lemma lw_bytes_4 s a : lw_bytes s a 4 = [u8 (lw_data s a); u8 (lw_data s (a + 1)); u8 (lw_data s (a + 1 + 1)); u8 (lw_data s (a + 1 + 1 + 1))].
Proof. change 4 with (1 + (1 + (1 + (1 + 0)))). by rewrite !lw_bytes_1 by lia. Qed.

Lemma wp_word_at s a (Q : Z -> lwip -> Prop) : a mod 4 = 0 -> (forall x, a <= x < a + 4 -> lw_valid s x = true) ->
  (forall w, 0 <= w < 2 ^ 32 -> oc w = oc (wsum false (lw_bytes s a 4)) -> Q w s) -> wp (word_at a) s Q.
Proof.
  intros Ha Hv HQ. apply wp_step, wp_defined_if; [by apply Z.eqb_eq|]. apply wp_step, wp_lw_read; [done|]. apply wp_ret.
  rewrite lw_bytes_4 in *. cbn [nth wsum negb] in *.
  pose proof (u8_range (lw_data s a)). pose proof (u8_range (lw_data s (a + 1))). pose proof (u8_range (lw_data s (a + 1 + 1))).
  pose proof (u8_range (lw_data s (a + 1 + 1 + 1))). rewrite !Z.shiftl_mul_pow2 by lia.
  apply HQ; [lia|]. apply (oc_intro _ _ (u8 (lw_data s (a + 1 + 1)) + 256 * u8 (lw_data s (a + 1 + 1 + 1)))); lia.
Qed.

(** An addition of 32 bits whose carry is added back. *)
Lemma carry_back sum w : 0 <= sum < 2 ^ 32 -> 0 <= w < 2 ^ 32 ->
  let tmp := u32 (sum + w) in let r := if tmp <? sum then u32 (tmp + 1) else tmp in 0 <= r < 2 ^ 32 /\ oc r = oc (sum + w).
Proof.
  intros Hs Hw tmp r. pose proof (u32_range (sum + w)) as Ht. fold tmp in Ht.
  destruct (Z.lt_ge_cases (sum + w) (2 ^ 32)) as [Hc|Hc].
  - assert (tmp = sum + w) as E by (apply u32_small; lia). unfold r. destruct (Z.ltb_spec tmp sum); [lia|]. split; [lia|by rewrite E].
  - assert (tmp = sum + w - 2 ^ 32) as E by (unfold tmp, u32; zlia).
    unfold r. destruct (Z.ltb_spec tmp sum); [|lia]. rewrite u32_small by lia. split; [lia|]. apply (oc_intro _ _ (-65537)); lia.
Qed.

Lemma oc_add_l x y z : 0 <= x -> 0 <= y -> 0 <= z -> oc x = oc y -> oc (x + z) = oc (y + z).
Proof. intros. by apply oc_add. Qed.

Lemma oc_add_r x y z : 0 <= x -> 0 <= y -> 0 <= z -> oc x = oc y -> oc (z + x) = oc (z + y).
Proof. intros. by apply oc_add. Qed.

Lemma bytes_nonneg s a n : 0 <= wsum false (lw_bytes s a n).
Proof. apply wsum_nonneg, lw_bytes_range. Qed.

Lemma wp_sum_words s fuel : forall pl len sum (Q : Z * Z * Z -> lwip -> Prop),
  pl mod 4 = 0 \/ len <= 1 -> (forall x, pl <= x < pl + len -> lw_valid s x = true) -> 0 <= len < Z.of_nat fuel -> 0 <= sum < 2 ^ 32 ->
  (forall ps n sum', ps mod 2 = 0 \/ n <= 1 -> pl <= ps -> 0 <= n <= 7 -> ps + n = pl + len -> 0 <= sum' < 2 ^ 32 ->
     oc (sum' + wsum false (lw_bytes s ps n)) = oc (sum + wsum false (lw_bytes s pl len)) -> Q (ps, n, sum') s) ->
  wp (sum_words fuel pl len sum) s Q.
Proof.
  induction fuel as [|fuel IH]; intros pl len sum Q Ha Hv Hl Hs HQ; [lia|]. cbn [sum_words]. destruct (Z.ltb_spec 7 len).
  - destruct Ha as [Ha|]; [|lia]. apply wp_step, wp_word_at; [done|intros x Hx; apply Hv; lia|]. intros w Hw Ew.
    apply wp_step, wp_word_at; [zlia|intros x Hx; apply Hv; lia|]. intros w' Hw' Ew'.
    pose proof (carry_back sum w Hs Hw) as [Hr1 E1]. set (r1 := if u32 (sum + w) <? sum then u32 (u32 (sum + w) + 1) else u32 (sum + w)) in *.
    pose proof (carry_back r1 w' Hr1 Hw') as [Hr2 E2]. set (r2 := if u32 (r1 + w') <? r1 then u32 (u32 (r1 + w') + 1) else u32 (r1 + w')) in *.
    apply IH; [left; zlia|intros x Hx; apply Hv; lia|lia|done|]. intros ps n sum' H1 H2 H3 H4 H5 H6. apply HQ; [done|lia..|]. rewrite H6.
    replace len with (4 + (4 + (len - 8))) at 2 by lia. rewrite !even_split by (done || lia). replace (pl + 4 + 4) with (pl + 8) by lia.
    pose proof (bytes_nonneg s pl 4). pose proof (bytes_nonneg s (pl + 4) 4). pose proof (bytes_nonneg s (pl + 8) (len - 8)).
    rewrite !Z.add_assoc. apply oc_add_l; [lia..|]. rewrite E2. apply oc_add; try lia. rewrite E1. by apply oc_add_r; try lia.
  - apply wp_ret, HQ; try lia. destruct Ha; [left; zlia|by right].
Qed.

Lemma land_3 a : (a .& 3 =? 0) = (a mod 4 =? 0).
Proof. change 3 with (Z.ones 2). by rewrite Z.land_ones by lia. Qed.

Lemma wp_lwip_standard_chksum_3 s fuel a len (Q : Z -> lwip -> Prop) :
  (forall x, a <= x < a + len -> lw_valid s x = true) -> 0 <= len <= 0x20000 -> len < Z.of_nat fuel ->
  Q (internet_sum (lw_bytes s a len)) s -> wp (lwip_standard_chksum_3 fuel a len) s Q.
Proof.
  intros Hv Hl Hf HQ. unfold lwip_standard_chksum_3. rewrite land_1. apply wp_step, wp_align_head; [done|lia|].
  intros b ps n Hps Ha Hn Hr Hb HW. cbv iota beta. apply wp_step.
  apply (wp_mono _ _ (fun r s' => s' = s /\ exists ps1 n1 sum1, r = (ps1, n1, sum1) /\ (ps1 mod 4 = 0 \/ n1 <= 1) /\ a <= ps1 /\ ps1 + n1 = a + len /\
    0 <= n1 <= len /\ 0 <= sum1 < 65536 /\ sum1 + wsum false (lw_bytes s ps1 n1) = wsum false (lw_bytes s ps n))).
  { rewrite land_3. destruct (Z.eqb_spec (ps mod 4) 0); [|destruct (Z.ltb_spec 1 n)]; cbn [negb andb].
    - apply wp_ret. split; [done|]. exists ps, n, 0. repeat split; (done || lia || by left).
    - destruct Hps as [Hps|]; [|lia]. apply wp_step, wp_half_at; [done|intros x Hx; apply Hv; lia|]. apply wp_ret. split; [done|].
      pose proof (bytes_nonneg s ps 2). pose proof (wsum_bound _ (lw_bytes_range s ps 2)) as Hw. rewrite lw_bytes_length in Hw.
      change ((Z.of_nat (Z.to_nat 2) + 1) / 2) with 1 in Hw. rewrite u32_small by lia.
      exists (ps + 2), (n - 2), (0 + wsum false (lw_bytes s ps 2)). repeat split; try lia; [left; zlia|].
      replace n with (2 + (n - 2)) at 2 by lia. rewrite even_split by (done || lia). lia.
    - apply wp_ret. split; [done|]. exists ps, n, 0. repeat split; (done || lia || by right). }
  intros r s' (-> & ps1 & n1 & sum1 & -> & H1 & H2 & H3 & H4 & H5 & H6). cbv iota beta.
  apply wp_step, wp_sum_words; [done|intros x Hx; apply Hv; lia|lia|lia|]. intros ps2 n2 sum2 K1 K2 K3 K4 K5 K6. cbv iota beta.
  pose proof (FOLD_range sum2 K5). pose proof (bytes_nonneg s ps2 n2). pose proof (bytes_nonneg s ps1 n1).
  apply (wp_sum_tail s fuel b ps2 n2 (FOLD_U32T sum2) (fun sum => ret (u16 (if negb (a mod 2 =? 0) then
    SWAP_BYTES_IN_WORD (FOLD_U32T (FOLD_U32T sum)) else FOLD_U32T (FOLD_U32T sum))))); [done|intros x Hx; apply Hv; lia|lia|done|lia|zlia|].
  cbn zeta. intros Hs. apply wp_ret. rewrite (chksum_end _ _ (lw_bytes s a len)); [done|apply lw_bytes_range|done|].
  rewrite HW, <- H6, (Z.add_comm (FOLD_U32T sum2)), <- Z.add_assoc. apply oc_add_r; [lia..|]. rewrite <- K6.
  apply oc_add_l; [lia..|]. by apply oc_FOLD.
Qed.

(** ** Detection *)

Lemma wsum_insert l : forall i o b old, l !! i = Some old ->
  wsum o (<[i := b]> l) = wsum o l + (if xorb o (Nat.odd i) then 256 else 1) * (b - old).
Proof.
  induction l as [|x l IH]; intros i o b old Hi; [done|]. destruct i as [|i]; cbn [lookup list_lookup] in Hi.
  - injection Hi as ->. change (<[0%nat := b]> (old :: l)) with (b :: l). cbn [wsum]. change (Nat.odd 0) with false. rewrite xorb_false_r. destruct o; lia.
  - change (<[S i := b]> (x :: l)) with (x :: <[i := b]> l). cbn [wsum]. rewrite (IH i (negb o) b old Hi), Nat.odd_succ, <- Nat.negb_odd.
    destruct o, (Nat.odd i); cbn; lia.
Qed.

Lemma lw_bytes_lookup s a n i : (i < Z.to_nat n)%nat -> lw_bytes s a n !! i = Some (u8 (lw_data s (a + Z.of_nat i))).
Proof. intros H. unfold lw_bytes, zrange. rewrite list_lookup_fmap, lookup_seqZ_lt by lia. done. Qed.

Lemma lw_bytes_put s a n i b : 0 <= i < n -> 0 <= b < 256 ->
  lw_bytes (with_data (overlaid (lw_data s) (a + i) [b]) s) a n = <[Z.to_nat i := b]> (lw_bytes s a n).
Proof.
  intros Hi Hb. apply list_eq. intros j. destruct (decide (j < Z.to_nat n)%nat) as [Hj|Hj].
  - rewrite lw_bytes_lookup by done. cbn [lw_data with_data]. destruct (decide (j = Z.to_nat i)) as [->|Hne].
    + rewrite list_lookup_insert_eq by (rewrite lw_bytes_length; lia). rewrite (overlaid_in _ _ _ _ b); [by rewrite u8_small|].
      replace (a + Z.of_nat (Z.to_nat i) - (a + i)) with 0 by lia. done.
    + rewrite list_lookup_insert_ne, lw_bytes_lookup by done. rewrite overlaid_out; [done|]. cbn. lia.
  - rewrite !lookup_ge_None_2; rewrite ?length_insert, ?lw_bytes_length; (done || lia).
Qed.

(** A sum whose complement is zero. *)
Lemma sum_all_ones l : bytes_ok l -> internet_sum l = 65535 <-> wsum false l <> 0 /\ wsum false l mod 65535 = 0.
Proof.
  intros Hl. rewrite internet_sum_oc by done. pose proof (wsum_nonneg false l Hl) as Hn. unfold oc.
  destruct (Z.eqb_spec (wsum false l) 0); [lia|]. split; [intros H; split; [done|zlia]|intros [_ H]; zlia].
Qed.

Lemma insert_ok (l : list Z) i b : bytes_ok l -> 0 <= b < 256 -> bytes_ok (<[i := b]> l).
Proof. intros Hl Hb. by apply Forall_insert. Qed.

(** With the complement of its sum in a field that was zero, a list of bytes sums up to ones. *)
Lemma complement_sums_up l i : bytes_ok l -> Nat.odd i = false -> l !! i = Some 0 -> l !! S i = Some 0 ->
  let c := 65535 - internet_sum l in internet_sum (<[S i := c / 256]> (<[i := c mod 256]> l)) = 65535.
Proof.
  intros Hl He H0 H1 c. pose proof (wsum_nonneg false l Hl) as Hn. pose proof (oc_range _ Hn) as Hr.
  assert (0 <= c < 65536) as Hc by (unfold c; rewrite internet_sum_oc by done; lia).
  apply sum_all_ones; [repeat apply insert_ok; (done || zlia)|].
  rewrite (wsum_insert _ _ _ _ 0) by (rewrite list_lookup_insert_ne; [done|lia]). rewrite (wsum_insert _ _ _ _ 0) by done.
  rewrite Nat.odd_succ, <- Nat.negb_odd, He. cbn [xorb negb].
  replace (wsum false l + 1 * (c mod 256 - 0) + 256 * (c / 256 - 0)) with (wsum false l + c) by zlia.
  unfold c in *. rewrite internet_sum_oc in * by done. clear c. unfold oc in *. destruct (Z.eqb_spec (wsum false l) 0) as [->|]; [done|]. zlia.
Qed.

(** One byte that differs makes the sum differ. *)
Lemma byte_shows l i b old : bytes_ok l -> l !! i = Some old -> 0 <= b < 256 -> internet_sum l = 65535 ->
  internet_sum (<[i := b]> l) = 65535 <-> b = old.
Proof.
  intros Hl Hi Hb Hs. apply sum_all_ones in Hs as [Hs0 Hs]; [|done]. pose proof (wsum_nonneg false _ Hl) as Hn.
  pose proof (Forall_lookup_1 _ _ _ _ Hl Hi) as Ho. pose proof (wsum_nonneg false _ (insert_ok l i b Hl Hb)) as Hn'.
  rewrite sum_all_ones by (by apply insert_ok). rewrite (wsum_insert _ _ _ _ old) in * by done.
  cbn beta in Ho. revert Hn'. destruct (xorb false (Nat.odd i)); intros Hn'; (split; [intros [H1 H2]; zlia|intros ->; rewrite Z.sub_diag, Z.mul_0_r, Z.add_0_r; done]).
Qed.

Lemma wp_inet_chksum s fuel a len (Q : Z -> lwip -> Prop) :
  (forall x, a <= x < a + len -> lw_valid s x = true) -> 0 <= len <= 0x20000 -> len < Z.of_nat fuel ->
  Q (65535 - internet_sum (lw_bytes s a len)) s -> wp (inet_chksum fuel a len) s Q.
Proof.
  intros Hv Hl Hf HQ. apply wp_step, wp_lwip_standard_chksum; [done..|]. apply wp_ret.
  assert (0 <= internet_sum (lw_bytes s a len) < 65536) as Hr.
  { rewrite internet_sum_oc by apply lw_bytes_range. apply oc_range, wsum_nonneg, lw_bytes_range. }
  rewrite <- not_16 in HQ by done. change 0xFFFF with (Z.ones 16) in HQ. by rewrite Z.land_ones, Z.mod_small in HQ by (done || lia).
Qed.

Lemma wp_half_put s a n i v (Q : unit -> lwip -> Prop) : (a + i) mod 2 = 0 -> 0 <= i -> i + 2 <= n -> 0 <= v < 65536 ->
  (forall x, a <= x < a + n -> lw_valid s x = true) ->
  (forall s', lw_valid s' = lw_valid s -> lw_bytes s' a n = <[S (Z.to_nat i) := v / 256]> (<[Z.to_nat i := v mod 256]> (lw_bytes s a n)) -> Q tt s') ->
  wp (half_put (a + i) v) s Q.
Proof.
  intros He Hi Hn Hv Hval HQ. apply wp_step, wp_defined_if; [by apply Z.eqb_eq|].
  apply wp_lw_write; [intros x Hx; cbn in Hx; apply Hval; lia|]. apply HQ; [done|].
  change 0xFF with (Z.ones 8). rewrite Z.land_ones, Z.shiftr_div_pow2 by lia. change (2 ^ 8) with 256.
  rewrite <- lw_bytes_put by zlia. replace (S (Z.to_nat i)) with (Z.to_nat (i + 1)) by lia. rewrite <- lw_bytes_put by zlia.
  apply lw_bytes_agree. intros x _. cbn [lw_data with_data]. rewrite Z.add_assoc. by rewrite (overlaid_app _ (a + i) [v mod 256] [v / 256]).
Qed.

(** * The properties *)

(** The three versions of lwip_standard_chksum compute the same: the ones' complement sum of the
    16-bit words of the bytes, whatever the alignment and for odd lengths too, up to the
    length of 0x20000 that the comment in the source names; no access to memory is misaligned
    or out of range. *)
Theorem lwip_standard_chksum_versions s fuel a len :
  (forall x, a <= x < a + len -> lw_valid s x = true) -> 0 <= len <= 0x20000 -> len < Z.of_nat fuel ->
  let is_sum (r : Z) s' := s' = s /\ r = internet_sum (lw_bytes s a len) in
  wp (lwip_standard_chksum_1 fuel a len) s is_sum /\ wp (lwip_standard_chksum fuel a len) s is_sum /\
  wp (lwip_standard_chksum_3 fuel a len) s is_sum.
Proof.
  intros Hv Hl Hf is_sum. split; [|split]; [apply wp_lwip_standard_chksum_1|apply wp_lwip_standard_chksum|apply wp_lwip_standard_chksum_3]; done.
Qed.

(** C26: a header with the checksum in its field verifies, and with one byte of it changed it does
    not: the second sum is zero, the third one is zero only if the byte is what it was. *)
Theorem inet_chksum_verifies s fuel a len off i b :
  (forall x, a <= x < a + len -> lw_valid s x = true) -> 0 <= len <= 0x20000 -> len < Z.of_nat fuel ->
  0 <= off -> off + 2 <= len -> off mod 2 = 0 -> a mod 2 = 0 -> lw_bytes s (a + off) 2 = [0; 0] -> 0 <= i < len -> 0 <= b < 256 ->
  wp (c <- inet_chksum fuel a len ;; half_put (a + off) c ;; r <- inet_chksum fuel a len ;;
      old <- byte_at (a + i) ;; lw_write (a + i) [b] ;; r' <- inet_chksum fuel a len ;; ret (r, old, r')) s
    (fun '(r, old, r') _ => r = 0 /\ (r' = 0 <-> b = old)).
Proof.
  intros Hv Hl Hf Ho Ho2 Hoe Hae H00 Hi Hb. apply wp_step, wp_inet_chksum; [done..|].
  pose proof (lw_bytes_range s a len) as Hr. pose proof (oc_range _ (wsum_nonneg false _ Hr)) as Hc. rewrite <- internet_sum_oc in Hc by done.
  apply wp_step, (wp_half_put s a len); [zlia|lia|lia|lia|done|]. intros s1 Hv1 Hs1.
  assert (lw_bytes s a len !! Z.to_nat off = Some 0 /\ lw_bytes s a len !! S (Z.to_nat off) = Some 0) as [E0 E1].
  { rewrite lw_bytes_2 in H00. injection H00 as E0 E1. rewrite !lw_bytes_lookup by lia.
    replace (a + Z.of_nat (Z.to_nat off)) with (a + off) by lia. replace (a + Z.of_nat (S (Z.to_nat off))) with (a + off + 1) by lia. by rewrite E0, E1. }
  assert (internet_sum (lw_bytes s1 a len) = 65535) as Hs.
  { rewrite Hs1. apply complement_sums_up; [done| |done|done]. apply not_true_is_false. intros [k Hk]%Nat.odd_spec. zlia. }
  apply wp_step, wp_inet_chksum; [by rewrite Hv1|done|done|]. apply wp_step, wp_byte_at; [rewrite Hv1; apply Hv; lia|].
  apply wp_step, wp_lw_write; [intros x Hx; cbn in Hx; rewrite Hv1; apply Hv; lia|]. apply wp_step, wp_inet_chksum; [cbn; by rewrite Hv1|done|done|].
  apply wp_ret. split; [lia|]. rewrite lw_bytes_put by done.
  assert (lw_bytes s1 a len !! Z.to_nat i = Some (u8 (lw_data s1 (a + i)))) as Ei.
  { rewrite lw_bytes_lookup by lia. by replace (a + Z.of_nat (Z.to_nat i)) with (a + i) by lia. }
  pose proof (byte_shows _ _ b _ (lw_bytes_range s1 a len) Ei Hb Hs). lia.
Qed.
End chksum.

(** * An instance *)

(** Five bytes from an odd address on. *)
Lemma lwip_standard_chksum_versions_witness :
  wp (lwip_standard_chksum_1 9 0x20078001 5) (with_data (fun x => x) lw_static) (fun r _ => r = 0x0201 + 0x0403 + 0x0005) /\
  wp (lwip_standard_chksum 9 0x20078001 5) (with_data (fun x => x) lw_static) (fun r _ => r = 0x0201 + 0x0403 + 0x0005) /\
  wp (lwip_standard_chksum_3 9 0x20078001 5) (with_data (fun x => x) lw_static) (fun r _ => r = 0x0201 + 0x0403 + 0x0005).
Proof.
  destruct (lwip_standard_chksum_versions (with_data (fun x => x) lw_static) 9 0x20078001 5) as (H1 & H2 & H3); [|lia|lia|].
  { intros x Hx. cbn. destruct (Z.leb_spec 0x20040000 x), (Z.ltb_spec x 0x20080000); (done || lia). }
  split; [|split]; (eapply wp_mono; [eassumption|]); intros r s' [_ ->]; vm_compute; reflexivity.
Defined.

(** A header of 20 zero bytes whose third half-word is the checksum, and a byte of it that becomes 7. *)
Lemma inet_chksum_verifies_witness :
  wp (c <- inet_chksum 30 0x20078000 20 ;; half_put (0x20078000 + 10) c ;; r <- inet_chksum 30 0x20078000 20 ;;
      old <- byte_at (0x20078000 + 3) ;; lw_write (0x20078000 + 3) [7] ;; r' <- inet_chksum 30 0x20078000 20 ;; ret (r, old, r')) lw_static
    (fun '(r, old, r') _ => r = 0 /\ (r' = 0 <-> 7 = old)).
Proof.
  apply (inet_chksum_verifies lw_static 30 0x20078000 20 10 3 7); try lia; try reflexivity.
  intros x Hx. cbn. destruct (Z.leb_spec 0x20040000 x), (Z.ltb_spec x 0x20080000); (done || lia).
Defined.
