(* ===== verification/ChksumChain.v ===== *)
(** The checksums over chains of packet buffers, with and without a pseudo header, of
    lwip-2.1.2/src/core/inet_chksum.c: what they compute is a sum over the bytes of the packet. *)
From S2P Require Import Prelude Machine LwMem LwHeap Pbuf PbufCopy PbufChain PbufAlloc PbufData Chksum.
From stdpp Require Import list gmap.

#[local] Open Scope Z_scope.
#[local] Open Scope fw_scope.

Section chksum.
Context {P : Pools}.
Implicit Types s : lwip.

(** * Chains *)

(** What a sum whose bytes are swapped stands for. *)
Definition swapped_sum (sw : bool) (x : Z) : Z := if sw then 256 * x else x.

Lemma swapped_oc sw x y : 0 <= x -> 0 <= y -> oc x = oc y -> oc (swapped_sum sw x) = oc (swapped_sum sw y).
Proof. destruct sw; [apply oc_mul|done]. Qed.

(** One round of the loops over a chain. *)
Lemma chain_step acc sw x l (odd : bool) : 0 <= acc < 65536 -> 0 <= x -> bytes_ok l -> oc acc = oc (swapped_sum sw x) ->
  let acc1 := FOLD_U32T (u32 (acc + internet_sum l)) in
  let acc2 := if odd then u32 (SWAP_BYTES_IN_WORD acc1) else acc1 in
  0 <= acc2 < 65536 /\ oc acc2 = oc (swapped_sum (xorb odd sw) (x + wsum sw l)).
Proof.
  intros Ha Hx Hl He acc1 acc2. pose proof (wsum_nonneg false l Hl) as Hn. pose proof (wsum_nonneg sw l Hl) as Hn'.
  pose proof (oc_range _ Hn) as Hr. assert (acc1 = oc (acc + wsum false l)) as E1.
  { unfold acc1. rewrite internet_sum_oc, u32_small, FOLD_oc by (done || lia). apply oc_add_r; try lia. by apply oc_oc. }
  assert (oc acc1 = oc (swapped_sum sw (x + wsum sw l))) as E.
  { rewrite E1, oc_oc by lia. transitivity (oc (swapped_sum sw x + wsum false l)); [apply oc_add_l; try lia; destruct sw; cbn; lia|].
    destruct sw; cbn [swapped_sum]; [|done]. rewrite Z.mul_add_distr_l. apply oc_add_r; try lia. apply (wsum_swap l Hl true). }
  pose proof (oc_range (acc + wsum false l) ltac:(lia)) as Hr1. unfold acc2. destruct odd; [|split; [lia|done]].
  rewrite E1 in E. rewrite E1, SWAP_oc by lia. pose proof (oc_range (256 * (acc + wsum false l)) ltac:(lia)) as Hr2.
  rewrite u32_small by lia. split; [done|]. rewrite oc_oc by lia. rewrite oc_oc in E by lia.
  transitivity (oc (256 * swapped_sum sw (x + wsum sw l))); [apply oc_mul; try lia; destruct sw; cbn; lia|].
  destruct sw; cbn [swapped_sum xorb]; [|done]. apply oc_mul_mul. lia.
Qed.

Lemma chain_end acc sw x : 0 <= acc < 65536 -> 0 <= x -> oc acc = oc (swapped_sum sw x) ->
  (if sw then SWAP_BYTES_IN_WORD acc else acc) = oc x.
Proof.
  intros Ha Hx He. destruct sw; cbn [swapped_sum] in He.
  - rewrite <- (oc_small acc) by done. rewrite SWAP_oc by lia. transitivity (oc (256 * (256 * x))); [apply oc_mul; (lia || done)|by apply oc_mul_mul].
  - by rewrite <- (oc_small acc).
Qed.

Lemma odd_len sw n : 0 <= n -> xorb sw (Nat.odd (Z.to_nat n)) = xorb (negb (n mod 2 =? 0)) sw.
Proof.
  intros Hn. rewrite xorb_comm. f_equal. destruct (Z.eqb_spec (n mod 2) 0); cbn [negb].
  - apply not_true_is_false. intros [k Hk]%Nat.odd_spec. zlia.
  - apply Nat.odd_spec. exists (Z.to_nat (n / 2)). zlia.
Qed.

Lemma wp_chksum_chain s l : forall fuel q acc sw x (Q : Z * bool -> lwip -> Prop),
  pseg (lw_cells s) q l 0 -> packet l -> owned s l -> Z.of_nat (length l) + sum_len l < Z.of_nat fuel ->
  0 <= acc < 65536 -> 0 <= x -> oc acc = oc (swapped_sum sw x) ->
  (forall acc' sw', 0 <= acc' < 65536 -> oc acc' = oc (swapped_sum sw' (x + wsum sw (contents s l))) -> Q (acc', sw') s) ->
  wp (chksum_chain fuel q acc sw) s Q.
Proof.
  induction l as [|[a b] l IH]; intros fuel q acc sw x Q Hl Hp Ho Hf Ha Hx He HQ; (destruct fuel as [|fuel]; [pose proof (sum_len_nonneg _ Hp); lia|]); cbn [chksum_chain].
  - cbn in Hl. subst q. apply wp_ret, HQ; [done|]. by rewrite Z.add_0_r.
  - destruct Hl as (-> & Ha0 & Hab & Hl). apply packet_cons in Hp as (Hb & _ & _ & Hsum & Hp). apply owned_cons in Ho as [Hob Ho]. cbn [length sum_len] in Hf.
    destruct (Z.eqb_spec a 0) as [?|_]; [done|]. cbn [negb]. apply wp_step, (wp_pbuf_at _ b); [done|].
    apply wp_step, wp_lwip_standard_chksum; [done|lia|lia|].
    pose proof (chain_step acc sw x (lw_bytes s (pb_payload b) (pb_len b)) (negb (pb_len b mod 2 =? 0)) Ha Hx (lw_bytes_range _ _ _) He) as [Hr E].
    assert (forall acc' sw', 0 <= acc' < 65536 -> oc acc' = oc (swapped_sum sw' (x + wsum sw (lw_bytes s (pb_payload b) (pb_len b)) +
      wsum (xorb (negb (pb_len b mod 2 =? 0)) sw) (contents s l))) -> Q (acc', sw') s) as HQ'.
    { intros acc' sw' H1 H2. apply HQ; [done|]. rewrite contents_cons, wsum_app, lw_bytes_length, odd_len, Z.add_assoc by lia. done. }
    pose proof (wsum_nonneg sw _ (lw_bytes_range s (pb_payload b) (pb_len b))).
    destruct (negb (pb_len b mod 2 =? 0)); cbn [xorb] in *; (eapply IH; [done|done|done|lia|done| |exact E|exact HQ']; lia).
Qed.

Lemma wp_inet_chksum_pbuf s l fuel (Q : Z -> lwip -> Prop) : in_memory s l -> Z.of_nat (length l) + sum_len l < Z.of_nat fuel ->
  Q (65535 - internet_sum (contents s l)) s -> wp (inet_chksum_pbuf fuel (first_of l 0)) s Q.
Proof.
  intros [Hl Hp Ho _] Hf HQ. apply wp_step, (wp_chksum_chain s l fuel _ 0 false 0); try done; try lia.
  intros acc sw Ha He. pose proof (contents_range s l) as Hc. pose proof (wsum_nonneg false _ Hc). apply wp_ret.
  rewrite (chain_end acc sw (0 + wsum false (contents s l))) by (lia || done). rewrite Z.add_0_l, not_16, <- internet_sum_oc by (done || by apply oc_range).
  done.
Qed.

Lemma wp_chksum_chain_partial s l : forall fuel q len acc sw x (Q : Z * bool -> lwip -> Prop),
  pseg (lw_cells s) q l 0 -> packet l -> owned s l -> Z.of_nat (length l) + sum_len l < Z.of_nat fuel ->
  0 <= len < 65536 -> 0 <= acc < 65536 -> 0 <= x -> oc acc = oc (swapped_sum sw x) ->
  (forall acc' sw', 0 <= acc' < 65536 -> oc acc' = oc (swapped_sum sw' (x + wsum sw (take (Z.to_nat len) (contents s l)))) -> Q (acc', sw') s) ->
  wp (chksum_chain_partial fuel q len acc sw) s Q.
Proof.
  induction l as [|[a b] l IH]; intros fuel q len acc sw x Q Hl Hp Ho Hf Hlen Ha Hx He HQ;
    (destruct fuel as [|fuel]; [pose proof (sum_len_nonneg _ Hp); lia|]); cbn [chksum_chain_partial].
  - cbn in Hl. subst q. apply wp_ret, HQ; [done|]. change (contents s []) with (@nil Z). by rewrite take_nil, Z.add_0_r.
  - destruct Hl as (-> & Ha0 & Hab & Hl). apply packet_cons in Hp as (Hb & _ & _ & Hsum & Hp). apply owned_cons in Ho as [Hob Ho]. cbn [length sum_len] in Hf.
    destruct (Z.eqb_spec a 0) as [?|_]; [done|]. destruct (Z.ltb_spec 0 len); cbn [negb andb].
    2: { apply wp_ret, HQ; [done|]. replace (Z.to_nat len) with 0%nat by lia. by rewrite Z.add_0_r. }
    apply wp_step, (wp_pbuf_at _ b); [done|].
    set (n := if len <? pb_len b then len else pb_len b). assert (n = Z.min len (pb_len b)) as En by (unfold n; destruct (Z.ltb_spec len (pb_len b)); lia). clearbody n.
    apply wp_step, wp_lwip_standard_chksum; [intros y Hy; apply Hob; lia|lia|lia|]. rewrite (u16_small (len - n)) by lia.
    pose proof (chain_step acc sw x (lw_bytes s (pb_payload b) n) (negb (pb_len b mod 2 =? 0)) Ha Hx (lw_bytes_range _ _ _) He) as [Hr E].
    assert (forall acc' sw', 0 <= acc' < 65536 -> oc acc' = oc (swapped_sum sw' (x + wsum sw (lw_bytes s (pb_payload b) n) +
      wsum (xorb (negb (pb_len b mod 2 =? 0)) sw) (take (Z.to_nat (len - n)) (contents s l)))) -> Q (acc', sw') s) as HQ'.
    { intros acc' sw' H1 H2. apply HQ; [done|]. rewrite contents_cons, take_app, lw_bytes_length, wsum_app, Z.add_assoc.
      destruct (Z.le_gt_cases (pb_len b) len).
      - replace n with (pb_len b) in * by lia. rewrite take_ge, lw_bytes_length, odd_len by (rewrite ?lw_bytes_length; lia).
        by replace (Z.to_nat len - Z.to_nat (pb_len b))%nat with (Z.to_nat (len - pb_len b)) by lia.
      - replace n with len in * by lia. replace (Z.to_nat len - Z.to_nat (pb_len b))%nat with 0%nat by lia.
        pose proof (lw_bytes_slice s (pb_payload b) (pb_len b) 0 len ltac:(lia) ltac:(lia) ltac:(lia)) as Es. change (Z.to_nat 0) with 0%nat in Es.
        rewrite drop_0, Z.add_0_r in Es. rewrite Es. by rewrite Z.sub_diag in H2. }
    pose proof (wsum_nonneg sw _ (lw_bytes_range s (pb_payload b) n)).
    destruct (negb (pb_len b mod 2 =? 0)); cbn [xorb] in *; (eapply IH; [done|done|done|lia|lia|done| |exact E|exact HQ']; lia).
Qed.

(** ** The pseudo header *)

(** The pseudo header of RFC 768: the addresses, a zero byte, the protocol and the length. *)
Definition le_bytes4 (v : Z) : list Z := [v mod 256; v / 256 mod 256; v / 65536 mod 256; v / 16777216 mod 256].
Definition pseudo_header (src dest proto proto_len : Z) : list Z :=
  le_bytes4 src ++ le_bytes4 dest ++ [0; proto; proto_len / 256; proto_len mod 256].

Lemma halves_alt v : 0 <= v < 2 ^ 32 -> v .& 0xFFFF = v mod 65536 /\ (v .>> 16) .& 0xFFFF = v / 65536.
Proof.
  intros Hv. change 0xFFFF with (Z.ones 16). rewrite !Z.land_ones, Z.shiftr_div_pow2 by lia. change (2 ^ 16) with 65536.
  split; [done|]. apply Z.mod_small. zlia.
Qed.

Lemma addresses_sum_oc src dest : 0 <= src < 2 ^ 32 -> 0 <= dest < 2 ^ 32 ->
  addresses_sum src dest = oc (wsum false (le_bytes4 src ++ le_bytes4 dest)).
Proof.
  intros Hs Hd. unfold addresses_sum. destruct (halves_alt src Hs) as [-> ->], (halves_alt dest Hd) as [-> ->].
  rewrite (u32_small (src mod 65536 + _)) by zlia. rewrite (u32_small (_ + dest mod 65536)) by zlia. rewrite u32_small by zlia.
  rewrite FOLD_FOLD by zlia. f_equal. unfold le_bytes4. cbn [app wsum negb]. zlia.
Qed.

Lemma pseudo_end_oc acc sw x proto proto_len : 0 <= acc < 65536 -> 0 <= x -> oc acc = oc (swapped_sum sw x) ->
  0 <= proto < 256 -> 0 <= proto_len < 65536 ->
  pseudo_end proto proto_len acc sw = 65535 - oc (x + (256 * proto + (proto_len / 256 + 256 * (proto_len mod 256)))).
Proof.
  intros Ha Hx He Hp Hl. unfold pseudo_end. rewrite (chain_end acc sw x) by done. rewrite !htons_alt by lia.
  pose proof (oc_range x Hx). rewrite (Z.mod_small proto), (Z.div_small proto) by lia.
  rewrite (u32_small (oc x + _)) by lia. rewrite u32_small, FOLD_FOLD, not_16 by (try apply oc_range; zlia).
  f_equal. transitivity (oc (oc x + (256 * proto + (proto_len / 256 + 256 * (proto_len mod 256))))); [f_equal; lia|].
  apply oc_add_l; try zlia. by apply oc_oc.
Qed.

Lemma pseudo_total x src dest proto proto_len l : 0 <= src < 2 ^ 32 -> 0 <= dest < 2 ^ 32 -> 0 <= proto < 256 -> 0 <= proto_len < 65536 -> bytes_ok l ->
  x = wsum false (le_bytes4 src ++ le_bytes4 dest) + wsum false l ->
  oc (x + (256 * proto + (proto_len / 256 + 256 * (proto_len mod 256)))) = internet_sum (pseudo_header src dest proto proto_len ++ l).
Proof.
  intros Hs Hd Hp Hn Hl ->. rewrite internet_sum_oc.
  - f_equal. unfold pseudo_header. cbn [app le_bytes4 wsum negb]. lia.
  - unfold pseudo_header, le_bytes4. cbn [app]. repeat (apply Forall_cons; split; [zlia|]). done.
Qed.

Lemma le4_nonneg src dest : 0 <= src < 2 ^ 32 -> 0 <= dest < 2 ^ 32 -> 0 <= wsum false (le_bytes4 src ++ le_bytes4 dest).
Proof. intros. cbn. zlia. Qed.

(** * The property *)

(** C25: the checksum functions over a packet compute the checksum of its bytes, whatever
    buffers they lie in: alone, behind the pseudo header of UDP and TCP, and for a part of the
    packet.  The part may have any length: the assertion chksum_len < 0x7fff in the loop of
    inet_cksum_pseudo_partial_base, which is compiled out, would refuse a longer rest although the
    result is right. *)
Theorem inet_chksum_pseudo_correct s l fuel src dest proto proto_len chksum_len :
  in_memory s l -> Z.of_nat (length l) + sum_len l < Z.of_nat fuel ->
  0 <= src < 2 ^ 32 -> 0 <= dest < 2 ^ 32 -> 0 <= proto < 256 -> 0 <= proto_len < 65536 -> 0 <= chksum_len < 65536 ->
  let sums_to (bs : list Z) (r : Z) s' := s' = s /\ r = 65535 - internet_sum bs in
  let p := first_of l 0 in
  wp (inet_chksum_pbuf fuel p) s (sums_to (contents s l)) /\
  wp (ip_chksum_pseudo fuel p proto proto_len src dest) s (sums_to (pseudo_header src dest proto proto_len ++ contents s l)) /\
  wp (ip_chksum_pseudo_partial fuel p proto proto_len chksum_len src dest) s
    (sums_to (pseudo_header src dest proto proto_len ++ slice s l 0 chksum_len)).
Proof.
  intros Hm Hf Hs Hd Hp Hn Hc sums_to p. pose proof (contents_range s l) as Hr. pose proof (slice_range s l 0 chksum_len) as Hr'.
  pose proof (le4_nonneg src dest Hs Hd) as Ha. pose proof (oc_range _ Ha) as Har.
  split; [by apply wp_inet_chksum_pbuf|]. destruct Hm as [Hl Hpk Ho _]. unfold slice in *. rewrite drop_0 in *.
  split; apply wp_step.
  - apply (wp_chksum_chain s l fuel _ _ false (wsum false (le_bytes4 src ++ le_bytes4 dest))); try done; rewrite ?addresses_sum_oc by done; [done|by apply oc_oc|].
    intros acc sw Hacc He. pose proof (wsum_nonneg false _ Hr). apply wp_ret. split; [done|]. cbn [fst snd].
    erewrite pseudo_end_oc, pseudo_total; [done|..|exact He|done|done]; (done || lia).
  - apply (wp_chksum_chain_partial s l fuel _ _ _ false (wsum false (le_bytes4 src ++ le_bytes4 dest))); try done; rewrite ?addresses_sum_oc by done; [done|by apply oc_oc|].
    intros acc sw Hacc He. pose proof (wsum_nonneg false _ Hr'). apply wp_ret. split; [done|]. cbn [fst snd].
    erewrite pseudo_end_oc, pseudo_total; [done|..|exact He|done|done]; (done || lia).
Qed.

End chksum.

(** * An instance *)
#[local] Existing Instance sim_pools.
#[local] Existing Instance sim_layout.

(** The checksum of a packet of 1500 bytes from 192.168.1.10 to 192.168.1.20. *)
Lemma inet_chksum_pseudo_correct_witness :
  wp (bind (bind (mem_init ;; memp_init) (fun _ => pbuf_alloc (fun _ => undef) 20 PBUF_RAW 1500 PBUF_POOL)) (fun p =>
        inet_chksum_pbuf (Z.to_nat 1600) p)) lw_static (fun r _ => 0 <= r < 65536).
Proof.
  apply wp_step, wp_sim_packet. intros l s fp Hl Hp Hsum Hlen Hf Hw Hnd Hr Hres Hv.
  destruct (inet_chksum_pseudo_correct s l (Z.to_nat 1600) 0x0A01A8C0 0x1401A8C0 17 1500 1500) as [H _]; try lia; [by apply sim_in_memory|].
  eapply wp_mono; [exact H|]. intros r s' [_ ->]. pose proof (oc_range _ (wsum_nonneg false _ (contents_range s l))).
  rewrite internet_sum_oc by apply contents_range. lia.
Defined.
