(* ===== verification/Timeouts.v ===== *)
(** The timers of the lwIP stack, lwip-2.1.2/src/core/timeouts.c, with the waiting of the
    stack's thread for a message or the next timer, of api/tcpip.c: the list of timeouts, whose
    elements come from a pool, the cyclic timers, and the clock of src/sys_arch.c. *)
From S2P Require Import Prelude Machine SysArch LwMem.
From stdpp Require Import list gmap.

#[local] Open Scope Z_scope.
#[local] Open Scope fw_scope.

(** * State *)

(** The globals of timeouts.c, with the memory of the stack. *)
Record tmo := Tmo { t_lw : lwip; next_timeout : Z; current_timeout_due_time : Z; tcpip_tcp_timer_active : Z }.

Definition put_lw (l : lwip) (g : tmo) : tmo := Tmo l (next_timeout g) (current_timeout_due_time g) (tcpip_tcp_timer_active g).
Definition put_next_timeout (a : Z) (g : tmo) : tmo := Tmo (t_lw g) a (current_timeout_due_time g) (tcpip_tcp_timer_active g).
Definition put_due (v : Z) (g : tmo) : tmo := Tmo (t_lw g) (next_timeout g) v (tcpip_tcp_timer_active g).
Definition put_tcp_active (v : Z) (g : tmo) : tmo := Tmo (t_lw g) (next_timeout g) (current_timeout_due_time g) v.

(** What is not in timeouts.c: where the compiler puts the two handlers and the table of
    the cyclic timers, what the handlers of the protocols do ([stack_tmr], by the number in the
    table; they do not touch the list of timeouts), whether there are TCP connections that need
    the timer, and the handlers that other code may register. *)
Class StackTimers (B : Bus) := {
  lwip_cyclic_timer_ : Z;
  tcpip_tcp_timer_ : Z;
  cyclic_table : Z;
  stack_tmr : Z -> hw -> hw;
  tcp_pcbs : hw -> bool;
  other_handler : Z -> Z -> hw -> hw;
}.

Definition LWIP_MAX_TIMEOUT : Z := 0x7FFFFFFF.
Definition SYS_TIMEOUTS_SLEEPTIME_INFINITE : Z := 0xFFFFFFFF.
Definition TCP_TMR_INTERVAL : Z := 250.
Definition IP_TMR_INTERVAL : Z := 1000.
Definition ARP_TMR_INTERVAL : Z := 1000.
Definition DHCP_COARSE_TIMER_MSECS : Z := 60 * 1000.
Definition DHCP_FINE_TIMER_MSECS : Z := 500.

(** The table for the configuration of inc/lwipopts.h: tcp_tmr, ip_reass_tmr, etharp_tmr,
    dhcp_coarse_tmr and dhcp_fine_tmr. *)
Definition lwip_cyclic_timers : list Z :=
  [TCP_TMR_INTERVAL; IP_TMR_INTERVAL; ARP_TMR_INTERVAL; DHCP_COARSE_TIMER_MSECS; DHCP_FINE_TIMER_MSECS].

(** [TIME_LESS_THAN]: [t] is before [compare_to], times modulo 2^32 being less than half of it apart. *)
Definition TIME_LESS_THAN (t compare_to : Z) : bool := LWIP_MAX_TIMEOUT <? u32 (t - compare_to).

#[export] Instance tmo_lwip : Has tmo lwip := {|
  part := t_lw; with_part := put_lw; part_with h g := eq_refl; with_same g := match g with Tmo _ _ _ _ => eq_refl end |}.

Section timeouts.
Context {B : Bus} {P : Pools} {T : StackTimers B}.
Abbreviation prog := (M (mach tmo)).

(** The address of an element of the table, and the element at an address. *)
Definition cyclic_entry (i : Z) : Z := cyclic_table + 8 * i.
Definition cyclic_at (arg : Z) : prog (Z * Z) :=
  let i := (arg - cyclic_table) / 8 in
  defined_if (arg =? cyclic_entry i) ;; interval <- deref (aget lwip_cyclic_timers i) ;; ret (i, interval).

Definition store_timeo (a : Z) (f : sys_timeo -> sys_timeo) : prog unit :=
  t <- in_lw (timeo_at a) ;; in_lw (put_cell a (Timeo (f t))).
Definition put_to_next (v : Z) (t : sys_timeo) : sys_timeo := SysTimeo v (to_time t) (to_h t) (to_arg t).
Definition put_to_time (v : Z) (t : sys_timeo) : sys_timeo := SysTimeo (to_next t) v (to_h t) (to_arg t).

(** * Operations *)

(** The loop of sys_timeout_abs that looks for the place. *)
Fixpoint insert_loop (fuel : nat) (t timeout abs_time : Z) : prog unit :=
  match fuel with
  | O => spin
  | S fuel =>
    if negb (t =? 0) then
      x <- in_lw (timeo_at t) ;;
      here <- (if to_next x =? 0 then ret true
               else y <- in_lw (timeo_at (to_next x)) ;; ret (TIME_LESS_THAN abs_time (to_time y))) ;;
      if here : bool then
        store_timeo timeout (put_to_next (to_next x)) ;;
        store_timeo t (put_to_next timeout)
      else insert_loop fuel (to_next x) timeout abs_time
    else ret tt
  end.

Definition sys_timeout_abs (fuel : nat) (abs_time handler arg : Z) : prog unit :=
  timeout <- in_lw (memp_malloc MEMP_SYS_TIMEOUT) ;;
  if timeout =? 0 then ret tt
  else
    in_lw (put_cell timeout (Timeo (SysTimeo 0 abs_time handler arg))) ;;
    g <- get_ ;;
    if next_timeout g =? 0 then modify_ (put_next_timeout timeout)
    else
      x <- in_lw (timeo_at (next_timeout g)) ;;
      if TIME_LESS_THAN abs_time (to_time x) then
        store_timeo timeout (put_to_next (next_timeout g)) ;; modify_ (put_next_timeout timeout)
      else insert_loop fuel (next_timeout g) timeout abs_time.

Definition sys_timeout (fuel : nat) (msecs handler arg : Z) : prog unit :=
  now <- sys_now ;; sys_timeout_abs fuel (u32 (now + msecs)) handler arg.

Definition tcpip_tcp_timer (fuel : nat) : prog unit :=
  outside (stack_tmr 0) ;;
  needed <- asks tcp_pcbs ;;
  if needed : bool then sys_timeout fuel TCP_TMR_INTERVAL tcpip_tcp_timer_ 0
  else modify_ (put_tcp_active 0).

Definition tcp_timer_needed (fuel : nat) : prog unit :=
  g <- get_ ;; needed <- asks tcp_pcbs ;;
  if (tcpip_tcp_timer_active g =? 0) && needed then
    modify_ (put_tcp_active 1) ;; sys_timeout fuel TCP_TMR_INTERVAL tcpip_tcp_timer_ 0
  else ret tt.

Definition lwip_cyclic_timer (fuel : nat) (arg : Z) : prog unit :=
  c <- cyclic_at arg ;;
  outside (stack_tmr (fst c)) ;;
  now <- sys_now ;;
  g <- get_ ;;
  let next_timeout_time := u32 (current_timeout_due_time g + snd c) in
  if TIME_LESS_THAN next_timeout_time now then
    sys_timeout_abs fuel (u32 (now + snd c)) lwip_cyclic_timer_ arg
  else sys_timeout_abs fuel next_timeout_time lwip_cyclic_timer_ arg.

Definition sys_timeouts_init (fuel : nat) : prog unit :=
  for_each (zrange 1 4) (fun i =>
    interval <- deref (aget lwip_cyclic_timers i) ;; sys_timeout fuel interval lwip_cyclic_timer_ (cyclic_entry i)).

(** The loop of sys_untimeout. *)
Fixpoint untimeout_loop (fuel : nat) (t prev_t handler arg : Z) : prog unit :=
  match fuel with
  | O => spin
  | S fuel =>
    if negb (t =? 0) then
      x <- in_lw (timeo_at t) ;;
      if (to_h x =? handler) && (to_arg x =? arg) then
        (if prev_t =? 0 then modify_ (put_next_timeout (to_next x)) else store_timeo prev_t (put_to_next (to_next x))) ;;
        in_lw (memp_free MEMP_SYS_TIMEOUT t)
      else untimeout_loop fuel (to_next x) t handler arg
    else ret tt
  end.

Definition sys_untimeout (fuel : nat) (handler arg : Z) : prog unit :=
  g <- get_ ;;
  if next_timeout g =? 0 then ret tt else untimeout_loop fuel (next_timeout g) 0 handler arg.

(** [handler(arg)] *)
Definition call_handler (fuel : nat) (handler arg : Z) : prog unit :=
  if handler =? lwip_cyclic_timer_ then lwip_cyclic_timer fuel arg
  else if handler =? tcpip_tcp_timer_ then tcpip_tcp_timer fuel
  else outside (other_handler handler arg).

Fixpoint check_loop (full fuel : nat) (now : Z) : prog unit :=
  match fuel with
  | O => spin
  | S fuel =>
    g <- get_ ;;
    let tmptimeout := next_timeout g in
    if tmptimeout =? 0 then ret tt
    else
      x <- in_lw (timeo_at tmptimeout) ;;
      if TIME_LESS_THAN now (to_time x) then ret tt
      else
        modify_ (put_next_timeout (to_next x)) ;;
        modify_ (put_due (to_time x)) ;;
        in_lw (memp_free MEMP_SYS_TIMEOUT tmptimeout) ;;
        (if negb (to_h x =? 0) then call_handler full (to_h x) (to_arg x) else ret tt) ;;
        check_loop full fuel now
  end.

Definition sys_check_timeouts (fuel : nat) : prog unit := now <- sys_now ;; check_loop fuel fuel now.

(** The loop of sys_restart_timeouts. *)
Fixpoint restart_loop (fuel : nat) (t base now : Z) : prog unit :=
  match fuel with
  | O => spin
  | S fuel =>
    if negb (t =? 0) then
      x <- in_lw (timeo_at t) ;;
      store_timeo t (put_to_time (u32 (u32 (to_time x - base) + now))) ;;
      restart_loop fuel (to_next x) base now
    else ret tt
  end.

Definition sys_restart_timeouts (fuel : nat) : prog unit :=
  g <- get_ ;;
  if next_timeout g =? 0 then ret tt
  else
    now <- sys_now ;;
    x <- in_lw (timeo_at (next_timeout g)) ;;
    restart_loop fuel (next_timeout g) (to_time x) now.

Definition sys_timeouts_sleeptime : prog Z :=
  g <- get_ ;;
  if next_timeout g =? 0 then ret SYS_TIMEOUTS_SLEEPTIME_INFINITE
  else
    now <- sys_now ;;
    x <- in_lw (timeo_at (next_timeout g)) ;;
    if TIME_LESS_THAN (to_time x) now then ret 0 else ret (u32 (to_time x - now)).

(** The wait of the stack's thread; the answer is the message. *)
Fixpoint tcpip_timeouts_mbox_fetch {R : Rtos B} (full fuel : nat) (mbox : Z) : prog (option Z) :=
  match fuel with
  | O => spin
  | S fuel =>
    sleeptime <- sys_timeouts_sleeptime ;;
    if sleeptime =? SYS_TIMEOUTS_SLEEPTIME_INFINITE then
      res <- sys_arch_mbox_fetch mbox 0 ;; ret (snd res)
    else if sleeptime =? 0 then
      sys_check_timeouts full ;; tcpip_timeouts_mbox_fetch full fuel mbox
    else
      res <- sys_arch_mbox_fetch mbox sleeptime ;;
      if fst res =? SYS_ARCH_TIMEOUT then sys_check_timeouts full ;; tcpip_timeouts_mbox_fetch full fuel mbox
      else ret (snd res)
  end.
End timeouts.
