(* ===== verification/TimeoutsSpec.v ===== *)
(** What the timers of the stack do: the list of timeouts as a sequence in the order of its
    deadlines, the cyclic timers that are never lost, and what the wrap of the clock does to
    them. *)
From S2P Require Import Prelude Machine SysArch LwMem Timeouts.
From Stdlib Require Import Sorted.
From stdpp Require Import list gmap sorting.

#[local] Open Scope Z_scope.
#[local] Open Scope fw_scope.

(** * The list *)

Record timer := Timer { due : Z; hnd : Z; targ : Z }.
Definition timers := list (Z * timer).

Definition first (l : timers) : Z := match l with [] => 0 | (a, _) :: _ => a end.

(** The timeouts [l], with their addresses, linked in the memory. *)
Fixpoint tlist (m : gmap Z cell) (l : timers) : Prop :=
  match l with
  | [] => True
  | (a, x) :: l' => a <> 0 /\ m !! a = Some (Timeo (SysTimeo (first l') (due x) (hnd x) (targ x))) /\ tlist m l'
  end.

Lemma tlist_insert m l a c : a ∉ l.*1 -> tlist m l -> tlist (<[a := c]> m) l.
Proof.
  induction l as [|[b x] l IH]; [done|]. intros Ha (Hb & Hm & Hl). cbn in Ha. apply not_elem_of_cons in Ha as [Hne Ha].
  split; [done|]. split; [by rewrite lookup_insert_ne|by apply IH].
Qed.

Lemma tlist_agree m m' l : (forall a, a ∈ l.*1 -> m' !! a = m !! a) -> tlist m l -> tlist m' l.
Proof.
  induction l as [|[b x] l IH]; [done|]. intros Ha (Hb & Hm & Hl). split; [done|].
  split; [rewrite Ha; [done|by left]|apply IH; [|done]]. intros a Hin. apply Ha. by right.
Qed.

(** The place of a new timeout: before the first one that is later. *)
Fixpoint enqueue (x : Z * timer) (l : timers) : timers :=
  match l with
  | [] => [x]
  | y :: l' => if TIME_LESS_THAN (due (snd x)) (due (snd y)) then x :: y :: l' else y :: enqueue x l'
  end.

Lemma enqueue_perm x l : enqueue x l ≡ₚ x :: l.
Proof. induction l as [|y l IH]; cbn [enqueue]; [done|]. destruct (TIME_LESS_THAN _ _); [done|]. rewrite IH. apply Permutation_swap. Qed.

Lemma enqueue_split x l : exists l1 l2, l = l1 ++ l2 /\ enqueue x l = l1 ++ x :: l2 /\
  Forall (fun y => TIME_LESS_THAN (due (snd x)) (due (snd y)) = false) l1 /\
  match l2 with [] => True | y :: _ => TIME_LESS_THAN (due (snd x)) (due (snd y)) = true end.
Proof.
  induction l as [|y l (l1 & l2 & -> & E & H1 & H2)]; cbn [enqueue].
  - by exists [], [].
  - destruct (TIME_LESS_THAN _ _) eqn:Ht.
    + by exists [], (y :: l1 ++ l2).
    + exists (y :: l1), l2. rewrite E. repeat split; try done. by apply Forall_cons.
Qed.

(** ** Order

    Deadlines that lie less than half of 2^32 after some [base] are ordered by their distance from it. *)
Definition from (base t : Z) : Z := u32 (t - base).

Lemma time_less_from base t c : 0 <= t < 2 ^ 32 -> 0 <= c < 2 ^ 32 -> from base t < 2 ^ 31 -> from base c < 2 ^ 31 ->
  TIME_LESS_THAN t c = (from base t <? from base c).
Proof.
  intros Ht Hc Hft Hfc. unfold TIME_LESS_THAN, LWIP_MAX_TIMEOUT, from, u32 in *.
  destruct (Z.ltb_spec 0x7FFFFFFF ((t - c) mod 2 ^ 32)), (Z.ltb_spec ((t - base) mod 2 ^ 32) ((c - base) mod 2 ^ 32)); (done || zlia).
Qed.

Definition in_window (base : Z) (x : Z * timer) : Prop := 0 <= due (snd x) < 2 ^ 32 /\ from base (due (snd x)) < 2 ^ 31.
Definition not_later (base : Z) (x y : Z * timer) : Prop := from base (due (snd x)) <= from base (due (snd y)).
Definition ordered (base : Z) (l : timers) : Prop := Forall (in_window base) l /\ StronglySorted (not_later base) l.

Lemma enqueue_ordered base x l : ordered base l -> in_window base x -> ordered base (enqueue x l).
Proof.
  intros [Hw Hs] Hx. split; [rewrite enqueue_perm; by apply Forall_cons|]. induction l as [|y l IH]; cbn [enqueue]; [by repeat constructor|].
  apply Forall_cons in Hw as [Hy Hw]. apply StronglySorted_inv in Hs as [Hs Hall]. destruct Hx as [Hx1 Hx2] eqn:Ex. destruct Hy as [Hy1 Hy2] eqn:Ey.
  rewrite (time_less_from base) by done. destruct (Z.ltb_spec (from base (due (snd x))) (from base (due (snd y)))).
  - constructor; [by constructor|]. apply Forall_cons. split; [unfold not_later; lia|].
    eapply Forall_impl; [exact Hall|]. intros z Hz. unfold not_later in *. lia.
  - constructor; [by apply IH|]. rewrite enqueue_perm. apply Forall_cons. split; [unfold not_later; lia|done].
Qed.

(** * The state *)

Section spec.
Context {B : Bus} {P : Pools} {T : StackTimers B}.
Implicit Types s : mach tmo.

(** The timeouts [l] wait, the other elements of the pool are free. *)
Record waiting (g : tmo) (free : list Z) (l : timers) : Prop := {
  wt_free : pool_free (t_lw g) MEMP_SYS_TIMEOUT free;
  wt_list : tlist (lw_cells (t_lw g)) l;
  wt_first : next_timeout g = first l;
  wt_elems : free ++ l.*1 ≡ₚ memp_elems MEMP_SYS_TIMEOUT }.

(** Nothing of the stack's memory but the elements of the timeouts changes. *)
Record elsewhere (m m' : lwip) : Prop := {
  el_cells : forall a, a ∉ memp_elems MEMP_SYS_TIMEOUT -> lw_cells m' !! a = lw_cells m !! a;
  el_data : lw_data m' = lw_data m;
  el_valid : lw_valid m' = lw_valid m;
  el_tab : forall t, t <> MEMP_SYS_TIMEOUT -> lw_tab m' t = lw_tab m t;
  el_lfree : lw_lfree m' = lw_lfree m;
  el_pending : pbuf_free_ooseq_pending m' = pbuf_free_ooseq_pending m;
  el_mbox : tcpip_mbox m' = tcpip_mbox m }.

Lemma elsewhere_refl m : elsewhere m m.
Proof. by split. Qed.

Lemma elsewhere_trans m1 m2 m3 : elsewhere m1 m2 -> elsewhere m2 m3 -> elsewhere m1 m3.
Proof.
  intros [A1 A2 A3 A4 A5 A6 A7] [B1 B2 B3 B4 B5 B6 B7].
  split; [intros a Ha; by rewrite B1, A1|congruence|congruence|intros t Ht; by rewrite B4, A4|congruence..].
Qed.

Lemma elsewhere_put m a c : a ∈ memp_elems MEMP_SYS_TIMEOUT -> elsewhere m (with_cells (insert a c) m).
Proof. intros Ha. split; try done. intros b Hb. cbn. rewrite lookup_insert_ne; [done|]. by intros ->. Qed.

Lemma elsewhere_tab m a : elsewhere m (with_tab MEMP_SYS_TIMEOUT a m).
Proof. split; try done. intros t Ht. by apply with_tab_ne. Qed.

Lemma wp_in_lw {A} (m : lw A) s (Q : A -> mach tmo -> Prop) :
  wp m (t_lw (glb s)) (fun a l => Q a (Mach (dev s) (wlog s) (put_lw l (glb s)))) -> wp (in_lw m) s Q.
Proof. unfold wp, in_lw. by destruct (m _). Qed.

(** [s] with other objects in the memory. *)
Definition on_cells (f : gmap Z cell -> gmap Z cell) s : mach tmo := Mach (dev s) (wlog s) (put_lw (with_cells f (t_lw (glb s))) (glb s)).

Lemma wp_read_timeo a t s (Q : sys_timeo -> mach tmo -> Prop) : lw_cells (t_lw (glb s)) !! a = Some (Timeo t) -> Q t s -> wp (in_lw (timeo_at a)) s Q.
Proof. intros Ha HQ. apply wp_in_lw, (wp_timeo_at _ t); [done|]. by destruct s as [d w []]. Qed.

Lemma wp_store_timeo a f t s (Q : unit -> mach tmo -> Prop) : lw_cells (t_lw (glb s)) !! a = Some (Timeo t) ->
  Q tt (on_cells (insert a (Timeo (f t))) s) -> wp (store_timeo a f) s Q.
Proof. intros Ha HQ. apply wp_step, (wp_read_timeo _ t); [done|]. by apply wp_in_lw, wp_put_cell. Qed.

(** The loop puts the new timeout at its place behind [t]. *)
Lemma wp_insert_loop post : forall fuel t x n h arg abs s (Q : unit -> mach tmo -> Prop),
  let m := lw_cells (t_lw (glb s)) in
  tlist m ((t, x) :: post) -> n ∉ t :: post.*1 -> n <> 0 -> m !! n = Some (Timeo (SysTimeo 0 abs h arg)) -> (length post < fuel)%nat -> NoDup (t :: post.*1) ->
  (forall m', tlist m' ((t, x) :: enqueue (n, Timer abs h arg) post) -> (forall b, b ∉ n :: t :: post.*1 -> m' !! b = m !! b) ->
    Q tt (on_cells (fun _ => m') s)) ->
  wp (insert_loop fuel t n abs) s Q.
Proof.
  induction post as [|[b y] post IH]; intros fuel t x n h arg abs s Q m (Ht & Hm & Hl) Hn Hn0 Hmn Hf Hnd HQ; (destruct fuel as [|fuel]; [cbn in Hf; lia|]); cbn [insert_loop].
  - destruct (Z.eqb_spec t 0); [done|]. cbn [negb]. apply wp_step, (wp_read_timeo _ _ _ _ Hm). cbn [to_next first].
    apply wp_step, wp_ret. apply wp_step, (wp_store_timeo _ _ _ _ _ Hmn).
    apply not_elem_of_cons in Hn as [Hnt _].
    apply (wp_store_timeo _ _ (SysTimeo 0 (due x) (hnd x) (targ x))); [cbn; by rewrite lookup_insert_ne|].
    apply (HQ (<[t := _]> (<[n := _]> m))).
    + cbn [tlist enqueue first]. rewrite lookup_insert_eq, lookup_insert_ne, lookup_insert_eq by done. done.
    + intros c Hc. rewrite !not_elem_of_cons in Hc. destruct Hc as (Hc1 & Hc2 & _). by rewrite !lookup_insert_ne by congruence.
  - pose proof Hl as (Hb & Hmb & Hl'). cbn [fmap list_fmap fst] in Hn, Hnd. 
    destruct (Z.eqb_spec t 0); [done|]. cbn [negb]. apply wp_step, (wp_read_timeo _ _ _ _ Hm). cbn [to_next first].
    destruct (Z.eqb_spec b 0); [done|]. rewrite wp_assoc. apply wp_step, (wp_read_timeo _ _ _ _ Hmb). apply wp_step, wp_ret. cbn [to_time enqueue snd due] in *.
    destruct (TIME_LESS_THAN abs (due y)).
    + apply wp_step, (wp_store_timeo _ _ _ _ _ Hmn). apply not_elem_of_cons in Hn as [Hnt Hn].
      apply (wp_store_timeo _ _ (SysTimeo b (due x) (hnd x) (targ x))); [cbn; by rewrite lookup_insert_ne|].
      apply (HQ (<[t := _]> (<[n := _]> m))).
      * apply NoDup_cons in Hnd as [Htn _]. cbn [tlist first]. rewrite lookup_insert_eq, lookup_insert_ne, lookup_insert_eq by done.
        split; [done|]. split; [done|]. split; [done|]. split; [done|].
        change (tlist (<[t := Timeo (put_to_next n (SysTimeo b (due x) (hnd x) (targ x)))]> (<[n := Timeo (put_to_next b (SysTimeo 0 abs h arg))]> m)) ((b, y) :: post)).
        by apply tlist_insert, tlist_insert.
      * intros c Hc. rewrite !not_elem_of_cons in Hc. destruct Hc as (Hc1 & Hc2 & _). by rewrite !lookup_insert_ne by congruence.
    + apply (IH fuel b y n h arg abs); try done; [by apply not_elem_of_cons in Hn as [_ Hn]|cbn in Hf; lia|by apply NoDup_cons in Hnd as [_ Hnd]|].
      intros m' Hl2 Ha. apply HQ.
      * cbn [tlist first]. split; [done|]. split; [|exact Hl2]. rewrite Ha; [done|].
        apply NoDup_cons in Hnd as [Htn _]. apply not_elem_of_cons. split; [|done]. intros ->. apply Hn. by left.
      * intros c Hc. cbn [fmap list_fmap fst] in Hc. rewrite !not_elem_of_cons in Hc. destruct Hc as (Hc1 & Hc2 & Hc3 & Hc4). apply Ha. by rewrite !not_elem_of_cons.
Qed.

Lemma waiting_nodup {A : PoolsApart} g free l : waiting g free l -> NoDup (free ++ l.*1).
Proof. intros [_ _ _ H]. rewrite H. apply elems_nodup. Qed.

Lemma waiting_elem g free l a : waiting g free l -> a ∈ l.*1 -> a ∈ memp_elems MEMP_SYS_TIMEOUT.
Proof. intros [_ _ _ H] Ha. rewrite <- H, elem_of_app. by right. Qed.

(** An element taken from the free list joins the timeouts. *)
Lemma waiting_take {A : PoolsApart} g a free n l x g' l' : waiting g (a :: free) l -> links (lw_cells (t_lw g)) n free ->
  lw_tab (t_lw g') MEMP_SYS_TIMEOUT = n -> (forall b, b ∉ a :: l.*1 -> lw_cells (t_lw g') !! b = lw_cells (t_lw g) !! b) ->
  tlist (lw_cells (t_lw g')) l' -> next_timeout g' = first l' -> l' ≡ₚ (a, x) :: l -> waiting g' free l'.
Proof.
  intros Hw Hlinks Ht Ha Hl Hf Hp. pose proof (waiting_nodup _ _ _ Hw) as Hnd. cbn [app] in Hnd. apply NoDup_cons in Hnd as [Hal Hnd].
  apply NoDup_app in Hnd as (_ & Hd & _). split; [|done|done|].
  - unfold pool_free. rewrite Ht. apply (links_agree (lw_cells (t_lw g))); [|done]. intros b Hb. apply Ha.
    apply not_elem_of_cons. split; [|by apply Hd]. intros ->. apply Hal. rewrite elem_of_app. by left.
  - rewrite <- (wt_elems _ _ _ Hw), Hp. cbn. by rewrite <- Permutation_middle.
Qed.

(** A new timeout goes to its place; without a free element nothing happens. *)
Lemma wp_sys_timeout_abs {A : PoolsApart} fuel abs h arg s free l (Q : unit -> mach tmo -> Prop) :
  waiting (glb s) free l -> (length l <= fuel)%nat ->
  (free = [] -> Q tt s) ->
  (forall a free' g', free = a :: free' -> waiting g' free' (enqueue (a, Timer abs h arg) l) -> elsewhere (t_lw (glb s)) (t_lw g') ->
     current_timeout_due_time g' = current_timeout_due_time (glb s) -> tcpip_tcp_timer_active g' = tcpip_tcp_timer_active (glb s) ->
     Q tt (Mach (dev s) (wlog s) g')) ->
  wp (sys_timeout_abs fuel abs h arg) s Q.
Proof.
  intros Hw Hf HQ0 HQ. pose proof (waiting_nodup _ _ _ Hw) as Hnd. pose proof Hw as [Hfree Hl Hfst Hel].
  destruct s as [d w g]. cbn [glb dev wlog] in *.
  apply wp_step, wp_in_lw, (wp_memp_malloc _ free); [done|intros ->|intros a free' n -> Ha Hn Hlinks].
  { apply wp_ret. destruct g. by apply HQ0. }
  destruct (Z.eqb_spec a 0); [done|]. cbn [dev wlog glb]. apply wp_step, wp_in_lw, wp_put_cell. cbn [dev wlog glb].
  apply wp_step, wp_get. cbn [next_timeout put_lw glb t_lw]. rewrite Hfst.
  cbn [app] in Hnd. apply NoDup_cons in Hnd as [Han Hnd]. apply not_elem_of_app in Han as [Haf Hal]. apply NoDup_app in Hnd as (_ & _ & Hnd).
  assert (a ∈ memp_elems MEMP_SYS_TIMEOUT) as Hae by (rewrite <- Hel; by left).
  assert (forall b, b ∈ l.*1 -> b ∈ memp_elems MEMP_SYS_TIMEOUT) as Hle by (intros b; by apply (waiting_elem _ _ _ _ Hw)).
  specialize (fun g' => HQ a free' g' eq_refl). set (new := Timer abs h arg) in *.
  destruct l as [|[b y] l]; cbn [first].
  - apply wp_modify, HQ; try done.
    + apply (waiting_take g a free' n [] new _ _ Hw Hlinks); try done.
      * intros b [Hb _]%not_elem_of_cons. cbn. by rewrite lookup_insert_ne by congruence.
      * cbn. by rewrite lookup_insert_eq.
    + eapply elsewhere_trans; [apply elsewhere_tab|by apply elsewhere_put].
  - pose proof Hl as (Hb & Hmb & Hl'). cbn [fmap list_fmap fst] in Hal, Hnd, Hle. apply not_elem_of_cons in Hal as [Hab Hal].
    destruct (Z.eqb_spec b 0); [done|]. apply wp_step, (wp_read_timeo _ (SysTimeo (first l) (due y) (hnd y) (targ y))).
    { cbn. by rewrite lookup_insert_ne. }
    cbn [to_time enqueue snd] in *. change abs with (due new). revert HQ. destruct (TIME_LESS_THAN (due new) (due y)); intros HQ.
    + apply wp_step, (wp_store_timeo _ _ (SysTimeo 0 abs h arg)); [cbn; by rewrite lookup_insert_eq|]. apply wp_modify, HQ; try done.
      * apply (waiting_take g a free' n ((b, y) :: l) new _ _ Hw Hlinks); try done.
        -- intros c [Hc _]%not_elem_of_cons. cbn. by rewrite !lookup_insert_ne by congruence.
        -- split; [done|]. cbn [t_lw put_next_timeout on_cells put_lw lw_cells with_cells glb dev]. rewrite lookup_insert_eq. split; [done|].
           apply tlist_insert, tlist_insert; [by apply not_elem_of_cons..|done].
      * eapply elsewhere_trans; [apply elsewhere_tab|]. eapply elsewhere_trans; by apply elsewhere_put.
    + assert (a ∉ b :: l.*1) as Hal' by (by apply not_elem_of_cons).
      apply (wp_insert_loop l fuel b y a h arg abs); try done; [by apply (tlist_insert _ ((b, y) :: l))|cbn; by rewrite lookup_insert_eq|].
      intros m' Hl2 Hm'. apply HQ; try done.
      * apply (waiting_take g a free' n ((b, y) :: l) new _ _ Hw Hlinks); try done.
        -- intros c Hc. cbn. rewrite Hm' by done. cbn. apply not_elem_of_cons in Hc as [Hc _]. by rewrite lookup_insert_ne by congruence.
        -- rewrite enqueue_perm. apply Permutation_swap.
      * split; try done; [|intros t Ht; by apply with_tab_ne]. intros c Hc. cbn. rewrite Hm'; [cbn; rewrite lookup_insert_ne; [done|by intros ->]|].
        apply not_elem_of_cons. split; [by intros ->|]. intros Hcl. by apply Hc, Hle.
Qed.

(** * The stack's own timers *)

(** The functions and the argument of a timeout; those of the timers the stack keeps running:
    four cyclic ones, and the one of TCP while it is active. *)
Definition key (x : Z * timer) : Z * Z := (hnd (snd x), targ (snd x)).
Definition cyclic_key (i : Z) : Z * Z := (lwip_cyclic_timer_, cyclic_entry i).
Definition stack_keys (active : Z) : list (Z * Z) :=
  (cyclic_key <$> zrange 1 4) ++ (if active =? 0 then [] else [(tcpip_tcp_timer_, 0)]).
Definition armed (g : tmo) (l : timers) : Prop := key <$> l ≡ₚ stack_keys (tcpip_tcp_timer_active g).

(** The number of the protocol's function that a timeout calls. *)
Definition tmr_of (x : Z * timer) : Z := if hnd (snd x) =? lwip_cyclic_timer_ then (targ (snd x) - cyclic_table) / 8 else 0.

(** The functions of the protocols that are called between two states of the environment, in order,
    with the flag of the TCP timer: it stays what it is, except that it is cleared when, right after
    tcp_tmr, no connection needs the timer. *)
Inductive called : list Z -> hw -> Z -> hw -> Z -> Prop :=
| called_nil h act : called [] h act h act
| called_tick tr h act h' act' : called tr (snd (ktick h)) act h' act' -> called tr h act h' act'
| called_cyclic i tr h act h' act' : i <> 0 -> called tr (stack_tmr i h) act h' act' -> called (i :: tr) h act h' act'
| called_tcp tr h act h' act' :
    called tr (stack_tmr 0 h) (if tcp_pcbs (stack_tmr 0 h) then act else 0) h' act' -> called (0 :: tr) h act h' act'.

Lemma called_app tr tr' h1 a1 h2 a2 h3 a3 : called tr h1 a1 h2 a2 -> called tr' h2 a2 h3 a3 -> called (tr ++ tr') h1 a1 h3 a3.
Proof. intros H H'. induction H; cbn; [done|by apply called_tick, IHcalled|by apply called_cyclic, IHcalled|by apply called_tcp, IHcalled]. Qed.

(** What the theorems ask of the environment: the addresses of the two functions differ and are
    not null; the counter of the kernel goes forward, at most [hop] ticks while it is read or
    while a protocol's function runs. *)
Class StackClock := {
  kclock : hw -> Z;
  hop : Z;
  cyclic_nonzero : lwip_cyclic_timer_ <> 0;
  tcp_nonzero : tcpip_tcp_timer_ <> 0;
  handlers_apart : lwip_cyclic_timer_ <> tcpip_tcp_timer_;
  kclock_value h : u32 (fst (ktick h)) = u32 (kclock h);
  kclock_read h : kclock h <= kclock (snd (ktick h)) <= kclock h + hop;
  kclock_tmr i h : kclock h <= kclock (stack_tmr i h) <= kclock h + hop }.

(** The greatest value of sys_now, and the greatest deadline of a timer of the stack. *)
Definition last_ms : Z := (2 ^ 32 - 1) / OS_TICKS_PER_MILLI.
Definition horizon : Z := last_ms + DHCP_COARSE_TIMER_MSECS.

Lemma wp_sys_now {C : StackClock} s (Q : Z -> mach tmo -> Prop) : 0 <= kclock (dev s) < 2 ^ 32 ->
  Q (kclock (dev s) / 5) (Mach (snd (ktick (dev s))) (wlog s) (glb s)) -> wp sys_now s Q.
Proof. intros Hc HQ. unfold wp, sys_now, bind, tick_count, ret. cbn. rewrite kclock_value, u32_small by lia. exact HQ. Qed.

(** Without a wrap deadlines are ordered as numbers. *)
Lemma from_0 t : 0 <= t < 2 ^ 32 -> from 0 t = t.
Proof. intros H. unfold from. rewrite Z.sub_0_r. by apply u32_small. Qed.

Lemma time_less t c : 0 <= t <= horizon -> 0 <= c <= horizon -> TIME_LESS_THAN t c = (t <? c).
Proof.
  change horizon with 859053459. intros Ht Hc. rewrite (time_less_from 0) by (rewrite ?from_0; lia). by rewrite !from_0 by lia.
Qed.

(** Deadlines in order and not beyond the horizon. *)
Definition in_time (x : Z * timer) : Prop := 0 <= due (snd x) <= horizon.
Definition timely (l : timers) : Prop := Forall in_time l /\ StronglySorted (fun x y => due (snd x) <= due (snd y)) l.

Lemma timely_cons x l : timely (x :: l) -> in_time x /\ timely l /\ Forall (fun y => due (snd x) <= due (snd y)) l.
Proof. intros [[Hx Hl]%Forall_cons [Hs Hall]%StronglySorted_inv]. done. Qed.

Lemma enqueue_timely x l : timely l -> in_time x -> timely (enqueue x l).
Proof.
  intros [Hw Hs] Hx. split; [rewrite enqueue_perm; by apply Forall_cons|]. induction l as [|y l IH]; cbn [enqueue]; [by repeat constructor|].
  apply Forall_cons in Hw as [Hy Hw]. apply StronglySorted_inv in Hs as [Hs Hall]. rewrite time_less by done.
  destruct (Z.ltb_spec (due (snd x)) (due (snd y))).
  - constructor; [by constructor|]. apply Forall_cons. split; [lia|].
    eapply Forall_impl; [exact Hall|]. cbn. intros z Hz. lia.
  - constructor; [by apply IH|]. rewrite enqueue_perm. by apply Forall_cons.
Qed.

(** A timeout that is not earlier than the first ones goes behind them. *)
Lemma enqueue_behind x l1 l2 : in_time x -> Forall in_time l1 -> Forall (fun y => due (snd y) <= due (snd x)) l1 -> enqueue x (l1 ++ l2) = l1 ++ enqueue x l2.
Proof.
  intros Hx Hw Hle. induction l1 as [|y l1 IH]; [done|]. apply Forall_cons in Hw as [Hy Hw]. apply Forall_cons in Hle as [Hyx Hle]. cbn [app enqueue].
  rewrite time_less by done. destruct (Z.ltb_spec (due (snd x)) (due (snd y))); [lia|]. by rewrite IH.
Qed.

Lemma wp_cyclic_at i s (Q : Z * Z -> mach tmo -> Prop) : 0 <= i < 5 ->
  (forall v, aget lwip_cyclic_timers i = Some v -> 0 < v <= DHCP_COARSE_TIMER_MSECS -> Q (i, v) s) -> wp (cyclic_at (cyclic_entry i)) s Q.
Proof.
  intros Hi HQ. unfold cyclic_at. replace ((cyclic_entry i - cyclic_table) / 8) with i by (unfold cyclic_entry; zlia).
  apply wp_step, wp_defined_if; [by apply Z.eqb_eq|].
  destruct (aget_is_Some lwip_cyclic_timers i) as [v Hv]; [cbn; lia|]. apply wp_step, (wp_deref _ _ _ _ Hv), wp_ret, HQ; [done|].
  unfold aget in Hv. destruct (Z.ltb_spec i 0); [lia|]. apply list_elem_of_lookup_2 in Hv.
  assert (Forall (fun v => 0 < v <= DHCP_COARSE_TIMER_MSECS) lwip_cyclic_timers) as Hall by (by repeat constructor).
  rewrite Forall_forall in Hall. by apply Hall.
Qed.

(** What becomes of the timeouts [l] that still wait when [x] is over: it is armed again for a
    time that has not passed, or it was the timer of TCP and is not needed. *)
Definition rearmed (x : Z * timer) (now : Z) (l l' : timers) (g g' : tmo) : Prop :=
  (exists a t, l' = enqueue (a, Timer t (hnd (snd x)) (targ (snd x))) l /\ now <= t <= horizon /\ due (snd x) < t /\
     tcpip_tcp_timer_active g' = tcpip_tcp_timer_active g) \/
  (key x = (tcpip_tcp_timer_, 0) /\ l' = l /\ tcpip_tcp_timer_active g' = 0).

Lemma wp_call_handler {A : PoolsApart} {C : StackClock} fuel x s free l now (Q : unit -> mach tmo -> Prop) :
  waiting (glb s) free l -> free <> [] -> (length l <= fuel)%nat -> key x ∈ stack_keys 1 -> in_time x -> due (snd x) <= now ->
  current_timeout_due_time (glb s) = due (snd x) -> 0 <= kclock (dev s) -> kclock (dev s) + 2 * hop < 2 ^ 32 -> now <= kclock (dev s) / 5 ->
  (forall h' g' free' l', waiting g' free' l' -> called [tmr_of x] (dev s) (tcpip_tcp_timer_active (glb s)) h' (tcpip_tcp_timer_active g') -> kclock (dev s) <= kclock h' <= kclock (dev s) + 2 * hop ->
     elsewhere (t_lw (glb s)) (t_lw g') -> rearmed x now l l' (glb s) g' -> Q tt (Mach h' (wlog s) g')) ->
  wp (call_handler fuel (hnd (snd x)) (targ (snd x))) s Q.
Proof.
  intros Hw Hfree Hf Hk Hx Hdue Hcur Hc0 Hc Hnow HQ. unfold stack_keys in Hk. cbn [Z.eqb] in Hk. apply elem_of_app in Hk.
  unfold call_handler, tmr_of, rearmed, key in *. destruct x as [ax [d h a]]. cbn [snd hnd targ due] in *. unfold in_time in Hx. cbn in Hx.
  destruct Hk as [(i & Ei & Hi)%list_elem_of_fmap|[= -> ->]%list_elem_of_singleton].
  - injection Ei as -> ->. apply elem_of_zrange in Hi. rewrite Z.eqb_refl in *. unfold lwip_cyclic_timer.
    apply wp_step, wp_cyclic_at; [lia|]. intros v Hv Hvr. change DHCP_COARSE_TIMER_MSECS with 60000 in Hvr. cbn [fst snd].
    replace ((cyclic_entry i - cyclic_table) / 8) with i in HQ by (unfold cyclic_entry; zlia).
    apply wp_step. change (wp (outside (stack_tmr i)) s) with (fun Q : unit -> mach tmo -> Prop => Q tt (Mach (stack_tmr i (dev s)) (wlog s) (glb s))). cbv beta.
    pose proof (kclock_tmr i (dev s)) as Hk1. pose proof (kclock_read (stack_tmr i (dev s))) as Hk2.
    apply wp_step, wp_sys_now; cbn [dev wlog glb]; [lia|]. apply wp_step, wp_get. cbn [glb].
    set (n := kclock (stack_tmr i (dev s)) / 5). assert (now <= n <= last_ms) as Hn by (change last_ms with 858993459; unfold n; zlia).
    change horizon with 859053459 in *. change last_ms with 858993459 in Hn. rewrite Hcur. rewrite (u32_small (d + v)), (u32_small (n + v)) by lia.
    assert (forall t, now <= t <= 859053459 -> d < t -> wp (sys_timeout_abs fuel t lwip_cyclic_timer_ (cyclic_entry i))
      (Mach (snd (ktick (stack_tmr i (dev s)))) (wlog s) (glb s)) Q) as Hgo.
    { intros t Ht Htd. apply (wp_sys_timeout_abs _ _ _ _ _ free l); [done|done|done|]. cbn [dev wlog glb]. intros b free' g' -> Hw' He Hd Hact.
      apply (HQ _ _ free' _ Hw'); [rewrite Hact; apply called_cyclic, called_tick, called_nil; lia|lia|done|]. left. by exists b, t. }
    rewrite time_less by (change horizon with 859053459; lia).
    destruct (Z.ltb_spec (d + v) n); apply Hgo; lia.
  - destruct (Z.eqb_spec tcpip_tcp_timer_ lwip_cyclic_timer_) as [E|_]; [by destruct (handlers_apart)|]. rewrite Z.eqb_refl.
    apply wp_step. change (wp (outside (stack_tmr 0)) s) with (fun Q : unit -> mach tmo -> Prop => Q tt (Mach (stack_tmr 0 (dev s)) (wlog s) (glb s))). cbv beta.
    pose proof (kclock_tmr 0 (dev s)) as Hk1. pose proof (kclock_read (stack_tmr 0 (dev s))) as Hk2.
    apply wp_step. change (wp (asks tcp_pcbs) (Mach (stack_tmr 0 (dev s)) (wlog s) (glb s))) with (fun Q : bool -> mach tmo -> Prop => Q (tcp_pcbs (stack_tmr 0 (dev s))) (Mach (stack_tmr 0 (dev s)) (wlog s) (glb s))). cbv beta.
    destruct (tcp_pcbs _) eqn:Hpcb.
    + apply wp_step, wp_sys_now; cbn [dev wlog glb]; [lia|]. change TCP_TMR_INTERVAL with 250.
      set (n := kclock (stack_tmr 0 (dev s)) / 5). assert (now <= n <= 858993459) as Hn by (unfold n; zlia).
      change horizon with 859053459 in *. rewrite u32_small by lia.
      apply (wp_sys_timeout_abs _ _ _ _ _ free l); [done|done|done|]. cbn [dev wlog glb]. intros b free' g' -> Hw' He Hd Hact.
      apply (HQ _ _ free' _ Hw'); [apply called_tcp; rewrite Hact, Hpcb; apply called_tick, called_nil|lia|done|]. left. exists b, (n + 250). split; [done|]. lia.
    + apply wp_modify. cbn [dev wlog glb]. apply (HQ _ _ free l); [|apply called_tcp; rewrite Hpcb; apply called_nil|lia|apply elsewhere_refl|by right].
      destruct Hw. by split.
Qed.

Lemma armed_length g l : armed g l -> (length l <= 5)%nat.
Proof.
  intros H. rewrite <- (length_fmap key l), H. unfold stack_keys. rewrite length_app, length_fmap. unfold zrange. rewrite length_seqZ.
  destruct (_ =? 0); cbn [length]; lia.
Qed.

Lemma armed_key g x l : armed g (x :: l) -> key x ∈ stack_keys 1.
Proof.
  intros H. assert (key x ∈ stack_keys (tcpip_tcp_timer_active g)) as Hk by (rewrite <- H; by left).
  unfold stack_keys in *. rewrite elem_of_app in *. destruct Hk as [Hk|Hk]; [by left|right].
  destruct (_ =? 0); [by apply not_elem_of_nil in Hk|done].
Qed.

(** The timers of the stack after one of them was over. *)
Lemma armed_rearmed {C : StackClock} x now l l' g g' : armed g (x :: l) -> rearmed x now l l' g g' -> armed g' l'.
Proof.
  unfold armed. intros H [(a & t & -> & _ & _ & ->)|(Hk & -> & Ht)].
  - rewrite enqueue_perm, <- H. cbn. by destruct x.
  - rewrite Ht. cbn [fmap list_fmap] in H. rewrite Hk in H. unfold stack_keys in *. cbn [Z.eqb]. rewrite app_nil_r.
    destruct (tcpip_tcp_timer_active g =? 0).
    + exfalso. assert ((tcpip_tcp_timer_, 0) ∈ (cyclic_key <$> zrange 1 4) ++ []) as Hin by (rewrite <- H; by left).
      rewrite app_nil_r in Hin. apply list_elem_of_fmap in Hin as (i & Ei & _). injection Ei as Ei _. by apply handlers_apart.
    + apply (Permutation_cons_inv (a := (tcpip_tcp_timer_, 0))). rewrite H. symmetry. apply Permutation_cons_append.
Qed.

(** The first timeout is taken off the list and its element freed. *)
Lemma waiting_pop {A : PoolsApart} g free a x l : waiting g free ((a, x) :: l) ->
  let m := t_lw g in
  let m' := with_tab MEMP_SYS_TIMEOUT a (with_cells (insert a (Link (lw_tab m MEMP_SYS_TIMEOUT))) m) in
  waiting (put_lw m' (put_due (due x) (put_next_timeout (first l) g))) (a :: free) l /\ elsewhere m m'.
Proof.
  intros Hw m m'. pose proof (waiting_nodup _ _ _ Hw) as Hnd. pose proof (waiting_elem _ _ _ a Hw ltac:(by left)) as Hae.
  destruct Hw as [Hf (Ha & _ & Hl) Hfst Hel]. cbn [fmap list_fmap fst] in *. apply NoDup_app in Hnd as (_ & Hd & [Hal _]%NoDup_cons).
  split; [split|].
  - apply pool_free_push; [done..|]. intros Hin. apply (Hd a Hin). by left.
  - by apply tlist_insert.
  - done.
  - rewrite <- Hel. cbn. by rewrite Permutation_middle.
  - eapply elsewhere_trans; [by apply elsewhere_put|apply elsewhere_tab].
Qed.

(** One round of sys_check_timeouts for a timeout that is over. *)
Lemma wp_check_step {A : PoolsApart} {C : StackClock} full fuel x l free now s (Q : unit -> mach tmo -> Prop) :
  waiting (glb s) free (x :: l) -> armed (glb s) (x :: l) -> timely (x :: l) -> due (snd x) <= now -> (5 <= full)%nat ->
  0 <= kclock (dev s) -> kclock (dev s) + 2 * hop < 2 ^ 32 -> now <= kclock (dev s) / 5 ->
  (forall h' g' free' l', waiting g' free' l' -> armed g' l' -> timely l' -> called [tmr_of x] (dev s) (tcpip_tcp_timer_active (glb s)) h' (tcpip_tcp_timer_active g') ->
     kclock (dev s) <= kclock h' <= kclock (dev s) + 2 * hop -> elsewhere (t_lw (glb s)) (t_lw g') ->
     (l' = l \/ exists y, l' = enqueue y l /\ in_time y /\ now <= due (snd y) /\ due (snd x) < due (snd y)) ->
     wp (check_loop full fuel now) (Mach h' (wlog s) g') Q) ->
  wp (check_loop full (S fuel) now) s Q.
Proof.
  intros Hw Harm Ht Hdue Hfull Hc0 Hc Hnow HQ. destruct (timely_cons _ _ Ht) as (Hx & Htl & Hle). pose proof (armed_length _ _ Harm) as Hlen.
  pose proof (armed_key _ _ _ Harm) as Hk. destruct x as [a x]. pose proof Hw as [_ (Ha & Hm & _) Hfst _]. cbn [check_loop snd] in *.
  apply wp_step, wp_get. rewrite Hfst. cbn [first]. destruct (Z.eqb_spec a 0); [done|].
  apply wp_step, (wp_read_timeo _ _ _ _ Hm). cbn [to_time to_next to_h to_arg].
  pose proof (kclock_read (dev s)) as Hhop.
  assert (0 <= now <= horizon) as Hnr by (unfold in_time in Hx; cbn in Hx; change horizon with 859053459 in *; zlia).
  rewrite time_less by done. destruct (Z.ltb_spec now (due x)); [lia|].
  apply wp_step, wp_modify, wp_step, wp_modify. apply wp_step, wp_in_lw, wp_memp_free; [done|]. cbn [dev wlog glb].
  destruct (waiting_pop _ _ _ _ _ Hw) as [Hw1 He1].
  assert (hnd x <> 0) as Hh0.
  { pose proof cyclic_nonzero. pose proof tcp_nonzero. unfold key, stack_keys in Hk. cbn [snd Z.eqb] in Hk.
    apply elem_of_app in Hk as [(i & Ei & _)%list_elem_of_fmap|[= -> _]%list_elem_of_singleton]; [|done]. by injection Ei as -> _. }
  destruct (Z.eqb_spec (hnd x) 0); [done|]. cbn [negb]. cbn [length] in Hlen.
  apply wp_step, (wp_call_handler full (a, x) _ (a :: free) l now); cbn [dev wlog glb snd]; try done; [lia|].
  intros h' g' free' l' Hw' Hcalled Hck He' Hre. pose proof (armed_rearmed _ _ _ _ _ _ Harm Hre) as Harm'.
  apply (HQ h' g' free' l' Hw' Harm'); [|done|done|by eapply elsewhere_trans|].
  - destruct Hre as [(b & t & -> & Hb & _)|(_ & -> & _)]; [|done]. apply enqueue_timely; [done|]. unfold in_time. cbn. lia.
  - destruct Hre as [(b & t & -> & Hb & Hbd & _)|(_ & -> & _)]; [right|by left]. exists (b, Timer t (hnd x) (targ x)).
    unfold in_time. cbn in *. split; [done|lia].
Qed.

(** Rounds for the timeouts [pend], which are over: what they arm again comes behind them, at
    [now] or later, and later than [now] if that is their own time. *)
Lemma wp_check_phase {A : PoolsApart} {C : StackClock} full fuel now lo pend : forall rest free s (Q : unit -> mach tmo -> Prop),
  waiting (glb s) free (pend ++ rest) -> armed (glb s) (pend ++ rest) -> timely (pend ++ rest) -> (5 <= full)%nat ->
  Forall (fun x => due (snd x) <= now) pend -> lo = now \/ lo = now + 1 /\ Forall (fun x => due (snd x) = now) pend ->
  Forall (fun x => lo <= due (snd x)) rest ->
  0 <= kclock (dev s) -> kclock (dev s) + 2 * hop * Z.of_nat (length pend) < 2 ^ 32 -> now <= kclock (dev s) / 5 ->
  (forall h' g' free' rest', waiting g' free' rest' -> armed g' rest' -> timely rest' -> Forall (fun x => lo <= due (snd x)) rest' ->
     called (tmr_of <$> pend) (dev s) (tcpip_tcp_timer_active (glb s)) h' (tcpip_tcp_timer_active g') -> kclock (dev s) <= kclock h' <= kclock (dev s) + 2 * hop * Z.of_nat (length pend) ->
     elsewhere (t_lw (glb s)) (t_lw g') -> (forall y, y ∈ rest -> y ∈ rest') -> wp (check_loop full fuel now) (Mach h' (wlog s) g') Q) ->
  wp (check_loop full (length pend + fuel) now) s Q.
Proof.
  induction pend as [|x pend IH]; intros rest free s Q Hw Harm Ht Hfull Hover Hlo Hrest Hc0 Hc Hnow HQ.
  - cbn [app length Nat.add] in *. destruct s as [d w g]. apply (HQ d g free rest); first [done|apply called_nil|apply elsewhere_refl|cbn; lia].
  - pose proof (kclock_read (dev s)) as Hhop.
    assert (2 * hop * Z.of_nat (length (x :: pend)) = 2 * hop + 2 * hop * Z.of_nat (length pend)) as Elen by (cbn [length]; lia).
    assert (0 <= 2 * hop * Z.of_nat (length pend)) as Hpos by nia.
    cbn [app length Nat.add] in *. apply Forall_cons in Hover as [Hx Hover].
    apply (wp_check_step full _ x (pend ++ rest) free); try done; [lia|]. intros h' g' free' l' Hw' Harm' Ht' Hcalled Hck He Hl'.
    assert (exists rest', l' = pend ++ rest' /\ Forall (fun x => lo <= due (snd x)) rest' /\ forall y, y ∈ rest -> y ∈ rest') as (rest' & -> & Hlo' & Hin).
    { destruct Hl' as [->|(y & -> & Hy & Hny & Hxy)]; [by exists rest|]. exists (enqueue y rest).
      destruct (timely_cons _ _ Ht) as (_ & [[Hpt _]%Forall_app _] & _). split; [|split].
      - apply enqueue_behind; [done|done|]. eapply Forall_impl; [exact Hover|]. cbn. lia.
      - rewrite enqueue_perm. apply Forall_cons. split; [|done]. destruct Hlo as [->|[-> [Hxn _]%Forall_cons]]; lia.
      - intros z Hz. rewrite enqueue_perm. by right. }
    apply (IH rest' free'); cbn [dev wlog glb]; try done; [|lia|lia|zlia|].
    { destruct Hlo as [->|[-> [_ Hp]%Forall_cons]]; [by left|by right]. }
    intros h2 g2 free2 rest2 Hw2 Harm2 Ht2 Hlo2 Hcalled2 Hck2 He2 Hin2.
    apply (HQ h2 g2 free2 rest2); try done; [|lia|by eapply elsewhere_trans|naive_solver].
    cbn [fmap list_fmap]. eapply (called_app [tmr_of x]); done.
Qed.

(** The timeouts up to a time come first. *)
Lemma timely_split now l : timely l -> exists pend rest, l = pend ++ rest /\
  Forall (fun x => due (snd x) <= now) pend /\ Forall (fun x => now < due (snd x)) rest.
Proof.
  induction l as [|x l IH]; intros Ht; [by exists [], []|]. destruct (timely_cons _ _ Ht) as (_ & Htl & Hall).
  destruct (Z.le_gt_cases (due (snd x)) now) as [Hx|Hx].
  - destruct (IH Htl) as (pend & rest & -> & Hp & Hr). exists (x :: pend), rest. repeat split; [|done]. by apply Forall_cons.
  - exists [], (x :: l). repeat split; [done|]. apply Forall_cons. split; [done|]. eapply Forall_impl; [exact Hall|]. cbn. lia.
Qed.

(** Nothing happens when the first timeout is not over. *)
Lemma wp_check_idle full fuel now l s free (Q : unit -> mach tmo -> Prop) :
  waiting (glb s) free l -> match l with [] => True | x :: _ => TIME_LESS_THAN now (due (snd x)) = true end -> (0 < fuel)%nat ->
  Q tt s -> wp (check_loop full fuel now) s Q.
Proof.
  intros [_ Hl Hfst _] Hd Hf HQ. destruct fuel as [|fuel]; [lia|]. cbn [check_loop]. apply wp_step, wp_get. rewrite Hfst.
  destruct l as [|[a x] l]; [done|]. destruct Hl as (Ha & Hm & _). cbn [first]. destruct (Z.eqb_spec a 0); [done|].
  apply wp_step, (wp_read_timeo _ _ _ _ Hm). cbn [to_time snd] in *. by rewrite Hd.
Qed.

(** sys_check_timeouts with the stack's timers. *)
Lemma wp_sys_check_timeouts {A : PoolsApart} {C : StackClock} fuel s free l (Q : unit -> mach tmo -> Prop) :
  waiting (glb s) free l -> armed (glb s) l -> timely l -> (11 <= fuel)%nat -> 0 <= kclock (dev s) -> kclock (dev s) + 21 * hop < 2 ^ 32 ->
  let now := kclock (dev s) / 5 in
  (forall h' g' free' l' pend rest late, l = pend ++ rest -> Forall (fun x => due (snd x) <= now) pend -> Forall (fun x => now < due (snd x)) rest ->
     waiting g' free' l' -> armed g' l' -> timely l' -> Forall (fun x => now < due (snd x)) l' -> called ((tmr_of <$> pend) ++ late) (dev s) (tcpip_tcp_timer_active (glb s)) h' (tcpip_tcp_timer_active g') ->
     elsewhere (t_lw (glb s)) (t_lw g') -> (forall y, y ∈ rest -> y ∈ l') -> Q tt (Mach h' (wlog s) g')) ->
  wp (sys_check_timeouts fuel) s Q.
Proof.
  intros Hw Harm Ht Hf Hc0 Hc now HQ. pose proof (kclock_read (dev s)) as Hhop. apply wp_step, wp_sys_now; [lia|]. fold now.
  destruct (timely_split now l Ht) as (pend & rest & -> & Hp & Hr). specialize (fun h' g' free' l' late => HQ h' g' free' l' pend rest late eq_refl Hp Hr).
  pose proof (armed_length _ _ Harm) as Hlen. rewrite length_app in Hlen.
  assert (0 <= 2 * hop * Z.of_nat (length pend) <= 10 * hop) as Hb by nia.
  replace fuel with (length pend + (fuel - length pend))%nat at 2 by lia.
  apply (wp_check_phase fuel _ now now pend rest free); cbn [dev wlog glb]; try done; [lia|by left|eapply Forall_impl; [exact Hr|]; cbn; lia|lia|lia|unfold now; zlia|].
  intros h1 g1 free1 l1 Hw1 Harm1 Ht1 Hlo1 Hcalled1 Hck1 He1 Hin1.
  destruct (timely_split now l1 Ht1) as (pend1 & rest1 & -> & Hp1 & Hr1). pose proof (armed_length _ _ Harm1) as Hlen1. rewrite length_app in Hlen1.
  assert (0 <= 2 * hop * Z.of_nat (length pend1) <= 10 * hop) as Hb1 by nia.
  replace (fuel - length pend)%nat with (length pend1 + (fuel - length pend - length pend1))%nat by lia.
  assert (Forall (fun x => due (snd x) = now) pend1) as Hpe.
  { apply Forall_app in Hlo1 as [Hlo1 _]. rewrite Forall_forall in *. intros x Hx. pose proof (Hp1 x Hx). pose proof (Hlo1 x Hx). lia. }
  apply (wp_check_phase fuel _ now (now + 1) pend1 rest1 free1); cbn [dev wlog glb]; try done; [lia|by right|eapply Forall_impl; [exact Hr1|]; cbn; lia|lia|lia|unfold now; zlia|].
  intros h2 g2 free2 l2 Hw2 Harm2 Ht2 Hlo2 Hcalled2 Hck2 He2 Hin2. cbn [dev wlog glb] in *.
  apply (wp_check_idle _ _ _ l2 _ free2); [done| |lia|].
  { destruct l2 as [|x l2]; [done|]. destruct (timely_cons _ _ Ht2) as (Hx & _). apply Forall_cons in Hlo2 as [Hlo2 _].
    rewrite time_less; [by apply Z.ltb_lt; lia| |done]. unfold in_time in Hx. change horizon with 859053459 in *. unfold now. zlia. }
  apply (HQ h2 g2 free2 l2 (tmr_of <$> pend1)); try done; [eapply Forall_impl; [exact Hlo2|]; cbn; lia| |by eapply elsewhere_trans|].
  - eapply called_app; [by apply called_tick|done].
  - intros y Hy. apply Hin2. pose proof (Hin1 y Hy) as Hy1. apply elem_of_app in Hy1 as [Hy1|]; [|done].
    rewrite Forall_forall in *. pose proof (Hp1 y Hy1). pose proof (Hr y Hy). lia.
Qed.
End spec.
