(* ===== verification/TimeoutsProps.v ===== *)
(** The properties of the stack's timers: their order, that none is lost while the clock goes
    forward, how one is taken back, and that all of them stop when the clock wraps. *)
From S2P Require Import Prelude Machine SysArch LwMem Timeouts TimeoutsSpec.
From Stdlib Require Import Sorted.
From stdpp Require Import list gmap sorting.

#[local] Open Scope Z_scope.
#[local] Open Scope fw_scope.

Section props.
Context {B : Bus} {P : Pools} {T : StackTimers B}.
Implicit Types s : mach tmo.

(** ** Arming *)

(** What sys_now returns next. *)
Definition now_of s : Z := u32 (fst (ktick (dev s))) / 5.

Lemma wp_now s (Q : Z -> mach tmo -> Prop) : Q (now_of s) (Mach (snd (ktick (dev s))) (wlog s) (glb s)) -> wp sys_now s Q.
Proof. done. Qed.

Lemma now_range s : 0 <= now_of s <= last_ms.
Proof. unfold now_of. pose proof (u32_range (fst (ktick (dev s)))). change last_ms with 858993459. zlia. Qed.

Lemma wp_sys_timeout {A : PoolsApart} fuel msecs h arg s free l (Q : unit -> mach tmo -> Prop) :
  waiting (glb s) free l -> (length l <= fuel)%nat ->
  (free = [] -> Q tt (Mach (snd (ktick (dev s))) (wlog s) (glb s))) ->
  (forall a free' g', free = a :: free' -> waiting g' free' (enqueue (a, Timer (u32 (now_of s + msecs)) h arg) l) -> elsewhere (t_lw (glb s)) (t_lw g') ->
     current_timeout_due_time g' = current_timeout_due_time (glb s) -> tcpip_tcp_timer_active g' = tcpip_tcp_timer_active (glb s) ->
     Q tt (Mach (snd (ktick (dev s))) (wlog s) g')) ->
  wp (sys_timeout fuel msecs h arg) s Q.
Proof. intros Hw Hf H0 H1. apply wp_step, wp_now. by apply (wp_sys_timeout_abs _ _ _ _ _ free l). Qed.


(** ** Expiry *)

(** C23: sys_check_timeouts calls the function of every timer of the stack that is over, in the order of
    their deadlines, and arms it again: at the end the same timers wait ([armed]: the
    four cyclic ones, and the one of TCP if its flag is set), all of them later than the time at
    which the call began; the one of TCP is given up, its flag cleared, exactly when no connection
    needs it at the end of a call of tcp_tmr ([called]); those that were not over are untouched. *)
Theorem sys_check_timeouts_fires {A : PoolsApart} {C : StackClock} fuel s free l :
  waiting (glb s) free l -> armed (glb s) l -> timely l -> (11 <= fuel)%nat -> 0 <= kclock (dev s) -> kclock (dev s) + 21 * hop < 2 ^ 32 ->
  let now := kclock (dev s) / 5 in
  wp (sys_check_timeouts fuel) s (fun _ s' => exists pend rest free' l' late,
    l = pend ++ rest /\ Forall (fun x => due (snd x) <= now) pend /\ Forall (fun x => now < due (snd x)) rest /\
    called ((tmr_of <$> pend) ++ late) (dev s) (tcpip_tcp_timer_active (glb s)) (dev s') (tcpip_tcp_timer_active (glb s')) /\
    waiting (glb s') free' l' /\ armed (glb s') l' /\ timely l' /\ Forall (fun x => now < due (snd x)) l' /\
    (forall y, y ∈ rest -> y ∈ l') /\ elsewhere (t_lw (glb s)) (t_lw (glb s'))).
Proof.
  intros Hw Harm Ht Hf H0 Hc now. apply (wp_sys_check_timeouts fuel s free l); try done.
  intros h' g' free' l' pend rest late -> Hp Hr Hw' Harm' Ht' Hl' Hcall He Hin. by exists pend, rest, free', l', late.
Qed.

(** ** None is lost *)

(** The stack's timers wait, in order. *)
Definition kept s : Prop := exists free l, waiting (glb s) free l /\ armed (glb s) l /\ timely l.

Lemma waiting_count g free l : waiting g free l -> (length free + length l = 5)%nat.
Proof.
  intros [_ _ _ H]. rewrite <- (length_fmap fst l), <- length_app, H. unfold memp_elems, zrange. by rewrite length_fmap, length_seqZ.
Qed.

Lemma has_free g free l : waiting g free l -> (length l < 5)%nat -> free <> [].
Proof. intros H%waiting_count Hl ->. cbn in H. lia. Qed.

Lemma timely_new a ms h arg s l : timely l -> 0 <= ms <= DHCP_COARSE_TIMER_MSECS -> timely (enqueue (a, Timer (u32 (now_of s + ms)) h arg) l).
Proof.
  intros Ht Hms. pose proof (now_range s) as Hn. apply enqueue_timely; [done|]. unfold in_time. cbn [snd due].
  change horizon with 859053459. change last_ms with 858993459 in Hn. change DHCP_COARSE_TIMER_MSECS with 60000 in Hms. rewrite u32_small by lia. lia.
Qed.

Lemma wp_sys_timeouts_init {A : PoolsApart} fuel s free (Q : unit -> mach tmo -> Prop) :
  waiting (glb s) free [] -> tcpip_tcp_timer_active (glb s) = 0 -> (5 <= fuel)%nat ->
  (forall s', kept s' -> Q tt s') -> wp (sys_timeouts_init fuel) s Q.
Proof.
  intros Hw Hact Hf HQ. unfold sys_timeouts_init.
  apply (wp_for_range (fun k s' => exists free l, waiting (glb s') free l /\ key <$> l ≡ₚ cyclic_key <$> zrange 1 (Z.to_nat (k - 1)) /\
    timely l /\ tcpip_tcp_timer_active (glb s') = 0)).
  - exists free, []. split; [done|]. split; [done|]. split; [|done]. split; constructor.
  - intros k s1 Hk (free1 & l1 & Hw1 & Hkeys & Ht & Ha).
    assert (length l1 = Z.to_nat (k - 1)) as Hlen.
    { rewrite <- (length_fmap key l1), Hkeys, length_fmap. unfold zrange. rewrite length_seqZ. lia. }
    destruct (aget_is_Some lwip_cyclic_timers k) as [v Hv]; [cbn; lia|]. apply wp_step, (wp_deref _ _ _ _ Hv).
    assert (0 <= v <= DHCP_COARSE_TIMER_MSECS) as Hvr.
    { unfold aget in Hv. destruct (Z.ltb_spec k 0); [lia|]. apply list_elem_of_lookup_2 in Hv.
      assert (Forall (fun v => 0 <= v <= DHCP_COARSE_TIMER_MSECS) lwip_cyclic_timers) as Hall by (by repeat constructor).
      rewrite Forall_forall in Hall. by apply Hall. }
    apply (wp_sys_timeout _ _ _ _ _ free1 l1); [done|lia|intros ->; by destruct (has_free _ _ _ Hw1 ltac:(lia))|].
    intros a free' g' -> Hw' _ _ Hact'. exists free', (enqueue (a, Timer (u32 (now_of s1 + v)) lwip_cyclic_timer_ (cyclic_entry k)) l1).
    split; [done|]. split; [|split; [by apply timely_new|cbn; congruence]].
    replace (Z.to_nat (k + 1 - 1)) with (S (Z.to_nat (k - 1))) by lia. rewrite zrange_snoc, fmap_app, enqueue_perm.
    replace (1 + Z.of_nat (Z.to_nat (k - 1))) with k by lia. cbn [fmap list_fmap]. rewrite Hkeys. apply Permutation_cons_append.
  - intros s1 (free1 & l1 & Hw1 & Hkeys & Ht & Ha). apply HQ. exists free1, l1. split; [done|]. split; [|done].
    unfold armed, stack_keys. rewrite Ha. cbn [Z.eqb]. rewrite app_nil_r. by rewrite Hkeys.
Qed.

(** The flag of the TCP timer after tcp_timer_needed. *)
Definition tcp_flag s : Z :=
  let active := tcpip_tcp_timer_active (glb s) in if (active =? 0) && tcp_pcbs (dev s) then 1 else active.

Lemma wp_tcp_timer_needed {A : PoolsApart} fuel s (Q : unit -> mach tmo -> Prop) :
  kept s -> (5 <= fuel)%nat ->
  (forall s', kept s' -> tcpip_tcp_timer_active (glb s') = tcp_flag s -> Q tt s') ->
  wp (tcp_timer_needed fuel) s Q.
Proof.
  intros (free & l & Hw & Harm & Ht) Hf HQ. apply wp_step, wp_get. apply wp_step.
  change (wp (asks tcp_pcbs) s) with (fun Q : bool -> mach tmo -> Prop => Q (tcp_pcbs (dev s)) s). cbv beta.
  revert HQ. unfold tcp_flag. destruct (Z.eqb_spec (tcpip_tcp_timer_active (glb s)) 0) as [Ha|Ha]; cbn [andb]; intros HQ.
  2: { apply wp_ret, HQ; [by exists free, l|done]. }
  revert HQ. destruct (tcp_pcbs (dev s)); intros HQ; [|apply wp_ret, HQ; [by exists free, l|done]].
  apply wp_step, wp_modify. unfold armed in Harm. rewrite Ha in Harm.
  assert (length l = 4%nat) as Hlen by (rewrite <- (length_fmap key l), Harm; unfold stack_keys, zrange; by rewrite length_app, length_fmap, length_seqZ).
  apply (wp_sys_timeout _ _ _ _ _ free l); [by destruct Hw; split|lia|intros ->; by destruct (has_free _ _ _ Hw ltac:(lia))|].
  cbn [glb dev wlog]. intros a free' g' -> Hw' _ _ Hact. apply HQ; [|cbn; by rewrite Hact].
  eexists free', _. split; [exact Hw'|]. split; [|by apply (timely_new a TCP_TMR_INTERVAL _ _ (Mach (dev s) (wlog s) (put_tcp_active 1 (glb s))))].
  unfold armed. cbn [glb]. rewrite Hact, enqueue_perm. cbn [fmap list_fmap]. rewrite Harm. unfold stack_keys. cbn [Z.eqb tcpip_tcp_timer_active put_tcp_active].
  rewrite app_nil_r. apply Permutation_cons_append.
Qed.

(** C24: the five elements of the pool are enough: sys_timeouts_init arms the four cyclic timers,
    tcp_timer_needed the one of TCP when connections need it and it does not run, and no call of these or of
    sys_check_timeouts loses a timer, arms one twice or finds the pool empty, as long as the
    counter of the kernel does not wrap; sys_check_timeouts gives the one of TCP up only when
    no connection needs it at the end of a call of tcp_tmr ([called]). *)
Theorem stack_timers_kept {A : PoolsApart} {C : StackClock} fuel s : (11 <= fuel)%nat ->
  (forall free, waiting (glb s) free [] -> tcpip_tcp_timer_active (glb s) = 0 -> wp (sys_timeouts_init fuel) s (fun _ s' => kept s')) /\
  (kept s -> wp (tcp_timer_needed fuel) s (fun _ s' => kept s' /\ tcpip_tcp_timer_active (glb s') = tcp_flag s)) /\
  (kept s -> 0 <= kclock (dev s) -> kclock (dev s) + 21 * hop < 2 ^ 32 -> wp (sys_check_timeouts fuel) s (fun _ s' => kept s' /\
     exists tr, called tr (dev s) (tcpip_tcp_timer_active (glb s)) (dev s') (tcpip_tcp_timer_active (glb s')))).
Proof.
  intros Hf. split; [|split].
  - intros free Hw Ha. apply (wp_sys_timeouts_init _ _ free); (done || lia).
  - intros Hk. by apply wp_tcp_timer_needed; [|lia|].
  - intros (free & l & Hw & Harm & Ht) H0 Hc. apply (wp_sys_check_timeouts fuel s free l); try done.
    intros h' g' free' l' pend rest late _ _ _ Hw' Harm' Ht' _ Hcall _ _. split; [by exists free', l'|by eexists].
Qed.

(** ** The wrap *)

(** A check that finds all timers later than any time there is. *)
Lemma wp_check_late fuel s free l (Q : unit -> mach tmo -> Prop) : waiting (glb s) free l -> Forall (fun x => last_ms < due (snd x) <= horizon) l -> (0 < fuel)%nat ->
  Q tt (Mach (snd (ktick (dev s))) (wlog s) (glb s)) -> wp (sys_check_timeouts fuel) s Q.
Proof.
  intros Hw Hl Hf HQ. apply wp_step, wp_now. apply (wp_check_idle _ _ _ l _ free); [done| |done|done].
  destruct l as [|x l]; [done|]. apply Forall_cons in Hl as [Hx _]. pose proof (now_range s) as Hn.
  change last_ms with 858993459 in *. change horizon with 859053459 in *. rewrite time_less by (change horizon with 859053459; lia). apply Z.ltb_lt. lia.
Qed.

(** C22: sys_now divides the 32-bit counter of the kernel by 5, so it never exceeds 858993459, where it
    wraps after ten days; TIME_LESS_THAN expects a wrap at 2^32.  A timer that is
    armed across the wrap is never over: once all timers are, none of the stack's timer functions is
    called again, whatever happens in between ([fs]) and however often and at whatever time
    sys_check_timeouts is called. *)
Theorem timers_stop_at_wrap fuel s free l (fs : list (hw -> hw)) :
  waiting (glb s) free l -> Forall (fun x => last_ms < due (snd x) <= horizon) l -> (0 < fuel)%nat ->
  wp (for_each fs (fun f => outside f ;; sys_check_timeouts fuel)) s
    (fun _ s' => glb s' = glb s /\ dev s' = fold_left (fun h f => snd (ktick (f h))) fs (dev s)).
Proof.
  intros Hw Hl Hf. revert s Hw. induction fs as [|f fs IH]; intros s Hw; [by apply wp_ret|].
  cbn [for_each fold_left]. apply wp_step, wp_step.
  change (wp (outside f) s) with (fun Q : unit -> mach tmo -> Prop => Q tt (Mach (f (dev s)) (wlog s) (glb s))). cbv beta.
  apply (wp_check_late _ _ free l); [done..|]. eapply wp_mono; [by apply IH|]. done.
Qed.

(** ** Taking back *)

Lemma tlist_app m l1 l2 : tlist m (l1 ++ l2) -> tlist m l2.
Proof. induction l1 as [|[a x] l1 IH]; [done|]. intros (_ & _ & H). by apply IH. Qed.

(** The timeout behind [p] unlinked. *)
Lemma tlist_unlink m pre p y x post : tlist m (pre ++ (p, y) :: x :: post) -> NoDup (pre ++ (p, y) :: x :: post).*1 ->
  tlist (<[p := Timeo (SysTimeo (first post) (due y) (hnd y) (targ y))]> m) (pre ++ (p, y) :: post).
Proof.
  induction pre as [|[a z] pre IH]; cbn [app fmap list_fmap fst].
  - destruct x as [b x]. intros (Hp & _ & _ & _ & Hl) [Hn _]%NoDup_cons. split; [done|]. split; [by rewrite lookup_insert_eq|].
    apply tlist_insert; [|done]. intros Hin. apply Hn. by right.
  - intros (Ha & Hm & Hl) [Hn Hnd]%NoDup_cons. split; [done|]. split; [|by apply IH]. rewrite lookup_insert_ne.
    + rewrite Hm. by destruct pre as [|[]].
    + intros ->. apply Hn. rewrite fmap_app, elem_of_app. right. by left.
Qed.

Definition matches (h arg : Z) (x : Z * timer) : bool := (hnd (snd x) =? h) && (targ (snd x) =? arg).

Lemma wp_untimeout_loop {A : PoolsApart} l : forall fuel pre prev h arg free s (Q : unit -> mach tmo -> Prop),
  waiting (glb s) free (pre ++ l) -> (length l < fuel)%nat ->
  match reverse pre with [] => prev = 0 | (p, _) :: _ => prev = p end ->
  (Forall (fun x => matches h arg x = false) l -> Q tt s) ->
  (forall l1 a x l2 g', l = l1 ++ (a, x) :: l2 -> matches h arg (a, x) = true -> Forall (fun x => matches h arg x = false) l1 ->
     waiting g' (a :: free) (pre ++ l1 ++ l2) -> elsewhere (t_lw (glb s)) (t_lw g') -> Q tt (Mach (dev s) (wlog s) g')) ->
  wp (untimeout_loop fuel (first l) prev h arg) s Q.
Proof.
  induction l as [|[a x] l IH]; intros fuel pre prev h arg free s Q Hw Hf Hprev HQ0 HQ; (destruct fuel as [|fuel]; [cbn in Hf; lia|]); cbn [untimeout_loop first].
  { by apply HQ0. }
  pose proof (waiting_nodup _ _ _ Hw) as Hnd. pose proof Hw as [Hfree Hl Hfst Hel]. pose proof (tlist_app _ _ _ Hl) as (Ha & Hm & Htl).
  destruct (Z.eqb_spec a 0); [done|]. cbn [negb]. apply wp_step, (wp_read_timeo _ _ _ _ Hm). cbn [to_h to_arg to_next].
  change ((hnd x =? h) && (targ x =? arg)) with (matches h arg (a, x)). destruct (matches h arg (a, x)) eqn:Hmat.
  2: { apply (IH fuel (pre ++ [(a, x)]) a h arg free); [by rewrite <- app_assoc|cbn in Hf; lia|by rewrite reverse_snoc| |].
    - intros Hall. apply HQ0. by apply Forall_cons.
    - intros l1 b y l2 g' -> Hb Hl1 Hw' He. rewrite <- app_assoc in Hw'. apply (HQ ((a, x) :: l1) b y l2 g'); try done. by apply Forall_cons. }
  assert (a ∈ memp_elems MEMP_SYS_TIMEOUT) as Hae.
  { apply (waiting_elem _ _ _ a Hw). rewrite fmap_app, elem_of_app. right. by left. }
  apply NoDup_app in Hnd as (_ & Hd & Hnd). assert (a ∉ free) as Haf.
  { intros Hin. apply (Hd a Hin). rewrite fmap_app, elem_of_app. right. by left. }
  assert (a ∉ (pre ++ l).*1) as Hal.
  { rewrite fmap_app in Hnd |- *. cbn [fmap list_fmap fst] in Hnd. rewrite <- Permutation_middle in Hnd. by apply NoDup_cons in Hnd as [? _]. }
  assert (forall m' tab', (forall b, b ∈ free -> m' !! b = lw_cells (t_lw (glb s)) !! b) -> m' !! a = Some (Link (lw_tab (t_lw (glb s)) MEMP_SYS_TIMEOUT)) ->
    tab' = a -> links m' tab' (a :: free)) as Hlinks.
  { intros m' tab' Hm' Hma ->. split; [done|]. split; [done|]. eexists. split; [exact Hma|]. by apply (links_agree (lw_cells (t_lw (glb s)))). }
  assert (a :: free ++ (pre ++ l).*1 ≡ₚ memp_elems MEMP_SYS_TIMEOUT) as Hel'.
  { rewrite <- Hel, !fmap_app. cbn [fmap list_fmap fst]. by rewrite <- !Permutation_middle. }
  destruct (reverse pre) as [|[p y] rpre] eqn:Er.
  - assert (pre = []) as -> by (rewrite <- (reverse_involutive pre), Er; done). subst prev.
    apply wp_step, wp_modify. apply wp_in_lw, wp_memp_free; [done|]. apply (HQ [] a x l); try done; cbn [app] in *.
    + split; [|by apply tlist_insert|done|done]. apply Hlinks; [|cbn; by rewrite lookup_insert_eq|by apply with_tab_eq].
      intros b Hb. cbn. rewrite lookup_insert_ne; [done|]. by intros ->.
    + eapply elsewhere_trans; [by apply elsewhere_put|apply elsewhere_tab].
  - assert (pre = reverse rpre ++ [(p, y)]) as -> by (rewrite <- (reverse_involutive pre), Er; apply reverse_cons). subst prev.
    rewrite <- !app_assoc in *. cbn [app] in *.
    assert (p ∈ memp_elems MEMP_SYS_TIMEOUT) as Hpe.
    { apply (waiting_elem _ _ _ p Hw). rewrite fmap_app, elem_of_app. right. by left. }
    pose proof (tlist_app _ _ _ Hl) as (Hp & Hmp & _). destruct (Z.eqb_spec p 0); [done|].
    apply wp_step, (wp_store_timeo _ _ _ _ _ Hmp). apply wp_in_lw, wp_memp_free; [done|]. cbn [dev wlog glb on_cells].
    assert (p ∉ free) as Hpf by (intros Hin; apply (Hd p Hin); rewrite fmap_app, elem_of_app; right; by left).
    assert (a <> p) as Hap by (intros ->; apply Hal; rewrite fmap_app, elem_of_app; right; by left).
    apply (HQ [] a x l); try done.
    + rewrite app_nil_l, <- app_assoc. cbn [app]. split.
      * apply Hlinks; [|cbn; by rewrite lookup_insert_eq|by apply with_tab_eq].
        intros b Hb. cbn. rewrite !lookup_insert_ne; [done|by intros ->|by intros ->].
      * apply tlist_insert; [done|]. by apply (tlist_unlink _ (reverse rpre) p y (a, x) l).
      * cbn [next_timeout put_lw]. rewrite Hfst. by destruct (reverse rpre) as [|[]].
      * done.
    + eapply elsewhere_trans; [by apply (elsewhere_put _ p)|]. eapply elsewhere_trans; [by apply (elsewhere_put _ a)|apply elsewhere_tab].
Qed.

(** sys_untimeout takes the first timeout with the function and the argument off the list and frees
    its element; the others keep their places, and nothing happens when there is none. *)
Theorem sys_untimeout_removes {A : PoolsApart} fuel h arg s free l : waiting (glb s) free l -> (length l < fuel)%nat ->
  wp (sys_untimeout fuel h arg) s (fun _ s' => dev s' = dev s /\ elsewhere (t_lw (glb s)) (t_lw (glb s')) /\
    ((Forall (fun x => matches h arg x = false) l /\ glb s' = glb s) \/
     exists l1 a x l2, l = l1 ++ (a, x) :: l2 /\ Forall (fun x => matches h arg x = false) l1 /\ matches h arg (a, x) = true /\
       waiting (glb s') (a :: free) (l1 ++ l2))).
Proof.
  intros Hw Hf. apply wp_step, wp_get. pose proof (wt_first _ _ _ Hw) as Hfst. rewrite Hfst. destruct (Z.eqb_spec (first l) 0) as [H0|H0].
  - apply wp_ret. split; [done|]. split; [apply elsewhere_refl|]. left. split; [|done]. destruct l as [|[a x] l]; [done|].
    destruct (wt_list _ _ _ Hw) as (Ha & _). done.
  - apply (wp_untimeout_loop l fuel [] 0 h arg free s); [done|done|done| |].
    + intros Hall. split; [done|]. split; [apply elsewhere_refl|]. by left.
    + intros l1 a x l2 g' -> Hm Hl1 Hw' He. split; [done|]. split; [done|]. right. by exists l1, a, x, l2.
Qed.
End props.

(** The stack's thread sleeps until the first timer is over: for ever when there is none, and not at
    all when one is over already. *)
Theorem sys_timeouts_sleeptime_next {B : Bus} {P : Pools} {T : StackTimers B} (s : mach tmo) free l : waiting (glb s) free l -> timely l ->
  wp sys_timeouts_sleeptime s (fun r s' => glb s' = glb s /\
    match l with
    | [] => r = SYS_TIMEOUTS_SLEEPTIME_INFINITE
    | x :: _ => r = Z.max 0 (due (snd x) - now_of s) /\ Forall (fun y => now_of s + r <= Z.max (now_of s) (due (snd y))) l
    end).
Proof.
  intros Hw Ht. apply wp_step, wp_get. rewrite (wt_first _ _ _ Hw). destruct l as [|[a x] l]; [done|].
  destruct (wt_list _ _ _ Hw) as (Ha & Hm & _). cbn [first]. destruct (Z.eqb_spec a 0); [done|].
  apply wp_step, wp_now, wp_step, (wp_read_timeo _ _ (Mach _ _ (glb s)) _ Hm). cbn [to_time].
  destruct (timely_cons _ _ Ht) as (Hx & _ & Hall). pose proof (now_range s) as Hn. unfold in_time in Hx. cbn [snd] in *.
  change horizon with 859053459 in *. change last_ms with 858993459 in *.
  assert (forall r, r = Z.max 0 (due x - now_of s) -> Forall (fun y => now_of s + r <= Z.max (now_of s) (due (snd y))) ((a, x) :: l)) as Hr.
  { intros r ->. apply Forall_cons. cbn [snd]. split; [lia|]. eapply Forall_impl; [exact Hall|]. cbn. lia. }
  rewrite time_less by (change horizon with 859053459; lia). destruct (Z.ltb_spec (due x) (now_of s)); apply wp_ret; (split; [done|]).
  - assert (0 = Z.max 0 (due x - now_of s)) as E by lia. split; [done|by apply Hr].
  - assert (u32 (due x - now_of s) = Z.max 0 (due x - now_of s)) as E by (rewrite u32_small; lia). split; [done|by apply Hr].
Qed.

(** * An instance *)

(** A kernel whose counter moves on with every reading and every function of a protocol, with the
    functions that were called. *)
#[local] Instance tick_bus : Bus := {|
  hw := Z * list Z;
  mmio_rd _ h := (0, h);
  mmio_wr _ _ h := h;
  ktick h := (fst h, (fst h + 1, snd h));
  os_delay n h := (fst h + n, snd h) |}.

#[local] Instance tick_timers : StackTimers tick_bus := {|
  lwip_cyclic_timer_ := 0x08010101; tcpip_tcp_timer_ := 0x08010201; cyclic_table := 0x08020000;
  stack_tmr i h := (fst h + 1, i :: snd h); tcp_pcbs _ := false; other_handler _ _ h := h |}.

#[local] Instance tick_clock : StackClock.
Proof. refine (Build_StackClock (fst : @hw tick_bus -> Z) 1 _ _ _ _ _ _); try done; cbn; lia. Defined.

#[local] Existing Instance sim_pools.
#[local] Existing Instance sim_pools_apart.

Definition start (tick : Z) : mach tmo := Mach ((tick, []) : @hw tick_bus) [] (Tmo lw_reset 0 0 0).

(** The timers after sys_timeouts_init at the time [n]. *)
Definition first_timers (n : Z) : timers :=
  let e i := memp_elem MEMP_SYS_TIMEOUT i in
  [(e 1, Timer (n + 500) lwip_cyclic_timer_ (cyclic_entry 4)); (e 4, Timer (n + 1000) lwip_cyclic_timer_ (cyclic_entry 1));
   (e 3, Timer (n + 1000) lwip_cyclic_timer_ (cyclic_entry 2)); (e 2, Timer (n + 60000) lwip_cyclic_timer_ (cyclic_entry 3))].

Definition started (tick : Z) : tmo := glb (final (bind (in_lw memp_init) (fun _ => sys_timeouts_init 11) (start tick))).

Lemma started_waiting tick : tick = 100 \/ tick = 2 ^ 32 - 10 ->
  waiting (started tick) [memp_elem MEMP_SYS_TIMEOUT 0] (first_timers (tick / 5)).
Proof.
  assert (forall m p a, p = a -> a <> 0 -> m !! a = Some (Link 0) -> links m p [a]) as Hone by (intros m p a ? ? ?; split; [done|split; [done|by exists 0]]).
  intros [-> | ->]; (split;
    [apply Hone; by vm_compute
    |cbn [tlist first_timers]; do 4 (split; [by vm_compute|split; [by vm_compute|]]); exact I
    |by vm_compute|apply (bool_decide_unpack _); by vm_compute]).
Qed.


Lemma started_armed tick : tick = 100 \/ tick = 2 ^ 32 - 10 -> armed (started tick) (first_timers (tick / 5)) /\ timely (first_timers (tick / 5)).
Proof.
  intros H. split.
  - assert (tcpip_tcp_timer_active (started tick) = 0) as E by (destruct H as [-> | ->]; by vm_compute).
    unfold armed. rewrite E. apply (bool_decide_unpack _). by vm_compute.
  - split.
    + destruct H as [-> | ->]; repeat (apply Forall_cons; split; [by split|]); done.
    + destruct H as [-> | ->]; repeat (constructor; [|repeat (apply Forall_cons; split; [done|]); done]); constructor.
Qed.

(** 1200 ms after the start three of them are over. *)
Lemma sys_check_timeouts_fires_witness :
  wp (sys_check_timeouts 11) (Mach ((6000, []) : @hw tick_bus) [] (started 100)) (fun _ s' =>
    (exists late, called ([4; 1; 2] ++ late) ((6000, []) : @hw tick_bus) 0 (dev s') (tcpip_tcp_timer_active (glb s'))) /\
    exists free l, waiting (glb s') free l /\ armed (glb s') l /\ Forall (fun x => 1200 < due (snd x)) l).
Proof.
  destruct (started_armed 100 ltac:(by left)) as [Harm Ht]. pose proof (started_waiting 100 ltac:(by left)) as Hw.
  assert (tcpip_tcp_timer_active (started 100) = 0) as Ha by by vm_compute.
  change (100 / 5) with 20 in *. revert Hw Harm Ha. generalize (started 100). intros g Hw Harm Ha.
  eapply wp_mono; [apply (sys_check_timeouts_fires 11 (Mach ((6000, []) : @hw tick_bus) [] g) _ _ Hw Harm Ht); cbn; lia|].
  cbn [glb dev]. change (kclock ((6000, []) : @hw tick_bus)) with 6000. change (6000 / 5) with 1200.
  intros [] s' (pend & rest & free' & l' & late & E & Hp & Hr & Hcall & Hw' & Harm' & _ & Hl' & _). split; [|by exists free', l'].
  exists late. cbn [glb dev] in Hcall. rewrite Ha in Hcall. unfold first_timers in E. destruct pend as [|p1 [|p2 [|p3 [|p4 pend]]]]; cbn [app] in E; simplify_eq; [..|done|];
    repeat match goal with H : Forall _ (_ :: _) |- _ => apply Forall_cons in H as [? H] end; cbn in *; lia.
Defined.

Lemma stack_timers_kept_witness :
  wp (bind (in_lw memp_init) (fun _ => bind (sys_timeouts_init 11) (fun _ => tcp_timer_needed 11))) (start 100) (fun _ s' => kept s').
Proof.
  apply wp_step, wp_in_lw, wp_memp_init. intros m Hfree _ _. set (s := Mach _ _ _).
  destruct (stack_timers_kept 11 s ltac:(lia)) as (Hinit & _). apply wp_step.
  eapply wp_mono; [apply (Hinit (reverse (memp_elems MEMP_SYS_TIMEOUT))); [|done]|].
  - split; [apply Hfree|done|done|]. by rewrite app_nil_r, reverse_Permutation.
  - intros [] s1 Hk. destruct (stack_timers_kept 11 s1 ltac:(lia)) as (_ & Hneed & _). eapply wp_mono; [by apply Hneed|]. by intros [] s2 [? _].
Defined.

(** Armed two milliseconds before the counter wraps, no timer is ever over: the counter starts
    again, goes on for three days, and comes up to the wrap once more. *)
Lemma timers_stop_at_wrap_witness :
  let fs := [(fun h => (2 ^ 32, snd h)); (fun h => (2 ^ 32 + 5000 * 86400 * 3, snd h)); (fun h => (2 ^ 33 - 1, snd h))] : list (@hw tick_bus -> @hw tick_bus) in
  wp (for_each fs (fun f => outside f ;; sys_check_timeouts 11)) (Mach ((2 ^ 32 - 6, []) : @hw tick_bus) [] (started (2 ^ 32 - 10)))
    (fun _ s' => snd (dev s') = []).
Proof.
  intros fs. pose proof (started_waiting (2 ^ 32 - 10) ltac:(by right)) as Hw.
  change ((2 ^ 32 - 10) / 5) with 858993457 in *. revert Hw. generalize (started (2 ^ 32 - 10)). intros g Hw.
  eapply wp_mono; [apply (timers_stop_at_wrap 11 (Mach ((2 ^ 32 - 6, []) : @hw tick_bus) [] g) _ _ fs Hw)|].
  - repeat (apply Forall_cons; split; [by split|]); done.
  - lia.
  - by intros [] s' [_ ->].
Defined.

(** The ARP timer is taken back. *)
Lemma sys_untimeout_removes_witness :
  wp (sys_untimeout 5 lwip_cyclic_timer_ (cyclic_entry 2)) (Mach ((100, []) : @hw tick_bus) [] (started 100)) (fun _ s' =>
    exists free l, waiting (glb s') free l /\ length l = 3%nat).
Proof.
  pose proof (started_waiting 100 ltac:(by left)) as Hw. change (100 / 5) with 20 in Hw. revert Hw. generalize (started 100). intros g Hw.
  eapply wp_mono; [apply (sys_untimeout_removes 5 _ _ (Mach ((100, []) : @hw tick_bus) [] g) _ _ Hw); cbn; lia|].
  intros [] s' (_ & _ & [[Hall _]|(l1 & a & x & l2 & E & _ & _ & Hw')]).
  - repeat (apply Forall_cons in Hall as [? Hall]). done.
  - eexists _, _. split; [exact Hw'|]. apply (f_equal length) in E. rewrite length_app in *. cbn in E |- *. lia.
Defined.
