(* ===== verification/Etharp.v ===== *)
(** The ARP cache and the Ethernet layer of the lwIP stack, lwip-2.1.2/src/core/ipv4/etharp.c and
    lwip-2.1.2/src/netif/ethernet.c, with what they use of core/ipv4/ip4_addr.c: which hardware
    address an IP packet goes to, packets that wait for an address, requests and replies. *)
From S2P Require Import Prelude Machine LwMem LwHeap Pbuf PbufCopy.
From stdpp Require Import list gmap.

#[local] Open Scope Z_scope.
#[local] Open Scope fw_scope.

(** * State *)

Inductive etharp_state :=
| ETHARP_STATE_EMPTY | ETHARP_STATE_PENDING | ETHARP_STATE_STABLE
| ETHARP_STATE_STABLE_REREQUESTING_1 | ETHARP_STATE_STABLE_REREQUESTING_2.

#[export] Instance etharp_state_eq_dec : EqDecision etharp_state.
Proof. solve_decision. Defined.

(** [state >= ETHARP_STATE_STABLE] *)
Definition is_stable (st : etharp_state) : bool :=
  match st with ETHARP_STATE_EMPTY | ETHARP_STATE_PENDING => false | _ => true end.

(** [struct etharp_entry]: the packet that waits, or NULL; addresses of IP are the 32-bit word in
    memory, those of Ethernet six bytes, [ae_netif] is a pointer. *)
Record etharp_entry := EtharpEntry {
  ae_q : Z; ae_ipaddr : Z; ae_netif : Z; ae_ethaddr : list Z; ae_ctime : Z; ae_state : etharp_state }.

(** What the layer reads of a [struct netif]; [n4_dhcp] is the state of its DHCP client and the
    address that was offered to it, if there is a client. *)
Record netif4 := Netif4 {
  n4_ip_addr : Z; n4_netmask : Z; n4_gw : Z; n4_hwaddr : list Z; n4_flags : Z; n4_num : Z; n4_dhcp : option (Z * Z) }.

Record etharp := Etharp {
  arp_lw : lwip; arp_table : list etharp_entry; etharp_cached_entry : Z; arp_netifs : gmap Z netif4 }.

#[export] Instance etharp_lwip : Has etharp lwip := {|
  part := arp_lw; with_part l g := Etharp l (arp_table g) (etharp_cached_entry g) (arp_netifs g);
  part_with h g := eq_refl; with_same g := match g with Etharp _ _ _ _ => eq_refl end |}.

Definition put_table (t : list etharp_entry) (g : etharp) : etharp := Etharp (arp_lw g) t (etharp_cached_entry g) (arp_netifs g).
Definition put_cached (i : Z) (g : etharp) : etharp := Etharp (arp_lw g) (arp_table g) i (arp_netifs g).

Definition put_q (v : Z) (e : etharp_entry) : etharp_entry :=
  EtharpEntry v (ae_ipaddr e) (ae_netif e) (ae_ethaddr e) (ae_ctime e) (ae_state e).
Definition put_ipaddr (v : Z) (e : etharp_entry) : etharp_entry :=
  EtharpEntry (ae_q e) v (ae_netif e) (ae_ethaddr e) (ae_ctime e) (ae_state e).
Definition put_netif (v : Z) (e : etharp_entry) : etharp_entry :=
  EtharpEntry (ae_q e) (ae_ipaddr e) v (ae_ethaddr e) (ae_ctime e) (ae_state e).
Definition put_ethaddr (v : list Z) (e : etharp_entry) : etharp_entry :=
  EtharpEntry (ae_q e) (ae_ipaddr e) (ae_netif e) v (ae_ctime e) (ae_state e).
Definition put_ctime (v : Z) (e : etharp_entry) : etharp_entry :=
  EtharpEntry (ae_q e) (ae_ipaddr e) (ae_netif e) (ae_ethaddr e) (u16 v) (ae_state e).
Definition put_state (v : etharp_state) (e : etharp_entry) : etharp_entry :=
  EtharpEntry (ae_q e) (ae_ipaddr e) (ae_netif e) (ae_ethaddr e) (ae_ctime e) v.
Definition put_flags (v : Z) (b : pbuf) : pbuf :=
  Pbuf (pb_next b) (pb_payload b) (pb_tot_len b) (pb_len b) (pb_type b) (u8 v) (pb_ref b) (pb_if_idx b).
Definition put_if_idx (v : Z) (b : pbuf) : pbuf :=
  Pbuf (pb_next b) (pb_payload b) (pb_tot_len b) (pb_len b) (pb_type b) (pb_flags b) (pb_ref b) (u8 v).

(** ** Constants of include/lwip/opt.h, prot/etharp.h, prot/ieee.h, prot/iana.h and etharp.c *)

Definition ARP_TABLE_SIZE : Z := 10.
Definition ARP_MAXAGE : Z := 300.
Definition ARP_AGE_REREQUEST_USED_UNICAST : Z := ARP_MAXAGE - 30.
Definition ARP_AGE_REREQUEST_USED_BROADCAST : Z := ARP_MAXAGE - 15.
Definition ARP_MAXPENDING : Z := 5.
Definition ETHARP_FLAG_TRY_HARD : Z := 1.
Definition ETHARP_FLAG_FIND_ONLY : Z := 2.
Definition ERR_BUF : Z := -2.
Definition ERR_RTE : Z := -4.
Definition NETIF_FLAG_BROADCAST : Z := 0x02.
Definition NETIF_FLAG_ETHARP : Z := 0x08.
Definition PBUF_FLAG_LLBCAST : Z := 0x08.
Definition PBUF_FLAG_LLMCAST : Z := 0x10.
Definition PBUF_TYPE_FLAG_DATA_VOLATILE : Z := 0x40.
Definition SIZEOF_ETH_HDR : Z := 14.
Definition SIZEOF_ETHARP_HDR : Z := 28.
Definition ETHTYPE_IP : Z := 0x0800.
Definition ETHTYPE_ARP : Z := 0x0806.
Definition ARP_REQUEST : Z := 1.
Definition ARP_REPLY : Z := 2.
Definition LWIP_IANA_HWTYPE_ETHERNET : Z := 1.
Definition DHCP_STATE_CHECKING : Z := 8.
Definition ethbroadcast : list Z := [0xff; 0xff; 0xff; 0xff; 0xff; 0xff].
Definition ethzero : list Z := [0; 0; 0; 0; 0; 0].

(** * Addresses *)

(** [PP_HTONS] and [PP_HTONL] of include/lwip/def.h, which lwip_htons and lwip_htonl are. *)
Definition PP_HTONS (x : Z) : Z := u16 (((x .& 0x00ff) .<< 8) .| ((x .& 0xff00) .>> 8)).
Definition PP_HTONL (x : Z) : Z :=
  u32 (((x .& 0x000000ff) .<< 24) .| ((x .& 0x0000ff00) .<< 8) .| ((x .& 0x00ff0000) .>> 8) .| ((x .& 0xff000000) .>> 24)).

Definition IPADDR_ANY : Z := 0.
Definition IPADDR_BROADCAST : Z := 0xffffffff.

Definition ip4_addr_netcmp (a b mask : Z) : bool := a .& mask =? b .& mask.
Definition ip4_addr_isany (a : Z) : bool := a =? IPADDR_ANY.
Definition ip4_addr_ismulticast (a : Z) : bool := a .& PP_HTONL 0xf0000000 =? PP_HTONL 0xe0000000.
Definition ip4_addr_islinklocal (a : Z) : bool := a .& PP_HTONL 0xffff0000 =? PP_HTONL 0xa9fe0000.
(** [ip4_addr1] to [ip4_addr4] for 0 to 3. *)
Definition ip4_addr_get_byte (a idx : Z) : Z := (a .>> (8 * idx)) .& 0xff.

Definition ip4_addr_isbroadcast_u32 (addr : Z) (n : netif4) : bool :=
  if (not32 addr =? IPADDR_ANY) || (addr =? IPADDR_ANY) then true
  else if n4_flags n .& NETIF_FLAG_BROADCAST =? 0 then false
  else if addr =? n4_ip_addr n then false
  else if ip4_addr_netcmp addr (n4_ip_addr n) (n4_netmask n)
          && (addr .& not32 (n4_netmask n) =? IPADDR_BROADCAST .& not32 (n4_netmask n)) then true
  else false.

(** The bytes of an address in memory. *)
Definition ip_bytes (a : Z) : list Z := [ip4_addr_get_byte a 0; ip4_addr_get_byte a 1; ip4_addr_get_byte a 2; ip4_addr_get_byte a 3].
Definition half_bytes (v : Z) : list Z := [v .& 0xff; (v .>> 8) .& 0xff].
Fixpoint le_word (l : list Z) : Z := match l with [] => 0 | b :: l' => b .| (le_word l' .<< 8) end.

(** What is outside the two files: netif->linkoutput, which is low_level_output of src/ethernetif.c
    and is given the bytes of the frame, dhcp_decline, and the IP layer. *)
Class EthLink (B : Bus) := {
  linkoutput : Z -> list Z -> hw -> Z * hw;
  dhcp_decline : Z -> hw -> hw;
}.

Section etharp.
Context {B : Bus} {P : Pools} {K : EthLink B} (custom_free_function : Z -> lw unit).
Abbreviation prog := (M (mach etharp)).
Context (ip4_input : Z -> Z -> prog unit).

(** ** Access *)

Definition netif_at (nif : Z) : prog netif4 := g <- get_ ;; deref (arp_netifs g !! nif).
Definition entry_at (i : Z) : prog etharp_entry := g <- get_ ;; deref (aget (arp_table g) i).
Definition set_entry (i : Z) (f : etharp_entry -> etharp_entry) : prog unit :=
  e <- entry_at i ;; modify_ (fun g => put_table (aset (arp_table g) i (f e)) g).
Definition free_pbuf (p : Z) : prog unit := in_lw (pbuf_free custom_free_function PBUF_FUEL p) ;; ret tt.

(** [a || b] *)
Definition either (a b : prog bool) : prog bool := x <- a ;; if x : bool then ret true else b.
Definition half_is (a v : Z) : prog bool := bs <- in_lw (lw_read a 2) ;; ret (le_word bs =? v).
Definition byte_is (a v : Z) : prog bool := bs <- in_lw (lw_read a 1) ;; ret (le_word bs =? v).
Definition not_ (m : prog bool) : prog bool := x <- m ;; ret (negb x).

(** * Ethernet, netif/ethernet.c *)

(** The frame of a chain, as low_level_output walks it. *)
Fixpoint frame_of (fuel : nat) (q : Z) : lw (list Z) :=
  match fuel with
  | O => spin
  | S n =>
      if q =? 0 then ret []
      else
        b <- pbuf_at q ;;
        bs <- lw_read (pb_payload b) (pb_len b) ;;
        l <- frame_of n (pb_next b) ;;
        ret (bs ++ l)
  end.

Definition netif_linkoutput (nif p : Z) : prog Z :=
  bs <- in_lw (frame_of PBUF_FUEL p) ;;
  fun s => let (r, h) := linkoutput nif bs (dev s) in Ret r (Mach h (wlog s) (glb s)).

Definition ethernet_output (nif p : Z) (src dst : list Z) (eth_type : Z) : prog Z :=
  let eth_type_be := PP_HTONS eth_type in
  r <- in_lw (pbuf_add_header p SIZEOF_ETH_HDR) ;;
  if negb (r =? 0) then ret ERR_BUF
  else
    b <- in_lw (pbuf_at p) ;;
    let ethhdr := pb_payload b in
    in_lw (lw_write (ethhdr + 12) (half_bytes eth_type_be)) ;;
    in_lw (lw_write ethhdr dst) ;;
    in_lw (lw_write (ethhdr + 6) src) ;;
    netif_linkoutput nif p.

(** * The ARP cache, core/ipv4/etharp.c *)

Definition etharp_free_entry (i : Z) : prog unit :=
  e <- entry_at i ;;
  (if negb (ae_q e =? 0) then free_pbuf (ae_q e) ;; set_entry i (put_q 0) else ret tt) ;;
  set_entry i (put_state ETHARP_STATE_EMPTY).

(** The local variables of the search. *)
Record candidates := Candidates {
  old_pending : Z; old_stable : Z; empty : Z; old_queue : Z; age_queue : Z; age_pending : Z; age_stable : Z }.

Definition no_candidates : candidates :=
  Candidates ARP_TABLE_SIZE ARP_TABLE_SIZE ARP_TABLE_SIZE ARP_TABLE_SIZE 0 0 0.

(** What the search makes of entry [i], which does not match. *)
Definition consider (i : Z) (e : etharp_entry) (c : candidates) : candidates :=
  match ae_state e with
  | ETHARP_STATE_EMPTY =>
      if empty c =? ARP_TABLE_SIZE
      then Candidates (old_pending c) (old_stable c) i (old_queue c) (age_queue c) (age_pending c) (age_stable c) else c
  | ETHARP_STATE_PENDING =>
      if negb (ae_q e =? 0) then
        if age_queue c <=? ae_ctime e
        then Candidates (old_pending c) (old_stable c) (empty c) i (ae_ctime e) (age_pending c) (age_stable c) else c
      else
        if age_pending c <=? ae_ctime e
        then Candidates i (old_stable c) (empty c) (old_queue c) (age_queue c) (ae_ctime e) (age_stable c) else c
  | _ =>
      if age_stable c <=? ae_ctime e
      then Candidates (old_pending c) i (empty c) (old_queue c) (age_queue c) (age_pending c) (ae_ctime e) else c
  end.

(** [ipaddr] is [None] for NULL, [netif] is 0 for NULL. *)
Definition matches (ipaddr : option Z) (nif : Z) (e : etharp_entry) : bool :=
  match ae_state e, ipaddr with
  | ETHARP_STATE_EMPTY, _ => false
  | _, Some a => (a =? ae_ipaddr e) && ((nif =? 0) || (nif =? ae_netif e))
  | _, None => false
  end.

(** The loop of etharp_find_entry: the entry that matches, or the candidates. *)
Fixpoint find_loop (idxs : list Z) (ipaddr : option Z) (nif : Z) (c : candidates) : prog (Z + candidates) :=
  match idxs with
  | [] => ret (inr c)
  | i :: idxs' =>
      e <- entry_at i ;;
      if matches ipaddr nif e then ret (inl i) else find_loop idxs' ipaddr nif (consider i e c)
  end.

Definition etharp_find_entry (ipaddr : option Z) (flags nif : Z) : prog Z :=
  r <- find_loop (zrange 0 (Z.to_nat ARP_TABLE_SIZE)) ipaddr nif no_candidates ;;
  match r with
  | inl i => ret i
  | inr c =>
      if negb (flags .& ETHARP_FLAG_FIND_ONLY =? 0)
         || ((empty c =? ARP_TABLE_SIZE) && (flags .& ETHARP_FLAG_TRY_HARD =? 0)) then ret ERR_MEM
      else
        let i :=
          if empty c <? ARP_TABLE_SIZE then empty c
          else if old_stable c <? ARP_TABLE_SIZE then old_stable c
          else if old_pending c <? ARP_TABLE_SIZE then old_pending c
          else old_queue c in
        if i =? ARP_TABLE_SIZE then ret ERR_MEM
        else
          (if empty c <? ARP_TABLE_SIZE then ret tt else etharp_free_entry i) ;;
          match ipaddr with Some a => set_entry i (put_ipaddr a) | None => ret tt end ;;
          set_entry i (put_ctime 0) ;;
          set_entry i (put_netif nif) ;;
          ret i
  end.

(** ** Sending *)

Definition etharp_raw (nif : Z) (ethsrc_addr ethdst_addr hwsrc_addr : list Z) (ipsrc_addr : Z)
    (hwdst_addr : list Z) (ipdst_addr opcode : Z) : prog Z :=
  p <- in_lw (pbuf_alloc custom_free_function PBUF_FUEL PBUF_LINK SIZEOF_ETHARP_HDR PBUF_RAM) ;;
  if p =? 0 then ret ERR_MEM
  else
    b <- in_lw (pbuf_at p) ;;
    let hdr := pb_payload b in
    in_lw (lw_write (hdr + 6) (half_bytes (PP_HTONS opcode))) ;;
    in_lw (lw_write (hdr + 8) hwsrc_addr) ;;
    in_lw (lw_write (hdr + 18) hwdst_addr) ;;
    in_lw (lw_write (hdr + 14) (ip_bytes ipsrc_addr)) ;;
    in_lw (lw_write (hdr + 24) (ip_bytes ipdst_addr)) ;;
    in_lw (lw_write hdr (half_bytes (PP_HTONS LWIP_IANA_HWTYPE_ETHERNET))) ;;
    in_lw (lw_write (hdr + 2) (half_bytes (PP_HTONS ETHTYPE_IP))) ;;
    in_lw (lw_write (hdr + 4) [6]) ;;
    in_lw (lw_write (hdr + 5) [4]) ;;
    ethernet_output nif p ethsrc_addr ethdst_addr ETHTYPE_ARP ;;
    free_pbuf p ;;
    ret ERR_OK.

Definition etharp_request_dst (nif ipaddr : Z) (hw_dst_addr : list Z) : prog Z :=
  n <- netif_at nif ;;
  etharp_raw nif (n4_hwaddr n) hw_dst_addr (n4_hwaddr n) (n4_ip_addr n) ethzero ipaddr ARP_REQUEST.

Definition etharp_request (nif ipaddr : Z) : prog Z := etharp_request_dst nif ipaddr ethbroadcast.

(** ** Ageing *)

Definition etharp_tmr_step (i : Z) : prog unit :=
  e <- entry_at i ;;
  if decide (ae_state e = ETHARP_STATE_EMPTY) then ret tt
  else
    set_entry i (fun e => put_ctime (ae_ctime e + 1) e) ;;
    e <- entry_at i ;;
    if (ARP_MAXAGE <=? ae_ctime e) || (bool_decide (ae_state e = ETHARP_STATE_PENDING) && (ARP_MAXPENDING <=? ae_ctime e))
    then etharp_free_entry i
    else match ae_state e with
         | ETHARP_STATE_STABLE_REREQUESTING_1 => set_entry i (put_state ETHARP_STATE_STABLE_REREQUESTING_2)
         | ETHARP_STATE_STABLE_REREQUESTING_2 => set_entry i (put_state ETHARP_STATE_STABLE)
         | ETHARP_STATE_PENDING => etharp_request (ae_netif e) (ae_ipaddr e) ;; ret tt
         | _ => ret tt
         end.

Definition etharp_tmr : prog unit := for_each (zrange 0 (Z.to_nat ARP_TABLE_SIZE)) etharp_tmr_step.

Definition etharp_cleanup_netif (nif : Z) : prog unit :=
  for_each (zrange 0 (Z.to_nat ARP_TABLE_SIZE)) (fun i =>
    e <- entry_at i ;;
    if negb (bool_decide (ae_state e = ETHARP_STATE_EMPTY)) && (ae_netif e =? nif) then etharp_free_entry i else ret tt).

(** ** Learning *)

Definition etharp_update_arp_entry (nif ipaddr : Z) (ethaddr : list Z) (flags : Z) : prog Z :=
  n <- netif_at nif ;;
  if ip4_addr_isany ipaddr || ip4_addr_isbroadcast_u32 ipaddr n || ip4_addr_ismulticast ipaddr then ret ERR_ARG
  else
    i <- etharp_find_entry (Some ipaddr) flags nif ;;
    if i <? 0 then ret i
    else
      set_entry i (put_state ETHARP_STATE_STABLE) ;;
      set_entry i (put_netif nif) ;;
      set_entry i (put_ethaddr ethaddr) ;;
      set_entry i (put_ctime 0) ;;
      e <- entry_at i ;;
      (if negb (ae_q e =? 0) then
         let p := ae_q e in
         set_entry i (put_q 0) ;;
         ethernet_output nif p (n4_hwaddr n) ethaddr ETHTYPE_IP ;;
         free_pbuf p
       else ret tt) ;;
      ret ERR_OK.

(** [netif] has no DHCP client, unless the program calls dhcp_start. *)
Definition dhcp_arp_reply (nif addr : Z) : prog unit :=
  n <- netif_at nif ;;
  match n4_dhcp n with
  | Some (state, offered_ip_addr) =>
      if (state =? DHCP_STATE_CHECKING) && (addr =? offered_ip_addr) then outside (dhcp_decline nif) else ret tt
  | None => ret tt
  end.

Definition etharp_input (p nif : Z) : prog unit :=
  b <- in_lw (pbuf_at p) ;;
  let hdr := pb_payload b in
  wrong <- either (not_ (half_is hdr (PP_HTONS LWIP_IANA_HWTYPE_ETHERNET)))
             (either (not_ (byte_is (hdr + 4) 6))
                (either (not_ (byte_is (hdr + 5) 4)) (not_ (half_is (hdr + 2) (PP_HTONS ETHTYPE_IP))))) ;;
  if wrong : bool then free_pbuf p
  else
    s <- in_lw (lw_read (hdr + 14) 4) ;;
    d <- in_lw (lw_read (hdr + 24) 4) ;;
    let sipaddr := le_word s in
    let dipaddr := le_word d in
    n <- netif_at nif ;;
    let for_us := if ip4_addr_isany (n4_ip_addr n) then false else dipaddr =? n4_ip_addr n in
    shwaddr <- in_lw (lw_read (hdr + 8) 6) ;;
    etharp_update_arp_entry nif sipaddr shwaddr (if for_us then ETHARP_FLAG_TRY_HARD else ETHARP_FLAG_FIND_ONLY) ;;
    o <- in_lw (lw_read (hdr + 6) 2) ;;
    let opcode := le_word o in
    (if opcode =? PP_HTONS ARP_REQUEST then
       if for_us then
         shwaddr <- in_lw (lw_read (hdr + 8) 6) ;;
         etharp_raw nif (n4_hwaddr n) shwaddr (n4_hwaddr n) (n4_ip_addr n) shwaddr sipaddr ARP_REPLY ;; ret tt
       else ret tt
     else if opcode =? PP_HTONS ARP_REPLY then dhcp_arp_reply nif sipaddr
     else ret tt) ;;
    free_pbuf p.

(** ** Resolving *)

Definition etharp_output_to_arp_index (nif q arp_idx : Z) : prog Z :=
  n <- netif_at nif ;;
  e <- entry_at arp_idx ;;
  (if decide (ae_state e = ETHARP_STATE_STABLE) then
     if ARP_AGE_REREQUEST_USED_BROADCAST <=? ae_ctime e then
       r <- etharp_request nif (ae_ipaddr e) ;;
       if r =? ERR_OK then set_entry arp_idx (put_state ETHARP_STATE_STABLE_REREQUESTING_1) else ret tt
     else if ARP_AGE_REREQUEST_USED_UNICAST <=? ae_ctime e then
       r <- etharp_request_dst nif (ae_ipaddr e) (ae_ethaddr e) ;;
       if r =? ERR_OK then set_entry arp_idx (put_state ETHARP_STATE_STABLE_REREQUESTING_1) else ret tt
     else ret tt
   else ret tt) ;;
  e <- entry_at arp_idx ;;
  ethernet_output nif q (n4_hwaddr n) (ae_ethaddr e) ETHTYPE_IP.

(** Does the chain have a buffer that must be copied? *)
Fixpoint needs_copy (fuel : nat) (p : Z) : lw bool :=
  match fuel with
  | O => spin
  | S n =>
      if p =? 0 then ret false
      else
        b <- pbuf_at p ;;
        if any_bit (pb_type b) PBUF_TYPE_FLAG_DATA_VOLATILE then ret true else needs_copy n (pb_next b)
  end.

Definition etharp_query (nif ipaddr q : Z) : prog Z :=
  n <- netif_at nif ;;
  if ip4_addr_isbroadcast_u32 ipaddr n || ip4_addr_ismulticast ipaddr || ip4_addr_isany ipaddr then ret ERR_ARG
  else
    i <- etharp_find_entry (Some ipaddr) ETHARP_FLAG_TRY_HARD nif ;;
    if i <? 0 then ret i
    else
      e <- entry_at i ;;
      is_new_entry <- (if decide (ae_state e = ETHARP_STATE_EMPTY) then
                         set_entry i (put_state ETHARP_STATE_PENDING) ;;
                         set_entry i (put_netif nif) ;;
                         ret true
                       else ret false) ;;
      result <- (if is_new_entry || (q =? 0) then etharp_request nif ipaddr else ret ERR_MEM) ;;
      if (is_new_entry || (q =? 0)) && (q =? 0) then ret result
      else
        e <- entry_at i ;;
        if is_stable (ae_state e) then
          modify_ (put_cached i) ;;
          ethernet_output nif q (n4_hwaddr n) (ae_ethaddr e) ETHTYPE_IP
        else if decide (ae_state e = ETHARP_STATE_PENDING) then
          copy_needed <- in_lw (needs_copy PBUF_FUEL q) ;;
          p <- (if copy_needed : bool then in_lw (pbuf_clone custom_free_function PBUF_FUEL PBUF_LINK PBUF_RAM q)
                else in_lw (pbuf_ref q) ;; ret q) ;;
          if negb (p =? 0) then
            e <- entry_at i ;;
            (if negb (ae_q e =? 0) then free_pbuf (ae_q e) else ret tt) ;;
            set_entry i (put_q p) ;;
            ret ERR_OK
          else ret ERR_MEM
        else ret result.

(** The first of the entries [idxs] that is stable and for [dst] on [nif]. *)
Fixpoint find_stable (idxs : list Z) (nif dst : Z) : prog (option Z) :=
  match idxs with
  | [] => ret None
  | i :: idxs' =>
      e <- entry_at i ;;
      if is_stable (ae_state e) && (ae_netif e =? nif) && (dst =? ae_ipaddr e) then ret (Some i)
      else find_stable idxs' nif dst
  end.

Definition etharp_output (nif q ipaddr : Z) : prog Z :=
  n <- netif_at nif ;;
  if ip4_addr_isbroadcast_u32 ipaddr n then ethernet_output nif q (n4_hwaddr n) ethbroadcast ETHTYPE_IP
  else if ip4_addr_ismulticast ipaddr then
    let mcastaddr := [0x01; 0x00; 0x5e; ip4_addr_get_byte ipaddr 1 .& 0x7f; ip4_addr_get_byte ipaddr 2; ip4_addr_get_byte ipaddr 3] in
    ethernet_output nif q (n4_hwaddr n) mcastaddr ETHTYPE_IP
  else
    let far := negb (ip4_addr_netcmp ipaddr (n4_ip_addr n) (n4_netmask n)) && negb (ip4_addr_islinklocal ipaddr) in
    if far && ip4_addr_isany (n4_gw n) then ret ERR_RTE
    else
      let dst_addr := if far then n4_gw n else ipaddr in
      g <- get_ ;;
      let i := etharp_cached_entry g in
      e <- entry_at i ;;
      if is_stable (ae_state e) && (ae_netif e =? nif) && (dst_addr =? ae_ipaddr e) then
        etharp_output_to_arp_index nif q i
      else
        r <- find_stable (zrange 0 (Z.to_nat ARP_TABLE_SIZE)) nif dst_addr ;;
        match r with
        | Some i => modify_ (put_cached i) ;; etharp_output_to_arp_index nif q i
        | None => etharp_query nif dst_addr q
        end.

(** ** Looking up *)

(** The addresses that *eth_ret and *ip_ret then point to, and the index. *)
Definition etharp_find_addr (nif ipaddr : Z) : prog (option (Z * (list Z * Z))) :=
  i <- etharp_find_entry (Some ipaddr) ETHARP_FLAG_FIND_ONLY nif ;;
  if 0 <=? i then
    e <- entry_at i ;;
    if is_stable (ae_state e) then ret (Some (i, (ae_ethaddr e, ae_ipaddr e))) else ret None
  else ret None.

Definition etharp_get_entry (i : Z) : prog (option (Z * Z * list Z)) :=
  if i <? ARP_TABLE_SIZE then
    e <- entry_at i ;;
    if is_stable (ae_state e) then ret (Some (ae_ipaddr e, ae_netif e, ae_ethaddr e)) else ret None
  else ret None.

(** * Received frames, netif/ethernet.c *)

Definition netif_get_index (n : netif4) : Z := u8 (n4_num n + 1).

(** Mark a frame to a group or to all. *)
Definition mark_cast (p ethhdr : Z) : prog unit :=
  d0 <- in_lw (lw_read ethhdr 1) ;;
  if negb (le_word d0 .& 1 =? 0) then
    if le_word d0 =? 0x01 then
      group <- either (not_ (byte_is (ethhdr + 1) 0x00)) (not_ (byte_is (ethhdr + 2) 0x5e)) ;;
      if negb group then in_lw (pbuf_set p (fun b => put_flags (pb_flags b .| PBUF_FLAG_LLMCAST) b)) else ret tt
    else
      dest <- in_lw (lw_read ethhdr 6) ;;
      if decide (dest = ethbroadcast) then in_lw (pbuf_set p (fun b => put_flags (pb_flags b .| PBUF_FLAG_LLBCAST) b)) else ret tt
  else ret tt.

(** Pass the packet on behind its Ethernet header. *)
Definition pass_on (p nif : Z) (up : prog unit) : prog Z :=
  n <- netif_at nif ;;
  if n4_flags n .& NETIF_FLAG_ETHARP =? 0 then free_pbuf p ;; ret ERR_OK
  else
    r <- in_lw (pbuf_remove_header p SIZEOF_ETH_HDR) ;;
    if negb (r =? 0) then free_pbuf p ;; ret ERR_OK else up ;; ret ERR_OK.

Definition ethernet_input (p nif : Z) : prog Z :=
  b <- in_lw (pbuf_at p) ;;
  if pb_len b <=? SIZEOF_ETH_HDR then free_pbuf p ;; ret ERR_OK
  else
    (if pb_if_idx b =? NETIF_NO_INDEX then
       n <- netif_at nif ;; in_lw (pbuf_set p (put_if_idx (netif_get_index n)))
     else ret tt) ;;
    let ethhdr := pb_payload b in
    t <- in_lw (lw_read (ethhdr + 12) 2) ;;
    let type := le_word t in
    mark_cast p ethhdr ;;
    if type =? PP_HTONS ETHTYPE_IP then pass_on p nif (ip4_input p nif)
    else if type =? PP_HTONS ETHTYPE_ARP then pass_on p nif (etharp_input p nif)
    else free_pbuf p ;; ret ERR_OK.
End etharp.
