(* ===== verification/EtharpSpec.v ===== *)
(** What the operations of the ARP cache and of Ethernet work with: the search for an entry of the
    table, frames, and the packets of ARP. *)
From S2P Require Import Prelude Machine LwMem LwHeap Pbuf PbufCopy PbufChain PbufAlloc PbufData PbufClone PbufCoalesce PbufShape PbufRefs PbufKeep Etharp.
From stdpp Require Import list gmap.

#[local] Open Scope Z_scope.
#[local] Open Scope fw_scope.

(** * Searching the table *)

(** The search over the entries [es], the first of which has the index [i]. *)
Fixpoint scan (ipaddr : option Z) (nif i : Z) (es : list etharp_entry) (c : candidates) : Z + candidates :=
  match es with
  | [] => inr c
  | e :: es' => if matches ipaddr nif e then inl i else scan ipaddr nif (i + 1) es' (consider i e c)
  end.

Definition in_use (e : etharp_entry) : bool := match ae_state e with ETHARP_STATE_EMPTY => false | _ => true end.
Definition pending (e : etharp_entry) : bool := match ae_state e with ETHARP_STATE_PENDING => true | _ => false end.

(** [i] is the last of the oldest entries that satisfy [f], of age [age], among those up to
    [n]; there is none if [i] is [ARP_TABLE_SIZE]. *)
Definition oldest (f : etharp_entry -> bool) (tab : list etharp_entry) (n i age : Z) : Prop :=
  (i = ARP_TABLE_SIZE /\ age = 0 /\ forall j e, aget tab j = Some e -> j < n -> f e = false) \/
  (exists e, i < n /\ aget tab i = Some e /\ f e = true /\ ae_ctime e = age /\
     forall j e', aget tab j = Some e' -> j < n -> f e' = true -> ae_ctime e' <= age /\ (i < j -> ae_ctime e' < age)).

Definition first_empty (tab : list etharp_entry) (n i : Z) : Prop :=
  (i = ARP_TABLE_SIZE /\ forall j e, aget tab j = Some e -> j < n -> in_use e = true) \/
  (exists e, i < n /\ aget tab i = Some e /\ in_use e = false /\ forall j e', aget tab j = Some e' -> j < i -> in_use e' = true).

Record found (tab : list etharp_entry) (n : Z) (c : candidates) : Prop := {
  fo_empty : first_empty tab n (Etharp.empty c);
  fo_stable : oldest (fun e => is_stable (ae_state e)) tab n (old_stable c) (age_stable c);
  fo_pending : oldest (fun e => pending e && (ae_q e =? 0)) tab n (old_pending c) (age_pending c);
  fo_queue : oldest (fun e => pending e && negb (ae_q e =? 0)) tab n (old_queue c) (age_queue c) }.

Lemma aget_snoc_lt {A} (l : list A) x i : i < Z.of_nat (length l) -> aget (l ++ [x]) i = aget l i.
Proof. intros Hi. unfold aget. destruct (i <? 0) eqn:E; [done|]. apply lookup_app_l. lia. Qed.

Lemma oldest_skip f tab n i age e : oldest f tab n i age -> aget tab n = Some e -> f e = false -> oldest f tab (n + 1) i age.
Proof.
  intros [(-> & -> & H)|(e0 & Hi & He0 & Hf0 & Hage & H)] He Hf.
  - left. split; [done|]. split; [done|]. intros j e' Hj Hn. destruct (Z.eq_dec j n) as [->|]; [congruence|]. apply (H j); [done|lia].
  - right. exists e0. split; [lia|]. split; [done|]. split; [done|]. split; [done|]. intros j e' Hj Hn Hf'.
    destruct (Z.eq_dec j n) as [->|]; [congruence|]. apply H; [done|lia|done].
Qed.

Lemma oldest_take f tab n i age e : oldest f tab n i age -> aget tab n = Some e -> f e = true -> 0 <= ae_ctime e ->
  if age <=? ae_ctime e then oldest f tab (n + 1) n (ae_ctime e) else oldest f tab (n + 1) i age.
Proof.
  intros Ho He Hf Hc. destruct (Z.leb_spec age (ae_ctime e)) as [Hle|Hlt].
  - right. exists e. split; [lia|]. split; [done|]. split; [done|]. split; [done|]. intros j e' Hj Hn Hf'.
    destruct (Z.eq_dec j n) as [->|]; [replace e' with e by congruence; lia|]. split; [|lia].
    destruct Ho as [(_ & _ & H)|(e0 & _ & _ & _ & _ & H)]; [rewrite (H j e' Hj ltac:(lia)) in Hf'; done|].
    destruct (H j e' Hj ltac:(lia) Hf'). lia.
  - destruct Ho as [(_ & -> & H)|(e0 & Hi & He0 & Hf0 & Hage & H)]; [lia|]. right. exists e0. split; [lia|]. split; [done|]. split; [done|]. split; [done|].
    intros j e' Hj Hn Hf'. destruct (Z.eq_dec j n) as [->|]; [replace e' with e by congruence; lia|]. apply H; [done|lia|done].
Qed.

Lemma first_empty_skip tab n i e : first_empty tab n i -> aget tab n = Some e -> in_use e = true -> first_empty tab (n + 1) i.
Proof.
  intros [(-> & H)|(e0 & Hi & He0 & Hu & H)] He Hf.
  - left. split; [done|]. intros j e' Hj Hn. destruct (Z.eq_dec j n) as [->|]; [congruence|]. apply (H j); [done|lia].
  - right. exists e0. split; [lia|]. done.
Qed.

Lemma found_consider tab n e c : found tab n c -> aget tab n = Some e -> 0 <= n < ARP_TABLE_SIZE -> 0 <= ae_ctime e -> found tab (n + 1) (consider n e c).
Proof.
  intros [He Hs Hp Hq] Hn Hn10 Hc. unfold consider.
  assert (in_use e = match ae_state e with ETHARP_STATE_EMPTY => false | _ => true end /\
    pending e = match ae_state e with ETHARP_STATE_PENDING => true | _ => false end) as [Eu Ep] by done.
  pose proof (oldest_skip _ tab n _ _ e Hs Hn) as Ss. pose proof (oldest_take _ tab n _ _ e Hs Hn) as Ts.
  pose proof (oldest_skip _ tab n _ _ e Hp Hn) as Sp. pose proof (oldest_take _ tab n _ _ e Hp Hn) as Tp.
  pose proof (oldest_skip _ tab n _ _ e Hq Hn) as Sq. pose proof (oldest_take _ tab n _ _ e Hq Hn) as Tq.
  pose proof (first_empty_skip tab n _ e He Hn) as Se. cbn beta in *. rewrite Ep in *. rewrite Eu in *. clear Ep Eu.
  destruct (ae_state e) eqn:Est; rewrite ?Est in *; cbn [is_stable andb negb] in *.
  - specialize (Ss eq_refl). specialize (Sp eq_refl). specialize (Sq eq_refl).
    destruct (Z.eqb_spec (Etharp.empty c) ARP_TABLE_SIZE) as [E|E].
    + split; cbn; try done. destruct He as [(_ & H)|(e0 & Hi & _)]; [|lia]. right. exists e. split; [lia|]. split; [done|]. split; [by unfold in_use; rewrite Est|]. exact H.
    + split; try done. destruct He as [(? & _)|(e0 & Hi & He0 & Hu0 & H)]; [done|]. right. exists e0. split; [lia|done].
  - specialize (Ss eq_refl). specialize (Se eq_refl). destruct (ae_q e =? 0); cbn in *.
    + specialize (Sq eq_refl). specialize (Tp eq_refl Hc). by destruct (age_pending c <=? ae_ctime e).
    + specialize (Sp eq_refl). specialize (Tq eq_refl Hc). by destruct (age_queue c <=? ae_ctime e).
  - specialize (Sp eq_refl). specialize (Sq eq_refl). specialize (Se eq_refl). specialize (Ts eq_refl Hc). by destruct (age_stable c <=? ae_ctime e).
  - specialize (Sp eq_refl). specialize (Sq eq_refl). specialize (Se eq_refl). specialize (Ts eq_refl Hc). by destruct (age_stable c <=? ae_ctime e).
  - specialize (Sp eq_refl). specialize (Sq eq_refl). specialize (Se eq_refl). specialize (Ts eq_refl Hc). by destruct (age_stable c <=? ae_ctime e).
Qed.

(** The whole search. *)
Lemma scan_inr ipaddr nif tab : forall es i c, Z.of_nat (length tab) <= ARP_TABLE_SIZE ->
  (forall e, e ∈ tab -> 0 <= ae_ctime e) -> (forall k, aget es k = aget tab (i + k) \/ k < 0) -> 0 <= i -> i + Z.of_nat (length es) = Z.of_nat (length tab) ->
  found tab i c ->
  match scan ipaddr nif i es c with
  | inl j => exists e, aget tab j = Some e /\ matches ipaddr nif e = true /\ i <= j
  | inr c' => found tab (Z.of_nat (length tab)) c' /\ forall e, e ∈ es -> matches ipaddr nif e = false
  end.
Proof.
  induction es as [|e es IH]; intros i c Hlen Hage Hes Hi Hsum Hc; cbn [scan length] in *.
  - replace (Z.of_nat (length tab)) with i by lia. split; [done|]. by intros e ?%elem_of_nil.
  - assert (aget tab i = Some e) as Hie by (destruct (Hes 0) as [E|]; [rewrite Z.add_0_r in E; by rewrite <- E|lia]).
    destruct (matches ipaddr nif e) eqn:Hm; [exists e; split; [done|]; split; [done|lia]|].
    specialize (IH (i + 1) (consider i e c) Hlen Hage).
    assert (forall k, aget es k = aget tab (i + 1 + k) \/ k < 0) as Hes'.
    { intros k. destruct (Z.lt_ge_cases k 0); [by right|left]. destruct (Hes (k + 1)) as [E|]; [|lia]. replace (i + 1 + k) with (i + (k + 1)) by lia. rewrite <- E.
      unfold aget. destruct (Z.ltb_spec k 0), (Z.ltb_spec (k + 1) 0); try lia. replace (Z.to_nat (k + 1)) with (S (Z.to_nat k)) by lia. done. }
    assert (0 <= ae_ctime e) as Hce.
    { apply Hage. apply list_elem_of_lookup. exists (Z.to_nat i). revert Hie. unfold aget. by destruct (i <? 0). }
    specialize (IH Hes' ltac:(lia) ltac:(lia) (found_consider tab i e c Hc Hie ltac:(lia) Hce)).
    destruct (scan ipaddr nif (i + 1) es (consider i e c)) as [j|c'].
    + destruct IH as (e' & ? & ? & ?). exists e'. split; [done|]. split; [done|lia].
    + destruct IH as [? Hno]. split; [done|]. intros x [->|Hx]%elem_of_cons; [done|by apply Hno].
Qed.

Lemma found_none tab : (forall j e, aget tab j = Some e -> 0 <= j) -> found tab 0 no_candidates.
Proof.
  intros H. split; left; (split; [done|]); try split; try done; intros j e Hj Hn; specialize (H j e Hj); lia.
Qed.

Section spec.
Context {B : Bus} {P : Pools} {L : LwLayout} {O : LwRoom} {K : EthLink B} (custom_free_function : Z -> lw unit).
Implicit Types (s : mach etharp) (e : etharp_entry).

(** ** Parts of the state *)

Definition tab_of s : list etharp_entry := arp_table (glb s).
Definition lw_of s : lwip := arp_lw (glb s).
(** [s] with other memory, another table, another world outside. *)
Definition on_lw (l : lwip) s : mach etharp := Mach (dev s) (wlog s) (Etharp l (arp_table (glb s)) (etharp_cached_entry (glb s)) (arp_netifs (glb s))).
Definition on_tab (t : list etharp_entry) s : mach etharp := Mach (dev s) (wlog s) (put_table t (glb s)).
Definition on_dev (h : hw) s : mach etharp := Mach h (wlog s) (glb s).

Lemma wp_mem {A} (m : lw A) s (Q : A -> mach etharp -> Prop) :
  wp m (lw_of s) (fun a l => Q a (on_lw l s)) -> wp (in_lw m) s Q.
Proof. unfold wp, in_lw, part, etharp_lwip, lw_of. destruct s as [d w g]. cbn. destruct (m (arp_lw g)); intros H; exact H. Qed.

Lemma on_lw_same s : on_lw (lw_of s) s = s.
Proof. by destruct s as [d w []]. Qed.

Lemma wp_mem_read {A} (m : lw A) a s (Q : A -> mach etharp -> Prop) :
  wp m (lw_of s) (fun r l => r = a /\ l = lw_of s) -> Q a s -> wp (in_lw m) s Q.
Proof. intros Hm HQ. apply wp_mem. eapply wp_mono; [exact Hm|]. intros r l [-> ->]. by rewrite on_lw_same. Qed.

Lemma wp_entry_at i e s (Q : etharp_entry -> mach etharp -> Prop) : aget (tab_of s) i = Some e -> Q e s -> wp (entry_at i) s Q.
Proof. intros H HQ. unfold entry_at. apply wp_step, wp_get. by apply (wp_deref _ _ _ e). Qed.

Lemma wp_set_entry i e f s (Q : unit -> mach etharp -> Prop) :
  aget (tab_of s) i = Some e -> Q tt (on_tab (aset (tab_of s) i (f e)) s) -> wp (set_entry i f) s Q.
Proof. intros H HQ. apply wp_step, (wp_entry_at i e); [done|]. by apply wp_modify. Qed.

Lemma wp_netif_at nif n s (Q : netif4 -> mach etharp -> Prop) : arp_netifs (glb s) !! nif = Some n -> Q n s -> wp (netif_at nif) s Q.
Proof. intros H HQ. unfold netif_at. apply wp_step, wp_get. by apply (wp_deref _ _ _ n). Qed.

Lemma wp_find_loop ipaddr nif s : forall es i c (Q : Z + candidates -> mach etharp -> Prop), 
  (forall k e, es !! k = Some e -> aget (tab_of s) (i + Z.of_nat k) = Some e) ->
  Q (scan ipaddr nif i es c) s -> wp (find_loop (zrange i (length es)) ipaddr nif c) s Q.
Proof.
  induction es as [|e es IH]; intros i c Q Hes HQ; [by apply wp_ret|]. cbn [length]. rewrite zrange_S. cbn [find_loop scan] in *.
  apply wp_step, (wp_entry_at i e); [rewrite <- (Z.add_0_r i); by apply (Hes 0%nat)|].
  destruct (matches ipaddr nif e); [by apply wp_ret|]. apply IH; [|done]. intros k e' Hk.
  replace (i + 1 + Z.of_nat k) with (i + Z.of_nat (S k)) by lia. by apply Hes.
Qed.

(** ** Frames *)

Definition be16 (v : Z) : list Z := [v / 256; v mod 256].

Lemma half_bytes_htons v : 0 <= v < 65536 -> half_bytes (PP_HTONS v) = be16 v.
Proof.
  intros Hv. assert (PP_HTONS v = (v mod 256) * 256 + v / 256) as ->.
  { unfold PP_HTONS. change 0x00ff with (Z.ones 8). change 0xff00 with (Z.shiftl (Z.ones 8) 8). rewrite (land_field v 8 8), bits_alt, Z.land_ones by lia.
    change (2 ^ 8) with 256. rewrite (Z.mod_small (v / 256)) by zlia.
    rewrite lor_shiftl_add by (change (2 ^ 8) with 256; zlia). change (2 ^ 8) with 256. apply u16_small. zlia. }
  unfold half_bytes, be16. change 0xff with (Z.ones 8). rewrite !Z.land_ones, Z.shiftr_div_pow2 by lia. change (2 ^ 8) with 256.
  f_equal; [zlia|]. f_equal. zlia.
Qed.

Lemma be16_range v : 0 <= v < 65536 -> Forall (fun x => 0 <= x < 256) (be16 v).
Proof. intros Hv. unfold be16. repeat constructor; zlia. Qed.

(** An Ethernet frame. *)
Definition eth_frame (dst src : list Z) (eth_type : Z) (packet : list Z) : list Z := dst ++ src ++ be16 eth_type ++ packet.

(** A hardware address. *)
Definition is_hwaddr (l : list Z) : Prop := length l = 6%nat /\ Forall (fun x => 0 <= x < 256) l.

Lemma wp_frame_of l c : forall fuel p (Q : list Z -> lwip -> Prop), pseg (lw_cells l) p c 0 -> owned l c -> (length c < fuel)%nat ->
  Q (contents l c) l -> wp (frame_of fuel p) l Q.
Proof.
  induction c as [|[a b] c IH]; intros fuel p Q Hc Ho Hf HQ; (destruct fuel as [|fuel]; [cbn in Hf; lia|]); cbn [frame_of].
  - cbn in Hc. subst p. change (0 =? 0) with true. by apply wp_ret.
  - destruct Hc as (-> & Ha0 & Ha & Hc). destruct (Z.eqb_spec a 0); [done|]. apply owned_cons in Ho as [Hob Ho].
    apply wp_step, (wp_pbuf_at _ b); [done|]. apply wp_step, wp_lw_read; [done|]. apply wp_step, IH; [done|done|cbn in Hf; lia|].
    apply wp_ret. by rewrite contents_cons in HQ.
Qed.

Definition filled (a : Z) (fs : list (Z * list Z)) s : mach etharp := on_lw (with_data (filled_in (lw_data (lw_of s)) a fs) (lw_of s)) s.

Lemma filled_nil a s : filled a [] s = s.
Proof. unfold filled, on_lw, lw_of. destruct s as [d w [[] t c n]]. done. Qed.

Lemma wp_field a fs f s (Q : unit -> mach etharp -> Prop) :
  (forall x, a + fst f <= x < a + fst f + Z.of_nat (length (snd f)) -> lw_valid (lw_of s) x = true) ->
  Q tt (filled a (fs ++ [f]) s) -> wp (in_lw (lw_write (a + fst f) (snd f))) (filled a fs s) Q.
Proof.
  intros Hv HQ. apply wp_mem, wp_lw_write; [done|]. unfold filled, filled_in in HQ. rewrite foldl_app in HQ. exact HQ.
Qed.

Lemma wp_linkoutput nif p c s (Q : Z -> mach etharp -> Prop) :
  pseg (lw_cells (lw_of s)) p c 0 -> owned (lw_of s) c -> (length c < PBUF_FUEL)%nat ->
  (let r := linkoutput nif (contents (lw_of s) c) (dev s) in Q (fst r) (on_dev (snd r) s)) -> wp (netif_linkoutput nif p) s Q.
Proof.
  intros Hc Ho Hf HQ. unfold netif_linkoutput. apply wp_step, (wp_mem_read _ (contents (lw_of s) c)); [by apply (wp_frame_of _ c)|].
  unfold wp. by destruct (linkoutput nif (contents (lw_of s) c) (dev s)).
Qed.

Lemma counted_owned others refs D l p c : counted others refs D l -> chain D p c -> owned l c /\ pseg (lw_cells l) p c 0 /\ (length c < PBUF_FUEL)%nat.
Proof.
  intros (fp & fr & h & H) Hc. split; [|split; [by eapply count_pseg|by eapply count_length]].
  intros x Hx. destruct (chain_addrs D p c x Hc Hx) as (a & b & Ha & Hi & _). by apply (ct_data (ct_core H) a b).
Qed.

(** What ethernet_output sends, and what it leaves. *)
Lemma wp_ethernet_output others refs D p b c nif src dst ty s (Q : Z -> mach etharp -> Prop) :
  counted others refs D (lw_of s) -> chain D p ((p, b) :: c) -> p ∉ links_of D -> is_hwaddr src -> is_hwaddr dst -> 0 <= ty < 65536 ->
  (if has_room 14 p b then
     forall l', counted others refs (<[p := grown 14 b]> D) l' ->
       (forall held, keeps (filter (fun q => q <> p) held) D (lw_of s) (<[p := grown 14 b]> D) l') ->
       let r := linkoutput nif (eth_frame dst src ty (contents (lw_of s) ((p, b) :: c))) (dev s) in Q (fst r) (on_dev (snd r) (on_lw l' s))
   else Q ERR_BUF s) ->
  wp (ethernet_output nif p src dst ty) s Q.
Proof.
  intros Hct Hch Hpl [Hsl Hsr] [Hdl Hdr] Hty HQ. destruct (chain_lookup _ _ _ p b Hch ltac:(by left)) as [Hp0 Hpb].
  unfold ethernet_output. apply wp_step, wp_mem, (wp_grow others refs D p b 14); [done|done|done|lia|].
  destruct (has_room 14 p b) eqn:Hroom; [|change (negb (1 =? 0)) with true; apply wp_ret; by rewrite on_lw_same].
  cbn zeta. intros Hct1. change (negb (0 =? 0)) with false. cbn iota. set (s1 := on_lw _ s). set (g := grown 14 b) in *. set (D1 := <[p := g]> D) in *.
  pose proof Hct as (fp & fr & h & H). destruct (grown_sound others refs D fp fr h (lw_of s) p b 14 H Hpb ltac:(lia) Hroom) as [Hsound Howns].
  destruct (count_sizes _ _ _ _ _ _ _ _ _ H Hpb) as [Hlen Htot]. unfold has_room in Hroom. rewrite !andb_true_iff in Hroom. destruct Hroom as [_ Hlt%Z.ltb_lt].
  assert (pb_payload g = pb_payload b - 14 /\ pb_len g = 14 + pb_len b) as [Egp Egl].
  { unfold g, grown. cbn. rewrite u16_small by lia. split; lia. }
  apply wp_step, (wp_mem_read _ g); [apply (wp_pbuf_at _ g); [cbn; by rewrite lookup_insert_eq|done]|]. set (hd := pb_payload g) in *.
  assert (forall x, hd <= x < hd + 14 -> lw_valid (lw_of s1) x = true) as Hv.
  { intros x Hx. apply (owned_valid others refs D fp fr h (lw_of s) p x H), Howns, elem_data. change (grown 14 b) with g. fold hd. lia. }
  rewrite half_bytes_htons by done. rewrite <- (filled_nil hd s1) at 1.
  apply wp_step, (wp_field hd [] (12, be16 ty)); [intros x Hx; apply Hv; cbn in Hx; lia|]. cbn [app].
  replace (lw_write hd dst) with (lw_write (hd + 0) dst) by (by rewrite Z.add_0_r). apply wp_step, (wp_field hd [(12, be16 ty)] (0, dst)); [intros x Hx; apply Hv; cbn in Hx; lia|]. cbn [app].
  apply wp_step, (wp_field hd [(12, be16 ty); (0, dst)] (6, src)); [intros x Hx; apply Hv; cbn in Hx; lia|]. cbn [app].
  set (fs := [(12, be16 ty); (0, dst); (6, src)]). set (s2 := filled hd fs s1).
  assert (counted others refs D1 (lw_of s2)) as Hct2 by (destruct Hct1 as (fp1 & fr1 & h1 & H1); exists fp1, fr1, h1; by apply count_data).
  assert (chain D1 p ((p, g) :: c)) as Hch1.
  { pose proof (chain_update D p _ p b g Hch Hpb eq_refl) as E. pose proof (chain_nodup _ _ _ Hch) as [Hpc _]%NoDup_cons.
    unfold with_buf in E. rewrite fmap_cons in E. cbn [fst] in E. rewrite decide_True in E by done. fold (with_buf p g c) in E. by rewrite with_buf_out in E. }
  assert (forall x, lw_data (lw_of s2) x = filled_in (lw_data (lw_of s)) hd fs x) as Hdata by done.
  assert (forall a d x, a <> p -> D !! a = Some d -> x ∈ data_of d -> lw_data (lw_of s2) x = lw_data (lw_of s) x) as Hother.
  { intros a d x Ha Hd Hx. rewrite Hdata. apply (filled_out _ hd 14); [unfold fs; repeat constructor; cbn; lia|]. intros Hr.
    apply (data_not_owned others refs D fp fr h (lw_of s) a d p x H Hd Ha Hx), Howns, elem_data. change (grown 14 b) with g. fold hd. lia. }
  assert (contents (lw_of s2) ((p, g) :: c) = eth_frame dst src ty (contents (lw_of s) ((p, b) :: c))) as Hframe.
  { rewrite !contents_cons, Egl, lw_bytes_add by lia. fold hd. unfold eth_frame.
    assert (lw_bytes (lw_of s2) hd 14 = dst ++ src ++ be16 ty) as ->.
    { destruct (tiled_bytes (lw_of s2) hd [(0, dst); (6, src); (12, be16 ty)] 0 14) as [_ E].
      - cbn. lia.
      - intros f Hf. apply (filled_field _ hd fs f).
        + unfold fs. rewrite !elem_of_cons in Hf. rewrite !elem_of_cons. tauto.
        + unfold fs. repeat constructor; unfold field_apart; cbn; lia.
        + unfold fs. rewrite !Forall_cons. split; [by apply be16_range|]. by split; [|split].
      - rewrite Z.add_0_r, Z.sub_0_r in E. by rewrite E. }
    rewrite <- !app_assoc. do 4 f_equal.
    - replace (hd + 14) with (pb_payload b) by lia. apply lw_bytes_agree. intros x Hx. rewrite Hdata. apply (filled_out _ hd 14); [unfold fs; repeat constructor; cbn; lia|lia].
    - apply contents_agree. intros x Hx. destruct (chain_addrs D (pb_next b) c x) as (a & d & Ha & Hi & Hin); [by destruct Hch as (_ & _ & _ & ?)|done|].
      apply (Hother a d); [|done|done]. intros ->. pose proof (chain_nodup _ _ _ Hch) as [Hpc _]%NoDup_cons. apply Hpc, elem_of_fst. by exists d. }
  destruct (counted_owned _ _ _ _ _ _ Hct2 Hch1) as (Ho & Hps & Hf). apply (wp_linkoutput nif p ((p, g) :: c)); [done|done|done|].
  rewrite Hframe. change (dev s2) with (dev s). apply (HQ (lw_of s2)); [done|]. intros held.
  apply (update_keeps held D (lw_of s) p b g); [done|done|done|]. intros a d Ha Hd x Hx. by apply (Hother a d).
Qed.

Lemma wp_free_pbuf others refs D p s (Q : unit -> mach etharp -> Prop) :
  counted others (p :: refs) D (lw_of s) ->
  (forall D' l', counted others refs D' l' -> fewer D' D -> lw_data l' = lw_data (lw_of s) -> keeps refs D (lw_of s) D' l' -> Q tt (on_lw l' s)) ->
  wp (free_pbuf custom_free_function p) s Q.
Proof.
  intros Hc HQ. apply wp_step, wp_mem, (wp_free_ref custom_free_function others refs D); [done|]. intros k D' l' Hc' Hf Hd.
  apply wp_ret, (HQ D' l'); try done. by apply (fewer_keeps others).
Qed.

(** ** ARP packets *)

Definition arp_packet (opcode : Z) (hwsrc : list Z) (ipsrc : Z) (hwdst : list Z) (ipdst : Z) : list Z :=
  be16 LWIP_IANA_HWTYPE_ETHERNET ++ be16 ETHTYPE_IP ++ [6] ++ [4] ++ be16 opcode ++ hwsrc ++ ip_bytes ipsrc ++ hwdst ++ ip_bytes ipdst.

Lemma ip_bytes_range a : Forall (fun x => 0 <= x < 256) (ip_bytes a).
Proof.
  assert (forall i, 0 <= ip4_addr_get_byte a i < 256) as H.
  { intros i. unfold ip4_addr_get_byte. change 0xff with (Z.ones 8). rewrite Z.land_ones by lia. apply Z.mod_pos_bound. lia. }
  unfold ip_bytes. rewrite !Forall_cons. repeat (split; [apply H|]). constructor.
Qed.

(** Fields of known lengths that do not overlap. *)
Ltac apart Lhs Lhd := repeat (apply FOP_cons; [repeat (apply Forall_cons_2; [unfold field_apart; cbn [fst snd]; rewrite ?Lhs, ?Lhd; cbn [length be16 ip_bytes]; lia|]); apply Forall_nil_2|]); apply FOP_nil.

(** The fields in the order in which they are written, and by their place. *)
Definition arp_writes op hsrc isrc hdst idst : list (Z * list Z) :=
  [(6, be16 op); (8, hsrc); (18, hdst); (14, ip_bytes isrc); (24, ip_bytes idst); (0, be16 LWIP_IANA_HWTYPE_ETHERNET); (2, be16 ETHTYPE_IP); (4, [6]); (5, [4])].

Lemma arp_bytes op hsrc isrc hdst idst d hd l : is_hwaddr hsrc -> is_hwaddr hdst -> 0 <= op < 65536 ->
  lw_bytes (with_data (filled_in d hd (arp_writes op hsrc isrc hdst idst)) l) hd 28 = arp_packet op hsrc isrc hdst idst.
Proof.
  intros [Lhs Rhs] [Lhd Rhd] Hop. set (fs := arp_writes op hsrc isrc hdst idst).
  destruct (tiled_bytes (with_data (filled_in d hd fs) l) hd [(0, be16 LWIP_IANA_HWTYPE_ETHERNET); (2, be16 ETHTYPE_IP); (4, [6]); (5, [4]); (6, be16 op);
    (8, hsrc); (14, ip_bytes isrc); (18, hdst); (24, ip_bytes idst)] 0 28) as [_ E].
  - cbn. lia.
  - intros f Hf. apply (filled_field d hd fs f); unfold fs, arp_writes.
    + rewrite !elem_of_cons in Hf. rewrite !elem_of_cons. tauto.
    + apart Lhs Lhd.
    + repeat (apply Forall_cons_2; [unfold field_bytes; cbn [snd]; first [apply ip_bytes_range | apply be16_range; done | assumption | by repeat (apply Forall_cons_2; [lia|])]|]). apply Forall_nil_2.
  - rewrite Z.add_0_r, Z.sub_0_r in E. rewrite E. unfold arp_packet. cbn [fmap list_fmap snd concat]. by rewrite app_nil_r.
Qed.

Lemma wp_arp_fields {A} (k : M (mach etharp) A) op hsrc isrc hdst idst hd s (Q : A -> mach etharp -> Prop) :
  is_hwaddr hsrc -> is_hwaddr hdst -> 0 <= op < 65536 -> (forall x, hd <= x < hd + 28 -> lw_valid (lw_of s) x = true) ->
  wp k (filled hd (arp_writes op hsrc isrc hdst idst) s) Q ->
  wp (in_lw (lw_write (hd + 6) (half_bytes (PP_HTONS op))) ;;
      in_lw (lw_write (hd + 8) hsrc) ;;
      in_lw (lw_write (hd + 18) hdst) ;;
      in_lw (lw_write (hd + 14) (ip_bytes isrc)) ;;
      in_lw (lw_write (hd + 24) (ip_bytes idst)) ;;
      in_lw (lw_write hd (half_bytes (PP_HTONS LWIP_IANA_HWTYPE_ETHERNET))) ;;
      in_lw (lw_write (hd + 2) (half_bytes (PP_HTONS ETHTYPE_IP))) ;;
      in_lw (lw_write (hd + 4) [6]) ;;
      in_lw (lw_write (hd + 5) [4]) ;; k) s Q.
Proof.
  intros [Lhs _] [Lhd _] Hop Hv HQ. rewrite !half_bytes_htons by (done || (unfold LWIP_IANA_HWTYPE_ETHERNET, ETHTYPE_IP; lia)).
  rewrite <- (filled_nil hd s).
  replace (lw_write hd (be16 LWIP_IANA_HWTYPE_ETHERNET)) with (lw_write (hd + 0) (be16 LWIP_IANA_HWTYPE_ETHERNET)) by (by rewrite Z.add_0_r).
  set (f1 := (6, be16 op)). set (f2 := (8, hsrc)). set (f3 := (18, hdst)). set (f4 := (14, ip_bytes isrc)). set (f5 := (24, ip_bytes idst)).
  set (f6 := (0, be16 LWIP_IANA_HWTYPE_ETHERNET)). set (f7 := (2, be16 ETHTYPE_IP)). set (f8 := (4, [6])). set (f9 := (5, [4])).
  apply wp_step, (wp_field hd [] f1); [intros x Hx; apply Hv; cbn in Hx; lia|].
  apply wp_step, (wp_field hd [f1] f2); [intros x Hx; apply Hv; cbn in Hx; lia|].
  apply wp_step, (wp_field hd [f1; f2] f3); [intros x Hx; apply Hv; cbn in Hx; lia|].
  apply wp_step, (wp_field hd [f1; f2; f3] f4); [intros x Hx; apply Hv; cbn in Hx; lia|].
  apply wp_step, (wp_field hd [f1; f2; f3; f4] f5); [intros x Hx; apply Hv; cbn in Hx; lia|].
  apply wp_step, (wp_field hd [f1; f2; f3; f4; f5] f6); [intros x Hx; apply Hv; cbn in Hx; lia|].
  apply wp_step, (wp_field hd [f1; f2; f3; f4; f5; f6] f7); [intros x Hx; apply Hv; cbn in Hx; lia|].
  apply wp_step, (wp_field hd [f1; f2; f3; f4; f5; f6; f7] f8); [intros x Hx; apply Hv; cbn in Hx; lia|].
  apply wp_step, (wp_field hd [f1; f2; f3; f4; f5; f6; f7; f8] f9); [intros x Hx; apply Hv; cbn in Hx; lia|]. exact HQ.
Qed.

(** There is no memory for a packet of ARP. *)
Definition starved l : Prop := no_memory PBUF_LINK SIZEOF_ETHARP_HDR l.

(** etharp_raw sends the packet if there is memory for it. *)
Lemma wp_etharp_raw others refs D nif esrc edst hsrc isrc hdst idst op s (Q : Z -> mach etharp -> Prop) :
  counted others refs D (lw_of s) -> is_hwaddr esrc -> is_hwaddr edst -> is_hwaddr hsrc -> is_hwaddr hdst -> 0 <= op < 65536 ->
  (starved (lw_of s) -> Q ERR_MEM s) ->
  (forall D' l', counted others refs D' l' -> keeps refs D (lw_of s) D' l' ->
     Q ERR_OK (on_dev (snd (linkoutput nif (eth_frame edst esrc ETHTYPE_ARP (arp_packet op hsrc isrc hdst idst)) (dev s))) (on_lw l' s))) ->
  wp (etharp_raw custom_free_function nif esrc edst hsrc isrc hdst idst op) s Q.
Proof.
  intros Hct Hes Hed Hhs Hhd Hop H0 HQ. unfold etharp_raw. apply wp_step, wp_mem, (wp_alloc_ram_counted custom_free_function others refs D PBUF_LINK SIZEOF_ETHARP_HDR);
    [done|unfold PBUF_LINK; lia|unfold SIZEOF_ETHARP_HDR; lia| |].
  { intros Hno. change (0 =? 0) with true. apply wp_ret. rewrite on_lw_same. by apply H0. }
  intros p c b l1 Hp0 Hrb HDp Hct1 Hd1. destruct (Z.eqb_spec p 0); [done|]. set (D1 := <[p := b]> D) in *. set (s1 := on_lw l1 s).
  assert (D1 !! p = Some b) as Hpb by apply lookup_insert_eq.
  pose proof Hct1 as (fp & fr & h & H1). pose proof (ct_sound (ct_core H1) p b Hpb) as Hsound.
  destruct Hrb as [Rn Rl Rt Rty Rf Rr Rlo Rhi]. unfold PBUF_LINK, SIZEOF_ETHARP_HDR in *.
  apply wp_step, (wp_mem_read _ b); [apply (wp_pbuf_at _ b); [by apply (ct_cell (ct_core H1))|done]|]. set (hd := pb_payload b) in *.
  assert (forall x, hd <= x < hd + 28 -> lw_valid (lw_of s1) x = true) as Hv.
  { intros x Hx. apply (ct_data (ct_core H1) p b); [done|]. apply elem_data. fold hd. lia. }
  apply wp_arp_fields; [done|done|done|done|]. set (fs := arp_writes op hsrc isrc hdst idst). set (s2 := filled hd fs s1).
  assert (counted others (p :: refs) D1 (lw_of s2)) as Hct2 by (exists fp, fr, h; by apply count_data).
  assert (p ∉ links_of D1) as Hpl.
  { intros Hi. pose proof (ct_count (ct_core H1) p b Hpb) as [Hn _]. unfold holders in Hn. rewrite Rr, occ_app, occ_cons, decide_True in Hn by done.
    apply occ_pos in Hi. pose proof (occ_nonneg p refs). lia. }
  assert (chain D1 p [(p, b)]) as Hch by (split; [done|]; split; [done|]; split; [by rewrite lookup_fmap, Hpb|done]).
  assert (forall held, keeps (filter (fun q => q <> p) held) D1 l1 D1 (lw_of s2)) as Hk2.
  { intros held. apply data_keeps; [done|by exists b|]. intros x c' Hx Hc y Hy. apply (filled_out _ hd 28); [repeat constructor; cbn; destruct Hhs, Hhd; lia|].
    intros Hr. apply (data_not_owned others (p :: refs) D1 fp fr h l1 x c' p y H1 Hc Hx Hy), (sound_owns h p b y Hsound); [by rewrite Rty|].
    apply elem_data. fold hd. lia. }
  apply wp_step, (wp_ethernet_output others (p :: refs) D1 p b [] nif esrc edst ETHTYPE_ARP s2); try done.
  assert (has_room 14 p b = true) as ->.
  { unfold has_room. rewrite Rty, Rt. change SIZEOF_STRUCT_PBUF with 16. destruct (Z.leb_spec (p + 16) (pb_payload b - 14)); [done|lia]. }
  intros l3 Hct3 Hk3. cbn zeta. set (s3 := on_dev _ _).
  apply wp_step, (wp_free_pbuf others refs (<[p := grown 14 b]> D1) p s3); [done|]. intros D4 l4 Hct4 Hf4 Hd4 Hk4. apply wp_ret.
  assert (contents (lw_of s2) [(p, b)] = arp_packet op hsrc isrc hdst idst) as Hpkt.
  { rewrite contents_cons. fold hd. rewrite Rl. change (contents (lw_of s2) []) with (@nil Z). rewrite app_nil_r. by apply arp_bytes. }
  unfold s3. rewrite Hpkt. apply (HQ D4 l4); [done|].
  assert (forall x, x ∈ refs -> x ∈ filter (fun q => q <> p) refs) as Hsub by (intros x; by apply (new_not_held others refs D (lw_of s))).
  eapply keeps_trans; [apply (new_keeps others refs refs D (lw_of s) p b l1); [done|done|done|intros a d x _ _; by rewrite Hd1]|].
  eapply keeps_trans; [eapply keeps_sub; [apply (Hk2 refs)|done]|]. eapply keeps_trans; [eapply keeps_sub; [apply (Hk3 refs)|done]|done].
Qed.
End spec.
