(* ===== verification/EtharpTable.v ===== *)
(** The ARP cache: its invariant and what the operations on its entries do, which are recycling,
    ageing, and learning an address. *)
From S2P Require Import Prelude Machine LwMem LwHeap Pbuf PbufCopy PbufChain PbufAlloc PbufData PbufClone PbufCoalesce PbufShape PbufRefs PbufKeep Etharp EtharpSpec.
From stdpp Require Import list gmap.

#[local] Open Scope Z_scope.
#[local] Open Scope fw_scope.

(** * The table *)

Record entry_ok (nets : gmap Z netif4) (e : etharp_entry) : Prop := {
  eo_empty : ae_state e = ETHARP_STATE_EMPTY -> ae_q e = 0;
  eo_pending : ae_state e = ETHARP_STATE_PENDING -> ae_ctime e < ARP_MAXPENDING;
  eo_stable : is_stable (ae_state e) = true -> ae_q e = 0 /\ ae_ctime e < ARP_MAXAGE;
  eo_ctime : 0 <= ae_ctime e;
  eo_netif : in_use e = true -> is_Some (nets !! ae_netif e);
  eo_addr : is_hwaddr (ae_ethaddr e) }.

(** No two entries for the same address on the same interface. *)
Definition same_key (e e' : etharp_entry) : Prop := ae_ipaddr e = ae_ipaddr e' /\ ae_netif e = ae_netif e'.

Record tab_ok (nets : gmap Z netif4) (t : list etharp_entry) : Prop := {
  to_size : Z.of_nat (length t) = ARP_TABLE_SIZE;
  to_entry : forall i e, aget t i = Some e -> entry_ok nets e;
  to_unique : forall i j e e', aget t i = Some e -> aget t j = Some e' -> in_use e = true -> in_use e' = true -> same_key e e' -> i = j }.

Lemma aset_aset {A} (l : list A) i x y : aset (aset l i x) i y = aset l i y.
Proof. unfold aset. destruct (i <? 0); [done|]. apply list_insert_insert_eq. Qed.

Lemma aget_aset {A} (l : list A) i j x y z : aget l i = Some z -> aget (aset l i x) j = Some y -> j = i /\ y = x \/ j <> i /\ aget l j = Some y.
Proof.
  intros Hi%aget_Some. destruct (Z.eq_dec j i) as [->|].
  - rewrite aget_aset_eq by done. intros [= <-]. by left.
  - rewrite aget_aset_ne by done. by right.
Qed.

Lemma aget_elem {A} (l : list A) i x : aget l i = Some x -> x ∈ l.
Proof. intros H. apply list_elem_of_lookup. exists (Z.to_nat i). revert H. unfold aget. by destruct (i <? 0). Qed.

Lemma elem_aget {A} (l : list A) x : x ∈ l -> exists i, aget l i = Some x.
Proof.
  intros (k & Hk)%list_elem_of_lookup. exists (Z.of_nat k). unfold aget. destruct (Z.ltb_spec (Z.of_nat k) 0); [lia|]. by rewrite Nat2Z.id.
Qed.

Lemma tab_ok_set nets t i e e' : tab_ok nets t -> aget t i = Some e -> entry_ok nets e' ->
  (in_use e' = true -> forall j e2, j <> i -> aget t j = Some e2 -> in_use e2 = true -> ~ same_key e2 e') -> tab_ok nets (aset t i e').
Proof.
  intros [Hs He Hu] Hi He' Hu'. split; [by rewrite aset_length| |].
  - intros j x [[-> ->]|[_ Hj]]%(aget_aset t i j e' x e Hi); [done|by apply (He j)].
  - intros j k x y [[-> ->]|[Hji Hj]]%(aget_aset t i j e' x e Hi) [[-> ->]|[Hki Hk]]%(aget_aset t i k e' y e Hi) Hx Hy Hk2; [done|..].
    + destruct (Hu' Hx k y Hki Hk Hy). by destruct Hk2.
    + by destruct (Hu' Hy j x Hji Hj Hx).
    + by apply (Hu j k x y).
Qed.

(** An entry that changes keeps its place. *)
Lemma tab_ok_change nets t i e e' : tab_ok nets t -> aget t i = Some e -> entry_ok nets e' -> in_use e = true -> same_key e e' -> tab_ok nets (aset t i e').
Proof.
  intros Ht Hi He' Hu [E1 E2]. apply (tab_ok_set nets t i e); [done|done|done|]. intros _ j e2 Hj Hj2 Hu2 [E3 E4].
  apply Hj, (to_unique _ _ Ht j i e2 e); try done. split; congruence.
Qed.

(** The packets that wait. *)
Definition qs (t : list etharp_entry) : list Z := ae_q <$> t.

Lemma qs_aset t i e e' : aget t i = Some e -> Permutation (ae_q e' :: qs t) (ae_q e :: qs (aset t i e')).
Proof.
  unfold aget, aset, qs. destruct (i <? 0); [done|]. revert t. induction (Z.to_nat i) as [|k IH]; intros [|x t]; try done; cbn.
  - intros [= ->]. apply perm_swap.
  - intros H. specialize (IH t H). rewrite perm_swap, IH. apply perm_swap.
Qed.

Lemma qs_aset_same t i e e' : aget t i = Some e -> ae_q e' = ae_q e -> qs (aset t i e') = qs t.
Proof.
  unfold aget, aset, qs. destruct (i <? 0); [done|]. revert t. induction (Z.to_nat i) as [|k IH]; intros [|x t]; try done; cbn.
  - intros [= ->] ->. done.
  - intros H E. f_equal. by apply IH.
Qed.

Lemma elem_qs t q : q ∈ qs t <-> exists i e, aget t i = Some e /\ ae_q e = q.
Proof.
  unfold qs. rewrite list_elem_of_fmap. split.
  - intros (e & -> & (i & Hi)%elem_aget). by exists i, e.
  - intros (i & e & Hi & <-). exists e. split; [done|by eapply aget_elem].
Qed.

Section table.
Context {B : Bus} {P : Pools} {L : LwLayout} {O : LwRoom} {K : EthLink B} (custom_free_function : Z -> lw unit).
Implicit Types (s : mach etharp) (e : etharp_entry) (D : world).

(** * The invariant *)

(** [refs] are the references of the rest of the program. *)
Record arp_ok (others refs : list Z) D s : Prop := {
  ao_mem : counted others (refs ++ qs (tab_of s)) D (lw_of s);
  ao_unlinked : forall q, q ∈ qs (tab_of s) -> q <> 0 -> q ∉ links_of D;
  ao_tab : tab_ok (arp_netifs (glb s)) (tab_of s);
  ao_cached : 0 <= etharp_cached_entry (glb s) < ARP_TABLE_SIZE;
  ao_netifs : forall nif n, arp_netifs (glb s) !! nif = Some n -> nif <> 0 /\ is_hwaddr (n4_hwaddr n) }.

Lemma counted_perm others refs refs' D l : Permutation refs refs' -> counted others refs D l -> counted others refs' D l.
Proof. intros Hp (fp & fr & h & H). exists fp, fr, h. by apply (count_perm others refs). Qed.

Lemma counted_null others refs D l : counted others (0 :: refs) D l <-> counted others refs D l.
Proof. split; intros (fp & fr & h & H); exists fp, fr, h; by apply (count_null others). Qed.

(** A packet leaves the table, or comes to it. *)
Lemma counted_leave others refs D l t i e e' : counted others (refs ++ qs t) D l -> aget t i = Some e -> ae_q e' = 0 ->
  counted others (ae_q e :: refs ++ qs (aset t i e')) D l.
Proof.
  intros H Hi E. apply counted_null in H. revert H. apply counted_perm. pose proof (qs_aset t i e e' Hi) as Hp. rewrite E in Hp.
  rewrite !Permutation_middle. by rewrite Hp.
Qed.

Lemma counted_enter others refs D l t i e e' : counted others (ae_q e' :: refs ++ qs t) D l -> aget t i = Some e -> ae_q e = 0 ->
  counted others (refs ++ qs (aset t i e')) D l.
Proof.
  intros H Hi E. apply counted_null. revert H. apply counted_perm. pose proof (qs_aset t i e e' Hi) as Hp. rewrite E in Hp.
  rewrite !Permutation_middle. by rewrite Hp.
Qed.

Lemma qs_leave t i e e' q : aget t i = Some e -> ae_q e' = 0 -> q ∈ qs (aset t i e') -> q <> 0 -> q ∈ qs t.
Proof.
  intros Hi E Hq Hq0. assert (q ∈ ae_q e :: qs (aset t i e')) as Hq' by by right. rewrite <- (qs_aset t i e e' Hi), E in Hq'.
  by apply elem_of_cons in Hq' as [?|?].
Qed.

(** The entry at [i] of a valid index. *)
Lemma entry_ex t i nets : tab_ok nets t -> 0 <= i < ARP_TABLE_SIZE -> exists e, aget t i = Some e /\ entry_ok nets e.
Proof. intros Ht Hi. rewrite <- (to_size _ _ Ht) in Hi. destruct (aget_is_Some t i Hi) as [e He]. exists e. split; [done|by apply (to_entry _ _ Ht i)]. Qed.

(** * Recycling *)

Definition freed e : etharp_entry := put_state ETHARP_STATE_EMPTY (put_q 0 e).

Lemma freed_ok nets e : entry_ok nets e -> entry_ok nets (freed e).
Proof. intros []. by split. Qed.

Lemma tab_ok_freed nets t i e : tab_ok nets t -> aget t i = Some e -> tab_ok nets (aset t i (freed e)).
Proof. intros Ht Hi. apply (tab_ok_set nets t i e); [done|done|by eapply freed_ok, to_entry|done]. Qed.

Lemma wp_set_more i e0 e f s t (Q : unit -> mach etharp -> Prop) :
  aget t i = Some e0 -> Q tt (on_tab (aset t i (f e)) s) -> wp (set_entry i f) (on_tab (aset t i e) s) Q.
Proof.
  intros Hi%aget_Some HQ. apply (wp_set_entry i e); [by apply aget_aset_eq|]. unfold tab_of, on_tab in *. cbn. by rewrite aset_aset.
Qed.

Lemma on_tab_lw t l s : on_tab t (on_lw l s) = on_lw l (on_tab t s).
Proof. done. Qed.

Lemma on_tab_same t s : on_lw (lw_of s) (on_tab t s) = on_tab t s.
Proof. by destruct s as [d w []]. Qed.

Lemma on_dev_id h s : h = dev s -> on_dev h s = s.
Proof. intros ->. by destruct s. Qed.

Lemma on_tab_id i e s : aget (tab_of s) i = Some e -> on_tab (aset (tab_of s) i e) s = s.
Proof.
  intros H. unfold on_tab, aset, aget, tab_of in *. destruct (i <? 0); [done|]. rewrite list_insert_id by done. by destruct s as [d w []].
Qed.

(** etharp_free_entry, of an entry [e] that has become [e']. *)
Lemma wp_free_changed others refs D i e e' s (Q : unit -> mach etharp -> Prop) :
  arp_ok others refs D s -> aget (tab_of s) i = Some e -> ae_q e' = ae_q e -> entry_ok (arp_netifs (glb s)) (freed e') ->
  (forall D' l', let s' := on_lw l' (on_tab (aset (tab_of s) i (freed e')) s) in
     arp_ok others refs D' s' -> keeps (refs ++ qs (tab_of s')) D (lw_of s) D' l' -> Q tt s') ->
  wp (etharp_free_entry custom_free_function i) (on_tab (aset (tab_of s) i e') s) Q.
Proof.
  intros [Hm Hu Ht Hc Hn] Hi Eq Hok' HQ. pose proof (aget_Some _ _ _ Hi) as Hrange.
  unfold etharp_free_entry. apply wp_step, (wp_entry_at i e'); [by apply aget_aset_eq|]. rewrite Eq.
  pose proof (counted_leave _ _ _ _ _ i e (freed e') Hm Hi eq_refl) as Hm1.
  assert (forall D' l', counted others (refs ++ qs (aset (tab_of s) i (freed e'))) D' l' -> keeps (refs ++ qs (aset (tab_of s) i (freed e'))) D (lw_of s) D' l' ->
    arp_ok others refs D' (on_lw l' (on_tab (aset (tab_of s) i (freed e')) s))) as Hok.
  { intros D' l' Hm' Hk. split; [done| |by apply (tab_ok_set _ _ i e)|done|done]. change (tab_of _) with (aset (tab_of s) i (freed e')). intros q Hq Hq0.
    pose proof (qs_leave _ i e (freed e') q Hi eq_refl Hq Hq0) as Hqt.
    destruct (ref_chain _ _ _ _ q Hm ltac:(apply elem_of_app; by right) Hq0) as (b & c & _ & _ & Hch).
    apply (Hk q _ ltac:(apply elem_of_app; by right) Hq0 Hch). by apply Hu. }
  destruct (Z.eqb_spec (ae_q e) 0) as [E|E]; cbn [negb].
  - apply wp_step, wp_ret, (wp_set_more i e); [done|]. rewrite E, counted_null in Hm1.
    assert (put_state ETHARP_STATE_EMPTY e' = freed e') as -> by (unfold freed, put_state, put_q; by rewrite Eq, E).
    specialize (HQ D (lw_of s)). specialize (Hok D (lw_of s) Hm1 ltac:(apply keeps_refl)). cbn zeta in HQ. rewrite on_tab_same in HQ, Hok.
    apply HQ; [done|apply keeps_refl].
  - apply wp_step, wp_step. apply (wp_free_pbuf custom_free_function others (refs ++ qs (aset (tab_of s) i (freed e'))) D (ae_q e)); [exact Hm1|]. intros D' l' Hm' Hf Hd Hk.
    rewrite <- on_tab_lw. apply (wp_set_more i e); [done|]. apply (wp_set_more i e); [done|].
    change (put_state ETHARP_STATE_EMPTY (put_q 0 e')) with (freed e'). apply (HQ D' l'); [by apply Hok|done].
Qed.

Lemma wp_free_entry others refs D i e s (Q : unit -> mach etharp -> Prop) :
  arp_ok others refs D s -> aget (tab_of s) i = Some e ->
  (forall D' l', let s' := on_lw l' (on_tab (aset (tab_of s) i (freed e)) s) in
     arp_ok others refs D' s' -> keeps (refs ++ qs (tab_of s')) D (lw_of s) D' l' -> Q tt s') ->
  wp (etharp_free_entry custom_free_function i) s Q.
Proof.
  intros Hok Hi HQ. rewrite <- (on_tab_id i e s Hi) at 1. apply (wp_free_changed others refs D i e); [done|done|done| |done].
  eapply freed_ok, to_entry, Hi. apply Hok.
Qed.

(** ** etharp_find_entry *)

(** The entry that the search takes: one that is empty, else the oldest stable one, else the oldest
    one that waits for a reply, with no packet if there is such a one. *)
Definition victim (c : candidates) : Z :=
  if Etharp.empty c <? ARP_TABLE_SIZE then Etharp.empty c
  else if old_stable c <? ARP_TABLE_SIZE then old_stable c
  else if old_pending c <? ARP_TABLE_SIZE then old_pending c
  else old_queue c.

Definition recycled (a nif : Z) e : etharp_entry := put_netif nif (put_ctime 0 (put_ipaddr a (freed e))).

Lemma recycled_ok nets a nif e : entry_ok nets e -> entry_ok nets (recycled a nif e).
Proof. intros []. by split. Qed.

Lemma found_victim nets t c : tab_ok nets t -> found t (Z.of_nat (length t)) c ->
  exists e, aget t (victim c) = Some e /\ (if Etharp.empty c <? ARP_TABLE_SIZE then in_use e = false else forall j e', aget t j = Some e' -> in_use e' = true).
Proof.
  intros Ht [He Hs Hp Hq]. rewrite (to_size _ _ Ht) in *. unfold victim.
  destruct He as [(E & Hall)|(e & Hi & He & Hu & _)].
  2: { destruct (Z.ltb_spec (Etharp.empty c) ARP_TABLE_SIZE); [|lia]. by exists e. }
  rewrite E. change (ARP_TABLE_SIZE <? ARP_TABLE_SIZE) with false. cbn iota.
  assert (forall j e', aget t j = Some e' -> in_use e' = true) as Huse.
  { intros j e' Hj. apply (Hall j); [done|]. apply aget_Some in Hj. rewrite (to_size _ _ Ht) in Hj. lia. }
  destruct Hs as [(-> & _ & Hns)|(e & Hi & He & _)].
  2: { exists e. destruct (Z.ltb_spec (old_stable c) ARP_TABLE_SIZE); [done|lia]. }
  change (ARP_TABLE_SIZE <? ARP_TABLE_SIZE) with false. cbn iota.
  destruct Hp as [(-> & _ & Hnp)|(e & Hi & He & _)].
  2: { exists e. destruct (Z.ltb_spec (old_pending c) ARP_TABLE_SIZE); [done|lia]. }
  change (ARP_TABLE_SIZE <? ARP_TABLE_SIZE) with false. cbn iota.
  destruct Hq as [(_ & _ & Hnq)|(e & _ & He & _)]; [|by exists e].
  destruct (entry_ex t 0 nets Ht) as (e & He & _); [unfold ARP_TABLE_SIZE; lia|].
  specialize (Hns 0 e He ltac:(done)). specialize (Hnp 0 e He ltac:(done)). specialize (Hnq 0 e He ltac:(done)). specialize (Huse 0 e He). cbn beta in *.
  unfold in_use, pending in *. destruct (ae_state e), (ae_q e =? 0); done.
Qed.

Lemma freed_empty nets e : entry_ok nets e -> in_use e = false -> freed e = e.
Proof.
  intros [Hq _ _ _ _ _] Hu. unfold in_use in Hu. destruct e as [q a n h c st]. cbn in *. destruct st; try done. unfold freed, put_state, put_q. cbn. by rewrite Hq.
Qed.

(** An entry that is not in use changes. *)
Lemma arp_ok_unused others refs D s i e e' : arp_ok others refs D s -> aget (tab_of s) i = Some e -> entry_ok (arp_netifs (glb s)) e' ->
  ae_q e' = ae_q e -> in_use e' = false -> arp_ok others refs D (on_tab (aset (tab_of s) i e') s).
Proof.
  intros [Hm Hu Ht Hc Hn] Hi He' Hq Hu'. pose proof (qs_aset_same _ i e e' Hi Hq) as Eq.
  split; [| |apply (tab_ok_set _ _ i e); [done|done|done|by rewrite Hu']|done|done].
  - change (tab_of (on_tab _ s)) with (aset (tab_of s) i e'). by rewrite Eq.
  - change (tab_of (on_tab _ s)) with (aset (tab_of s) i e'). by rewrite Eq.
Qed.

Lemma wp_find_entry others refs D a flags nif s (Q : Z -> mach etharp -> Prop) :
  arp_ok others refs D s ->
  (forall i e, aget (tab_of s) i = Some e -> matches (Some a) nif e = true -> Q i s) ->
  ((forall e, e ∈ tab_of s -> matches (Some a) nif e = false) ->
   (any_bit flags ETHARP_FLAG_FIND_ONLY = true \/ any_bit flags ETHARP_FLAG_TRY_HARD = false /\ forall e, e ∈ tab_of s -> in_use e = true) -> Q ERR_MEM s) ->
  (forall c e D' l', let i := victim c in let s' := on_lw l' (on_tab (aset (tab_of s) i (recycled a nif e)) s) in
     (forall e, e ∈ tab_of s -> matches (Some a) nif e = false) -> any_bit flags ETHARP_FLAG_FIND_ONLY = false ->
     found (tab_of s) ARP_TABLE_SIZE c -> aget (tab_of s) i = Some e -> (any_bit flags ETHARP_FLAG_TRY_HARD = true \/ in_use e = false) ->
     arp_ok others refs D' s' -> keeps (refs ++ qs (tab_of s')) D (lw_of s) D' l' -> Q i s') ->
  wp (etharp_find_entry custom_free_function (Some a) flags nif) s Q.
Proof.
  intros Hok Hfound Hnone Hnew. pose proof (ao_tab _ _ _ _ Hok) as Ht. pose proof (to_size _ _ Ht) as Hsz. unfold etharp_find_entry.
  replace (Z.to_nat ARP_TABLE_SIZE) with (length (tab_of s)) by lia. apply wp_step, wp_find_loop; [intros k e Hk; unfold aget; cbn; by rewrite Z.add_0_l, Nat2Z.id, (proj2 (Z.ltb_ge _ _)) by lia|].
  pose proof (scan_inr (Some a) nif (tab_of s) (tab_of s) 0 no_candidates ltac:(lia)) as Hscan.
  assert (forall e, e ∈ tab_of s -> 0 <= ae_ctime e) as Hage by (intros e (j & Hj)%elem_aget; by apply (eo_ctime _ _ (to_entry _ _ Ht j e Hj))).
  specialize (Hscan Hage ltac:(intros k; by left) ltac:(lia) ltac:(lia) ltac:(apply found_none; intros j e Hj%aget_Some; lia)).
  destruct (scan (Some a) nif 0 (tab_of s) no_candidates) as [j|c].
  { destruct Hscan as (e & Hj & Hm & _). by apply wp_ret, (Hfound j e). }
  destruct Hscan as [Hf Hno]. destruct (found_victim _ _ c Ht Hf) as (e & He & Huse). rewrite Hsz in Hf.
  assert (Etharp.empty c =? ARP_TABLE_SIZE = negb (Etharp.empty c <? ARP_TABLE_SIZE)) as Eemp.
  { destruct (fo_empty _ _ _ Hf) as [(-> & _)|(e0 & Hlt & _)]; [done|]. destruct (Z.eqb_spec (Etharp.empty c) ARP_TABLE_SIZE), (Z.ltb_spec (Etharp.empty c) ARP_TABLE_SIZE); (done || lia). }
  rewrite Eemp. fold (any_bit flags ETHARP_FLAG_FIND_ONLY). rewrite <- (negb_involutive (flags .& ETHARP_FLAG_TRY_HARD =? 0)). fold (any_bit flags ETHARP_FLAG_TRY_HARD).
  fold (victim c).
  destruct (any_bit flags ETHARP_FLAG_FIND_ONLY) eqn:Hfo; cbn [orb]; [apply wp_ret, Hnone; [done|by left]|].
  destruct (negb (Etharp.empty c <? ARP_TABLE_SIZE) && negb (any_bit flags ETHARP_FLAG_TRY_HARD)) eqn:Hfull.
  { apply andb_true_iff in Hfull as [He1%negb_true_iff Htry%negb_true_iff]. rewrite He1 in Huse. apply wp_ret, Hnone; [done|]. right. split; [done|].
    intros e' (j & Hj)%elem_aget. by apply (Huse j). }
  destruct (Z.eqb_spec (victim c) ARP_TABLE_SIZE) as [E|_]; [apply aget_Some in He; rewrite Hsz in He; lia|].
  assert (any_bit flags ETHARP_FLAG_TRY_HARD = true \/ in_use e = false) as Hwhy.
  { destruct (any_bit flags ETHARP_FLAG_TRY_HARD); [by left|right]. rewrite andb_true_r in Hfull. apply negb_false_iff in Hfull. by rewrite Hfull in Huse. }
  assert (forall D' l', let s1 := on_lw l' (on_tab (aset (tab_of s) (victim c) (freed e)) s) in arp_ok others refs D' s1 -> keeps (refs ++ qs (tab_of s1)) D (lw_of s) D' l' ->
    wp (bind (set_entry (victim c) (put_ipaddr a)) (fun _ => bind (set_entry (victim c) (put_ctime 0)) (fun _ => bind (set_entry (victim c) (put_netif nif)) (fun _ => ret (victim c))))) s1 Q) as Hfill.
  { intros D' l' s1 Hok1 Hk. unfold s1. rewrite <- on_tab_lw. apply wp_step, (wp_set_more _ e); [done|].
    apply wp_step, (wp_set_more _ e); [done|]. apply wp_step, (wp_set_more _ e); [done|]. apply wp_ret. rewrite on_tab_lw.
    change (put_netif nif _) with (recycled a nif e). pose proof (aget_Some _ _ _ He) as Hrange.
    pose proof (to_entry _ _ Ht _ _ He) as Heok. assert (aget (tab_of s1) (victim c) = Some (freed e)) as Hs1 by by apply aget_aset_eq.
    pose proof (arp_ok_unused others refs D' s1 (victim c) (freed e) (recycled a nif e) Hok1 Hs1 (recycled_ok _ a nif e Heok) eq_refl eq_refl) as Hok2.
    assert (on_tab (aset (tab_of s1) (victim c) (recycled a nif e)) s1 = on_lw l' (on_tab (aset (tab_of s) (victim c) (recycled a nif e)) s)) as Es.
    { unfold s1, on_lw, on_tab, tab_of, put_table. cbn. by rewrite aset_aset. }
    rewrite Es in Hok2. apply (Hnew c e D' l'); try done.
    change (tab_of _) with (aset (tab_of s) (victim c) (recycled a nif e)). change (tab_of s1) with (aset (tab_of s) (victim c) (freed e)) in Hk.
    pose proof (qs_aset_same _ (victim c) (freed e) (recycled a nif e) Hs1 eq_refl) as Eq. change (tab_of s1) with (aset (tab_of s) (victim c) (freed e)) in Eq.
    rewrite aset_aset in Eq. by rewrite Eq. }
  destruct (Etharp.empty c <? ARP_TABLE_SIZE) eqn:Hemp.
  - apply wp_step, wp_ret. specialize (Hfill D (lw_of s)). cbn zeta in Hfill. rewrite on_tab_same in Hfill.
    rewrite (freed_empty _ e (to_entry _ _ Ht _ _ He) Huse) in Hfill.
    rewrite (on_tab_id _ e s He) in Hfill. apply Hfill; [done|apply keeps_refl].
  - apply wp_step, (wp_free_entry others refs D (victim c) e); [done|done|]. intros D' l' s1 Hok1 Hk. by apply (Hfill D' l').
Qed.
(** * Requests *)

Lemma arp_ok_dev others refs D s h : arp_ok others refs D s -> arp_ok others refs D (on_dev h s).
Proof. intros []. by split. Qed.

(** The memory of packets changes, but no packet that the program or the table has. *)
Lemma arp_ok_lw others refs refs' D s D' l' : arp_ok others refs D s -> counted others (refs' ++ qs (tab_of s)) D' l' ->
  keeps (refs' ++ qs (tab_of s)) D (lw_of s) D' l' -> arp_ok others refs' D' (on_lw l' s).
Proof.
  intros [Hm Hu Ht Hc Hn] Hm' Hk. split; try done. intros q Hq Hq0.
  destruct (ref_chain _ _ _ _ q Hm ltac:(apply elem_of_app; by right) Hq0) as (b & c & _ & _ & Hch).
  apply (Hk q _ ltac:(apply elem_of_app; by right) Hq0 Hch). by apply Hu.
Qed.

Lemma arp_ok_change others refs D s i e e' : arp_ok others refs D s -> aget (tab_of s) i = Some e -> entry_ok (arp_netifs (glb s)) e' ->
  ae_q e' = ae_q e -> in_use e = true -> same_key e e' -> arp_ok others refs D (on_tab (aset (tab_of s) i e') s).
Proof.
  intros [Hm Hu Ht Hc Hn] Hi He' Hq Hu' Hk. pose proof (qs_aset_same _ i e e' Hi Hq) as Eq.
  split; [| |by apply (tab_ok_change _ _ i e)|done|done].
  - change (tab_of (on_tab _ s)) with (aset (tab_of s) i e'). by rewrite Eq.
  - change (tab_of (on_tab _ s)) with (aset (tab_of s) i e'). by rewrite Eq.
Qed.

Lemma is_hwaddr_ones : is_hwaddr ethbroadcast /\ is_hwaddr ethzero.
Proof. split; (split; [done|]); unfold ethbroadcast, ethzero; by repeat (apply Forall_cons_2; [lia|]). Qed.

(** A request for [a] from the interface [n], to the hardware address [dst]. *)
Definition request_frame (n : netif4) (a : Z) (dst : list Z) : list Z :=
  eth_frame dst (n4_hwaddr n) ETHTYPE_ARP (arp_packet ARP_REQUEST (n4_hwaddr n) (n4_ip_addr n) ethzero a).

Lemma wp_request others refs D nif n a dst s (Q : Z -> mach etharp -> Prop) :
  arp_ok others refs D s -> arp_netifs (glb s) !! nif = Some n -> is_hwaddr dst ->
  (starved (lw_of s) -> Q ERR_MEM s) ->
  (forall D' l', arp_ok others refs D' (on_lw l' s) -> keeps (refs ++ qs (tab_of s)) D (lw_of s) D' l' ->
     Q ERR_OK (on_dev (snd (linkoutput nif (request_frame n a dst) (dev s))) (on_lw l' s))) ->
  wp (etharp_request_dst custom_free_function nif a dst) s Q.
Proof.
  intros Hok Hn Hdst H0 HQ. destruct (ao_netifs _ _ _ _ Hok nif n Hn) as [_ Hhw]. unfold etharp_request_dst. apply wp_step, (wp_netif_at nif n); [done|].
  apply (wp_etharp_raw custom_free_function others (refs ++ qs (tab_of s)) D); [apply Hok|done|done|done|apply is_hwaddr_ones|done|done|].
  intros D' l' Hm Hk. apply (HQ D' l'); [by apply (arp_ok_lw others refs refs D)|done].
Qed.

(** * Ageing *)

(** What a tick makes of an entry. *)
Definition aged e : etharp_entry :=
  let e' := put_ctime (ae_ctime e + 1) e in
  if in_use e then
    if (ARP_MAXAGE <=? ae_ctime e') || (pending e && (ARP_MAXPENDING <=? ae_ctime e')) then freed e'
    else match ae_state e with
         | ETHARP_STATE_STABLE_REREQUESTING_1 => put_state ETHARP_STATE_STABLE_REREQUESTING_2 e'
         | ETHARP_STATE_STABLE_REREQUESTING_2 => put_state ETHARP_STATE_STABLE e'
         | _ => e'
         end
  else e.

(** A request for an entry that still waits, or none if there is no memory for it. *)
Definition reminder (nets : gmap Z netif4) e (h h' : hw) : Prop :=
  h' = h \/ exists n, pending (aged e) = true /\ nets !! ae_netif e = Some n /\
    h' = snd (linkoutput (ae_netif e) (request_frame n (ae_ipaddr e) ethbroadcast) h).

(** One step for each entry. *)
Inductive along (R : etharp_entry -> hw -> hw -> Prop) : list etharp_entry -> hw -> hw -> Prop :=
| along_nil h : along R [] h h
| along_cons e es h h1 h2 : R e h h1 -> along R es h1 h2 -> along R (e :: es) h h2.

Lemma aged_ctime nets e : entry_ok nets e -> in_use e = true -> u16 (ae_ctime e + 1) = ae_ctime e + 1 /\ 0 <= ae_ctime e < ARP_MAXAGE.
Proof.
  intros [_ Hp Hs Hc _ _] Hu. unfold in_use, ARP_MAXAGE, ARP_MAXPENDING in *.
  assert (0 <= ae_ctime e < 300) as H by (destruct (ae_state e); try done; [specialize (Hp eq_refl); lia|destruct Hs; [done|lia]..]).
  split; [apply u16_small; lia|done].
Qed.

Lemma aged_ok nets e : entry_ok nets e -> entry_ok nets (aged e).
Proof.
  intros H. pose proof (aged_ctime nets e H) as Hc. pose proof H as [Hq Hp Hs Hct Hn Ha]. unfold aged, in_use, pending in *.
  destruct (ae_state e) eqn:Est; [done|..]; destruct (Hc eq_refl) as [Eu Hr]; cbn [is_stable] in *; change (ae_ctime (put_ctime (ae_ctime e + 1) e)) with (u16 (ae_ctime e + 1)); rewrite Eu;
    destruct (Z.leb_spec ARP_MAXAGE (ae_ctime e + 1)); cbn [orb andb]; try destruct (Z.leb_spec ARP_MAXPENDING (ae_ctime e + 1)); cbn [orb andb];
    split; cbn; unfold in_use; cbn; rewrite ?Eu, ?Est; try done; try lia; try (intros _; by apply Hn); try (destruct Hs; [done|]); try (intros; split; [done|lia]).
Qed.

Lemma aged_key e : same_key e (aged e) /\ (in_use (aged e) = true -> in_use e = true) /\ (ae_q (aged e) = ae_q e \/ ae_q (aged e) = 0).
Proof.
  unfold aged, in_use, pending. destruct (ae_state e) eqn:E; [by rewrite E; split; [|split; [|left]]|..]; cbn [andb];
    (match goal with |- context [if ?b then freed _ else _] => destruct b end); cbn; rewrite ?E; (split; [done|]); (split; [done|]); by (left + right).
Qed.
(** One step of the loop of etharp_tmr. *)
Lemma wp_tmr_step others refs D i e s (Q : unit -> mach etharp -> Prop) :
  arp_ok others refs D s -> aget (tab_of s) i = Some e ->
  (forall h D' l', let s' := on_dev h (on_lw l' (on_tab (aset (tab_of s) i (aged e)) s)) in
     arp_ok others refs D' s' -> keeps (refs ++ qs (tab_of s')) D (lw_of s) D' l' ->
     reminder (arp_netifs (glb s)) e (dev s) h -> Q tt s') ->
  wp (etharp_tmr_step custom_free_function i) s Q.
Proof.
  intros Hok Hi HQ. pose proof (ao_tab _ _ _ _ Hok) as Ht. pose proof (to_entry _ _ Ht i e Hi) as He. pose proof (aged_ok _ e He) as Hag.
  pose proof (aged_key e) as (Hkey & _ & _). pose proof (aget_Some _ _ _ Hi) as Hrange.
  assert (reminder (arp_netifs (glb s)) e (dev s) (dev s)) as Hskip by by left.
  assert (aged e = e -> Q tt s) as Hsame.
  { intros E. specialize (HQ (dev s) D (lw_of s)). cbn zeta in HQ. rewrite E, on_tab_same, (on_tab_id i e s Hi), (on_dev_id (dev s) s) in HQ by done. apply HQ; [done|apply keeps_refl|done]. }
  assert (forall e', e' = aged e -> ae_q e' = ae_q e -> in_use e = true ->
    arp_ok others refs D (on_tab (aset (tab_of s) i e') s) /\ Q tt (on_tab (aset (tab_of s) i e') s)) as Hquiet.
  { intros e' -> Eq Hu. pose proof (arp_ok_change others refs D s i e (aged e) Hok Hi Hag Eq Hu Hkey) as Hok'. split; [done|].
    specialize (HQ (dev s) D (lw_of s)). cbn zeta in HQ. rewrite on_tab_same, (on_dev_id (dev s) (on_tab _ s)) in HQ by done. apply HQ; [done|apply keeps_refl|done]. }
  unfold etharp_tmr_step. apply wp_step, (wp_entry_at i e); [done|].
  destruct (decide (ae_state e = ETHARP_STATE_EMPTY)) as [E|E].
  { apply wp_ret, Hsame. unfold aged, in_use. by rewrite E. }
  assert (in_use e = true) as Hu by (unfold in_use; by destruct (ae_state e)).
  apply wp_step, (wp_set_entry i e); [done|]. set (e1 := put_ctime (ae_ctime e + 1) e) in *.
  apply wp_step, (wp_entry_at i e1); [by apply aget_aset_eq|].
  assert (aged e = if (ARP_MAXAGE <=? ae_ctime e1) || (bool_decide (ae_state e1 = ETHARP_STATE_PENDING) && (ARP_MAXPENDING <=? ae_ctime e1)) then freed e1
    else match ae_state e1 with ETHARP_STATE_STABLE_REREQUESTING_1 => put_state ETHARP_STATE_STABLE_REREQUESTING_2 e1
         | ETHARP_STATE_STABLE_REREQUESTING_2 => put_state ETHARP_STATE_STABLE e1 | _ => e1 end) as Eag.
  { unfold aged. rewrite Hu. fold e1. change (ae_state e1) with (ae_state e). f_equal. f_equal. unfold pending. by destruct (ae_state e). }
  destruct ((ARP_MAXAGE <=? ae_ctime e1) || (bool_decide (ae_state e1 = ETHARP_STATE_PENDING) && (ARP_MAXPENDING <=? ae_ctime e1))).
  { apply (wp_free_changed others refs D i e); [done|done|done|by rewrite <- Eag|]. rewrite <- Eag. intros D' l' s' Hok' Hk.
    pose proof (HQ (dev s) D' l') as H. cbn zeta in H. rewrite (on_dev_id (dev s) (on_lw l' _)) in H by done. by apply H. }
  change (ae_state e1) with (ae_state e) in *. destruct (ae_state e) eqn:Est; [done|..].
  - destruct (Hquiet e1 ltac:(done) eq_refl Hu) as [Hok1 Hq1]. destruct (eo_netif _ _ He Hu) as [n Hn].
    apply wp_step, (wp_request others refs D (ae_netif e1) n); [done|done|apply is_hwaddr_ones|intros _; by apply wp_ret|]. intros D' l' Hok' Hk. apply wp_ret.
    rewrite <- Eag in Hok' |- *. apply (HQ _ D' l'); [by apply arp_ok_dev| |].
    + change (tab_of _) with (tab_of (on_tab (aset (tab_of s) i (aged e)) s)). rewrite Eag. exact Hk.
    + right. exists n. split; [by rewrite Eag; unfold pending; change (ae_state e1) with (ae_state e); rewrite Est|]. split; [done|]. by rewrite Eag.
  - apply wp_ret. by apply Hquiet.
  - apply (wp_set_more i e); [done|]. by apply Hquiet.
  - apply (wp_set_more i e); [done|]. by apply Hquiet.
Qed.
(** ** Loops over the table *)

Lemma aset_step (f : etharp_entry -> etharp_entry) t k e : aget t k = Some e ->
  let u k := (f <$> take (Z.to_nat k) t) ++ drop (Z.to_nat k) t in aget (u k) k = Some e /\ aset (u k) k (f e) = u (k + 1).
Proof.
  intros Hk. pose proof (aget_Some _ _ _ Hk) as Hr. revert Hk. unfold aget, aset. destruct (Z.ltb_spec k 0); [lia|]. intros Hk.
  assert (length (f <$> take (Z.to_nat k) t) = Z.to_nat k) as Hl by (rewrite length_fmap, length_take; lia).
  cbn zeta. replace (Z.to_nat (k + 1)) with (S (Z.to_nat k)) by lia. rewrite (take_S_r t _ e Hk), fmap_app, <- app_assoc.
  rewrite (drop_S t e _ Hk). split.
  - by rewrite list_lookup_middle.
  - rewrite <- Hl at 1. by rewrite insert_app_r_alt, Nat.sub_diag by done.
Qed.

Lemma along_step R t k e h0 h h1 : aget t k = Some e -> along R (drop (Z.to_nat (k + 1)) t) h1 h0 -> R e h h1 -> along R (drop (Z.to_nat k) t) h h0.
Proof.
  intros Hk Ha Hr. pose proof (aget_Some _ _ _ Hk) as Hrange. revert Hk. unfold aget. destruct (Z.ltb_spec k 0); [lia|]. intros Hk.
  rewrite (drop_S t e _ Hk). replace (Z.to_nat (k + 1)) with (S (Z.to_nat k)) in Ha by lia. by apply (along_cons _ _ _ _ h1).
Qed.

Lemma wp_table_loop (f : etharp_entry -> etharp_entry) R body others refs D s (Q : unit -> mach etharp -> Prop) :
  (forall e, ae_q (f e) = ae_q e \/ ae_q (f e) = 0) ->
  (forall D i e s1 (Q : unit -> mach etharp -> Prop), arp_ok others refs D s1 -> aget (tab_of s1) i = Some e -> arp_netifs (glb s1) = arp_netifs (glb s) ->
     (forall h D' l', let s' := on_dev h (on_lw l' (on_tab (aset (tab_of s1) i (f e)) s1)) in
        arp_ok others refs D' s' -> keeps (refs ++ qs (tab_of s')) D (lw_of s1) D' l' -> R e (dev s1) h -> Q tt s') -> wp (body i) s1 Q) ->
  arp_ok others refs D s ->
  (forall h D' l', let s' := on_dev h (on_lw l' (on_tab (f <$> tab_of s) s)) in
     arp_ok others refs D' s' -> keeps (refs ++ qs (f <$> tab_of s)) D (lw_of s) D' l' -> along R (tab_of s) (dev s) h -> Q tt s') ->
  wp (for_each (zrange 0 (Z.to_nat ARP_TABLE_SIZE)) body) s Q.
Proof.
  intros Hq Hstep Hok HQ. set (t := tab_of s) in *. pose proof (to_size _ _ (ao_tab _ _ _ _ Hok)) as Hsz. fold t in Hsz.
  set (u k := (f <$> take (Z.to_nat k) t) ++ drop (Z.to_nat k) t).
  apply (wp_for_range (fun k s1 => exists h D' l', s1 = on_dev h (on_lw l' (on_tab (u k) s)) /\ arp_ok others refs D' s1 /\
    keeps (refs ++ qs (u k)) D (lw_of s) D' l' /\ forall h', along R (drop (Z.to_nat k) t) h h' -> along R t (dev s) h')).
  - exists (dev s), D, (lw_of s). assert (on_dev (dev s) (on_lw (lw_of s) (on_tab (u 0) s)) = s) as -> by (unfold on_dev; destruct s as [d w []]; done).
    split; [done|]. split; [done|]. split; [apply keeps_refl|done].
  - intros k s1 Hk (h & D1 & l1 & -> & Hok1 & Hk1 & Hal). destruct (aget_is_Some t k) as [e He]; [lia|].
    destruct (aset_step f t k e He) as [Eg Es]. fold (u k) in Eg, Es. fold (u (k + 1)) in Es.
    apply (Hstep D1 k e); [done|done|done|]. intros h2 D2 l2 s' Hok2 Hk2 HR. exists h2, D2, l2.
    assert (s' = on_dev h2 (on_lw l2 (on_tab (u (k + 1)) s))) as Es' by (unfold s'; change (tab_of _) with (u k); by rewrite Es).
    split; [done|]. split; [done|]. split.
    + assert (tab_of s' = u (k + 1)) as Et by by rewrite Es'. rewrite Et in Hk2. eapply keeps_trans; [|exact Hk2].
      apply (keeps_mono _ _ _ _ _ _ Hk1). intros q [?|Hi]%elem_of_app Hq0; apply elem_of_app; [by left|right].
      rewrite <- Es in Hi. apply elem_qs in Hi as (j & x & [[-> ->]|[_ Hj]]%(aget_aset _ _ _ _ _ _ Eg) & <-); apply elem_qs.
      * exists k, e. split; [done|]. by destruct (Hq e) as [->|].
      * by exists j, x.
    + intros h' Ha. apply Hal. by apply (along_step R t k e h' h h2).
  - intros s1 (h & D' & l' & -> & Hok' & Hk' & Hal).
    assert (u (0 + Z.of_nat (Z.to_nat ARP_TABLE_SIZE)) = f <$> t) as Eu.
    { unfold u. rewrite take_ge, drop_ge by lia. by rewrite app_nil_r. }
    rewrite Eu in *. apply (HQ h D' l'); [done|done|]. apply Hal. rewrite drop_ge by lia. constructor.
Qed.

(** etharp_tmr. *)
Lemma wp_etharp_tmr others refs D s (Q : unit -> mach etharp -> Prop) :
  arp_ok others refs D s ->
  (forall h D' l', let s' := on_dev h (on_lw l' (on_tab (aged <$> tab_of s) s)) in
     arp_ok others refs D' s' -> keeps (refs ++ qs (aged <$> tab_of s)) D (lw_of s) D' l' -> along (reminder (arp_netifs (glb s))) (tab_of s) (dev s) h -> Q tt s') ->
  wp (etharp_tmr custom_free_function) s Q.
Proof.
  apply wp_table_loop; [intros e; apply aged_key|]. intros D1 i e s1 Q1 Hok Hi En HQ. apply (wp_tmr_step others refs D1 i e); [done|done|].
  by rewrite En.
Qed.

(** etharp_cleanup_netif. *)
Definition cleaned (nif : Z) e : etharp_entry := if in_use e && (ae_netif e =? nif) then freed e else e.

Lemma wp_cleanup_netif others refs D nif s (Q : unit -> mach etharp -> Prop) :
  arp_ok others refs D s ->
  (forall D' l', let s' := on_lw l' (on_tab (cleaned nif <$> tab_of s) s) in
     arp_ok others refs D' s' -> keeps (refs ++ qs (cleaned nif <$> tab_of s)) D (lw_of s) D' l' -> Q tt s') ->
  wp (etharp_cleanup_netif custom_free_function nif) s Q.
Proof.
  intros Hok HQ. apply (wp_table_loop (cleaned nif) (fun _ h h' => h' = h) _ others refs D); [|..|done|].
  - intros e. unfold cleaned. destruct (in_use e && _); [by right|by left].
  - intros D1 i e s1 Q1 Hok1 Hi _ HQ1. apply wp_step, (wp_entry_at i e); [done|].
    assert (negb (bool_decide (ae_state e = ETHARP_STATE_EMPTY)) = in_use e) as -> by (unfold in_use; by destruct (ae_state e)).
    unfold cleaned in HQ1. destruct (in_use e && (ae_netif e =? nif)).
    + apply (wp_free_entry others refs D1 i e); [done|done|]. intros D' l' s' Hok' Hk. pose proof (HQ1 (dev s1) D' l') as H. cbn zeta in H.
      rewrite (on_dev_id (dev s1) (on_lw l' _)) in H by done. by apply H.
    + apply wp_ret. specialize (HQ1 (dev s1) D1 (lw_of s1)). cbn zeta in HQ1. rewrite on_tab_same, (on_tab_id i e s1 Hi), (on_dev_id (dev s1) s1) in HQ1 by done.
      apply HQ1; [done|apply keeps_refl|done].
  - intros h D' l' s' Hok' Hk Hal. assert (h = dev s) as ->.
    { clear -Hal. induction Hal as [|e es h h1 h2 -> _ IH]; [done|done]. }
    unfold s' in *. rewrite (on_dev_id (dev s) (on_lw l' _)) in * by done. by apply (HQ D' l').
Qed.
End table.
