(* ===== verification/EtharpLearn.v ===== *)
(** The ARP cache: time, learning an address and sending the packet that waits for it. *)
From S2P Require Import Prelude Machine LwMem LwHeap Pbuf PbufCopy PbufChain PbufAlloc PbufData PbufClone PbufCoalesce PbufShape PbufRefs PbufKeep Etharp EtharpSpec EtharpTable.
From stdpp Require Import list gmap.

#[local] Open Scope Z_scope.
#[local] Open Scope fw_scope.

(** * Time *)

(** How old an entry gets. *)
Definition limit (e : etharp_entry) : Z := if pending e then ARP_MAXPENDING else ARP_MAXAGE.

Lemma aged_limit nets e : entry_ok nets e -> in_use e = true ->
  if ae_ctime e + 1 <? limit e then
    in_use (aged e) = true /\ ae_ctime (aged e) = ae_ctime e + 1 /\ pending (aged e) = pending e /\ ae_q (aged e) = ae_q e /\ ae_ethaddr (aged e) = ae_ethaddr e
  else in_use (aged e) = false.
Proof.
  intros H Hu. destruct (aged_ctime nets e H Hu) as [Eu _]. pose proof (eo_pending _ _ H) as Hp. unfold aged, limit. rewrite Hu.
  change (ae_ctime (put_ctime (ae_ctime e + 1) e)) with (u16 (ae_ctime e + 1)). rewrite Eu. unfold in_use, pending in *.
  destruct (ae_state e) eqn:Est; try done; unfold ARP_MAXAGE, ARP_MAXPENDING in *; cbn [andb]; rewrite ?orb_false_r.
  - specialize (Hp eq_refl). destruct (Z.leb_spec 300 (ae_ctime e + 1)), (Z.leb_spec 5 (ae_ctime e + 1)), (Z.ltb_spec (ae_ctime e + 1) 5); try lia; cbn; rewrite ?Est, ?Eu; done.
  - destruct (Z.leb_spec 300 (ae_ctime e + 1)), (Z.ltb_spec (ae_ctime e + 1) 300); try lia; cbn; rewrite ?Est, ?Eu; done.
  - destruct (Z.leb_spec 300 (ae_ctime e + 1)), (Z.ltb_spec (ae_ctime e + 1) 300); try lia; cbn; rewrite ?Est, ?Eu; done.
  - destruct (Z.leb_spec 300 (ae_ctime e + 1)), (Z.ltb_spec (ae_ctime e + 1) 300); try lia; cbn; rewrite ?Est, ?Eu; done.
Qed.

Lemma aged_unused e : in_use e = false -> aged e = e.
Proof. intros Hu. unfold aged. by rewrite Hu. Qed.

Lemma aged_iter nets e n : entry_ok nets e -> in_use e = true -> let e' := Nat.iter n aged e in
  entry_ok nets e' /\ same_key e e' /\
  if ae_ctime e + Z.of_nat n <? limit e then in_use e' = true /\ ae_ctime e' = ae_ctime e + Z.of_nat n /\ pending e' = pending e /\ ae_q e' = ae_q e /\ ae_ethaddr e' = ae_ethaddr e
  else in_use e' = false.
Proof.
  intros H Hu. assert (ae_ctime e < limit e) as H0.
  { unfold limit, pending. pose proof (eo_pending _ _ H). destruct (aged_ctime nets e H Hu) as [_ ?]. destruct (ae_state e); lia || auto. }
  induction n as [|n (Hok & Hk & IH)].
  - cbn. split; [done|]. split; [by split|]. rewrite Z.add_0_r. destruct (Z.ltb_spec (ae_ctime e) (limit e)); [done|lia].
  - cbn [Nat.iter nat_rect]. fold (Nat.iter n aged e). set (e' := Nat.iter n aged e) in *. cbn zeta in *. fold e' in Hok, Hk, IH.
    change (nat_rect _ _ _ n) with e'. split; [by apply aged_ok|]. destruct Hk as [K1 K2].
    split; [destruct (aged_key e') as ([K3 K4] & _); split; congruence|].
    destruct (Z.ltb_spec (ae_ctime e + Z.of_nat n) (limit e)) as [Hlt|Hge].
    + destruct IH as (Hu' & Hc & Hp & Hq & Ha). pose proof (aged_limit nets e' Hok Hu') as Hl.
      assert (limit e' = limit e) as El by (unfold limit; by rewrite Hp). rewrite El, Hc in Hl.
      replace (ae_ctime e + Z.of_nat (S n)) with (ae_ctime e + Z.of_nat n + 1) by lia.
      destruct (ae_ctime e + Z.of_nat n + 1 <? limit e); [|done]. destruct Hl as (? & ? & ? & ? & ?). repeat split; congruence.
    + destruct (Z.ltb_spec (ae_ctime e + Z.of_nat (S n)) (limit e)); [lia|]. by rewrite aged_unused.
Qed.

Section learn.
Context {B : Bus} {P : Pools} {L : LwLayout} {O : LwRoom} {K : EthLink B} (custom_free_function : Z -> lw unit).
Implicit Types (s : mach etharp) (e : etharp_entry) (D : world).

(** [n] periods of the timer. *)
Definition ticks (n : nat) : M (mach etharp) unit := for_each (zrange 0 n) (fun _ => etharp_tmr custom_free_function).

Lemma qs_aged t q n : q ∈ qs ((fun e => Nat.iter (S n) aged e) <$> t) -> q <> 0 -> q ∈ qs ((fun e => Nat.iter n aged e) <$> t).
Proof.
  unfold qs. rewrite <- !list_fmap_compose. intros (e & -> & He)%list_elem_of_fmap Hq. apply list_elem_of_fmap. exists e. split; [|done].
  cbn [compose Nat.iter nat_rect] in *. destruct (aged_key (Nat.iter n aged e)) as (_ & _ & [E|E]); [done|]. unfold Nat.iter in E. by rewrite E in Hq.
Qed.

Lemma wp_ticks others refs D n s (Q : unit -> mach etharp -> Prop) :
  arp_ok others refs D s ->
  (forall h D' l', let s' := on_dev h (on_lw l' (on_tab ((fun e => Nat.iter n aged e) <$> tab_of s) s)) in
     arp_ok others refs D' s' -> keeps (refs ++ qs (tab_of s')) D (lw_of s) D' l' -> Q tt s') ->
  wp (ticks n) s Q.
Proof.
  intros Hok HQ. apply (wp_for_range (fun k s1 => exists h D' l', s1 = on_dev h (on_lw l' (on_tab ((fun e => Nat.iter (Z.to_nat k) aged e) <$> tab_of s) s)) /\
    arp_ok others refs D' s1 /\ keeps (refs ++ qs (tab_of s1)) D (lw_of s) D' l')).
  - exists (dev s), D, (lw_of s). assert (on_dev (dev s) (on_lw (lw_of s) (on_tab ((fun e => Nat.iter (Z.to_nat 0) aged e) <$> tab_of s) s)) = s) as ->.
    { unfold on_dev, on_lw, on_tab, put_table, lw_of, tab_of. destruct s as [d w []]. cbn. by rewrite list_fmap_id. }
    split; [done|]. split; [done|]. apply keeps_refl.
  - intros k s1 Hk (h & D1 & l1 & Es & Hok1 & Hk1). apply (wp_etharp_tmr custom_free_function others refs D1); [done|]. intros h2 D2 l2 s2 Hok2 Hk2 _.
    exists h2, D2, l2. assert (aged <$> tab_of s1 = (fun e => Nat.iter (Z.to_nat (k + 1)) aged e) <$> tab_of s) as Et.
    { rewrite Es. change (tab_of _) with ((fun e => Nat.iter (Z.to_nat k) aged e) <$> tab_of s) at 1. rewrite <- list_fmap_compose.
      replace (Z.to_nat (k + 1)) with (S (Z.to_nat k)) by lia. by apply list_fmap_ext. }
    split; [unfold s2; rewrite Et, Es; done|]. split; [done|]. unfold s2. change (tab_of (on_dev _ _)) with (aged <$> tab_of s1).
    eapply keeps_trans; [|change (lw_of s1) with (lw_of s1) in Hk2; rewrite Es in Hk2; rewrite <- Es in Hk2; exact Hk2].
    assert (lw_of s1 = l1) as -> by by rewrite Es. apply (keeps_mono _ _ _ _ _ _ Hk1). rewrite Et, Es. intros q [?|Hi]%elem_of_app Hq0; apply elem_of_app; [by left|right].
    change (tab_of (on_dev _ _)) with ((fun e => Nat.iter (Z.to_nat k) aged e) <$> tab_of s). apply qs_aged; [|done].
    by replace (S (Z.to_nat k)) with (Z.to_nat (k + 1)) by lia.
  - intros s1 (h & D' & l' & -> & Hok' & Hk'). replace (Z.to_nat (0 + Z.of_nat n)) with n in * by lia. by apply (HQ h D' l').
Qed.

(** * Sending a packet *)

Lemma links_grown D p b n x : D !! p = Some b -> x ∈ links_of (<[p := grown n b]> D) <-> x ∈ links_of D.
Proof. intros H. by rewrite (links_update D p b (grown n b) H), (links_delete D p b H). Qed.

(** ethernet_output of a packet that the program has. *)
Lemma wp_send others refs D nif p b c src dst s (Q : Z -> mach etharp -> Prop) :
  counted others refs D (lw_of s) -> chain D p ((p, b) :: c) -> p ∉ links_of D -> is_hwaddr src -> is_hwaddr dst ->
  (has_room 14 p b = false -> Q ERR_BUF s) ->
  (forall D' l', has_room 14 p b = true -> counted others refs D' l' -> (forall held, keeps (filter (fun q => q <> p) held) D (lw_of s) D' l') ->
     (forall x, x ∈ links_of D' <-> x ∈ links_of D) -> D' !! p = Some (grown 14 b) ->
     let r := linkoutput nif (eth_frame dst src ETHTYPE_IP (contents (lw_of s) ((p, b) :: c))) (dev s) in Q (fst r) (on_dev (snd r) (on_lw l' s))) ->
  wp (ethernet_output nif p src dst ETHTYPE_IP) s Q.
Proof.
  intros Hm Hch Hpl Hs Hd H0 H1. destruct (chain_lookup _ _ _ p b Hch ltac:(by left)) as [_ Hpb].
  apply (wp_ethernet_output custom_free_function others refs D p b c); try done. destruct (has_room 14 p b); [|by apply H0].
  intros l' Hm' Hk. apply (H1 (<[p := grown 14 b]> D) l'); try done; [intros x; by apply links_grown|apply lookup_insert_eq].
Qed.

(** * Learning *)

Definition learned (nif : Z) (mac : list Z) e : etharp_entry :=
  put_ctime 0 (put_ethaddr mac (put_netif nif (put_state ETHARP_STATE_STABLE (put_q 0 e)))).

Lemma learned_ok nets nif mac e : entry_ok nets e -> is_Some (nets !! nif) -> is_hwaddr mac -> entry_ok nets (learned nif mac e).
Proof. intros [] Hn Hm. by split. Qed.

(** The addresses that are never learned. *)
Definition no_host (a : Z) (n : netif4) : bool := ip4_addr_isany a || ip4_addr_isbroadcast_u32 a n || ip4_addr_ismulticast a.

(** Which entry an address is learned in: the one it has, or a new one. *)
Definition not_known (a nif : Z) (t : list etharp_entry) : Prop := forall e, e ∈ t -> matches (Some a) nif e = false.

(** What becomes of the packet [q]: a frame, if there is room for its header. *)
Definition delivered (nif : Z) (dst src : list Z) D l q (r : Z) (h h' : hw) : Prop :=
  exists b c, chain D q ((q, b) :: c) /\
    if has_room 14 q b then let x := linkoutput nif (eth_frame dst src ETHTYPE_IP (contents l ((q, b) :: c))) h in r = fst x /\ h' = snd x
    else r = ERR_BUF /\ h' = h.

Lemma matches_key a nif e : nif <> 0 -> matches (Some a) nif e = true <-> in_use e = true /\ ae_ipaddr e = a /\ ae_netif e = nif.
Proof.
  intros H0. unfold matches, in_use. destruct (Z.eqb_spec nif 0); [done|]. cbn [orb].
  destruct (ae_state e); [split; [done|by intros [? _]]|..];
    destruct (Z.eqb_spec a (ae_ipaddr e)), (Z.eqb_spec nif (ae_netif e)); cbn; (split; [done || (intros _; split; [done|]; split; congruence)|intros (_ & ? & ?); (done || congruence)]).
Qed.
(** The part of etharp_update_arp_entry behind the search. *)
Definition learn (nif : Z) (n : netif4) (ethaddr : list Z) (i : Z) : M (mach etharp) Z :=
  set_entry i (put_state ETHARP_STATE_STABLE) ;;
  set_entry i (put_netif nif) ;;
  set_entry i (put_ethaddr ethaddr) ;;
  set_entry i (put_ctime 0) ;;
  e <- entry_at i ;;
  (if negb (ae_q e =? 0) then
     let p := ae_q e in
     set_entry i (put_q 0) ;;
     ethernet_output nif p (n4_hwaddr n) ethaddr ETHTYPE_IP ;;
     free_pbuf custom_free_function p
   else ret tt) ;;
  ret ERR_OK.

Lemma wp_learn others refs D nif n mac i e s (Q : Z -> mach etharp -> Prop) :
  arp_ok others refs D s -> arp_netifs (glb s) !! nif = Some n -> is_hwaddr mac -> aget (tab_of s) i = Some e ->
  tab_ok (arp_netifs (glb s)) (aset (tab_of s) i (learned nif mac e)) ->
  (forall h D' l', let s' := on_dev h (on_lw l' (on_tab (aset (tab_of s) i (learned nif mac e)) s)) in
     arp_ok others refs D' s' -> keeps (filter (fun q => q <> ae_q e) (refs ++ qs (tab_of s'))) D (lw_of s) D' l' ->
     (if ae_q e =? 0 then h = dev s else exists r, delivered nif mac (n4_hwaddr n) D (lw_of s) (ae_q e) r (dev s) h) -> Q ERR_OK s') ->
  wp (learn nif n mac i) s Q.
Proof.
  intros [Hm Hu Ht Hc Hn] Hnif Hmac Hi Ht' HQ. pose proof (aget_Some _ _ _ Hi) as Hrange. destruct (Hn nif n Hnif) as [_ Hhw]. unfold learn.
  apply wp_step, (wp_set_entry i e); [done|]. apply wp_step, (wp_set_more i e); [done|]. apply wp_step, (wp_set_more i e); [done|]. apply wp_step, (wp_set_more i e); [done|].
  set (e4 := put_ctime 0 _). apply wp_step, (wp_entry_at i e4); [by apply aget_aset_eq|]. change (ae_q e4) with (ae_q e).
  set (t' := aset (tab_of s) i (learned nif mac e)) in *.
  pose proof (counted_leave _ _ _ _ _ i e (learned nif mac e) Hm Hi eq_refl) as Hm1. fold t' in Hm1.
  assert (forall h D' l', counted others (refs ++ qs t') D' l' -> (forall q, q ∈ qs t' -> q <> 0 -> q ∉ links_of D -> q ∉ links_of D') ->
    arp_ok others refs D' (on_dev h (on_lw l' (on_tab t' s)))) as Hok.
  { intros h D' l' Hm' Hl. split; try done. intros q Hq Hq0. change (tab_of _) with t' in Hq. apply Hl; [done|done|]. apply Hu; [|done]. by apply (qs_leave _ i e (learned nif mac e)). }
  destruct (Z.eqb_spec (ae_q e) 0) as [E|E]; cbn [negb].
  { apply wp_step, wp_ret, wp_ret. specialize (HQ (dev s) D (lw_of s)). cbn zeta in HQ.
    assert (e4 = learned nif mac e) as -> by (unfold learned, e4, put_ctime, put_ethaddr, put_netif, put_state, put_q; by rewrite E).
    rewrite E, counted_null in Hm1. rewrite on_tab_same, (on_dev_id (dev s) (on_tab _ s)) in HQ by done. apply HQ; [|apply keeps_refl|done].
    specialize (Hok (dev s) D (lw_of s) Hm1 ltac:(done)). by rewrite on_tab_same, (on_dev_id (dev s) (on_tab _ s)) in Hok by done. }
  apply wp_step, wp_step, (wp_set_more i e); [done|]. change (put_q 0 e4) with (learned nif mac e). fold t'.
  destruct (ref_chain _ _ _ _ (ae_q e) Hm1 ltac:(by left) E) as (b & c & _ & _ & Hch).
  assert (ae_q e ∉ links_of D) as Hql by (apply Hu; [|done]; apply elem_qs; by exists i, e).
  apply wp_step, (wp_send others (ae_q e :: refs ++ qs t') D nif (ae_q e) b c); try done.
  - intros Hroom. apply (wp_free_pbuf custom_free_function others (refs ++ qs t') D (ae_q e)); [exact Hm1|]. intros D' l' Hm' Hf Hd Hk. apply wp_ret.
    specialize (HQ (dev s) D' l'). cbn zeta in HQ. rewrite (on_dev_id (dev s) (on_lw l' _)) in HQ by done. apply HQ.
    + specialize (Hok (dev s) D' l' Hm'). rewrite (on_dev_id (dev s) (on_lw l' _)) in Hok by done. apply Hok. intros q Hq Hq0 Hql2 Hi2. by apply Hql2, (fewer_links D' D).
    + apply (keeps_sub _ _ _ _ _ _ Hk). intros q Hq. by apply list_elem_of_filter in Hq as [_ ?].
    + exists ERR_BUF, b, c. by rewrite Hroom.
  - intros D1 l1 Hroom Hct1 Hk1 Hlinks Hp1. set (r := linkoutput _ _ _). apply (wp_free_pbuf custom_free_function others (refs ++ qs t') D1 (ae_q e)); [exact Hct1|].
    intros D' l' Hm' Hf Hd Hk. apply wp_ret. apply (HQ (snd r) D' l').
    + apply Hok; [done|]. intros q Hq Hq0 Hql2 Hi2. by apply Hql2, Hlinks, (fewer_links D' D1).
    + eapply keeps_trans; [apply (Hk1 (refs ++ qs t'))|]. apply (keeps_sub _ _ _ _ _ _ Hk). intros q Hq. by apply list_elem_of_filter in Hq as [_ ?].
    + exists (fst r), b, c. by rewrite Hroom.
Qed.

(** etharp_update_arp_entry. *)
Lemma wp_update others refs D nif n a mac flags s (Q : Z -> mach etharp -> Prop) :
  arp_ok others refs D s -> arp_netifs (glb s) !! nif = Some n -> is_hwaddr mac ->
  (no_host a n = true -> Q ERR_ARG s) ->
  (no_host a n = false -> not_known a nif (tab_of s) ->
   (any_bit flags ETHARP_FLAG_FIND_ONLY = true \/ any_bit flags ETHARP_FLAG_TRY_HARD = false /\ forall e, e ∈ tab_of s -> in_use e = true) -> Q ERR_MEM s) ->
  (forall c e D' l', let i := victim c in let s' := on_lw l' (on_tab (aset (tab_of s) i (learned nif mac (recycled a nif e))) s) in
     no_host a n = false -> not_known a nif (tab_of s) -> any_bit flags ETHARP_FLAG_FIND_ONLY = false ->
     found (tab_of s) ARP_TABLE_SIZE c -> aget (tab_of s) i = Some e -> arp_ok others refs D' s' -> keeps (refs ++ qs (tab_of s')) D (lw_of s) D' l' -> Q ERR_OK s') ->
  (forall i e h D' l', let s' := on_dev h (on_lw l' (on_tab (aset (tab_of s) i (learned nif mac e)) s)) in
     no_host a n = false -> aget (tab_of s) i = Some e -> matches (Some a) nif e = true ->
     arp_ok others refs D' s' -> keeps (filter (fun q => q <> ae_q e) (refs ++ qs (tab_of s'))) D (lw_of s) D' l' ->
     (if ae_q e =? 0 then h = dev s else exists r, delivered nif mac (n4_hwaddr n) D (lw_of s) (ae_q e) r (dev s) h) -> Q ERR_OK s') ->
  wp (etharp_update_arp_entry custom_free_function nif a mac flags) s Q.
Proof.
  intros Hok Hnif Hmac H0 Hnone Hnew Hknown. pose proof (ao_tab _ _ _ _ Hok) as Ht. destruct (ao_netifs _ _ _ _ Hok nif n Hnif) as [Hnif0 _].
  unfold etharp_update_arp_entry. apply wp_step, (wp_netif_at nif n); [done|]. fold (no_host a n). destruct (no_host a n); [by apply wp_ret, H0|].
  apply wp_step, (wp_find_entry custom_free_function others refs D); [done|..].
  - intros i e Hi Hma. destruct (Z.ltb_spec i 0); [apply aget_Some in Hi; lia|]. apply (wp_learn others refs D nif n mac i e); [done|done|done|done| |].
    + apply (matches_key a nif e Hnif0) in Hma as (Hu & _ & E). apply (tab_ok_change _ _ i e); [done|done| |done|by split].
      apply learned_ok; [by apply (to_entry _ _ Ht i)|by exists n|done].
    + intros h D' l' s'. by apply (Hknown i e h D' l').
  - intros Hno Hwhy. by apply wp_ret, Hnone.
  - intros c e D1 l1 i s1 Hno Hfo Hf Hi Hwhy Hok1 Hk1. pose proof (aget_Some _ _ _ Hi) as Hrange. destruct (Z.ltb_spec i 0); [lia|].
    assert (aget (tab_of s1) i = Some (recycled a nif e)) as Hi1 by by apply aget_aset_eq.
    apply (wp_learn others refs D1 nif n mac i (recycled a nif e)); [done|done|done|done| |].
    + change (tab_of s1) with (aset (tab_of s) i (recycled a nif e)). rewrite aset_aset. apply (tab_ok_set _ _ i e); [done|done| |].
      * apply learned_ok; [by apply recycled_ok, (to_entry _ _ Ht i)|by exists n|done].
      * intros _ j e2 Hj Hj2 Hu2 [E1 E2]. specialize (Hno e2 (aget_elem _ _ _ Hj2)).
        rewrite (proj2 (matches_key a nif e2 Hnif0)) in Hno; done.
    + intros h D' l' s2 Hok2 Hk2 Hh. change (h = dev s) in Hh. subst h. specialize (Hnew c e D' l'). cbn zeta in Hnew.
      assert (s2 = on_lw l' (on_tab (aset (tab_of s) i (learned nif mac (recycled a nif e))) s)) as Es.
      { unfold s2. rewrite (on_dev_id (dev s) (on_lw l' _)) by done. change (tab_of s1) with (aset (tab_of s) i (recycled a nif e)). by rewrite aset_aset. }
      rewrite Es in *. apply Hnew; try done. eapply keeps_trans.
      * apply (keeps_mono _ _ _ _ _ _ Hk1). intros q [?|Hq]%elem_of_app Hq0; apply elem_of_app; [by left|right].
        change (tab_of _) with (aset (tab_of s) i (learned nif mac (recycled a nif e))) in Hq. rewrite <- (aset_aset _ i (recycled a nif e)) in Hq.
        by apply (qs_leave _ i (recycled a nif e) (learned nif mac (recycled a nif e)) q Hi1 eq_refl Hq Hq0).
      * apply (keeps_mono _ _ _ _ _ _ Hk2). intros q Hq Hq0. by apply list_elem_of_filter.
Qed.
End learn.
