(* ===== verification/EtharpFlow.v ===== *)
(** The ARP cache: what becomes of packets that are sent to an address of IP. *)
From S2P Require Import Prelude Machine LwMem LwHeap Pbuf PbufCopy PbufChain PbufAlloc PbufData PbufClone PbufCoalesce PbufShape PbufRefs PbufKeep Etharp EtharpSpec EtharpTable EtharpLearn.
From stdpp Require Import list gmap.

#[local] Open Scope Z_scope.
#[local] Open Scope fw_scope.

Section flow.
Context {B : Bus} {P : Pools} {L : LwLayout} {O : LwRoom} {K : EthLink B} (custom_free_function : Z -> lw unit).
Implicit Types (s : mach etharp) (e : etharp_entry) (D : world).

(** * Keeping a packet *)

(** Data of the buffers is not kept by the program: they are of PBUF_REF. *)
Definition volatile (c : list (Z * pbuf)) : bool := existsb (fun x => any_bit (pb_type (snd x)) PBUF_TYPE_FLAG_DATA_VOLATILE) c.

Lemma wp_needs_copy l c : forall fuel p (Q : bool -> lwip -> Prop), pseg (lw_cells l) p c 0 -> (length c < fuel)%nat ->
  Q (volatile c) l -> wp (needs_copy fuel p) l Q.
Proof.
  induction c as [|[a b] c IH]; intros fuel p Q Hc Hf HQ; (destruct fuel as [|fuel]; [cbn in Hf; lia|]); cbn [needs_copy].
  - cbn in Hc. subst p. change (0 =? 0) with true. by apply wp_ret.
  - destruct Hc as (-> & Ha0 & Ha & Hc). destruct (Z.eqb_spec a 0); [done|]. apply wp_step, (wp_pbuf_at _ b); [done|].
    cbn [volatile existsb snd] in HQ. destruct (any_bit (pb_type b) PBUF_TYPE_FLAG_DATA_VOLATILE); [by apply wp_ret|]. apply IH; [done|cbn in Hf; lia|done].
Qed.

(** [p] has the bytes of [q], and room for a header if [q] has. *)
Definition holds D l q D' l' p : Prop :=
  exists b c b' c', chain D q ((q, b) :: c) /\ chain D' p ((p, b') :: c') /\ contents l' ((p, b') :: c') = contents l ((q, b) :: c) /\
    (has_room 14 q b = true -> has_room 14 p b' = true).

(** [q] must be copied, and there is no memory for the copy. *)
Definition copy_fails s (q : Z) : Prop :=
  exists b c, pseg (lw_cells (lw_of s)) q ((q, b) :: c) 0 /\ volatile ((q, b) :: c) = true /\ no_memory PBUF_LINK (sum_len ((q, b) :: c)) (lw_of s).

(** The packet that the table takes: another reference, or a copy. *)
Definition taken (q : Z) : M (mach etharp) Z :=
  copy_needed <- in_lw (needs_copy PBUF_FUEL q) ;;
  if copy_needed : bool then in_lw (pbuf_clone custom_free_function PBUF_FUEL PBUF_LINK PBUF_RAM q)
  else in_lw (pbuf_ref q) ;; ret q.

Lemma wp_take_ref others rs D q b s (Q : Z -> mach etharp -> Prop) :
  counted others rs D (lw_of s) -> q ∈ rs -> q ∉ links_of D -> D !! q = Some b -> pb_ref b < 255 ->
  (copy_fails s q -> Q 0 s) ->
  (forall p D' l', p <> 0 -> counted others (p :: rs) D' l' -> keeps (p :: rs) D (lw_of s) D' l' -> p ∉ links_of D' -> holds D (lw_of s) q D' l' p -> Q p (on_lw l' s)) ->
  wp (taken q) s Q.
Proof.
  intros Hm Hq Hql Hqb Hr H0 HQ. pose proof Hm as (fp & fr & h & H).
  assert (q <> 0) as Hq0 by (apply (sound_nonzero (lw_of s) h q b); [apply H|by apply (ct_sound (ct_core H))]).
  destruct (ref_chain _ _ _ _ q Hm Hq Hq0) as (b0 & c & Eb & _ & Hch). assert (b0 = b) as -> by congruence.
  destruct (counted_owned _ _ _ _ _ _ Hm Hch) as (_ & Hps & Hf). unfold taken. apply wp_step, wp_mem, (wp_needs_copy _ ((q, b) :: c)); [done|done|].
  rewrite on_lw_same. destruct (volatile ((q, b) :: c)) eqn:Hv.
  - apply wp_mem, (wp_clone_counted custom_free_function others rs D PBUF_LINK ((q, b) :: c)); [done|done|done|unfold PBUF_LINK; lia|intros Hno; rewrite on_lw_same; apply H0; by exists b, c|].
    intros p cap b' l' Hp0 Hrb HDp Hm' Hcont Hs. destruct Hrb as [Rn Rl Rt Rty Rf Rr Rlo Rhi]. apply (HQ p (<[p := b']> D) l'); [done|done| | |].
    + by apply (new_keeps others rs).
    + intros Hi. rewrite (links_new D p b' HDp), Rn in Hi. apply elem_of_cons in Hi as [?|Hi]; [done|].
      destruct (ct_live (ct_core H) p) as [d Hd]; [unfold holders; apply elem_of_app; by right|done|]. congruence.
    + exists b, c, b', []. split; [done|]. split; [split; [done|]; split; [done|]; split; [by rewrite lookup_fmap, lookup_insert_eq|done]|]. split; [done|].
      unfold has_room. rewrite !andb_true_iff. intros [_ Hlt]. apply Z.ltb_lt in Hlt.
      destruct (count_packet _ _ _ _ _ _ _ H _ _ Hch) as [Hpk _]. destruct Hpk as (? & ? & ? & _). rewrite Rty, Rt. unfold PBUF_LINK in *. change SIZEOF_STRUCT_PBUF with 16.
      split; [split; [done|]|]; [apply Z.leb_le; lia|]. apply Z.ltb_lt; cbn [sum_len]; lia.
  - apply wp_step, wp_mem, (wp_ref_counted others rs D q b); [done|done|done|done|]. intros l' Hm' Hd. apply wp_ret.
    set (b' := put_ref (pb_ref b + 1) b) in *. assert (fewer (<[q := b']> D) D) as Hfew by by apply fewer_recount.
    assert (q ∉ links_of (<[q := b']> D)) as Hql' by (intros Hi; by apply Hql, (fewer_links (<[q := b']> D) D)).
    pose proof (fewer_keeps others (q :: rs) D (lw_of s) (<[q := b']> D) l' Hm' Hfew Hd) as Hk.
    apply (HQ q (<[q := b']> D) l'); [done|done|exact Hk|done|].
    pose proof (chain_update D q _ q b b' Hch Hqb eq_refl) as Hch'. pose proof (chain_nodup _ _ _ Hch) as [Hqc _]%NoDup_cons.
    unfold with_buf in Hch'. rewrite fmap_cons in Hch'. cbn [fst] in Hch'. rewrite decide_True in Hch' by done. fold (with_buf q b' c) in Hch'. rewrite with_buf_out in Hch' by done.
    exists b, c, b', c. split; [done|]. split; [done|]. split; [|done]. unfold contents. rewrite Hd. done.
Qed.
Lemma alike_room n a b b' : uncounted b = uncounted b' -> has_room n a b = has_room n a b'.
Proof. intros E. destruct b, b'. cbn in E. injection E as -> -> -> -> -> -> ->. done. Qed.

Lemma holds_keeps held D l q D' l' p D2 l2 : holds D l q D' l' p -> keeps held D' l' D2 l2 -> p ∈ held -> p <> 0 -> holds D l q D2 l2 p.
Proof.
  intros (b & c & b' & c' & H1 & H2 & H3 & H4) Hk Hp Hp0. destruct (Hk p _ Hp Hp0 H2) as [(c2 & Hc2 & Hal & E) _].
  inversion Hal as [|? [x b2] ? c3 [E1 E2] Hal']; subst. cbn in E1. subst x. exists b, c, b2, c3. split; [done|]. split; [done|]. split; [congruence|].
  intros Hr. rewrite <- (alike_room 14 p b' b2); [by apply H4|done].
Qed.

Lemma holds_from held D l q D' l' p D0 l0 b0 c0 : chain D0 q ((q, b0) :: c0) -> q <> 0 -> keeps held D0 l0 D l -> q ∈ held -> holds D l q D' l' p -> holds D0 l0 q D' l' p.
Proof.
  intros Hch Hq0 Hk Hq (b & c & b' & c' & H1 & H2 & H3 & H4). destruct (Hk q _ Hq Hq0 Hch) as [(c2 & Hc2 & Hal & E) _].
  rewrite (chain_det _ _ _ _ Hc2 H1) in Hal, E. inversion Hal as [|? ? ? ? [_ E2] Hal']; subst. exists b0, c0, b', c'. split; [done|]. split; [done|].
  split; [congruence|]. intros Hr. apply H4. by rewrite <- (alike_room 14 q b0 b).
Qed.

(** The table takes the packet for entry [i], in place of the one that waits there. *)
Definition hold (q i : Z) : M (mach etharp) Z :=
  p <- taken q ;;
  if negb (p =? 0) then
    e <- entry_at i ;;
    (if negb (ae_q e =? 0) then free_pbuf custom_free_function (ae_q e) else ret tt) ;;
    set_entry i (put_q p) ;;
    ret ERR_OK
  else ret ERR_MEM.

Lemma wp_hold others refs D q b i e s (Q : Z -> mach etharp -> Prop) :
  arp_ok others refs D s -> q ∈ refs -> q ∉ links_of D -> D !! q = Some b -> pb_ref b < 255 -> aget (tab_of s) i = Some e -> pending e = true ->
  (copy_fails s q -> Q ERR_MEM s) ->
  (forall p D' l', let s' := on_lw l' (on_tab (aset (tab_of s) i (put_q p e)) s) in
     arp_ok others refs D' s' -> keeps (refs ++ qs (tab_of s')) D (lw_of s) D' l' -> p <> 0 -> holds D (lw_of s) q D' l' p -> Q ERR_OK s') ->
  wp (hold q i) s Q.
Proof.
  intros [Hm Hu Ht Hc Hn] Hq Hql Hqb Hr Hi Hpe H0 HQ. pose proof (aget_Some _ _ _ Hi) as Hrange. unfold hold.
  apply wp_step, (wp_take_ref others (refs ++ qs (tab_of s)) D q b); [done|apply elem_of_app; by left|done|done|done|intros Hno; by apply wp_ret, H0|].
  intros p D1 l1 Hp0 Hm1 Hk1 Hpl Hh1. destruct (Z.eqb_spec p 0); [done|]. cbn [negb].
  set (t' := aset (tab_of s) i (put_q p e)).
  assert (forall D' l', counted others (refs ++ qs t') D' l' -> keeps (p :: refs ++ qs (aset (tab_of s) i (put_q 0 e))) D1 l1 D' l' ->
    Q ERR_OK (on_lw l' (on_tab t' s))) as Hend.
  { intros D' l' Hm' Hk'. assert (forall q', q' ∈ qs t' -> q' <> 0 -> q' = p \/ q' ∈ qs (tab_of s) /\ q' ∈ qs (aset (tab_of s) i (put_q 0 e))) as Hqs.
    { intros q' (j & x & Hj & <-)%elem_qs Hx0. apply (aget_aset _ _ _ _ _ _ Hi) in Hj as [[-> ->]|[Hne Hj]]; [by left|right].
      split; apply elem_qs; exists j, x; split; try done. by rewrite aget_aset_ne. }
    apply (HQ p D' l').
    - split; [done| | |done|done].
      + change (tab_of _) with t'. intros q' Hq' Hq0. destruct (Hqs q' Hq' Hq0) as [->|[Hq1 Hq2]].
        * destruct Hh1 as (b1 & c1 & b2 & c2 & _ & Hch & _). apply (Hk' p _ ltac:(by left) Hp0 Hch). done.
        * destruct (ref_chain _ _ _ _ q' Hm ltac:(apply elem_of_app; by right) Hq0) as (bb & c & _ & _ & Hch).
          destruct (Hk1 q' _ ltac:(right; apply elem_of_app; by right) Hq0 Hch) as [(c' & Hch' & _) Hl1].
          apply (Hk' q' c' ltac:(right; apply elem_of_app; by right) Hq0 Hch'). by apply Hl1, Hu.
      + pose proof (to_entry _ _ Ht i e Hi) as He. apply (tab_ok_change _ _ i e); [done|done| |unfold in_use, pending in *; by destruct (ae_state e)|done].
        destruct He as [E1 E2 E3 E4 E5 E6]. unfold pending in Hpe. split; cbn; try done; intros E; destruct (ae_state e); done.
    - change (tab_of _) with t'. intros x cx Hx Hx0 Hch. assert (x = p \/ x ∈ refs ++ qs (tab_of s) /\ x ∈ refs ++ qs (aset (tab_of s) i (put_q 0 e))) as Hx'.
      { apply elem_of_app in Hx as [Hx|Hx]; [right; split; apply elem_of_app; by left|]. destruct (Hqs x Hx Hx0) as [->|[? ?]]; [by left|right; split; apply elem_of_app; by right]. }
      assert (x ∈ p :: refs ++ qs (tab_of s) /\ x ∈ p :: refs ++ qs (aset (tab_of s) i (put_q 0 e))) as [Hx1 Hx2].
      { destruct Hx' as [->|[? ?]]; split; first [by left|by right]. }
      assert (keeps [x] D (lw_of s) D' l') as Hkx.
      { eapply keeps_trans; [eapply keeps_sub; [exact Hk1|]|eapply keeps_sub; [exact Hk'|]]; by intros y ->%list_elem_of_singleton. }
      apply (Hkx x cx); [by left|done|done].
    - done.
    - apply (holds_keeps _ _ _ _ _ _ _ _ _ Hh1 Hk'); [by left|done]. }
  apply wp_step, (wp_entry_at i e); [done|].
  destruct (Z.eqb_spec (ae_q e) 0) as [E|E]; cbn [negb].
  - apply wp_step, wp_ret, wp_step, (wp_set_entry i e); [done|]. apply wp_ret. rewrite on_tab_lw. apply (Hend D1 l1); [|apply keeps_refl].
    by apply (counted_enter others refs D1 l1 (tab_of s) i e (put_q p e)).
  - rewrite app_comm_cons in Hm1. pose proof (counted_leave _ _ _ _ _ i e (put_q 0 e) Hm1 Hi eq_refl) as Hm2.
    apply wp_step, (wp_free_pbuf custom_free_function others ((p :: refs) ++ qs (aset (tab_of s) i (put_q 0 e))) D1 (ae_q e)); [exact Hm2|].
    intros D' l' Hm' Hf Hd Hk'. apply wp_step, (wp_set_entry i e); [done|]. apply wp_ret. rewrite on_tab_lw. apply (Hend D' l'); [|exact Hk'].
    unfold t'. rewrite <- (aset_aset _ i (put_q 0 e)). apply (counted_enter others refs D' l' _ i (put_q 0 e) (put_q p e)); [exact Hm'| |done].
    by apply aget_aset_eq.
Qed.
Lemma hold_assoc q i s (Q : Z -> mach etharp -> Prop) : wp (hold q i) s Q ->
  wp (copy_needed <- in_lw (needs_copy PBUF_FUEL q) ;;
      p <- (if copy_needed : bool then in_lw (pbuf_clone custom_free_function PBUF_FUEL PBUF_LINK PBUF_RAM q)
            else in_lw (pbuf_ref q) ;; ret q) ;;
      if negb (p =? 0) then
        e <- entry_at i ;;
        (if negb (ae_q e =? 0) then free_pbuf custom_free_function (ae_q e) else ret tt) ;;
        set_entry i (put_q p) ;;
        ret ERR_OK
      else ret ERR_MEM) s Q.
Proof. unfold hold, taken. by rewrite wp_assoc. Qed.

Lemma aset_id {A} (l : list A) i x : aget l i = Some x -> aset l i x = l.
Proof. unfold aget, aset. destruct (i <? 0); [done|]. apply list_insert_id. Qed.

(** * etharp_query *)

(** After the operation: the invariant, and every packet that is held but [ex] is what it was. *)
Definition kept_ok (others refs : list Z) D s (ex : Z) s' : Prop := exists D',
  arp_ok others refs D' s' /\ keeps (filter (fun q => q <> ex) (refs ++ qs (tab_of s'))) D (lw_of s) D' (lw_of s') /\ arp_netifs (glb s') = arp_netifs (glb s).

Definition asking (nif : Z) e : etharp_entry := put_netif nif (put_state ETHARP_STATE_PENDING e).

(** The entry in which a packet for [a] waits: one for [a] that is pending, or a new one. *)
Definition awaited (a nif : Z) s (i : Z) e : Prop :=
  aget (tab_of s) i = Some e /\ matches (Some a) nif e = true /\ pending e = true \/
  not_known a nif (tab_of s) /\ exists c e0, found (tab_of s) ARP_TABLE_SIZE c /\ i = victim c /\ aget (tab_of s) i = Some e0 /\ e = asking nif (recycled a nif e0).

(** A request is sent exactly when the entry is new, unless there is no memory for it once the
    entry is made. *)
Definition asked (a nif : Z) (n : netif4) s (h : hw) : Prop :=
  ~ not_known a nif (tab_of s) /\ h = dev s \/
  not_known a nif (tab_of s) /\
    (h = snd (linkoutput nif (request_frame n a ethbroadcast) (dev s)) \/
     h = dev s /\ exists i t, etharp_find_entry custom_free_function (Some a) ETHARP_FLAG_TRY_HARD nif s = Ret i t /\ starved (lw_of t)).

Inductive queried (others refs : list Z) D (nif : Z) (n : netif4) (a q : Z) s : Z -> mach etharp -> Prop :=
| queried_refused : no_host a n = true -> queried others refs D nif n a q s ERR_ARG s
| queried_sent i e r s' : no_host a n = false -> aget (tab_of s) i = Some e -> matches (Some a) nif e = true -> is_stable (ae_state e) = true ->
    tab_of s' = tab_of s -> delivered nif (ae_ethaddr e) (n4_hwaddr n) D (lw_of s) q r (dev s) (dev s') -> kept_ok others refs D s q s' ->
    queried others refs D nif n a q s r s'
| queried_queued i e p D' s' : no_host a n = false -> awaited a nif s i e -> asked a nif n s (dev s') -> tab_of s' = aset (tab_of s) i (put_q p e) ->
    p <> 0 -> holds D (lw_of s) q D' (lw_of s') p -> arp_ok others refs D' s' -> keeps (refs ++ qs (aset (tab_of s) i (put_q 0 e))) D (lw_of s) D' (lw_of s') ->
    arp_netifs (glb s') = arp_netifs (glb s) -> queried others refs D nif n a q s ERR_OK s'
| queried_dropped i e s' : no_host a n = false -> awaited a nif s i e -> asked a nif n s (dev s') -> tab_of s' = aset (tab_of s) i e ->
    copy_fails s' q -> kept_ok others refs D s 0 s' -> queried others refs D nif n a q s ERR_MEM s'.

Lemma arp_ok_set others refs D s i e e' : arp_ok others refs D s -> aget (tab_of s) i = Some e -> ae_q e' = ae_q e ->
  tab_ok (arp_netifs (glb s)) (aset (tab_of s) i e') -> arp_ok others refs D (on_tab (aset (tab_of s) i e') s).
Proof.
  intros [Hm Hu Ht Hc Hn] Hi Hq Ht'. pose proof (qs_aset_same _ i e e' Hi Hq) as Eq.
  split; [| |done|done|done].
  - change (tab_of (on_tab _ s)) with (aset (tab_of s) i e'). by rewrite Eq.
  - change (tab_of (on_tab _ s)) with (aset (tab_of s) i e'). by rewrite Eq.
Qed.

Lemma arp_ok_cached others refs D i s : arp_ok others refs D s -> 0 <= i < ARP_TABLE_SIZE ->
  arp_ok others refs D (Mach (dev s) (wlog s) (put_cached i (glb s))).
Proof. intros [] Hi. by split. Qed.

(** A fresh entry for an address that no entry is for. *)
Lemma tab_ok_fresh nets t i e e' a nif : tab_ok nets t -> aget t i = Some e -> entry_ok nets e' -> not_known a nif t -> nif <> 0 ->
  ae_ipaddr e' = a -> ae_netif e' = nif -> tab_ok nets (aset t i e').
Proof.
  intros Ht Hi He' Hno H0 <- <-. apply (tab_ok_set _ _ i e); [done|done|done|]. intros _ j e2 Hj Hj2 Hu2 [E1 E2]. specialize (Hno e2 (aget_elem _ _ _ Hj2)).
  rewrite (proj2 (matches_key (ae_ipaddr e') (ae_netif e') e2 H0)) in Hno; done.
Qed.

Lemma keeps_filter held x D l D' l' : keeps held D l D' l' -> keeps (filter (fun q => q <> x) held) D l D' l'.
Proof. intros H. apply (keeps_sub _ _ _ _ _ _ H). intros q Hq. by apply list_elem_of_filter in Hq as [_ ?]. Qed.

(** What must hold of a packet that is given to the layer: nothing is chained in front of it, and
    there are less than 255 references to it. *)
Definition sendable (refs : list Z) (t : list etharp_entry) D (q : Z) : Prop :=
  q ∈ refs /\ q <> 0 /\ q ∉ links_of D /\ occ q (refs ++ qs t) < 255.

Lemma sendable_chain others refs D t q l : counted others (refs ++ qs t) D l -> sendable refs t D q -> exists b c, chain D q ((q, b) :: c) /\ D !! q = Some b /\ pb_ref b < 255.
Proof.
  intros Hm (Hq & Hq0 & Hql & Hr). destruct (ref_chain _ _ _ _ q Hm ltac:(apply elem_of_app; by left) Hq0) as (b & c & Hb & _ & Hch).
  exists b, c. split; [done|]. split; [done|]. destruct Hm as (fp & fr & h & H). destruct (ct_count (ct_core H) q b Hb) as [-> _].
  unfold holders. rewrite occ_app. assert (occ q (links_of D) <= 0); [|lia]. destruct (Z.le_gt_cases (occ q (links_of D)) 0); [done|]. destruct Hql. apply occ_pos. lia.
Qed.

Lemma sendable_kept others refs D l t q D' l' t' : counted others (refs ++ qs t) D l -> sendable refs t D q -> keeps (refs ++ qs t') D l D' l' ->
  occ q (qs t') <= occ q (qs t) -> sendable refs t' D' q.
Proof.
  intros Hm Hs Hk Ho. destruct (sendable_chain _ _ _ _ _ _ Hm Hs) as (b & c & Hch & _). destruct Hs as (Hq & Hq0 & Hql & Hr).
  split; [done|]. split; [done|]. split; [|rewrite occ_app in *; lia]. by apply (Hk q _ ltac:(apply elem_of_app; by left) Hq0 Hch).
Qed.

Lemma occ_leave t i e e' q : aget t i = Some e -> ae_q e' = 0 -> q <> 0 -> occ q (qs (aset t i e')) <= occ q (qs t).
Proof.
  intros Hi E Hq0. pose proof (occ_perm q _ _ (qs_aset t i e e' Hi)) as Ho. rewrite !occ_cons, E, decide_False in Ho by done. destruct (decide (ae_q e = q)); lia.
Qed.

(** A frame with a packet that is given to the layer. *)
Lemma wp_send_arp others refs D nif q src dst s (Q : Z -> mach etharp -> Prop) :
  arp_ok others refs D s -> sendable refs (tab_of s) D q -> is_hwaddr src -> is_hwaddr dst ->
  (forall r h D' l', let s' := on_dev h (on_lw l' s) in arp_ok others refs D' s' -> keeps (filter (fun x => x <> q) (refs ++ qs (tab_of s))) D (lw_of s) D' l' ->
     delivered nif dst src D (lw_of s) q r (dev s) h -> Q r s') ->
  wp (ethernet_output nif q src dst ETHTYPE_IP) s Q.
Proof.
  intros Hok Hsend Hs Hd HQ. pose proof Hok as [Hm Hu Ht Hc Hn]. destruct (sendable_chain _ _ _ _ _ _ Hm Hsend) as (b & c & Hch & Hqb & Hr).
  destruct Hsend as (Hq & Hq0 & Hql & _). apply (wp_send custom_free_function others (refs ++ qs (tab_of s)) D nif q b c); try done.
  - intros Hroom. specialize (HQ ERR_BUF (dev s) D (lw_of s)). cbn zeta in HQ. rewrite on_lw_same, on_dev_id in HQ by done. apply HQ; [done|apply keeps_refl|].
    exists b, c. by rewrite Hroom.
  - intros D' l' Hroom Hm' Hk Hl Hp. cbn zeta. apply (HQ _ _ D' l'); [split; try done|apply Hk|exists b, c; by rewrite Hroom].
    intros x Hx Hx0. rewrite Hl. by apply Hu.
Qed.

(** What waits beside entry [i]. *)
Lemma held_put refs t i e p x : is_Some (aget t i) -> x ∈ refs ++ qs (aset t i (put_q 0 e)) -> x <> 0 -> x ∈ refs ++ qs (aset t i (put_q p e)).
Proof.
  intros [e0 Hi] Hx Hx0. apply elem_of_app in Hx as [?|(j & y & Hj & <-)%elem_qs]; apply elem_of_app; [by left|right]. apply (aget_aset _ _ _ _ _ _ Hi) in Hj as [[-> ->]|[Hne Hj]]; [done|].
  apply elem_qs. exists j, y. by rewrite aget_aset_ne.
Qed.

Lemma wp_query others refs D nif n a q s :
  arp_ok others refs D s -> arp_netifs (glb s) !! nif = Some n -> sendable refs (tab_of s) D q ->
  wp (etharp_query custom_free_function nif a q) s (queried others refs D nif n a q s).
Proof.
  intros Hok Hnif Hsend. pose proof Hok as [Hm Hu Ht Hc Hn]. destruct (Hn nif n Hnif) as [Hnif0 Hhw].
  destruct (sendable_chain _ _ _ _ _ _ Hm Hsend) as (b & ch & Hch & Hqb & Hr). pose proof Hsend as (Hq & Hq0 & Hql & _).
  unfold etharp_query. apply wp_step, (wp_netif_at nif n); [done|].
  assert (ip4_addr_isbroadcast_u32 a n || ip4_addr_ismulticast a || ip4_addr_isany a = no_host a n) as ->.
  { unfold no_host. destruct (ip4_addr_isany a), (ip4_addr_isbroadcast_u32 a n), (ip4_addr_ismulticast a); done. }
  destruct (no_host a n) eqn:Hhost; [by apply wp_ret, queried_refused|]. apply wp_step_eq, (wp_find_entry custom_free_function others refs D); [done|..].
  - intros i e Hi Hma _. assert (asked a nif n s (dev s)) as Hquiet.
    { left. split; [|done]. intros Hno. rewrite (Hno e (aget_elem _ _ _ Hi)) in Hma. done. }
    pose proof (aget_Some _ _ _ Hi) as Hrange. destruct (Z.ltb_spec i 0); [lia|]. apply wp_step, (wp_entry_at i e); [done|].
    pose proof (proj1 (matches_key a nif e Hnif0) Hma) as (Huse & _ & _).
    rewrite decide_False by (intros E; unfold in_use in Huse; by rewrite E in Huse). apply wp_step, wp_ret. cbn [orb andb]. destruct (Z.eqb_spec q 0); [done|].
    apply wp_step, wp_ret. cbn [andb]. apply wp_step, (wp_entry_at i e); [done|]. destruct (is_stable (ae_state e)) eqn:Hst.
    + apply wp_step, wp_modify. set (s1 := Mach _ _ _). apply (wp_send_arp others refs D nif q (n4_hwaddr n) (ae_ethaddr e) s1); [|done|done|by apply (eo_addr _ _ (to_entry _ _ Ht i e Hi))|].
      { apply arp_ok_cached; [done|]. rewrite <- (to_size _ _ Ht). lia. }
      intros r h D' l' s' Hok' Hk Hd. by apply (queried_sent _ _ _ _ _ _ _ _ i e); try done; exists D'.
    + rewrite decide_True by (unfold in_use in Huse; by destruct (ae_state e)). 
      apply hold_assoc, (wp_hold others refs D q b i e); [done|done|done|done|done|done|unfold pending, in_use in *; by destruct (ae_state e)| |].
      * intros Hno. apply (queried_dropped _ _ _ _ _ _ _ _ i e); [done| |done|by rewrite aset_id|done|].
        -- left. split; [done|]. split; [done|]. unfold pending, in_use in *. by destruct (ae_state e).
        -- exists D. split; [done|]. split; [apply keeps_refl|done].
      * intros p D' l' s' Hok' Hk Hp0 Hh. apply (queried_queued _ _ _ _ _ _ _ _ i e p D'); try done.
        -- left. split; [done|]. split; [done|]. unfold pending, in_use in *. by destruct (ae_state e).
        -- apply (keeps_mono _ _ _ _ _ _ Hk). intros x Hx Hx0. by apply held_put.
  - intros _ [Hf|[Hf _]]; done.
  - intros c e D1 l1 i s1 Hno _ Hf Hi _ Hok1 Hk1 Efind. pose proof (aget_Some _ _ _ Hi) as Hrange. destruct (Z.ltb_spec i 0); [lia|].
    set (e1 := recycled a nif e) in *. assert (aget (tab_of s1) i = Some e1) as Hi1 by by apply aget_aset_eq.
    assert (awaited a nif s i (asking nif e1)) as Haw by (right; split; [done|]; by exists c, e).
    apply wp_step, (wp_entry_at i e1); [done|]. rewrite decide_True by done.
    apply wp_step, wp_step, (wp_set_entry i e1); [done|]. apply wp_step, (wp_set_more i e1); [done|]. apply wp_ret. cbn [orb].
    change (put_netif nif (put_state ETHARP_STATE_PENDING e1)) with (asking nif e1). destruct (Z.eqb_spec q 0); [done|].
    assert (aset (tab_of s1) i (asking nif e1) = aset (tab_of s) i (asking nif e1)) as Et by apply aset_aset.
    set (s2 := on_tab (aset (tab_of s1) i (asking nif e1)) s1). assert (tab_of s2 = aset (tab_of s) i (asking nif e1)) as Et2 by done.
    assert (arp_ok others refs D1 s2) as Hok2.
    { apply (arp_ok_set _ _ _ _ i e1); [done|done|done|]. rewrite Et. apply (tab_ok_fresh _ _ i e _ a nif); try done.
      destruct (recycled_ok _ a nif e (to_entry _ _ Ht i e Hi)). by split. }
    assert (keeps (refs ++ qs (tab_of s2)) D (lw_of s) D1 l1) as Hk2.
    { change (tab_of s1) with (aset (tab_of s) i e1) in Hk1. by rewrite Et2, <- (aset_aset _ i e1), (qs_aset_same _ i e1 (asking nif e1)). }
    assert (forall h D3 l3, asked a nif n s h -> arp_ok others refs D3 (on_lw l3 s2) -> keeps (refs ++ qs (tab_of s2)) D1 l1 D3 l3 ->
      wp (hold q i) (on_dev h (on_lw l3 s2)) (queried others refs D nif n a q s)) as Htail.
    { intros h D3 l3 Hh Hok3 Hk3. set (s3 := on_dev h (on_lw l3 s2)). assert (keeps (refs ++ qs (tab_of s2)) D (lw_of s) D3 l3) as Hk13 by by eapply keeps_trans.
      assert (sendable refs (tab_of s3) D3 q) as Hsend3.
      { apply (sendable_kept others refs D (lw_of s) (tab_of s) q D3 l3); [done|done|done|]. change (tab_of s3) with (tab_of s2). rewrite Et2. by apply (occ_leave _ i e). }
      destruct (sendable_chain others refs D3 (tab_of s3) q (lw_of s3) (ao_mem _ _ _ _ Hok3) Hsend3) as (b3 & c3 & Hch3 & Hqb3 & Hr3). destruct Hsend3 as (_ & _ & Hql3 & _).
      apply (wp_hold others refs D3 q b3 i (asking nif e1)); [by apply arp_ok_dev|done|done|done|done|change (tab_of s3) with (tab_of s2); rewrite Et2; by apply aget_aset_eq|done| |].
      - intros Hnc. apply (queried_dropped _ _ _ _ _ _ _ _ i (asking nif e1)); [done|done|done|done|done|]. exists D3. split; [by apply arp_ok_dev|]. split; [|done]. by apply keeps_filter.
      - intros p D' l' s' Hok' Hk Hp0 Hh'. 
        assert (tab_of s' = aset (tab_of s) i (put_q p (asking nif e1))) as Es.
        { change (tab_of s') with (aset (aset (aset (tab_of s) i e1) i (asking nif e1)) i (put_q p (asking nif e1))). by rewrite !aset_aset. }
        assert (holds D (lw_of s) q D' l' p) as Hhd by (apply (holds_from (refs ++ qs (tab_of s2)) D3 l3 q D' l' p D (lw_of s) b ch); [done|done|exact Hk13|apply elem_of_app; by left|exact Hh']).
        apply (queried_queued _ _ _ _ _ _ _ _ i (asking nif e1) p D'); try done.
        assert (aget (aset (tab_of s) i (asking nif e1)) i = Some (asking nif e1)) as Hi2 by by apply aget_aset_eq.
        assert (qs (aset (tab_of s) i (put_q 0 (asking nif e1))) = qs (tab_of s2)) as Eq0.
        { rewrite Et2. by rewrite <- (qs_aset_same _ i _ (put_q 0 (asking nif e1)) Hi2 eq_refl), aset_aset. }
        rewrite Eq0. eapply keeps_trans; [exact Hk13|]. apply (keeps_mono _ _ _ _ _ _ Hk). intros x Hx Hx0. rewrite Es. rewrite <- Eq0 in Hx. by apply held_put. }
    assert (forall v h D3 l3, asked a nif n s h -> arp_ok others refs D3 (on_lw l3 s2) -> keeps (refs ++ qs (tab_of s2)) D1 l1 D3 l3 ->
      wp (if true && false then ret v else e <- entry_at i ;; if is_stable (ae_state e) then modify_ (put_cached i) ;; ethernet_output nif q (n4_hwaddr n) (ae_ethaddr e) ETHTYPE_IP
        else if decide (ae_state e = ETHARP_STATE_PENDING) then
          copy_needed <- in_lw (needs_copy PBUF_FUEL q) ;;
          p <- (if copy_needed : bool then in_lw (pbuf_clone custom_free_function PBUF_FUEL PBUF_LINK PBUF_RAM q)
                else in_lw (pbuf_ref q) ;; ret q) ;;
          if negb (p =? 0) then
            e <- entry_at i ;;
            (if negb (ae_q e =? 0) then free_pbuf custom_free_function (ae_q e) else ret tt) ;;
            set_entry i (put_q p) ;;
            ret ERR_OK
          else ret ERR_MEM
        else ret v) (on_dev h (on_lw l3 s2)) (queried others refs D nif n a q s)) as Hrest.
    { intros v h D3 l3 Hh Hok3 Hk3. cbn [andb]. apply wp_step, (wp_entry_at i (asking nif e1)); [change (tab_of _) with (tab_of s2); rewrite Et2; by apply aget_aset_eq|].
      change (is_stable _) with false. cbn iota. rewrite decide_True by done. by apply hold_assoc, (Htail h D3 l3). }
    apply wp_step. unfold etharp_request. eapply (wp_request custom_free_function others refs D1 nif n a ethbroadcast s2 _ Hok2 Hnif (proj1 is_hwaddr_ones)).
    + intros Hst. pose proof (Hrest ERR_MEM (dev s) D1 l1) as HR. assert (on_dev (dev s) (on_lw l1 s2) = s2) as Es2 by reflexivity. rewrite Es2 in HR. apply HR; [|done|apply keeps_refl]. right. split; [done|]. right. split; [done|]. by exists i, s1.
    + intros D3 l3 Hok3 Hk3. apply (Hrest ERR_OK _ D3 l3); [|done|done]. right. split; [done|by left].
Qed.
(** * etharp_output *)

Lemma delivered_from held nif dst src D l q r h h' D0 l0 b0 c0 : chain D0 q ((q, b0) :: c0) -> q <> 0 -> keeps held D0 l0 D l -> q ∈ held ->
  delivered nif dst src D l q r h h' -> delivered nif dst src D0 l0 q r h h'.
Proof.
  intros Hch Hq0 Hk Hq (b & c & H1 & H2). destruct (Hk q _ Hq Hq0 Hch) as [(c2 & Hc2 & Hal & E) _].
  rewrite (chain_det _ _ _ _ Hc2 H1) in Hal, E. inversion Hal as [|? ? ? ? [_ E2] Hal']; subst. exists b0, c0. split; [done|].
  rewrite (alike_room 14 q b0 b E2). by rewrite E in H2.
Qed.

(** An address that is used in its last 30 periods is due to be asked for again, but for the two
    periods after such a request. *)
Definition due e : bool := bool_decide (ae_state e = ETHARP_STATE_STABLE) && (ARP_AGE_REREQUEST_USED_UNICAST <=? ae_ctime e).

(** An address that is due is asked for, at its own hardware address and in the last 15 periods at
    that of all, unless there is no memory for the request. *)
Definition refreshed (nif : Z) (n : netif4) s e e' (h : hw) : Prop :=
  e' = e /\ h = dev s /\ (due e = true -> starved (lw_of s)) \/
  due e = true /\ e' = put_state ETHARP_STATE_STABLE_REREQUESTING_1 e /\
    h = snd (linkoutput nif (request_frame n (ae_ipaddr e) (if ARP_AGE_REREQUEST_USED_BROADCAST <=? ae_ctime e then ethbroadcast else ae_ethaddr e)) (dev s)).

Lemma wp_output_to_index others refs D nif n q i e s (Q : Z -> mach etharp -> Prop) :
  arp_ok others refs D s -> arp_netifs (glb s) !! nif = Some n -> sendable refs (tab_of s) D q -> aget (tab_of s) i = Some e -> is_stable (ae_state e) = true ->
  (forall e' h r s', tab_of s' = aset (tab_of s) i e' -> refreshed nif n s e e' h ->
     delivered nif (ae_ethaddr e) (n4_hwaddr n) D (lw_of s) q r h (dev s') -> kept_ok others refs D s q s' -> Q r s') ->
  wp (etharp_output_to_arp_index custom_free_function nif q i) s Q.
Proof.
  intros Hok Hnif Hsend Hi Hst HQ. pose proof Hok as [Hm Hu Ht Hc Hn]. destruct (Hn nif n Hnif) as [Hnif0 Hhw]. pose proof (to_entry _ _ Ht i e Hi) as He.
  destruct (sendable_chain _ _ _ _ _ _ Hm Hsend) as (b & ch & Hch & Hqb & Hr). pose proof (aget_Some _ _ _ Hi) as Hrange.
  assert (forall e' h D1 l1 (u : unit), ae_q e' = ae_q e -> ae_ethaddr e' = ae_ethaddr e -> refreshed nif n s e e' h ->
    let s1 := on_dev h (on_lw l1 (on_tab (aset (tab_of s) i e') s)) in arp_ok others refs D1 s1 -> keeps (refs ++ qs (tab_of s)) D (lw_of s) D1 l1 ->
    wp (e <- entry_at i ;; ethernet_output nif q (n4_hwaddr n) (ae_ethaddr e) ETHTYPE_IP) s1 Q) as Hend.
  { intros e' h D1 l1 _ Eq Ea Hrf s1 Hok1 Hk1. assert (qs (tab_of s1) = qs (tab_of s)) as Eqs by by apply (qs_aset_same _ i e).
    apply wp_step, (wp_entry_at i e'); [by apply aget_aset_eq|]. rewrite Ea.
    apply (wp_send_arp others refs D1 nif q (n4_hwaddr n) (ae_ethaddr e) s1); [done| |done|by apply (eo_addr _ _ He)|].
    - apply (sendable_kept others refs D (lw_of s) (tab_of s) q D1 l1); [done|done|by rewrite Eqs|by rewrite Eqs].
    - intros r h2 D2 l2 s2 Hok2 Hk2 Hd. apply (HQ e' h r s2); [done|done| |].
      + apply (delivered_from (refs ++ qs (tab_of s)) nif _ _ D1 l1 q r h h2 D (lw_of s) b ch Hch); [apply Hsend|done|apply elem_of_app; left; apply Hsend|exact Hd].
      + exists D2. split; [done|]. split; [|done]. change (tab_of s2) with (tab_of s1). rewrite Eqs in *. eapply keeps_trans; [by apply keeps_filter|exact Hk2]. }
  assert (forall dst (E : ae_state e = ETHARP_STATE_STABLE), is_hwaddr dst -> ARP_AGE_REREQUEST_USED_UNICAST <= ae_ctime e ->
    dst = (if ARP_AGE_REREQUEST_USED_BROADCAST <=? ae_ctime e then ethbroadcast else ae_ethaddr e) ->
    wp (r <- etharp_request_dst custom_free_function nif (ae_ipaddr e) dst ;; if r =? ERR_OK then set_entry i (put_state ETHARP_STATE_STABLE_REREQUESTING_1) else ret tt) s
      (fun _ s' => wp (e <- entry_at i ;; ethernet_output nif q (n4_hwaddr n) (ae_ethaddr e) ETHTYPE_IP) s' Q)) as Hreq.
  { intros dst E Hdst Hage Edst. apply wp_step. eapply (wp_request custom_free_function others refs D nif n (ae_ipaddr e) dst s _ Hok Hnif Hdst).
    - intros Hno. change (ERR_MEM =? ERR_OK) with false. apply wp_ret. specialize (Hend e (dev s) D (lw_of s) tt eq_refl eq_refl ltac:(left; by split)). cbn zeta in Hend.
      rewrite on_tab_same, (on_tab_id i e s Hi), (on_dev_id (dev s) s) in Hend by done. apply Hend; [done|apply keeps_refl].
    - intros D1 l1 Hok1 Hk1. change (ERR_OK =? ERR_OK) with true. cbn iota. apply (wp_set_entry i e); [done|].
      set (e' := put_state ETHARP_STATE_STABLE_REREQUESTING_1 e).
      assert (arp_ok others refs D1 (on_tab (aset (tab_of (on_lw l1 s)) i e') (on_lw l1 s))) as Hok2.
      { apply (arp_ok_change _ _ _ _ i e); [done|done| |done|unfold in_use; by rewrite E|done]. destruct He as [E1 E2 E3 E4 E5 E6]. split; try done.
        - intros _. apply E3. by rewrite E.
        - intros _. apply E5. unfold in_use. by rewrite E. }
      apply (Hend e' _ D1 l1 tt); [done|done| |by apply arp_ok_dev|done]. right. subst dst. split; [|done]. unfold due. rewrite bool_decide_true by done. by apply Z.leb_le. }
  unfold etharp_output_to_arp_index. apply wp_step, (wp_netif_at nif n); [done|]. apply wp_step, (wp_entry_at i e); [done|]. apply wp_step.
  assert (due e = false -> wp (e <- entry_at i ;; ethernet_output nif q (n4_hwaddr n) (ae_ethaddr e) ETHTYPE_IP) s Q) as Hplain.
  { intros Hdue. specialize (Hend e (dev s) D (lw_of s) tt eq_refl eq_refl ltac:(left; split; [done|]; split; [done|by rewrite Hdue])). cbn zeta in Hend.
    rewrite on_tab_same, (on_tab_id i e s Hi), (on_dev_id (dev s) s) in Hend by done. apply Hend; [done|apply keeps_refl]. }
  unfold due in Hplain. destruct (decide (ae_state e = ETHARP_STATE_STABLE)) as [E|E]; [|apply wp_ret, Hplain; by rewrite bool_decide_false].
  destruct (Z.leb_spec ARP_AGE_REREQUEST_USED_BROADCAST (ae_ctime e)) as [Hb|Hb].
  - apply (Hreq ethbroadcast E); [apply is_hwaddr_ones| |done]. unfold ARP_AGE_REREQUEST_USED_BROADCAST, ARP_AGE_REREQUEST_USED_UNICAST, ARP_MAXAGE in *. lia.
  - destruct (Z.leb_spec ARP_AGE_REREQUEST_USED_UNICAST (ae_ctime e)); [|apply wp_ret, Hplain; by rewrite andb_false_r]. by apply (Hreq (ae_ethaddr e) E); [apply (eo_addr _ _ He)| |].
Qed.
(** Where a packet for an address goes. *)
Inductive next := ToMac (mac : list Z) | NoRoute | Via (hop : Z).

Definition group_mac (a : Z) : list Z := [0x01; 0x00; 0x5e; ip4_addr_get_byte a 1 .& 0x7f; ip4_addr_get_byte a 2; ip4_addr_get_byte a 3].

(** The hop of a host is the host itself on the network of the interface, or if it has an address
    of the link, and the router otherwise. *)
Definition route (n : netif4) (a : Z) : next :=
  if ip4_addr_isbroadcast_u32 a n then ToMac ethbroadcast
  else if ip4_addr_ismulticast a then ToMac (group_mac a)
  else if ip4_addr_netcmp a (n4_ip_addr n) (n4_netmask n) || ip4_addr_islinklocal a then Via a
  else if ip4_addr_isany (n4_gw n) then NoRoute else Via (n4_gw n).

Definition known_at (nif hop : Z) e : bool := is_stable (ae_state e) && (ae_netif e =? nif) && (hop =? ae_ipaddr e).

Inductive passed (others refs : list Z) D (nif : Z) (n : netif4) (a q : Z) s : Z -> mach etharp -> Prop :=
| passed_mac mac r s' : route n a = ToMac mac -> tab_of s' = tab_of s -> delivered nif mac (n4_hwaddr n) D (lw_of s) q r (dev s) (dev s') ->
    kept_ok others refs D s q s' -> passed others refs D nif n a q s r s'
| passed_unreachable : route n a = NoRoute -> passed others refs D nif n a q s ERR_RTE s
| passed_known hop i e e' h r s' : route n a = Via hop -> aget (tab_of s) i = Some e -> known_at nif hop e = true ->
    tab_of s' = aset (tab_of s) i e' -> refreshed nif n s e e' h -> delivered nif (ae_ethaddr e) (n4_hwaddr n) D (lw_of s) q r h (dev s') ->
    kept_ok others refs D s q s' -> passed others refs D nif n a q s r s'
| passed_query hop r s' : route n a = Via hop -> (forall e, e ∈ tab_of s -> known_at nif hop e = false) ->
    queried others refs D nif n hop q s r s' -> passed others refs D nif n a q s r s'.

Lemma wp_find_stable nif dst s : forall es i (Q : option Z -> mach etharp -> Prop),
  (forall k e, es !! k = Some e -> aget (tab_of s) (i + Z.of_nat k) = Some e) ->
  (forall j e, aget (tab_of s) j = Some e -> known_at nif dst e = true -> Q (Some j) s) ->
  ((forall e, e ∈ es -> known_at nif dst e = false) -> Q None s) ->
  wp (find_stable (zrange i (length es)) nif dst) s Q.
Proof.
  induction es as [|e es IH]; intros i Q Hes H1 H0; [apply wp_ret, H0; by intros e ?%elem_of_nil|]. cbn [length]. rewrite zrange_S. cbn [find_stable].
  assert (aget (tab_of s) i = Some e) as Hi by (rewrite <- (Z.add_0_r i); by apply (Hes 0%nat)).
  apply wp_step, (wp_entry_at i e); [done|]. fold (known_at nif dst e). destruct (known_at nif dst e) eqn:Hk; [by apply wp_ret, (H1 i e)|].
  apply IH; [|done|].
  - intros k e' Hk'. replace (i + 1 + Z.of_nat k) with (i + Z.of_nat (S k)) by lia. by apply Hes.
  - intros Hno. apply H0. intros x [->|Hx]%elem_of_cons; [done|by apply Hno].
Qed.

Lemma group_mac_ok a : is_hwaddr (group_mac a).
Proof.
  assert (forall i, 0 <= ip4_addr_get_byte a i < 256) as H.
  { intros i. unfold ip4_addr_get_byte. change 0xff with (Z.ones 8). rewrite Z.land_ones by lia. apply Z.mod_pos_bound. lia. }
  split; [done|]. unfold group_mac. repeat (apply Forall_cons_2; [try lia; try apply H|]); [|by apply Forall_nil_2].
  change 0x7f with (Z.ones 7). rewrite Z.land_ones by lia. pose proof (Z.mod_pos_bound (ip4_addr_get_byte a 1) (2 ^ 7) ltac:(lia)). change (2 ^ 7) with 128 in *. lia.
Qed.

(** etharp_output: every packet is sent to a hardware address, refused for want of a router, or
    handed to etharp_query. *)
Lemma wp_output others refs D nif n a q s :
  arp_ok others refs D s -> arp_netifs (glb s) !! nif = Some n -> sendable refs (tab_of s) D q ->
  wp (etharp_output custom_free_function nif q a) s (passed others refs D nif n a q s).
Proof.
  intros Hok Hnif Hsend. pose proof Hok as [Hm Hu Ht Hc Hn]. destruct (Hn nif n Hnif) as [Hnif0 Hhw].
  assert (forall mac, route n a = ToMac mac -> is_hwaddr mac -> wp (ethernet_output nif q (n4_hwaddr n) mac ETHTYPE_IP) s (passed others refs D nif n a q s)) as Hmac.
  { intros mac Hr Hmac. apply (wp_send_arp others refs D nif q (n4_hwaddr n) mac s); [done|done|done|done|].
    intros r h D' l' s' Hok' Hk Hd. by apply (passed_mac _ _ _ _ _ _ _ _ mac); try done; exists D'. }
  unfold etharp_output. apply wp_step, (wp_netif_at nif n); [done|]. unfold route in Hmac. set (rt := route n a). assert (rt = route n a) as Ert by done. unfold route in Ert.
  destruct (ip4_addr_isbroadcast_u32 a n); [apply Hmac; [done|apply is_hwaddr_ones]|]. destruct (ip4_addr_ismulticast a); [apply Hmac; [done|apply group_mac_ok]|].
  rewrite <- negb_orb. set (near := ip4_addr_netcmp a (n4_ip_addr n) (n4_netmask n) || ip4_addr_islinklocal a) in *. clearbody near.
  destruct (negb near && ip4_addr_isany (n4_gw n)) eqn:Hfar.
  { apply andb_true_iff in Hfar as [Hne%negb_true_iff Hgw]. rewrite Hne, Hgw in Ert. by apply wp_ret, passed_unreachable. }
  set (hop := if negb near then n4_gw n else a). assert (route n a = Via hop) as Hroute.
  { unfold hop. fold rt. rewrite Ert. destruct near; [done|]. cbn [negb andb] in *. by rewrite Hfar. }
  assert (forall i e, aget (tab_of s) i = Some e -> known_at nif hop e = true -> forall s1, s1 = s \/ s1 = Mach (dev s) (wlog s) (put_cached i (glb s)) ->
    wp (etharp_output_to_arp_index custom_free_function nif q i) s1 (passed others refs D nif n a q s)) as Hindex.
  { intros i e Hi Hk s1 Hs1. assert (arp_ok others refs D s1) as Hok1.
    { destruct Hs1 as [->| ->]; [done|]. apply arp_ok_cached; [done|]. rewrite <- (to_size _ _ Ht). by eapply aget_Some. }
    assert (tab_of s1 = tab_of s /\ lw_of s1 = lw_of s /\ dev s1 = dev s /\ arp_netifs (glb s1) = arp_netifs (glb s)) as (Et & El & Ed & En) by by destruct Hs1 as [->| ->].
    apply (wp_output_to_index others refs D nif n q i e s1); [done|by rewrite En|by rewrite Et|by rewrite Et|unfold known_at in Hk; by destruct (is_stable (ae_state e))|].
    intros e' h r s' Es' Hrf Hd (D' & Hok' & Hk' & En'). rewrite El in *. apply (passed_known _ _ _ _ _ _ _ _ hop i e e' h); try done; [by rewrite <- Et| |].
    - unfold refreshed in *. by rewrite Ed, El in Hrf.
    - exists D'. split; [done|]. split; [done|by rewrite En', En]. }
  apply wp_step, wp_get. destruct (entry_ex _ _ _ Ht Hc) as (e & He & _). apply wp_step, (wp_entry_at _ e); [done|]. fold (known_at nif hop e).
  destruct (known_at nif hop e) eqn:Hk; [apply (Hindex _ e); [done|done|by left]|].
  pose proof (to_size _ _ Ht) as Hsz. replace (Z.to_nat ARP_TABLE_SIZE) with (length (tab_of s)) by lia. apply wp_step, wp_find_stable.
  - intros k e' Hk'. unfold aget. cbn. by rewrite Z.add_0_l, Nat2Z.id, (proj2 (Z.ltb_ge _ _)) by lia.
  - intros j e' Hj Hkj. apply wp_step, wp_modify. apply (Hindex j e'); [done|done|by right].
  - intros Hno. eapply wp_mono; [by apply (wp_query others refs D nif n hop q s)|]. intros r s' Hq. by apply (passed_query _ _ _ _ _ _ _ _ hop).
Qed.
End flow.
