(* ===== verification/EtharpInput.v ===== *)
(** The ARP cache: the packets of ARP that arrive. *)
From S2P Require Import Prelude Machine LwMem LwHeap Pbuf PbufCopy PbufChain PbufAlloc PbufData PbufClone PbufCoalesce PbufShape PbufRefs PbufKeep Etharp EtharpSpec EtharpTable EtharpLearn EtharpFlow.
From stdpp Require Import list gmap.

#[local] Open Scope Z_scope.
#[local] Open Scope fw_scope.

Section input.
Context {B : Bus} {P : Pools} {L : LwLayout} {O : LwRoom} {K : EthLink B} (custom_free_function : Z -> lw unit).
Implicit Types (s : mach etharp) (e : etharp_entry) (D : world).

(** * Learning from a packet *)

(** What etharp_update_arp_entry leaves; [ex] is the packet that it sends. *)
Inductive updated (others refs : list Z) D (nif : Z) (n : netif4) (a : Z) (mac : list Z) (flags : Z) s : Z -> Z -> mach etharp -> Prop :=
| updated_refused : no_host a n = true -> updated others refs D nif n a mac flags s 0 ERR_ARG s
| updated_unknown : no_host a n = false -> not_known a nif (tab_of s) ->
    any_bit flags ETHARP_FLAG_FIND_ONLY = true \/ any_bit flags ETHARP_FLAG_TRY_HARD = false /\ (forall e, e ∈ tab_of s -> in_use e = true) ->
    updated others refs D nif n a mac flags s 0 ERR_MEM s
| updated_new c e s' : no_host a n = false -> not_known a nif (tab_of s) -> any_bit flags ETHARP_FLAG_FIND_ONLY = false ->
    found (tab_of s) ARP_TABLE_SIZE c -> aget (tab_of s) (victim c) = Some e ->
    tab_of s' = aset (tab_of s) (victim c) (learned nif mac (recycled a nif e)) -> dev s' = dev s -> updated others refs D nif n a mac flags s 0 ERR_OK s'
| updated_known i e s' : no_host a n = false -> aget (tab_of s) i = Some e -> matches (Some a) nif e = true ->
    tab_of s' = aset (tab_of s) i (learned nif mac e) ->
    (if ae_q e =? 0 then dev s' = dev s else exists r, delivered nif mac (n4_hwaddr n) D (lw_of s) (ae_q e) r (dev s) (dev s')) ->
    updated others refs D nif n a mac flags s (ae_q e) ERR_OK s'.

Lemma kept_same others refs D s : arp_ok others refs D s -> kept_ok others refs D s 0 s.
Proof. intros H. exists D. split; [done|]. split; [apply keeps_refl|done]. Qed.

Lemma wp_updated others refs D nif n a mac flags s :
  arp_ok others refs D s -> arp_netifs (glb s) !! nif = Some n -> is_hwaddr mac ->
  wp (etharp_update_arp_entry custom_free_function nif a mac flags) s
    (fun r s' => exists ex, updated others refs D nif n a mac flags s ex r s' /\ kept_ok others refs D s ex s').
Proof.
  intros Hok Hnif Hmac. apply (wp_update custom_free_function others refs D nif n); [done|done|done|..].
  - intros Hh. exists 0. split; [by constructor|by apply kept_same].
  - intros Hh Hno Hwhy. exists 0. split; [by constructor|by apply kept_same].
  - intros c e D' l' i s' Hh Hno Hfo Hf Hi Hok' Hk. exists 0. split; [by apply (updated_new _ _ _ _ _ _ _ _ _ c e)|].
    exists D'. split; [done|]. split; [by apply keeps_filter|done].
  - intros i e h D' l' s' Hh Hi Hma Hok' Hk Hd. exists (ae_q e). split; [by apply (updated_known _ _ _ _ _ _ _ _ _ i e)|]. by exists D'.
Qed.
(** * Reading a packet *)

(** [k] bytes from [o] on. *)
Definition field (pk : list Z) (o k : Z) : list Z := take (Z.to_nat k) (drop (Z.to_nat o) pk).

(** The packet [p] has its 28 bytes [pk] at [hd]. *)
Definition arrives D l (p hd : Z) (pk : list Z) : Prop :=
  exists b c, chain D p ((p, b) :: c) /\ 28 <= pb_len b /\ pb_payload b = hd /\ lw_bytes l hd 28 = pk.

Lemma arrives_keeps held D l D' l' p hd pk : keeps held D l D' l' -> p ∈ held -> p <> 0 -> arrives D l p hd pk -> arrives D' l' p hd pk.
Proof.
  intros Hk Hp Hp0 (b & c & Hch & Hlen & Hpay & Epk). destruct (Hk p _ Hp Hp0 Hch) as [(c2 & Hc2 & Hal & E) _].
  inversion Hal as [|? [x b2] ? c3 [E1 E2] Hal']; subst. cbn in E1, E2. subst x. exists b2, c3.
  assert (pb_len b2 = pb_len b /\ pb_payload b2 = pb_payload b) as [El Ep] by (destruct b, b2; cbn in *; by injection E2 as -> -> -> -> -> -> ->).
  split; [done|]. split; [lia|]. split; [done|]. rewrite !contents_cons, El, Ep in E. apply app_inj_1 in E as [E _]; [|by rewrite !lw_bytes_length].
  pose proof (lw_bytes_slice l' (pb_payload b) (pb_len b) 0 28 ltac:(lia) ltac:(lia) ltac:(lia)) as Es'.
  pose proof (lw_bytes_slice l (pb_payload b) (pb_len b) 0 28 ltac:(lia) ltac:(lia) ltac:(lia)) as Es. rewrite Z.add_0_r in *. by rewrite <- Es', E, Es.
Qed.

Lemma wp_field_read others refs D p hd pk o k s (Q : list Z -> mach etharp -> Prop) :
  counted others refs D (lw_of s) -> arrives D (lw_of s) p hd pk -> 0 <= o -> 0 <= k -> o + k <= 28 ->
  Q (field pk o k) s -> wp (in_lw (lw_read (hd + o) k)) s Q.
Proof.
  intros (fp & fr & h & H) (b & c & Hch & Hlen & Hpay & <-) Ho Hk Hok HQ. destruct (chain_lookup _ _ _ p b Hch ltac:(by left)) as [_ Hpb].
  apply (wp_mem_read _ (field (lw_bytes (lw_of s) hd 28) o k)); [|done]. apply wp_lw_read.
  - intros x Hx. apply (ct_data (ct_core H) p b); [done|]. apply elem_data. lia.
  - split; [|done]. unfold field. by rewrite lw_bytes_slice.
Qed.

Lemma field_length pk o k : Z.of_nat (length pk) = 28 -> 0 <= o -> 0 <= k -> o + k <= 28 -> Z.of_nat (length (field pk o k)) = k.
Proof. intros Hl Ho Hk Hok. unfold field. rewrite length_take, length_drop. lia. Qed.

Lemma arrives_pk D l p hd pk : arrives D l p hd pk -> Z.of_nat (length pk) = 28 /\ Forall (fun x => 0 <= x < 256) pk.
Proof. intros (b & c & _ & _ & _ & <-). split; [rewrite lw_bytes_length; lia|apply lw_bytes_range]. Qed.

Lemma field_hwaddr D l p hd pk o : arrives D l p hd pk -> 0 <= o <= 22 -> is_hwaddr (field pk o 6).
Proof.
  intros [Hl Hf]%arrives_pk Ho. split; [pose proof (field_length pk o 6 Hl); lia|]. unfold field. apply Forall_take, Forall_drop, Hf.
Qed.

(** A packet of ARP for Ethernet and IP. *)
Definition for_ethernet_ip (pk : list Z) : bool :=
  (le_word (field pk 0 2) =? PP_HTONS LWIP_IANA_HWTYPE_ETHERNET) && (le_word (field pk 4 1) =? 6) && (le_word (field pk 5 1) =? 4) && (le_word (field pk 2 2) =? PP_HTONS ETHTYPE_IP).

Lemma wp_half_is others refs D p hd pk o v s (Q : bool -> mach etharp -> Prop) : counted others refs D (lw_of s) -> arrives D (lw_of s) p hd pk -> 0 <= o <= 26 ->
  Q (le_word (field pk o 2) =? v) s -> wp (half_is (hd + o) v) s Q.
Proof. intros Hm Ha Ho HQ. apply wp_step, (wp_field_read others refs D p hd pk); [done|done|lia|lia|lia|]. by apply wp_ret. Qed.

Lemma wp_byte_is others refs D p hd pk o v s (Q : bool -> mach etharp -> Prop) : counted others refs D (lw_of s) -> arrives D (lw_of s) p hd pk -> 0 <= o <= 27 ->
  Q (le_word (field pk o 1) =? v) s -> wp (byte_is (hd + o) v) s Q.
Proof. intros Hm Ha Ho HQ. apply wp_step, (wp_field_read others refs D p hd pk); [done|done|lia|lia|lia|]. by apply wp_ret. Qed.

Lemma wp_either_not (a b : M (mach etharp) bool) s (Q : bool -> mach etharp -> Prop) :
  wp a s (fun x s' => if x then wp b s' Q else Q true s') -> wp (either (not_ a) b) s Q.
Proof.
  intros H. unfold either, not_. apply wp_step, wp_step. eapply wp_mono; [exact H|]. intros [] s'; intros H'; apply wp_ret; [done|]. by apply wp_ret.
Qed.

Lemma wp_not (a : M (mach etharp) bool) s (Q : bool -> mach etharp -> Prop) : wp a s (fun x s' => Q (negb x) s') -> wp (not_ a) s Q.
Proof. intros H. apply wp_step. eapply wp_mono; [exact H|]. intros x s' H'. by apply wp_ret. Qed.

Lemma wp_wrong others refs D p hd pk s (Q : bool -> mach etharp -> Prop) : counted others refs D (lw_of s) -> arrives D (lw_of s) p hd pk ->
  Q (negb (for_ethernet_ip pk)) s ->
  wp (either (not_ (half_is hd (PP_HTONS LWIP_IANA_HWTYPE_ETHERNET)))
       (either (not_ (byte_is (hd + 4) 6)) (either (not_ (byte_is (hd + 5) 4)) (not_ (half_is (hd + 2) (PP_HTONS ETHTYPE_IP)))))) s Q.
Proof.
  intros Hm Ha HQ. unfold for_ethernet_ip in HQ. apply wp_either_not. rewrite <- (Z.add_0_r hd) at 1. apply (wp_half_is others refs D p hd pk); [done|done|lia|].
  destruct (le_word (field pk 0 2) =? _); [|exact HQ]. apply wp_either_not, (wp_byte_is others refs D p hd pk); [done|done|lia|].
  destruct (le_word (field pk 4 1) =? _); [|exact HQ]. apply wp_either_not, (wp_byte_is others refs D p hd pk); [done|done|lia|].
  destruct (le_word (field pk 5 1) =? _); [|exact HQ]. apply wp_not, (wp_half_is others refs D p hd pk); [done|done|lia|]. exact HQ.
Qed.
(** * etharp_input *)

Definition arp_op (pk : list Z) : Z := le_word (field pk 6 2).
Definition arp_sender (pk : list Z) : list Z := field pk 8 6.
Definition arp_sender_ip (pk : list Z) : Z := le_word (field pk 14 4).
Definition arp_target_ip (pk : list Z) : Z := le_word (field pk 24 4).

Definition is_for_us (n : netif4) (pk : list Z) : bool := negb (ip4_addr_isany (n4_ip_addr n)) && (arp_target_ip pk =? n4_ip_addr n).

Definition reply_frame (n : netif4) (pk : list Z) : list Z :=
  eth_frame (arp_sender pk) (n4_hwaddr n) ETHTYPE_ARP (arp_packet ARP_REPLY (n4_hwaddr n) (n4_ip_addr n) (arp_sender pk) (arp_sender_ip pk)).

(** A request for the address of the interface is answered, unless there is no memory in [l] for the
    reply; a reply may show that the address the DHCP client was offered is in use. *)
Definition answered (nif : Z) (n : netif4) (pk : list Z) (l : lwip) (h h' : hw) : Prop :=
  if arp_op pk =? PP_HTONS ARP_REQUEST then
    if is_for_us n pk then h' = snd (linkoutput nif (reply_frame n pk) h) \/ h' = h /\ starved l else h' = h
  else if arp_op pk =? PP_HTONS ARP_REPLY then
    h' = match n4_dhcp n with
         | Some (st, offered) => if (st =? DHCP_STATE_CHECKING) && (arp_sender_ip pk =? offered) then dhcp_decline nif h else h
         | None => h
         end
  else h' = h.

(** Learning from a packet that is for the interface makes an entry, if it must. *)
Definition learn_flags (n : netif4) (pk : list Z) : Z := if is_for_us n pk then ETHARP_FLAG_TRY_HARD else ETHARP_FLAG_FIND_ONLY.

Inductive arrived (others refs : list Z) D (nif : Z) (n : netif4) (pk : list Z) s : mach etharp -> Prop :=
| arrived_ignored s' : for_ethernet_ip pk = false -> tab_of s' = tab_of s -> dev s' = dev s -> kept_ok others refs D s 0 s' -> arrived others refs D nif n pk s s'
| arrived_used ex r s1 s' : for_ethernet_ip pk = true ->
    etharp_update_arp_entry custom_free_function nif (arp_sender_ip pk) (arp_sender pk) (learn_flags n pk) s = Ret r s1 ->
    updated others refs D nif n (arp_sender_ip pk) (arp_sender pk) (learn_flags n pk) s ex r s1 ->
    tab_of s' = tab_of s1 -> answered nif n pk (lw_of s1) (dev s1) (dev s') -> kept_ok others refs D s ex s' -> arrived others refs D nif n pk s s'.

Lemma wp_free_arp others refs D p s (Q : unit -> mach etharp -> Prop) :
  arp_ok others (p :: refs) D s ->
  (forall D' l', arp_ok others refs D' (on_lw l' s) -> keeps (refs ++ qs (tab_of s)) D (lw_of s) D' l' -> Q tt (on_lw l' s)) ->
  wp (free_pbuf custom_free_function p) s Q.
Proof.
  intros Hok HQ. apply (wp_free_pbuf custom_free_function others (refs ++ qs (tab_of s)) D p); [apply (ao_mem _ _ _ _ Hok)|].
  intros D' l' Hm' Hf Hd Hk. apply (HQ D' l'); [|done]. by apply (arp_ok_lw others (p :: refs) refs D s).
Qed.

(** The packet leaves, at the end. *)
Lemma wp_drop others refs D0 s0 D ex p s (Q : unit -> mach etharp -> Prop) :
  arp_ok others (p :: refs) D s -> keeps (filter (fun x => x <> ex) (p :: refs ++ qs (tab_of s))) D0 (lw_of s0) D (lw_of s) -> arp_netifs (glb s) = arp_netifs (glb s0) ->
  (forall s', tab_of s' = tab_of s -> dev s' = dev s -> kept_ok others refs D0 s0 ex s' -> Q tt s') -> wp (free_pbuf custom_free_function p) s Q.
Proof.
  intros Hok Hk En HQ. apply (wp_free_arp others refs D p); [done|]. intros D' l' Hok' Hk'. apply HQ; [done|done|]. exists D'. split; [done|]. split; [|done].
  eapply keeps_trans; [apply (keeps_sub _ _ _ _ _ _ Hk)|by apply keeps_filter]. intros x [? ?]%list_elem_of_filter. apply list_elem_of_filter. split; [done|by right].
Qed.

Lemma updated_refs others refs refs' D nif n a mac flags s ex r s' : updated others refs D nif n a mac flags s ex r s' -> updated others refs' D nif n a mac flags s ex r s'.
Proof.
  intros [H|H1 H2 H3|c e s2 H1 H2 H3 H4 H5 H6 H7|i e s2 H1 H2 H3 H4 H5]; [by constructor|by constructor|exact (updated_new _ _ _ _ _ _ _ _ _ c e _ H1 H2 H3 H4 H5 H6 H7)|].
  exact (updated_known _ _ _ _ _ _ _ _ _ i e _ H1 H2 H3 H4 H5).
Qed.

Lemma updated_ex others refs D nif n a mac flags s ex r s' : updated others refs D nif n a mac flags s ex r s' -> ex = 0 \/ ex ∈ qs (tab_of s).
Proof. intros H. destruct H as [| | |i e s2 _ Hi]; [by left..|right]. apply elem_qs. by exists i, e. Qed.

Lemma updated_in others refs D nif n a mac flags s ex r s' q : updated others refs D nif n a mac flags s ex r s' -> q <> 0 -> q ∈ qs (tab_of s') -> q ∈ qs (tab_of s).
Proof.
  intros H Hq0 Hq. destruct H as [| |c e s2 _ _ _ _ Hi E _|i e s2 _ Hi _ E _]; [done|done|..]; rewrite E in Hq; (eapply qs_leave; [exact Hi|..|exact Hq|done]; done).
Qed.

Lemma wp_answer others refs D0 s0 D nif n ex p hd pk s (Q : unit -> mach etharp -> Prop) :
  arp_ok others (p :: refs) D s -> keeps (filter (fun x => x <> ex) (p :: refs ++ qs (tab_of s))) D0 (lw_of s0) D (lw_of s) -> arp_netifs (glb s) = arp_netifs (glb s0) ->
  arp_netifs (glb s) !! nif = Some n -> arrives D (lw_of s) p hd pk -> p <> 0 ->
  (forall s', tab_of s' = tab_of s -> answered nif n pk (lw_of s) (dev s) (dev s') -> kept_ok others refs D0 s0 ex s' -> Q tt s') ->
  wp (o <- in_lw (lw_read (hd + 6) 2) ;;
      let opcode := le_word o in
      (if opcode =? PP_HTONS ARP_REQUEST then
         if is_for_us n pk then
           shwaddr <- in_lw (lw_read (hd + 8) 6) ;;
           etharp_raw custom_free_function nif (n4_hwaddr n) shwaddr (n4_hwaddr n) (n4_ip_addr n) shwaddr (arp_sender_ip pk) ARP_REPLY ;; ret tt
         else ret tt
       else if opcode =? PP_HTONS ARP_REPLY then dhcp_arp_reply nif (arp_sender_ip pk)
       else ret tt) ;;
      free_pbuf custom_free_function p) s Q.
Proof.
  intros Hok Hk En Hnif Ha Hp0 HQ. pose proof Hok as [Hm _ _ _ Hn]. destruct (Hn nif n Hnif) as [_ Hhw].
  apply wp_step, (wp_field_read others ((p :: refs) ++ qs (tab_of s)) D p hd pk); [done|done|lia|lia|lia|]. cbn zeta. fold (arp_op pk).
  assert (forall h, answered nif n pk (lw_of s) (dev s) h -> wp (free_pbuf custom_free_function p) (on_dev h s) Q) as Hend.
  { intros h Hh. apply (wp_drop others refs D0 s0 D ex p (on_dev h s)); [by apply arp_ok_dev|done|done|]. intros s' Et Ed Hk'. apply HQ; [done|by rewrite Ed|done]. }
  assert (answered nif n pk (lw_of s) (dev s) (dev s) -> wp (free_pbuf custom_free_function p) s Q) as Hstay by (intros H; by apply (Hend (dev s)) in H; rewrite on_dev_id in H).
  apply wp_step. unfold answered in *. destruct (arp_op pk =? PP_HTONS ARP_REQUEST).
  - destruct (is_for_us n pk); [|by apply wp_ret, Hstay]. apply wp_step, (wp_field_read others ((p :: refs) ++ qs (tab_of s)) D p hd pk); [done|done|lia|lia|lia|].
    pose proof (field_hwaddr D _ p hd pk 8 Ha ltac:(lia)) as Hsh.
    apply wp_step, (wp_etharp_raw custom_free_function others ((p :: refs) ++ qs (tab_of s)) D); [done|done|done|done|done|done| |].
    + intros Hno. by apply wp_ret, Hstay; right.
    + intros D' l' Hm' Hk'. apply wp_ret. set (h := snd _). apply (wp_drop others refs D0 s0 D' ex p (on_dev h (on_lw l' s))); [| |done|].
      * apply arp_ok_dev. by apply (arp_ok_lw others (p :: refs) (p :: refs) D s).
      * eapply keeps_trans; [exact Hk|]. by apply keeps_filter.
      * intros s' Et Ed Hk2. apply HQ; [done|left; by rewrite Ed|done].
  - destruct (arp_op pk =? PP_HTONS ARP_REPLY); [|by apply wp_ret, Hstay]. unfold dhcp_arp_reply. apply wp_step, (wp_netif_at nif n); [done|].
    destruct (n4_dhcp n) as [[st off]|]; [|by apply wp_ret, Hstay]. destruct ((st =? DHCP_STATE_CHECKING) && (arp_sender_ip pk =? off)); [|by apply wp_ret, Hstay].
    unfold outside. apply (Hend (dhcp_decline nif (dev s))). done.
Qed.

Lemma wp_etharp_input others refs D nif n p hd pk b s :
  arp_ok others (p :: refs) D s -> arp_netifs (glb s) !! nif = Some n -> p <> 0 -> D !! p = Some b -> pb_payload b = hd -> arrives D (lw_of s) p hd pk -> p ∉ qs (tab_of s) ->
  wp (etharp_input custom_free_function p nif) s (fun _ s' => arrived others refs D nif n pk s s').
Proof.
  intros Hok Hnif Hp0 Hpb Hpay Ha Hpq. pose proof Hok as [Hm _ _ _ Hn]. pose proof (field_hwaddr D _ p hd pk 8 Ha ltac:(lia)) as Hsh.
  unfold etharp_input. apply wp_step, (wp_mem_read _ b).
  { destruct Hm as (fp & fr & h & H). apply (wp_pbuf_at _ b); [by apply (ct_cell (ct_core H))|done]. }
  rewrite Hpay. apply wp_step, (wp_wrong others ((p :: refs) ++ qs (tab_of s)) D p hd pk); [done|done|]. destruct (for_ethernet_ip pk) eqn:Hfor; cbn [negb].
  2: { apply (wp_drop others refs D s D 0 p s); [done|apply keeps_refl|done|]. intros s' Et Ed Hk. by apply arrived_ignored. }
  apply wp_step, (wp_field_read others ((p :: refs) ++ qs (tab_of s)) D p hd pk); [done|done|lia|lia|lia|].
  apply wp_step, (wp_field_read others ((p :: refs) ++ qs (tab_of s)) D p hd pk); [done|done|lia|lia|lia|].
  apply wp_step, (wp_netif_at nif n); [done|]. apply wp_step, (wp_field_read others ((p :: refs) ++ qs (tab_of s)) D p hd pk); [done|done|lia|lia|lia|].
  fold (arp_sender_ip pk). fold (arp_target_ip pk). fold (arp_sender pk).
  assert ((if ip4_addr_isany (n4_ip_addr n) then false else arp_target_ip pk =? n4_ip_addr n) = is_for_us n pk) as -> by (unfold is_for_us; by destruct (ip4_addr_isany _)).
  fold (learn_flags n pk). apply wp_step_eq. eapply wp_mono; [by apply (wp_updated others (p :: refs) D nif n)|]. intros r s1 (ex & Hup & D1 & Hok1 & Hk1 & En1) Eup. cbn beta.
  assert (p <> ex) as Hpex by (destruct (updated_ex _ _ _ _ _ _ _ _ _ _ _ _ Hup) as [->|Hin]; [done|by intros ->]).
  apply (wp_answer others refs D s D1 nif n ex p hd pk s1); [done|done|done|by rewrite En1| |done|].
  - apply (arrives_keeps _ _ _ _ _ _ _ _ Hk1); [|done|done]. apply list_elem_of_filter. split; [done|by left].
  - intros s' Et Hans Hk. apply (arrived_used _ _ _ _ _ _ _ ex r s1); try done. by eapply updated_refs.
Qed.
End input.
