(* ===== verification/EtharpFrame.v ===== *)
(** Ethernet: received frames, and which of them reach the ARP cache. *)
From S2P Require Import Prelude Machine LwMem LwHeap Pbuf PbufCopy PbufChain PbufAlloc PbufData PbufClone PbufCoalesce PbufShape PbufRefs PbufKeep Etharp EtharpSpec EtharpTable EtharpLearn EtharpFlow EtharpInput.
From stdpp Require Import list gmap.

#[local] Open Scope Z_scope.
#[local] Open Scope fw_scope.

Section frames.
Context {B : Bus} {P : Pools} {L : LwLayout} {O : LwRoom} {K : EthLink B} (custom_free_function : Z -> lw unit).
Context (ip4_input : Z -> Z -> M (mach etharp) unit).
Implicit Types (s : mach etharp) (e : etharp_entry) (D : world).

(** * A buffer that changes but for its end *)

Record dressed (b b' : pbuf) : Prop := {
  dr_next : pb_next b' = pb_next b;
  dr_type : pb_type b' = pb_type b;
  dr_ref : pb_ref b' = pb_ref b;
  dr_flags : any_bit (pb_flags b') PBUF_FLAG_IS_CUSTOM = any_bit (pb_flags b) PBUF_FLAG_IS_CUSTOM;
  dr_tot : pb_tot_len b' - pb_len b' = pb_tot_len b - pb_len b;
  dr_len : 0 <= pb_len b' <= pb_len b;
  dr_end : pb_payload b' + pb_len b' = pb_payload b + pb_len b }.

Lemma dressed_refl b : 0 <= pb_len b -> dressed b b.
Proof. by split. Qed.

Lemma dressed_trans b1 b2 b3 : dressed b1 b2 -> dressed b2 b3 -> dressed b1 b3.
Proof. intros [] []. split; congruence || lia. Qed.

Lemma dressed_data b b' x : dressed b b' -> x ∈ data_of b' -> x ∈ data_of b.
Proof. intros []. rewrite !elem_data. lia. Qed.

Lemma dressed_sound h p b b' : sound h p b -> dressed b b' -> sound h p b'.
Proof.
  intros [Hf Hl Hp] Hd. pose proof (dressed_data b b') as Hdata. pose proof Hd as [E1 E2 E3 E4 E5 E6 E7]. split; [by rewrite E4|lia|]. rewrite E2. unfold within in *. cbn [fst snd] in *. destruct Hp as [(Et & Hi & Hw)|[(Et & c & Hi & Hlo & Hhi)|(Et & Hi & Hx)]].
  - left. split; [done|]. split; [done|lia].
  - right. left. split; [done|]. exists c. split; [done|lia].
  - right. right. split; [done|]. split; [done|]. intros x Hi2. by apply Hx, Hdata.
Qed.

(** The buffer [b] of the packet [p] has become [b'], all else is as it was. *)
Record dressed_at (others refs : list Z) D s (p : Z) (b : pbuf) D' l' (b' : pbuf) : Prop := {
  da_ok : arp_ok others refs D' (on_lw l' s);
  da_keeps : forall held, keeps (filter (fun x => x <> p) held) D (lw_of s) D' l';
  da_at : D' !! p = Some b';
  da_links : p ∉ links_of D';
  da_data : lw_data l' = lw_data (lw_of s);
  da_cell : l' = with_cells (insert p (Buf b')) (lw_of s);
  da_dressed : dressed b b';
  da_chain : forall c, chain D p ((p, b) :: c) -> chain D' p ((p, b') :: c) }.

Lemma dressed_at_refl others refs D s p b : arp_ok others refs D s -> D !! p = Some b -> p ∉ links_of D -> 0 <= pb_len b -> dressed_at others refs D s p b D (lw_of s) b.
Proof.
  intros Hok Hpb Hpl Hl. split; try done; [by rewrite on_lw_same|intros held; apply keeps_refl|].
  destruct Hok as [(fp & fr & h & H) _ _ _ _]. pose proof (ct_cell (ct_core H) p b Hpb) as E. unfold with_cells. rewrite insert_id by done. by destruct (lw_of s).
Qed.

Lemma dressed_at_trans others refs D s p b D1 l1 b1 D2 l2 b2 : dressed_at others refs D s p b D1 l1 b1 -> dressed_at others refs D1 (on_lw l1 s) p b1 D2 l2 b2 ->
  dressed_at others refs D s p b D2 l2 b2.
Proof.
  intros [A1 A2 A3 A4 A5 A8 A6 A7] [B1 B2 B3 B4 B5 B8 B6 B7]. split; try done; [intros held; eapply keeps_trans; [apply A2|apply B2]|exact (eq_trans B5 A5)| |by eapply dressed_trans|].
  { rewrite B8. change (lw_of (on_lw l1 s)) with l1. rewrite A8. unfold with_cells. cbn. by rewrite insert_insert_eq. }
  intros c Hc. by apply B7, A7.
Qed.

Lemma pbuf_len_nonneg others refs D s p b : arp_ok others refs D s -> D !! p = Some b -> 0 <= pb_len b.
Proof. intros [(fp & fr & h & H) _ _ _ _] Hpb. apply (so_len _ _ _ (ct_sound (ct_core H) p b Hpb)). Qed.

(** Assigning to a packet that the program received. *)
Lemma wp_dress others refs D p b f s (Q : unit -> mach etharp -> Prop) :
  arp_ok others refs D s -> D !! p = Some b -> p ∉ links_of D -> dressed b (f b) ->
  (forall l', dressed_at others refs D s p b (<[p := f b]> D) l' (f b) -> Q tt (on_lw l' s)) ->
  wp (in_lw (pbuf_set p f)) s Q.
Proof.
  intros [Hm Hu Ht Hc Hn] Hpb Hpl Hd HQ. pose proof Hm as (fp & fr & h & H). pose proof (ct_sound (ct_core H) p b Hpb) as Hs. pose proof Hd as [E1 E2 E3 E4 E5 E6 E7].
  destruct (count_sizes _ _ _ _ _ _ _ _ _ H Hpb) as [_ Ht2].
  assert (forall x, x ∈ links_of (<[p := f b]> D) <-> x ∈ links_of D) as Hlinks.
  { intros x. by rewrite (links_update D p b (f b) Hpb), (links_delete D p b Hpb), E1. }
  apply wp_mem, (wp_pbuf_set _ _ b); [by apply (ct_cell (ct_core H))|]. apply HQ. split; [| |apply lookup_insert_eq|by rewrite Hlinks|done|done|done|].
  - split; try done; [|intros q Hq Hq0; rewrite Hlinks; by apply Hu]. exists fp, fr, h. apply (count_reshape _ _ _ _ _ _ _ _ b); try done; [lia|by apply (dressed_sound h p b)|].
    intros x Hx. apply (ct_data (ct_core H) p b); [done|by apply (dressed_data b (f b))].
  - intros held. apply (update_keeps held D (lw_of s) p b (f b)); done.
  - intros c Hch. pose proof (chain_update D p _ p b (f b) Hch Hpb E1) as E. pose proof (chain_nodup _ _ _ Hch) as [Hpc _]%NoDup_cons.
    unfold with_buf in E. rewrite fmap_cons in E. cbn [fst] in E. rewrite decide_True in E by done. fold (with_buf p (f b) c) in E. by rewrite with_buf_out in E.
Qed.

(** * The marks of a frame *)

(** The mark of a frame to a group of IP and of one to all, by the destination [d]. *)
Definition mark (d : list Z) : Z :=
  if le_word (take 1 d) .& 1 =? 0 then 0
  else if le_word (take 1 d) =? 1 then
    if (le_word (take 1 (drop 1 d)) =? 0) && (le_word (take 1 (drop 2 d)) =? 0x5e) then PBUF_FLAG_LLMCAST else 0
  else if decide (d = ethbroadcast) then PBUF_FLAG_LLBCAST else 0.

Definition with_mark (v : Z) (b : pbuf) : pbuf := if v =? 0 then b else put_flags (pb_flags b .| v) b.

Lemma put_flags_dressed b v : 0 <= pb_len b -> v = PBUF_FLAG_LLMCAST \/ v = PBUF_FLAG_LLBCAST -> dressed b (put_flags (pb_flags b .| v) b).
Proof.
  intros Hl Hv. split; try done. unfold put_flags. cbn [pb_flags]. unfold any_bit. f_equal. f_equal.
  assert (Z.land v PBUF_FLAG_IS_CUSTOM = 0) as E by by destruct Hv as [->| ->].
  unfold u8. rewrite <- (Z.land_ones _ 8) by lia.
  rewrite <- Z.land_assoc, (Z.land_comm (Z.ones 8)). change (Z.land PBUF_FLAG_IS_CUSTOM (Z.ones 8)) with PBUF_FLAG_IS_CUSTOM.
  by rewrite Z.land_lor_distr_l, E, Z.lor_0_r.
Qed.

(** Reading the header of a frame. *)
Lemma wp_head_read others refs D p b o k s (Q : list Z -> mach etharp -> Prop) :
  arp_ok others refs D s -> D !! p = Some b -> 0 <= o -> 0 <= k -> o + k <= pb_len b ->
  Q (lw_bytes (lw_of s) (pb_payload b + o) k) s -> wp (in_lw (lw_read (pb_payload b + o) k)) s Q.
Proof.
  intros [(fp & fr & h & H) _ _ _ _] Hpb Ho Hk Hok HQ. eapply wp_mem_read; [|exact HQ]. apply wp_lw_read; [|done].
  intros x Hx. apply (ct_data (ct_core H) p b); [done|]. apply elem_data. lia.
Qed.

Lemma wp_mark_cast others refs D p b s (Q : unit -> mach etharp -> Prop) :
  arp_ok others refs D s -> D !! p = Some b -> p ∉ links_of D -> 14 < pb_len b ->
  (forall D' l', dressed_at others refs D s p b D' l' (with_mark (mark (lw_bytes (lw_of s) (pb_payload b) 6)) b) -> Q tt (on_lw l' s)) ->
  wp (mark_cast p (pb_payload b)) s Q.
Proof.
  intros Hok Hpb Hpl Hlen HQ. set (d := lw_bytes (lw_of s) (pb_payload b) 6) in *.
  assert (forall o k, 0 <= o -> 0 <= k -> o + k <= 6 -> lw_bytes (lw_of s) (pb_payload b + o) k = take (Z.to_nat k) (drop (Z.to_nat o) d)) as Hd by (intros; by rewrite <- lw_bytes_slice with (n := 6)).
  assert (with_mark (mark d) b = b -> wp (ret tt) s Q) as Hno.
  { intros E. apply wp_ret. specialize (HQ D (lw_of s)). rewrite E, on_lw_same in HQ. apply HQ, dressed_at_refl; [done|done|done|lia]. }
  assert (forall v, mark d = v -> v = PBUF_FLAG_LLMCAST \/ v = PBUF_FLAG_LLBCAST -> wp (in_lw (pbuf_set p (fun b => put_flags (pb_flags b .| v) b))) s Q) as Hyes.
  { intros v E Hv. apply (wp_dress others refs D p b); [done|done|done|by apply put_flags_dressed; [lia|]|]. intros l' Hl'.
    assert (with_mark (mark d) b = put_flags (pb_flags b .| v) b) as Ew by (unfold with_mark; rewrite E; by destruct Hv as [->| ->]). rewrite Ew in HQ. by apply (HQ _ l' Hl'). }
  unfold mark_cast. rewrite <- (Z.add_0_r (pb_payload b)) at 1. apply wp_step, (wp_head_read others refs D p b); [done|done|lia|lia|lia|]. rewrite Hd by lia.
  change (take (Z.to_nat 1) (drop (Z.to_nat 0) d)) with (take 1 d). unfold mark in Hno, Hyes. destruct (le_word (take 1 d) .& 1 =? 0); cbn [negb]; [by apply Hno|].
  destruct (le_word (take 1 d) =? 1).
  - apply wp_step, wp_either_not. unfold byte_is at 1. apply wp_step, (wp_head_read others refs D p b); [done|done|lia|lia|lia|]. rewrite Hd by lia. apply wp_ret.
    change (take (Z.to_nat 1) (drop (Z.to_nat 1) d)) with (take 1 (drop 1 d)). destruct (le_word (take 1 (drop 1 d)) =? 0); cbn [andb] in Hno, Hyes; [|by apply Hno].
    apply wp_not. unfold byte_is. apply wp_step, (wp_head_read others refs D p b); [done|done|lia|lia|lia|]. rewrite Hd by lia. apply wp_ret.
    change (take (Z.to_nat 1) (drop (Z.to_nat 2) d)) with (take 1 (drop 2 d)). destruct (le_word (take 1 (drop 2 d)) =? 0x5e); cbn [negb]; [|by apply Hno].
    by apply Hyes; [|left].
  - rewrite <- (Z.add_0_r (pb_payload b)) at 1. apply wp_step, (wp_head_read others refs D p b); [done|done|lia|lia|lia|]. rewrite Z.add_0_r. fold d.
    destruct (decide (d = ethbroadcast)); [|by apply Hno]. by apply Hyes; [|right].
Qed.
(** * ethernet_input *)

(** The packet behind the header of the frame. *)
Definition stripped (b : pbuf) : pbuf := put_tot_len (pb_tot_len b - 14) (put_len (pb_len b - 14) (put_payload (pb_payload b + 14) b)).

Lemma stripped_dressed others refs D s p b : arp_ok others refs D s -> D !! p = Some b -> 14 <= pb_len b -> dressed b (stripped b) /\ pb_len (stripped b) = pb_len b - 14.
Proof.
  intros [(fp & fr & h & H) _ _ _ _] Hpb Hlen. destruct (count_sizes _ _ _ _ _ _ _ _ _ H Hpb) as [Hl Ht].
  unfold stripped. split; [split|]; cbn; rewrite ?u16_small by lia; try done; lia.
Qed.

Lemma wp_mem_inv {A} (m : lw A) s (Q : A -> mach etharp -> Prop) : wp (in_lw m) s Q -> wp m (lw_of s) (fun a l => Q a (on_lw l s)).
Proof. unfold wp, in_lw, part, etharp_lwip, lw_of. destruct s as [d w g]. cbn. destruct (m (arp_lw g)); intros H; exact H. Qed.

Lemma wp_strip others refs D p b s (Q : Z -> mach etharp -> Prop) :
  arp_ok others refs D s -> D !! p = Some b -> p <> 0 -> p ∉ links_of D -> 14 <= pb_len b ->
  (forall D' l', dressed_at others refs D s p b D' l' (stripped b) -> Q 0 (on_lw l' s)) ->
  wp (in_lw (pbuf_remove_header p SIZEOF_ETH_HDR)) s Q.
Proof.
  intros Hok Hpb Hp0 Hpl Hlen HQ. destruct (stripped_dressed _ _ _ _ _ _ Hok Hpb Hlen) as [Hd _].
  assert (forall l (Q : Z -> lwip -> Prop), lw_cells l !! p = Some (Buf b) -> wp (pbuf_set p stripped) l (fun _ l' => Q 0 l') -> wp (pbuf_remove_header p SIZEOF_ETH_HDR) l Q) as Hrem.
  { intros l Q' Hb HQ'. unfold pbuf_remove_header. destruct (Z.eqb_spec p 0); [done|]. change (0xFFFF <? SIZEOF_ETH_HDR) with false. change (SIZEOF_ETH_HDR =? 0) with false. cbn [orb].
    change (u16 SIZEOF_ETH_HDR) with 14. apply wp_step, (wp_pbuf_at _ b); [done|]. destruct (Z.ltb_spec (pb_len b) 14); [lia|]. apply wp_step.
    eapply wp_mono; [exact HQ'|]. intros [] l' H'. by apply wp_ret. }
  apply wp_mem, Hrem; [destruct Hok as [(fp & fr & h & H) _ _ _ _]; by apply (ct_cell (ct_core H))|].
  apply (wp_mem_inv _ s (fun _ s' => Q 0 s')), (wp_dress others refs D p b); [done|done|done|done|]. intros l'. apply HQ.
Qed.

Definition frame_type (l : lwip) (b : pbuf) : Z := le_word (lw_bytes l (pb_payload b + 12) 2).

(** What the buffer of a frame is when the packet in it is passed on. *)
Definition received (n : netif4) l (b : pbuf) : pbuf :=
  stripped (with_mark (mark (lw_bytes l (pb_payload b) 6)) (if pb_if_idx b =? NETIF_NO_INDEX then put_if_idx (netif_get_index n) b else b)).

(** The memory when the packet is passed on: the buffer of the frame begins at the packet. *)
Definition opened (n : netif4) (p : Z) (b : pbuf) l : lwip := with_cells (insert p (Buf (received n l b))) l.

Lemma wp_pass_on others refs D0 s0 D nif n p b up s (Q : Z -> mach etharp -> Prop) :
  arp_ok others (p :: refs) D s -> keeps (filter (fun x => x <> p) (p :: refs ++ qs (tab_of s))) D0 (lw_of s0) D (lw_of s) -> arp_netifs (glb s) = arp_netifs (glb s0) ->
  arp_netifs (glb s) !! nif = Some n -> D !! p = Some b -> p <> 0 -> p ∉ links_of D -> 14 <= pb_len b ->
  (n4_flags n .& NETIF_FLAG_ETHARP = 0 -> forall s', tab_of s' = tab_of s -> dev s' = dev s -> kept_ok others refs D0 s0 p s' -> Q ERR_OK s') ->
  (n4_flags n .& NETIF_FLAG_ETHARP <> 0 -> forall D' l', dressed_at others (p :: refs) D s p b D' l' (stripped b) -> wp up (on_lw l' s) (fun _ => Q ERR_OK)) ->
  wp (pass_on custom_free_function p nif up) s Q.
Proof.
  intros Hok Hk En Hnif Hpb Hp0 Hpl Hlen Hdrop Hup. unfold pass_on. apply wp_step, (wp_netif_at nif n); [done|].
  destruct (Z.eqb_spec (n4_flags n .& NETIF_FLAG_ETHARP) 0) as [E|E].
  - apply wp_step, (wp_drop custom_free_function others refs D0 s0 D p p s); [done|done|done|]. intros s' Et Ed Hk'. by apply wp_ret, (Hdrop E).
  - apply wp_step, (wp_strip others (p :: refs) D p b); [done|done|done|done|done|]. intros D' l' Hd. change (negb (0 =? 0)) with false. cbn iota.
    apply wp_step. eapply wp_mono; [by apply (Hup E D' l')|]. intros [] s' H'. by apply wp_ret.
Qed.

Lemma wp_ethernet_input others refs D nif n p b s (Q : Z -> mach etharp -> Prop) :
  arp_ok others (p :: refs) D s -> arp_netifs (glb s) !! nif = Some n -> D !! p = Some b -> p <> 0 -> p ∉ links_of D ->
  (forall s', (pb_len b <= 14 \/ n4_flags n .& NETIF_FLAG_ETHARP = 0 \/ frame_type (lw_of s) b <> PP_HTONS ETHTYPE_IP /\ frame_type (lw_of s) b <> PP_HTONS ETHTYPE_ARP) ->
     tab_of s' = tab_of s -> dev s' = dev s -> kept_ok others refs D s p s' -> Q ERR_OK s') ->
  (14 < pb_len b -> n4_flags n .& NETIF_FLAG_ETHARP <> 0 -> forall D' l', dressed_at others (p :: refs) D s p b D' l' (received n (lw_of s) b) ->
     (frame_type (lw_of s) b = PP_HTONS ETHTYPE_IP -> wp (ip4_input p nif) (on_lw l' s) (fun _ => Q ERR_OK)) /\
     (frame_type (lw_of s) b = PP_HTONS ETHTYPE_ARP -> wp (etharp_input custom_free_function p nif) (on_lw l' s) (fun _ => Q ERR_OK))) ->
  wp (ethernet_input custom_free_function ip4_input p nif) s Q.
Proof.
  intros Hok Hnif Hpb Hp0 Hpl Hdrop Hpass. pose proof (pbuf_len_nonneg _ _ _ _ _ _ Hok Hpb) as Hl0. unfold ethernet_input. apply wp_step, (wp_mem_read _ b).
  { destruct Hok as [(fp & fr & h & H) _ _ _ _]. apply (wp_pbuf_at _ b); [by apply (ct_cell (ct_core H))|done]. }
  change SIZEOF_ETH_HDR with 14. destruct (Z.leb_spec (pb_len b) 14) as [Hlen|Hlen].
  { apply wp_step, (wp_drop custom_free_function others refs D s D p p s); [done|apply keeps_refl|done|]. intros s' Et Ed Hk. apply wp_ret, Hdrop; [by left|done|done|done]. }
  set (b1 := if pb_if_idx b =? NETIF_NO_INDEX then put_if_idx (netif_get_index n) b else b). assert (pb_payload b1 = pb_payload b /\ pb_len b1 = pb_len b /\ dressed b b1) as (Ep1 & El1 & Hd1).
  { unfold b1. destruct (pb_if_idx b =? NETIF_NO_INDEX); (split; [done|]; split; [done|]); [by split|by apply dressed_refl]. }
  assert (forall D1 l1, dressed_at others (p :: refs) D s p b D1 l1 b1 ->
    wp (t <- in_lw (lw_read (pb_payload b + 12) 2) ;;
        let type := le_word t in
        mark_cast p (pb_payload b) ;;
        if type =? PP_HTONS ETHTYPE_IP then pass_on custom_free_function p nif (ip4_input p nif)
        else if type =? PP_HTONS ETHTYPE_ARP then pass_on custom_free_function p nif (etharp_input custom_free_function p nif)
        else free_pbuf custom_free_function p ;; ret ERR_OK) (on_lw l1 s) Q) as Hrest.
  { intros D1 l1 A. pose proof A as [A1 A2 A3 A4 A5 _ A6 A7].
    assert (forall a k, lw_bytes (lw_of (on_lw l1 s)) a k = lw_bytes (lw_of s) a k) as Hbytes by (intros a k; apply lw_bytes_agree; intros x _; change (lw_data l1 x = lw_data (lw_of s) x); by rewrite A5).
    rewrite <- Ep1. apply wp_step, (wp_head_read others (p :: refs) D1 p b1); [done|done|lia|lia|lia|]. cbn zeta. rewrite Hbytes, Ep1. fold (frame_type (lw_of s) b). rewrite <- Ep1.
    apply wp_step, (wp_mark_cast others (p :: refs) D1 p b1); [done|done|done|lia|]. rewrite Hbytes, Ep1. intros D2 l2 A'. set (b2 := with_mark _ b1) in *.
    pose proof (dressed_at_trans _ _ _ _ _ _ _ _ _ _ _ _ A A') as C. pose proof C as [C1 C2 C3 C4 C5 _ C6 C7].
    assert (pb_len b2 = pb_len b) as El2 by (unfold b2, with_mark; by destruct (_ =? 0)).
    assert (forall up, (n4_flags n .& NETIF_FLAG_ETHARP <> 0 -> forall D' l', dressed_at others (p :: refs) D s p b D' l' (received n (lw_of s) b) -> wp up (on_lw l' s) (fun _ => Q ERR_OK)) ->
      wp (pass_on custom_free_function p nif up) (on_lw l2 s) Q) as Hp.
    { intros up Hup. apply (wp_pass_on others refs D s D2 nif n p b2 up (on_lw l2 s)); [done|exact (C2 _)|done|done|done|done|done|lia| |].
      - intros E s' Et Ed Hk. apply Hdrop; [by right; left|done|done|done].
      - intros E D' l' A3'. apply (Hup E D' l'). exact (dressed_at_trans _ _ _ _ _ _ _ _ _ _ _ _ C A3'). }
    change (lw_of (on_lw l1 s)) with l1 in *. destruct (Z.eqb_spec (frame_type (lw_of s) b) (PP_HTONS ETHTYPE_IP)) as [E1|E1].
    { apply Hp. intros E D' l' A3'. by apply (Hpass Hlen E D' l'). }
    destruct (Z.eqb_spec (frame_type (lw_of s) b) (PP_HTONS ETHTYPE_ARP)) as [E2|E2].
    { apply Hp. intros E D' l' A3'. by apply (Hpass Hlen E D' l'). }
    apply wp_step, (wp_drop custom_free_function others refs D s D2 p p (on_lw l2 s)); [done|exact (C2 _)|done|]. intros s' Et Ed Hk. apply wp_ret, Hdrop; [by right; right|done|done|done]. }
  assert (b1 = b1) as Eb1 by done. unfold b1 in Eb1 at 1. destruct (Z.eqb_spec (pb_if_idx b) NETIF_NO_INDEX) as [E|E].
  - apply wp_step, wp_step, (wp_netif_at nif n); [done|]. assert (dressed b (put_if_idx (netif_get_index n) b)) as Hd2 by by rewrite Eb1.
    apply (wp_dress others (p :: refs) D p b (put_if_idx (netif_get_index n))); [done|done|done|done|]. rewrite Eb1. intros l' A. by apply (Hrest _ l' A).
  - apply wp_step, wp_ret. specialize (Hrest D (lw_of s)). rewrite on_lw_same in Hrest. apply Hrest. rewrite <- Eb1. apply dressed_at_refl; [done|done|done|lia].
Qed.
End frames.
