(* ===== verification/EtharpProps.v ===== *)
(** The ARP cache: what holds in every run of the program, how entries end, and how a packet gets to
    its hardware address. *)
From S2P Require Import Prelude Machine LwMem LwHeap Pbuf PbufCopy PbufChain PbufAlloc PbufData PbufClone PbufCoalesce PbufShape PbufRefs PbufKeep Etharp EtharpSpec EtharpTable EtharpLearn EtharpFlow EtharpInput EtharpFrame.
From stdpp Require Import list gmap.

#[local] Open Scope Z_scope.
#[local] Open Scope fw_scope.

(** The table at the start. *)
Definition blank_entry : etharp_entry := EtharpEntry 0 0 0 ethzero 0 ETHARP_STATE_EMPTY.
Definition blank_table : list etharp_entry := replicate 10 blank_entry.

Lemma blank_ok nets : tab_ok nets blank_table.
Proof.
  assert (forall i e, aget blank_table i = Some e -> e = blank_entry) as H.
  { intros i e Hi%aget_elem. by apply elem_of_replicate in Hi as [-> _]. }
  split; [done|..].
  - intros i e ->%H. split; try done. apply is_hwaddr_ones.
  - intros i j e e' ->%H _ Hu. done.
Qed.

(** * Which entry is recycled *)

(** How readily an entry is given up: one that is empty, one with an address, one that waits, and
    last one that waits with a packet. *)
Definition rank (e : etharp_entry) : Z :=
  match ae_state e with
  | ETHARP_STATE_EMPTY => 3
  | ETHARP_STATE_PENDING => if ae_q e =? 0 then 1 else 0
  | _ => 2
  end.

(** The first of the empty entries, or the oldest, and last, of those that are given up most readily. *)
Definition first_choice (t : list etharp_entry) (i : Z) (e : etharp_entry) : Prop :=
  aget t i = Some e /\ forall j e', aget t j = Some e' -> j <> i ->
    rank e' < rank e \/ rank e' = rank e /\ if rank e =? 3 then i < j else ae_ctime e' < ae_ctime e \/ ae_ctime e' = ae_ctime e /\ j < i.

Lemma oldest_first f t n i age r : oldest f t n i age -> n = Z.of_nat (length t) -> i <> ARP_TABLE_SIZE -> r <> 3 -> (forall e, f e = true <-> rank e = r) ->
  (forall j e, aget t j = Some e -> rank e <= r) -> exists e, first_choice t i e.
Proof.
  intros [(? & _)|(e & Hi & He & Hf & Hage & H)] -> Hn Hr3 Hfr Hle; [done|]. exists e. split; [done|]. intros j e' Hj Hne. apply Hfr in Hf.
  destruct (Z.eq_dec (rank e') r) as [E|E]; [|specialize (Hle j e' Hj); lia]. right. split; [congruence|]. rewrite Hf. destruct (Z.eqb_spec r 3); [done|].
  destruct (H j e' Hj ltac:(apply aget_Some in Hj; lia) (proj2 (Hfr e') E)) as [H1 H2]. destruct (Z.lt_trichotomy i j) as [?|[?|?]]; lia.
Qed.

Lemma victim_first nets t c : tab_ok nets t -> found t (Z.of_nat (length t)) c -> exists e, first_choice t (victim c) e.
Proof.
  intros Ht Hf. pose proof (to_size _ _ Ht) as Hsz. destruct (found_victim _ t c Ht Hf) as (e & He & Huse). pose proof Hf as [Fe Fs Fp Fq]. rewrite Hsz in *. unfold victim in *.
  destruct (Z.ltb_spec (Etharp.empty c) ARP_TABLE_SIZE) as [Hlt|Hge].
  { exists e. split; [done|]. intros j e' Hj Hne. destruct Fe as [(? & _)|(e0 & _ & He0 & _ & Hfirst)]; [lia|].
    assert (rank e = 3) as -> by (unfold rank, in_use in *; by destruct (ae_state e)). change (3 =? 3) with true.
    destruct (in_use e') eqn:Hu; [left; unfold rank, in_use in *; destruct (ae_state e'); try lia; by destruct (_ =? 0)|].
    right. split; [unfold rank, in_use in *; by destruct (ae_state e')|]. destruct (Z.lt_trichotomy (Etharp.empty c) j) as [?|[?|?]]; [done|lia|]. by rewrite (Hfirst j e' Hj) in Hu. }
  assert (forall j e', aget t j = Some e' -> rank e' <= 2) as H2.
  { intros j e' Hj. specialize (Huse j e' Hj). unfold rank, in_use in *. destruct (ae_state e'); try done; try lia; destruct (_ =? 0); lia. }
  destruct (Z.ltb_spec (old_stable c) ARP_TABLE_SIZE) as [Hs|Hs].
  { apply (oldest_first _ t ARP_TABLE_SIZE _ _ 2 Fs); [done|lia|done| |done]. intros x. unfold rank. destruct (ae_state x), (ae_q x =? 0); done. }
  assert (forall j e', aget t j = Some e' -> rank e' <= 1) as H1.
  { intros j e' Hj. destruct Fs as [(_ & _ & Hno)|(x & ? & _)]; [|lia]. specialize (Hno j e' Hj ltac:(apply aget_Some in Hj; lia)). specialize (H2 j e' Hj).
    unfold rank in *. cbn beta in Hno. destruct (ae_state e'); try done; destruct (_ =? 0); lia. }
  destruct (Z.ltb_spec (old_pending c) ARP_TABLE_SIZE) as [Hp|Hp].
  { apply (oldest_first _ t ARP_TABLE_SIZE _ _ 1 Fp); [done|lia|done| |done]. intros x. unfold rank, pending. destruct (ae_state x), (ae_q x =? 0); done. }
  assert (forall j e', aget t j = Some e' -> rank e' <= 0) as H0.
  { intros j e' Hj. destruct Fp as [(_ & _ & Hno)|(x & ? & _)]; [|lia]. specialize (Hno j e' Hj ltac:(apply aget_Some in Hj; lia)). specialize (H1 j e' Hj).
    unfold rank, pending in *. cbn beta in Hno. destruct (ae_state e'); try lia; destruct (_ =? 0); (done || lia). }
  apply (oldest_first _ t ARP_TABLE_SIZE _ _ 0 Fq); [done| |done| |done]; [|intros x; unfold rank, pending; destruct (ae_state x), (ae_q x =? 0); done].
  apply aget_Some in He. lia.
Qed.

Section props.
Context {B : Bus} {P : Pools} {L : LwLayout} {O : LwRoom} {K : EthLink B} (custom_free_function : Z -> lw unit).
Context (ip4_input : Z -> Z -> M (mach etharp) unit).
Implicit Types (s : mach etharp) (e : etharp_entry) (D : world).

(** * Runs *)

(** No buffer is chained in front of [q]. *)
Definition next_of (c : cell) : Z := match c with Buf b => pb_next b | _ => 0 end.
Definition heads s (q : Z) : Prop := map_Forall (fun _ c => next_of c <> q) (lw_cells (lw_of s)).

Lemma heads_unlinked others refs D s q : counted others refs D (lw_of s) -> heads s q -> q ∉ links_of D.
Proof.
  intros (fp & fr & h & H) Hq (x & -> & Hi)%list_elem_of_fmap. destruct x as [a b]. apply elem_of_map_to_list in Hi.
  apply (Hq a (Buf b)); [by apply (ct_cell (ct_core H))|done].
Qed.

(** A program that gives packets to the layer, and the packets and the time that it gets; [refs] are
    the references to packets that it has. *)
Inductive arp_run : mach etharp -> list Z -> Prop :=
| run_start s s' : (forall t m x, m ∈ memp_elems t -> m <= x < m + memp_size t -> lw_valid (lw_of s) x = true) ->
    tab_of s = blank_table -> etharp_cached_entry (glb s) = 0 ->
    (forall nif n, arp_netifs (glb s) !! nif = Some n -> nif <> 0 /\ is_hwaddr (n4_hwaddr n)) ->
    in_lw (mem_init ;; memp_init) s = Ret tt s' -> arp_run s' []
| run_alloc s refs layer n type p s' : arp_run s refs -> 0 <= layer <= 54 -> 0 <= n < 65536 -> type = PBUF_RAM \/ type = PBUF_POOL ->
    in_lw (pbuf_alloc custom_free_function PBUF_FUEL layer n type) s = Ret p s' -> arp_run s' (p :: refs)
| run_store s refs d : arp_run s refs -> arp_run (on_lw (with_data d (lw_of s)) s) refs
| run_free s p refs s' : arp_run s (p :: refs) -> free_pbuf custom_free_function p s = Ret tt s' -> arp_run s' refs
| run_swap s refs refs' : arp_run s refs -> Permutation refs refs' -> arp_run s refs'
| run_outside s refs h : arp_run s refs -> arp_run (on_dev h s) refs
| run_output s refs nif q a r s' : arp_run s refs -> is_Some (arp_netifs (glb s) !! nif) -> q ∈ refs -> q <> 0 -> occ q refs < 245 -> heads s q ->
    etharp_output custom_free_function nif q a s = Ret r s' -> arp_run s' refs
| run_query s refs nif q a r s' : arp_run s refs -> is_Some (arp_netifs (glb s) !! nif) -> q ∈ refs -> q <> 0 -> occ q refs < 245 -> heads s q ->
    etharp_query custom_free_function nif a q s = Ret r s' -> arp_run s' refs
| run_frame s p refs nif b r s' : arp_run s (p :: refs) -> is_Some (arp_netifs (glb s) !! nif) -> p <> 0 -> p ∉ qs (tab_of s) -> heads s p ->
    lw_cells (lw_of s) !! p = Some (Buf b) -> 42 <= pb_len b -> frame_type (lw_of s) b <> PP_HTONS ETHTYPE_IP ->
    ethernet_input custom_free_function ip4_input p nif s = Ret r s' -> arp_run s' refs
| run_tmr s refs s' : arp_run s refs -> etharp_tmr custom_free_function s = Ret tt s' -> arp_run s' refs
| run_cleanup s refs nif s' : arp_run s refs -> etharp_cleanup_netif custom_free_function nif s = Ret tt s' -> arp_run s' refs.

Lemma counted_nulls others zs refs D l : Forall (fun z => z = 0) zs -> counted others (zs ++ refs) D l <-> counted others refs D l.
Proof. induction 1 as [|z zs -> _ IH]; [done|]. cbn [app]. by rewrite counted_null. Qed.

Lemma occ_bound q refs t : Z.of_nat (length t) = ARP_TABLE_SIZE -> occ q refs < 245 -> occ q (refs ++ qs t) < 255.
Proof.
  intros Hl Hq. rewrite occ_app. assert (occ q (qs t) <= 10); [|lia]. unfold occ, qs.
  pose proof (length_filter (fun x => x = q) (ae_q <$> t)) as H. rewrite length_fmap in H. unfold ARP_TABLE_SIZE in Hl. lia.
Qed.

Lemma heads_sendable others refs D s q : arp_ok others refs D s -> q ∈ refs -> q <> 0 -> occ q refs < 245 -> heads s q -> sendable refs (tab_of s) D q.
Proof.
  intros [Hm _ Ht _ _] Hq Hq0 Hocc Hh. split; [done|]. split; [done|]. split; [by eapply heads_unlinked|]. apply occ_bound; [apply Ht|done].
Qed.

Lemma queried_kept others refs D nif n a q s r s' : arp_ok others refs D s -> queried custom_free_function others refs D nif n a q s r s' -> exists D', arp_ok others refs D' s'.
Proof.
  intros Hok H. destruct H as [|i e r s' _ _ _ _ _ _ (D' & ? & _)|i e p D' s' _ _ _ _ _ _ Hok'|i e s' _ _ _ _ _ (D' & ? & _)]; by eexists.
Qed.

Lemma passed_kept others refs D nif n a q s r s' : arp_ok others refs D s -> passed custom_free_function others refs D nif n a q s r s' -> exists D', arp_ok others refs D' s'.
Proof.
  intros Hok H. destruct H as [mac r s' _ _ _ (D' & ? & _)| |hop i e e' h r s' _ _ _ _ _ _ (D' & ? & _)|hop r s' _ _ Hq]; [by eexists..|by eapply queried_kept].
Qed.

Lemma arrived_kept others refs D nif n pk s s' : arrived custom_free_function others refs D nif n pk s s' -> exists D', arp_ok others refs D' s'.
Proof. intros H. destruct H as [s' _ _ _ (D' & ? & _)|ex r s1 s' _ _ _ _ _ (D' & ? & _)]; by eexists. Qed.

(** A packet of ARP in a frame. *)
Lemma received_arrives others refs D s n p b c D' l' : arp_ok others refs D s -> D !! p = Some b -> chain D p ((p, b) :: c) -> 42 <= pb_len b ->
  dressed_at others refs D s p b D' l' (received n (lw_of s) b) ->
  arrives D' (lw_of (on_lw l' s)) p (pb_payload b + 14) (lw_bytes (lw_of s) (pb_payload b + 14) 28) /\ pb_payload (received n (lw_of s) b) = pb_payload b + 14.
Proof.
  intros Hok Hpb Hch Hlen [A1 A2 A3 A4 A5 _ A6 A7]. pose proof A6 as [E1 E2 E3 E4 E5 E6 E7].
  assert (pb_payload (received n (lw_of s) b) = pb_payload b + 14) as Ep.
  { unfold received, stripped, with_mark. cbn. by destruct (_ =? 0), (pb_if_idx b =? NETIF_NO_INDEX). }
  split; [|done]. exists (received n (lw_of s) b), c. split; [by apply A7|]. split; [lia|]. split; [done|].
  apply lw_bytes_agree. intros x _. change (lw_data l' x = lw_data (lw_of s) x). by rewrite A5.
Qed.

(** ethernet_input of a frame that is none of IP. *)
Lemma wp_arp_frame others refs D nif n p b s :
  arp_ok others (p :: refs) D s -> arp_netifs (glb s) !! nif = Some n -> D !! p = Some b -> p <> 0 -> p ∉ links_of D -> p ∉ qs (tab_of s) ->
  42 <= pb_len b -> frame_type (lw_of s) b <> PP_HTONS ETHTYPE_IP ->
  wp (ethernet_input custom_free_function ip4_input p nif) s (fun r s' => r = ERR_OK /\
    if negb (n4_flags n .& NETIF_FLAG_ETHARP =? 0) && (frame_type (lw_of s) b =? PP_HTONS ETHTYPE_ARP) then
      exists D1, let l1 := opened n p b (lw_of s) in (forall held, keeps (filter (fun x => x <> p) held) D (lw_of s) D1 l1) /\
        arrived custom_free_function others refs D1 nif n (lw_bytes (lw_of s) (pb_payload b + 14) 28) (on_lw l1 s) s'
    else tab_of s' = tab_of s /\ dev s' = dev s /\ kept_ok others refs D s p s').
Proof.
  intros Hok Hnif Hpb Hp0 Hpl Hpq Hlen Hty. destruct (ref_chain _ _ _ _ p (ao_mem _ _ _ _ Hok) ltac:(by left) Hp0) as (b' & c & Eb & _ & Hch).
  assert (b' = b) as -> by congruence.
  apply (wp_ethernet_input custom_free_function ip4_input others refs D nif n p b); [done|done|done|done|done|..].
  - intros s' Hwhy Et Ed Hk. split; [done|]. destruct Hwhy as [?|[E|[_ E]]]; [lia|by rewrite E|]. destruct (Z.eqb_spec (frame_type (lw_of s) b) (PP_HTONS ETHTYPE_ARP)); [done|].
    by rewrite andb_false_r.
  - intros _ Hfl D1 l1 A. split; [done|]. intros Ety. rewrite Ety, Z.eqb_refl. destruct (Z.eqb_spec (n4_flags n .& NETIF_FLAG_ETHARP) 0); [done|]. cbn [negb andb].
    destruct (received_arrives _ _ _ _ n _ _ c _ _ Hok Hpb Hch Hlen A) as [Ha Ep]. pose proof A as [A1 A2 A3 _ _ E1 _ _]. fold (opened n p b (lw_of s)) in E1.
    eapply wp_mono; [apply (wp_etharp_input custom_free_function others refs D1 nif n p _ _ _ (on_lw l1 s) A1 Hnif Hp0 A3 Ep Ha Hpq)|].
    intros u s' H. cbn beta in *. split; [done|]. exists D1. rewrite <- E1. done.
Qed.
Lemma pool_keeps others rs D l c p D' l' held : counted others rs D l -> (forall a, a ∈ c.*1 -> D !! a = None) -> D' = list_to_map c ∪ D -> chain D' p c -> p <> 0 ->
  counted others (p :: rs) D' l' -> lw_data l' = lw_data l -> keeps held D l D' l'.
Proof.
  intros (fp & fr & h & H) Hout -> Hc Hp0 (fp' & fr' & h' & H') Hd q cq Hq Hq0 Hcq.
  assert (forall a b, D !! a = Some b -> (list_to_map c ∪ D : world) !! a = Some b) as Hin.
  { intros a b Ha. apply lookup_union_Some_raw. right. split; [|done]. apply not_elem_of_list_to_map. intros Hi. rewrite (Hout a Hi) in Ha. done. }
  destruct (chain_cons _ _ _ Hcq Hq0) as (b & c' & -> & Hqb & _).
  assert (p <> q) as Hpq.
  { intros ->. destruct (chain_cons _ _ _ Hc Hp0) as (b' & c2 & -> & _). rewrite (Hout q ltac:(left)) in Hqb. done. }
  split.
  - exists ((q, b) :: c'). split; [|split; [apply alike_refl|]].
    + apply (pseg_agree (Buf <$> D)); [|done]. intros x (d & Hx)%elem_of_fst. destruct (chain_lookup _ _ _ x d Hcq Hx) as [_ Hxd]. by rewrite !lookup_fmap, (Hin x d Hxd), Hxd.
    + apply contents_agree. intros x _. by rewrite Hd.
  - intros Hl Hi. apply Hl. apply occ_pos. apply occ_pos in Hi. destruct (ct_count (ct_core H) q b Hqb) as [E1 _]. destruct (ct_count (ct_core H') q b (Hin q b Hqb)) as [E2 _].
    unfold holders in *. cbn [app] in E2. rewrite occ_cons, decide_False, !occ_app in E2 by done. rewrite occ_app in E1. lia.
Qed.

(** Another packet. *)
Lemma wp_alloc_arp refs D layer n type s : arp_ok [] refs D s -> 0 <= layer <= 54 -> 0 <= n < 65536 -> type = PBUF_RAM \/ type = PBUF_POOL ->
  wp (in_lw (pbuf_alloc custom_free_function PBUF_FUEL layer n type)) s (fun p s' => exists D', arp_ok [] (p :: refs) D' s').
Proof.
  intros Hok Hlayer Hn Hty. pose proof (ao_mem _ _ _ _ Hok) as Hm.
  assert (forall l', counted [] (refs ++ qs (tab_of s)) D l' -> lw_data l' = lw_data (lw_of s) -> exists D', arp_ok [] (0 :: refs) D' (on_lw l' s)) as H0.
  { intros l' Hm' Hd. exists D. apply (arp_ok_lw [] refs (0 :: refs) D s); [done|by apply counted_null|]. apply (fewer_keeps []); [by apply counted_null|apply fewer_refl|done]. }
  apply wp_mem. destruct Hty as [-> | ->].
  - apply (wp_alloc_ram_counted custom_free_function [] (refs ++ qs (tab_of s)) D); [done|done|done|intros _; by apply H0|]. intros p c b l' Hp0 Hrb HDp Hm' Hd. exists (<[p := b]> D).
    apply (arp_ok_lw [] refs (p :: refs) D s); [done|done|]. apply (new_keeps [] (refs ++ qs (tab_of s))); [done|done|apply Hrb|]. intros a d x _ _. by rewrite Hd.
  - apply (wp_alloc_pool_counted custom_free_function [] (refs ++ qs (tab_of s)) D); [done|done|done|exact H0|]. intros c p l' Hp0 Hout Hfr Hsum Hc Hm' Hd. exists (list_to_map c ∪ D).
    apply (arp_ok_lw [] refs (p :: refs) D s); [done|done|]. by apply (pool_keeps [] (refs ++ qs (tab_of s)) D (lw_of s) c p _ l').
Qed.

Lemma arp_run_ok s refs : arp_run s refs -> exists D, arp_ok [] refs D s.
Proof.
  induction 1 as [s s' Hv Ht Hc Hn E|s refs layer n type p s' _ [D Hok] Hlayer Hn Hty E|s refs d _ [D Hok]|s p refs s' _ [D Hok] E|s refs refs' _ [D Hok] Hp|s refs h _ [D Hok]
    |s refs nif q a r s' _ [D Hok] [n Hn] Hq Hq0 Hocc Hh E|s refs nif q a r s' _ [D Hok] [n Hn] Hq Hq0 Hocc Hh E|s p refs nif b r s' _ [D Hok] [n Hn] Hp0 Hpq Hh Hb Hlen Hty E
    |s refs s' _ [D Hok] E|s refs nif s' _ [D Hok] E].
  - assert (wp (in_lw (mem_init ;; memp_init)) s (fun _ s' => exists D, arp_ok [] [] D s')) as H; [|by apply (wp_run _ _ _ _ _ H E)].
    apply wp_mem, wp_refs_init; [done|]. intros l' Hm. exists ∅. assert (qs (tab_of s) = replicate 10 0) as Eq by by rewrite Ht.
    split; [|intros q Hq Hq0|change (tab_of (on_lw l' s)) with (tab_of s); rewrite Ht; apply blank_ok|cbn; by rewrite Hc|done].
    + change (tab_of (on_lw l' s)) with (tab_of s). rewrite Eq. cbn [app]. rewrite <- (app_nil_r (replicate 10 0)). by apply counted_nulls; [repeat constructor|].
    + change (tab_of (on_lw l' s)) with (tab_of s) in Hq. rewrite Eq in Hq. by apply elem_of_replicate in Hq as [? _].
  - by apply (wp_run _ _ _ _ _ (wp_alloc_arp refs D layer n type s Hok Hlayer Hn Hty) E).
  - exists D. destruct Hok as [(fp & fr & h & H) Hu Ht Hc Hn]. split; try done. exists fp, fr, h. by apply count_data.
  - assert (wp (free_pbuf custom_free_function p) s (fun _ s' => exists D, arp_ok [] refs D s')) as H; [|by apply (wp_run _ _ _ _ _ H E)].
    apply (wp_free_arp custom_free_function [] refs D); [done|]. intros D' l' Hok' _. by exists D'.
  - exists D. destruct Hok as [Hm Hu Ht Hc Hn]. split; try done. revert Hm. apply counted_perm. by rewrite Hp.
  - exists D. by apply arp_ok_dev.
  - pose proof (wp_output custom_free_function [] refs D nif n a q s Hok Hn (heads_sendable _ _ _ _ _ Hok Hq Hq0 Hocc Hh)) as H.
    by apply (passed_kept _ _ _ _ _ _ _ _ _ _ Hok (wp_run _ _ _ _ _ H E)).
  - pose proof (wp_query custom_free_function [] refs D nif n a q s Hok Hn (heads_sendable _ _ _ _ _ Hok Hq Hq0 Hocc Hh)) as H.
    by apply (queried_kept _ _ _ _ _ _ _ _ _ _ Hok (wp_run _ _ _ _ _ H E)).
  - destruct (ref_chain _ _ _ _ p (ao_mem _ _ _ _ Hok) ltac:(by left) Hp0) as (b' & c & Hpb & Hb' & _). assert (b' = b) as -> by congruence.
    pose proof (wp_arp_frame [] refs D nif n p b s Hok Hn Hpb Hp0 (heads_unlinked _ _ _ _ _ (ao_mem _ _ _ _ Hok) Hh) Hpq Hlen Hty) as H.
    apply (wp_run _ _ _ _ _ H) in E as [_ E]. destruct (_ && _); [destruct E as (D1 & _ & Ha); by eapply arrived_kept|destruct E as (_ & _ & D' & Hok' & _); by exists D'].
  - assert (wp (etharp_tmr custom_free_function) s (fun _ s' => exists D, arp_ok [] refs D s')) as H; [|by apply (wp_run _ _ _ _ _ H E)].
    apply (wp_etharp_tmr custom_free_function [] refs D); [done|]. intros h D' l' s2 Hok' _ _. by exists D'.
  - assert (wp (etharp_cleanup_netif custom_free_function nif) s (fun _ s' => exists D, arp_ok [] refs D s')) as H; [|by apply (wp_run _ _ _ _ _ H E)].
    apply (wp_cleanup_netif custom_free_function [] refs D); [done|]. intros D' l' s2 Hok' _. by exists D'.
Qed.
(** C13: the ARP cache keeps the packets that wait as it should: in every run of a program that sends
    packets, receives frames of ARP and lets time pass, with any cleanup of interfaces
    in between, a packet waits only in an entry that is pending, is in memory with all its
    bytes, and counts all references to it; no two entries in use are for the same address;
    every operation returns; and when the program has no reference left and no packet
    waits, every element of the pools is free and the heap is one free block. *)
Theorem etharp_run_safe s refs : arp_run s refs ->
  (forall i e, aget (tab_of s) i = Some e -> ae_q e <> 0 -> ae_state e = ETHARP_STATE_PENDING /\
     exists b c, pseg (lw_cells (lw_of s)) (ae_q e) ((ae_q e, b) :: c) 0 /\ packet ((ae_q e, b) :: c) /\ owned (lw_of s) ((ae_q e, b) :: c) /\
       occ (ae_q e) (refs ++ qs (tab_of s)) = pb_ref b) /\
  (forall i j e e', aget (tab_of s) i = Some e -> aget (tab_of s) j = Some e' -> in_use e = true -> in_use e' = true -> same_key e e' -> i = j) /\
  (exists s', etharp_tmr custom_free_function s = Ret tt s') /\
  (forall nif, exists s', etharp_cleanup_netif custom_free_function nif s = Ret tt s') /\
  (forall nif q a, is_Some (arp_netifs (glb s) !! nif) -> q ∈ refs -> q <> 0 -> occ q refs < 245 -> heads s q ->
     (exists r s', etharp_output custom_free_function nif q a s = Ret r s') /\ (exists r s', etharp_query custom_free_function nif a q s = Ret r s')) /\
  (forall p refs' nif b, Permutation refs (p :: refs') -> is_Some (arp_netifs (glb s) !! nif) -> p <> 0 -> p ∉ qs (tab_of s) -> heads s p ->
     lw_cells (lw_of s) !! p = Some (Buf b) -> 42 <= pb_len b -> frame_type (lw_of s) b <> PP_HTONS ETHTYPE_IP ->
     exists r s', ethernet_input custom_free_function ip4_input p nif s = Ret r s') /\
  (Forall (fun p => p = 0) refs -> (forall e, e ∈ tab_of s -> ae_q e = 0) -> exists fp fr, res (lw_of s) fp fr [(4096, false)] /\
     Permutation (memp_elems MEMP_PBUF_POOL) fp /\ Permutation (memp_elems MEMP_PBUF) fr).
Proof.
  intros Hrun. destruct (arp_run_ok s refs Hrun) as [D Hok]. pose proof Hok as [Hm Hu Ht Hc Hn]. split; [|split; [|split; [|split; [|split; [|split]]]]].
  - intros i e Hi Hq. pose proof (to_entry _ _ Ht i e Hi) as [E1 E2 E3 E4 E5 E6]. split; [destruct (ae_state e); try done; [by destruct Hq; apply E1|by destruct (E3 eq_refl)..]|].
    assert (ae_q e ∈ qs (tab_of s)) as Hin by (apply elem_qs; by exists i, e).
    destruct (ref_chain _ _ _ _ _ Hm ltac:(apply elem_of_app; by right) Hq) as (b & c & Hb & _ & Hch). exists b, c. destruct (counted_owned _ _ _ _ _ _ Hm Hch) as (Ho & Hp & _).
    destruct Hm as (fp & fr & h & H). destruct (count_packet _ _ _ _ _ _ _ H _ _ Hch) as [Hpk _]. split; [done|]. split; [done|]. split; [done|].
    destruct (ct_count (ct_core H) _ b Hb) as [-> _]. unfold holders. rewrite (occ_app _ _ (links_of D)).
    destruct (Z.eq_dec (occ (ae_q e) (links_of D)) 0) as [|Hne]; [lia|]. destruct (Hu _ Hin Hq). apply occ_pos. pose proof (occ_nonneg (ae_q e) (links_of D)). lia.
  - apply (to_unique _ _ Ht).
  - destruct (wp_returns (etharp_tmr custom_free_function) s) as ([] & s' & E); [apply (wp_etharp_tmr custom_free_function [] refs D); [exact Hok|by intros]|by exists s'].
  - intros nif. destruct (wp_returns (etharp_cleanup_netif custom_free_function nif) s) as ([] & s' & E); [apply (wp_cleanup_netif custom_free_function [] refs D); [exact Hok|by intros]|by exists s'].
  - intros nif q a [n Hnif] Hq Hq0 Hocc Hh. pose proof (heads_sendable _ _ _ _ _ Hok Hq Hq0 Hocc Hh) as Hs.
    split; [exact (wp_total _ _ _ (wp_output custom_free_function [] refs D nif n a q s Hok Hnif Hs))|exact (wp_total _ _ _ (wp_query custom_free_function [] refs D nif n a q s Hok Hnif Hs))].
  - intros p refs' nif b Hp [n Hnif] Hp0 Hpq Hh Hb Hlen Hty.
    assert (arp_ok [] (p :: refs') D s) as Hok' by (split; try done; revert Hm; apply counted_perm; by rewrite Hp). pose proof (ao_mem _ _ _ _ Hok') as Hm'.
    destruct (ref_chain _ _ _ _ p Hm' ltac:(by left) Hp0) as (b' & c & Hpb & Hb' & _). assert (b' = b) as -> by congruence.
    exact (wp_total _ _ _ (wp_arp_frame [] refs' D nif n p b s Hok' Hnif Hpb Hp0 (heads_unlinked _ _ _ _ _ Hm' Hh) Hpq Hlen Hty)).
  - intros Hr Hq. destruct Hm as (fp & fr & h & H). assert (Forall (fun p => p = 0) (refs ++ qs (tab_of s))) as Hall.
    { apply Forall_app. split; [done|]. apply Forall_forall. intros x (i & e & Hi & <-)%elem_qs. by apply Hq, (aget_elem _ i). }
    destruct (count_nothing _ _ _ _ _ _ H Hall) as (Hp & Hr' & ->). exists fp, fr. split; [apply H|done].
Qed.

(** C18: entries end: [n] periods of the timer always pass, and then an entry is gone, with the packet
    that waited in it, exactly if its age was to reach 300 periods, or 5 while no reply came;
    otherwise it has aged by [n] and keeps its addresses and its packet. *)
Theorem etharp_entries_expire s refs n : arp_run s refs -> exists s', ticks custom_free_function n s = Ret tt s' /\
  (forall i e, aget (tab_of s) i = Some e -> exists e', aget (tab_of s') i = Some e' /\
     if in_use e && (ae_ctime e + Z.of_nat n <? limit e)
     then in_use e' = true /\ ae_ctime e' = ae_ctime e + Z.of_nat n /\ ae_q e' = ae_q e /\ ae_ethaddr e' = ae_ethaddr e /\ same_key e e'
     else in_use e' = false /\ ae_q e' = 0) /\
  (300 <= Z.of_nat n -> (forall e, e ∈ tab_of s' -> in_use e = false) /\
     (Forall (fun p => p = 0) refs -> exists fp fr, res (lw_of s') fp fr [(4096, false)])).
Proof.
  intros Hrun. destruct (arp_run_ok s refs Hrun) as [D Hok]. pose proof (ao_tab _ _ _ _ Hok) as Ht.
  assert (wp (ticks custom_free_function n) s (fun _ s' => exists D', arp_ok [] refs D' s' /\ tab_of s' = (fun e => Nat.iter n aged e) <$> tab_of s)) as H.
  { apply (wp_ticks custom_free_function [] refs D); [done|]. intros h D' l' s' Hok' _. by exists D'. }
  destruct (wp_total _ _ _ H) as ([] & s' & E). destruct (wp_run _ _ _ _ _ H E) as (D' & Hok' & Et). exists s'. split; [done|].
  pose proof (ao_tab _ _ _ _ Hok') as Ht'.
  assert (forall i e, aget (tab_of s) i = Some e -> aget (tab_of s') i = Some (Nat.iter n aged e)) as Hi'.
  { intros i e Hi. rewrite Et. revert Hi. unfold aget. destruct (i <? 0); [done|]. intros Hi. by rewrite list_lookup_fmap, Hi. }
  assert (forall e, in_use e = false -> Nat.iter n aged e = e) as Hun.
  { intros e Hu. clear -Hu. induction n as [|n IH]; [done|]. cbn. unfold Nat.iter in IH. rewrite IH. by apply aged_unused. }
  split.
  - intros i e Hi. exists (Nat.iter n aged e). split; [by apply Hi'|]. pose proof (to_entry _ _ Ht i e Hi) as He. pose proof (to_entry _ _ Ht' i _ (Hi' i e Hi)) as He'.
    destruct (in_use e) eqn:Hu; cbn [andb].
    + destruct (aged_iter _ e n He Hu) as (_ & Hk & Hl). destruct (_ <? _); [destruct Hl as (? & ? & ? & ? & ?); done|]. split; [done|].
      apply (eo_empty _ _ He'). unfold in_use in Hl. by destruct (ae_state (Nat.iter n aged e)).
    + rewrite Hun in * by done. split; [done|]. apply (eo_empty _ _ He). unfold in_use in Hu. by destruct (ae_state e).
  - intros Hn. assert (forall e, e ∈ tab_of s' -> in_use e = false) as Hall.
    { rewrite Et. intros e' (e & -> & (i & Hi)%elem_aget)%list_elem_of_fmap. pose proof (to_entry _ _ Ht i e Hi) as He. destruct (in_use e) eqn:Hu; [|by rewrite Hun].
      destruct (aged_iter _ e n He Hu) as (_ & _ & Hl). pose proof (eo_ctime _ _ He). assert (limit e <= 300) by (unfold limit; by destruct (pending e)).
      destruct (Z.ltb_spec (ae_ctime e + Z.of_nat n) (limit e)); [lia|done]. }
    split; [done|]. intros Hr. destruct (ao_mem _ _ _ _ Hok') as (fp & fr & h & Hc).
    assert (Forall (fun p => p = 0) (refs ++ qs (tab_of s'))) as Hz.
    { apply Forall_app. split; [done|]. apply Forall_forall. intros x (i & e & Hi & <-)%elem_qs. apply (eo_empty _ _ (to_entry _ _ Ht' i e Hi)).
      specialize (Hall e (aget_elem _ _ _ Hi)). unfold in_use in Hall. by destruct (ae_state e). }
    destruct (count_nothing _ _ _ _ _ _ Hc Hz) as (_ & _ & ->). exists fp, fr. apply Hc.
Qed.
(** C19: etharp_find_entry finds the one entry for an address; otherwise, unless it is only to look,
    it makes an entry: the first that is empty, and if there is none and it is to try hard,
    the oldest that has an address, the oldest that waits without a packet, or the oldest
    that waits, in this order. What was in that entry is dropped, and the other entries stay. *)
Theorem etharp_find_entry_recycles s refs a flags nif : arp_run s refs -> nif <> 0 ->
  exists i s', etharp_find_entry custom_free_function (Some a) flags nif s = Ret i s' /\
  ((exists e, aget (tab_of s) i = Some e /\ in_use e = true /\ ae_ipaddr e = a /\ ae_netif e = nif /\ s' = s) \/
   (forall e, e ∈ tab_of s -> in_use e = true -> ae_ipaddr e = a -> ae_netif e <> nif) /\
   if any_bit flags ETHARP_FLAG_FIND_ONLY || negb (any_bit flags ETHARP_FLAG_TRY_HARD) && forallb in_use (tab_of s)
   then i = ERR_MEM /\ s' = s
   else exists e, first_choice (tab_of s) i e /\ tab_of s' = aset (tab_of s) i (EtharpEntry 0 a nif (ae_ethaddr e) 0 ETHARP_STATE_EMPTY) /\ dev s' = dev s).
Proof.
  intros Hrun Hnif. destruct (arp_run_ok s refs Hrun) as [D Hok]. pose proof (ao_tab _ _ _ _ Hok) as Ht.
  assert ((forall e, e ∈ tab_of s -> matches (Some a) nif e = false) -> forall e, e ∈ tab_of s -> in_use e = true -> ae_ipaddr e = a -> ae_netif e <> nif) as Hno.
  { intros H e He Hu E1 E2. specialize (H e He). by rewrite (proj2 (matches_key a nif e Hnif)) in H. }
  apply wp_Ret, (wp_find_entry custom_free_function [] refs D); [done|..].
  - intros i e Hi Hm. left. exists e. apply (matches_key a nif e Hnif) in Hm as (? & ? & ?). done.
  - intros Hm Hwhy. right. split; [by apply Hno|]. destruct Hwhy as [->|[-> Hall]]; [done|]. cbn [negb andb].
    assert (forallb in_use (tab_of s) = true) as -> by (apply forallb_forall; intros e He; apply Hall; by apply list_elem_of_In). by rewrite orb_true_r.
  - intros c e D' l' i s' Hm Hfo Hf Hi Hwhy Hok' Hk. right. split; [by apply Hno|]. rewrite Hfo. cbn [orb].
    assert (negb (any_bit flags ETHARP_FLAG_TRY_HARD) && forallb in_use (tab_of s) = false) as ->.
    { destruct Hwhy as [->|Hu]; [done|]. destruct (forallb in_use (tab_of s)) eqn:E; [|by rewrite andb_false_r]. rewrite forallb_forall in E.
      rewrite (E e) in Hu; [done|]. by apply list_elem_of_In, (aget_elem _ i). }
    exists e. rewrite <- (to_size _ _ Ht) in Hf. destruct (victim_first _ _ c Ht Hf) as (e' & He'). assert (e' = e) as -> by (destruct He' as [E _]; unfold i in Hi; congruence). done.
Qed.
(** * Sending *)

(** The packet [q] of [s] goes to [dst] in a frame, if there is room for the header. *)
Definition framed s (q nif : Z) (dst src : list Z) (h : hw) (r : Z) (h' : hw) : Prop :=
  exists b c, pseg (lw_cells (lw_of s)) q ((q, b) :: c) 0 /\
    if has_room 14 q b then (r, h') = linkoutput nif (eth_frame dst src ETHTYPE_IP (contents (lw_of s) ((q, b) :: c))) h
    else r = ERR_BUF /\ h' = h.

(** The packet [p] of [s'] has the bytes of the packet [q] of [s]. *)
Definition same_bytes s (q : Z) s' (p : Z) : Prop :=
  exists b c b' c', pseg (lw_cells (lw_of s)) q ((q, b) :: c) 0 /\ pseg (lw_cells (lw_of s')) p ((p, b') :: c') 0 /\
    contents (lw_of s') ((p, b') :: c') = contents (lw_of s) ((q, b) :: c).

Lemma counted_pseg others refs D l p c : counted others refs D l -> chain D p c -> pseg (lw_cells l) p c 0.
Proof. intros (fp & fr & h & H). by apply (count_pseg others refs D fp fr h). Qed.

Lemma delivered_framed others refs D nif dst src q r h h' s : counted others refs D (lw_of s) -> delivered nif dst src D (lw_of s) q r h h' -> framed s q nif dst src h r h'.
Proof.
  intros Hm (b & c & Hch & Hd). exists b, c. split; [by apply (counted_pseg others refs D)|]. destruct (has_room 14 q b); [|done].
  destruct Hd as [-> ->]. by destruct (linkoutput _ _ _).
Qed.

(** A packet with the bytes [bytes] waits for [hop], since [age] periods of the timer. *)
Definition held_for (refs : list Z) D s (nif hop : Z) (bytes : list Z) (age : Z) : Prop :=
  arp_ok [] refs D s /\ exists i e b c, aget (tab_of s) i = Some e /\ pending e = true /\ ae_ipaddr e = hop /\ ae_netif e = nif /\ ae_ctime e = age /\
    ae_q e <> 0 /\ chain D (ae_q e) ((ae_q e, b) :: c) /\ contents (lw_of s) ((ae_q e, b) :: c) = bytes /\ has_room 14 (ae_q e) b = true.

(** A step that keeps the packet and the entry, but for its age. *)
Lemma held_step refs D s nif hop bytes age refs' D' s' age' :
  held_for refs D s nif hop bytes age -> arp_ok [] refs' D' s' ->
  (forall i e, aget (tab_of s) i = Some e -> pending e = true -> ae_ctime e = age -> exists e', aget (tab_of s') i = Some e' /\ pending e' = true /\ same_key e e' /\
     ae_ctime e' = age' /\ ae_q e' = ae_q e) ->
  keeps (qs (tab_of s')) D (lw_of s) D' (lw_of s') -> held_for refs' D' s' nif hop bytes age'.
Proof.
  intros (Hok & i & e & b & c & Hi & Hp & Ea & En & Et & Hq & Hch & Hb & Hr) Hok' He Hk. split; [done|]. destruct (He i e Hi Hp Et) as (e' & Hi' & Hp' & [K1 K2] & Et' & Eq).
  destruct (Hk (ae_q e) _ ltac:(apply elem_qs; by exists i, e') Hq Hch) as [(c' & Hc' & Hal & E) _]. inversion Hal as [|? [x b'] ? c2 [E1 E2] Hal']; subst. cbn in E1. subst x.
  exists i, e', b', c2. rewrite Eq. do 5 (split; [congruence || done|]). split; [done|]. split; [done|]. split; [done|]. by rewrite <- (alike_room 14 (ae_q e) b b').
Qed.

Lemma awaited_key a nif s i e : nif <> 0 -> awaited a nif s i e -> is_Some (aget (tab_of s) i) /\ pending e = true /\ ae_ipaddr e = a /\ ae_netif e = nif.
Proof.
  intros Hnif [(Hi & Hm & Hp)|(_ & c & e0 & _ & _ & Hi & ->)]; [|split; [by exists e0|done]]. apply (matches_key a nif e Hnif) in Hm as (? & ? & ?). split; [by exists e|done].
Qed.

(** C14: etharp_output does with every packet what the addresses ask for: one for all, or for a group,
    goes to the hardware address of all or of the group; one for a host goes to its hop, which
    is the host on the own network and the router otherwise, at once if the hardware address
    of the hop is known; otherwise the packet, or a copy of the same bytes, waits in the entry for
    the hop, which is made and asked for if there is none. A known address that is about to expire is
    asked for again. A request is left out only when no free block of the heap is large enough for
    it, and a packet does not wait, with ERR_MEM, only when its data must be copied and there
    is no memory for the copy. *)
Theorem etharp_output_correct s refs nif n q a : arp_run s refs -> arp_netifs (glb s) !! nif = Some n -> q ∈ refs -> q <> 0 -> occ q refs < 245 -> heads s q ->
  exists r s', etharp_output custom_free_function nif q a s = Ret r s' /\
  match route n a with
  | ToMac mac => tab_of s' = tab_of s /\ framed s q nif mac (n4_hwaddr n) (dev s) r (dev s')
  | NoRoute => r = ERR_RTE /\ s' = s
  | Via hop =>
      (exists i e e' h, aget (tab_of s) i = Some e /\ known_at nif hop e = true /\ tab_of s' = aset (tab_of s) i e' /\ refreshed nif n s e e' h /\
         framed s q nif (ae_ethaddr e) (n4_hwaddr n) h r (dev s')) \/
      (forall e, e ∈ tab_of s -> known_at nif hop e = false) /\
        if no_host hop n then r = ERR_ARG /\ s' = s
        else exists i e, awaited hop nif s i e /\ asked custom_free_function hop nif n s (dev s') /\
          (r = ERR_OK /\ (exists p, p <> 0 /\ tab_of s' = aset (tab_of s) i (put_q p e) /\ same_bytes s q s' p) \/
           r = ERR_MEM /\ tab_of s' = aset (tab_of s) i e /\ copy_fails s' q)
  end.
Proof.
  intros Hrun Hnif Hq Hq0 Hocc Hh. destruct (arp_run_ok s refs Hrun) as [D Hok]. pose proof (ao_mem _ _ _ _ Hok) as Hm. destruct (ao_netifs _ _ _ _ Hok nif n Hnif) as [Hnif0 _].
  apply wp_Ret. eapply wp_mono; [apply (wp_output custom_free_function [] refs D nif n a q s Hok Hnif (heads_sendable _ _ _ _ _ Hok Hq Hq0 Hocc Hh))|].
  intros r s' Hp. destruct Hp as [mac r s' -> Et Hd _|E|hop i e e' h r s' -> Hi Hk Et Hrf Hd _|hop r s' -> Hno Hqd].
  - split; [done|]. by apply (delivered_framed [] (refs ++ qs (tab_of s)) D).
  - by rewrite E.
  - left. exists i, e, e', h. do 4 (split; [done|]). by apply (delivered_framed [] (refs ++ qs (tab_of s)) D).
  - right. split; [done|]. destruct Hqd as [->|i e r s' _ Hi Hma Hst _ _ _|i e p D' s' -> Haw Hask Et Hp0 Hho Hok' _ _|i e s' -> Haw Hask Et Hcf _].
    + done.
    + specialize (Hno e (aget_elem _ _ _ Hi)). unfold known_at in Hno. apply (matches_key hop nif e Hnif0) in Hma as (_ & <- & <-). by rewrite Hst, !Z.eqb_refl in Hno.
    + exists i, e. split; [done|]. split; [done|]. left. split; [done|]. exists p. split; [done|]. split; [done|]. destruct Hho as (b & c & b' & c' & H1 & H2 & H3 & _).
      exists b, c, b', c'. split; [by apply (counted_pseg [] (refs ++ qs (tab_of s)) D)|]. split; [by apply (counted_pseg [] (refs ++ qs (tab_of s')) D'), H2; apply Hok'|done].
    + exists i, e. split; [done|]. split; [done|]. by right.
Qed.
(** ** A packet and the reply that it waits for *)

Lemma queued_held refs D nif n a q s s' r b c hop : arp_ok [] refs D s -> nif <> 0 -> route n a = Via hop ->
  (forall e, e ∈ tab_of s -> in_use e = true -> ae_ipaddr e = hop -> ae_netif e <> nif) -> chain D q ((q, b) :: c) -> has_room 14 q b = true ->
  passed custom_free_function [] refs D nif n a q s r s' -> r = ERR_OK ->
  no_host hop n = false /\ arp_netifs (glb s') = arp_netifs (glb s) /\ exists D', held_for refs D' s' nif hop (contents (lw_of s) ((q, b) :: c)) 0.
Proof.
  intros Hok Hnif Hroute Hno Hch Hroom Hp Hr.
  assert (forall e, e ∈ tab_of s -> matches (Some hop) nif e = true -> False) as Hnm by (intros e He (Hu & Ea & En)%(matches_key hop nif e Hnif); by apply (Hno e)).
  destruct Hp as [mac r s' E _ _ _|E|hop' i e e' h r s' E Hi Hk _ _ _ _|hop' r s' E _ Hqd]; rewrite Hroute in E; [done|done|..]; injection E as <-.
  { apply (aget_elem _ i) in Hi. unfold known_at in Hk. rewrite !andb_true_iff in Hk. destruct Hk as [[Hst E1%Z.eqb_eq] E2%Z.eqb_eq].
    destruct (Hno e Hi ltac:(unfold in_use; by destruct (ae_state e)) (eq_sym E2) E1). }
  destruct Hqd as [_|i e r s' _ Hi Hm _ _ _ _|i e p D' s' Hhost Haw _ Et Hp0 Hho Hok' _ Enet|i e s' _ _ _ _ _ _]; [done|by destruct (Hnm e); [apply (aget_elem _ i)|]| |done].
  split; [done|]. split; [done|]. exists D'. split; [done|]. destruct Haw as [(Hi & Hm & _)|(_ & c0 & e0 & _ & _ & Hi & ->)]; [by destruct (Hnm e); [apply (aget_elem _ i)|]|].
  destruct Hho as (b1 & c1 & b2 & c2 & H1 & H2 & H3 & H4). pose proof (chain_det _ _ _ _ H1 Hch) as E. injection E as -> ->.
  exists i, (put_q p (asking nif (recycled hop nif e0))), b2, c2. rewrite Et. split; [apply aget_aset_eq; by eapply aget_Some|]. do 5 (split; [done|]). split; [done|]. split; [done|]. by apply H4.
Qed.

Lemma ticks_held refs D nif hop bytes s (k : nat) : held_for refs D s nif hop bytes 0 -> Z.of_nat k < ARP_MAXPENDING ->
  wp (ticks custom_free_function k) s (fun _ s' => arp_netifs (glb s') = arp_netifs (glb s) /\ exists D', held_for refs D' s' nif hop bytes (Z.of_nat k)).
Proof.
  intros Hh Hk. pose proof Hh as [Hok _]. apply (wp_ticks custom_free_function [] refs D); [done|]. intros h D' l' s' Hok' Hk'. split; [done|]. exists D'.
  apply (held_step refs D s nif hop bytes 0); [done|done| |].
  - intros i e Hi Hp Et. pose proof (to_entry _ _ (ao_tab _ _ _ _ Hok) i e Hi) as He. assert (in_use e = true) as Hu by (unfold pending, in_use in *; by destruct (ae_state e)).
    destruct (aged_iter _ e k He Hu) as (_ & Hkey & Hl). assert (limit e = ARP_MAXPENDING) as El by (unfold limit; by rewrite Hp). rewrite El, Et in Hl.
    destruct (Z.ltb_spec (0 + Z.of_nat k) ARP_MAXPENDING); [|lia]. destruct Hl as (_ & Hc & Hp' & Hq & _). exists (Nat.iter k aged e). split; [|split; [congruence|]; split; [done|]; split; [lia|done]].
    change (tab_of s') with ((fun e => Nat.iter k aged e) <$> tab_of s). revert Hi. unfold aget. destruct (i <? 0); [done|]. intros Hi. by rewrite list_lookup_fmap, Hi.
  - apply (keeps_sub _ _ _ _ _ _ Hk'). intros x Hx. apply elem_of_app. by right.
Qed.
(** New buffers of the pool are filled: what others have stays. *)
Lemma fill_keeps rs D l cp p D5 l5 held d : counted [] (p :: rs) D5 l5 -> keeps held D l D5 l5 -> (forall a, a ∈ cp.*1 -> D !! a = None) ->
  (forall x, x ∈ cp -> D5 !! fst x = Some (snd x) /\ any_bit (pb_type (snd x)) PBUF_TYPE_FLAG_STRUCT_DATA_CONTIGUOUS = true) ->
  (forall x, x ∉ addrs cp -> d x = lw_data l5 x) -> keeps held D l D5 (with_data d l5).
Proof.
  intros (fp & fr & h & H) Hk Hnew Hcp Hd q c Hq Hq0 Hch. destruct (Hk q c Hq Hq0 Hch) as [(c' & Hc' & Hal & E) Hl]. split; [|done].
  exists c'. split; [done|]. split; [done|]. rewrite <- E. apply contents_agree. intros x Hx. apply Hd. intros Hi.
  destruct (chain_addrs D5 q c' x Hc' Hx) as (a1 & b1 & Ha1 & Hx1 & Hin1). destruct (proj1 (elem_addrs x cp) Hi) as (a2 & b2 & Hin2 & Hx2). destruct (Hcp _ Hin2) as [Ha2 Hty]. cbn in Ha2, Hty.
  assert (a1 ∈ c.*1) as Hac.
  { assert (c.*1 = c'.*1) as -> by (clear -Hal; induction Hal as [|y z l l' [E _] _ IH]; [done|]; rewrite !fmap_cons; congruence). apply elem_of_fst. by exists b1. }
  apply elem_of_fst in Hac as [d1 Hac]. destruct (chain_lookup D q c a1 d1 Hch Hac) as [_ Hd1].
  assert (a1 <> a2) as Hne. { intros ->. rewrite (Hnew a2) in Hd1; [done|]. apply elem_of_fst. by exists b2. }
  apply (data_not_owned [] (p :: rs) D5 fp fr h l5 a1 b1 a2 x H Ha1 Hne Hx1). by apply (sound_owns h a2 b2 x (ct_sound (ct_core H) a2 b2 Ha2)).
Qed.

(** A frame is received: a packet of the pool, filled as [d] says. *)
Lemma wp_receive refs D n s : arp_ok [] refs D s -> 0 <= n < 65536 ->
  wp (in_lw (pbuf_alloc custom_free_function PBUF_FUEL PBUF_RAW n PBUF_POOL)) s (fun p s' => p <> 0 ->
    tab_of s' = tab_of s /\ dev s' = dev s /\ arp_netifs (glb s') = arp_netifs (glb s) /\ p ∉ qs (tab_of s) /\
    exists D' cp, chain D' p cp /\ counted [] ((p :: refs) ++ qs (tab_of s)) D' (lw_of s') /\ p ∉ links_of D' /\
      forall d, (forall x, x ∉ addrs cp -> d x = lw_data (lw_of s') x) ->
        arp_ok [] (p :: refs) D' (on_lw (with_data d (lw_of s')) s') /\ keeps (refs ++ qs (tab_of s)) D (lw_of s) D' (with_data d (lw_of s'))).
Proof.
  intros Hok Hn. pose proof (ao_mem _ _ _ _ Hok) as Hm. apply wp_mem, (wp_alloc_pool_counted custom_free_function [] (refs ++ qs (tab_of s)) D); [done|unfold PBUF_RAW; lia|done|done|].
  intros cp p l' Hp0 Hout Hfr Hsum Hc Hm' Hd _. split; [done|]. split; [done|]. split; [done|].
  destruct (chain_cons _ _ _ Hc Hp0) as (b & c & Ecp & Hpb & _). assert (D !! p = None) as HDp by (apply Hout; rewrite Ecp; by left).
  assert (p ∉ refs ++ qs (tab_of s)) as Hpn.
  { intros Hi. destruct (ref_chain _ _ _ _ p Hm Hi Hp0) as (b' & _ & Hb' & _). congruence. }
  split; [intros Hi; apply Hpn, elem_of_app; by right|]. exists (list_to_map cp ∪ D), cp. split; [done|]. split; [done|].
  assert (p ∉ links_of (list_to_map cp ∪ D)) as Hpl.
  { intros Hi%occ_pos. destruct Hm' as (fp & fr & h & H). destruct (ct_count (ct_core H) p b Hpb) as [E _]. unfold holders in E. rewrite occ_app, occ_cons, decide_True in E by done.
    rewrite Ecp in Hfr. apply Forall_cons in Hfr as [(_ & _ & _ & Hr) _]. cbn in Hr. pose proof (occ_nonneg p (refs ++ qs (tab_of s))). lia. }
  split; [done|]. intros d Hdd.
  pose proof (pool_keeps [] (refs ++ qs (tab_of s)) D (lw_of s) cp p _ l' ((p :: refs) ++ qs (tab_of s)) Hm Hout eq_refl Hc Hp0 Hm' Hd) as Hk0.
  assert (keeps ((p :: refs) ++ qs (tab_of s)) D (lw_of s) (list_to_map cp ∪ D) (with_data d l')) as Hk.
  { apply (fill_keeps (refs ++ qs (tab_of s)) D (lw_of s) cp p); [done|done|done| |done]. intros [a b'] Hi. split; [by apply (chain_lookup _ _ _ a b' Hc)|].
    rewrite Forall_forall in Hfr. destruct (Hfr _ Hi) as (_ & -> & _). done. }
  split; [|apply (keeps_sub _ _ _ _ _ _ Hk); intros x Hx; by right].
  apply (arp_ok_lw [] refs (p :: refs) D s); [done| |exact Hk]. destruct Hm' as (fp & fr & h & H). exists fp, fr, h. by apply count_data.
Qed.
(** The reply for which a packet waits arrives. *)
Lemma arrived_delivers refs D s nif n hop bytes age pk D6 l6 p s' :
  held_for (p :: refs) D s nif hop bytes age -> p ∉ qs (tab_of s) -> nif <> 0 -> no_host hop n = false -> n4_dhcp n = None ->
  (forall held, keeps (filter (fun x => x <> p) held) D (lw_of s) D6 l6) ->
  for_ethernet_ip pk = true -> arp_op pk = PP_HTONS ARP_REPLY -> arp_sender_ip pk = hop -> arrived custom_free_function [] refs D6 nif n pk (on_lw l6 s) s' ->
  dev s' = snd (linkoutput nif (eth_frame (arp_sender pk) (n4_hwaddr n) ETHTYPE_IP bytes) (dev s)).
Proof.
  intros (Hok & i & e & b & c & Hi & Hp & Ea & En & _ & Hq & Hch & Hb & Hr) Hpq Hnif Hhost Hdhcp Hk Hfor Hop Hsip Har.
  assert (in_use e = true) as Hu by (unfold pending, in_use in *; by destruct (ae_state e)).
  assert (matches (Some hop) nif e = true) as Hm by by apply (matches_key hop nif e Hnif).
  destruct Har as [s' E _ _ _|ex r s1 s' _ _ Hup _ Hans _]; [congruence|]. assert (dev s' = dev s1) as ->.
  { unfold answered in Hans. rewrite Hop, Hdhcp in Hans. exact Hans. }
  rewrite Hsip in Hup. destruct Hup as [E|_ Hno _|c0 e0 s1 _ Hno _ _ _ _ _|j e' s1 _ Hj Hm' _ Hd]; [congruence| | |].
  - by rewrite (Hno e (aget_elem _ _ _ Hi)) in Hm.
  - by rewrite (Hno e (aget_elem _ _ _ Hi)) in Hm.
  - apply (matches_key hop nif e' Hnif) in Hm' as (Hu' & Ea' & En'). assert (j = i) as -> by (apply (to_unique _ _ (ao_tab _ _ _ _ Hok) j i e' e); try done; split; congruence).
    change (tab_of (on_lw l6 s)) with (tab_of s) in Hj. assert (e' = e) as -> by congruence. destruct (Z.eqb_spec (ae_q e) 0); [done|]. destruct Hd as (r & b2 & c2 & Hc2 & Hd).
    destruct (Hk [ae_q e] (ae_q e) _ ltac:(apply list_elem_of_filter; split; [intros E; apply Hpq, elem_qs; by exists i, e|by left]) Hq Hch) as [(c3 & Hc3 & Hal & E) _].
    rewrite (chain_det _ _ _ _ Hc3 Hc2) in Hal, E. inversion Hal as [|? ? ? ? [_ E2] Hal']; subst. rewrite <- (alike_room 14 (ae_q e) b b2 E2), Hr in Hd. destruct Hd as [_ ->].
    change (lw_of (on_lw l6 s)) with l6. by rewrite E.
Qed.

(** C12: a packet gets to its hop: when etharp_output took a packet for a hop of which nothing is known,
    then, also after its owner has dropped it and after up to four periods of the timer, a
    frame with a reply of the hop makes the stack send exactly the bytes that the packet had,
    in a frame to the hardware address of the reply. *)
Theorem etharp_resolves s0 refs nif n q a b c hop (k : nat) s1 s2 s3 len p s4 bp cp d : arp_run s0 (q :: refs) ->
  arp_netifs (glb s0) !! nif = Some n -> n4_dhcp n = None -> n4_flags n .& NETIF_FLAG_ETHARP <> 0 ->
  q <> 0 -> occ q (q :: refs) < 245 -> heads s0 q -> pseg (lw_cells (lw_of s0)) q ((q, b) :: c) 0 -> has_room 14 q b = true ->
  route n a = Via hop -> (forall e, e ∈ tab_of s0 -> in_use e = true -> ae_ipaddr e = hop -> ae_netif e <> nif) ->
  etharp_output custom_free_function nif q a s0 = Ret ERR_OK s1 ->
  free_pbuf custom_free_function q s1 = Ret tt s2 ->
  Z.of_nat k < 5 -> ticks custom_free_function k s2 = Ret tt s3 ->
  0 <= len < 65536 -> in_lw (pbuf_alloc custom_free_function PBUF_FUEL PBUF_RAW len PBUF_POOL) s3 = Ret p s4 -> p <> 0 ->
  pseg (lw_cells (lw_of s4)) p ((p, bp) :: cp) 0 -> 42 <= pb_len bp -> (forall x, x ∉ addrs ((p, bp) :: cp) -> d x = lw_data (lw_of s4) x) ->
  let s5 := on_lw (with_data d (lw_of s4)) s4 in
  let pk := lw_bytes (lw_of s5) (pb_payload bp + 14) 28 in
  frame_type (lw_of s5) bp = PP_HTONS ETHTYPE_ARP -> for_ethernet_ip pk = true -> arp_op pk = PP_HTONS ARP_REPLY -> arp_sender_ip pk = hop ->
  exists s6, ethernet_input custom_free_function ip4_input p nif s5 = Ret ERR_OK s6 /\
    dev s6 = snd (linkoutput nif (eth_frame (arp_sender pk) (n4_hwaddr n) ETHTYPE_IP (contents (lw_of s0) ((q, b) :: c))) (dev s5)).
Proof.
  intros Hrun Hnif Hdhcp Hfl Hq0 Hocc Hh Hps Hroom Hroute Hno E1 E2 Hk E3 Hlen E4 Hp0 Hps4 Hlen4 Hd s5 pk Hty Hfor Hop Hsip.
  destruct (arp_run_ok s0 _ Hrun) as [D0 Hok0]. destruct (ao_netifs _ _ _ _ Hok0 nif n Hnif) as [Hnif0 _]. set (bytes := contents (lw_of s0) ((q, b) :: c)).
  assert (chain D0 q ((q, b) :: c)) as Hch.
  { destruct (ref_chain _ _ _ _ q (ao_mem _ _ _ _ Hok0) ltac:(by left) Hq0) as (b' & c' & _ & _ & H). by rewrite (pseg_det _ _ _ _ Hps (counted_pseg _ _ _ _ _ _ (ao_mem _ _ _ _ Hok0) H)). }
  pose proof (wp_output custom_free_function [] (q :: refs) D0 nif n a q s0 Hok0 Hnif (heads_sendable _ _ _ _ _ Hok0 ltac:(by left) Hq0 Hocc Hh)) as H1.
  destruct (queued_held _ _ _ _ _ _ _ _ _ b c hop Hok0 Hnif0 Hroute Hno Hch Hroom (wp_run _ _ _ _ _ H1 E1) eq_refl) as (Hhost & En1 & D1 & Hh1). fold bytes in Hh1.
  assert (exists D2, held_for refs D2 s2 nif hop bytes 0 /\ arp_netifs (glb s2) = arp_netifs (glb s1)) as (D2 & Hh2 & En2).
  { assert (wp (free_pbuf custom_free_function q) s1 (fun _ s2 => exists D2, held_for refs D2 s2 nif hop bytes 0 /\ arp_netifs (glb s2) = arp_netifs (glb s1))) as H; [|by apply (wp_run _ _ _ _ _ H E2)].
    pose proof Hh1 as [Hok1 _]. apply (wp_free_arp custom_free_function [] refs D1); [done|]. intros D' l' Hok' Hk'. exists D'. split; [|done].
    apply (held_step _ _ _ _ _ _ _ _ _ _ _ Hh1 Hok'); [|apply (keeps_sub _ _ _ _ _ _ Hk'); intros x Hx; apply elem_of_app; by right]. intros i e Hi Hp Et. exists e. by repeat split. }
  destruct (wp_run _ _ _ _ _ (ticks_held refs D2 nif hop bytes s2 k Hh2 Hk) E3) as (En3 & D3 & Hh3). pose proof Hh3 as [Hok3 _].
  destruct (wp_run _ _ _ _ _ (wp_receive refs D3 len s3 Hok3 Hlen) E4 Hp0) as (Et4 & Ed4 & En4 & Hpq & D5 & cp' & Hc5 & Hm5 & Hpl5 & Hfill).
  assert (cp' = (p, bp) :: cp) as -> by exact (pseg_det _ _ _ _ (counted_pseg _ _ _ _ _ _ Hm5 Hc5) Hps4). destruct (Hfill d Hd) as [Hok5 Hk5]. fold s5 in Hok5.
  assert (held_for (p :: refs) D5 s5 nif hop bytes (Z.of_nat k)) as Hh5.
  { apply (held_step _ _ _ _ _ _ _ _ _ _ _ Hh3 Hok5).
    - intros i e Hi Hp Et. exists e. change (tab_of s5) with (tab_of s4). rewrite Et4. by repeat split.
    - apply (keeps_sub _ _ _ _ _ _ Hk5). change (tab_of s5) with (tab_of s4). rewrite Et4. intros x Hx. apply elem_of_app. by right. }
  assert (arp_netifs (glb s5) !! nif = Some n) as Hn5 by (change (arp_netifs (glb s5)) with (arp_netifs (glb s4)); by rewrite En4, En3, En2, En1).
  destruct (chain_lookup _ _ _ p bp Hc5 ltac:(by left)) as [_ Hbp].
  assert (p ∉ qs (tab_of s5)) as Hpq5 by (change (tab_of s5) with (tab_of s4); by rewrite Et4).
  pose proof (wp_arp_frame [] refs D5 nif n p bp s5 Hok5 Hn5 Hbp Hp0 Hpl5 Hpq5 Hlen4 ltac:(by rewrite Hty)) as H6.
  apply wp_Ret in H6 as (r & s6 & E6 & -> & H6). exists s6. split; [done|]. rewrite Hty, Z.eqb_refl in H6. destruct (Z.eqb_spec (n4_flags n .& NETIF_FLAG_ETHARP) 0); [done|]. cbn [negb andb] in H6.
  destruct H6 as (D6 & Hk6 & Har). by apply (arrived_delivers refs D5 s5 nif n hop bytes (Z.of_nat k) pk D6 (opened n p bp (lw_of s5)) p).
Qed.
(** * Receiving *)

(** What the table [t] is after a packet [pk], and what is sent to the address that it brings. *)
Definition learns s nif (n : netif4) (pk : list Z) (t : list etharp_entry) (h : hw) : Prop :=
  let a := arp_sender_ip pk in
  if no_host a n then t = tab_of s /\ h = dev s
  else
    (exists i e, aget (tab_of s) i = Some e /\ in_use e = true /\ ae_ipaddr e = a /\ ae_netif e = nif /\ t = aset (tab_of s) i (learned nif (arp_sender pk) e) /\
       if ae_q e =? 0 then h = dev s else exists r, framed s (ae_q e) nif (arp_sender pk) (n4_hwaddr n) (dev s) r h) \/
    (forall e, e ∈ tab_of s -> in_use e = true -> ae_ipaddr e = a -> ae_netif e <> nif) /\ h = dev s /\
      if is_for_us n pk then exists i e, first_choice (tab_of s) i e /\ t = aset (tab_of s) i (learned nif (arp_sender pk) (recycled a nif e)) else t = tab_of s.

Lemma updated_learns refs D s nif n pk D1 l1 p ex r s1 : arp_ok [] (p :: refs) D s -> nif <> 0 -> p ∉ qs (tab_of s) ->
  (forall held, keeps (filter (fun x => x <> p) held) D (lw_of s) D1 l1) ->
  updated [] refs D1 nif n (arp_sender_ip pk) (arp_sender pk) (learn_flags n pk) (on_lw l1 s) ex r s1 ->
  learns s nif n pk (tab_of s1) (dev s1).
Proof.
  intros Hok Hnif Hpq Hk Hup. pose proof (ao_tab _ _ _ _ Hok) as Ht. unfold learns. unfold learn_flags in Hup. set (a := arp_sender_ip pk) in *.
  assert (not_known a nif (tab_of s) -> forall e, e ∈ tab_of s -> in_use e = true -> ae_ipaddr e = a -> ae_netif e <> nif) as Hno.
  { intros H e He Hu E1 E2. specialize (H e He). by rewrite (proj2 (matches_key a nif e Hnif)) in H. }
  destruct Hup as [-> | -> Hnk Hwhy|c e s1 -> Hnk Hfo Hf Hi -> ->|i e s1 -> Hi Hm -> Hd].
  - done.
  - right. split; [by apply Hno|]. split; [done|]. destruct (is_for_us n pk); [|done]. by destruct Hwhy as [?|[? _]].
  - right. split; [by apply Hno|]. split; [done|]. destruct (is_for_us n pk); [|done]. change (tab_of (on_lw l1 s)) with (tab_of s) in *.
    rewrite <- (to_size _ _ Ht) in Hf. destruct (victim_first _ _ c Ht Hf) as (e' & He'). assert (e' = e) as -> by (destruct He' as [E _]; congruence). by exists (victim c), e.
  - left. change (tab_of (on_lw l1 s)) with (tab_of s) in *. apply (matches_key a nif e Hnif) in Hm as (Hu & Ea & En). exists i, e. do 5 (split; [done|]).
    destruct (Z.eqb_spec (ae_q e) 0) as [|Hq]; [done|]. destruct Hd as (r & Hd). exists r. assert (ae_q e ∈ qs (tab_of s)) as Hin by (apply elem_qs; by exists i, e).
    destruct (ref_chain _ _ _ _ (ae_q e) (ao_mem _ _ _ _ Hok) ltac:(apply elem_of_app; by right) Hq) as (b & c & _ & _ & Hch).
    apply (delivered_framed [] ((p :: refs) ++ qs (tab_of s)) D); [apply Hok|].
    apply (delivered_from (filter (fun x => x <> p) [ae_q e]) nif _ _ D1 l1 _ _ _ _ D (lw_of s) b c Hch Hq (Hk _)); [|done]. apply list_elem_of_filter. split; [by intros <-|by left].
Qed.

(** C15: ethernet_input and etharp_input do with a frame of ARP what they should: a packet that is not
    for Ethernet and IP changes nothing; the address that another one brings is put into the
    entry for it, and the packet that waits there is sent to it; if there is none, a new
    entry is made, but only when the packet is for the address of the interface; and a request
    for that address is then answered, unless no free block of the heap is large enough for the
    reply ([starved], in the memory that etharp_update_arp_entry leaves). Every other frame
    that is none of IP changes nothing. The packet is dropped in every case. *)
Theorem ethernet_input_arp s p refs nif n b : arp_run s (p :: refs) -> arp_netifs (glb s) !! nif = Some n -> p <> 0 -> p ∉ qs (tab_of s) -> heads s p ->
  lw_cells (lw_of s) !! p = Some (Buf b) -> 42 <= pb_len b -> frame_type (lw_of s) b <> PP_HTONS ETHTYPE_IP ->
  let pk := lw_bytes (lw_of s) (pb_payload b + 14) 28 in
  exists s', ethernet_input custom_free_function ip4_input p nif s = Ret ERR_OK s' /\ arp_run s' refs /\
    if negb (n4_flags n .& NETIF_FLAG_ETHARP =? 0) && (frame_type (lw_of s) b =? PP_HTONS ETHTYPE_ARP) && for_ethernet_ip pk
    then exists r s1, etharp_update_arp_entry custom_free_function nif (arp_sender_ip pk) (arp_sender pk) (learn_flags n pk) (on_lw (opened n p b (lw_of s)) s) = Ret r s1 /\
      learns s nif n pk (tab_of s') (dev s1) /\ answered nif n pk (lw_of s1) (dev s1) (dev s')
    else tab_of s' = tab_of s /\ dev s' = dev s.
Proof.
  intros Hrun Hnif Hp0 Hpq Hh Hb Hlen Hty pk. destruct (arp_run_ok s _ Hrun) as [D Hok]. destruct (ao_netifs _ _ _ _ Hok nif n Hnif) as [Hnif0 _]. pose proof (ao_mem _ _ _ _ Hok) as Hm.
  destruct (ref_chain _ _ _ _ p Hm ltac:(by left) Hp0) as (b' & c & Hpb & Hb' & _). assert (b' = b) as -> by congruence.
  pose proof (wp_arp_frame [] refs D nif n p b s Hok Hnif Hpb Hp0 (heads_unlinked _ _ _ _ _ Hm Hh) Hpq Hlen Hty) as H. apply wp_Ret in H as (r & s' & E & -> & H).
  exists s'. split; [done|]. split; [by eapply (run_frame s p refs nif b)|]. fold pk in H.
  destruct (negb (n4_flags n .& NETIF_FLAG_ETHARP =? 0) && (frame_type (lw_of s) b =? PP_HTONS ETHTYPE_ARP)); cbn [andb]; [|by destruct H as (? & ? & _)].
  destruct H as (D1 & Hk & Har). destruct Har as [s' Hf Et Ed _|ex r s1 s' Hf Eup Hup Et Hans _]; rewrite Hf; [done|]. exists r, s1. split; [done|]. rewrite Et. split; [|done].
  by apply (updated_learns refs D s nif n pk D1 (opened n p b (lw_of s)) p ex r).
Qed.
End props.

(** * A concrete run *)

#[local] Existing Instance sim_pools.
#[local] Existing Instance sim_layout.
#[local] Existing Instance PbufRefs.sim_room.

(** The world is the frames that were sent, the last one first. *)
Definition wire : Bus := {| hw := list (list Z); mmio_rd _ h := (0, h); mmio_wr _ _ h := h; ktick h := (0, h); os_delay _ h := h |}.
#[local] Existing Instance wire.
#[local] Instance wire_link : EthLink wire := {| linkoutput _ f h := (0, f :: h); dhcp_decline _ h := h |}.

Definition no_free : Z -> lw unit := fun _ => undef.
Definition no_ip : Z -> Z -> M (mach etharp) unit := fun _ _ => undef.

(** An interface 192.168.0.10 with the router 192.168.0.1, and the host 192.168.0.7. *)
Definition my_mac : list Z := [2; 0; 0; 0; 0; 10].
Definition host_mac : list Z := [2; 0; 0; 0; 0; 7].
Definition host_ip : Z := 0x0700a8c0.
Definition my_netif : netif4 := Netif4 0x0a00a8c0 0x00ffffff 0x0100a8c0 my_mac 0x0a 0 None.
Definition nif0 : Z := 0x20010000.
Definition arp_start : mach etharp := Mach [] [] (Etharp lw_static blank_table 0 {[ nif0 := my_netif ]}).

(** A packet of 100 bytes is sent to the host. *)
Definition arp_s0 : mach etharp := final (in_lw (mem_init ;; memp_init) arp_start).
Definition arp_s1 : mach etharp := final (in_lw (pbuf_alloc no_free PBUF_FUEL PBUF_IP 100 PBUF_RAM) arp_s0).
Definition pkt : Z := 0x20030008.
Definition arp_s2 : mach etharp := final (etharp_output no_free nif0 pkt host_ip arp_s1).
Definition arp_s3 : mach etharp := final (free_pbuf no_free pkt arp_s2).
Definition arp_s4 : mach etharp := final (ticks no_free 4 arp_s3).
Definition arp_s5 : mach etharp := final (in_lw (pbuf_alloc no_free PBUF_FUEL PBUF_RAW 60 PBUF_POOL) arp_s4).
(** The reply of the host, in a frame of 60 bytes. *)
Definition reply_at : Z := 0x200723a0.
Definition reply_bytes : list Z := eth_frame my_mac host_mac ETHTYPE_ARP (arp_packet ARP_REPLY host_mac host_ip my_mac 0x0a00a8c0) ++ replicate 18 0.
Definition reply_data : Z -> Z := overlaid (lw_data (lw_of arp_s5)) (reply_at + 16) reply_bytes.
Definition arp_s6 : mach etharp := on_lw (with_data reply_data (lw_of arp_s5)) arp_s5.
Definition reply_buf : pbuf := Pbuf 0 (reply_at + 16) 60 60 130 0 1 0.

(** A call whose result is computed. *)
Ltac evaluates :=
  lazymatch goal with |- ?m = Ret ?v _ => let H := fresh in assert (result m = Some v) as H by (vm_compute; reflexivity); exact (result_final m v H) end.

Lemma arp_run_s1 : arp_run no_free no_ip arp_s1 [pkt].
Proof.
  assert (arp_run no_free no_ip arp_s0 []) as H0.
  { apply (run_start _ _ arp_start); [apply sim_static|done|done| |evaluates].
    intros nif n H. change (({[ nif0 := my_netif ]} : gmap Z netif4) !! nif = Some n) in H. apply lookup_singleton_Some in H as [<- <-]. split; [done|]. split; [done|]. by repeat (apply Forall_cons_2; [lia|]). }
  pose proof (run_alloc no_free no_ip arp_s0 [] PBUF_IP 100 PBUF_RAM pkt arp_s1) as H1. apply H1; [exact H0|unfold PBUF_IP; lia|lia|left; reflexivity|].
  evaluates.
Qed.

Lemma arp_run_s5 : arp_run no_free no_ip arp_s4 [] /\ arp_run no_free no_ip arp_s6 [reply_at].
Proof.
  assert (arp_run no_free no_ip arp_s2 [pkt]) as H2.
  { pose proof (run_output no_free no_ip arp_s1 [pkt] nif0 pkt host_ip 0 arp_s2) as H1.
    apply H1; [exact arp_run_s1|exists my_netif; vm_compute; reflexivity|left|vm_compute; discriminate|vm_compute; reflexivity|apply (bool_decide_unpack _); vm_compute; exact I|].
    evaluates. }
  assert (arp_run no_free no_ip arp_s3 []) as H3.
  { pose proof (run_free no_free no_ip arp_s2 pkt [] arp_s3) as H1. apply H1; [exact H2|]. evaluates. }
  assert (forall k s, arp_run no_free no_ip s [] -> forall s', ticks no_free k s = Ret tt s' -> arp_run no_free no_ip s' []) as Hticks.
  { unfold ticks. intros k. generalize 0. induction k as [|k IH]; intros i s Hs s' E; [by injection E as <-|]. rewrite zrange_S in E. cbn [for_each] in E. unfold bind in E.
    destruct (etharp_tmr no_free s) as [[] s2| | |] eqn:E2; try done. apply (IH (i + 1) s2); [by apply (run_tmr _ _ s)|done]. }
  assert (arp_run no_free no_ip arp_s4 []) as H4.
  { apply (Hticks 4%nat arp_s3 H3). evaluates. }
  split; [exact H4|]. pose proof (run_store no_free no_ip arp_s5 [reply_at] reply_data) as H6. apply H6. pose proof (run_alloc no_free no_ip arp_s4 [] PBUF_RAW 60 PBUF_POOL reply_at arp_s5) as H5. apply H5; [exact H4|unfold PBUF_RAW; lia|lia|right; reflexivity|].
  evaluates.
Qed.

(** The packet of 100 zero bytes gets to the host, 20 seconds later. *)
Lemma etharp_resolves_witness : exists s', ethernet_input no_free no_ip reply_at nif0 arp_s6 = Ret ERR_OK s' /\
  dev s' = eth_frame host_mac my_mac ETHTYPE_IP (replicate 100 0) :: dev arp_s6.
Proof.
  destruct (etharp_resolves no_free no_ip arp_s1 [] nif0 my_netif pkt host_ip (Pbuf 0 0x2003003c 100 100 128 0 1 0) [] host_ip 4 arp_s2 arp_s3 arp_s4 60 reply_at arp_s5 reply_buf [] reply_data)
    as (s' & E & Ed).
  - apply arp_run_s1.
  - done.
  - done.
  - done.
  - done.
  - by vm_compute.
  - by apply (bool_decide_unpack _); vm_compute.
  - split; [done|]. split; [done|]. split; [by vm_compute|done].
  - by vm_compute.
  - by vm_compute.
  - intros e He Hu. exfalso. revert Hu. assert (Forall (fun e => in_use e = false) (tab_of arp_s1)) as Hf by (by apply (bool_decide_unpack _); vm_compute).
    rewrite Forall_forall in Hf. by rewrite (Hf e He).
  - evaluates.
  - evaluates.
  - done.
  - evaluates.
  - lia.
  - evaluates.
  - done.
  - split; [done|]. split; [done|]. split; [by vm_compute|done].
  - done.
  - intros x Hx. apply overlaid_out. intros Hr. apply Hx. apply elem_addrs. exists reply_at, reply_buf. split; [by left|]. apply elem_data. exact Hr.
  - by vm_compute.
  - by vm_compute.
  - by vm_compute.
  - by vm_compute.
  - exists s'. split; [exact E|]. rewrite Ed. by vm_compute.
Defined.

(** The packet that waits counts one reference, that of the table. *)
Lemma etharp_run_safe_witness : (exists b c, pseg (lw_cells (lw_of arp_s4)) pkt ((pkt, b) :: c) 0 /\ 1 = pb_ref b) /\ exists s', etharp_tmr no_free arp_s4 = Ret tt s'.
Proof.
  destruct (etharp_run_safe no_free no_ip arp_s4 [] (proj1 arp_run_s5)) as (H & _ & Htmr & _). split; [|exact Htmr].
  assert (exists e, aget (tab_of arp_s4) 0 = Some e /\ ae_q e = pkt) as (e & Hi & E) by (eexists; split; vm_compute; reflexivity).
  destruct (H 0 e Hi) as (_ & b & c & Hp & _ & _ & Ho); [rewrite E; vm_compute; discriminate|]. rewrite E in Hp, Ho. exists b, c. split; [exact Hp|]. rewrite <- Ho. vm_compute. reflexivity.
Defined.

(** Without a reply the packet is dropped, and with it all memory is free. *)
Lemma etharp_entries_expire_witness : exists s', ticks no_free 300 arp_s4 = Ret tt s' /\ (forall e, e ∈ tab_of s' -> in_use e = false) /\
  exists fp fr, res (lw_of s') fp fr [(4096, false)].
Proof.
  destruct (etharp_entries_expire no_free no_ip arp_s4 [] 300 (proj1 arp_run_s5)) as (s' & E & _ & H). destruct (H ltac:(lia)) as [H1 H2]. exists s'. split; [exact E|]. split; [exact H1|]. by apply H2.
Defined.

(** Another host gets another entry. *)
Lemma etharp_find_entry_recycles_witness : exists i s' e, etharp_find_entry no_free (Some 0x0800a8c0) ETHARP_FLAG_TRY_HARD nif0 arp_s4 = Ret i s' /\ first_choice (tab_of arp_s4) i e.
Proof.
  destruct (etharp_find_entry_recycles no_free no_ip arp_s4 [] 0x0800a8c0 ETHARP_FLAG_TRY_HARD nif0 (proj1 arp_run_s5)) as (i & s' & E & H); [vm_compute; discriminate|].
  destruct H as [(e & Hi & _ & Ha & _)|[_ H]].
  - assert (Forall (fun e => ae_ipaddr e <> 0x0800a8c0) (tab_of arp_s4)) as Hf by (apply (bool_decide_unpack _); vm_compute; exact I).
    rewrite Forall_forall in Hf. destruct (Hf e (aget_elem _ _ _ Hi) Ha).
  - change (any_bit ETHARP_FLAG_TRY_HARD ETHARP_FLAG_FIND_ONLY) with false in H. change (any_bit ETHARP_FLAG_TRY_HARD ETHARP_FLAG_TRY_HARD) with true in H. cbn [orb negb andb] in H.
    destruct H as (e & H & _). exists i, s', e. split; [exact E|exact H].
Defined.

Lemma etharp_output_correct_witness : exists r s' i e, etharp_output no_free nif0 pkt host_ip arp_s1 = Ret r s' /\ awaited host_ip nif0 arp_s1 i e /\
  (r = ERR_OK \/ r = ERR_MEM).
Proof.
  destruct (etharp_output_correct no_free no_ip arp_s1 [pkt] nif0 my_netif pkt host_ip arp_run_s1) as (r & s' & E & H).
  - vm_compute. reflexivity.
  - left.
  - vm_compute. discriminate.
  - vm_compute. reflexivity.
  - apply (bool_decide_unpack _). vm_compute. exact I.
  - assert (route my_netif host_ip = Via host_ip) as Er by (vm_compute; reflexivity). rewrite Er in H.
    destruct H as [(i & e & e' & h & Hi & Hk & _)|[_ H]].
    + assert (Forall (fun e => known_at nif0 host_ip e = false) (tab_of arp_s1)) as Hf by (apply (bool_decide_unpack _); vm_compute; exact I).
      rewrite Forall_forall in Hf. rewrite (Hf e (aget_elem _ _ _ Hi)) in Hk. discriminate Hk.
    + assert (no_host host_ip my_netif = false) as Eh by (vm_compute; reflexivity). rewrite Eh in H. destruct H as (i & e & Haw & _ & H).
      exists r, s', i, e. split; [exact E|]. split; [exact Haw|]. destruct H as [[-> _]|[-> _]]; [by left|by right].
Defined.

(** The reply is learned and the packet is sent. *)
Lemma ethernet_input_arp_witness : exists s' (s1 : mach etharp), ethernet_input no_free no_ip reply_at nif0 arp_s6 = Ret ERR_OK s' /\
  learns arp_s6 nif0 my_netif (arp_packet ARP_REPLY host_mac host_ip my_mac 0x0a00a8c0) (tab_of s') (dev s1) /\ dev s' = dev s1.
Proof.
  destruct (ethernet_input_arp no_free no_ip arp_s6 reply_at [] nif0 my_netif reply_buf (proj2 arp_run_s5)) as (s' & E & _ & H).
  - vm_compute. reflexivity.
  - vm_compute. discriminate.
  - apply (bool_decide_unpack _). vm_compute. exact I.
  - apply (bool_decide_unpack _). vm_compute. exact I.
  - vm_compute. reflexivity.
  - vm_compute. discriminate.
  - vm_compute. discriminate.
  - set (pk := lw_bytes _ _ _) in H. assert (pk = arp_packet ARP_REPLY host_mac host_ip my_mac 0x0a00a8c0) as Epk by (vm_compute; reflexivity). rewrite Epk in H.
    assert (negb (n4_flags my_netif .& NETIF_FLAG_ETHARP =? 0) && (frame_type (lw_of arp_s6) reply_buf =? PP_HTONS ETHTYPE_ARP)
      && for_ethernet_ip (arp_packet ARP_REPLY host_mac host_ip my_mac 0x0a00a8c0) = true) as Et by (vm_compute; reflexivity). rewrite Et in H.
    destruct H as (r & s1 & _ & Hl & Ha). exists s', s1. split; [exact E|]. split; [exact Hl|exact Ha].
Defined.

(** etharp_input does not look at the length: of a frame of 15 bytes, which has one byte of a packet, it
    takes the address that an earlier frame left behind it in the buffer. *)
Definition arp_s5s : mach etharp := final (in_lw (pbuf_alloc no_free PBUF_FUEL PBUF_RAW 15 PBUF_POOL) arp_s4).
Definition arp_s6s : mach etharp := on_lw (with_data reply_data (lw_of arp_s5s)) arp_s5s.

Lemma etharp_input_reads_on : exists s' b e, ethernet_input no_free no_ip reply_at nif0 arp_s6s = Ret ERR_OK s' /\
  lw_cells (lw_of arp_s6s) !! reply_at = Some (Buf b) /\ pb_len b = 15 /\
  aget (tab_of s') 0 = Some e /\ ae_state e = ETHARP_STATE_STABLE /\ ae_ipaddr e = host_ip /\ ae_ethaddr e = host_mac.
Proof.
  set (s' := final (ethernet_input no_free no_ip reply_at nif0 arp_s6s)).
  exists s', (Pbuf 0 (reply_at + 16) 15 15 130 0 1 0), (EtharpEntry 0 host_ip nif0 host_mac 0 ETHARP_STATE_STABLE).
  split; [unfold s'; evaluates|]. unfold s'. repeat split; vm_compute; reflexivity.
Qed.
