(* ===== verification/Net.v ===== *)
(** The UDP side of the bootloader: the calls of the lwIP stack (vendored, and
    a parameter here) that the firmware makes, and src/udp_total.c: the
    message channel and the two reset commands. *)
From S2P Require Import Prelude Machine SysArch FlashHal FlashDev Reset.
From stdpp Require Import gmap strings.

#[local] Open Scope fw_scope.
#[local] Open Scope Z_scope.

(** ** Bytes of C strings *)
Fixpoint bytes_of (s : string) : list Z :=
  match s with
  | EmptyString => []
  | String c s' => Z.of_nat (Ascii.nat_of_ascii c) :: bytes_of s'
  end.
(** A string literal that ends with a newline. *)
Definition line (s : string) : list Z := bytes_of s ++ [10].

(** The bytes before the first NUL. *)
Fixpoint c_str (l : list Z) : list Z :=
  match l with
  | [] => []
  | b :: l' => if b =? 0 then [] else b :: c_str l'
  end.

(** [sprintf] into an array of [size] bytes: undefined when the text and its
    NUL do not fit. *)
Definition sprintf {S} (size : Z) (text : list Z) : M S (list Z) :=
  bind (defined_if (Z.of_nat (length text) + 1 <=? size)) (fun _ => ret text).

(** A packet buffer as received: the bytes of the first buffer of the chain and
    the length of the whole chain. *)
Record pbuf := Pbuf { payload : list Z; tot_len : Z }.
Definition len (p : pbuf) : Z := Z.of_nat (length (payload p)).

(** The functions a control block can be given to receive with. *)
Inductive callback := udp_receive_callback_ | IAP_tftp_recv_callback_ | IAP_wrq_recv_callback_.

(** Calls of the stack.  Control blocks and buffers are named by their address,
    0 is NULL; addresses of hosts are words.  [pbuf_fill] copies into the
    payload of a fresh buffer. *)
Class Lwip (B : Bus) := {
  pbuf_alloc : Z -> hw -> Z * hw;
  pbuf_fill : Z -> list Z -> hw -> hw;
  pbuf_free : Z -> hw -> hw;
  udp_new : hw -> Z * hw;
  udp_bind : Z -> Z -> hw -> Z * hw;
  udp_connect : Z -> Z -> Z -> hw -> Z * hw;
  udp_disconnect : Z -> hw -> hw;
  udp_remove : Z -> hw -> hw;
  udp_send : Z -> Z -> hw -> Z * hw;
  udp_sendto : Z -> Z -> Z -> Z -> hw -> Z * hw;
  mem_malloc : Z -> hw -> Z * hw;
  mem_free : Z -> hw -> hw;
}.

(** The globals of udp_total.c, and the receive function (with its argument) that each
    control block was given by [udp_recv]. *)
Record net_glob := NetGlob {
  upcb_boot : Z;
  udp_server_pcb_boot : Z;
  recv_tbl : gmap Z (callback * Z);
}.

Definition UDP_SERVER_PORT : Z := 8080.
Definition UDP_CLIENT_PORT : Z := 6010.
Definition JUMP_BOOT_STR : list Z := bytes_of "SOFT RESET SSSAAA".
Definition JUMP_FW_STR : list Z := bytes_of "RESET SSSAAA".
Definition IP4_ADDR (a b c d : Z) : Z := a .| (b .<< 8) .| (c .<< 16) .| (d .<< 24).

Section net.
Context {B : Bus} {L : Lwip B} {G : Type} {HN : Has G net_glob}.
Abbreviation prog := (M (mach G)).

Definition stack {A} (f : hw -> A * hw) : prog A := fun s =>
  let p := f (dev s) in Ret (fst p) (Mach (snd p) (wlog s) (glb s)).
Definition stack_ (f : hw -> hw) : prog unit := fun s =>
  Ret tt (Mach (f (dev s)) (wlog s) (glb s)).

Definition get_net : prog net_glob := g <- get_ ;; ret (part g).
Definition modify_net (f : net_glob -> net_glob) : prog unit :=
  modify_ (fun g => with_part (f (part g)) g).

Definition udp_recv (pcb : Z) (cb : callback) (arg : Z) : prog unit :=
  modify_net (fun n => NetGlob (upcb_boot n) (udp_server_pcb_boot n) (<[pcb := (cb, arg)]> (recv_tbl n))).
(** Removing a control block forgets its receive function. *)
Definition udp_close (pcb : Z) : prog unit :=
  stack_ (udp_remove pcb) ;;
  modify_net (fun n => NetGlob (upcb_boot n) (udp_server_pcb_boot n) (delete pcb (recv_tbl n))).

(** Console output has no effect on the state. *)
Definition printf : prog unit := ret tt.

Definition udp_client_send (msg : list Z) : prog unit :=
  n <- get_net ;;
  if upcb_boot n =? 0 then printf
  else
    p <- stack (pbuf_alloc (Z.of_nat (length msg))) ;;
    if p =? 0 then printf
    else
      stack_ (pbuf_fill p msg) ;;
      err <- stack (udp_send (upcb_boot n) p) ;;
      (if negb (err =? ERR_OK) then printf else ret tt) ;;
      delay_ 1 ;;
      stack_ (pbuf_free p).

(** [buffer] has 12 bytes: [memcpy] of more than that, and the NUL behind
    12 bytes, are out of bounds. [None] is the NULL packet. *)
Definition udp_receive_callback (p : option (Z * pbuf)) : prog unit :=
  match p with
  | None => ret tt
  | Some (addr, p) =>
      let buffer := replicate 12 0 in
      defined_if (len p <=? 12) ;;
      let buffer := payload p ++ drop (length (payload p)) buffer in
      defined_if (len p <? 12) ;;
      let buffer := aset buffer (len p) 0 in
      if decide (c_str buffer = JUMP_BOOT_STR) then
        udp_client_send (line "[BOOT]  JUMP BOOT(soft RESET)") ;;
        write_boot_flag_soft_reset ;;
        NVIC_SystemReset
      else if decide (c_str buffer = JUMP_FW_STR) then
        udp_client_send (line "[BOOT]  JUMP FW(RESET)") ;;
        clear_boot_flag ;;
        NVIC_SystemReset
      else stack_ (pbuf_free addr)
  end.

Definition udp_total_connect : prog unit :=
  pcb <- stack udp_new ;;
  modify_net (fun n => NetGlob pcb (udp_server_pcb_boot n) (recv_tbl n)) ;;
  n <- get_net ;;
  stack (udp_connect (upcb_boot n) (IP4_ADDR 192 168 20 69) UDP_CLIENT_PORT) ;;
  pcb <- stack udp_new ;;
  modify_net (fun n => NetGlob (upcb_boot n) pcb (recv_tbl n)) ;;
  n <- get_net ;;
  stack (udp_bind (udp_server_pcb_boot n) UDP_SERVER_PORT) ;;
  udp_recv (udp_server_pcb_boot n) udp_receive_callback_ 0.
End net.

(** * What the stack does *)

(** The flash is untouched, and at most [t] ticks pass. *)
Definition quiet {B : Bus} {F : FlashDev B} (h h' : hw) (t : Z) : Prop :=
  fl_view h' = fl_view h /\ within h h' t.

(** The calls of the stack do not touch the flash, and each takes bounded
    time; what was sent is known. *)
Class LwipDev (B : Bus) (L : Lwip B) (F : FlashDev B) := {
  net_step : Z;
  net_step_pos : 0 <= net_step;
  net_sent : hw -> list (Z * Z * Z * list Z);
  out_buf : hw -> Z -> list Z;
  q_alloc n h : quiet h (snd (pbuf_alloc n h)) net_step;
  q_fill p l h : quiet h (pbuf_fill p l h) net_step;
  q_free p h : quiet h (pbuf_free p h) net_step;
  q_new h : quiet h (snd (udp_new h)) net_step;
  q_bind p n h : quiet h (snd (udp_bind p n h)) net_step;
  q_disconnect p h : quiet h (udp_disconnect p h) net_step;
  q_remove p h : quiet h (udp_remove p h) net_step;
  q_send u p h : quiet h (snd (udp_send u p h)) net_step;
  q_sendto u p a n h : quiet h (snd (udp_sendto u p a n h)) net_step;
  q_malloc n h : quiet h (snd (mem_malloc n h)) net_step;
  q_mfree p h : quiet h (mem_free p h) net_step;
  q_delay n h : 0 <= n -> quiet h (os_delay n h) (n + net_step);
  sent_alloc n h : net_sent (snd (pbuf_alloc n h)) = net_sent h;
  sent_fill p l h : net_sent (pbuf_fill p l h) = net_sent h;
  sent_free p h : net_sent (pbuf_free p h) = net_sent h;
  fill_buf p l h : out_buf (pbuf_fill p l h) p = l;
  sent_to u p a n h :
    net_sent (snd (udp_sendto u p a n h)) =
    net_sent h ++ (if fst (udp_sendto u p a n h) =? ERR_OK then [(u, a, n, out_buf h p)] else []);
}.

Section quiet.
Context {B : Bus} {F : FlashDev B}.

Lemma quiet_refl h : quiet h h 0.
Proof. split; [done|]. unfold within. lia. Qed.

Lemma quiet_trans h h1 h2 t1 t2 : quiet h h1 t1 -> quiet h1 h2 t2 -> quiet h h2 (t1 + t2).
Proof. intros [Hf1 Ht1] [Hf2 Ht2]. split; [by rewrite Hf2|]. unfold within in *. lia. Qed.

Lemma quiet_le h h' t t' : quiet h h' t -> t <= t' -> quiet h h' t'.
Proof. intros [Hf Ht] Hle. split; [done|]. unfold within in *. lia. Qed.

End quiet.

(** A sequence of calls. *)
Ltac quiet_solve :=
  first
    [ eassumption | apply quiet_refl
    | eapply quiet_trans;
      [| first [ apply q_alloc | apply q_fill | apply q_free | apply q_new | apply q_bind
               | apply q_disconnect | apply q_remove | apply q_send | apply q_sendto
               | apply q_malloc | apply q_mfree | apply q_delay; lia ] ];
      quiet_solve ].

Section messages.
Context {B : Bus} {L : Lwip B} {F : FlashDev B} {D : LwipDev B L F} {G : Type} {HN : Has G net_glob}.
Implicit Types s : mach G.

(** The time of one message. *)
Definition send_time : Z := 6 * net_step + 1.

Lemma send_time_pos : 0 <= send_time.
Proof. unfold send_time. pose proof net_step_pos. lia. Qed.

Lemma wp_stack {A} (f : hw -> A * hw) s (Q : A -> mach G -> Prop) :
  wp (stack f) s Q <-> Q (fst (f (dev s))) (Mach (snd (f (dev s))) (wlog s) (glb s)).
Proof. done. Qed.

Lemma wp_stack_ (f : hw -> hw) s (Q : unit -> mach G -> Prop) :
  wp (stack_ f) s Q <-> Q tt (Mach (f (dev s)) (wlog s) (glb s)).
Proof. done. Qed.

Lemma wp_delay n s (Q : unit -> mach G -> Prop) :
  wp (delay_ n) s Q <-> Q tt (Mach (os_delay n (dev s)) (wlog s) (glb s)).
Proof. done. Qed.

Lemma wp_get_net s (Q : net_glob -> mach G -> Prop) : wp get_net s Q <-> Q (part (glb s)) s.
Proof. done. Qed.

Lemma wp_modify_net f s (Q : unit -> mach G -> Prop) :
  wp (modify_net f) s Q <-> Q tt (Mach (dev s) (wlog s) (with_part (f (part (glb s))) (glb s))).
Proof. done. Qed.

Lemma wp_client_send msg s (Q : unit -> mach G -> Prop) :
  (forall d l, quiet (dev s) d send_time -> Q tt (Mach d l (glb s))) ->
  wp (udp_client_send msg) s Q.
Proof.
  pose proof net_step_pos as Hs. unfold send_time. intros HQ.
  assert (Hret : forall d l t, quiet (dev s) d t -> t <= 6 * net_step + 1 -> Q tt (Mach d l (glb s))).
  { intros d l t Hq Ht. by apply HQ, (quiet_le _ _ t). }
  assert (Hfin : forall d, quiet (dev s) d 0 -> Q tt (Mach d (wlog s) (glb s))).
  { intros d Hq. eapply Hret; [exact Hq|lia]. }
  unfold udp_client_send, printf. apply wp_bind, wp_get_net.
  destruct (_ =? 0); [apply wp_ret; destruct s; apply Hfin, quiet_refl|].
  apply wp_bind, wp_stack. destruct (_ =? 0); [apply wp_ret; eapply Hret; [quiet_solve|lia]|].
  apply wp_bind, wp_stack_, wp_bind, wp_stack. cbn [dev wlog glb].
  apply wp_bind. match goal with |- wp (if ?b then _ else _) ?t ?K => cut (K tt t); [by destruct b|] end.
  apply wp_bind, wp_delay, wp_stack_. cbn [dev wlog glb]. eapply Hret; [quiet_solve|lia].
Qed.
End messages.

(** ** The reset commands *)

Lemma c_str_length l n : l !! n = Some 0 -> (length (c_str l) <= n)%nat.
Proof.
  revert l. induction n as [|n IH]; intros [|b l] H; try discriminate; cbn.
  - by injection H as ->.
  - destruct (b =? 0); cbn; [lia|]. specialize (IH l H). lia.
Qed.

Section commands.
Context {B : Bus} {L : Lwip B} {G : Type} {HN : Has G net_glob}.

(** C39: the reset commands cannot be given: a packet of fewer than 12 bytes is
    freed and changes nothing else, whatever it holds (the commands have 17
    and 12 bytes and the buffer 12), and a packet of 12 bytes or more runs out of
    the bounds of the buffer. *)
Theorem udp_commands_unreachable addr p (s : mach G) :
  udp_receive_callback (Some (addr, p)) s =
  if len p <? 12 then Ret tt (Mach (pbuf_free addr (dev s)) (wlog s) (glb s)) else Undef s.
Proof.
  unfold udp_receive_callback, len. set (n := Z.of_nat (length (payload p))).
  destruct (Z.ltb_spec n 12) as [Hlt|Hge].
  2: { destruct (Z.leb_spec n 12); unfold bind; cbn [defined_if ret]; [|done].
       destruct (Z.ltb_spec n 12); [lia|done]. }
  assert ((n <=? 12) = true) as -> by (apply Z.leb_le; lia).
  unfold bind at 1 2. cbn [defined_if ret].
  set (buf := aset _ n 0). assert (length (c_str buf) <= 11)%nat as Hlen.
  { transitivity (Z.to_nat n); [|lia]. apply c_str_length. unfold buf, aset.
    destruct (Z.ltb_spec n 0); [lia|]. apply list_lookup_insert_eq.
    rewrite length_app, length_drop, length_replicate. lia. }
  destruct (decide (c_str buf = JUMP_BOOT_STR)) as [He|_].
  { rewrite He in Hlen. vm_compute in Hlen. lia. }
  destruct (decide (c_str buf = JUMP_FW_STR)) as [He|_]; [|done].
  rewrite He in Hlen. vm_compute in Hlen. lia.
Qed.
End commands.
