(* ===== verification/Tftp.v ===== *)
(** The firmware update, src/tftpserver.c: the TFTP server that accepts one
    write request, the backup of the running firmware, the transfer into flash, the
    check of the new image with the recovery of the old one, and the recovery after
    a watchdog reset. *)
From S2P Require Import Prelude Machine SysArch FlashHal FlashDev FlashIf Crc Reset Net.
From stdpp Require Import gmap strings.

#[local] Open Scope fw_scope.
#[local] Open Scope Z_scope.

Definition TFTP_DATA_LEN_MAX : Z := 512.
Definition TFTP_DATA_PKT_HDR_LEN : Z := 4.
Definition TFTP_ACK_PKT_LEN : Z := 4.
Definition TFTP_DATA_PKT_LEN_MAX : Z := TFTP_DATA_PKT_HDR_LEN + TFTP_DATA_LEN_MAX.
Definition TFTP_WRQ : Z := 2.
Definition TFTP_ACK : Z := 4.
Definition BACKUP_TAG_ADDRESS : Z := BACKUP_FLASH_FIRST_PAGE_ADDRESS.
Definition TAG_VALID : Z := 0xA5A5A5A5.

(** The fields of [tftp_connection_args] that are used. *)
Record tftp_connection_args := Args {
  op : Z; to_ip : Z; to_port : Z; block : Z; tot_bytes : Z }.
Definition sizeof_args : Z := 552.

(** The statics of tftpserver.c and the connection arguments on the heap. *)
Record tftp_glob := TftpGlob {
  Flash_Write_Address : Z;
  UDPpcb : Z;
  total_count : Z;
  args_heap : gmap Z tftp_connection_args;
}.

(** The globals of the update: those of udp_total.c, of the flash HAL, of
    tftpserver.c, and the two handles of main.c. *)
Record app_glob := AppGlob {
  a_net : net_glob;
  a_flash : FLASH_ProcessTypeDef;
  a_tftp : tftp_glob;
  hcrc : CRC_HandleTypeDef;
  hiwdg : IWDG_HandleTypeDef;
}.

#[export] Program Instance app_net : Has app_glob net_glob := {|
  part := a_net; with_part n g := AppGlob n (a_flash g) (a_tftp g) (hcrc g) (hiwdg g) |}.
Next Obligation. done. Qed.
Next Obligation. by intros []. Qed.
#[export] Program Instance app_flash : Has app_glob FLASH_ProcessTypeDef := {|
  part := a_flash; with_part f g := AppGlob (a_net g) f (a_tftp g) (hcrc g) (hiwdg g) |}.
Next Obligation. done. Qed.
Next Obligation. by intros []. Qed.

Definition set_tftp (f : tftp_glob -> tftp_glob) (g : app_glob) : app_glob :=
  AppGlob (a_net g) (a_flash g) (f (a_tftp g)) (hcrc g) (hiwdg g).
Definition set_addr (a : Z) (t : tftp_glob) := TftpGlob a (UDPpcb t) (total_count t) (args_heap t).
Definition set_pcb (p : Z) (t : tftp_glob) := TftpGlob (Flash_Write_Address t) p (total_count t) (args_heap t).
Definition set_total (c : Z) (t : tftp_glob) := TftpGlob (Flash_Write_Address t) (UDPpcb t) c (args_heap t).
Definition set_heap (h : gmap Z tftp_connection_args) (t : tftp_glob) :=
  TftpGlob (Flash_Write_Address t) (UDPpcb t) (total_count t) h.

(** Decimal digits of a number below [10 ^ n]. *)
Fixpoint digits (n : nat) (x : Z) : list Z :=
  match n with
  | O => []
  | S n' => (if x <? 10 then [] else digits n' (x / 10)) ++ [48 + x mod 10]
  end.
(** [%d] of an [int] given as the word that was converted. *)
Definition fmt_int (x : Z) : list Z :=
  if x <? 2 ^ 31 then digits 10 x else 45 :: digits 10 (2 ^ 32 - x).

(** Four bytes, least significant first, are a word. *)
Fixpoint le_words (l : list Z) : list Z :=
  match l with
  | b0 :: b1 :: b2 :: b3 :: l' => (b0 .| (b1 .<< 8) .| (b2 .<< 16) .| (b3 .<< 24)) :: le_words l'
  | _ => []
  end.

Section tftp.
Context {B : Bus} {N : Narrow B} {L : Lwip B}.
Abbreviation prog := (M (mach app_glob)).

Definition get_tftp : prog tftp_glob := g <- get_ ;; ret (a_tftp g).
Definition modify_tftp (f : tftp_glob -> tftp_glob) : prog unit := modify_ (set_tftp f).

(** Accesses to a packet, undefined beyond its end. *)
Definition IAP_tftp_decode_op (buf : list Z) : prog Z := deref (aget buf 1).
Definition IAP_tftp_extract_block (buf : list Z) : prog Z :=
  hi <- deref (aget buf 2) ;; lo <- deref (aget buf 3) ;; ret (256 * hi + lo).
Definition IAP_tftp_set_opcode (buffer : list Z) (opcode : Z) : list Z :=
  aset (aset buffer 0 0) 1 (u8 opcode).
Definition IAP_tftp_set_block (packet : list Z) (block : Z) : list Z :=
  aset (aset packet 2 (u16 block / 256)) 3 (u16 block mod 256).

Definition ack_packet (block : Z) : list Z :=
  IAP_tftp_set_block (IAP_tftp_set_opcode (replicate 4 0) TFTP_ACK) block.

Definition IAP_tftp_send_ack_packet (upcb to to_port block : Z) : prog Z :=
  let packet := ack_packet block in
  pkt_buf <- stack (pbuf_alloc TFTP_ACK_PKT_LEN) ;;
  if pkt_buf =? 0 then udp_client_send (line "Can not allocate pbuf") ;; ret ERR_MEM
  else
    stack_ (pbuf_fill pkt_buf packet) ;;
    err <- stack (udp_sendto upcb pkt_buf to to_port) ;;
    stack_ (pbuf_free pkt_buf) ;;
    ret err.

Definition IAP_tftp_cleanup_wr (upcb args : Z) : prog unit :=
  stack_ (mem_free args) ;;
  modify_tftp (fun t => set_heap (delete args (args_heap t)) t) ;;
  stack_ (udp_disconnect upcb) ;;
  udp_close upcb ;;
  t <- get_tftp ;;
  udp_recv (UDPpcb t) IAP_tftp_recv_callback_ 0.

(** The copy of an image with its tag from region [src] to region [dst]: the
    length is a 16-bit number of words. *)
Definition copy_image (fuel : nat) (src dst : Z) : prog (Z * Z) :=
  size <- rd (src + TAG_size) ;;
  let data_len := u16 (u32 (size + 1024) / 4) in
  call (FLASH_If_Write fuel dst (flash_data src) data_len).

(** The backup's copy is written over the user region. *)
Definition restore_backup (fuel : nat) : prog unit :=
  call (FLASH_If_Erase fuel USER_FLASH_FIRST_PAGE_ADDRESS) ;;
  copy_image fuel BACKUP_FLASH_FIRST_PAGE_ADDRESS USER_FLASH_FIRST_PAGE_ADDRESS ;;
  ret tt.

(** The check at the end of a transfer, up to the reset. *)
Definition wrq_finish (fuel : nat) (upcb args pkt_buf : Z) : prog unit :=
  IAP_tftp_cleanup_wr upcb args ;;
  stack_ (pbuf_free pkt_buf) ;;
  valid <- rd (TAG_ADDRESS + TAG_valid_flag) ;;
  (if valid =? TAG_VALID then
     g <- get_ ;;
     crc_result <- CAL_CRC (hcrc g) ;;
     crc <- rd (TAG_ADDRESS + TAG_crc) ;;
     if crc =? crc_result then
       udp_client_send (line "[BOOT]  CRC same, Jump to new FW")
     else
       udp_client_send (line "[BOOT]  CRC not same, Back to before FW") ;;
       call HAL_FLASH_Unlock ;;
       restore_backup fuel
   else ret tt) ;;
  clear_boot_flag ;;
  NVIC_SystemReset.

(** The data part of a packet with the expected number.  [garbage] is what the
    uninitialised [data_buffer] holds. *)
Definition wrq_store (fuel : nat) (garbage : list Z) (_args : Z) (a : tftp_connection_args)
    (pkt_buf : pbuf) : prog unit :=
  let n := len pkt_buf - TFTP_DATA_PKT_HDR_LEN in
  defined_if (n <=? 512) ;;
  let data_buffer := drop 4 (payload pkt_buf) ++ drop (Z.to_nat n) garbage in
  modify_tftp (fun t => set_total (u32 (total_count t + n)) t) ;;
  let count := u16 (n / 4) in
  let count := if negb (n mod 4 =? 0) then u16 (count + 1) else count in
  t <- get_tftp ;;
  r <- call (FLASH_If_Write fuel (Flash_Write_Address t) (ram_data (le_words data_buffer)) count) ;;
  modify_tftp (set_addr (snd r)) ;;
  modify_tftp (fun t => set_heap (<[_args := Args (op a) (to_ip a) (to_port a) (block a + 1)
    (tot_bytes a + n)]> (args_heap t)) t).

(** [garbage] stands for the 512 bytes of the stack that are not initialised,
    [addr_buf] for the address of the packet buffer. *)
Definition IAP_wrq_recv_callback (fuel : nat) (garbage : list Z) (_args upcb addr_buf : Z)
    (pkt_buf : pbuf) (addr port : Z) : prog unit :=
  if negb (len pkt_buf =? tot_len pkt_buf) then udp_client_send (line "Invalid data length")
  else
    t <- get_tftp ;;
    a <- deref (args_heap t !! _args) ;;
    (if TFTP_DATA_PKT_HDR_LEN <? len pkt_buf then
       b <- IAP_tftp_extract_block (payload pkt_buf) ;;
       if b =? block a + 1 then wrq_store fuel garbage _args a pkt_buf else ret tt
     else
       b <- IAP_tftp_extract_block (payload pkt_buf) ;;
       if b =? block a + 1 then
         modify_tftp (fun t => set_heap (<[_args := Args (op a) (to_ip a) (to_port a) (block a + 1)
           (tot_bytes a)]> (args_heap t)) t)
       else ret tt) ;;
    t <- get_tftp ;;
    a <- deref (args_heap t !! _args) ;;
    IAP_tftp_send_ack_packet upcb addr port (block a) ;;
    if len pkt_buf <? TFTP_DATA_PKT_LEN_MAX then
      t <- get_tftp ;;
      message <- sprintf 40 (bytes_of "[BOOT]  Tot bytes Received: " ++ fmt_int (total_count t) ++
                             line " bytes ") ;;
      udp_client_send message ;;
      wrq_finish fuel upcb _args addr_buf
    else stack_ (pbuf_free addr_buf).

Definition WDGbackup (fuel : nat) : prog unit :=
  call HAL_FLASH_Unlock ;;
  g <- get_ ;;
  HAL_IWDG_Refresh (hiwdg g) ;;
  restore_backup fuel ;;
  HAL_RCC_CLEAR_RESET_FLAGS ;;
  clear_boot_flag.

Definition IAP_tftp_process_write (fuel : nat) (upcb to to_port : Z) : prog Z :=
  args <- stack (mem_malloc sizeof_args) ;;
  if args =? 0 then
    udp_client_send (line "Memory error ") ;;
    IAP_tftp_cleanup_wr upcb args ;;
    ret 0
  else
    modify_tftp (fun t => set_heap (<[args := Args TFTP_WRQ to to_port 0 0]> (args_heap t)) t) ;;
    udp_recv upcb IAP_wrq_recv_callback_ args ;;
    modify_tftp (set_total 0) ;;
    call FLASH_If_Init ;;
    call (FLASH_If_Erase fuel USER_FLASH_FIRST_PAGE_ADDRESS) ;;
    modify_tftp (set_addr USER_FLASH_FIRST_PAGE_ADDRESS) ;;
    IAP_tftp_send_ack_packet upcb to to_port 0 ;;
    udp_client_send (line "[BOOT]  Update FW... ") ;;
    ret 0.

(** A NUL-terminated string in flash. *)
Fixpoint flash_string (fuel : nat) (a : Z) : prog (list Z) :=
  match fuel with
  | O => spin
  | S n => b <- rd8 a ;; if b =? 0 then ret [] else l <- flash_string n (u32 (a + 1)) ;; ret (b :: l)
  end.

(** The backup of the firmware that is in flash, if its tag is valid. *)
Definition backup_firmware (fuel : nat) : prog unit :=
  valid <- rd (TAG_ADDRESS + TAG_valid_flag) ;;
  if valid =? TAG_VALID then
    name <- flash_string fuel (TAG_ADDRESS + TAG_filename) ;;
    tmp1 <- sprintf 40 (bytes_of "[BOOT]  Backup : " ++ name ++ [10]) ;;
    udp_client_send tmp1 ;;
    call HAL_FLASH_Unlock ;;
    call (FLASH_Backup_Erase fuel BACKUP_FLASH_FIRST_PAGE_ADDRESS) ;;
    r <- copy_image fuel USER_FLASH_FIRST_PAGE_ADDRESS BACKUP_FLASH_FIRST_PAGE_ADDRESS ;;
    if negb (fst r =? 0) then
      tmp2 <- sprintf 40 (bytes_of "[BOOT]  fail Backup, error : " ++ digits 10 (fst r) ++ [10]) ;;
      udp_client_send tmp2
    else ret tt
  else ret tt.

(** The name in a request: the bytes up to the first NUL, which the loop finds
    only if it is inside the packet; the copy with its NUL into 40 bytes. *)
Definition wrq_filename (pkt : list Z) : prog (list Z) :=
  let name := c_str (drop 2 pkt) in
  defined_if (Z.of_nat (length name) <? Z.of_nat (length (drop 2 pkt))) ;;
  defined_if (Z.of_nat (length name) + 1 <=? 40) ;;
  ret name.

Definition IAP_tftp_recv_callback (fuel : nat) (addr_buf : Z) (pkt_buf : pbuf) (addr port : Z) :
    prog unit :=
  backup_firmware fuel ;;
  upcb_tftp_data <- stack udp_new ;;
  if upcb_tftp_data =? 0 then udp_client_send (line "Can not create pcb1 ")
  else
    err <- stack (udp_bind upcb_tftp_data 0) ;;
    if negb (err =? ERR_OK) then udp_client_send (line "Can not create pcb2 ")
    else
      op <- IAP_tftp_decode_op (payload pkt_buf) ;;
      (if negb (op =? TFTP_WRQ) then
         udp_client_send (line "Bad TFTP opcode ") ;;
         udp_close upcb_tftp_data
       else
         name <- wrq_filename (payload pkt_buf) ;;
         message <- sprintf 46 (bytes_of "[BOOT]  New : " ++ name ++ [10]) ;;
         udp_client_send message ;;
         IAP_tftp_process_write fuel upcb_tftp_data addr port ;;
         ret tt) ;;
      stack_ (pbuf_free addr_buf).

Definition IAP_tftpd_init : prog unit :=
  pcb <- stack udp_new ;;
  modify_tftp (set_pcb pcb) ;;
  t <- get_tftp ;;
  if UDPpcb t =? 0 then udp_client_send (line "Can not create pcb3 ")
  else
    err <- stack (udp_bind (UDPpcb t) 69) ;;
    if err =? ERR_OK then udp_recv (UDPpcb t) IAP_tftp_recv_callback_ 0
    else udp_client_send (line "Can not create pcb4 ").
End tftp.

(** * Copying images *)

(** The words of an image that are copied, by the size in its tag. *)
Definition image_len (mem : Z -> Z) (src : Z) : Z := u16 (u32 (u32 (mem (src + TAG_size)) + 1024) / 4).
Definition region_words (mem : Z -> Z) (src n : Z) : list Z :=
  (fun i => mem (src + 4 * i)) <$> zrange 0 (Z.to_nat n).

Definition cells32 (mem : Z -> Z) : Prop := forall x, 0 <= mem x < 2 ^ 32.

(** [dst] holds a copy of the first [n] words of [src]; everything else is as in [mem]. *)
Definition copied (mem : Z -> Z) (src dst n : Z) (x : Z) : Z :=
  if (dst <=? x) && (x <? dst + 4 * n) && ((x - dst) mod 4 =? 0) then mem (src + (x - dst)) else mem x.

Lemma aget_region mem src n i :
  aget (region_words mem src n) i = if (0 <=? i) && (i <? n) then Some (mem (src + 4 * i)) else None.
Proof.
  unfold aget, region_words. destruct (Z.ltb_spec i 0), (Z.leb_spec 0 i); try lia; [done|].
  cbn [andb]. rewrite list_lookup_fmap. destruct (Z.ltb_spec i n).
  - unfold zrange. rewrite lookup_seqZ_lt by lia. cbn. do 3 f_equal. lia.
  - unfold zrange. rewrite lookup_seqZ_ge by lia. done.
Qed.

Lemma length_region mem src n : length (region_words mem src n) = Z.to_nat n.
Proof. unfold region_words. rewrite length_fmap. unfold zrange. rewrite length_seqZ. lia. Qed.

Lemma words_at_region mem src dst n x :
  words_at mem dst (region_words mem src n) x = copied mem src dst n x.
Proof.
  unfold words_at, copied. destruct (Z.leb_spec dst x); cbn [andb]; [|done].
  destruct (Z.eqb_spec ((x - dst) mod 4) 0) as [Hm|]; cbn [andb]; [|by rewrite andb_false_r].
  rewrite andb_true_r, aget_region. destruct (Z.leb_spec 0 ((x - dst) / 4)); [|zlia].
  cbn [andb]. destruct (Z.ltb_spec ((x - dst) / 4) n), (Z.ltb_spec x (dst + 4 * n));
    [|zlia|zlia|done]. cbn. do 2 f_equal. zlia.
Qed.

Lemma image_len_range mem src : 0 <= image_len mem src < 65536.
Proof. apply u16_range. Qed.

(** The two directions. *)
Definition regions (src dst : Z) : Prop :=
  (src = USER_FLASH_FIRST_PAGE_ADDRESS /\ dst = BACKUP_FLASH_FIRST_PAGE_ADDRESS) \/
  (src = BACKUP_FLASH_FIRST_PAGE_ADDRESS /\ dst = USER_FLASH_FIRST_PAGE_ADDRESS).

(** Only the flash HAL's own globals changed, and it is unlocked. *)
Definition app_same (g g' : app_glob) : Prop :=
  a_net g' = a_net g /\ a_tftp g' = a_tftp g /\ hcrc g' = hcrc g /\ hiwdg g' = hiwdg g /\
  Lock (a_flash g') = false.

Section copy.
Context {B : Bus} {N : Narrow B} {L : Lwip B} {F : FlashDev B}.
Abbreviation app := (mach app_glob).
Implicit Types s : app.

Lemma fitting_all a n :
  a + 4 * Z.of_nat n <= USER_FLASH_END_ADDRESS -> fitting a n = n.
Proof. unfold fitting, USER_FLASH_END_ADDRESS. zlia. Qed.

Definition copy_time : Z := fl_step + 65535 * word_time.

Lemma word_time_pos : 0 <= word_time.
Proof. unfold word_time. pose proof op_time_pos. pose proof fl_step_pos. lia. Qed.

Lemma wp_copy_image fuel src dst s (Q : Z * Z -> app -> Prop) :
  (fl_lat < fuel)%nat -> regions src dst ->
  flash_ready (fl_view (dev s)) -> Lock (a_flash (glb s)) = false ->
  0 <= fl_now (dev s) -> fl_now (dev s) + copy_time < 2 ^ 32 ->
  let mem := f_mem (fl_view (dev s)) in
  let n := image_len mem src in
  cells32 mem -> erased_at mem dst (Z.to_nat n) ->
  (forall d l g, flash_ready (fl_view d) -> app_same (glb s) g ->
     (forall x, f_mem (fl_view d) x = copied mem src dst n x) -> within (dev s) d copy_time ->
     Q (0, dst + 4 * n) (Mach d l g)) ->
  wp (copy_image fuel src dst) s Q.
Proof.
  intros Hf Hreg Hr Hl H0 Hwrap mem n H32 Her HQ.
  pose proof fl_step_pos as Hstep. pose proof word_time_pos as Hword.
  pose proof (image_len_range mem src) as Hn. fold n in Hn. unfold copy_time in *.
  assert (Z.of_nat (Z.to_nat n) = n) as Hnn by lia.
  assert (n * word_time <= 65535 * word_time) as Hmul by (apply Z.mul_le_mono_nonneg_r; lia).
  unfold copy_image. apply wp_bind, wp_rd_flash.
  { apply in_flash_range. destruct Hreg as [[-> ->]|[-> ->]];
      unfold TAG_size, USER_FLASH_FIRST_PAGE_ADDRESS, BACKUP_FLASH_FIRST_PAGE_ADDRESS; lia. }
  { apply Hr. }
  intros d1 Hd1 Ht1. cbv zeta. fold mem. fold (image_len mem src). fold n.
  apply wp_zoom. cbn [dev wlog glb]. unfold FLASH_If_Write. rewrite u16_small by lia.
  unfold within in Ht1.
  apply (wp_write_words (holds_at src (region_words mem src n)) _ (region_words mem src n));
    unfold fw; cbn [dev wlog glb]; rewrite ?Hd1.
  - done.
  - apply flash_loads.
    + destruct Hreg as [[-> ->]|[-> ->]];
        unfold USER_FLASH_FIRST_PAGE_ADDRESS, BACKUP_FLASH_FIRST_PAGE_ADDRESS; lia.
    + rewrite length_region, Hnn. destruct Hreg as [[-> ->]|[-> ->]];
        unfold USER_FLASH_FIRST_PAGE_ADDRESS, BACKUP_FLASH_FIRST_PAGE_ADDRESS; lia.
    + unfold region_words. apply Forall_fmap, Forall_forall. intros; apply H32.
  - done.
  - done.
  - unfold region_words. apply Forall_fmap, Forall_forall. intros; apply H32.
  - destruct Hreg as [[-> ->]|[-> ->]];
      unfold USER_FLASH_FIRST_PAGE_ADDRESS, BACKUP_FLASH_FIRST_PAGE_ADDRESS; lia.
  - by destruct Hreg as [[-> ->]|[-> ->]].
  - done.
  - rewrite length_region. lia.
  - intros i w. rewrite aget_region. destruct (_ && _); [|done]. by intros [= <-].
  - intros m b v Hb HI i w Hi. unfold upd. destruct (Z.eqb_spec (src + 4 * i) b); [|by apply HI].
    exfalso. rewrite aget_region in Hi. destruct (Z.leb_spec 0 i), (Z.ltb_spec i n); try done.
    revert Hb. destruct Hreg as [[-> ->]|[-> ->]];
      unfold USER_FLASH_FIRST_PAGE_ADDRESS, BACKUP_FLASH_FIRST_PAGE_ADDRESS in *; lia.
  - lia.
  - rewrite Hnn. lia.
  - intros d l g c Hc Hg. change (drop (Z.to_nat 0) (region_words mem src n)) with (region_words mem src n).
    fold mem. destruct (burn_erased mem dst (region_words mem src n)) as [H1 H2].
    { unfold region_words. apply Forall_fmap, Forall_forall. intros; apply H32. }
    { by rewrite length_region. }
    rewrite length_region, fitting_all in H1, H2 by (rewrite Hnn;
      destruct Hreg as [[-> ->]|[-> ->]]; unfold USER_FLASH_FIRST_PAGE_ADDRESS,
        BACKUP_FLASH_FIRST_PAGE_ADDRESS, USER_FLASH_END_ADDRESS; lia).
    rewrite Hnn in H1.
    destruct (burn _ _ _) as [r mem']. cbn [fst snd] in *. intros Hd Ht. rewrite H1.
    apply HQ; rewrite ?Hd; cbn [f_mem].
    + by split.
    + cbn [with_part app_flash]. split_and!; try done. cbn. by destruct Hg as [->| ->].
    + intros x. rewrite H2, <- words_at_region, firstn_all2; [done|]. rewrite length_region. lia.
    + unfold within in *. lia.
Qed.
End copy.

(** What a copy into a freshly erased region leaves: the image, erased cells
    behind it, and the rest of the flash as it was. *)
Definition copy_of (src dst hi n : Z) (mem mem' : Z -> Z) : Prop :=
  (forall i, 0 <= i < n -> mem' (dst + 4 * i) = mem (src + 4 * i)) /\
  (forall i, n <= i -> dst + 4 * i < hi -> mem' (dst + 4 * i) = ERASED) /\
  (forall x, x < dst \/ hi <= x -> mem' x = mem x).
Definition USER_END : Z := 0x08100000.
Definition BACKUP_END : Z := 0x081C0000.
Definition restored (mem mem' : Z -> Z) : Prop :=
  copy_of BACKUP_FLASH_FIRST_PAGE_ADDRESS USER_FLASH_FIRST_PAGE_ADDRESS USER_END
    (image_len mem BACKUP_FLASH_FIRST_PAGE_ADDRESS) mem mem'.
Definition backed_up (mem mem' : Z -> Z) : Prop :=
  copy_of USER_FLASH_FIRST_PAGE_ADDRESS BACKUP_FLASH_FIRST_PAGE_ADDRESS BACKUP_END
    (image_len mem USER_FLASH_FIRST_PAGE_ADDRESS) mem mem'.

Section erase_copy.
Context (mem : Z -> Z) (src dst hi n : Z).
Context (Hn : 0 <= n < 65536) (Hdst : dst mod 4 = 0) (Hhi : dst + 4 * 65536 <= hi)
  (Hsrc : src + 4 * 65536 <= dst \/ hi <= src).

Lemma erased_cells_out lo x : x < lo \/ hi <= x -> erased_cells mem lo hi x = mem x.
Proof using. unfold erased_cells. intros H. destruct (Z.leb_spec lo x), (Z.ltb_spec x hi); done || lia. Qed.

Lemma erased_cells_in lo x : lo <= x < hi -> erased_cells mem lo hi x = ERASED.
Proof using. unfold erased_cells. intros H. destruct (Z.leb_spec lo x), (Z.ltb_spec x hi); done || lia. Qed.

Lemma erase_copy mem1 mem2 :
  (forall x, mem1 x = erased_cells mem dst hi x) -> (forall x, mem2 x = copied mem1 src dst n x) ->
  copy_of src dst hi n mem mem2.
Proof using Hn Hdst Hhi Hsrc.
  intros H1 H2. split_and!.
  - intros i Hi. rewrite H2. unfold copied.
    destruct (Z.leb_spec dst (dst + 4 * i)), (Z.ltb_spec (dst + 4 * i) (dst + 4 * n)),
      (Z.eqb_spec ((dst + 4 * i - dst) mod 4) 0); try (exfalso; zlia). cbn [andb].
    rewrite H1, erased_cells_out by lia. f_equal. lia.
  - intros i Hi Hlt. rewrite H2. unfold copied.
    destruct (Z.ltb_spec (dst + 4 * i) (dst + 4 * n)); [lia|]. rewrite andb_false_r. cbn [andb].
    rewrite H1. apply erased_cells_in. lia.
  - intros x Hx. rewrite H2. unfold copied.
    assert ((dst <=? x) && (x <? dst + 4 * n) = false) as ->.
    { destruct (Z.leb_spec dst x), (Z.ltb_spec x (dst + 4 * n)); done || lia. }
    cbn [andb]. rewrite H1. by apply erased_cells_out.
Qed.

Lemma erased_cells_at mem1 :
  (forall x, mem1 x = erased_cells mem dst hi x) -> erased_at mem1 dst (Z.to_nat n).
Proof using Hn Hhi. intros H1 i Hi. rewrite H1. apply erased_cells_in. lia. Qed.

Lemma erased_cells32 mem1 :
  (forall x, mem1 x = erased_cells mem dst hi x) -> cells32 mem -> cells32 mem1.
Proof using.
  intros H1 H x. rewrite H1. unfold erased_cells. destruct (_ && _); [done|apply H].
Qed.

Lemma erased_image_len mem1 :
  (forall x, mem1 x = erased_cells mem dst hi x) -> image_len mem1 src = image_len mem src.
Proof using Hhi Hsrc.
  intros H1. unfold image_len, TAG_size. rewrite Z.add_0_r, H1, erased_cells_out by lia. done.
Qed.
End erase_copy.

Section recovery.
Context {B : Bus} {N : Narrow B} {L : Lwip B} {F : FlashDev B}.
Abbreviation app := (mach app_glob).
Implicit Types s : app.

Definition restore_time : Z := 4 * op_time + copy_time.

Lemma app_same_refl g : Lock (a_flash g) = false -> app_same g g.
Proof. by intros. Qed.
Lemma app_same_trans g1 g2 g3 : app_same g1 g2 -> app_same g2 g3 -> app_same g1 g3.
Proof. intros (? & ? & ? & ? & ?) (? & ? & ? & ? & ?). split_and!; congruence. Qed.

(** Erasing [dst] and copying [src] into it. *)
Lemma wp_erase_copy fuel (erase : mach FLASH_ProcessTypeDef -> outcome (mach FLASH_ProcessTypeDef) Z)
    src dst hi s (Q : Z * Z -> app -> Prop) :
  (fl_lat < fuel)%nat -> regions src dst -> dst + 4 * 65536 <= hi ->
  src + 4 * 65536 <= dst \/ hi <= src ->
  (forall (s : mach FLASH_ProcessTypeDef) (Q : Z -> mach FLASH_ProcessTypeDef -> Prop),
    flash_ready (fw s) -> Lock (glb s) = false ->
    0 <= fl_now (dev s) -> fl_now (dev s) + 4 * op_time < 2 ^ 32 ->
    (forall d l, flash_ready (fl_view d) -> f_key (fl_view d) = f_key (fw s) ->
       (forall x, f_mem (fl_view d) x = erased_cells (f_mem (fw s)) dst hi x) ->
       within (dev s) d (4 * op_time) -> Q 0 (Mach d l (op_done (glb s)))) ->
    wp erase s Q) ->
  flash_ready (fl_view (dev s)) -> Lock (a_flash (glb s)) = false ->
  0 <= fl_now (dev s) -> fl_now (dev s) + restore_time < 2 ^ 32 ->
  let mem := f_mem (fl_view (dev s)) in
  cells32 mem ->
  (forall d l g, flash_ready (fl_view d) -> app_same (glb s) g ->
     copy_of src dst hi (image_len mem src) mem (f_mem (fl_view d)) ->
     within (dev s) d restore_time -> Q (0, dst + 4 * image_len mem src) (Mach d l g)) ->
  wp (call erase ;; copy_image fuel src dst) s Q.
Proof.
  intros Hf Hreg Hhi Hsrc Herase Hr Hl H0 Hwrap mem H32 HQ. unfold restore_time in *.
  pose proof word_time_pos. pose proof op_time_pos. pose proof fl_step_pos.
  assert (0 <= copy_time) by (unfold copy_time; lia).
  assert (dst mod 4 = 0) as Hmod by by destruct Hreg as [[-> ->]|[-> ->]].
  pose proof (image_len_range mem src) as Hn.
  apply wp_bind, wp_zoom, Herase; cbn [dev glb]; [done|done|done|lia|].
  intros d1 l1 Hr1 _ Hm1 Ht1. unfold fw in Hm1. cbn [dev wlog glb] in *. fold mem in Hm1.
  unfold within in Ht1.
  pose proof (erased_image_len mem src dst hi Hhi Hsrc _ Hm1) as Hlen.
  apply wp_copy_image; cbn [dev glb]; rewrite ?Hlen; [done|done|done|done|lia|lia|..].
  - by apply (erased_cells32 mem dst hi).
  - by apply (erased_cells_at mem dst hi).
  - intros d2 l2 g2 Hr2 Hg2 Hm2 Ht2. apply HQ; [done| | |unfold within in *; lia].
    + eapply app_same_trans; [|exact Hg2]. by split_and!.
    + by apply (erase_copy mem src dst hi _ Hn Hmod Hhi Hsrc (f_mem (fl_view d1))).
Qed.

Lemma wp_restore fuel s (Q : unit -> app -> Prop) :
  (fl_lat < fuel)%nat -> flash_ready (fl_view (dev s)) -> Lock (a_flash (glb s)) = false ->
  0 <= fl_now (dev s) -> fl_now (dev s) + restore_time < 2 ^ 32 ->
  let mem := f_mem (fl_view (dev s)) in
  cells32 mem ->
  (forall d l g, flash_ready (fl_view d) -> app_same (glb s) g ->
     restored mem (f_mem (fl_view d)) -> within (dev s) d restore_time -> Q tt (Mach d l g)) ->
  wp (restore_backup fuel) s Q.
Proof.
  intros Hf Hr Hl H0 Hwrap mem H32 HQ.
  unfold restore_backup. apply wp_assoc, wp_bind, (wp_erase_copy fuel _ _ _ USER_END);
    [done|by right|done|by right| |done..|].
  - intros. by apply wp_If_Erase.
  - intros d l g Hr' Hg Hm Ht. apply wp_ret. by apply HQ.
Qed.

(** A write to a register that is none of the flash controller's. *)
Lemma wp_wr_other {G} a v (s : mach G) (Q : unit -> mach G -> Prop) :
  (forall w, fl_wr a (u32 v) w = w) ->
  (forall d, fl_view d = fl_view (dev s) -> within (dev s) d fl_step ->
     Q tt (Mach d (wlog s ++ [(a, u32 v)]) (glb s))) ->
  wp (wr a v) s Q.
Proof. intros Ha HQ. apply wp_wr, HQ; [by rewrite fl_wr_view|apply fl_wr_now]. Qed.

Lemma wp_rd_other {G} a (s : mach G) (Q : Z -> mach G -> Prop) :
  (forall w v w', fl_rd a w v w' -> w' = w) ->
  (forall v d, fl_view d = fl_view (dev s) -> within (dev s) d fl_step -> Q v (Mach d (wlog s) (glb s))) ->
  wp (rd a) s Q.
Proof. intros Ha HQ. apply wp_rd, HQ; [eapply Ha, fl_rd_view|apply fl_rd_now]. Qed.

Lemma wp_call_Unlock s (Q : Z -> app -> Prop) :
  flash_closed (fl_view (dev s)) ->
  (forall d l, flash_ready (fl_view d) -> f_mem (fl_view d) = f_mem (fl_view (dev s)) ->
     within (dev s) d (4 * fl_step) -> Q HAL_OK (Mach d l (glb s))) ->
  wp (call HAL_FLASH_Unlock) s Q.
Proof.
  intros Hc HQ. apply wp_zoom, wp_Unlock; [done|]. intros d l Hr Hm Ht.
  cbn [dev wlog glb]. rewrite with_same. by apply HQ.
Qed.

(** The state the update code starts from, with [t] ticks before the kernel
    tick wraps. *)
Definition app_ok s (t : Z) : Prop :=
  flash_closed (fl_view (dev s)) /\ Lock (a_flash (glb s)) = false /\
  cells32 (f_mem (fl_view (dev s))) /\ 0 <= fl_now (dev s) /\ fl_now (dev s) + t < 2 ^ 32.

Lemma wp_WDGbackup fuel s (Q : unit -> app -> Prop) :
  (fl_lat < fuel)%nat -> app_ok s (restore_time + 5 * fl_step) ->
  iwdg_Instance (hiwdg (glb s)) = IWDG ->
  (forall d l v g, app_same (glb s) g ->
     restored (f_mem (fl_view (dev s))) (f_mem (fl_view d)) ->
     Q tt (Mach d (l ++ [(RCC_CSR, u32 (v .| RCC_CSR_RMVF)); (RTC_BKP1R, 0)]) g)) ->
  wp (WDGbackup fuel) s Q.
Proof.
  intros Hf (Hc & Hl & H32 & H0 & Hwrap) Hi HQ. pose proof fl_step_pos as Hstep.
  unfold WDGbackup. apply wp_bind, wp_call_Unlock; [done|]. intros d1 l1 Hr1 Hm1 Ht1.
  unfold within in Ht1. apply wp_bind, wp_get. cbn [glb]. rewrite <- Hm1 in H32.
  apply wp_bind. unfold HAL_IWDG_Refresh. apply wp_bind. rewrite Hi.
  apply wp_wr_other; [done|]. intros d2 Hd2 Ht2. unfold within in Ht2. apply wp_ret. cbn [dev glb] in *.
  apply wp_bind, wp_restore; cbn [dev glb]; rewrite ?Hd2; [done|done|done|lia|lia|done|].
  rewrite Hm1. intros d3 l3 g3 Hr3 Hg3 Hm3 Ht3. apply wp_bind.
  unfold HAL_RCC_CLEAR_RESET_FLAGS, set_bits, rmw. apply wp_bind, wp_rd_other; [done|].
  intros v d4 Hd4 _. apply wp_wr_other; [done|]. intros d5 Hd5 _. unfold clear_boot_flag.
  apply wp_wr_other; [done|]. intros d6 Hd6 _. cbn [dev wlog glb] in *.
  rewrite <- app_assoc. cbn [Datatypes.app]. apply HQ; [done|]. by rewrite Hd6, Hd5, Hd4.
Qed.

(** C4: after a watchdog reset WDGbackup puts the backup in place of the firmware: the
    first (size + 1024) / 4 words (a 16-bit number) of the backup region are copied
    to the user region, the rest of that region is erased, bootloader and backup
    region stay, and at the end the reset flags and the boot flag are cleared. *)
Theorem WDGbackup_restores fuel s :
  (fl_lat < fuel)%nat -> app_ok s (restore_time + 5 * fl_step) ->
  iwdg_Instance (hiwdg (glb s)) = IWDG ->
  wp (WDGbackup fuel) s (fun _ s' =>
    restored (f_mem (fl_view (dev s))) (f_mem (fl_view (dev s'))) /\
    exists l v, wlog s' = l ++ [(RCC_CSR, u32 (v .| RCC_CSR_RMVF)); (RTC_BKP1R, 0)]).
Proof.
  intros Hf Hok Hi. apply wp_WDGbackup; [done..|]. intros d l v g _ Hm. split; [done|]. by exists l, v.
Qed.
End recovery.

(** What the final check does to the flash: only a valid tag with a wrong CRC
    has the backup restored. *)
Definition check_fails (mem : Z -> Z) : bool :=
  (tag_word mem TAG_valid_flag =? TAG_VALID) &&
  negb (tag_word mem TAG_crc =? crc32 (image_bits mem IMAGE_ADDRESS (tag_word mem TAG_size))).
Definition checked (mem mem' : Z -> Z) : Prop :=
  if check_fails mem then restored mem mem' else mem' = mem.

Section finish.
Context {B : Bus} {N : Narrow B} {L : Lwip B} {F : FlashDev B} {C : CrcDev B N F} {D : LwipDev B L F}.
Abbreviation app := (mach app_glob).
Implicit Types s : app.

Lemma wp_get_tftp s (Q : tftp_glob -> app -> Prop) : wp get_tftp s Q <-> Q (a_tftp (glb s)) s.
Proof. done. Qed.

Lemma wp_modify_tftp f s (Q : unit -> app -> Prop) :
  wp (modify_tftp f) s Q <-> Q tt (Mach (dev s) (wlog s) (set_tftp f (glb s))).
Proof. done. Qed.

Lemma wp_cleanup upcb args s (Q : unit -> app -> Prop) :
  (forall d g, quiet (dev s) d (3 * net_step) -> a_flash g = a_flash (glb s) ->
     hcrc g = hcrc (glb s) -> hiwdg g = hiwdg (glb s) -> Q tt (Mach d (wlog s) g)) ->
  wp (IAP_tftp_cleanup_wr upcb args) s Q.
Proof.
  intros HQ. unfold IAP_tftp_cleanup_wr, udp_close, udp_recv.
  apply wp_bind, wp_stack_, wp_bind, wp_modify_tftp, wp_bind, wp_stack_, wp_bind, wp_bind, wp_stack_,
    wp_modify_net, wp_bind, wp_get_tftp, wp_modify_net. cbn [dev wlog glb].
  apply HQ; [|done..]. eapply quiet_le; [quiet_solve|lia].
Qed.

Definition finish_time (size : Z) : Z :=
  4 * net_step + send_time + (24 + 2 * size) * fl_step + restore_time.

(** The end of the update: the boot flag is cleared and the reset requested. *)
Lemma reset_at_end s (Q : app -> Prop) :
  (forall d l v, fl_view d = fl_view (dev s) ->
     Q (Mach d (l ++ [(RTC_BKP1R, 0); (SCB_AIRCR, v)]) (glb s))) ->
  wp_halt (clear_boot_flag ;; NVIC_SystemReset (A := unit)) s Q.
Proof.
  intros HQ. apply wp_halt_bind. unfold clear_boot_flag. apply wp_wr_other; [done|].
  intros d1 Hd1 _. unfold NVIC_SystemReset, rmw. apply wp_halt_bind, wp_bind, wp_rd_other; [done|].
  intros v d2 Hd2 _. apply wp_wr_other; [done|]. intros d3 Hd3 _. cbn [dev wlog glb] in *.
  unfold wp_halt, halt. rewrite <- app_assoc. cbn [Datatypes.app]. apply HQ. by rewrite Hd3, Hd2, Hd1.
Qed.

(** The check, when the tag is valid. *)
Lemma wp_check fuel s (Q : unit -> app -> Prop) :
  (fl_lat < fuel)%nat -> flash_closed (fl_view (dev s)) -> Lock (a_flash (glb s)) = false ->
  crc_default (hcrc (glb s)) ->
  let mem := f_mem (fl_view (dev s)) in
  let size := tag_word mem TAG_size in
  cells32 mem -> image_fits mem -> tag_word mem TAG_valid_flag = TAG_VALID ->
  0 <= fl_now (dev s) ->
  fl_now (dev s) + send_time + (23 + 2 * size) * fl_step + restore_time < 2 ^ 32 ->
  (forall s', checked mem (f_mem (fl_view (dev s'))) -> Q tt s') ->
  wp (g <- get_ ;;
      crc_result <- CAL_CRC (hcrc g) ;;
      crc <- rd (TAG_ADDRESS + TAG_crc) ;;
      if crc =? crc_result then udp_client_send (line "[BOOT]  CRC same, Jump to new FW")
      else
        udp_client_send (line "[BOOT]  CRC not same, Back to before FW") ;;
        call HAL_FLASH_Unlock ;;
        restore_backup fuel) s Q.
Proof.
  intros Hf Hc Hl Hcrc mem size H32 Hfit Hv H0 Hwrap HQ.
  pose proof fl_step_pos as Hstep. pose proof send_time_pos as Hsend.
  pose proof (u32_range (mem (TAG_ADDRESS + TAG_size))) as Hsz. fold (tag_word mem TAG_size) size in Hsz.
  pose proof Hc as [Hb _].
  apply wp_bind, wp_get, wp_bind, wp_CAL_CRC; [done..|]. fold mem size. intros d1 l1 Hd1 Ht1.
  apply wp_bind, wp_rd_flash; cbn [dev wlog glb]; rewrite ?Hd1; [by apply tag_in_flash|done|].
  fold mem. fold (tag_word mem TAG_crc). intros d2 Hd2 Ht2. unfold within in Ht1, Ht2.
  unfold checked, check_fails in HQ. fold size in HQ. rewrite Hv, Z.eqb_refl in HQ. cbn [andb] in HQ.
  destruct (tag_word mem TAG_crc =? _) eqn:E; cbn [negb] in HQ.
  - apply wp_client_send. intros d3 l3 [Hd3 _]. apply HQ. cbn [dev] in *. by rewrite Hd3, Hd2.
  - apply wp_bind, wp_client_send. intros d3 l3 [Hd3 Ht3]. cbn [dev glb] in *.
    apply wp_bind, wp_call_Unlock; cbn [dev glb]; [by rewrite Hd3, Hd2|].
    intros d4 l4 Hr4 Hm4 Ht4. rewrite Hd3, Hd2 in Hm4. fold mem in Hm4. unfold within in Ht3, Ht4.
    apply wp_restore; cbn [dev glb]; rewrite ?Hm4; [done|done|done|lia|nia|done|].
    intros d l g _ _ Hm _. by apply HQ.
Qed.

(** The end of a transfer, behind the message with the number of bytes: an image whose tag is valid
    but whose CRC is wrong is replaced by the backup, any other content of the flash is left as it
    is, the boot flag is cleared and the reset requested. *)
Lemma wp_wrq_finish fuel upcb args buf s :
  let mem := f_mem (fl_view (dev s)) in
  (fl_lat < fuel)%nat -> app_ok s (finish_time (tag_word mem TAG_size)) ->
  crc_default (hcrc (glb s)) -> image_fits mem ->
  wp_halt (wrq_finish fuel upcb args buf) s (fun s' =>
    checked mem (f_mem (fl_view (dev s'))) /\
    exists l v, wlog s' = l ++ [(RTC_BKP1R, 0); (SCB_AIRCR, v)]).
Proof.
  intros mem Hf (Hc & Hl & H32 & H0 & Hwrap) Hcrc Hfit. fold mem in H32.
  pose proof net_step_pos as Hnet. pose proof fl_step_pos as Hstep. unfold finish_time in Hwrap.
  unfold wrq_finish. apply wp_halt_bind, wp_cleanup. intros d1 g1 Hd1 Hg1 Hg2 Hg3.
  apply wp_halt_bind, wp_stack_. cbn [dev wlog glb].
  pose proof (quiet_trans _ _ _ _ _ Hd1 (q_free buf d1)) as [Hd2 Ht2]. set (d2 := pbuf_free buf d1) in *.
  apply wp_halt_bind, wp_rd_flash; cbn [dev wlog glb]; rewrite ?Hd2;
    [by apply tag_in_flash|apply Hc|]. intros d3 Hd3 Ht3. fold mem.
  fold (tag_word mem TAG_valid_flag). unfold within in Ht2, Ht3.
  assert (Hend : forall s', checked mem (f_mem (fl_view (dev s'))) ->
    wp_halt (clear_boot_flag ;; NVIC_SystemReset (A := unit)) s' (fun s' =>
      checked mem (f_mem (fl_view (dev s'))) /\
      exists l v, wlog s' = l ++ [(RTC_BKP1R, 0); (SCB_AIRCR, v)])).
  { intros s' Hs'. apply reset_at_end. intros d l v Hd. cbn [dev wlog]. rewrite Hd. split; [done|].
    by exists l, v. }
  apply wp_halt_bind. destruct (Z.eqb_spec (tag_word mem TAG_valid_flag) TAG_VALID) as [Hv|Hv].
  - apply wp_check; cbn [dev glb]; rewrite ?Hd3, ?Hg1, ?Hg2; fold mem; [done..|lia| |done]; nia.
  - apply wp_ret, Hend. cbn [dev]. rewrite Hd3. unfold checked, check_fails.
    by destruct (Z.eqb_spec (tag_word mem TAG_valid_flag) TAG_VALID).
Qed.
End finish.

(** * Acknowledgements *)

Section ack.
Context {B : Bus} {N : Narrow B} {L : Lwip B} {F : FlashDev B} {D : LwipDev B L F}.
Abbreviation app := (mach app_glob).
Implicit Types s : app.

Definition ack_time : Z := 4 * net_step + send_time.

Lemma wp_send_ack upcb to port b s (Q : Z -> app -> Prop) :
  (forall r d l, quiet (dev s) d ack_time ->
     (r = ERR_OK -> net_sent d = net_sent (dev s) ++ [(upcb, to, port, ack_packet b)]) ->
     Q r (Mach d l (glb s))) ->
  wp (IAP_tftp_send_ack_packet upcb to port b) s Q.
Proof.
  pose proof net_step_pos as Hnet. unfold ack_time. intros HQ. unfold IAP_tftp_send_ack_packet.
  apply wp_bind, wp_stack. destruct (_ =? 0).
  - apply wp_bind, wp_client_send. cbn [dev glb]. intros d l Hd. apply wp_ret, HQ; [|done].
    eapply quiet_le; [eapply quiet_trans; [apply q_alloc|exact Hd]|lia].
  - apply wp_bind, wp_stack_, wp_bind, wp_stack, wp_bind, wp_stack_, wp_ret. cbn [dev wlog glb].
    apply HQ.
    + pose proof send_time_pos. eapply quiet_le; [quiet_solve|lia].
    + intros He. rewrite sent_free, sent_to, He, sent_fill, sent_alloc, fill_buf. done.
Qed.

Lemma aget_ack b :
  ack_packet b = [0; TFTP_ACK; u16 b / 256; u16 b mod 256].
Proof. reflexivity. Qed.

(** An acknowledgement goes to the sender of the packet, and reads back as
    what it says: opcode 4 and the low 16 bits of the block number, high byte
    first; sending it touches neither the flash nor the globals. *)
Theorem ack_roundtrip upcb to port b s :
  wp (IAP_tftp_send_ack_packet upcb to port b) s (fun r s' =>
    fl_view (dev s') = fl_view (dev s) /\ glb s' = glb s /\
    (r = ERR_OK -> exists pkt,
       net_sent (dev s') = net_sent (dev s) ++ [(upcb, to, port, pkt)] /\ length pkt = 4%nat /\
       IAP_tftp_decode_op pkt s = Ret TFTP_ACK s /\ IAP_tftp_extract_block pkt s = Ret (u16 b) s)).
Proof.
  apply wp_send_ack. intros r d l [Hd _] Hs. split_and!; [done|done|]. intros Hr.
  exists (ack_packet b). split_and!; [by apply Hs|done|done|].
  rewrite aget_ack. unfold IAP_tftp_extract_block, bind. cbn. unfold ret. f_equal.
  pose proof (Z.div_mod (u16 b) 256). lia.
Qed.
End ack.

(** * The transfer *)

(** A DATA packet. *)
Definition data_pkt (k : Z) (bytes : list Z) : pbuf :=
  let p := [0; 3; k / 256; k mod 256] ++ bytes in Pbuf p (Z.of_nat (length p)).

Lemma le_words_app n l1 l2 :
  length l1 = (4 * n)%nat -> le_words (l1 ++ l2) = le_words l1 ++ le_words l2.
Proof.
  revert l1. induction n as [|n IH]; intros l1 Hl; [by destruct l1|].
  destruct l1 as [|b0 [|b1 [|b2 [|b3 l1]]]]; cbn [length] in Hl; try lia.
  cbn [Datatypes.app le_words]. rewrite IH by lia. done.
Qed.

Lemma length_le_words n l : length l = (4 * n)%nat -> length (le_words l) = n.
Proof.
  revert l. induction n as [|n IH]; intros l Hl; [by destruct l|].
  destruct l as [|b0 [|b1 [|b2 [|b3 l]]]]; cbn [length] in Hl; try lia.
  cbn [le_words length]. rewrite IH by lia. done.
Qed.

Definition is_bytes (l : list Z) : Prop := Forall (fun b => 0 <= b < 256) l.

Lemma le_words_range l : is_bytes l -> Forall (fun d => 0 <= d < 2 ^ 32) (le_words l).
Proof.
  unfold is_bytes. assert (Hstrong : forall n l, (length l <= n)%nat -> Forall (fun b => 0 <= b < 256) l ->
    Forall (fun d => 0 <= d < 2 ^ 32) (le_words l)); [|apply (Hstrong (length l)); lia].
  intros n. induction n as [|n IH]; intros l' Hl Hb; [destruct l'; [apply Forall_nil_2|cbn in Hl; lia]|].
  destruct l' as [|b0 [|b1 [|b2 [|b3 l']]]]; try apply Forall_nil_2.
  rewrite !Forall_cons in Hb. destruct Hb as (H0 & H1 & H2 & H3 & Hb).
  cbn [le_words length] in *. apply Forall_cons_2; [|apply IH; [lia|done]].
  assert (Hs : forall b k, 0 <= b < 256 -> 0 <= k <= 24 -> 0 <= b .<< k < 2 ^ 32).
  { intros b k Hb' Hk. rewrite Z.shiftl_mul_pow2 by lia.
    pose proof (Z.pow_le_mono_r 2 k 24). pose proof (Z.pow_pos_nonneg 2 k). nia. }
  repeat apply lor_lt_pow2; try lia; by apply Hs.
Qed.

Lemma words_at_ext mem mem' a l x :
  (forall y, mem y = mem' y) -> words_at mem a l x = words_at mem' a l x.
Proof. intros H. unfold words_at. by rewrite H. Qed.

Lemma words_at_app mem a l1 l2 x :
  words_at (words_at mem a l1) (a + 4 * Z.of_nat (length l1)) l2 x = words_at mem a (l1 ++ l2) x.
Proof.
  revert mem a. induction l1 as [|d l1 IH]; intros mem a.
  - rewrite Z.add_0_r. apply words_at_ext. intros y. unfold words_at, aget. rewrite lookup_nil.
    destruct (_ <? 0), (_ && _); done.
  - cbn [Datatypes.app length]. rewrite words_at_cons, <- IH.
    replace (a + 4 * Z.of_nat (S (length l1))) with (a + 4 + 4 * Z.of_nat (length l1)) by lia.
    apply words_at_ext. intros y. apply words_at_cons.
Qed.

Lemma words_at_out mem a l x :
  x < a \/ a + 4 * Z.of_nat (length l) <= x -> words_at mem a l x = mem x.
Proof.
  intros Hx. unfold words_at. destruct (Z.leb_spec a x); cbn [andb]; [|done].
  destruct (Z.eqb_spec ((x - a) mod 4) 0); [|done]. unfold aget.
  destruct (Z.ltb_spec ((x - a) / 4) 0); [done|].
  rewrite lookup_ge_None_2; [done|]. zlia.
Qed.

(** The state of a transfer after [k] blocks. *)
Record receiving (g : app_glob) (args upcb to port k : Z) : Prop := {
  r_args : args_heap (a_tftp g) !! args = Some (Args TFTP_WRQ to port k (512 * k));
  r_addr : Flash_Write_Address (a_tftp g) = USER_FLASH_FIRST_PAGE_ADDRESS + 512 * k;
  r_total : total_count (a_tftp g) = 512 * k;
  r_recv : recv_tbl (a_net g) !! upcb = Some (IAP_wrq_recv_callback_, args);
  r_lock : Lock (a_flash g) = false;
}.

Section transfer.
Context {B : Bus} {N : Narrow B} {L : Lwip B} {F : FlashDev B} {D : LwipDev B L F}.
Abbreviation app := (mach app_glob).
Implicit Types s : app.

(** The packets of [blocks], numbered from [k + 1]. *)
Fixpoint transfer (fuel : nat) (garbage : list Z) (args upcb buf addr port k : Z)
    (blocks : list (list Z)) : M app unit :=
  match blocks with
  | [] => ret tt
  | b :: bs =>
      IAP_wrq_recv_callback fuel garbage args upcb buf (data_pkt (k + 1) b) addr port ;;
      transfer fuel garbage args upcb buf addr port (k + 1) bs
  end.

Definition block_time : Z := 128 * word_time + ack_time + net_step.

(** The words that are written for a block of [bytes]: as many as hold it, the last one filled up with
    what the buffer held before. *)
Definition words_of (m : Z) : nat := Z.to_nat ((m + 3) / 4).
Definition block_words (garbage bytes : list Z) : list Z :=
  take (words_of (Z.of_nat (length bytes))) (le_words (bytes ++ drop (length bytes) garbage)).

(** What the globals are after block [k + 1], of [m] bytes, was stored. *)
Definition stored_part (g : app_glob) (args to port k m : Z) (f : FLASH_ProcessTypeDef) : app_glob :=
  AppGlob (a_net g) f
    (TftpGlob (USER_FLASH_FIRST_PAGE_ADDRESS + 512 * k + 4 * Z.of_nat (words_of m)) (UDPpcb (a_tftp g)) (512 * k + m)
       (<[args := Args TFTP_WRQ to port (k + 1) (512 * k + m)]> (args_heap (a_tftp g))))
    (hcrc g) (hiwdg g).
(** A full one. *)
Definition stored (g : app_glob) (args to port k : Z) (f : FLASH_ProcessTypeDef) : app_glob :=
  AppGlob (a_net g) f
    (TftpGlob (USER_FLASH_FIRST_PAGE_ADDRESS + 512 * (k + 1)) (UDPpcb (a_tftp g)) (512 * (k + 1))
       (<[args := Args TFTP_WRQ to port (k + 1) (512 * (k + 1))]> (args_heap (a_tftp g))))
    (hcrc g) (hiwdg g).
Lemma stored_full g args to port k f : stored_part g args to port k 512 f = stored g args to port k f.
Proof.
  unfold stored_part, stored. change (4 * Z.of_nat (words_of 512)) with 512.
  replace (512 * k + 512) with (512 * (k + 1)) by lia. by replace (USER_FLASH_FIRST_PAGE_ADDRESS + 512 * k + 512)
    with (USER_FLASH_FIRST_PAGE_ADDRESS + 512 * (k + 1)) by lia.
Qed.

Lemma extract_data_pkt k bytes s :
  0 <= k -> IAP_tftp_extract_block (payload (data_pkt k bytes)) s = Ret k s.
Proof.
  intros Hk. unfold IAP_tftp_extract_block, bind. cbn. unfold ret. f_equal.
  pose proof (Z.div_mod k 256). lia.
Qed.

Lemma len_data_pkt k bytes : len (data_pkt k bytes) = 4 + Z.of_nat (length bytes).
Proof. unfold len. cbn [data_pkt payload length Datatypes.app]. lia. Qed.

Lemma length_block_words garbage bytes : length garbage = 512%nat -> (length bytes <= 512)%nat ->
  length (block_words garbage bytes) = words_of (Z.of_nat (length bytes)).
Proof.
  intros Hg Hl. unfold block_words. rewrite length_take, (length_le_words 128) by (rewrite length_app, length_drop; lia).
  unfold words_of. zlia.
Qed.

Lemma block_words_full garbage bytes : length garbage = 512%nat -> length bytes = 512%nat -> block_words garbage bytes = le_words bytes.
Proof.
  intros Hg Hl. unfold block_words. rewrite Hl, (drop_ge garbage), app_nil_r by lia.
  apply take_ge. by rewrite (length_le_words 128).
Qed.

Lemma block_words_range garbage bytes : is_bytes garbage -> is_bytes bytes -> Forall (fun d => 0 <= d < 2 ^ 32) (block_words garbage bytes).
Proof. intros Hg Hb. apply Forall_take, le_words_range, Forall_app. split; [done|by apply Forall_drop]. Qed.

Lemma word_count m : 0 <= m <= 512 ->
  Z.to_nat (u16 (if negb (m mod 4 =? 0) then u16 (u16 (m / 4) + 1) else u16 (m / 4))) = words_of m.
Proof.
  intros Hm. unfold words_of. rewrite (u16_small (m / 4)) by zlia.
  destruct (Z.eqb_spec (m mod 4) 0); cbn [negb].
  - rewrite u16_small by zlia. zlia.
  - rewrite (u16_small (m / 4 + 1)) by zlia. rewrite u16_small by zlia. zlia.
Qed.

(** The loads of a prefix are those of the whole. *)
Lemma prefix_loads n (data : list Z) : loads (fun _ => True) (ram_data data) (take n data).
Proof.
  intros i d s Q Hd. apply ram_loads. unfold aget in *. destruct (i <? 0); [done|].
  by apply lookup_take_Some in Hd as [? _].
Qed.

Lemma wp_store_part fuel garbage args to port k bytes s (Q : unit -> app -> Prop) :
  let m := Z.of_nat (length bytes) in
  (fl_lat < fuel)%nat -> flash_ready (fl_view (dev s)) -> length garbage = 512%nat -> is_bytes (drop (length bytes) garbage) ->
  0 <= k < 1536 -> (length bytes <= 512)%nat -> is_bytes bytes ->
  Flash_Write_Address (a_tftp (glb s)) = USER_FLASH_FIRST_PAGE_ADDRESS + 512 * k ->
  total_count (a_tftp (glb s)) = 512 * k -> Lock (a_flash (glb s)) = false ->
  erased_at (f_mem (fl_view (dev s))) (USER_FLASH_FIRST_PAGE_ADDRESS + 512 * k) 128 ->
  0 <= fl_now (dev s) -> fl_now (dev s) + 128 * word_time < 2 ^ 32 ->
  (forall d l f, flash_ready (fl_view d) -> Lock f = false ->
     (forall x, f_mem (fl_view d) x =
        words_at (f_mem (fl_view (dev s))) (USER_FLASH_FIRST_PAGE_ADDRESS + 512 * k) (block_words garbage bytes) x) ->
     within (dev s) d (128 * word_time) -> Q tt (Mach d l (stored_part (glb s) args to port k m f))) ->
  wp (wrq_store fuel garbage args (Args TFTP_WRQ to port k (512 * k)) (data_pkt (k + 1) bytes)) s Q.
Proof.
  intros m Hf Hr Hg Hgb Hk Hlen Hbytes Haddr Htotal Hlock Her H0 Hwrap HQ.
  unfold wrq_store. rewrite len_data_pkt. fold m. replace (4 + m - TFTP_DATA_PKT_HDR_LEN) with m by (unfold TFTP_DATA_PKT_HDR_LEN; lia).
  apply wp_bind, wp_defined_if; [apply Z.leb_le; lia|].
  change (drop 4 (payload (data_pkt (k + 1) bytes))) with bytes. replace (Z.to_nat m) with (length bytes) by lia.
  apply wp_bind, wp_modify_tftp. cbv zeta. apply wp_bind, wp_get_tftp, wp_bind, wp_zoom. cbn [dev wlog glb].
  set (g1 := set_tftp _ (glb s)).
  assert (Flash_Write_Address (a_tftp g1) = USER_FLASH_FIRST_PAGE_ADDRESS + 512 * k) as -> by exact Haddr.
  pose proof (length_block_words garbage bytes Hg Hlen) as Hw. fold m in Hw.
  assert (Forall (fun d => 0 <= d < 2 ^ 32) (block_words garbage bytes)) as H32
    by (apply Forall_take, le_words_range, Forall_app; by split).
  unfold FLASH_If_Write. rewrite (word_count m) by lia.
  assert (words_of m <= 128)%nat as Hc128 by (unfold words_of; zlia).
  pose proof word_time_pos as Hwt.
  assert (Z.of_nat (words_of m) * word_time <= 128 * word_time) as Hct by (apply Z.mul_le_mono_nonneg_r; lia).
  eapply (wp_write_words (fun _ => True) _ (block_words garbage bytes)); unfold fw; cbn [dev glb];
    [done|apply prefix_loads|done|done|done| | |done|by rewrite Hw|done|done|done|lia|].
  { unfold USER_FLASH_FIRST_PAGE_ADDRESS. lia. }
  { unfold USER_FLASH_FIRST_PAGE_ADDRESS. zlia. }
  intros d l g c Hc Hg'. change (drop (Z.to_nat 0) (block_words garbage bytes)) with (block_words garbage bytes).
  destruct (burn_erased (f_mem (fl_view (dev s))) (USER_FLASH_FIRST_PAGE_ADDRESS + 512 * k)
    (block_words garbage bytes) H32) as [H1 H2]; [intros i Hi; apply Her; lia|].
  rewrite Hw, fitting_all in H1, H2 by (unfold USER_FLASH_FIRST_PAGE_ADDRESS, USER_FLASH_END_ADDRESS; lia).
  destruct (burn _ _ _) as [r mem']. cbn [fst snd] in *. intros Hd Ht. rewrite H1. cbn [snd].
  apply wp_bind, wp_modify_tftp, wp_modify_tftp. cbn [dev wlog glb].
  assert (u32 (total_count (a_tftp (glb s)) + m) = 512 * k + m) as Htot.
  { rewrite Htotal, u32_small by lia. lia. }
  match goal with |- Q _ (Mach _ _ ?gf) => replace gf with (stored_part (glb s) args to port k m g) end.
  - apply HQ; rewrite ?Hd; cbn [f_mem]; [by split|by destruct Hg' as [->| ->]| |unfold within in *; lia].
    intros x. rewrite H2. by rewrite firstn_all2 by lia.
  - unfold stored_part, set_tftp, set_addr, set_heap, g1, set_total. cbn. by rewrite Htot.
Qed.

Lemma wp_store fuel garbage args to port k bytes s (Q : unit -> app -> Prop) :
  (fl_lat < fuel)%nat -> flash_ready (fl_view (dev s)) -> length garbage = 512%nat ->
  0 <= k < 1536 -> length bytes = 512%nat -> is_bytes bytes ->
  Flash_Write_Address (a_tftp (glb s)) = USER_FLASH_FIRST_PAGE_ADDRESS + 512 * k ->
  total_count (a_tftp (glb s)) = 512 * k -> Lock (a_flash (glb s)) = false ->
  erased_at (f_mem (fl_view (dev s))) (USER_FLASH_FIRST_PAGE_ADDRESS + 512 * k) 128 ->
  0 <= fl_now (dev s) -> fl_now (dev s) + 128 * word_time < 2 ^ 32 ->
  (forall d l f, flash_ready (fl_view d) -> Lock f = false ->
     (forall x, f_mem (fl_view d) x =
        words_at (f_mem (fl_view (dev s))) (USER_FLASH_FIRST_PAGE_ADDRESS + 512 * k) (le_words bytes) x) ->
     within (dev s) d (128 * word_time) -> Q tt (Mach d l (stored (glb s) args to port k f))) ->
  wp (wrq_store fuel garbage args (Args TFTP_WRQ to port k (512 * k)) (data_pkt (k + 1) bytes)) s Q.
Proof.
  intros Hf Hr Hg Hk Hlen Hbytes Haddr Htotal Hlock Her H0 Hwrap HQ.
  apply wp_store_part; try done; [by rewrite Hlen, drop_ge by lia; apply Forall_nil_2|lia|].
  rewrite block_words_full, Hlen by done. intros d l f H1 H2 H3 H4. change (Z.of_nat 512) with 512. rewrite stored_full. by apply HQ.
Qed.

Lemma wp_block fuel garbage args upcb buf to port addr rport k bytes s (Q : unit -> app -> Prop) :
  (fl_lat < fuel)%nat -> flash_ready (fl_view (dev s)) -> length garbage = 512%nat ->
  0 <= k < 1536 -> length bytes = 512%nat -> is_bytes bytes ->
  receiving (glb s) args upcb to port k ->
  erased_at (f_mem (fl_view (dev s))) (USER_FLASH_FIRST_PAGE_ADDRESS + 512 * k) 128 ->
  0 <= fl_now (dev s) -> fl_now (dev s) + block_time < 2 ^ 32 ->
  (forall d l g, flash_ready (fl_view d) -> receiving g args upcb to port (k + 1) ->
     (forall x, f_mem (fl_view d) x =
        words_at (f_mem (fl_view (dev s))) (USER_FLASH_FIRST_PAGE_ADDRESS + 512 * k) (le_words bytes) x) ->
     within (dev s) d block_time -> Q tt (Mach d l g)) ->
  wp (IAP_wrq_recv_callback fuel garbage args upcb buf (data_pkt (k + 1) bytes) addr rport) s Q.
Proof.
  intros Hf Hr Hg Hk Hlen Hbytes Hrec Her H0 Hwrap HQ.
  pose proof net_step_pos as Hnet. pose proof word_time_pos as Hword. pose proof send_time_pos as Hsend.
  unfold block_time, ack_time in *. destruct Hrec as [Hargs Haddr Htotal Hrecv Hlock].
  pose proof (len_data_pkt (k + 1) bytes) as Hpl. rewrite Hlen in Hpl.
  unfold IAP_wrq_recv_callback.
  assert ((len (data_pkt (k + 1) bytes) =? tot_len (data_pkt (k + 1) bytes)) = true) as ->.
  { apply Z.eqb_eq. done. }
  cbn [negb]. rewrite Hpl. change (4 + Z.of_nat 512) with 516.
  apply wp_bind, wp_get_tftp, wp_bind. rewrite Hargs. apply wp_ret.
  change (TFTP_DATA_PKT_HDR_LEN <? 516) with true. change (516 <? TFTP_DATA_PKT_LEN_MAX) with false.
  cbv iota. apply wp_bind, wp_bind.
  unfold wp at 1. rewrite extract_data_pkt by lia. cbn [block]. rewrite Z.eqb_refl.
  apply wp_store; [done..|lia|]. intros d1 l1 f Hr1 Hf1 Hm1 Ht1.
  apply wp_bind, wp_get_tftp, wp_bind. cbn [glb stored a_tftp args_heap]. rewrite lookup_insert_eq.
  apply wp_ret, wp_bind, wp_send_ack. cbn [block dev glb]. intros r d2 l2 Hd2 _.
  apply wp_stack_. cbn [dev wlog glb].
  destruct (quiet_trans _ _ _ _ _ Hd2 (q_free buf d2)) as [Hd3 Ht3]. unfold within, ack_time in *.
  apply HQ; rewrite ?Hd3; [done| |done|lia].
  constructor; cbn; [by rewrite lookup_insert_eq|done..].
Qed.

(** C1: a transfer stores the file: after the blocks 1 to n of 512 bytes, each
    delivered once and in order, the user region holds the bytes of the file in
    order, everything else in the flash is as before, the connection expects
    block n + 1, and the server has counted 512 n bytes.  (The region holds
    1536 blocks.) *)
Theorem transfer_stores fuel garbage args upcb buf to port addr rport k blocks s :
  (fl_lat < fuel)%nat -> flash_ready (fl_view (dev s)) -> length garbage = 512%nat ->
  0 <= k -> k + Z.of_nat (length blocks) <= 1536 ->
  Forall (fun b => length b = 512%nat /\ is_bytes b) blocks ->
  receiving (glb s) args upcb to port k ->
  erased_at (f_mem (fl_view (dev s))) (USER_FLASH_FIRST_PAGE_ADDRESS + 512 * k) (128 * length blocks) ->
  0 <= fl_now (dev s) -> fl_now (dev s) + Z.of_nat (length blocks) * block_time < 2 ^ 32 ->
  wp (transfer fuel garbage args upcb buf addr rport k blocks) s (fun _ s' =>
    flash_ready (fl_view (dev s')) /\
    receiving (glb s') args upcb to port (k + Z.of_nat (length blocks)) /\
    forall x, f_mem (fl_view (dev s')) x =
      words_at (f_mem (fl_view (dev s))) (USER_FLASH_FIRST_PAGE_ADDRESS + 512 * k)
        (le_words (concat blocks)) x).
Proof.
  intros Hf. pose proof net_step_pos as Hnet. pose proof word_time_pos as Hword.
  pose proof send_time_pos as Hsend.
  assert (0 <= block_time) as Hbt by (unfold block_time, ack_time; lia).
  revert k s. induction blocks as [|b blocks IH]; intros k s Hr Hg Hk Hn Hall Hrec Her H0 Hwrap.
  { apply wp_ret. cbn [length concat le_words]. rewrite Z.add_0_r. split_and!; [apply Hr..|done|].
    intros x. by rewrite words_at_out by (cbn; lia). }
  apply Forall_cons_1 in Hall as [[Hlen Hbytes] Hall]. cbn [transfer]. cbn [length] in *.
  rewrite Nat2Z.inj_succ, Z.mul_succ_l in *.
  assert (0 <= Z.of_nat (length blocks) * block_time) by (apply Z.mul_nonneg_nonneg; lia).
  assert (length (le_words b) = 128%nat) as Hw by by apply length_le_words.
  apply wp_bind, (wp_block _ _ _ _ _ to port); [done..|lia|done|done|done| |done|lia|].
  { intros i Hi. apply Her. lia. }
  intros d l g Hr' Hrec' Hm Ht. unfold within in Ht.
  eapply wp_mono; [apply IH; cbn [dev glb]; [done|done|lia|lia|done|done| |lia|lia]|].
  - intros i Hi. rewrite Hm, words_at_out by (rewrite Hw; lia).
    specialize (Her (i + 128) ltac:(lia)).
    by replace (USER_FLASH_FIRST_PAGE_ADDRESS + 512 * (k + 1) + 4 * i)
      with (USER_FLASH_FIRST_PAGE_ADDRESS + 512 * k + 4 * (i + 128)) by lia.
  - intros u s' (Hr2 & Hrec2 & Hm2). cbn [dev glb] in *. split_and!; [apply Hr2..| |].
    { by replace (k + Z.succ (Z.of_nat (length blocks))) with (k + 1 + Z.of_nat (length blocks)) by lia. }
    intros x. rewrite Hm2. cbn [concat]. rewrite (le_words_app 128) by done.
    rewrite <- words_at_app, Hw.
    replace (USER_FLASH_FIRST_PAGE_ADDRESS + 512 * k + 4 * Z.of_nat 128)
      with (USER_FLASH_FIRST_PAGE_ADDRESS + 512 * (k + 1)) by lia.
    apply words_at_ext, Hm.
Qed.

(** A full data packet that does not carry the expected number changes
    neither the flash nor the globals: it is answered with the last block
    number that was accepted, so a repeated packet is never written twice. *)
Theorem wrq_unexpected_block fuel garbage args upcb buf to port addr rport k j bytes s :
  0 <= j < 65536 -> j <> k + 1 -> length bytes = 512%nat -> receiving (glb s) args upcb to port k ->
  wp (IAP_wrq_recv_callback fuel garbage args upcb buf (data_pkt j bytes) addr rport) s (fun _ s' =>
    fl_view (dev s') = fl_view (dev s) /\ glb s' = glb s) /\
  IAP_wrq_recv_callback fuel garbage args upcb buf (data_pkt j bytes) addr rport s =
    bind (IAP_tftp_send_ack_packet upcb addr rport k) (fun _ => stack_ (pbuf_free buf)) s.
Proof.
  intros Hj Hne Hlen Hrec. destruct Hrec as [Hargs Haddr Htotal Hrecv Hlock].
  assert (IAP_wrq_recv_callback fuel garbage args upcb buf (data_pkt j bytes) addr rport s =
    bind (IAP_tftp_send_ack_packet upcb addr rport k) (fun _ => stack_ (pbuf_free buf)) s) as Heq.
  { unfold IAP_wrq_recv_callback.
    assert ((len (data_pkt j bytes) =? tot_len (data_pkt j bytes)) = true) as ->.
    { apply Z.eqb_eq. done. }
    cbn [negb]. pose proof (len_data_pkt j bytes) as Hpl. rewrite Hlen in Hpl.
    rewrite Hpl. change (4 + Z.of_nat 512) with 516.
    change (TFTP_DATA_PKT_HDR_LEN <? 516) with true. change (516 <? TFTP_DATA_PKT_LEN_MAX) with false.
    cbv iota. unfold bind at 1. cbn [get_tftp bind get_ ret]. rewrite Hargs. cbn [deref].
    unfold bind at 1, ret at 1. unfold bind at 1. unfold bind at 1. rewrite extract_data_pkt by lia.
    cbn [block]. destruct (Z.eqb_spec j (k + 1)); [lia|]. unfold ret at 1.
    unfold bind at 1. cbn [get_tftp bind get_ ret]. rewrite Hargs. cbn [deref]. done. }
  split; [|exact Heq]. unfold wp. rewrite Heq.
  apply (proj2 (wp_bind (IAP_tftp_send_ack_packet upcb addr rport k) (fun _ => stack_ (pbuf_free buf)) s
    (fun _ s' => fl_view (dev s') = fl_view (dev s) /\ glb s' = glb s))).
  apply wp_send_ack. intros r d l Hd _. apply wp_stack_. cbn [dev glb].
  by destruct (quiet_trans _ _ _ _ _ Hd (q_free buf d)) as [Hd' _].
Qed.
End transfer.

(** * Texts that do not fit *)

Lemma length_digits n k x : (k < n)%nat -> 10 ^ Z.of_nat k <= x -> (k < length (digits n x))%nat.
Proof.
  revert k x. induction n as [|n IH]; intros k x Hk Hx; [lia|]. cbn [digits].
  rewrite length_app. cbn [length]. destruct k as [|k]; [lia|].
  rewrite Nat2Z.inj_succ, Z.pow_succ_r in Hx by lia.
  assert (0 < 10 ^ Z.of_nat k) by (apply Z.pow_pos_nonneg; lia).
  destruct (Z.ltb_spec x 10); [lia|]. specialize (IH k (x / 10) ltac:(lia)).
  assert (10 ^ Z.of_nat k <= x / 10) by (apply Z.div_le_lower_bound; lia). lia.
Qed.

(** The text at the end of a transfer of 1000 bytes or more does not fit into
    [message[40]]. *)
Lemma total_message_overflows {S} x (s : S) :
  1000 <= x < 2 ^ 31 ->
  sprintf 40 (bytes_of "[BOOT]  Tot bytes Received: " ++ fmt_int x ++ line " bytes ") s = Undef s.
Proof.
  intros Hx. unfold sprintf, fmt_int. destruct (Z.ltb_spec x (2 ^ 31)); [|lia].
  pose proof (length_digits 10 3 x ltac:(lia) ltac:(lia)).
  rewrite !length_app. unfold line. rewrite length_app. cbn [length bytes_of].
  destruct (Z.leb_spec (Z.of_nat (28 + (length (digits 10 x) + (7 + 1))) + 1) 40); [lia|done].
Qed.

(** The text of the backup does not fit into [tmp1[40]] when the name has more
    than 21 bytes (the tag has room for 31). *)
Lemma backup_message_overflows {S} (name : list Z) (s : S) :
  (21 < length name)%nat ->
  sprintf 40 (bytes_of "[BOOT]  Backup : " ++ name ++ [10]) s = Undef s.
Proof.
  intros Hx. unfold sprintf. rewrite !length_app. cbn [length bytes_of].
  destruct (Z.leb_spec (Z.of_nat (17 + (length name + 1)) + 1) 40); [lia|done].
Qed.

(** A shorter one does. *)
Lemma total_message_fits {S} x (s : S) (Q : list Z -> S -> Prop) : 0 <= x < 1000 -> (forall l, Q l s) ->
  wp (sprintf 40 (bytes_of "[BOOT]  Tot bytes Received: " ++ fmt_int x ++ line " bytes ")) s Q.
Proof.
  intros Hx HQ. unfold sprintf, fmt_int. destruct (Z.ltb_spec x (2 ^ 31)); [|lia].
  assert (length (digits 10 x) <= 3)%nat as Hl.
  { cbn [digits]. destruct (Z.ltb_spec x 10), (Z.ltb_spec (x / 10) 10), (Z.ltb_spec (x / 10 / 10) 10); cbn [app length]; try (lia || zlia);
      rewrite !length_app; cbn [length]; (lia || zlia). }
  apply wp_bind, wp_defined_if.
  - rewrite !length_app. unfold line. rewrite length_app. cbn [length bytes_of]. apply Z.leb_le. lia.
  - by apply wp_ret.
Qed.

(** * The last packet *)

Section last.
Context {B : Bus} {N : Narrow B} {L : Lwip B} {F : FlashDev B} {C : CrcDev B N F} {D : LwipDev B L F}.
Abbreviation app := (mach app_glob).
Implicit Types s : app.

(** The cells after a packet of [bytes] with number [j], when block [k + 1] is expected, and the
    bytes counted then: only the expected one is stored. *)
Definition packet_cells (mem : Z -> Z) (garbage bytes : list Z) (k j : Z) : Z -> Z :=
  if j =? k + 1 then words_at mem (USER_FLASH_FIRST_PAGE_ADDRESS + 512 * k) (block_words garbage bytes) else mem.
Definition packet_total (bytes : list Z) (k j : Z) : Z := 512 * k + if j =? k + 1 then Z.of_nat (length bytes) else 0.

Lemma block_words_nil garbage : block_words garbage [] = [].
Proof. done. Qed.

Lemma words_at_nil mem a x : words_at mem a [] x = mem x.
Proof. apply words_at_out. cbn. lia. Qed.

(** What the callback does before it answers. *)
Lemma wp_accept fuel garbage args upcb to port k j bytes s (Q : unit -> app -> Prop) :
  let pkt := data_pkt j bytes in
  let mem := f_mem (fl_view (dev s)) in
  (fl_lat < fuel)%nat -> flash_ready (fl_view (dev s)) -> length garbage = 512%nat -> is_bytes garbage ->
  0 <= k < 1536 -> 0 <= j < 65536 -> (length bytes < 512)%nat -> is_bytes bytes -> receiving (glb s) args upcb to port k ->
  erased_at mem (USER_FLASH_FIRST_PAGE_ADDRESS + 512 * k) 128 ->
  0 <= fl_now (dev s) -> fl_now (dev s) + 128 * word_time < 2 ^ 32 ->
  (forall d l g a, flash_ready (fl_view d) -> (forall x, f_mem (fl_view d) x = packet_cells mem garbage bytes k j x) ->
     within (dev s) d (128 * word_time) -> Lock (a_flash g) = false -> hcrc g = hcrc (glb s) ->
     total_count (a_tftp g) = packet_total bytes k j -> args_heap (a_tftp g) !! args = Some a -> Q tt (Mach d l g)) ->
  wp (if TFTP_DATA_PKT_HDR_LEN <? len pkt then
         b <- IAP_tftp_extract_block (payload pkt) ;;
         if b =? block (Args TFTP_WRQ to port k (512 * k)) + 1 then
           wrq_store fuel garbage args (Args TFTP_WRQ to port k (512 * k)) pkt else ret tt
       else
         b <- IAP_tftp_extract_block (payload pkt) ;;
         if b =? block (Args TFTP_WRQ to port k (512 * k)) + 1 then
           modify_tftp (fun t => set_heap (<[args := Args TFTP_WRQ to port (k + 1) (512 * k)]> (args_heap t)) t)
         else ret tt) s Q.
Proof.
  intros pkt mem Hf Hr Hg Hgb Hk Hj Hlen Hbytes [Hargs Haddr Htotal Hrecv Hlock] Her H0 Hwrap HQ.
  pose proof word_time_pos as Hword. subst pkt. rewrite len_data_pkt. unfold TFTP_DATA_PKT_HDR_LEN, packet_cells, packet_total in *.
  assert (forall (m1 m2 : M app unit), wp (if j =? k + 1 then m1 else m2) s Q ->
    wp (b <- IAP_tftp_extract_block (payload (data_pkt j bytes)) ;; if b =? k + 1 then m1 else m2) s Q) as Hx.
  { intros m1 m2 H. apply wp_bind. unfold wp at 1. by rewrite extract_data_pkt by lia. }
  assert (j <> k + 1 -> Q tt s) as Hsame.
  { intros Hne. rewrite (proj2 (Z.eqb_neq _ _) Hne) in HQ. destruct s as [d l g]. eapply HQ; try done; [unfold within; cbn [dev]; lia|].
    rewrite Z.add_0_r. exact Htotal. }
  destruct (Z.ltb_spec 4 (4 + Z.of_nat (length bytes))) as [Hpos|Hnil]; apply Hx; destruct (Z.eqb_spec j (k + 1)) as [->|Hne];
    try (by apply wp_ret, Hsame).
  - apply wp_store_part; try done; [by apply Forall_drop|lia|]. intros d l f H1 H2 H3 H4. eapply HQ; try done. cbn. by rewrite lookup_insert_eq.
  - destruct bytes as [|b bytes]; [|cbn in Hnil; lia]. apply wp_modify_tftp. eapply HQ; try done; cbn [dev].
    + intros x. by rewrite block_words_nil, words_at_nil.
    + unfold within. lia.
    + cbn. by rewrite Z.add_0_r.
    + cbn. by rewrite lookup_insert_eq.
Qed.

(** Up to the acknowledgement: what the rest of the callback then does ([O]) is what the callback does. *)
Lemma callback_last (O : outcome app unit -> Prop) fuel garbage args upcb buf to port addr rport k j bytes s :
  let mem := f_mem (fl_view (dev s)) in
  (fl_lat < fuel)%nat -> flash_ready (fl_view (dev s)) -> length garbage = 512%nat -> is_bytes garbage ->
  0 <= k < 1536 -> 0 <= j < 65536 -> (length bytes < 512)%nat -> is_bytes bytes -> receiving (glb s) args upcb to port k ->
  erased_at mem (USER_FLASH_FIRST_PAGE_ADDRESS + 512 * k) 128 ->
  0 <= fl_now (dev s) -> fl_now (dev s) + 128 * word_time < 2 ^ 32 ->
  (forall s', flash_ready (fl_view (dev s')) -> (forall x, f_mem (fl_view (dev s')) x = packet_cells mem garbage bytes k j x) ->
     within (dev s) (dev s') (128 * word_time + ack_time) -> Lock (a_flash (glb s')) = false -> hcrc (glb s') = hcrc (glb s) ->
     total_count (a_tftp (glb s')) = packet_total bytes k j ->
     O ((t <- get_tftp ;;
         message <- sprintf 40 (bytes_of "[BOOT]  Tot bytes Received: " ++ fmt_int (total_count t) ++ line " bytes ") ;;
         udp_client_send message ;; wrq_finish fuel upcb args buf) s')) ->
  O (IAP_wrq_recv_callback fuel garbage args upcb buf (data_pkt j bytes) addr rport s).
Proof.
  intros mem Hf Hr Hg Hgb Hk Hj Hlen Hbytes Hrec Her H0 Hwrap HQ. unfold IAP_wrq_recv_callback.
  assert ((len (data_pkt j bytes) =? tot_len (data_pkt j bytes)) = true) as -> by by apply Z.eqb_eq.
  cbn [negb]. apply outcome_bind, wp_get_tftp, outcome_bind. rewrite (r_args _ _ _ _ _ _ Hrec). apply wp_ret.
  apply outcome_bind, (wp_accept fuel garbage args upcb to port k j bytes); try done. intros d l g a H1 H2 H3 H4 H5 H6 H7.
  apply outcome_bind, wp_get_tftp, outcome_bind. cbn [glb]. rewrite H7. apply wp_ret, outcome_bind, wp_send_ack. cbn [dev glb].
  intros r d' l' [Hd' Ht'] _. rewrite len_data_pkt. destruct (Z.ltb_spec (4 + Z.of_nat (length bytes)) TFTP_DATA_PKT_LEN_MAX) as [_|Hm];
    [|change TFTP_DATA_PKT_LEN_MAX with 516 in Hm; lia].
  apply HQ; cbn [dev glb]; rewrite ?Hd'; try done. unfold within in *. lia.
Qed.

Definition last_time (size : Z) : Z := 128 * word_time + ack_time + send_time + finish_time size.

Lemma tag_word_ext mem mem' off : (forall x, mem x = mem' x) -> tag_word mem off = tag_word mem' off.
Proof. intros H. unfold tag_word. by rewrite H. Qed.

Lemma packet_cells32 mem garbage bytes k j : cells32 mem -> is_bytes garbage -> is_bytes bytes -> cells32 (packet_cells mem garbage bytes k j).
Proof.
  intros H Hg Hb x. unfold packet_cells. destruct (j =? k + 1); [|apply H]. unfold words_at. destruct (_ && _); [|apply H].
  unfold aget. destruct (_ <? 0); [apply H|]. destruct (block_words garbage bytes !! _) as [d|] eqn:Hd; [|apply H].
  exact (Forall_lookup_1 _ _ _ _ (block_words_range _ _ Hg Hb) Hd).
Qed.

(** C2: a data packet of less than 512 bytes ends the transfer, whatever its number: if it is the expected
    block [k + 1] its bytes are stored (the last word filled up with what the buffer on the stack held
    before), any other one is not.  If fewer than 1000 bytes were received in all, the
    processor is reset, with the boot flag cleared as the last write before: when the flash then holds
    an image whose tag is valid but whose CRC is wrong it has been replaced by the backup, any
    other content is as it is after the store.  If 1000 bytes or more were received the callback runs
    into undefined behaviour before that check: the text with their number does not fit message[40].
    The connection is in the state the earlier blocks leave ([receiving], with the flash
    unlocked and the next 512 bytes erased), the CRC unit in that of MX_CRC_Init, and the size in
    the tag, which is not checked, such that the image ends within the flash. *)
Theorem wrq_last_packet fuel garbage args upcb buf to port addr rport k j bytes s :
  let mem := f_mem (fl_view (dev s)) in
  let cells := packet_cells mem garbage bytes k j in
  (fl_lat < fuel)%nat -> flash_ready (fl_view (dev s)) -> length garbage = 512%nat -> is_bytes garbage ->
  0 <= k < 1536 -> 0 <= j < 65536 -> (length bytes < 512)%nat -> is_bytes bytes -> receiving (glb s) args upcb to port k ->
  erased_at mem (USER_FLASH_FIRST_PAGE_ADDRESS + 512 * k) 128 -> cells32 mem -> crc_default (hcrc (glb s)) -> image_fits cells ->
  0 <= fl_now (dev s) -> fl_now (dev s) + last_time (tag_word cells TAG_size) < 2 ^ 32 ->
  let callback := IAP_wrq_recv_callback fuel garbage args upcb buf (data_pkt j bytes) addr rport in
  if packet_total bytes k j <? 1000 then
    wp_halt callback s (fun s' => exists mem', (forall x, mem' x = cells x) /\ checked mem' (f_mem (fl_view (dev s'))) /\
      exists l v, wlog s' = l ++ [(RTC_BKP1R, 0); (SCB_AIRCR, v)])
  else wp_undef callback s.
Proof.
  intros mem cells Hf Hr Hg Hgb Hk Hj Hlen Hbytes Hrec Her H32 Hcrc Hfit H0 Hwrap callback.
  pose proof net_step_pos as Hnet. pose proof send_time_pos as Hsend. pose proof word_time_pos as Hword.
  unfold last_time, finish_time in Hwrap. pose proof fl_step_pos as Hstep.
  assert (0 <= ack_time) as Hack by (unfold ack_time; lia).
  assert (0 <= restore_time) as Hrest by (unfold restore_time, copy_time; pose proof op_time_pos; lia).
  pose proof (u32_range (cells (TAG_ADDRESS + TAG_size))) as Hsz. fold (tag_word cells TAG_size) in Hsz.
  assert (0 <= (24 + 2 * tag_word cells TAG_size) * fl_step) as Hfs by (apply Z.mul_nonneg_nonneg; lia).
  assert (0 <= packet_total bytes k j < 2 ^ 31) as Htot by (unfold packet_total; destruct (_ =? _); lia).
  destruct (Z.ltb_spec (packet_total bytes k j) 1000) as [Hfew|Hmany].
  - match goal with |- wp_halt _ _ ?P => apply (callback_last (fun o => match o with Halt s' => P s' | _ => False end)
      fuel garbage args upcb buf to port addr rport k j bytes s) end;
      [exact Hf|exact Hr|exact Hg|exact Hgb|exact Hk|exact Hj|exact Hlen|exact Hbytes|exact Hrec|exact Her|exact H0|lia|].
    intros s' H1 H2 H3 H4 H5 H6. unfold within in H3. apply wp_halt_bind, wp_get_tftp, wp_halt_bind. rewrite H6.
    apply total_message_fits; [lia|]. intros msg. apply wp_halt_bind, wp_client_send. intros d l [Hd Ht]. unfold within in Ht.
    assert (forall off, tag_word (f_mem (fl_view d)) off = tag_word cells off) as Htag by (intros off; rewrite Hd; by apply tag_word_ext).
    eapply wp_halt_mono; [apply wp_wrq_finish; cbn [dev glb]|].
    + done.
    + unfold app_ok, finish_time. cbn [dev glb]. rewrite Htag. split_and!; [rewrite Hd; by apply ready_closed|done| |lia|lia].
      intros x. rewrite Hd, H2. by apply packet_cells32.
    + by rewrite H5.
    + unfold image_fits. by rewrite Htag.
    + intros s2 [Hch Hlog]. eexists. split; [|by split]. intros x. cbn [dev]. by rewrite Hd.
  - apply (callback_last (fun o => match o with Undef _ => True | _ => False end) fuel garbage args upcb buf to port addr rport k j bytes s);
      [exact Hf|exact Hr|exact Hg|exact Hgb|exact Hk|exact Hj|exact Hlen|exact Hbytes|exact Hrec|exact Her|exact H0|lia|].
    intros s' _ _ _ _ _ H6. apply wp_undef_bind, wp_get_tftp. rewrite H6. unfold wp_undef, bind at 1. by rewrite total_message_overflows by lia.
Qed.
End last.

(** * The request *)

(** The NUL-terminated name in the tag. *)
Definition tag_name (mem : Z -> Z) (name : list Z) : Prop :=
  Forall (fun b => b <> 0) name /\
  (forall i b, name !! i = Some b -> mem_byte mem (TAG_ADDRESS + TAG_filename + Z.of_nat i) = b) /\
  mem_byte mem (TAG_ADDRESS + TAG_filename + Z.of_nat (length name)) = 0.

Section request.
Context {B : Bus} {N : Narrow B} {L : Lwip B} {F : FlashDev B} {C : CrcDev B N F} {D : LwipDev B L F}.
Abbreviation app := (mach app_glob).
Implicit Types s : app.

Definition request_time : Z := 4 * fl_step + 4 * op_time + ack_time + send_time + net_step.

(** A write request prepares the transfer: the connection is registered
    with block 0 and its receive function, the user region is erased (and
    nothing else), and writing starts at its first address. *)
Theorem process_write_prepares fuel upcb to port s :
  let args := fst (mem_malloc sizeof_args (dev s)) in
  (fl_lat < fuel)%nat -> app_ok s request_time -> args <> 0 ->
  wp (IAP_tftp_process_write fuel upcb to port) s (fun r s' =>
    r = 0 /\ flash_ready (fl_view (dev s')) /\ receiving (glb s') args upcb to port 0 /\
    forall x, f_mem (fl_view (dev s')) x =
      erased_cells (f_mem (fl_view (dev s))) USER_FLASH_FIRST_PAGE_ADDRESS USER_END x).
Proof.
  intros args Hf (Hc & Hl & H32 & H0 & Hwrap) Hargs. unfold request_time in Hwrap.
  pose proof net_step_pos as Hnet. pose proof send_time_pos as Hsend. pose proof fl_step_pos as Hstep.
  unfold ack_time in Hwrap. pose proof op_time_pos as Hop.
  unfold IAP_tftp_process_write. apply wp_bind, wp_stack. fold args.
  destruct (Z.eqb_spec args 0) as [?|_]; [done|].
  destruct (q_malloc sizeof_args (dev s)) as [Hd1 Ht1]. set (d1 := snd _) in *.
  apply wp_bind, wp_modify_tftp, wp_bind, wp_modify_net, wp_bind, wp_modify_tftp, wp_bind.
  cbn [dev wlog glb]. unfold within in Ht1. apply wp_zoom. unfold FLASH_If_Init.
  apply wp_bind, wp_Unlock; unfold fw; cbn [dev]; [by rewrite Hd1|].
  rewrite Hd1. intros d2 l2 Hr2 Hm2 Ht2. apply wp_ret. cbn [dev wlog glb] in *. unfold within in Ht2.
  apply wp_bind, wp_zoom, wp_If_Erase; unfold fw; cbn [dev glb]; [done|done|done|lia|lia|].
  intros d3 l3 Hr3 _ Hm3 Ht3. cbn [dev wlog glb] in *. unfold within in Ht3. rewrite Hm2 in Hm3.
  apply wp_bind, wp_modify_tftp, wp_bind, wp_send_ack. cbn [dev wlog glb].
  intros r d4 l4 [Hd4 _] _. apply wp_bind, wp_client_send. cbn [dev glb].
  intros d5 l5 [Hd5 _]. apply wp_ret. cbn [dev glb]. rewrite Hd5, Hd4.
  split_and!; [done|apply Hr3..| |exact Hm3].
  constructor; cbn; [by rewrite lookup_insert_eq|done|done|by rewrite lookup_insert_eq|done].
Qed.

Lemma mem_byte_range mem a : 0 <= mem_byte mem a < 256.
Proof.
  unfold mem_byte. pose proof (Z.mod_pos_bound a 4 eq_refl). apply (bits_range _ _ 8); lia.
Qed.

Lemma wp_flash_string fuel name a s (Q : list Z -> app -> Prop) :
  let mem := f_mem (fl_view (dev s)) in
  (length name < fuel)%nat -> f_busy (fl_view (dev s)) = false ->
  0x08000000 <= a -> a + Z.of_nat (length name) < 0x08200000 ->
  Forall (fun b => b <> 0) name ->
  (forall i b, name !! i = Some b -> mem_byte mem (a + Z.of_nat i) = b) ->
  mem_byte mem (a + Z.of_nat (length name)) = 0 ->
  (forall d, fl_view d = fl_view (dev s) ->
     within (dev s) d (Z.of_nat (length name + 1) * fl_step) -> Q name (Mach d (wlog s) (glb s))) ->
  wp (flash_string fuel a) s Q.
Proof.
  pose proof fl_step_pos as Hstep. revert name a s Q.
  induction fuel as [|fuel IH]; intros name a s Q mem Hlt Hb Ha Hend Hnz Hname Hnul HQ; [lia|].
  cbn [flash_string]. destruct (cv_rd8 (dev s) a) as (Hv & _ & Hfl & Ht);
    [apply in_flash_range; lia|done|]. fold mem in Hv.
  apply wp_bind. unfold rd8 at 1, wp at 1. cbv zeta. rewrite Hv.
  set (d1 := snd (mmio_rd8 a (dev s))) in *. destruct name as [|b name]; cbn [length] in *.
  - rewrite Z.add_0_r in Hnul. rewrite Hnul. cbn. apply HQ; [done|]. by rewrite Z.mul_1_l.
  - rewrite (Hname 0%nat b eq_refl) || (replace (mem_byte mem a) with b
      by (rewrite <- (Hname 0%nat b eq_refl); f_equal; lia)).
    apply Forall_cons in Hnz as [Hb0 Hnz]. destruct (Z.eqb_spec b 0) as [?|_]; [done|].
    rewrite u32_small by lia. apply wp_bind, (IH name); cbn [dev]; rewrite ?Hfl;
      [lia|done|lia|lia|done| | |].
    + intros i b' Hi. fold mem. rewrite <- (Hname (S i) b' Hi). f_equal. lia.
    + fold mem. rewrite <- Hnul. f_equal. lia.
    + intros d Hd Ht'. apply wp_ret, HQ; [by rewrite Hd|]. unfold within in *.
      replace (Z.of_nat (S (length name) + 1)) with (Z.of_nat (length name + 1) + 1) by lia. lia.
Qed.

Definition backup_time : Z := 30 * fl_step + send_time + restore_time.

(** Before an update the firmware that is in flash is backed up: with a valid
    tag, whose name has at most 21 bytes, the first (size + 1024) / 4 words (a
    16-bit number) of the user region are copied to the backup region, whose
    rest is erased, and everything else stays; without a valid tag the
    flash is not changed at all. *)
Theorem backup_firmware_copies fuel name s :
  let mem := f_mem (fl_view (dev s)) in
  (fl_lat < fuel)%nat -> (length name < fuel)%nat -> app_ok s backup_time ->
  (tag_word mem TAG_valid_flag = TAG_VALID -> tag_name mem name /\ (length name <= 21)%nat) ->
  wp (backup_firmware fuel) s (fun _ s' =>
    Lock (a_flash (glb s')) = false /\
    if tag_word mem TAG_valid_flag =? TAG_VALID then
      flash_ready (fl_view (dev s')) /\ backed_up mem (f_mem (fl_view (dev s')))
    else fl_view (dev s') = fl_view (dev s)).
Proof.
  intros mem Hf Hfn (Hc & Hl & H32 & H0 & Hwrap) Htag. fold mem in H32. unfold backup_time in Hwrap.
  pose proof net_step_pos as Hnet. pose proof send_time_pos as Hsend. pose proof fl_step_pos as Hstep.
  pose proof Hc as [Hb _]. unfold backup_firmware.
  apply wp_bind, wp_rd_flash; [by apply tag_in_flash|done|]. intros d1 Hd1 Ht1. fold mem.
  fold (tag_word mem TAG_valid_flag). unfold within in Ht1.
  destruct (Z.eqb_spec (tag_word mem TAG_valid_flag) TAG_VALID) as [Hv|Hv].
  2: { apply wp_ret. by split. }
  destruct (Htag Hv) as [(Hnz & Hname & Hnul) Hlen].
  apply wp_bind, (wp_flash_string _ name); cbn [dev]; rewrite ?Hd1; [done|done| | |done|done|done|].
  { unfold TAG_ADDRESS, TAG_filename, USER_FLASH_FIRST_PAGE_ADDRESS. lia. }
  { unfold TAG_ADDRESS, TAG_filename, USER_FLASH_FIRST_PAGE_ADDRESS. lia. }
  intros d2 Hd2 Ht2. cbn [dev wlog glb] in *. unfold within in Ht2.
  assert (Z.of_nat (length name + 1) * fl_step <= 22 * fl_step) by (apply Z.mul_le_mono_nonneg_r; lia).
  apply wp_bind. unfold sprintf. apply wp_bind, wp_defined_if.
  { apply Z.leb_le. rewrite !length_app. cbn [length bytes_of Ascii.nat_of_ascii]. lia. }
  apply wp_ret, wp_bind, wp_client_send. cbn [dev glb]. intros d3 l3 [Hd3 Ht3]. unfold within in Ht3.
  apply wp_bind, wp_call_Unlock; cbn [dev]; [by rewrite Hd3, Hd2|].
  rewrite Hd3, Hd2. intros d4 l4 Hr4 Hm4 Ht4. cbn [dev glb] in *. fold mem in Hm4. unfold within in Ht4.
  apply wp_assoc.
  apply wp_bind, (wp_erase_copy fuel _ _ _ BACKUP_END);
    unfold fw; cbn [dev glb]; rewrite ?Hm4; [done|by left|done|by left| |done|done|lia|lia|done|].
  { intros. by apply wp_Backup_Erase. }
  intros d5 l5 g5 Hr5 Hg5 Hm5 _. cbn [fst Z.eqb negb]. apply wp_ret. cbn [dev glb].
  split; [apply Hg5|]. by split.
Qed.
End request.

(** * Witnesses on the simulated board *)

#[export] Instance board_lwip : Lwip board_bus := {|
  pbuf_alloc _ (h : @hw board_bus) := (0x20010000, h);
  pbuf_fill _ l (h : @hw board_bus) :=
    (Board (b_flash h) (b_crc h) (b_regs h) (b_sent h) l : @hw board_bus);
  pbuf_free _ h := h;
  udp_new (h : @hw board_bus) := (0x20020000, h);
  udp_bind _ _ (h : @hw board_bus) := (0, h);
  udp_connect _ _ _ (h : @hw board_bus) := (0, h);
  udp_disconnect _ h := h;
  udp_remove _ h := h;
  udp_send _ _ (h : @hw board_bus) := (0, h);
  udp_sendto u _ a n (h : @hw board_bus) :=
    (0, Board (b_flash h) (b_crc h) (b_regs h) (b_sent h ++ [(u, a, n, b_buf h)]) (b_buf h) : @hw board_bus);
  mem_malloc _ (h : @hw board_bus) := (0x20030000, h);
  mem_free _ h := h;
|}.

#[export] Instance board_net : LwipDev board_bus board_lwip board_flash.
Proof.
  refine {| net_step := 0; net_sent := b_sent : @hw board_bus -> _;
            out_buf := fun (h : @hw board_bus) (_ : Z) => b_buf h |}; try done.
  intros n h Hn. split; [done|]. unfold within. cbn. lia.
Defined.

(** Two tagged images of four bytes, in the user and in the backup region; the
    CRC in the tag of the first is wrong. *)
Definition two_images (a : Z) : Z :=
  if a =? USER_FLASH_FIRST_PAGE_ADDRESS then 4
  else if a =? USER_FLASH_FIRST_PAGE_ADDRESS + 4 then 0
  else if a =? USER_FLASH_FIRST_PAGE_ADDRESS + 12 then TAG_VALID
  else if a =? USER_FLASH_FIRST_PAGE_ADDRESS + 16 then 0x00414141
  else if a =? USER_FLASH_FIRST_PAGE_ADDRESS + 0x400 then 0xAAAA
  else if a =? BACKUP_FLASH_FIRST_PAGE_ADDRESS then 4
  else if a =? BACKUP_FLASH_FIRST_PAGE_ADDRESS + 0x400 then 0x1234
  else ERASED.

Definition app_start : app_glob :=
  AppGlob (NetGlob 5 6 ∅) (FlashProcess FLASH_PROC_NONE 0 0 0 0 false 0) (TftpGlob 0 7 0 ∅)
    hcrc_ready (IwdgHandle IWDG 3 4095 4095).
Definition on_board (mem : Z -> Z) (g : app_glob) : @mach board_bus app_glob :=
  @Mach board_bus app_glob (Board (FView 0x80000000 0 mem false) (CView 0 0 0 0) [] [] []) [] g.

Lemma two_images32 : cells32 two_images.
Proof. intros x. unfold two_images. repeat case_match; done. Qed.

Lemma on_board_ok mem g t :
  cells32 mem -> Lock (a_flash g) = false -> 0 <= t < 2 ^ 32 ->
  app_ok (F := board_flash) (on_board mem g) t.
Proof. intros Hm Hl Ht. split_and!; try done. cbn. lia. Qed.

Lemma WDGbackup_restores_witness :
  wp (WDGbackup (B := board_bus) 1) (on_board two_images app_start) (fun _ s' =>
    f_mem (fl_view (dev s')) (USER_FLASH_FIRST_PAGE_ADDRESS + 0x400) = 0x1234).
Proof.
  eapply wp_mono.
  - apply (WDGbackup_restores (F := board_flash) 1 (on_board two_images app_start)).
    + apply Nat.lt_0_1.
    + apply on_board_ok; [apply two_images32|reflexivity|].
      split; [apply Z.leb_le|apply Z.ltb_lt]; vm_compute; reflexivity.
    + reflexivity.
  - intros u s' [(H & _) _].
    assert (0 <= 256 < image_len two_images BACKUP_FLASH_FIRST_PAGE_ADDRESS) as Hi.
    { split; [lia|apply Z.ltb_lt; vm_compute; reflexivity]. }
    specialize (H 256 Hi). exact H.
Defined.

(** A connection that expects its first block, with the region erased. *)
Definition receiving_start : app_glob :=
  AppGlob (NetGlob 5 6 {[ 9 := (IAP_wrq_recv_callback_, 0x20030000) ]})
    (FlashProcess FLASH_PROC_NONE 0 0 0 0 false 0)
    (TftpGlob USER_FLASH_FIRST_PAGE_ADDRESS 7 0 {[ 0x20030000 := Args TFTP_WRQ 1 2 0 0 ]})
    hcrc_ready (IwdgHandle IWDG 3 4095 4095).
Definition erased_board : @mach board_bus app_glob :=
  @Mach board_bus app_glob (Board (FView 0 0 (fun _ => ERASED) false) (CView 0 0 0 0) [] [] []) []
    receiving_start.
Definition some_block : list Z := replicate 512 7.

Lemma transfer_stores_witness :
  wp (transfer (B := board_bus) 1 (replicate 512 0) 0x20030000 9 8 1 2 0 [some_block; some_block])
    erased_board (fun _ s' =>
      f_mem (fl_view (dev s')) (USER_FLASH_FIRST_PAGE_ADDRESS + 1020) = 0x07070707).
Proof.
  eapply wp_mono.
  - apply (transfer_stores (D := board_net) 1 (replicate 512 0) 0x20030000 9 8 1 2 1 2 0
      [some_block; some_block] erased_board).
    + apply Nat.lt_0_1.
    + by split.
    + reflexivity.
    + reflexivity.
    + apply Z.leb_le. reflexivity.
    + repeat (apply Forall_cons_2; [split; [reflexivity|by apply Forall_replicate]|]). apply Forall_nil_2.
    + constructor; reflexivity.
    + intros i _. reflexivity.
    + reflexivity.
    + apply Z.ltb_lt. vm_compute. reflexivity.
  - intros u s' (_ & _ & Hm). rewrite Hm. vm_compute. reflexivity.
Defined.

(** Only the backup region holds an image; the first and last packet is the tag of an image of four bytes, with
    a wrong CRC. *)
Definition only_backup (a : Z) : Z :=
  if a =? BACKUP_FLASH_FIRST_PAGE_ADDRESS then 4
  else if a =? BACKUP_FLASH_FIRST_PAGE_ADDRESS + 0x400 then 0x1234
  else ERASED.
Definition backup_board : @mach board_bus app_glob :=
  @Mach board_bus app_glob (Board (FView 0 0 only_backup false) (CView 0 0 0 0) [] [] []) [] receiving_start.
Definition wrong_tag : list Z := [4; 0; 0; 0; 1; 0; 0; 0; 0; 0; 0; 0] ++ [bits TAG_VALID 0 8; bits TAG_VALID 8 8; bits TAG_VALID 16 8; bits TAG_VALID 24 8].

Lemma only_backup32 : cells32 only_backup.
Proof. intros x. unfold only_backup. repeat case_match; done. Qed.

Lemma wrong_tag_bytes : is_bytes wrong_tag.
Proof. unfold is_bytes. apply (bool_decide_unpack _). vm_compute. reflexivity. Qed.

Lemma wrq_last_packet_witness :
  wp_halt (IAP_wrq_recv_callback (B := board_bus) 1 (replicate 512 0) 0x20030000 9 8 (data_pkt 1 wrong_tag) 1 2) backup_board (fun s' =>
    exists mem', (forall x, mem' x = packet_cells only_backup (replicate 512 0) wrong_tag 0 1 x) /\
      checked mem' (f_mem (fl_view (dev s')))) /\
  check_fails (packet_cells only_backup (replicate 512 0) wrong_tag 0 1) = true.
Proof.
  split; [|vm_compute; reflexivity].
  eapply wp_halt_mono.
  - pose proof (wrq_last_packet (C := board_crcdev) (D := board_net) 1 (replicate 512 0) 0x20030000 9 8 1 2 1 2 0 1 wrong_tag backup_board) as H.
    cbv zeta in H. change (packet_total wrong_tag 0 1 <? 1000) with true in H. cbv iota in H. apply H; clear H.
    + apply Nat.lt_0_1.
    + by split.
    + reflexivity.
    + by apply Forall_replicate.
    + lia.
    + lia.
    + apply Nat.ltb_lt. reflexivity.
    + apply wrong_tag_bytes.
    + constructor; reflexivity.
    + intros i Hi. cbn -[only_backup]. unfold only_backup, BACKUP_FLASH_FIRST_PAGE_ADDRESS, USER_FLASH_FIRST_PAGE_ADDRESS.
      repeat case_match; try done; lia.
    + apply only_backup32.
    + split_and!; reflexivity.
    + apply Z.leb_le. vm_compute. reflexivity.
    + reflexivity.
    + apply Z.ltb_lt. vm_compute. reflexivity.
  - intros s' (mem' & Hm & Hc & _). by exists mem'.
Defined.

Lemma wrq_unexpected_block_witness :
  wp (IAP_wrq_recv_callback (B := board_bus) 1 (replicate 512 0) 0x20030000 9 8
        (data_pkt 5 some_block) 1 2) erased_board (fun _ s' => glb s' = receiving_start).
Proof.
  eapply wp_mono.
  - apply (wrq_unexpected_block (D := board_net) 1 (replicate 512 0) 0x20030000 9 8 1 2 1 2 0 5
      some_block erased_board); [lia|lia|reflexivity|constructor; reflexivity].
  - intros u s' [_ Hg]. exact Hg.
Defined.

Lemma process_write_prepares_witness :
  wp (IAP_tftp_process_write (B := board_bus) 1 9 1 2) (on_board two_images app_start) (fun r s' =>
    r = 0 /\ f_mem (fl_view (dev s')) (USER_FLASH_FIRST_PAGE_ADDRESS + 0x400) = ERASED).
Proof.
  eapply wp_mono.
  - apply (process_write_prepares (D := board_net) 1 9 1 2 (on_board two_images app_start)).
    + apply Nat.lt_0_1.
    + apply on_board_ok; [apply two_images32|reflexivity|].
      split; [apply Z.leb_le|apply Z.ltb_lt]; vm_compute; reflexivity.
    + vm_compute. discriminate.
  - intros r s' (Hr & _ & _ & Hm). split; [exact Hr|]. rewrite Hm. reflexivity.
Defined.

Lemma backup_firmware_copies_witness :
  wp (backup_firmware (B := board_bus) 5) (on_board two_images app_start) (fun _ s' =>
    backed_up two_images (f_mem (fl_view (dev s')))).
Proof.
  eapply wp_mono.
  - apply (backup_firmware_copies (C := board_crcdev) (D := board_net) 5 [0x41; 0x41; 0x41]
      (on_board two_images app_start)).
    + apply Nat.ltb_lt. reflexivity.
    + apply Nat.ltb_lt. reflexivity.
    + apply on_board_ok; [apply two_images32|reflexivity|].
      split; [apply Z.leb_le|apply Z.ltb_lt]; vm_compute; reflexivity.
    + intros _. split; [split_and!|cbn; lia].
      * repeat (apply Forall_cons_2; [discriminate|]). apply Forall_nil_2.
      * intros [|[|[|i]]] b; [intros [= <-]; vm_compute; reflexivity..|intros [=]].
      * vm_compute. reflexivity.
  - intros u s' [_ H]. exact (proj2 H).
Defined.
