(* ===== verification/Boot.v ===== *)
(** The program, src/main.c: the decision between firmware and bootloader at
    reset, the primary thread with its initialisation and its loop, and the
    millisecond timer.  Kernel and network set-up are parameters. *)
From S2P Require Import Prelude Machine Can CanUser Eeprom Hardware SysArch FlashHal FlashDev FlashIf.
From S2P Require Import Crc Reset Net Tftp.
From stdpp Require Import gmap strings.

#[local] Open Scope fw_scope.
#[local] Open Scope Z_scope.

(** Kernel calls of main.c, and the calls that set up the network interface. *)
Class Kernel (B : Bus) := {
  osKernelInitialize : hw -> Z * hw;
  osKernelStart : hw -> Z * hw;
  osTimerNew : Z -> Z -> hw -> Z * hw;
  osTimerStart : Z -> Z -> hw -> Z * hw;
}.
Class NetSetup (B : Bus) := {
  tcpip_init : hw -> hw;
  netif_add : Z -> Z -> Z -> hw -> hw;
  netif_set_default : hw -> hw;
  netif_is_link_up : hw -> bool * hw;
  netif_set_up : hw -> hw;
  netif_set_down : hw -> hw;
}.

Definition osTimerPeriodic : Z := 1.
Definition thread_main_ : Z := 1.
Definition thread_milli_timer_ : Z := 2.
Definition GPIOB_BSRR : Z := GPIO_BSRR PORT_B.
Definition RCC_AHB1ENR_CRCEN : Z := 0x1000.
Definition uwTickFreq : Z := 1.

(** The globals of the program: those of the update, of can.c and of eeprom.c; of
    main.c itself; the HAL's tick; and what starts the firmware, the main stack
    pointer and the address jumped to. *)
Record boot_glob := BootGlob {
  b_app : app_glob;
  b_can : can_glob;
  b_ee : ee_glob;
  thread_milli_timer_id : Z;
  check : Z;
  JumpAddress : Z;
  uwTick : Z;
  msp : option Z;
  started : option Z;
}.

#[export] Program Instance boot_app : Has boot_glob app_glob := {|
  part := b_app;
  with_part a g := BootGlob a (b_can g) (b_ee g) (thread_milli_timer_id g) (check g) (JumpAddress g)
    (uwTick g) (msp g) (started g) |}.
Next Obligation. done. Qed.
Next Obligation. by intros []. Qed.
#[export] Program Instance boot_can : Has boot_glob can_glob := {|
  part := b_can;
  with_part c g := BootGlob (b_app g) c (b_ee g) (thread_milli_timer_id g) (check g) (JumpAddress g)
    (uwTick g) (msp g) (started g) |}.
Next Obligation. done. Qed.
Next Obligation. by intros []. Qed.
#[export] Program Instance boot_ee : Has boot_glob ee_glob := {|
  part := b_ee;
  with_part e g := BootGlob (b_app g) (b_can g) e (thread_milli_timer_id g) (check g) (JumpAddress g)
    (uwTick g) (msp g) (started g) |}.
Next Obligation. done. Qed.
Next Obligation. by intros []. Qed.
#[export] Program Instance app_hcrc : Has app_glob CRC_HandleTypeDef := {|
  part := hcrc; with_part h g := AppGlob (a_net g) (a_flash g) (a_tftp g) h (hiwdg g) |}.
Next Obligation. done. Qed.
Next Obligation. by intros []. Qed.

Definition set_timer (i : Z) (g : boot_glob) := BootGlob (b_app g) (b_can g) (b_ee g) i (check g)
  (JumpAddress g) (uwTick g) (msp g) (started g).
Definition set_check (c : Z) (g : boot_glob) := BootGlob (b_app g) (b_can g) (b_ee g)
  (thread_milli_timer_id g) c (JumpAddress g) (uwTick g) (msp g) (started g).
Definition set_jump (a : Z) (g : boot_glob) := BootGlob (b_app g) (b_can g) (b_ee g)
  (thread_milli_timer_id g) (check g) a (uwTick g) (msp g) (started g).
Definition set_tick (t : Z) (g : boot_glob) := BootGlob (b_app g) (b_can g) (b_ee g)
  (thread_milli_timer_id g) (check g) (JumpAddress g) t (msp g) (started g).
Definition set_msp (v : Z) (g : boot_glob) := BootGlob (b_app g) (b_can g) (b_ee g)
  (thread_milli_timer_id g) (check g) (JumpAddress g) (uwTick g) (Some v) (started g).
Definition set_started (v : Z) (g : boot_glob) := BootGlob (b_app g) (b_can g) (b_ee g)
  (thread_milli_timer_id g) (check g) (JumpAddress g) (uwTick g) (msp g) (Some v).
Definition set_iwdg (h : IWDG_HandleTypeDef) (g : app_glob) : app_glob :=
  AppGlob (a_net g) (a_flash g) (a_tftp g) (hcrc g) h.
Definition set_hcrc (h : CRC_HandleTypeDef) (g : app_glob) : app_glob :=
  AppGlob (a_net g) (a_flash g) (a_tftp g) h (hiwdg g).

Section main.
Context {B : Bus} {N : Narrow B} {R : Rtos B} {K : Kernel B} {L : Lwip B} {S : NetSetup B}.
Abbreviation prog := (M (mach boot_glob)).

Definition HAL_IncTick : prog unit := modify_ (fun g => set_tick (u32 (uwTick g + uwTickFreq)) g).

Definition thread_milli_timer : prog unit := HAL_IncTick.

Definition MX_CRC_Init : prog unit :=
  set_bits RCC_AHB1ENR RCC_AHB1ENR_CRCEN ;; rd RCC_AHB1ENR ;;
  call (modify_ (fun g => set_hcrc (CrcHandle CRC_BASE DEFAULT_POLYNOMIAL_ENABLE
    DEFAULT_INIT_VALUE_ENABLE (GeneratingPolynomial (hcrc g)) (CRCLength (hcrc g))
    (InitValue (hcrc g)) CRC_INPUTDATA_INVERSION_NONE CRC_OUTPUTDATA_INVERSION_DISABLE
    (CrcLock (hcrc g)) (CrcState (hcrc g)) CRC_INPUTDATA_FORMAT_BYTES) g)) ;;
  call (call (HAL_CRC_Init false)) ;;
  ret tt.

Definition MX_IWDG_Init (fuel : nat) : prog unit :=
  call (modify_ (set_iwdg (IwdgHandle IWDG IWDG_PRESCALER_32 4095 4095))) ;;
  g <- get_ ;;
  HAL_IWDG_Init fuel (Some (hiwdg (b_app g))) ;;
  ret tt.

(** [HAL_IWDG_Refresh(&hiwdg)] *)
Definition refresh : prog unit := g <- get_ ;; HAL_IWDG_Refresh (hiwdg (b_app g)) ;; ret tt.

Definition HW_ENA_ETH_PHY : prog unit := wr GPIOB_BSRR ((1 .<< 13) .| (1 .<< 12)).

(** The initialisation of the primary thread. *)
Definition thread_main_init (fuel : nat) : prog unit :=
  g <- get_ ;;
  kernel (osTimerStart (thread_milli_timer_id g) (DLY_MS 1)) ;;
  call (CAN_UserInit fuel) ;;
  MX_CRC_Init ;;
  HW_ENA_ETH_PHY ;;
  delay_ (DLY_MS 75) ;;
  refresh ;;
  stack_ tcpip_init ;;
  stack_ (netif_add (IP4_ADDR 192 168 20 72) (IP4_ADDR 255 255 255 0) (IP4_ADDR 192 168 20 1)) ;;
  stack_ netif_set_default ;;
  up <- stack netif_is_link_up ;;
  (if up : bool then stack_ netif_set_up else stack_ netif_set_down) ;;
  call (udp_total_connect (G := app_glob)) ;;
  call IAP_tftpd_init ;;
  refresh ;;
  delay_ 1000 ;;
  refresh.

(** One round of the loop of the primary thread. *)
Definition thread_main_round (fuel : nat) : prog unit :=
  wdg <- HAL_RCC_GET_FLAG RCC_FLAG_IWDGRST ;;
  (if wdg : bool then
     refresh ;;
     call (udp_client_send (G := app_glob) (line "----CATCH WDG---- back to before FW")) ;;
     delay_ 500 ;;
     call (WDGbackup fuel)
   else ret tt) ;;
  soft <- is_soft_reset ;;
  (if negb (soft =? 0) then
     g <- get_ ;;
     if negb (check g =? 0) then
       call (udp_client_send (G := app_glob) (line "[BOOT]  START BOOT...")) ;;
       modify_ (set_check 0)
     else ret tt
   else ret tt) ;;
  refresh ;;
  delay_ 1.

(** [n] rounds, and then the thread is still running. *)
Fixpoint thread_main_loop (fuel n : nat) : prog unit :=
  match n with
  | O => spin
  | Datatypes.S n' => thread_main_round fuel ;; thread_main_loop fuel n'
  end.
Definition thread_main (fuel n : nat) : prog unit :=
  thread_main_init fuel ;; thread_main_loop fuel n.

(** The jump to the firmware: its entry gets control and never returns. *)
Definition jump_to (entry : Z) : prog unit := modify_ (set_started entry) ;; halt.

Definition boot_decision : prog unit :=
  soft <- is_soft_reset ;;
  bypass <- (if soft =? 0 then wdg <- HAL_RCC_GET_FLAG RCC_FLAG_IWDGRST ;; ret (negb wdg)
             else ret false) ;;
  if bypass : bool then
    let isr_vector_addr := USER_FLASH_FIRST_PAGE_ADDRESS + 0x400 in
    app_sp_value <- rd isr_vector_addr ;;
    if (0x20000000 <=? app_sp_value) && (app_sp_value <=? 0x20080000) then
      refresh ;;
      a <- rd (isr_vector_addr + 4) ;;
      modify_ (set_jump a) ;;
      sp <- rd isr_vector_addr ;;
      modify_ (set_msp sp) ;;
      wr SCB_VTOR USER_FLASH_FIRST_PAGE_ADDRESS ;;
      g <- get_ ;;
      jump_to (JumpAddress g)
    else
      write_boot_flag_soft_reset ;;
      NVIC_SystemReset
  else ret tt.

(** Returning stands for the scheduler having control: [osKernelStart] does
    not return. *)
Definition main (fuel : nat) : prog unit :=
  HW_Init fuel ;;
  MX_IWDG_Init fuel ;;
  boot_decision ;;
  kernel osKernelInitialize ;;
  kernel (osThreadNew thread_main_ 0 (0, 4 * 1024, 0)) ;;
  id <- kernel (osTimerNew thread_milli_timer_ osTimerPeriodic) ;;
  modify_ (set_timer id) ;;
  kernel osKernelStart ;;
  ret tt.
End main.

Section boot.
Context {B : Bus} {N : Narrow B} {L : Lwip B} {F : FlashDev B} {D : LwipDev B L F}.
Abbreviation boot := (mach boot_glob).
Implicit Types s : boot.

Lemma wp_refresh s (Q : unit -> boot -> Prop) :
  iwdg_Instance (hiwdg (b_app (glb s))) = IWDG ->
  (forall d, fl_view d = fl_view (dev s) -> within (dev s) d fl_step ->
     Q tt (Mach d (wlog s ++ [(IWDG_KR IWDG, IWDG_KEY_RELOAD)]) (glb s))) ->
  wp refresh s Q.
Proof.
  intros Hi HQ. unfold refresh, HAL_IWDG_Refresh. apply wp_bind, wp_get, wp_bind, wp_bind.
  rewrite Hi. apply wp_wr_other; [done|]. intros d Hd Ht. apply wp_ret, wp_ret. by apply HQ.
Qed.

(** What is read of the boot flag, and then of the watchdog's reset flag. *)
Definition soft_flag (h : hw) : bool := u32 (fst (mmio_rd RTC_BKP1R h)) =? BOOT_FLAG_SOFT_RESET.
Definition wdg_flag (h : hw) : bool := any_bit (u32 (fst (mmio_rd RCC_CSR h))) (1 .<< 29).
Definition stay_in_boot (h : hw) : bool := soft_flag h || wdg_flag (snd (mmio_rd RTC_BKP1R h)).

Lemma wp_is_soft_reset s (Q : Z -> boot -> Prop) :
  (let d := snd (mmio_rd RTC_BKP1R (dev s)) in
   fl_view d = fl_view (dev s) -> within (dev s) d fl_step ->
   Q (Z.b2z (soft_flag (dev s))) (Mach d (wlog s) (glb s))) ->
  wp is_soft_reset s Q.
Proof.
  intros HQ. unfold is_soft_reset. apply wp_bind, wp_rd, wp_ret. apply HQ; [|apply fl_rd_now].
  exact (fl_rd_view (dev s) RTC_BKP1R).
Qed.

Lemma wp_wdg_flag s (Q : bool -> boot -> Prop) :
  (let d := snd (mmio_rd RCC_CSR (dev s)) in
   fl_view d = fl_view (dev s) -> within (dev s) d fl_step ->
   Q (wdg_flag (dev s)) (Mach d (wlog s) (glb s))) ->
  wp (HAL_RCC_GET_FLAG RCC_FLAG_IWDGRST) s Q.
Proof.
  intros HQ. unfold HAL_RCC_GET_FLAG.
  change (RCC_FLAG_IWDGRST .>> 5 =? 1) with false. change (RCC_FLAG_IWDGRST .>> 5 =? 2) with false.
  change (RCC_FLAG_IWDGRST .>> 5 =? 3) with true. cbv iota.
  apply wp_bind, wp_rd, wp_ret. apply HQ; [|apply fl_rd_now]. exact (fl_rd_view (dev s) RCC_CSR).
Qed.

(** The first two words of the firmware's vector table. *)
Definition app_sp (mem : Z -> Z) : Z := u32 (mem IMAGE_ADDRESS).
Definition app_entry (mem : Z -> Z) : Z := u32 (mem (IMAGE_ADDRESS + 4)).
Definition sp_valid (sp : Z) : bool := (0x20000000 <=? sp) && (sp <=? 0x20080000).

(** C3: the decision at reset: with the soft-reset flag or after a watchdog reset
    the bootloader goes on and nothing has changed; otherwise it never goes on:
    a firmware whose initial stack pointer lies in RAM is started at its entry with
    that stack pointer, the watchdog having been fed, and without one the
    soft-reset flag is written and a reset requested. *)
Theorem boot_decision_correct s :
  f_busy (fl_view (dev s)) = false -> iwdg_Instance (hiwdg (b_app (glb s))) = IWDG ->
  let mem := f_mem (fl_view (dev s)) in
  if stay_in_boot (dev s) then
    wp boot_decision s (fun _ s' =>
      fl_view (dev s') = fl_view (dev s) /\ glb s' = glb s /\ wlog s' = wlog s)
  else
    wp_halt boot_decision s (fun s' => f_mem (fl_view (dev s')) = mem /\
      if sp_valid (app_sp mem) then
        started (glb s') = Some (app_entry mem) /\ msp (glb s') = Some (app_sp mem) /\
        wlog s' = wlog s ++ [(IWDG_KR IWDG, IWDG_KEY_RELOAD); (SCB_VTOR, USER_FLASH_FIRST_PAGE_ADDRESS)]
      else
        started (glb s') = started (glb s) /\
        exists v, wlog s' = wlog s ++ [(RTC_BKP1R, BOOT_FLAG_SOFT_RESET); (SCB_AIRCR, v)]).
Proof.
  intros Hb Hi mem. unfold stay_in_boot.
  destruct (soft_flag (dev s)) eqn:Hs; cbn [orb].
  { unfold boot_decision. apply wp_bind, wp_is_soft_reset. intros d Hd _. rewrite Hs. cbn [Z.b2z Z.eqb].
    apply wp_bind, wp_ret, wp_ret. by split_and!. }
  set (d1 := snd (mmio_rd RTC_BKP1R (dev s))) in *.
  destruct (wdg_flag d1) eqn:Hw.
  { unfold boot_decision. apply wp_bind, wp_is_soft_reset. intros d Hd _. rewrite Hs. cbn [Z.b2z Z.eqb].
    apply wp_bind, wp_bind, wp_wdg_flag. intros d2 Hd2 _.
    change (wdg_flag (dev _)) with (wdg_flag d1). rewrite Hw. apply wp_ret, wp_ret. cbn [dev wlog glb]. fold d1 d2.
    split_and!; [by transitivity (fl_view d1)|done|done]. }
  unfold boot_decision. apply wp_halt_bind, wp_is_soft_reset. intros d Hd _. rewrite Hs.
  cbn [Z.b2z Z.eqb]. apply wp_halt_bind, wp_bind, wp_wdg_flag.
  intros d2 Hd2 _. change (wdg_flag (dev _)) with (wdg_flag d1). rewrite Hw. apply wp_ret. cbn [negb].
  clearbody d2. cbn [dev] in Hd2.
  assert (in_flash IMAGE_ADDRESS = true /\ in_flash (IMAGE_ADDRESS + 4) = true) as [Hf1 Hf2] by done.
  fold IMAGE_ADDRESS. assert (fl_view d2 = fl_view (dev s)) as Hv2 by by rewrite Hd2.
  apply wp_halt_bind, wp_rd_flash; cbn [dev wlog glb]; rewrite ?Hv2; [done|done|].
  intros d3 Hd3 _. fold mem. fold (app_sp mem). fold (sp_valid (app_sp mem)).
  destruct (sp_valid (app_sp mem)).
  - apply wp_halt_bind, wp_refresh; [done|]. cbn [dev wlog glb]. intros d4 Hd4 _.
    rewrite Hd3 in Hd4.
    apply wp_halt_bind, wp_rd_flash; cbn [dev wlog glb]; rewrite ?Hd4; [done|done|].
    intros d5 Hd5 _. fold mem. fold (app_entry mem).
    apply wp_halt_bind, wp_modify, wp_halt_bind, wp_rd_flash; cbn [dev wlog glb]; rewrite ?Hd5;
      [done|done|].
    intros d6 Hd6 _. fold mem. fold (app_sp mem).
    apply wp_halt_bind, wp_modify, wp_halt_bind, wp_wr_other; [done|]. cbn [dev wlog glb].
    intros d7 Hd7 _. apply wp_halt_bind, wp_get, wp_halt_bind, wp_modify. unfold wp_halt, halt.
    cbn [dev wlog glb]. rewrite Hd7, Hd6, <- app_assoc. by split_and!.
  - apply wp_halt_bind. unfold write_boot_flag_soft_reset. apply wp_wr_other; [done|].
    cbn [dev wlog glb]. intros d4 Hd4 _. unfold NVIC_SystemReset, rmw.
    apply wp_halt_bind, wp_bind, wp_rd_other; [done|]. intros v d5 Hd5 _.
    apply wp_wr_other; [done|]. intros d6 Hd6 _. unfold wp_halt, halt. cbn [dev wlog glb] in *.
    rewrite Hd6, Hd5, Hd4, Hd3, <- app_assoc. split_and!; [done|done|]. by eexists.
Qed.

(** ** A round of the primary thread *)

Definition on_app s : mach app_glob := Mach (dev s) (wlog s) (b_app (glb s)).
Definition round_time : Z := 7 * fl_step + send_time + (500 + net_step) + restore_time.

Lemma wp_call_send msg s (Q : unit -> boot -> Prop) :
  (forall d l, quiet (dev s) d send_time -> Q tt (Mach d l (glb s))) ->
  wp (call (udp_client_send (G := app_glob) msg)) s Q.
Proof.
  intros HQ. apply wp_zoom, wp_client_send. intros d l Hd. cbn [dev wlog glb].
  rewrite with_same. by apply HQ.
Qed.

(** The end of a round, from any state. *)
Lemma round_end s (Q : unit -> boot -> Prop) :
  iwdg_Instance (hiwdg (b_app (glb s))) = IWDG ->
  (forall d l g, fl_view d = fl_view (dev s) ->
     Q tt (Mach d (l ++ [(IWDG_KR IWDG, IWDG_KEY_RELOAD)]) g)) ->
  wp (soft <- is_soft_reset ;;
      (if negb (soft =? 0) then
         g <- get_ ;;
         if negb (check g =? 0) then
           call (udp_client_send (G := app_glob) (line "[BOOT]  START BOOT...")) ;;
           modify_ (set_check 0)
         else ret tt
       else ret tt) ;;
      refresh ;;
      delay_ 1) s Q.
Proof.
  intros Hi HQ. apply wp_bind, wp_is_soft_reset. intros d Hd _. clearbody d.
  assert (Hfin : forall d' l g, fl_view d' = fl_view (dev s) -> iwdg_Instance (hiwdg (b_app g)) = IWDG ->
    wp (refresh ;; delay_ 1) (Mach d' l g) Q).
  { intros d' l g Hd' Hi'. apply wp_bind, wp_refresh; [done|]. cbn [dev wlog glb]. intros d2 Hd2 _.
    apply wp_delay. cbn [dev wlog glb]. apply HQ.
    destruct (q_delay 1 d2) as [Hq _]; [lia|]. by rewrite Hq, Hd2. }
  apply wp_bind. destruct (negb _); [|by apply wp_ret, Hfin].
  apply wp_bind, wp_get. cbn [glb]. destruct (negb _); [|by apply wp_ret, Hfin].
  apply wp_bind, wp_call_send. intros d3 l3 [Hd3 _]. apply wp_modify, Hfin; cbn [dev glb] in *; [by rewrite Hd3|done].
Qed.

(** C31: a round of the primary thread always comes to its end and then has fed
    the watchdog; after a watchdog reset it has put the backup in place of the
    firmware, and otherwise it leaves the flash as it is. *)
Theorem thread_main_round_correct fuel s :
  (fl_lat < fuel)%nat -> app_ok (on_app s) round_time ->
  iwdg_Instance (hiwdg (b_app (glb s))) = IWDG ->
  let mem := f_mem (fl_view (dev s)) in
  wp (thread_main_round fuel) s (fun _ s' =>
    (if wdg_flag (dev s) then restored mem (f_mem (fl_view (dev s')))
     else f_mem (fl_view (dev s')) = mem) /\
    exists l, wlog s' = l ++ [(IWDG_KR IWDG, IWDG_KEY_RELOAD)]).
Proof.
  intros Hf (Hc & Hl & H32 & H0 & Hwrap) Hi mem. unfold round_time in Hwrap. cbn [on_app dev glb] in *.
  pose proof net_step_pos as Hnet. pose proof send_time_pos as Hsend. pose proof fl_step_pos as Hstep.
  unfold thread_main_round. apply wp_bind, wp_wdg_flag. intros d1 Hd1 Ht1.
  destruct (wdg_flag (dev s)); apply wp_bind.
  2: { apply wp_ret, round_end; [done|]. cbn [dev]. intros d l g Hd. cbn [dev wlog].
       split; [by rewrite Hd, Hd1|by exists l]. }
  clearbody d1. apply wp_bind, wp_refresh; [done|]. intros d2 Hd2 Ht2. cbn [dev wlog glb] in *.
  apply wp_bind, wp_call_send. cbn [dev glb]. intros d3 l3 [Hd3 Ht3].
  apply wp_bind, wp_delay. cbn [dev wlog glb].
  destruct (q_delay 500 d3) as [Hd4 Ht4]; [lia|]. set (d4 := os_delay 500 d3) in *.
  assert (fl_view d4 = fl_view (dev s)) as Hv4 by (by rewrite Hd4, Hd3, Hd2).
  unfold within in *. apply wp_zoom, wp_WDGbackup; cbn [dev glb]; [done| |done|].
  { split_and!; cbn [dev glb]; rewrite ?Hv4; try done; lia. }
  rewrite Hv4. fold mem. intros d5 l5 v g5 Hg5 Hm5. cbn [dev wlog glb].
  apply round_end; cbn [glb].
  { destruct Hg5 as (_ & _ & _ & Hh & _). cbn. by rewrite Hh. }
  intros d l g Hd. cbn [dev wlog] in *. split; [by rewrite Hd|by exists l].
Qed.
End boot.

(** * Witnesses *)

#[export] Instance board_kernel : Kernel board_bus := {|
  osKernelInitialize (h : @hw board_bus) := (0, h);
  osKernelStart (h : @hw board_bus) := (0, h);
  osTimerNew _ _ (h : @hw board_bus) := (1, h);
  osTimerStart _ _ (h : @hw board_bus) := (0, h);
|}.

Definition boot_start : boot_glob :=
  BootGlob app_start (CanGlob [] 0) (EeGlob 0 0 0 [] 0) 0 1 0 0 None None.
(** The board with its registers, and the flash of [mem]. *)
Definition boot_board (mem : Z -> Z) (regs : list (Z * Z)) : @mach board_bus boot_glob :=
  @Mach board_bus boot_glob (Board (FView 0x80000000 0 mem false) (CView 0 0 0 0) regs [] []) [] boot_start.
Definition with_firmware (a : Z) : Z :=
  if a =? IMAGE_ADDRESS then 0x20080000 else if a =? IMAGE_ADDRESS + 4 then 0x08041235 else ERASED.

Lemma boot_decision_correct_witness :
  wp_halt (boot_decision (B := board_bus)) (boot_board with_firmware []) (fun s' =>
    started (glb s') = Some 0x08041235) /\
  wp_halt (boot_decision (B := board_bus)) (boot_board (fun _ => ERASED) []) (fun s' =>
    started (glb s') = None) /\
  wp (boot_decision (B := board_bus)) (boot_board with_firmware [(RCC_CSR, 0x20000000)]) (fun _ s' =>
    wlog s' = []).
Proof.
  pose proof (fun s => boot_decision_correct (F := board_flash) s) as H. split_and!.
  - pose proof (H (boot_board with_firmware []) eq_refl eq_refl) as H1. clear H.
    revert H1. unfold wp_halt. vm_compute. intros (_ & H1 & _). exact H1.
  - pose proof (H (boot_board (fun _ => ERASED) []) eq_refl eq_refl) as H1. clear H.
    revert H1. unfold wp_halt. vm_compute. intros (_ & H1 & _). exact H1.
  - pose proof (H (boot_board with_firmware [(RCC_CSR, 0x20000000)]) eq_refl eq_refl) as H1. clear H.
    revert H1. unfold wp. vm_compute. intros (_ & _ & H1). exact H1.
Defined.

Lemma thread_main_round_correct_witness :
  wp (thread_main_round (B := board_bus) 1)
    (boot_board two_images [(RCC_CSR, 0x20000000)]) (fun _ s' =>
    f_mem (fl_view (dev s')) (USER_FLASH_FIRST_PAGE_ADDRESS + 0x400) = 0x1234).
Proof.
  eapply wp_mono.
  - apply (thread_main_round_correct (F := board_flash) (D := board_net) 1
      (boot_board two_images [(RCC_CSR, 0x20000000)])).
    + apply Nat.lt_0_1.
    + apply (on_board_ok two_images app_start); [apply two_images32|reflexivity|].
      split; [apply Z.leb_le|apply Z.ltb_lt]; vm_compute; reflexivity.
    + reflexivity.
  - intros u s' [H _]. destruct H as (H & _).
    assert (0 <= 256 < image_len two_images BACKUP_FLASH_FIRST_PAGE_ADDRESS) as Hi.
    { split; [lia|apply Z.ltb_lt; vm_compute; reflexivity]. }
    specialize (H 256 Hi). exact H.
Defined.
